(* ===== verification/_CoqProject ===== *)
-Q . S2P
Prelude.v
PyStr.v
Json.v
Encoding.v
PyTime.v
Regex.v
RegexGroups.v
Redaction.v
Crypto.v
CanonicalJson.v
AuditChain.v
AuditDigest.v
SubmissionModels.v
Receipts.v
Pipeline.v
SubmissionService.v
Billing.v
BillingWebhooks.v
AvScanner.v
ImportModels.v
SupplierImporter.v
ImportFiles.v
Imports.v
ImportDryRun.v
ImportCommit.v
PasswordPolicy.v
Lockout.v
Accounts.v
ImportApi.v
PdfPatterns.v
PdfExtractors.v
PdfTheorems.v
Extractions.v
AuditMiddleware.v
Csv.v
Sanctions.v
EvidenceExport.v
Pagination.v
NightlyDigests.v
Auth.v
EmailVerification.v
Onboarding.v
Idempotency.v
Operators.v
OperatorAuth.v
OperatorMfa.v
OperatorActAs.v
InboundModels.v
InboundEmail.v
ImapPoll.v
AuditExports.v
InboundWebhook.v
InboundApi.v
Http.v
BillingApi.v
Startup.v
Renewals.v
Mailer.v
BodySize.v
SmokeState.v
Notifier.v
Records.v
RecordSchemas.v
RecordServices.v
RecordSteps.v
RecordApi.v
RecordTheorems.v
KeyRotation.v
TenantDeletion.v
PortalHelpers.v
Submitters.v
SubmitterTheorems.v
VerifierKeys.v
VerifierGate.v
PublicReceipts.v
SubmissionApi.v
TenantApi.v
ReceiptVerifier.v
VerifierBackend.v
VerifierViews.v
