(* ===== verification/Prelude.v ===== *)
(** * A verification development for ONCE Procurement

    ONCE keeps an insurance supplier's data and submits it to carrier portals for
    its tenants.  This library models the backend (src/backend/app) and the public
    receipt verifier (src/verifier/app), both in Python, as functions and state
    transformers, and proves what makes them correct.  Paths in the comments are
    relative to src/backend/app, or to src when they start with verifier/ or
    backend/; a comment in front of a definition names the file and the symbol, or
    the lines, it translates.

    ** How the code is modelled

    - A function that computes is a function; strings are [String.string] with one
      [ascii] per character or byte, integers are [Z], times are microseconds,
      floats are [spec_float] with the operations of IEEE 754.
    - An endpoint or service call is an element of the monad [M S E A] below: it
      reads and writes a state of type [S] and returns a value or raises.  Raising
      keeps the writes; the request's transaction ([in_request], for [get_db])
      rolls them back, as db.py does.
    - A database is a [session]: the tables the session sees and the tables that
      are committed.  Tables are finite maps by primary key, or lists where the
      order or duplicates matter.  Concurrency is modelled where the code handles
      it: other sessions' commits are arguments at the points where they may
      happen, or the interleaving is an explicit list of steps.
    - Third-party code is an argument: SHA-256, Ed25519, bcrypt, PyJWT, pyotp,
      Stripe, clamd, Playwright's pages, PyMuPDF and pdfminer, the IMAP server and
      the parser of its messages, HTTP clients, the JSON parser, random sources,
      the clock.  What is relied on is a class ([Ed25519], [TokenLibrary],
      [TokenLaws], ...) with a concrete instance, or a hypothesis with one, so the
      theorems that use it have witnesses.
    - Recursion is structural; where it follows a loop with a bound, the fuel is
      computed from the input and a lemma shows that it is enough.

    ** The files

    - Prelude: the monad, sessions, invariants ([preserves], [both]), reachability
      ([star]), lists, sorting and strictly sorted lists.  PyStr, Json, Encoding,
      PyTime: Python's str, JSON values and floats, hexadecimal and base 64,
      datetimes.  Regex, RegexGroups: a matcher of regular expressions, and one
      with groups and Python's order of alternatives.  Csv: the csv module.
    - Redaction, Crypto, CanonicalJson, AuditChain, AuditDigest: utils/redaction,
      the signing keys, the canonical encoders, services/audit_logger and
      audit_chain (the append-only hash chain), audit_hash_service and
      audit_signer.  AuditMiddleware, NightlyDigests, AuditExports,
      EvidenceExport: the middleware that appends a row per request, the nightly
      task, api/v1/audit.py with the job that signs an export, and the evidence of
      a tenant with the program that bundles it.  Pagination: utils/pagination.
    - SubmissionModels, Receipts, Pipeline, SubmissionService, SubmissionApi: the
      submission tables, receipt_signer, submission_pipeline (claim, dispatch,
      retry, finalise), submission_service, and the endpoints with the Celery task
      and the queue between them.  PortalHelpers, Submitters, SubmitterTheorems:
      the portal automation behind the pipeline.  SmokeState, Notifier: the health
      of the portals, the alerts about them and their messages.
    - Billing, BillingWebhooks, BillingApi: billing_service, billing_webhooks, the
      Stripe client and api/v1/billing.py.
    - AvScanner, ImportModels, SupplierImporter, ImportFiles, Imports,
      ImportDryRun, ImportCommit, ImportApi: services/av_scanner, importers,
      parsers, import_service and its endpoints.
    - PdfPatterns, PdfExtractors, PdfTheorems, Extractions: the patterns and
      extractors of services/pdf_extraction, their theorems, and the service from
      the bytes of a document to the review of its fields.
    - Records, RecordSchemas, RecordServices, RecordSteps, RecordApi,
      RecordTheorems: the tables of a supplier's records, the schemas of requests,
      services and endpoints, an abstract step relation and the theorems.
      Renewals, Sanctions: the sweep over expiring certificates, and the screening
      of names.
    - PasswordPolicy, Lockout, Accounts, Auth, EmailVerification, Onboarding,
      TenantApi, TenantDeletion, Mailer: utils/security, account_lockout,
      auth_service, api/v1/auth, email_verification_service, onboarding_service,
      the tenant, portal, security and health endpoints,
      tenant_deletion_service, email_dispatcher.
    - Operators, OperatorAuth, OperatorMfa, OperatorActAs: the operator cockpit.
      KeyRotation, Startup: the rotation of signing keys, and the checks and the
      start of the process.
    - Http, BodySize, Idempotency: the middlewares, with tenant_scope and the order
      of the stack.
    - InboundModels, InboundEmail, InboundWebhook, InboundApi, ImapPoll: the
      inbound e-mail pipeline from the webhook or the mailbox to the drafted
      submission.
    - VerifierKeys, VerifierGate, PublicReceipts, ReceiptVerifier,
      VerifierBackend, VerifierViews: API keys of the verifier, its gate, the
      receipts and keys over HTTP, the verifier against the backend it fetches
      from, and its formats, badges and cards.

    A module whose name starts with Demo runs its file on concrete data; it holds
    the witnesses of the theorems, and examples of what the code does.

    ** What the theorems show

    - The audit chain: every reachable chain verifies, verification answers valid
      exactly for linked rows, two valid chains with one head agree in every field
      that is hashed unless they hold a collision of the hash, the
      middleware adds one linked row per request, an export that is ready
      verifies, and the pages of the evidence are the rows of the window.
    - Effects happen once: webhook events, deliveries of an e-mail, polls of a
      mailbox, requests with an idempotency key, claims of a submission, forms
      sent to a portal, refresh tokens, codes, nightly digests.
    - Refusals leave no trace: failed webhooks, unsigned events, deliveries
      without the secret, refused logins; and where the code deviates, the
      deviation is a lemma and a finding (wrong codes are never counted, recovery
      codes never log in, a transient failure of a portal is never retried, a message
      that cannot be read blocks the mailbox, an operator's request for a tenant
      that does not exist is not recorded).
    - Tenants are isolated: submissions, records, inbound e-mail, acting as a
      tenant; and a deleted tenant leaves no row and no reference to it.
    - Caps are kept: login attempts, codes per hour, verifier calls per month, rows
      of a page, bytes of a request, blocks of a message.
    - State machines: the endpoints move the wizard only forward, a submission ends after at most
      the allowed attempts, imports and extractions reach the state their data
      determine, the smoke tests refine a three-state machine.
    - Round trips: receipts, canonical JSON, cursors, CSV (of rows whose fields the
      reader accepts), datetimes, encodings.
    - Reference definitions: paged reading equals sorting, the endpoints refine an
      abstract step relation.
    - Escaping: the values a card shows add no markup to it.
    - Composition: a receipt signed by the backend is verified by the verifier and
      its badge says so, a registered user logs in, an onboarding that starts can
      be verified, a certificate is alerted every day until it is renewed.

    ** Bounds

    Fuel appears in [digits_of], [unescape], [first_address] and the regular
    expression engines, where it is the length of the input plus one and each step
    consumes a character or ends; in [cascade], where it is the number of rows; in
    [generate_recovery_codes], where as many different draws as codes are enough;
    and in the loops that read pages ([iter_pages], [fetch_pages], [walk]), where
    one more than the number of rows is enough.  Each has a lemma that says so.
    Widths: the columns of the database are not bounded unless a comment says so;
    Python's integers are unbounded.

    ** Not modelled

    The front end, the browser extension and their TypeScript; migrations, seed
    and developer scripts, performance tools, tests; logging, metrics and tracing;
    settings that only hold a value; routers and OpenAPI decoration; the Redis
    stores and the rate limiter of slowapi; the Celery tasks of imports and inbound
    mail, which nothing sends; the problem responses of utils/errors.py, whose
    handlers are not installed; the HTML page of the verifier, QR codes and PDF
    reports.  They are input, output or third-party code with no state of the
    program's own. *)

From Stdlib Require Export ZArith Lia ZifyBool.
From Stdlib Require Export Sorting.Sorted.
From stdpp Require Export base tactics option list gmap strings sets.

#[global] Set Default Goal Selector "!".
#[global] Open Scope Z_scope.

(** [lia] also decides goals with [/] and [mod] by literals. *)
Ltac Zify.zify_post_hook ::= Z.to_euclidean_division_equations.

Declare Scope once_scope.
Delimit Scope once_scope with once.
#[global] Open Scope once_scope.

(** ** Python calls as state transformers that may raise

    A call that reads and writes a state of type [S], returns a value of type
    [A] or raises an exception of type [E].  Raising does not undo the writes
    made so far: as in Python, only an explicit rollback does. *)

Inductive result (E A : Type) : Type :=
| Ok (a : A)
| Raise (e : E).
Arguments Ok {E A} a.
Arguments Raise {E A} e.

#[export] Instance result_eq_dec {E A} `{!EqDecision E, !EqDecision A} : EqDecision (result E A).
Proof. solve_decision. Defined.

Definition M (S E A : Type) : Type := S -> result E A * S.

Definition ret {S E A} (a : A) : M S E A := fun s => (Ok a, s).
Definition raise {S E A} (e : E) : M S E A := fun s => (Raise e, s).
Definition bind {S E A B} (m : M S E A) (k : A -> M S E B) : M S E B :=
  fun s => match m s with
           | (Ok a, s') => k a s'
           | (Raise e, s') => (Raise e, s')
           end.
Definition reads {S E A} (f : S -> A) : M S E A := fun s => (Ok (f s), s).
Definition modify {S E} (f : S -> S) : M S E unit := fun s => (Ok tt, f s).
(** [try: m  except Exception as e: h e] *)
Definition try_except {S E A} (m : M S E A) (h : E -> M S E A) : M S E A :=
  fun s => match m s with
           | (Ok a, s') => (Ok a, s')
           | (Raise e, s') => h e s'
           end.
(** [try: a = m  except Exception as e: return h e], then [k a]. *)
Definition try_else {S E A B} (m : M S E A) (h : E -> M S E B) (k : A -> M S E B) : M S E B :=
  fun s => match m s with
           | (Ok a, s') => k a s'
           | (Raise e, s') => h e s'
           end.
(** [if b: raise e] *)
Definition raise_if {S E} (b : bool) (e : E) : M S E unit :=
  if b then raise e else ret tt.
(** [x = ...; if x is None: raise e] *)
Definition or_raise {S E A} (o : option A) (e : E) : M S E A :=
  match o with Some a => ret a | None => raise e end.

Notation "'let*' p := m 'in' k" := (bind m (fun p => k))
  (at level 10, p pattern, m at level 200, k at level 200) : once_scope.
Notation "m ;;; k" := (bind m (fun _ => k))
  (at level 100, right associativity) : once_scope.

Definition value_of {E A S} (r : result E A * S) : option A :=
  match fst r with Ok a => Some a | Raise _ => None end.

(** Unfold the monad on a concrete state. *)
Ltac run_m :=
  unfold bind, ret, raise, reads, modify, try_except, raise_if, or_raise in *;
  cbn in *.

(** Case analysis on the scrutinee of the first match of the goal or of a
    hypothesis, keeping the equation. *)
Ltac case_scrut x := let E := fresh "Hc" in destruct x eqn:E.
Ltac case_goal :=
  match goal with
  | |- context [match ?x with _ => _ end] => case_scrut x
  end.
Ltac case_hyp H :=
  match type of H with
  | context [match ?x with _ => _ end] => case_scrut x
  end.

Lemma bind_Ok {S E A B} (m : M S E A) (k : A -> M S E B) s b s' :
  bind m k s = (Ok b, s') <-> exists a s1, m s = (Ok a, s1) /\ k a s1 = (Ok b, s').
Proof. unfold bind. destruct (m s) as [[a|e] s1]; naive_solver. Qed.

Lemma bind_run {S E A B} (m : M S E A) (k : A -> M S E B) s a s1 :
  m s = (Ok a, s1) -> bind m k s = k a s1.
Proof. unfold bind. by intros ->. Qed.

Lemma bind_Raise {S E A B} (m : M S E A) (k : A -> M S E B) s e s' :
  bind m k s = (Raise e, s') <->
  m s = (Raise e, s') \/ exists a s1, m s = (Ok a, s1) /\ k a s1 = (Raise e, s').
Proof. unfold bind. destruct (m s) as [[a|e'] s1]; naive_solver. Qed.

(** A call that never writes. *)
Definition readonly {S E A} (m : M S E A) : Prop := forall s, snd (m s) = s.

Lemma readonly_run {S E A} (m : M S E A) s r s' : readonly m -> m s = (r, s') -> s' = s.
Proof. intros Hm H. specialize (Hm s). by rewrite H in Hm. Qed.

Lemma readonly_bind {S E A B} (m : M S E A) (k : A -> M S E B) :
  readonly m -> (forall a, readonly (k a)) -> readonly (bind m k).
Proof.
  intros Hm Hk s. unfold bind. specialize (Hm s). destruct (m s) as [[a|e] s1]; cbn in *; subst; [|done].
  apply Hk.
Qed.

Lemma readonly_ret {S E A} (a : A) : readonly (S := S) (E := E) (ret a).
Proof. done. Qed.
Lemma readonly_raise {S E A} (e : E) : readonly (S := S) (A := A) (raise e).
Proof. done. Qed.
Lemma readonly_reads {S E A} (f : S -> A) : readonly (E := E) (reads f).
Proof. done. Qed.
Lemma readonly_raise_if {S E} b (e : E) : readonly (S := S) (raise_if b e).
Proof. by destruct b. Qed.
Lemma readonly_or_raise {S E A} (o : option A) (e : E) : readonly (S := S) (or_raise o e).
Proof. by destruct o. Qed.

Create HintDb readonly.
#[export] Hint Resolve readonly_bind readonly_ret readonly_raise readonly_reads readonly_raise_if
  readonly_or_raise : readonly.

Lemma raise_if_Ok {S E} (b : bool) (e : E) (s : S) u s' :
  raise_if b e s = (Ok u, s') <-> b = false /\ s' = s.
Proof. destruct u, b; cbn; unfold raise, ret; split; intuition congruence. Qed.

Lemma or_raise_Ok {S E A} (o : option A) (e : E) (s : S) a s' :
  or_raise o e s = (Ok a, s') <-> o = Some a /\ s' = s.
Proof. destruct o; cbn; unfold raise, ret; split; intuition congruence. Qed.

Lemma ret_Ok {S E A} (a b : A) (s : S) s' :
  ret (E := E) a s = (Ok b, s') <-> b = a /\ s' = s.
Proof. unfold ret; split; intuition congruence. Qed.

Lemma reads_Ok {S E A} (f : S -> A) (s : S) b s' :
  reads (E := E) f s = (Ok b, s') <-> b = f s /\ s' = s.
Proof. unfold reads; split; intuition congruence. Qed.

(** A call whose exceptions all satisfy [Q]. *)
Definition raises_only {S E A} (Q : E -> Prop) (m : M S E A) : Prop :=
  forall s e s', m s = (Raise e, s') -> Q e.

Section RaisesOnly.
Context {S E : Type} (Q : E -> Prop).

Lemma raises_bind {A B} (m : M S E A) (k : A -> M S E B) :
    raises_only Q m -> (forall a, raises_only Q (k a)) -> raises_only Q (bind m k).
Proof. intros Hm Hk s e s' [H|(a & s1 & _ & H)]%bind_Raise; [by eapply Hm|by eapply Hk]. Qed.
Lemma raises_ret {A} (a : A) : raises_only Q (ret (S := S) a).
Proof. done. Qed.
Lemma raises_reads {A} (f : S -> A) : raises_only Q (reads f).
Proof. done. Qed.
Lemma raises_raise {A} e : Q e -> raises_only Q (raise (S := S) (A := A) e).
Proof. by intros H s e' s' [= <- _]. Qed.
Lemma raises_raise_if b e : Q e -> raises_only Q (raise_if (S := S) b e).
Proof. destruct b; [apply raises_raise|intros _; apply raises_ret]. Qed.
Lemma raises_or_raise {A} (o : option A) e : Q e -> raises_only Q (or_raise (S := S) o e).
Proof. destruct o; [intros _; apply raises_ret|apply raises_raise]. Qed.
End RaisesOnly.

Create HintDb raises.
#[export] Hint Resolve raises_bind raises_ret raises_reads raises_raise raises_raise_if raises_or_raise : raises.

(** Take a successful run apart into the runs of its steps. *)
Ltac inv_run H :=
  repeat match type of H with
  | bind _ _ _ = (Ok _, _) =>
      let a := fresh "a" in let s := fresh "s" in let H1 := fresh "Hrun" in
      apply bind_Ok in H as (a & s & H1 & H);
      first [ apply raise_if_Ok in H1 as [? ->] | apply or_raise_Ok in H1 as [? ->]
            | apply ret_Ok in H1 as [-> ->] | apply reads_Ok in H1 as [-> ->] | idtac ]
  | ret _ _ = (Ok _, _) => apply ret_Ok in H as [? ?]
  end; subst.

(** ** Invariants of state transformers *)

Definition preserves {S E A} (P : S -> Prop) (m : M S E A) : Prop :=
  forall s, P s -> P (snd (m s)).

Create HintDb preserve.

Section Preserves.
Context {S E : Type} (P : S -> Prop).

Lemma preserves_ret {A} (a : A) : preserves P (ret (E := E) a).
Proof. intros s Hs; exact Hs. Qed.

Lemma preserves_raise {A} (e : E) : preserves P (raise (A := A) e).
Proof. intros s Hs; exact Hs. Qed.

Lemma preserves_reads {A} (f : S -> A) : preserves P (reads (E := E) f).
Proof. intros s Hs; exact Hs. Qed.

Lemma preserves_modify (f : S -> S) :
    (forall s, P s -> P (f s)) -> preserves P (modify (E := E) f).
Proof. intros Hf s Hs; exact (Hf s Hs). Qed.

Lemma preserves_bind {A B} (m : M S E A) (k : A -> M S E B) :
    preserves P m -> (forall a, preserves P (k a)) -> preserves P (bind m k).
Proof.
    intros Hm Hk s Hs. unfold bind.
    specialize (Hm s Hs). destruct (m s) as [[a|e] s']; cbn in *.
    - by apply Hk.
    - done.
Qed.

Lemma preserves_try_except {A} (m : M S E A) (h : E -> M S E A) :
    preserves P m -> (forall e, preserves P (h e)) -> preserves P (try_except m h).
Proof.
    intros Hm Hh s Hs. unfold try_except.
    specialize (Hm s Hs). destruct (m s) as [[a|e] s']; cbn in *.
    - done.
    - by apply Hh.
Qed.

Lemma preserves_raise_if (b : bool) (e : E) : preserves P (raise_if b e).
Proof. destruct b; [apply preserves_raise | apply preserves_ret]. Qed.

Lemma preserves_or_raise {A} (o : option A) (e : E) : preserves P (or_raise o e).
Proof. destruct o; [apply preserves_ret | apply preserves_raise]. Qed.
End Preserves.

#[export] Hint Resolve preserves_ret preserves_raise preserves_reads
  preserves_bind preserves_try_except preserves_raise_if preserves_or_raise : preserve.

(** ** Reachability: the states a system gets to by its steps *)

Inductive star {S : Type} (R : S -> S -> Prop) : S -> S -> Prop :=
| star_refl s : star R s s
| star_step s t u : R s t -> star R t u -> star R s u.

Lemma star_invariant {S} (R : S -> S -> Prop) (P : S -> Prop) :
  (forall s t, R s t -> P s -> P t) -> forall s t, star R s t -> P s -> P t.
Proof. intros Hstep s t Hst. induction Hst; eauto. Qed.

Lemma star_snoc {S} (R : S -> S -> Prop) s t u : star R s t -> R t u -> star R s u.
Proof. intros Hst Htu. induction Hst; econstructor; eauto using star_refl. Qed.

(** ** The database session

    [working] is what the session's own queries see (after [flush]),
    [committed] what any other session sees. *)

Record session (DB : Type) : Type := Session { working : DB; committed : DB }.
Arguments Session {DB} working committed.
Arguments working {DB} s.
Arguments committed {DB} s.

Definition commit {DB E} : M (session DB) E unit :=
  modify (fun s => Session (working s) (working s)).
Definition rollback {DB E} : M (session DB) E unit :=
  modify (fun s => Session (committed s) (committed s)).
Definition query {DB E A} (f : DB -> A) : M (session DB) E A :=
  reads (fun s => f (working s)).
Definition write {DB E} (f : DB -> DB) : M (session DB) E unit :=
  modify (fun s => Session (f (working s)) (committed s)).

(** db.py, [get_db]: the transaction of one request: committed when the endpoint
    returns, rolled back when it raises. *)
Definition in_request {DB E A} (m : M (session DB) E A) : M (session DB) E A :=
  fun s => match m s with
           | (Ok a, s') => (Ok a, snd (commit (E := E) s'))
           | (Raise e, s') => (Raise e, snd (rollback (E := E) s'))
           end.

(** A property of the tables that holds of what the session sees and of what is
    committed. *)
Definition both {DB} (P : DB -> Prop) (s : session DB) : Prop := P (working s) /\ P (committed s).

Section Both.
Context {DB E : Type} (P : DB -> Prop).

Lemma preserves_write (f : DB -> DB) :
    (forall db, P db -> P (f db)) -> preserves (both P) (write (E := E) f).
Proof. intros Hf s [Hw Hc]. split; cbn; auto. Qed.

Lemma preserves_query {A} (f : DB -> A) : preserves (both P) (query (E := E) f).
Proof. intros s Hs; exact Hs. Qed.

Lemma preserves_rollback : preserves (both P) (rollback (E := E)).
Proof. intros s [Hw Hc]. by split. Qed.

Lemma preserves_commit : preserves (both P) (commit (E := E)).
Proof. intros s [Hw Hc]. by split. Qed.

Lemma preserves_in_request {A} (m : M (session DB) E A) : preserves (both P) m -> preserves (both P) (in_request m).
Proof. intros Hm s Hs. specialize (Hm s Hs). unfold in_request. destruct (m s) as [[a|e] s'], Hm; by split. Qed.
End Both.

(** Without a commit, what is committed stays. *)
Definition committed_is {DB} (db : DB) (s : session DB) : Prop := committed s = db.

Lemma committed_is_write {DB E} (db : DB) (f : DB -> DB) : preserves (committed_is db) (write (E := E) f).
Proof. intros s Hs; exact Hs. Qed.
Lemma committed_is_query {DB E A} (db : DB) (f : DB -> A) : preserves (committed_is db) (query (E := E) f).
Proof. intros s Hs; exact Hs. Qed.
Lemma committed_is_rollback {DB E} (db : DB) : preserves (committed_is db) (rollback (E := E)).
Proof. intros s Hs; exact Hs. Qed.

Lemma preserves_readonly {S E A} (P : S -> Prop) (m : M S E A) : readonly m -> preserves P m.
Proof. intros Hm s Hs. by rewrite Hm. Qed.

#[export] Hint Resolve committed_is_write committed_is_query committed_is_rollback : preserve.
#[export] Hint Resolve preserves_query preserves_rollback preserves_commit preserves_in_request : preserve.

(** ** Options and truth values *)

Definition is_someb {A} (o : option A) : bool := match o with Some _ => true | None => false end.

(** Python's [a or b] on an optional value whose [Some] is truthy. *)
Definition or_else {A} (a b : option A) : option A := match a with Some _ => a | None => b end.

Lemma or_else_None {A} (a b : option A) : or_else a b = None <-> a = None /\ b = None.
Proof. destruct a; cbn; naive_solver. Qed.

(** ** Lists *)

Fixpoint find_first {A} (f : A -> bool) (l : list A) : option A :=
  match l with
  | [] => None
  | x :: r => if f x then Some x else find_first f r
  end.

Lemma find_first_Some {A} (f : A -> bool) l x :
  find_first f l = Some x -> In x l /\ f x = true.
Proof.
  induction l as [|y l IH]; cbn; [done|].
  destruct (f y) eqn:Hy; intros H.
  - injection H as <-. auto.
  - destruct (IH H); auto.
Qed.

(** The first answer of [f] on the elements of [l]. *)
Fixpoint first_some {A B} (f : A -> option B) (l : list A) : option B :=
  match l with [] => None | x :: r => or_else (f x) (first_some f r) end.

Lemma first_some_Some {A B} (f : A -> option B) l y : first_some f l = Some y -> exists x, In x l /\ f x = Some y.
Proof.
  induction l as [|x l IH]; cbn; [done|]. destruct (f x) eqn:Hx; cbn; [intros [= ->]; eauto|].
  intros (z & Hz & Hf)%IH. eauto.
Qed.

Lemma find_first_None {A} (f : A -> bool) l :
  find_first f l = None <-> forall x, In x l -> f x = false.
Proof.
  induction l as [|y l IH]; cbn; [naive_solver|].
  destruct (f y) eqn:Hy; split; intros H; [done| |naive_solver|].
  - rewrite (H y) in Hy by auto. done.
  - apply IH. naive_solver.
Qed.

Lemma filter_id_In {A} (f : A -> bool) (l : list A) :
  (forall x, In x l -> f x = true) -> List.filter f l = l.
Proof.
  induction l as [|x l IH]; cbn; intros H; [done|].
  rewrite H by auto. f_equal. apply IH. auto.
Qed.

Lemma NoDup_map_filter {A B} (f : A -> bool) (key : A -> B) l : NoDup (map key l) -> NoDup (map key (List.filter f l)).
Proof.
  induction l as [|x l IH]; [done|]. cbn. intros [Hx Hl]%NoDup_cons. destruct (f x); [|by apply IH].
  cbn. apply NoDup_cons. split; [|by apply IH]. rewrite list_elem_of_In, in_map_iff in *. intros (y & Hy & Hin%filter_In).
  destruct Hx. exists y. naive_solver.
Qed.

Lemma filter_none {A} (f : A -> bool) (l : list A) :
  (forall x, In x l -> f x = false) -> List.filter f l = [].
Proof.
  induction l as [|x l IH]; cbn; intros H; [done|].
  rewrite H by auto. apply IH. auto.
Qed.

(** Rows that a test leaves out may change or go. *)
Lemma filter_map_filter_id {A} (p q : A -> bool) (f : A -> A) l :
  (forall x, In x l -> p (f x) = p x /\ (p x = true -> q x = true /\ f x = x)) ->
  List.filter p (map f (List.filter q l)) = List.filter p l.
Proof.
  induction l as [|x l IH]; intros H; cbn; [done|]. destruct (H x) as [Hp Hf]; [by left|].
  specialize (IH (fun y Hy => H y (or_intror Hy))). destruct (p x) eqn:Hpx.
  - destruct (Hf eq_refl) as [Hq Hfx]. rewrite Hq. cbn. rewrite Hfx, Hpx. by f_equal.
  - destruct (q x); cbn; [by rewrite Hp|done].
Qed.

Lemma filter_map_id {A} (p : A -> bool) (f : A -> A) l :
  (forall x, In x l -> p (f x) = p x /\ (p x = true -> f x = x)) -> List.filter p (map f l) = List.filter p l.
Proof.
  intros H. rewrite <- (filter_map_filter_id p (fun _ => true) f l) by (intros x Hx; split; [apply H|split; [|apply H]]; done).
  by rewrite (filter_id_In (fun _ => true)).
Qed.

(** [select(T).where(p).scalar_one_or_none()] of a table by primary key, where a
    unique column makes the row the only one. *)
Definition find_row {A} (p : A -> bool) (m : gmap string A) : option A :=
  find_first p (map snd (map_to_list m)).

Lemma find_row_Some {A} (p : A -> bool) (m : gmap string A) x :
  find_row p m = Some x -> exists k, m !! k = Some x /\ p x = true.
Proof.
  intros (Hin & Hp)%find_first_Some. apply in_map_iff in Hin as ([k x'] & <- & Hin).
  exists k. split; [by apply elem_of_map_to_list, list_elem_of_In|done].
Qed.

Lemma find_row_None {A} (p : A -> bool) (m : gmap string A) k x :
  find_row p m = None -> m !! k = Some x -> p x = false.
Proof.
  intros H Hx. unfold find_row in H. rewrite find_first_None in H. apply H, in_map_iff. exists (k, x).
  split; [done|]. by apply list_elem_of_In, elem_of_map_to_list.
Qed.

Lemma find_row_unique {A} (p : A -> bool) (m : gmap string A) k x :
  m !! k = Some x -> p x = true -> (forall k' x', m !! k' = Some x' -> p x' = true -> k' = k) ->
  find_row p m = Some x.
Proof.
  intros Hx Hp Huniq. destruct (find_row p m) as [y|] eqn:Hf.
  - apply find_row_Some in Hf as (k' & Hy & Hpy). rewrite (Huniq k' y Hy Hpy) in Hy. congruence.
  - rewrite (find_row_None p m k x Hf Hx) in Hp. done.
Qed.

(** [sum(f x for x in l)] *)
Definition sum_list_with_Z {A} (f : A -> Z) (l : list A) : Z := foldr (fun x acc => f x + acc) 0 l.

Lemma sum_list_with_Z_app {A} (f : A -> Z) l k :
  sum_list_with_Z f (l ++ k) = sum_list_with_Z f l + sum_list_with_Z f k.
Proof. unfold sum_list_with_Z. induction l; cbn in *; lia. Qed.

(** Consecutive pages of [l] rows put together are a prefix of the rows. *)
Lemma concat_pages {A} (l n : nat) (rows : list A) :
  concat (map (fun k => take l (drop (k * l) rows)) (seq 0 n)) = take (n * l) rows.
Proof.
  assert (Hshift : forall m, concat (map (fun k => take l (drop (k * l) rows)) (seq m n)) =
            take (n * l) (drop (m * l) rows)); [|by rewrite Hshift].
  induction n as [|n IH]; intros m; [done|]. cbn [seq map concat]. rewrite IH.
  replace (S m * l)%nat with (m * l + l)%nat by lia. rewrite <- drop_drop.
  replace (S n * l)%nat with (l + n * l)%nat by lia. by rewrite take_take_drop.
Qed.

(** ** [ORDER BY] and [sorted]: a stable sort *)

Lemma StronglySorted_impl {A} (R R' : A -> A -> Prop) l :
  (forall x y, R x y -> R' x y) -> StronglySorted R l -> StronglySorted R' l.
Proof. intros Hi. induction 1; constructor; eauto using List.Forall_impl. Qed.

Section Isort.
Context {A : Type} (le : A -> A -> bool).

Fixpoint insert_le (x : A) (l : list A) : list A :=
    match l with
    | [] => [x]
    | y :: r => if le x y then x :: l else y :: insert_le x r
    end.

Definition isort (l : list A) : list A := foldr insert_le [] l.

Lemma isort_cons x l : isort (x :: l) = insert_le x (isort l).
Proof. done. Qed.

Lemma insert_le_perm x l : Permutation (insert_le x l) (x :: l).
Proof.
    induction l as [|y l IH]; cbn; [done|]. destruct (le x y); [done|].
    rewrite IH. apply perm_swap.
Qed.

Lemma isort_perm l : Permutation (isort l) l.
Proof. induction l as [|x l IH]; [done|]. by rewrite isort_cons, insert_le_perm, IH. Qed.

Lemma isort_In x l : In x (isort l) <-> In x l.
Proof. split; apply Permutation_in; [|symmetry]; apply isort_perm. Qed.

(** Sorting by a total preorder. *)
Context (le_total : forall x y, le x y = true \/ le y x = true) (le_trans : forall x y z, le x y = true -> le y z = true -> le x z = true).

Lemma insert_le_Sorted x l : StronglySorted (fun a b => le a b = true) l -> StronglySorted (fun a b => le a b = true) (insert_le x l).
Proof.
    induction 1 as [|y l Hs IH Hall]; cbn; [repeat constructor|]. destruct (le x y) eqn:Hxy.
    - constructor; [by constructor|]. constructor; [done|]. eapply List.Forall_impl; [|exact Hall]. cbn. eauto.
    - constructor; [done|]. apply List.Forall_forall. intros z Hz.
      apply (Permutation_in _ (insert_le_perm x l)) in Hz as [<-|Hz]; [by destruct (le_total x y); [congruence|]|].
      rewrite List.Forall_forall in Hall. by apply Hall.
Qed.

Lemma isort_Sorted l : StronglySorted (fun a b => le a b = true) (isort l).
Proof. induction l as [|x l IH]; [constructor|]. rewrite isort_cons. by apply insert_le_Sorted. Qed.

(** The strict order under [le]. *)
Definition strictly (x y : A) : Prop := le y x = false.

#[export] Instance strictly_order : StrictOrder strictly.
Proof.
    split; unfold strictly.
    - intros x Hx. destruct (le_total x x); congruence.
    - intros x y z Hxy Hyz. destruct (le z x) eqn:Hzx; [|done]. destruct (le_total x y) as [Hle|?]; [|congruence].
      by rewrite (le_trans z x y) in Hyz.
Qed.

(** Items with different names, sorted by an order in which only items of one name are
    equivalent, are strictly sorted. *)
Lemma isort_strict {B} (name : A -> B) l : (forall x y, le x y = true -> le y x = true -> name x = name y) ->
  NoDup (map name l) -> StronglySorted strictly (isort l).
Proof.
    intros Hanti Hnd. assert (Hnd' : NoDup (map name (isort l))) by (by rewrite (Permutation_map name (isort_perm l))).
    pose proof (isort_Sorted l) as Hs. induction Hs as [|x l' Hs IH Hall]; [constructor|]. apply NoDup_cons in Hnd' as [Hx Hnd'].
    constructor; [by apply IH|]. apply List.Forall_forall. intros y Hy. rewrite List.Forall_forall in Hall. specialize (Hall y Hy).
    unfold strictly. destruct (le y x) eqn:Hyx; [|done]. destruct Hx. rewrite (Hanti x y Hall Hyx), list_elem_of_In. by apply in_map.
Qed.
End Isort.

(** ** Strictly sorted lists *)

Section StrictlySorted.
Context {A : Type} (R : A -> A -> Prop) `{!StrictOrder R}.

Lemma strict_NoDup l : StronglySorted R l -> NoDup l.
Proof.
    induction 1 as [|x l Hs IH Hall]; [constructor|]. apply NoDup_cons. split; [|done]. rewrite list_elem_of_In.
    intros Hx. rewrite List.Forall_forall in Hall. by apply (irreflexivity R x), Hall.
Qed.

(** Strictly sorted lists of the same items are equal. *)
Lemma strict_unique l1 : forall l2, StronglySorted R l1 -> StronglySorted R l2 -> (forall r, In r l1 <-> In r l2) -> l1 = l2.
Proof.
    induction l1 as [|x l1 IH]; intros l2 H1 H2 Hiff.
    { destruct l2 as [|y l2]; [done|]. destruct (proj2 (Hiff y) (or_introl eq_refl)). }
    destruct l2 as [|y l2]; [destruct (proj1 (Hiff x) (or_introl eq_refl))|].
    inversion H1 as [|? ? Hs1 Ha1]; subst. inversion H2 as [|? ? Hs2 Ha2]; subst. rewrite List.Forall_forall in Ha1, Ha2.
    assert (x = y) as <-.
    { destruct (proj1 (Hiff x) (or_introl eq_refl)) as [|Hx]; [done|]. destruct (proj2 (Hiff y) (or_introl eq_refl)) as [|Hy]; [done|].
      destruct (irreflexivity R x). transitivity y; [by apply Ha1|by apply Ha2]. }
    f_equal. apply IH; [done|done|]. intros r. split; intros Hr.
    - destruct (proj1 (Hiff r) (or_intror Hr)) as [<-|]; [|done]. by destruct (irreflexivity R x (Ha1 x Hr)).
    - destruct (proj2 (Hiff r) (or_intror Hr)) as [<-|]; [|done]. by destruct (irreflexivity R x (Ha2 x Hr)).
Qed.
End StrictlySorted.

Section SortedApp.
Context {A : Type} (R : A -> A -> Prop).

Lemma sorted_app_inv l1 l2 : StronglySorted R (l1 ++ l2) ->
  StronglySorted R l1 /\ StronglySorted R l2 /\ forall x y, In x l1 -> In y l2 -> R x y.
Proof.
    induction l1 as [|z l1 IH]; cbn; [intros H; split_and!; [constructor|done|done]|].
    inversion 1 as [|? ? Hs Hall]; subst. destruct (IH Hs) as (H1 & H2 & H3). rewrite List.Forall_forall in Hall.
    split_and!; [|done|].
    - constructor; [done|]. apply List.Forall_forall. intros x Hx. apply Hall, in_app_iff. by left.
    - intros x y [<-|Hx] Hy; [apply Hall, in_app_iff; by right|by apply H3].
Qed.

Lemma app_sorted l1 l2 : StronglySorted R l1 -> StronglySorted R l2 ->
  (forall x y, In x l1 -> In y l2 -> R x y) -> StronglySorted R (l1 ++ l2).
Proof.
    induction 1 as [|z l1 Hs IH Hall]; cbn; [done|]. intros H2 H3. constructor; [by apply IH; auto with datatypes|].
    apply Forall_app. split; [done|]. apply List.Forall_forall. intros y Hy. apply H3; [by left|done].
Qed.

Lemma last_In (l : list A) x : last l = Some x -> In x l.
Proof. rewrite last_Some. intros [l' ->]. apply in_app_iff. right. by left. Qed.

Lemma sorted_last l x y : StronglySorted R l -> last l = Some x -> In y l -> y = x \/ R y x.
Proof.
    rewrite last_Some. intros Hs [l' ->]. apply sorted_app_inv in Hs as (_ & _ & H). intros [Hy|[->|[]]]%in_app_iff; [|by left].
    right. apply H; [done|by left].
Qed.
End SortedApp.

(** [ORDER BY key ASC] *)
Definition sort_by {A} (key : A -> Z) : list A -> list A := isort (fun x y => key x <=? key y).

Section SortBy.
Context {A : Type} (key : A -> Z).

Lemma sort_by_perm l : Permutation (sort_by key l) l.
Proof. apply isort_perm. Qed.

Lemma sort_by_In x l : In x (sort_by key l) <-> In x l.
Proof. apply isort_In. Qed.

Lemma sort_by_Sorted l : StronglySorted (fun a b => key a <= key b) (sort_by key l).
Proof.
    eapply StronglySorted_impl; [|apply isort_Sorted]; cbn; intros; lia.
Qed.

Lemma sort_by_id l : StronglySorted (fun a b => key a <= key b) l -> sort_by key l = l.
Proof.
    unfold sort_by. induction 1 as [|x l Hs IH Hall]; [done|]. rewrite isort_cons, IH.
    destruct l as [|y l]; cbn; [done|]. inversion Hall; subst.
    by destruct (Z.leb_spec (key x) (key y)); [|lia].
Qed.

Lemma head_sort_by x l :
    head (sort_by key l) = Some x -> In x l /\ forall y, In y l -> key x <= key y.
Proof.
    intros H. destruct (sort_by key l) as [|z r] eqn:Hs; cbn in H; [done|]. injection H as ->.
    pose proof (sort_by_Sorted l) as Hsorted. rewrite Hs in Hsorted.
    inversion Hsorted as [|? ? _ Hall]; subst. split.
    - apply sort_by_In. rewrite Hs. by left.
    - intros y Hy. apply sort_by_In in Hy. rewrite Hs in Hy. destruct Hy as [->|Hy]; [lia|].
      rewrite List.Forall_forall in Hall. by apply Hall.
Qed.

Lemma head_sort_by_None l : head (sort_by key l) = None <-> l = [].
Proof.
    split; [|by intros ->]. intros H. pose proof (sort_by_perm l) as Hp.
    destruct (sort_by key l); [|done]. by apply Permutation_nil in Hp.
Qed.
End SortBy.
