(* ===== verification/PyStr.v ===== *)
(** * Python [str] operations

    A Python [str] whose characters are ASCII, as a Rocq [string].  These are
    the methods of the language's standard library that the modelled code
    calls; each [Definition] computes what the method returns on ASCII text. *)

From Stdlib Require Import Ascii.
From S2P Require Import Prelude.

#[global] Arguments String.append !s1 s2 / : simpl nomatch.

Definition ord (c : ascii) : Z := Z.of_nat (nat_of_ascii c).
Definition chr (n : Z) : ascii := ascii_of_nat (Z.to_nat n).

Definition in_range (lo hi : Z) (c : ascii) : bool := (lo <=? ord c) && (ord c <=? hi).

Definition is_upper (c : ascii) : bool := in_range 65 90 c.
Definition is_lower (c : ascii) : bool := in_range 97 122 c.
Definition is_digit (c : ascii) : bool := in_range 48 57 c.
Definition is_alpha (c : ascii) : bool := is_upper c || is_lower c.
Definition is_alnum (c : ascii) : bool := is_alpha c || is_digit c.
(** [str.isspace]: tab, newline, vertical tab, form feed, carriage return,
    the four separators 0x1c-0x1f and the space. *)
Definition is_space (c : ascii) : bool :=
  in_range 9 13 c || in_range 28 31 c || (ord c =? 32).

Definition lower_char (c : ascii) : ascii := if is_upper c then chr (ord c + 32) else c.
Definition upper_char (c : ascii) : ascii := if is_lower c then chr (ord c - 32) else c.

Fixpoint smap (f : ascii -> ascii) (s : string) : string :=
  match s with
  | EmptyString => EmptyString
  | String c r => String (f c) (smap f r)
  end.

Definition lower : string -> string := smap lower_char.
Definition upper : string -> string := smap upper_char.

Fixpoint sfilter (f : ascii -> bool) (s : string) : string :=
  match s with
  | EmptyString => EmptyString
  | String c r => if f c then String c (sfilter f r) else sfilter f r
  end.

Fixpoint sall (f : ascii -> bool) (s : string) : bool :=
  match s with
  | EmptyString => true
  | String c r => f c && sall f r
  end.

Fixpoint sany (f : ascii -> bool) (s : string) : bool :=
  match s with
  | EmptyString => false
  | String c r => f c || sany f r
  end.

(** [len(s)] *)
Definition slen (s : string) : Z := Z.of_nat (String.length s).

(** [s[:n]] and [s[n:]] for [n >= 0]. *)
Fixpoint stake (n : nat) (s : string) : string :=
  match n, s with
  | S k, String c r => String c (stake k r)
  | _, _ => EmptyString
  end.
Fixpoint sdrop (n : nat) (s : string) : string :=
  match n, s with
  | S k, String _ r => sdrop k r
  | _, _ => s
  end.

(** [s.lstrip()] and the like, for a set of characters given by [f]. *)
Fixpoint lstrip_by (f : ascii -> bool) (s : string) : string :=
  match s with
  | EmptyString => EmptyString
  | String c r => if f c then lstrip_by f r else s
  end.
Fixpoint rstrip_by (f : ascii -> bool) (s : string) : string :=
  match s with
  | EmptyString => EmptyString
  | String c r =>
      match rstrip_by f r with
      | EmptyString => if f c then EmptyString else String c EmptyString
      | r' => String c r'
      end
  end.
Definition strip_by (f : ascii -> bool) (s : string) : string := rstrip_by f (lstrip_by f s).
Definition strip : string -> string := strip_by is_space.

(** Python's truth value of a string. *)
Definition truthy (s : string) : bool := negb (String.eqb s "").
(** The text if there is one and it is not empty. *)
Definition opt_truthy (o : option string) : option string :=
  match o with Some s => if truthy s then Some s else None | None => None end.
(** [s or d] *)
Definition sor (s d : string) : string := if truthy s then s else d.

(** [s in l] *)
Definition mem (s : string) (l : list string) : bool := existsb (String.eqb s) l.
#[global] Arguments mem : simpl never.

(** [needle in s] *)
Fixpoint contains (needle s : string) : bool :=
  String.prefix needle s ||
  match s with
  | EmptyString => false
  | String _ r => contains needle r
  end.
Definition contains_char (c : ascii) : string -> bool := sany (Ascii.eqb c).

Definition startswith (p s : string) : bool := String.prefix p s.
Definition endswith (p s : string) : bool :=
  (String.length p <=? String.length s)%nat &&
  String.eqb (sdrop (String.length s - String.length p) s) p.

(** [s.replace(c, t)] for a one-character [c]. *)
Fixpoint replace_char (c : ascii) (t s : string) : string :=
  match s with
  | EmptyString => EmptyString
  | String d r => if Ascii.eqb c d then t +:+ replace_char c t r
                  else String d (replace_char c t r)
  end.

(** [s.partition(sep)] for a one-character [sep]: the text before the first
    [sep], whether there is one, and the text after it. *)
Fixpoint partition_char (sep : ascii) (s : string) : string * bool * string :=
  match s with
  | EmptyString => (EmptyString, false, EmptyString)
  | String c r =>
      if Ascii.eqb sep c then (EmptyString, true, r)
      else let '(a, b, z) := partition_char sep r in (String c a, b, z)
  end.

(** [s.split(sep)] for a one-character [sep]. *)
Fixpoint split_char (sep : ascii) (s : string) : list string :=
  match s with
  | EmptyString => [EmptyString]
  | String c r =>
      if Ascii.eqb sep c then EmptyString :: split_char sep r
      else match split_char sep r with
           | [] => [String c EmptyString]
           | w :: ws => String c w :: ws
           end
  end.

(** [s.rsplit(sep, 1)[-1]]: the text after the last [sep], or [s]. *)
Definition after_last (sep : ascii) (s : string) : string := List.last (split_char sep s) EmptyString.

(** [s.split()]: the maximal runs of non-space characters.  [w] is the word
    being read, in reverse. *)
Fixpoint split_ws_from (w s : string) : list string :=
  match s with
  | EmptyString => if truthy w then [String.rev w] else []
  | String c r =>
      if is_space c
      then (if truthy w then String.rev w :: split_ws_from EmptyString r else split_ws_from EmptyString r)
      else split_ws_from (String c w) r
  end.
Definition split_ws : string -> list string := split_ws_from EmptyString.

(** [sep.join(ws)] *)
Fixpoint join (sep : string) (ws : list string) : string :=
  match ws with
  | [] => EmptyString
  | [w] => w
  | w :: r => w +:+ sep +:+ join sep r
  end.

(** Decimal digits of a natural number, [str(n)] and [str(z)]. *)
Fixpoint digits_of (fuel : nat) (n : Z) (acc : string) : string :=
  match fuel with
  | O => acc
  | S k =>
      let acc' := String (chr (48 + n mod 10)) acc in
      if n <? 10 then acc' else digits_of k (n / 10) acc'
  end.
Definition str_of_Z (z : Z) : string :=
  if z <? 0 then String "-" (digits_of (S (Z.to_nat (Z.log2 (- z)))) (- z) EmptyString)
  else digits_of (S (Z.to_nat (Z.log2 z))) z EmptyString.

(** ** Lemmas *)

Create HintDb pystr.
Create Rewrite HintDb pystr.

Lemma ord_range c : 0 <= ord c < 256.
Proof. unfold ord. pose proof (nat_ascii_bounded c). lia. Qed.

Lemma chr_ord c : chr (ord c) = c.
Proof. unfold chr, ord. rewrite Nat2Z.id. apply ascii_nat_embedding. Qed.

Lemma ord_chr n : 0 <= n < 256 -> ord (chr n) = n.
Proof. intros H. unfold chr, ord. rewrite nat_ascii_embedding; lia. Qed.

Lemma ord_inj c d : ord c = ord d -> c = d.
Proof. intros H. rewrite <- (chr_ord c), <- (chr_ord d). by f_equal. Qed.

Lemma in_range_spec lo hi c : in_range lo hi c = true <-> lo <= ord c <= hi.
Proof. unfold in_range. rewrite andb_true_iff, !Z.leb_le. done. Qed.

Lemma lower_char_idemp c : lower_char (lower_char c) = lower_char c.
Proof.
  unfold lower_char at 2 3. destruct (is_upper c) eqn:Hu.
  - unfold lower_char. destruct (is_upper (chr (ord c + 32))) eqn:Hu'; [|done].
    unfold is_upper in *. rewrite in_range_spec in *. rewrite ord_chr in Hu' by lia. lia.
  - unfold lower_char. by rewrite Hu.
Qed.

Lemma smap_smap f g s : smap f (smap g s) = smap (fun c => f (g c)) s.
Proof. induction s as [|c s IH]; cbn; [done|]. by rewrite IH. Qed.

Lemma smap_ext f g s : (forall c, f c = g c) -> smap f s = smap g s.
Proof. intros H. induction s; cbn; congruence. Qed.

Lemma lower_idemp s : lower (lower s) = lower s.
Proof. unfold lower. rewrite smap_smap. apply smap_ext, lower_char_idemp. Qed.

Lemma sfilter_idemp f s : sfilter f (sfilter f s) = sfilter f s.
Proof. induction s as [|c s IH]; cbn; [done|]. destruct (f c) eqn:Hc; cbn; rewrite ?Hc; congruence. Qed.

Lemma sall_sfilter f s : sall f (sfilter f s) = true.
Proof. induction s as [|c s IH]; cbn; [done|]. destruct (f c) eqn:Hc; cbn; by rewrite ?Hc, ?IH. Qed.

Lemma sfilter_all f s : sall f s = true -> sfilter f s = s.
Proof.
  induction s as [|c s IH]; cbn; [done|]. rewrite andb_true_iff. intros [-> Hs]. f_equal; auto.
Qed.

Lemma length_append s t : String.length (s +:+ t) = (String.length s + String.length t)%nat.
Proof. induction s as [|c s IH]; cbn; [done|]. by rewrite IH. Qed.

Lemma append_nil_r s : s +:+ "" = s.
Proof. induction s as [|c s IH]; cbn; [done|]. by rewrite IH. Qed.

Lemma append_assoc r s t : (r +:+ s) +:+ t = r +:+ s +:+ t.
Proof. induction r as [|c r IH]; cbn; [done|]. by rewrite IH. Qed.

Lemma append_inj_l r s t : r +:+ s = r +:+ t -> s = t.
Proof. induction r; cbn; [done|]. intros H. injection H. auto. Qed.

Lemma append_inj_length r1 r2 s1 s2 :
  String.length r1 = String.length r2 -> r1 +:+ s1 = r2 +:+ s2 -> r1 = r2 /\ s1 = s2.
Proof.
  revert r2. induction r1 as [|c r1 IH]; intros [|d r2]; cbn; intros Hl H; try done.
  injection H as -> H. injection Hl as Hl. destruct (IH _ Hl H). by subst.
Qed.

Lemma length_stake n s : String.length (stake n s) = Nat.min n (String.length s).
Proof. revert s. induction n as [|n IH]; intros [|c s]; cbn; by rewrite ?IH. Qed.

Lemma length_sdrop n s : String.length (sdrop n s) = (String.length s - n)%nat.
Proof. revert s. induction n; intros [|c s]; cbn; auto. Qed.

Lemma stake_sdrop n s : stake n s +:+ sdrop n s = s.
Proof. revert s. induction n as [|n IH]; intros [|c s]; cbn; by rewrite ?IH. Qed.

Lemma stake_all n s : (String.length s <= n)%nat -> stake n s = s.
Proof. revert s. induction n; intros [|c s]; cbn; try done; [lia|]. intros. f_equal. apply IHn. lia. Qed.

Lemma sall_stake f n s : sall f s = true -> sall f (stake n s) = true.
Proof.
  revert s. induction n; intros [|c s]; cbn; try done.
  rewrite !andb_true_iff. intros [? ?]. auto.
Qed.

Lemma sall_sdrop f n s : sall f s = true -> sall f (sdrop n s) = true.
Proof.
  revert s. induction n; intros [|c s]; cbn; try done.
  rewrite !andb_true_iff. intros [? ?]. auto.
Qed.

Lemma sall_append f s t : sall f (s +:+ t) = sall f s && sall f t.
Proof. induction s as [|c s IH]; cbn; [done|]. rewrite IH. by rewrite andb_assoc. Qed.

Lemma sall_impl (f g : ascii -> bool) s :
  (forall c, f c = true -> g c = true) -> sall f s = true -> sall g s = true.
Proof. intros H. induction s; cbn; [done|]. rewrite !andb_true_iff. naive_solver. Qed.

Lemma sany_false_sall f s : sany f s = false <-> sall (fun c => negb (f c)) s = true.
Proof.
  induction s as [|c s IH]; cbn; [done|].
  rewrite orb_false_iff, andb_true_iff, negb_true_iff, IH. done.
Qed.

Lemma truthy_spec s : truthy s = true <-> s <> "".
Proof. unfold truthy. rewrite negb_true_iff. destruct (String.eqb_spec s ""); naive_solver. Qed.

Lemma truthy_false s : truthy s = false <-> s = "".
Proof. unfold truthy. rewrite negb_false_iff. apply String.eqb_eq. Qed.

Lemma prefix_spec p s : String.prefix p s = true <-> exists r, s = p +:+ r.
Proof.
  revert s. induction p as [|c p IH]; intros s; cbn.
  - split; [intros _; by exists s|]. destruct s; done.
  - destruct s as [|d s]; [split; [done|]; intros [r Hr]; done|].
    cbn. destruct (ascii_dec c d) as [->|Hne].
    + rewrite IH. split; intros [r Hr]; exists r; cbn in *; congruence.
    + split; [done|]. intros [r Hr]. cbn in Hr. congruence.
Qed.

Lemma contains_spec needle s :
  contains needle s = true <-> exists a b, s = a +:+ needle +:+ b.
Proof.
  induction s as [|c s IH]; cbn -[String.prefix]; rewrite orb_true_iff, prefix_spec.
  - split.
    + intros [[r Hr]|?]; [by exists "", r|done].
    + intros (a & b & Hab). left. destruct a; [|done]. by exists b.
  - rewrite IH. split.
    + intros [[r Hr]|(a & b & ->)]; [by exists "", r|by exists (String c a), b].
    + intros (a & b & Hab). destruct a as [|d a]; cbn in Hab; [left; by exists b|].
      injection Hab as -> ->. right. by exists a, b.
Qed.

Lemma contains_append_l needle a s : contains needle s = true -> contains needle (a +:+ s) = true.
Proof. rewrite !contains_spec. intros (x & y & ->). exists (a +:+ x), y. by rewrite append_assoc. Qed.

Lemma contains_append_r needle s b : contains needle s = true -> contains needle (s +:+ b) = true.
Proof. rewrite !contains_spec. intros (x & y & ->). exists x, (y +:+ b). by rewrite !append_assoc. Qed.

Lemma partition_char_found sep s a z :
  partition_char sep s = (a, true, z) -> s = a +:+ String sep z /\ contains_char sep a = false.
Proof.
  revert a. induction s as [|c s IH]; intros a; cbn; [done|].
  destruct (Ascii.eqb_spec sep c) as [->|Hne].
  - intros H. injection H as <- <-. done.
  - destruct (partition_char sep s) as [[a' b'] z'] eqn:Hp. intros H. injection H as <- -> ->.
    destruct (IH a' eq_refl) as [-> Hc]. split; [done|].
    unfold contains_char in *. cbn. rewrite Hc. apply Ascii.eqb_neq in Hne. by rewrite Hne.
Qed.

#[export] Hint Rewrite lower_idemp length_append append_nil_r length_stake length_sdrop stake_sdrop
  sall_append : pystr.
#[export] Hint Resolve sall_stake sall_sdrop sall_sfilter contains_append_l contains_append_r : pystr.

Example strip_ex : strip "  a b " = "a b". Proof. reflexivity. Qed.
Example split_ws_ex : split_ws "  acme  mga inc" = ["acme"; "mga"; "inc"]. Proof. reflexivity. Qed.
Example str_of_Z_ex : map str_of_Z [0; 7; 10; 409; -12; 100000] = ["0"; "7"; "10"; "409"; "-12"; "100000"].
Proof. reflexivity. Qed.
Example after_last_ex : after_last "@" "a@b@c.com" = "c.com". Proof. reflexivity. Qed.

(** ** Stripping *)

Lemma lstrip_by_none f s : sall (fun c => negb (f c)) s = true -> lstrip_by f s = s.
Proof. destruct s as [|c r]; cbn; [done|]. intros [Hc _]%andb_true_iff. by apply negb_true_iff in Hc as ->. Qed.

Lemma rstrip_by_none f s : sall (fun c => negb (f c)) s = true -> rstrip_by f s = s.
Proof.
  induction s as [|c r IH]; cbn; [done|]. intros [Hc Hr]%andb_true_iff. rewrite IH by done.
  apply negb_true_iff in Hc. rewrite Hc. by destruct r.
Qed.

Lemma strip_by_none f s : sall (fun c => negb (f c)) s = true -> strip_by f s = s.
Proof. intros H. unfold strip_by. by rewrite lstrip_by_none, rstrip_by_none. Qed.

Lemma sall_lstrip f g s : sall f s = true -> sall f (lstrip_by g s) = true.
Proof. induction s as [|c s IH]; cbn; [done|]. destruct (g c); [intros [_ Hs]%andb_true_iff; by apply IH|done]. Qed.
Lemma sall_rstrip f g s : sall f s = true -> sall f (rstrip_by g s) = true.
Proof.
  induction s as [|c s IH]; cbn; [done|]. intros [Hc Hs]%andb_true_iff. specialize (IH Hs).
  destruct (rstrip_by g s) as [|d r]; [destruct (g c); cbn; by rewrite ?Hc|]. cbn in *. by rewrite Hc.
Qed.

Lemma digit_not_space c : is_digit c = true -> negb (is_space c) = true.
Proof. unfold is_digit, is_space, in_range. lia. Qed.

Lemma strip_digits s : sall is_digit s = true -> strip s = s.
Proof. intros H. apply strip_by_none. eapply sall_impl; [|exact H]. exact digit_not_space. Qed.

(** ** Dicts of strings *)

(** [d[k] = v] on a dict of strings, and [dict(items)]. *)
Fixpoint dict_set (k v : string) (d : list (string * string)) : list (string * string) :=
  match d with
  | [] => [(k, v)]
  | (k', v') :: r => if String.eqb k k' then (k', v) :: r else (k', v') :: dict_set k v r
  end.
Definition to_dict (l : list (string * string)) : list (string * string) :=
  fold_left (fun d kv => dict_set kv.1 kv.2 d) l [].

Lemma dict_set_In k v d : In (k, v) (dict_set k v d).
Proof.
  induction d as [|[k' v'] d IH]; cbn; [by left|]. destruct (String.eqb_spec k k') as [<-|]; [by left|by right].
Qed.

(** [s LIKE p] of SQL: [%] is any text, [_] any character, and a backslash makes
    the next character literal. *)
Fixpoint like (p s : string) {struct p} : bool :=
  match p with
  | EmptyString => negb (truthy s)
  | String "%" p' => (fix any (s : string) : bool :=
                        like p' s || match s with String _ r => any r | EmptyString => false end) s
  | String "_" p' => match s with String _ r => like p' r | EmptyString => false end
  | String "\" (String c p') => match s with String d r => Ascii.eqb c d && like p' r | EmptyString => false end
  | String c p' => match s with String d r => Ascii.eqb c d && like p' r | EmptyString => false end
  end.

Lemma mem_In s l : mem s l = true <-> In s l.
Proof.
  unfold mem. rewrite existsb_exists. split.
  - intros (x & Hx & He). apply String.eqb_eq in He. by subst.
  - intros H. exists s. split; [done|]. apply String.eqb_refl.
Qed.

(** ** Dicts with string keys, in insertion order *)

Section Dict.
Context {A : Type}.

(** [d.get(k)] *)
Fixpoint dget (k : string) (d : list (string * A)) : option A :=
  match d with
  | [] => None
  | (k', v) :: r => if String.eqb k k' then Some v else dget k r
  end.

(** [d[k] = v] *)
Fixpoint dset (k : string) (v : A) (d : list (string * A)) : list (string * A) :=
  match d with
  | [] => [(k, v)]
  | (k', v') :: r => if String.eqb k k' then (k', v) :: r else (k', v') :: dset k v r
  end.
End Dict.

Lemma dset_keys {A} k (v : A) d :
  map fst (dset k v d) = if mem k (map fst d) then map fst d else map fst d ++ [k].
Proof.
  induction d as [|[k' v'] r IH]; [done|]. cbn. unfold mem in *. cbn.
  destruct (String.eqb_spec k k') as [->|]; cbn; [done|]. rewrite IH. by destruct (existsb _ _).
Qed.

Lemma dget_dset {A} k (v : A) d : dget k (dset k v d) = Some v.
Proof.
  induction d as [|[k' v'] r IH]; cbn; [by rewrite String.eqb_refl|].
  destruct (String.eqb k k') eqn:Hk; cbn; by rewrite Hk.
Qed.

Lemma dget_dset_ne {A} k k' (v : A) d : k <> k' -> dget k' (dset k v d) = dget k' d.
Proof.
  intros Hne. induction d as [|[j w] r IH]; cbn.
  - destruct (String.eqb_spec k' k); congruence.
  - destruct (String.eqb_spec k j) as [->|]; cbn.
    + destruct (String.eqb_spec k' j); congruence.
    + by rewrite IH.
Qed.

Lemma dget_keys {A} k (d : list (string * A)) : is_Some (dget k d) <-> In k (map fst d).
Proof.
  induction d as [|[k' v'] r IH]; cbn; [by split; [intros [? [=]]|]|]. destruct (String.eqb_spec k k') as [<-|Hne]; [|rewrite IH; naive_solver].
  split; [by left|eauto].
Qed.

Lemma dset_same_keys {A} k (c : A) d : is_Some (dget k d) -> map fst (dset k c d) = map fst d.
Proof. intros H%dget_keys. rewrite dset_keys. by replace (mem k (map fst d)) with true by (symmetry; by apply mem_In). Qed.

Lemma dset_Forall {A} (P : A -> Prop) k c (d : list (string * A)) :
  P c -> Forall (fun kc => P kc.2) d -> Forall (fun kc => P kc.2) (dset k c d).
Proof.
  intros Hc Hd. induction Hd as [|[k' c'] r Hc' Hr IH]; cbn; [by repeat constructor|]. destruct (String.eqb k k'); by constructor.
Qed.

Lemma dget_Forall {A} (P : A -> Prop) k c (d : list (string * A)) : Forall (fun kc => P kc.2) d -> dget k d = Some c -> P c.
Proof.
  induction 1 as [|[k' c'] r Hc' Hr IH]; cbn; [done|]. destruct (String.eqb k k'); [by intros [= <-]|done].
Qed.

Lemma opt_truthy_Some o s : opt_truthy o = Some s <-> o = Some s /\ truthy s = true.
Proof. destruct o as [t|]; cbn; [destruct (truthy t) eqn:Ht|]; split; intuition congruence. Qed.

(** ** Texts with something to read in them *)

Definition non_space (c : ascii) : bool := negb (is_space c).

Lemma rstrip_nonempty f s : truthy (rstrip_by f s) = true -> sany (fun c => negb (f c)) (rstrip_by f s) = true.
Proof.
  induction s as [|c s IH]; [done|]. cbn [rstrip_by]. destruct (rstrip_by f s) as [|d r] eqn:Hr.
  - destruct (f c) eqn:Hc; [done|]. intros _. cbn. by rewrite Hc.
  - intros _. cbn [sany] in *. rewrite IH by done. apply orb_true_r.
Qed.

Lemma strip_nonempty s : truthy (strip s) = true -> sany non_space (strip s) = true.
Proof. apply rstrip_nonempty. Qed.

Lemma split_ws_word w s : truthy w = true -> split_ws_from w s <> [].
Proof.
  revert w. induction s as [|c s IH]; intros w Hw; cbn; [by rewrite Hw|]. destruct (is_space c); [by rewrite Hw|by apply IH].
Qed.

Lemma split_ws_nonempty s : sany non_space s = true -> split_ws s <> [].
Proof.
  unfold split_ws. generalize "". induction s as [|c s IH]; intros w; cbn [sany]; [done|]. unfold non_space at 1.
  cbn [split_ws_from]. destruct (is_space c); cbn [negb orb]; [intros H; destruct (truthy w); [done|by apply IH]|].
  intros _. by apply split_ws_word.
Qed.

Lemma lstrip_non_space s : sany non_space s = true -> sany non_space (lstrip_by is_space s) = true.
Proof.
  induction s as [|c s IH]; cbn [sany lstrip_by]; [done|]. unfold non_space at 1. destruct (is_space c) eqn:Hc; cbn [negb orb]; [exact IH|].
  intros _. cbn [sany]. unfold non_space at 1. by rewrite Hc.
Qed.

Lemma rstrip_non_space s : sany non_space s = true -> sany non_space (rstrip_by is_space s) = true.
Proof.
  induction s as [|c s IH]; [done|]. cbn [sany rstrip_by]. unfold non_space at 1. destruct (is_space c) eqn:Hc; cbn [negb orb].
  - intros H. specialize (IH H). destruct (rstrip_by is_space s); [done|]. cbn [sany] in *. by rewrite IH, orb_true_r.
  - intros _. destruct (rstrip_by is_space s); cbn [sany]; unfold non_space at 1; by rewrite Hc.
Qed.

Lemma strip_non_space s : sany non_space s = true -> sany non_space (strip s) = true.
Proof. intros H. by apply rstrip_non_space, lstrip_non_space. Qed.

Lemma lower_non_space s : sany non_space (lower s) = sany non_space s.
Proof.
  unfold lower. induction s as [|c s IH]; [done|]. cbn [smap sany]. rewrite IH. f_equal.
  destruct c as [[] [] [] [] [] [] [] []]; reflexivity.
Qed.

Lemma rev_truthy w : truthy w = true -> truthy (String.rev w) = true.
Proof.
  unfold String.rev. assert (H : forall a b, String.length (String.rev_app a b) = (String.length a + String.length b)%nat).
  { intros a. induction a as [|c a IH]; intros b; cbn; [done|]. rewrite IH. cbn. lia. }
  intros Hw. destruct (String.rev_app w "") as [|c r] eqn:Hr; [|done]. specialize (H w ""). rewrite Hr in H.
  destruct w; [done|cbn in H; lia].
Qed.

(** The words of [split] are not empty. *)
Lemma split_ws_truthy s : forall w, Forall (fun x => truthy x = true) (split_ws_from w s).
Proof.
  induction s as [|c s IH]; intros w; cbn [split_ws_from].
  - destruct (truthy w) eqn:Hw; repeat constructor. by apply rev_truthy.
  - destruct (is_space c); [|apply IH]. destruct (truthy w) eqn:Hw; [constructor; [by apply rev_truthy|apply IH]|apply IH].
Qed.

Lemma join_truthy sep w ws : truthy w = true -> truthy (join sep (w :: ws)) = true.
Proof. intros Hw. destruct w as [|c w]; [done|]. cbn. by destruct ws. Qed.

(** ** The order of strings *)

Lemma ascii_compare_lt a b : Ascii.compare a b = Lt <-> (N_of_ascii a < N_of_ascii b)%N.
Proof. unfold Ascii.compare. apply N.compare_lt_iff. Qed.

Lemma leb_cons a b s t : String.leb (String a s) (String b t) = true <->
  (N_of_ascii a < N_of_ascii b)%N \/ a = b /\ String.leb s t = true.
Proof.
  unfold String.leb. cbn [String.compare]. destruct (Ascii.compare a b) eqn:Hc.
  - apply Ascii.compare_eq_iff in Hc as ->. split; [by right|]. intros [?|[_ ?]]; [lia|done].
  - apply ascii_compare_lt in Hc. split; [by left|done].
  - split; [done|]. rewrite Ascii.compare_antisym in Hc. assert (Hlt : Ascii.compare b a = Lt) by (by destruct (Ascii.compare b a)).
    apply ascii_compare_lt in Hlt. intros [?|[-> _]]; exfalso; revert Hlt; [apply N.lt_asymm; done|apply N.lt_irrefl].
Qed.

Lemma leb_trans s : forall t u, String.leb s t = true -> String.leb t u = true -> String.leb s u = true.
Proof.
  induction s as [|a s IH]; intros [|b t] [|c u]; try done. rewrite !leb_cons. intros [?|[-> Hs]] [?|[-> Ht]]; [left; lia|by left|by left|].
  right. split; [done|]. by apply (IH t).
Qed.

(** [ORDER BY t, id] of rows with the keys [(t, id)]. *)
Definition key_le (a b : Z * string) : bool := (a.1 <? b.1) || ((a.1 =? b.1) && String.leb a.2 b.2).

Lemma key_le_spec a b : key_le a b = true <-> a.1 < b.1 \/ a.1 = b.1 /\ String.leb a.2 b.2 = true.
Proof. unfold key_le. by rewrite orb_true_iff, andb_true_iff, Z.ltb_lt, Z.eqb_eq. Qed.

Lemma key_le_total a b : key_le a b = true \/ key_le b a = true.
Proof.
  rewrite !key_le_spec. destruct (Ztrichotomy a.1 b.1) as [?|[?|?]]; [auto| |right; left; lia].
  destruct (String.leb_total a.2 b.2); auto.
Qed.

Lemma key_le_trans a b c : key_le a b = true -> key_le b c = true -> key_le a c = true.
Proof.
  rewrite !key_le_spec. intros [?|[? Ha]] [?|[? Hb]]; [left; lia|left; lia|left; lia|].
  right. split; [lia|]. by apply (leb_trans _ b.2).
Qed.

Lemma key_le_antisym a b : key_le a b = true -> key_le b a = true -> a.2 = b.2.
Proof. rewrite !key_le_spec. intros [?|[? Ha]] [?|[? Hb]]; try lia. by apply String.leb_antisym. Qed.

(** Splitting at a character. *)
Lemma split_char_nonempty sep s : split_char sep s <> [].
Proof. induction s as [|c s IH]; cbn; [done|]. destruct (Ascii.eqb sep c); [done|]. by destruct (split_char sep s). Qed.

Lemma split_char_app sep a b : split_char sep (a +:+ String sep b) = split_char sep a ++ split_char sep b.
Proof.
  induction a as [|c a IH]; cbn; [by rewrite Ascii.eqb_refl|]. destruct (Ascii.eqb sep c); [by rewrite IH|].
  rewrite IH. pose proof (split_char_nonempty sep a). by destruct (split_char sep a).
Qed.

Lemma split_char_none sep s : sall (fun c => negb (Ascii.eqb sep c)) s = true -> split_char sep s = [s].
Proof.
  induction s as [|c s IH]; cbn; [done|]. intros [Hc Hs]%andb_true_iff. apply negb_true_iff in Hc as ->. by rewrite IH.
Qed.

Lemma split_char_at sep a b :
  sall (fun c => negb (Ascii.eqb sep c)) a = true -> split_char sep (a +:+ String sep b) = a :: split_char sep b.
Proof. intros Ha. by rewrite split_char_app, split_char_none. Qed.

Lemma split_join sep w ws :
  split_char sep (join (String sep EmptyString) (w :: ws)) = concat (map (split_char sep) (w :: ws)).
Proof.
  revert w. induction ws as [|v ws IH]; intros w; [cbn; by rewrite app_nil_r|].
  change (join (String sep EmptyString) (w :: v :: ws)) with (w +:+ String sep (join (String sep EmptyString) (v :: ws))).
  by rewrite split_char_app, IH.
Qed.
