(* ===== verification/Json.v ===== *)
(** * JSON-shaped Python values

    What [json.loads] returns and what a [JSON] column holds: the values the
    modelled code receives as [Any] and takes apart with [dict.get], [or] and
    [isinstance].  A [dict] is an association list in insertion order.  A [float] is a
    [spec_float] of 53 bits; its operations are the correctly rounded ones of IEEE 754, as
    CPython's on every supported platform. *)

From Stdlib Require Import Ascii.
From Stdlib Require Export SpecFloat.
From S2P Require Import Prelude PyStr.

#[warnings="-register-all"]
Inductive json : Type :=
| JNull
| JBool (b : bool)
| JInt (z : Z)
| JFloat (f : spec_float)
| JStr (s : string)
| JList (l : list json)
| JObj (kvs : list (string * json)).

(** [d.get(k)] on a dict; [None] is [JNull]. *)
Fixpoint assoc (k : string) (kvs : list (string * json)) : option json :=
  match kvs with
  | [] => None
  | (k', v) :: r => if String.eqb k k' then Some v else assoc k r
  end.
Definition get_key (k : string) (kvs : list (string * json)) : json := default JNull (assoc k kvs).

(** [k in d] *)
Definition has_key (k : string) (kvs : list (string * json)) : bool := is_someb (assoc k kvs).

(** [d[k] = v]: an existing key keeps its place. *)
Fixpoint set_key (k : string) (v : json) (kvs : list (string * json)) : list (string * json) :=
  match kvs with
  | [] => [(k, v)]
  | (k', v') :: r => if String.eqb k k' then (k', v) :: r else (k', v') :: set_key k v r
  end.

(** [d.update(e)] *)
Definition update_keys (d e : list (string * json)) : list (string * json) :=
  fold_left (fun acc kv => set_key kv.1 kv.2 acc) e d.

Definition float_is_zero (f : spec_float) : bool := match f with S754_zero _ => true | _ => false end.
Definition float_is_finite (f : spec_float) : bool :=
  match f with S754_zero _ | S754_finite _ _ _ => true | _ => false end.

(** [int(f)] truncates towards zero and raises on NaN and the infinities. *)
Definition int_of_float (f : spec_float) : option Z :=
  match f with
  | S754_zero _ => Some 0
  | S754_finite s m e =>
      let a := if 0 <=? e then Zpos m * 2 ^ e else Zpos m / 2 ^ (- e) in
      Some (if s then - a else a)
  | _ => None
  end.

(** Python's truth value. *)
Definition jtruthy (v : json) : bool :=
  match v with
  | JNull => false
  | JBool b => b
  | JInt z => negb (z =? 0)
  | JFloat f => negb (float_is_zero f)
  | JStr s => truthy s
  | JList l => match l with [] => false | _ => true end
  | JObj kvs => match kvs with [] => false | _ => true end
  end.

(** [a or b] *)
Definition jor (a b : json) : json := if jtruthy a then a else b.

Definition is_obj (v : json) : bool := match v with JObj _ => true | _ => false end.
Definition is_str (v : json) : bool := match v with JStr _ => true | _ => false end.

(** [v.get(k)]: on anything but a dict it raises [AttributeError]. *)
Definition jget (k : string) (v : json) : option json :=
  match v with JObj kvs => Some (get_key k kvs) | _ => None end.

(** [int(s)]: white space around, a sign, digits with single underscores
    between them. *)
Fixpoint int_digits (acc : Z) (after_digit : bool) (s : string) : option Z :=
  match s with
  | EmptyString => if after_digit then Some acc else None
  | String c r =>
      if is_digit c then int_digits (10 * acc + (ord c - 48)) true r
      else if Ascii.eqb c "_" && after_digit then int_digits acc false r
      else None
  end.
Definition py_int (s : string) : option Z :=
  match strip s with
  | String c r =>
      if Ascii.eqb c "-" then match int_digits 0 false r with Some z => Some (- z) | None => None end
      else if Ascii.eqb c "+" then int_digits 0 false r
      else int_digits 0 false (String c r)
  | EmptyString => None
  end.

(** [int(v)] of a JSON value; [None] is the exception. *)
Definition json_int (v : json) : option Z :=
  match v with
  | JInt z => Some z
  | JBool b => Some (if b then 1 else 0)
  | JFloat f => int_of_float f
  | JStr s => py_int s
  | _ => None
  end.

Section Str.
  (** [str()] of a float, a list or a dict. *)
Context (repr_other : json -> string).

Definition py_str (v : json) : string :=
    match v with
    | JNull => "None"
    | JBool true => "True"
    | JBool false => "False"
    | JInt z => str_of_Z z
    | JStr s => s
    | _ => repr_other v
    end.
End Str.

(** ** Lemmas *)

Lemma json_ind' (P : json -> Prop) :
  P JNull -> (forall b, P (JBool b)) -> (forall z, P (JInt z)) -> (forall f, P (JFloat f)) ->
  (forall s, P (JStr s)) ->
  (forall l, Forall P l -> P (JList l)) ->
  (forall kvs, Forall (fun kv => P kv.2) kvs -> P (JObj kvs)) ->
  forall v, P v.
Proof.
  intros Hn Hb Hz Hf Hs Hl Ho. fix IH 1. intros [|b|z|f|s|l|kvs];
    [apply Hn|apply Hb|apply Hz|apply Hf|apply Hs|apply Hl|apply Ho].
  - induction l as [|x l IHl]; constructor; auto.
  - induction kvs as [|[k x] kvs IHk]; constructor; auto.
Qed.

#[export] Instance spec_float_eq_dec : EqDecision spec_float.
Proof. solve_decision. Defined.

#[export] Instance json_eq_dec : EqDecision json.
Proof.
  refine (fix go (x y : json) : Decision (x = y) :=
    match x, y with
    | JNull, JNull => left eq_refl
    | JBool a, JBool b => cast_if (decide (a = b))
    | JInt a, JInt b => cast_if (decide (a = b))
    | JFloat a, JFloat b => cast_if (decide (a = b))
    | JStr a, JStr b => cast_if (decide (a = b))
    | JList a, JList b => cast_if (@list_eq_dec _ go a b)
    | JObj a, JObj b => cast_if (@list_eq_dec _ (@prod_eq_dec _ _ _ go) a b)
    | _, _ => right _
    end); try congruence; abstract (intros ?; congruence).
Defined.

Lemma assoc_set_key k v kvs : assoc k (set_key k v kvs) = Some v.
Proof.
  induction kvs as [|[k' v'] r IH]; cbn; [by rewrite String.eqb_refl|].
  destruct (String.eqb k k') eqn:Hk; cbn; by rewrite Hk.
Qed.

Lemma assoc_set_key_ne k k' v kvs : k <> k' -> assoc k' (set_key k v kvs) = assoc k' kvs.
Proof.
  intros Hne. induction kvs as [|[j w] r IH]; cbn.
  - destruct (String.eqb_spec k' k); congruence.
  - destruct (String.eqb_spec k j) as [->|]; cbn.
    + destruct (String.eqb_spec k' j); congruence.
    + by rewrite IH.
Qed.

Lemma get_key_set_key k v kvs : get_key k (set_key k v kvs) = v.
Proof. unfold get_key. by rewrite assoc_set_key. Qed.

Lemma get_key_set_key_ne k k' v kvs : k <> k' -> get_key k' (set_key k v kvs) = get_key k' kvs.
Proof. intros H. unfold get_key. by rewrite assoc_set_key_ne. Qed.

Lemma py_str_JStr r s : py_str r (JStr s) = s.
Proof. done. Qed.

Lemma jor_truthy a b : jtruthy a = true -> jor a b = a.
Proof. unfold jor. by intros ->. Qed.

Lemma jor_falsy a b : jtruthy a = false -> jor a b = b.
Proof. unfold jor. by intros ->. Qed.

#[export] Hint Rewrite get_key_set_key assoc_set_key : pystr.

(** Reading a printed number gives it back. *)
Lemma int_digits_of k : forall n acc after, 0 <= n < 10 ^ Z.of_nat k -> (0 < k)%nat ->
  int_digits 0 after (digits_of k n acc) = int_digits n true acc.
Proof.
  induction k as [|k IH]; intros n acc after Hn Hk; [lia|]. cbn [digits_of].
  assert (Hd : 0 <= n mod 10 < 10) by (apply Z.mod_pos_bound; lia).
  assert (Hdig : is_digit (chr (48 + n mod 10)) = true) by (apply in_range_spec; rewrite ord_chr by lia; lia).
  assert (Hval : ord (chr (48 + n mod 10)) - 48 = n mod 10) by (rewrite ord_chr; lia).
  destruct (Z.ltb_spec n 10).
  - cbn [int_digits]. rewrite Hdig, Hval. f_equal. rewrite Z.mod_small by lia. lia.
  - destruct k as [|k]; [cbn in Hn; lia|]. rewrite IH.
    + cbn [int_digits]. rewrite Hdig, Hval. f_equal. pose proof (Z.div_mod n 10). lia.
    + split; [apply Z.div_pos; lia|]. apply Z.div_lt_upper_bound; [lia|].
      replace (Z.of_nat (S (S k))) with (1 + Z.of_nat (S k)) in Hn by lia. rewrite Z.pow_add_r in Hn by lia. lia.
    + lia.
Qed.

Lemma digits_of_digits k : forall n acc, 0 <= n -> sall is_digit acc = true -> sall is_digit (digits_of k n acc) = true.
Proof.
  induction k as [|k IH]; intros n acc Hn Hacc; cbn; [done|].
  assert (Hd : 0 <= n mod 10 < 10) by (apply Z.mod_pos_bound; lia).
  assert (Hdig : is_digit (chr (48 + n mod 10)) = true) by (apply in_range_spec; rewrite ord_chr by lia; lia).
  destruct (n <? 10); [|apply IH; [apply Z.div_pos; lia|]]; cbn; by rewrite Hdig.
Qed.

Lemma py_int_str_of_Z n : 0 <= n -> py_int (str_of_Z n) = Some n.
Proof.
  intros Hn. unfold str_of_Z. replace (n <? 0) with false by lia. set (k := S (Z.to_nat (Z.log2 n))).
  assert (Hlt : n < 10 ^ Z.of_nat k).
  { destruct (decide (n = 0)) as [->|]; [cbn; lia|]. pose proof (Z.log2_spec n). pose proof (Z.log2_nonneg n).
    assert (2 ^ Z.of_nat k <= 10 ^ Z.of_nat k) by (apply Z.pow_le_mono_l; lia).
    replace (Z.of_nat k) with (Z.succ (Z.log2 n)) in * by (unfold k; lia). lia. }
  pose proof (int_digits_of k n "" false (conj Hn Hlt) ltac:(unfold k; lia)) as Hint.
  pose proof (digits_of_digits k n "" Hn eq_refl) as Hall. unfold py_int. rewrite (strip_digits _ Hall).
  destruct (digits_of k n "") as [|c r]; [cbn in Hint; discriminate Hint|]. cbn in Hall. apply andb_true_iff in Hall as [Hc _].
  assert (Hr : 48 <= ord c <= 57) by (by apply in_range_spec).
  destruct (Ascii.eqb_spec c "-"); [subst; change (ord "-") with 45 in Hr; lia|].
  destruct (Ascii.eqb_spec c "+"); [subst; change (ord "+") with 43 in Hr; lia|]. exact Hint.
Qed.

Example py_int_ex : map py_int [" 12 "; "-7"; "1_000"; "1__0"; "4.5"; ""] =
  [Some 12; Some (-7); Some 1000; None; None; None].
Proof. reflexivity. Qed.

(** ** Floats *)

(** [a / b] to the nearest integer, ties to the even one; [0 <= a] and [0 < b]. *)
Definition div_half_even (a b : Z) : Z :=
  let q := a / b in
  let r := a mod b in
  if 2 * r <? b then q else if b <? 2 * r then q + 1 else if Z.even q then q else q + 1.

(** The operators [*], [+] and [/], and [<]. *)
Definition fmul : spec_float -> spec_float -> spec_float := SFmul 53 1024.
Definition fadd : spec_float -> spec_float -> spec_float := SFadd 53 1024.
Definition fdiv : spec_float -> spec_float -> spec_float := SFdiv 53 1024.
Definition flt : spec_float -> spec_float -> bool := SFltb.

(** [float(z)] for [Z.abs z <= 2 ^ 53], and the literal that denotes [n / d]. *)
Definition float_of_Z (z : Z) : spec_float := binary_normalize 53 1024 z 0 false.
Definition flit (n d : Z) : spec_float := fdiv (float_of_Z n) (float_of_Z d).

(** The float nearest to [p / q], for [0 <= p] and [0 < q]: 55 bits of the quotient and one
    that says whether there is a remainder are enough to round it. *)
Definition float_of_ratio (neg : bool) (p q : Z) : spec_float :=
  if p =? 0 then S754_zero neg
  else
    let k := Z.max 0 (55 + Z.log2 q - Z.log2 p) in
    let n := p * 2 ^ k / q in
    let m := 2 * n + (if p * 2 ^ k mod q =? 0 then 0 else 1) in
    binary_normalize 53 1024 (if neg then - m else m) (- (k + 1)) neg.

(** [format(x, ".kf")]: the exact value to [k] decimals, ties to even. *)
Definition fixed_point (k : nat) (x : spec_float) : string :=
  let ten := 10 ^ Z.of_nat k in
  match x with
  | S754_nan => "nan"
  | S754_infinity s => if s then "-inf" else "inf"
  | S754_zero s => (if s then "-" else "") +:+ "0." +:+ stake k "00000000000000000000"
  | S754_finite s m e =>
      let n := if 0 <=? e then Zpos m * 2 ^ e * ten else div_half_even (Zpos m * ten) (2 ^ (- e)) in
      (if s then "-" else "") +:+ str_of_Z (n / ten) +:+ "." +:+ sdrop 1 (str_of_Z (ten + n mod ten))
  end.

(** A number of thousandths. *)
Definition thousandths (n : Z) : spec_float := flit n 1000.

(** [round(x, 3)]: the exact value of [x] to the nearest multiple of a thousandth,
    ties to even, as the nearest float; for values below [2 ^ 53 / 1000]. *)
Definition round3 (x : spec_float) : spec_float :=
  match x with
  | S754_finite s m e =>
      let n := if 0 <=? e then Zpos m * 2 ^ e * 1000 else div_half_even (Zpos m * 1000) (2 ^ (- e)) in
      if n =? 0 then S754_zero s else thousandths (if s then - n else n)
  | _ => x
  end.

(** [min(1.0, x)] *)
Definition fmin1 (x : spec_float) : spec_float := if flt x (float_of_Z 1) then x else float_of_Z 1.

(** ** Lemmas *)

Lemma div_half_even_close a b : 0 < b -> 2 * Z.abs (b * div_half_even a b - a) <= b.
Proof.
  intros Hb. unfold div_half_even. pose proof (Z.div_mod a b ltac:(lia)). pose proof (Z.mod_pos_bound a b Hb).
  destruct (Z.ltb_spec (2 * (a mod b)) b); [nia|]. destruct (Z.ltb_spec b (2 * (a mod b))); [nia|]. destruct (Z.even _); nia.
Qed.

Lemma div_half_even_near c d b : 0 < b -> 2 * Z.abs d < b -> div_half_even (c * b + d) b = c.
Proof.
  intros Hb Hd. pose proof (div_half_even_close (c * b + d) b Hb) as H. set (x := div_half_even _ _) in *.
  assert (b * Z.abs (x - c) < b * 1) by nia. assert (Z.abs (x - c) < 1) by nia. lia.
Qed.

(** ** The same JSON data *)

(** A finite number as a fraction whose denominator is positive. *)
Definition num_value (v : json) : option (Z * Z) :=
  match v with
  | JInt z => Some (z, 1)
  | JFloat (S754_zero _) => Some (0, 1)
  | JFloat (S754_finite s m e) =>
      let n := if s then Zneg m else Zpos m in
      Some (if 0 <=? e then (n * 2 ^ e, 1) else (n, 2 ^ (- e)))
  | _ => None
  end.

(** Two values are the same JSON data: the order of an object's keys and the
    way a number is held do not count. *)
#[warnings="-register-all"]
Inductive same_json : json -> json -> Prop :=
| same_refl v : same_json v v
| same_number x y n1 d1 n2 d2 :
    num_value x = Some (n1, d1) -> num_value y = Some (n2, d2) -> n1 * d2 = n2 * d1 -> same_json x y
| same_list l1 l2 : Forall2 same_json l1 l2 -> same_json (JList l1) (JList l2)
| same_object kvs1 kvs2 :
    (forall k, option_Forall2 same_json (assoc k kvs1) (assoc k kvs2)) -> same_json (JObj kvs1) (JObj kvs2).

(** The same data under each key of an object; nothing under those of another value. *)
Lemma same_json_key v1 v2 :
  same_json v1 v2 ->
  let kvs v := match v with JObj kvs => kvs | _ => [] end in
  forall k, option_Forall2 same_json (assoc k (kvs v1)) (assoc k (kvs v2)).
Proof.
  intros H kvs k. destruct H as [v|x y n1 d1 n2 d2 H1 H2 _| |kvs1 kvs2 H]; cbn; [| |constructor|apply H].
  - destruct (assoc k _); constructor. apply same_refl.
  - by destruct x as [| | | | | |], y; try constructor.
Qed.

(** Texts and constants that are the same data are equal. *)
Lemma same_json_inv v1 v2 :
  same_json v1 v2 -> match v1, v2 with
                     | JStr _, _ | _, JStr _ | JNull, _ | _, JNull | JBool _, _ | _, JBool _ => v1 = v2
                     | _, _ => True
                     end.
Proof. intros H. destruct H as [v|x y n1 d1 n2 d2 H1 H2 _| |]; [by destruct v|by destruct x, y|done..]. Qed.

Example same_json_ex :
  same_json (JObj [("a", JInt 2); ("b", JStr "x")]) (JObj [("b", JStr "x"); ("a", JFloat (flit 2 1))]).
Proof.
  apply same_object. intros k. cbn [assoc].
  destruct (String.eqb_spec k "a") as [->|]; cbn.
  - constructor. by eapply same_number; [vm_compute..|].
  - destruct (String.eqb k "b"); constructor. apply same_refl.
Qed.

(** JSON values are countable, by way of stdpp's generic trees. *)
#[export] Instance spec_float_countable : Countable spec_float.
Proof.
  refine (inj_countable'
    (fun f => match f with
              | S754_zero s => inl (inl s) | S754_infinity s => inl (inr s)
              | S754_nan => inr (inl tt) | S754_finite s m e => inr (inr (s, m, e))
              end)
    (fun x => match x with
              | inl (inl s) => S754_zero s | inl (inr s) => S754_infinity s
              | inr (inl _) => S754_nan | inr (inr (s, m, e)) => S754_finite s m e
              end) _).
  by intros [].
Defined.

Fixpoint json_tree (v : json) : gen_tree (option bool + Z + spec_float + string) :=
  match v with
  | JNull => GenLeaf (inl (inl (inl None)))
  | JBool b => GenLeaf (inl (inl (inl (Some b))))
  | JInt z => GenLeaf (inl (inl (inr z)))
  | JFloat f => GenLeaf (inl (inr f))
  | JStr s => GenLeaf (inr s)
  | JList l => GenNode 0 (map json_tree l)
  | JObj kvs => GenNode 1 (map (fun kv => GenNode 0 [GenLeaf (inr kv.1); json_tree kv.2]) kvs)
  end.
Fixpoint json_of_tree (t : gen_tree (option bool + Z + spec_float + string)) : json :=
  match t with
  | GenLeaf (inl (inl (inl None))) => JNull
  | GenLeaf (inl (inl (inl (Some b)))) => JBool b
  | GenLeaf (inl (inl (inr z))) => JInt z
  | GenLeaf (inl (inr f)) => JFloat f
  | GenLeaf (inr s) => JStr s
  | GenNode 1 ts =>
      JObj (map (fun t => match t with GenNode _ [GenLeaf (inr k); v] => (k, json_of_tree v) | _ => ("", JNull) end) ts)
  | GenNode _ ts => JList (map json_of_tree ts)
  end.

Lemma json_of_tree_tree v : json_of_tree (json_tree v) = v.
Proof.
  induction v as [|b|z|f|s|l IH|kvs IH] using json_ind'; try done; cbn; f_equal; rewrite map_map;
    induction IH as [|x xs Hx _ IHxs]; cbn; [done| |done|].
  - by rewrite Hx, IHxs.
  - destruct x as [k x]. cbn in *. by rewrite Hx, IHxs.
Qed.

#[export] Instance json_countable : Countable json := inj_countable' json_tree json_of_tree json_of_tree_tree.
