(* ===== verification/Encoding.v ===== *)
(** * Byte strings and their text encodings

    A Python [bytes] value is a [string] whose characters are its bytes.
    [bytes.hex], [bytes.fromhex], [base64.b64encode] and
    [base64.b64decode(validate=True)] of the standard library, with their
    round trips. *)

From Stdlib Require Import Ascii.
From S2P Require Import Prelude PyStr.

Abbreviation bytes := string (only parsing).

(** ** Hexadecimal *)

Definition hex_digit (n : Z) : ascii := if n <? 10 then chr (48 + n) else chr (87 + n).

Definition unhex_digit (c : ascii) : option Z :=
  if is_digit c then Some (ord c - 48)
  else if in_range 97 102 c then Some (ord c - 87)
  else if in_range 65 70 c then Some (ord c - 55)
  else None.

(** [b.hex()] *)
Fixpoint hex (b : bytes) : string :=
  match b with
  | EmptyString => EmptyString
  | String c r => String (hex_digit (ord c / 16)) (String (hex_digit (ord c mod 16)) (hex r))
  end.

(** [bytes.fromhex(s)]: white space between bytes is skipped; [None] is the
    [ValueError]. *)
Fixpoint fromhex (s : string) : option bytes :=
  match s with
  | EmptyString => Some EmptyString
  | String c r =>
      if in_range 9 13 c || (ord c =? 32) then fromhex r
      else match r with
           | EmptyString => None
           | String d r' =>
               match unhex_digit c, unhex_digit d, fromhex r' with
               | Some x, Some y, Some b => Some (String (chr (16 * x + y)) b)
               | _, _, _ => None
               end
           end
  end.

(** ** Base 64 *)

Definition b64_char (n : Z) : ascii :=
  if n <? 26 then chr (65 + n)
  else if n <? 52 then chr (71 + n)
  else if n <? 62 then chr (n - 4)
  else if n =? 62 then "+"%char else "/"%char.

Definition b64_val (c : ascii) : option Z :=
  if is_upper c then Some (ord c - 65)
  else if is_lower c then Some (ord c - 71)
  else if is_digit c then Some (ord c + 4)
  else if Ascii.eqb c "+" then Some 62
  else if Ascii.eqb c "/" then Some 63
  else None.

(** [base64.b64encode(b).decode("ascii")] *)
Fixpoint b64encode (b : bytes) : string :=
  match b with
  | EmptyString => EmptyString
  | String x EmptyString =>
      String (b64_char (ord x / 4)) (String (b64_char (ord x mod 4 * 16)) "==")
  | String x (String y EmptyString) =>
      String (b64_char (ord x / 4))
        (String (b64_char (ord x mod 4 * 16 + ord y / 16))
          (String (b64_char (ord y mod 16 * 4)) "="))
  | String x (String y (String z r)) =>
      String (b64_char (ord x / 4))
        (String (b64_char (ord x mod 4 * 16 + ord y / 16))
          (String (b64_char (ord y mod 16 * 4 + ord z / 64))
            (String (b64_char (ord z mod 64)) (b64encode r))))
  end.

(** [binascii.a2b_base64]: [quad] counts the characters of the group so far, [left]
    holds its pending bits, [pads] its padding, and [started] says that a padding
    character was seen.  Without [strict] a character outside the alphabet is
    skipped.  [None] is [binascii.Error]. *)
Fixpoint a2b_base64 (strict started : bool) (quad left pads : Z) (s : string) : option bytes :=
  match s with
  | EmptyString => if quad =? 0 then Some EmptyString else None
  | String c r =>
      if Ascii.eqb c "=" then
        if (2 <=? quad) && (4 <=? quad + (pads + 1)) then
          if strict && truthy r then None else Some EmptyString
        else a2b_base64 strict true quad left (if 2 <=? quad then pads + 1 else pads) r
      else
        match b64_val c with
        | None => if strict then None else a2b_base64 strict started quad left pads r
        | Some v =>
            if strict && started then None
            else if quad =? 0 then a2b_base64 strict started 1 v 0 r
            else if quad =? 1 then String (chr (left * 4 + v / 16)) <$> a2b_base64 strict started 2 (v mod 16) 0 r
            else if quad =? 2 then String (chr (left * 16 + v / 4)) <$> a2b_base64 strict started 3 (v mod 4) 0 r
            else String (chr (left * 64 + v)) <$> a2b_base64 strict started 0 0 0 r
        end
  end.

(** [base64.b64decode(s, validate=True)] of an ASCII text *)
Definition b64decode (s : string) : option bytes :=
  if startswith "=" s then None else a2b_base64 true false 0 0 0 s.

(** [base64.b64decode(s)] of an ASCII text *)
Definition b64decode_lenient (s : string) : option bytes := a2b_base64 false false 0 0 0 s.

(** ** Lemmas *)

(** A statement about the numbers below [n] is checked on each of them. *)
Lemma forall_below (n : nat) (P : Z -> bool) :
  forallb P (map Z.of_nat (seq 0 n)) = true -> forall z, 0 <= z < Z.of_nat n -> P z = true.
Proof.
  intros H z Hz. rewrite forallb_forall in H. apply H. apply List.in_map_iff.
  exists (Z.to_nat z). rewrite in_seq. lia.
Qed.

Lemma unhex_hex_digit n : 0 <= n < 16 -> unhex_digit (hex_digit n) = Some n.
Proof.
  intros H.
  apply (forall_below 16 (fun n => bool_decide (unhex_digit (hex_digit n) = Some n))) in H;
    [by apply bool_decide_eq_true in H | vm_compute; done].
Qed.

Lemma hex_digit_not_space n :
  0 <= n < 16 -> in_range 9 13 (hex_digit n) || (ord (hex_digit n) =? 32) = false.
Proof.
  intros H. apply negb_true_iff.
  apply (forall_below 16 (fun n => negb (in_range 9 13 (hex_digit n) || (ord (hex_digit n) =? 32)))) in H;
    [done | vm_compute; done].
Qed.

Lemma ord_nibbles c : 0 <= ord c / 16 < 16 /\ 0 <= ord c mod 16 < 16.
Proof. pose proof (ord_range c). lia. Qed.

Lemma fromhex_hex b : fromhex (hex b) = Some b.
Proof.
  induction b as [|c b IH]; [done|]. destruct (ord_nibbles c) as [H1 H2].
  cbn [hex fromhex]. rewrite hex_digit_not_space, !unhex_hex_digit, IH by done.
  by rewrite <- Z.div_mod, chr_ord by lia.
Qed.

Lemma length_hex b : String.length (hex b) = (2 * String.length b)%nat.
Proof. induction b as [|c b IH]; [done|]. cbn [hex String.length]. rewrite IH. lia. Qed.

Lemma hex_inj a b : hex a = hex b -> a = b.
Proof. intros H. pose proof (fromhex_hex a) as Ha. rewrite H, fromhex_hex in Ha. congruence. Qed.

Lemma b64_val_char n : 0 <= n < 64 -> b64_val (b64_char n) = Some n.
Proof.
  intros H.
  apply (forall_below 64 (fun n => bool_decide (b64_val (b64_char n) = Some n))) in H;
    [by apply bool_decide_eq_true in H | vm_compute; done].
Qed.

Lemma chr_eq c z : z = ord c -> chr z = c.
Proof. intros ->. apply chr_ord. Qed.

Lemma b64_val_not_pad c v : b64_val c = Some v -> Ascii.eqb c "=" = false.
Proof. intros H. destruct (Ascii.eqb_spec c "="); [by subst|done]. Qed.

(** One character of the alphabet at each place of a group. *)
Section Group.
Context (strict : bool) (c : ascii) (v : Z) (Hv : b64_val c = Some v).
Local Abbreviation a2b := (a2b_base64 strict false).

Lemma a2b_0 l p r : a2b 0 l p (String c r) = a2b 1 v 0 r.
Proof. cbn [a2b_base64]. by rewrite (b64_val_not_pad _ _ Hv), Hv, andb_false_r. Qed.
Lemma a2b_1 l p r : a2b 1 l p (String c r) = String (chr (l * 4 + v / 16)) <$> a2b 2 (v mod 16) 0 r.
Proof. cbn [a2b_base64]. by rewrite (b64_val_not_pad _ _ Hv), Hv, andb_false_r. Qed.
Lemma a2b_2 l p r : a2b 2 l p (String c r) = String (chr (l * 16 + v / 4)) <$> a2b 3 (v mod 4) 0 r.
Proof. cbn [a2b_base64]. by rewrite (b64_val_not_pad _ _ Hv), Hv, andb_false_r. Qed.
Lemma a2b_3 l p r : a2b 3 l p (String c r) = String (chr (l * 64 + v)) <$> a2b 0 0 0 r.
Proof. cbn [a2b_base64]. by rewrite (b64_val_not_pad _ _ Hv), Hv, andb_false_r. Qed.
End Group.

Lemma a2b_two_pads strict l : a2b_base64 strict false 2 l 0 "==" = Some "".
Proof. by destruct strict. Qed.
Lemma a2b_one_pad strict l : a2b_base64 strict false 3 l 0 "=" = Some "".
Proof. by destruct strict. Qed.

(** A whole group of the alphabet is three bytes. *)
Lemma a2b_group strict a b c d va vb vc vd r :
  b64_val a = Some va -> b64_val b = Some vb -> b64_val c = Some vc -> b64_val d = Some vd ->
  a2b_base64 strict false 0 0 0 (String a (String b (String c (String d r)))) =
  (fun t => String (chr (va * 4 + vb / 16)) (String (chr (vb mod 16 * 16 + vc / 4)) (String (chr (vc mod 4 * 64 + vd)) t)))
    <$> a2b_base64 strict false 0 0 0 r.
Proof.
  intros Ha Hb Hc Hd. rewrite (a2b_0 _ _ _ Ha), (a2b_1 _ _ _ Hb), (a2b_2 _ _ _ Hc), (a2b_3 _ _ _ Hd).
  by destruct (a2b_base64 strict false 0 0 0 r).
Qed.

Lemma a2b_b64encode strict b : a2b_base64 strict false 0 0 0 (b64encode b) = Some b.
Proof.
  remember (String.length b) as n eqn:Hn. revert b Hn.
  induction n as [n IH] using lt_wf_ind. intros [|x [|y [|z r]]] Hn; [done|..];
    pose proof (ord_range x) as Hx; try pose proof (ord_range y) as Hy; try pose proof (ord_range z) as Hz; cbn [b64encode].
  - erewrite a2b_0, a2b_1, a2b_two_pads by (apply b64_val_char; lia). cbn. do 2 f_equal. apply chr_eq. lia.
  - erewrite a2b_0, a2b_1, a2b_2, a2b_one_pad by (apply b64_val_char; lia). cbn.
    do 2 f_equal; [apply chr_eq; lia|]. f_equal. apply chr_eq. lia.
  - erewrite a2b_group by (apply b64_val_char; lia). rewrite (IH (String.length r)); [|subst n; cbn; lia|done]. cbn.
    do 2 f_equal; [apply chr_eq; lia|]. f_equal; [apply chr_eq; lia|]. f_equal. apply chr_eq; lia.
Qed.

Lemma b64decode_b64encode b : b64decode (b64encode b) = Some b.
Proof.
  unfold b64decode. rewrite a2b_b64encode. destruct (startswith "=" (b64encode b)) eqn:Hs; [|done].
  apply prefix_spec in Hs as [r Hr]. destruct b as [|x b]; [done|].
  assert (Hx : exists n t, b64encode (String x b) = String (b64_char n) t /\ 0 <= n < 64).
  { pose proof (ord_range x). exists (ord x / 4). destruct b as [|y [|z b]]; cbn [b64encode]; (eexists; split; [done|lia]). }
  destruct Hx as (n & t & Hx & Hn). rewrite Hx in Hr. injection Hr as Hr _. apply b64_val_char in Hn. by rewrite Hr in Hn.
Qed.

Lemma b64encode_truthy b : truthy b = true -> truthy (b64encode b) = true.
Proof. rewrite !truthy_spec. by destruct b as [|x [|y [|z r]]]. Qed.

#[export] Hint Rewrite fromhex_hex b64decode_b64encode length_hex : pystr.

Example b64_ex : b64encode "Man" = "TWFu" /\ b64encode "M" = "TQ==" /\ b64decode "TWE=" = Some "Ma"
  /\ b64decode "TWE" = None /\ b64decode "T*E=" = None.
Proof. repeat split; reflexivity. Qed.
Example hex_ex : hex "Az" = "417a" /\ fromhex "41 7A" = Some "Az" /\ fromhex "4g" = None.
Proof. repeat split; reflexivity. Qed.
