(* ===== verification/PyTime.v ===== *)
(** * Python datetimes

    A [datetime] is its wall clock in microseconds since 1970-01-01T00:00:00
    and its UTC offset ([None]: naive).  Instants and durations are counts of
    microseconds.  The civil calendar is the proleptic Gregorian one. *)

From Stdlib Require Import Ascii.
From S2P Require Import Prelude PyStr.

Record datetime : Type := Datetime { wall : Z; tzinfo : option Z }.

#[export] Instance datetime_eq_dec : EqDecision datetime.
Proof. solve_decision. Defined.

Definition us_per_second : Z := 1000000.
Definition us_per_day : Z := 86400000000.

(** [timedelta(...)] in microseconds. *)
Definition seconds (n : Z) : Z := n * us_per_second.
Definition minutes (n : Z) : Z := seconds (60 * n).
Definition hours (n : Z) : Z := seconds (3600 * n).
Definition days (n : Z) : Z := n * us_per_day.

(** An aware UTC datetime. *)
Definition utc (us : Z) : datetime := Datetime us (Some 0).

(** The instant a datetime denotes, a naive one taken as UTC. *)
Definition instant (d : datetime) : Z := wall d - default 0 (tzinfo d).

(** [if dt.tzinfo is None: dt = dt.replace(tzinfo=UTC)] *)
Definition coerce_utc (d : datetime) : datetime :=
  match tzinfo d with None => Datetime (wall d) (Some 0) | Some _ => d end.

(** [dt.astimezone(UTC)] of an aware datetime. *)
Definition astimezone_utc (d : datetime) : datetime := utc (instant d).

(** ** The calendar *)

(** Year, month and day of a day number counted from 1970-01-01. *)
Definition civil_from_days (z0 : Z) : Z * Z * Z :=
  let z := z0 + 719468 in
  let era := z / 146097 in
  let doe := z - era * 146097 in
  let yoe := (doe - doe / 1460 + doe / 36524 - doe / 146096) / 365 in
  let doy := doe - (365 * yoe + yoe / 4 - yoe / 100) in
  let mp := (5 * doy + 2) / 153 in
  let d := doy - (153 * mp + 2) / 5 + 1 in
  let m := if mp <? 10 then mp + 3 else mp - 9 in
  ((if m <=? 2 then yoe + era * 400 + 1 else yoe + era * 400), m, d).

(** The day number of [us]. *)
Definition day_of (us : Z) : Z := us / us_per_day.

(** [f"{n:0{w}d}"] for [n >= 0]. *)
Fixpoint pad_digits (w : nat) (n : Z) (acc : string) : string :=
  match w with
  | O => acc
  | S w' => pad_digits w' (n / 10) (String (chr (48 + n mod 10)) acc)
  end.
Definition zpad (w : nat) (n : Z) : string := pad_digits w n "".

(** [datetime.isoformat()] of the wall clock [us], without the offset: the
    microseconds are left out when they are zero. *)
Definition iso_wall (us : Z) : string :=
  let '(y, m, d) := civil_from_days (day_of us) in
  let t := us mod us_per_day in
  let s := t / us_per_second in
  let u := t mod us_per_second in
  zpad 4 y +:+ "-" +:+ zpad 2 m +:+ "-" +:+ zpad 2 d +:+ "T" +:+
  zpad 2 (s / 3600) +:+ ":" +:+ zpad 2 (s / 60 mod 60) +:+ ":" +:+ zpad 2 (s mod 60) +:+
  (if u =? 0 then "" else "." +:+ zpad 6 u).

(** The UTC offset as [isoformat] writes it; a naive datetime has none. *)
Definition iso_offset (tz : option Z) : string :=
  match tz with
  | None => ""
  | Some o =>
      let a := Z.abs o / us_per_second in
      let u := Z.abs o mod us_per_second in
      (if o <? 0 then "-" else "+") +:+ zpad 2 (a / 3600) +:+ ":" +:+ zpad 2 (a / 60 mod 60) +:+
      (if (a mod 60 =? 0) && (u =? 0) then "" else ":" +:+ zpad 2 (a mod 60)) +:+
      (if u =? 0 then "" else "." +:+ zpad 6 u)
  end.

(** [dt.isoformat()] *)
Definition isoformat (d : datetime) : string := iso_wall (wall d) +:+ iso_offset (tzinfo d).

(** [dt.isoformat().replace("+00:00", "Z")] of a UTC datetime: the offset is
    the suffix and the only place where a [+] occurs. *)
Definition isoformat_utc_z (us : Z) : string := iso_wall us +:+ "Z".

(** The day number of a civil date. *)
Definition days_from_civil (y m d : Z) : Z :=
  let y' := if m <=? 2 then y - 1 else y in
  let era := y' / 400 in
  let yoe := y' - era * 400 in
  let doy := (153 * (if 2 <? m then m - 3 else m + 9) + 2) / 5 + d - 1 in
  era * 146097 + (yoe * 365 + yoe / 4 - yoe / 100 + doy) - 719468.

(** A number of [w] digits, and the rest. *)
Fixpoint read_digits (w : nat) (acc : Z) (s : string) : option (Z * string) :=
  match w with
  | O => Some (acc, s)
  | S w => match s with
           | String c r => if is_digit c then read_digits w (10 * acc + (ord c - 48)) r else None
           | EmptyString => None
           end
  end.
Definition read_char (c : ascii) (s : string) : option string :=
  match s with String d r => if Ascii.eqb d c then Some r else None | EmptyString => None end.

(** The UTC offset at the end of a text. *)
Definition read_offset (s : string) : option (option Z) :=
  if String.eqb s "" then Some None
  else if String.eqb s "Z" then Some (Some 0)
  else
    match s with
    | String c r =>
        '(h, r) ← read_digits 2 0 r; r ← read_char ":" r; '(m, r) ← read_digits 2 0 r;
        if String.eqb r "" then
          if Ascii.eqb c "+" then Some (Some (minutes (60 * h + m)))
          else if Ascii.eqb c "-" then Some (Some (- minutes (60 * h + m))) else None
        else None
    | EmptyString => None
    end.

(** [datetime.fromisoformat] of a text in the format [isoformat] writes: a date,
    [T], a time with or without microseconds, and an offset of whole minutes,
    [Z] or none. *)
Definition fromisoformat (s : string) : option datetime :=
  '(y, r) ← read_digits 4 0 s; r ← read_char "-" r; '(mo, r) ← read_digits 2 0 r; r ← read_char "-" r;
  '(d, r) ← read_digits 2 0 r; r ← read_char "T" r; '(h, r) ← read_digits 2 0 r; r ← read_char ":" r;
  '(mi, r) ← read_digits 2 0 r; r ← read_char ":" r; '(sec, r) ← read_digits 2 0 r;
  '(u, r) ← (match read_char "." r with Some r => read_digits 6 0 r | None => Some (0, r) end);
  tz ← read_offset r;
  Some (Datetime (days (days_from_civil y mo d) + seconds (3600 * h + 60 * mi + sec) + u) tz).

(** ** Lemmas *)

Lemma instant_utc us : instant (utc us) = us.
Proof. unfold instant. cbn. lia. Qed.

Lemma instant_coerce d : instant (coerce_utc d) = instant d.
Proof. by destruct d as [w [o|]]. Qed.

Lemma coerce_utc_idemp d : coerce_utc (coerce_utc d) = coerce_utc d.
Proof. by destruct d as [w [o|]]. Qed.

Lemma day_of_range us : days (day_of us) <= us < days (day_of us + 1).
Proof. unfold days, day_of, us_per_day. lia. Qed.

#[export] Hint Rewrite instant_utc instant_coerce coerce_utc_idemp : pystr.

Example iso_ex : map isoformat_utc_z [0; 1709210096000000; 1709210096000120; -1; 253402300799000000] =
  ["1970-01-01T00:00:00Z"; "2024-02-29T12:34:56Z"; "2024-02-29T12:34:56.000120Z";
   "1969-12-31T23:59:59.999999Z"; "9999-12-31T23:59:59Z"].
Proof. reflexivity. Qed.

Lemma zpad_digits w n : sall is_digit (zpad w n) = true /\ String.length (zpad w n) = w.
Proof.
  unfold zpad. assert (H : forall acc, sall is_digit acc = true ->
    sall is_digit (pad_digits w n acc) = true /\ String.length (pad_digits w n acc) = (w + String.length acc)%nat).
  { revert n. induction w as [|w IH]; intros n acc Hacc; cbn; [done|].
    destruct (IH (n / 10) (String (chr (48 + n mod 10)) acc)) as [-> ->]; [|cbn; split; [done|lia]].
    cbn. rewrite Hacc, andb_true_r. unfold is_digit. apply in_range_spec. rewrite ord_chr by lia. lia. }
  destruct (H EmptyString) as [H1 H2]; [done|]. cbn in H2. split; [done|]. by rewrite H2, Nat.add_0_r.
Qed.

(** *** Reading what was written *)

Lemma read_pad w : forall n a acc, 0 <= n < 10 ^ Z.of_nat w ->
  read_digits w a (pad_digits w n acc) = Some (a * 10 ^ Z.of_nat w + n, acc).
Proof.
  assert (H : forall w k n a acc, 0 <= n < 10 ^ Z.of_nat w ->
    read_digits (w + k) a (pad_digits w n acc) = read_digits k (a * 10 ^ Z.of_nat w + n) acc).
  { clear w. induction w as [|w IH]; intros k n a acc Hn.
    - cbn. f_equal. cbn in Hn. lia.
    - cbn [pad_digits]. replace (S w + k)%nat with (w + S k)%nat by lia.
      replace (Z.of_nat (S w)) with (1 + Z.of_nat w) in * by lia. rewrite Z.pow_add_r in * by lia.
      assert (Hd : 0 <= n mod 10 < 10) by (apply Z.mod_pos_bound; lia).
      rewrite IH.
      + cbn [read_digits]. replace (is_digit _) with true.
        * f_equal. rewrite ord_chr by lia. pose proof (Z.div_mod n 10). lia.
        * symmetry. apply in_range_spec. rewrite ord_chr by lia. lia.
      + split; [apply Z.div_pos; lia|apply Z.div_lt_upper_bound; lia]. }
  intros n a acc Hn. replace w with (w + 0)%nat at 1 by lia. by rewrite H.
Qed.

Lemma pad_append w : forall n acc t, pad_digits w n (acc +:+ t) = pad_digits w n acc +:+ t.
Proof. induction w as [|w IH]; intros n acc t; cbn; [done|]. by rewrite <- IH. Qed.

Lemma read_zpad w n t : 0 <= n < 10 ^ Z.of_nat w -> read_digits w 0 (zpad w n +:+ t) = Some (n, t).
Proof. intros Hn. unfold zpad. rewrite <- pad_append. by rewrite read_pad. Qed.

(** A check of the numbers from [z] on. *)
Fixpoint check_from (P : Z -> bool) (fuel : nat) (z : Z) : bool :=
  match fuel with O => true | S fuel => P z && check_from P fuel (z + 1) end.

Lemma check_from_spec P fuel : forall z x, check_from P fuel z = true -> z <= x < z + Z.of_nat fuel -> P x = true.
Proof.
  induction fuel as [|fuel IH]; intros z x; cbn [check_from]; [lia|]. intros [Hz Hr]%andb_true_iff Hx.
  destruct (decide (x = z)) as [->|]; [done|]. apply (IH (z + 1)); [done|lia].
Qed.

(** The day within a cycle of 400 years. *)
Lemma cycle doe : 0 <= doe < 146097 ->
  let yoe := (doe - doe / 1460 + doe / 36524 - doe / 146096) / 365 in
  0 <= yoe < 400 /\ 0 <= doe - (365 * yoe + yoe / 4 - yoe / 100) <= 365.
Proof. intros H yoe. split; subst yoe; lia. Qed.

(** The month and the day within a year that starts in March. *)
Lemma year_day doy : 0 <= doy <= 365 ->
  let mp := (5 * doy + 2) / 153 in
  0 <= mp < 12 /\ 1 <= doy - (153 * mp + 2) / 5 + 1 <= 31.
Proof.
  intros H. pose proof (check_from_spec (fun doy => let mp := (5 * doy + 2) / 153 in let d := doy - (153 * mp + 2) / 5 + 1 in
    (0 <=? mp) && (mp <? 12) && (1 <=? d) && (d <=? 31)) 366 0 doy ltac:(vm_compute; reflexivity) ltac:(lia)) as Hc.
  cbv beta zeta in Hc. rewrite !andb_true_iff, !Z.leb_le, Z.ltb_lt in Hc. cbv zeta. lia.
Qed.

Lemma civil_roundtrip z :
  let '(y, m, d) := civil_from_days z in days_from_civil y m d = z /\ 1 <= m <= 12 /\ 1 <= d <= 31.
Proof.
  unfold civil_from_days. set (era := (z + 719468) / 146097). set (doe := z + 719468 - era * 146097).
  assert (Hdoe : 0 <= doe < 146097) by (unfold doe, era; lia).
  pose proof (cycle doe Hdoe) as [Hyoe Hdoy]. cbv zeta in Hyoe, Hdoy.
  set (yoe := (doe - doe / 1460 + doe / 36524 - doe / 146096) / 365) in *.
  set (doy := doe - (365 * yoe + yoe / 4 - yoe / 100)) in *. pose proof (year_day doy Hdoy) as [Hmp Hday]. cbv zeta in Hmp, Hday.
  set (mp := (5 * doy + 2) / 153) in *. set (d := doy - (153 * mp + 2) / 5 + 1) in *.
  assert (H7 : yoe * 365 + yoe / 4 - yoe / 100 + ((153 * mp + 2) / 5 + d - 1) = doe) by (unfold d, doy; lia).
  clearbody d mp doy yoe. unfold days_from_civil. destruct (Z.ltb_spec mp 10).
  - replace (mp + 3 <=? 2) with false by lia. replace (2 <? mp + 3) with true by lia.
    replace ((yoe + era * 400) / 400) with era by (rewrite Z.div_add by lia; rewrite (Z.div_small yoe) by lia; lia).
    replace (mp + 3 - 3) with mp by lia. replace (yoe + era * 400 - era * 400) with yoe by lia. unfold doe in *. lia.
  - replace (mp - 9 <=? 2) with true by lia. replace (2 <? mp - 9) with false by lia.
    replace (yoe + era * 400 + 1 - 1) with (yoe + era * 400) by lia.
    replace ((yoe + era * 400) / 400) with era by (rewrite Z.div_add by lia; rewrite (Z.div_small yoe) by lia; lia).
    replace (mp - 9 + 9) with mp by lia. replace (yoe + era * 400 - era * 400) with yoe by lia. unfold doe in *. lia.
Qed.

(** A wall clock that [datetime] can hold. *)
Definition representable (us : Z) : Prop := let '(y, _, _) := civil_from_days (day_of us) in 1 <= y <= 9999.

Lemma zpad2_shape n t : 0 <= n < 100 -> read_digits 2 0 (zpad 2 n +:+ t) = Some (n, t).
Proof. intros H. by apply read_zpad. Qed.

(** What [isoformat] writes of a UTC datetime is read back. *)
Lemma fromisoformat_isoformat us : representable us -> fromisoformat (isoformat (utc us)) = Some (utc us).
Proof.
  unfold representable, isoformat, iso_wall, utc. cbn [wall tzinfo]. pose proof (civil_roundtrip (day_of us)) as Hciv.
  destruct (civil_from_days (day_of us)) as [[y m] d]. destruct Hciv as (Hdays & Hm & Hd). intros Hy.
  set (t := us mod us_per_day). assert (Ht : 0 <= t < 86400000000) by (unfold t, us_per_day; lia).
  set (s := t / us_per_second). set (u := t mod us_per_second).
  assert (Hs : 0 <= s < 86400 /\ 0 <= u < 1000000 /\ t = 1000000 * s + u) by (unfold s, u, us_per_second; lia).
  assert (Hus : us = days (day_of us) + t) by (unfold t, days, day_of, us_per_day; lia).
  assert (Hread : fromisoformat ((zpad 4 y +:+ "-" +:+ zpad 2 m +:+ "-" +:+ zpad 2 d +:+ "T" +:+ zpad 2 (s / 3600) +:+ ":" +:+
      zpad 2 (s / 60 mod 60) +:+ ":" +:+ zpad 2 (s mod 60) +:+ (if u =? 0 then "" else "." +:+ zpad 6 u)) +:+ iso_offset (Some 0)) =
    Some (Datetime (days (days_from_civil y m d) + seconds (3600 * (s / 3600) + 60 * (s / 60 mod 60) + s mod 60) + u) (Some 0))).
  { unfold fromisoformat. rewrite !append_assoc. rewrite read_zpad by (cbn; lia). cbn [mbind option_bind].
    cbn [String.append read_char Ascii.eqb Bool.eqb]. cbn [mbind option_bind].
    rewrite zpad2_shape by lia. cbn [mbind option_bind String.append read_char Ascii.eqb Bool.eqb].
    rewrite zpad2_shape by lia. cbn [mbind option_bind String.append read_char Ascii.eqb Bool.eqb].
    rewrite zpad2_shape by lia. cbn [mbind option_bind String.append read_char Ascii.eqb Bool.eqb].
    rewrite zpad2_shape by lia. cbn [mbind option_bind String.append read_char Ascii.eqb Bool.eqb].
    rewrite zpad2_shape by lia. cbn [mbind option_bind].
    destruct (Z.eqb_spec u 0) as [->|Hu].
    - cbn. f_equal.
    - cbn [String.append read_char Ascii.eqb Bool.eqb].
      rewrite read_zpad by (cbn; lia). cbn. done. }
  rewrite Hread, Hdays. do 2 f_equal. unfold seconds, us_per_second. lia.
Qed.

(** Two representable UTC times that [isoformat] writes alike are one. *)
Lemma isoformat_utc_z_inj a b :
  isoformat_utc_z a = isoformat_utc_z b -> representable a -> representable b -> a = b.
Proof.
  unfold isoformat_utc_z. intros He Ha Hb.
  assert (Hw : iso_wall a = iso_wall b).
  { pose proof (f_equal String.length He) as Hl. rewrite !length_append in Hl. cbn [String.length] in Hl.
    apply append_inj_length in He as [He _]; [done|lia]. }
  apply fromisoformat_isoformat in Ha, Hb. unfold isoformat in *. cbn [wall tzinfo utc] in *.
  rewrite Hw, Hb in Ha. by injection Ha.
Qed.
