(* ===== verification/Regex.v ===== *)
(** * Regular expressions of Python's [re]

    The fragment the modelled code uses: character classes, sequence,
    alternation, greedy repetition of a class and the anchors.  [re_match] is
    the backtracking matcher in continuation-passing style: it tries the
    alternatives in [re]'s order, so the first success is [re]'s match. *)

From Stdlib Require Import Ascii.
From S2P Require Import Prelude PyStr.

Inductive re : Type :=
| RClass (f : ascii -> bool)
| RSeq (a b : re)
| RAlt (a b : re)
| RRep (f : ascii -> bool) (lo : nat) (hi : option nat)
| RWordB
| REnd.

Definition RStr : string -> re :=
  fix go s := match s with
              | EmptyString => RRep (fun _ => false) 0 None
              | String c EmptyString => RClass (Ascii.eqb c)
              | String c r => RSeq (RClass (Ascii.eqb c)) (go r)
              end.

(** [\w] on ASCII text. *)
Definition is_word (c : ascii) : bool := is_alnum c || Ascii.eqb c "_".

(** [\b] between the previous character and the rest. *)
Definition at_boundary (prev : option ascii) (s : string) : bool :=
  let before := match prev with Some c => is_word c | None => false end in
  let after := match s with String c _ => is_word c | EmptyString => false end in
  xorb before after.

Definition below (hi : option nat) (n : nat) : bool :=
  match hi with Some m => (n <? m)%nat | None => true end.

Section Match.
Context {A : Type}.

  (** One greedy repetition, having consumed [n] characters. *)
Fixpoint rep_match (f : ascii -> bool) (lo : nat) (hi : option nat) (n : nat)
      (prev : option ascii) (s : string) (k : option ascii -> string -> option A) : option A :=
    let stop := if (lo <=? n)%nat then k prev s else None in
    match s with
    | EmptyString => stop
    | String c r =>
        if below hi n && f c then or_else (rep_match f lo hi (S n) (Some c) r k) stop
        else stop
    end.

Fixpoint re_match (e : re) (prev : option ascii) (s : string)
      (k : option ascii -> string -> option A) : option A :=
    match e with
    | RClass f => match s with
                  | String c r => if f c then k (Some c) r else None
                  | EmptyString => None
                  end
    | RSeq a b => re_match a prev s (fun p r => re_match b p r k)
    | RAlt a b => or_else (re_match a prev s k) (re_match b prev s k)
    | RRep f lo hi => rep_match f lo hi 0 prev s k
    | RWordB => if at_boundary prev s then k prev s else None
    | REnd => match s with EmptyString => k prev s | String _ _ => None end
    end.
End Match.

(** [re.fullmatch(e, s) is not None] *)
Definition fullmatch (e : re) (s : string) : bool :=
  is_someb (re_match e None s (fun _ r => if String.eqb r "" then Some tt else None)).

(** [re.search(e, s) is not None] *)
Fixpoint search_from (e : re) (prev : option ascii) (s : string) : bool :=
  is_someb (re_match e prev s (fun _ _ => Some tt)) ||
  match s with
  | EmptyString => false
  | String c r => search_from e (Some c) r
  end.
Definition search (e : re) (s : string) : bool := search_from e None s.

(** [re.sub(e, repl, s)] of an expression that matches no empty text: the
    leftmost matches, from left to right.  [skip] counts the characters of the
    last match still to be dropped. *)
Fixpoint sub_from (e : re) (repl : string) (skip : nat) (prev : option ascii) (s : string) : string :=
  match s with
  | EmptyString => EmptyString
  | String c r =>
      match skip with
      | S k => sub_from e repl k (Some c) r
      | O => match re_match e prev s (fun _ rest => Some rest) with
             | Some rest => repl +:+ sub_from e repl (String.length r - String.length rest) (Some c) r
             | None => String c (sub_from e repl 0 (Some c) r)
             end
      end
  end.
Definition sub (e : re) (repl s : string) : string := sub_from e repl 0 None s.

(** ** Lemmas *)

(** The length bound of a repetition. *)
Definition within (hi : option nat) (n : nat) : bool :=
  match hi with Some m => (n <=? m)%nat | None => true end.

Lemma below_within hi n : below hi n = within hi (S n).
Proof. by destruct hi. Qed.

Lemma within_le hi n k : (n <= k)%nat -> within hi n = false -> within hi k = false.
Proof. destruct hi; cbn; [|done]. rewrite !Nat.leb_gt. lia. Qed.

Lemma is_someb_or_else {A} (a b : option A) : is_someb (or_else a b) = is_someb a || is_someb b.
Proof. by destruct a. Qed.

(** A repetition of one class matches all of [s] exactly when [s] is made of
    that class and its length is in range. *)
Lemma rep_fullmatch f lo hi n prev s :
  within hi n = true ->
  is_someb (rep_match f lo hi n prev s (fun _ r => if String.eqb r "" then Some tt else None)) =
  sall f s && (lo <=? n + String.length s)%nat && within hi (n + String.length s).
Proof.
  revert n prev. induction s as [|c s IH]; intros n prev Hn; cbn [rep_match sall String.length].
  - rewrite Nat.add_0_r, Hn. by destruct (lo <=? n)%nat.
  - assert (Hstop : (if (lo <=? n)%nat then (if String.eqb (String c s) "" then Some tt else None) else None)
                    = @None unit) by (by destruct (lo <=? n)%nat).
    rewrite Hstop, below_within, <- plus_n_Sm, <- Nat.add_succ_l.
    destruct (f c); [|by rewrite andb_false_r].
    destruct (within hi (S n)) eqn:Hw; cbn [andb].
    + by rewrite is_someb_or_else, IH, orb_false_r by done.
    + rewrite (within_le hi (S n) (S n + String.length s)) by (done || lia). by rewrite andb_false_r.
Qed.

(** [fullmatch] of a bounded repetition of one class. *)
Lemma fullmatch_rep f lo hi s :
  fullmatch (RRep f lo hi) s = sall f s && (lo <=? String.length s)%nat && within hi (String.length s).
Proof. apply rep_fullmatch. by destruct hi. Qed.

(** ** Deleting the characters of a class *)

(** Once a greedy repetition has its minimum it consumes the whole run. *)
Lemma rep_match_run f lo n prev s :
  (lo <= n)%nat -> rep_match f lo None n prev s (fun _ rest => Some rest) = Some (lstrip_by f s).
Proof.
  revert n prev. induction s as [|c s IH]; intros n prev Hn; cbn [rep_match lstrip_by below];
    rewrite (proj2 (Nat.leb_le lo n) Hn); [done|].
  destruct (f c); cbn; [|done]. rewrite IH by lia. done.
Qed.

Lemma length_lstrip_by f s : (String.length (lstrip_by f s) <= String.length s)%nat.
Proof. induction s as [|c s IH]; cbn; [lia|]. destruct (f c); cbn; lia. Qed.

Lemma sub_from_skip e repl prev s k :
  (k <= String.length s)%nat -> exists prev', sub_from e repl k prev s = sub_from e repl 0 prev' (sdrop k s).
Proof.
  revert prev k. induction s as [|c s IH]; intros prev [|k] Hk; cbn in *; try (by exists prev).
  apply IH. lia.
Qed.

Lemma sdrop_lstrip f s : sdrop (String.length s - String.length (lstrip_by f s)) s = lstrip_by f s.
Proof.
  induction s as [|c s IH]; cbn; [done|]. pose proof (length_lstrip_by f s).
  destruct (f c).
  - rewrite Nat.sub_succ_l by lia. done.
  - by rewrite Nat.sub_diag.
Qed.

Lemma sfilter_lstrip f s : sfilter (fun c => negb (f c)) (lstrip_by f s) = sfilter (fun c => negb (f c)) s.
Proof. induction s as [|c s IH]; cbn; [done|]. by destruct (f c) eqn:Hc; cbn; rewrite ?Hc. Qed.

(** [re.sub("[...]+", "", s)] keeps the characters outside the class. *)
Lemma sub_delete f s : sub (RRep f 1 None) "" s = sfilter (fun c => negb (f c)) s.
Proof.
  unfold sub. generalize (None : option ascii).
  assert (H : forall n s, (String.length s <= n)%nat -> forall prev,
            sub_from (RRep f 1 None) "" 0 prev s = sfilter (fun c => negb (f c)) s);
    [|intros prev; by eapply H].
  clear s. intros n. induction n as [|n IH]; intros s Hn prev; (destruct s as [|c s]; [done|]); cbn in Hn; [lia|].
  cbn [sub_from re_match rep_match below sfilter Nat.leb andb].
  destruct (f c); cbn [negb or_else].
  - rewrite rep_match_run by lia. cbn [or_else String.append].
    destruct (sub_from_skip (RRep f 1 None) "" (Some c) s (String.length s - String.length (lstrip_by f s)))
      as [p' ->]; [lia|].
    rewrite sdrop_lstrip, IH; [apply sfilter_lstrip|]. pose proof (length_lstrip_by f s). lia.
  - f_equal. apply IH. lia.
Qed.

Example sub_ex : sub (RRep (fun c => negb (is_alnum c)) 1 None) "-" "acme & co." = "acme-co-".
Proof. reflexivity. Qed.
Example search_ex : search (RSeq RWordB (RSeq (RStr "AKIA") (RSeq (RRep is_digit 3 (Some 3%nat)) RWordB))) "x AKIA123."
  = true /\ search (RSeq RWordB (RSeq (RStr "AKIA") (RSeq (RRep is_digit 3 (Some 3%nat)) RWordB))) "x AKIA1234" = false.
Proof. split; reflexivity. Qed.
