(* ===== verification/RegexGroups.v ===== *)
(** * Regular expressions with groups

    The fragment of Python's [re] the PDF extractors use beyond [Regex]: numbered
    groups, lazy repetition, repetition of a group, the anchors of MULTILINE and
    [finditer].  [gmatch] is the backtracking matcher in continuation-passing style;
    [gmatches] is the relation it decides.  Flags are part of the expression: [GLit]
    with [ci] ignores case. *)

From Stdlib Require Import Ascii.
From S2P Require Import Prelude PyStr Regex.

Inductive gre : Type :=
| GEmpty
| GClass (f : ascii -> bool)
| GSeq (a b : gre)
| GAlt (a b : gre)
| GRep (greedy : bool) (f : ascii -> bool) (lo : nat) (hi : option nat)
| GPlus (a : gre)
| GGroup (n : nat) (a : gre)
| GWordB
| GBol
| GEol.

Definition groups : Type := list (nat * string).

(** The text between a position and a later one of the same subject. *)
Definition consumed (s r : string) : string := stake (String.length s - String.length r) s.

(** [^] and [$] of MULTILINE. *)
Definition at_bol (prev : option ascii) : bool := match prev with None => true | Some c => Ascii.eqb c "010" end.
Definition at_eol (s : string) : bool := match s with EmptyString => true | String c _ => Ascii.eqb c "010" end.

Section Match.
Context {A : Type}.

(** One repetition of a class, having consumed [n] characters. *)
Fixpoint grep_match (greedy : bool) (f : ascii -> bool) (lo : nat) (hi : option nat) (n : nat)
    (prev : option ascii) (s : string) (k : option ascii -> string -> option A) : option A :=
  let stop := if (lo <=? n)%nat then k prev s else None in
  match s with
  | EmptyString => stop
  | String c r =>
      if below hi n && f c then
        let more := grep_match greedy f lo hi (S n) (Some c) r k in
        if greedy then or_else more stop else or_else stop more
      else stop
  end.

(** [(?:a)+]: further rounds must consume something. *)
Fixpoint plus_match (step : option ascii -> string -> groups -> (option ascii -> string -> groups -> option A) -> option A)
    (fuel : nat) (prev : option ascii) (s : string) (g : groups) (k : option ascii -> string -> groups -> option A) : option A :=
  step prev s g (fun p r g' =>
    or_else (match fuel with
             | S n => if (String.length r <? String.length s)%nat then plus_match step n p r g' k else None
             | O => None
             end) (k p r g')).

Fixpoint gmatch (e : gre) (prev : option ascii) (s : string) (g : groups)
    (k : option ascii -> string -> groups -> option A) : option A :=
  match e with
  | GEmpty => k prev s g
  | GClass f => match s with
                | String c r => if f c then k (Some c) r g else None
                | EmptyString => None
                end
  | GSeq a b => gmatch a prev s g (fun p r g' => gmatch b p r g' k)
  | GAlt a b => or_else (gmatch a prev s g k) (gmatch b prev s g k)
  | GRep greedy f lo hi => grep_match greedy f lo hi 0 prev s (fun p r => k p r g)
  | GPlus a => plus_match (fun p r g' k' => gmatch a p r g' k') (String.length s) prev s g k
  | GGroup n a => gmatch a prev s g (fun p r g' => k p r ((n, consumed s r) :: g'))
  | GWordB => if at_boundary prev s then k prev s g else None
  | GBol => if at_bol prev then k prev s g else None
  | GEol => if at_eol s then k prev s g else None
  end.
End Match.

(** ** Matches *)

(** A match object: the text matched, what follows it, and the groups. *)
Record Match : Type := { m_text : string; m_rest : string; m_groups : groups }.

(** [m.group(n)]; [None] for a group that took no part in the match. *)
Fixpoint group_in (n : nat) (g : groups) : option string :=
  match g with [] => None | (i, t) :: r => if (i =? n)%nat then Some t else group_in n r end.
Definition group (n : nat) (m : Match) : option string := group_in n (m_groups m).
(** The text of a group that takes part in every match of its expression. *)
Definition group_text (n : nat) (m : Match) : string := default "" (group n m).

Definition match_at (e : gre) (prev : option ascii) (s : string) : option Match :=
  gmatch e prev s [] (fun _ r g => Some {| m_text := consumed s r; m_rest := r; m_groups := g |}).

(** [re.fullmatch] *)
Definition gfullmatch (e : gre) (s : string) : option Match :=
  gmatch e None s [] (fun _ r g => if String.eqb r "" then Some {| m_text := s; m_rest := r; m_groups := g |} else None).

(** [re.match] *)
Definition gprefix (e : gre) (s : string) : option Match := match_at e None s.

(** [re.search] *)
Fixpoint gsearch_from (e : gre) (prev : option ascii) (s : string) : option Match :=
  or_else (match_at e prev s) (match s with EmptyString => None | String c r => gsearch_from e (Some c) r end).
Definition gsearch (e : gre) (s : string) : option Match := gsearch_from e None s.

(** [re.finditer] of an expression that matches no empty text; [skip] counts the
    characters of the last match still to be passed. *)
Fixpoint gfind_from (e : gre) (skip : nat) (prev : option ascii) (s : string) : list Match :=
  match s with
  | EmptyString => []
  | String c r =>
      match skip with
      | S k => gfind_from e k (Some c) r
      | O => match match_at e prev s with
             | Some m => m :: gfind_from e (String.length r - String.length (m_rest m)) (Some c) r
             | None => gfind_from e 0 (Some c) r
             end
      end
  end.
Definition gfinditer (e : gre) (s : string) : list Match := gfind_from e 0 None s.

(** ** Abbreviations *)

Definition seq_of (l : list gre) : gre := foldr GSeq GEmpty l.
Definition alt_of (l : list gre) : gre :=
  match l with [] => GClass (fun _ => false) | e :: r => fold_left GAlt r e end.
Definition opt (e : gre) : gre := GAlt e GEmpty.
Definition ch (c : ascii) : gre := GClass (Ascii.eqb c).
(** A character up to case. *)
Definition same_ci (c d : ascii) : bool := Ascii.eqb (lower_char c) (lower_char d).
Fixpoint lit_of (eq : ascii -> ascii -> bool) (s : string) : gre :=
  match s with EmptyString => GEmpty | String c r => GSeq (GClass (eq c)) (lit_of eq r) end.
Definition lit : string -> gre := lit_of Ascii.eqb.
Definition lit_ci : string -> gre := lit_of same_ci.
Definition star (f : ascii -> bool) : gre := GRep true f 0 None.
Definition many (f : ascii -> bool) : gre := GRep true f 1 None.
Definition times (f : ascii -> bool) (lo hi : nat) : gre := GRep true f lo (Some hi).
Definition maybe (f : ascii -> bool) : gre := times f 0 1.
Definition spaces : gre := star is_space.
(** [.] *)
Definition not_nl (c : ascii) : bool := negb (Ascii.eqb c "010").
Definition one_of (l : string) (c : ascii) : bool := contains_char c l.

(** ** The relation the matcher decides *)

Inductive greps (f : ascii -> bool) (lo : nat) (hi : option nat) : nat -> option ascii -> string -> option ascii -> string -> Prop :=
| greps_stop n prev s : (lo <= n)%nat -> greps f lo hi n prev s prev s
| greps_more n prev c s prev' r : below hi n = true -> f c = true ->
    greps f lo hi (S n) (Some c) s prev' r -> greps f lo hi n prev (String c s) prev' r.

Inductive gmatches : gre -> option ascii -> string -> groups -> option ascii -> string -> groups -> Prop :=
| m_empty prev s g : gmatches GEmpty prev s g prev s g
| m_class f prev c s g : f c = true -> gmatches (GClass f) prev (String c s) g (Some c) s g
| m_seq a b p0 s0 g0 p1 s1 g1 p2 s2 g2 :
    gmatches a p0 s0 g0 p1 s1 g1 -> gmatches b p1 s1 g1 p2 s2 g2 -> gmatches (GSeq a b) p0 s0 g0 p2 s2 g2
| m_left a b p0 s0 g0 p1 s1 g1 : gmatches a p0 s0 g0 p1 s1 g1 -> gmatches (GAlt a b) p0 s0 g0 p1 s1 g1
| m_right a b p0 s0 g0 p1 s1 g1 : gmatches b p0 s0 g0 p1 s1 g1 -> gmatches (GAlt a b) p0 s0 g0 p1 s1 g1
| m_rep greedy f lo hi p0 s0 g p1 s1 : greps f lo hi 0 p0 s0 p1 s1 -> gmatches (GRep greedy f lo hi) p0 s0 g p1 s1 g
| m_plus_last a p0 s0 g0 p1 s1 g1 : gmatches a p0 s0 g0 p1 s1 g1 -> gmatches (GPlus a) p0 s0 g0 p1 s1 g1
| m_plus_more a p0 s0 g0 p1 s1 g1 p2 s2 g2 :
    gmatches a p0 s0 g0 p1 s1 g1 -> (String.length s1 < String.length s0)%nat ->
    gmatches (GPlus a) p1 s1 g1 p2 s2 g2 -> gmatches (GPlus a) p0 s0 g0 p2 s2 g2
| m_group n a p0 s0 g0 p1 s1 g1 : gmatches a p0 s0 g0 p1 s1 g1 ->
    gmatches (GGroup n a) p0 s0 g0 p1 s1 ((n, consumed s0 s1) :: g1)
| m_wordb prev s g : at_boundary prev s = true -> gmatches GWordB prev s g prev s g
| m_bol prev s g : at_bol prev = true -> gmatches GBol prev s g prev s g
| m_eol prev s g : at_eol s = true -> gmatches GEol prev s g prev s g.

(** ** Lemmas *)

Lemma or_else_Some {A} (a b : option A) x : or_else a b = Some x -> a = Some x \/ b = Some x.
Proof. destruct a; cbn; auto. Qed.

Lemma grep_match_sound {A} greedy f lo hi s : forall n prev (k : option ascii -> string -> option A) a,
  grep_match greedy f lo hi n prev s k = Some a -> exists p r, greps f lo hi n prev s p r /\ k p r = Some a.
Proof.
  induction s as [|c s IH]; intros n prev k a; cbn [grep_match].
  - destruct (lo <=? n)%nat eqn:Hl; [|done]. intros Hk. exists prev, "". split; [constructor; lia|done].
  - assert (Hstop : (if (lo <=? n)%nat then k prev (String c s) else None) = Some a ->
      exists p r, greps f lo hi n prev (String c s) p r /\ k p r = Some a).
    { destruct (lo <=? n)%nat eqn:Hl; [|done]. intros Hk. exists prev, (String c s). split; [constructor; lia|done]. }
    destruct (below hi n && f c) eqn:Hc; [|exact Hstop]. apply andb_true_iff in Hc as [Hb Hf].
    assert (Hmore : grep_match greedy f lo hi (S n) (Some c) s k = Some a ->
      exists p r, greps f lo hi n prev (String c s) p r /\ k p r = Some a).
    { intros (p & r & Hr & Hk)%IH. exists p, r. split; [by apply greps_more|done]. }
    destruct greedy; intros [H|H]%or_else_Some; auto.
Qed.

Lemma grep_match_complete {A} greedy f lo hi n prev s p r (k : option ascii -> string -> option A) :
  greps f lo hi n prev s p r -> is_Some (k p r) -> is_Some (grep_match greedy f lo hi n prev s k).
Proof.
  intros H Hk. induction H as [n prev s Hl|n prev c s p r Hb Hf H IH].
  - destruct s as [|c s]; cbn [grep_match]; replace (lo <=? n)%nat with true by lia; [done|].
    destruct (below hi n && f c); [|done]. destruct Hk as [x Hx]. rewrite Hx. destruct greedy; [|done].
    by destruct (grep_match _ _ _ _ _ _ _ _).
  - cbn [grep_match]. rewrite Hb, Hf. cbn [andb]. destruct (IH Hk) as [a Ha]. rewrite Ha.
    destruct greedy; [done|]. by destruct (if (lo <=? n)%nat then _ else _).
Qed.

Lemma plus_match_sound {A} a fuel : forall prev s g (k : option ascii -> string -> groups -> option A) x,
  (forall prev s g (k : option ascii -> string -> groups -> option A) x, gmatch a prev s g k = Some x ->
     exists p r g', gmatches a prev s g p r g' /\ k p r g' = Some x) ->
  plus_match (fun p r g' k' => gmatch a p r g' k') fuel prev s g k = Some x ->
  exists p r g', gmatches (GPlus a) prev s g p r g' /\ k p r g' = Some x.
Proof.
  induction fuel as [|n IH]; intros prev s g k x Ha H; cbn [plus_match] in H;
    apply Ha in H as (p & r & g' & Hm & [H|H]%or_else_Some); try done;
    try (exists p, r, g'; split; [by apply m_plus_last|done]).
  destruct (String.length r <? String.length s)%nat eqn:Hl; [|done].
  apply IH in H as (p' & r' & g'' & Hp & Hk); [|done]. exists p', r', g''. split; [|done].
  eapply m_plus_more; [exact Hm|lia|exact Hp].
Qed.

(** What the matcher answers is what a match of the relation gives to the
    continuation. *)
Lemma gmatch_sound {A} e : forall prev s g (k : option ascii -> string -> groups -> option A) x,
  gmatch e prev s g k = Some x -> exists p r g', gmatches e prev s g p r g' /\ k p r g' = Some x.
Proof.
  induction e as [|f|a IHa b IHb|a IHa b IHb|greedy f lo hi|a IHa|n a IHa| | |]; intros prev s g k x H; cbn [gmatch] in H.
  - exists prev, s, g. split; [constructor|done].
  - destruct s as [|c s]; [done|]. destruct (f c) eqn:Hf; [|done]. exists (Some c), s, g. split; [by constructor|done].
  - apply IHa in H as (p & r & g1 & Ha & (p' & r' & g2 & Hb & Hk)%IHb). exists p', r', g2. split; [by eapply m_seq|done].
  - apply or_else_Some in H as [(p & r & g1 & Ha & Hk)%IHa|(p & r & g1 & Ha & Hk)%IHb]; exists p, r, g1;
      (split; [eauto using m_left, m_right|done]).
  - apply grep_match_sound in H as (p & r & Hr & Hk). exists p, r, g. split; [by constructor|done].
  - by eapply plus_match_sound.
  - apply IHa in H as (p & r & g1 & Ha & Hk). exists p, r, ((n, consumed s r) :: g1). split; [by constructor|done].
  - destruct (at_boundary prev s) eqn:Hb; [|done]. exists prev, s, g. split; [by constructor|done].
  - destruct (at_bol prev) eqn:Hb; [|done]. exists prev, s, g. split; [by constructor|done].
  - destruct (at_eol s) eqn:Hb; [|done]. exists prev, s, g. split; [by constructor|done].
Qed.

Lemma plus_match_complete {A} a prev s g p r g' (k : option ascii -> string -> groups -> option A) :
  (forall prev s g p r g' (k : option ascii -> string -> groups -> option A),
     gmatches a prev s g p r g' -> is_Some (k p r g') -> is_Some (gmatch a prev s g k)) ->
  gmatches (GPlus a) prev s g p r g' -> is_Some (k p r g') ->
  forall fuel, (String.length s <= fuel)%nat -> is_Some (plus_match (fun p r g' k' => gmatch a p r g' k') fuel prev s g k).
Proof.
  intros Ha H Hk. remember (GPlus a) as e eqn:He.
  induction H as [| | | | | |a' p0 s0 g0 p1 s1 g1 Hm _|a' p0 s0 g0 p1 s1 g1 p2 s2 g2 Hm _ Hl Hp IH| | | |];
    try discriminate He; injection He as ->; intros fuel Hf.
  - destruct fuel; cbn [plus_match]; (eapply Ha; [exact Hm|]); cbv beta; [done|].
    destruct (String.length s1 <? String.length s0)%nat; [|done]. by destruct (plus_match _ _ _ _ _ _).
  - destruct fuel as [|fuel]; [lia|]. cbn [plus_match]. eapply Ha; [exact Hm|]. cbv beta.
    replace (String.length s1 <? String.length s0)%nat with true by lia.
    destruct (IH eq_refl Hk fuel ltac:(lia)) as [x Hx]. by rewrite Hx.
Qed.

(** Whenever the relation has a match the continuation accepts, the matcher finds
    one. *)
Lemma gmatch_complete {A} e : forall prev s g p r g' (k : option ascii -> string -> groups -> option A),
  gmatches e prev s g p r g' -> is_Some (k p r g') -> is_Some (gmatch e prev s g k).
Proof.
  induction e as [|f|a IHa b IHb|a IHa b IHb|greedy f lo hi|a IHa|n a IHa| | |]; intros prev s g p r g' k H Hk.
  6: { eapply plus_match_complete; [exact IHa|exact H|exact Hk|lia]. }
  all: inversion H; subst; cbn [gmatch].
  - done.
  - case_match; congruence.
  - eapply IHa; [eassumption|]. cbv beta. by eapply IHb.
  - edestruct (IHa prev s g p r g' k) as [x Hx]; [eassumption..|]. by rewrite Hx.
  - destruct (gmatch a prev s g k); [done|]. by eapply IHb.
  - by eapply grep_match_complete.
  - by eapply IHa.
  - case_match; congruence.
  - case_match; congruence.
  - case_match; congruence.
Qed.

Lemma greps_append f lo hi n prev s p r : greps f lo hi n prev s p r -> exists t, s = t +:+ r /\ sall f t = true /\
  (lo <= n + String.length t)%nat /\ (within hi n = true -> within hi (n + String.length t) = true).
Proof.
  induction 1 as [n prev s Hl|n prev c s p r Hb Hf _ (t & -> & Ht & Hn & Hw)].
  - exists "". cbn. rewrite Nat.add_0_r. auto.
  - exists (String c t). cbn [String.append sall String.length]. rewrite Hf, Ht, Nat.add_succ_r.
    split_and!; [done|done|lia|]. intros _. apply Hw. by rewrite <- below_within.
Qed.

Lemma gmatches_append e prev s g p r g' : gmatches e prev s g p r g' -> exists t, s = t +:+ r.
Proof.
  induction 1 as [| | | | |greedy f lo hi p0 s0 g p1 s1 Hr| | | | | |]; repeat match goal with H : exists _, _ |- _ => destruct H end; subst;
    try (by exists ""); try (eexists; by rewrite <- append_assoc); eauto.
  - by exists (String c "").
  - apply greps_append in Hr as (t & -> & _). by exists t.
Qed.

Lemma consumed_append t r : consumed (t +:+ r) r = t.
Proof.
  unfold consumed. rewrite length_append, Nat.add_sub. induction t as [|c t IH]; cbn; [by destruct r|by rewrite IH].
Qed.
