(* ===== verification/Crypto.v ===== *)
(** * Signing keys

    utils/crypto.py: parsing of the configured signing key, the process-wide
    cache of the default key, and the never-raising signature check.  The
    Ed25519 primitives and the PEM codec are the [cryptography] package; the
    class [Ed25519] states the operations the code calls and the documented
    facts it relies on. *)

From Stdlib Require Import Ascii.
From S2P Require Import Prelude PyStr Encoding.

Class Ed25519 : Type := {
  private_key : Type;
  public_key : Type;
  (** [serialization.load_pem_private_key]: [None] when it raises or the key
      is of another type. *)
  load_pem_private_key : string -> option private_key;
  (** [Ed25519PrivateKey.from_private_bytes] of a 32-byte seed. *)
  from_private_bytes : bytes -> private_key;
  public_of : private_key -> public_key;
  (** [public_bytes(PEM, SubjectPublicKeyInfo)] and [load_pem_public_key]. *)
  public_pem : public_key -> string;
  load_pem_public_key : string -> option public_key;
  raw_sign : private_key -> bytes -> bytes;
  (** [false] is [InvalidSignature]. *)
  raw_verify : public_key -> bytes -> bytes -> bool;
}.

(** The documented facts about the package. *)
Class Ed25519Laws (E : Ed25519) : Prop := {
  load_public_pem : forall p, load_pem_public_key (public_pem p) = Some p;
  public_pem_not_blank : forall p, truthy (strip (public_pem p)) = true;
  verify_sign : forall k m, raw_verify (public_of k) m (raw_sign k m) = true;
  signature_length : forall k m, String.length (raw_sign k m) = 64%nat;
}.

Inductive crypto_error : Type :=
| ValueError (msg : string)
| RuntimeError (msg : string).

Section Crypto.
Context `{E : Ed25519}.

(** utils/crypto.py, [_ED25519_SEED_LEN]. *)
Definition _ED25519_SEED_LEN : Z := 32.

(** utils/crypto.py, [_looks_like_pem]. *)
Definition _looks_like_pem (text : string) : bool :=
  contains "-----BEGIN" text && contains "-----END" text.

(** utils/crypto.py, [_try_load_pem]. *)
Definition _try_load_pem (pem_text : string) : result crypto_error private_key :=
  match load_pem_private_key pem_text with
  | Some k => Ok k
  | None => Raise (ValueError "pem")
  end.

(** utils/crypto.py, [_try_load_b64_seed]. *)
Definition _try_load_b64_seed (b64_text : string) : result crypto_error private_key :=
  let cleaned := join "" (split_ws b64_text) in
  let padding := (- slen cleaned) mod 4 in
  let cleaned := if negb (padding =? 0) then cleaned +:+ stake (Z.to_nat padding) "====" else cleaned in
  match b64decode cleaned with
  | None => Raise (ValueError "Signing key is neither valid PEM nor base64")
  | Some raw =>
      if negb (slen raw =? _ED25519_SEED_LEN)
      then Raise (ValueError "Ed25519 raw seed must be 32 bytes")
      else Ok (from_private_bytes raw)
  end.

(** utils/crypto.py, [load_signing_key]. *)
Definition load_signing_key (pem_or_b64 : string) : result crypto_error private_key :=
  if negb (truthy (strip pem_or_b64)) then Raise (ValueError "Signing key material is empty")
  else
    let text := strip pem_or_b64 in
    if _looks_like_pem text then _try_load_pem text
    else match _try_load_b64_seed text with
         | Ok k => Ok k
         | Raise e =>
             match _try_load_pem text with
             | Ok k => Ok k
             | Raise _ => Raise (ValueError "Signing key is neither a valid PEM Ed25519 key nor a base64-encoded 32-byte seed")
             end
         end.

(** utils/crypto.py, [sign]. *)
Definition sign (key : private_key) (message : bytes) : bytes := raw_sign key message.

(** utils/crypto.py, [derive_public_pem]. *)
Definition derive_public_pem (key : private_key) : string := public_pem (public_of key).

(** utils/crypto.py, [_load_public_key]. *)
Definition _load_public_key (public_key_pem : string) : option public_key :=
  load_pem_public_key public_key_pem.

(** utils/crypto.py, [verify]: [false] on any failure. *)
Definition verify (public_key_pem : string) (message sig : bytes) : bool :=
  match _load_public_key public_key_pem with
  | None => false
  | Some p => raw_verify p message sig
  end.

(** utils/crypto.py:32-34, [_cached_key] and [_cached_source]. *)
Record key_cache : Type := { _cached_key : option private_key; _cached_source : option string }.

(** utils/crypto.py, [get_default_signing_key]; [source] is
    [settings.receipt_signing_private_key_pem]. *)
Definition get_default_signing_key (source : string) : M key_cache crypto_error private_key :=
  raise_if (negb (truthy (strip source)))
    (RuntimeError "RECEIPT_SIGNING_PRIVATE_KEY_PEM is not configured; cannot sign receipts") ;;;
  let* cache := reads (fun c => c) in
  match _cached_key cache, decide (_cached_source cache = Some source) with
  | Some k, left _ => ret k
  | _, _ =>
      let* key := (fun c => (load_signing_key source, c)) in
      modify (fun _ => {| _cached_key := Some key; _cached_source := Some source |}) ;;;
      ret key
  end.

(** utils/crypto.py, [reset_default_signing_key_cache]. *)
Definition reset_default_signing_key_cache : M key_cache crypto_error unit :=
  modify (fun _ => {| _cached_key := None; _cached_source := None |}).

(** The cached key is the one its source parses to. *)
Definition cache_ok (c : key_cache) : Prop :=
  forall k src, _cached_key c = Some k -> _cached_source c = Some src -> load_signing_key src = Ok k.

Lemma get_default_signing_key_spec source c :
  cache_ok c ->
  cache_ok (snd (get_default_signing_key source c)) /\
  fst (get_default_signing_key source c) =
    (if truthy (strip source) then load_signing_key source
     else Raise (RuntimeError "RECEIPT_SIGNING_PRIVATE_KEY_PEM is not configured; cannot sign receipts")).
Proof.
  intros Hc. unfold get_default_signing_key. destruct (truthy (strip source)); cbn; [|done].
  unfold bind, reads, ret, modify. cbn.
  assert (Hload : cache_ok (snd (match load_signing_key source with
            | Ok a => (Ok a, {| _cached_key := Some a; _cached_source := Some source |})
            | Raise e => (Raise e, c) end)) /\
          fst (match load_signing_key source with
            | Ok a => (Ok a, {| _cached_key := Some a; _cached_source := Some source |})
            | Raise e => (Raise e, c) end) = load_signing_key source).
  { destruct (load_signing_key source) eqn:Hl; cbn; [|done]. split; [|done].
    intros k src. cbn. congruence. }
  destruct (_cached_key c) as [k|] eqn:Hk; [|exact Hload].
  destruct (decide _) as [Hs|]; [|exact Hload]. cbn. split; [done|]. symmetry. by apply Hc.
Qed.

Lemma verify_derived `{L : !Ed25519Laws E} k m : verify (derive_public_pem k) m (sign k m) = true.
Proof.
  unfold verify, derive_public_pem, _load_public_key, sign. by rewrite load_public_pem, verify_sign.
Qed.

Lemma sign_truthy `{L : !Ed25519Laws E} k m : truthy (sign k m) = true.
Proof.
  apply truthy_spec. intros H. pose proof (signature_length k m) as Hl. unfold sign in H. by rewrite H in Hl.
Qed.
End Crypto.

(** ** A concrete instance: the key is its seed, a signature is keyed by it. *)

Module DemoCrypto.
Lemma strip_starts c s : is_space c = false -> truthy (strip (String c s)) = true.
Proof. intros Hc. unfold strip, strip_by. cbn. rewrite Hc. cbn. rewrite Hc. by destruct (rstrip_by is_space s). Qed.

Definition pad64 (b : bytes) : bytes :=
  stake 64 (b +:+ "0000000000000000000000000000000000000000000000000000000000000000").

Lemma length_pad64 b : String.length (pad64 b) = 64%nat.
Proof.
  unfold pad64. rewrite length_stake, length_append.
  change (String.length "0000000000000000000000000000000000000000000000000000000000000000") with 64%nat.
  lia.
Qed.

#[export] Instance demo : Ed25519 := {|
  private_key := string;
  public_key := string;
  load_pem_private_key := fun s => if startswith "-----BEGIN" s then Some s else None;
  from_private_bytes := fun s => s;
  public_of := fun k => k;
  public_pem := fun p => "PUBLIC " +:+ p;
  load_pem_public_key := fun s => if startswith "PUBLIC " s then Some (sdrop 7 s) else None;
  raw_sign := fun k m => pad64 (m +:+ k);
  raw_verify := fun p m sig => String.eqb sig (pad64 (m +:+ p));
|}.

#[export] Instance demo_laws : Ed25519Laws demo.
Proof.
  split; intros.
  - by destruct p.
  - by apply (strip_starts "P"%char).
  - apply String.eqb_refl.
  - apply length_pad64.
Qed.
End DemoCrypto.
