(* ===== verification/CanonicalJson.v ===== *)
(** * Canonical JSON

    utils/canonical_json.py: the retained legacy encoder, as a function on
    JSON values, and the dual-encoder check.  The default encoder is
    [rfc8785.dumps], a package: it is a variable here ([None] is
    [CanonicalizationError]). *)

From Stdlib Require Import Ascii SpecFloat.
From S2P Require Import Prelude PyStr Json Encoding.

Inductive encode_error : Type := EncodeValueError.

(** utils/canonical_json.py, [_legacy_escape_str]: backslash, quote and the
    control characters, by [_LEGACY_ESCAPE_MAP] or as [\u00xx]. *)
Definition escape_char (c : ascii) : string :=
  let n := ord c in
  if n =? 92 then String c (String c "")
  else if n =? 34 then String (chr 92) (String c "")
  else if n =? 8 then String (chr 92) "b"
  else if n =? 12 then String (chr 92) "f"
  else if n =? 10 then String (chr 92) "n"
  else if n =? 13 then String (chr 92) "r"
  else if n =? 9 then String (chr 92) "t"
  else if n <? 32 then String (chr 92) ("u00" +:+ String (hex_digit (n / 16)) (String (hex_digit (n mod 16)) ""))
  else String c "".
Fixpoint escape_chars (value : string) : string :=
  match value with
  | EmptyString => EmptyString
  | String c r => escape_char c +:+ escape_chars r
  end.
Definition _legacy_escape_str (value : string) : string :=
  String (chr 34) (escape_chars value +:+ String (chr 34) "").

(** [int(s)] of an exponent: an optional sign and decimal digits. *)
Fixpoint digits_value (acc : Z) (s : string) : Z :=
  match s with
  | EmptyString => acc
  | String c r => digits_value (10 * acc + (ord c - 48)) r
  end.
Definition int_of_exp (s : string) : Z :=
  match s with
  | String c r => if Ascii.eqb c "-" then - digits_value 0 r
                  else if Ascii.eqb c "+" then digits_value 0 r else digits_value 0 s
  | EmptyString => 0
  end.
(** [f"{z:+d}"] *)
Definition signed_str (z : Z) : string := if z <? 0 then str_of_Z z else "+" +:+ str_of_Z z.

(** [abs(f) < 1e16] and [f == int(f)] of a finite float, on its exact value. *)
Definition float_is_integral (f : spec_float) : bool :=
  match f with
  | S754_zero _ => true
  | S754_finite _ m e => (0 <=? e) || (Zpos m mod 2 ^ (- e) =? 0)
  | _ => false
  end.
Definition float_abs_lt_1e16 (f : spec_float) : bool :=
  match f with
  | S754_zero _ => true
  | S754_finite _ m e => if 0 <=? e then Zpos m * 2 ^ e <? 10 ^ 16 else Zpos m <? 10 ^ 16 * 2 ^ (- e)
  | _ => false
  end.

(** Code points order as UTF-16 code units do on ASCII text. *)
Definition key_le (x y : string * string) : bool := String.leb x.1 y.1.

Fixpoint sequence {E A} (l : list (result E A)) : result E (list A) :=
  match l with
  | [] => Ok []
  | Ok a :: r => match sequence r with Ok l' => Ok (a :: l') | Raise e => Raise e end
  | Raise e :: _ => Raise e
  end.

Section Canonical.
(** [repr(f)] of a finite float. *)
Context (float_repr : spec_float -> string).
(** [rfc8785.dumps] *)
Context (canonical_json_bytes : json -> option bytes).

(** utils/canonical_json.py:103-116, [_legacy_format_number]: the shortening of
    a float's [repr]. *)
Definition strip_zeros (s : string) : string :=
  let t := rstrip_by (Ascii.eqb ".") (rstrip_by (Ascii.eqb "0") s) in
  if String.eqb t "" || String.eqb t "-" then t +:+ "0" else t.
Definition format_repr (text : string) : string :=
  if contains_char "e" text || contains_char "E" text then
    let '(mantissa, _, exp) := if contains_char "e" text then partition_char "e" text
                               else partition_char "E" text in
    let mantissa := if contains_char "." mantissa then strip_zeros mantissa else mantissa in
    mantissa +:+ "e" +:+ signed_str (int_of_exp exp)
  else if contains_char "." text then strip_zeros text
  else text.

(** utils/canonical_json.py, [_legacy_format_number]. *)
Definition _legacy_format_number (value : Z + spec_float) : result encode_error string :=
  match value with
  | inl z => Ok (str_of_Z z)
  | inr f =>
      if negb (float_is_finite f) then Raise EncodeValueError
      else if float_is_zero f then Ok "0"
      else if float_is_integral f && float_abs_lt_1e16 f then Ok (str_of_Z (default 0 (int_of_float f)))
      else Ok (format_repr (float_repr f))
  end.

(** utils/canonical_json.py, [_legacy_encode]. *)
Fixpoint _legacy_encode (value : json) : result encode_error string :=
  match value with
  | JNull => Ok "null"
  | JBool b => Ok (if b then "true" else "false")
  | JInt z => _legacy_format_number (inl z)
  | JFloat f => _legacy_format_number (inr f)
  | JStr s => Ok (_legacy_escape_str s)
  | JList l =>
      match sequence (map _legacy_encode l) with
      | Ok parts => Ok ("[" +:+ join "," parts +:+ "]")
      | Raise e => Raise e
      end
  | JObj kvs =>
      match sequence (map (fun kv : string * json =>
                        match _legacy_encode kv.2 with
                        | Ok v => Ok (kv.1, v) | Raise e => Raise e end) kvs) with
      | Ok items =>
          Ok ("{" +:+ join "," (map (fun kv : string * string =>
                             _legacy_escape_str kv.1 +:+ ":" +:+ kv.2) (isort key_le items)) +:+ "}")
      | Raise e => Raise e
      end
  end.

(** utils/canonical_json.py, [legacy_canonical_json_bytes]. *)
Definition legacy_canonical_json_bytes (obj : json) : result encode_error bytes := _legacy_encode obj.

(** utils/canonical_json.py, [verify_canonical_match]. *)
Definition verify_canonical_match (obj : json) (verifier : bytes -> bool) : bool :=
  let new_bytes := canonical_json_bytes obj in
  if match new_bytes with Some b => verifier b | None => false end then true
  else match legacy_canonical_json_bytes obj with
       | Raise _ => false
       | Ok old_bytes =>
           if match new_bytes with Some b => String.eqb old_bytes b | None => false end then false
           else verifier old_bytes
       end.

(** ** Lemmas *)

Lemma verify_canonical_match_spec obj verifier :
  verify_canonical_match obj verifier = true <->
  (exists b, canonical_json_bytes obj = Some b /\ verifier b = true) \/
  (exists b, legacy_canonical_json_bytes obj = Ok b /\ verifier b = true).
Proof.
  unfold verify_canonical_match. destruct (canonical_json_bytes obj) as [b|].
  - destruct (verifier b) eqn:Hb; [split; [|done]; left; eauto|].
    destruct (legacy_canonical_json_bytes obj) as [o|e].
    + destruct (String.eqb_spec o b) as [->|]; naive_solver congruence.
    + naive_solver congruence.
  - destruct (legacy_canonical_json_bytes obj) as [o|e]; naive_solver congruence.
Qed.
End Canonical.

(** *** Escaped strings read back *)

(** One character of a JSON string literal. *)
Definition unescape_step (s : string) : option (ascii * string) :=
  match s with
  | EmptyString => None
  | String c r =>
      if ord c =? 92 then
        match r with
        | String d r' =>
            if (ord d =? 92) || (ord d =? 34) then Some (d, r')
            else if Ascii.eqb d "b" then Some (chr 8, r')
            else if Ascii.eqb d "f" then Some (chr 12, r')
            else if Ascii.eqb d "n" then Some (chr 10, r')
            else if Ascii.eqb d "r" then Some (chr 13, r')
            else if Ascii.eqb d "t" then Some (chr 9, r')
            else match r' with
                 | String _ (String _ (String x (String y r''))) =>
                     match unhex_digit x, unhex_digit y with
                     | Some vx, Some vy => Some (chr (16 * vx + vy), r'')
                     | _, _ => None
                     end
                 | _ => None
                 end
        | EmptyString => None
        end
      else if ord c =? 34 then None
      else Some (c, r)
  end.

(** A JSON string literal's text, up to its closing quote. *)
Fixpoint unescape (fuel : nat) (s : string) : option (string * string) :=
  match fuel with
  | O => None
  | S k =>
      match s with
      | String c r =>
          if ord c =? 34 then Some ("", r)
          else match unescape_step s with
               | Some (d, r') => match unescape k r' with
                                 | Some (t, rest) => Some (String d t, rest)
                                 | None => None
                                 end
               | None => None
               end
      | EmptyString => None
      end
  end.

Lemma ascii_case (P : ascii -> bool) :
  forallb P (map (fun n => chr (Z.of_nat n)) (seq 0 256)) = true -> forall c, P c = true.
Proof.
  intros H c. rewrite forallb_forall in H. apply H. apply List.in_map_iff.
  exists (Z.to_nat (ord c)). pose proof (ord_range c). split; [|rewrite in_seq; lia].
  rewrite Z2Nat.id by lia. apply chr_ord.
Qed.

(** The first step of reading an escaped character, whatever follows it. *)
Definition escape_shape (c : ascii) : bool :=
  match escape_char c with
  | String a "" => Ascii.eqb a c && negb (ord c =? 92) && negb (ord c =? 34)
  | String a (String d "") =>
      (ord a =? 92) && bool_decide (unescape_step (String a (String d "")) = Some (c, ""))
  | String a (String u (String z (String z' (String x (String y ""))))) =>
      (ord a =? 92) && Ascii.eqb u "u"
      && bool_decide (unescape_step (escape_char c) = Some (c, ""))
  | _ => false
  end.

Lemma escape_shape_ok c : escape_shape c = true.
Proof. revert c. apply ascii_case. vm_compute. reflexivity. Qed.

Lemma unescape_escape_char c rest : unescape_step (escape_char c +:+ rest) = Some (c, rest).
Proof.
  pose proof (escape_shape_ok c) as H. unfold escape_shape in H.
  destruct (escape_char c) as [|a [|d [|z [|z' [|x [|y [|? ?]]]]]]]; try discriminate H.
  - rewrite !andb_true_iff, !negb_true_iff in H. destruct H as [[Ha H92] H34].
    apply Ascii.eqb_eq in Ha as ->. cbn. by rewrite H92, H34.
  - rewrite andb_true_iff in H. destruct H as [Ha Hd]. apply bool_decide_eq_true in Hd.
    cbn in *. rewrite Ha in *. repeat case_match; congruence.
  - rewrite !andb_true_iff in H. destruct H as [[Ha Hu] Hd]. apply bool_decide_eq_true in Hd.
    cbn in *. rewrite Ha in *. repeat case_match; congruence.
Qed.

(** A string the legacy encoder quotes reads back unchanged, whatever text
    follows the literal: quoting loses nothing and no character of the string
    can end the literal early. *)
Theorem legacy_string_roundtrip value rest :
  unescape (S (String.length value)) (sdrop 1 (_legacy_escape_str value +:+ rest)) = Some (value, rest).
Proof.
  unfold _legacy_escape_str. cbn [String.append sdrop]. rewrite append_assoc.
  induction value as [|c value IH]; [done|]. cbn [escape_chars String.length].
  rewrite append_assoc. set (tail := _ +:+ _ +:+ rest) in *.
  pose proof (unescape_escape_char c tail) as Hstep.
  set (k := S (String.length value)) in *. cbn [unescape].
  destruct (escape_char c +:+ tail) as [|a r] eqn:Hs; [done|].
  assert ((ord a =? 34) = false) as ->.
  { cbn in Hstep. destruct (ord a =? 92) eqn:H92; [lia|]. by destruct (ord a =? 34). }
  by rewrite Hstep, IH.
Qed.

(** [verify_canonical_match] accepts exactly when the verifier accepts the
    RFC 8785 bytes of the object or its legacy bytes; an encoder that raises
    counts as no bytes, and skipping the second call when both encoders agree
    changes nothing. *)
Theorem verify_canonical_match_iff float_repr canonical obj verifier :
  verify_canonical_match float_repr canonical obj verifier = true <->
  (exists b, canonical obj = Some b /\ verifier b = true) \/
  (exists b, legacy_canonical_json_bytes float_repr obj = Ok b /\ verifier b = true).
Proof. apply verify_canonical_match_spec. Qed.

Example legacy_ex :
  _legacy_encode (fun _ => "1.50") (JObj [("b", JList [JInt 1; JNull]); ("a", JFloat (S754_finite false 3 (-1)))])
  = Ok ("{" +:+ _legacy_escape_str "a" +:+ ":1.5," +:+ _legacy_escape_str "b" +:+ ":[1,null]}").
Proof. vm_compute. reflexivity. Qed.
