(* ===== verification/AuditChain.v ===== *)
(** * The audit trail and its hash chain

    models/audit_log.py, services/audit_logger.py and services/audit_chain.py:
    the rows of [audit_trail], the append that links a row to the tail of its
    tenant's chain, and the replay that verifies a window of a chain.

    SHA-256, the RFC 8785 encoder and the database's column types are code
    outside the repository: they are the variables of the section below. *)

From Stdlib Require Import Ascii.
From S2P Require Import Prelude PyStr Json Encoding PyTime Redaction.

(** ** Identifiers *)

(** models/audit_log.py, [_CROCKFORD]. *)
Definition _CROCKFORD : string := "0123456789ABCDEFGHJKMNPQRSTVWXYZ".

(** models/audit_log.py, [_encode_crockford]: [length] digits, the least
    significant last; higher bits of [value] are dropped. *)
Fixpoint encode_crockford_into (value : Z) (length : nat) (out : string) : string :=
  match length with
  | O => out
  | S k =>
      let digit := default "0"%char (String.get (Z.to_nat (Z.land value 31)) _CROCKFORD) in
      encode_crockford_into (Z.shiftr value 5) k (String digit out)
  end.
Definition _encode_crockford (value : Z) (length : nat) : string :=
  encode_crockford_into value length "".

(** models/audit_log.py, [new_ulid]: [now_ms] is the clock read, [rand] the 80
    random bits. *)
Definition new_ulid (now_ms rand : Z) : string :=
  let ms := Z.land now_ms (2 ^ 48 - 1) in
  _encode_crockford ms 10 +:+ _encode_crockford rand 16.

(** models/audit_log.py, [AuditActorType]. *)
Inductive AuditActorType : Type := USER | OPERATOR | SYSTEM | INBOUND_EMAIL | WEBHOOK | WORKER.

Definition actor_type_value (t : AuditActorType) : string :=
  match t with
  | USER => "user" | OPERATOR => "operator" | SYSTEM => "system"
  | INBOUND_EMAIL => "inbound_email" | WEBHOOK => "webhook" | WORKER => "worker"
  end.

(** models/audit_log.py, [GENESIS_HASH_PREFIX]. *)
Definition GENESIS_HASH_PREFIX : bytes := "once-audit-genesis-".

(** models/audit_log.py, [AuditLogEntry]. *)
Record AuditLogEntry : Type := {
  id : string;
  tenant_id : string;
  actor_type : AuditActorType;
  actor_id : option string;
  actor_email : option string;
  action_verb : string;
  resource_type : string;
  resource_id : option string;
  resource_label : option string;
  request_id : option string;
  ip : option string;
  user_agent : option string;
  occurred_at : datetime;
  payload_summary : option json;
  prev_hash : string;
  this_hash : string;
  chain_position : Z;
}.

#[export] Instance AuditActorType_eq_dec : EqDecision AuditActorType.
Proof. solve_decision. Defined.
#[export] Instance AuditLogEntry_eq_dec : EqDecision AuditLogEntry.
Proof. solve_decision. Defined.

(** The tables the component reads and writes. *)
Record AuditDB : Type := { tenants : list string; audit_trail : list AuditLogEntry }.

(** The errors its calls raise. *)
Inductive audit_error : Type :=
| ValueError_fromhex
| CanonicalizationError
| IntegrityError.

(** schemas/audit.py, [AuditChainBreak]. *)
Record AuditChainBreak : Type := {
  break_position : Z;
  break_row_id : string;
  expected_prev_hash : string;
  actual_prev_hash : string;
  expected_this_hash : string;
  actual_this_hash : string;
  reason : string;
}.

(** schemas/audit.py, [AuditChainVerifyResult]. *)
Record AuditChainVerifyResult : Type := {
  valid : bool;
  result_tenant_id : string;
  rows_checked : Z;
  from_position : Z;
  to_position : Z;
  breaks : list AuditChainBreak;
}.

(** The arguments of [record_audit_event], besides the session. *)
Record audit_event : Type := {
  ev_tenant_id : string;
  ev_actor_type : AuditActorType;
  ev_action_verb : string;
  ev_resource_type : string;
  ev_actor_id : option string;
  ev_actor_email : option string;
  ev_resource_id : option string;
  ev_resource_label : option string;
  ev_request_id : option string;
  ev_ip : option string;
  ev_user_agent : option string;
  ev_payload_summary : option (list (string * json));
  ev_occurred_at : option datetime;
}.

(** services/audit_logger.py, [_iso_utc]. *)
Definition _iso_utc (dt : datetime) : string :=
  let dt := match tzinfo dt with
            | None => coerce_utc dt
            | Some _ => astimezone_utc dt
            end in
  isoformat_utc_z (wall dt).

Definition opt_str (o : option string) : json := match o with Some s => JStr s | None => JNull end.

(** services/audit_logger.py, [canonicalise_core]. *)
Definition canonicalise_core (row_id tenant_id : string) (actor_type : AuditActorType + string)
    (actor_id : option string) (action_verb resource_type : string) (resource_id : option string)
    (occurred_at : datetime) (payload_summary : option json) (request_id : option string) : json :=
  let actor_value := match actor_type with inl t => actor_type_value t | inr s => s end in
  JObj [("id", JStr row_id);
        ("tenant_id", JStr tenant_id);
        ("actor_type", JStr actor_value);
        ("actor_id", opt_str actor_id);
        ("action_verb", JStr action_verb);
        ("resource_type", JStr resource_type);
        ("resource_id", opt_str resource_id);
        ("occurred_at", JStr (_iso_utc occurred_at));
        ("payload_summary", match payload_summary with
                            | Some p => if jtruthy p then p else JNull
                            | None => JNull
                            end);
        ("request_id", opt_str request_id)].

(** The core of a stored row, as both the append and the replay compute it. *)
Definition row_core (r : AuditLogEntry) : json :=
  canonicalise_core (id r) (tenant_id r) (inl (actor_type r)) (actor_id r) (action_verb r)
    (resource_type r) (resource_id r) (occurred_at r) (payload_summary r) (request_id r).

Section Chain.
  (** [hashlib.sha256(b).digest()] *)
  Context (sha256 : bytes -> bytes).
  (** [rfc8785.dumps]; [None] is [CanonicalizationError]. *)
  Context (canonical_json_bytes : json -> option bytes).
Definition sha256_hex (b : bytes) : string := hex (sha256 b).

(** services/audit_logger.py, [genesis_hash]. *)
Definition genesis_hash (tenant_id : string) : string :=
  sha256_hex (GENESIS_HASH_PREFIX +:+ tenant_id).

(** services/audit_logger.py, [compute_chain_hash]. *)
Definition compute_chain_hash (prev_hash : string) (core : json) : result audit_error string :=
  match fromhex prev_hash with
  | None => Raise ValueError_fromhex
  | Some prev =>
      match canonical_json_bytes core with
      | None => Raise CanonicalizationError
      | Some c => Ok (sha256_hex (prev +:+ c))
      end
  end.

(** The rows of a tenant, in insertion order. *)
Definition tenant_rows (tid : string) (db : AuditDB) : list AuditLogEntry :=
  List.filter (fun r => String.eqb (tenant_id r) tid) (audit_trail db).
#[global] Arguments tenant_rows : simpl never.

(** services/audit_logger.py, [_tail]. *)
Definition _tail (db : AuditDB) (tid : string) : string * Z :=
  match head (sort_by (fun r => - chain_position r) (tenant_rows tid db)) with
  | None => (genesis_hash tid, 1)
  | Some row => (this_hash row, chain_position row + 1)
  end.

(** services/audit_logger.py, [tenant_chain_length]. *)
Definition tenant_chain_length (db : AuditDB) (tid : string) : Z :=
  Z.of_nat (length (tenant_rows tid db)).

(** services/audit_chain.py:77-140, [verify_chain]: one turn of the replay
    loop, from the expected previous hash and position and the breaks so far. *)
Definition check_row (row : AuditLogEntry) (expected_prev : string) (expected_position : Z)
    (breaks : list AuditChainBreak) : result audit_error (list AuditChainBreak) :=
  let break expected_this reason :=
    {| break_position := chain_position row; break_row_id := id row;
       expected_prev_hash := expected_prev; actual_prev_hash := prev_hash row;
       expected_this_hash := expected_this; actual_this_hash := this_hash row;
       reason := reason |} in
  if negb (chain_position row =? expected_position)
  then Ok (breaks ++ [break "" "position_gap"])
  else
    let breaks := if negb (String.eqb (prev_hash row) expected_prev)
                  then breaks ++ [break "" "prev_hash_mismatch"] else breaks in
    match compute_chain_hash (prev_hash row) (row_core row) with
    | Raise e => Raise e
    | Ok recomputed =>
        Ok (if negb (String.eqb recomputed (this_hash row))
            then breaks ++ [break recomputed "this_hash_mismatch"] else breaks)
    end.

(** services/audit_chain.py:77-140, [verify_chain]: the replay loop. *)
Fixpoint replay (rows : list AuditLogEntry) (expected_prev : string) (expected_position : Z)
    (breaks : list AuditChainBreak) : result audit_error (list AuditChainBreak) :=
  match rows with
  | [] => Ok breaks
  | row :: rest =>
      match check_row row expected_prev expected_position breaks with
      | Raise e => Raise e
      | Ok breaks' => replay rest (this_hash row) (chain_position row + 1) breaks'
      end
  end.

(** services/audit_chain.py:45-52, [verify_chain]: the rows of the window. *)
Definition window_rows (db : AuditDB) (tid : string) (from_pos : Z) (to_pos : option Z) : list AuditLogEntry :=
  sort_by chain_position
    (List.filter (fun r => (from_pos <=? chain_position r)
                           && match to_pos with Some t => chain_position r <=? t | None => true end)
       (tenant_rows tid db)).

(** services/audit_chain.py:57-71, [verify_chain]: the hash the first row of the
    window must link to. *)
Definition window_prev (db : AuditDB) (tid : string) (from_pos : Z) : string :=
  if from_pos <=? 1 then genesis_hash tid
  else match head (sort_by (fun r => - chain_position r)
                     (List.filter (fun r => chain_position r <? from_pos) (tenant_rows tid db))) with
       | Some row => this_hash row
       | None => genesis_hash tid
       end.

(** services/audit_chain.py, [verify_chain]. *)
Definition verify_chain (db : AuditDB) (tid : string) (from_pos : Z) (to_pos : option Z) :
    result audit_error AuditChainVerifyResult :=
  let rows := window_rows db tid from_pos to_pos in
  match replay rows (window_prev db tid from_pos) from_pos [] with
  | Raise e => Raise e
  | Ok breaks =>
      let last_position := match List.rev rows with r :: _ => chain_position r | [] => from_pos - 1 end in
      Ok {| valid := match breaks with [] => true | _ => false end;
            result_tenant_id := tid;
            rows_checked := Z.of_nat (length rows);
            from_position := from_pos;
            to_position := default last_position to_pos;
            breaks := breaks |}
  end.

(** ** What a chain is *)

(** [rows] continue a chain whose tail has hash [prev] at position [pos - 1]. *)
Fixpoint linked (prev : string) (pos : Z) (rows : list AuditLogEntry) : Prop :=
  match rows with
  | [] => True
  | r :: rest =>
      chain_position r = pos /\ prev_hash r = prev /\
      compute_chain_hash prev (row_core r) = Ok (this_hash r) /\
      linked (this_hash r) (pos + 1) rest
  end.

(** Every tenant's rows, in the order they were appended, are a chain from the
    tenant's genesis hash. *)
Definition chains_wf (db : AuditDB) : Prop :=
  forall tid, linked (genesis_hash tid) 1 (tenant_rows tid db).

(** The hash of the last of [rows], or [prev] when there is none. *)
Definition last_hash (prev : string) (rows : list AuditLogEntry) : string :=
  match List.rev rows with r :: _ => this_hash r | [] => prev end.

(** ** Lemmas on chains *)

Lemma last_hash_snoc prev rows r : last_hash prev (rows ++ [r]) = this_hash r.
Proof. unfold last_hash. by rewrite List.rev_app_distr. Qed.

Lemma last_hash_cons prev r rows : last_hash prev (r :: rows) = last_hash (this_hash r) rows.
Proof.
  destruct rows as [|r' rows _] using List.rev_ind; [done|].
  change (r :: rows ++ [r']) with ((r :: rows) ++ [r']). by rewrite !last_hash_snoc.
Qed.

Lemma linked_app prev pos l1 l2 :
  linked prev pos (l1 ++ l2) <->
  linked prev pos l1 /\ linked (last_hash prev l1) (pos + Z.of_nat (length l1)) l2.
Proof.
  revert prev pos. induction l1 as [|r l1 IH]; intros prev pos; cbn [linked app length].
  - replace (pos + Z.of_nat 0) with pos by lia. unfold last_hash. cbn. naive_solver.
  - rewrite IH, last_hash_cons.
    replace (pos + Z.of_nat (S (length l1))) with (pos + 1 + Z.of_nat (length l1)) by lia. naive_solver.
Qed.

Lemma linked_positions prev pos rows :
  linked prev pos rows ->
  Forall (fun r => pos <= chain_position r < pos + Z.of_nat (length rows)) rows.
Proof.
  revert prev pos. induction rows as [|r rows IH]; intros prev pos; cbn [linked length]; [constructor|].
  intros (Hp & _ & _ & Hl). constructor; [lia|].
  apply IH in Hl. eapply List.Forall_impl; [|exact Hl]. cbn. lia.
Qed.

Lemma linked_sorted prev pos rows :
  linked prev pos rows -> StronglySorted (fun a b => chain_position a <= chain_position b) rows.
Proof.
  revert prev pos. induction rows as [|r rows IH]; intros prev pos; cbn [linked]; [constructor|].
  intros (Hp & _ & _ & Hl). constructor; [by eapply IH|].
  apply linked_positions in Hl. eapply List.Forall_impl; [|exact Hl]. cbn. lia.
Qed.

(** The row with the greatest position is the last one. *)
Lemma linked_last prev pos rows :
  linked prev pos rows ->
  head (sort_by (fun r => - chain_position r) rows) = head (List.rev rows).
Proof.
  destruct rows as [|r rows _] using List.rev_ind; intros Hl; [done|].
  rewrite List.rev_app_distr. cbn.
  destruct (head (sort_by _ _)) as [x|] eqn:Hx.
  - apply head_sort_by in Hx as [Hin Hmin].
    apply linked_app in Hl as [Hl (Hp & _)]. apply linked_positions in Hl.
    apply List.in_app_iff in Hin as [Hin|[<-|[]]]; [|done].
    rewrite List.Forall_forall in Hl. apply Hl in Hin.
    specialize (Hmin r ltac:(apply List.in_app_iff; right; by left)). lia.
  - apply head_sort_by_None in Hx. by destruct rows.
Qed.

Lemma tail_linked db tid :
  chains_wf db ->
  _tail db tid = (last_hash (genesis_hash tid) (tenant_rows tid db), tenant_chain_length db tid + 1).
Proof.
  intros Hwf. specialize (Hwf tid). unfold _tail, tenant_chain_length.
  rewrite (linked_last _ _ _ Hwf). unfold last_hash.
  destruct (tenant_rows tid db) as [|r rows _] using List.rev_ind; [done|].
  rewrite List.rev_app_distr. cbn. apply linked_app in Hwf as [_ (Hp & _)].
  rewrite Hp, length_app. cbn. f_equal. lia.
Qed.

Lemma tenant_rows_snoc tid db row :
  tenant_rows tid {| tenants := tenants db; audit_trail := audit_trail db ++ [row] |} =
  if String.eqb (tenant_id row) tid then tenant_rows tid db ++ [row] else tenant_rows tid db.
Proof.
  unfold tenant_rows. cbn. rewrite List.filter_app. cbn.
  destruct (String.eqb _ _); [done|]. by rewrite List.app_nil_r.
Qed.

(** ** The row an append adds *)

(** The row [record_audit_event] builds for an event. *)
Definition links_to (db : AuditDB) (row : AuditLogEntry) : Prop :=
  chain_position row = tenant_chain_length db (tenant_id row) + 1 /\
  prev_hash row = last_hash (genesis_hash (tenant_id row)) (tenant_rows (tenant_id row) db) /\
  compute_chain_hash (prev_hash row) (row_core row) = Ok (this_hash row).

Lemma append_wf db row :
  chains_wf db -> links_to db row ->
  chains_wf {| tenants := tenants db; audit_trail := audit_trail db ++ [row] |}.
Proof.
  intros Hwf (Hp & Hprev & Hh) tid. rewrite tenant_rows_snoc.
  destruct (String.eqb_spec (tenant_id row) tid) as [<-|]; [|apply Hwf].
  apply linked_app. split; [apply Hwf|]. cbn. rewrite <- Hprev.
  repeat split; try done. rewrite Hp. unfold tenant_chain_length. lia.
Qed.

Definition session_wf (s : session AuditDB) : Prop := chains_wf (working s) /\ chains_wf (committed s).

(** ** The replay *)

Lemma check_row_breaks row ep pos acc r :
  check_row row ep pos acc = Ok r -> exists more, r = acc ++ more.
Proof.
  unfold check_row. destruct (negb (_ =? _)).
  - intros H. injection H as <-. eauto.
  - destruct (compute_chain_hash _ _) as [h|]; [|done]. intros H. injection H as <-.
    destruct (negb (String.eqb (prev_hash row) ep)), (negb (String.eqb h _));
      rewrite <- ?List.app_assoc; eauto. exists []. by rewrite List.app_nil_r.
Qed.

Lemma replay_breaks rows ep pos acc r :
  replay rows ep pos acc = Ok r -> exists more, r = acc ++ more.
Proof.
  revert ep pos acc. induction rows as [|row rows IH]; intros ep pos acc; cbn.
  - intros H. injection H as <-. exists []. by rewrite List.app_nil_r.
  - destruct (check_row _ _ _ _) as [acc'|] eqn:Hc; [|done]. intros H.
    apply check_row_breaks in Hc as [m1 ->]. apply IH in H as [m2 ->].
    exists (m1 ++ m2). by rewrite List.app_assoc.
Qed.

Lemma check_row_clean row ep pos :
  check_row row ep pos [] = Ok [] <->
  chain_position row = pos /\ prev_hash row = ep /\ compute_chain_hash ep (row_core row) = Ok (this_hash row).
Proof.
  unfold check_row. destruct (Z.eqb_spec (chain_position row) pos) as [Hp|Hp]; cbn [negb]; [|naive_solver].
  destruct (String.eqb_spec (prev_hash row) ep) as [He|He]; cbn [negb].
  - rewrite He. destruct (compute_chain_hash _ _) as [h|]; [|naive_solver].
    destruct (String.eqb_spec h (this_hash row)); cbn; naive_solver.
  - destruct (compute_chain_hash _ _) as [h|]; [|naive_solver].
    destruct (String.eqb h _); cbn; naive_solver.
Qed.

(** The replay finds no break exactly on a chain. *)
Lemma replay_clean rows ep pos : replay rows ep pos [] = Ok [] <-> linked ep pos rows.
Proof.
  revert ep pos. induction rows as [|row rows IH]; intros ep pos; cbn; [done|]. split.
  - destruct (check_row _ _ _ _) as [acc|] eqn:Hc; [|done]. intros H.
    pose proof (replay_breaks _ _ _ _ _ H) as [more Hm].
    symmetry in Hm. apply List.app_eq_nil in Hm as [-> _].
    apply check_row_clean in Hc as (Hp & He & Hh). rewrite Hp in H. apply IH in H. naive_solver.
  - intros (Hp & He & Hh & Hl).
    rewrite (proj2 (check_row_clean row ep pos)) by done. rewrite Hp. by apply IH.
Qed.

(** The rows at or below a position are a prefix of a chain. *)
Lemma linked_upto prev pos rows (f : AuditLogEntry -> bool) :
  (forall a b, chain_position a <= chain_position b -> f b = true -> f a = true) ->
  linked prev pos rows -> linked prev pos (List.filter f rows).
Proof.
  intros Hf. revert prev pos. induction rows as [|r rows IH]; intros prev pos; cbn; [done|].
  intros (Hp & He & Hh & Hl). destruct (f r) eqn:Hr; cbn; [naive_solver|].
  apply linked_positions in Hl. rewrite List.Forall_forall in Hl.
  rewrite filter_none; [done|]. intros x Hx. apply Hl in Hx.
  destruct (f x) eqn:Hfx; [|done]. by rewrite (Hf r x) in Hr by (done || lia).
Qed.

(** The window [from, ...] of a chain continues the part before it. *)
Lemma linked_window prev pos rows from (f : AuditLogEntry -> bool) :
  (forall a b, chain_position a <= chain_position b -> f b = true -> f a = true) ->
  pos <= from -> linked prev pos rows ->
  linked (last_hash prev (List.filter (fun r => chain_position r <? from) rows)) from
    (List.filter (fun r => (from <=? chain_position r) && f r) rows).
Proof.
  intros Hf. revert prev pos. induction rows as [|r rows IH]; intros prev pos Hle; [done|].
  intros (Hp & He & Hh & Hl). cbn [List.filter].
  destruct (Z.ltb_spec (chain_position r) from) as [Hlt|Hge].
  - destruct (Z.leb_spec from (chain_position r)); [lia|]. cbn [andb].
    rewrite last_hash_cons. apply (IH _ (pos + 1)); [lia|done].
  - assert (from = pos) as -> by lia.
    assert (Hrest : forall x, In x rows -> pos + 1 <= chain_position x).
    { apply linked_positions in Hl. rewrite List.Forall_forall in Hl. intros x Hx.
      apply Hl in Hx. lia. }
    assert (List.filter (fun r => chain_position r <? pos) rows = []) as ->.
    { apply filter_none. intros x Hx. apply Hrest in Hx. lia. }
    pose proof (linked_upto prev pos (r :: rows) f Hf (conj Hp (conj He (conj Hh Hl)))) as Hu.
    replace (if (pos <=? chain_position r) && f r then _ else _) with (List.filter f (r :: rows)); [done|].
    cbn [List.filter]. replace (pos <=? chain_position r) with true by lia. cbn [andb].
    rewrite (List.filter_ext_in (fun r => (pos <=? chain_position r) && f r) f rows); [done|].
    intros x Hx. apply Hrest in Hx. by replace (pos <=? chain_position x) with true by lia.
Qed.

Lemma window_linked db tid from_pos to_pos :
  1 <= from_pos -> chains_wf db ->
  linked (window_prev db tid from_pos) from_pos (window_rows db tid from_pos to_pos).
Proof.
  intros Hfrom Hwf. specialize (Hwf tid).
  set (f := fun r => match to_pos with Some t => chain_position r <=? t | None => true end).
  assert (Hf : forall a b, chain_position a <= chain_position b -> f b = true -> f a = true).
  { unfold f. intros a b Hab. destruct to_pos; [|done]. rewrite !Z.leb_le. lia. }
  assert (Hg : forall a b, chain_position a <= chain_position b ->
            (chain_position b <? from_pos) = true -> (chain_position a <? from_pos) = true).
  { intros a b Hab. rewrite !Z.ltb_lt. lia. }
  pose proof (linked_window _ _ _ from_pos f Hf Hfrom Hwf) as Hw.
  unfold window_rows. fold f. rewrite sort_by_id by (by eapply linked_sorted).
  replace (window_prev db tid from_pos) with
    (last_hash (genesis_hash tid) (List.filter (fun r => chain_position r <? from_pos) (tenant_rows tid db)));
    [done|].
  pose proof (linked_upto _ _ _ _ Hg Hwf) as Hpre.
  unfold window_prev. destruct (Z.leb_spec from_pos 1).
  - apply linked_positions in Hpre. destruct (List.filter _ _) as [|x l] eqn:Hx; [done|].
    exfalso. assert (Hin : In x (x :: l)) by (by left). rewrite <- Hx in Hin.
    apply List.filter_In in Hin as [_ Hlt]. inversion Hpre; subst. lia.
  - rewrite (linked_last _ _ _ Hpre). unfold last_hash.
    by destruct (List.rev (List.filter _ _)).
Qed.

Lemma verify_valid_linked db tid from_pos to_pos v :
  verify_chain db tid from_pos to_pos = Ok v ->
  valid v = true <-> linked (window_prev db tid from_pos) from_pos (window_rows db tid from_pos to_pos).
Proof.
  unfold verify_chain. rewrite <- replay_clean.
  destruct (replay _ _ _ _) as [br|]; [|done]. intros H. injection H as <-. cbn.
  destruct br; naive_solver.
Qed.

Lemma verify_rows_checked db tid from_pos to_pos v :
  verify_chain db tid from_pos to_pos = Ok v ->
  rows_checked v = Z.of_nat (length (window_rows db tid from_pos to_pos)).
Proof. unfold verify_chain. destruct (replay _ _ _ _); [|done]. intros H. by injection H as <-. Qed.

(** ** Tamper evidence *)

(** The bytes whose digest is a row's [this_hash]. *)
Definition hashed_bytes (r : AuditLogEntry) : option bytes :=
  match fromhex (prev_hash r), canonical_json_bytes (row_core r) with
  | Some prev, Some c => Some (prev +:+ c)
  | _, _ => None
  end.

(** Two rows exhibit a collision: the bytes hashed for one and for the other
    differ and have one digest. *)
Definition rows_collide (r1 r2 : AuditLogEntry) : Prop :=
  exists m1 m2, hashed_bytes r1 = Some m1 /\ hashed_bytes r2 = Some m2 /\ m1 <> m2 /\ sha256 m1 = sha256 m2.

(** Rows at the same place of two chains exhibit a collision. *)
Definition chains_collide (l1 l2 : list AuditLogEntry) : Prop :=
  Exists (fun rr => rows_collide rr.1 rr.2) (zip l1 l2).

(** Two rows say the same: every hashed column, the link and the position are
    equal, the time of the event is the same to the microsecond, and the
    payload is the same JSON data ([None] and an empty payload hash alike). *)
Record same_row (r1 r2 : AuditLogEntry) : Prop := {
  same_id : id r1 = id r2;
  same_tenant : tenant_id r1 = tenant_id r2;
  same_actor_type : actor_type r1 = actor_type r2;
  same_actor_id : actor_id r1 = actor_id r2;
  same_verb : action_verb r1 = action_verb r2;
  same_resource_type : resource_type r1 = resource_type r2;
  same_resource_id : resource_id r1 = resource_id r2;
  same_request_id : request_id r1 = request_id r2;
  same_time : representable (instant (occurred_at r1)) -> representable (instant (occurred_at r2)) ->
              instant (occurred_at r1) = instant (occurred_at r2);
  same_payload : same_json (jor (default JNull (payload_summary r1)) JNull)
                           (jor (default JNull (payload_summary r2)) JNull);
  same_prev : prev_hash r1 = prev_hash r2;
  same_this : this_hash r1 = this_hash r2;
  same_position : chain_position r1 = chain_position r2;
}.

Lemma iso_utc_inj d1 d2 :
  _iso_utc d1 = _iso_utc d2 -> representable (instant d1) -> representable (instant d2) -> instant d1 = instant d2.
Proof.
  assert (Hi : forall d, _iso_utc d = isoformat_utc_z (instant d)).
  { intros [w [o|]]; unfold _iso_utc, instant; cbn; [done|]. by rewrite Z.sub_0_r. }
  rewrite !Hi. apply isoformat_utc_z_inj.
Qed.

Lemma actor_type_value_inj : Inj (=) (=) actor_type_value.
Proof. by intros [] []. Qed.

Lemma opt_str_same o1 o2 : same_json (opt_str o1) (opt_str o2) -> o1 = o2.
Proof. destruct o1, o2; intros H%same_json_inv; cbn in H; congruence. Qed.

(** Cores that are the same JSON data have the same columns. *)
Lemma same_core r1 r2 :
  same_json (row_core r1) (row_core r2) -> prev_hash r1 = prev_hash r2 -> this_hash r1 = this_hash r2 ->
  chain_position r1 = chain_position r2 -> same_row r1 r2.
Proof.
  intros Hs Hp Ht Hn. pose proof (same_json_key _ _ Hs) as Hk. cbv beta zeta in Hk.
  set (kvs1 := match row_core r1 with JObj kvs => kvs | _ => [] end) in Hk.
  set (kvs2 := match row_core r2 with JObj kvs => kvs | _ => [] end) in Hk.
  assert (Hc : forall k v1 v2, assoc k kvs1 = Some v1 -> assoc k kvs2 = Some v2 -> same_json v1 v2).
  { intros k v1 v2 H1 H2. specialize (Hk k). rewrite H1, H2 in Hk. by inversion Hk. }
  assert (Hi : forall k s1 s2, assoc k kvs1 = Some (JStr s1) -> assoc k kvs2 = Some (JStr s2) -> s1 = s2).
  { intros k s1 s2 H1 H2. pose proof (same_json_inv _ _ (Hc k _ _ H1 H2)) as H. cbn in H. congruence. }
  split; try done.
  - exact (Hi "id" _ _ eq_refl eq_refl).
  - exact (Hi "tenant_id" _ _ eq_refl eq_refl).
  - apply actor_type_value_inj, (Hi "actor_type" _ _ eq_refl eq_refl).
  - apply opt_str_same, (Hc "actor_id" _ _ eq_refl eq_refl).
  - exact (Hi "action_verb" _ _ eq_refl eq_refl).
  - exact (Hi "resource_type" _ _ eq_refl eq_refl).
  - apply opt_str_same, (Hc "resource_id" _ _ eq_refl eq_refl).
  - apply opt_str_same, (Hc "request_id" _ _ eq_refl eq_refl).
  - exact (iso_utc_inj _ _ (Hi "occurred_at" _ _ eq_refl eq_refl)).
  - pose proof (Hc "payload_summary" _ _ eq_refl eq_refl) as H. cbv beta in H.
    unfold jor. by destruct (payload_summary r1) as [p1|], (payload_summary r2) as [p2|].
Qed.

Lemma compute_chain_hash_ok prev core h :
  compute_chain_hash prev core = Ok h ->
  exists b c, fromhex prev = Some b /\ canonical_json_bytes core = Some c /\ h = sha256_hex (b +:+ c).
Proof.
  unfold compute_chain_hash. destruct (fromhex prev) as [b|]; [|done].
  destruct (canonical_json_bytes core) as [c|]; [|done]. intros H. injection H as <-. eauto.
Qed.

(** Two linked rows with one hash, whose links are digests, either collide or
    have the same link and the same canonical core. *)
Lemma linked_rows_agree r1 r2 b1 b2 :
  prev_hash r1 = hex b1 -> prev_hash r2 = hex b2 -> String.length b1 = String.length b2 ->
  compute_chain_hash (prev_hash r1) (row_core r1) = Ok (this_hash r1) ->
  compute_chain_hash (prev_hash r2) (row_core r2) = Ok (this_hash r1) ->
  rows_collide r1 r2 \/
  (prev_hash r1 = prev_hash r2 /\
   exists c, canonical_json_bytes (row_core r1) = Some c /\ canonical_json_bytes (row_core r2) = Some c).
Proof.
  intros Hp1 Hp2 Hlen (p1 & c1 & Hf1 & Hc1 & H1)%compute_chain_hash_ok (p2 & c2 & Hf2 & Hc2 & H2)%compute_chain_hash_ok.
  assert (Hs : sha256 (p1 +:+ c1) = sha256 (p2 +:+ c2)) by (apply hex_inj; unfold sha256_hex in *; congruence).
  destruct (decide (p1 +:+ c1 = p2 +:+ c2)) as [He|Hne].
  - right. rewrite Hp1, fromhex_hex in Hf1. rewrite Hp2, fromhex_hex in Hf2. injection Hf1 as <-. injection Hf2 as <-.
    apply append_inj_length in He as [-> ->]; [|done]. split; [congruence|eauto].
  - left. exists (p1 +:+ c1), (p2 +:+ c2). unfold hashed_bytes. by rewrite Hf1, Hf2, Hc1, Hc2.
Qed.

Lemma linked_digest prev pos rows b :
  prev = sha256_hex b -> linked prev pos rows -> exists b', last_hash prev rows = sha256_hex b'.
Proof.
  intros Hb. destruct rows as [|r rows _] using List.rev_ind; [eauto|].
  rewrite linked_app, last_hash_snoc.
  intros [_ (_ & _ & (? & ? & _ & _ & ->)%compute_chain_hash_ok & _)]. eauto.
Qed.

(** Two chains of one length from one genesis hash, with one last hash, agree
    row by row, or rows of theirs at one place collide. *)
Lemma linked_agree b pos l1 : forall l2,
  (forall x, String.length (sha256 x) = 32%nat) ->
  (forall x y c, canonical_json_bytes x = Some c -> canonical_json_bytes y = Some c -> same_json x y) ->
  linked (sha256_hex b) pos l1 -> linked (sha256_hex b) pos l2 -> length l1 = length l2 ->
  last_hash (sha256_hex b) l1 = last_hash (sha256_hex b) l2 ->
  chains_collide l1 l2 \/ Forall2 same_row l1 l2.
Proof.
  induction l1 as [|r1 l1 IH] using List.rev_ind; intros l2 H32 Hinj Hl1 Hl2 Hlen Hlast.
  - destruct l2; [by right|done].
  - destruct l2 as [|r2 l2 _] using List.rev_ind; [rewrite length_app in Hlen; cbn in Hlen; lia|].
    rewrite !length_app in Hlen. cbn in Hlen. rewrite !last_hash_snoc in Hlast.
    apply linked_app in Hl1 as [Hl1 (Hn1 & He1 & Hh1 & _)].
    apply linked_app in Hl2 as [Hl2 (Hn2 & He2 & Hh2 & _)].
    destruct (linked_digest _ _ _ b eq_refl Hl1) as [b1 Hb1].
    destruct (linked_digest _ _ _ b eq_refl Hl2) as [b2 Hb2].
    unfold chains_collide. rewrite zip_with_app, Exists_app by lia.
    rewrite <- He1 in Hh1, Hb1, IH. rewrite <- He2, <- Hlast in Hh2. rewrite <- He2 in Hb2.
    destruct (linked_rows_agree r1 r2 _ _ Hb1 Hb2 ltac:(by rewrite !H32) Hh1 Hh2) as [?|(Hp & c & Hc1 & Hc2)].
    { left. right. by constructor. }
    destruct (IH l2 H32 Hinj Hl1 Hl2 ltac:(lia) ltac:(congruence)) as [?|HF]; [left; by left|right].
    apply Forall2_app; [done|]. constructor; [|done].
    apply same_core; [by eapply Hinj|done..|]. lia.
Qed.
End Chain.



(** ** The append *)

Section Append.
  Context (sha256 : bytes -> bytes) (canonical_json_bytes : json -> option bytes).
  (** The database's column types accept the row. *)
  Context (column_ok : AuditLogEntry -> bool).

(** models/audit_log.py:99-182, [AuditLogEntry.__table_args__]: the primary key,
    the unique indexes, the check constraints and the foreign key of the table,
    which the database checks when a row is flushed. *)
Definition constraints_ok (db : AuditDB) (row : AuditLogEntry) : bool :=
  column_ok row
  && existsb (String.eqb (tenant_id row)) (tenants db)
  && (slen (this_hash row) =? 64) && (slen (prev_hash row) =? 64)
  && forallb (fun r => negb (String.eqb (id r) (id row))
                       && negb (String.eqb (this_hash r) (this_hash row))
                       && negb (String.eqb (tenant_id r) (tenant_id row)
                                && (chain_position r =? chain_position row)))
       (audit_trail db).

(** [session.add(row); await session.flush()]: a failed flush rolls the
    transaction back. *)
Definition add_and_flush (row : AuditLogEntry) : M (session AuditDB) audit_error unit :=
  fun s =>
    if constraints_ok (working s) row
    then (Ok tt, Session {| tenants := tenants (working s);
                            audit_trail := audit_trail (working s) ++ [row] |} (committed s))
    else (Raise IntegrityError, Session (committed s) (committed s)).

(** services/audit_logger.py, [record_audit_event], with [flush=True] as every
    caller has it.  [now] and [row_id] are the clock read and the fresh ULID. *)
Definition record_audit_event (now : datetime) (row_id : string) (ev : audit_event) :
    M (session AuditDB) audit_error (option AuditLogEntry) :=
  try_except
    (let when := coerce_utc (default now (ev_occurred_at ev)) in
     let redacted_summary := match ev_payload_summary ev with
                             | Some (kv :: kvs) => Some (redact_secrets (JObj (kv :: kvs)))
                             | _ => None
                             end in
     let* (prev, position) := query (fun db => _tail sha256 db (ev_tenant_id ev)) in
     let core := canonicalise_core row_id (ev_tenant_id ev) (inl (ev_actor_type ev)) (ev_actor_id ev)
                   (ev_action_verb ev) (ev_resource_type ev) (ev_resource_id ev) when
                   redacted_summary (ev_request_id ev) in
     let* this := (fun s => (compute_chain_hash sha256 canonical_json_bytes prev core, s)) in
     let row := {| id := row_id; tenant_id := ev_tenant_id ev; actor_type := ev_actor_type ev;
                   actor_id := ev_actor_id ev; actor_email := ev_actor_email ev;
                   action_verb := ev_action_verb ev; resource_type := ev_resource_type ev;
                   resource_id := ev_resource_id ev; resource_label := ev_resource_label ev;
                   request_id := ev_request_id ev; ip := ev_ip ev; user_agent := ev_user_agent ev;
                   occurred_at := when; payload_summary := redacted_summary;
                   prev_hash := prev; this_hash := this; chain_position := position |} in
     add_and_flush row ;;;
     ret (Some row))
    (fun _ => ret None).

(** What the session may do between two requests. *)
Inductive audit_step : session AuditDB -> session AuditDB -> Prop :=
| step_record now row_id ev s : audit_step s (snd (record_audit_event now row_id ev s))
| step_commit s : audit_step s (snd (commit (E := audit_error) s))
| step_rollback s : audit_step s (snd (rollback (E := audit_error) s)).

(** What one call does to the session: it appends one linked row, changes
    nothing, or has rolled the transaction back. *)
Lemma record_outcome now row_id ev s :
  chains_wf sha256 canonical_json_bytes (working s) ->
  let '(res, s') := record_audit_event now row_id ev s in
  match res with
  | Ok (Some row) =>
      tenant_id row = ev_tenant_id ev /\ id row = row_id /\ links_to sha256 canonical_json_bytes (working s) row /\
      s' = Session {| tenants := tenants (working s);
                      audit_trail := audit_trail (working s) ++ [row] |} (committed s)
  | Ok None => s' = s \/ s' = Session (committed s) (committed s)
  | Raise _ => False
  end.
Proof.
  intros Hwf. unfold record_audit_event, links_to. run_m.
  rewrite (tail_linked _ canonical_json_bytes) by done. cbn.
  destruct (compute_chain_hash _ _) as [this|e] eqn:Hh; cbn; [|by left].
  unfold add_and_flush. cbn.
  destruct (constraints_ok _ _); cbn; [|by right]. repeat split; done.
Qed.

Lemma audit_step_wf s t : audit_step s t -> session_wf sha256 canonical_json_bytes s -> session_wf sha256 canonical_json_bytes t.
Proof.
  intros Hst [Hw Hc]. destruct Hst as [now row_id ev s|s|s]; [|by split..].
  pose proof (record_outcome now row_id ev s Hw) as Ho.
  destruct (record_audit_event now row_id ev s) as [[[row|]|e] s']; cbn; [| |done].
  - destruct Ho as (_ & _ & Hl & ->). split; [by apply append_wf|done].
  - destruct Ho as [-> | ->]; by split.
Qed.

End Append.

(** ** Properties *)

(** C1. An append succeeds by adding exactly one row, of the event's tenant,
    that is linked to the tail of that tenant's chain; a call that does not
    succeed returns [None] and leaves the session as it was or rolled back; no
    call raises.  Every tenant's chain is well formed again afterwards, and the
    rows of the other tenants are the same. *)
Theorem record_extends_own_chain sha256 canonical column_ok now row_id ev s :
  session_wf sha256 canonical s ->
  let '(res, s') := record_audit_event sha256 canonical column_ok now row_id ev s in
  session_wf sha256 canonical s' /\ committed s' = committed s /\
  match res with
  | Ok (Some row) =>
      links_to sha256 canonical (working s) row /\ tenant_id row = ev_tenant_id ev /\
      tenant_rows (ev_tenant_id ev) (working s') = tenant_rows (ev_tenant_id ev) (working s) ++ [row] /\
      forall tid, tid <> ev_tenant_id ev -> tenant_rows tid (working s') = tenant_rows tid (working s)
  | Ok None => working s' = working s \/ working s' = committed s
  | Raise _ => False
  end.
Proof.
  intros Hs. pose proof (audit_step_wf _ _ _ _ _ (step_record sha256 canonical column_ok now row_id ev s) Hs) as Hs'.
  pose proof (record_outcome sha256 canonical column_ok now row_id ev s (proj1 Hs)) as Ho.
  destruct (record_audit_event _ _ _ _ _ _ _) as [[[row|]|e] s']; cbn in *; [| |done].
  - destruct Ho as (Ht & _ & Hl & ->). split; [done|]. cbn. split; [done|].
    split; [done|]. split; [done|]. split; [|intros tid Hne]; rewrite tenant_rows_snoc, Ht.
    + by rewrite String.eqb_refl.
    + by destruct (String.eqb_spec (ev_tenant_id ev) tid).
  - split; [done|]. destruct Ho as [-> | ->]; cbn; auto.
Qed.

(** C2. Whatever appends, commits and rollbacks have run since the empty
    trail, [verify_chain] reports every window of every tenant as valid, with
    no breaks; the whole chain's replay checks all of the tenant's rows. *)
Theorem reachable_chains_verify sha256 canonical column_ok known s tid from_pos to_pos :
  star (audit_step sha256 canonical column_ok)
    (Session {| tenants := known; audit_trail := [] |} {| tenants := known; audit_trail := [] |}) s ->
  1 <= from_pos ->
  exists v, verify_chain sha256 canonical (working s) tid from_pos to_pos = Ok v /\
    valid v = true /\ breaks v = [] /\
    (from_pos = 1 -> to_pos = None -> rows_checked v = tenant_chain_length (working s) tid).
Proof.
  intros Hstar Hfrom.
  assert (Hwf : session_wf sha256 canonical s).
  { eapply (star_invariant _ (session_wf sha256 canonical)); [|exact Hstar|by split].
    intros ? ?. apply audit_step_wf. }
  destruct Hwf as [Hwf _]. unfold verify_chain.
  pose proof (window_linked sha256 canonical (working s) tid from_pos to_pos Hfrom Hwf) as Hl.
  apply replay_clean in Hl. rewrite Hl. eexists. split; [done|]. cbn. repeat split.
  intros -> ->. unfold window_rows, tenant_chain_length. specialize (Hwf tid).
  rewrite filter_id_In.
  - by rewrite (Permutation_length (sort_by_perm _ _)).
  - apply linked_positions in Hwf. rewrite List.Forall_forall in Hwf.
    intros x Hx. apply Hwf in Hx. lia.
Qed.

(** A report says [valid] exactly when the window's rows, in order of
    position, start at the requested position without a gap, each carries the
    previous row's hash and each hash recomputes from the row's own fields. *)
Theorem verify_valid_iff_linked sha256 canonical db tid from_pos to_pos v :
  verify_chain sha256 canonical db tid from_pos to_pos = Ok v ->
  valid v = true <->
  linked sha256 canonical (window_prev sha256 db tid from_pos) from_pos (window_rows db tid from_pos to_pos).
Proof. apply verify_valid_linked. Qed.

(** C5. Tamper evidence.  Let SHA-256 digests have 32 bytes and let the RFC
    8785 encoder write two values alike only when they are the same JSON data.
    If two databases both verify as valid over a tenant's whole chain, with as
    many rows and the same last hash, then row by row they say the same: every
    hashed column, the link, the hash and the position are equal, the time of
    the event is the same instant and the payload is the same JSON data; or
    else two rows at one place of the two chains exhibit a SHA-256 collision,
    the bytes hashed for one and for the other being different with one digest. *)
Theorem valid_chains_agree sha256 canonical db1 db2 tid v1 v2 :
  (forall b, String.length (sha256 b) = 32%nat) ->
  (forall x y c, canonical x = Some c -> canonical y = Some c -> same_json x y) ->
  verify_chain sha256 canonical db1 tid 1 None = Ok v1 -> valid v1 = true ->
  verify_chain sha256 canonical db2 tid 1 None = Ok v2 -> valid v2 = true ->
  rows_checked v1 = rows_checked v2 ->
  last_hash "" (window_rows db1 tid 1 None) = last_hash "" (window_rows db2 tid 1 None) ->
  chains_collide sha256 canonical (window_rows db1 tid 1 None) (window_rows db2 tid 1 None) \/
  Forall2 same_row (window_rows db1 tid 1 None) (window_rows db2 tid 1 None).
Proof.
  intros H32 Hinj H1 Hv1 H2 Hv2 Hn Hlast.
  apply (verify_valid_linked _ _ _ _ _ _ _ H1) in Hv1.
  apply (verify_valid_linked _ _ _ _ _ _ _ H2) in Hv2.
  rewrite (verify_rows_checked _ _ _ _ _ _ _ H1), (verify_rows_checked _ _ _ _ _ _ _ H2) in Hn.
  apply Nat2Z.inj in Hn. unfold window_prev in *. cbn in Hv1, Hv2.
  eapply linked_agree; [done..|].
  destruct (window_rows db1 tid 1 None), (window_rows db2 tid 1 None); try done.
  by rewrite !last_hash_cons in *.
Qed.

(** A stored [prev_hash] that is not hexadecimal makes [verify_chain] raise
    [ValueError] instead of reporting a break, when the row is the first of the
    window and has the expected position. *)
Theorem verify_chain_raises_on_bad_hex sha256 canonical db tid from_pos to_pos row rest :
  window_rows db tid from_pos to_pos = row :: rest ->
  chain_position row = from_pos -> fromhex (prev_hash row) = None ->
  verify_chain sha256 canonical db tid from_pos to_pos = Raise ValueError_fromhex.
Proof.
  intros Hw Hp Hhex. unfold verify_chain. rewrite Hw. cbn [replay].
  unfold check_row. rewrite Hp, Z.eqb_refl. unfold compute_chain_hash. by rewrite Hhex.
Qed.

(** A window that reaches past the tail of the chain still verifies as
    valid: [to_position] is reported back although no such row exists. *)
Theorem verify_beyond_tail_is_valid sha256 canonical db tid to_pos :
  chains_wf sha256 canonical db -> tenant_chain_length db tid < to_pos ->
  exists v, verify_chain sha256 canonical db tid 1 (Some to_pos) = Ok v /\
    valid v = true /\ to_position v = to_pos /\ rows_checked v = tenant_chain_length db tid.
Proof.
  intros Hwf Hlt. unfold verify_chain.
  pose proof (window_linked sha256 canonical db tid 1 (Some to_pos) ltac:(lia) Hwf) as Hl.
  apply replay_clean in Hl. rewrite Hl. eexists. split; [done|]. cbn. repeat split.
  unfold window_rows, tenant_chain_length in *. specialize (Hwf tid). rewrite filter_id_In.
  - by rewrite (Permutation_length (sort_by_perm _ _)).
  - apply linked_positions in Hwf. rewrite List.Forall_forall in Hwf.
    intros x Hx. apply Hwf in Hx. lia.
Qed.

(** ** Witnesses *)

(** A digest of 32 bytes and an encoder, to run the code on. *)
Definition demo_sha256 (b : bytes) : bytes := stake 32 (String.rev b +:+ String.rev b +:+ "00000000000000000000000000000000").
Definition demo_canonical (j : json) : option bytes :=
  match j with JObj kvs => match get_key "id" kvs with JStr s => Some s | _ => None end | _ => None end.
Definition demo_event (tid verb : string) : audit_event :=
  {| ev_tenant_id := tid; ev_actor_type := USER; ev_action_verb := verb; ev_resource_type := "submission";
     ev_actor_id := Some "u1"; ev_actor_email := None; ev_resource_id := Some "s1"; ev_resource_label := None;
     ev_request_id := None; ev_ip := None; ev_user_agent := None;
     ev_payload_summary := Some [("password", JStr "x")]; ev_occurred_at := None |}.
Definition demo_record (row_id : string) (s : session AuditDB) : session AuditDB :=
  snd (record_audit_event demo_sha256 demo_canonical (fun _ => true) (utc 0) row_id (demo_event "t1" "create") s).
Definition demo_empty : session AuditDB :=
  Session {| tenants := ["t1"]; audit_trail := [] |} {| tenants := ["t1"]; audit_trail := [] |}.
Definition demo_trail : session AuditDB := demo_record (new_ulid 1700000000000 6) (demo_record (new_ulid 1700000000000 5) demo_empty).

Example demo_trail_ok : map chain_position (audit_trail (working demo_trail)) = [1; 2].
Proof. vm_compute. reflexivity. Qed.

Lemma demo_wf : session_wf demo_sha256 demo_canonical demo_trail.
Proof.
  unfold demo_trail, demo_record.
  do 2 (eapply audit_step_wf; [apply step_record|]). by split.
Qed.

Lemma record_extends_own_chain_witness :
  let '(res, s') := record_audit_event demo_sha256 demo_canonical (fun _ => true) (utc 5) "r3"
                      (demo_event "t1" "sign") demo_trail in
  session_wf demo_sha256 demo_canonical s' /\ is_someb (value_of (res, s')) = true.
Proof.
  pose proof (record_extends_own_chain demo_sha256 demo_canonical (fun _ => true) (utc 5) "r3"
                (demo_event "t1" "sign") demo_trail demo_wf) as H.
  destruct (record_audit_event _ _ _ _ _ _ _) as [res s'] eqn:He.
  split; [exact (proj1 H)|]. vm_compute in He. injection He as <- <-. reflexivity.
Defined.

Lemma reachable_chains_verify_witness :
  exists v, verify_chain demo_sha256 demo_canonical (working demo_trail) "t1" 2 None = Ok v /\
    valid v = true /\ breaks v = [].
Proof.
  destruct (reachable_chains_verify demo_sha256 demo_canonical (fun _ => true) ["t1"] demo_trail "t1" 2 None)
    as (v & H1 & H2 & H3 & _).
  - eapply star_step; [apply step_record|]. eapply star_step; [apply step_record|]. apply star_refl.
  - lia.
  - exact (ex_intro _ v (conj H1 (conj H2 H3))).
Defined.

Lemma demo_verified :
  exists v, verify_chain demo_sha256 demo_canonical (working demo_trail) "t1" 1 None = Ok v /\ valid v = true.
Proof. eexists. split; [vm_compute; reflexivity|reflexivity]. Qed.

Lemma verify_valid_iff_linked_witness :
  linked demo_sha256 demo_canonical (window_prev demo_sha256 (working demo_trail) "t1" 1) 1
    (window_rows (working demo_trail) "t1" 1 None).
Proof.
  destruct demo_verified as (v & Hv & Hvalid).
  exact (proj1 (verify_valid_iff_linked demo_sha256 demo_canonical (working demo_trail) "t1" 1 None v Hv) Hvalid).
Defined.

Lemma demo_sha256_length b : String.length (demo_sha256 b) = 32%nat.
Proof.
  unfold demo_sha256. rewrite length_stake, !length_append.
  change (String.length "00000000000000000000000000000000") with 32%nat. lia.
Qed.

(** An encoder that never writes two values alike: the value's number, in
    binary. *)
Fixpoint binary (p : positive) : string :=
  match p with xH => "" | xO q => String "0" (binary q) | xI q => String "1" (binary q) end.
Definition demo_dumps (j : json) : option bytes := Some (binary (encode j)).

Lemma binary_inj : Inj (=) (=) binary.
Proof. intros p. induction p as [p IH|p IH|]; intros [q|q|]; cbn; intros H; try done; injection H as H; f_equal; auto. Qed.

Lemma demo_dumps_inj x y c : demo_dumps x = Some c -> demo_dumps y = Some c -> same_json x y.
Proof.
  unfold demo_dumps. intros Hx Hy. assert (x = y) as ->; [|apply same_refl].
  apply (inj encode), binary_inj. congruence.
Qed.

(** A checksum of 32 bytes in the place of SHA-256. *)
Definition checksum_step (acc : Z) (c : ascii) : Z := Z.land (acc * 257 + ord c + 1) (Z.ones 256).
Fixpoint checksum (acc : Z) (b : bytes) : Z :=
  match b with EmptyString => acc | String c r => checksum (checksum_step acc c) r end.
Fixpoint le_bytes (n : nat) (z : Z) : bytes :=
  match n with O => "" | S k => String (chr (z mod 256)) (le_bytes k (z / 256)) end.
Definition demo_digest (b : bytes) : bytes := le_bytes 32 (checksum 1 b).

Lemma demo_digest_length b : String.length (demo_digest b) = 32%nat.
Proof. done. Qed.

(** Two deployments that logged the same two events: the second saw another
    tenant's event in between, and stores another address and another label. *)
Definition demo_log (row_id tid : string) (addr : option string) (s : session AuditDB) : session AuditDB :=
  snd (record_audit_event demo_digest demo_dumps (fun _ => true) (utc 0) row_id
    {| ev_tenant_id := tid; ev_actor_type := USER; ev_action_verb := "create"; ev_resource_type := "submission";
       ev_actor_id := Some "u1"; ev_actor_email := None; ev_resource_id := Some "s1"; ev_resource_label := addr;
       ev_request_id := None; ev_ip := addr; ev_user_agent := None;
       ev_payload_summary := Some [("n", JInt 1)]; ev_occurred_at := None |} s).
Definition two_tenants : session AuditDB :=
  Session {| tenants := ["t1"; "t2"]; audit_trail := [] |} {| tenants := ["t1"; "t2"]; audit_trail := [] |}.
Definition demo_r1 : string := new_ulid 1700000000000 5.
Definition demo_r2 : string := new_ulid 1700000000000 6.
Definition demo_r3 : string := new_ulid 1700000000000 7.
Definition log1 : AuditDB := working (demo_log demo_r2 "t1" None (demo_log demo_r1 "t1" None two_tenants)).
Definition log2 : AuditDB :=
  working (demo_log demo_r2 "t1" (Some "b") (demo_log demo_r3 "t2" None (demo_log demo_r1 "t1" (Some "a") two_tenants))).

Lemma valid_chains_agree_witness :
  log1 <> log2 /\ length (window_rows log1 "t1" 1 None) = 2%nat /\
  Forall2 same_row (window_rows log1 "t1" 1 None) (window_rows log2 "t1" 1 None).
Proof.
  assert (Hv1 : exists v, verify_chain demo_digest demo_dumps log1 "t1" 1 None = Ok v /\ valid v = true /\ rows_checked v = 2)
    by (eexists; split; [vm_compute; reflexivity|split; reflexivity]).
  assert (Hv2 : exists v, verify_chain demo_digest demo_dumps log2 "t1" 1 None = Ok v /\ valid v = true /\ rows_checked v = 2)
    by (eexists; split; [vm_compute; reflexivity|split; reflexivity]).
  assert (Hlast : last_hash "" (window_rows log1 "t1" 1 None) = last_hash "" (window_rows log2 "t1" 1 None))
    by (vm_compute; reflexivity).
  assert (Hlen : length (window_rows log1 "t1" 1 None) = 2%nat) by (vm_compute; reflexivity).
  destruct Hv1 as (v1 & Hv1 & Hok1 & Hn1), Hv2 as (v2 & Hv2 & Hok2 & Hn2).
  refine (conj _ (conj Hlen _)).
  { intros He. assert (Hne : length (audit_trail log1) <> length (audit_trail log2)) by (vm_compute; discriminate).
    exact (Hne (f_equal (fun db => length (audit_trail db)) He)). }
  destruct (valid_chains_agree demo_digest demo_dumps log1 log2 "t1" v1 v2 demo_digest_length demo_dumps_inj
              Hv1 Hok1 Hv2 Hok2 (eq_trans Hn1 (eq_sym Hn2)) Hlast) as [Hc|HF]; [exfalso|exact HF].
  assert (Hm : forallb (fun rr => bool_decide (hashed_bytes demo_dumps rr.1 = hashed_bytes demo_dumps rr.2))
                 (zip (window_rows log1 "t1" 1 None) (window_rows log2 "t1" 1 None)) = true)
    by (vm_compute; reflexivity).
  apply Exists_exists in Hc as ([r1 r2] & Hin & m1 & m2 & Hm1 & Hm2 & Hne & _).
  rewrite forallb_forall in Hm. apply list_elem_of_In in Hin.
  specialize (Hm _ Hin). apply bool_decide_eq_true in Hm. cbn [fst snd] in Hm, Hm1, Hm2.
  rewrite Hm1, Hm2 in Hm. injection Hm as Hm. exact (Hne Hm).
Defined.

(** A stored row whose [prev_hash] is 64 characters but not hexadecimal. *)
Definition demo_bad_row : AuditLogEntry :=
  {| id := "r1"; tenant_id := "t1"; actor_type := USER; actor_id := None; actor_email := None;
     action_verb := "create"; resource_type := "submission"; resource_id := None; resource_label := None;
     request_id := None; ip := None; user_agent := None; occurred_at := utc 0; payload_summary := None;
     prev_hash := "zzzzzzzzzzzzzzzzzzzzzzzzzzzzzzzzzzzzzzzzzzzzzzzzzzzzzzzzzzzzzzzz";
     this_hash := hex (demo_sha256 "x"); chain_position := 1 |}.

Lemma verify_chain_raises_on_bad_hex_witness :
  constraints_ok (fun _ => true) {| tenants := ["t1"]; audit_trail := [] |} demo_bad_row = true /\
  verify_chain demo_sha256 demo_canonical {| tenants := ["t1"]; audit_trail := [demo_bad_row] |} "t1" 1 None
  = Raise ValueError_fromhex.
Proof.
  split; [by vm_compute|].
  by apply (verify_chain_raises_on_bad_hex demo_sha256 demo_canonical
              {| tenants := ["t1"]; audit_trail := [demo_bad_row] |} "t1" 1 None demo_bad_row []).
Defined.

Lemma verify_beyond_tail_is_valid_witness :
  exists v, verify_chain demo_sha256 demo_canonical (working demo_trail) "t1" 1 (Some 9) = Ok v /\
    valid v = true /\ to_position v = 9 /\ rows_checked v = 2.
Proof.
  exact (verify_beyond_tail_is_valid demo_sha256 demo_canonical (working demo_trail) "t1" 9
           (proj1 demo_wf) ltac:(by vm_compute)).
Defined.
