(* ===== verification/AuditDigest.v ===== *)
(** * Daily audit digests and signed audit envelopes

    services/audit_hash_service.py and services/audit_signer.py.  A digest row
    pins the SHA-256 of one tenant's [audit_logs] rows of one UTC day and links
    to the digest of the previous day. *)

From S2P Require Import Prelude PyStr Json PyTime Encoding Crypto.

(** models/audit.py, [AuditLog]. *)
Record AuditLog : Type := {
  al_id : string;
  al_tenant_id : option string;
  actor_user_id : option string;
  action : string;
  al_resource_type : string;
  al_resource_id : option string;
  metadata_json : option json;
  ip_address : option string;
  al_occurred_at : datetime;
}.

(** models/compliance.py, [AuditHashDigest]. *)
Record AuditHashDigest : Type := {
  dg_tenant_id : string;
  covers_date : Z;
  digest_sha256 : string;
  prev_digest_sha256 : string;
  row_count : Z;
}.

#[export] Instance AuditHashDigest_eq_dec : EqDecision AuditHashDigest.
Proof. solve_decision. Defined.

Record DigestDB : Type := {
  dg_tenants : list string;
  audit_logs : list AuditLog;
  audit_hash_digests : list AuditHashDigest;
}.

Inductive digest_error : Type :=
| CanonicalizationError
| IntegrityError
| AuditHashMismatch (reason : string).

(** services/audit_hash_service.py, [previous_utc_day]: a day number. *)
Definition previous_utc_day (now : datetime) : Z := day_of (instant now - days 1).

(** services/audit_hash_service.py, [_day_window]. *)
Definition _day_window (day_utc : Z) : Z * Z := (days day_utc, days day_utc + days 1).

(** [ORDER BY occurred_at ASC, id ASC] *)
Definition oldest_first (x y : AuditLog) : bool :=
  (instant (al_occurred_at x) <? instant (al_occurred_at y))
  || ((instant (al_occurred_at x) =? instant (al_occurred_at y)) && String.leb (al_id x) (al_id y)).

(** services/audit_hash_service.py, [_load_day_rows]. *)
Definition _load_day_rows (db : DigestDB) (tid : string) (day_utc : Z) : list AuditLog :=
  let '(start, end_) := _day_window day_utc in
  isort oldest_first
    (List.filter (fun r => bool_decide (al_tenant_id r = Some tid)
                           && (start <=? instant (al_occurred_at r)) && (instant (al_occurred_at r) <? end_))
       (audit_logs db)).

(** The digest row of a tenant and day. *)
Definition find_digest (db : DigestDB) (tid : string) (day_utc : Z) : option AuditHashDigest :=
  find_first (fun d => String.eqb (dg_tenant_id d) tid && (covers_date d =? (_day_window day_utc).1))
    (audit_hash_digests db).

#[global] Arguments find_digest : simpl never.

(** services/audit_hash_service.py, [_prev_digest_for]. *)
Definition _prev_digest_for (db : DigestDB) (tid : string) (day_utc : Z) : string :=
  match find_digest db tid (day_utc - 1) with Some d => digest_sha256 d | None => "" end.

Definition opt_str (o : option string) : json := match o with Some s => JStr s | None => JNull end.

(** services/audit_export_service.py, [row_to_dict]: the offset is kept, a UTC
    one is written as [Z]. *)
Definition row_to_dict (row : AuditLog) : json :=
  let at_ := coerce_utc (al_occurred_at row) in
  JObj [("id", JStr (al_id row)); ("tenant_id", opt_str (al_tenant_id row));
        ("actor_user_id", opt_str (actor_user_id row)); ("action", JStr (action row));
        ("resource_type", JStr (al_resource_type row)); ("resource_id", opt_str (al_resource_id row));
        ("metadata_json", default JNull (metadata_json row)); ("ip_address", opt_str (ip_address row));
        ("occurred_at", JStr (if bool_decide (tzinfo at_ = Some 0) then isoformat_utc_z (wall at_)
                              else isoformat at_))].

(** The arguments of the digest: previous digest and rows, as hashed. *)
Definition digest_payload (prev : string) (rows : list AuditLog) : json :=
  JObj [("prev", JStr prev); ("rows", JList (map row_to_dict rows))].

Section Digests.
Context (sha256 : bytes -> bytes).
Context (canonical_json_bytes : json -> option bytes).

(** services/audit_hash_service.py, [_digest_rows]. *)
Definition _digest_rows (rows : list AuditLog) (prev_digest : string) : result digest_error string :=
  match canonical_json_bytes (digest_payload prev_digest rows) with
  | Some b => Ok (hex (sha256 b))
  | None => Raise CanonicalizationError
  end.

(** services/audit_hash_service.py, [compute_daily_digest]. *)
Definition compute_daily_digest (db : DigestDB) (tid : string) (day_utc : Z) :
    result digest_error (string * Z * string) :=
  let rows := _load_day_rows db tid day_utc in
  let prev := _prev_digest_for db tid day_utc in
  match _digest_rows rows prev with
  | Ok digest => Ok (digest, Z.of_nat (length rows), prev)
  | Raise e => Raise e
  end.

Definition add_digest (d : AuditHashDigest) (db : DigestDB) : DigestDB :=
  {| dg_tenants := dg_tenants db; audit_logs := audit_logs db;
     audit_hash_digests := audit_hash_digests db ++ [d] |}.

Definition same_key (d e : AuditHashDigest) : bool :=
  String.eqb (dg_tenant_id d) (dg_tenant_id e) && (covers_date d =? covers_date e).

(** services/audit_hash_service.py, [ensure_daily_digest].  [raced] are the
    digests other workers commit between the first query and the flush: the
    flush sees them through the unique constraint, and the rollback makes them
    visible. *)
Definition ensure_daily_digest (raced : list AuditHashDigest) (tid : string) (day_utc : Z) :
    M (session DigestDB) digest_error AuditHashDigest :=
  let* existing := query (fun db => find_digest db tid day_utc) in
  match existing with
  | Some d => ret d
  | None =>
      let* (digest, count, prev) := (fun s => (compute_daily_digest (working s) tid day_utc, s)) in
      let row := {| dg_tenant_id := tid; covers_date := (_day_window day_utc).1; digest_sha256 := digest;
                    prev_digest_sha256 := prev; row_count := count |} in
      fun s =>
        let committed' := fold_left (fun db d => add_digest d db) raced (committed s) in
        if existsb (same_key row) raced || negb (existsb (String.eqb tid) (dg_tenants (working s)))
        then
          let s' := Session committed' committed' in
          match find_digest (working s') tid day_utc with
          | Some d => (Ok d, s')
          | None => (Raise IntegrityError, s')
          end
        else (Ok row, Session (add_digest row (working s)) committed')
  end.

(** services/audit_hash_service.py, [verify_daily_digest]. *)
Definition verify_daily_digest (db : DigestDB) (tid : string) (day_utc : Z) : result digest_error AuditHashDigest :=
  match find_digest db tid day_utc with
  | None => Raise (AuditHashMismatch "missing")
  | Some stored =>
      match compute_daily_digest db tid day_utc with
      | Raise e => Raise e
      | Ok (recomputed, _, prev) =>
          if negb (String.eqb recomputed (digest_sha256 stored))
             || negb (String.eqb prev (prev_digest_sha256 stored))
          then Raise (AuditHashMismatch "mismatch")
          else Ok stored
      end
  end.

(** ** Lemmas *)

Lemma find_first_snoc {A} (f : A -> bool) l x :
  find_first f (l ++ [x]) = or_else (find_first f l) (if f x then Some x else None).
Proof. induction l as [|y l IH]; cbn; [done|]. by destruct (f y). Qed.

Lemma find_digest_add db tid day d :
  find_digest (add_digest d db) tid day =
  or_else (find_digest db tid day)
    (if String.eqb (dg_tenant_id d) tid && (covers_date d =? days day) then Some d else None).
Proof. unfold find_digest, add_digest. cbn. by rewrite find_first_snoc. Qed.

(** Storing a day's digest does not change what that day's digest is computed
    from. *)
Lemma compute_add_digest db tid day d :
  covers_date d = days day ->
  compute_daily_digest (add_digest d db) tid day = compute_daily_digest db tid day.
Proof.
  intros Hd. unfold compute_daily_digest, _load_day_rows, _prev_digest_for. rewrite find_digest_add, Hd.
  replace (days day =? days (day - 1)) with false by (unfold days, us_per_day; lia).
  rewrite andb_false_r. cbn [audit_logs add_digest]. by destruct (find_digest db tid (day - 1)).
Qed.

Lemma verify_Ok db tid day d :
  verify_daily_digest db tid day = Ok d <->
  find_digest db tid day = Some d /\
  exists n, compute_daily_digest db tid day = Ok (digest_sha256 d, n, prev_digest_sha256 d).
Proof.
  unfold verify_daily_digest. destruct (find_digest db tid day) as [e|]; [|naive_solver].
  destruct (compute_daily_digest db tid day) as [[[h n] p]|]; [|naive_solver].
  destruct (String.eqb_spec h (digest_sha256 e)), (String.eqb_spec p (prev_digest_sha256 e)); cbn; naive_solver.
Qed.
End Digests.

(** ** Properties *)

(** Without a concurrent writer, [ensure_daily_digest] stores a digest that
    [verify_daily_digest] accepts at once, and calling it again returns the same
    row and changes nothing. *)
Theorem ensure_then_verify sha256 canonical tid day s d s' :
  find_digest (working s) tid day = None ->
  ensure_daily_digest sha256 canonical [] tid day s = (Ok d, s') ->
  existsb (String.eqb tid) (dg_tenants (working s)) = true ->
  verify_daily_digest sha256 canonical (working s') tid day = Ok d /\
  ensure_daily_digest sha256 canonical [] tid day s' = (Ok d, s') /\
  row_count d = Z.of_nat (length (_load_day_rows (working s') tid day)).
Proof.
  intros Hnone H Hten. unfold ensure_daily_digest, query, bind, reads, ret in H. rewrite Hnone in H.
  destruct (compute_daily_digest sha256 canonical (working s) tid day) as [[[h n] p]|e] eqn:Hc; [|done].
  cbn in H. rewrite Hten in H. cbn in H. injection H as <- <-.
  set (row := {| dg_tenant_id := tid; covers_date := days day; digest_sha256 := h; prev_digest_sha256 := p; row_count := n |}).
  assert (Hfind : find_digest (add_digest row (working s)) tid day = Some row).
  { rewrite find_digest_add, Hnone. cbn. by rewrite String.eqb_refl, Z.eqb_refl. }
  split; [|split].
  - apply verify_Ok. split; [exact Hfind|]. exists n. cbn [working]. rewrite compute_add_digest by done. exact Hc.
  - unfold ensure_daily_digest, query, bind, reads, ret. cbn [working]. by rewrite Hfind.
  - unfold compute_daily_digest in Hc. destruct (_digest_rows _ _ _ _); [|done]. by injection Hc as _ <- _.
Qed.

(** A lost race is harmless: when another worker commits the digest of the
    same tenant and day first, [ensure_daily_digest] returns that worker's row
    and stores none of its own. *)
Theorem ensure_race_returns_winner sha256 canonical tid day s winner v :
  find_digest (working s) tid day = None -> find_digest (committed s) tid day = None ->
  compute_daily_digest sha256 canonical (working s) tid day = Ok v ->
  dg_tenant_id winner = tid -> covers_date winner = days day ->
  ensure_daily_digest sha256 canonical [winner] tid day s =
    (Ok winner, Session (add_digest winner (committed s)) (add_digest winner (committed s))).
Proof.
  intros Hw Hc Hv Ht Hd. unfold ensure_daily_digest, query, bind, reads, ret. rewrite Hw.
  destruct v as [[h n] p]. rewrite Hv. cbn [existsb same_key dg_tenant_id covers_date fold_left].
  unfold same_key. cbn. rewrite Ht, Hd, String.eqb_refl, Z.eqb_refl. cbn.
  rewrite find_digest_add, Hc, Ht, Hd, String.eqb_refl, Z.eqb_refl. done.
Qed.

(** Tamper detection: if a day's stored digest verifies against two states
    of the tables that hold the same digest row, then the day's rows and the
    previous digest are the same as hashed in both, or the two exhibit a SHA-256
    collision. *)
Theorem digest_tamper_detection sha256 canonical db1 db2 tid day d :
  verify_daily_digest sha256 canonical db1 tid day = Ok d ->
  verify_daily_digest sha256 canonical db2 tid day = Ok d ->
  canonical (digest_payload (prev_digest_sha256 d) (_load_day_rows db1 tid day)) =
    canonical (digest_payload (prev_digest_sha256 d) (_load_day_rows db2 tid day)) \/
  exists a b, a <> b /\ sha256 a = sha256 b.
Proof.
  intros H1 H2. apply verify_Ok in H1 as (_ & n1 & H1). apply verify_Ok in H2 as (_ & n2 & H2).
  unfold compute_daily_digest, _digest_rows in H1, H2.
  destruct (canonical (digest_payload _ (_load_day_rows db1 _ _))) as [b1|] eqn:Hb1; [|done].
  destruct (canonical (digest_payload _ (_load_day_rows db2 _ _))) as [b2|] eqn:Hb2; [|done].
  injection H1 as Hh1 _ Hp1. injection H2 as Hh2 _ Hp2. rewrite Hp1 in Hb1. rewrite Hp2 in Hb2.
  destruct (decide (b1 = b2)) as [->|Hne]; [left; congruence|right].
  exists b1, b2. split; [done|]. apply hex_inj. congruence.
Qed.

(** A mismatch does not always mean tampering: when the digest of a day is
    first computed before the digest of the day preceding it, storing the
    earlier one afterwards (with a nonempty digest) makes the verification of
    the later day fail although no audit row has changed. *)
Theorem backfill_breaks_next_day sha256 canonical db tid day d earlier :
  verify_daily_digest sha256 canonical db tid day = Ok d ->
  find_digest db tid (day - 1) = None ->
  dg_tenant_id earlier = tid -> covers_date earlier = days (day - 1) -> digest_sha256 earlier <> "" ->
  canonical (digest_payload (digest_sha256 earlier) (_load_day_rows db tid day)) <> None ->
  verify_daily_digest sha256 canonical (add_digest earlier db) tid day = Raise (AuditHashMismatch "mismatch").
Proof.
  intros H Hnone Ht Hd Hne Hcan. apply verify_Ok in H as (Hf & n & Hc).
  assert (Hprev : prev_digest_sha256 d = "").
  { unfold compute_daily_digest, _prev_digest_for in Hc. rewrite Hnone in Hc.
    destruct (_digest_rows _ _ _ _); [|done]. by injection Hc as _ _ <-. }
  unfold verify_daily_digest. rewrite find_digest_add, Hf. cbn.
  unfold compute_daily_digest, _prev_digest_for, _digest_rows. rewrite find_digest_add, Hnone, Ht, Hd.
  rewrite String.eqb_refl, Z.eqb_refl. cbn [or_else andb].
  change (_load_day_rows (add_digest earlier db) tid day) with (_load_day_rows db tid day).
  destruct (canonical _); [|done]. rewrite Hprev.
  destruct (String.eqb_spec (digest_sha256 earlier) ""); [done|]. cbn. by rewrite orb_true_r.
Qed.

(** ** Audit envelopes (services/audit_signer.py) *)

Section Envelope.
Context `{E : Ed25519}.
Context (canonical_json_bytes : json -> option bytes).
(** [settings.receipt_signing_key_id] and [settings.receipt_signing_private_key_pem] *)
Context (key_id source : string).

Inductive envelope_error : Type := EnvelopeCanonical | EnvelopeKey (e : crypto_error).

(** services/audit_signer.py, [envelope_signing_payload]. *)
Definition envelope_signing_payload (envelope : list (string * json)) : list (string * json) :=
  List.filter (fun kv => negb (String.eqb kv.1 "signature_key_id" || String.eqb kv.1 "signature_b64")) envelope.

(** services/audit_signer.py, [sign_envelope]: the key cache is the state. *)
Definition sign_envelope (envelope : list (string * json)) : M key_cache envelope_error (list (string * json)) :=
  let* canonical := or_raise (canonical_json_bytes (JObj (envelope_signing_payload envelope))) EnvelopeCanonical in
  let* key := (fun c => match get_default_signing_key source c with
                        | (Ok k, c') => (Ok k, c')
                        | (Raise e, c') => (Raise (EnvelopeKey e), c')
                        end) in
  ret (set_key "signature_b64" (JStr (b64encode (sign key canonical)))
         (set_key "signature_key_id" (JStr key_id) envelope)).

(** services/audit_signer.py, [verify_envelope]; a canonicalisation failure
    raises. *)
Definition verify_envelope (envelope : list (string * json)) (public_key_pem : option string) :
    M key_cache envelope_error bool :=
  match get_key "signature_b64" envelope with
  | JStr sig_b64 =>
      if negb (truthy sig_b64) then ret false
      else match b64decode sig_b64 with
           | None => ret false
           | Some signature =>
               let* canonical := or_raise (canonical_json_bytes (JObj (envelope_signing_payload envelope)))
                                   EnvelopeCanonical in
               match public_key_pem with
               | Some pem => ret (verify pem canonical signature)
               | None => fun c =>
                   match get_default_signing_key source c with
                   | (Ok k, c') => (Ok (verify (derive_public_pem k) canonical signature), c')
                   | (Raise _, c') => (Ok false, c')
                   end
               end
           end
  | _ => ret false
  end.

Lemma payload_set_key k v env :
  String.eqb k "signature_key_id" || String.eqb k "signature_b64" = true ->
  envelope_signing_payload (set_key k v env) = envelope_signing_payload env.
Proof.
  intros Hk. unfold envelope_signing_payload. induction env as [|[k' v'] env IH]; cbn.
  - by rewrite Hk.
  - destruct (String.eqb_spec k k') as [<-|]; cbn; [by rewrite Hk|]. by rewrite IH.
Qed.
End Envelope.

(** An envelope that [sign_envelope] has signed verifies, with the default
    key or with its public half given explicitly; the signed payload is the
    envelope without its signature fields, whatever stood in them. *)
Theorem envelope_roundtrip `{E : Ed25519} `{L : !Ed25519Laws E} canonical key_id source env env' c c' :
  cache_ok c -> sign_envelope canonical key_id source env c = (Ok env', c') ->
  (exists c'', verify_envelope canonical source env' None c' = (Ok true, c'')) /\
  (forall k, load_signing_key source = Ok k ->
     verify_envelope canonical source env' (Some (derive_public_pem k)) c' = (Ok true, c')) /\
  envelope_signing_payload env' = envelope_signing_payload env.
Proof.
  intros Hc H. unfold sign_envelope in H. inv_run H.
  pose proof (get_default_signing_key_spec source c Hc) as [Hc' Hk].
  destruct (get_default_signing_key source c) as [[k|e] c1]; [|done]. injection Hrun as <- <-.
  cbn in Hc', Hk. destruct (truthy (strip source)) eqn:Hs; [|done].
  assert (Hpay : envelope_signing_payload (set_key "signature_b64" (JStr (b64encode (sign k a)))
            (set_key "signature_key_id" (JStr key_id) env)) = envelope_signing_payload env)
    by (by rewrite !payload_set_key).
  assert (Hv : forall pem, verify_envelope canonical source (set_key "signature_b64" (JStr (b64encode (sign k a)))
            (set_key "signature_key_id" (JStr key_id) env)) pem c1 =
            match pem with
            | Some p => (Ok (verify p a (sign k a)), c1)
            | None => match get_default_signing_key source c1 with
                      | (Ok k2, c') => (Ok (verify (derive_public_pem k2) a (sign k a)), c')
                      | (Raise _, c') => (Ok false, c')
                      end
            end).
  { intros pem. unfold verify_envelope. rewrite get_key_set_key, Hpay, H0.
    rewrite b64encode_truthy by apply sign_truthy. rewrite b64decode_b64encode. unfold bind, or_raise, ret. by destruct pem. }
  rewrite Hpay. split; [|split; [|done]].
  - rewrite Hv. pose proof (get_default_signing_key_spec source c1 Hc') as [_ Hk'].
    destruct (get_default_signing_key source c1) as [r c2]. cbn in Hk'. rewrite Hs, <- Hk in Hk'. subst r.
    exists c2. by rewrite verify_derived.
  - intros k' Hk'. rewrite Hv. assert (k' = k) as -> by congruence. by rewrite verify_derived.
Qed.

(** ** Witnesses *)

Definition demo_log (i : string) (at_ : Z) : AuditLog :=
  {| al_id := i; al_tenant_id := Some "t1"; actor_user_id := None; action := "login"; al_resource_type := "user";
     al_resource_id := None; metadata_json := None; ip_address := None; al_occurred_at := utc at_ |}.
Definition demo_db : DigestDB :=
  {| dg_tenants := ["t1"]; audit_logs := [demo_log "b" (days 3 + 7); demo_log "a" (days 3)];
     audit_hash_digests := [] |}.
Definition demo_sha (b : bytes) : bytes := b.
Definition demo_can (j : json) : option bytes :=
  match j with
  | JObj kvs => match get_key "prev" kvs, get_key "rows" kvs with
                | JStr p, JList l => Some (p +:+ str_of_Z (Z.of_nat (length l)))
                | _, _ => Some "{}"
                end
  | _ => None
  end.
Definition demo_row : AuditHashDigest :=
  {| dg_tenant_id := "t1"; covers_date := days 3; digest_sha256 := hex "2"; prev_digest_sha256 := ""; row_count := 2 |}.
Definition demo_earlier : AuditHashDigest :=
  {| dg_tenant_id := "t1"; covers_date := days 2; digest_sha256 := hex "0"; prev_digest_sha256 := ""; row_count := 0 |}.

Lemma ensure_then_verify_witness :
  verify_daily_digest demo_sha demo_can (add_digest demo_row demo_db) "t1" 3 = Ok demo_row.
Proof.
  exact (proj1 (ensure_then_verify demo_sha demo_can "t1" 3 (Session demo_db demo_db) demo_row
           (Session (add_digest demo_row demo_db) demo_db) eq_refl eq_refl eq_refl)).
Defined.

Lemma ensure_race_returns_winner_witness :
  ensure_daily_digest demo_sha demo_can [demo_row] "t1" 3 (Session demo_db demo_db) =
    (Ok demo_row, Session (add_digest demo_row demo_db) (add_digest demo_row demo_db)).
Proof.
  exact (ensure_race_returns_winner demo_sha demo_can "t1" 3 (Session demo_db demo_db) demo_row
           (hex "2", 2, "") eq_refl eq_refl eq_refl eq_refl eq_refl).
Defined.

Lemma digest_tamper_detection_witness :
  demo_can (digest_payload "" (_load_day_rows (add_digest demo_row demo_db) "t1" 3)) =
  demo_can (digest_payload "" (_load_day_rows (add_digest demo_row demo_db) "t1" 3)) \/
  exists a b, a <> b /\ demo_sha a = demo_sha b.
Proof.
  exact (digest_tamper_detection demo_sha demo_can (add_digest demo_row demo_db) (add_digest demo_row demo_db)
           "t1" 3 demo_row eq_refl eq_refl).
Defined.

Lemma backfill_breaks_next_day_witness :
  verify_daily_digest demo_sha demo_can (add_digest demo_earlier (add_digest demo_row demo_db)) "t1" 3
    = Raise (AuditHashMismatch "mismatch").
Proof.
  apply (backfill_breaks_next_day demo_sha demo_can (add_digest demo_row demo_db) "t1" 3 demo_row demo_earlier);
    [reflexivity|reflexivity|reflexivity|reflexivity|discriminate|discriminate].
Defined.

Lemma envelope_roundtrip_witness :
  exists env' c', sign_envelope (E := DemoCrypto.demo) (fun _ => Some "{}") "k1" "-----BEGIN seed -----END"
    [("version", JStr "1.0")] {| _cached_key := None; _cached_source := None |} = (Ok env', c') /\
    exists c'', verify_envelope (fun _ => Some "{}") "-----BEGIN seed -----END" env' None c' = (Ok true, c'').
Proof.
  destruct (sign_envelope (E := DemoCrypto.demo) (fun _ => Some "{}") "k1" "-----BEGIN seed -----END"
    [("version", JStr "1.0")] {| _cached_key := None; _cached_source := None |}) as [[env'|e] c'] eqn:H;
    [|vm_compute in H; discriminate].
  refine (ex_intro _ env' (ex_intro _ c' (conj eq_refl _))).
  refine (proj1 (envelope_roundtrip (E := DemoCrypto.demo) (L := DemoCrypto.demo_laws) (fun _ => Some "{}") "k1"
           "-----BEGIN seed -----END" [("version", JStr "1.0")] env' _ c' _ H)).
  intros k src [=].
Defined.
