(* ===== verification/SubmissionModels.v ===== *)
(** * Submissions: data and errors

    models/submission.py, models/consent.py, models/portal.py,
    models/receipt.py, models/signing_key.py and services/exceptions.py: the
    rows of the submission tables, the domain errors, and the state the
    receipt signer, the pipeline and the submission service share. *)

From S2P Require Import Prelude PyStr Json PyTime Encoding Crypto.

(** ** Rows *)

(** models/submission.py, [SubmissionStatus]. *)
Inductive SubmissionStatus : Type :=
| QUEUED | RUNNING | COMPLETED | FAILED | RETRYING | BLOCKED | PLATFORM_UNSUPPORTED.

(** models/consent.py, [ConsentScope]. *)
Inductive ConsentScope : Type := READ_ONLY | SUBMIT_ON_BEHALF | SUBMIT_AND_SIGN.

(** models/portal.py, [PortalPlatform]. *)
Inductive PortalPlatform : Type :=
| APPLIED_EPIC | VERTAFORE_AMS360 | VERTAFORE_SIRCON | AMTRUST | MARKEL | NATIONWIDE_ES | CNA
| GUIDEWIRE | HAWKSOFT | EZLYNX | NOWCERTS.

#[export] Instance SubmissionStatus_eq_dec : EqDecision SubmissionStatus.
Proof. solve_decision. Defined.
#[export] Instance ConsentScope_eq_dec : EqDecision ConsentScope.
Proof. solve_decision. Defined.
#[export] Instance PortalPlatform_eq_dec : EqDecision PortalPlatform.
Proof. solve_decision. Defined.

Definition submission_status_value (s : SubmissionStatus) : string :=
  match s with
  | QUEUED => "queued" | RUNNING => "running" | COMPLETED => "completed" | FAILED => "failed"
  | RETRYING => "retrying" | BLOCKED => "blocked" | PLATFORM_UNSUPPORTED => "platform_unsupported"
  end.

Definition platform_value (p : PortalPlatform) : string :=
  match p with
  | APPLIED_EPIC => "applied_epic" | VERTAFORE_AMS360 => "vertafore_ams360"
  | VERTAFORE_SIRCON => "vertafore_sircon" | AMTRUST => "amtrust" | MARKEL => "markel"
  | NATIONWIDE_ES => "nationwide_es" | CNA => "cna" | GUIDEWIRE => "guidewire"
  | HAWKSOFT => "hawksoft" | EZLYNX => "ezlynx" | NOWCERTS => "nowcerts"
  end.

Definition scope_value (s : ConsentScope) : string :=
  match s with
  | READ_ONLY => "read_only" | SUBMIT_ON_BEHALF => "submit_on_behalf" | SUBMIT_AND_SIGN => "submit_and_sign"
  end.

(** The columns of [suppliers] that the submission code reads. *)
Record Supplier : Type := { sup_id : string; sup_tenant_id : string }.

(** models/portal.py, [Portal]. *)
Record Portal : Type := {
  portal_pk : string;
  platform : PortalPlatform;
  display_name : string;
  base_url : option string;
  is_supported : bool;
  risky : bool;
}.

(** models/consent.py, [ConsentRecord]. *)
Record ConsentRecord : Type := {
  consent_pk : string;
  consent_tenant_id : string;
  consent_supplier_id : string;
  scope : ConsentScope;
  portal_ids_json : list string;
  granted_at : datetime;
  revoked_at : option datetime;
  granted_by_user_id : string;
}.

(** models/submission.py, [SupplierSubmission]. *)
Record SupplierSubmission : Type := {
  sub_id : string;
  sub_tenant_id : string;
  supplier_id : string;
  portal_id : string;
  status : SubmissionStatus;
  payload_json : list (string * json);
  result_json : option (list (string * json));
  attempt_count : Z;
  last_error : option string;
  claimed_at : option datetime;
  started_at : option datetime;
  completed_at : option datetime;
  consent_record_id : option string;
  created_at : Z;
}.

(** models/receipt.py, [SubmissionReceipt]. *)
Record SubmissionReceipt : Type := {
  receipt_pk : string;
  rc_submission_id : string;
  rc_tenant_id : string;
  rc_supplier_id : string;
  portal_platform : string;
  submitted_at : datetime;
  payload_hash : string;
  tos_version_hash : string;
  rc_consent_record_id : string;
  signing_key_id : string;
  signature_b64 : string;
  public_payload_json : json;
}.

(** models/signing_key.py, [SigningKey]. *)
Record SigningKey : Type := {
  key_pk : string;
  algorithm : string;
  public_key_pem : string;
  key_revoked_at : option datetime;
}.

(** The tables, by primary key. *)
Record SubDB : Type := {
  suppliers : gmap string Supplier;
  portals : gmap string Portal;
  consent_records : gmap string ConsentRecord;
  submissions : gmap string SupplierSubmission;
  receipts : gmap string SubmissionReceipt;
  signing_keys : gmap string SigningKey;
}.

Definition with_submissions (f : gmap string SupplierSubmission -> gmap string SupplierSubmission) (db : SubDB) : SubDB :=
  {| suppliers := suppliers db; portals := portals db; consent_records := consent_records db;
     submissions := f (submissions db); receipts := receipts db; signing_keys := signing_keys db |}.
Definition with_receipts (f : gmap string SubmissionReceipt -> gmap string SubmissionReceipt) (db : SubDB) : SubDB :=
  {| suppliers := suppliers db; portals := portals db; consent_records := consent_records db;
     submissions := submissions db; receipts := f (receipts db); signing_keys := signing_keys db |}.
Definition with_signing_keys (f : gmap string SigningKey -> gmap string SigningKey) (db : SubDB) : SubDB :=
  {| suppliers := suppliers db; portals := portals db; consent_records := consent_records db;
     submissions := submissions db; receipts := receipts db; signing_keys := f (signing_keys db) |}.

(** ** Errors *)

(** services/exceptions.py, [OnceError] and its subclasses; [Other] is any
    other exception class, by name. *)
Inductive exc_class : Type :=
| OnceError
| SubmissionNotClaimable
| SubmitterNotFound
| PortalUnsupported
| ConsentMissing
| PortalAuthRequired
| PortalCaptcha
| PortalRateLimited
| PortalTransientError
| PortalPermanentError
| Other (name : string).

#[export] Instance exc_class_eq_dec : EqDecision exc_class.
Proof. solve_decision. Defined.

Record exn : Type := Exn { exc : exc_class; message : string; context : list (string * json) }.

Definition exc_name (c : exc_class) : string :=
  match c with
  | OnceError => "OnceError" | SubmissionNotClaimable => "SubmissionNotClaimable"
  | SubmitterNotFound => "SubmitterNotFound" | PortalUnsupported => "PortalUnsupported"
  | ConsentMissing => "ConsentMissing" | PortalAuthRequired => "PortalAuthRequired"
  | PortalCaptcha => "PortalCaptcha" | PortalRateLimited => "PortalRateLimited"
  | PortalTransientError => "PortalTransientError" | PortalPermanentError => "PortalPermanentError"
  | Other n => n
  end.

(** [isinstance(exc, OnceError)] *)
Definition is_once_error (c : exc_class) : bool := match c with Other _ => false | _ => true end.

(** services/exceptions.py, [OnceError.__str__]; [repr] is the built-in. *)
Definition exn_str (repr : json -> string) (e : exn) : string :=
  match context e with
  | [] => message e
  | ctx => message e +:+ " [" +:+ join ", " (map (fun kv : string * json => kv.1 +:+ "=" +:+ repr kv.2) ctx) +:+ "]"
  end.

(** services/exceptions.py, [OnceError.to_dict]. *)
Definition to_dict (e : exn) : list (string * json) :=
  [("error", JStr (exc_name (exc e))); ("message", JStr (message e)); ("context", JObj (context e))].

(** [HTTPException(status_code, detail={"code": ...})] *)
Definition http (code : Z) (detail : string) : exn :=
  Exn (Other "HTTPException") detail [("status_code", JInt code)].

(** config.py: the settings these components read. *)
Record settings : Type := {
  receipt_signing_key_id : string;
  receipt_signing_private_key_pem : string;
  enable_in_process_processor : bool;
  enable_tos_risky_platforms : bool;
}.

(** ** State *)

(** One worker process: its database session, whether a failed flush has
    deactivated the session's transaction, and the two key caches. *)
Record St `{E : Ed25519} : Type := {
  tx : session SubDB;
  deactivated : bool;
  signing : key_cache;
  _PUBLIC_KEY_CACHE : gmap string string;
}.

Section State.
Context `{E : Ed25519}.

Definition in_db (f : session SubDB -> session SubDB) (s : St) : St :=
  {| tx := f (tx s); deactivated := deactivated s; signing := signing s;
     _PUBLIC_KEY_CACHE := _PUBLIC_KEY_CACHE s |}.

Definition db_of (s : St) : SubDB := working (tx s).

(** A read through the session. *)
Definition select {A} (f : SubDB -> A) : M St exn A := reads (fun s => f (db_of s)).

Definition PendingRollbackError : exn := Exn (Other "PendingRollbackError") "" [].
Definition IntegrityError : exn := Exn (Other "IntegrityError") "" [].

(** Changes of loaded objects, sent by [session.flush()].  A flush through a
    deactivated transaction raises. *)
Definition flush_write (f : SubDB -> SubDB) : M St exn unit :=
  fun s => if deactivated s then (Raise PendingRollbackError, s)
           else (Ok tt, in_db (fun t => Session (f (working t)) (committed t)) s).

(** A flush that the database's constraints refuse: it raises, rolls the
    transaction back and deactivates it. *)
Definition flush_failure {A} : M St exn A :=
  fun s => (Raise IntegrityError,
            {| tx := Session (committed (tx s)) (committed (tx s)); deactivated := true;
               signing := signing s; _PUBLIC_KEY_CACHE := _PUBLIC_KEY_CACHE s |}).

Definition session_commit : M St exn unit :=
  fun s => if deactivated s then (Raise PendingRollbackError, s)
           else (Ok tt, in_db (fun t => Session (working t) (working t)) s).

(** The caller's [session.rollback()] makes the session usable again. *)
Definition session_rollback : M St exn unit :=
  fun s => (Ok tt, {| tx := Session (committed (tx s)) (committed (tx s)); deactivated := false;
                      signing := signing s; _PUBLIC_KEY_CACHE := _PUBLIC_KEY_CACHE s |}).

Definition cache_public_key (key_id pem : string) : M St exn unit :=
  modify (fun s => {| tx := tx s; deactivated := deactivated s; signing := signing s;
                      _PUBLIC_KEY_CACHE := <[key_id := pem]> (_PUBLIC_KEY_CACHE s) |}).

(** A call of utils/crypto.py that uses the signing-key cache. *)
Definition with_signing {A} (m : M key_cache crypto_error A) : M St exn A :=
  fun s => let '(r, c) := m (signing s) in
           (match r with
            | Ok a => Ok a
            | Raise (ValueError msg) => Raise (Exn (Other "ValueError") msg [])
            | Raise (RuntimeError msg) => Raise (Exn (Other "RuntimeError") msg [])
            end,
            {| tx := tx s; deactivated := deactivated s; signing := c;
               _PUBLIC_KEY_CACHE := _PUBLIC_KEY_CACHE s |}).
End State.
