(* ===== verification/Receipts.v ===== *)
(** * Submission receipts

    services/receipt_signer.py: the public-key registry and its in-process
    cache, the construction and signature of a receipt, and its verification.

    Outside the repository, and variables here: SHA-256, the RFC 8785 encoder
    and [repr] of floats.  The clock read and the fresh UUID of a call are its
    arguments. *)

From S2P Require Import Prelude PyStr Json PyTime Encoding Crypto CanonicalJson SubmissionModels.

(** services/receipt_signer.py, [_iso_utc]. *)
Definition _iso_utc (dt : datetime) : string :=
  let dt := match tzinfo dt with
            | None => coerce_utc dt
            | Some _ => astimezone_utc dt
            end in
  isoformat_utc_z (wall dt).

(** services/receipt_signer.py, [VerifyReceiptResult]. *)
Record VerifyReceiptResult : Type := {
  receipt : json;
  verified : bool;
  vr_public_key_pem : string;
  vr_signing_key_id : string;
}.

(** [if pem: ...] of a cached value. *)
Definition truthy_opt (o : option string) : option string :=
  match o with Some s => if truthy s then Some s else None | None => None end.

Lemma truthy_opt_Some o p : truthy_opt o = Some p <-> o = Some p /\ truthy p = true.
Proof. destruct o as [q|]; cbn; [destruct (truthy q) eqn:Hq|]; naive_solver congruence. Qed.

Section Receipts.
Context `{E : Ed25519}.
Context (sha256 : bytes -> bytes).
Context (canonical_json_bytes : json -> option bytes).
Context (float_repr : Json.json -> string).
Context (cfg : settings).

Definition CanonicalizationError : exn := Exn (Other "CanonicalizationError") "" [].

(** utils/canonical_json.py, [payload_sha256]. *)
Definition payload_sha256 (obj : json) : M St exn string :=
  let* b := or_raise (canonical_json_bytes obj) CanonicalizationError in
  ret (hex (sha256 b)).

(** services/receipt_signer.py, [_load_portal_platform]. *)
Definition _load_portal_platform (portal_id : string) : M St exn string :=
  let* row := select (fun db => portals db !! portal_id) in
  match row with
  | None => raise (Exn (Other "ValueError") "Portal not found while signing receipt" [])
  | Some p => ret (platform_value (platform p))
  end.

(** services/receipt_signer.py, [_env_derived_public_pem]. *)
Definition _env_derived_public_pem (key_id : string) : option string :=
  if negb (String.eqb key_id (receipt_signing_key_id cfg)) then None
  else let pem := receipt_signing_private_key_pem cfg in
       if negb (truthy pem) || negb (truthy (strip pem)) then None
       else match load_signing_key pem with
            | Ok k => Some (derive_public_pem k)
            | Raise _ => None
            end.

(** services/receipt_signer.py, [get_public_key_pem]. *)
Definition get_public_key_pem (key_id : string) : M St exn (option string) :=
  let* pem := reads (fun s => truthy_opt (_PUBLIC_KEY_CACHE s !! key_id)) in
  match pem with
  | Some p => ret (Some p)
  | None => ret (_env_derived_public_pem key_id)
  end.

(** services/receipt_signer.py, [load_signing_key_into_cache]. *)
Definition load_signing_key_into_cache (key_id : string) : M St exn (option string) :=
  let* cached := reads (fun s => truthy_opt (_PUBLIC_KEY_CACHE s !! key_id)) in
  match cached with
  | Some p => ret (Some p)
  | None =>
      let* row := select (fun db => signing_keys db !! key_id) in
      match row with
      | None => ret (_env_derived_public_pem key_id)
      | Some k =>
          if is_someb (key_revoked_at k) then ret (_env_derived_public_pem key_id)
          else cache_public_key key_id (public_key_pem k) ;;; ret (Some (public_key_pem k))
      end
  end.

(** services/receipt_signer.py, [bootstrap_signing_key]. *)
Definition bootstrap_signing_key : M St exn unit :=
  let key_id := receipt_signing_key_id cfg in
  let pem := receipt_signing_private_key_pem cfg in
  if negb (truthy pem) || negb (truthy (strip pem)) then ret tt
  else
    let* existing := select (fun db => signing_keys db !! key_id) in
    match existing with
    | Some k => cache_public_key key_id (public_key_pem k)
    | None =>
        match load_signing_key pem with
        | Raise _ => ret tt
        | Ok k =>
            let public_pem := derive_public_pem k in
            flush_write (with_signing_keys (fun t =>
              <[key_id := {| key_pk := key_id; algorithm := "ed25519";
                             public_key_pem := public_pem; key_revoked_at := None |}]> t)) ;;;
            cache_public_key key_id public_pem
        end
    end.

(** services/receipt_signer.py, [clear_public_key_cache]. *)
Definition clear_public_key_cache : M St exn unit :=
  modify (fun s => {| tx := tx s; deactivated := deactivated s; signing := signing s;
                      _PUBLIC_KEY_CACHE := ∅ |}).

(** services/receipt_signer.py, [_build_payload]. *)
Definition _build_payload (receipt_id : string) (submission : SupplierSubmission)
    (consent : ConsentRecord) (portal_value : string) (submitted_at : datetime)
    (payload_hash tos_version_hash : string) : json :=
  JObj [("receipt_id", JStr receipt_id);
        ("tenant_id", JStr (sub_tenant_id submission));
        ("supplier_id", JStr (supplier_id submission));
        ("portal", JStr portal_value);
        ("submission_id", JStr (sub_id submission));
        ("submitted_at", JStr (_iso_utc submitted_at));
        ("payload_hash", JStr payload_hash);
        ("tos_version_hash", JStr tos_version_hash);
        ("consent_record_id", JStr (consent_pk consent))].

(** [submission.completed_at or submission.started_at or submission.claimed_at
    or datetime.now(tz=UTC)] *)
Definition submission_time (now : datetime) (submission : SupplierSubmission) : datetime :=
  default now (or_else (completed_at submission)
                 (or_else (started_at submission) (claimed_at submission))).

(** [session.add(receipt); await session.flush()]: the table's primary key and
    its unique [submission_id]. *)
Definition insert_receipt (r : SubmissionReceipt) : M St exn unit :=
  let* clash := select (fun db =>
    is_someb (receipts db !! receipt_pk r)
    || existsb (fun kv => String.eqb (rc_submission_id kv.2) (rc_submission_id r)) (map_to_list (receipts db))) in
  if clash then flush_failure
  else flush_write (with_receipts (fun t => <[receipt_pk r := r]> t)).

(** services/receipt_signer.py, [sign_receipt]. *)
Definition sign_receipt (now : datetime) (receipt_id : string) (submission : SupplierSubmission)
    (consent : ConsentRecord) (tos_hash : string) : M St exn SubmissionReceipt :=
  raise_if (negb (truthy tos_hash)) (Exn (Other "ValueError") "tos_version_hash is required" []) ;;;
  let* portal_value := _load_portal_platform (portal_id submission) in
  let submitted := submission_time now submission in
  let* hash := payload_sha256 (JObj (payload_json submission)) in
  let payload := _build_payload receipt_id submission consent portal_value submitted hash tos_hash in
  let* canonical_bytes := or_raise (canonical_json_bytes payload) CanonicalizationError in
  let* key := with_signing (get_default_signing_key (receipt_signing_private_key_pem cfg)) in
  let r := {| receipt_pk := receipt_id; rc_submission_id := sub_id submission;
              rc_tenant_id := sub_tenant_id submission; rc_supplier_id := supplier_id submission;
              portal_platform := portal_value; submitted_at := coerce_utc submitted;
              payload_hash := hash; tos_version_hash := tos_hash;
              rc_consent_record_id := consent_pk consent;
              signing_key_id := receipt_signing_key_id cfg;
              signature_b64 := b64encode (sign key canonical_bytes);
              public_payload_json := payload |} in
  insert_receipt r ;;;
  ret r.

(** services/receipt_signer.py, [verify_receipt]. *)
Definition verify_receipt (receipt_id : string) : M St exn VerifyReceiptResult :=
  let* row := select (fun db => receipts db !! receipt_id) in
  let* r := or_raise row (Exn (Other "LookupError") "SubmissionReceipt not found" []) in
  raise_if (negb (is_obj (public_payload_json r)))
    (Exn (Other "ValueError") "public_payload_json must be a JSON object" []) ;;;
  let* pem := load_signing_key_into_cache (signing_key_id r) in
  match truthy_opt pem with
  | None => ret {| receipt := public_payload_json r; verified := false;
                   vr_public_key_pem := ""; vr_signing_key_id := signing_key_id r |}
  | Some pem =>
      let signature := default "" (b64decode (signature_b64 r)) in
      let ok := if truthy signature
                then verify_canonical_match (fun f => float_repr (JFloat f)) canonical_json_bytes
                       (public_payload_json r) (fun b => verify pem b signature)
                else false in
      ret {| receipt := public_payload_json r; verified := ok;
             vr_public_key_pem := pem; vr_signing_key_id := signing_key_id r |}
  end.

(** ** Lemmas *)

(** The registry and its cache agree with the configured private key. *)
Definition registry_ok (s : St) : Prop :=
  forall k, load_signing_key (receipt_signing_private_key_pem cfg) = Ok k ->
    (forall p, _PUBLIC_KEY_CACHE s !! receipt_signing_key_id cfg = Some p -> p = derive_public_pem k) /\
    (forall row, signing_keys (db_of s) !! receipt_signing_key_id cfg = Some row ->
       public_key_pem row = derive_public_pem k).

Lemma derive_truthy `{L : !Ed25519Laws E} k : truthy (derive_public_pem k) = true.
Proof.
  pose proof (public_pem_not_blank (public_of k)) as Hs. apply truthy_spec. unfold derive_public_pem. intros E0.
  by rewrite E0 in Hs.
Qed.

Lemma load_nonempty pem k : load_signing_key pem = Ok k -> truthy (strip pem) = true /\ truthy pem = true.
Proof.
  unfold load_signing_key. destruct (truthy (strip pem)) eqn:Hs; [|done]. intros _. split; [done|].
  apply truthy_spec. intros ->. by apply truthy_spec in Hs.
Qed.

Lemma env_derived_configured k :
  load_signing_key (receipt_signing_private_key_pem cfg) = Ok k ->
  _env_derived_public_pem (receipt_signing_key_id cfg) = Some (derive_public_pem k).
Proof.
  intros Hk. unfold _env_derived_public_pem. rewrite String.eqb_refl. cbn.
  destruct (load_nonempty _ _ Hk) as [Hs Hp]. by rewrite Hs, Hp, Hk.
Qed.

(** Looking the configured key up finds the public half of the private key. *)
Lemma load_configured_key `{L : !Ed25519Laws E} s k :
  load_signing_key (receipt_signing_private_key_pem cfg) = Ok k -> registry_ok s ->
  exists s', load_signing_key_into_cache (receipt_signing_key_id cfg) s = (Ok (Some (derive_public_pem k)), s')
    /\ db_of s' = db_of s.
Proof.
  intros Hk Hreg. destruct (Hreg k Hk) as [Hcache Hrow]. unfold load_signing_key_into_cache. run_m.
  destruct (_PUBLIC_KEY_CACHE s !! _) as [p|] eqn:Hp; cbn.
  - rewrite (Hcache p eq_refl), derive_truthy. eauto.
  - destruct (signing_keys _ !! _) as [row|] eqn:Hr; cbn.
    + destruct (is_someb _); cbn; [rewrite (env_derived_configured k Hk); eauto|].
      rewrite (Hrow row eq_refl). eauto.
    + rewrite (env_derived_configured k Hk). eauto.
Qed.

Lemma load_never_raises key_id s :
  exists pem s', load_signing_key_into_cache key_id s = (Ok pem, s') /\ db_of s' = db_of s.
Proof.
  unfold load_signing_key_into_cache. run_m. destruct (truthy_opt _); [eauto|].
  destruct (signing_keys _ !! _) as [row|]; cbn; [|eauto]. destruct (is_someb _); eauto.
Qed.

Lemma insert_receipt_Ok r s u s' :
  insert_receipt r s = (Ok u, s') ->
  deactivated s = false /\
  s' = in_db (fun t => Session (with_receipts (fun m => <[receipt_pk r := r]> m) (working t)) (committed t)) s /\
  receipts (db_of s) !! receipt_pk r = None /\
  (forall i r', receipts (db_of s) !! i = Some r' -> rc_submission_id r' <> rc_submission_id r).
Proof.
  unfold insert_receipt, select. intros H. inv_run H.
  destruct (_ || _) eqn:Hclash; [done|]. unfold flush_write in H.
  destruct (deactivated s) eqn:Hd; [done|]. injection H as <- <-.
  apply orb_false_iff in Hclash as [H1 H2]. repeat split; try done.
  - by destruct (receipts (db_of s) !! receipt_pk r).
  - intros i r' Hi Heq. apply not_true_iff_false in H2. apply H2. apply existsb_exists.
    exists (i, r'). split; [|by apply String.eqb_eq].
    by apply list_elem_of_In, elem_of_map_to_list.
Qed.

Lemma payload_sha256_readonly obj : readonly (payload_sha256 obj).
Proof. unfold payload_sha256. auto with readonly. Qed.

Lemma load_portal_platform_readonly i : readonly (_load_portal_platform i).
Proof. unfold _load_portal_platform, select. apply readonly_bind; [done|]. by intros [p|]. Qed.

(** Taking the signing key touches the key cache only. *)
Lemma with_signing_default source s r s' :
  cache_ok (signing s) -> with_signing (get_default_signing_key source) s = (r, s') ->
  tx s' = tx s /\ deactivated s' = deactivated s /\ _PUBLIC_KEY_CACHE s' = _PUBLIC_KEY_CACHE s /\
  cache_ok (signing s') /\ (forall k, r = Ok k -> load_signing_key source = Ok k).
Proof.
  intros Hc. unfold with_signing. pose proof (get_default_signing_key_spec source _ Hc) as [Hc' Hk].
  destruct (get_default_signing_key source (signing s)) as [rk c]. cbn in Hc', Hk. intros [= <- <-].
  repeat split; try done. intros k Hr. destruct rk as [k'|[m|m]]; try discriminate Hr.
  injection Hr as ->. by destruct (truthy _).
Qed.

(** What a successful signature has done. *)
Lemma sign_receipt_Ok now rid sub consent tos s r s' :
  cache_ok (signing s) ->
  sign_receipt now rid sub consent tos s = (Ok r, s') ->
  exists k canonical,
    load_signing_key (receipt_signing_private_key_pem cfg) = Ok k /\
    canonical_json_bytes (public_payload_json r) = Some canonical /\
    signature_b64 r = b64encode (sign k canonical) /\
    signing_key_id r = receipt_signing_key_id cfg /\
    is_obj (public_payload_json r) = true /\
    receipt_pk r = rid /\ rc_submission_id r = sub_id sub /\ rc_tenant_id r = sub_tenant_id sub /\
    rc_consent_record_id r = consent_pk consent /\
    submitted_at r = coerce_utc (submission_time now sub) /\
    deactivated s = false /\ deactivated s' = false /\
    _PUBLIC_KEY_CACHE s' = _PUBLIC_KEY_CACHE s /\ cache_ok (signing s') /\
    tx s' = Session (with_receipts (fun m => <[rid := r]> m) (working (tx s))) (committed (tx s)) /\
    receipts (db_of s) !! rid = None /\
    (forall i r', receipts (db_of s) !! i = Some r' -> rc_submission_id r' <> sub_id sub).
Proof.
  intros Hc H. unfold sign_receipt, payload_sha256, _load_portal_platform, select in H. inv_run H.
  inv_run Hrun. destruct (portals _ !! _) as [p|] in Hrun; [|done]. inv_run Hrun. inv_run Hrun0.
  destruct (with_signing_default _ _ _ _ Hc Hrun1) as (Htx & Hd' & Hp & Hc' & Hk).
  apply insert_receipt_Ok in Hrun2 as (Hd & -> & Hnone & Huniq). cbn in *.
  unfold db_of in *. rewrite Htx in *. rewrite Hd' in Hd.
  do 2 eexists. split; [by apply Hk|]. repeat split; try done. congruence.
Qed.
End Receipts.

#[local] Arguments load_signing_key_into_cache : simpl never.

(** ** Properties *)

(** C10. A receipt that [sign_receipt] has stored verifies: in the state the
    signature leaves behind, or in any later state that still holds the receipt
    and a registry agreeing with the configured key, [verify_receipt] returns
    [verified=True] and the very payload that was signed. *)
Theorem sign_then_verify `{E : Ed25519} `{L : !Ed25519Laws E} sha256 canonical float_repr cfg now rid sub consent tos s r s' later :
  cache_ok (signing s) ->
  sign_receipt sha256 canonical cfg now rid sub consent tos s = (Ok r, s') ->
  receipts (db_of later) !! rid = receipts (db_of s') !! rid -> registry_ok cfg later ->
  exists v later', verify_receipt canonical float_repr cfg rid later = (Ok v, later') /\
    verified v = true /\ receipt v = public_payload_json r.
Proof.
  intros Hc Hsign Hlater Hreg.
  destruct (sign_receipt_Ok _ _ _ _ _ _ _ _ _ _ _ Hc Hsign)
    as (k & can & Hk & Hcan & Hsig & Hid & Hobj & _ & _ & _ & _ & _ & _ & _ & _ & _ & Htx & _ & _).
  destruct (load_configured_key cfg later k Hk Hreg) as (l' & Hload & _).
  unfold db_of in Hlater at 2. rewrite Htx in Hlater. cbn in Hlater. rewrite lookup_insert_eq in Hlater.
  unfold verify_receipt, select, bind, reads, or_raise, raise_if, ret. cbn.
  rewrite Hlater, Hobj. cbn. rewrite Hid, Hload. cbn. rewrite derive_truthy.
  rewrite Hsig, b64decode_b64encode. cbn. rewrite sign_truthy.
  eexists _, _. split; [done|]. split; [|done]. cbn.
  apply verify_canonical_match_spec. left. exists can. split; [done|]. apply verify_derived.
Qed.

(** [verify_receipt] on a stored receipt with an object payload never
    raises, and says [verified] exactly when a key is found for the receipt's
    key id, the stored signature is valid base 64 of a nonempty text, and the
    key accepts it over the RFC 8785 or the legacy bytes of the stored
    payload. *)
Theorem verify_receipt_iff `{E : Ed25519} canonical float_repr cfg rid s r :
  receipts (db_of s) !! rid = Some r -> is_obj (public_payload_json r) = true ->
  exists v s' pem, verify_receipt canonical float_repr cfg rid s = (Ok v, s') /\
    load_signing_key_into_cache cfg (signing_key_id r) s = (Ok pem, s') /\
    receipt v = public_payload_json r /\ db_of s' = db_of s /\
    (verified v = true <-> exists p sig b,
       pem = Some p /\ truthy p = true /\ b64decode (signature_b64 r) = Some sig /\ truthy sig = true /\
       verify p b sig = true /\
       (canonical (public_payload_json r) = Some b \/
        legacy_canonical_json_bytes (fun f => float_repr (JFloat f)) (public_payload_json r) = Ok b)).
Proof.
  intros Hr Hobj. destruct (load_never_raises cfg (signing_key_id r) s) as (pem & s' & Hload & Hdb).
  unfold verify_receipt, select, bind, reads, or_raise, raise_if, ret. cbn.
  rewrite Hr, Hobj. cbn. rewrite Hload. cbn.
  destruct (truthy_opt pem) as [p|] eqn:Hp; cbn.
  - apply truthy_opt_Some in Hp as [-> Ht].
    eexists _, _, _. split; [done|]. split; [done|]. split; [done|]. split; [done|]. cbn.
    destruct (b64decode (signature_b64 r)) as [sig|]; cbn; [|naive_solver].
    destruct (truthy sig) eqn:Hsig; [|naive_solver congruence].
    rewrite verify_canonical_match_spec. naive_solver.
  - eexists _, _, _. split; [done|]. split; [done|]. split; [done|]. split; [done|]. cbn.
    split; [done|]. intros (p & sig & b & -> & Ht & _). cbn in Hp. by rewrite Ht in Hp.
Qed.

(** The startup bootstrap makes or keeps the registry consistent: run on a
    registry that holds no foreign key under the configured id, it leaves a
    registry in which every lookup of that id gives the public half of the
    configured private key. *)
Theorem bootstrap_registry_ok `{E : Ed25519} cfg s :
  registry_ok cfg s -> registry_ok cfg (snd (bootstrap_signing_key cfg s)).
Proof.
  intros Hreg. unfold bootstrap_signing_key. destruct (_ || _); [done|]. unfold select, bind, reads. cbn.
  destruct (signing_keys _ !! _) as [row|] eqn:Hrow; cbn.
  - intros k Hk. destruct (Hreg k Hk) as [Hc Hr]. split; [|done]. cbn. intros p.
    rewrite lookup_insert_eq. intros [= <-]. by apply Hr.
  - destruct (load_signing_key _) as [k|e] eqn:Hk; [|done].
    unfold flush_write. destruct (deactivated s); cbn; [done|].
    intros k' Hk'. assert (k' = k) as -> by congruence. split; cbn; intros ?; rewrite lookup_insert_eq;
      by intros [= <-].
Qed.

(** A revoked key is still used: when the row of the configured key id is
    revoked and nothing is cached, the lookup falls back to the environment and
    returns the same public key; when it was cached before the revocation, the
    cached value is returned whatever the row says. *)
Theorem revoked_key_still_returned `{E : Ed25519} cfg s k row :
  signing_keys (db_of s) !! receipt_signing_key_id cfg = Some row -> key_revoked_at row <> None ->
  load_signing_key (receipt_signing_private_key_pem cfg) = Ok k ->
  fst (load_signing_key_into_cache cfg (receipt_signing_key_id cfg) s) =
    Ok (Some (match truthy_opt (_PUBLIC_KEY_CACHE s !! receipt_signing_key_id cfg) with
              | Some cached => cached
              | None => derive_public_pem k
              end)).
Proof.
  intros Hrow Hrev Hk. unfold load_signing_key_into_cache. run_m.
  destruct (truthy_opt _) as [p|]; cbn; [done|]. rewrite Hrow.
  destruct (key_revoked_at row); [|done]. cbn. by rewrite (env_derived_configured cfg k Hk).
Qed.

(** ** Witnesses *)

Module DemoReceipts.
Import DemoCrypto.

Definition cfg : settings :=
  {| receipt_signing_key_id := "k1"; receipt_signing_private_key_pem := "-----BEGIN seed -----END";
     enable_in_process_processor := true; enable_tos_risky_platforms := false |}.
Definition portal : Portal :=
  {| portal_pk := "p1"; platform := AMTRUST; display_name := "AmTrust"; base_url := None;
     is_supported := true; risky := false |}.
Definition consent : ConsentRecord :=
  {| consent_pk := "c1"; consent_tenant_id := "t1"; consent_supplier_id := "s1"; scope := SUBMIT_AND_SIGN;
     portal_ids_json := ["p1"]; granted_at := utc 0; revoked_at := None; granted_by_user_id := "u1" |}.
Definition sub : SupplierSubmission :=
  {| sub_id := "x1"; sub_tenant_id := "t1"; supplier_id := "s1"; portal_id := "p1"; status := QUEUED;
     payload_json := [("fein", JStr "12")]; result_json := None; attempt_count := 0; last_error := None;
     claimed_at := None; started_at := None; completed_at := None; consent_record_id := Some "c1";
     created_at := 0 |}.
Definition db : SubDB :=
  {| suppliers := {[ "s1" := {| sup_id := "s1"; sup_tenant_id := "t1" |} ]};
     portals := {[ "p1" := portal ]}; consent_records := {[ "c1" := consent ]};
     submissions := {[ "x1" := sub ]}; receipts := ∅; signing_keys := ∅ |}.
Definition start : St :=
  {| tx := Session db db; deactivated := false;
     signing := {| _cached_key := None; _cached_source := None |}; _PUBLIC_KEY_CACHE := ∅ |}.
Definition sha (b : bytes) : bytes := stake 32 (b +:+ "00000000000000000000000000000000").
Definition canonical (j : json) : option bytes :=
  match _legacy_encode (fun _ => "0.5") j with Ok b => Some b | Raise _ => None end.
Definition signed : St := snd (sign_receipt sha canonical cfg (utc 5) "r1" sub consent "sha256:tos" start).

Lemma start_cache_ok : cache_ok (signing start).
Proof. intros k src [=]. Qed.

Lemma signed_registry_ok : registry_ok cfg signed.
Proof. intros k Hk. split; intros ? [=]. Qed.

Lemma stored : exists r, receipts (db_of signed) !! "r1" = Some r /\ is_obj (public_payload_json r) = true.
Proof. eexists. split; [vm_compute; reflexivity|reflexivity]. Qed.
End DemoReceipts.

Lemma sign_then_verify_witness :
  exists v s', verify_receipt DemoReceipts.canonical (fun _ => "0.5") DemoReceipts.cfg "r1" DemoReceipts.signed
    = (Ok v, s') /\ verified v = true.
Proof.
  destruct (sign_receipt DemoReceipts.sha DemoReceipts.canonical DemoReceipts.cfg (utc 5) "r1"
              DemoReceipts.sub DemoReceipts.consent "sha256:tos" DemoReceipts.start) as [[r|e] s'] eqn:Hs;
    [|vm_compute in Hs; discriminate].
  destruct (sign_then_verify (E := DemoCrypto.demo) (L := DemoCrypto.demo_laws) DemoReceipts.sha DemoReceipts.canonical (fun _ => "0.5") DemoReceipts.cfg (utc 5) "r1"
              DemoReceipts.sub DemoReceipts.consent "sha256:tos" DemoReceipts.start r s' DemoReceipts.signed
              DemoReceipts.start_cache_ok Hs) as (v & l & H1 & H2 & _).
  - unfold DemoReceipts.signed. by rewrite Hs.
  - exact DemoReceipts.signed_registry_ok.
  - exact (ex_intro _ v (ex_intro _ l (conj H1 H2))).
Defined.

Lemma verify_receipt_iff_witness :
  exists r v s', receipts (db_of DemoReceipts.signed) !! "r1" = Some r /\
    verify_receipt DemoReceipts.canonical (fun _ => "0.5") DemoReceipts.cfg "r1" DemoReceipts.signed = (Ok v, s').
Proof.
  destruct DemoReceipts.stored as (r & Hr & Hobj).
  destruct (verify_receipt_iff DemoReceipts.canonical (fun _ => "0.5") DemoReceipts.cfg "r1" DemoReceipts.signed r Hr Hobj)
    as (v & s' & pem & Hv & _).
  exact (ex_intro _ r (ex_intro _ v (ex_intro _ s' (conj Hr Hv)))).
Defined.

Lemma bootstrap_registry_ok_witness :
  registry_ok DemoReceipts.cfg (snd (bootstrap_signing_key DemoReceipts.cfg DemoReceipts.signed)).
Proof. exact (bootstrap_registry_ok DemoReceipts.cfg DemoReceipts.signed DemoReceipts.signed_registry_ok). Defined.

(** The registry after the configured key's row was revoked. *)
Definition demo_revoked : St (E := DemoCrypto.demo) :=
  in_db (fun t => Session (with_signing_keys (fun m =>
    <["k1" := {| key_pk := "k1"; algorithm := "ed25519"; public_key_pem := "PUBLIC x";
                 key_revoked_at := Some (utc 3) |}]> m) (working t)) (committed t)) DemoReceipts.start.

Lemma revoked_key_still_returned_witness :
  fst (load_signing_key_into_cache DemoReceipts.cfg "k1" demo_revoked)
  = Ok (Some (derive_public_pem (E := DemoCrypto.demo) "-----BEGIN seed -----END")).
Proof.
  apply (revoked_key_still_returned (E := DemoCrypto.demo) DemoReceipts.cfg demo_revoked "-----BEGIN seed -----END"
           {| key_pk := "k1"; algorithm := "ed25519"; public_key_pem := "PUBLIC x";
              key_revoked_at := Some (utc 3) |}); [reflexivity|discriminate|vm_compute; reflexivity].
Defined.
