(* ===== verification/Pipeline.v ===== *)
(** * The submission pipeline

    services/submission_pipeline.py: the atomic claim of a queued submission,
    the checks before dispatch, the classification of failures and the
    finalisation of the row.

    The portal automation (a browser session) is outside the model: what
    [submitter.submit] returns or raises is the argument [answer] of
    [process_submission], for every value it may take. *)

From Stdlib Require Import Ascii.
From S2P Require Import Prelude PyStr Json PyTime Encoding Crypto CanonicalJson SubmissionModels Receipts.

(** services/submission_pipeline.py, [MAX_ATTEMPTS]. *)
Definition MAX_ATTEMPTS : Z := 5.

(** services/submission_pipeline.py, [_WRITE_CONSENT_SCOPES]. *)
Definition _WRITE_CONSENT_SCOPES : list ConsentScope := [SUBMIT_ON_BEHALF; SUBMIT_AND_SIGN].

(** services/submission_pipeline.py, [SubmissionResult]. *)
Record SubmissionResult : Type := {
  res_status : SubmissionStatus;
  res_receipt_id : option string;
  res_error : option string;
  result_payload : option (list (string * json));
}.

(** What a submitter may return, as the attributes [_serialize_outcome]
    inspects: the fields of a dataclass ([asdict]), the attribute [result] and
    [__dict__]. *)
Record outcome : Type := {
  dataclass_fields : option (list (string * json));
  attr_result : option json;
  attr_dict : option (list (string * json));
}.

(** services/submission_pipeline.py, [_serialize_outcome]. *)
Definition _serialize_outcome (o : option outcome) : list (string * json) :=
  match o with
  | None => []
  | Some o =>
      match dataclass_fields o with
      | Some d => d
      | None =>
          match attr_result o with
          | Some (JObj d) => d
          | _ => match attr_dict o with
                 | Some d => List.filter (fun kv => negb (startswith "_" kv.1)) d
                 | None => []
                 end
          end
      end
  end.

(** automation/submitters/__init__.py, [get_submitter_class]: the platforms in
    [SUBMITTER_REGISTRY] once every submitter module has registered itself. *)
Definition get_submitter_class (p : PortalPlatform) : bool :=
  match p with
  | AMTRUST | APPLIED_EPIC | MARKEL | VERTAFORE_AMS360 | VERTAFORE_SIRCON => true
  | _ => false
  end.

Definition status_in (s : SubmissionStatus) (l : list SubmissionStatus) : bool :=
  existsb (fun t => bool_decide (s = t)) l.
Definition scope_in (s : ConsentScope) (l : list ConsentScope) : bool :=
  existsb (fun t => bool_decide (s = t)) l.
Definition str_in (s : string) (l : list string) : bool := existsb (String.eqb s) l.

#[global] Arguments status_in : simpl never.
#[global] Arguments scope_in : simpl never.
#[global] Arguments str_in : simpl never.

(** services/submission_pipeline.py:126-131, [_claim_submission]: the statuses
    the claiming [UPDATE] accepts. *)
Definition claimable (row : SupplierSubmission) : bool := status_in (status row) [QUEUED; RETRYING].

(** Row updates of the pipeline. *)
Definition claimed (now : datetime) (row : SupplierSubmission) : SupplierSubmission :=
  {| sub_id := sub_id row; sub_tenant_id := sub_tenant_id row; supplier_id := supplier_id row;
     portal_id := portal_id row; status := RUNNING; payload_json := payload_json row;
     result_json := result_json row; attempt_count := attempt_count row + 1; last_error := None;
     claimed_at := Some now; started_at := Some now; completed_at := completed_at row;
     consent_record_id := consent_record_id row; created_at := created_at row |}.
Definition finished (st : SubmissionStatus) (err : option string) (at_ : option datetime)
    (result : option (list (string * json))) (row : SupplierSubmission) : SupplierSubmission :=
  {| sub_id := sub_id row; sub_tenant_id := sub_tenant_id row; supplier_id := supplier_id row;
     portal_id := portal_id row; status := st; payload_json := payload_json row;
     result_json := or_else result (result_json row); attempt_count := attempt_count row; last_error := err;
     claimed_at := claimed_at row; started_at := started_at row; completed_at := at_;
     consent_record_id := consent_record_id row; created_at := created_at row |}.

(** Assignments to the attributes of a loaded submission. *)
Definition update_submission (i : string) (f : SupplierSubmission -> SupplierSubmission) (db : SubDB) : SubDB :=
  with_submissions (fun t => alter f i t) db.

Section Pipeline.
Context `{E : Ed25519}.
Context (sha256 : bytes -> bytes).
Context (canonical_json_bytes : json -> option bytes).
Context (repr : json -> string).
Context (cfg : settings).

(** services/submission_pipeline.py, [_get_submitter]. *)
Definition _get_submitter (p : PortalPlatform) : M St exn unit :=
  raise_if (negb (get_submitter_class p))
    (Exn SubmitterNotFound "No submitter is registered for portal platform."
       [("platform", JStr (platform_value p))]).

(** services/submission_pipeline.py, [_claim_submission]. *)
Definition _claim_submission (now : datetime) (submission_id : string) : M St exn SupplierSubmission :=
  let* row := select (fun db => submissions db !! submission_id) in
  match row with
  | Some r =>
      if claimable r then
        flush_write (update_submission submission_id (claimed now)) ;;;
        ret (claimed now r)
      else raise (Exn SubmissionNotClaimable "Submission could not be claimed; not in a claimable status."
                    [("submission_id", JStr submission_id)])
  | None => raise (Exn SubmissionNotClaimable "Submission could not be claimed; not in a claimable status."
                     [("submission_id", JStr submission_id)])
  end.

(** services/submission_pipeline.py, [_load_related]. *)
Definition _load_related (submission : SupplierSubmission) :
    M St exn (Supplier * Portal * option ConsentRecord) :=
  let* supplier := select (fun db => suppliers db !! supplier_id submission) in
  let* portal := select (fun db => portals db !! portal_id submission) in
  let* consent := select (fun db => match consent_record_id submission with
                                    | Some c => consent_records db !! c
                                    | None => None
                                    end) in
  let* supplier := or_raise supplier
    (Exn PortalPermanentError "Supplier referenced by submission no longer exists."
       [("submission_id", JStr (sub_id submission)); ("supplier_id", JStr (supplier_id submission))]) in
  let* portal := or_raise portal
    (Exn PortalPermanentError "Portal referenced by submission no longer exists."
       [("submission_id", JStr (sub_id submission)); ("portal_id", JStr (portal_id submission))]) in
  ret (supplier, portal, consent).

(** services/submission_pipeline.py, [_validate_portal]. *)
Definition _validate_portal (portal : Portal) : M St exn unit :=
  raise_if (negb (is_supported portal))
    (Exn PortalUnsupported "Portal is not supported for automated submission."
       [("portal_id", JStr (portal_pk portal)); ("platform", JStr (platform_value (platform portal)))]).

(** services/submission_pipeline.py, [_validate_consent]. *)
Definition _validate_consent (consent : option ConsentRecord) (portal : Portal) : M St exn ConsentRecord :=
  let* consent := or_raise consent
    (Exn ConsentMissing "Submission has no associated consent record." [("portal_id", JStr (portal_pk portal))]) in
  match revoked_at consent with
  | Some at_ => raise (Exn ConsentMissing "Consent record has been revoked."
                         [("consent_id", JStr (consent_pk consent)); ("revoked_at", JStr (isoformat at_))])
  | None =>
      raise_if (negb (scope_in (scope consent) _WRITE_CONSENT_SCOPES))
        (Exn ConsentMissing "Consent scope does not authorize submitting on behalf of supplier."
           [("consent_id", JStr (consent_pk consent)); ("scope", JStr (scope_value (scope consent)))]) ;;;
      let portal_ids := portal_ids_json consent in
      raise_if (match portal_ids with [] => false | _ => true end
                && negb (str_in "*" portal_ids) && negb (str_in (portal_pk portal) portal_ids))
        (Exn ConsentMissing "Consent record does not cover the requested portal."
           [("consent_id", JStr (consent_pk consent)); ("portal_id", JStr (portal_pk portal))]) ;;;
      ret consent
  end.

(** services/submission_pipeline.py, [_derive_tos_version_hash]. *)
Definition _derive_tos_version_hash (portal : Portal) : M St exn string :=
  let* h := payload_sha256 sha256 canonical_json_bytes
    (JObj [("portal_id", JStr (portal_pk portal));
           ("portal_platform", JStr (platform_value (platform portal)));
           ("tos_capture_version", JStr "v0")]) in
  ret ("sha256:" +:+ h).

(** services/submission_pipeline.py, [_sign_receipt]. *)
Definition _sign_receipt (now : datetime) (receipt_id : string) (submission : SupplierSubmission)
    (portal : Portal) (consent : ConsentRecord) : M St exn string :=
  let* tos := _derive_tos_version_hash portal in
  let* r := sign_receipt sha256 canonical_json_bytes cfg now receipt_id submission consent tos in
  ret (receipt_pk r).

(** services/submission_pipeline.py, [_classify_failure]. *)
Definition _classify_failure (e : exn) (attempt : Z) : SubmissionStatus * string :=
  let str := exn_str repr e in
  match exc e with
  | PortalCaptcha => (BLOCKED, str)
  | PortalRateLimited | PortalTransientError =>
      if attempt <? MAX_ATTEMPTS then (RETRYING, str)
      else (FAILED, "max_attempts_exceeded (" +:+ str_of_Z attempt +:+ "/" +:+ str_of_Z MAX_ATTEMPTS
                    +:+ "): " +:+ str)
  | PortalUnsupported => (PLATFORM_UNSUPPORTED, str)
  | PortalPermanentError | ConsentMissing | SubmitterNotFound => (FAILED, str)
  | Other name => (FAILED, name +:+ ": " +:+ message e)
  | _ => (FAILED, str)
  end.

(** services/submission_pipeline.py:309-324, [process_submission]: the checks
    and the dispatch, inside the [try]. *)
Definition dispatch (submission : SupplierSubmission) (answer : result exn (option outcome)) :
    M St exn (Portal * ConsentRecord * option outcome) :=
  let* (supplier, portal, consent_optional) := _load_related submission in
  _validate_portal portal ;;;
  let* consent := _validate_consent consent_optional portal in
  _get_submitter (platform portal) ;;;
  let* o := (fun s => (answer, s)) in
  ret (portal, consent, o).

(** services/submission_pipeline.py, [process_submission]: [now], [now_end] and
    [now_sign] are its clock reads, [receipt_id] the UUID of the receipt. *)
Definition process_submission (now now_sign now_end : datetime) (receipt_id : string)
    (answer : result exn (option outcome)) (submission_id : string) : M St exn SubmissionResult :=
  let* submission := _claim_submission now submission_id in
  try_else (dispatch submission answer)
    (fun e =>
       let '(next_status, last_error) := _classify_failure e (attempt_count submission) in
       let completed := if bool_decide (next_status = RETRYING) then None else Some now_end in
       flush_write (update_submission submission_id (finished next_status (Some last_error) completed None)) ;;;
       session_commit ;;;
       ret {| res_status := next_status; res_receipt_id := None; res_error := Some last_error;
              result_payload := if is_once_error (exc e) then Some (to_dict e) else None |})
    (fun '(portal, consent, o) =>
       let result_payload := _serialize_outcome o in
       try_else (_sign_receipt now_sign receipt_id submission portal consent)
         (fun e =>
            let err := "receipt_signing_failed: " +:+ exn_str repr e in
            flush_write (update_submission submission_id (finished FAILED (Some err) (Some now_end) None)) ;;;
            session_commit ;;;
            ret {| res_status := FAILED; res_receipt_id := None; res_error := Some err;
                   result_payload := Some result_payload |})
         (fun receipt_id =>
            flush_write (update_submission submission_id (finished COMPLETED None (Some now_end) (Some result_payload))) ;;;
            session_commit ;;;
            ret {| res_status := COMPLETED; res_receipt_id := Some receipt_id; res_error := None;
                   result_payload := Some result_payload |})).

(** ** Lemmas *)

(** The consent authorises an automated submission to the portal. *)
Definition consent_covers (c : ConsentRecord) (p : Portal) : bool :=
  negb (is_someb (revoked_at c)) && scope_in (scope c) _WRITE_CONSENT_SCOPES
  && (match portal_ids_json c with [] => true | _ => false end
      || str_in "*" (portal_ids_json c) || str_in (portal_pk p) (portal_ids_json c)).

Lemma validate_consent_state o p s : snd (_validate_consent o p s) = s.
Proof.
  unfold _validate_consent, or_raise, raise_if, bind, ret, raise. destruct o as [c|]; [|done].
  cbn. destruct (revoked_at c); [done|]. destruct (negb (scope_in _ _)); [done|]. cbn. by destruct (_ && _).
Qed.

Lemma validate_consent_spec o p s c :
  fst (_validate_consent o p s) = Ok c <-> o = Some c /\ consent_covers c p = true.
Proof.
  unfold _validate_consent, or_raise, raise_if, bind, ret, raise, consent_covers.
  destruct o as [c'|]; [|split; [done|by intros [? _]]]. cbn.
  destruct (revoked_at c') as [t|] eqn:Hr.
  { split; [done|]. intros [[= ->] H]. by rewrite Hr in H. }
  destruct (scope_in (scope c') _) eqn:Hs; cbn.
  2: { split; [done|]. intros [[= ->] H]. by rewrite Hr, Hs in H. }
  destruct (portal_ids_json c') as [|x l] eqn:Hp; cbn [fst].
  { split; [intros [= ->]|intros [[= ->] _]; done]. by rewrite Hr, Hs, Hp. }
  destruct (str_in "*" (x :: l)) eqn:Hstar; cbn [negb andb].
  { split; [intros [= ->]|intros [[= ->] _]; done]. by rewrite Hr, Hs, Hp, Hstar. }
  destruct (str_in (portal_pk p) (x :: l)) eqn:Hin; cbn.
  - split; [intros [= ->]|intros [[= ->] _]; done]. by rewrite Hr, Hs, Hp, Hstar, Hin.
  - split; [done|]. intros [[= ->] H]. by rewrite Hr, Hs, Hp, Hstar, Hin in H.
Qed.

Lemma dispatch_state sub answer s : snd (dispatch sub answer s) = s.
Proof.
  unfold dispatch, _load_related, select, or_raise, _validate_portal, _get_submitter, raise_if,
    bind, ret, raise, reads. cbn.
  destruct (suppliers _ !! _); [|done]. destruct (portals _ !! _) as [p|]; [|done]. cbn.
  destruct (is_supported p); [|done]. cbn.
  pose proof (validate_consent_state (match consent_record_id sub with
    | Some c => consent_records (db_of s) !! c | None => None end) p s) as Hc.
  destruct (_validate_consent _ _ _) as [[c|e] s1]; cbn in Hc |- *; subst; [|done].
  destruct (get_submitter_class _); [|done]. cbn. by destruct answer.
Qed.

(** A dispatch that reaches the portal has passed every check. *)
Lemma dispatch_Ok sub answer s p c o :
  fst (dispatch sub answer s) = Ok (p, c, o) ->
  portals (db_of s) !! portal_id sub = Some p /\ is_supported p = true /\
  (exists i, consent_record_id sub = Some i /\ consent_records (db_of s) !! i = Some c) /\
  consent_covers c p = true /\
  get_submitter_class (platform p) = true /\ answer = Ok o.
Proof.
  unfold dispatch, _load_related, select, or_raise, _validate_portal, _get_submitter, raise_if,
    bind, ret, raise, reads. cbn.
  destruct (suppliers _ !! _); [|done]. destruct (portals _ !! _) as [p'|]; [|done]. cbn.
  destruct (is_supported p') eqn:Hp; [|done]. cbn.
  set (oc := match consent_record_id sub with
    | Some c => consent_records (db_of s) !! c | None => None end).
  pose proof (validate_consent_spec oc p' s) as Hc. pose proof (validate_consent_state oc p' s) as Hs.
  destruct (_validate_consent _ _ _) as [[c'|e] s1]; cbn in Hc, Hs |- *; subst; [|done].
  destruct (proj1 (Hc c') eq_refl) as [Hoc Hcov].
  destruct (get_submitter_class _) eqn:Hg; [|done]. cbn. destruct answer as [o'|e]; [|done].
  intros [= <- <- <-]. repeat split; try done. unfold oc in Hoc.
  destruct (consent_record_id sub) as [i|]; [by exists i|done].
Qed.

(** No stored receipt stands in the way of a new one. *)
Definition receipt_free (db : SubDB) (rid id : string) : Prop :=
  receipts db !! rid = None /\ forall i r, receipts db !! i = Some r -> rc_submission_id r <> id.

Lemma insert_receipt_free r s :
  receipt_free (db_of s) (receipt_pk r) (rc_submission_id r) -> deactivated s = false ->
  fst (insert_receipt r s) = Ok tt.
Proof.
  intros [Hn Hu] Hd. unfold insert_receipt, select, bind, reads. cbn. rewrite Hn. cbn.
  destruct (existsb _ _) eqn:He; [exfalso|unfold flush_write; by rewrite Hd].
  apply existsb_exists in He as ([i r'] & Hin & Heq). apply String.eqb_eq in Heq.
  apply list_elem_of_In, elem_of_map_to_list in Hin. by apply (Hu i r').
Qed.

(** Signing without a conflicting receipt fails, when it fails, before anything
    is written. *)
Lemma sign_receipt_Raise now rid sub consent tos s e s' :
  cache_ok (signing s) -> deactivated s = false -> receipt_free (db_of s) rid (sub_id sub) ->
  sign_receipt sha256 canonical_json_bytes cfg now rid sub consent tos s = (Raise e, s') ->
  tx s' = tx s /\ deactivated s' = false /\ cache_ok (signing s').
Proof.
  intros Hc Hd Hfree H. unfold sign_receipt in H.
  apply bind_Raise in H as [H|(u & s0 & H1 & H)]; [apply readonly_run in H as ->; auto with readonly; done|].
  apply raise_if_Ok in H1 as [_ ->].
  apply bind_Raise in H as [H|(pv & s0 & H1 & H)];
    [apply readonly_run in H as ->; [done|apply load_portal_platform_readonly]|].
  apply readonly_run in H1 as ->; [|apply load_portal_platform_readonly].
  apply bind_Raise in H as [H|(hash & s0 & H1 & H)];
    [apply readonly_run in H as ->; [done|apply payload_sha256_readonly]|].
  apply readonly_run in H1 as ->; [|apply payload_sha256_readonly].
  apply bind_Raise in H as [H|(can & s0 & H1 & H)]; [apply readonly_run in H as ->; auto with readonly; done|].
  apply or_raise_Ok in H1 as [_ ->].
  apply bind_Raise in H as [H|(k & s0 & H1 & H)].
  - destruct (with_signing_default _ _ _ _ Hc H) as (-> & -> & _ & ? & _). done.
  - destruct (with_signing_default _ _ _ _ Hc H1) as (Htx & Hd' & _ & Hc' & _).
    apply bind_Raise in H as [H|(u' & s1 & _ & H)]; [exfalso|done].
    assert (Hins : forall r, rc_submission_id r = sub_id sub -> receipt_pk r = rid ->
              fst (insert_receipt r s0) = Ok tt).
    { intros r H2 H3. apply insert_receipt_free; [|congruence].
      unfold db_of in *. rewrite Htx, H2, H3. done. }
    match type of H with insert_receipt ?r _ = _ => specialize (Hins r eq_refl eq_refl) end.
    by rewrite H in Hins.
Qed.

Lemma derive_tos_readonly p : readonly (_derive_tos_version_hash p).
Proof. apply readonly_bind; [apply payload_sha256_readonly|done]. Qed.

(** The signing step of the pipeline: a stored receipt, or nothing written. *)
Lemma pipeline_sign_outcome now rid sub p c s :
  cache_ok (signing s) -> deactivated s = false -> receipt_free (db_of s) rid (sub_id sub) ->
  let '(r, s') := _sign_receipt now rid sub p c s in
  deactivated s' = false /\ cache_ok (signing s') /\
  match r with
  | Ok i => exists rc, i = rid /\ rc_submission_id rc = sub_id sub /\ rc_tenant_id rc = sub_tenant_id sub /\
      rc_consent_record_id rc = consent_pk c /\ submitted_at rc = coerce_utc (submission_time now sub) /\
      tx s' = Session (with_receipts (fun m => <[rid := rc]> m) (working (tx s))) (committed (tx s))
  | Raise _ => tx s' = tx s
  end.
Proof.
  intros Hc Hd Hfree. unfold _sign_receipt, bind.
  pose proof (derive_tos_readonly p s) as Ht.
  destruct (_derive_tos_version_hash p s) as [[tos|e] s1]; cbn in Ht; subst s1; [|done].
  destruct (sign_receipt _ _ _ _ _ _ _ _ _) as [[rc|e] s'] eqn:Hsign.
  - destruct (sign_receipt_Ok _ _ _ _ _ _ _ _ _ _ _ Hc Hsign)
      as (k & can & _ & _ & _ & _ & _ & Hpk & Hsub & Hten & Hcon & Hat & _ & Hd' & _ & Hc' & Htx & _ & _).
    cbn. split; [done|]. split; [done|]. exists rc. by rewrite Hpk.
  - destruct (sign_receipt_Raise _ _ _ _ _ _ _ _ Hc Hd Hfree Hsign) as (H1 & H2 & H3). done.
Qed.

(** Submission rows are stored under their id, and a receipt exists only for a
    completed submission. *)
Definition db_ok (db : SubDB) : Prop :=
  (forall i row, submissions db !! i = Some row -> sub_id row = i) /\
  (forall i rc, receipts db !! i = Some rc ->
     exists row, submissions db !! rc_submission_id rc = Some row /\ status row = COMPLETED).

Lemma db_ok_receipt_free db rid id row :
  db_ok db -> receipts db !! rid = None -> submissions db !! id = Some row -> status row <> COMPLETED ->
  receipt_free db rid id.
Proof.
  intros [_ Hdone] Hrid Hrow Hst. split; [done|]. intros i r Hr Heq.
  destruct (Hdone i r Hr) as (row' & Hrow' & Hc). congruence.
Qed.

(** Changing a row that is not completed, keeping its id, keeps the tables
    consistent. *)
Lemma db_ok_update db id row f :
  db_ok db -> submissions db !! id = Some row -> status row <> COMPLETED -> sub_id (f row) = sub_id row ->
  db_ok (update_submission id f db).
Proof.
  intros [Hkey Hdone] Hrow Hst Hid. split; cbn.
  - intros i row'. destruct (decide (i = id)) as [->|Hne].
    + rewrite lookup_alter_eq, Hrow. intros [= <-]. rewrite Hid. by apply Hkey.
    + rewrite lookup_alter_ne by done. apply Hkey.
  - intros i rc Hrc. destruct (Hdone i rc Hrc) as (row' & Hrow' & Hc).
    exists row'. rewrite lookup_alter_ne by congruence. done.
Qed.

Lemma db_ok_complete db id row f rid rc :
  db_ok db -> submissions db !! id = Some row -> sub_id (f row) = sub_id row -> status (f row) = COMPLETED ->
  rc_submission_id rc = id ->
  db_ok (update_submission id f (with_receipts (fun t => <[rid := rc]> t) db)).
Proof.
  intros [Hkey Hdone] Hrow Hid Hst Hrc. split; cbn.
  - intros i row'. destruct (decide (i = id)) as [->|Hne].
    + rewrite lookup_alter_eq, Hrow. intros [= <-]. rewrite Hid. by apply Hkey.
    + rewrite lookup_alter_ne by done. apply Hkey.
  - intros i rc'. destruct (decide (i = rid)) as [->|Hne].
    + rewrite lookup_insert_eq. intros [= <-]. rewrite Hrc. exists (f row). by rewrite lookup_alter_eq, Hrow.
    + rewrite lookup_insert_ne by done. intros Hi. destruct (Hdone i rc' Hi) as (row' & Hrow' & Hc).
      destruct (decide (rc_submission_id rc' = id)) as [->|].
      * exists (f row). by rewrite lookup_alter_eq, Hrow.
      * exists row'. by rewrite lookup_alter_ne.
Qed.

Lemma claim_Ok now id s row :
  deactivated s = false -> submissions (db_of s) !! id = Some row -> claimable row = true ->
  _claim_submission now id s =
    (Ok (claimed now row),
     in_db (fun t => Session (update_submission id (claimed now) (working t)) (committed t)) s).
Proof.
  intros Hd Hrow Hc. unfold _claim_submission, select, bind, reads. rewrite Hrow, Hc.
  unfold flush_write. by rewrite Hd.
Qed.

(** Flush, commit, return. *)
Lemma finish_Ok {A} f (x : A) s :
  deactivated s = false ->
  (flush_write f ;;; session_commit ;;; ret x) s =
    (Ok x, in_db (fun t => Session (f (working t)) (f (working t))) s).
Proof. intros Hd. unfold flush_write, session_commit, bind, ret. rewrite Hd. cbn. by rewrite Hd. Qed.

Lemma classify_not_completed e n :
  status_in (fst (_classify_failure e n)) [QUEUED; RUNNING; COMPLETED] = false /\
  (fst (_classify_failure e n) = RETRYING -> n < MAX_ATTEMPTS).
Proof.
  unfold _classify_failure. destruct (exc e); cbn; try done; destruct (n <? MAX_ATTEMPTS) eqn:Hn;
    cbn; (split; [done|]); intros; done || lia.
Qed.

(** What a processed submission looks like: the row [row] of [db] became [row']
    in [db'], and the caller was told [res]. *)
Record processed (now : datetime) (id rid : string) (answer : result exn (option outcome)) (row row' : SupplierSubmission)
    (db db' : SubDB) (res : SubmissionResult) : Prop := {
  p_row : submissions db' !! id = Some row';
  p_status : status row' = res_status res;
  p_settled : status_in (status row') [QUEUED; RUNNING] = false;
  p_attempt : attempt_count row' = attempt_count row + 1;
  p_completed_at : completed_at row' = None <-> status row' = RETRYING;
  p_retrying : status row' = RETRYING -> attempt_count row' < MAX_ATTEMPTS;
  p_receipt : status row' = COMPLETED -> exists p i c o rc,
      portals db !! portal_id row = Some p /\ is_supported p = true /\
      consent_record_id row = Some i /\ consent_records db !! i = Some c /\ consent_covers c p = true /\
      answer = Ok o /\ result_json row' = Some (_serialize_outcome o) /\
      receipts db' = <[rid := rc]> (receipts db) /\ res_receipt_id res = Some rid /\
      rc_submission_id rc = id /\ rc_tenant_id rc = sub_tenant_id row /\ rc_consent_record_id rc = consent_pk c /\
      submitted_at rc = coerce_utc (default now (completed_at row));
  p_no_receipt : status row' <> COMPLETED -> receipts db' = receipts db /\ res_receipt_id res = None;
  p_others : forall j, j <> id -> submissions db' !! j = submissions db !! j;
  p_ok : db_ok db';
}.

Lemma update_twice_eq db id f g row :
  submissions db !! id = Some row ->
  submissions (update_submission id f (update_submission id g db)) !! id = Some (f (g row)).
Proof. intros H. cbn. by rewrite !lookup_alter_eq, H. Qed.

Lemma update_twice_ne db id f g j :
  j <> id -> submissions (update_submission id f (update_submission id g db)) !! j = submissions db !! j.
Proof. intros H. cbn. by rewrite !lookup_alter_ne. Qed.

(** A failed attempt: the row is finalised with a status other than COMPLETED. *)
Lemma processed_failure id rid answer now row db st err done_at payload :
  db_ok db -> submissions db !! id = Some row -> status row <> COMPLETED ->
  status_in st [QUEUED; RUNNING; COMPLETED] = false ->
  (st = RETRYING -> attempt_count row + 1 < MAX_ATTEMPTS) ->
  (done_at = None <-> st = RETRYING) ->
  processed now id rid answer row (finished st err done_at None (claimed now row)) db
    (update_submission id (finished st err done_at None) (update_submission id (claimed now) db))
    {| res_status := st; res_receipt_id := None; res_error := err; result_payload := payload |}.
Proof.
  intros Hok Hrow Hst Hset Hretry Hdone.
  assert (Hok1 : db_ok (update_submission id (claimed now) db)) by (by apply (db_ok_update db id row)).
  split; cbn; try done.
  - by apply update_twice_eq.
  - by destruct st.
  - intros ->. done.
  - intros j Hj. by apply update_twice_ne.
  - apply (db_ok_update _ id (claimed now row)); try done. cbn. by rewrite lookup_alter_eq, Hrow.
Qed.

Lemma process_outcome now now_sign now_end rid answer id s row :
  deactivated s = false -> cache_ok (signing s) -> db_ok (db_of s) ->
  receipts (db_of s) !! rid = None -> submissions (db_of s) !! id = Some row -> claimable row = true ->
  exists res s' row',
    process_submission now now_sign now_end rid answer id s = (Ok res, s') /\
    processed now id rid answer row row' (db_of s) (db_of s') res /\
    committed (tx s') = working (tx s') /\ deactivated s' = false /\ cache_ok (signing s').
Proof.
  intros Hd Hc Hok Hrid Hrow Hcl.
  assert (Hst : status row <> COMPLETED) by (intros Heq; unfold claimable in Hcl; by rewrite Heq in Hcl).
  unfold process_submission, bind at 1. rewrite (claim_Ok now id s row) by done.
  set (s1 := in_db _ s).
  assert (Hrow1 : submissions (db_of s1) !! id = Some (claimed now row))
    by (change (alter (claimed now) id (submissions (db_of s)) !! id = Some (claimed now row));
        by rewrite lookup_alter_eq, Hrow).
  assert (Hok1 : db_ok (db_of s1)) by (by apply (db_ok_update (db_of s) id row)).
  assert (Hfree : receipt_free (db_of s1) rid (sub_id (claimed now row)))
    by (apply (db_ok_receipt_free _ _ _ (claimed now row)); try done; cbn; by rewrite (proj1 Hok _ _ Hrow)).
  unfold try_else at 1. pose proof (dispatch_state (claimed now row) answer s1) as Hs1.
  destruct (dispatch _ answer s1) as [[[[p c] o]|e] s2] eqn:Hdis; cbn in Hs1; subst s2.
  2: { destruct (_classify_failure e _) as [st err] eqn:Hcf.
       pose proof (classify_not_completed e (attempt_count (claimed now row))) as [Hcl1 Hcl2].
       rewrite Hcf in Hcl1, Hcl2. rewrite finish_Ok by done.
       eexists _, _, _. split; [done|]. split; [|done]. apply processed_failure; try done.
       case_bool_decide; naive_solver. }
  pose proof (dispatch_Ok (claimed now row) answer s1 p c o) as Hpass. rewrite Hdis in Hpass.
  destruct (Hpass eq_refl) as (Hp & Hsup & (i & Hci & Hcr) & Hcov & _ & Hans).
  unfold try_else.
  pose proof (pipeline_sign_outcome now_sign rid (claimed now row) p c s1 Hc Hd Hfree) as Hsign.
  destruct (_sign_receipt now_sign rid (claimed now row) p c s1) as [[i'|e] s2].
  - destruct Hsign as (Hd2 & Hc2 & rc & -> & H1 & H2 & H3 & H4 & Htx).
    rewrite finish_Ok by done. unfold in_db at 1. rewrite Htx.
    eexists {| res_status := COMPLETED; res_receipt_id := Some rid; res_error := None;
              result_payload := Some (_serialize_outcome o) |}, _,
      (finished COMPLETED None (Some now_end) (Some (_serialize_outcome o)) (claimed now row)).
    split; [done|]. split; [|done]. cbn in H1. rewrite (proj1 Hok _ _ Hrow) in H1. split; cbn; try done.
    + by apply (update_twice_eq (db_of s)).
    + intros _. exists p, i, c, o, rc. cbn in H4. unfold submission_time in H4. cbn in H4.
      repeat split; try done. rewrite H4. by destruct (completed_at row).
    + intros j Hj. by apply (update_twice_ne (db_of s)).
    + by apply (db_ok_complete (db_of s1) id (claimed now row)).
  - destruct Hsign as (Hd2 & Hc2 & Htx).
    rewrite finish_Ok by done. unfold in_db at 1. rewrite Htx.
    eexists _, _, _. split; [done|]. split; [|done]. by apply processed_failure.
Qed.
End Pipeline.

(** ** Properties *)

(** One delivery of the task: its clock reads, its UUID and the portal's answer. *)
Record delivery : Type := {
  d_now : datetime; d_sign : datetime; d_end : datetime; d_receipt_id : string;
  d_answer : result exn (option outcome);
}.

Section Drive.
Context `{E : Ed25519}.
Context (sha256 : bytes -> bytes) (canonical_json_bytes : json -> option bytes) (repr : json -> string).
Context (cfg : settings).

Definition deliver (d : delivery) (id : string) : M St exn SubmissionResult :=
  process_submission sha256 canonical_json_bytes repr cfg (d_now d) (d_sign d) (d_end d) (d_receipt_id d) (d_answer d) id.

(** The retry loop the workers make together: deliver as long as the row can be
    claimed, at most [n] times. *)
Fixpoint drive (n : nat) (env : nat -> delivery) (id : string) (s : St) : St :=
  match n with
  | O => s
  | S k =>
      match submissions (db_of s) !! id with
      | Some row => if claimable row then drive k (fun i => env (S i)) id (snd (deliver (env O) id s)) else s
      | None => s
      end
  end.

Lemma drive_settled n env id s row :
  submissions (db_of s) !! id = Some row -> claimable row = false -> drive n env id s = s.
Proof. intros Hrow Hcl. destruct n; cbn; [done|]. by rewrite Hrow, Hcl. Qed.

Lemma drive_bounded n : forall env id s row,
  deactivated s = false -> cache_ok (signing s) -> db_ok (db_of s) ->
  (forall i, receipts (db_of s) !! d_receipt_id (env i) = None) ->
  submissions (db_of s) !! id = Some row ->
  (claimable row = true -> 1 <= Z.of_nat n /\ MAX_ATTEMPTS - attempt_count row <= Z.of_nat n) ->
  exists row', submissions (db_of (drive n env id s)) !! id = Some row' /\ claimable row' = false.
Proof.
  induction n as [|n IH]; intros env id s row Hd Hc Hok Hfresh Hrow Hn.
  - exists row. split; [done|]. destruct (claimable row); [|done]. destruct Hn; [done|]. lia.
  - cbn [drive]. rewrite Hrow. destruct (claimable row) eqn:Hcl; [|by exists row].
    destruct (Hn eq_refl) as [_ Hbound]. unfold deliver.
    destruct (process_outcome sha256 canonical_json_bytes repr cfg (d_now (env O)) (d_sign (env O)) (d_end (env O))
                (d_receipt_id (env O)) (d_answer (env O)) id s row Hd Hc Hok (Hfresh O) Hrow Hcl)
      as (res & s' & row' & -> & Hp & _ & Hd' & Hc'). cbn [snd].
    destruct Hp as [Hrow' _ Hset Hatt _ Hretry _ Hno _ Hok'].
    destruct (decide (status row' = RETRYING)) as [Hr|Hr].
    + destruct Hno as [Hrec _]; [by rewrite Hr|]. specialize (Hretry Hr).
      apply (IH (fun i => env (S i)) id s' row'); try done.
      * intros i. rewrite Hrec. apply Hfresh.
      * intros _. unfold MAX_ATTEMPTS in *. lia.
    + assert (claimable row' = false) as Hcl' by (unfold claimable; by destruct (status row')).
      rewrite (drive_settled n _ id s' row') by done. by exists row'.
Qed.
End Drive.

(** C6. Processing a queued or retrying submission always returns a result and
    never leaves the row QUEUED or RUNNING, whatever the portal answers: the
    attempt is counted, [completed_at] is unset exactly when the row is
    RETRYING, RETRYING is only reached below [MAX_ATTEMPTS], COMPLETED only with
    a supported portal, a consent that is not revoked and covers it, and a
    receipt for this submission stored in the same transaction; any other
    outcome stores no receipt.  Other submissions are untouched, and the result
    is committed. *)
Theorem process_submission_outcome `{E : Ed25519} sha256 canonical repr cfg now now_sign now_end rid answer id s row :
  deactivated s = false -> cache_ok (signing s) -> db_ok (db_of s) ->
  receipts (db_of s) !! rid = None -> submissions (db_of s) !! id = Some row -> claimable row = true ->
  exists res s' row',
    process_submission sha256 canonical repr cfg now now_sign now_end rid answer id s = (Ok res, s') /\
    processed now id rid answer row row' (db_of s) (db_of s') res /\ committed (tx s') = working (tx s').
Proof.
  intros Hd Hc Hok Hrid Hrow Hcl.
  destruct (process_outcome sha256 canonical repr cfg now now_sign now_end rid answer id s row Hd Hc Hok Hrid Hrow Hcl)
    as (res & s' & row' & H1 & H2 & H3 & _). by exists res, s', row'.
Qed.

(** C12. The retry loop terminates: with fresh receipt ids, however the portal
    behaves, at most [max(1, MAX_ATTEMPTS - attempt_count)] deliveries bring a
    submission to a status that no delivery claims any more. *)
Theorem transient_failures_terminate `{E : Ed25519} sha256 canonical repr cfg env id s row n :
  deactivated s = false -> cache_ok (signing s) -> db_ok (db_of s) ->
  (forall i, receipts (db_of s) !! d_receipt_id (env i) = None) ->
  submissions (db_of s) !! id = Some row ->
  Z.max 1 (MAX_ATTEMPTS - attempt_count row) <= Z.of_nat n ->
  exists row', submissions (db_of (drive sha256 canonical repr cfg n env id s)) !! id = Some row' /\
    claimable row' = false.
Proof.
  intros Hd Hc Hok Hfresh Hrow Hn. apply (drive_bounded _ _ _ _ n env id s row); try done. lia.
Qed.

(** C11. The claim is exclusive: on a row whose status is QUEUED or RETRYING it
    succeeds, and the row it stores and returns differs in four things only: it
    is RUNNING, one more attempt is counted, the last error is cleared and it
    was claimed and started now; every other submission is as it was, nothing
    is committed yet, and a second claim of the row raises
    [SubmissionNotClaimable] and changes nothing.  So does a claim of a row in
    any other status, and of an unknown one. *)
Theorem claim_exclusive `{E : Ed25519} now now' id s :
  deactivated s = false ->
  match submissions (db_of s) !! id with
  | Some row =>
      ((status row = QUEUED \/ status row = RETRYING) ->
       exists row' s', _claim_submission now id s = (Ok row', s') /\
         row' = {| sub_id := sub_id row; sub_tenant_id := sub_tenant_id row; supplier_id := supplier_id row;
                   portal_id := portal_id row; status := RUNNING; payload_json := payload_json row;
                   result_json := result_json row; attempt_count := attempt_count row + 1; last_error := None;
                   claimed_at := Some now; started_at := Some now; completed_at := completed_at row;
                   consent_record_id := consent_record_id row; created_at := created_at row |} /\
         submissions (db_of s') = <[id := row']> (submissions (db_of s)) /\ committed (tx s') = committed (tx s) /\
         exists e, _claim_submission now' id s' = (Raise e, s') /\ exc e = SubmissionNotClaimable) /\
      (status row <> QUEUED -> status row <> RETRYING ->
       exists e, _claim_submission now id s = (Raise e, s) /\ exc e = SubmissionNotClaimable)
  | None => exists e, _claim_submission now id s = (Raise e, s) /\ exc e = SubmissionNotClaimable
  end.
Proof.
  intros Hd. destruct (submissions (db_of s) !! id) as [row|] eqn:Hrow.
  2:{ unfold _claim_submission, select, bind, reads. rewrite Hrow. eauto. }
  split; intros Hst.
  - assert (Hcl : claimable row = true) by (unfold claimable; destruct Hst as [-> | ->]; done).
    exists (claimed now row). eexists. split; [by apply claim_Ok|]. split; [done|]. split; [|split; [done|]].
    + unfold db_of, in_db. cbn. apply map_eq. intros j. destruct (decide (j = id)) as [->|].
      * by rewrite lookup_alter_eq, lookup_insert_eq; unfold db_of in Hrow; rewrite Hrow.
      * by rewrite lookup_alter_ne, lookup_insert_ne.
    + unfold _claim_submission, select, bind, reads. unfold db_of, in_db. cbn.
      rewrite lookup_alter_eq. unfold db_of in Hrow. rewrite Hrow. cbn. eauto.
  - intros Hst'. assert (Hcl : claimable row = false) by (unfold claimable; by destruct (status row)).
    unfold _claim_submission, select, bind, reads. rewrite Hrow, Hcl. eauto.
Qed.

(** ** Witnesses *)

Lemma demo_db_ok : db_ok (db_of DemoReceipts.start).
Proof.
  split; cbn.
  - intros i row. rewrite lookup_singleton_Some. by intros [<- <-].
  - intros i rc. by rewrite lookup_empty.
Qed.

Definition demo_env (i : nat) : delivery :=
  {| d_now := utc 1; d_sign := utc 2; d_end := utc 3; d_receipt_id := "r1";
     d_answer := Raise (Exn PortalTransientError "timeout" []) |}.

Lemma process_submission_outcome_witness :
  exists res s' row',
    process_submission DemoReceipts.sha DemoReceipts.canonical (fun _ => "") DemoReceipts.cfg
      (utc 1) (utc 2) (utc 3) "r1" (Ok None) "x1" DemoReceipts.start = (Ok res, s') /\
    processed (utc 1) "x1" "r1" (Ok None) DemoReceipts.sub row' (db_of DemoReceipts.start) (db_of s') res /\
    committed (tx s') = working (tx s').
Proof.
  apply (process_submission_outcome DemoReceipts.sha DemoReceipts.canonical (fun _ => "") DemoReceipts.cfg
           (utc 1) (utc 2) (utc 3) "r1" (Ok None) "x1" DemoReceipts.start DemoReceipts.sub);
    [reflexivity|exact DemoReceipts.start_cache_ok|exact demo_db_ok|reflexivity|reflexivity|reflexivity].
Defined.

Lemma transient_failures_terminate_witness :
  exists row', submissions (db_of (drive DemoReceipts.sha DemoReceipts.canonical (fun _ => "") DemoReceipts.cfg
      5 demo_env "x1" DemoReceipts.start)) !! "x1" = Some row' /\ claimable row' = false.
Proof.
  apply (transient_failures_terminate DemoReceipts.sha DemoReceipts.canonical (fun _ => "") DemoReceipts.cfg
           demo_env "x1" DemoReceipts.start DemoReceipts.sub 5);
    [reflexivity|exact DemoReceipts.start_cache_ok|exact demo_db_ok|reflexivity|reflexivity|vm_compute; discriminate].
Defined.

Lemma claim_exclusive_witness :
  exists row' s', _claim_submission (utc 1) "x1" DemoReceipts.start = (Ok row', s') /\
    status row' = RUNNING /\ attempt_count row' = attempt_count DemoReceipts.sub + 1 /\
    submissions (db_of s') !! "x1" = Some row'.
Proof.
  destruct (proj1 (claim_exclusive (E := DemoCrypto.demo) (utc 1) (utc 2) "x1" DemoReceipts.start eq_refl)
              (or_introl eq_refl)) as (row' & s' & H & He & Hs & _).
  exists row', s'. split; [exact H|]. rewrite Hs, lookup_insert_eq. split_and!; [by rewrite He..|done].
Defined.
