(* ===== verification/SubmissionService.v ===== *)
(** * The submission service

    services/submission_service.py: what the API does with submissions before
    and after the pipeline - creation with its checks, tenant-scoped reads,
    the manual retry and the receipt lookup. *)

From S2P Require Import Prelude PyStr Json PyTime Encoding Crypto CanonicalJson SubmissionModels Receipts Pipeline.

(** services/submission_service.py, [_MAX_LIMIT]. *)
Definition _MAX_LIMIT : Z := 200.
(** services/submission_service.py, [_DEFAULT_LIMIT]. *)
Definition _DEFAULT_LIMIT : Z := 50.

(** services/submission_service.py, [_RETRYABLE_STATUSES]. *)
Definition _RETRYABLE_STATUSES : list SubmissionStatus := [FAILED; BLOCKED].

(** services/submission_service.py, [_clamp_limit]. *)
Definition _clamp_limit (limit : Z) : Z := if limit <=? 0 then _DEFAULT_LIMIT else Z.min limit _MAX_LIMIT.

(** schemas/submission.py, [SubmissionCreate]. *)
Record SubmissionCreate : Type := {
  in_supplier_id : string;
  in_portal_id : string;
  in_consent_record_id : string;
  in_payload : list (string * json);
}.

(** services/submission_service.py:327-330, [retry_submission]. *)
Definition requeued (row : SupplierSubmission) : SupplierSubmission :=
  {| sub_id := sub_id row; sub_tenant_id := sub_tenant_id row; supplier_id := supplier_id row;
     portal_id := portal_id row; status := RETRYING; payload_json := payload_json row;
     result_json := result_json row; attempt_count := attempt_count row; last_error := None;
     claimed_at := None; started_at := None; completed_at := completed_at row;
     consent_record_id := consent_record_id row; created_at := created_at row |}.

(** The filters of the list and count queries. *)
Record filters : Type := {
  status_filter : option SubmissionStatus;
  supplier_filter : option string;
  portal_filter : option string;
}.

Definition opt_matches {A} `{EqDecision A} (o : option A) (a : A) : bool :=
  match o with Some b => bool_decide (a = b) | None => true end.

(** services/submission_service.py:253-259, [list_submissions]: the rows the
    [WHERE] clauses keep. *)
Definition matches (tid : string) (f : filters) (row : SupplierSubmission) : bool :=
  String.eqb (sub_tenant_id row) tid && opt_matches (status_filter f) (status row)
  && opt_matches (supplier_filter f) (supplier_id row) && opt_matches (portal_filter f) (portal_id row).

(** [ORDER BY created_at DESC, id DESC] *)
Definition newest_first (x y : SupplierSubmission) : bool :=
  (created_at y <? created_at x) || ((created_at x =? created_at y) && String.leb (sub_id y) (sub_id x)).

Section Service.
Context `{E : Ed25519}.
Context (sha256 : bytes -> bytes).
Context (canonical_json_bytes : json -> option bytes).
Context (repr : json -> string).
Context (cfg : settings).

(** services/submission_service.py, [_enqueue]: the ids handed to the Celery
    broker; [d] is the inline delivery and [broker_up] whether the broker takes
    the message.  No exception leaves it. *)
Definition _enqueue (d : delivery) (broker_up : bool) (submission_id : string) : M St exn (list string) :=
  if enable_in_process_processor cfg then
    try_except (deliver sha256 canonical_json_bytes repr cfg d submission_id ;;; ret [])
      (fun _ => ret [])
  else ret (if broker_up then [submission_id] else []).

(** services/submission_service.py, [_load_supplier]. *)
Definition _load_supplier (tid sid : string) : M St exn Supplier :=
  let* row := select (fun db => match suppliers db !! sid with
                                | Some x => if String.eqb (sup_tenant_id x) tid then Some x else None
                                | None => None
                                end) in
  or_raise row (http 404 "supplier_not_found").

(** services/submission_service.py, [_load_portal]. *)
Definition _load_portal (pid : string) : M St exn Portal :=
  let* row := select (fun db => portals db !! pid) in
  or_raise row (http 404 "portal_not_found").

(** services/submission_service.py, [_load_consent]. *)
Definition _load_consent (tid sid cid : string) : M St exn ConsentRecord :=
  let* row := select (fun db => match consent_records db !! cid with
                                | Some c => if String.eqb (consent_tenant_id c) tid
                                               && String.eqb (consent_supplier_id c) sid
                                            then Some c else None
                                | None => None
                                end) in
  or_raise row (http 404 "consent_record_not_found").

(** services/submission_service.py, [_validate_portal_supported]. *)
Definition _validate_portal_supported (portal : Portal) : M St exn unit :=
  raise_if (negb (is_supported portal)) (http 400 "portal_unsupported") ;;;
  raise_if (risky portal && negb (enable_tos_risky_platforms cfg)) (http 400 "portal_risky_disabled").

(** services/submission_service.py, [_validate_consent_covers_portal]. *)
Definition _validate_consent_covers_portal (consent : ConsentRecord) (portal : Portal) : M St exn unit :=
  raise_if (is_someb (revoked_at consent)) (http 400 "consent_revoked") ;;;
  raise_if (negb (scope_in (scope consent) _WRITE_CONSENT_SCOPES)) (http 400 "consent_scope_insufficient") ;;;
  let portal_ids := portal_ids_json consent in
  raise_if (match portal_ids with [] => false | _ => true end
            && negb (str_in "*" portal_ids) && negb (str_in (portal_pk portal) portal_ids))
    (http 400 "consent_portal_not_covered").

(** services/submission_service.py, [get_submission]. *)
Definition get_submission (tid sid : string) : M St exn SupplierSubmission :=
  let* row := select (fun db => match submissions db !! sid with
                                | Some x => if String.eqb (sub_tenant_id x) tid then Some x else None
                                | None => None
                                end) in
  or_raise row (http 404 "submission_not_found").

(** [await session.refresh(submission)], and reading the same object later: the
    row as the session sees it. *)
Definition reload (row : SupplierSubmission) : M St exn SupplierSubmission :=
  select (fun db => default row (submissions db !! sub_id row)).

(** services/submission_service.py, [create_submission]; [new_id] is the fresh
    UUID and [now] the server's default for [created_at].  Returns the
    submission and the ids handed to the broker. *)
Definition create_submission (new_id : string) (now : Z) (d : delivery) (broker_up : bool)
    (tid : string) (payload : SubmissionCreate) : M St exn (SupplierSubmission * list string) :=
  let* supplier := _load_supplier tid (in_supplier_id payload) in
  let* portal := _load_portal (in_portal_id payload) in
  _validate_portal_supported portal ;;;
  let* consent := _load_consent tid (sup_id supplier) (in_consent_record_id payload) in
  _validate_consent_covers_portal consent portal ;;;
  let submission :=
    {| sub_id := new_id; sub_tenant_id := tid; supplier_id := sup_id supplier; portal_id := portal_pk portal;
       status := QUEUED; payload_json := in_payload payload; result_json := None; attempt_count := 0;
       last_error := None; claimed_at := None; started_at := None; completed_at := None;
       consent_record_id := Some (consent_pk consent); created_at := now |} in
  flush_write (with_submissions (fun t => <[new_id := submission]> t)) ;;;
  let* dispatched := _enqueue d broker_up new_id in
  let* row := reload submission in
  ret (row, dispatched).

(** services/submission_service.py, [list_submissions]. *)
Definition list_submissions (db : SubDB) (tid : string) (f : filters) (limit offset : Z) : list SupplierSubmission :=
  let rows := isort newest_first (List.filter (matches tid f) (map snd (map_to_list (submissions db)))) in
  take (Z.to_nat (_clamp_limit limit)) (drop (Z.to_nat (Z.max offset 0)) rows).

(** services/submission_service.py, [count_submissions]. *)
Definition count_submissions (db : SubDB) (tid : string) (f : filters) : Z :=
  Z.of_nat (length (List.filter (matches tid f) (map snd (map_to_list (submissions db))))).

(** services/submission_service.py, [retry_submission]. *)
Definition retry_submission (d : delivery) (broker_up : bool) (tid sid : string) :
    M St exn (SupplierSubmission * list string) :=
  let* submission := get_submission tid sid in
  raise_if (negb (status_in (status submission) _RETRYABLE_STATUSES)) (http 409 "submission_not_retryable") ;;;
  flush_write (update_submission sid requeued) ;;;
  let* dispatched := _enqueue d broker_up sid in
  let* row := reload submission in
  ret (row, dispatched).

(** services/submission_service.py, [get_receipt_for_submission]. *)
Definition get_receipt_for_submission (tid sid : string) : M St exn SubmissionReceipt :=
  let* submission := get_submission tid sid in
  let* r := select (fun db => find_first (fun r => String.eqb (rc_submission_id r) (sub_id submission)
                                                   && String.eqb (rc_tenant_id r) tid)
                               (map snd (map_to_list (receipts db)))) in
  or_raise r (http 404 "receipt_not_found").

(** ** Lemmas *)

Lemma enqueue_Ok d broker_up i s : exists ids s', _enqueue d broker_up i s = (Ok ids, s').
Proof.
  unfold _enqueue, try_except, bind, ret. destruct (enable_in_process_processor cfg); [|eauto].
  destruct (deliver _ _ _ _ _ _ _) as [[x|e] s']; cbn; eauto.
Qed.

(** The service accepts a consent exactly when the pipeline will. *)
Lemma validate_covers_spec c p s :
  _validate_consent_covers_portal c p s = (Ok tt, s) <-> consent_covers c p = true.
Proof.
  unfold _validate_consent_covers_portal, consent_covers, raise_if, bind, ret, raise.
  destruct (is_someb (revoked_at c)); cbn; [done|].
  destruct (scope_in (scope c) _WRITE_CONSENT_SCOPES); cbn; [|done].
  destruct (portal_ids_json c) as [|x l]; cbn; [done|].
  destruct (str_in "*" (x :: l)), (str_in (portal_pk p) (x :: l)); cbn; done.
Qed.

Lemma covers_raises c p s u s' : _validate_consent_covers_portal c p s = (Ok u, s') ->
  s' = s /\ consent_covers c p = true.
Proof.
  intros H. assert (s' = s) as ->.
  { apply readonly_run in H; [done|]. unfold _validate_consent_covers_portal. auto with readonly. }
  split; [done|]. destruct u. by apply (validate_covers_spec c p s).
Qed.

End Service.

Lemma get_submission_Ok `{E : Ed25519} tid sid s row s' :
  get_submission tid sid s = (Ok row, s') <->
  s' = s /\ submissions (db_of s) !! sid = Some row /\ sub_tenant_id row = tid.
Proof.
  unfold get_submission, select, bind, reads, or_raise, ret, raise. cbn.
  destruct (submissions (db_of s) !! sid) as [x|]; [|naive_solver].
  destruct (String.eqb_spec (sub_tenant_id x) tid); naive_solver.
Qed.

(** ** Properties *)

(** A submission is created only for a supplier and a consent of the calling
    tenant, the consent being given for that supplier and covering a supported
    (and, unless the feature gate is on, not risky) portal; the stored row is
    then queued with no attempt, and the pipeline's own consent check passes on
    the same consent and portal. *)
Theorem create_submission_checks `{E : Ed25519} sha256 canonical repr cfg new_id now d up tid payload s row ids s' :
  enable_in_process_processor cfg = false ->
  create_submission sha256 canonical repr cfg new_id now d up tid payload s = (Ok (row, ids), s') ->
  exists sup p c, suppliers (db_of s) !! in_supplier_id payload = Some sup /\ sup_tenant_id sup = tid /\
    portals (db_of s) !! in_portal_id payload = Some p /\ is_supported p = true /\
    (risky p = true -> enable_tos_risky_platforms cfg = true) /\
    consent_records (db_of s) !! in_consent_record_id payload = Some c /\ consent_tenant_id c = tid /\
    consent_supplier_id c = sup_id sup /\
    (forall t, fst (_validate_consent (Some c) p t) = Ok c) /\
    submissions (db_of s') = <[new_id := row]> (submissions (db_of s)) /\
    sub_tenant_id row = tid /\ status row = QUEUED /\ attempt_count row = 0 /\
    consent_record_id row = Some (consent_pk c).
Proof.
  intros Hmode H. unfold create_submission, _load_supplier, _load_portal, _load_consent, select in H.
  inv_run H.
  unfold _validate_portal_supported in Hrun. inv_run Hrun. apply raise_if_Ok in Hrun as [Hrisky ->].
  apply covers_raises in Hrun0 as [-> Hcov].
  unfold flush_write in Hrun1. destruct (deactivated _); [done|]. injection Hrun1 as <- <-.
  unfold _enqueue in Hrun2. rewrite Hmode in Hrun2. apply ret_Ok in Hrun2 as [-> ->].
  injection H as -> _.
  destruct (suppliers _ !! _) as [sup|] eqn:Hsup; [|done].
  destruct (String.eqb_spec (sup_tenant_id sup) tid) as [Ht|]; [|done]. injection H0 as ->.
  destruct (consent_records _ !! _) as [c|] eqn:Hcon; [|done].
  destruct (String.eqb_spec (consent_tenant_id c) tid) as [Hct|]; [|done].
  destruct (String.eqb_spec (consent_supplier_id c) (sup_id a)) as [Hcs|]; [|done]. injection H2 as ->.
  do 3 eexists. repeat split; try done.
  - by destruct (is_supported _).
  - intros Hr. rewrite Hr in Hrisky. by destruct (enable_tos_risky_platforms cfg).
  - intros t. by apply validate_consent_spec.
  - cbn. by rewrite lookup_insert_eq.
  - cbn. by rewrite lookup_insert_eq.
  - cbn. by rewrite lookup_insert_eq.
  - cbn. by rewrite lookup_insert_eq.
  - cbn. by rewrite lookup_insert_eq.
Qed.

(** Tenants are isolated: a read, the receipt lookup and the list return
    only rows of the calling tenant, and a retry of another tenant's submission
    answers 404 and changes nothing. *)
Theorem submissions_tenant_isolation `{E : Ed25519} sha256 canonical repr cfg d up tid sid f limit offset s :
  (forall row s', get_submission tid sid s = (Ok row, s') -> s' = s /\ sub_tenant_id row = tid) /\
  (forall r s', get_receipt_for_submission tid sid s = (Ok r, s') -> s' = s /\ rc_tenant_id r = tid) /\
  (forall row, In row (list_submissions (db_of s) tid f limit offset) -> sub_tenant_id row = tid) /\
  (forall row, submissions (db_of s) !! sid = Some row -> sub_tenant_id row <> tid ->
     retry_submission sha256 canonical repr cfg d up tid sid s = (Raise (http 404 "submission_not_found"), s)).
Proof.
  repeat split.
  - by apply get_submission_Ok in H as [-> _].
  - by apply get_submission_Ok in H as (_ & _ & ?).
  - unfold get_receipt_for_submission, select in H. inv_run H. by apply or_raise_Ok in H as [_ ->].
  - unfold get_receipt_for_submission, select in H. inv_run H. apply or_raise_Ok in H as [H ->].
    apply find_first_Some in H as [_ H]. apply andb_true_iff in H as [_ H]. by apply String.eqb_eq.
  - intros row Hin. unfold list_submissions in Hin.
    apply list_elem_of_In, list_elem_of_In in Hin.
    assert (Hin' : In row (isort newest_first (List.filter (matches tid f) (map snd (map_to_list (submissions (db_of s))))))).
    { apply list_elem_of_In in Hin. apply elem_of_take in Hin as (i & Hi & _).
      apply list_elem_of_In, list_elem_of_lookup. rewrite lookup_drop in Hi. eauto. }
    apply isort_In, List.filter_In in Hin' as [_ Hm]. unfold matches in Hm.
    rewrite !andb_true_iff in Hm. by apply String.eqb_eq, Hm.
  - intros row Hrow Hne. unfold retry_submission, get_submission, select, bind, reads. cbn.
    rewrite Hrow. by destruct (String.eqb_spec (sub_tenant_id row) tid).
Qed.

(** Listing is complete: with a page size the service does not clamp, the
    pages at offsets 0, l, 2l, ... put together hold every submission the
    filters match exactly once, newest first, and [count_submissions] is their
    number; no page is longer than the page size. *)
Theorem list_submissions_pages db tid f l n :
  (1 <= l <= 200)%nat -> count_submissions db tid f <= Z.of_nat (n * l) ->
  let page k := list_submissions db tid f (Z.of_nat l) (Z.of_nat (k * l)) in
  Permutation (concat (map page (seq 0 n))) (List.filter (matches tid f) (map snd (map_to_list (submissions db)))) /\
  Z.of_nat (length (concat (map page (seq 0 n)))) = count_submissions db tid f /\
  forall k, (length (page k) <= l)%nat.
Proof.
  intros Hl Hn page. set (rows := List.filter (matches tid f) _).
  assert (Hpage : forall k, page k = take l (drop (k * l) (isort newest_first rows))).
  { intros k. unfold page, list_submissions, _clamp_limit, _MAX_LIMIT. fold rows.
    destruct (Z.leb_spec (Z.of_nat l) 0); [lia|].
    replace (Z.to_nat (Z.min (Z.of_nat l) 200)) with l by lia.
    by replace (Z.to_nat (Z.max (Z.of_nat (k * l)) 0)) with (k * l)%nat by lia. }
  rewrite (map_ext page (fun k => take l (drop (k * l) (isort newest_first rows)))) by exact Hpage.
  pose proof (isort_perm newest_first rows) as Hperm.
  rewrite concat_pages, take_ge.
  - split; [exact Hperm|]. split.
    + unfold count_submissions. fold rows. by rewrite (Permutation_length Hperm).
    + intros k. rewrite Hpage, length_take. lia.
  - rewrite (Permutation_length Hperm). unfold count_submissions in Hn. fold rows in Hn. lia.
Qed.

(** The receipt of a retried submission is dated before the submission: a
    failed submission keeps its [completed_at] through the manual retry and the
    claim, and the receipt issued when a later delivery completes it carries
    that time as [submitted_at]. *)
Theorem retried_receipt_keeps_failure_time `{E : Ed25519} sha256 canonical repr cfg tid sid d up s row t out s1
    now now_sign now_end rid answer res s2 :
  enable_in_process_processor cfg = false -> cache_ok (signing s) -> db_ok (db_of s) ->
  receipts (db_of s) !! rid = None -> submissions (db_of s) !! sid = Some row -> completed_at row = Some t ->
  retry_submission sha256 canonical repr cfg d up tid sid s = (Ok out, s1) ->
  process_submission sha256 canonical repr cfg now now_sign now_end rid answer sid s1 = (Ok res, s2) ->
  res_status res = COMPLETED ->
  exists rc, receipts (db_of s2) !! rid = Some rc /\ rc_submission_id rc = sid /\ submitted_at rc = coerce_utc t.
Proof.
  intros Hmode Hc Hok Hrid Hrow Ht Hretry Hproc Hdone.
  unfold retry_submission in Hretry. inv_run Hretry.
  rewrite Hrow in H. destruct (String.eqb (sub_tenant_id row) tid); [|done]. injection H as <-.
  assert (Hst : status row <> COMPLETED) by (intros Heq; by rewrite Heq in H0).
  unfold flush_write in Hrun. destruct (deactivated s) eqn:Hd; [done|]. injection Hrun as <- <-.
  unfold _enqueue in Hrun0. rewrite Hmode in Hrun0. apply ret_Ok in Hrun0 as [-> ->].
  match type of Hproc with process_submission _ _ _ _ _ _ _ _ _ _ ?st = _ => set (s1 := st) in * end.
  destruct (process_outcome sha256 canonical repr cfg now now_sign now_end rid answer sid s1 (requeued row))
    as (res' & s' & row' & Hrun & Hp & _); try done.
  - by apply (db_ok_update (db_of s) sid row).
  - unfold db_of, s1. cbn. rewrite lookup_alter_eq. unfold db_of in Hrow. by rewrite Hrow.
  - rewrite Hproc in Hrun. injection Hrun as <- <-.
    rewrite <- (p_status _ _ _ _ _ _ _ _ _ Hp) in Hdone.
    destruct (p_receipt _ _ _ _ _ _ _ _ _ Hp Hdone) as (p & i & c & o & rc & H).
    exists rc. destruct H as (_ & _ & _ & _ & _ & _ & _ & Hrec & _ & Hsub & _ & _ & Hat).
    rewrite Hrec, lookup_insert_eq. cbn in Hat. by rewrite Ht in Hat.
Qed.

(** ** Witnesses *)

Definition demo_cfg : settings :=
  {| receipt_signing_key_id := "k1"; receipt_signing_private_key_pem := "-----BEGIN seed -----END";
     enable_in_process_processor := false; enable_tos_risky_platforms := false |}.
Definition demo_payload : SubmissionCreate :=
  {| in_supplier_id := "s1"; in_portal_id := "p1"; in_consent_record_id := "c1"; in_payload := [] |}.

Lemma create_submission_checks_witness :
  exists row ids s', create_submission DemoReceipts.sha DemoReceipts.canonical (fun _ => "") demo_cfg "x2" 7
      (demo_env 0) true "t1" demo_payload DemoReceipts.start = (Ok (row, ids), s') /\
    status row = QUEUED /\ ids = ["x2"].
Proof.
  destruct (create_submission DemoReceipts.sha DemoReceipts.canonical (fun _ => "") demo_cfg "x2" 7
      (demo_env 0) true "t1" demo_payload DemoReceipts.start) as [[[row ids]|e] s'] eqn:H;
    [|vm_compute in H; discriminate].
  destruct (create_submission_checks DemoReceipts.sha DemoReceipts.canonical (fun _ => "") demo_cfg "x2" 7
      (demo_env 0) true "t1" demo_payload DemoReceipts.start row ids s' eq_refl H)
    as (? & ? & ? & _ & _ & _ & _ & _ & _ & _ & _ & _ & _ & _ & Hst & _).
  assert (Hids : ids = ["x2"]) by (vm_compute in H; by injection H as _ <- _).
  exact (ex_intro _ row (ex_intro _ ids (ex_intro _ s' (conj eq_refl (conj Hst Hids))))).
Defined.

Lemma submissions_tenant_isolation_witness :
  retry_submission DemoReceipts.sha DemoReceipts.canonical (fun _ => "") demo_cfg (demo_env 0) true "t2" "x1"
    DemoReceipts.start = (Raise (http 404 "submission_not_found"), DemoReceipts.start).
Proof.
  refine (proj2 (proj2 (proj2 (submissions_tenant_isolation DemoReceipts.sha DemoReceipts.canonical (fun _ => "")
            demo_cfg (demo_env 0) true "t2" "x1" {| status_filter := None; supplier_filter := None; portal_filter := None |}
            50 0 DemoReceipts.start))) DemoReceipts.sub _ _); [reflexivity|discriminate].
Defined.

Definition no_filters : filters := {| status_filter := None; supplier_filter := None; portal_filter := None |}.

Lemma list_submissions_pages_witness :
  Z.of_nat (length (concat (map (fun k => list_submissions DemoReceipts.db "t1" no_filters 1 (Z.of_nat (k * 1))) (seq 0 2)))) = 1.
Proof.
  exact (proj1 (proj2 (list_submissions_pages DemoReceipts.db "t1" no_filters 1 2 ltac:(lia) ltac:(vm_compute; discriminate)))).
Defined.

Definition demo_failed : SupplierSubmission := finished FAILED (Some "timeout") (Some (utc 3)) None DemoReceipts.sub.
Definition demo_failed_state : St (E := DemoCrypto.demo) :=
  in_db (fun t => Session (update_submission "x1" (fun _ => demo_failed) (working t)) (committed t)) DemoReceipts.start.

Lemma demo_failed_ok : db_ok (db_of demo_failed_state).
Proof. by apply (db_ok_update DemoReceipts.db "x1" DemoReceipts.sub); [apply demo_db_ok|..]. Qed.

Lemma retried_receipt_keeps_failure_time_witness :
  exists s2 rc, receipts (db_of (E := DemoCrypto.demo) s2) !! "r1" = Some rc /\ submitted_at rc = utc 3.
Proof.
  destruct (retry_submission DemoReceipts.sha DemoReceipts.canonical (fun _ => "") demo_cfg (demo_env 0) true "t1" "x1"
              demo_failed_state) as [[out|e] s1] eqn:H1; [|vm_compute in H1; discriminate].
  destruct (process_submission DemoReceipts.sha DemoReceipts.canonical (fun _ => "") demo_cfg (utc 90) (utc 91) (utc 92)
              "r1" (Ok None) "x1" s1) as [[res|e] s2] eqn:H2;
    [|vm_compute in H1; injection H1 as <- <-; vm_compute in H2; discriminate].
  assert (Hdone : res_status res = COMPLETED)
    by (vm_compute in H1; injection H1 as <- <-; vm_compute in H2; by injection H2 as <- _).
  destruct (retried_receipt_keeps_failure_time DemoReceipts.sha DemoReceipts.canonical (fun _ => "") demo_cfg "t1" "x1"
              (demo_env 0) true demo_failed_state demo_failed (utc 3) out s1 (utc 90) (utc 91) (utc 92) "r1" (Ok None) res s2
              eq_refl DemoReceipts.start_cache_ok demo_failed_ok eq_refl eq_refl eq_refl H1 H2 Hdone)
    as (rc & Hrc & _ & Hat).
  exact (ex_intro _ s2 (ex_intro _ rc (conj Hrc Hat))).
Defined.
