(* ===== verification/Billing.v ===== *)
(** * Billing: the subscription projection

    models/billing.py and services/billing_service.py: the tables mirrored from
    Stripe, the subscription state machine with its grace period and tenant
    gating, and the idempotent upserts.

    Rows are kept under their unique columns (a subscription under its Stripe
    id, and so on).  A flush checks what the database checks: foreign keys,
    unique columns and 32-bit integer columns. *)

From Stdlib Require Import Ascii.
From S2P Require Import Prelude PyStr Json PyTime.

(** ** Statuses *)

(** models/billing.py, [SubscriptionStatus]. *)
Definition INCOMPLETE : string := "incomplete".
Definition TRIALING : string := "trialing".
Definition ACTIVE : string := "active".
Definition PAST_DUE : string := "past_due".
Definition CANCELED : string := "canceled".
Definition UNPAID : string := "unpaid".
Definition PAUSED : string := "paused".
Definition SubscriptionStatus_ALL : list string :=
  [INCOMPLETE; TRIALING; ACTIVE; PAST_DUE; CANCELED; UNPAID; PAUSED].

(** services/billing_service.py, [ALLOWED_TRANSITIONS]. *)
Definition ALLOWED_TRANSITIONS : list (string * list string) :=
  [(INCOMPLETE, [TRIALING; ACTIVE; CANCELED; INCOMPLETE]);
   (TRIALING, [ACTIVE; PAST_DUE; CANCELED; TRIALING]);
   (ACTIVE, [PAST_DUE; CANCELED; PAUSED; UNPAID; ACTIVE]);
   (PAST_DUE, [ACTIVE; UNPAID; CANCELED; PAST_DUE]);
   (UNPAID, [ACTIVE; CANCELED; UNPAID]);
   (PAUSED, [ACTIVE; CANCELED; PAUSED]);
   (CANCELED, [CANCELED])].

Definition str_in (s : string) (l : list string) : bool := existsb (String.eqb s) l.

#[global] Arguments str_in : simpl never.

(** services/billing_service.py, [is_allowed_transition]. *)
Definition is_allowed_transition (from_status to_status : string) : bool :=
  match find_first (fun kv => String.eqb kv.1 from_status) ALLOWED_TRANSITIONS with
  | Some kv => str_in to_status kv.2
  | None => false
  end.

(** ** Tables *)

(** models/billing.py, [BillingCustomer]. *)
Record BillingCustomer : Type := {
  cu_tenant_id : string;
  stripe_customer_id : string;
  email_billing : option string;
}.

(** models/billing.py, [BillingSubscription]. *)
Record BillingSubscription : Type := {
  tenant_id : string;
  stripe_subscription_id : string;
  status : string;
  current_period_start : option datetime;
  current_period_end : option datetime;
  cancel_at_period_end : bool;
  canceled_at : option datetime;
  latest_invoice_id : option string;
  plan_setup_paid : bool;
  monthly_price_cents : Z;
  past_due_since : option datetime;
  sub_created_at : Z;
}.

(** models/billing.py, [BillingInvoice]. *)
Record BillingInvoice : Type := {
  inv_tenant_id : string;
  stripe_invoice_id : string;
  inv_status : string;
  amount_due_cents : Z;
  amount_paid_cents : Z;
  currency : string;
  hosted_invoice_url : option string;
  invoice_pdf_url : option string;
  due_at : option datetime;
  paid_at : option datetime;
  inv_created_at : Z;
}.

(** models/billing.py, [BillingEvent]. *)
Record BillingEvent : Type := {
  stripe_event_id : string;
  event_type : string;
  payload : json;
  processed_at : option datetime;
  processing_error : option string;
}.

(** models/billing.py, [BillingPriceConfig]. *)
Record BillingPriceConfig : Type := {
  price_key : string;
  stripe_price_id : string;
  amount_cents : Z;
  price_currency : string;
  price_active : bool;
}.

(** [tenants] maps a tenant to its [is_active]. *)
Record BillingDB : Type := {
  tenants : gmap string bool;
  customers : gmap string BillingCustomer;
  subscriptions : gmap string BillingSubscription;
  invoices : gmap string BillingInvoice;
  events : gmap string BillingEvent;
  price_configs : gmap string BillingPriceConfig;
}.

Definition set_tenants (t : gmap string bool) (db : BillingDB) : BillingDB :=
  {| tenants := t; customers := customers db; subscriptions := subscriptions db; invoices := invoices db;
     events := events db; price_configs := price_configs db |}.
Definition set_customers (c : gmap string BillingCustomer) (db : BillingDB) : BillingDB :=
  {| tenants := tenants db; customers := c; subscriptions := subscriptions db; invoices := invoices db;
     events := events db; price_configs := price_configs db |}.
Definition set_subscriptions (s : gmap string BillingSubscription) (db : BillingDB) : BillingDB :=
  {| tenants := tenants db; customers := customers db; subscriptions := s; invoices := invoices db;
     events := events db; price_configs := price_configs db |}.
Definition set_invoices (i : gmap string BillingInvoice) (db : BillingDB) : BillingDB :=
  {| tenants := tenants db; customers := customers db; subscriptions := subscriptions db; invoices := i;
     events := events db; price_configs := price_configs db |}.
Definition set_events (e : gmap string BillingEvent) (db : BillingDB) : BillingDB :=
  {| tenants := tenants db; customers := customers db; subscriptions := subscriptions db; invoices := invoices db;
     events := e; price_configs := price_configs db |}.

Inductive billing_error : Type :=
| BillingStateError (msg : string)
| StripeSignatureError (msg : string)
| IntegrityError
| DataError
| PyError (name : string).

Definition BM : Type -> Type := M (session BillingDB) billing_error.

(** What a loaded subscription's attributes become. *)
Definition with_status (st : string) (since canceled : option datetime) (s : BillingSubscription) : BillingSubscription :=
  {| tenant_id := tenant_id s; stripe_subscription_id := stripe_subscription_id s; status := st;
     current_period_start := current_period_start s; current_period_end := current_period_end s;
     cancel_at_period_end := cancel_at_period_end s; canceled_at := canceled;
     latest_invoice_id := latest_invoice_id s; plan_setup_paid := plan_setup_paid s;
     monthly_price_cents := monthly_price_cents s; past_due_since := since; sub_created_at := sub_created_at s |}.
Definition with_setup_paid (s : BillingSubscription) : BillingSubscription :=
  {| tenant_id := tenant_id s; stripe_subscription_id := stripe_subscription_id s; status := status s;
     current_period_start := current_period_start s; current_period_end := current_period_end s;
     cancel_at_period_end := cancel_at_period_end s; canceled_at := canceled_at s;
     latest_invoice_id := latest_invoice_id s; plan_setup_paid := true;
     monthly_price_cents := monthly_price_cents s; past_due_since := past_due_since s; sub_created_at := sub_created_at s |}.

Definition int32 (z : Z) : bool := (- 2 ^ 31 <=? z) && (z <? 2 ^ 31).

(** ** Service functions *)

(** services/billing_service.py, [redact_email]. *)
Definition redact_email (email : option string) : string :=
  match email with
  | None => "<redacted>"
  | Some e =>
      if negb (truthy e) || negb (contains_char "@" e) then "<redacted>"
      else let '(local, _, domain) := partition_char "@" e in
           if negb (truthy local) then "<redacted>@" +:+ domain
           else stake 1 local +:+ "***@" +:+ domain
  end.

(** services/billing_service.py, [get_customer_by_tenant]. *)
Definition get_customer_by_tenant (tid : string) : BM (option BillingCustomer) :=
  query (fun db => customers db !! tid).

(** services/billing_service.py, [get_customer_by_stripe_id]. *)
Definition find_customer (cid : string) (db : BillingDB) : option BillingCustomer :=
  find_row (fun c => String.eqb (stripe_customer_id c) cid) (customers db).
Definition get_customer_by_stripe_id (cid : string) : BM (option BillingCustomer) := query (find_customer cid).

(** Storing a customer: its tenant exists and no other tenant has its Stripe id. *)
Definition put_customer (c : BillingCustomer) : BM unit :=
  let* ok := query (fun db => is_someb (tenants db !! cu_tenant_id c)
    && match find_customer (stripe_customer_id c) db with
       | Some c' => String.eqb (cu_tenant_id c') (cu_tenant_id c)
       | None => true
       end) in
  if ok then write (fun db => set_customers (<[cu_tenant_id c := c]> (customers db)) db)
  else raise IntegrityError.

(** services/billing_service.py, [upsert_customer]. *)
Definition upsert_customer (tid cid : string) (email : option string) : BM BillingCustomer :=
  let* existing := get_customer_by_tenant tid in
  let customer := match existing with
                  | Some e => {| cu_tenant_id := cu_tenant_id e; stripe_customer_id := cid;
                                 email_billing := or_else email (email_billing e) |}
                  | None => {| cu_tenant_id := tid; stripe_customer_id := cid; email_billing := email |}
                  end in
  put_customer customer ;;;
  ret customer.

(** services/billing_service.py, [get_subscription_by_tenant]. *)
Definition get_subscription_by_tenant (tid : string) : BM (option BillingSubscription) :=
  query (fun db => head (sort_by (fun s => - sub_created_at s)
    (List.filter (fun s => String.eqb (tenant_id s) tid) (map snd (map_to_list (subscriptions db)))))).

(** services/billing_service.py, [get_subscription_by_stripe_id]. *)
Definition get_subscription_by_stripe_id (sid : string) : BM (option BillingSubscription) :=
  query (fun db => subscriptions db !! sid).

(** services/billing_service.py, [_apply_tenant_gating]. *)
Definition _apply_tenant_gating (tid st : string) : BM unit :=
  let* tenant := query (fun db => tenants db !! tid) in
  match tenant with
  | None => ret tt
  | Some _ =>
      if String.eqb st CANCELED then write (fun db => set_tenants (<[tid := false]> (tenants db)) db)
      else if str_in st [ACTIVE; TRIALING] then write (fun db => set_tenants (<[tid := true]> (tenants db)) db)
      else ret tt
  end.

(** services/billing_service.py, [_coerce_dt], on a JSON value; numbers outside
    the years 1 to 9999 raise. *)
Definition _coerce_dt (value : json) : BM (option datetime) :=
  match value with
  | JInt _ | JFloat _ | JBool _ =>
      match json_int value with
      | Some n => if (-62135596800 <=? n) && (n <=? 253402300799) then ret (Some (utc (seconds n)))
                  else raise (PyError "ValueError")
      | None => raise (PyError "ValueError")
      end
  | _ => ret None
  end.

(** Assignments to the attributes of a loaded subscription. *)
Definition put_subscription (s : BillingSubscription) : BM unit :=
  write (fun db => set_subscriptions (<[stripe_subscription_id s := s]> (subscriptions db)) db).

(** services/billing_service.py, [transition_status]; [now] is the clock read. *)
Definition transition_status (now : datetime) (subscription : BillingSubscription) (to_status : string)
    (strict : bool) : BM BillingSubscription :=
  raise_if (negb (str_in to_status SubscriptionStatus_ALL))
    (BillingStateError ("unknown subscription status: " +:+ to_status)) ;;;
  raise_if (negb (is_allowed_transition (status subscription) to_status) && strict)
    (BillingStateError ("disallowed transition " +:+ status subscription +:+ " -> " +:+ to_status)) ;;;
  let previous := status subscription in
  let since := if String.eqb to_status PAST_DUE && negb (String.eqb previous PAST_DUE)
               then Some now else past_due_since subscription in
  let since := if String.eqb to_status ACTIVE then None else since in
  let canceled := if String.eqb to_status CANCELED && negb (is_someb (canceled_at subscription))
                  then Some now else canceled_at subscription in
  let subscription := with_status to_status since canceled subscription in
  put_subscription subscription ;;;
  _apply_tenant_gating (tenant_id subscription) to_status ;;;
  ret subscription.

(** services/billing_service.py, [apply_grace_period]; [default_days] is
    [settings.billing_grace_period_days]. *)
Definition apply_grace_period (default_days : Z) (clock : datetime) (subscription : BillingSubscription)
    (now : option datetime) (grace_days : option Z) : BM BillingSubscription :=
  if negb (String.eqb (status subscription) PAST_DUE) then ret subscription
  else match past_due_since subscription with
  | None => ret subscription
  | Some since =>
      let eff_now := default clock now in
      let d := default default_days grace_days in
      let boundary := instant since + days d in
      if boundary <=? instant eff_now then transition_status clock subscription UNPAID false
      else ret subscription
  end.

(** services/billing_service.py, [pause_subscription]. *)
Definition pause_subscription (now : datetime) (s : BillingSubscription) : BM BillingSubscription :=
  transition_status now s PAUSED true.

(** services/billing_service.py, [resume_subscription]. *)
Definition resume_subscription (now : datetime) (s : BillingSubscription) : BM BillingSubscription :=
  transition_status now s ACTIVE true.

(** services/billing_service.py, [set_setup_paid]. *)
Definition set_setup_paid (s : BillingSubscription) : BM BillingSubscription :=
  put_subscription (with_setup_paid s) ;;; ret (with_setup_paid s).

(** The fields a Stripe subscription object carries. *)
Record stripe_subscription : Type := {
  st_status : string;
  st_period_start : json;
  st_period_end : json;
  st_cancel_at_period_end : bool;
  st_canceled_at : json;
  st_latest_invoice : option string;
  st_price_cents : option Z;
}.

(** services/billing_service.py, [upsert_subscription_from_stripe]; [created]
    is the server's default for [created_at]. *)
Definition upsert_subscription_from_stripe (now : datetime) (created : Z) (tid sid : string)
    (x : stripe_subscription) : BM BillingSubscription :=
  let* found := get_subscription_by_stripe_id sid in
  let* sub := match found with
    | Some s => ret s
    | None =>
        let price := match st_price_cents x with Some c => if c =? 0 then 150000 else c | None => 150000 end in
        let* known := query (fun db => is_someb (tenants db !! tid)) in
        raise_if (negb known) IntegrityError ;;;
        raise_if (negb (int32 price)) DataError ;;;
        let s := {| tenant_id := tid; stripe_subscription_id := sid; status := INCOMPLETE;
                    current_period_start := None; current_period_end := None; cancel_at_period_end := false;
                    canceled_at := None; latest_invoice_id := None; plan_setup_paid := false;
                    monthly_price_cents := price; past_due_since := None; sub_created_at := created |} in
        put_subscription s ;;; ret s
    end in
  let* start := _coerce_dt (st_period_start x) in
  let* end_ := _coerce_dt (st_period_end x) in
  let* canceled := _coerce_dt (st_canceled_at x) in
  let sub :=
    {| tenant_id := tenant_id sub; stripe_subscription_id := stripe_subscription_id sub; status := status sub;
       current_period_start := or_else start (current_period_start sub);
       current_period_end := or_else end_ (current_period_end sub);
       cancel_at_period_end := st_cancel_at_period_end x;
       canceled_at := or_else canceled (canceled_at sub);
       latest_invoice_id := match st_latest_invoice x with
                            | Some i => if truthy i then Some i else latest_invoice_id sub
                            | None => latest_invoice_id sub
                            end;
       plan_setup_paid := plan_setup_paid sub;
       monthly_price_cents := default (monthly_price_cents sub) (st_price_cents x);
       past_due_since := past_due_since sub; sub_created_at := sub_created_at sub |} in
  raise_if (negb (int32 (monthly_price_cents sub))) DataError ;;;
  put_subscription sub ;;;
  if truthy (st_status x) && negb (String.eqb (st_status x) (status sub))
  then transition_status now sub (st_status x) false
  else _apply_tenant_gating (tenant_id sub) (status sub) ;;; ret sub.

(** The fields a Stripe invoice object carries. *)
Record stripe_invoice : Type := {
  si_status : string;
  si_amount_due : Z;
  si_amount_paid : Z;
  si_currency : string;
  si_hosted_url : option string;
  si_pdf_url : option string;
  si_due_at : json;
  si_paid_at : json;
}.

Definition truthy_or (o : option string) (old : option string) : option string :=
  match o with Some s => if truthy s then Some s else old | None => old end.

(** services/billing_service.py, [upsert_invoice_from_stripe]. *)
Definition upsert_invoice_from_stripe (created : Z) (tid iid : string) (x : stripe_invoice) : BM BillingInvoice :=
  let* found := query (fun db => invoices db !! iid) in
  let* due := _coerce_dt (si_due_at x) in
  let* paid := _coerce_dt (si_paid_at x) in
  let* known := query (fun db => is_someb (tenants db !! tid)) in
  raise_if (negb (is_someb found) && negb known) IntegrityError ;;;
  raise_if (negb (int32 (si_amount_due x)) || negb (int32 (si_amount_paid x))) DataError ;;;
  let inv := match found with
    | None => {| inv_tenant_id := tid; stripe_invoice_id := iid; inv_status := si_status x;
                 amount_due_cents := si_amount_due x; amount_paid_cents := si_amount_paid x;
                 currency := si_currency x; hosted_invoice_url := si_hosted_url x; invoice_pdf_url := si_pdf_url x;
                 due_at := due; paid_at := paid; inv_created_at := created |}
    | Some i => {| inv_tenant_id := inv_tenant_id i; stripe_invoice_id := stripe_invoice_id i;
                   inv_status := si_status x; amount_due_cents := si_amount_due x;
                   amount_paid_cents := si_amount_paid x; currency := sor (si_currency x) (currency i);
                   hosted_invoice_url := truthy_or (si_hosted_url x) (hosted_invoice_url i);
                   invoice_pdf_url := truthy_or (si_pdf_url x) (invoice_pdf_url i);
                   due_at := or_else due (due_at i); paid_at := or_else paid (paid_at i);
                   inv_created_at := inv_created_at i |}
    end in
  write (fun db => set_invoices (<[iid := inv]> (invoices db)) db) ;;;
  ret inv.

(** services/billing_service.py, [list_invoices_for_tenant]. *)
Definition list_invoices_for_tenant (tid : string) (limit offset : nat) : BM (list BillingInvoice * Z) :=
  query (fun db =>
    let rows := List.filter (fun i => String.eqb (inv_tenant_id i) tid) (map snd (map_to_list (invoices db))) in
    (take limit (drop offset (sort_by (fun i => - inv_created_at i) rows)), Z.of_nat (length rows))).

(** services/billing_service.py, [_PlanDefaults]. *)
Definition plan_setup_cents : Z := 250000.
Definition plan_monthly_cents : Z := 150000.

(** services/billing_service.py, [get_price_config]. *)
Definition get_price_config (k : string) : BM (option BillingPriceConfig) :=
  query (fun db => match price_configs db !! k with
                   | Some c => if price_active c then Some c else None
                   | None => None
                   end).

(** ** The invariant of the projection *)

(** A subscription row: a known status; past due with its date, active without
    one; canceled with its date. *)
Definition sub_ok (s : BillingSubscription) : Prop :=
  str_in (status s) SubscriptionStatus_ALL = true /\
  (status s = PAST_DUE -> past_due_since s <> None) /\
  (status s = ACTIVE -> past_due_since s = None) /\
  (status s = CANCELED -> canceled_at s <> None).

Definition subs_ok (db : BillingDB) : Prop :=
  forall i s, subscriptions db !! i = Some s -> stripe_subscription_id s = i /\ sub_ok s.

Definition session_ok (s : session BillingDB) : Prop := subs_ok (working s) /\ subs_ok (committed s).

Lemma str_in_ALL st : str_in st SubscriptionStatus_ALL = true <-> In st SubscriptionStatus_ALL.
Proof.
  unfold str_in. rewrite existsb_exists. split.
  - intros (x & Hx & Heq). apply String.eqb_eq in Heq. by subst.
  - intros H. exists st. by rewrite String.eqb_refl.
Qed.

Lemma write_ok (f : BillingDB -> BillingDB) :
  (forall db, subs_ok db -> subs_ok (f db)) -> preserves session_ok (write (E := billing_error) f).
Proof. intros Hf s [Hw Hc]. split; cbn; auto. Qed.

Lemma query_ok {A} (f : BillingDB -> A) : preserves session_ok (query (E := billing_error) f).
Proof. apply preserves_reads. Qed.

(** A rule for calls whose result carries a property of its own. *)
Definition ensures {A} (Q : A -> Prop) (m : BM A) : Prop :=
  forall s, session_ok s -> session_ok (snd (m s)) /\ forall a, fst (m s) = Ok a -> Q a.

Lemma ensures_bind {A B} (P : A -> Prop) (Q : B -> Prop) (m : BM A) (k : A -> BM B) :
  ensures P m -> (forall a, P a -> ensures Q (k a)) -> ensures Q (bind m k).
Proof.
  intros Hm Hk s Hs. unfold bind. destruct (Hm s Hs) as [H1 H2].
  destruct (m s) as [[a|e] s1]; cbn in *; [by apply Hk; [apply H2|]|done].
Qed.

Lemma ensures_preserves {A} (Q : A -> Prop) (m : BM A) : ensures Q m -> preserves session_ok m.
Proof. intros H s Hs. by apply H. Qed.

Lemma preserves_ensures {A} (m : BM A) : preserves session_ok m -> ensures (fun _ => True) m.
Proof. intros H s Hs. split; [by apply H|done]. Qed.

Lemma ensures_ret {A} (Q : A -> Prop) (a : A) : Q a -> ensures Q (ret a).
Proof. intros HQ s Hs. split; [done|]. by intros a' [= <-]. Qed.

Lemma ensures_raise {A} (Q : A -> Prop) e : ensures (A := A) Q (raise e).
Proof. intros s Hs. done. Qed.

Lemma ensures_raise_if b e : ensures (fun _ : unit => b = false) (raise_if b e).
Proof. intros s Hs. by destruct b. Qed.

Lemma put_customer_ok c : preserves session_ok (put_customer c).
Proof. apply preserves_bind; [apply query_ok|]. intros []; [apply write_ok; auto|apply preserves_raise]. Qed.

Lemma upsert_customer_ok tid cid email : preserves session_ok (upsert_customer tid cid email).
Proof.
  apply preserves_bind; [apply query_ok|]. intros a.
  apply preserves_bind; [apply put_customer_ok|]. auto with preserve.
Qed.

Lemma gating_ok tid st : preserves session_ok (_apply_tenant_gating tid st).
Proof.
  apply preserves_bind; [apply query_ok|]. intros [b|]; [|apply preserves_ret].
  destruct (String.eqb _ _); [by apply write_ok|]. destruct (str_in _ _); [by apply write_ok|apply preserves_ret].
Qed.

Lemma put_subscription_ok s : sub_ok s -> preserves session_ok (put_subscription s).
Proof.
  intros Hs. apply write_ok. intros db Hdb i x. cbn. destruct (decide (i = stripe_subscription_id s)) as [->|Hne].
  - rewrite lookup_insert_eq. by intros [= <-].
  - rewrite lookup_insert_ne by done. apply Hdb.
Qed.

Lemma coerce_dt_ok v : preserves session_ok (_coerce_dt v).
Proof. unfold _coerce_dt. destruct v; try apply preserves_ret; destruct (json_int _); try apply preserves_raise; destruct (_ && _); auto with preserve. Qed.

#[export] Hint Resolve query_ok put_customer_ok upsert_customer_ok gating_ok coerce_dt_ok : preserve.

(** Gating touches the tenant only. *)
Definition gate (tid st : string) (db : BillingDB) : BillingDB :=
  match tenants db !! tid with
  | None => db
  | Some _ => if String.eqb st CANCELED then set_tenants (<[tid := false]> (tenants db)) db
              else if str_in st [ACTIVE; TRIALING] then set_tenants (<[tid := true]> (tenants db)) db
              else db
  end.

Lemma gating_run tid st db c : _apply_tenant_gating tid st (Session db c) = (Ok tt, Session (gate tid st db) c).
Proof.
  unfold _apply_tenant_gating, query, bind, reads, write, modify, ret, gate. cbn.
  destruct (tenants db !! tid); [|done]. destruct (String.eqb st CANCELED); [done|].
  by destruct (str_in st [ACTIVE; TRIALING]).
Qed.

Lemma gate_subscriptions tid st db : subscriptions (gate tid st db) = subscriptions db.
Proof. unfold gate. destruct (tenants db !! tid); [|done]. destruct (String.eqb st CANCELED); [done|]. by destruct (str_in _ _). Qed.

(** The row a transition makes. *)
Lemma transition_row_ok now s st :
  sub_ok s -> str_in st SubscriptionStatus_ALL = true ->
  sub_ok (with_status st
    (if String.eqb st ACTIVE then None
     else if String.eqb st PAST_DUE && negb (String.eqb (status s) PAST_DUE) then Some now else past_due_since s)
    (if String.eqb st CANCELED && negb (is_someb (canceled_at s)) then Some now else canceled_at s) s).
Proof.
  intros (H1 & H2 & H3 & H4) Hst. repeat split; cbn; [done| | |].
  - intros ->. cbn. destruct (String.eqb_spec (status s) PAST_DUE) as [He|]; cbn; [by apply H2|done].
  - intros ->. done.
  - intros ->. cbn. by destruct (canceled_at s).
Qed.

Lemma transition_ensures now s st strict :
  sub_ok s -> ensures (fun s' => sub_ok s' /\ stripe_subscription_id s' = stripe_subscription_id s)
                (transition_status now s st strict).
Proof.
  intros Hs. unfold transition_status.
  apply (ensures_bind _ _ _ _ (ensures_raise_if _ _)). intros _ Hall. apply negb_false_iff in Hall.
  apply (ensures_bind _ _ _ _ (ensures_raise_if _ _)). intros _ _.
  pose proof (transition_row_ok now s st Hs Hall) as Hok.
  apply (ensures_bind (fun _ => True)); [by apply preserves_ensures, put_subscription_ok|]. intros _ _.
  apply (ensures_bind (fun _ => True)); [apply preserves_ensures, gating_ok|]. intros _ _.
  by apply ensures_ret.
Qed.

Lemma setup_paid_ensures s : sub_ok s -> preserves session_ok (set_setup_paid s).
Proof. intros Hs. apply preserves_bind; [by apply put_subscription_ok|]. auto with preserve. Qed.

(** A loaded subscription is a stored one. *)
Lemma get_subscription_ensures sid :
  ensures (fun o => match o with Some s => sub_ok s | None => True end) (get_subscription_by_stripe_id sid).
Proof.
  intros s Hs. split; [done|]. cbn. intros o [= <-].
  destruct (subscriptions (working s) !! sid) as [x|] eqn:Hx; [|done]. by apply (proj1 Hs sid x).
Qed.

Lemma new_subscription_ok tid sid price created :
  sub_ok {| tenant_id := tid; stripe_subscription_id := sid; status := INCOMPLETE;
            current_period_start := None; current_period_end := None; cancel_at_period_end := false;
            canceled_at := None; latest_invoice_id := None; plan_setup_paid := false;
            monthly_price_cents := price; past_due_since := None; sub_created_at := created |}.
Proof. by repeat split. Qed.

Lemma upsert_subscription_ensures now created tid sid x :
  ensures sub_ok (upsert_subscription_from_stripe now created tid sid x).
Proof.
  apply (ensures_bind _ _ _ _ (get_subscription_ensures sid)). intros found Hfound.
  apply (ensures_bind sub_ok).
  { destruct found as [s|]; [by apply ensures_ret|].
    apply (ensures_bind (fun _ => True)); [apply preserves_ensures, query_ok|]. intros known _.
    apply (ensures_bind (fun _ => True)); [apply preserves_ensures, preserves_raise_if|]. intros _ _.
    apply (ensures_bind (fun _ => True)); [apply preserves_ensures, preserves_raise_if|]. intros _ _.
    apply (ensures_bind (fun _ => True)); [apply preserves_ensures, put_subscription_ok, new_subscription_ok|].
    intros _ _. apply ensures_ret, new_subscription_ok. }
  intros sub Hsub.
  apply (ensures_bind (fun _ => True)); [apply preserves_ensures, coerce_dt_ok|]. intros start _.
  apply (ensures_bind (fun _ => True)); [apply preserves_ensures, coerce_dt_ok|]. intros end_ _.
  apply (ensures_bind (fun _ => True)); [apply preserves_ensures, coerce_dt_ok|]. intros canceled _.
  apply (ensures_bind (fun _ => True)); [apply preserves_ensures, preserves_raise_if|]. intros _ _.
  match goal with |- context [put_subscription ?s'] => set (sub' := s') end.
  assert (Hsub' : sub_ok sub').
  { destruct Hsub as (H1 & H2 & H3 & H4). repeat split; cbn; try done.
    intros Hc. destruct canceled; [done|]. by apply H4. }
  apply (ensures_bind (fun _ => True)); [by apply preserves_ensures, put_subscription_ok|]. intros _ _.
  destruct (_ && _).
  - intros s Hs. destruct (transition_ensures now sub' (st_status x) false Hsub' s Hs) as [H1 H2].
    split; [done|]. intros a Ha. by apply H2.
  - apply (ensures_bind (fun _ => True)); [apply preserves_ensures, gating_ok|]. intros _ _. by apply ensures_ret.
Qed.

Lemma upsert_invoice_ok created tid iid x : preserves session_ok (upsert_invoice_from_stripe created tid iid x).
Proof.
  unfold upsert_invoice_from_stripe.
  repeat (apply preserves_bind; [auto with preserve; by apply write_ok|intros ?]).
  auto with preserve.
Qed.

(** ** Properties *)

Lemma strict_transition_run now s st db c :
  (exists s' db', transition_status now s st true (Session db c) = (Ok s', Session db' c) /\
     str_in st SubscriptionStatus_ALL = true /\ is_allowed_transition (status s) st = true /\
     status s' = st /\ subscriptions db' = <[stripe_subscription_id s := s']> (subscriptions db) /\
     (status s = CANCELED -> st = CANCELED)) \/
  (exists msg, transition_status now s st true (Session db c) = (Raise (BillingStateError msg), Session db c) /\
     (str_in st SubscriptionStatus_ALL = false \/ is_allowed_transition (status s) st = false)).
Proof.
  unfold transition_status.
  destruct (str_in st SubscriptionStatus_ALL) eqn:Hall; [|right; eexists; split; [done|by left]].
  destruct (is_allowed_transition (status s) st) eqn:Hal; [|right; eexists; split; [done|by right]].
  left. assert (Hterm : status s = CANCELED -> st = CANCELED).
  { intros Hc. rewrite Hc in Hal. unfold is_allowed_transition, str_in in Hal. cbn in Hal.
    rewrite orb_false_r in Hal. by apply String.eqb_eq in Hal. }
  unfold bind, raise_if, ret, put_subscription, write, modify. cbn [negb andb working committed].
  rewrite gating_run. eexists _, _. split; [reflexivity|]. rewrite gate_subscriptions. by repeat split.
Qed.

(** The state machine, enforced: a strict transition (pause, resume)
    succeeds exactly when the adjacency map allows it; otherwise it raises
    [BillingStateError] and changes nothing.  On success the row has the new
    status, a past-due date only as described, and a canceled subscription can
    only stay canceled. *)
Theorem strict_transition_spec now s st db c :
  (exists s' db', transition_status now s st true (Session db c) = (Ok s', Session db' c) /\
     str_in st SubscriptionStatus_ALL = true /\ is_allowed_transition (status s) st = true /\
     status s' = st /\ subscriptions db' = <[stripe_subscription_id s := s']> (subscriptions db) /\
     (status s = CANCELED -> st = CANCELED)) \/
  (exists msg, transition_status now s st true (Session db c) = (Raise (BillingStateError msg), Session db c) /\
     (str_in st SubscriptionStatus_ALL = false \/ is_allowed_transition (status s) st = false)).
Proof. apply strict_transition_run. Qed.

(** Grace period: a past-due subscription is moved to [unpaid] exactly when
    the whole grace period has passed since it became past due; a subscription
    in any other status is left alone; running it again changes nothing more. *)
Theorem grace_period_boundary dflt clock s now grace db c since :
  past_due_since s = Some since ->
  let d := default dflt grace in
  let eff := default clock now in
  exists s' db', apply_grace_period dflt clock s now grace (Session db c) = (Ok s', Session db' c) /\
    (status s = PAST_DUE -> (status s' = UNPAID <-> instant since + days d <= instant eff)) /\
    (status s <> PAST_DUE \/ instant eff < instant since + days d -> s' = s /\ db' = db) /\
    apply_grace_period dflt clock s' now grace (Session db' c) = (Ok s', Session db' c).
Proof.
  intros Hsince d eff.
  assert (Hnoop : forall x db0, status x <> PAST_DUE ->
    apply_grace_period dflt clock x now grace (Session db0 c) = (Ok x, Session db0 c)).
  { intros x db0 Hx. unfold apply_grace_period. by destruct (String.eqb_spec (status x) PAST_DUE). }
  destruct (decide (status s = PAST_DUE)) as [Hpd|Hpd].
  2: { exists s, db. rewrite Hnoop by done. split; [done|]. split; [done|]. by split. }
  unfold apply_grace_period at 1. rewrite Hpd, Hsince. cbn [negb String.eqb]. rewrite String.eqb_refl. cbn [negb].
  fold d eff. destruct (Z.leb_spec (instant since + days d) (instant eff)) as [Hle|Hgt].
  - destruct (strict_transition_run clock s UNPAID db c) as [(s' & db' & H & _ & _ & Hst & Hsubs & _)|(msg & H & Hbad)].
    + exists s', db'. split; [|split; [|split; [by intros [?|?]; [done|lia]|]]].
      * rewrite <- H. unfold transition_status. by rewrite Hpd.
      * intros _. by rewrite Hst.
      * apply Hnoop. by rewrite Hst.
    + rewrite Hpd in Hbad. by destruct Hbad.
  - exists s, db. split; [done|]. split; [|split; [done|]].
    + intros _. rewrite Hpd. split; [done|lia].
    + unfold apply_grace_period. rewrite Hpd, Hsince, String.eqb_refl. cbn [negb]. fold d eff.
      by destruct (Z.leb_spec (instant since + days d) (instant eff)); [lia|].
Qed.

(** Invoices are projected idempotently: applying the same Stripe invoice a
    second time leaves the table as the first application did, and it is stored
    under its Stripe id with Stripe's status and amounts, for the tenant that
    first owned it. *)
Theorem upsert_invoice_idempotent created created' tid iid x inv s s' :
  upsert_invoice_from_stripe created tid iid x s = (Ok inv, s') ->
  invoices (working s') !! iid = Some inv /\ inv_status inv = si_status x /\
  amount_due_cents inv = si_amount_due x /\ amount_paid_cents inv = si_amount_paid x /\
  inv_tenant_id inv = match invoices (working s) !! iid with Some v => inv_tenant_id v | None => tid end /\
  upsert_invoice_from_stripe created' tid iid x s' = (Ok inv, s').
Proof.
  intros H. unfold upsert_invoice_from_stripe, query in H. inv_run H.
  assert (Hro : forall v, readonly (_coerce_dt v)).
  { intros v t. unfold _coerce_dt. by repeat case_match. }
  assert (Hindep : forall v o t t', _coerce_dt v t = (Ok o, t) -> _coerce_dt v t' = (Ok o, t')).
  { intros v o t t'. unfold _coerce_dt, ret, raise. repeat case_match; congruence. }
  pose proof (readonly_run _ _ _ _ (Hro _) Hrun) as ->. pose proof (readonly_run _ _ _ _ (Hro _) Hrun0) as ->.
  cbn [working committed set_invoices invoices]. rewrite lookup_insert_eq.
  set (inv := match invoices (working s) !! iid with Some _ => _ | None => _ end).
  split; [done|]. split; [unfold inv; by destruct (_ !! _)|]. split; [unfold inv; by destruct (_ !! _)|].
  split; [unfold inv; by destruct (_ !! _)|]. split; [unfold inv; by destruct (_ !! _)|].
  unfold upsert_invoice_from_stripe, query, bind, reads. cbn.
  rewrite (Hindep _ _ _ _ Hrun), (Hindep _ _ _ _ Hrun0). cbn. rewrite lookup_insert_eq. cbn.
  unfold raise_if, ret, raise in *. rewrite H1. cbn. unfold write, modify. cbn.
  match goal with |- (Ok ?i, Session (set_invoices ?m ?d) ?c) = _ => assert (i = inv) as Hinv end.
  { unfold inv. destruct (invoices (working s) !! iid) as [v|]; cbn; f_equal;
      unfold sor, truthy_or, or_else; repeat case_match; try done; congruence. }
  rewrite Hinv. do 2 f_equal. unfold set_invoices. cbn. f_equal. by rewrite insert_insert_eq.
Qed.

(** ** Witnesses *)

Definition demo_sub : BillingSubscription :=
  {| tenant_id := "t1"; stripe_subscription_id := "sub_1"; status := PAST_DUE; current_period_start := None;
     current_period_end := None; cancel_at_period_end := false; canceled_at := None; latest_invoice_id := None;
     plan_setup_paid := true; monthly_price_cents := 150000; past_due_since := Some (utc 0); sub_created_at := 0 |}.
Definition demo_billing : BillingDB :=
  {| tenants := {[ "t1" := true ]};
     customers := {[ "t1" := {| cu_tenant_id := "t1"; stripe_customer_id := "cus_1"; email_billing := None |} ]};
     subscriptions := {[ "sub_1" := demo_sub ]}; invoices := ∅; events := ∅; price_configs := ∅ |}.
Definition demo_invoice : stripe_invoice :=
  {| si_status := "paid"; si_amount_due := 150000; si_amount_paid := 150000; si_currency := "usd";
     si_hosted_url := None; si_pdf_url := Some "https://x"; si_due_at := JInt 86400; si_paid_at := JNull |}.

Lemma demo_billing_ok : session_ok (Session demo_billing demo_billing).
Proof.
  assert (subs_ok demo_billing); [|done].
  intros i s. cbn. rewrite lookup_singleton_Some. intros [<- <-]. by repeat split.
Qed.

Lemma grace_period_boundary_witness :
  exists s' db', apply_grace_period 7 (utc (days 7)) demo_sub None None (Session demo_billing demo_billing)
    = (Ok s', Session db' demo_billing) /\ status s' = UNPAID.
Proof.
  destruct (grace_period_boundary 7 (utc (days 7)) demo_sub None None demo_billing demo_billing (utc 0) eq_refl)
    as (s' & db' & H & Hst & _).
  refine (ex_intro _ s' (ex_intro _ db' (conj H _))). apply (Hst eq_refl). vm_compute. discriminate.
Defined.

Lemma upsert_invoice_idempotent_witness :
  exists inv s', upsert_invoice_from_stripe 0 "t1" "in_1" demo_invoice (Session demo_billing demo_billing) = (Ok inv, s') /\
    upsert_invoice_from_stripe 5 "t1" "in_1" demo_invoice s' = (Ok inv, s').
Proof.
  destruct (upsert_invoice_from_stripe 0 "t1" "in_1" demo_invoice (Session demo_billing demo_billing)) as [[inv|e] s'] eqn:H;
    [|vm_compute in H; discriminate].
  refine (ex_intro _ inv (ex_intro _ s' (conj eq_refl _))).
  exact (proj2 (proj2 (proj2 (proj2 (proj2 (upsert_invoice_idempotent 0 5 "t1" "in_1" demo_invoice inv _ s' H)))))).
Defined.
