(* ===== verification/BillingWebhooks.v ===== *)
(** * Stripe webhooks

    services/billing_webhooks.py, utils/idempotent_event.py, the route
    api/webhooks/stripe.py and the request transaction of db.py: signature
    check, event ledger, dispatch and handlers.

    Events are JSON values of any shape: [.get] on a value that is not a dict
    raises [AttributeError], as in Python.  [construct_event] is the Stripe
    client's signature check and parse; clock reads are arguments. *)

From Stdlib Require Import Ascii.
From S2P Require Import Prelude PyStr Json PyTime Billing.

(** services/billing_webhooks.py, [HANDLED_EVENT_TYPES]. *)
Definition HANDLED_EVENT_TYPES : list string :=
  ["checkout.session.completed"; "customer.subscription.created"; "customer.subscription.updated";
   "customer.subscription.deleted"; "invoice.created"; "invoice.finalized"; "invoice.paid";
   "invoice.payment_failed"; "invoice.payment_action_required"; "customer.updated"].

(** services/billing_webhooks.py, [WebhookResult]. *)
Record WebhookResult : Type := { wh_status : string; wh_event_id : option string; wh_error : option string }.

(** [v.get(k)] *)
Definition get (k : string) (v : json) : BM json :=
  match v with JObj kvs => ret (get_key k kvs) | _ => raise (PyError "AttributeError") end.

(** A value bound to a nullable text column. *)
Definition col_str (v : json) : BM (option string) :=
  match v with JNull => ret None | JStr s => ret (Some s) | _ => raise DataError end.

(** [int(v or 0)] *)
Definition int_or_zero (v : json) : BM Z :=
  or_raise (json_int (jor v (JInt 0))) (PyError "ValueError").

Section Webhooks.
(** [str()] of a float, a list or a dict. *)
Context (repr_other : json -> string).
(** [client.construct_event]; [None] is [StripeSignatureError]. *)
Context (construct_event : string -> string -> string -> option json).
(** [settings.stripe_webhook_secret] *)
Context (stripe_webhook_secret : string).

Definition str (v : json) : string := py_str repr_other v.

(** services/billing_webhooks.py, [verify_signature], with no explicit secret. *)
Definition verify_signature (body sig_header : string) : BM json :=
  raise_if (negb (truthy stripe_webhook_secret)) (StripeSignatureError "webhook secret not configured") ;;;
  or_raise (construct_event body sig_header stripe_webhook_secret) (StripeSignatureError "invalid").

(** services/billing_webhooks.py, [_data_object]. *)
Definition _data_object (event : json) : BM json :=
  let* data := get "data" event in
  let* o := get "object" (jor data (JObj [])) in
  ret (jor o (JObj [])).

(** services/billing_webhooks.py, [_resolve_tenant_id], without a fallback. *)
Definition _resolve_tenant_id (customer_id : json) : BM (option string) :=
  if negb (jtruthy customer_id) then ret None
  else let* c := col_str customer_id in
       let* cust := get_customer_by_stripe_id (default "" c) in
       ret (match cust with Some c => Some (cu_tenant_id c) | None => None end).

(** services/billing_webhooks.py, [_first_line_price_amount]. *)
Definition _first_line_price_amount (obj : json) : BM (option Z) :=
  let* items := get "items" obj in
  let* data := match jor items (JObj []) with
               | JObj kvs => ret (get_key "data" kvs)
               | _ => ret JNull
               end in
  if negb (jtruthy data) then ret None
  else
    let* first := match data with
                  | JList (x :: _) => ret x
                  | JStr s => ret (JStr (stake 1 s))
                  | JObj _ => raise (PyError "KeyError")
                  | _ => raise (PyError "TypeError")
                  end in
    let* price := get "price" (jor first (JObj [])) in
    let* amount := get "unit_amount" (jor price (JObj [])) in
    match amount with
    | JInt z => ret (Some z)
    | JBool b => ret (Some (if b then 1 else 0))
    | _ => ret None
    end.

(** services/billing_webhooks.py, [_handle_checkout_completed]. *)
Definition _handle_checkout_completed (now : datetime) (created : Z) (event : json) : BM unit :=
  let* obj := _data_object event in
  let* tid := get "client_reference_id" obj in
  if negb (jtruthy tid) then ret tt
  else
    let* customer_id := get "customer" obj in
    let* subscription_id := get "subscription" obj in
    let* email := get "customer_email" obj in
    let* email := (if jtruthy email then ret email
                   else let* details := get "customer_details" obj in
                        get "email" (jor details (JObj []))) in
    (if jtruthy customer_id then
       let* e := col_str email in
       upsert_customer (str tid) (str customer_id) e ;;; ret tt
     else ret tt) ;;;
    (if jtruthy subscription_id then
       let* sub := upsert_subscription_from_stripe now created (str tid) (str subscription_id)
         {| st_status := ACTIVE; st_period_start := JNull; st_period_end := JNull;
            st_cancel_at_period_end := false; st_canceled_at := JNull; st_latest_invoice := None;
            st_price_cents := None |} in
       set_setup_paid sub ;;; ret tt
     else ret tt).

(** services/billing_webhooks.py, [_handle_subscription_event]. *)
Definition _handle_subscription_event (now : datetime) (created : Z) (event : json) : BM unit :=
  let* obj := _data_object event in
  let* sub_id := get "id" obj in
  if negb (jtruthy sub_id) then ret tt
  else
    let* customer_id := get "customer" obj in
    let* tid := _resolve_tenant_id customer_id in
    let* existing := get_subscription_by_stripe_id (str sub_id) in
    match truthy_or tid (match existing with Some s => Some (tenant_id s) | None => None end) with
    | None => ret tt
    | Some effective_tenant =>
        let* status := get "status" obj in
        let* type := get "type" event in
        let status := if bool_decide (type = JStr "customer.subscription.deleted") then CANCELED
                      else str (jor status (JStr INCOMPLETE)) in
        let* period_start := get "current_period_start" obj in
        let* period_end := get "current_period_end" obj in
        let* cancel_at_end := get "cancel_at_period_end" obj in
        let* canceled := get "canceled_at" obj in
        let* latest := get "latest_invoice" obj in
        let* latest := (if jtruthy latest then col_str latest else ret None) in
        let* price := _first_line_price_amount obj in
        upsert_subscription_from_stripe now created effective_tenant (str sub_id)
          {| st_status := status; st_period_start := period_start; st_period_end := period_end;
             st_cancel_at_period_end := jtruthy cancel_at_end; st_canceled_at := canceled;
             st_latest_invoice := latest; st_price_cents := price |} ;;;
        ret tt
    end.

(** services/billing_webhooks.py, [_handle_invoice_event]. *)
Definition _handle_invoice_event (now : datetime) (created : Z) (event : json) : BM unit :=
  let* obj := _data_object event in
  let* invoice_id := get "id" obj in
  if negb (jtruthy invoice_id) then ret tt
  else
    let* customer_id := get "customer" obj in
    let* tid := _resolve_tenant_id customer_id in
    match tid with
    | None => ret tt
    | Some t =>
        if negb (truthy t) then ret tt
        else
          let* status := get "status" obj in
          let* due := get "amount_due" obj in
          let* due := int_or_zero due in
          let* paid := get "amount_paid" obj in
          let* paid := int_or_zero paid in
          let* curr := get "currency" obj in
          let* hosted := get "hosted_invoice_url" obj in
          let* hosted := col_str hosted in
          let* pdf := get "invoice_pdf" obj in
          let* pdf := col_str pdf in
          let* due_date := get "due_date" obj in
          let* transitions := get "status_transitions" obj in
          let paid_at := match transitions with JObj kvs => get_key "paid_at" kvs | _ => JNull end in
          upsert_invoice_from_stripe created t (str invoice_id)
            {| si_status := str (jor status (JStr "open")); si_amount_due := due; si_amount_paid := paid;
               si_currency := str (jor curr (JStr "usd")); si_hosted_url := hosted; si_pdf_url := pdf;
               si_due_at := due_date; si_paid_at := paid_at |} ;;;
          let* sub_id := get "subscription" obj in
          if negb (jtruthy sub_id) then ret tt
          else
            let* sub := get_subscription_by_stripe_id (str sub_id) in
            match sub with
            | None => ret tt
            | Some s =>
                let* type := get "type" event in
                if bool_decide (type = JStr "invoice.paid") then
                  transition_status now s ACTIVE false ;;; ret tt
                else if bool_decide (type = JStr "invoice.payment_failed")
                        || bool_decide (type = JStr "invoice.payment_action_required") then
                  transition_status now s PAST_DUE false ;;; ret tt
                else ret tt
            end
    end.

(** services/billing_webhooks.py, [_handle_customer_updated]. *)
Definition _handle_customer_updated (event : json) : BM unit :=
  let* obj := _data_object event in
  let* customer_id := get "id" obj in
  if negb (jtruthy customer_id) then ret tt
  else
    let* cust := get_customer_by_stripe_id (str customer_id) in
    match cust with
    | None => ret tt
    | Some c =>
        let* email := get "email" obj in
        if jtruthy email then
          let* e := col_str email in
          if bool_decide (e = email_billing c) then ret tt
          else put_customer {| cu_tenant_id := cu_tenant_id c; stripe_customer_id := stripe_customer_id c;
                               email_billing := e |}
        else ret tt
    end.

(** services/billing_webhooks.py, [_DISPATCH]. *)
Definition _DISPATCH (now : datetime) (created : Z) (type : string) : option (json -> BM unit) :=
  if String.eqb type "checkout.session.completed" then Some (_handle_checkout_completed now created)
  else if str_in type ["customer.subscription.created"; "customer.subscription.updated";
                       "customer.subscription.deleted"] then Some (_handle_subscription_event now created)
  else if str_in type ["invoice.created"; "invoice.finalized"; "invoice.paid"; "invoice.payment_failed";
                       "invoice.payment_action_required"] then Some (_handle_invoice_event now created)
  else if String.eqb type "customer.updated" then Some _handle_customer_updated
  else None.

(** utils/idempotent_event.py, [MAX_ERROR_LEN]. *)
Definition MAX_ERROR_LEN : nat := 2000.

(** utils/idempotent_event.py, [claim_event].  [raced] is the row another worker
    commits for the same event between the query and the flush. *)
Definition claim_event (raced : option BillingEvent) (event_id type : string) (event : json) :
    BM (BillingEvent * bool) :=
  let* existing := query (fun db => events db !! event_id) in
  match existing with
  | Some row => ret (row, false)
  | None =>
      match raced with
      | Some row =>
          fun s => let db := set_events (<[event_id := row]> (events (committed s))) (committed s) in
                   (Ok (row, false), Session db db)
      | None =>
          let row := {| stripe_event_id := event_id; event_type := type; payload := event;
                        processed_at := None; processing_error := None |} in
          write (fun db => set_events (<[event_id := row]> (events db)) db) ;;;
          ret (row, true)
      end
  end.

(** utils/idempotent_event.py, [mark_processed]. *)
Definition mark_processed (now : datetime) (e : BillingEvent) : BM unit :=
  write (fun db => set_events (<[stripe_event_id e :=
    {| stripe_event_id := stripe_event_id e; event_type := event_type e; payload := payload e;
       processed_at := Some now; processing_error := None |}]> (events db)) db).

(** utils/idempotent_event.py, [mark_failed]. *)
Definition mark_failed (e : BillingEvent) (error : string) : BM unit :=
  write (fun db => set_events (<[stripe_event_id e :=
    {| stripe_event_id := stripe_event_id e; event_type := event_type e; payload := payload e;
       processed_at := processed_at e; processing_error := Some (stake MAX_ERROR_LEN error) |}]> (events db)) db).

Definition error_str (e : billing_error) : string :=
  match e with
  | BillingStateError m | StripeSignatureError m => m
  | IntegrityError => "IntegrityError" | DataError => "DataError" | PyError n => n
  end.

(** services/billing_webhooks.py, [process_webhook]. *)
Definition process_webhook (raced : option BillingEvent) (now : datetime) (created : Z) (body sig_header : string) :
    BM WebhookResult :=
  let* event := verify_signature body sig_header in
  let* id := get "id" event in
  let event_id := str (jor id (JStr "")) in
  let* type := get "type" event in
  let event_type := str (jor type (JStr "")) in
  raise_if (negb (truthy event_id) || negb (truthy event_type)) (StripeSignatureError "event missing id/type") ;;;
  let* (ledger, is_new) := claim_event raced event_id event_type event in
  if negb is_new then ret {| wh_status := "already_processed"; wh_event_id := Some event_id; wh_error := None |}
  else match _DISPATCH now created event_type with
  | None =>
      mark_processed now ledger ;;;
      ret {| wh_status := "ignored"; wh_event_id := Some event_id; wh_error := None |}
  | Some handler =>
      try_except
        (handler event ;;;
         mark_processed now ledger ;;;
         ret {| wh_status := "processed"; wh_event_id := Some event_id; wh_error := None |})
        (fun e => mark_failed ledger (error_str e) ;;; raise e)
  end.

(** api/webhooks/stripe.py, [receive_stripe_webhook]. *)
Definition receive_stripe_webhook (raced : option BillingEvent) (now : datetime) (created : Z)
    (body : string) (stripe_signature : option string) : BM WebhookResult :=
  match truthy_or stripe_signature None with
  | None => raise (PyError "HTTPException 400 missing_signature")
  | Some sig =>
      try_except (process_webhook raced now created body sig)
        (fun e => match e with
                  | StripeSignatureError _ => raise (PyError "HTTPException 400 invalid_signature")
                  | _ => raise e
                  end)
  end.

(** One delivery of a webhook. *)
Definition webhook (raced : option BillingEvent) (now : datetime) (created : Z) (body : string)
    (sig : option string) : BM WebhookResult :=
  in_request (receive_stripe_webhook raced now created body sig).
End Webhooks.

(** ** Handlers keep the projection's invariant and leave the ledger alone *)

Lemma get_readonly k v : readonly (get k v).
Proof. unfold get. destruct v; auto with readonly. Qed.
Lemma col_str_readonly v : readonly (col_str v).
Proof. unfold col_str. destruct v; auto with readonly. Qed.
Lemma int_or_zero_readonly v : readonly (int_or_zero v).
Proof. unfold int_or_zero. auto with readonly. Qed.
Lemma query_readonly {A} (f : BillingDB -> A) : readonly (query (E := billing_error) f).
Proof. unfold query. auto with readonly. Qed.
Lemma coerce_dt_readonly v : readonly (_coerce_dt v).
Proof. unfold _coerce_dt. repeat case_match; auto with readonly. Qed.
#[export] Hint Resolve get_readonly col_str_readonly int_or_zero_readonly query_readonly coerce_dt_readonly : readonly.

Lemma readonly_ensures {A} (m : BM A) : readonly m -> ensures (fun _ => True) m.
Proof. intros H s Hs. by rewrite H. Qed.

(** A call that leaves the event ledger and the committed tables alone. *)
Definition ledger_frame {A} (m : BM A) : Prop :=
  forall s, events (working (snd (m s))) = events (working s) /\ committed (snd (m s)) = committed s.

Lemma frame_bind {A B} (m : BM A) (k : A -> BM B) :
  ledger_frame m -> (forall a, ledger_frame (k a)) -> ledger_frame (bind m k).
Proof.
  intros Hm Hk s. unfold bind. destruct (Hm s) as [H1 H2]. destruct (m s) as [[a|e] s1]; cbn in *; [|done].
  destruct (Hk a s1) as [H3 H4]. by rewrite H3, H4.
Qed.
Lemma frame_readonly {A} (m : BM A) : readonly m -> ledger_frame m.
Proof. intros H s. by rewrite H. Qed.
Lemma frame_write f : (forall db, events (f db) = events db) -> ledger_frame (write f).
Proof. intros H s. cbn. by rewrite H. Qed.

Create HintDb frame.
#[export] Hint Resolve frame_bind : frame.
#[export] Hint Extern 2 (ledger_frame (write _)) => apply frame_write; intros; reflexivity : frame.
#[export] Hint Extern 3 (ledger_frame _) => apply frame_readonly; solve [auto with readonly] : frame.

Lemma put_customer_frame c : ledger_frame (put_customer c).
Proof. apply frame_bind; [auto with frame|]. intros []; auto with frame. Qed.
Lemma put_subscription_frame s : ledger_frame (put_subscription s).
Proof. unfold put_subscription. auto with frame. Qed.
Lemma gating_frame tid st : ledger_frame (_apply_tenant_gating tid st).
Proof.
  apply frame_bind; [auto with frame|]. intros [b|]; [|auto with frame].
  destruct (String.eqb _ _); [auto with frame|]. destruct (str_in _ _); auto with frame.
Qed.
#[export] Hint Resolve put_customer_frame put_subscription_frame gating_frame : frame.

Lemma transition_frame now s st strict : ledger_frame (transition_status now s st strict).
Proof. unfold transition_status. auto 10 with frame. Qed.
Lemma upsert_customer_frame tid cid e : ledger_frame (upsert_customer tid cid e).
Proof. unfold upsert_customer, get_customer_by_tenant. auto 10 with frame. Qed.
#[export] Hint Resolve transition_frame upsert_customer_frame : frame.

Lemma upsert_subscription_frame now created tid sid x : ledger_frame (upsert_subscription_from_stripe now created tid sid x).
Proof.
  unfold upsert_subscription_from_stripe, get_subscription_by_stripe_id.
  apply frame_bind; [auto with frame|]. intros found. apply frame_bind; [destruct found; auto 12 with frame|].
  intros sub. repeat (apply frame_bind; [auto with frame|intros ?]).
  destruct (_ && _); auto with frame.
Qed.
Lemma upsert_invoice_frame created tid iid x : ledger_frame (upsert_invoice_from_stripe created tid iid x).
Proof. unfold upsert_invoice_from_stripe. repeat (apply frame_bind; [auto with frame|intros ?]). auto with frame. Qed.
#[export] Hint Resolve upsert_subscription_frame upsert_invoice_frame : frame.

Lemma data_object_readonly event : readonly (_data_object event).
Proof. unfold _data_object. auto 10 with readonly. Qed.
Lemma resolve_tenant_readonly c : readonly (_resolve_tenant_id c).
Proof.
  unfold _resolve_tenant_id, get_customer_by_stripe_id. destruct (negb _); auto 10 with readonly.
Qed.
Lemma first_price_readonly obj : readonly (_first_line_price_amount obj).
Proof.
  unfold _first_line_price_amount. apply readonly_bind; [auto with readonly|]. intros items.
  apply readonly_bind; [by destruct (jor _ _)|]. intros data. destruct (negb _); [auto with readonly|].
  apply readonly_bind; [destruct data as [| | | | |[|]|]; auto with readonly|]. intros first.
  repeat (apply readonly_bind; [auto with readonly|intros ?]). match goal with |- readonly (match ?a with _ => _ end) => by destruct a end.
Qed.
Lemma get_subscription_readonly sid : readonly (get_subscription_by_stripe_id sid).
Proof. unfold get_subscription_by_stripe_id. auto with readonly. Qed.
Lemma get_customer_readonly cid : readonly (get_customer_by_stripe_id cid).
Proof. unfold get_customer_by_stripe_id. auto with readonly. Qed.
Lemma get_customer_by_tenant_readonly tid : readonly (get_customer_by_tenant tid).
Proof. unfold get_customer_by_tenant. auto with readonly. Qed.
#[export] Hint Resolve get_customer_by_tenant_readonly data_object_readonly resolve_tenant_readonly first_price_readonly get_subscription_readonly
  get_customer_readonly : readonly.

(** A call that commits nothing. *)
Definition keeps_committed {A} (m : BM A) : Prop := forall s, committed (snd (m s)) = committed s.

Lemma bind_committed {A B} (m : BM A) (k : A -> BM B) :
  keeps_committed m -> (forall a, keeps_committed (k a)) -> keeps_committed (bind m k).
Proof.
  intros Hm Hk s. unfold bind. specialize (Hm s). destruct (m s) as [[a|e] s1]; cbn in *; [by rewrite Hk|done].
Qed.
Lemma try_committed {A} (m : BM A) (h : billing_error -> BM A) :
  keeps_committed m -> (forall e, keeps_committed (h e)) -> keeps_committed (try_except m h).
Proof.
  intros Hm Hh s. unfold try_except. specialize (Hm s). destruct (m s) as [[a|e] s1]; cbn in *; [done|by rewrite Hh].
Qed.
Lemma readonly_committed {A} (m : BM A) : readonly m -> keeps_committed m.
Proof. intros H s. by rewrite H. Qed.
Lemma frame_committed {A} (m : BM A) : ledger_frame m -> keeps_committed m.
Proof. intros H s. by apply H. Qed.
Lemma write_committed f : keeps_committed (write f).
Proof. done. Qed.

Lemma dispatch_handled r now created type :
  is_someb (_DISPATCH r now created type) = str_in type HANDLED_EVENT_TYPES.
Proof.
  unfold _DISPATCH, str_in, HANDLED_EVENT_TYPES. cbn [existsb].
  repeat match goal with |- context [String.eqb type ?x] => destruct (String.eqb type x) end; done.
Qed.

(** *** Each handler leaves the ledger alone *)

Ltac frame_steps :=
  repeat first
    [ apply frame_readonly; solve [auto with readonly]
    | apply frame_bind; [|intros ?]
    | progress auto with frame
    | match goal with |- ledger_frame (if ?b then _ else _) => destruct b end
    | match goal with |- ledger_frame (match ?o with Some _ => _ | None => _ end) => destruct o end ].

Lemma checkout_frame r now created event : ledger_frame (_handle_checkout_completed r now created event).
Proof. unfold _handle_checkout_completed, set_setup_paid. frame_steps. Qed.
Lemma subscription_event_frame r now created event : ledger_frame (_handle_subscription_event r now created event).
Proof. unfold _handle_subscription_event. frame_steps. Qed.
Lemma invoice_event_frame r now created event : ledger_frame (_handle_invoice_event r now created event).
Proof. unfold _handle_invoice_event. frame_steps. Qed.
Lemma customer_updated_frame r event : ledger_frame (_handle_customer_updated r event).
Proof. unfold _handle_customer_updated. frame_steps. Qed.

Lemma dispatch_frame r now created type h event : _DISPATCH r now created type = Some h -> ledger_frame (h event).
Proof.
  unfold _DISPATCH. repeat case_match; intros [= <-];
    auto using checkout_frame, subscription_event_frame, invoice_event_frame, customer_updated_frame.
Qed.

(** *** Each handler keeps the projection's invariant *)

Ltac ensures_step :=
  first
    [ apply readonly_ensures; solve [auto with readonly]
    | apply preserves_ensures; solve [auto with preserve]
    | apply preserves_ensures, setup_paid_ensures; assumption ].
Ltac ensures_steps :=
  repeat first
    [ ensures_step
    | match goal with
      | |- ensures _ (bind (upsert_subscription_from_stripe _ _ _ _ _) _) =>
          apply (ensures_bind sub_ok); [apply upsert_subscription_ensures|intros ? ?]
      | |- ensures _ (bind (get_subscription_by_stripe_id _) _) =>
          apply (ensures_bind _ _ _ _ (get_subscription_ensures _)); intros ? ?
      | |- ensures _ (bind (transition_status _ _ _ _) _) =>
          eapply ensures_bind; [eapply transition_ensures; assumption|intros ? ?]
      | |- ensures _ (bind _ _) => apply (ensures_bind (fun _ => True)); [|intros ? _]
      | |- ensures _ (if ?b then _ else _) => destruct b
      | |- ensures _ (match ?o with Some _ => _ | None => _ end) => destruct o
      end ].

Lemma checkout_ok r now created event : ensures (fun _ => True) (_handle_checkout_completed r now created event).
Proof. unfold _handle_checkout_completed. ensures_steps. Qed.
Lemma subscription_event_ok r now created event : ensures (fun _ => True) (_handle_subscription_event r now created event).
Proof. unfold _handle_subscription_event. ensures_steps. Qed.
Lemma invoice_event_ok r now created event : ensures (fun _ => True) (_handle_invoice_event r now created event).
Proof.
  unfold _handle_invoice_event. pose proof upsert_invoice_ok as Hinv. ensures_steps.
Qed.
Lemma customer_updated_ok r event : ensures (fun _ => True) (_handle_customer_updated r event).
Proof. unfold _handle_customer_updated. ensures_steps. Qed.

Lemma dispatch_ok r now created type h event :
  _DISPATCH r now created type = Some h -> ensures (fun _ => True) (h event).
Proof.
  unfold _DISPATCH. repeat case_match; intros [= <-];
    auto using checkout_ok, subscription_event_ok, invoice_event_ok, customer_updated_ok.
Qed.

(** ** The ledger *)

(** A delivery reads the same event id whatever the state of the tables. *)
Definition delivers (repr_other : json -> string) (construct_event : string -> string -> string -> option json)
    (secret body sig event_id : string) : Prop :=
  exists event id_ type_, truthy sig = true /\ truthy secret = true /\
    construct_event body sig secret = Some (JObj event) /\
    get_key "id" event = id_ /\ get_key "type" event = type_ /\
    py_str repr_other (jor id_ (JStr "")) = event_id /\ truthy event_id = true /\
    truthy (py_str repr_other (jor type_ (JStr ""))) = true.

(** The signature check and the reads of a delivery, up to the claim. *)
Ltac open_delivery Hsec Hce Hid Hty Hi Hti Htt :=
  unfold process_webhook;
  erewrite bind_run by (unfold verify_signature; erewrite bind_run by (by rewrite Hsec); by rewrite Hce);
  erewrite bind_run by (cbn; by rewrite Hid);
  erewrite bind_run by (cbn; by rewrite Hty);
  unfold str; rewrite Hi, Hti, Htt;
  erewrite bind_run by reflexivity.

Section Ledger.
Context (r : json -> string) (ce : string -> string -> string -> option json) (secret : string).

(** A delivery of an event the ledger already holds. *)
Lemma redelivery_run raced now created body sig i s :
  delivers r ce secret body sig i -> is_Some (events (working s) !! i) ->
  receive_stripe_webhook r ce secret raced now created body (Some sig) s =
    (Ok {| wh_status := "already_processed"; wh_event_id := Some i; wh_error := None |}, s).
Proof.
  intros (event & id_ & type_ & Hsig & Hsec & Hce & Hid & Hty & Hi & Hti & Htt) [row Hrow].
  unfold receive_stripe_webhook, truthy_or. rewrite Hsig.
  unfold try_except. open_delivery Hsec Hce Hid Hty Hi Hti Htt.
  erewrite bind_run by (unfold claim_event, query, bind, reads; by rewrite Hrow). done.
Qed.

Lemma claim_fresh i type event s :
  events (working s) !! i = None ->
  let row := {| stripe_event_id := i; event_type := type; payload := event; processed_at := None;
                processing_error := None |} in
  claim_event None i type event s =
    (Ok (row, true), Session (set_events (<[i := row]> (events (working s))) (working s)) (committed s)).
Proof. intros H. unfold claim_event, query, bind, reads. by rewrite H. Qed.

Lemma set_events_ok e db : subs_ok db -> subs_ok (set_events e db).
Proof. done. Qed.

Lemma mark_processed_ok now e : preserves session_ok (mark_processed now e).
Proof. apply write_ok. done. Qed.
Lemma mark_failed_ok e m : preserves session_ok (mark_failed e m).
Proof. apply write_ok. done. Qed.

(** Whatever a delivery does, it keeps the projection's invariant. *)
Lemma process_webhook_ok raced now created body sig :
  preserves session_ok (process_webhook r ce secret raced now created body sig).
Proof.
  apply ensures_preserves with (Q := fun _ => True). unfold process_webhook.
  apply (ensures_bind (fun _ => True)); [apply readonly_ensures; unfold verify_signature; auto with readonly|intros event _].
  apply (ensures_bind (fun _ => True)); [apply readonly_ensures; auto with readonly|intros id _].
  apply (ensures_bind (fun _ => True)); [apply readonly_ensures; auto with readonly|intros type _].
  apply (ensures_bind (fun _ => True)); [apply readonly_ensures; auto with readonly|intros _ _].
  apply (ensures_bind (fun _ => True)).
  { apply preserves_ensures. unfold claim_event. apply preserves_bind; [apply query_ok|].
    intros [row|]; [apply preserves_ret|]. destruct raced as [row|].
    - intros s [_ Hc]. split; exact Hc.
    - apply preserves_bind; [by apply write_ok|]. auto with preserve. }
  intros [ledger is_new] _. destruct (negb is_new); [by apply ensures_ret|].
  destruct (_DISPATCH r now created _) as [h|] eqn:Hh.
  - apply preserves_ensures, preserves_try_except.
    + apply preserves_bind; [eapply ensures_preserves, dispatch_ok, Hh|]. intros _.
      apply preserves_bind; [apply mark_processed_ok|]. auto with preserve.
    + intros e. apply preserves_bind; [apply mark_failed_ok|]. auto with preserve.
  - apply (ensures_bind (fun _ => True)); [apply preserves_ensures, mark_processed_ok|].
    intros _ _. by apply ensures_ret.
Qed.

Lemma receive_ok raced now created body sig :
  preserves session_ok (receive_stripe_webhook r ce secret raced now created body sig).
Proof.
  unfold receive_stripe_webhook. destruct (truthy_or sig None) as [h|]; [|apply preserves_raise].
  apply preserves_try_except; [apply process_webhook_ok|]. intros []; apply preserves_raise.
Qed.

(** Without a race nothing is committed before the request ends. *)
Lemma process_committed now created body sig :
  keeps_committed (process_webhook r ce secret None now created body sig).
Proof.
  unfold process_webhook.
  apply bind_committed; [apply readonly_committed; unfold verify_signature; auto with readonly|intros event].
  apply bind_committed; [apply readonly_committed; auto with readonly|intros id].
  apply bind_committed; [apply readonly_committed; auto with readonly|intros ty].
  apply bind_committed; [apply readonly_committed; auto with readonly|intros _].
  apply bind_committed.
  { unfold claim_event. apply bind_committed; [apply readonly_committed; auto with readonly|].
    intros [row|]; [done|]. by apply bind_committed. }
  intros [ledger is_new]. destruct (negb is_new); [done|].
  destruct (_DISPATCH r now created _) as [hd|] eqn:Hh; [|by apply bind_committed].
  apply try_committed; [|intros e; by apply bind_committed].
  apply bind_committed; [eapply frame_committed, dispatch_frame, Hh|]. intros _. by apply bind_committed.
Qed.

Lemma receive_committed now created body sig :
  keeps_committed (receive_stripe_webhook r ce secret None now created body sig).
Proof.
  unfold receive_stripe_webhook. destruct (truthy_or sig None) as [h|]; [|done].
  apply try_committed; [apply process_committed|]. by intros [].
Qed.

(** A fresh event that is answered is in the ledger when the call returns. *)
Lemma process_ledgers now created body sig i s a s' :
  delivers r ce secret body sig i -> events (working s) !! i = None ->
  process_webhook r ce secret None now created body sig s = (Ok a, s') ->
  is_Some (events (working s') !! i) /\ wh_event_id a = Some i /\
  (wh_status a = "processed" \/ wh_status a = "ignored") /\ committed s' = committed s.
Proof.
  intros (event & id_ & type_ & Hsig & Hsec & Hce & Hid & Hty & Hi & Hti & Htt) Hfresh.
  open_delivery Hsec Hce Hid Hty Hi Hti Htt.
  erewrite bind_run by (by apply claim_fresh). cbn [negb].
  set (row := {| stripe_event_id := i; event_type := _; payload := _; processed_at := _; processing_error := _ |}).
  assert (Hmark : forall e t, stripe_event_id e = i -> forall w, mark_processed now e t = w ->
    is_Some (events (working (snd w)) !! i) /\ committed (snd w) = committed t).
  { intros e t He w <-. cbn. rewrite He, lookup_insert_eq. by split. }
  destruct (_DISPATCH r now created _) as [h|] eqn:Hh.
  - pose proof (dispatch_frame r now created _ h (JObj event) Hh) as Hframe.
    unfold try_except, bind. set (s1 := Session _ _). destruct (Hframe s1) as [_ Hc].
    destruct (h (JObj event) s1) as [[u|e] s2]; [|done].
    destruct (Hmark row s2 eq_refl _ eq_refl) as [H1 H2].
    unfold ret. destruct (mark_processed now row s2) as [[u'|e] s3] eqn:Hm; [|done].
    intros [= <- <-]. cbn in *. split; [done|]. split; [done|]. split; [by left|]. by rewrite H2, Hc.
  - unfold bind, ret, mark_processed, write, modify. intros [= <- <-]. cbn. rewrite lookup_insert_eq.
    split; [done|]. split; [done|]. by split; [right|].
Qed.
End Ledger.

(** ** Properties *)

(** C3. Exactly once: after a delivery of a new event was answered and its
    request committed, the event is in the ledger, and any further delivery of
    the same event id - with any body, at any time, raced or not - answers
    [already_processed] and changes nothing. *)
Theorem webhook_exactly_once r ce secret now created body sig i s a s' :
  delivers r ce secret body sig i -> events (working s) !! i = None ->
  webhook r ce secret None now created body (Some sig) s = (Ok a, s') ->
  (wh_status a = "processed" \/ wh_status a = "ignored") /\
  is_Some (events (committed s') !! i) /\
  forall raced now' created' body' sig', delivers r ce secret body' sig' i ->
    webhook r ce secret raced now' created' body' (Some sig') s' =
      (Ok {| wh_status := "already_processed"; wh_event_id := Some i; wh_error := None |}, s').
Proof.
  intros Hd Hfresh H. unfold webhook, in_request, receive_stripe_webhook, truthy_or in H.
  destruct Hd as (event & id_ & type_ & Hsig & Hrest).
  assert (Hd : delivers r ce secret body sig i) by (by exists event, id_, type_).
  rewrite Hsig in H. unfold try_except in H.
  destruct (process_webhook r ce secret None now created body sig s) as [[a'|e] s1] eqn:Hp.
  - cbn in H. injection H as -> <-.
    destruct (process_ledgers r ce secret now created body sig i s a s1 Hd Hfresh Hp) as (Hin & _ & Hst & _).
    split; [done|]. split; [done|]. intros raced now' created' body' sig' Hd'.
    unfold webhook, in_request. rewrite (redelivery_run r ce secret raced now' created' body' sig' i) by done. done.
  - destruct e; cbn in H; discriminate H.
Qed.

(** A failed delivery leaves no trace: when the request does not answer
    normally, every table is what was committed before - the event is not in
    the ledger, nothing the handler wrote remains, and the error it stored is
    gone - so the next delivery of the event runs its handler again. *)
Theorem webhook_failure_atomic r ce secret raced now created body sig s e s' :
  webhook r ce secret raced now created body sig s = (Raise e, s') ->
  (raced = None -> s' = Session (committed s) (committed s)) /\ working s' = committed s'.
Proof.
  intros H. unfold webhook, in_request in H.
  assert (Hc : raced = None -> committed (snd (receive_stripe_webhook r ce secret raced now created body sig s)) = committed s).
  { intros ->. apply receive_committed. }
  destruct (receive_stripe_webhook _ _ _ _ _ _ _ _ _) as [[a|x] s1]; [done|]. injection H as <- <-. cbn in *.
  split; [|done]. intros Hr. by rewrite Hc.
Qed.

(** The billing projection stays consistent under any sequence of webhook
    deliveries: every stored subscription has a known status, carries its
    past-due date exactly while that matters (set when past due, cleared when
    active) and its cancellation date once canceled. *)
Theorem webhook_preserves_projection r ce secret raced now created body sig s :
  session_ok s -> session_ok (snd (webhook r ce secret raced now created body sig s)).
Proof.
  intros Hs. unfold webhook, in_request. pose proof (receive_ok r ce secret raced now created body sig s Hs) as [Hw Hc].
  destruct (receive_stripe_webhook _ _ _ _ _ _ _ _ _) as [[a|e] s1]; cbn in *; by split.
Qed.

(** The dispatch table and the documented list of handled events agree: an
    event type has a handler exactly when it is in [HANDLED_EVENT_TYPES]; any
    other event is recorded as processed and acknowledged as [ignored], and no
    other table changes. *)
Theorem unhandled_events_are_ledgered r ce secret now created body sig i event s :
  delivers r ce secret body sig i -> ce body sig secret = Some (JObj event) -> events (working s) !! i = None ->
  let type := py_str r (jor (get_key "type" event) (JStr "")) in
  is_someb (_DISPATCH r now created type) = str_in type HANDLED_EVENT_TYPES /\
  (str_in type HANDLED_EVENT_TYPES = false ->
   exists row, webhook r ce secret None now created body (Some sig) s =
     (Ok {| wh_status := "ignored"; wh_event_id := Some i; wh_error := None |},
      let db := set_events (<[i := row]> (events (working s))) (working s) in Session db db) /\
     processed_at row = Some now /\ event_type row = type /\ payload row = JObj event).
Proof.
  intros (event' & id_ & type_ & Hsig & Hsec & Hce & Hid & Hty & Hi & Hti & Htt) Hce' Hfresh type.
  assert (event' = event) as -> by congruence.
  assert (Hiff : is_someb (_DISPATCH r now created type) = str_in type HANDLED_EVENT_TYPES) by apply dispatch_handled.
  split; [exact Hiff|]. intros Hun. rewrite Hun in Hiff.
  assert (Hnone : _DISPATCH r now created type = None) by (by destruct (_DISPATCH r now created type)).
  unfold webhook, in_request, receive_stripe_webhook, truthy_or. rewrite Hsig.
  unfold try_except. open_delivery Hsec Hce Hid Hty Hi Hti Htt.
  erewrite bind_run by (by apply claim_fresh). cbn [negb].
  assert (py_str r (jor type_ (JStr "")) = type) as -> by (unfold type; by rewrite Hty).
  rewrite Hnone. unfold bind, ret, mark_processed, write, modify. cbn. eexists. split.
  - do 2 f_equal; unfold set_events; cbn; by rewrite insert_insert_eq.
  - done.
Qed.

(** ** Witnesses *)

Definition demo_event (id type : string) : json :=
  JObj [("id", JStr id); ("type", JStr type);
        ("data", JObj [("object", JObj [("id", JStr "in_1"); ("customer", JStr "cus_1");
                                        ("amount_due", JInt 150000); ("subscription", JStr "sub_1")])])].
(** The body names the event type; everything else is fixed. *)
Definition demo_construct (body sig secret : string) : option json :=
  if String.eqb sig "good" then Some (demo_event "evt_1" body) else None.
Definition demo_session : session BillingDB := Session demo_billing demo_billing.

Lemma demo_delivers body : truthy body = true -> delivers (fun _ => "") demo_construct "whsec" body "good" "evt_1".
Proof.
  intros Hb. eexists _, _, _. repeat split.
  cbn -[truthy]. unfold jor. cbn [jtruthy]. by rewrite Hb.
Qed.

Lemma webhook_exactly_once_witness :
  exists a s', webhook (fun _ => "") demo_construct "whsec" None (utc 5) 5 "invoice.paid" (Some "good") demo_session = (Ok a, s') /\
    webhook (fun _ => "") demo_construct "whsec" None (utc 9) 9 "invoice.paid" (Some "good") s' =
      (Ok {| wh_status := "already_processed"; wh_event_id := Some "evt_1"; wh_error := None |}, s').
Proof.
  destruct (webhook (fun _ => "") demo_construct "whsec" None (utc 5) 5 "invoice.paid" (Some "good") demo_session)
    as [[a|e] s'] eqn:H; [|vm_compute in H; discriminate].
  destruct (webhook_exactly_once (fun _ => "") demo_construct "whsec" (utc 5) 5 "invoice.paid" "good" "evt_1"
              demo_session a s' (demo_delivers "invoice.paid" eq_refl) eq_refl H) as (_ & _ & Hre).
  exact (ex_intro _ a (ex_intro _ s' (conj eq_refl
          (Hre None (utc 9) 9 "invoice.paid" "good" (demo_delivers "invoice.paid" eq_refl))))).
Defined.

Lemma webhook_failure_atomic_witness :
  exists e, webhook (fun _ => "") demo_construct "whsec" None (utc 5) 5 "invoice.paid" (Some "forged") demo_session
    = (Raise e, demo_session).
Proof.
  destruct (webhook (fun _ => "") demo_construct "whsec" None (utc 5) 5 "invoice.paid" (Some "forged") demo_session)
    as [[a|e] s'] eqn:H; [vm_compute in H; discriminate|].
  refine (ex_intro _ e _). f_equal.
  exact (proj1 (webhook_failure_atomic (fun _ => "") demo_construct "whsec" None (utc 5) 5 "invoice.paid" (Some "forged")
           demo_session e s' H) eq_refl).
Defined.

Lemma webhook_preserves_projection_witness :
  session_ok (snd (webhook (fun _ => "") demo_construct "whsec" None (utc 5) 5 "invoice.payment_failed" (Some "good") demo_session)).
Proof.
  exact (webhook_preserves_projection (fun _ => "") demo_construct "whsec" None (utc 5) 5 "invoice.payment_failed"
           (Some "good") demo_session demo_billing_ok).
Defined.

Lemma unhandled_events_are_ledgered_witness :
  exists s', webhook (fun _ => "") demo_construct "whsec" None (utc 5) 5 "charge.refunded" (Some "good") demo_session =
    (Ok {| wh_status := "ignored"; wh_event_id := Some "evt_1"; wh_error := None |}, s').
Proof.
  destruct (proj2 (unhandled_events_are_ledgered (fun _ => "") demo_construct "whsec" (utc 5) 5 "charge.refunded" "good"
              "evt_1" _ demo_session (demo_delivers "charge.refunded" eq_refl) eq_refl eq_refl) eq_refl)
    as (row & H & _).
  exact (ex_intro _ _ H).
Defined.
