(* ===== verification/AvScanner.v ===== *)
(** * The antivirus gate

    services/av_scanner.py: the scanner back ends and the wrapper every upload
    goes through.  The [clamd] client library is an argument: whether it can be
    imported, whether a client can be built, and what [instream] answers. *)

From Stdlib Require Import Ascii.
From S2P Require Import Prelude PyStr Json Encoding.

(** services/av_scanner.py, [EICAR_TEST_STRING]. *)
Definition EICAR_TEST_STRING : bytes :=
  "X5O!P%@AP[4\PZX54(P^)7CC)7}$EICAR-STANDARD-ANTIVIRUS-TEST-FILE!$H+H*".

(** services/av_scanner.py, [ScanResult]. *)
Inductive ScanResult : Type := CLEAN | INFECTED | ERROR.

#[export] Instance ScanResult_eq_dec : EqDecision ScanResult.
Proof. solve_decision. Defined.

(** services/av_scanner.py, [ScanReport]. *)
Record ScanReport : Type := {
  scan_result : ScanResult;
  signature : option string;
  detail : option string;
  scanner : string;
}.

(** services/av_scanner.py, [InfectedFileError] and [ScannerError]. *)
Inductive av_error : Type :=
| InfectedFileError (signature scanner : string) (detail : option string)
| ScannerError (detail scanner : string).

(** services/av_scanner.py:99-122, [InfectedFileError.__init__] and
    [ScannerError.__init__]: the text of the exception. *)
Definition av_error_str (e : av_error) : string :=
  match e with
  | InfectedFileError sig sc d =>
      "File rejected by " +:+ sc +:+ ": signature=" +:+ sig +:+
      match d with Some t => if truthy t then " (" +:+ t +:+ ")" else "" | None => "" end
  | ScannerError d sc => "Scanner " +:+ sc +:+ " unavailable: " +:+ d
  end.

(** What the client library does with a stream. *)
Inductive clamd_reply : Type :=
| ConnectionFailed (msg : string)
| OtherFailure (cls msg : string)
| Stream (entry : option (list (option string))).

Section Scanners.
(** [import clamd]: the text of the [ImportError], if any. *)
Context (import_error : option string).
(** Building the client: the text of the exception, if any. *)
Context (build_error : option string).
Context (instream : bytes -> clamd_reply).
(** [repr] of a reply and of an optional string. *)
Context (repr_reply : option (list (option string)) -> string) (repr_opt : option string -> string).

(** services/av_scanner.py, [_build_from_settings]: the back end classes. *)
Inductive backend : Type := StubAllowScanner | StubDenyScanner | EicarScanner | ClamdScanner.

(** services/av_scanner.py, [_build_from_settings]. *)
Definition _build_from_settings (av_scanner_backend : string) : backend :=
  let b := lower (strip (sor av_scanner_backend "stub_allow")) in
  if String.eqb b "clamd" then ClamdScanner
  else if String.eqb b "stub_deny" then StubDenyScanner
  else if String.eqb b "eicar" then EicarScanner
  else StubAllowScanner.

Definition clean_report (name : string) : ScanReport :=
  {| scan_result := CLEAN; signature := None; detail := None; scanner := name |}.

(** services/av_scanner.py, [ClamdScanner._build_client]. *)
Definition _build_client : result av_error unit :=
  match import_error, build_error with
  | Some e, _ => Raise (ScannerError ("clamd python package not installed: " +:+ e) "clamd")
  | None, Some e => Raise (ScannerError ("failed to construct clamd client: " +:+ e) "clamd")
  | None, None => Ok tt
  end.

(** services/av_scanner.py:309-338, [ClamdScanner.scan_bytes]: the answer read. *)
Definition read_stream (entry : option (list (option string))) : result av_error ScanReport :=
  match entry with
  | Some (st :: sig :: _) =>
      let status_str := upper (match st with Some t => t | None => "" end) in
      if String.eqb status_str "OK" then Ok (clean_report "clamd")
      else if String.eqb status_str "FOUND"
      then Ok {| scan_result := INFECTED;
                 signature := Some (match sig with Some t => sor t "Unknown" | None => "Unknown" end);
                 detail := None; scanner := "clamd" |}
      else Ok {| scan_result := ERROR; signature := None;
                 detail := Some ("clamd status=" +:+ repr_opt st +:+ " signature=" +:+ repr_opt sig);
                 scanner := "clamd" |}
  | _ => Raise (ScannerError ("clamd returned unexpected payload: " +:+ repr_reply entry) "clamd")
  end.

(** services/av_scanner.py, [ClamdScanner.scan_bytes]. *)
Definition clamd_scan_bytes (data : bytes) : result av_error ScanReport :=
  match import_error with
  | Some e => Raise (ScannerError ("clamd python package not installed: " +:+ e) "clamd")
  | None =>
      match _build_client with
      | Raise e => Raise e
      | Ok _ =>
          match instream data with
          | ConnectionFailed msg => Raise (ScannerError msg "clamd")
          | OtherFailure cls msg => Raise (ScannerError ("clamd instream raised " +:+ cls +:+ ": " +:+ msg) "clamd")
          | Stream entry => read_stream entry
          end
      end
  end.

(** services/av_scanner.py:149-205, [StubAllowScanner.scan_bytes],
    [StubDenyScanner.scan_bytes] and [EicarScanner.scan_bytes]. *)
Definition scan_bytes (b : backend) (data : bytes) : result av_error ScanReport :=
  match b with
  | StubAllowScanner => Ok (clean_report "stub_allow")
  | StubDenyScanner =>
      Ok {| scan_result := INFECTED; signature := Some "STUB.Deny.Test";
            detail := Some "stub_deny scanner refuses all input"; scanner := "stub_deny" |}
  | EicarScanner =>
      if contains EICAR_TEST_STRING data
      then Ok {| scan_result := INFECTED; signature := Some "Eicar-Test-Signature";
                 detail := Some "EICAR test string detected"; scanner := "eicar" |}
      else Ok (clean_report "eicar")
  | ClamdScanner => clamd_scan_bytes data
  end.

(** services/av_scanner.py, [enforce_clean]. *)
Definition enforce_clean (b : backend) (fail_closed_on_error : bool) (data : bytes)
  : result av_error ScanReport :=
  match scan_bytes b data with
  | Raise e => Raise e
  | Ok report =>
      match scan_result report with
      | INFECTED => Raise (InfectedFileError (match signature report with Some t => sor t "Unknown" | None => "Unknown" end)
                             (scanner report) (detail report))
      | ERROR => if fail_closed_on_error
                 then Raise (ScannerError (match detail report with
                                           | Some t => sor t "scanner returned ERROR"
                                           | None => "scanner returned ERROR"
                                           end) (scanner report))
                 else Ok report
      | CLEAN => Ok report
      end
  end.

(** ** Properties *)

Lemma enforce_clean_Ok b fc data report :
  enforce_clean b fc data = Ok report <->
  scan_bytes b data = Ok report /\
  (scan_result report = CLEAN \/ scan_result report = ERROR /\ fc = false).
Proof.
  unfold enforce_clean. destruct (scan_bytes b data) as [r|e]; [|by split; [|intros [? _]]].
  split.
  - destruct (scan_result r) eqn:Hr, fc; intros [= <-]; auto.
  - intros [[= <-] Hr]. destruct (scan_result r), fc; intuition congruence.
Qed.

(** The gate: the wrapper lets bytes through exactly when the back end
    reports them clean, or reports an error while the deployment fails open; so
    a fail-closed deployment accepts only bytes reported clean, with every back
    end and every answer of the daemon, and an infected report never passes. *)
Theorem gate_passes_only_clean b fc data report :
  (enforce_clean b fc data = Ok report <->
     scan_bytes b data = Ok report /\
     (scan_result report = CLEAN \/ scan_result report = ERROR /\ fc = false)) /\
  (enforce_clean b true data = Ok report -> scan_result report = CLEAN) /\
  (scan_bytes b data = Ok report -> scan_result report = INFECTED ->
     exists sig, enforce_clean b fc data = Raise (InfectedFileError sig (scanner report) (detail report))).
Proof.
  split; [apply enforce_clean_Ok|]. split.
  - intros H. apply enforce_clean_Ok in H as [_ [?|[_ ?]]]; done.
  - intros Hs Hr. unfold enforce_clean. rewrite Hs, Hr. by eexists.
Qed.

(** The test back end refuses every upload that holds the test string
    anywhere. *)
Lemma eicar_refused a z fc : exists e, enforce_clean EicarScanner fc (a +:+ EICAR_TEST_STRING +:+ z) = Raise e.
Proof.
  unfold enforce_clean, scan_bytes.
  assert (H : contains EICAR_TEST_STRING (a +:+ EICAR_TEST_STRING +:+ z) = true)
    by (apply contains_spec; by exists a, z).
  rewrite H. by eexists.
Qed.

(** An unreachable daemon refuses uploads whatever the fail-open setting:
    the scanner raises by itself, and the setting only governs error reports. *)
Theorem unreachable_daemon_ignores_fail_open fc data msg :
  instream data = ConnectionFailed msg -> exists e, enforce_clean ClamdScanner fc data = Raise e.
Proof.
  intros H. unfold enforce_clean, scan_bytes, clamd_scan_bytes, _build_client. rewrite H.
  destruct import_error; [by eexists|]. destruct build_error; by eexists.
Qed.
End Scanners.

Lemma gate_passes_only_clean_witness :
  enforce_clean None None (fun _ => Stream (Some [Some "OK"; None])) (fun _ => "") (fun _ => "") ClamdScanner true "data"
    = Ok (clean_report "clamd") /\ scan_result (clean_report "clamd") = CLEAN.
Proof.
  split; [reflexivity|].
  apply (proj1 (proj2 (gate_passes_only_clean None None (fun _ => Stream (Some [Some "OK"; None])) (fun _ => "")
                         (fun _ => "") ClamdScanner true "data" (clean_report "clamd")))).
  reflexivity.
Defined.

Lemma unreachable_daemon_ignores_fail_open_witness :
  exists e, enforce_clean None None (fun _ => ConnectionFailed "refused") (fun _ => "") (fun _ => "")
              ClamdScanner false "data" = Raise e.
Proof.
  exact (unreachable_daemon_ignores_fail_open None None (fun _ => ConnectionFailed "refused") (fun _ => "")
           (fun _ => "") false "data" "refused" eq_refl).
Defined.

(** A misspelt back end accepts everything. *)
Example unknown_backend_allows : _build_from_settings "clamav" = StubAllowScanner.
Proof. reflexivity. Qed.
