(* ===== verification/ImportModels.v ===== *)
(** * Bulk imports: data and errors

    models/import_job.py, models/import_row_error.py and models/supplier.py:
    the rows of the import tables, the exceptions of the import pipeline, and
    the state its operations share - the database session and the upload
    directory. *)

From Stdlib Require Import Ascii.
From S2P Require Import Prelude PyStr Json PyTime Encoding.

(** ** Rows *)

(** models/import_job.py, [ImportEntityType]. *)
Inductive ImportEntityType : Type := SUPPLIER | COI | LOSS_RUN | PRODUCER_LICENSE.

(** models/import_job.py, [ImportStatus]. *)
Inductive ImportStatus : Type :=
| PENDING | VALIDATING | DRY_RUN_READY | IMPORTING | COMPLETED | FAILED | CANCELED.

#[export] Instance ImportEntityType_eq_dec : EqDecision ImportEntityType.
Proof. solve_decision. Defined.
#[export] Instance ImportStatus_eq_dec : EqDecision ImportStatus.
Proof. solve_decision. Defined.

Definition entity_value (e : ImportEntityType) : string :=
  match e with
  | SUPPLIER => "supplier" | COI => "coi" | LOSS_RUN => "loss_run" | PRODUCER_LICENSE => "producer_license"
  end.

Definition import_status_value (s : ImportStatus) : string :=
  match s with
  | PENDING => "pending" | VALIDATING => "validating" | DRY_RUN_READY => "dry_run_ready"
  | IMPORTING => "importing" | COMPLETED => "completed" | FAILED => "failed" | CANCELED => "canceled"
  end.

(** models/import_job.py, [TERMINAL_STATUSES]. *)
Definition TERMINAL_STATUSES : list ImportStatus := [COMPLETED; FAILED; CANCELED].

Definition status_in (s : ImportStatus) (l : list ImportStatus) : bool :=
  existsb (fun t => bool_decide (s = t)) l.

(** models/import_job.py, [ImportJob]. *)
Record ImportJob : Type := {
  job_pk : string;
  job_tenant_id : string;
  entity_type : ImportEntityType;
  job_status : ImportStatus;
  file_url : string;
  original_filename : string;
  file_size_bytes : Z;
  content_type : option string;
  total_rows : Z;
  valid_rows : Z;
  invalid_rows : Z;
  imported_rows : Z;
  mapping : json;
  on_duplicate : string;
  summary : option (list (string * json));
  job_last_error : option string;
  created_by_user_id : option string;
  job_created_at : Z;
  job_started_at : option Z;
  job_completed_at : option Z;
}.

(** models/import_row_error.py, [ImportRowError]. *)
Record ImportRowError : Type := {
  re_id : string;
  import_job_id : string;
  re_row_number : Z;
  re_column : option string;
  re_value : option string;
  re_code : string;
  re_message : string;
}.

(** models/supplier.py, [Supplier]. *)
Record Supplier : Type := {
  s_id : string;
  s_tenant_id : string;
  s_legal_name : string;
  s_dba_name : option string;
  s_ein : option string;
  s_naics_code : option string;
  s_primary_email : option string;
  s_primary_phone : option string;
  s_address_json : option (list (string * string));
  s_website : option string;
}.

(** Assignments to attributes of a job. *)
Definition with_status (st : ImportStatus) (j : ImportJob) : ImportJob :=
  {| job_pk := job_pk j; job_tenant_id := job_tenant_id j; entity_type := entity_type j; job_status := st;
     file_url := file_url j; original_filename := original_filename j; file_size_bytes := file_size_bytes j;
     content_type := content_type j; total_rows := total_rows j; valid_rows := valid_rows j;
     invalid_rows := invalid_rows j; imported_rows := imported_rows j; mapping := mapping j;
     on_duplicate := on_duplicate j; summary := summary j; job_last_error := job_last_error j;
     created_by_user_id := created_by_user_id j; job_created_at := job_created_at j;
     job_started_at := job_started_at j; job_completed_at := job_completed_at j |}.
Definition with_times (started completed : option Z) (j : ImportJob) : ImportJob :=
  {| job_pk := job_pk j; job_tenant_id := job_tenant_id j; entity_type := entity_type j;
     job_status := job_status j; file_url := file_url j; original_filename := original_filename j;
     file_size_bytes := file_size_bytes j; content_type := content_type j; total_rows := total_rows j;
     valid_rows := valid_rows j; invalid_rows := invalid_rows j; imported_rows := imported_rows j;
     mapping := mapping j; on_duplicate := on_duplicate j; summary := summary j;
     job_last_error := job_last_error j; created_by_user_id := created_by_user_id j;
     job_created_at := job_created_at j; job_started_at := started; job_completed_at := completed |}.
Definition with_last_error (e : option string) (j : ImportJob) : ImportJob :=
  {| job_pk := job_pk j; job_tenant_id := job_tenant_id j; entity_type := entity_type j;
     job_status := job_status j; file_url := file_url j; original_filename := original_filename j;
     file_size_bytes := file_size_bytes j; content_type := content_type j; total_rows := total_rows j;
     valid_rows := valid_rows j; invalid_rows := invalid_rows j; imported_rows := imported_rows j;
     mapping := mapping j; on_duplicate := on_duplicate j; summary := summary j; job_last_error := e;
     created_by_user_id := created_by_user_id j; job_created_at := job_created_at j;
     job_started_at := job_started_at j; job_completed_at := job_completed_at j |}.
Definition with_file_url (u : string) (j : ImportJob) : ImportJob :=
  {| job_pk := job_pk j; job_tenant_id := job_tenant_id j; entity_type := entity_type j;
     job_status := job_status j; file_url := u; original_filename := original_filename j;
     file_size_bytes := file_size_bytes j; content_type := content_type j; total_rows := total_rows j;
     valid_rows := valid_rows j; invalid_rows := invalid_rows j; imported_rows := imported_rows j;
     mapping := mapping j; on_duplicate := on_duplicate j; summary := summary j;
     job_last_error := job_last_error j; created_by_user_id := created_by_user_id j;
     job_created_at := job_created_at j; job_started_at := job_started_at j;
     job_completed_at := job_completed_at j |}.
Definition with_rows (total valid invalid : Z) (j : ImportJob) : ImportJob :=
  {| job_pk := job_pk j; job_tenant_id := job_tenant_id j; entity_type := entity_type j;
     job_status := job_status j; file_url := file_url j; original_filename := original_filename j;
     file_size_bytes := file_size_bytes j; content_type := content_type j; total_rows := total;
     valid_rows := valid; invalid_rows := invalid; imported_rows := imported_rows j;
     mapping := mapping j; on_duplicate := on_duplicate j; summary := summary j;
     job_last_error := job_last_error j; created_by_user_id := created_by_user_id j;
     job_created_at := job_created_at j; job_started_at := job_started_at j;
     job_completed_at := job_completed_at j |}.
Definition with_import (imported : Z) (sm : option (list (string * json))) (j : ImportJob) : ImportJob :=
  {| job_pk := job_pk j; job_tenant_id := job_tenant_id j; entity_type := entity_type j;
     job_status := job_status j; file_url := file_url j; original_filename := original_filename j;
     file_size_bytes := file_size_bytes j; content_type := content_type j; total_rows := total_rows j;
     valid_rows := valid_rows j; invalid_rows := invalid_rows j; imported_rows := imported;
     mapping := mapping j; on_duplicate := on_duplicate j; summary := sm;
     job_last_error := job_last_error j; created_by_user_id := created_by_user_id j;
     job_created_at := job_created_at j; job_started_at := job_started_at j;
     job_completed_at := job_completed_at j |}.

(** models/import_row_error.py, [_VALUE_MAX_LEN]. *)
Definition _VALUE_MAX_LEN : Z := 200.

(** models/import_row_error.py, [ImportRowError.truncate_value]: [ellipsis] is
    the one character U+2026. *)
Definition truncate_value (ellipsis : ascii) (raw : option string) : option string :=
  match raw with
  | None => None
  | Some text => if slen text <=? _VALUE_MAX_LEN then Some text
                 else Some (stake (Z.to_nat (_VALUE_MAX_LEN - 1)) text +:+ String ellipsis "")
  end.

(** ** The tables and the session *)

(** [next_id] counts the identifiers handed out. *)
Record ImportDB : Type := {
  jobs : gmap string ImportJob;
  row_errors : list ImportRowError;
  suppliers : list Supplier;
  next_id : nat;
}.

Definition set_jobs (m : gmap string ImportJob) (db : ImportDB) : ImportDB :=
  {| jobs := m; row_errors := row_errors db; suppliers := suppliers db; next_id := next_id db |}.
Definition set_row_errors (l : list ImportRowError) (db : ImportDB) : ImportDB :=
  {| jobs := jobs db; row_errors := l; suppliers := suppliers db; next_id := next_id db |}.
Definition set_suppliers (l : list Supplier) (db : ImportDB) : ImportDB :=
  {| jobs := jobs db; row_errors := row_errors db; suppliers := l; next_id := next_id db |}.
Definition bump_id (db : ImportDB) : ImportDB :=
  {| jobs := jobs db; row_errors := row_errors db; suppliers := suppliers db; next_id := S (next_id db) |}.

(** The session and the files of the upload directory, by path. *)
Record St : Type := { ses : session ImportDB; files : gmap string bytes }.

Definition db_query {E A} (f : ImportDB -> A) : M St E A := reads (fun s => f (working (ses s))).
Definition db_write {E} (f : ImportDB -> ImportDB) : M St E unit :=
  modify (fun s => {| ses := Session (f (working (ses s))) (committed (ses s)); files := files s |}).
Definition db_commit {E} : M St E unit :=
  modify (fun s => {| ses := Session (working (ses s)) (working (ses s)); files := files s |}).
Definition db_rollback {E} : M St E unit :=
  modify (fun s => {| ses := Session (committed (ses s)) (committed (ses s)); files := files s |}).

(** ** Errors *)

(** services/import_service.py, [ImportServiceError] and its subclasses;
    [ValueError] and [Other] are any other exception, by class and text. *)
Inductive exn : Type :=
| FileTooLargeError (msg : string)
| UnsupportedFormatError (msg : string)
| TooManyRowsError (msg : string)
| InvalidTransitionError (msg : string)
| InfectedUploadError (signature scanner : string)
| ScannerUnavailableError (scanner detail : string)
| JobNotFoundError (msg : string)
| _MissingColumnsError (missing : list string)
| Other (cls msg : string).

#[export] Instance import_exn_eq_dec : EqDecision exn.
Proof. solve_decision. Defined.

(** services/import_service.py, [ImportServiceError.error_code]. *)
Definition exn_code (e : exn) : option string :=
  match e with
  | FileTooLargeError _ => Some "file_too_large"
  | UnsupportedFormatError _ => Some "unsupported_format"
  | TooManyRowsError _ => Some "too_many_rows"
  | InvalidTransitionError _ => Some "invalid_transition"
  | InfectedUploadError _ _ => Some "av_infected_file"
  | ScannerUnavailableError _ _ => Some "av_scanner_unavailable"
  | JobNotFoundError _ => Some "import_job_not_found"
  | _MissingColumnsError _ | Other _ _ => None
  end.

(** [exc.__class__.__name__] *)
Definition exn_class (e : exn) : string :=
  match e with
  | FileTooLargeError _ => "FileTooLargeError" | UnsupportedFormatError _ => "UnsupportedFormatError"
  | TooManyRowsError _ => "TooManyRowsError" | InvalidTransitionError _ => "InvalidTransitionError"
  | InfectedUploadError _ _ => "InfectedUploadError"
  | ScannerUnavailableError _ _ => "ScannerUnavailableError"
  | JobNotFoundError _ => "JobNotFoundError" | _MissingColumnsError _ => "_MissingColumnsError"
  | Other cls _ => cls
  end.

(** services/import_service.py, [str(exc)] of the exceptions of the module. *)
Definition exn_str (e : exn) : string :=
  match e with
  | FileTooLargeError m | UnsupportedFormatError m | TooManyRowsError m | InvalidTransitionError m
  | JobNotFoundError m | Other _ m => m
  | InfectedUploadError sig _ => "File appears to be infected with " +:+ sig +:+ "; upload rejected."
  | ScannerUnavailableError _ _ => "Antivirus scanner unavailable; please retry shortly."
  | _MissingColumnsError missing => join ", " missing
  end.
