(* ===== verification/SupplierImporter.v ===== *)
(** * The supplier importer

    services/importers/base.py and services/importers/supplier_importer.py:
    column aliases, row validation and the batch insert into [suppliers].
    The e-mail validator behind pydantic's [EmailStr] is an argument. *)

From Stdlib Require Import Ascii.
From S2P Require Import Prelude PyStr Json Regex Encoding ImportModels.

(** ** Base importer *)

(** services/importers/base.py, [ColumnSpec]. *)
Record ColumnSpec : Type := {
  field : string;
  required : bool;
  aliases : list string;
  description : string;
  example : option string;
}.

(** services/importers/base.py, [RowError]. *)
Record RowError : Type := {
  err_row_number : Z;
  column : option string;
  value : option string;
  error_code : string;
  error_message : string;
}.

(** services/importers/base.py, [BaseImporter.alias_map]. *)
Definition alias_map (columns : list ColumnSpec) : list (string * string) :=
  fold_left (fun out spec =>
      fold_left (fun out a => dset (lower a) (field spec) out) (aliases spec)
        (dset (field spec) (field spec) out))
    columns [].

(** services/importers/base.py:108-116, [BaseImporter.remap_row]: the canonical
    field of one source header. *)
Definition target_of (am : list (string * string)) (user_mapping : option (list (string * string)))
    (header : string) : option string :=
  let k := lower (strip header) in
  if negb (truthy k) then None
  else match (match user_mapping with Some m => dget k m | None => None end) with
       | Some t => Some t
       | None => dget k am
       end.

(** services/importers/base.py, [BaseImporter.remap_row]. *)
Definition remap_row (columns : list ColumnSpec) (row : list (string * string))
    (user_mapping : option (list (string * string))) : list (string * string) :=
  fold_left (fun out kv => match target_of (alias_map columns) user_mapping kv.1 with
                           | Some t => dset t kv.2 out
                           | None => out
                           end) row [].

(** services/importers/base.py, [BaseImporter.missing_required_columns]. *)
Definition missing_required_columns (columns : list ColumnSpec) (header_set : list string)
    (user_mapping : option (list (string * string))) : list string :=
  let present := omap (target_of (alias_map columns) user_mapping) header_set in
  map field (List.filter (fun c => negb (mem (field c) present)) (List.filter required columns)).

(** ** The supplier columns *)

(** services/importers/supplier_importer.py, [_COLUMNS]. *)
Definition _COLUMNS : list ColumnSpec := [
  {| field := "name"; required := true;
     aliases := ["company"; "supplier"; "supplier_name"; "account_name"; "legal_name"];
     description := "Supplier legal name."; example := Some "Acme Trucking LLC" |};
  {| field := "fein"; required := true; aliases := ["ein"; "tax_id"; "federal_id"];
     description := "Federal EIN, format XX-XXXXXXX."; example := Some "12-3456789" |};
  {| field := "state"; required := true; aliases := ["primary_state"];
     description := "2-letter US state code."; example := Some "CA" |};
  {| field := "email"; required := false; aliases := ["primary_email"; "contact_email"];
     description := "Primary email contact."; example := Some "ops@acme.example" |};
  {| field := "phone"; required := false; aliases := ["primary_phone"; "contact_phone"];
     description := "Primary phone (any format)."; example := Some "(555) 123-4567" |};
  {| field := "address_line1"; required := false; aliases := ["address1"; "street"; "street1"];
     description := "Street address line 1."; example := None |};
  {| field := "address_line2"; required := false; aliases := ["address2"; "street2"];
     description := "Street address line 2."; example := None |};
  {| field := "city"; required := false; aliases := ["town"];
     description := "City."; example := None |};
  {| field := "zip"; required := false; aliases := ["postal_code"; "zipcode"; "zip_code"];
     description := "ZIP / postal code."; example := None |};
  {| field := "naic_code"; required := false; aliases := ["naics"; "naics_code"; "naic"];
     description := "NAICS industry code."; example := None |};
  {| field := "gwp_band"; required := false; aliases := ["premium_band"; "size_band"];
     description := "Free-form GWP / premium tier band."; example := None |};
  {| field := "notes"; required := false; aliases := ["comments"; "memo"];
     description := "Free-form internal notes."; example := None |} ].

(** services/importers/supplier_importer.py, [_US_STATES]. *)
Definition _US_STATES : list string :=
  ["AL"; "AK"; "AZ"; "AR"; "CA"; "CO"; "CT"; "DE"; "FL"; "GA"; "HI"; "ID"; "IL"; "IN"; "IA"; "KS";
   "KY"; "LA"; "ME"; "MD"; "MA"; "MI"; "MN"; "MS"; "MO"; "MT"; "NE"; "NV"; "NH"; "NJ"; "NM"; "NY";
   "NC"; "ND"; "OH"; "OK"; "OR"; "PA"; "RI"; "SC"; "SD"; "TN"; "TX"; "UT"; "VT"; "VA"; "WA"; "WV";
   "WI"; "WY"; "DC"; "PR"; "GU"; "VI"; "AS"; "MP"].

(** services/importers/supplier_importer.py, [_FEIN_DIGITS]. *)
Definition _FEIN_DIGITS : re := RRep (fun c => negb (is_digit c)) 1 None.

(** services/importers/supplier_importer.py, [_FEIN_FMT]: two digits, a dash and
    seven digits, then the end of the text or of its last line. *)
Definition _FEIN_FMT : re :=
  RSeq (RRep is_digit 2 (Some 2%nat)) (RSeq (RClass (Ascii.eqb "-"))
    (RSeq (RRep is_digit 7 (Some 7%nat)) (RRep (fun c => ord c =? 10) 0 (Some 1%nat)))).

(** services/importers/supplier_importer.py, [normalize_fein]. *)
Definition normalize_fein (raw : string) : option string :=
  if negb (truthy raw) then None
  else let digits := sub _FEIN_DIGITS "" raw in
       if negb (slen digits =? 9) || negb (truthy digits && sall is_digit digits) then None
       else Some (stake 2 digits +:+ "-" +:+ sdrop 2 digits).

(** services/importers/supplier_importer.py, [_clean]. *)
Definition _clean (value : option string) : string :=
  match value with None => "" | Some v => strip v end.

(** The dict [data] of a validated row: its keys are fixed, an absent key is
    [None], an empty [address_json] or [_extras] is left out. *)
Record SupplierData : Type := {
  legal_name : string;
  ein : option string;
  primary_email : option string;
  primary_phone : option string;
  naics_code : option string;
  address_json : option (list (string * string));
  _extras : option (list (string * string));
}.

(** services/importers/base.py, [ValidatedRow]. *)
Record ValidatedRow : Type := {
  row_number : Z;
  data : option SupplierData;
  errors : list RowError;
  dedupe_key : option string;
}.

(** services/importers/base.py, [ValidatedRow.ok]. *)
Definition ok (vr : ValidatedRow) : bool := match errors vr with [] => true | _ => false end.

(** services/importers/supplier_importer.py, [SupplierImporter._pydantic_code]. *)
Definition _pydantic_code (col pyd_type : string) : string :=
  if String.eqb col "email" then "email_invalid"
  else if contains "max_length" pyd_type || contains "string_too_long" pyd_type
       then (if truthy col then col +:+ "_too_long" else "value_too_long")
  else (if truthy col then col +:+ "_invalid" else "value_invalid").

(** services/importers/supplier_importer.py:327-341, [SupplierImporter.validate_row]:
    the optional fields, in the order of the schema. *)
Definition optional_fields : list string :=
  ["email"; "phone"; "address_line1"; "address_line2"; "city"; "zip"; "naic_code"; "gwp_band"; "notes"].

(** services/importers/supplier_importer.py, [ImportSupplierRowSchema]: the
    [max_length] of a field. *)
Definition max_length (col : string) : Z :=
  default 0 (dget col [("phone", 64); ("address_line1", 255); ("address_line2", 255); ("city", 128);
                       ("zip", 32); ("naic_code", 16); ("gwp_band", 64); ("notes", 2000)]).

Section Validate.
(** [EmailStr]: the normalised address, or the message of the refusal. *)
Context (validate_email : string -> string + string).

(** services/importers/supplier_importer.py, [ImportSupplierRowSchema]: one
    field.  White space is stripped, then the address is checked or the length
    capped; a refusal is pydantic's error type and message. *)
Definition validate_optional (col raw : string) : string + (string * string) :=
  let v := strip raw in
  if String.eqb col "email" then match validate_email v with
                                 | inl a => inl a
                                 | inr msg => inr ("value_error", msg)
                                 end
  else if max_length col <? slen v
       then inr ("string_too_long",
                 "String should have at most " +:+ str_of_Z (max_length col) +:+ " characters")
       else inl v.

(** services/importers/supplier_importer.py:327-341, [SupplierImporter.validate_row]. *)
Definition optional_payload (row : list (string * string)) : list (string * string) :=
  omap (fun k => match dget k row with
                 | Some v => if truthy v then Some (k, v) else None
                 | None => None
                 end) optional_fields.

(** services/importers/supplier_importer.py:346-359, [SupplierImporter.validate_row]. *)
Definition optional_errors (n : Z) (row : list (string * string)) : list RowError :=
  omap (fun kv => match validate_optional kv.1 kv.2 with
                  | inl _ => None
                  | inr (typ, msg) =>
                      Some {| err_row_number := n; column := Some kv.1;
                              value := Some (stake 200 (default "" (dget kv.1 row)));
                              error_code := _pydantic_code kv.1 typ;
                              error_message := sor msg "Invalid value." |}
                  end) (optional_payload row).

(** services/importers/supplier_importer.py:342-345, [SupplierImporter.validate_row]. *)
Definition validated_optional (row : list (string * string)) : list (string * string) :=
  omap (fun kv => match validate_optional kv.1 kv.2 with
                  | inl v => Some (kv.1, v)
                  | inr _ => None
                  end) (optional_payload row).

Definition row_error (n : Z) (col v code msg : string) : RowError :=
  {| err_row_number := n; column := Some col; value := Some v; error_code := code; error_message := msg |}.

(** services/importers/supplier_importer.py:256-275, [SupplierImporter.validate_row]. *)
Definition name_errors (n : Z) (name : string) : list RowError :=
  if negb (truthy name) then [row_error n "name" name "name_required" "Supplier name is required."]
  else if 255 <? slen name
       then [row_error n "name" (stake 200 name) "name_too_long"
               "Supplier name must be 255 characters or fewer."]
       else [].

(** services/importers/supplier_importer.py:277-299, [SupplierImporter.validate_row]. *)
Definition fein_errors (n : Z) (raw_fein : string) : list RowError :=
  if negb (truthy raw_fein) then [row_error n "fein" raw_fein "fein_required" "FEIN is required."]
  else if match normalize_fein raw_fein with
          | None => true
          | Some f => negb (truthy f) || negb (fullmatch _FEIN_FMT f)
          end
       then [row_error n "fein" raw_fein "fein_format"
               "FEIN must be 9 digits, format XX-XXXXXXX (e.g. 12-3456789)."]
       else [].

(** services/importers/supplier_importer.py:301-324, [SupplierImporter.validate_row]. *)
Definition state_errors (n : Z) (raw_state : string) : list RowError :=
  if negb (truthy raw_state) then [row_error n "state" raw_state "state_required" "Primary state is required."]
  else if negb (slen (upper raw_state) =? 2) || negb (mem (upper raw_state) _US_STATES)
       then [row_error n "state" raw_state "state_invalid" "State must be a valid 2-letter US state code."]
       else [].

(** [if d.get(k): out[name] = d[k]] *)
Definition put_truthy (d : list (string * string)) (k name : string) (out : list (string * string))
  : list (string * string) :=
  match dget k d with Some v => if truthy v then dset name v out else out | None => out end.
Definition get_truthy (d : list (string * string)) (k : string) : option string :=
  match dget k d with Some v => if truthy v then Some v else None | None => None end.
Definition nonempty (d : list (string * string)) : option (list (string * string)) :=
  match d with [] => None | _ => Some d end.

(** services/importers/supplier_importer.py:375-385, [SupplierImporter.validate_row]. *)
Definition supplier_address (opt : list (string * string)) (state_norm : string) : list (string * string) :=
  put_truthy opt "zip" "postal_code"
    (dset "state" state_norm
       (put_truthy opt "city" "city"
          (put_truthy opt "address_line2" "line2" (put_truthy opt "address_line1" "line1" [])))).

(** services/importers/supplier_importer.py:364-397, [SupplierImporter.validate_row]. *)
Definition supplier_data (opt : list (string * string)) (name : string) (fein_norm : option string)
    (state_norm : string) : SupplierData :=
  {| legal_name := name; ein := fein_norm;
     primary_email := get_truthy opt "email";
     primary_phone := get_truthy opt "phone";
     naics_code := get_truthy opt "naic_code";
     address_json := nonempty (supplier_address opt state_norm);
     _extras := nonempty (put_truthy opt "notes" "notes" (put_truthy opt "gwp_band" "gwp_band" [])) |}.

(** services/importers/supplier_importer.py, [SupplierImporter.validate_row]. *)
Definition validate_row (row : list (string * string)) (n : Z) : ValidatedRow :=
  let name := _clean (dget "name" row) in
  let raw_fein := _clean (dget "fein" row) in
  let raw_state := _clean (dget "state" row) in
  match name_errors n name ++ fein_errors n raw_fein ++ state_errors n raw_state ++ optional_errors n row with
  | [] =>
      {| row_number := n;
         data := Some (supplier_data (validated_optional row) name (normalize_fein raw_fein) (upper raw_state));
         errors := []; dedupe_key := normalize_fein raw_fein |}
  | errs => {| row_number := n; data := None; errors := errs; dedupe_key := None |}
  end.
End Validate.

(** ** Database hooks *)

(** [X.in_(keys)] on a nullable column. *)
Definition opt_in (o : option string) (keys : list string) : bool :=
  match o with Some k => mem k keys | None => false end.

(** services/importers/supplier_importer.py, [SupplierImporter.existing_dedupe_keys]. *)
Definition existing_dedupe_keys (tenant_id : string) (keys : list string) (db : ImportDB) : list string :=
  match keys with
  | [] => []
  | _ => omap s_ein (List.filter (fun s => String.eqb (s_tenant_id s) tenant_id && opt_in (s_ein s) keys)
                       (suppliers db))
  end.

(** The [counts] of a batch. *)
Record counts : Type := { c_inserted : Z; c_updated : Z; c_skipped : Z; c_errors : Z }.
Definition no_counts : counts := {| c_inserted := 0; c_updated := 0; c_skipped := 0; c_errors := 0 |}.
Definition add_counts (a b : counts) : counts :=
  {| c_inserted := c_inserted a + c_inserted b; c_updated := c_updated a + c_updated b;
     c_skipped := c_skipped a + c_skipped b; c_errors := c_errors a + c_errors b |}.
Definition counts_total (c : counts) : Z := c_inserted c + c_updated c + c_skipped c + c_errors c.

Definition one_inserted : counts := {| c_inserted := 1; c_updated := 0; c_skipped := 0; c_errors := 0 |}.
Definition one_updated : counts := {| c_inserted := 0; c_updated := 1; c_skipped := 0; c_errors := 0 |}.
Definition one_skipped : counts := {| c_inserted := 0; c_updated := 0; c_skipped := 1; c_errors := 0 |}.
Definition one_error : counts := {| c_inserted := 0; c_updated := 0; c_skipped := 0; c_errors := 1 |}.

(** services/importers/supplier_importer.py:476-479, [SupplierImporter.insert_batch]:
    [setattr] for each key of the data. *)
Definition apply_data (d : SupplierData) (s : Supplier) : Supplier :=
  {| s_id := s_id s; s_tenant_id := s_tenant_id s; s_legal_name := legal_name d;
     s_dba_name := s_dba_name s; s_ein := ein d;
     s_naics_code := or_else (naics_code d) (s_naics_code s);
     s_primary_email := or_else (primary_email d) (s_primary_email s);
     s_primary_phone := or_else (primary_phone d) (s_primary_phone s);
     s_address_json := or_else (address_json d) (s_address_json s);
     s_website := s_website s |}.

(** [Supplier(tenant_id=tenant_id, **data)], with its default id. *)
Definition new_supplier (id tenant_id : string) (d : SupplierData) : Supplier :=
  {| s_id := id; s_tenant_id := tenant_id; s_legal_name := legal_name d; s_dba_name := None;
     s_ein := ein d; s_naics_code := naics_code d; s_primary_email := primary_email d;
     s_primary_phone := primary_phone d; s_address_json := address_json d; s_website := None |}.

Definition fits (n : Z) (o : option string) : bool :=
  match o with Some v => slen v <=? n | None => true end.

(** models/supplier.py, [Supplier]: what the [VARCHAR(n)] columns accept. *)
Definition columns_fit (d : SupplierData) : bool :=
  (slen (legal_name d) <=? 255) && fits 32 (ein d) && fits 16 (naics_code d)
  && fits 320 (primary_email d) && fits 32 (primary_phone d).

Definition string_truncation : exn :=
  Other "DBAPIError" "value too long for type character varying".

Section Insert.
(** [_uuid]: the [n]th identifier. *)
Context (uuid : nat -> string).
(** A failure of the connection while the rows are written. *)
Context (blip : list ValidatedRow -> option exn).

(** services/importers/supplier_importer.py:446-456, [SupplierImporter.insert_batch]:
    the prefetched rows, by EIN. *)
Definition prefetch (tenant_id : string) (existing : list string) (db : ImportDB) : list (string * string) :=
  fold_left (fun m s => match s_ein s with
                        | Some e => if truthy e then dset e (s_id s) m else m
                        | None => m
                        end)
    (List.filter (fun s => String.eqb (s_tenant_id s) tenant_id && opt_in (s_ein s) existing) (suppliers db))
    [].

(** services/importers/supplier_importer.py:466-475, [SupplierImporter.insert_batch]:
    the row to update; [scalar_one_or_none] refuses several rows. *)
Definition match_supplier (tenant_id key : string) (models : list (string * string))
  : M St exn (option string) :=
  match dget key models with
  | Some id => ret (Some id)
  | None =>
      let* found := db_query (fun db =>
        List.filter (fun s => String.eqb (s_tenant_id s) tenant_id
                              && match s_ein s with Some e => String.eqb e key | None => false end)
          (suppliers db)) in
      match found with
      | [] => ret None
      | [s] => ret (Some (s_id s))
      | _ => raise (Other "MultipleResultsFound" "Multiple rows were found when one or none was required")
      end
  end.

Definition update_supplier (id : string) (d : SupplierData) (db : ImportDB) : ImportDB :=
  set_suppliers (map (fun s => if String.eqb (s_id s) id then apply_data d s else s) (suppliers db)) db.
Definition add_supplier (tenant_id : string) (d : SupplierData) (db : ImportDB) : ImportDB :=
  bump_id (set_suppliers (suppliers db ++ [new_supplier (uuid (next_id db)) tenant_id d]) db).

(** services/importers/supplier_importer.py:458-490, [SupplierImporter.insert_batch]:
    one row of the batch, and whether it writes. *)
Definition insert_row (tenant_id : string) (existing : list string) (models : list (string * string))
    (on_duplicate : string) (row : ValidatedRow) : M St exn (counts * bool) :=
  match data row with
  | None => ret (one_error, false)
  | Some d =>
      let insert := db_write (add_supplier tenant_id d) ;;; ret (one_inserted, true) in
      match dedupe_key row with
      | None => insert
      | Some key =>
          if truthy key && mem key existing then
            let* matched := (if String.eqb on_duplicate "update" then match_supplier tenant_id key models
                             else ret None) in
            match matched with
            | Some id => db_write (update_supplier id d) ;;; ret (one_updated, true)
            | None => ret (if String.eqb on_duplicate "skip" then one_skipped else one_error, false)
            end
          else insert
      end
  end.

(** services/importers/supplier_importer.py:458-490, [SupplierImporter.insert_batch]:
    the loop, with the data waiting for the flush. *)
Fixpoint insert_rows (tenant_id : string) (existing : list string) (models : list (string * string))
    (on_duplicate : string) (rows : list ValidatedRow) : M St exn (counts * list SupplierData) :=
  match rows with
  | [] => ret (no_counts, [])
  | row :: rest =>
      let* cw := insert_row tenant_id existing models on_duplicate row in
      let* cs := insert_rows tenant_id existing models on_duplicate rest in
      ret (add_counts cw.1 cs.1,
           match data row with Some d => if cw.2 then d :: cs.2 else cs.2 | None => cs.2 end)
  end.

(** [await session.flush()]: the database takes the waiting rows or refuses. *)
Definition flush (rows : list ValidatedRow) (pending : list SupplierData) : M St exn unit :=
  raise_if (negb (forallb columns_fit pending)) string_truncation ;;;
  match blip rows with Some e => raise e | None => ret tt end.

(** services/importers/supplier_importer.py, [SupplierImporter.insert_batch]. *)
Definition insert_batch (tenant_id : string) (rows : list ValidatedRow) (on_duplicate : string)
  : M St exn counts :=
  match rows with
  | [] => ret no_counts
  | _ =>
      let keys := omap (fun r => match dedupe_key r with
                                 | Some k => if truthy k then Some k else None
                                 | None => None
                                 end) rows in
      let* existing := db_query (existing_dedupe_keys tenant_id keys) in
      let* models := db_query (fun db => match existing with
                                         | [] => []
                                         | _ => if String.eqb on_duplicate "update"
                                                then prefetch tenant_id existing db else []
                                         end) in
      let* res := insert_rows tenant_id existing models on_duplicate rows in
      flush rows res.2 ;;;
      ret res.1
  end.
End Insert.

(** ** FEINs *)

Lemma sub_FEIN_DIGITS raw : sub _FEIN_DIGITS "" raw = sfilter is_digit raw.
Proof.
  unfold _FEIN_DIGITS. rewrite sub_delete. induction raw as [|c r IH]; [done|]. cbn.
  by rewrite negb_involutive, IH.
Qed.

Lemma normalize_fein_spec raw f :
  normalize_fein raw = Some f <->
  slen (sfilter is_digit raw) = 9 /\
  f = stake 2 (sfilter is_digit raw) +:+ "-" +:+ sdrop 2 (sfilter is_digit raw).
Proof.
  unfold normalize_fein. destruct (truthy raw) eqn:Ht.
  - cbn [negb]. rewrite sub_FEIN_DIGITS, sall_sfilter, andb_true_r.
    destruct (Z.eqb_spec (slen (sfilter is_digit raw)) 9) as [Hl|Hl]; cbn [negb orb]; [|naive_solver].
    destruct (truthy (sfilter is_digit raw)) eqn:Hd; cbn [negb].
    + split; [intros H; injection H as <-; done|intros [_ ->]; done].
    + apply truthy_false in Hd. by rewrite Hd in Hl.
  - apply truthy_false in Ht. subst raw. cbn. split; [done|]. intros [H _]. done.
Qed.

(** A text of nine digits, character by character. *)
Lemma nine_digits d :
  slen d = 9 -> sall is_digit d = true ->
  exists a b c1 c2 c3 c4 c5 c6 c7,
    d = String a (String b (String c1 (String c2 (String c3 (String c4 (String c5 (String c6 (String c7 ""))))))))
    /\ Forall (fun c => is_digit c = true) [a; b; c1; c2; c3; c4; c5; c6; c7].
Proof.
  unfold slen. intros Hl Hd.
  do 9 (destruct d as [|? d]; [cbn in Hl; lia|]). destruct d; [|cbn in Hl; lia].
  cbn in Hd. repeat (apply andb_true_iff in Hd as [? Hd]). repeat eexists. by repeat constructor.
Qed.

Lemma FEIN_FMT_match d :
  slen d = 9 -> sall is_digit d = true -> fullmatch _FEIN_FMT (stake 2 d +:+ "-" +:+ sdrop 2 d) = true.
Proof.
  intros Hl Hd. destruct (nine_digits d Hl Hd) as (a & b & c1 & c2 & c3 & c4 & c5 & c6 & c7 & -> & Hall).
  repeat (apply Forall_cons in Hall as [? Hall]).
  unfold fullmatch, _FEIN_FMT.
  cbn [stake sdrop String.append re_match rep_match below Nat.ltb Nat.leb andb].
  repeat match goal with H : is_digit _ = true |- _ => rewrite H; clear H end. reflexivity.
Qed.

Lemma sfilter_append f s t : sfilter f (s +:+ t) = sfilter f s +:+ sfilter f t.
Proof. induction s as [|c s IH]; cbn; [done|]. destruct (f c); cbn; by rewrite IH. Qed.

Lemma digits_of_normal d :
  sall is_digit d = true -> sfilter is_digit (stake 2 d +:+ "-" +:+ sdrop 2 d) = d.
Proof.
  intros Hd. rewrite !sfilter_append.
  rewrite (sfilter_all is_digit (stake 2 d)), (sfilter_all is_digit (sdrop 2 d)) by eauto with pystr.
  apply stake_sdrop.
Qed.

(** FEIN normalisation: it succeeds exactly on texts with nine digits
    whatever else they hold, two texts share their normal form exactly when
    they share their digits, and a normal form matches the stored format
    [XX-XXXXXXX] (so the format check after it never fires) and is a fixed
    point. *)
Theorem normalize_fein_canonical raw :
  (is_someb (normalize_fein raw) = true <-> slen (sfilter is_digit raw) = 9) /\
  (forall f, normalize_fein raw = Some f ->
     slen f = 10 /\ fullmatch _FEIN_FMT f = true /\ normalize_fein f = Some f /\
     forall raw', normalize_fein raw' = Some f <-> sfilter is_digit raw' = sfilter is_digit raw).
Proof.
  split.
  - split; intros H.
    + destruct (normalize_fein raw) as [f|] eqn:Hf; [|done]. by apply normalize_fein_spec in Hf as [Hl _].
    + by rewrite (proj2 (normalize_fein_spec raw _) (conj H eq_refl)).
  - intros f Hf. apply normalize_fein_spec in Hf as [Hl Hf].
    pose proof (sall_sfilter is_digit raw) as Hd. remember (sfilter is_digit raw) as d eqn:Hraw.
    assert (Hff : sfilter is_digit f = d).
    { subst f. by apply digits_of_normal. }
    repeat split.
    + subst f. unfold slen in *. rewrite !length_append, length_stake, length_sdrop.
      change (String.length "-") with 1%nat. lia.
    + subst f. by apply FEIN_FMT_match.
    + apply normalize_fein_spec. by rewrite Hff.
    + intros H. apply normalize_fein_spec in H as [Hl' H].
      assert (Hd' : sfilter is_digit f = sfilter is_digit raw').
      { rewrite H. apply digits_of_normal, sall_sfilter. }
      congruence.
    + intros Hr. apply normalize_fein_spec. rewrite Hr. by split.
Qed.

(** The normal form of an Excel cell and of one with punctuation. *)
Example normalize_fein_ex : map normalize_fein ["123456789"; " 12-3456789"; "(12) 345.67 89"; "12345678"; ""] =
  [Some "12-3456789"; Some "12-3456789"; Some "12-3456789"; None; None].
Proof. reflexivity. Qed.

(** ** Row validation *)

Section DictLemmas.
Context {A : Type}.
Implicit Types d : list (string * A).

Lemma dget_dset_is_some k k' v d :
  is_Some (dget k' (dset k v d)) <-> k' = k \/ is_Some (dget k' d).
Proof.
  destruct (decide (k' = k)) as [->|Hne].
  - rewrite dget_dset. split; [by left|]. by eexists.
  - rewrite dget_dset_ne by congruence. naive_solver.
Qed.
End DictLemmas.

Lemma dget_put_truthy_ne d k name out k' :
  k' <> name -> dget k' (put_truthy d k name out) = dget k' out.
Proof.
  intros Hne. unfold put_truthy. destruct (dget k d) as [v|]; [|done].
  destruct (truthy v); [|done]. apply dget_dset_ne. congruence.
Qed.

Lemma name_errors_nil n name : name_errors n name = [] <-> name <> "" /\ slen name <= 255.
Proof.
  unfold name_errors. rewrite <- truthy_spec. destruct (truthy name); cbn; [|naive_solver].
  destruct (Z.ltb_spec 255 (slen name)); intuition (congruence || lia).
Qed.

Lemma fein_errors_nil n raw : fein_errors n raw = [] <-> exists f, normalize_fein raw = Some f.
Proof.
  unfold fein_errors. destruct (truthy raw) eqn:Ht; cbn.
  - destruct (normalize_fein raw) as [f|] eqn:Hf; [|naive_solver].
    apply normalize_fein_spec in Hf as [Hl Hf].
    assert (Hm : fullmatch _FEIN_FMT f = true) by (subst f; apply FEIN_FMT_match, sall_sfilter; done).
    assert (Htf : truthy f = true) by (apply truthy_spec; intros ->; by vm_compute in Hm).
    rewrite Hm, Htf. naive_solver.
  - unfold normalize_fein. rewrite Ht. cbn. naive_solver.
Qed.

Lemma US_STATES_length s : In s _US_STATES -> slen s = 2.
Proof.
  intros H. apply Z.eqb_eq. revert s H. apply List.Forall_forall. unfold _US_STATES. by repeat constructor.
Qed.

Lemma state_errors_nil n raw : state_errors n raw = [] <-> In (upper raw) _US_STATES.
Proof.
  unfold state_errors. destruct (truthy raw) eqn:Ht; cbn [negb].
  - destruct (mem (upper raw) _US_STATES) eqn:Hm.
    + apply mem_In in Hm. pose proof (US_STATES_length _ Hm) as Hl. by rewrite Hl.
    + rewrite orb_true_r. split; [done|]. intros H. apply mem_In in H. congruence.
  - apply truthy_false in Ht. subst raw. split; [done|]. intros H.
    by apply US_STATES_length in H.
Qed.

(** Every error of a row is numbered after it. *)
Local Abbreviation numbered n := (Forall (fun e => err_row_number e = n)).
Ltac split_ifs := repeat match goal with |- context [if ?b then _ else _] => destruct b end.

Lemma name_errors_number n v : numbered n (name_errors n v).
Proof. unfold name_errors. split_ifs; by repeat constructor. Qed.

Lemma fein_errors_number n v : numbered n (fein_errors n v).
Proof. unfold fein_errors. split_ifs; by repeat constructor. Qed.

Lemma state_errors_number n v : numbered n (state_errors n v).
Proof. unfold state_errors. split_ifs; by repeat constructor. Qed.

Lemma optional_errors_number ve n row : numbered n (optional_errors ve n row).
Proof.
  unfold optional_errors. induction (optional_payload row) as [|kv l IH]; [constructor|].
  cbn [omap list_omap]. destruct (validate_optional ve kv.1 kv.2) as [?|[? ?]]; [done|]. by constructor.
Qed.

Section ValidateLemmas.
Context (validate_email : string -> string + string).

Lemma optional_errors_nil n row :
  optional_errors validate_email n row = [] <->
  forall kv, In kv (optional_payload row) -> exists v, validate_optional validate_email kv.1 kv.2 = inl v.
Proof.
  unfold optional_errors. induction (optional_payload row) as [|kv l IH]; cbn; [naive_solver|].
  destruct (validate_optional validate_email kv.1 kv.2) as [v|[typ msg]] eqn:Hv.
  - rewrite IH. split; [intros H kv' [<-|Hin]; eauto|eauto].
  - split; [done|]. intros H. destruct (H kv (or_introl eq_refl)) as [v Hv']. congruence.
Qed.

Lemma validate_row_ok row n :
  ok (validate_row validate_email row n) = true <->
  name_errors n (_clean (dget "name" row)) = [] /\ fein_errors n (_clean (dget "fein" row)) = [] /\
  state_errors n (_clean (dget "state" row)) = [] /\ optional_errors validate_email n row = [].
Proof.
  unfold validate_row, ok. generalize (name_errors n (_clean (dget "name" row))) as a.
  generalize (fein_errors n (_clean (dget "fein" row))) as b.
  generalize (state_errors n (_clean (dget "state" row))) as c.
  generalize (optional_errors validate_email n row) as d. intros d c b a.
  destruct (a ++ b ++ c ++ d) as [|x l] eqn:Hall; cbn [errors].
  - by apply app_nil in Hall as [-> [-> [-> ->]%app_nil]%app_nil].
  - split; [done|]. intros (Ha & Hb & Hc & Hd). rewrite Ha, Hb, Hc, Hd in Hall. done.
Qed.

Lemma validate_row_accepted row n :
  ok (validate_row validate_email row n) = true ->
  exists f, normalize_fein (_clean (dget "fein" row)) = Some f /\
    validate_row validate_email row n =
      {| row_number := n;
         data := Some (supplier_data (validated_optional validate_email row) (_clean (dget "name" row)) (Some f)
                         (upper (_clean (dget "state" row))));
         errors := []; dedupe_key := Some f |}.
Proof.
  intros (Hn & Hf & Hs & Ho)%validate_row_ok. pose proof Hf as [f Hnf]%fein_errors_nil.
  exists f. split; [done|]. unfold validate_row. by rewrite Hn, Hf, Hs, Ho, Hnf.
Qed.

Lemma normalize_fein_truthy raw f : normalize_fein raw = Some f -> truthy f = true.
Proof.
  intros H. apply normalize_fein_spec in H as [_ ->]. apply truthy_spec.
  by destruct (stake 2 (sfilter is_digit raw)).
Qed.

(** An accepted row carries its normalised FEIN as the key of deduplication. *)
Lemma validate_row_key row n :
  ok (validate_row validate_email row n) = true ->
  exists d f, data (validate_row validate_email row n) = Some d /\ ein d = Some f /\
    dedupe_key (validate_row validate_email row n) = Some f /\ truthy f = true.
Proof.
  intros (f & Hf & ->)%validate_row_accepted. eexists _, f.
  repeat split; [..|by eapply normalize_fein_truthy].
Qed.

Lemma validate_row_number row n : row_number (validate_row validate_email row n) = n.
Proof. unfold validate_row. by destruct (_ ++ _). Qed.

Lemma supplier_address_state opt st : dget "state" (supplier_address opt st) = Some st.
Proof. unfold supplier_address. rewrite dget_put_truthy_ne by done. apply dget_dset. Qed.

Lemma nonempty_address opt st : nonempty (supplier_address opt st) = Some (supplier_address opt st).
Proof. pose proof (supplier_address_state opt st) as H. by destruct (supplier_address opt st). Qed.

(** Row validation accepts exactly the rows that have a name of 1 to 255
    characters, a FEIN of nine digits, a state of the list in either case and
    optional fields that the schema takes.  An accepted row carries its trimmed
    name, its normalised FEIN (also its deduplication key) and its upper-case
    state; a refused row carries no data and no key, and at least one error,
    all of them numbered after the row. *)
Theorem validate_row_accepts row n :
  let name := _clean (dget "name" row) in
  let fein := _clean (dget "fein" row) in
  let state := _clean (dget "state" row) in
  let vr := validate_row validate_email row n in
  (ok vr = true <->
     1 <= slen name <= 255 /\ slen (sfilter is_digit fein) = 9 /\ In (upper state) _US_STATES /\
     forall kv, In kv (optional_payload row) -> exists v, validate_optional validate_email kv.1 kv.2 = inl v) /\
  (ok vr = true -> exists d f addr,
     data vr = Some d /\ legal_name d = name /\ normalize_fein fein = Some f /\ ein d = Some f /\
     dedupe_key vr = Some f /\ address_json d = Some addr /\ dget "state" addr = Some (upper state)) /\
  (ok vr = false -> data vr = None /\ dedupe_key vr = None /\ errors vr <> [] /\
     Forall (fun e => err_row_number e = n) (errors vr)).
Proof.
  intros name fein state vr. split; [|split].
  - unfold vr. rewrite validate_row_ok, name_errors_nil, fein_errors_nil, state_errors_nil, optional_errors_nil.
    assert (Hn : (name <> "" /\ slen name <= 255) <-> 1 <= slen name <= 255).
    { unfold slen. destruct name; cbn; split; intros [? ?]; (congruence || split; try done; lia). }
    assert (Hf : (exists f, normalize_fein fein = Some f) <-> slen (sfilter is_digit fein) = 9).
    { split; [intros [f Hf]; by apply normalize_fein_spec in Hf as [? _]|].
      intros Hl. eexists. by apply normalize_fein_spec. }
    fold name fein state. rewrite Hn, Hf. tauto.
  - intros (f & Hf & Hvr)%validate_row_accepted. unfold vr. rewrite Hvr.
    eexists _, f, _. repeat split; [done|apply nonempty_address|apply supplier_address_state].
  - intros Hok. unfold ok, vr, validate_row in *.
    destruct (_ ++ _) as [|x l] eqn:Hall; cbn [errors data dedupe_key] in *; [done|].
    repeat split; [done|]. rewrite <- Hall.
    rewrite !Forall_app. split; [apply name_errors_number|]. split; [apply fein_errors_number|].
    split; [apply state_errors_number|apply optional_errors_number].
Qed.
End ValidateLemmas.

(** ** The batch insert *)

Definition of_tenant (tenant_id : string) (s : Supplier) : bool := String.eqb (s_tenant_id s) tenant_id.
(** The FEINs of a tenant's suppliers. *)
Definition tenant_eins (tenant_id : string) (l : list Supplier) : list string :=
  omap s_ein (List.filter (of_tenant tenant_id) l).
(** The suppliers of the other tenants. *)
Definition others_of (tenant_id : string) (l : list Supplier) : list Supplier :=
  List.filter (fun s => negb (of_tenant tenant_id s)) l.

Lemma tenant_eins_In tid e l :
  In e (tenant_eins tid l) <-> exists s, In s l /\ of_tenant tid s = true /\ s_ein s = Some e.
Proof.
  unfold tenant_eins. rewrite <- list_elem_of_In, list_elem_of_omap. setoid_rewrite list_elem_of_In.
  setoid_rewrite filter_In. naive_solver.
Qed.

Lemma tenant_eins_app tid l k : tenant_eins tid (l ++ k) = tenant_eins tid l ++ tenant_eins tid k.
Proof. unfold tenant_eins. by rewrite List.filter_app, omap_app. Qed.

Lemma existing_dedupe_keys_spec tid keys db e :
  In e (existing_dedupe_keys tid keys db) <-> In e keys /\ In e (tenant_eins tid (suppliers db)).
Proof.
  rewrite tenant_eins_In. unfold existing_dedupe_keys, of_tenant.
  assert (H : In e (omap s_ein (List.filter (fun s => String.eqb (s_tenant_id s) tid && opt_in (s_ein s) keys)
                       (suppliers db))) <->
              In e keys /\ exists s, In s (suppliers db) /\ String.eqb (s_tenant_id s) tid = true /\ s_ein s = Some e).
  { rewrite <- list_elem_of_In, list_elem_of_omap. setoid_rewrite list_elem_of_In. setoid_rewrite filter_In.
    setoid_rewrite andb_true_iff. split.
    - intros (s & (Hs & Ht & Hk) & He). rewrite He in Hk. apply mem_In in Hk. eauto 10.
    - intros (Hk & s & Hs & Ht & He). exists s. rewrite He. repeat split; try done. by apply mem_In. }
  destruct keys; [|done]. cbn in *. naive_solver.
Qed.

(** Primary keys: distinct, and all of them among the identifiers handed out. *)
Definition supplier_pks (uuid : nat -> string) (db : ImportDB) : Prop :=
  NoDup (map s_id (suppliers db)) /\
  forall s, In s (suppliers db) -> exists k, (k < next_id db)%nat /\ s_id s = uuid k.

Lemma pk_unique uuid db s t :
  supplier_pks uuid db -> In s (suppliers db) -> In t (suppliers db) -> s_id s = s_id t -> s = t.
Proof.
  intros [Hnd _]. induction (suppliers db) as [|x l IH]; [done|]. cbn in Hnd.
  apply NoDup_cons in Hnd as [Hx Hnd]. intros [->|Hs] [->|Ht] Heq; [done|..|by apply IH].
  - destruct Hx. rewrite Heq. apply list_elem_of_In, in_map, Ht.
  - destruct Hx. rewrite <- Heq. apply list_elem_of_In, in_map, Hs.
Qed.

Lemma add_supplier_pks uuid tid d db :
  Inj (=) (=) uuid -> supplier_pks uuid db -> supplier_pks uuid (add_supplier uuid tid d db).
Proof.
  intros Hinj [Hnd Hall]. split; cbn.
  - rewrite map_app. cbn. apply NoDup_app. split; [done|]. split; [|apply NoDup_singleton].
    intros x Hx Hnew. apply list_elem_of_singleton in Hnew. subst x.
    apply list_elem_of_In, in_map_iff in Hx as (s & Hs & Hin). destruct (Hall s Hin) as (k & Hk & He).
    rewrite He in Hs. apply Hinj in Hs. lia.
  - intros s [Hs|[<-|[]]]%in_app_or; [|exists (next_id db); split; [lia|done]].
    destruct (Hall s Hs) as (k & Hk & He). exists k. split; [lia|done].
Qed.

Lemma update_supplier_ids id d db :
  map s_id (suppliers (update_supplier id d db)) = map s_id (suppliers db).
Proof. cbn. rewrite map_map. apply map_ext. intros s. by destruct (String.eqb (s_id s) id). Qed.

Lemma update_supplier_pks uuid id d db :
  supplier_pks uuid db -> supplier_pks uuid (update_supplier id d db).
Proof.
  intros [Hnd Hall]. split; [by rewrite update_supplier_ids|]. cbn. intros s Hs.
  apply in_map_iff in Hs as (t & <- & Ht). destruct (Hall t Ht) as (k & Hk & He).
  exists k. by destruct (String.eqb (s_id t) id).
Qed.

(** The row [id] is a supplier of the tenant under that FEIN. *)
Definition owner (tid key id : string) (db : ImportDB) : Prop :=
  (exists s, In s (suppliers db) /\ s_id s = id) /\
  forall s, In s (suppliers db) -> s_id s = id -> of_tenant tid s = true /\ s_ein s = Some key.

Lemma owner_intro uuid tid key db s :
  supplier_pks uuid db -> In s (suppliers db) -> of_tenant tid s = true -> s_ein s = Some key ->
  owner tid key (s_id s) db.
Proof.
  intros Hpk Hs Ht He. split; [by exists s|]. intros t Hin Hid.
  by rewrite <- (pk_unique uuid db s t Hpk Hs Hin (eq_sym Hid)).
Qed.

Lemma owner_add uuid tid key id d db :
  Inj (=) (=) uuid -> supplier_pks uuid db -> owner tid key id db -> owner tid key id (add_supplier uuid tid d db).
Proof.
  intros Hinj [_ Hall] [(s & Hs & Hid) Ho]. split.
  - exists s. split; [by apply in_or_app; left|done].
  - cbn. intros t [Ht|[<-|[]]]%in_app_or Hid'; [by apply Ho|]. cbn in Hid'.
    destruct (Hall s Hs) as (k & Hk & He). rewrite <- Hid', He in Hid. apply Hinj in Hid. lia.
Qed.

Lemma owner_update tid key id d key' id' db :
  ein d = Some key -> owner tid key id db -> owner tid key' id' db -> owner tid key' id' (update_supplier id d db).
Proof.
  intros Hd [_ Ho] [(s & Hs & Hid) Ho']. split.
  - exists (if String.eqb (s_id s) id then apply_data d s else s). split.
    + by apply (in_map (fun s => if String.eqb (s_id s) id then apply_data d s else s)).
    + by destruct (String.eqb (s_id s) id).
  - cbn. intros t Ht Hid'. apply in_map_iff in Ht as (u & <- & Hu).
    destruct (String.eqb_spec (s_id u) id) as [He|]; [|by apply Ho'].
    cbn in Hid'. destruct (Ho' u Hu Hid') as [Hten Hk]. destruct (Ho u Hu He) as [_ Hk2].
    cbn. split; [done|]. congruence.
Qed.

Lemma update_supplier_eins tid key id d db :
  ein d = Some key -> owner tid key id db ->
  tenant_eins tid (suppliers (update_supplier id d db)) = tenant_eins tid (suppliers db).
Proof.
  intros Hd [_ Ho]. cbn. unfold tenant_eins. induction (suppliers db) as [|s l IH]; [done|]. cbn.
  assert (IH' := IH (fun s Hs => Ho s (or_intror Hs))). clear IH.
  destruct (String.eqb_spec (s_id s) id) as [He|].
  - destruct (Ho s (or_introl eq_refl) He) as [Ht Hk].
    assert (Ht' : of_tenant tid (apply_data d s) = true) by done. rewrite Ht, Ht'. cbn. rewrite Hd, Hk.
    by f_equal.
  - destruct (of_tenant tid s); cbn; [|done]. destruct (s_ein s); by rewrite IH'.
Qed.

Lemma update_supplier_others tid key id d db :
  owner tid key id db -> others_of tid (suppliers (update_supplier id d db)) = others_of tid (suppliers db).
Proof.
  intros [_ Ho]. cbn. unfold others_of. induction (suppliers db) as [|s l IH]; [done|]. cbn.
  assert (IH' := IH (fun s Hs => Ho s (or_intror Hs))). clear IH.
  destruct (String.eqb_spec (s_id s) id) as [He|].
  - destruct (Ho s (or_introl eq_refl) He) as [Ht _].
    assert (Ht' : of_tenant tid (apply_data d s) = true) by done. by rewrite Ht, Ht'.
  - destruct (of_tenant tid s); cbn; by rewrite IH'.
Qed.

Lemma add_supplier_eins uuid tid d key db :
  ein d = Some key ->
  tenant_eins tid (suppliers (add_supplier uuid tid d db)) = tenant_eins tid (suppliers db) ++ [key].
Proof.
  intros Hd. change (suppliers (add_supplier uuid tid d db))
    with (suppliers db ++ [new_supplier (uuid (next_id db)) tid d]).
  rewrite tenant_eins_app. f_equal. unfold tenant_eins, of_tenant. cbn.
  rewrite String.eqb_refl. cbn. by rewrite Hd.
Qed.

Lemma add_supplier_others uuid tid d db :
  others_of tid (suppliers (add_supplier uuid tid d db)) = others_of tid (suppliers db).
Proof.
  cbn. unfold others_of, of_tenant. rewrite List.filter_app. cbn. by rewrite String.eqb_refl, app_nil_r.
Qed.

(** A row as validation accepts it. *)
Definition good_row (r : ValidatedRow) (key : string) : Prop :=
  exists d, data r = Some d /\ ein d = Some key /\ dedupe_key r = Some key /\ truthy key = true.

(** The state after a write of the session. *)
Definition written (f : ImportDB -> ImportDB) (s : St) : St :=
  {| ses := Session (f (working (ses s))) (committed (ses s)); files := files s |}.

(** The tables of a tenant in order: primary keys and one supplier per FEIN. *)
Definition table_ok (uuid : nat -> string) (tid : string) (db : ImportDB) : Prop :=
  supplier_pks uuid db /\ NoDup (tenant_eins tid (suppliers db)).

(** What a batch may do: [n] more suppliers, no FEIN lost, and nothing else
    touched - no other tenant's row, no job, no recorded error. *)
Definition grown (tid : string) (n : Z) (db db' : ImportDB) : Prop :=
  others_of tid (suppliers db') = others_of tid (suppliers db) /\
  jobs db' = jobs db /\ row_errors db' = row_errors db /\
  Z.of_nat (length (suppliers db')) = Z.of_nat (length (suppliers db)) + n /\
  forall e, In e (tenant_eins tid (suppliers db)) -> In e (tenant_eins tid (suppliers db')).

Lemma grown_refl tid db : grown tid 0 db db.
Proof. repeat split; auto; lia. Qed.

Lemma grown_trans tid n m a b c : grown tid n a b -> grown tid m b c -> grown tid (n + m) a c.
Proof.
  intros (Ho & Hj & Hr & Hl & He) (Ho' & Hj' & Hr' & Hl' & He').
  repeat split; [congruence..|lia|auto].
Qed.

Lemma grown_add uuid tid d key db : ein d = Some key -> grown tid 1 db (add_supplier uuid tid d db).
Proof.
  intros Hd. split; [apply add_supplier_others|]. split; [done|]. split; [done|]. split.
  - cbn. rewrite length_app. cbn. lia.
  - intros e He. rewrite (add_supplier_eins _ _ _ key) by done. apply in_or_app. by left.
Qed.

Lemma grown_update tid d key id db :
  ein d = Some key -> owner tid key id db -> grown tid 0 db (update_supplier id d db).
Proof.
  intros Hd Ho. split; [by eapply update_supplier_others|]. split; [done|]. split; [done|]. split.
  - cbn. rewrite length_map. lia.
  - intros e He. by rewrite (update_supplier_eins _ key).
Qed.

Lemma owner_eins tid key id db : owner tid key id db -> In key (tenant_eins tid (suppliers db)).
Proof.
  intros [(s & Hs & Hid) Ho]. destruct (Ho s Hs Hid). apply tenant_eins_In. by exists s.
Qed.

Section InsertLemmas.
Context (uuid : nat -> string).
Context (tid : string).

Lemma prefetch_owner existing db k id :
  supplier_pks uuid db -> dget k (prefetch tid existing db) = Some id -> owner tid k id db.
Proof.
  intros Hpk. unfold prefetch. set (l := List.filter _ _).
  assert (Hl : forall s, In s l -> In s (suppliers db) /\ of_tenant tid s = true).
  { intros s Hs. apply filter_In in Hs as [Hs Hc]. by apply andb_true_iff in Hc as [? _]. }
  assert (H : forall m, (forall k id, dget k m = Some id -> owner tid k id db) ->
            dget k (fold_left (fun m s => match s_ein s with
                                          | Some e => if truthy e then dset e (s_id s) m else m
                                          | None => m
                                          end) l m) = Some id -> owner tid k id db).
  { induction l as [|s l IH]; cbn; intros m Hm Hk; [by apply Hm|].
    eapply IH; [intros t Ht; apply Hl; by right| |exact Hk].
    intros k' id' Hk'. destruct (s_ein s) as [e|] eqn:He; [|by apply Hm].
    destruct (truthy e); [|by apply Hm].
    destruct (decide (k' = e)) as [->|Hne].
    - rewrite dget_dset in Hk'. injection Hk' as <-. destruct (Hl s (or_introl eq_refl)).
      by eapply owner_intro.
    - rewrite dget_dset_ne in Hk' by congruence. by apply Hm. }
  by apply H.
Qed.

Lemma match_supplier_owner key models s o s' :
  supplier_pks uuid (working (ses s)) ->
  (forall k id, dget k models = Some id -> owner tid k id (working (ses s))) ->
  match_supplier tid key models s = (Ok o, s') ->
  s' = s /\ forall id, o = Some id -> owner tid key id (working (ses s)).
Proof.
  intros Hpk Hm. unfold match_supplier. destruct (dget key models) as [id|] eqn:Hk.
  - intros H. apply ret_Ok in H as [-> ->]. split; [done|]. intros id' [= <-]. by apply Hm.
  - intros H. unfold db_query in H. inv_run H.
    destruct (List.filter _ _) as [|t [|]] eqn:Hf; [| |done].
    + apply ret_Ok in H as [-> ->]. done.
    + apply ret_Ok in H as [-> ->]. split; [done|]. intros id [= <-].
      assert (Hin : In t [t]) by by left. rewrite <- Hf in Hin. apply filter_In in Hin as [Hin Hc].
      apply andb_true_iff in Hc as [Ht Hc]. destruct (s_ein t) as [e|] eqn:He; [|done].
      apply String.eqb_eq in Hc as ->. by eapply owner_intro.
Qed.

(** The three things that happen to a row. *)
Lemma insert_row_cases existing models od row key s c w s' :
  good_row row key -> supplier_pks uuid (working (ses s)) ->
  (forall k id, dget k models = Some id -> owner tid k id (working (ses s))) ->
  insert_row uuid tid existing models od row s = (Ok (c, w), s') ->
  (In key existing /\ s' = s /\ w = false /\ (c = one_skipped \/ c = one_error)) \/
  (exists d, data row = Some d /\ ein d = Some key /\ w = true /\
     (~ In key existing /\ c = one_inserted /\ s' = written (add_supplier uuid tid d) s \/
      exists id, In key existing /\ c = one_updated /\ owner tid key id (working (ses s)) /\
        s' = written (update_supplier id d) s)).
Proof.
  intros (d & Hd & He & Hk & Ht) Hpk Hm. unfold insert_row. rewrite Hd, Hk, Ht. cbn [andb].
  destruct (mem key existing) eqn:Hex.
  - apply mem_In in Hex. intros H. apply bind_Ok in H as (o & s1 & H1 & H).
    assert (Ho : s1 = s /\ forall id, o = Some id -> owner tid key id (working (ses s))).
    { destruct (String.eqb od "update"); [by eapply match_supplier_owner|].
      apply ret_Ok in H1 as [-> ->]. done. }
    destruct Ho as [-> Ho]. destruct o as [id|].
    + unfold db_write, modify, bind, ret in H. injection H as <- <- <-.
      right. exists d. repeat split; try done. right. exists id. split_and!; auto.
    + apply ret_Ok in H as [[= -> ->] ->]. left. repeat split; try done.
      destruct (String.eqb od "skip"); auto.
  - intros H. unfold db_write, modify, bind, ret in H. injection H as <- <- <-.
    right. exists d. repeat split; try done. left. repeat split; try done.
    intros Hin. apply mem_In in Hin. congruence.
Qed.
End InsertLemmas.

Section BatchLemmas.
Context (uuid : nat -> string).
Context (Huuid : Inj (=) (=) uuid).
Context (tid : string).

(** Between two rows of the loop: the tables are in order, the prefetched ids
    belong to the tenant, and every FEIN still to come that the table has was
    seen by the query before the loop. *)
Record loop_inv (existing : list string) (models : list (string * string)) (keys : list string)
    (db : ImportDB) : Prop := {
  inv_table : table_ok uuid tid db;
  inv_models : forall k id, dget k models = Some id -> owner tid k id db;
  inv_seen : forall k, In k keys -> In k (tenant_eins tid (suppliers db)) -> In k existing;
  inv_there : forall k, In k existing -> In k (tenant_eins tid (suppliers db));
}.

Lemma insert_row_effect existing models od row key keys s c w s' :
  good_row row key -> ~ In key keys -> loop_inv existing models (key :: keys) (working (ses s)) ->
  insert_row uuid tid existing models od row s = (Ok (c, w), s') ->
  counts_total c = 1 /\ committed (ses s') = committed (ses s) /\ files s' = files s /\
  loop_inv existing models keys (working (ses s')) /\
  grown tid (c_inserted c) (working (ses s)) (working (ses s')) /\
  In key (tenant_eins tid (suppliers (working (ses s')))).
Proof using Huuid.
  intros Hg Hfresh [Htab Hmod Hseen Hthere] Hrun. destruct Htab as [Hpk Hnd].
  destruct (insert_row_cases uuid tid existing models od row key s c w s' Hg Hpk Hmod Hrun)
    as [(Hin & -> & _ & Hc)|(d & _ & Hd & _ & [(Hnew & -> & ->)|(id & Hin & -> & Ho & ->)])].
  - assert (Hz : counts_total c = 1 /\ c_inserted c = 0) by (by destruct Hc as [->| ->]).
    destruct Hz as [Hz ->]. split_and!; try done; [|apply grown_refl|by apply Hthere].
    constructor; [by split|done| |done]. intros k Hk. apply Hseen. by right.
  - split_and!; try done; cbn [written ses working c_inserted one_inserted].
    + split.
      * split; [by apply add_supplier_pks|]. rewrite (add_supplier_eins _ _ _ key) by done.
        apply NoDup_app. split; [done|]. split; [|apply NoDup_singleton].
        intros e He Hk. apply list_elem_of_singleton in Hk as ->. apply list_elem_of_In in He.
        apply Hnew, Hseen; [by left|done].
      * intros k id Hk. by apply owner_add; auto.
      * intros k Hk. rewrite (add_supplier_eins _ _ _ key) by done. intros [Hin|[->|[]]]%in_app_or; [|done].
        apply Hseen; [by right|done].
      * intros k Hk. rewrite (add_supplier_eins _ _ _ key) by done. apply in_or_app. auto.
    + by eapply grown_add.
    + rewrite (add_supplier_eins _ _ _ key) by done. apply in_or_app. right. by left.
  - split_and!; try done; cbn [written ses working c_inserted one_updated].
    + split.
      * split; [by apply update_supplier_pks|]. by rewrite (update_supplier_eins _ key).
      * intros k id' Hk. eapply owner_update; eauto.
      * intros k Hk. rewrite (update_supplier_eins _ key) by done. apply Hseen. by right.
      * intros k Hk. rewrite (update_supplier_eins _ key) by done. auto.
    + by eapply grown_update.
    + rewrite (update_supplier_eins _ key) by done. by eapply owner_eins.
Qed.

Lemma insert_rows_effect existing models od rows keys s c pending s' :
  Forall2 good_row rows keys -> NoDup keys -> loop_inv existing models keys (working (ses s)) ->
  insert_rows uuid tid existing models od rows s = (Ok (c, pending), s') ->
  counts_total c = Z.of_nat (length rows) /\ committed (ses s') = committed (ses s) /\ files s' = files s /\
  table_ok uuid tid (working (ses s')) /\ grown tid (c_inserted c) (working (ses s)) (working (ses s')) /\
  forall k, In k keys -> In k (tenant_eins tid (suppliers (working (ses s')))).
Proof using Huuid.
  intros Hg. revert s c pending s'. induction Hg as [|row key rows keys Hrow Hrows IH]; intros s c pending s' Hnd Hinv H.
  - cbn in H. apply ret_Ok in H as [[= -> ->] ->]. destruct Hinv. split_and!; try done. apply grown_refl.
  - cbn [insert_rows] in H. apply bind_Ok in H as ([c1 w1] & s1 & H1 & H).
    apply bind_Ok in H as ([c2 p2] & s2 & H2 & H). apply ret_Ok in H as [[= -> _] ->].
    apply NoDup_cons in Hnd as [Hnew Hnd]. rewrite list_elem_of_In in Hnew.
    destruct (insert_row_effect _ _ _ _ _ _ _ _ _ _ Hrow Hnew Hinv H1) as (Ht1 & Hc1 & Hf1 & Hi1 & Hg1 & Hk1).
    destruct (IH _ _ _ _ Hnd Hi1 H2) as (Ht2 & Hc2 & Hf2 & Htab & Hg2 & Hk2).
    split_and!; [|congruence|congruence|done|by eapply grown_trans|].
    + unfold counts_total, add_counts in *. cbn [c_inserted c_updated c_skipped c_errors length fst snd]. lia.
    + intros k [<-|Hk]; [|by apply Hk2]. by apply Hg2.
Qed.

Lemma good_row_keys rows keys :
  Forall2 good_row rows keys ->
  omap (fun r => match dedupe_key r with
                 | Some k => if truthy k then Some k else None
                 | None => None
                 end) rows = keys.
Proof.
  induction 1 as [|r k rows keys (d & _ & _ & Hk & Ht) _ IH]; [done|]. cbn. by rewrite Hk, Ht, <- IH.
Qed.

Lemma insert_batch_effect blip rows keys od s c s' :
  Forall2 good_row rows keys -> NoDup keys -> table_ok uuid tid (working (ses s)) ->
  insert_batch uuid blip tid rows od s = (Ok c, s') ->
  counts_total c = Z.of_nat (length rows) /\ committed (ses s') = committed (ses s) /\ files s' = files s /\
  table_ok uuid tid (working (ses s')) /\ grown tid (c_inserted c) (working (ses s)) (working (ses s')) /\
  forall k, In k keys -> In k (tenant_eins tid (suppliers (working (ses s')))).
Proof using Huuid.
  intros Hg Hnd Htab H. unfold insert_batch in H. destruct rows as [|r rows'] eqn:Hrows.
  { apply ret_Ok in H as [-> ->]. inversion Hg; subst. split_and!; try done. apply grown_refl. }
  rewrite <- Hrows in *. rewrite (good_row_keys rows keys Hg) in H.
  unfold db_query in H. inv_run H.
  destruct a as [c2 p]. apply (insert_rows_effect _ _ od _ keys) in Hrun; [|done|done|].
  - cbn in *. unfold flush in Hrun0. inv_run Hrun0.
    destruct (blip _); [done|]. by apply ret_Ok in Hrun0 as [_ ->].
  - split.
    + done.
    + intros k id. destruct (existing_dedupe_keys _ _ _); [done|].
      destruct (String.eqb od "update"); [|done]. intros Hk. by eapply prefetch_owner; [apply Htab|].
    + intros k Hk Hin. by apply existing_dedupe_keys_spec.
    + intros k Hk. by apply existing_dedupe_keys_spec in Hk as [_ ?].
Qed.
End BatchLemmas.

(** ** What a batch keeps *)

Section BatchKeeps.
Context (uuid : nat -> string) (blip : list ValidatedRow -> option exn) (tid od : string).
Context (J : gmap string ImportJob) (C : ImportDB) (F : gmap string bytes).

(** The jobs, the committed tables and the files are these. *)
Definition keeping (s : St) : Prop :=
  jobs (working (ses s)) = J /\ committed (ses s) = C /\ files s = F.

Lemma db_query_keeping {A} (f : ImportDB -> A) : preserves keeping (db_query (E := exn) f).
Proof. apply preserves_reads. Qed.

Lemma db_write_keeping (f : ImportDB -> ImportDB) :
  (forall db, jobs (f db) = jobs db) -> preserves keeping (db_write (E := exn) f).
Proof. intros Hf. apply preserves_modify. intros s (HJ & HC & HF). split; [by cbn; rewrite Hf|done]. Qed.

Lemma match_supplier_keeping key models : preserves keeping (match_supplier tid key models).
Proof.
  unfold match_supplier. destruct (dget key models); [auto with preserve|].
  apply preserves_bind; [apply db_query_keeping|]. intros [|? [|]]; auto with preserve.
Qed.

Lemma insert_row_keeping existing models row : preserves keeping (insert_row uuid tid existing models od row).
Proof.
  unfold insert_row. destruct (data row) as [d|]; [|auto with preserve].
  assert (Hins : preserves keeping (db_write (E := exn) (add_supplier uuid tid d) ;;; ret (one_inserted, true))).
  { apply preserves_bind; [by apply db_write_keeping|auto with preserve]. }
  destruct (dedupe_key row) as [key|]; [|done]. destruct (truthy key && mem key existing); [|done].
  apply preserves_bind; [destruct (String.eqb od "update"); [apply match_supplier_keeping|auto with preserve]|].
  intros [id|]; [|auto with preserve]. apply preserves_bind; [by apply db_write_keeping|auto with preserve].
Qed.

Lemma insert_rows_keeping existing models rows : preserves keeping (insert_rows uuid tid existing models od rows).
Proof.
  induction rows as [|row rows IH]; cbn [insert_rows]; [auto with preserve|].
  apply preserves_bind; [apply insert_row_keeping|]. intros ?. apply preserves_bind; [done|auto with preserve].
Qed.

Lemma insert_batch_keeping rows : preserves keeping (insert_batch uuid blip tid rows od).
Proof.
  unfold insert_batch. destruct rows; [auto with preserve|].
  apply preserves_bind; [apply db_query_keeping|]. intros existing.
  apply preserves_bind; [apply db_query_keeping|]. intros models.
  apply preserves_bind; [apply insert_rows_keeping|]. intros res.
  apply preserves_bind; [|auto with preserve]. unfold flush.
  apply preserves_bind; [auto with preserve|]. intros _. destruct (blip _); auto with preserve.
Qed.
End BatchKeeps.

(** [n] rows counted once each. *)
Definition counts_ok (c : counts) (n : Z) : Prop :=
  counts_total c = n /\ 0 <= c_inserted c /\ 0 <= c_updated c /\ 0 <= c_skipped c /\ 0 <= c_errors c.

Lemma counts_ok_add a b n m : counts_ok a n -> counts_ok b m -> counts_ok (add_counts a b) (n + m).
Proof. unfold counts_ok, counts_total. cbn. lia. Qed.

Lemma insert_row_total uuid tid existing models od row s cw s' :
  insert_row uuid tid existing models od row s = (Ok cw, s') -> counts_ok cw.1 1.
Proof.
  unfold insert_row. intros H.
  cut (In cw.1 [one_inserted; one_updated; one_skipped; one_error]).
  { intros [<-|[<-|[<-|[<-|[]]]]]; unfold counts_ok, counts_total; cbn; lia. }
  destruct (data row) as [d|]; [|apply ret_Ok in H as [-> ->]; cbn; auto].
  destruct (dedupe_key row) as [key|]; [|inv_run H; subst; cbn; auto].
  destruct (truthy key && mem key existing); [|inv_run H; subst; cbn; auto].
  apply bind_Ok in H as (o & s1 & _ & H). destruct o; [inv_run H; subst; cbn; auto|].
  apply ret_Ok in H as [-> ->]. destruct (String.eqb od "skip"); cbn; auto.
Qed.

Lemma insert_rows_total uuid tid existing models od rows s r s' :
  insert_rows uuid tid existing models od rows s = (Ok r, s') -> counts_ok r.1 (Z.of_nat (length rows)).
Proof.
  revert s r s'. induction rows as [|row rows IH]; intros s r s' H; cbn [insert_rows] in H.
  - by apply ret_Ok in H as [-> ->].
  - apply bind_Ok in H as (cw & s1 & H1 & H). apply bind_Ok in H as (cs & s2 & H2 & H).
    apply ret_Ok in H as [-> ->]. apply insert_row_total in H1. apply IH in H2. cbn [fst length].
    rewrite Nat2Z.inj_succ, <- Z.add_1_l. by apply counts_ok_add.
Qed.

(** Every row of a batch that goes through is counted once. *)
Lemma insert_batch_total uuid blip tid rows od s c s' :
  insert_batch uuid blip tid rows od s = (Ok c, s') -> counts_ok c (Z.of_nat (length rows)).
Proof.
  unfold insert_batch. destruct rows as [|row0 rows0] eqn:Hr; [intros Hrun; by apply ret_Ok in Hrun as [-> ->]|].
  rewrite <- Hr. intros Hrun. apply bind_Ok in Hrun as (existing & s1 & _ & Hrun).
  apply bind_Ok in Hrun as (models & s2 & _ & Hrun). apply bind_Ok in Hrun as (res & s3 & Hrows & Hrun).
  apply bind_Ok in Hrun as (u & s4 & _ & Hrun). apply ret_Ok in Hrun as [-> ->]. by eapply insert_rows_total.
Qed.

(** ** Columns *)

Lemma remap_row_is_some columns row um t :
  is_Some (dget t (remap_row columns row um)) <->
  exists h v, In (h, v) row /\ target_of (alias_map columns) um h = Some t.
Proof.
  unfold remap_row. generalize (alias_map columns) as am. intros am.
  set (step := fun out kv => _).
  assert (H : forall out, is_Some (dget t (fold_left step row out)) <->
            is_Some (dget t out) \/ exists h v, In (h, v) row /\ target_of am um h = Some t).
  { induction row as [|[h v] row IH]; intros out; cbn; [naive_solver|]. rewrite IH. unfold step at 1.
    cbn. destruct (target_of am um h) as [t'|] eqn:Ht.
    - rewrite dget_dset_is_some. split.
      + intros [[->|Ho]|(h' & v' & Hin & Ht')]; [right; exists h, v; auto|auto|right; eauto].
      + intros [Ho|(h' & v' & [[= <- <-]|Hin] & Ht')]; [auto|left; left; congruence|eauto].
    - split; [naive_solver|].
      intros [Ho|(h' & v' & [[= <- <-]|Hin] & Ht')]; [auto|congruence|eauto]. }
  rewrite H. cbn. split; [intros [[? ?]|?]; [done|done]|auto].
Qed.

(** Header check: with the headers of a row, the columns reported missing
    are exactly the required columns the remapped row will lack - so a file that
    passes the check gives every row all its required fields, and a column is
    never reported when an alias or the operator's mapping supplies it. *)
Theorem missing_columns_exact columns row um f :
  In f (missing_required_columns columns (map fst row) um) <->
  exists c, In c columns /\ required c = true /\ field c = f /\ dget f (remap_row columns row um) = None.
Proof.
  unfold missing_required_columns. rewrite in_map_iff. setoid_rewrite filter_In. setoid_rewrite filter_In.
  assert (Hm : forall g, mem g (omap (target_of (alias_map columns) um) (map fst row)) = true <->
            is_Some (dget g (remap_row columns row um))).
  { intros g. rewrite remap_row_is_some, mem_In, <- list_elem_of_In, list_elem_of_omap.
    setoid_rewrite list_elem_of_In. setoid_rewrite in_map_iff. split.
    - intros (h & ([h' v] & <- & Hin) & Ht). eauto.
    - intros (h & v & Hin & Ht). exists h. split; [|done]. by exists (h, v). }
  split; intros (c & Hc).
  - destruct Hc as (<- & (Hin & Hr) & Hp). exists c. repeat split; try done.
    apply eq_None_not_Some. rewrite <- Hm. by apply negb_true_iff, not_true_iff_false in Hp.
  - destruct Hc as (Hin & Hr & <- & Hn). exists c. repeat split; try done.
    apply negb_true_iff, not_true_iff_false. rewrite Hm. by apply eq_None_not_Some.
Qed.

(** Every declared alias leads to its column. *)
Example alias_map_ex : forallb (fun c => forallb (fun a =>
    match dget (lower a) (alias_map _COLUMNS) with Some f => String.eqb f (field c) | None => false end)
    (field c :: aliases c)) _COLUMNS = true.
Proof. vm_compute. reflexivity. Qed.
