(* ===== verification/ImportFiles.v ===== *)
(** * Import files: parsers, stored names and reports

    services/parsers/__init__.py, csv_parser.py and xlsx_parser.py: format detection and
    the dicts made of the rows; services/import_service.py: the names under which uploads
    are stored and the CSV error report, with the reader of RFC 4180 records as its
    specification.  The [csv] reader on decoded text and the [openpyxl] workbook reader are
    arguments: they give the rows of cells, and the exception they stop with, if any. *)

From Stdlib Require Import Ascii SpecFloat.
From S2P Require Import Prelude PyStr Json Encoding Regex ImportModels SupplierImporter.

(** ** Paths *)

(** [PurePosixPath(p).parts] without the root: empty parts and dots drop out. *)
Definition path_parts (p : string) : list string :=
  List.filter (fun w => truthy w && negb (String.eqb w ".")) (split_char "/" p).

(** [Path(p).name] *)
Definition path_name (p : string) : string := List.last (path_parts p) "".

(** [name.rfind(".")], as the text before it and the text from it. *)
Fixpoint rfind_dot (s : string) : option (string * string) :=
  match s with
  | EmptyString => None
  | String c r =>
      match rfind_dot r with
      | Some (a, b) => Some (String c a, b)
      | None => if Ascii.eqb c "." then Some ("", s) else None
      end
  end.

(** [Path(p).suffix]: from the last dot of the name, which is neither its first
    nor its last character. *)
Definition path_suffix (p : string) : string :=
  match rfind_dot (path_name p) with
  | Some (a, b) => if truthy a && (1 <? slen b) then b else ""
  | None => ""
  end.

(** ** Formats *)

(** services/parsers/__init__.py, [ALLOWED_EXTENSIONS]. *)
Definition ALLOWED_EXTENSIONS : list string := [".csv"; ".xlsx"; ".xls"].

Inductive file_format : Type := FCsv | FXlsx.

(** services/parsers/__init__.py, [detect_format]; [repr] is Python's. *)
Definition detect_format (repr : option string -> string) (filename : string) (content_type : option string)
  : result exn file_format :=
  let ext := lower (path_suffix filename) in
  let unsupported := Raise (Other "ValueError" ("Unsupported import file type: " +:+ repr (Some filename)
                                                +:+ " (content_type=" +:+ repr content_type +:+ ")")) in
  if String.eqb ext ".csv" then Ok FCsv
  else if mem ext [".xlsx"; ".xls"] then Ok FXlsx
  else match content_type with
       | None => unsupported
       | Some c =>
           if negb (truthy c) then unsupported
           else let ct := lower c in
                if contains "csv" ct || String.eqb ct "text/plain" then Ok FCsv
                else if contains "sheet" ct || contains "excel" ct then Ok FXlsx
                else unsupported
       end.

(** ** Rows *)

(** services/parsers/csv_parser.py, [_normalize_header]; the byte-order mark is
    outside ASCII. *)
Definition _normalize_header (name : string) : string := lower (strip name).

(** The dict of one data row: unnamed columns drop out, a repeated header keeps
    its last cell. *)
Definition row_dict (headers cells : list string) : list (string * string) :=
  fold_left (fun out hc => if truthy hc.1 then dset hc.1 hc.2 out else out) (combine headers cells) [].

(** [raw + [""] * (width - len(raw))] *)
Definition pad_cells {A} (blank : A) (width : nat) (raw : list A) : list A :=
  raw ++ repeat blank (width - length raw).

Definition blank_cell (c : string) : bool := negb (truthy (strip c)).

(** services/parsers/csv_parser.py, [_iter_from_textio]: from the rows of
    [csv.reader]. *)
Definition _iter_from_textio (rows : list (list string)) : list (list (string * string)) :=
  match rows with
  | [] => []
  | header_row :: data_rows =>
      let headers := map _normalize_header header_row in
      let width := length headers in
      map (fun raw => row_dict headers (pad_cells "" width raw))
        (List.filter (fun raw => negb (forallb blank_cell raw)) data_rows)
  end.

(** What [openpyxl] gives for a cell; dates and times as their ISO text. *)
Inductive cell : Type :=
| CNone | CBool (b : bool) | CInt (z : Z) | CFloat (f : spec_float) | CTemporal (iso : string) | CStr (s : string).

Section Xlsx.
(** [repr] of a float, and [str] of a cell that is a header. *)
Context (repr_float : spec_float -> string) (str_cell : cell -> string).

(** [value.is_integer()] *)
Definition is_integer (f : spec_float) : bool :=
  match f with
  | S754_zero _ => true
  | S754_finite _ m e => (0 <=? e) || (Zpos m mod 2 ^ (- e) =? 0)
  | _ => false
  end.

(** services/parsers/xlsx_parser.py, [_stringify]. *)
Definition _stringify (v : cell) : string :=
  match v with
  | CNone => ""
  | CBool b => if b then "true" else "false"
  | CTemporal iso => iso
  | CFloat f => if is_integer f then str_of_Z (default 0 (int_of_float f)) else repr_float f
  | CInt z => str_of_Z z
  | CStr s => s
  end.

Definition blank_xlsx (c : cell) : bool :=
  match c with CNone => true | CStr s => negb (truthy (strip s)) | _ => false end.

(** services/parsers/xlsx_parser.py, [_normalize_header]. *)
Definition xlsx_header (c : cell) : string :=
  match c with CNone => "" | _ => lower (strip (str_cell c)) end.

(** services/parsers/xlsx_parser.py, [iter_xlsx_rows]: from the rows of the
    first sheet. *)
Definition iter_xlsx_rows (rows : list (list cell)) : list (list (string * string)) :=
  match rows with
  | [] => []
  | header_row :: data_rows =>
      let headers := map xlsx_header header_row in
      let width := length headers in
      map (fun raw => row_dict headers (map _stringify (pad_cells CNone width raw)))
        (List.filter (fun raw => negb (forallb blank_xlsx (pad_cells CNone width raw))) data_rows)
  end.
End Xlsx.

(** ** Every row has the header's keys *)

(** The distinct named headers, in order. *)
Definition add_header (acc : list string) (h : string) : list string :=
  if truthy h && negb (mem h acc) then acc ++ [h] else acc.
Definition header_keys (headers : list string) : list string := fold_left add_header headers [].

Lemma row_dict_keys headers cells :
  (length headers <= length cells)%nat -> map fst (row_dict headers cells) = header_keys headers.
Proof.
  unfold row_dict, header_keys. change (@nil string) with (map fst (@nil (string * string))).
  generalize (@nil (string * string)) as out. revert cells.
  induction headers as [|h headers IH]; intros [|c cells] out Hl; cbn in *; try done; [lia|].
  rewrite IH by lia. f_equal.
  unfold add_header. destruct (truthy h); cbn; [|done]. rewrite dset_keys.
  by destruct (mem h (map fst out)).
Qed.

Lemma pad_cells_length {A} (b : A) w raw : (w <= length (pad_cells b w raw))%nat.
Proof. unfold pad_cells. rewrite length_app, repeat_length. lia. Qed.

(** Uniform rows: every dict the CSV and XLSX readers yield, however short
    or long the line it came from, has as keys exactly the distinct non-empty
    headers of the first line, in their order; so the header check, which looks
    at the keys of the first data row only, stands for every row. *)
Theorem rows_share_headers repr_float str_cell csv_rows xlsx_rows r1 r2 :
  (In r1 (_iter_from_textio csv_rows) /\ In r2 (_iter_from_textio csv_rows) \/
   In r1 (iter_xlsx_rows repr_float str_cell xlsx_rows) /\ In r2 (iter_xlsx_rows repr_float str_cell xlsx_rows)) ->
  map fst r1 = map fst r2 /\ NoDup (map fst r1) /\ ~ In "" (map fst r1).
Proof.
  intros H.
  assert (Hk : exists headers, map fst r1 = header_keys headers /\ map fst r2 = header_keys headers).
  { destruct H as [[H1 H2]|[H1 H2]]; [destruct csv_rows as [|h rows]|destruct xlsx_rows as [|h rows]]; try done;
      cbn in H1, H2; apply in_map_iff in H1 as (raw1 & <- & _), H2 as (raw2 & <- & _);
      eexists; split; apply row_dict_keys; rewrite ?length_map; etransitivity; try apply pad_cells_length;
      by rewrite ?length_map. }
  destruct Hk as (headers & -> & ->). split; [done|].
  unfold header_keys. assert (Hinit : NoDup (@nil string) /\ ~ In "" (@nil string)) by (split; [constructor|auto]).
  revert Hinit. generalize (@nil string) as acc. clear. induction headers as [|h l IH]; intros acc Hacc; cbn; [done|].
  apply IH. unfold add_header. destruct (truthy h) eqn:Ht, (mem h acc) eqn:Hm; cbn; try done.
  destruct Hacc as [Hnd Hne]. split.
  - apply NoDup_app. split; [done|]. split; [|apply NoDup_singleton].
    intros x Hx Hx'. apply list_elem_of_singleton in Hx' as ->. apply list_elem_of_In, mem_In in Hx. congruence.
  - intros [Hin|[->|[]]]%in_app_or; [done|]. done.
Qed.

Definition csv_sample : list (list string) :=
  [["Name "; "FEIN"; ""; "name"]; ["Acme"; "12-3456789"; "x"; "Acme LLC"; "extra"]; []; ["  "; ""];
   ["Beta"]].

Example csv_sample_ex : _iter_from_textio csv_sample =
  [[("name", "Acme LLC"); ("fein", "12-3456789")]; [("name", ""); ("fein", "")]].
Proof. reflexivity. Qed.

Lemma rows_share_headers_witness :
  map fst [("name", "Acme LLC"); ("fein", "12-3456789")] = map fst [("name", ""); ("fein", "")] /\
  NoDup (map fst [("name", "Acme LLC"); ("fein", "12-3456789")]) /\
  ~ In "" (map fst [("name", "Acme LLC"); ("fein", "12-3456789")]).
Proof.
  apply (rows_share_headers (fun _ => "") (fun _ => "") csv_sample []
           [("name", "Acme LLC"); ("fein", "12-3456789")] [("name", ""); ("fein", "")]).
  left. rewrite csv_sample_ex. split; [by left|by right; left].
Defined.

(** ** Stored names and reports *)

(** ** Names on disk *)

(** The characters a stored name may have: [A-Za-z0-9._-]. *)
Definition safe_char (c : ascii) : bool :=
  is_alnum c || Ascii.eqb c "." || Ascii.eqb c "_" || Ascii.eqb c "-".

(** services/import_service.py, [_FILENAME_SAFE]. *)
Definition _FILENAME_SAFE : re := RRep (fun c => negb (safe_char c)) 1 None.

(** services/import_service.py, [sanitize_filename]. *)
Definition sanitize_filename (name : string) : string :=
  let raw := replace_char "\" "/" (sor name "upload") in
  let base := sor (path_name raw) "upload" in
  let cleaned := sub _FILENAME_SAFE "_" base in
  let cleaned := if negb (truthy cleaned) || sall (Ascii.eqb "_") cleaned || mem cleaned ["."; ".."]
                 then "upload" else cleaned in
  stake 200 cleaned.

(** [str(Path(p))] *)
Definition path_norm (p : string) : string :=
  if startswith "/" p then "/" +:+ join "/" (path_parts p)
  else match path_parts p with [] => "." | parts => join "/" parts end.
(** [a / b] of paths, for a relative [b]. *)
Definition path_div (a b : string) : string := path_norm (a +:+ "/" +:+ b).

(** services/import_service.py, [storage_dir_for]. *)
Definition storage_dir_for (import_storage_path tenant_id job_id : string) : string :=
  let root := path_norm import_storage_path in
  let safe_tenant := sor (sub _FILENAME_SAFE "_" tenant_id) "_" in
  let safe_job := sor (sub _FILENAME_SAFE "_" job_id) "_" in
  path_div (path_div root safe_tenant) safe_job.

(** ** The error report *)

Definition dquote : ascii := chr 34.
Definition cr : ascii := chr 13.
Definition lf : ascii := chr 10.
Definition crlf : string := String cr (String lf "").

(** [s.replace(q, q + q)] of the double quote [q]. *)
Definition double_quotes (s : string) : string := replace_char dquote (String dquote (String dquote "")) s.

Definition needs_quotes (c : ascii) : bool :=
  Ascii.eqb c "," || Ascii.eqb c dquote || Ascii.eqb c lf || Ascii.eqb c cr.

(** services/import_service.py:905-913, [_csv_row]: one cell. *)
Definition csv_cell (cell : string) : string :=
  let s := double_quotes cell in
  if sany needs_quotes s then String dquote (s +:+ String dquote "") else s.

(** services/import_service.py, [_csv_row]. *)
Definition _csv_row (cells : list string) : string := join "," (map csv_cell cells) +:+ crlf.

(** services/import_service.py:890-900, [stream_errors_csv]. *)
Definition error_cells (e : ImportRowError) : list string :=
  [str_of_Z (re_row_number e); default "" (re_column e); default "" (re_value e); re_code e; re_message e].

(** services/import_service.py, [stream_errors_csv]. *)
Definition stream_errors_csv (errors : list ImportRowError) : list string :=
  ("row_number,column,value,error_code,error_message" +:+ crlf) :: map (fun e => _csv_row (error_cells e)) errors.

(** ** RFC 4180 *)

(** Where the reader is in a record: at the start of a field or inside a bare
    one, inside a quoted field, after a quote there, after a carriage return. *)
Inductive csv_state : Type := Bare | Quoted | QuoteSeen | CrSeen.

(** The records of a text: [field] is the field being read, [fields]
    the fields of the record before it, [start] tells whether the
    field has no character yet. *)
Fixpoint csv_read (st : csv_state) (start : bool) (field : string) (fields : list string) (s : string)
  : option (list (list string)) :=
  match s with
  | EmptyString => match st, start, fields with
                   | Bare, true, [] => Some []
                   | _, _, _ => None
                   end
  | String c r =>
      match st with
      | Bare =>
          if Ascii.eqb c dquote then (if start then csv_read Quoted false field fields r else None)
          else if Ascii.eqb c "," then csv_read Bare true "" (fields ++ [field]) r
          else if Ascii.eqb c cr then csv_read CrSeen false field fields r
          else if Ascii.eqb c lf then None
          else csv_read Bare false (field +:+ String c "") fields r
      | Quoted =>
          if Ascii.eqb c dquote then csv_read QuoteSeen false field fields r
          else csv_read Quoted false (field +:+ String c "") fields r
      | QuoteSeen =>
          if Ascii.eqb c dquote then csv_read Quoted false (field +:+ String c "") fields r
          else if Ascii.eqb c "," then csv_read Bare true "" (fields ++ [field]) r
          else if Ascii.eqb c cr then csv_read CrSeen false field fields r
          else None
      | CrSeen =>
          if Ascii.eqb c lf then
            match csv_read Bare true "" [] r with
            | Some records => Some ((fields ++ [field]) :: records)
            | None => None
            end
          else None
      end
  end.
Definition csv_parse (s : string) : option (list (list string)) := csv_read Bare true "" [] s.

(** ** Stored names are safe *)

Lemma sub_class_all f g repl s :
  sall g repl = true -> (forall c, f c = false -> g c = true) -> sall g (sub (RRep f 1 None) repl s) = true.
Proof.
  intros Hr Hfg. unfold sub.
  cut (forall prev k, sall g (sub_from (RRep f 1 None) repl k prev s) = true); [done|].
  induction s as [|c s IH]; intros prev k; cbn [sub_from]; [done|].
  destruct k as [|k]; [|apply IH]. cbn [re_match rep_match below Nat.leb andb].
  destruct (f c) eqn:Hf.
  - rewrite rep_match_run by lia. cbn [or_else]. rewrite sall_append, Hr. apply IH.
  - cbn [or_else sall]. by rewrite Hfg, IH.
Qed.

Lemma safe_sub s : sall safe_char (sub _FILENAME_SAFE "_" s) = true.
Proof. apply sub_class_all; [done|]. intros c. apply negb_false_iff. Qed.

Lemma safe_no_slash s : sall safe_char s = true -> contains_char "/" s = false.
Proof.
  intros H. apply sany_false_sall. revert H. apply sall_impl. intros c Hc.
  destruct (Ascii.eqb_spec "/" c) as [<-|]; done.
Qed.

(** Upload names: whatever the client sends, the stored name has 1 to 200
    characters, all of them letters, digits, dots, dashes or underscores (so no
    path separator of either kind), and it is neither "." nor "..". *)
Theorem sanitize_filename_safe name :
  let n := sanitize_filename name in
  1 <= slen n <= 200 /\ sall safe_char n = true /\ contains_char "/" n = false /\
  contains_char "\" n = false /\ n <> "." /\ n <> "..".
Proof.
  cbv zeta. unfold sanitize_filename.
  set (cleaned := sub _ _ _). set (fixed := if _ : bool then _ else _).
  assert (Hf : fixed <> "" /\ fixed <> "." /\ fixed <> ".." /\ sall safe_char fixed = true).
  { unfold fixed. destruct (truthy cleaned) eqn:Ht; [|done].
    destruct (sall (Ascii.eqb "_") cleaned); [done|]. destruct (mem cleaned ["."; ".."]) eqn:Hm; [done|].
    cbn [negb orb]. apply truthy_spec in Ht. split; [done|]. unfold mem in Hm. cbn in Hm.
    rewrite !orb_false_iff, !String.eqb_neq in Hm. destruct Hm as (? & ? & _).
    repeat split; [done..|apply safe_sub]. }
  destruct Hf as (Hne & Hd & Hdd & Hs). clearbody fixed. clear cleaned.
  pose proof (sall_stake _ 200 _ Hs) as Hs'.
  assert (Hshort : forall t, slen t < 200 -> stake 200 fixed = t -> fixed = t).
  { intros t Ht <-. symmetry. apply stake_all. unfold slen in Ht. rewrite length_stake in Ht. lia. }
  split; [|split; [done|split; [by apply safe_no_slash|split; [|split]]]].
  - unfold slen. rewrite length_stake. destruct fixed; [done|]. cbn [String.length]. lia.
  - apply sany_false_sall. revert Hs'. apply sall_impl. intros c Hc. by destruct (Ascii.eqb_spec "\" c) as [<-|].
  - intros H. apply Hshort in H; [done|]. by vm_compute.
  - intros H. apply Hshort in H; [done|]. by vm_compute.
Qed.

Example sanitize_filename_ex :
  map sanitize_filename ["../../etc/passwd"; "C:\tmp\a b.csv"; ".."; "/"; ""; "___"] =
  ["passwd"; "a_b.csv"; "upload"; "upload"; "upload"; "upload"].
Proof. reflexivity. Qed.

(** ** The report reads back *)


Definition quotable (c : ascii) : bool := negb (needs_quotes c).

Lemma read_bare s field fields start r :
  sall quotable s = true -> s <> "" ->
  csv_read Bare start field fields (s +:+ r) = csv_read Bare false (field +:+ s) fields r.
Proof.
  revert start field. induction s as [|c s IH]; intros start field Hs Hne; [done|].
  cbn in Hs. apply andb_true_iff in Hs as [Hc Hs]. unfold quotable, needs_quotes in Hc.
  apply negb_true_iff in Hc. rewrite !orb_false_iff in Hc. destruct Hc as (((H1 & H2) & H3) & H4).
  cbn [String.append csv_read]. rewrite H1, H2, H3, H4.
  destruct s as [|d s]; [done|]. rewrite IH by done. by rewrite append_assoc.
Qed.

(** Inside quotes the doubled text reads back as the text. *)
Lemma read_quoted s field fields r :
  csv_read Quoted false field fields (double_quotes s +:+ r) = csv_read Quoted false (field +:+ s) fields r.
Proof.
  unfold double_quotes. revert field. induction s as [|c s IH]; intros field; [by rewrite append_nil_r|].
  cbn [replace_char]. destruct (Ascii.eqb_spec dquote c) as [<-|Hne].
  - cbn [String.append csv_read]. rewrite Ascii.eqb_refl, IH, append_assoc. done.
  - cbn [String.append csv_read]. destruct (Ascii.eqb_spec c dquote); [congruence|].
    rewrite IH, append_assoc. done.
Qed.

Lemma double_quotes_id s : sany needs_quotes (double_quotes s) = false -> double_quotes s = s.
Proof.
  unfold double_quotes. induction s as [|c s IH]; [done|]. cbn [replace_char].
  destruct (Ascii.eqb_spec dquote c) as [<-|]; [done|]. cbn. intros H. apply orb_false_iff in H as [_ H].
  by rewrite IH.
Qed.

(** A cell, whatever follows it. *)
Lemma read_cell cell fields r :
  (exists c r', r = String c r' /\ (c = ","%char \/ c = cr)) ->
  csv_read Bare true "" fields (csv_cell cell +:+ r) = csv_read Bare false cell fields r.
Proof.
  intros (c & r' & -> & Hc). unfold csv_cell. destruct (sany needs_quotes (double_quotes cell)) eqn:Hq.
  - cbn [String.append csv_read]. rewrite Ascii.eqb_refl, append_assoc, read_quoted. cbn.
    by destruct Hc as [->| ->].
  - pose proof (double_quotes_id _ Hq) as Hid. rewrite Hid in *. destruct (decide (cell = "")) as [->|Hne].
    + cbn. by destruct Hc as [->| ->].
    + apply read_bare; [by apply sany_false_sall|done].
Qed.

Lemma read_row cell cells fields text :
  csv_read Bare true "" fields (join "," (map csv_cell (cell :: cells)) +:+ crlf +:+ text) =
  match csv_parse text with
  | Some records => Some ((fields ++ cell :: cells) :: records)
  | None => None
  end.
Proof.
  revert cell fields. induction cells as [|cell' cells IH]; intros cell fields.
  - cbn [map join]. rewrite read_cell by (eexists _, _; split; [reflexivity|by right]). done.
  - change (join "," (map csv_cell (cell :: cell' :: cells)))
      with (csv_cell cell +:+ "," +:+ join "," (map csv_cell (cell' :: cells))).
    rewrite !append_assoc, read_cell by (eexists _, _; split; [reflexivity|by left]).
    cbn [String.append csv_read]. change (csv_read Bare true "" (fields ++ [cell]) ?x)
      with (csv_read Bare true "" (fields ++ [cell]) x). rewrite IH. by rewrite <- app_assoc.
Qed.

Lemma parse_row cells text :
  cells <> [] ->
  csv_parse (_csv_row cells +:+ text) =
  match csv_parse text with Some records => Some (cells :: records) | None => None end.
Proof.
  destruct cells as [|cell cells]; [done|]. intros _. unfold _csv_row at 1, csv_parse at 1.
  by rewrite append_assoc, read_row.
Qed.

Definition report_header : list string := ["row_number"; "column"; "value"; "error_code"; "error_message"].

(** Error report: read as RFC 4180 records, the downloaded text is the
    header and then, for each error in order, its row number, column, value,
    code and message - whatever commas, quotes and line breaks the cells of the
    uploaded file put there. *)
Theorem errors_csv_roundtrip errors :
  csv_parse (join "" (stream_errors_csv errors)) = Some (report_header :: map error_cells errors).
Proof.
  assert (Hjoin : forall w ws, join "" (w :: ws) = w +:+ join "" ws).
  { intros w [|w' ws]; [cbn; by rewrite append_nil_r|done]. }
  assert (Hrows : csv_parse (join "" (map (fun e => _csv_row (error_cells e)) errors)) = Some (map error_cells errors)).
  { induction errors as [|e errors IH]; [done|]. cbn [map]. by rewrite Hjoin, parse_row, IH. }
  unfold stream_errors_csv. rewrite Hjoin.
  change ("row_number,column,value,error_code,error_message" +:+ crlf) with (_csv_row report_header).
  by rewrite parse_row, Hrows.
Qed.
