(* ===== verification/Imports.v ===== *)
(** * Import jobs

    services/import_service.py: the job state machine, the dry run and the
    chunked commit.

    The commit opens one session per transaction; between them [others k] is
    what other sessions commit before its [k]th session starts.  Each clock
    reading is an argument of the operation that makes it. *)

From Stdlib Require Import Ascii.
From S2P Require Import Prelude PyStr Json Encoding ImportModels SupplierImporter AvScanner ImportFiles.

(** The settings the service reads. *)
Record ImportSettings : Type := {
  import_max_file_size_bytes : Z;
  import_max_rows : Z;
  import_chunk_size : Z;
  import_storage_path : string;
  av_fail_closed_on_scanner_error : bool;
}.

(** services/import_service.py, [_ALLOWED_TRANSITIONS]. *)
Definition _ALLOWED_TRANSITIONS (st : ImportStatus) : list ImportStatus :=
  match st with
  | PENDING => [VALIDATING; CANCELED; FAILED]
  | VALIDATING => [DRY_RUN_READY; FAILED; CANCELED]
  | DRY_RUN_READY => [IMPORTING; CANCELED; FAILED]
  | IMPORTING => [COMPLETED; FAILED; CANCELED]
  | COMPLETED | FAILED | CANCELED => []
  end.

Section Imports.
Context (cfg : ImportSettings).
(** [_uuid], the character U+2026, [repr] and [str] of other values, [json.loads]. *)
Context (uuid : nat -> string) (ellipsis : ascii) (repr : option string -> string)
  (repr_other : json -> string) (json_loads : string -> option json).
(** The libraries that check addresses, read CSV text and workbooks. *)
Context (validate_email : string -> string + string)
  (csv_cells : bytes -> list (list string) * option exn)
  (xlsx_cells : bytes -> list (list cell) * option exn)
  (repr_float : SpecFloat.spec_float -> string) (str_cell : cell -> string).
(** The gate of services/av_scanner.py with the configured back end. *)
Context (scan : bool -> bytes -> result av_error ScanReport).
(** A failure of the connection in the middle of a batch. *)
Context (blip : list ValidatedRow -> option exn).

(** services/parsers/__init__.py, [iter_rows]: the rows it yields and the
    exception it ends with, if any. *)
Definition iter_rows (fs : gmap string bytes) (path filename : string)
  : list (list (string * string)) * option exn :=
  match detect_format repr filename None with
  | Raise e => ([], Some e)
  | Ok fmt =>
      match fs !! path with
      | None => ([], Some (Other "FileNotFoundError" ("No such file or directory: " +:+ path)))
      | Some content =>
          match fmt with
          | FCsv => let '(rows, e) := csv_cells content in (_iter_from_textio rows, e)
          | FXlsx => let '(rows, e) := xlsx_cells content in (iter_xlsx_rows repr_float str_cell rows, e)
          end
      end
  end.

Definition put_job (job : ImportJob) : M St exn ImportJob :=
  db_write (fun db => set_jobs (<[job_pk job := job]> (jobs db)) db) ;;; ret job.

(** ** Creation *)

(** services/import_service.py:211-222, [create_import_job]. *)
Definition pending_job (id tenant_id : string) (entity : ImportEntityType) (name : string) (size : Z)
    (ctype : option string) (mapping0 : json) (on_dup : string) (user : option string) (now : Z) : ImportJob :=
  {| job_pk := id; job_tenant_id := tenant_id; entity_type := entity; job_status := PENDING; file_url := "";
     original_filename := name; file_size_bytes := size; content_type := ctype; total_rows := 0;
     valid_rows := 0; invalid_rows := 0; imported_rows := 0;
     mapping := if jtruthy mapping0 then mapping0 else JNull; on_duplicate := on_dup; summary := None;
     job_last_error := None; created_by_user_id := user; job_created_at := now; job_started_at := None;
     job_completed_at := None |}.

(** services/import_service.py, [create_import_job]. *)
Definition create_import_job (tenant_id : string) (entity : ImportEntityType) (filename : string)
    (ctype : option string) (file_bytes : bytes) (mapping0 : json) (on_dup : string)
    (user : option string) (now : Z) : M St exn ImportJob :=
  let safe_name := sanitize_filename filename in
  let ext := lower (path_suffix safe_name) in
  raise_if (negb (mem ext ALLOWED_EXTENSIONS))
    (UnsupportedFormatError ("Extension " +:+ repr (Some ext) +:+ " not allowed (csv, xlsx, xls only).")) ;;;
  let size := slen file_bytes in
  raise_if (import_max_file_size_bytes cfg <? size)
    (FileTooLargeError ("File size " +:+ str_of_Z size +:+ " exceeds limit "
                        +:+ str_of_Z (import_max_file_size_bytes cfg) +:+ ".")) ;;;
  match detect_format repr safe_name ctype with Raise e => raise e | Ok _ => ret tt end ;;;
  let* id := db_query (fun db => uuid (next_id db)) in
  let* job := put_job (pending_job id tenant_id entity safe_name size ctype mapping0 on_dup user now) in
  db_write bump_id ;;;
  let target_path := path_div (storage_dir_for (import_storage_path cfg) tenant_id id) safe_name in
  let delete_job := db_write (fun db => set_jobs (delete id (jobs db)) db) in
  match scan (av_fail_closed_on_scanner_error cfg) file_bytes with
  | Raise (InfectedFileError sig sc _) => delete_job ;;; raise (InfectedUploadError sig sc)
  | Raise (ScannerError d sc) => delete_job ;;; raise (ScannerUnavailableError sc d)
  | Ok _ =>
      modify (fun s => {| ses := ses s; files := <[target_path := file_bytes]> (files s) |}) ;;;
      put_job (with_file_url target_path job)
  end.

(** ** Reads *)

(** services/import_service.py, [list_jobs]. *)
Definition list_jobs (tenant_id : string) (limit offset : Z) : M St exn (list ImportJob * Z) :=
  db_query (fun db =>
    let rows := List.filter (fun j => String.eqb (job_tenant_id j) tenant_id) (map snd (map_to_list (jobs db))) in
    (take (Z.to_nat (Z.max 1 (Z.min limit 200)))
       (drop (Z.to_nat (Z.max 0 offset)) (sort_by (fun j => - job_created_at j) rows)),
     Z.of_nat (length rows))).

Definition job_of (tenant_id job_id : string) (db : ImportDB) : option ImportJob :=
  match jobs db !! job_id with
  | Some j => if String.eqb (job_tenant_id j) tenant_id then Some j else None
  | None => None
  end.

(** services/import_service.py, [get_job]. *)
Definition get_job (tenant_id job_id : string) : M St exn ImportJob :=
  let* job := db_query (job_of tenant_id job_id) in
  or_raise job (JobNotFoundError ("Import job " +:+ repr (Some job_id) +:+ " not found.")).

(** The row errors of a job of the tenant: an inner join. *)
Definition errors_of (tenant_id job_id : string) (db : ImportDB) : list ImportRowError :=
  match job_of tenant_id job_id db with
  | Some _ => List.filter (fun e => String.eqb (import_job_id e) job_id) (row_errors db)
  | None => []
  end.

(** [ORDER BY row_number ASC, id ASC] *)
Definition error_le (x y : ImportRowError) : bool :=
  (re_row_number x <? re_row_number y)
  || ((re_row_number x =? re_row_number y) && String.leb (re_id x) (re_id y)).

(** services/import_service.py, [get_job_errors]. *)
Definition get_job_errors (tenant_id job_id : string) (limit : option Z) (offset : Z)
  : M St exn (list ImportRowError) :=
  raise_if (negb (truthy tenant_id)) (JobNotFoundError "tenant_id is required") ;;;
  let* rows := db_query (errors_of tenant_id job_id) in
  let rows := drop (Z.to_nat (Z.max 0 offset)) (isort error_le rows) in
  ret (match limit with Some l => take (Z.to_nat (Z.max 1 l)) rows | None => rows end).

(** services/import_service.py, [count_job_errors]. *)
Definition count_job_errors (tenant_id job_id : string) : M St exn Z :=
  raise_if (negb (truthy tenant_id)) (JobNotFoundError "tenant_id is required") ;;;
  db_query (fun db => Z.of_nat (length (errors_of tenant_id job_id db))).

(** ** State machine *)

(** services/import_service.py, [_assert_can_transition]. *)
Definition _assert_can_transition (job : ImportJob) (target : ImportStatus) : M St exn unit :=
  raise_if (negb (bool_decide (job_status job = target))
            && negb (status_in target (_ALLOWED_TRANSITIONS (job_status job))))
    (InvalidTransitionError ("Cannot transition import " +:+ job_pk job +:+ " from "
       +:+ import_status_value (job_status job) +:+ " to " +:+ import_status_value target +:+ ".")).

(** services/import_service.py, [_set_status]: the assignments. *)
Definition moved (job : ImportJob) (target : ImportStatus) (last_error : option string) (now : Z) : ImportJob :=
  let started := if bool_decide (target = VALIDATING) && negb (is_someb (job_started_at job))
                 then Some now else job_started_at job in
  let completed := if status_in target TERMINAL_STATUSES then Some now else job_completed_at job in
  let err := match last_error with Some e => Some (stake 2000 e) | None => job_last_error job end in
  with_last_error err (with_times started completed (with_status target job)).

(** services/import_service.py, [_set_status]. *)
Definition _set_status (job : ImportJob) (target : ImportStatus) (last_error : option string) (now : Z)
  : M St exn ImportJob :=
  _assert_can_transition job target ;;;
  put_job (moved job target last_error now).

(** services/importers/__init__.py, [get_importer]: suppliers are the only
    registered entity. *)
Definition get_importer (entity : ImportEntityType) : M St exn (list ColumnSpec) :=
  match entity with
  | SUPPLIER => ret _COLUMNS
  | _ => raise (Other "ValueError" ("No importer registered for " +:+ repr (Some (entity_value entity))))
  end.

(** services/import_service.py, [_normalize_mapping]. *)
Definition _normalize_mapping (m : json) : option (list (string * string)) :=
  let norm v := lower (strip (py_str repr_other v)) in
  let decoded := match m with
                 | JStr t => if truthy t then json_loads t else None
                 | _ => if jtruthy m then Some m else None
                 end in
  match decoded with
  | Some (JObj kvs) => Some (fold_left (fun out kv => dset (norm (JStr kv.1)) (norm kv.2) out) kvs [])
  | _ => None
  end.

(** ** Dry run *)

(** [session.add(ImportRowError(...))] *)
Definition add_row_error (job_id : string) (n : Z) (col v : option string) (code msg : string) : M St exn unit :=
  db_write (fun db => bump_id (set_row_errors (row_errors db ++
    [{| re_id := uuid (next_id db); import_job_id := job_id; re_row_number := n; re_column := col;
        re_value := v; re_code := code; re_message := msg |}]) db)).

(** services/import_service.py:760-766, [_scan_and_persist_errors]: the
    counters; the two counts of persisted errors are always equal. *)
Record scan_state : Type := {
  sc_total : Z; sc_valid : Z; sc_invalid : Z; sc_persisted : Z;
  sc_keys : list string; sc_row_number : Z;
}.
Definition scan_start : scan_state :=
  {| sc_total := 0; sc_valid := 0; sc_invalid := 0; sc_persisted := 0; sc_keys := []; sc_row_number := 1 |}.

(** services/import_service.py:775-791, [_scan_and_persist_errors]: a FEIN seen
    before in the file turns a valid row into an error (the dash of the message
    is U+2014). *)
Definition dedupe_row (keys : list string) (vr : ValidatedRow) : ValidatedRow * list string :=
  match dedupe_key vr with
  | Some k =>
      if ok vr && truthy k then
        if mem k keys
        then ({| row_number := row_number vr; data := None;
                 errors := [row_error (row_number vr) "fein" k "duplicate_fein_in_file"
                              "Duplicate FEIN within the file - first occurrence wins."];
                 dedupe_key := None |}, keys)
        else (vr, k :: keys)
      else (vr, keys)
  | None => (vr, keys)
  end.

(** services/import_service.py:796-810, [_scan_and_persist_errors]. *)
Fixpoint persist_errors (job_id : string) (errs : list RowError) (persisted : Z) : M St exn Z :=
  match errs with
  | [] => ret persisted
  | err :: rest =>
      if import_max_rows cfg <=? persisted then ret persisted
      else
        add_row_error job_id (err_row_number err) (column err) (truncate_value ellipsis (value err))
          (error_code err) (stake 512 (error_message err)) ;;;
        persist_errors job_id rest (persisted + 1)
  end.

(** services/import_service.py:768-810, [_scan_and_persist_errors]: [_process]. *)
Definition _process (job_id : string) (columns : list ColumnSpec) (um : option (list (string * string)))
    (raw : list (string * string)) (st : scan_state) : M St exn scan_state :=
  let n := sc_row_number st + 1 in
  let '(vr, keys) := dedupe_row (sc_keys st) (validate_row validate_email (remap_row columns raw um) n) in
  if ok vr then
    ret {| sc_total := sc_total st + 1; sc_valid := sc_valid st + 1; sc_invalid := sc_invalid st;
           sc_persisted := sc_persisted st; sc_keys := keys; sc_row_number := n |}
  else
    let* persisted := persist_errors job_id (errors vr) (sc_persisted st) in
    ret {| sc_total := sc_total st + 1; sc_valid := sc_valid st; sc_invalid := sc_invalid st + 1;
           sc_persisted := persisted; sc_keys := keys; sc_row_number := n |}.

Definition too_many_rows : exn :=
  TooManyRowsError ("File has more than " +:+ str_of_Z (import_max_rows cfg)
                    +:+ " rows (limit configurable via IMPORT_MAX_ROWS).").

(** services/import_service.py:814-819, [_scan_and_persist_errors]: the rows
    after the first. *)
Fixpoint process_rest (job_id : string) (columns : list ColumnSpec) (um : option (list (string * string)))
    (rows : list (list (string * string))) (stop : option exn) (st : scan_state) : M St exn scan_state :=
  match rows with
  | [] => match stop with Some e => raise e | None => ret st end
  | raw :: rest =>
      raise_if (import_max_rows cfg <=? sc_total st) too_many_rows ;;;
      let* st := _process job_id columns um raw st in
      process_rest job_id columns um rest stop st
  end.

(** services/import_service.py, [_scan_and_persist_errors]. *)
Definition _scan_and_persist_errors (job : ImportJob) (columns : list ColumnSpec)
    (um : option (list (string * string))) : M St exn scan_state :=
  let* it := reads (fun s => iter_rows (files s) (file_url job) (original_filename job)) in
  let '(rows, stop) := it in
  let* header_set := match rows, stop with
                     | first_row :: _, _ => ret (map fst first_row)
                     | [], Some e => raise e
                     | [], None => ret (match um with Some m => map fst m | None => [] end)
                     end in
  let missing := missing_required_columns columns header_set um in
  raise_if (match missing with [] => false | _ => true end) (_MissingColumnsError missing) ;;;
  match rows with
  | [] => ret scan_start
  | first_row :: rest =>
      let* st := _process (job_pk job) columns um first_row scan_start in
      process_rest (job_pk job) columns um rest stop st
  end.

(** services/import_service.py, [_record_job_level_error]. *)
Definition _record_job_level_error (job : ImportJob) (code message : string) : M St exn ImportJob :=
  add_row_error (job_pk job) 0 None None code (stake 512 message) ;;;
  put_job (with_rows (total_rows job) (valid_rows job) (Z.max (invalid_rows job) 1) job).

(** services/import_service.py:431-463, [run_validation]: the three handlers. *)
Definition validation_failed (job : ImportJob) (now : Z) (e : exn) : M St exn ImportJob :=
  let '(code, message, last_error) :=
    match e with
    | _MissingColumnsError missing =>
        ("missing_columns", "Required columns missing: " +:+ join ", " missing,
         "missing_columns: " +:+ join "," missing)
    | TooManyRowsError m => ("too_many_rows", m, m)
    | _ => ("parse_error", exn_class e +:+ ": " +:+ exn_str e, "parse_error: " +:+ exn_str e)
    end in
  let* job := _record_job_level_error job code message in
  _set_status job FAILED (Some last_error) now.

(** services/import_service.py, [run_validation]; [t0] and [t1] are the clock
    when it starts and when it ends. *)
Definition run_validation (tenant_id job_id : string) (t0 t1 : Z) : M St exn ImportJob :=
  raise_if (negb (truthy tenant_id)) (JobNotFoundError "tenant_id is required") ;;;
  let* job := get_job tenant_id job_id in
  raise_if (negb (bool_decide (job_status job = PENDING)))
    (InvalidTransitionError ("Job " +:+ job_pk job +:+ " cannot validate from status "
                             +:+ import_status_value (job_status job) +:+ ".")) ;;;
  let* job := _set_status job VALIDATING None t0 in
  let* columns := get_importer (entity_type job) in
  let um := _normalize_mapping (mapping job) in
  try_else (_scan_and_persist_errors job columns um)
    (validation_failed job t1)
    (fun st =>
       let sm := [("validation", JObj [("total", JInt (sc_total st)); ("valid", JInt (sc_valid st));
                                       ("invalid", JInt (sc_invalid st));
                                       ("errors_recorded", JInt (sc_persisted st))])] in
       _set_status (with_import (imported_rows job) (Some sm)
                      (with_rows (sc_total st) (sc_valid st) (sc_invalid st) job))
         DRY_RUN_READY None t1).

(** ** Commit *)

Section Commit.
Context (others : nat -> ImportDB -> ImportDB).

(** [async with AsyncSessionLocal()]: the [k]th session of the call. *)
Definition new_session (k : nat) : M St exn unit :=
  modify (fun s => let db := others k (committed (ses s)) in {| ses := Session db db; files := files s |}).

(** services/import_service.py:659-675, [_commit_chunk]. *)
Fixpoint split_duplicates (job_id on_dup : string) (existing : list string) (chunk : list ValidatedRow)
  : M St exn (Z * list ValidatedRow) :=
  match chunk with
  | [] => ret (0, [])
  | row :: rest =>
      match dedupe_key row with
      | Some k =>
          if String.eqb on_dup "error" && truthy k && mem k existing then
            add_row_error job_id (row_number row) (Some "fein") (truncate_value ellipsis (Some k))
              "duplicate_fein_existing" "Supplier with this FEIN already exists for this tenant." ;;;
            let* r := split_duplicates job_id on_dup existing rest in
            ret (r.1 + 1, r.2)
          else
            let* r := split_duplicates job_id on_dup existing rest in
            ret (r.1, row :: r.2)
      | None =>
          let* r := split_duplicates job_id on_dup existing rest in
          ret (r.1, row :: r.2)
      end
  end.

Definition chunk_keys (chunk : list ValidatedRow) : list string :=
  omap (fun r => match dedupe_key r with
                 | Some k => if truthy k then Some k else None
                 | None => None
                 end) chunk.

(** services/import_service.py:653-688, [_commit_chunk]: the transaction. *)
Definition chunk_transaction (tenant_id job_id on_dup : string) (chunk : list ValidatedRow) : M St exn counts :=
  let* existing := db_query (existing_dedupe_keys tenant_id (chunk_keys chunk)) in
  let* dk := split_duplicates job_id on_dup existing chunk in
  let* cs := insert_batch uuid blip tenant_id dk.2 on_dup in
  db_commit ;;;
  ret {| c_inserted := c_inserted cs; c_updated := c_updated cs; c_skipped := c_skipped cs;
         c_errors := c_errors cs + dk.1 |}.

Definition first_row_number (chunk : list ValidatedRow) : Z :=
  match chunk with row :: _ => row_number row | [] => 0 end.
Definition last_row_number (chunk : list ValidatedRow) : Z :=
  match last chunk with Some row => row_number row | None => 0 end.

(** services/import_service.py, [_commit_chunk]: the counts, and the text it
    adds to [chunk_errors]. *)
Definition _commit_chunk (k : nat) (tenant_id job_id on_dup : string) (chunk : list ValidatedRow)
  : M St exn (counts * list string) :=
  new_session k ;;;
  try_except
    (let* cs := chunk_transaction tenant_id job_id on_dup chunk in ret (cs, []))
    (fun e =>
       let a := str_of_Z (first_row_number chunk) in
       let b := str_of_Z (last_row_number chunk) in
       db_rollback ;;;
       add_row_error job_id (first_row_number chunk) None None "chunk_failed"
         (stake 512 ("Chunk rows " +:+ a +:+ "-" +:+ b +:+ " failed: " +:+ exn_str e)) ;;;
       db_commit ;;;
       ret ({| c_inserted := 0; c_updated := 0; c_skipped := 0; c_errors := Z.of_nat (length chunk) |},
            ["chunk[rows " +:+ a +:+ ".." +:+ b +:+ "]: " +:+ exn_str e])).

(** services/import_service.py:533-542, [run_commit]: the locals of the loop;
    [co_sessions] counts the sessions opened. *)
Record commit_state : Type := {
  co_counts : counts; co_chunk_errors : list string; co_keys : list string;
  co_chunk : list ValidatedRow; co_row_number : Z; co_sessions : nat;
}.
Definition commit_start : commit_state :=
  {| co_counts := no_counts; co_chunk_errors := []; co_keys := []; co_chunk := []; co_row_number := 1;
     co_sessions := 1 |}.

(** services/import_service.py:560-573, [run_commit]: a full or last chunk. *)
Definition flush_chunk (tenant_id job_id on_dup : string) (st : commit_state) : M St exn commit_state :=
  let* r := _commit_chunk (co_sessions st) tenant_id job_id on_dup (co_chunk st) in
  ret {| co_counts := add_counts (co_counts st) r.1; co_chunk_errors := co_chunk_errors st ++ r.2;
         co_keys := co_keys st; co_chunk := []; co_row_number := co_row_number st;
         co_sessions := S (co_sessions st) |}.

Definition with_error (st : commit_state) (n : Z) : commit_state :=
  {| co_counts := add_counts (co_counts st) one_error; co_chunk_errors := co_chunk_errors st;
     co_keys := co_keys st; co_chunk := co_chunk st; co_row_number := n; co_sessions := co_sessions st |}.
Definition with_row (st : commit_state) (n : Z) (keys : list string) (vr : ValidatedRow) : commit_state :=
  {| co_counts := co_counts st; co_chunk_errors := co_chunk_errors st; co_keys := keys;
     co_chunk := co_chunk st ++ [vr]; co_row_number := n; co_sessions := co_sessions st |}.

(** services/import_service.py:547-573, [run_commit]: one row of the file. *)
Definition commit_row (tenant_id job_id on_dup : string) (columns : list ColumnSpec)
    (um : option (list (string * string))) (raw : list (string * string)) (st : commit_state)
  : M St exn commit_state :=
  let n := co_row_number st + 1 in
  let vr := validate_row validate_email (remap_row columns raw um) n in
  if negb (ok vr) then ret (with_error st n)
  else
    let seen := match dedupe_key vr with Some k => truthy k && mem k (co_keys st) | None => false end in
    if seen then ret (with_error st n)
    else
      let keys := match dedupe_key vr with
                  | Some k => if truthy k then k :: co_keys st else co_keys st
                  | None => co_keys st
                  end in
      let st := with_row st n keys vr in
      if Z.max 1 (import_chunk_size cfg) <=? Z.of_nat (length (co_chunk st))
      then flush_chunk tenant_id job_id on_dup st
      else ret st.

(** services/import_service.py:544-587, [run_commit]: the loop; the second
    component is the exception the rows end with. *)
Fixpoint commit_rows (tenant_id job_id on_dup : string) (columns : list ColumnSpec)
    (um : option (list (string * string))) (rows : list (list (string * string))) (stop : option exn)
    (st : commit_state) : M St exn (commit_state * option exn) :=
  match rows with
  | [] => match stop with
          | Some e => ret (st, Some e)
          | None => match co_chunk st with
                    | [] => ret (st, None)
                    | _ => let* st := flush_chunk tenant_id job_id on_dup st in ret (st, None)
                    end
          end
  | raw :: rest =>
      let* st := commit_row tenant_id job_id on_dup columns um raw st in
      commit_rows tenant_id job_id on_dup columns um rest stop st
  end.

Definition commit_summary (st : commit_state) (fatal : option string) : json :=
  JObj ([("inserted", JInt (c_inserted (co_counts st))); ("updated", JInt (c_updated (co_counts st)));
         ("skipped", JInt (c_skipped (co_counts st))); ("errors", JInt (c_errors (co_counts st)));
         ("chunk_failures", JList (map JStr (co_chunk_errors st)))]
        ++ match fatal with Some t => [("fatal", JStr t)] | None => [] end).

(** services/import_service.py:589-627, [run_commit]: the last
    session writes the outcome on the job. *)
Definition finished (st : commit_state) (status : ImportStatus) (fatal : option string) (now : Z) (job : ImportJob)
  : ImportJob :=
  let imported := c_inserted (co_counts st) + c_updated (co_counts st) in
  let sm := set_key "commit" (commit_summary st fatal) (default [] (summary job)) in
  with_times (job_started_at job) (Some now) (with_status status (with_import imported (Some sm) job)).

(** services/import_service.py, [run_commit]. *)
Definition run_commit (tenant_id job_id : string) (now : Z) : M St exn ImportJob :=
  raise_if (negb (truthy tenant_id)) (JobNotFoundError "tenant_id is required") ;;;
  new_session 0 ;;;
  let* job := get_job tenant_id job_id in
  raise_if (negb (bool_decide (job_status job = DRY_RUN_READY)))
    (InvalidTransitionError ("Job " +:+ job_pk job +:+ " cannot commit from status "
                             +:+ import_status_value (job_status job) +:+ ".")) ;;;
  let* job := _set_status job IMPORTING None now in
  db_write (fun db => set_row_errors
    (List.filter (fun e => negb (String.eqb (import_job_id e) (job_pk job)
                                 && mem (re_code e) ["chunk_failed"; "duplicate_fein_existing"]))
       (row_errors db)) db) ;;;
  db_commit ;;;
  let* columns := get_importer (entity_type job) in
  let um := _normalize_mapping (mapping job) in
  let* it := reads (fun s => iter_rows (files s) (file_url job) (original_filename job)) in
  let* r := commit_rows (job_tenant_id job) job_id (on_duplicate job) columns um it.1 it.2 commit_start in
  let '(st, stop) := r in
  new_session (co_sessions st) ;;;
  let* final := db_query (fun db => jobs db !! job_id) in
  match stop with
  | Some e =>
      match final with
      | Some j => put_job (with_last_error (Some (stake 2000 ("commit_error: " +:+ exn_str e)))
                             (finished st FAILED (Some (exn_class e +:+ ": " +:+ exn_str e)) now j)) ;;; db_commit
      | None => ret tt
      end ;;;
      raise e
  | None =>
      match final with
      | Some j => let* j := put_job (finished st COMPLETED None now j) in db_commit ;;; ret j
      | None => raise (JobNotFoundError ("Import job " +:+ repr (Some job_id) +:+ " disappeared."))
      end
  end.
End Commit.

(** ** Cancel *)

(** services/import_service.py, [cancel_job]. *)
Definition cancel_job (tenant_id job_id : string) (now : Z) : M St exn ImportJob :=
  let* job := get_job tenant_id job_id in
  raise_if (status_in (job_status job) TERMINAL_STATUSES)
    (InvalidTransitionError ("Cannot cancel terminal job " +:+ job_pk job +:+ " (status="
                             +:+ import_status_value (job_status job) +:+ ").")) ;;;
  put_job (with_times (job_started_at job) (Some now) (with_status CANCELED job)).
End Imports.

(** ** A concrete set-up *)

Module DemoImport.
Fixpoint uuid (n : nat) : string := match n with O => "" | S k => String "i" (uuid k) end.

Lemma uuid_inj : Inj (=) (=) uuid.
Proof. intros n. induction n as [|n IH]; intros [|m] H; cbn in H; try done. injection H as H. f_equal. auto. Qed.

Definition cfg : ImportSettings :=
  {| import_max_file_size_bytes := 1000; import_max_rows := 10; import_chunk_size := 2;
     import_storage_path := "imports"; av_fail_closed_on_scanner_error := true |}.
Definition repr (o : option string) : string := match o with Some t => "'" +:+ t +:+ "'" | None => "None" end.
Definition email (a : string) : string + string := if contains "@" a then inl a else inr "not an address".
(** Comma-separated lines without quoting. *)
Definition csv (content : bytes) : list (list string) * option exn :=
  (map (split_char ",") (split_char lf content), None).
Definition xlsx (_ : bytes) : list (list cell) * option exn := ([], None).

Definition pending : ImportJob :=
  {| job_pk := "job"; job_tenant_id := "ten"; entity_type := SUPPLIER; job_status := PENDING;
     file_url := "imports/ten/job/a.csv"; original_filename := "a.csv"; file_size_bytes := 0;
     content_type := None; total_rows := 0; valid_rows := 0; invalid_rows := 0; imported_rows := 0;
     mapping := JNull; on_duplicate := "skip"; summary := None; job_last_error := None;
     created_by_user_id := None; job_created_at := 0; job_started_at := None; job_completed_at := None |}.

Definition file : bytes :=
  join (String lf "") ["company,ein,state"; "Acme,12-3456789,ca"; "Beta,123456780,NY"; "Gamma,1,NY";
                       "Acme 2,12 3456789,CA"; "Delta,99-9999999,TX"].

Definition with_job (j : ImportJob) : St :=
  let db := {| jobs := {["job" := j]}; row_errors := []; suppliers := []; next_id := 0 |} in
  {| ses := Session db db; files := {["imports/ten/job/a.csv" := file]} |}.
End DemoImport.

(** ** Uploads and access *)

Section Guards.
Context (cfg : ImportSettings) (uuid : nat -> string) (ellipsis : ascii) (repr : option string -> string)
  (repr_other : json -> string) (json_loads : string -> option json)
  (validate_email : string -> string + string)
  (csv_cells : bytes -> list (list string) * option exn)
  (xlsx_cells : bytes -> list (list cell) * option exn)
  (repr_float : SpecFloat.spec_float -> string) (str_cell : cell -> string).
Context (scan : bool -> bytes -> result av_error ScanReport).
Context (blip : list ValidatedRow -> option exn).
Context (others : nat -> ImportDB -> ImportDB).

Local Abbreviation validate_job := (run_validation cfg uuid ellipsis repr repr_other json_loads validate_email
  csv_cells xlsx_cells repr_float str_cell).
Local Abbreviation commit_job := (run_commit cfg uuid ellipsis repr repr_other json_loads validate_email
  csv_cells xlsx_cells repr_float str_cell blip others).

Lemma get_job_run tid jid s :
  get_job repr tid jid s =
  match job_of tid jid (working (ses s)) with
  | Some j => (Ok j, s)
  | None => (Raise (JobNotFoundError ("Import job " +:+ repr (Some jid) +:+ " not found.")), s)
  end.
Proof. unfold get_job, db_query, reads, bind, or_raise. by destruct (job_of tid jid (working (ses s))). Qed.

(** Uploads: a new job appears only for bytes the antivirus gate lets
    through, of an accepted size; it is pending, belongs to the tenant, and its
    file, under the sanitised name, holds exactly the uploaded bytes.  Every
    refusal - extension, size, format, infection, scanner down - leaves the jobs
    and the files as they were. *)
Theorem upload_outcome tid entity filename ctype content mp od user now s :
  jobs (working (ses s)) !! uuid (next_id (working (ses s))) = None ->
  match create_import_job cfg uuid repr scan tid entity filename ctype content mp od user now s with
  | (Ok job, s') =>
      (exists report, scan (av_fail_closed_on_scanner_error cfg) content = Ok report) /\
      slen content <= import_max_file_size_bytes cfg /\
      job_tenant_id job = tid /\ job_status job = PENDING /\ original_filename job = sanitize_filename filename /\
      jobs (working (ses s')) = <[job_pk job := job]> (jobs (working (ses s))) /\
      jobs (working (ses s)) !! job_pk job = None /\
      files s' = <[file_url job := content]> (files s)
  | (Raise e, s') =>
      jobs (working (ses s')) = jobs (working (ses s)) /\ files s' = files s /\ exn_code e <> Some "import_error"
  end.
Proof.
  intros Hfresh. unfold create_import_job.
  set (safe := sanitize_filename filename).
  destruct (negb (mem (lower (path_suffix safe)) ALLOWED_EXTENSIONS)); [by cbn|]. cbn [raise_if].
  rewrite (bind_run _ _ s tt s) by done.
  destruct (Z.ltb_spec (import_max_file_size_bytes cfg) (slen content)); [by cbn|]. cbn [raise_if].
  rewrite (bind_run _ _ s tt s) by done.
  destruct (detect_format repr safe ctype) as [fmt|e] eqn:Hfmt.
  2:{ cbn. split; [done|]. split; [done|]. unfold detect_format in Hfmt.
      repeat match type of Hfmt with
      | (if ?b then _ else _) = _ => destruct b; try done
      | match ?o with Some _ => _ | None => _ end = _ => destruct o
      end; by injection Hfmt as <-. }
  rewrite (bind_run _ _ s tt s) by done.
  unfold db_query, reads, put_job, db_write, modify, bind, ret, raise. cbn [ses working committed files].
  set (id := uuid (next_id (working (ses s)))) in *.
  destruct (scan (av_fail_closed_on_scanner_error cfg) content) as [report|[sig sc d|d sc]].
  - cbn. rewrite insert_insert_eq. split_and!; try done; by eexists.
  - cbn. rewrite delete_insert_id by done. done.
  - cbn. rewrite delete_insert_id by done. done.
Qed.

(** State guards: a job of the tenant that is not pending cannot be
    validated, one that is not ready cannot be committed, and a finished one
    cannot be cancelled; each call raises [InvalidTransitionError] and changes
    nothing (the commit only opens its session). *)
Theorem wrong_status_refused tid jid t0 t1 s j :
  tid <> "" ->
  (job_of tid jid (working (ses s)) = Some j -> job_status j <> PENDING ->
     exists m, validate_job tid jid t0 t1 s = (Raise (InvalidTransitionError m), s)) /\
  (job_of tid jid (others 0 (committed (ses s))) = Some j -> job_status j <> DRY_RUN_READY ->
     exists m s', commit_job tid jid t0 s = (Raise (InvalidTransitionError m), s') /\
       committed (ses s') = others 0 (committed (ses s)) /\ files s' = files s) /\
  (job_of tid jid (working (ses s)) = Some j -> status_in (job_status j) TERMINAL_STATUSES = true ->
     exists m, cancel_job repr tid jid t0 s = (Raise (InvalidTransitionError m), s)).
Proof.
  intros Htid%truthy_spec. split_and!.
  - intros Hj Hst. unfold run_validation. rewrite Htid. cbn [negb raise_if]. rewrite (bind_run _ _ s tt s) by done.
    rewrite (bind_run _ _ s j s) by (by rewrite get_job_run, Hj).
    rewrite (bool_decide_false _ Hst). by eexists.
  - intros Hj Hst. unfold run_commit. rewrite Htid. cbn [negb raise_if]. rewrite (bind_run _ _ s tt s) by done.
    unfold new_session at 1. unfold bind at 1. unfold modify at 1. set (s0 := {| ses := Session _ _; files := _ |}).
    rewrite (bind_run _ _ s0 j s0) by (rewrite get_job_run; cbn [ses working s0]; by rewrite Hj).
    rewrite (bool_decide_false _ Hst). by eexists _, _.
  - intros Hj Hst. unfold cancel_job. rewrite (bind_run _ _ s j s) by (by rewrite get_job_run, Hj).
    rewrite Hst. by eexists.
Qed.

(** Tenant isolation: a job id that is not the tenant's own - unknown, or
    another tenant's - is answered like a missing one by every operation: no
    read shows the job or its errors, and no write happens. *)
Theorem foreign_job_invisible tid jid now s :
  job_of tid jid (working (ses s)) = None -> job_of tid jid (others 0 (committed (ses s))) = None -> tid <> "" ->
  (exists m, get_job repr tid jid s = (Raise (JobNotFoundError m), s)) /\
  (forall limit offset, get_job_errors tid jid limit offset s = (Ok [], s)) /\
  count_job_errors tid jid s = (Ok 0, s) /\
  (exists m, validate_job tid jid now now s = (Raise (JobNotFoundError m), s)) /\
  (exists m, cancel_job repr tid jid now s = (Raise (JobNotFoundError m), s)) /\
  (exists m s', commit_job tid jid now s = (Raise (JobNotFoundError m), s') /\
     committed (ses s') = others 0 (committed (ses s)) /\ files s' = files s).
Proof.
  intros Hj Hj0 Htid%truthy_spec.
  assert (Hget : exists m, get_job repr tid jid s = (Raise (JobNotFoundError m), s)).
  { rewrite get_job_run, Hj. by eexists. }
  assert (Herr : errors_of tid jid (working (ses s)) = []) by (unfold errors_of; by rewrite Hj).
  split_and!.
  - done.
  - intros limit offset. unfold get_job_errors. rewrite Htid. cbn [negb raise_if].
    unfold bind, ret, db_query, reads. rewrite Herr. cbn. by destruct limit; rewrite ?drop_nil, ?take_nil.
  - unfold count_job_errors. rewrite Htid. cbn [negb raise_if].
    unfold bind, ret, db_query, reads. by rewrite Herr.
  - destruct Hget as [m Hget]. exists m. unfold run_validation. rewrite Htid. cbn [negb raise_if].
    rewrite (bind_run _ _ s tt s) by done. unfold bind at 1. by rewrite Hget.
  - destruct Hget as [m Hget]. exists m. unfold cancel_job, bind at 1. by rewrite Hget.
  - unfold run_commit. rewrite Htid. cbn [negb raise_if]. rewrite (bind_run _ _ s tt s) by done.
    unfold new_session at 1. unfold bind at 1. unfold modify at 1. set (s0 := {| ses := Session _ _; files := _ |}).
    unfold bind at 1. rewrite get_job_run. cbn [ses working s0]. rewrite Hj0. by eexists _, _.
Qed.
End Guards.

(** ** Witnesses *)

Definition clean_scan (_ : bool) (_ : bytes) : result av_error ScanReport := Ok (clean_report "stub_allow").

Lemma upload_outcome_witness :
  match create_import_job DemoImport.cfg DemoImport.uuid DemoImport.repr clean_scan "ten" SUPPLIER "../a.csv" None
          DemoImport.file JNull "skip" None 1 (DemoImport.with_job DemoImport.pending) with
  | (Ok job, s') => files s' = <[file_url job := DemoImport.file]> (files (DemoImport.with_job DemoImport.pending))
  | (Raise _, _) => False
  end.
Proof.
  pose proof (upload_outcome DemoImport.cfg DemoImport.uuid DemoImport.repr clean_scan "ten" SUPPLIER "../a.csv" None
                DemoImport.file JNull "skip" None 1 (DemoImport.with_job DemoImport.pending) eq_refl) as H.
  destruct (create_import_job _ _ _ _ _ _ _ _ _ _ _ _ _ _) as [[job|e] s'] eqn:Hrun.
  - destruct H as (_ & _ & _ & _ & _ & _ & _ & H). exact H.
  - vm_compute in Hrun. discriminate Hrun.
Defined.

Lemma wrong_status_refused_witness :
  exists m, cancel_job DemoImport.repr "ten" "job" 9 (DemoImport.with_job (with_status COMPLETED DemoImport.pending))
    = (Raise (InvalidTransitionError m), DemoImport.with_job (with_status COMPLETED DemoImport.pending)).
Proof.
  apply (proj2 (proj2 (wrong_status_refused DemoImport.cfg DemoImport.uuid "~" DemoImport.repr (fun _ => "")
           (fun _ => None) DemoImport.email DemoImport.csv DemoImport.xlsx (fun _ => "") (fun _ => "") (fun _ => None)
           (fun _ db => db) "ten" "job" 9 9 (DemoImport.with_job (with_status COMPLETED DemoImport.pending))
           (with_status COMPLETED DemoImport.pending) ltac:(discriminate)))); reflexivity.
Defined.

Lemma foreign_job_invisible_witness :
  (exists m, get_job DemoImport.repr "other" "job" (DemoImport.with_job DemoImport.pending)
     = (Raise (JobNotFoundError m), DemoImport.with_job DemoImport.pending)).
Proof.
  apply (proj1 (foreign_job_invisible DemoImport.cfg DemoImport.uuid "~" DemoImport.repr (fun _ => "")
           (fun _ => None) DemoImport.email DemoImport.csv DemoImport.xlsx (fun _ => "") (fun _ => "") (fun _ => None)
           (fun _ db => db) "other" "job" 9 (DemoImport.with_job DemoImport.pending) eq_refl eq_refl
           ltac:(discriminate))).
Defined.
