(* ===== verification/ImportDryRun.v ===== *)
(** * The dry run of an import

    What [run_validation] of Imports.v does: it always returns the job, ready
    for commit with exact counts or failed with the reason recorded. *)

From Stdlib Require Import Ascii.
From S2P Require Import Prelude PyStr Json Encoding ImportModels SupplierImporter AvScanner ImportFiles Imports.

(** ** The reference: the rows an import takes *)

Section Accepted.
Context (validate_email : string -> string + string).
Context (columns : list ColumnSpec) (um : option (list (string * string))).

(** The row if it is valid and its FEIN is new, with the FEINs seen. *)
Definition accept_step (keys : list string) (vr : ValidatedRow) : option ValidatedRow * list string :=
  if ok vr then
    match dedupe_key vr with
    | Some k => if truthy k then (if mem k keys then (None, keys) else (Some vr, k :: keys)) else (Some vr, keys)
    | None => (Some vr, keys)
    end
  else (None, keys).

Definition validated (n : Z) (raw : list (string * string)) : ValidatedRow :=
  validate_row validate_email (remap_row columns raw um) n.

(** The valid rows with a FEIN not seen before, after the row number [n]. *)
Fixpoint accepted_from (keys : list string) (n : Z) (rows : list (list (string * string))) : list ValidatedRow :=
  match rows with
  | [] => []
  | raw :: rest =>
      let '(o, keys') := accept_step keys (validated (n + 1) raw) in
      option_list o ++ accepted_from keys' (n + 1) rest
  end.

(** The rows of a file that an import takes. *)
Definition accepted : list (list (string * string)) -> list ValidatedRow := accepted_from [] 1.

Lemma accepted_from_length keys n rows : (length (accepted_from keys n rows) <= length rows)%nat.
Proof.
  revert keys n. induction rows as [|raw rows IH]; intros keys n; cbn; [done|].
  destruct (accept_step keys _) as [[o|] keys']; cbn; specialize (IH keys' (n + 1)); lia.
Qed.
End Accepted.

(** ** Writes that only log errors of a job *)

(** From [s] to [s'], [n] errors of the job are added and nothing else. *)
Definition logged (job_id : string) (n : Z) (s s' : St) : Prop :=
  exists new, row_errors (working (ses s')) = row_errors (working (ses s)) ++ new /\
    Z.of_nat (length new) = n /\ Forall (fun e => import_job_id e = job_id) new /\
    jobs (working (ses s')) = jobs (working (ses s)) /\
    suppliers (working (ses s')) = suppliers (working (ses s)) /\
    committed (ses s') = committed (ses s) /\ files s' = files s /\
    (next_id (working (ses s)) <= next_id (working (ses s')))%nat.

Lemma logged_refl jid s : logged jid 0 s s.
Proof. exists []. rewrite app_nil_r. repeat split; try done; constructor. Qed.

Lemma logged_trans jid n m s1 s2 s3 : logged jid n s1 s2 -> logged jid m s2 s3 -> logged jid (n + m) s1 s3.
Proof.
  intros (l1 & Hr1 & Hn1 & Hf1 & Hj1 & Hs1 & Hc1 & Hfi1 & Hi1) (l2 & Hr2 & Hn2 & Hf2 & Hj2 & Hs2 & Hc2 & Hfi2 & Hi2).
  exists (l1 ++ l2). rewrite Hr2, Hr1, app_assoc, length_app. split_and!; try congruence; [lia| |lia].
  by apply Forall_app.
Qed.

Lemma add_row_error_logged uuid jid n col v code msg s :
  exists s', add_row_error uuid jid n col v code msg s = (Ok tt, s') /\ logged jid 1 s s'.
Proof. eexists. split; [reflexivity|]. eexists. cbn. split_and!; try reflexivity; [by repeat constructor|lia]. Qed.

Lemma set_status_run job target le now s :
  status_in target (_ALLOWED_TRANSITIONS (job_status job)) = true ->
  _set_status job target le now s =
  (Ok (moved job target le now),
   written (fun db => set_jobs (<[job_pk job := moved job target le now]> (jobs db)) db) s).
Proof.
  intros H. unfold _set_status, _assert_can_transition. rewrite H, andb_false_r. done.
Qed.

Section DryRun.
Context (cfg : ImportSettings) (uuid : nat -> string) (ellipsis : ascii) (repr : option string -> string)
  (repr_other : json -> string) (json_loads : string -> option json)
  (validate_email : string -> string + string)
  (csv_cells : bytes -> list (list string) * option exn)
  (xlsx_cells : bytes -> list (list cell) * option exn)
  (repr_float : SpecFloat.spec_float -> string) (str_cell : cell -> string).

Local Abbreviation process := (_process cfg uuid ellipsis validate_email).
Local Abbreviation rest_of := (process_rest cfg uuid ellipsis validate_email).
Local Abbreviation cap := (import_max_rows cfg).

Lemma persist_errors_logged jid errs p s :
  exists p' s', persist_errors cfg uuid ellipsis jid errs p s = (Ok p', s') /\ logged jid (p' - p) s s' /\
    p <= p' <= Z.max p cap.
Proof.
  revert p s. induction errs as [|err errs IH]; intros p s; cbn [persist_errors].
  - exists p, s. split; [done|]. split; [|lia]. rewrite Z.sub_diag. apply logged_refl.
  - destruct (Z.leb_spec cap p).
    + exists p, s. split; [done|]. split; [|lia]. rewrite Z.sub_diag. apply logged_refl.
    + destruct (add_row_error_logged uuid jid (err_row_number err) (column err)
                  (truncate_value ellipsis (value err)) (error_code err) (stake 512 (error_message err)) s)
        as (s1 & H1 & Hl1).
      destruct (IH (p + 1) s1) as (p' & s' & H2 & Hl2 & Hp).
      exists p', s'. rewrite (bind_run _ _ _ _ _ H1). split; [done|]. split; [|lia].
      replace (p' - p) with (1 + (p' - (p + 1))) by lia. by eapply logged_trans.
Qed.

Lemma dedupe_accept keys vr :
  (ok (dedupe_row keys vr).1, (dedupe_row keys vr).2) =
  (is_someb (accept_step keys vr).1, (accept_step keys vr).2).
Proof.
  unfold dedupe_row, accept_step. destruct (dedupe_key vr) as [k|]; destruct (ok vr) eqn:Hok; cbn; rewrite ?Hok; try done.
  destruct (truthy k); cbn; rewrite ?Hok; [|done]. destruct (mem k keys); cbn; by rewrite ?Hok.
Qed.

(** The counters add up, and no more errors than the cap were recorded. *)
Record scan_ok (st : scan_state) : Prop := {
  so_total : sc_total st = sc_valid st + sc_invalid st;
  so_persisted : 0 <= sc_persisted st <= Z.max 0 cap;
}.

Lemma process_run jid columns um raw st s :
  scan_ok st ->
  exists st' s', process jid columns um raw st s = (Ok st', s') /\
    logged jid (sc_persisted st' - sc_persisted st) s s' /\ scan_ok st' /\
    sc_total st' = sc_total st + 1 /\ sc_row_number st' = sc_row_number st + 1 /\
    let '(o, keys') := accept_step (sc_keys st) (validated validate_email columns um (sc_row_number st + 1) raw) in
    sc_keys st' = keys' /\ sc_valid st' = sc_valid st + Z.of_nat (length (option_list o)).
Proof.
  intros [Ht Hp]. unfold _process. fold (validated validate_email columns um (sc_row_number st + 1) raw).
  pose proof (dedupe_accept (sc_keys st) (validated validate_email columns um (sc_row_number st + 1) raw)) as Hda.
  destruct (dedupe_row (sc_keys st) _) as [vr keys].
  destruct (accept_step (sc_keys st) _) as [o keys']. cbn [fst snd] in Hda. injection Hda as Hok ->.
  destruct (ok vr).
  - destruct o; [|done]. eexists _, s. split; [reflexivity|]. cbn.
    split; [rewrite Z.sub_diag; apply logged_refl|]. split; [split; cbn; lia|]. split_and!; try done.
  - destruct o; [done|].
    destruct (persist_errors_logged jid (errors vr) (sc_persisted st) s) as (p' & s' & Hrun & Hl & Hp').
    eexists _, s'. rewrite (bind_run _ _ _ _ _ Hrun). split; [reflexivity|]. cbn.
    split; [done|]. split; [split; cbn; lia|]. split_and!; try done. lia.
Qed.

Lemma process_rest_run jid columns um rows stop st s :
  scan_ok st ->
  exists r s', rest_of jid columns um rows stop st s = (r, s') /\
    (exists n, logged jid n s s') /\
    match r with
    | Ok st' => stop = None /\ (rows = [] \/ sc_total st + Z.of_nat (length rows) <= cap) /\ scan_ok st' /\
        logged jid (sc_persisted st' - sc_persisted st) s s' /\
        sc_total st' = sc_total st + Z.of_nat (length rows) /\
        sc_valid st' = sc_valid st + Z.of_nat (length
          (accepted_from validate_email columns um (sc_keys st) (sc_row_number st) rows))
    | Raise e => stop = Some e \/
        (rows <> [] /\ cap < sc_total st + Z.of_nat (length rows) /\ e = too_many_rows cfg)
    end.
Proof.
  revert st s. induction rows as [|raw rows IH]; intros st s Hst; cbn [process_rest].
  - destruct stop as [e|].
    + exists (Raise e), s. split; [done|]. split; [exists 0; apply logged_refl|by left].
    + exists (Ok st), s. split; [done|]. split; [exists 0; apply logged_refl|].
      cbn. split_and!; auto; [rewrite Z.sub_diag; apply logged_refl|lia..].
  - destruct (Z.leb_spec cap (sc_total st)) as [Hle|Hgt].
    + exists (Raise (too_many_rows cfg)), s. split; [done|]. split; [exists 0; apply logged_refl|].
      right. cbn. split_and!; try done. lia.
    + destruct (process_run jid columns um raw st s Hst) as (st1 & s1 & H1 & Hl1 & Hok1 & Ht1 & Hn1 & Hk1).
      destruct (IH st1 s1 Hok1) as (r & s' & H2 & [n Hl2] & Hr).
      exists r, s'. cbn [raise_if]. rewrite (bind_run _ _ _ tt s), (bind_run _ _ _ _ _ H1) by done.
      split; [done|]. split; [eexists; by eapply logged_trans|].
      cbn [accepted_from].
      destruct (accept_step (sc_keys st) _) as [o keys'] eqn:Ha. destruct Hk1 as [Hk1 Hv1].
      destruct r as [st'|e].
      * destruct Hr as (-> & Hcap & Hok' & Hl' & Htot & Hval). split_and!; try done.
        -- right. cbn [length]. destruct Hcap as [->|]; cbn; lia.
        -- replace (sc_persisted st' - sc_persisted st)
             with ((sc_persisted st1 - sc_persisted st) + (sc_persisted st' - sc_persisted st1)) by lia.
           by eapply logged_trans.
        -- cbn [length]. lia.
        -- rewrite Hval, Hv1, Hk1, Hn1, length_app. lia.
      * destruct Hr as [->|(Hne & Hlt & ->)]; [by left|]. right. split; [done|]. split; [|done]. cbn [length]. lia.
Qed.

Local Abbreviation rows_of s job := (iter_rows repr csv_cells xlsx_cells repr_float str_cell (files s)
  (file_url job) (original_filename job)).

(** The headers the check looks at: of the first row, or of the mapping when
    the file has none. *)
Definition headers_checked (rows : list (list (string * string))) (um : option (list (string * string)))
  : list string :=
  match rows with
  | first_row :: _ => map fst first_row
  | [] => match um with Some m => map fst m | None => [] end
  end.

(** The file can be imported: all required columns, a readable text, and no
    more rows than the cap (the first row is always read). *)
Definition importable (columns : list ColumnSpec) (um : option (list (string * string)))
    (it : list (list (string * string)) * option exn) : Prop :=
  missing_required_columns columns (headers_checked it.1 um) um = [] /\ it.2 = None /\
  Z.of_nat (length it.1) <= Z.max 1 cap.

Lemma scan_run job columns um s :
  exists r s', _scan_and_persist_errors cfg uuid ellipsis repr validate_email csv_cells xlsx_cells repr_float str_cell
                 job columns um s = (r, s') /\
    (exists n, logged (job_pk job) n s s') /\
    match r with
    | Ok st => importable columns um (rows_of s job) /\ scan_ok st /\
        logged (job_pk job) (sc_persisted st) s s' /\
        sc_total st = Z.of_nat (length (rows_of s job).1) /\
        sc_valid st = Z.of_nat (length (accepted validate_email columns um (rows_of s job).1))
    | Raise _ => ~ importable columns um (rows_of s job)
    end.
Proof.
  unfold _scan_and_persist_errors. rewrite (bind_run _ _ s (rows_of s job) s) by done.
  destruct (rows_of s job) as [rows stop]. unfold importable. cbn [fst snd].
  destruct rows as [|first_row rest].
  - destruct stop as [e|].
    + exists (Raise e), s. split; [done|]. split; [exists 0; apply logged_refl|]. by intros (_ & ? & _).
    + rewrite (bind_run _ _ s (headers_checked [] um) s) by done.
      destruct (missing_required_columns columns (headers_checked [] um) um) as [|c cs] eqn:Hm.
      * exists (Ok scan_start), s. split; [done|]. split; [exists 0; apply logged_refl|].
        split; [split; [done|split; [done|cbn; lia]]|]. split; [split; cbn; lia|]. split; [apply logged_refl|]. done.
      * eexists (Raise _), s. split; [reflexivity|]. split; [exists 0; apply logged_refl|]. by intros (? & _).
  - rewrite (bind_run _ _ s (headers_checked (first_row :: rest) um) s) by done.
    destruct (missing_required_columns columns (headers_checked (first_row :: rest) um) um) as [|c cs] eqn:Hm;
      [|eexists (Raise _), s; split; [reflexivity|]; split; [exists 0; apply logged_refl|]; by intros (? & _)].
    cbn [raise_if]. rewrite (bind_run _ _ s tt s) by done.
    assert (Hst : scan_ok scan_start) by (split; cbn; lia).
    destruct (process_run (job_pk job) columns um first_row scan_start s Hst) as (st1 & s1 & H1 & Hl1 & Hok1 & Ht1 & Hn1 & Hk1).
    rewrite (bind_run _ _ _ _ _ H1).
    destruct (process_rest_run (job_pk job) columns um rest stop st1 s1 Hok1) as (r & s' & H2 & [n Hl2] & Hr).
    exists r, s'. split; [done|]. split; [eexists; by eapply logged_trans|].
    cbn [sc_total sc_row_number sc_keys sc_valid sc_persisted scan_start] in *.
    destruct r as [st'|e].
    + destruct Hr as (-> & Hcap & Hok' & Hl' & Htot & Hval). split; [|split; [done|split; [|split]]].
      * split; [done|split; [done|]]. cbn [length]. destruct Hcap as [->|]; cbn [length] in *; lia.
      * replace (sc_persisted st') with ((sc_persisted st1 - 0) + (sc_persisted st' - sc_persisted st1)) by lia.
        by eapply logged_trans.
      * cbn [length]. lia.
      * unfold accepted. cbn [accepted_from].
        destruct (accept_step [] _) as [o keys'] eqn:Ha. destruct Hk1 as [Hk1 Hv1].
        rewrite Hval, Hv1, Hk1, Hn1, length_app. cbn. lia.
    + intros (_ & -> & Hlen). destruct Hr as [?|(Hne & Hlt & _)]; [done|]. cbn [length] in Hlen.
      destruct rest; [done|]. cbn [length] in *. lia.
Qed.

(** The outcome of [run_validation] on a pending job. *)
Definition dry_run_outcome (columns : list ColumnSpec) (um : option (list (string * string))) (j0 : ImportJob)
    (s : St) (job : ImportJob) (s' : St) : Prop :=
  jobs (working (ses s')) = <[job_pk j0 := job]> (jobs (working (ses s))) /\
  suppliers (working (ses s')) = suppliers (working (ses s)) /\
  committed (ses s') = committed (ses s) /\ files s' = files s /\
  (exists new, row_errors (working (ses s')) = row_errors (working (ses s)) ++ new /\
     Forall (fun e => import_job_id e = job_pk j0) new /\
     (job_status job = FAILED -> new <> []) /\
     (job_status job = DRY_RUN_READY -> Z.of_nat (length new) <= Z.max 0 cap)) /\
  (job_status job = DRY_RUN_READY /\ importable columns um (rows_of s j0) /\
     total_rows job = Z.of_nat (length (rows_of s j0).1) /\
     valid_rows job = Z.of_nat (length (accepted validate_email columns um (rows_of s j0).1)) /\
     total_rows job = valid_rows job + invalid_rows job
   \/ job_status job = FAILED /\ ~ importable columns um (rows_of s j0) /\ is_Some (job_last_error job)).

Lemma validation_failed_run job now e s :
  job_status job = VALIDATING ->
  exists j s', validation_failed uuid job now e s = (Ok j, s') /\
    jobs (working (ses s')) = <[job_pk job := j]> (jobs (working (ses s))) /\
    suppliers (working (ses s')) = suppliers (working (ses s)) /\
    committed (ses s') = committed (ses s) /\ files s' = files s /\
    (exists x, row_errors (working (ses s')) = row_errors (working (ses s)) ++ [x] /\ import_job_id x = job_pk job) /\
    job_status j = FAILED /\ is_Some (job_last_error j).
Proof.
  intros Hst. unfold validation_failed. destruct (match e with _MissingColumnsError _ => _ | _ => _ end) as [[code msg] le].
  destruct (add_row_error_logged uuid (job_pk job) 0 None None code (stake 512 msg) s) as (s1 & H1 & _).
  unfold _record_job_level_error. unfold bind at 1 2. rewrite H1.
  unfold put_job, bind, db_write, modify, ret. rewrite set_status_run by (cbn; by rewrite Hst).
  unfold add_row_error, db_write, modify in H1. injection H1 as <-.
  eexists _, _. split; [reflexivity|]. cbn. rewrite insert_insert_eq. split_and!; try done; by eexists.
Qed.

(** The dry run: on a pending supplier job of the tenant it always
    returns, whatever the file holds and however its reader fails.  It ends
    ready for commit exactly when the file is importable, with the number of
    rows, of accepted and of refused ones, and at most the configured number of
    row errors; otherwise it ends failed with an error recorded.  It writes
    nothing but the job and errors of that job, and commits nothing. *)
Theorem run_validation_outcome tid jid t0 t1 s j0 :
  tid <> "" -> jobs (working (ses s)) !! jid = Some j0 -> job_pk j0 = jid -> job_tenant_id j0 = tid ->
  job_status j0 = PENDING -> entity_type j0 = SUPPLIER ->
  exists job s',
    run_validation cfg uuid ellipsis repr repr_other json_loads validate_email csv_cells xlsx_cells repr_float
      str_cell tid jid t0 t1 s = (Ok job, s') /\
    dry_run_outcome _COLUMNS (_normalize_mapping repr_other json_loads (mapping j0)) j0 s job s'.
Proof.
  intros Htid Hj Hpk Hten Hst Hent. set (um := _normalize_mapping _ _ _).
  unfold run_validation. rewrite (proj2 (truthy_spec tid) Htid). cbn [negb raise_if].
  rewrite (bind_run _ _ s tt s) by done.
  assert (Hget : get_job repr tid jid s = (Ok j0, s)).
  { unfold get_job, db_query, reads, bind, job_of. cbn. rewrite Hj, Hten, String.eqb_refl. done. }
  rewrite (bind_run _ _ _ _ _ Hget). rewrite Hst. cbn [negb bool_decide raise_if].
  rewrite (bind_run _ _ s tt s) by done.
  set (j1 := moved j0 VALIDATING None t0).
  set (s1 := written (fun db => set_jobs (<[jid := j1]> (jobs db)) db) s).
  assert (Hset : _set_status j0 VALIDATING None t0 s = (Ok j1, s1)).
  { rewrite set_status_run by (by rewrite Hst). by rewrite Hpk. }
  rewrite (bind_run _ _ _ _ _ Hset). unfold get_importer. change (entity_type j1) with (entity_type j0). rewrite Hent.
  rewrite (bind_run _ _ s1 _COLUMNS s1) by done. change (mapping j1) with (mapping j0). fold um.
  destruct (scan_run j1 _COLUMNS um s1) as (r & s2 & Hscan & (n & new & Hnew & _ & Hall & Hj2 & Hs2 & Hc2 & Hf2 & _) & Hr).
  unfold try_else. rewrite Hscan.
  change (rows_of s1 j1) with (rows_of s j0) in Hr. change (job_pk j1) with (job_pk j0) in *.
  destruct r as [st|e].
  - destruct Hr as (Himp & [Hsum Hper] & (new' & Hnew' & Hlen & Hall' & _) & Htot & Hval).
    rewrite set_status_run by done. eexists _, _. split; [reflexivity|].
    unfold dry_run_outcome. cbn. rewrite Hj2, Hs2, Hc2, Hf2. cbn. rewrite Hpk, insert_insert_eq.
    split_and!; try done.
    + exists new'. rewrite <- Hpk. split_and!; try done. intros _. lia.
    + left. split_and!; try done.
  - destruct (validation_failed_run j1 t1 e s2) as (j & s' & Hrun & Hj' & Hs' & Hc' & Hf' & (x & Hx & Hxj) & Hst' & Hle);
      [done|].
    exists j, s'. split; [done|].
    unfold dry_run_outcome. rewrite Hj', Hs', Hc', Hf', Hx, Hj2, Hs2, Hc2, Hf2, Hnew. cbn. rewrite Hpk, insert_insert_eq.
    split_and!; try done.
    + exists (new ++ [x]). rewrite app_assoc. split_and!; [done| | |congruence].
      * apply Forall_app. split; [by rewrite <- Hpk|]. constructor; [|done]. by rewrite Hxj.
      * intros _. by destruct new.
    + by right.
Qed.
End DryRun.

(** Five rows, of which one has a short FEIN and one repeats a FEIN. *)
Lemma run_validation_outcome_witness :
  exists job s',
    run_validation DemoImport.cfg DemoImport.uuid "~" DemoImport.repr (fun _ => "") (fun _ => None) DemoImport.email
      DemoImport.csv DemoImport.xlsx (fun _ => "") (fun _ => "") "ten" "job" 5 6
      (DemoImport.with_job DemoImport.pending) = (Ok job, s') /\
    dry_run_outcome DemoImport.cfg DemoImport.repr DemoImport.email DemoImport.csv DemoImport.xlsx (fun _ => "")
      (fun _ => "") _COLUMNS None DemoImport.pending (DemoImport.with_job DemoImport.pending) job s'.
Proof.
  apply (run_validation_outcome DemoImport.cfg DemoImport.uuid "~" DemoImport.repr (fun _ => "") (fun _ => None)
           DemoImport.email DemoImport.csv DemoImport.xlsx (fun _ => "") (fun _ => "") "ten" "job" 5 6
           (DemoImport.with_job DemoImport.pending) DemoImport.pending); [done|reflexivity..].
Defined.

Example dry_run_counts :
  match (run_validation DemoImport.cfg DemoImport.uuid "~" DemoImport.repr (fun _ => "") (fun _ => None)
           DemoImport.email DemoImport.csv DemoImport.xlsx (fun _ => "") (fun _ => "") "ten" "job" 5 6
           (DemoImport.with_job DemoImport.pending)).1 with
  | Ok j => (job_status j, total_rows j, valid_rows j, invalid_rows j) = (DRY_RUN_READY, 5, 3, 2)
  | Raise _ => False
  end.
Proof. vm_compute. reflexivity. Qed.
