(* ===== verification/ImportCommit.v ===== *)
(** * The commit of an import

    What [run_commit] of Imports.v does to the job and to [suppliers], whatever
    other sessions commit between its transactions and whichever batches the
    database refuses. *)

From Stdlib Require Import Ascii.
From S2P Require Import Prelude PyStr Json Encoding ImportModels SupplierImporter AvScanner ImportFiles Imports ImportDryRun.

(** ** One chunk *)

Lemma logged_keeping jid n s s' :
  logged jid n s s' -> keeping (jobs (working (ses s))) (committed (ses s)) (files s) s'.
Proof. by intros (? & _ & _ & _ & ? & _ & ? & ? & _). Qed.

(** What a transaction may do to a tenant's suppliers. *)
Definition grew (tid : string) (n : Z) (db db' : ImportDB) : Prop :=
  others_of tid (suppliers db') = others_of tid (suppliers db) /\
  Z.of_nat (length (suppliers db')) = Z.of_nat (length (suppliers db)) + n /\
  forall e, In e (tenant_eins tid (suppliers db)) -> In e (tenant_eins tid (suppliers db')).

Lemma grew_suppliers tid db db' : suppliers db' = suppliers db -> grew tid 0 db db'.
Proof. intros H. unfold grew. rewrite H. split_and!; [done|lia|done]. Qed.

Lemma grew_trans tid n m a b c : grew tid n a b -> grew tid m b c -> grew tid (n + m) a c.
Proof. intros (Ho & Hl & He) (Ho' & Hl' & He'). split_and!; [congruence|lia|auto]. Qed.

Lemma table_ok_suppliers uuid tid db db' :
  suppliers db' = suppliers db -> (next_id db <= next_id db')%nat -> table_ok uuid tid db -> table_ok uuid tid db'.
Proof.
  intros Hs Hn [[Hnd Hall] Hu]. unfold table_ok, supplier_pks. rewrite Hs. split_and!; try done.
  intros s Hin. destruct (Hall s Hin) as (k & Hk & He). exists k. split; [lia|done].
Qed.


Section Chunk.
Context (uuid : nat -> string) (ellipsis : ascii).
Context (blip : list ValidatedRow -> option exn).
Context (others : nat -> ImportDB -> ImportDB).

Lemma split_duplicates_run jid od existing chunk s :
  exists d kept s', split_duplicates uuid ellipsis jid od existing chunk s = (Ok (d, kept), s') /\
    logged jid d s s' /\ 0 <= d /\ d + Z.of_nat (length kept) = Z.of_nat (length chunk) /\
    forall keys, Forall2 good_row chunk keys -> NoDup keys ->
      exists kept_keys, Forall2 good_row kept kept_keys /\ NoDup kept_keys /\
        (forall k, In k kept_keys -> In k keys) /\ (forall k, In k keys -> In k kept_keys \/ In k existing).
Proof.
  revert s. induction chunk as [|row chunk IH]; intros s; cbn [split_duplicates].
  - exists 0, [], s. split; [done|]. split; [apply logged_refl|]. split; [lia|]. split; [done|].
    intros keys H _. inversion H; subst. exists []. split_and!; [constructor|constructor|done|by left].
  - assert (Hkeep : exists d kept s',
      (let* r := split_duplicates uuid ellipsis jid od existing chunk in ret (r.1, row :: r.2)) s = (Ok (d, kept), s') /\
      logged jid d s s' /\ 0 <= d /\ d + Z.of_nat (length kept) = Z.of_nat (length (row :: chunk)) /\
      forall keys, Forall2 good_row (row :: chunk) keys -> NoDup keys ->
        exists kept_keys, Forall2 good_row kept kept_keys /\ NoDup kept_keys /\
          (forall k, In k kept_keys -> In k keys) /\ (forall k, In k keys -> In k kept_keys \/ In k existing)).
    { destruct (IH s) as (d & kept & s' & Hrun & Hlog & Hd & Hlen & Hkeys).
      exists d, (row :: kept), s'. rewrite (bind_run _ _ _ _ _ Hrun). split; [done|]. split; [done|]. split; [done|].
      split; [cbn [length]; lia|]. intros keys HF Hnd. inversion HF as [|? key ? keys' Hrow HF']; subst.
      apply NoDup_cons in Hnd as [Hk Hnd]. destruct (Hkeys keys' HF' Hnd) as (kk & HF2 & Hnd2 & Hsub & Hcov).
      exists (key :: kk). split; [by constructor|]. split.
      { apply NoDup_cons. split; [|done]. intros Hin. apply Hk, list_elem_of_In, Hsub. by apply list_elem_of_In. }
      split; [intros k [->|Hin]; [by left|right; auto]|].
      intros k [->|Hin]; [by left; left|]. destruct (Hcov k Hin); [left; by right|by right]. }
    destruct (dedupe_key row) as [k|] eqn:Hdk; [|done].
    destruct (String.eqb od "error" && truthy k && mem k existing) eqn:Hc; [|done].
    apply andb_true_iff in Hc as [_ Hm]. apply mem_In in Hm.
    destruct (add_row_error_logged uuid jid (row_number row) (Some "fein") (truncate_value ellipsis (Some k))
                "duplicate_fein_existing" "Supplier with this FEIN already exists for this tenant." s) as (s1 & H1 & Hl1).
    destruct (IH s1) as (d & kept & s' & Hrun & Hlog & Hd & Hlen & Hkeys).
    exists (d + 1), kept, s'. rewrite (bind_run _ _ _ _ _ H1), (bind_run _ _ _ _ _ Hrun). split; [done|].
    split; [rewrite Z.add_comm; by eapply logged_trans|]. split; [lia|]. split; [cbn [length]; lia|].
    intros keys HF Hnd. inversion HF as [|? key ? keys' Hrow HF']; subst. apply NoDup_cons in Hnd as [_ Hnd].
    destruct (Hkeys keys' HF' Hnd) as (kk & HF2 & Hnd2 & Hsub & Hcov). exists kk. split_and!; try done.
    + intros k' Hin. right. auto.
    + intros k' [<-|Hin]; [|auto]. right. destruct Hrow as (dd & _ & _ & Hk' & _). congruence.
Qed.

(** The tables after a batch that goes through. *)
Definition landed (tid : string) (keys : list string) (n : Z) (db db' : ImportDB) : Prop :=
  table_ok uuid tid db' /\ grew tid n db db' /\
  forall k, In k keys -> In k (tenant_eins tid (suppliers db')).

Lemma chunk_transaction_run `{!Inj (=) (=) uuid} tid jid od chunk s r s' :
  chunk_transaction uuid ellipsis blip tid jid od chunk s = (r, s') ->
  files s' = files s /\
  match r with
  | Ok c =>
      counts_ok c (Z.of_nat (length chunk)) /\
      committed (ses s') = working (ses s') /\ jobs (working (ses s')) = jobs (working (ses s)) /\
      forall keys, Forall2 good_row chunk keys -> NoDup keys -> table_ok uuid tid (working (ses s)) ->
        landed tid keys (c_inserted c) (working (ses s)) (working (ses s'))
  | Raise _ => committed (ses s') = committed (ses s)
  end.
Proof.
  intros Hrun. unfold chunk_transaction in Hrun. unfold bind at 1, db_query, reads in Hrun.
  set (existing := existing_dedupe_keys tid (chunk_keys chunk) (working (ses s))) in Hrun.
  destruct (split_duplicates_run jid od existing chunk s) as (d & kept & s1 & H1 & Hl1 & Hd & Hlen & Hkeys).
  rewrite (bind_run _ _ _ _ _ H1) in Hrun. cbn [fst snd] in Hrun.
  pose proof (logged_keeping _ _ _ _ Hl1) as Hk1.
  pose proof (insert_batch_keeping uuid blip tid od _ _ _ kept s1 Hk1) as (HJ & HC & HF).
  unfold bind at 1 in Hrun. destruct (insert_batch uuid blip tid kept od s1) as [[c1|e] s2] eqn:Hb;
    cbn [snd] in HJ, HC, HF; [|by injection Hrun as <- <-].
  unfold db_commit, modify, bind, ret in Hrun. injection Hrun as <- <-. cbn [ses files committed working].
  apply insert_batch_total in Hb as Hcnt. split; [done|]. split.
  { unfold counts_ok, counts_total in *. cbn. lia. }
  split; [done|]. split; [done|]. intros keys HFg Hnd Htab.
  destruct (Hkeys keys HFg Hnd) as (kk & HF2 & Hnd2 & Hsub & Hcov).
  destruct Hl1 as (new & _ & _ & _ & Hj1 & Hs1 & _ & _ & Hn1).
  assert (Htab1 : table_ok uuid tid (working (ses s1))) by (by eapply table_ok_suppliers).
  destruct (insert_batch_effect uuid _ tid blip kept kk od s1 c1 s2 HF2 Hnd2 Htab1 Hb)
    as (_ & _ & _ & Htab2 & (Ho & _ & _ & Hg & He) & Hin).
  split; [done|]. split; [rewrite Hs1 in *; by split_and!|].
  intros k Hk. destruct (Hcov k Hk) as [?|Hex]; [by apply Hin|]. apply He. rewrite Hs1.
  by apply existing_dedupe_keys_spec in Hex as [_ ?].
Qed.

(** A chunk never raises: it lands whole, or leaves the suppliers as the other
    sessions left them and counts all its rows as errors. *)
Lemma commit_chunk_run `{!Inj (=) (=) uuid} k tid jid od chunk s :
  let db := others k (committed (ses s)) in
  exists c errs s', _commit_chunk uuid ellipsis blip others k tid jid od chunk s = (Ok (c, errs), s') /\
    files s' = files s /\ counts_ok c (Z.of_nat (length chunk)) /\
    committed (ses s') = working (ses s') /\ jobs (committed (ses s')) = jobs db /\
    (errs = [] /\
       (forall keys, Forall2 good_row chunk keys -> NoDup keys -> table_ok uuid tid db ->
          landed tid keys (c_inserted c) db (committed (ses s')))
     \/ errs <> [] /\ suppliers (committed (ses s')) = suppliers db /\
        (next_id db <= next_id (committed (ses s')))%nat /\
        c = {| c_inserted := 0; c_updated := 0; c_skipped := 0; c_errors := Z.of_nat (length chunk) |} /\
        exists x, row_errors (committed (ses s')) = row_errors db ++ [x] /\
          import_job_id x = jid /\ re_code x = "chunk_failed").
Proof.
  cbv zeta. unfold _commit_chunk, new_session. unfold bind at 1, modify.
  set (s1 := {| ses := Session _ _; files := _ |}). unfold try_except, bind at 1.
  destruct (chunk_transaction uuid ellipsis blip tid jid od chunk s1) as [r s2] eqn:Hrun.
  apply chunk_transaction_run in Hrun as [Hf Hr]. destruct r as [c|e].
  - destruct Hr as (Hc & HC & HJ & Hland). eexists c, [], s2. split; [done|]. split; [done|]. split; [done|].
    split; [done|]. split; [by rewrite HC|]. left. split; [done|]. by rewrite HC.
  - unfold db_rollback, modify, bind, add_row_error, db_write, db_commit, ret. eexists _, _, _. split; [reflexivity|].
    cbn. rewrite Hr, Hf. cbn. split; [done|]. split; [unfold counts_ok, counts_total; cbn; lia|].
    split; [done|]. split; [done|]. right. split_and!; try done; [lia|]. by eexists.
Qed.
End Chunk.

(** ** The loop over the rows *)

(** Other sessions leave [suppliers] alone. *)
Definition others_quiet (others : nat -> ImportDB -> ImportDB) : Prop :=
  forall k db, suppliers (others k db) = suppliers db /\ (next_id db <= next_id (others k db))%nat.
(** The job is in its table, under its primary key. *)
Definition job_at (jid : string) (db : ImportDB) : Prop := exists j, jobs db !! jid = Some j /\ job_pk j = jid.
(** Other sessions do not delete the job. *)
Definition others_keep (others : nat -> ImportDB -> ImportDB) (jid : string) : Prop :=
  forall k db, job_at jid db -> job_at jid (others k db).

Definition is_accepted (vr : ValidatedRow) (key : string) : Prop := good_row vr key /\ ok vr = true.

Section Rows.
Context (cfg : ImportSettings) (uuid : nat -> string) (ellipsis : ascii).
Context (validate_email : string -> string + string).
Context (blip : list ValidatedRow -> option exn).
Context (others : nat -> ImportDB -> ImportDB).
Context (tid jid od : string).

(** The rows waiting in the chunk are valid, with distinct FEINs already
    counted as seen, and the committed table is in order. *)
Definition loop_ok (st : commit_state) (s : St) : Prop :=
  Forall2 good_row (co_chunk st) (chunk_keys (co_chunk st)) /\ NoDup (chunk_keys (co_chunk st)) /\
  (forall k, In k (chunk_keys (co_chunk st)) -> In k (co_keys st)) /\
  table_ok uuid tid (committed (ses s)).

(** [n] rows of the file were taken, of which those of [acc] are new and valid. *)
Record step_ok (n : Z) (acc : list ValidatedRow) (st : commit_state) (s : St) (st' : commit_state) (s' : St)
  : Prop := {
  st_files : files s' = files s;
  st_counts : forall m, counts_ok (co_counts st) m ->
    counts_ok (co_counts st')
      (m + n + Z.of_nat (length (co_chunk st)) - Z.of_nat (length (co_chunk st')));
  st_errors : c_errors (co_counts st) + n - Z.of_nat (length acc) <= c_errors (co_counts st');
  st_job : others_keep others jid -> job_at jid (committed (ses s)) -> job_at jid (committed (ses s'));
  st_table : others_quiet others -> loop_ok st s ->
    loop_ok st' s' /\
    grew tid (c_inserted (co_counts st') - c_inserted (co_counts st)) (committed (ses s)) (committed (ses s')) /\
    (co_chunk_errors st' = [] -> co_chunk_errors st = [] /\
       forall k, In k (chunk_keys (co_chunk st) ++ chunk_keys acc) ->
         In k (chunk_keys (co_chunk st')) \/ In k (tenant_eins tid (suppliers (committed (ses s')))));
}.

(** A chunk that is waiting is smaller than a full one. *)
Definition room (st : commit_state) : Prop := Z.of_nat (length (co_chunk st)) < Z.max 1 (import_chunk_size cfg).

Lemma chunk_keys_app a b : chunk_keys (a ++ b) = chunk_keys a ++ chunk_keys b.
Proof. apply omap_app. Qed.

Lemma step_refl st s : step_ok 0 [] st s st s.
Proof.
  split; [done| |cbn; lia|done|].
  - intros m Hm. by replace (m + 0 + _ - _) with m by lia.
  - intros _ Hl. split; [done|]. split; [rewrite Z.sub_diag; by apply grew_suppliers|].
    intros He. split; [done|]. intros k. rewrite app_nil_r. by left.
Qed.

Lemma step_trans n1 n2 a1 a2 st1 s1 st2 s2 st3 s3 :
  step_ok n1 a1 st1 s1 st2 s2 -> step_ok n2 a2 st2 s2 st3 s3 -> step_ok (n1 + n2) (a1 ++ a2) st1 s1 st3 s3.
Proof.
  intros [Hf1 Hc1 He1 Hj1 Ht1] [Hf2 Hc2 He2 Hj2 Ht2]. split.
  - congruence.
  - intros m Hm. specialize (Hc2 _ (Hc1 m Hm)). by match goal with
      | H : counts_ok ?c ?x |- counts_ok ?c ?y => replace y with x by lia end.
  - rewrite length_app. lia.
  - auto.
  - intros Hq Hl. destruct (Ht1 Hq Hl) as (Hl2 & Hg1 & Hk1). destruct (Ht2 Hq Hl2) as (Hl3 & Hg2 & Hk2).
    split; [done|]. split.
    + replace (_ - _) with ((c_inserted (co_counts st2) - c_inserted (co_counts st1))
        + (c_inserted (co_counts st3) - c_inserted (co_counts st2))) by lia. by eapply grew_trans.
    + intros He. destruct (Hk2 He) as [He' Hr2]. destruct (Hk1 He') as [He'' Hr1]. split; [done|].
      intros k Hin. rewrite chunk_keys_app, app_assoc in Hin. apply in_app_or in Hin as [Hin|Hin].
      * destruct (Hr1 k Hin) as [Hck|Hei]; [apply Hr2, in_or_app; by left|right]. by apply Hg2.
      * apply Hr2, in_or_app. by right.
Qed.

Lemma flush_step `{!Inj (=) (=) uuid} st s :
  exists st' s', flush_chunk uuid ellipsis blip others tid jid od st s = (Ok st', s') /\
    step_ok 0 [] st s st' s' /\ co_chunk st' = [] /\ co_keys st' = co_keys st /\
    co_row_number st' = co_row_number st.
Proof.
  destruct (commit_chunk_run uuid ellipsis blip others (co_sessions st) tid jid od (co_chunk st) s)
    as (c & errs & s' & Hrun & Hf & Hc & _ & Hj & Hland).
  unfold flush_chunk. eexists _, s'. rewrite (bind_run _ _ _ _ _ Hrun). split; [reflexivity|]. split; [|done].
  split; cbn.
  - done.
  - intros m Hm. replace (m + 0 + _ - _) with (m + Z.of_nat (length (co_chunk st))) by lia. by apply counts_ok_add.
  - destruct Hc as (_ & _ & _ & _ & ?). lia.
  - intros Hk Hs. unfold job_at. rewrite Hj. by apply Hk.
  - intros Hq (HF & Hnd & Hseen & Htab). destruct (Hq (co_sessions st) (committed (ses s))) as [Hqs Hqn].
    assert (Htab' : table_ok uuid tid (others (co_sessions st) (committed (ses s))))
      by (by eapply table_ok_suppliers).
    assert (Hg0 : grew tid 0 (committed (ses s)) (others (co_sessions st) (committed (ses s))))
      by (by apply grew_suppliers).
    replace (c_inserted (co_counts st) + c_inserted c - c_inserted (co_counts st)) with (0 + c_inserted c) by lia.
    destruct Hland as [[-> Hl]|(Hne & Hs & Hn & -> & _)].
    + destruct (Hl _ HF Hnd Htab') as (Htab2 & Hg & Hin).
      split; [split; [constructor|split; [constructor|split; done]]|]. split; [by eapply grew_trans|].
      intros He. rewrite app_nil_r in He. split; [done|]. rewrite app_nil_r. auto.
    + split; [split_and!; [constructor|constructor|done|by eapply table_ok_suppliers]|].
      split; [eapply grew_trans; [done|by apply grew_suppliers]|].
      intros He. by apply app_nil in He as [_ ?].
Qed.

Local Abbreviation row_of := (validated validate_email).

(** A valid row is a good row under its FEIN. *)
Lemma validated_good columns um n raw :
  ok (row_of columns um n raw) = true ->
  exists key, good_row (row_of columns um n raw) key /\ dedupe_key (row_of columns um n raw) = Some key /\
    truthy key = true.
Proof.
  intros Hok. destruct (validate_row_key validate_email _ _ Hok) as (d & f & Hd & He & Hk & Ht).
  exists f. split; [by exists d|done].
Qed.

Lemma commit_row_step `{!Inj (=) (=) uuid} columns um raw st s :
  let '(o, keys') := accept_step (co_keys st) (row_of columns um (co_row_number st + 1) raw) in
  exists st' s',
    commit_row cfg uuid ellipsis validate_email blip others tid jid od columns um raw st s = (Ok st', s') /\
    step_ok 1 (option_list o) st s st' s' /\ co_keys st' = keys' /\ co_row_number st' = co_row_number st + 1 /\
    (room st -> room st').
Proof.
  unfold commit_row. fold (row_of columns um (co_row_number st + 1) raw).
  set (n := co_row_number st + 1). set (vr := row_of columns um n raw).
  assert (Herr : exists s', ret (E := exn) (with_error st n) s = (Ok (with_error st n), s') /\
            step_ok 1 [] st s (with_error st n) s').
  { exists s. split; [done|]. split; [done| |cbn; lia|done|].
    - intros m Hm. replace (m + 1 + _ - _) with (m + 1) by (cbn; lia).
      apply counts_ok_add; [done|]. unfold counts_ok, counts_total. cbn. lia.
    - intros _ Hl. split; [done|]. split; [cbn; rewrite Z.add_0_r, Z.sub_diag; by apply grew_suppliers|].
      cbn. intros He. split; [done|]. intros k. rewrite app_nil_r. by left. }
  destruct Herr as (s' & Hrun & Hstep). unfold accept_step.
  destruct (ok vr) eqn:Hok; cbn [negb]; [|by exists (with_error st n), s'].
  destruct (validated_good columns um n raw Hok) as (key & Hgood & Hkey & Ht). fold vr in Hgood, Hkey.
  rewrite Hkey, Ht. cbn [andb].
  destruct (mem key (co_keys st)) eqn:Hm; [by exists (with_error st n), s'|]. clear s' Hrun Hstep.
  set (st1 := with_row st n (key :: co_keys st) vr).
  assert (Hck : chunk_keys [vr] = [key]) by (unfold chunk_keys; cbn; by rewrite Hkey, Ht).
  assert (Hstep1 : step_ok 1 [vr] st s st1 s).
  { split; [done| |cbn; lia|done|].
    - intros m Hmm. replace (m + 1 + _ - _) with m by (cbn; rewrite length_app; cbn; lia). done.
    - intros _ (HF & Hnd & Hseen & Htab). split.
      + unfold loop_ok, st1. cbn [co_chunk co_keys with_row]. rewrite chunk_keys_app, Hck. split_and!.
        * apply Forall2_app; [done|]. by repeat constructor.
        * apply NoDup_app. split; [done|]. split; [|apply NoDup_singleton].
          intros k Hin Hk. apply list_elem_of_singleton in Hk as ->. apply list_elem_of_In, Hseen, mem_In in Hin.
          congruence.
        * intros k [Hin|[<-|[]]]%in_app_or; [right; auto|by left].
        * done.
      + split; [cbn; rewrite Z.sub_diag; by apply grew_suppliers|]. cbn. intros He. split; [done|].
        intros k Hin. rewrite chunk_keys_app. by left. }
  destruct (Z.leb_spec (Z.max 1 (import_chunk_size cfg)) (Z.of_nat (length (co_chunk st1)))).
  - destruct (flush_step st1 s) as (st2 & s2 & Hrun & Hstep2 & Hc2 & Hk2 & Hn2).
    exists st2, s2. split; [done|]. split; [by apply (step_trans 1 0 [vr] [] _ _ st1 s)|].
    split_and!; [done|done|]. intros _. unfold room. rewrite Hc2. cbn. lia.
  - by exists st1, s.
Qed.

Lemma commit_rows_run `{!Inj (=) (=) uuid} columns um rows stop st s :
  exists st' s',
    commit_rows cfg uuid ellipsis validate_email blip others tid jid od columns um rows stop st s
      = (Ok (st', stop), s') /\
    step_ok (Z.of_nat (length rows)) (accepted_from validate_email columns um (co_keys st) (co_row_number st) rows)
      st s st' s' /\
    (stop = None -> co_chunk st' = []) /\ (room st -> room st').
Proof.
  revert st s. induction rows as [|raw rows IH]; intros st s; cbn [commit_rows accepted_from].
  - destruct stop as [e|]; [exists st, s; split; [done|]; split; [apply step_refl|done]|].
    destruct (co_chunk st) as [|vr chunk] eqn:Hchunk; [exists st, s; split; [done|]; split; [apply step_refl|done]|].
    destruct (flush_step st s) as (st' & s' & Hrun & Hstep & Hempty & _).
    exists st', s'. rewrite (bind_run _ _ _ _ _ Hrun). split_and!; [done|done|done|].
    intros _. unfold room. rewrite Hempty. cbn. lia.
  - pose proof (commit_row_step columns um raw st s) as Hrow.
    destruct (accept_step (co_keys st) _) as [o keys'].
    destruct Hrow as (st1 & s1 & Hrun1 & Hstep1 & Hk1 & Hn1 & Hr1).
    destruct (IH st1 s1) as (st' & s' & Hrun & Hstep & Hend & Hr). rewrite Hk1, Hn1 in Hstep.
    exists st', s'. rewrite (bind_run _ _ _ _ _ Hrun1). split; [done|]. split; [|split; [done|auto]].
    cbn [length]. rewrite Nat2Z.inj_succ, <- Z.add_1_l. by eapply step_trans.
Qed.
End Rows.

(** ** The whole commit *)

Section Commit.
Context (cfg : ImportSettings) (uuid : nat -> string) (ellipsis : ascii) (repr : option string -> string)
  (repr_other : json -> string) (json_loads : string -> option json)
  (validate_email : string -> string + string)
  (csv_cells : bytes -> list (list string) * option exn)
  (xlsx_cells : bytes -> list (list cell) * option exn)
  (repr_float : SpecFloat.spec_float -> string) (str_cell : cell -> string).
Context (blip : list ValidatedRow -> option exn).
Context (others : nat -> ImportDB -> ImportDB).

Local Abbreviation commit_job := (run_commit cfg uuid ellipsis repr repr_other json_loads validate_email
  csv_cells xlsx_cells repr_float str_cell blip others).
Local Abbreviation rows_of s job := (iter_rows repr csv_cells xlsx_cells repr_float str_cell (files s)
  (file_url job) (original_filename job)).
Local Abbreviation um_of job := (_normalize_mapping repr_other json_loads (mapping job)).
Local Abbreviation taken s job := (accepted validate_email _COLUMNS (um_of job) (rows_of s job).1).

(** The job another session may have changed before the commit starts: ready,
    of the tenant, for suppliers. *)
Record ready (tid jid : string) (s : St) (j0 : ImportJob) : Prop := {
  rd_tenant : tid <> "";
  rd_job : jobs (others 0 (committed (ses s))) !! jid = Some j0;
  rd_pk : job_pk j0 = jid;
  rd_of_tenant : job_tenant_id j0 = tid;
  rd_status : job_status j0 = DRY_RUN_READY;
  rd_entity : entity_type j0 = SUPPLIER;
}.

(** The commit up to its last session. *)
Lemma run_commit_loop `{!Inj (=) (=) uuid} tid jid now s j0 :
  ready tid jid s j0 ->
  exists st s1,
    commit_job tid jid now s =
      (new_session others (co_sessions st) ;;;
       let* final := db_query (fun db => jobs db !! jid) in
       match (rows_of s j0).2 with
       | Some e =>
           match final with
           | Some j => put_job (with_last_error (Some (stake 2000 ("commit_error: " +:+ exn_str e)))
                                  (finished st FAILED (Some (exn_class e +:+ ": " +:+ exn_str e)) now j)) ;;; db_commit
           | None => ret tt
           end ;;;
           raise e
       | None =>
           match final with
           | Some j => let* j := put_job (finished st COMPLETED None now j) in db_commit ;;; ret j
           | None => raise (JobNotFoundError ("Import job " +:+ repr (Some jid) +:+ " disappeared."))
           end
       end) s1 /\
    files s1 = files s /\
    (exists n, counts_ok (co_counts st) n /\
       n = Z.of_nat (length (rows_of s j0).1) - Z.of_nat (length (co_chunk st))) /\
    Z.of_nat (length (rows_of s j0).1) - Z.of_nat (length (taken s j0)) <= c_errors (co_counts st) /\
    ((rows_of s j0).2 = None -> co_chunk st = []) /\ room cfg st /\
    (others_keep others jid -> job_at jid (committed (ses s1))) /\
    (others_quiet others -> table_ok uuid tid (committed (ses s)) ->
       table_ok uuid tid (committed (ses s1)) /\
       grew tid (c_inserted (co_counts st)) (committed (ses s)) (committed (ses s1)) /\
       (co_chunk_errors st = [] -> forall k, In k (chunk_keys (taken s j0)) ->
          In k (chunk_keys (co_chunk st)) \/ In k (tenant_eins tid (suppliers (committed (ses s1)))))).
Proof.
  intros [Htid Hj Hpk Hten Hst Hent]. unfold run_commit.
  rewrite (proj2 (truthy_spec tid) Htid). cbn [negb raise_if]. rewrite (bind_run _ _ s tt s) by done.
  set (db0 := others 0 (committed (ses s))) in *.
  rewrite (bind_run (new_session others 0) _ s tt {| ses := Session db0 db0; files := files s |}) by done.
  set (s0 := {| ses := Session db0 db0; files := files s |}).
  assert (Hget : get_job repr tid jid s0 = (Ok j0, s0)).
  { unfold get_job, db_query, reads, bind, job_of. cbn. rewrite Hj, Hten, String.eqb_refl. done. }
  rewrite (bind_run _ _ _ _ _ Hget). rewrite Hst. cbn [negb bool_decide raise_if].
  rewrite (bind_run _ _ s0 tt s0) by done.
  set (j1 := moved j0 IMPORTING None now).
  rewrite (bind_run _ _ _ _ _ (set_status_run j0 IMPORTING None now s0 ltac:(by rewrite Hst))). fold j1. rewrite Hpk.
  set (db1 := set_jobs (<[jid := j1]> (jobs db0)) db0).
  unfold db_write at 1. unfold bind at 1. unfold modify at 1. unfold db_commit at 1. unfold bind at 1. unfold modify at 1.
  cbn [ses working committed files written].
  set (s2 := {| ses := Session _ _; files := files s0 |}).
  unfold get_importer. change (entity_type j1) with (entity_type j0). rewrite Hent.
  rewrite (bind_run _ _ s2 _COLUMNS s2) by done.
  change (mapping j1) with (mapping j0). change (on_duplicate j1) with (on_duplicate j0).
  change (file_url j1) with (file_url j0). change (original_filename j1) with (original_filename j0).
  change (job_tenant_id j1) with (job_tenant_id j0). rewrite Hten.
  rewrite (bind_run _ _ s2 (rows_of s j0) s2) by done.
  destruct (commit_rows_run cfg uuid ellipsis validate_email blip others tid jid (on_duplicate j0) _COLUMNS
              (um_of j0) (rows_of s j0).1 (rows_of s j0).2 commit_start s2) as (st & s1 & Hrun & [Hf Hc He Hkj Ht] & Hend & Hroom).
  exists st, s1. rewrite (bind_run _ _ _ _ _ Hrun). split; [done|]. split; [done|].
  change (accepted_from validate_email _COLUMNS (um_of j0) (co_keys commit_start) (co_row_number commit_start)
            (rows_of s j0).1) with (taken s j0) in *.
  split; [|split; [|split; [done|split; [|split]]]].
  - eexists. split; [apply (Hc 0)|]; [unfold counts_ok, counts_total; cbn; lia|cbn; lia].
  - cbn in He. lia.
  - apply Hroom. unfold room. cbn. lia.
  - intros Hk. apply Hkj; [done|]. exists j1. cbn. by rewrite lookup_insert_eq.
  - intros Hq Htab. destruct (Hq 0%nat (committed (ses s))) as [Hqs Hqn].
    assert (Htab2 : table_ok uuid tid (committed (ses s2))) by (by eapply table_ok_suppliers).
    destruct Ht as ((_ & _ & _ & Htab1) & Hg & Hreach); [done|split; [constructor|split; [constructor|done]]|].
    split; [done|]. split.
    + replace (c_inserted (co_counts st)) with (0 + (c_inserted (co_counts st) - c_inserted (co_counts commit_start)))
        by (cbn; lia). eapply grew_trans; [|done]. by apply grew_suppliers.
    + intros Hce k Hk. destruct (Hreach Hce) as [_ Hr]. apply Hr. by apply in_or_app; right.
Qed.

(** C4. Completion and accounting: a commit of a ready job ends the job,
    whatever other sessions commit between the chunks short of deleting the job,
    and whichever chunks the database refuses.  When the file can be read to
    its end the call returns the job, COMPLETED: every row of the file is counted exactly
    once as inserted, updated, skipped or an error, and at most the accepted
    rows are written or skipped.  When the reader stops with an exception the
    call raises it and the job is FAILED with its text: the rows read are
    counted in the same way but for those of the unfinished chunk, which are
    fewer than a full one.  The job records the numbers.  A cancel that another
    session commits meanwhile is no exception: the job ends COMPLETED or FAILED
    all the same, where the module's own documentation and docs/IMPORTS.md
    promise that it aborts. *)
Theorem run_commit_accounts `{!Inj (=) (=) uuid} tid jid now s j0 :
  ready tid jid s j0 -> others_keep others jid ->
  exists job r s' st, commit_job tid jid now s = (r, s') /\
    jobs (committed (ses s')) !! jid = Some job /\
    imported_rows job = c_inserted (co_counts st) + c_updated (co_counts st) /\
    match (rows_of s j0).2 with
    | None =>
        r = Ok job /\ job_status job = COMPLETED /\
        assoc "commit" (default [] (summary job)) = Some (commit_summary st None) /\
        counts_ok (co_counts st) (Z.of_nat (length (rows_of s j0).1)) /\
        c_inserted (co_counts st) + c_updated (co_counts st) + c_skipped (co_counts st)
          <= Z.of_nat (length (taken s j0))
    | Some e =>
        r = Raise e /\ job_status job = FAILED /\
        job_last_error job = Some (stake 2000 ("commit_error: " +:+ exn_str e)) /\
        assoc "commit" (default [] (summary job))
          = Some (commit_summary st (Some (exn_class e +:+ ": " +:+ exn_str e))) /\
        exists pending, 0 <= pending < Z.max 1 (import_chunk_size cfg) /\
          counts_ok (co_counts st) (Z.of_nat (length (rows_of s j0).1) - pending)
    end.
Proof.
  intros Hready Hkeep.
  destruct (run_commit_loop tid jid now s j0 Hready)
    as (st & s1 & Hrun & _ & (n & Hc & ->) & He & Hempty & Hroom & Hk & _).
  rewrite Hrun. destruct (Hkeep (co_sessions st) _ (Hk Hkeep)) as (j & Hj & Hpk).
  unfold new_session, db_query, reads, bind at 1, modify, bind at 1. cbn [ses working]. rewrite Hj.
  destruct (rows_of s j0).2 as [e|] eqn:Hstop; unfold put_job, db_write, db_commit, raise, modify, bind, ret;
    eexists _, _, _, st; (split; [reflexivity|]); cbn [ses committed working jobs set_jobs];
    (split; [rewrite <- Hpk; apply lookup_insert_eq|]); (split; [done|]); (split; [done|]); (split; [done|]).
  - split; [done|]. split; [apply assoc_set_key|]. exists (Z.of_nat (length (co_chunk st))).
    split; [|done]. unfold room in Hroom. lia.
  - split; [apply assoc_set_key|]. rewrite (Hempty eq_refl) in Hc. cbn in Hc. rewrite Z.sub_0_r in Hc.
    split; [done|]. unfold counts_ok, counts_total in Hc. lia.
Qed.

(** C9. The commit keeps the supplier table in order: when other sessions leave
    [suppliers] alone, distinct primary keys and one supplier per FEIN of the
    tenant still hold after the whole import, in every duplicate mode and
    whatever chunks fail; the table grows by exactly the rows reported inserted,
    no FEIN and no other tenant's row is lost or changed; and when no chunk
    failed every accepted row's FEIN is there. *)
Theorem run_commit_table `{!Inj (=) (=) uuid} tid jid now s j0 :
  ready tid jid s j0 -> others_keep others jid -> others_quiet others -> table_ok uuid tid (committed (ses s)) ->
  (rows_of s j0).2 = None ->
  exists job s' st, commit_job tid jid now s = (Ok job, s') /\
    assoc "commit" (default [] (summary job)) = Some (commit_summary st None) /\
    table_ok uuid tid (committed (ses s')) /\
    grew tid (c_inserted (co_counts st)) (committed (ses s)) (committed (ses s')) /\
    (co_chunk_errors st = [] -> forall vr key, In vr (taken s j0) -> dedupe_key vr = Some key -> truthy key = true ->
       In key (tenant_eins tid (suppliers (committed (ses s'))))).
Proof.
  intros Hready Hkeep Hquiet Htab Hstop.
  destruct (run_commit_loop tid jid now s j0 Hready) as (st & s1 & Hrun & _ & _ & _ & Hempty & _ & Hk & Htable).
  rewrite Hrun, Hstop. destruct (Htable Hquiet Htab) as (Htab1 & Hg1 & Hin).
  destruct (Hkeep (co_sessions st) _ (Hk Hkeep)) as (j & Hj & Hpk).
  destruct (Hquiet (co_sessions st) (committed (ses s1))) as [Hs Hn].
  unfold new_session, db_query, reads, bind at 1, modify, bind at 1. cbn [ses working]. rewrite Hj.
  unfold put_job, db_write, db_commit, modify, bind, ret. eexists _, _, st. split; [reflexivity|].
  cbn [ses committed working set_jobs]. split; [apply assoc_set_key|]. split; [by eapply table_ok_suppliers|].
  split.
  - rewrite <- (Z.add_0_r (c_inserted _)). eapply grew_trans; [done|]. by apply grew_suppliers.
  - intros He vr key Hvr Hkey Ht. cbn [suppliers set_jobs]. rewrite Hs.
    destruct (Hin He key) as [Hc|]; [|by rewrite (Hempty Hstop) in Hc|done].
    unfold chunk_keys. rewrite <- list_elem_of_In, list_elem_of_omap. exists vr.
    rewrite list_elem_of_In, Hkey, Ht. done.
Qed.

(** An unreadable file: when the reader stops with an exception in the
    middle, the commit raises that exception, but the job is left failed with
    the text of the exception and with the counts of what the earlier chunks
    did, and those chunks stay. *)
Theorem run_commit_reader_fails `{!Inj (=) (=) uuid} tid jid now s j0 e :
  ready tid jid s j0 -> others_keep others jid -> (rows_of s j0).2 = Some e ->
  exists j s' st, commit_job tid jid now s = (Raise e, s') /\
    jobs (committed (ses s')) !! jid = Some j /\ job_status j = FAILED /\
    job_last_error j = Some (stake 2000 ("commit_error: " +:+ exn_str e)) /\
    assoc "commit" (default [] (summary j)) = Some (commit_summary st (Some (exn_class e +:+ ": " +:+ exn_str e))) /\
    imported_rows j = c_inserted (co_counts st) + c_updated (co_counts st) /\
    counts_ok (co_counts st) (Z.of_nat (length (rows_of s j0).1) - Z.of_nat (length (co_chunk st))) /\
    (others_quiet others -> table_ok uuid tid (committed (ses s)) ->
       table_ok uuid tid (committed (ses s')) /\
       grew tid (c_inserted (co_counts st)) (committed (ses s)) (committed (ses s'))).
Proof.
  intros Hready Hkeep Hstop.
  destruct (run_commit_loop tid jid now s j0 Hready) as (st & s1 & Hrun & _ & (n & Hc & ->) & _ & _ & _ & Hk & Htable).
  rewrite Hrun, Hstop. destruct (Hkeep (co_sessions st) _ (Hk Hkeep)) as (j & Hj & Hpk).
  unfold new_session, db_query, reads, bind at 1, modify, bind at 1. cbn [ses working]. rewrite Hj.
  unfold put_job, db_write, db_commit, raise, modify, bind, ret. eexists _, _, st. split; [reflexivity|].
  cbn [ses committed working jobs set_jobs]. split; [rewrite <- Hpk; apply lookup_insert_eq|]. split; [done|]. split; [done|].
  split; [apply assoc_set_key|]. split; [done|]. split; [done|].
  intros Hquiet Htab. destruct (Htable Hquiet Htab) as (Htab1 & Hg1 & _).
  destruct (Hquiet (co_sessions st) (committed (ses s1))) as [Hs Hn].
  split; [by eapply table_ok_suppliers|].
  rewrite <- (Z.add_0_r (c_inserted _)). eapply grew_trans; [done|]. by apply grew_suppliers.
Qed.
End Commit.

(** Atomic chunks: committing a chunk never raises.  Either it lands whole -
    tables in order, the reported number of suppliers added, every FEIN of the
    chunk present - or [suppliers] is exactly as the other sessions left it, all
    its rows are counted as errors, and one [chunk_failed] error of the job is
    recorded. *)
Theorem chunk_atomic uuid `{!Inj (=) (=) uuid} ellipsis blip others k tid jid od chunk keys s :
  let db := others k (committed (ses s)) in
  Forall2 good_row chunk keys -> NoDup keys -> table_ok uuid tid db ->
  exists c errs s', _commit_chunk uuid ellipsis blip others k tid jid od chunk s = (Ok (c, errs), s') /\
    counts_ok c (Z.of_nat (length chunk)) /\
    (errs = [] /\ landed uuid tid keys (c_inserted c) db (committed (ses s')) \/
     errs <> [] /\ suppliers (committed (ses s')) = suppliers db /\
       c_errors c = Z.of_nat (length chunk) /\
       exists x, row_errors (committed (ses s')) = row_errors db ++ [x] /\
         import_job_id x = jid /\ re_code x = "chunk_failed").
Proof.
  intros db Hg Hnd Htab. unfold db in *.
  destruct (commit_chunk_run uuid ellipsis blip others k tid jid od chunk s)
    as (c & errs & s' & Hrun & _ & Hc & _ & _ & Hl).
  exists c, errs, s'. split; [done|]. split; [done|].
  destruct Hl as [[He Hl]|(He & Hs & _ & -> & Hx)]; [left; split; [done|by apply Hl]|by right].
Qed.

(** ** Witnesses *)

Definition ready_job : ImportJob := with_status DRY_RUN_READY DemoImport.pending.

Lemma ready_ok (others : nat -> ImportDB -> ImportDB) :
  jobs (others O (committed (ses (DemoImport.with_job ready_job)))) !! "job" = Some ready_job ->
  ready others "ten" "job" (DemoImport.with_job ready_job) ready_job.
Proof. by split. Qed.

Lemma nobody_keeps jid : others_keep (fun _ db => db) jid.
Proof. by intros k db. Qed.
Lemma nobody_quiet : others_quiet (fun _ db => db).
Proof. by intros k db. Qed.

Lemma demo_table : table_ok DemoImport.uuid "ten" (committed (ses (DemoImport.with_job ready_job))).
Proof. split; [split; [constructor|done]|constructor]. Qed.

(** A reader that fails after three rows. *)
Definition failing_csv (content : bytes) : list (list string) * option exn :=
  (take 4 (DemoImport.csv content).1, Some (Other "Error" "line contains NUL")).

Local Abbreviation demo_commit csv others := (run_commit DemoImport.cfg DemoImport.uuid "~" DemoImport.repr (fun _ => "")
  (fun _ => None) DemoImport.email csv DemoImport.xlsx (fun _ => "") (fun _ => "") (fun _ => None) others
  "ten" "job" 9 (DemoImport.with_job ready_job)).

Lemma run_commit_accounts_witness :
  (exists job s' st, demo_commit DemoImport.csv (fun _ db => db) = (Ok job, s') /\
    jobs (committed (ses s')) !! "job" = Some job /\ job_status job = COMPLETED /\
    counts_ok (co_counts st) 5 /\
    c_inserted (co_counts st) + c_updated (co_counts st) + c_skipped (co_counts st) <= 3) /\
  (exists job s', demo_commit failing_csv (fun _ db => db) = (Raise (Other "Error" "line contains NUL"), s') /\
    jobs (committed (ses s')) !! "job" = Some job /\ job_status job = FAILED).
Proof.
  pose proof DemoImport.uuid_inj. split.
  - destruct (run_commit_accounts DemoImport.cfg DemoImport.uuid "~" DemoImport.repr (fun _ => "") (fun _ => None)
      DemoImport.email DemoImport.csv DemoImport.xlsx (fun _ => "") (fun _ => "") (fun _ => None) (fun _ db => db)
      "ten" "job" 9 (DemoImport.with_job ready_job) ready_job (ready_ok (fun _ db => db) eq_refl) (nobody_keeps "job"))
      as (job & r & s' & st & H1 & H2 & _ & H3 & H4 & _ & H5 & H6).
    exists job, s', st. rewrite <- H3. exact (conj H1 (conj H2 (conj H4 (conj H5 H6)))).
  - destruct (run_commit_accounts DemoImport.cfg DemoImport.uuid "~" DemoImport.repr (fun _ => "") (fun _ => None)
      DemoImport.email failing_csv DemoImport.xlsx (fun _ => "") (fun _ => "") (fun _ => None) (fun _ db => db)
      "ten" "job" 9 (DemoImport.with_job ready_job) ready_job (ready_ok (fun _ db => db) eq_refl) (nobody_keeps "job"))
      as (job & r & s' & st & H1 & H2 & _ & H3 & H4 & _).
    exists job, s'. exact (conj (eq_trans H1 (f_equal (fun r => (r, s')) H3)) (conj H2 H4)).
Defined.

Lemma run_commit_table_witness :
  exists job s' st,
    run_commit DemoImport.cfg DemoImport.uuid "~" DemoImport.repr (fun _ => "") (fun _ => None) DemoImport.email
      DemoImport.csv DemoImport.xlsx (fun _ => "") (fun _ => "") (fun _ => None) (fun _ db => db) "ten" "job" 9
      (DemoImport.with_job ready_job) = (Ok job, s') /\
    assoc "commit" (default [] (summary job)) = Some (commit_summary st None) /\
    table_ok DemoImport.uuid "ten" (committed (ses s')) /\
    grew "ten" (c_inserted (co_counts st)) (committed (ses (DemoImport.with_job ready_job))) (committed (ses s')).
Proof.
  pose proof DemoImport.uuid_inj.
  destruct (run_commit_table DemoImport.cfg DemoImport.uuid "~" DemoImport.repr (fun _ => "") (fun _ => None)
    DemoImport.email DemoImport.csv DemoImport.xlsx (fun _ => "") (fun _ => "") (fun _ => None) (fun _ db => db)
    "ten" "job" 9 (DemoImport.with_job ready_job) ready_job (ready_ok (fun _ db => db) eq_refl)
    (nobody_keeps "job") nobody_quiet demo_table eq_refl) as (job & s' & st & H1 & H2 & H3 & H4 & _).
  exact (ex_intro _ job (ex_intro _ s' (ex_intro _ st (conj H1 (conj H2 (conj H3 H4)))))).
Defined.

Lemma run_commit_reader_fails_witness :
  exists j s' st,
    run_commit DemoImport.cfg DemoImport.uuid "~" DemoImport.repr (fun _ => "") (fun _ => None) DemoImport.email
      failing_csv DemoImport.xlsx (fun _ => "") (fun _ => "") (fun _ => None) (fun _ db => db) "ten" "job" 9
      (DemoImport.with_job ready_job) = (Raise (Other "Error" "line contains NUL"), s') /\
    jobs (committed (ses s')) !! "job" = Some j /\ job_status j = FAILED /\
    imported_rows j = c_inserted (co_counts st) + c_updated (co_counts st).
Proof.
  pose proof DemoImport.uuid_inj.
  destruct (run_commit_reader_fails DemoImport.cfg DemoImport.uuid "~" DemoImport.repr (fun _ => "") (fun _ => None)
    DemoImport.email failing_csv DemoImport.xlsx (fun _ => "") (fun _ => "") (fun _ => None) (fun _ db => db)
    "ten" "job" 9 (DemoImport.with_job ready_job) ready_job (Other "Error" "line contains NUL")
    (ready_ok (fun _ db => db) eq_refl) (nobody_keeps "job") eq_refl)
    as (j & s' & st & H1 & H2 & H3 & _ & _ & H4 & _).
  exact (ex_intro _ j (ex_intro _ s' (ex_intro _ st (conj H1 (conj H2 (conj H3 H4)))))).
Defined.

Definition demo_row : ValidatedRow :=
  validate_row DemoImport.email [("name", "Acme"); ("fein", "12-3456789"); ("state", "CA")] 2.

Lemma demo_row_good : Forall2 good_row [demo_row] ["12-3456789"].
Proof. constructor; [eexists; split_and!; reflexivity|constructor]. Qed.

Lemma chunk_atomic_witness :
  exists c errs s',
    _commit_chunk DemoImport.uuid "~" (fun _ => None) (fun _ db => db) 1 "ten" "job" "skip" [demo_row]
      (DemoImport.with_job ready_job) = (Ok (c, errs), s') /\ counts_ok c 1.
Proof.
  pose proof DemoImport.uuid_inj.
  destruct (chunk_atomic DemoImport.uuid "~" (fun _ => None) (fun _ db => db) 1 "ten" "job" "skip" [demo_row]
    ["12-3456789"] (DemoImport.with_job ready_job) demo_row_good (NoDup_singleton _) demo_table)
    as (c & errs & s' & H1 & H2 & _).
  exact (ex_intro _ c (ex_intro _ errs (ex_intro _ s' (conj H1 H2)))).
Defined.

(** ** Two divergences *)

(** An operator cancels the job while the first chunk is being imported: the
    cancel is accepted and committed. *)
Definition canceller (k : nat) (db : ImportDB) : ImportDB :=
  match k with
  | 1%nat => working (ses (cancel_job DemoImport.repr "ten" "job" 7 {| ses := Session db db; files := ∅ |}).2)
  | _ => db
  end.

(** The import goes on through every chunk and overwrites the cancellation with
    [COMPLETED]. *)
Theorem cancel_is_overwritten :
  let r := run_commit DemoImport.cfg DemoImport.uuid "~" DemoImport.repr (fun _ => "") (fun _ => None)
             DemoImport.email DemoImport.csv DemoImport.xlsx (fun _ => "") (fun _ => "") (fun _ => None) canceller
             "ten" "job" 9 (DemoImport.with_job ready_job) in
  (exists j, jobs (canceller 1 {| jobs := {["job" := with_status IMPORTING ready_job]}; row_errors := [];
                                  suppliers := []; next_id := 0 |}) !! "job" = Some j /\ job_status j = CANCELED) /\
  (match r.1 with Ok j => job_status j = COMPLETED /\ imported_rows j = 3 | Raise _ => False end).
Proof. split; [eexists; split; [vm_compute; reflexivity|reflexivity]|]. vm_compute. by split. Qed.

(** A row whose phone has 40 characters passes the row validation, and then
    makes the database refuse its whole chunk. *)
Theorem long_phone_fails_chunk :
  let phone := "0123456789 0123456789 0123456789 0123456" in
  let row := validate_row DemoImport.email
               [("name", "Acme"); ("fein", "12-3456789"); ("state", "CA"); ("phone", phone)] 2 in
  ok row = true /\
  match (_commit_chunk DemoImport.uuid "~" (fun _ => None) (fun _ db => db) 1 "ten" "job" "skip" [row; demo_row]
           (DemoImport.with_job ready_job)).1 with
  | Ok (c, _) => c_errors c = 2
  | Raise _ => False
  end.
Proof. vm_compute. by split. Qed.
