(* ===== verification/PasswordPolicy.v ===== *)
(** * The password policy

    utils/password_policy.py: the checks of a new password, in the order their
    reasons are reported, and what the two scans for runs and sequences find. *)

From Stdlib Require Import Ascii.
From S2P Require Import Prelude PyStr.

(** utils/password_policy.py, [MIN_LENGTH]. *)
Definition MIN_LENGTH : Z := 12.
(** utils/password_policy.py, [_MAX_LENGTH]. *)
Definition _MAX_LENGTH : Z := 256.
(** utils/password_policy.py, [_MIN_CATEGORIES]. *)
Definition _MIN_CATEGORIES : Z := 3.

(** utils/password_policy.py, [COMMON_PASSWORDS]. *)
Definition COMMON_PASSWORDS : list string :=
  ["123456"; "password"; "12345678"; "qwerty"; "123456789"; "12345"; "1234"; "111111"; "1234567";
   "dragon"; "123123"; "baseball"; "abc123"; "football"; "monkey"; "letmein"; "shadow"; "master";
   "666666"; "qwertyuiop"; "123321"; "mustang"; "1234567890"; "michael"; "654321"; "pussy";
   "superman"; "1qaz2wsx"; "7777777"; "121212"; "000000"; "qazwsx"; "123qwe"; "killer"; "trustno1";
   "jordan"; "jennifer"; "zxcvbnm"; "asdfgh"; "hunter"; "buster"; "soccer"; "harley"; "batman";
   "andrew"; "tigger"; "sunshine"; "iloveyou"; "2000"; "charlie"; "robert"; "thomas"; "hockey";
   "ranger"; "daniel"; "starwars"; "klaster"; "112233"; "george"; "computer"; "michelle";
   "jessica"; "pepper"; "1111"; "zxcvbn"; "555555"; "11111111"; "131313"; "freedom"; "777777";
   "pass"; "maggie"; "159753"; "aaaaaa"; "ginger"; "princess"; "joshua"; "cheese"; "amanda";
   "summer"; "love"; "ashley"; "nicole"; "chelsea"; "biteme"; "matthew"; "access"; "yankees";
   "987654321"; "dallas"; "austin"; "thunder"; "taylor"; "matrix"; "william"; "corvette"; "hello";
   "martin"; "heather"; "secret"; "fucker"; "merlin"; "diamond"; "1234qwer"].

Definition one_of (s : string) (l : list string) : bool := existsb (String.eqb s) l.
#[global] Arguments one_of : simpl never.

(** utils/password_policy.py, [_categories]. *)
Definition _categories (password : string) : Z :=
  let has f := if sany f password then 1 else 0 in
  has is_upper + has is_lower + has is_digit + has (fun c => negb (is_alnum c) && negb (is_space c)).

(** utils/password_policy.py:175-185, [_has_long_run]: the loop, from the
    previous character and its streak. *)
Fixpoint long_run_from (run : Z) (prev : ascii) (streak : Z) (s : string) : bool :=
  match s with
  | EmptyString => false
  | String c r =>
      if Ascii.eqb c prev
      then (if run <=? streak + 1 then true else long_run_from run prev (streak + 1) r)
      else long_run_from run c 1 r
  end.

(** utils/password_policy.py, [_has_long_run]. *)
Definition _has_long_run (password : string) (run : Z) : bool :=
  if slen password <? run then false
  else match password with
       | EmptyString => false
       | String c r => long_run_from run c 1 r
       end.

(** utils/password_policy.py:191-199, [_is_sequence]: the loop. *)
Fixpoint sequence_from (length : Z) (prev : ascii) (ascending descending : Z) (s : string) : bool :=
  match s with
  | EmptyString => false
  | String c r =>
      let diff := ord c - ord prev in
      let ascending := if diff =? 1 then ascending + 1 else 1 in
      let descending := if diff =? -1 then descending + 1 else 1 in
      if (length <=? ascending) || (length <=? descending) then true
      else sequence_from length c ascending descending r
  end.

(** utils/password_policy.py, [_is_sequence]. *)
Definition _is_sequence (password : string) (length : Z) : bool :=
  if slen password <? length then false
  else match password with
       | EmptyString => false
       | String c r => sequence_from length c 1 1 r
       end.

(** utils/password_policy.py, [_contains_token]. *)
Definition _contains_token (password : string) (tokens : list string) : option string :=
  find_first (fun t => (4 <=? slen t) && contains t (lower password)) (map (fun t => lower (strip t)) tokens).

(** [if b: reasons.append(r)] *)
Definition reason_if (b : bool) (r : string) : list string := if b then [r] else [].

(** [if s:] on an optional string. *)
Definition given (o : option string) : option string :=
  match o with Some t => if truthy t then Some t else None | None => None end.

(** utils/password_policy.py:233-243, [validate_password]. *)
Definition common_reasons (lowered : string) : list string :=
  if one_of lowered COMMON_PASSWORDS then ["password_is_common"]
  else reason_if (existsb (fun common => negb (String.eqb common "secret")
                                         && (6 <=? slen common) && contains common lowered) COMMON_PASSWORDS)
         "password_contains_common_substring".

(** utils/password_policy.py:245-251, [validate_password]. *)
Definition email_reasons (lowered email : string) : list string :=
  let email_norm := lower (strip email) in
  let local_part := (partition_char "@" email_norm).1.1 in
  reason_if (truthy email_norm && contains email_norm lowered) "password_contains_email"
  ++ reason_if (truthy local_part && (4 <=? slen local_part) && contains local_part lowered)
       "password_contains_email_local_part".

(** utils/password_policy.py:253-257, [validate_password]. *)
Definition tenant_candidates (tenant_name : string) : list string :=
  tenant_name :: split_ws tenant_name ++ [join "" (split_ws tenant_name)].

(** utils/password_policy.py:262-266, [validate_password]. *)
Definition name_parts (full_name : string) : list string :=
  List.filter (fun p => 4 <=? slen p) (split_ws (replace_char "," " " full_name)).

(** utils/password_policy.py:221-272, [validate_password]: the reasons before
    duplicates are dropped. *)
Definition policy_reasons (password : string) (email tenant_name full_name : option string) : list string :=
  let lowered := strip (lower password) in
  reason_if (slen password <? MIN_LENGTH) "password_too_short_min_12"
  ++ reason_if (_MAX_LENGTH <? slen password) "password_too_long_max_256"
  ++ reason_if (_categories password <? _MIN_CATEGORIES) "password_needs_more_character_categories"
  ++ common_reasons lowered
  ++ match given email with Some e => email_reasons lowered e | None => [] end
  ++ match given tenant_name with
     | Some t => reason_if (is_someb (_contains_token password (tenant_candidates t))) "password_contains_tenant_name"
     | None => []
     end
  ++ match given full_name with
     | Some f => reason_if (is_someb (_contains_token password (name_parts f))) "password_contains_user_name"
     | None => []
     end
  ++ reason_if (_has_long_run password 4) "password_has_repeated_run"
  ++ reason_if (_is_sequence password 5) "password_is_sequence".

(** utils/password_policy.py:274-280, [validate_password]: the reasons without
    duplicates, in order. *)
Definition dedupe (l : list string) : list string :=
  fold_left (fun acc r => if one_of r acc then acc else acc ++ [r]) l [].

(** utils/password_policy.py, [PasswordPolicyResult]. *)
Record PasswordPolicyResult : Type := { valid : bool; reasons : list string }.

(** utils/password_policy.py, [validate_password]. *)
Definition validate_password (password : string) (email tenant_name full_name : option string)
  : PasswordPolicyResult :=
  let deduped := dedupe (policy_reasons password email tenant_name full_name) in
  {| valid := match deduped with [] => true | _ => false end; reasons := deduped |}.

(** ** Runs and sequences *)

(** The first [m] characters of [s] go on from [prev] in steps of [d]. *)
Fixpoint steps (d : Z) (m : nat) (prev : ascii) (s : string) : Prop :=
  match m, s with
  | O, _ => True
  | S m', String c r => ord c - ord prev = d /\ steps d m' c r
  | S _, EmptyString => False
  end.

(** Somewhere in [s] there are [n] characters in steps of [d]. *)
Definition occurs (d : Z) (n : nat) (s : string) : Prop :=
  exists a c r, s = a +:+ String c r /\ steps d (n - 1) c r.

Lemma steps_le d m k prev s : (k <= m)%nat -> steps d m prev s -> steps d k prev s.
Proof.
  revert m prev s. induction k as [|k IH]; intros m prev s Hle; [done|].
  destruct m as [|m]; [lia|]. destruct s as [|c r]; cbn; [done|]. intros [? H]. split; [done|].
  eapply IH; [|done]. lia.
Qed.

Lemma occurs_cons d n c r : occurs d n (String c r) <-> steps d (n - 1) c r \/ occurs d n r.
Proof.
  split.
  - intros ([|x a] & c' & r' & Heq & Hs); cbn in Heq; injection Heq as -> ->; [by left|].
    right. by exists a, c', r'.
  - intros [H|(a & c' & r' & -> & H)]; [by exists "", c, r|by exists (String c a), c', r'].
Qed.

Lemma occurs_nil d n : ~ occurs d n "".
Proof. intros ([|? ?] & ? & ? & ? & _); done. Qed.

Lemma occurs_length d n s : occurs d n s -> (0 < n)%nat -> Z.of_nat n <= slen s.
Proof.
  intros (a & c & r & -> & Hs) Hn. unfold slen. rewrite length_append. cbn.
  assert (H : forall m x t, steps d m x t -> (m <= String.length t)%nat).
  { clear. induction m as [|m IH]; intros x t H; [lia|]. destruct t as [|c t]; [done|].
    destruct H as [_ H]. apply IH in H. cbn. lia. }
  apply H in Hs. lia.
Qed.

Lemma long_run_from_spec n k prev s :
  (1 <= k < n)%nat ->
  long_run_from (Z.of_nat n) prev (Z.of_nat k) s = true <-> steps 0 (n - k) prev s \/ occurs 0 n s.
Proof.
  revert k prev. induction s as [|c s IH]; intros k prev Hk; cbn [long_run_from].
  - split; [done|]. intros [H|H]; [|by apply occurs_nil in H]. destruct (n - k)%nat eqn:?; [lia|done].
  - rewrite occurs_cons. replace (n - k)%nat with (S (n - S k)) by lia. cbn [steps].
    destruct (Ascii.eqb_spec c prev) as [->|Hne].
    + rewrite Z.sub_diag. destruct (Z.leb_spec (Z.of_nat n) (Z.of_nat k + 1)).
      * split; [|done]. intros _. left. split; [done|]. by replace (n - S k)%nat with 0%nat by lia.
      * replace (Z.of_nat k + 1) with (Z.of_nat (S k)) by lia. rewrite IH by lia. split.
        -- intros [H1|H1]; [by left|by right; right].
        -- intros [[_ H1]|[H1|H1]]; [by left| |by right]. left. eapply steps_le; [|done]. lia.
    + rewrite (IH 1%nat) by lia. assert (ord c - ord prev <> 0) by (intros H; apply Hne, ord_inj; lia). tauto.
Qed.

Lemma has_long_run_spec n p : (2 <= n)%nat -> _has_long_run p (Z.of_nat n) = true <-> occurs 0 n p.
Proof.
  intros Hn. unfold _has_long_run. destruct (Z.ltb_spec (slen p) (Z.of_nat n)).
  - split; [done|]. intros H1. apply occurs_length in H1; lia.
  - destruct p as [|c r]; [split; [done|intros H1; by apply occurs_nil in H1]|].
    rewrite (long_run_from_spec n 1), occurs_cons by lia. done.
Qed.

Lemma sequence_from_spec n i j prev s :
  (1 <= i < n)%nat -> (1 <= j < n)%nat ->
  sequence_from (Z.of_nat n) prev (Z.of_nat i) (Z.of_nat j) s = true <->
  (steps 1 (n - i) prev s \/ steps (-1) (n - j) prev s) \/ occurs 1 n s \/ occurs (-1) n s.
Proof.
  revert i j prev. induction s as [|c s IH]; intros i j prev Hi Hj; cbn [sequence_from].
  - split; [done|]. intros [[H|H]|[H|H]]; try (by apply occurs_nil in H).
    + destruct (n - i)%nat eqn:?; [lia|done].
    + destruct (n - j)%nat eqn:?; [lia|done].
  - rewrite !occurs_cons. set (diff := ord c - ord prev).
    replace (n - i)%nat with (S (n - S i)) by lia. replace (n - j)%nat with (S (n - S j)) by lia.
    cbn [steps]. fold diff.
    assert (Hup : exists i', (if diff =? 1 then Z.of_nat i + 1 else 1) = Z.of_nat i' /\
              (1 <= i' <= n)%nat /\ (diff = 1 -> i' = S i) /\ (diff <> 1 -> i' = 1%nat)).
    { destruct (Z.eqb_spec diff 1); [exists (S i)|exists 1%nat]; repeat split; lia. }
    assert (Hdown : exists j', (if diff =? -1 then Z.of_nat j + 1 else 1) = Z.of_nat j' /\
              (1 <= j' <= n)%nat /\ (diff = -1 -> j' = S j) /\ (diff <> -1 -> j' = 1%nat)).
    { destruct (Z.eqb_spec diff (-1)); [exists (S j)|exists 1%nat]; repeat split; lia. }
    destruct Hup as (i' & -> & Hi' & Hi1 & Hi2), Hdown as (j' & -> & Hj' & Hj1 & Hj2).
    destruct (Z.leb_spec (Z.of_nat n) (Z.of_nat i')); cbn [orb].
    { split; [|done]. intros _. destruct (decide (diff = 1)) as [Hd|Hd]; [|rewrite Hi2 in * by done; lia].
      left; left. split; [done|]. by replace (n - S i)%nat with 0%nat by (rewrite Hi1 in *; lia). }
    destruct (Z.leb_spec (Z.of_nat n) (Z.of_nat j')).
    { split; [|done]. intros _. destruct (decide (diff = -1)) as [Hd|Hd]; [|rewrite Hj2 in * by done; lia].
      left; right. split; [done|]. by replace (n - S j)%nat with 0%nat by (rewrite Hj1 in *; lia). }
    rewrite IH by lia.
    assert (Hup : steps 1 (n - i') c s <-> (diff = 1 /\ steps 1 (n - S i) c s) \/ steps 1 (n - 1) c s).
    { destruct (decide (diff = 1)) as [Hd|Hd]; [rewrite (Hi1 Hd)|rewrite (Hi2 Hd)]; split; try tauto.
      intros [[_ Hs]|Hs]; [done|]. eapply steps_le; [|done]. lia. }
    assert (Hdn : steps (-1) (n - j') c s <-> (diff = -1 /\ steps (-1) (n - S j) c s) \/ steps (-1) (n - 1) c s).
    { destruct (decide (diff = -1)) as [Hd|Hd]; [rewrite (Hj1 Hd)|rewrite (Hj2 Hd)]; split; try tauto.
      intros [[_ Hs]|Hs]; [done|]. eapply steps_le; [|done]. lia. }
    rewrite Hup, Hdn. clear. tauto.
Qed.

Lemma is_sequence_spec n p :
  (2 <= n)%nat -> _is_sequence p (Z.of_nat n) = true <-> occurs 1 n p \/ occurs (-1) n p.
Proof.
  intros Hn. unfold _is_sequence. destruct (Z.ltb_spec (slen p) (Z.of_nat n)).
  - split; [done|]. intros [H1|H1]; apply occurs_length in H1; lia.
  - destruct p as [|c r]; [split; [done|intros [H1|H1]; by apply occurs_nil in H1]|].
    rewrite (sequence_from_spec n 1 1), !occurs_cons by lia. tauto.
Qed.

(** ** The policy *)

Lemma one_of_In s l : one_of s l = true <-> In s l.
Proof.
  unfold one_of. rewrite existsb_exists. split.
  - intros (x & Hx & He). apply String.eqb_eq in He. by subst.
  - intros H. exists s. split; [done|]. apply String.eqb_refl.
Qed.

Lemma dedupe_spec l : NoDup (dedupe l) /\ forall x, In x (dedupe l) <-> In x l.
Proof.
  unfold dedupe.
  cut (forall acc, NoDup acc -> NoDup (fold_left (fun acc r => if one_of r acc then acc else acc ++ [r]) l acc) /\
         forall x, In x (fold_left (fun acc r => if one_of r acc then acc else acc ++ [r]) l acc) <-> In x acc \/ In x l).
  { intros H. destruct (H [] (NoDup_nil_2)) as [Hn Hx]. split; [done|]. intros x. rewrite Hx. cbn. tauto. }
  induction l as [|r l IH]; intros acc Hacc; cbn; [split; [done|tauto]|].
  destruct (one_of r acc) eqn:Hr.
  - apply one_of_In in Hr. destruct (IH acc Hacc) as [Hn Hx]. split; [done|]. intros x. rewrite Hx.
    split; [tauto|]. intros [?|[->|?]]; auto.
  - assert (Hacc' : NoDup (acc ++ [r])).
    { apply NoDup_app. split; [done|]. split; [|apply NoDup_singleton].
      intros x Hx Hxr. apply list_elem_of_singleton in Hxr as ->. apply list_elem_of_In, one_of_In in Hx. congruence. }
    destruct (IH _ Hacc') as [Hn Hx]. split; [done|]. intros x. rewrite Hx, in_app_iff. cbn. tauto.
Qed.

Lemma reason_if_nil b r : reason_if b r = [] <-> b = false.
Proof. by destruct b. Qed.

Lemma valid_iff password email tenant_name full_name :
  valid (validate_password password email tenant_name full_name) = true <->
  policy_reasons password email tenant_name full_name = [].
Proof.
  unfold validate_password. cbn [valid]. destruct (dedupe_spec (policy_reasons password email tenant_name full_name)) as [_ Hin].
  revert Hin. destruct (dedupe _) as [|y l]; intros Hin; split; intros H.
  - apply incl_l_nil. intros x Hx. exact (proj2 (Hin x) Hx).
  - done.
  - done.
  - rewrite H in Hin. destruct (proj1 (Hin y)). by left.
Qed.

(** An accepted password has 12 to 256 characters. *)
Lemma valid_length password email tenant_name full_name :
  valid (validate_password password email tenant_name full_name) = true -> MIN_LENGTH <= slen password <= _MAX_LENGTH.
Proof.
  rewrite valid_iff. unfold policy_reasons. rewrite !app_nil, !reason_if_nil, !Z.ltb_ge. tauto.
Qed.

Lemma contains_token_None p tokens :
  _contains_token p tokens = None <->
  forall t, In t tokens -> 4 <= slen (lower (strip t)) -> contains (lower (strip t)) (lower p) = false.
Proof.
  unfold _contains_token. rewrite find_first_None. setoid_rewrite in_map_iff. split.
  - intros H t Ht Hl. specialize (H _ (ex_intro _ t (conj eq_refl Ht))).
    apply andb_false_iff in H as [H|H]; [apply Z.leb_gt in H; lia|done].
  - intros H x (t & <- & Ht). destruct (Z.leb_spec 4 (slen (lower (strip t)))); [|done]. by apply H.
Qed.

Lemma common_reasons_nil lowered :
  common_reasons lowered = [] <->
  ~ In lowered COMMON_PASSWORDS /\
  forall c, In c COMMON_PASSWORDS -> c <> "secret" -> 6 <= slen c -> contains c lowered = false.
Proof.
  unfold common_reasons. destruct (one_of lowered COMMON_PASSWORDS) eqn:Ho.
  - apply one_of_In in Ho. split; [done|]. intros [? _]. done.
  - rewrite reason_if_nil. assert (Hn : ~ In lowered COMMON_PASSWORDS) by (rewrite <- one_of_In; congruence).
    split.
    + intros H. split; [done|]. intros c Hc Hs Hl. apply not_true_iff_false in H.
      apply not_true_iff_false. intros Hin. apply H, existsb_exists. exists c. split; [done|].
      apply String.eqb_neq in Hs. rewrite Hs, Hin. cbn. by rewrite (proj2 (Z.leb_le _ _) Hl).
    + intros [_ H]. apply not_true_iff_false. intros (c & Hc & Hb)%existsb_exists.
      rewrite !andb_true_iff in Hb. destruct Hb as [[Hs Hl] Hin]. apply negb_true_iff, String.eqb_neq in Hs.
      apply Z.leb_le in Hl. by rewrite H in Hin.
Qed.

(** What a password must avoid, given what is known of its user. *)
Record strong_password (password : string) (email tenant_name full_name : option string) : Prop := {
  sp_length : 12 <= slen password <= 256;
  sp_categories : 3 <= _categories password;
  sp_uncommon : ~ In (strip (lower password)) COMMON_PASSWORDS;
  sp_no_common : forall c, In c COMMON_PASSWORDS -> c <> "secret" -> 6 <= slen c ->
    contains c (strip (lower password)) = false;
  sp_email : forall e, given email = Some e -> email_reasons (strip (lower password)) e = [];
  sp_tenant : forall t w, given tenant_name = Some t -> In w (tenant_candidates t) ->
    4 <= slen (lower (strip w)) -> contains (lower (strip w)) (lower password) = false;
  sp_name : forall f w, given full_name = Some f -> In w (name_parts f) ->
    4 <= slen (lower (strip w)) -> contains (lower (strip w)) (lower password) = false;
  sp_no_run : ~ occurs 0 4 password;
  sp_no_sequence : ~ occurs 1 5 password /\ ~ occurs (-1) 5 password;
}.

(** Password policy: a password is accepted exactly when it has 12 to 256
    characters of at least three categories, is not and does not hold a common
    password, does not hold the e-mail address or its local part, a word of the
    tenant's name or of the user's name, four equal characters in a row, or five
    characters in ascending or descending code order; a refusal lists each
    failing check once and at least one. *)
Theorem password_policy_spec password email tenant_name full_name :
  let r := validate_password password email tenant_name full_name in
  (valid r = true <-> strong_password password email tenant_name full_name) /\
  (valid r = true <-> reasons r = []) /\ NoDup (reasons r) /\
  forall x, In x (reasons r) <-> In x (policy_reasons password email tenant_name full_name).
Proof.
  intros r. destruct (dedupe_spec (policy_reasons password email tenant_name full_name)) as [Hnd Hin].
  assert (Hv : valid r = true <-> reasons r = []).
  { unfold r, validate_password. cbn [valid reasons]. by destruct (dedupe _). }
  split; [|by split].
  unfold r. rewrite valid_iff. clear. unfold policy_reasons.
  rewrite !app_nil, !reason_if_nil, !Z.ltb_ge, common_reasons_nil.
  assert (Hrun : _has_long_run password 4 = false <-> ~ occurs 0 4 password).
  { rewrite <- (has_long_run_spec 4) by lia. apply (iff_sym (not_true_iff_false _)). }
  assert (Hseq : _is_sequence password 5 = false <-> ~ occurs 1 5 password /\ ~ occurs (-1) 5 password).
  { pose proof (is_sequence_spec 5 password ltac:(lia)) as H. change (Z.of_nat 5) with 5 in H.
    rewrite <- not_true_iff_false, H. tauto. }
  assert (Hemail : match given email with Some e => email_reasons (strip (lower password)) e | None => [] end = []
            <-> forall e, given email = Some e -> email_reasons (strip (lower password)) e = []).
  { destruct (given email); [|by split]. split; [by intros ? ? [= <-]|auto]. }
  assert (Htok : forall (o : option string) (f : string -> list string) reason,
            match o with Some t => reason_if (is_someb (_contains_token password (f t))) reason | None => [] end = []
            <-> forall t w, o = Some t -> In w (f t) -> 4 <= slen (lower (strip w)) ->
                  contains (lower (strip w)) (lower password) = false).
  { intros o f reason. destruct o as [t|]; [|by split]. rewrite reason_if_nil.
    pose proof (contains_token_None password (f t)) as H.
    destruct (_contains_token password (f t)); cbn; split.
    - done.
    - intros H'. discriminate (proj2 H (fun w => H' t w eq_refl)).
    - intros _ t' w [= <-]. by apply H.
    - done. }
  rewrite Hrun, Hseq, Hemail, !Htok.
  split; [intros (? & ? & ? & [? ?] & ? & ? & ? & ? & ?); by split|].
  intros []. unfold MIN_LENGTH, _MAX_LENGTH, _MIN_CATEGORIES. tauto.
Qed.

Example password_ex :
  map (fun p => reasons (validate_password p (Some "jane.doe@acme.com") (Some "Acme MGA") (Some "Doe, Jane")))
    ["Tr0ub4dor&3x"; "short"; "Jane.doe-2026!"; "Zq9!acmemga-X"; "aaaaBBBB1234!"] =
  [[]; ["password_too_short_min_12"; "password_needs_more_character_categories"];
   ["password_contains_email_local_part"; "password_contains_user_name"];
   ["password_contains_tenant_name"];
   ["password_has_repeated_run"]].
Proof. vm_compute. reflexivity. Qed.
