(* ===== verification/Lockout.v ===== *)
(** * Account lockout

    utils/account_lockout.py: the sliding-window tracker of failed logins.  A
    store is a class with laws, as the source's protocol; the in-memory store is
    an instance, and the tracker is verified against the laws.  Times are in
    microseconds ([time.time()] in seconds), durations in seconds. *)

From Stdlib Require Import Ascii.
From S2P Require Import Prelude PyStr PyTime.

(** ** The store *)

(** utils/account_lockout.py, [_LockoutStore]: each call reads the clock, its
    first argument. *)
Class LockoutStore (S : Type) : Type := {
  store_record_failure : Z -> string -> Z -> S -> Z * S;
  store_lock : Z -> string -> Z -> S -> S;
  store_status : Z -> string -> Z -> S -> Z * Z * S;
  store_clear : string -> S -> S;
}.

(** [ceil(us / 10**6)] *)
Definition ceil_seconds (us : Z) : Z := - ((- us) / us_per_second).

(** The failures at or after the cutoff. *)
Definition recent (cutoff : Z) (times : list Z) : list Z := List.filter (fun t => cutoff <=? t) times.

(** What a store promises: it is, for each key, a list of failure times and the
    end of a lock.  Times that have left the window may be forgotten, and so may
    a lock that has ended. *)
Class LockoutStoreLaws (S : Type) `{!LockoutStore S} : Type := {
  failures_of : string -> S -> list Z;
  lock_of : string -> S -> option Z;
  law_record_failure now key window s :
    let r := store_record_failure now key window s in
    failures_of key r.2 = recent (now - seconds window) (failures_of key s) ++ [now] /\
    r.1 = Z.of_nat (length (failures_of key r.2)) /\ lock_of key r.2 = lock_of key s /\
    forall k, k <> key -> failures_of k r.2 = failures_of k s /\ lock_of k r.2 = lock_of k s;
  law_lock now key duration s :
    let s' := store_lock now key duration s in
    failures_of key s' = failures_of key s /\ lock_of key s' = Some (now + seconds duration) /\
    forall k, k <> key -> failures_of k s' = failures_of k s /\ lock_of k s' = lock_of k s;
  law_status now key window s :
    let r := store_status now key window s in
    failures_of key r.2 = recent (now - seconds window) (failures_of key s) /\
    r.1.1 = Z.of_nat (length (failures_of key r.2)) /\
    r.1.2 = match lock_of key s with Some e => Z.max 0 (ceil_seconds (e - now)) | None => 0 end /\
    lock_of key r.2 = match lock_of key s with
                      | Some e => if e <=? now then None else Some e
                      | None => None
                      end /\
    forall k, k <> key -> failures_of k r.2 = failures_of k s /\ lock_of k r.2 = lock_of k s;
  law_clear key s :
    failures_of key (store_clear key s) = [] /\ lock_of key (store_clear key s) = None /\
    forall k, k <> key -> failures_of k (store_clear key s) = failures_of k s /\
                          lock_of k (store_clear key s) = lock_of k s;
}.

(** ** The in-memory store *)

(** utils/account_lockout.py:69-72, [_InMemoryStore.__init__]. *)
Record InMemoryStore : Type := { _failures : gmap string (list Z); _locks : gmap string Z }.

Definition bucket_of (key : string) (s : InMemoryStore) : list Z := default [] (_failures s !! key).

(** utils/account_lockout.py, [_InMemoryStore.record_failure]. *)
Definition mem_record_failure (now : Z) (key : string) (window_sec : Z) (s : InMemoryStore) : Z * InMemoryStore :=
  let cutoff := now - seconds window_sec in
  let bucket := recent cutoff (bucket_of key s) ++ [now] in
  (Z.of_nat (length bucket), {| _failures := <[key := bucket]> (_failures s); _locks := _locks s |}).

(** utils/account_lockout.py, [_InMemoryStore.lock]. *)
Definition mem_lock (now : Z) (key : string) (duration_sec : Z) (s : InMemoryStore) : InMemoryStore :=
  {| _failures := _failures s; _locks := <[key := now + seconds duration_sec]> (_locks s) |}.

(** utils/account_lockout.py, [_InMemoryStore.status]; an expiry is a positive
    time, so it is a true value. *)
Definition mem_status (now : Z) (key : string) (window_sec : Z) (s : InMemoryStore) : Z * Z * InMemoryStore :=
  let cutoff := now - seconds window_sec in
  let failures := recent cutoff (bucket_of key s) in
  let '(expires, locks) := match _locks s !! key with
                           | Some e => if e <=? now then (None, delete key (_locks s)) else (Some e, _locks s)
                           | None => (None, _locks s)
                           end in
  let retry_after := match expires with Some e => ceil_seconds (e - now) | None => 0 end in
  (Z.of_nat (length failures), Z.max retry_after 0,
   {| _failures := <[key := failures]> (_failures s); _locks := locks |}).

(** utils/account_lockout.py, [_InMemoryStore.clear]. *)
Definition mem_clear (key : string) (s : InMemoryStore) : InMemoryStore :=
  {| _failures := delete key (_failures s); _locks := delete key (_locks s) |}.

#[export] Instance memory_store : LockoutStore InMemoryStore :=
  { store_record_failure := mem_record_failure; store_lock := mem_lock; store_status := mem_status;
    store_clear := mem_clear }.

(** ** The tracker *)

(** utils/account_lockout.py, [LockoutStatus]. *)
Record LockoutStatus : Type := { locked : bool; failed_count : Z; retry_after_seconds : Z }.

(** utils/account_lockout.py:172-185, [AccountLockoutTracker.__init__]. *)
Record tracker_config : Type := { max_fails : Z; window_sec : Z; lock_duration_sec : Z }.

(** utils/account_lockout.py, [AccountLockoutTracker._key]. *)
Definition _key (email ip : string) : string :=
  lower (strip email) +:+ "|" +:+ lower (strip (sor ip "unknown")).

Section Tracker.
Context {S : Type} `{!LockoutStore S}.
Context (cfg : tracker_config).

(** utils/account_lockout.py, [AccountLockoutTracker.check]. *)
Definition check (now : Z) (email ip : string) (s : S) : LockoutStatus * S :=
  let '(failed, retry_after, s) := store_status now (_key email ip) (window_sec cfg) s in
  ({| locked := 0 <? retry_after; failed_count := failed; retry_after_seconds := retry_after |}, s).

(** utils/account_lockout.py, [AccountLockoutTracker.record_failure]; [now2] is
    the clock when the lock is set. *)
Definition record_failure (now now2 : Z) (email ip : string) (s : S) : LockoutStatus * S :=
  let key := _key email ip in
  let '(failed, s) := store_record_failure now key (window_sec cfg) s in
  if max_fails cfg <=? failed
  then ({| locked := true; failed_count := failed; retry_after_seconds := lock_duration_sec cfg |},
        store_lock now2 key (lock_duration_sec cfg) s)
  else ({| locked := false; failed_count := failed; retry_after_seconds := 0 |}, s).

(** utils/account_lockout.py, [AccountLockoutTracker.record_success]. *)
Definition record_success (email ip : string) (s : S) : S := store_clear (_key email ip) s.

(** utils/account_lockout.py, [AccountLockoutTracker.unlock]. *)
Definition unlock (email ip : string) (s : S) : S := store_clear (_key email ip) s.

(** utils/account_lockout.py, [AccountLockoutTracker.unlock_all_ips_for_email]. *)
Definition unlock_all_ips_for_email (email : string) (ips : list string) (s : S) : S :=
  fold_left (fun s ip => store_clear (_key email ip) s) ips s.

(** A use of the tracker. *)
Inductive event : Type :=
| Check (now : Z) (email ip : string)
| Failure (now now2 : Z) (email ip : string)
| Success (email ip : string)
| Unlock (email ip : string).

Definition event_key (e : event) : string :=
  match e with
  | Check _ email ip | Failure _ _ email ip | Success email ip | Unlock email ip => _key email ip
  end.

Definition apply_event (s : S) (e : event) : S :=
  match e with
  | Check now email ip => (check now email ip s).2
  | Failure now now2 email ip => (record_failure now now2 email ip s).2
  | Success email ip => record_success email ip s
  | Unlock email ip => unlock email ip s
  end.

Definition run_events (s : S) (l : list event) : S := fold_left apply_event l s.
End Tracker.

(** ** The specification: one key at a time *)

(** The failures of a key since it was last cleared, newest last and pruned to
    the window as they are recorded, and the end of its lock. *)
Definition key_event (cfg : tracker_config) (st : list Z * option Z) (e : event) : list Z * option Z :=
  let '(fs, lk) := st in
  match e with
  | Check now _ _ =>
      (recent (now - seconds (window_sec cfg)) fs,
       match lk with Some x => if x <=? now then None else Some x | None => None end)
  | Failure now now2 _ _ =>
      let fs := recent (now - seconds (window_sec cfg)) fs ++ [now] in
      (fs, if max_fails cfg <=? Z.of_nat (length fs) then Some (now2 + seconds (lock_duration_sec cfg)) else lk)
  | Success _ _ | Unlock _ _ => ([], None)
  end.

(** What the history of one key alone makes of it. *)
Definition key_history (cfg : tracker_config) (key : string) (start : list Z * option Z) (l : list event)
  : list Z * option Z :=
  fold_left (key_event cfg) (List.filter (fun e => String.eqb (event_key e) key) l) start.

(** ** The in-memory store meets the laws *)

Lemma recent_app cutoff a b : recent cutoff (a ++ b) = recent cutoff a ++ recent cutoff b.
Proof. apply List.filter_app. Qed.

#[export] Program Instance memory_laws : LockoutStoreLaws InMemoryStore :=
  { failures_of := bucket_of; lock_of := fun key s => _locks s !! key }.
Next Obligation.
  intros now key window s. unfold bucket_of. cbn. rewrite lookup_insert_eq. cbn.
  repeat split. by rewrite lookup_insert_ne.
Qed.
Next Obligation.
  intros now key duration s. unfold bucket_of. cbn. rewrite lookup_insert_eq.
  repeat split. by rewrite lookup_insert_ne.
Qed.
Next Obligation.
  intros now key window s. unfold bucket_of. cbn. unfold mem_status.
  destruct (_locks s !! key) as [e|] eqn:He.
  - destruct (Z.leb_spec e now); cbn; rewrite lookup_insert_eq; cbn.
    + split_and!; try done.
      * unfold ceil_seconds, us_per_second. lia.
      * apply lookup_delete_eq.
      * intros k Hk. by rewrite lookup_insert_ne, lookup_delete_ne.
    + split_and!; try done; [lia|]. intros k Hk. by rewrite lookup_insert_ne.
  - cbn. rewrite lookup_insert_eq. cbn. split_and!; try done. intros k Hk. by rewrite lookup_insert_ne.
Qed.
Next Obligation.
  intros key s. unfold bucket_of. cbn. rewrite !lookup_delete_eq. split_and!; try done.
  intros k Hk. by rewrite !lookup_delete_ne.
Qed.

(** ** The tracker, against the laws *)

Section TrackerLaws.
Context {S : Type} `{!LockoutStore S, !LockoutStoreLaws S}.
Context (cfg : tracker_config).

Definition view (key : string) (s : S) : list Z * option Z := (failures_of key s, lock_of key s).

Lemma apply_event_view key s e :
  view key (apply_event cfg s e) =
  if String.eqb (event_key e) key then key_event cfg (view key s) e else view key s.
Proof.
  unfold view. destruct e as [now email ip|now now2 email ip|email ip|email ip];
    cbn [apply_event event_key key_event]; destruct (String.eqb_spec (_key email ip) key) as [<-|Hne].
  - unfold check. pose proof (law_status now (_key email ip) (window_sec cfg) s) as H.
    destruct (store_status _ _ _ _) as [[f r] s']. cbn in *. destruct H as (-> & _ & _ & -> & _). done.
  - unfold check. pose proof (law_status now (_key email ip) (window_sec cfg) s) as H.
    destruct (store_status _ _ _ _) as [[f r] s']. cbn in *. destruct H as (_ & _ & _ & _ & H).
    destruct (H key) as [-> ->]; [congruence|done].
  - unfold record_failure. pose proof (law_record_failure now (_key email ip) (window_sec cfg) s) as H.
    destruct (store_record_failure _ _ _ _) as [f s']. cbn in *. destruct H as (Hf & -> & Hl & _).
    rewrite Hf. destruct (max_fails cfg <=? _); cbn; [|by rewrite Hf, Hl].
    destruct (law_lock now2 (_key email ip) (lock_duration_sec cfg) s') as (-> & -> & _). by rewrite Hf.
  - unfold record_failure. pose proof (law_record_failure now (_key email ip) (window_sec cfg) s) as H.
    destruct (store_record_failure _ _ _ _) as [f s']. cbn in *. destruct H as (_ & _ & _ & H).
    destruct (H key) as [H1 H2]; [congruence|].
    destruct (max_fails cfg <=? f); cbn; [|by rewrite H1, H2].
    destruct (law_lock now2 (_key email ip) (lock_duration_sec cfg) s') as (_ & _ & Hk).
    destruct (Hk key) as [-> ->]; [congruence|]. by rewrite H1, H2.
  - unfold record_success. by destruct (law_clear (_key email ip) s) as (-> & -> & _).
  - unfold record_success. destruct (law_clear (_key email ip) s) as (_ & _ & H).
    by destruct (H key) as [-> ->]; [congruence|].
  - unfold unlock. by destruct (law_clear (_key email ip) s) as (-> & -> & _).
  - unfold unlock. destruct (law_clear (_key email ip) s) as (_ & _ & H).
    by destruct (H key) as [-> ->]; [congruence|].
Qed.

Lemma run_events_view key s l : view key (run_events cfg s l) = key_history cfg key (view key s) l.
Proof.
  unfold run_events, key_history. revert s. induction l as [|e l IH]; intros s; cbn; [done|].
  rewrite IH, apply_event_view. by destruct (String.eqb (event_key e) key).
Qed.

(** Refinement: with any store that keeps the protocol's promises, after any
    sequence of logins what the tracker answers about an (e-mail, address) pair
    is computed from the events of that pair alone - other accounts and other
    addresses never lock it or unlock it.  It is locked exactly while its last
    lock lasts, with the remaining whole seconds rounded up, and a failure locks
    exactly when the window then holds the maximum number of failures. *)
Theorem lockout_depends_on_own_events s l now now2 email ip :
  let st := key_history cfg (_key email ip) (view (_key email ip) s) l in
  let s' := run_events cfg s l in
  let inside := recent (now - seconds (window_sec cfg)) st.1 in
  (locked (check cfg now email ip s').1 = true <-> exists until, st.2 = Some until /\ now < until) /\
  (forall until, st.2 = Some until -> now < until ->
     let r := retry_after_seconds (check cfg now email ip s').1 in
     seconds (r - 1) < until - now <= seconds r) /\
  failed_count (check cfg now email ip s').1 = Z.of_nat (length inside) /\
  (locked (record_failure cfg now now2 email ip s').1 = true <-> max_fails cfg <= Z.of_nat (length inside) + 1).
Proof.
  intros st s' inside. pose proof (run_events_view (_key email ip) s l) as Hv. fold s' st in Hv.
  unfold view in Hv. assert (Hf : failures_of (_key email ip) s' = st.1) by (by rewrite <- Hv).
  assert (Hl : lock_of (_key email ip) s' = st.2) by (by rewrite <- Hv). clear Hv. unfold inside. clear inside.
  unfold check, record_failure.
  pose proof (law_status now (_key email ip) (window_sec cfg) s') as Hst.
  destruct (store_status _ _ _ _) as [[f r] s1]. cbn in *. destruct Hst as (Hf1 & -> & -> & _ & _).
  rewrite Hf1, Hf, Hl.
  pose proof (law_record_failure now (_key email ip) (window_sec cfg) s') as Hrf.
  destruct (store_record_failure _ _ _ _) as [n s2]. cbn in *. destruct Hrf as (Hf2 & -> & _).
  rewrite Hf2, Hf, length_app. cbn.
  split_and!.
  - rewrite Z.ltb_lt. split.
    + destruct st.2 as [u|]; [|lia]. intros H. exists u. split; [done|]. unfold ceil_seconds, us_per_second in H. lia.
    + intros (u & -> & Hu). unfold ceil_seconds, us_per_second. lia.
  - intros u -> Hu. unfold ceil_seconds, seconds, us_per_second. lia.
  - done.
  - destruct (Z.leb_spec (max_fails cfg) (Z.of_nat (length (recent (now - seconds (window_sec cfg)) st.1) + 1))); cbn;
      split; intros; try done; lia.
Qed.
End TrackerLaws.

(** ** The default configuration *)

(** utils/account_lockout.py:181-185, [AccountLockoutTracker.__init__]: the
    defaults. *)
Definition default_tracker_config : tracker_config :=
  {| max_fails := 5; window_sec := 15 * 60; lock_duration_sec := 30 * 60 |}.

Definition empty_store : InMemoryStore := {| _failures := ∅; _locks := ∅ |}.

(** Five failures one minute apart lock the pair for thirty minutes; the same
    e-mail from another address is not locked. *)
Example five_failures_lock :
  let at_ n := minutes n in
  let s := run_events default_tracker_config empty_store
             (map (fun n => Failure (at_ n) (at_ n) "A@x.com " "10.0.0.1") [0; 1; 2; 3; 4]) in
  ((check default_tracker_config (at_ 5) "a@x.com" "10.0.0.1" s).1,
   locked (check default_tracker_config (at_ 5) "a@x.com" "10.0.0.2" s).1,
   locked (check default_tracker_config (at_ 34) "a@x.com" "10.0.0.1" s).1) =
  ({| locked := true; failed_count := 5; retry_after_seconds := 29 * 60 |}, false, false).
Proof. vm_compute. reflexivity. Qed.

(** A client that changes its address on every try is never locked out: the pair
    is the key. *)
Example rotating_addresses_never_lock :
  let s := run_events default_tracker_config empty_store
             (map (fun n => Failure n n "a@x.com" (str_of_Z n)) (map Z.of_nat (seq 1 100))) in
  locked (check default_tracker_config 101 "a@x.com" "101" s).1 = false.
Proof. vm_compute. reflexivity. Qed.

Lemma lockout_depends_on_own_events_witness :
  let l := map (fun n => Failure (minutes n) (minutes n) "a@x.com" "10.0.0.1") [0; 1; 2; 3; 4] in
  locked (check default_tracker_config (minutes 5) "a@x.com" "10.0.0.1"
            (run_events default_tracker_config empty_store l)).1 = true.
Proof.
  intros l. apply (proj1 (lockout_depends_on_own_events default_tracker_config empty_store l (minutes 5) (minutes 5)
                            "a@x.com" "10.0.0.1")).
  exists (minutes 34). split; [vm_compute; reflexivity|unfold minutes, seconds, us_per_second; lia].
Defined.
