(* ===== verification/Accounts.v ===== *)
(** * Accounts and access tokens

    models/user.py, models/tenant.py, models/revoked_refresh_token.py: the rows
    behind a login; utils/security.py: the JSON web tokens; api/deps.py: what an
    endpoint makes of an access token.  PyJWT's [encode] and [decode] and
    bcrypt's [verify] are variables; what the code relies on is the class
    [TokenLibrary]. *)

From Stdlib Require Import Ascii SpecFloat.
From S2P Require Import Prelude PyStr Json PyTime.

(** What an endpoint raises: [HTTPException(status_code, detail={"code": ...})],
    or any other exception, which ends in a 500. *)
Inductive web_error : Type :=
| HTTPException (status_code : Z) (code : string)
| PyException (what : string).

#[export] Instance web_error_eq_dec : EqDecision web_error.
Proof. solve_decision. Defined.

(** ** Rows *)

(** models/user.py, [User]. *)
Record User : Type := {
  user_id : string;
  email : string;
  hashed_password : string;
  full_name : option string;
  is_active : bool;
  last_login_at : option datetime;
}.

(** models/tenant.py, [Tenant]. *)
Record Tenant : Type := {
  tenant_pk : string;
  tenant_name : string;
  slug : string;
  plan : string;
  tenant_is_active : bool;
}.

(** models/tenant.py, [TenantUser]. *)
Record TenantUser : Type := {
  tu_tenant_id : string;
  tu_user_id : string;
  role : string;
}.

(** models/revoked_refresh_token.py, [RevokedRefreshToken]: the table's key is
    the unique [jti]. *)
Record RevokedRefreshToken : Type := {
  rv_user_id : string;
  rv_tenant_id : string;
  rv_expires_at : datetime;
}.

#[export] Instance User_eq_dec : EqDecision User.
Proof. solve_decision. Defined.
#[export] Instance Tenant_eq_dec : EqDecision Tenant.
Proof. solve_decision. Defined.
#[export] Instance TenantUser_eq_dec : EqDecision TenantUser.
Proof. solve_decision. Defined.
#[export] Instance RevokedRefreshToken_eq_dec : EqDecision RevokedRefreshToken.
Proof. solve_decision. Defined.

(** The tables: users and tenants by primary key, memberships in table order,
    the denylist by [jti]. *)
Record AccountsDB : Type := {
  users : gmap string User;
  tenants : gmap string Tenant;
  tenant_users : list TenantUser;
  revoked_refresh_tokens : gmap string RevokedRefreshToken;
}.

Definition with_users (f : gmap string User -> gmap string User) (db : AccountsDB) : AccountsDB :=
  {| users := f (users db); tenants := tenants db; tenant_users := tenant_users db;
     revoked_refresh_tokens := revoked_refresh_tokens db |}.
Definition with_tenants (f : gmap string Tenant -> gmap string Tenant) (db : AccountsDB) : AccountsDB :=
  {| users := users db; tenants := f (tenants db); tenant_users := tenant_users db;
     revoked_refresh_tokens := revoked_refresh_tokens db |}.
Definition with_tenant_users (f : list TenantUser -> list TenantUser) (db : AccountsDB) : AccountsDB :=
  {| users := users db; tenants := tenants db; tenant_users := f (tenant_users db);
     revoked_refresh_tokens := revoked_refresh_tokens db |}.
Definition with_revoked (f : gmap string RevokedRefreshToken -> gmap string RevokedRefreshToken)
    (db : AccountsDB) : AccountsDB :=
  {| users := users db; tenants := tenants db; tenant_users := tenant_users db;
     revoked_refresh_tokens := f (revoked_refresh_tokens db) |}.

(** [select(User).where(User.email == email)]: the column is unique. *)
Definition user_by_email (e : string) (db : AccountsDB) : option User :=
  find_row (fun u => String.eqb (email u) e) (users db).

(** [select(TenantUser).where(user_id == uid, tenant_id == tid)] *)
Definition membership (uid tid : string) (db : AccountsDB) : option TenantUser :=
  find_first (fun m => String.eqb (tu_user_id m) uid && String.eqb (tu_tenant_id m) tid) (tenant_users db).

(** ** Tokens *)

(** config.py: the settings of tenant tokens. *)
Record jwt_settings : Type := {
  jwt_secret_key : string;
  access_token_expire_minutes : Z;
  refresh_token_expire_days : Z;
}.

Definition claims : Type := list (string * json).

(** PyJWT and passlib, called with the configured algorithm and scheme: [encode
    payload secret], [decode now token secret] ([None] is [PyJWTError]),
    [bcrypt_verify plain hashed] and [bcrypt_hash salt plain]. *)
Class TokenLibrary : Type := {
  jwt_encode : claims -> string -> string;
  jwt_decode : Z -> string -> string -> option claims;
  bcrypt_verify : string -> string -> bool;
  bcrypt_hash : string -> string -> string;
}.

(** [int(dt.timestamp())] of the UTC instant [us]. *)
Definition timestamp (us : Z) : Z := us ÷ us_per_second.

(** The documented behaviour of [jwt.decode]: a token made with the same secret
    is accepted, and its payload returned, when its subject is a string, it is
    not issued in the future and it has not expired; the clock decides whether
    a token is accepted, not what it says. *)
Class TokenLaws `{!TokenLibrary} : Prop := {
  jwt_decode_encode now secret payload iat exp sub :
    get_key "iat" payload = JInt iat -> get_key "exp" payload = JInt exp ->
    get_key "sub" payload = JStr sub -> iat * us_per_second <= now -> now < exp * us_per_second ->
    jwt_decode now (jwt_encode payload secret) secret = Some payload;
  jwt_decode_stable now now' token secret p p' :
    jwt_decode now token secret = Some p -> jwt_decode now' token secret = Some p' -> p = p';
  jwt_encode_nonempty payload secret : jwt_encode payload secret <> "";
  hash_nonempty salt plain : bcrypt_hash salt plain <> "";
  verify_hash salt plain : bcrypt_verify plain (bcrypt_hash salt plain) = true;
}.

(** utils/security.py, [TokenType]. *)
Inductive TokenType : Type := _ACCESS | _REFRESH.

#[export] Instance TokenType_eq_dec : EqDecision TokenType.
Proof. solve_decision. Defined.

Definition token_type_value (t : TokenType) : string :=
  match t with _ACCESS => "access" | _REFRESH => "refresh" end.

(** utils/security.py:71-75, [_encode]: the extra claims, which cannot replace
    the four protected ones. *)
Definition add_extra (payload extra : claims) : claims :=
  fold_left (fun acc kv => if existsb (String.eqb kv.1) ["sub"; "exp"; "iat"; "type"] then acc
                           else set_key kv.1 kv.2 acc) extra payload.

Definition opt_json (o : option string) : json := match o with Some s => JStr s | None => JNull end.

Section Security.
Context `{!TokenLibrary}.
Context (cfg : jwt_settings).

(** utils/security.py, [hash_password]; the salt is drawn by bcrypt. *)
Definition hash_password (salt plain_password : string) : option string :=
  if truthy plain_password then Some (bcrypt_hash salt plain_password) else None.

(** utils/security.py, [verify_password]. *)
Definition verify_password (plain_password hashed : string) : bool :=
  truthy plain_password && truthy hashed && bcrypt_verify plain_password hashed.

(** utils/security.py:62-75, [_encode]: the payload. *)
Definition token_payload (now : Z) (sub : string) (tenant_id : option string) (t : TokenType) (expires_delta : Z)
    (extra_claims : claims) : claims :=
  add_extra [("sub", JStr sub); ("tenant_id", opt_json tenant_id); ("type", JStr (token_type_value t));
             ("iat", JInt (timestamp now)); ("exp", JInt (timestamp (now + expires_delta)))] extra_claims.

(** utils/security.py, [_encode]. *)
Definition _encode (now : Z) (sub : string) (tenant_id : option string) (t : TokenType) (expires_delta : Z)
    (extra_claims : claims) : string :=
  jwt_encode (token_payload now sub tenant_id t expires_delta extra_claims) (jwt_secret_key cfg).

(** utils/security.py, [create_access_token]. *)
Definition create_access_token (now : Z) (sub : string) (tenant_id : option string) (extra : claims) : string :=
  _encode now sub tenant_id _ACCESS (minutes (access_token_expire_minutes cfg)) extra.

(** utils/security.py, [create_refresh_token]. *)
Definition create_refresh_token (now : Z) (sub : string) (tenant_id : option string) (extra : claims) : string :=
  _encode now sub tenant_id _REFRESH (days (refresh_token_expire_days cfg)) extra.

(** utils/security.py, [decode_token]; [None] is [TokenDecodeError]. *)
Definition decode_token (now : Z) (token : string) (expected_type : option TokenType) : option claims :=
  if negb (truthy token) then None
  else match jwt_decode now token (jwt_secret_key cfg) with
       | None => None
       | Some payload =>
           let type_ok := match expected_type with
                          | None => true
                          | Some t => bool_decide (get_key "type" payload = JStr (token_type_value t))
                          end in
           if type_ok && jtruthy (get_key "sub" payload) then Some payload else None
       end.
End Security.

(** ** Dependencies of the endpoints *)

(** The user of a request with the tenant and role claims of its token. *)
Record Principal : Type := { principal : User; _jwt_tenant_id : string; _jwt_role : json }.

Section Deps.
Context `{!TokenLibrary}.
Context (cfg : jwt_settings).
Context (repr_other : json -> string).
Local Abbreviation AM := (M (session AccountsDB) web_error).

(** api/deps.py, [get_current_user]. *)
Definition get_current_user (now : Z) (token : string) : AM Principal :=
  let* payload := or_raise (decode_token cfg now token (Some _ACCESS)) (HTTPException 401 "invalid_token") in
  let uid := py_str repr_other (get_key "sub" payload) in
  let tenant_id := get_key "tenant_id" payload in
  raise_if (negb (jtruthy tenant_id)) (HTTPException 401 "missing_tenant_claim") ;;;
  let* row := query (fun db => users db !! uid) in
  let* user := or_raise row (HTTPException 401 "user_not_found") in
  raise_if (negb (is_active user)) (HTTPException 403 "user_inactive") ;;;
  ret {| principal := user; _jwt_tenant_id := py_str repr_other tenant_id; _jwt_role := get_key "role" payload |}.

(** api/deps.py, [get_current_tenant_id]. *)
Definition get_current_tenant_id (p : Principal) : AM string :=
  raise_if (negb (truthy (_jwt_tenant_id p))) (HTTPException 401 "missing_tenant_claim") ;;;
  ret (_jwt_tenant_id p).

(** api/deps.py, [get_current_tenant_user]. *)
Definition get_current_tenant_user (p : Principal) : AM TenantUser :=
  let* tenant_id := get_current_tenant_id p in
  let* row := query (membership (user_id (principal p)) tenant_id) in
  or_raise row (HTTPException 403 "not_a_tenant_member").
End Deps.

(** ** Lemmas *)

Lemma add_extra_get k payload extra :
  existsb (String.eqb k) ["sub"; "exp"; "iat"; "type"] = true ->
  get_key k (add_extra payload extra) = get_key k payload.
Proof.
  intros Hk. unfold add_extra. revert payload. induction extra as [|[k' v] extra IH]; intros payload; cbn [fold_left]; [done|].
  rewrite IH. cbn [fst snd]. destruct (existsb (String.eqb k') _) eqn:Hk'; [done|].
  assert (Hne : k <> k') by (intros ->; congruence). clear -Hne. unfold get_key. f_equal.
  induction payload as [|[k2 v2] r IH]; cbn.
  - by destruct (String.eqb_spec k k').
  - destruct (String.eqb_spec k' k2) as [<-|]; cbn; [by destruct (String.eqb_spec k k')|].
    destruct (String.eqb k k2); [done|exact IH].
Qed.

Lemma membership_spec uid tid db m :
  membership uid tid db = Some m -> In m (tenant_users db) /\ tu_user_id m = uid /\ tu_tenant_id m = tid.
Proof.
  intros H. apply find_first_Some in H as [Hin Hb]. apply andb_true_iff in Hb as [H1 H2].
  split; [done|]. split; by apply String.eqb_eq.
Qed.

Lemma decode_token_Some `{!TokenLibrary} cfg now token t payload :
  decode_token cfg now token (Some t) = Some payload <->
  token <> "" /\ jwt_decode now token (jwt_secret_key cfg) = Some payload /\
  get_key "type" payload = JStr (token_type_value t) /\ jtruthy (get_key "sub" payload) = true.
Proof.
  unfold decode_token. destruct (truthy token) eqn:Ht.
  - apply truthy_spec in Ht. cbn. destruct (jwt_decode now token (jwt_secret_key cfg)) as [p|]; [|naive_solver].
    destruct (jtruthy (get_key "sub" p)) eqn:Hs; case_bool_decide as Hty; cbn;
      split; [intros [= <-]|intros (_ & [= <-] & _ & _)|intros [= ]|intros (_ & [= <-] & ? & ?)
             |intros [= ]|intros (_ & [= <-] & ? & ?)|intros [= ]|intros (_ & [= <-] & ? & ?)];
      by try congruence.
  - apply truthy_false in Ht. cbn. naive_solver.
Qed.

(** A token made by the code decodes to its payload while it lasts, as the type
    it was made for and as no other. *)
Lemma decode_encoded `{!TokenLibrary, !TokenLaws} cfg now0 now sub tid t delta extra t' :
  sub <> "" -> 0 <= now0 -> 0 <= delta -> now0 <= now -> now < timestamp (now0 + delta) * us_per_second ->
  decode_token cfg now (_encode cfg now0 sub tid t delta extra) (Some t') =
  if bool_decide (t = t') then Some (token_payload now0 sub tid t delta extra) else None.
Proof.
  intros Hsub Hn Hd Hle Hexp. unfold decode_token, _encode.
  destruct (truthy (jwt_encode _ _)) eqn:Ht; [|by apply truthy_false, jwt_encode_nonempty in Ht].
  cbn [negb]. unfold token_payload.
  rewrite (jwt_decode_encode now (jwt_secret_key cfg) _ (timestamp now0) (timestamp (now0 + delta)) sub);
    [|by rewrite add_extra_get|by rewrite add_extra_get|by rewrite add_extra_get| |done].
  - rewrite !add_extra_get by done. cbn. destruct (truthy sub) eqn:Hs; [|by apply truthy_false in Hs].
    destruct t, t'; done.
  - unfold timestamp, us_per_second in *. rewrite Z.quot_div_nonneg by lia. lia.
Qed.

(** ** Well-formed tables *)

(** What the primary keys, the unique constraints and the foreign keys of the
    schema say of the tables. *)
Record accounts_wf (db : AccountsDB) : Prop := {
  wf_user_key k u : users db !! k = Some u -> user_id u = k /\ k <> "";
  wf_tenant_key k t : tenants db !! k = Some t -> tenant_pk t = k /\ k <> "";
  wf_email k1 k2 u1 u2 : users db !! k1 = Some u1 -> users db !! k2 = Some u2 -> email u1 = email u2 -> k1 = k2;
  wf_slug k1 k2 t1 t2 : tenants db !! k1 = Some t1 -> tenants db !! k2 = Some t2 -> slug t1 = slug t2 -> k1 = k2;
  wf_member m : In m (tenant_users db) -> is_Some (users db !! tu_user_id m) /\ is_Some (tenants db !! tu_tenant_id m);
  wf_member_unique : NoDup (map (fun m => (tu_tenant_id m, tu_user_id m)) (tenant_users db));
}.

(** The instants at which a token made at [now0] for [delta] is valid. *)
Definition live (now0 delta t : Z) : Prop :=
  0 <= now0 /\ 0 <= delta /\ now0 <= t < timestamp (now0 + delta) * us_per_second.

Lemma user_by_email_Some e db u :
  user_by_email e db = Some u -> exists k, users db !! k = Some u /\ email u = e.
Proof. intros (k & Hk & He)%find_row_Some. exists k. split; [done|by apply String.eqb_eq]. Qed.

Lemma user_by_email_None e db k u :
  user_by_email e db = None -> users db !! k = Some u -> email u <> e.
Proof. intros H Hu. by apply String.eqb_neq, (find_row_None _ _ k u H Hu). Qed.

Lemma get_current_user_Ok `{!TokenLibrary} cfg repr_other now token s p s' :
  get_current_user cfg repr_other now token s = (Ok p, s') <->
  s' = s /\ exists payload, decode_token cfg now token (Some _ACCESS) = Some payload /\
    jtruthy (get_key "tenant_id" payload) = true /\
    users (working s) !! py_str repr_other (get_key "sub" payload) = Some (principal p) /\
    is_active (principal p) = true /\ _jwt_tenant_id p = py_str repr_other (get_key "tenant_id" payload) /\
    _jwt_role p = get_key "role" payload.
Proof.
  unfold get_current_user. split.
  - intros Hok. unfold query in Hok. inv_run Hok. split; [done|]. eexists. cbn. split_and!; try done.
    + by apply negb_false_iff.
    + by apply negb_false_iff.
  - intros (-> & payload & Hd & Ht & Hu & Hact & Hid & Hr). destruct p as [u tid r]. cbn in *. subst.
    unfold bind, or_raise. rewrite Hd. cbn. unfold raise_if. rewrite Ht. cbn. unfold query, reads. rewrite Hu. cbn.
    by rewrite Hact.
Qed.

(** An access token made for a user and a tenant authenticates as them while it
    lasts, and a refresh token never does. *)
Lemma access_token_authenticates `{!TokenLibrary, !TokenLaws} cfg repr_other now0 t u tid r extra s :
  live now0 (minutes (access_token_expire_minutes cfg)) t ->
  users (working s) !! user_id u = Some u -> is_active u = true -> user_id u <> "" -> tid <> "" ->
  get_current_user cfg repr_other t
    (create_access_token cfg now0 (user_id u) (Some tid) (("role", r) :: ("email", extra) :: nil)) s =
  (Ok {| principal := u; _jwt_tenant_id := tid; _jwt_role := r |}, s).
Proof.
  intros (Hn & Hd & Hle & Hlt) Hu Hact Hne Htid. apply get_current_user_Ok. split; [done|].
  exists (token_payload now0 (user_id u) (Some tid) _ACCESS (minutes (access_token_expire_minutes cfg))
            (("role", r) :: ("email", extra) :: nil)).
  split; [unfold create_access_token; by rewrite decode_encoded|].
  cbn. apply truthy_spec in Htid. by split_and!.
Qed.

Lemma refresh_token_not_access `{!TokenLibrary, !TokenLaws} cfg repr_other now0 t u tid extra s :
  live now0 (days (refresh_token_expire_days cfg)) t -> user_id u <> "" ->
  get_current_user cfg repr_other t (create_refresh_token cfg now0 (user_id u) (Some tid) extra) s =
  (Raise (HTTPException 401 "invalid_token"), s).
Proof.
  intros (Hn & Hd & Hle & Hlt) Hne. unfold get_current_user, bind, or_raise, create_refresh_token.
  by rewrite decode_encoded.
Qed.

(** ** A concrete library

    Tokens that spell out the secret and the payload, with the checks of the
    clock that PyJWT makes: the laws can hold. *)
Module PlainTokens.
Definition float_parts (f : spec_float) : Z * bool * positive * Z :=
    match f with
    | S754_zero b => (0, b, 1%positive, 0)
    | S754_infinity b => (1, b, 1%positive, 0)
    | S754_nan => (2, true, 1%positive, 0)
    | S754_finite b m e => (3, b, m, e)
    end.
Definition parts_float (x : Z * bool * positive * Z) : spec_float :=
    let '(k, b, m, e) := x in
    if k =? 0 then S754_zero b else if k =? 1 then S754_infinity b else if k =? 2 then S754_nan
    else S754_finite b m e.

Lemma parts_of_float f : parts_float (float_parts f) = f.
Proof. by destruct f. Qed.

Definition leaf : Type := bool + Z + (Z * bool * positive * Z) + string.

Fixpoint json_tree (v : json) : gen_tree leaf :=
    match v with
    | JNull => GenNode 0 []
    | JBool b => GenLeaf (inl (inl (inl b)))
    | JInt z => GenLeaf (inl (inl (inr z)))
    | JFloat f => GenLeaf (inl (inr (float_parts f)))
    | JStr s => GenLeaf (inr s)
    | JList l => GenNode 1 (map json_tree l)
    | JObj kvs => GenNode 2 (map (fun kv : string * json => GenNode 3 [GenLeaf (inr kv.1); json_tree kv.2]) kvs)
    end.

Fixpoint tree_json (t : gen_tree leaf) : json :=
    match t with
    | GenLeaf (inl (inl (inl b))) => JBool b
    | GenLeaf (inl (inl (inr z))) => JInt z
    | GenLeaf (inl (inr f)) => JFloat (parts_float f)
    | GenLeaf (inr s) => JStr s
    | GenNode 1 l => JList (map tree_json l)
    | GenNode 2 l => JObj (map (fun t => match t with
                                         | GenNode 3 [GenLeaf (inr k); v] => (k, tree_json v)
                                         | _ => ("", JNull)
                                         end) l)
    | GenNode _ _ => JNull
    end.

Lemma tree_json_tree v : tree_json (json_tree v) = v.
Proof.
    induction v as [|b|z|f|s|l IH|kvs IH] using json_ind'; cbn; try done.
    - by rewrite parts_of_float.
    - f_equal. induction IH as [|v l Hv _ IHl]; cbn; [done|]. by rewrite Hv, IHl.
    - f_equal. induction IH as [|[k v] l Hv _ IHl]; cbn in *; [done|]. by rewrite Hv, IHl.
Qed.

#[export] Instance json_countable : Countable json := inj_countable' json_tree tree_json tree_json_tree.

(** A positive number in binary, lowest digit first. *)
Fixpoint bits (p : positive) : string :=
    match p with
    | xH => "."
    | xO p => String "0" (bits p)
    | xI p => String "1" (bits p)
    end.
Fixpoint unbits (s : string) : option positive :=
    match s with
    | String "." _ => Some xH
    | String "0" r => option_map xO (unbits r)
    | String "1" r => option_map xI (unbits r)
    | _ => None
    end.

Lemma unbits_bits p : unbits (bits p) = Some p.
Proof. by induction p as [p IH|p IH|]; cbn; rewrite ?IH. Qed.

Definition token (payload : claims) (secret : string) : string := bits (encode (payload, secret)).

(** The checks of [exp], [iat] and [sub]. *)
Definition accepts (now : Z) (payload : claims) : bool :=
    match get_key "iat" payload, get_key "exp" payload, get_key "sub" payload with
    | JInt iat, JInt exp, JStr _ => (iat * us_per_second <=? now) && (now <? exp * us_per_second)
    | _, _, _ => false
    end.

Definition read (now : Z) (tok secret : string) : option claims :=
    match unbits tok ≫= decode (A := claims * string) with
    | Some (payload, secret') => if String.eqb secret secret' && accepts now payload then Some payload else None
    | None => None
    end.

Definition library : TokenLibrary :=
    {| jwt_encode := token; jwt_decode := read; bcrypt_verify := fun plain h => String.eqb ("$" +:+ plain) h;
       bcrypt_hash := fun _ plain => "$" +:+ plain |}.

Lemma laws : @TokenLaws library.
Proof.
    split; cbn.
    - intros now secret payload iat exp sub Hiat Hexp Hsub Hle Hlt. unfold read, token.
      rewrite unbits_bits. cbn. rewrite decode_encode, String.eqb_refl. unfold accepts.
      rewrite Hiat, Hexp, Hsub, (proj2 (Z.leb_le _ _)), (proj2 (Z.ltb_lt _ _)) by done. done.
    - unfold read. intros now now' tok secret p p' Hp Hp'. destruct (unbits tok ≫= decode) as [[q s]|]; [|done].
      repeat case_match; congruence.
    - unfold token. intros payload secret. by destruct (encode (payload, secret)).
    - done.
    - intros _ plain. apply String.eqb_refl.
Qed.
End PlainTokens.
