(* ===== verification/ImportApi.v ===== *)
(** * The import endpoints

    api/v1/imports.py: each endpoint as one request over the import tables, the
    upload directory and the rows of audit_logs, on top of services/import_service.py
    ([Imports]). *)

From Stdlib Require Import Ascii.
From S2P Require Import Prelude PyStr Json Encoding ImportModels SupplierImporter AvScanner ImportFiles Imports ImportDryRun Accounts.

(** ** State *)

(** models/audit.py, [AuditLog]: what [_audit] writes. *)
Record import_audit : Type := {
  ia_action : string; ia_tenant_id : string; ia_actor_user_id : option string; ia_resource_id : option string;
  ia_metadata : json; ia_ip_address : option string }.

(** The tables and files of the import service, and the audit rows of the request's
    session. *)
Record ApiSt : Type := { imp : St; audits : session (list import_audit) }.

Definition lift {E A} (m : M St E A) : M ApiSt E A :=
  fun s => let '(r, i) := m (imp s) in (r, {| imp := i; audits := audits s |}).

(** [await session.commit()] and [await session.rollback()] of the request. *)
Definition api_commit {E} : M ApiSt E unit :=
  fun s => (Ok tt, {| imp := snd (db_commit (E := E) (imp s)); audits := snd (commit (E := E) (audits s)) |}).
Definition api_rollback {E} : M ApiSt E unit :=
  fun s => (Ok tt, {| imp := snd (db_rollback (E := E) (imp s)); audits := snd (rollback (E := E) (audits s)) |}).

(** db.py, [get_db]. *)
Definition request {A} (m : M ApiSt web_error A) : M ApiSt web_error A :=
  fun s => match m s with
           | (Ok a, s') => (Ok a, snd (api_commit (E := web_error) s'))
           | (Raise e, s') => (Raise e, snd (api_rollback (E := web_error) s'))
           end.

(** A call of the service; [h] is what the endpoint makes of its exceptions. *)
Definition service {A} (m : M St exn A) (h : exn -> M ApiSt web_error A) : M ApiSt web_error A :=
  fun s => match m (imp s) with
           | (Ok a, i) => (Ok a, {| imp := i; audits := audits s |})
           | (Raise e, i) => h e {| imp := i; audits := audits s |}
           end.

(** An exception no handler names. *)
Definition unhandled {A} (e : exn) : M ApiSt web_error A := raise (PyException (exn_class e)).

(** ** Helpers *)

(** The parts of a request the endpoints read. *)
Record http_request : Type := { client_host : option string; x_forwarded_for : option string }.

(** api/v1/imports.py, [_client_ip]. *)
Definition _client_ip (r : http_request) : option string :=
  match opt_truthy (client_host r) with
  | Some h => Some h
  | None =>
      match opt_truthy (x_forwarded_for r) with
      | Some f => opt_truthy (Some (strip (partition_char "," f).1.1))
      | None => None
      end
  end.

(** api/v1/imports.py, [_audit]. *)
Definition _audit (action tenant_id : string) (user_id resource_id ip : option string) (metadata : json) : M ApiSt web_error unit :=
  modify (fun s => {| imp := imp s;
    audits := Session (working (audits s) ++
      [{| ia_action := action; ia_tenant_id := tenant_id; ia_actor_user_id := user_id; ia_resource_id := resource_id;
          ia_metadata := metadata; ia_ip_address := ip |}]) (committed (audits s)) |}).

(** api/v1/imports.py, [_problem]. *)
Definition _problem (code : string) (status_code : Z) : web_error := HTTPException status_code code.

(** api/v1/imports.py, [_entity]. *)
Definition _entity (entity_type : string) : M ApiSt web_error ImportEntityType :=
  or_raise (find_first (fun e => String.eqb (entity_value e) entity_type) [SUPPLIER; COI; LOSS_RUN; PRODUCER_LICENSE])
    (_problem "unknown_entity_type" 400).

(** api/v1/imports.py, [_VALID_ON_DUPLICATE]. *)
Definition _VALID_ON_DUPLICATE : list string := ["error"; "update"; "skip"].

(** api/v1/imports.py, [_csv_escape]. *)
Definition _csv_escape (cell : string) : string :=
  let s := double_quotes cell in
  if sany (fun ch => Ascii.eqb ch "," || Ascii.eqb ch dquote || Ascii.eqb ch lf || Ascii.eqb ch cr) s
  then String dquote (s +:+ String dquote "") else s.

(** ** The endpoints *)

Section Endpoints.
Context (cfg : ImportSettings) (uuid : nat -> string) (ellipsis : ascii) (repr : option string -> string)
  (repr_other : json -> string) (json_loads : string -> option json)
  (validate_email : string -> string + string)
  (csv_cells : bytes -> list (list string) * option exn)
  (xlsx_cells : bytes -> list (list cell) * option exn)
  (repr_float : SpecFloat.spec_float -> string) (str_cell : cell -> string).
Context (scan : bool -> bytes -> result av_error ScanReport).
Context (blip : list ValidatedRow -> option exn).
Context (others : nat -> ImportDB -> ImportDB).

(** The member that uploads. *)
Context (tenant_id : string) (user_id : option string).

Record upload : Type := {
  up_filename : option string; up_content_type : option string; up_bytes : bytes;
  up_entity_type : string; up_mapping : option string; up_on_duplicate : string }.

(** api/v1/imports.py:150-166, [upload_import]: the form field [mapping]. *)
Definition read_mapping (mapping : option string) : M ApiSt web_error json :=
  match opt_truthy mapping with
  | None => ret JNull
  | Some text =>
      let* parsed := or_raise (json_loads text) (_problem "invalid_mapping_json" 400) in
      match parsed with
      | JObj kvs => ret (JObj (map (fun kv => (kv.1, JStr (py_str repr_other kv.2))) kvs))
      | _ => raise (_problem "invalid_mapping_json" 400)
      end
  end.

(** api/v1/imports.py:182-209, [upload_import]: the handlers of the upload. *)
Definition upload_refused (e : exn) : M ApiSt web_error ImportJob :=
  match e with
  | InfectedUploadError _ _ => api_rollback ;;; raise (_problem "av_infected_file" 422)
  | ScannerUnavailableError _ _ => api_rollback ;;; raise (_problem "av_scanner_unavailable" 503)
  | UnsupportedFormatError _ => raise (_problem "unsupported_format" 400)
  | FileTooLargeError _ => raise (_problem "file_too_large" 413)
  | _ => unhandled e
  end.

(** [except import_service.ImportServiceError as exc] *)
Definition service_error (e : exn) : M ApiSt web_error ImportJob :=
  match exn_code e with Some code => raise (_problem code 400) | None => unhandled e end.

(** api/v1/imports.py:141-166, [upload_import]: the form; the framework has checked
    [on_duplicate] before. *)
Definition read_form (u : upload) : M ApiSt web_error (ImportEntityType * json) :=
  raise_if (negb (mem (up_on_duplicate u) _VALID_ON_DUPLICATE)) (HTTPException 422 "validation_error") ;;;
  let* entity := _entity (up_entity_type u) in
  let* mapping := read_mapping (up_mapping u) in
  ret (entity, mapping).

(** api/v1/imports.py:168-236, [upload_import]: the job, its commit, the dry run. *)
Definition store_upload (r : http_request) (now t0 t1 : Z) (u : upload) (form : ImportEntityType * json) : M ApiSt web_error ImportJob :=
  let* job := service (create_import_job cfg uuid repr scan tenant_id form.1 (sor (default "" (up_filename u)) "upload") (up_content_type u)
                         (up_bytes u) form.2 (up_on_duplicate u) user_id now) upload_refused in
  _audit "import.uploaded" tenant_id user_id (Some (job_pk job)) (_client_ip r)
    (JObj [("entity_type", JStr (entity_value form.1)); ("filename", JStr (original_filename job)); ("size", JInt (file_size_bytes job))]) ;;;
  api_commit ;;;
  service (run_validation cfg uuid ellipsis repr repr_other json_loads validate_email csv_cells xlsx_cells repr_float str_cell
             tenant_id (job_pk job) t0 t1) service_error.

(** api/v1/imports.py, [upload_import]; [now], [t0] and [t1] are the clock at the
    upload and at the two ends of the dry run. *)
Definition upload_import (r : http_request) (now t0 t1 : Z) (u : upload) : M ApiSt web_error ImportJob :=
  request (
    let* form := read_form u in
    store_upload r now t0 t1 u form).

(** api/v1/imports.py, [list_imports]: the jobs and the header [X-Total-Count]. *)
Definition list_imports (limit offset : Z) : M ApiSt web_error (list ImportJob * Z) :=
  request (
    raise_if (negb ((1 <=? limit) && (limit <=? 200) && (0 <=? offset))) (HTTPException 422 "validation_error") ;;;
    service (list_jobs tenant_id limit offset) unhandled).

Definition importer_columns (entity : ImportEntityType) : M ApiSt web_error (list ColumnSpec) :=
  service (get_importer repr entity) unhandled.

(** api/v1/imports.py, [download_template]. *)
Definition template_body (columns : list ColumnSpec) : string :=
  join "," (map field columns) +:+ crlf +:+ join "," (map (fun c => _csv_escape (default "" (example c))) columns) +:+ crlf.
Definition download_template (entity_type : string) : M ApiSt web_error string :=
  request (
    let* entity := _entity entity_type in
    let* columns := importer_columns entity in
    ret (template_body columns)).

(** api/v1/imports.py, [get_columns]. *)
Definition get_columns (entity_type : string) : M ApiSt web_error (list ColumnSpec) :=
  request (
    let* entity := _entity entity_type in
    importer_columns entity).

Definition job_not_found {A} (e : exn) : M ApiSt web_error A :=
  match e with JobNotFoundError _ => raise (_problem "import_job_not_found" 404) | _ => unhandled e end.

(** schemas/imports.py, [ImportJobDetail]. *)
Record ImportJobDetail : Type := { detail_job : ImportJob; errors_preview : list ImportRowError; error_count : Z }.

(** services/import_service.py, [MAX_PREVIEW_ERRORS]. *)
Definition MAX_PREVIEW_ERRORS : Z := 50.

(** api/v1/imports.py, [get_import]. *)
Definition get_import (job_id : string) : M ApiSt web_error ImportJobDetail :=
  request (
    let* job := service (get_job repr tenant_id job_id) job_not_found in
    let* errors := service (get_job_errors tenant_id (job_pk job) (Some MAX_PREVIEW_ERRORS) 0) unhandled in
    let* total_errors := service (count_job_errors tenant_id (job_pk job)) unhandled in
    ret {| detail_job := job; errors_preview := errors; error_count := total_errors |}).

(** api/v1/imports.py, [download_errors]. *)
Definition download_errors (job_id : string) : M ApiSt web_error (list string) :=
  request (
    let* job := service (get_job repr tenant_id job_id) job_not_found in
    let* errors := service (get_job_errors tenant_id (job_pk job) None 0) unhandled in
    ret (stream_errors_csv errors)).

Definition conflict_or (other : exn -> M ApiSt web_error ImportJob) (e : exn) : M ApiSt web_error ImportJob :=
  match e with InvalidTransitionError _ => raise (_problem "invalid_transition" 409) | _ => other e end.

(** api/v1/imports.py, [commit_import]. *)
Definition commit_import (r : http_request) (now : Z) (confirmed : bool) (job_id : string) : M ApiSt web_error ImportJob :=
  request (
    raise_if (negb confirmed) (_problem "commit_not_confirmed" 400) ;;;
    let* job := service (get_job repr tenant_id job_id) job_not_found in
    _audit "import.commit_requested" tenant_id user_id (Some (job_pk job)) (_client_ip r) JNull ;;;
    api_commit ;;;
    service (run_commit cfg uuid ellipsis repr repr_other json_loads validate_email csv_cells xlsx_cells repr_float str_cell blip others
               tenant_id (job_pk job) now) (conflict_or service_error)).

(** api/v1/imports.py, [cancel_import]. *)
Definition cancel_import (r : http_request) (now : Z) (job_id : string) : M ApiSt web_error ImportJob :=
  request (
    let* job := service (cancel_job repr tenant_id job_id now) (conflict_or job_not_found) in
    _audit "import.canceled" tenant_id user_id (Some (job_pk job)) (_client_ip r) JNull ;;;
    ret job).
End Endpoints.

(** ** Lemmas *)

(** The session of a request before its first statement. *)
Definition fresh_request (s : ApiSt) : Prop :=
  working (ses (imp s)) = committed (ses (imp s)) /\ working (audits s) = committed (audits s).

Lemma session_eta {DB} (s : session DB) : working s = committed s -> Session (committed s) (committed s) = s.
Proof. destruct s as [w c]. cbn. by intros ->. Qed.

Lemma rolled_back s : fresh_request s -> snd (api_rollback (E := web_error) s) = s.
Proof.
  destruct s as [[ses0 fs] au]. unfold fresh_request, api_rollback, db_rollback, rollback, modify. cbn. intros [H1 H2].
  by rewrite !session_eta.
Qed.

(** An endpoint whose body raises without a write. *)
Lemma request_refused {A} (m : M ApiSt web_error A) s e : fresh_request s -> m s = (Raise e, s) -> request m s = (Raise e, s).
Proof. intros Hf Hm. unfold request. by rewrite Hm, rolled_back. Qed.

Lemma import_service_Ok {A} (m : M St exn A) h s a i : m (imp s) = (Ok a, i) -> service m h s = (Ok a, {| imp := i; audits := audits s |}).
Proof. unfold service. by intros ->. Qed.
Lemma service_Raise {A} (m : M St exn A) h s e i : m (imp s) = (Raise e, i) -> service m h s = h e {| imp := i; audits := audits s |}.
Proof. unfold service. by intros ->. Qed.

Lemma api_eta s : {| imp := imp s; audits := audits s |} = s.
Proof. by destruct s. Qed.

Section Access.
Context (cfg : ImportSettings) (uuid : nat -> string) (ellipsis : ascii) (repr : option string -> string)
  (repr_other : json -> string) (json_loads : string -> option json)
  (validate_email : string -> string + string)
  (csv_cells : bytes -> list (list string) * option exn)
  (xlsx_cells : bytes -> list (list cell) * option exn)
  (repr_float : SpecFloat.spec_float -> string) (str_cell : cell -> string).
Context (scan : bool -> bytes -> result av_error ScanReport).
Context (blip : list ValidatedRow -> option exn).
Context (others : nat -> ImportDB -> ImportDB).
Context (tenant_id : string) (user_id : option string).

Lemma get_job_missing jid s : job_of tenant_id jid (working (ses s)) = None ->
    exists m, get_job repr tenant_id jid s = (Raise (JobNotFoundError m), s).
Proof using Type. intros H. unfold get_job, db_query, reads, bind, or_raise. rewrite H. by eexists. Qed.

Local Abbreviation commit_job := (commit_import cfg uuid ellipsis repr repr_other json_loads validate_email csv_cells xlsx_cells
    repr_float str_cell blip others tenant_id user_id).

(** Tenant isolation over HTTP. A job that the member's tenant does not have, also
    one of another tenant, is answered 404 by every endpoint that names a job, and the
    request changes nothing: no row, no file, no audit row. *)
Theorem foreign_import_is_not_found jid r now s :
    fresh_request s -> job_of tenant_id jid (committed (ses (imp s))) = None ->
    get_import repr tenant_id jid s = (Raise (HTTPException 404 "import_job_not_found"), s) /\
    download_errors repr tenant_id jid s = (Raise (HTTPException 404 "import_job_not_found"), s) /\
    commit_job r now true jid s = (Raise (HTTPException 404 "import_job_not_found"), s) /\
    cancel_import repr tenant_id user_id r now jid s = (Raise (HTTPException 404 "import_job_not_found"), s).
Proof using Type.
    intros Hf Hj. rewrite <- (proj1 Hf) in Hj. destruct (get_job_missing jid (imp s) Hj) as [m Hm].
    assert (H : forall A (k : ImportJob -> M ApiSt web_error A),
              bind (service (get_job repr tenant_id jid) job_not_found) k s = (Raise (HTTPException 404 "import_job_not_found"), s)).
    { intros A k. unfold bind. rewrite (service_Raise _ _ _ _ _ Hm), api_eta. done. }
    split_and!; apply request_refused; try exact Hf; try apply H.
    unfold bind. rewrite (service_Raise _ _ _ (JobNotFoundError m) (imp s)), api_eta; [done|].
    unfold cancel_job, bind. by rewrite Hm.
Qed.

(** ** Uploads *)

(** The service's part of an upload, with all it leaves. *)
Lemma create_import_job_run entity filename ctype content mp od now s :
    jobs (working (ses s)) !! uuid (next_id (working (ses s))) = None ->
    match create_import_job cfg uuid repr scan tenant_id entity filename ctype content mp od user_id now s with
    | (Ok job, s') =>
        committed (ses s') = committed (ses s) /\ jobs (working (ses s')) = <[job_pk job := job]> (jobs (working (ses s))) /\
        suppliers (working (ses s')) = suppliers (working (ses s)) /\ row_errors (working (ses s')) = row_errors (working (ses s)) /\
        job_tenant_id job = tenant_id /\ job_status job = PENDING /\ entity_type job = entity /\
        jobs (working (ses s)) !! job_pk job = None /\ files s' = <[file_url job := content]> (files s)
    | (Raise e, s') => committed (ses s') = committed (ses s) /\ files s' = files s
    end.
Proof using Type.
    intros Hfresh. unfold create_import_job. set (safe := sanitize_filename filename).
    destruct (negb (mem (lower (path_suffix safe)) ALLOWED_EXTENSIONS)); [by cbn|]. cbn [raise_if].
    rewrite (bind_run _ _ s tt s) by done.
    destruct (import_max_file_size_bytes cfg <? slen content); [by cbn|]. cbn [raise_if]. rewrite (bind_run _ _ s tt s) by done.
    destruct (detect_format repr safe ctype) as [fmt|e] eqn:Hfmt; [|by cbn]. rewrite (bind_run _ _ s tt s) by done.
    unfold db_query, reads, put_job, db_write, modify, bind, ret, raise. cbn [ses working committed files].
    set (id := uuid (next_id (working (ses s)))) in *.
    destruct (scan (av_fail_closed_on_scanner_error cfg) content) as [report|[sig sc d|d sc]]; [|by cbn..].
    cbn. rewrite insert_insert_eq. split_and!; try done.
Qed.

Local Abbreviation upload_file := (upload_import cfg uuid ellipsis repr repr_other json_loads validate_email csv_cells xlsx_cells
    repr_float str_cell scan tenant_id user_id).

Lemma read_mapping_readonly o : readonly (read_mapping repr_other json_loads o).
Proof using Type.
    unfold read_mapping. destruct (opt_truthy o); [|auto with readonly]. apply readonly_bind; [auto with readonly|].
    intros [| | | | | |kvs]; auto with readonly.
Qed.

Lemma entity_readonly t : readonly (_entity t).
Proof using Type. unfold _entity. auto with readonly. Qed.

Lemma read_form_readonly u : readonly (read_form repr_other json_loads u).
Proof using Type.
    unfold read_form. apply readonly_bind; [auto with readonly|intros _]. apply readonly_bind; [apply entity_readonly|intros e].
    apply readonly_bind; [apply read_mapping_readonly|auto with readonly].
Qed.

(** What a stored upload leaves behind: one more job of the tenant, its file and the
    audit row that names it, all committed, and no supplier. *)
Definition upload_stored (u : upload) (job : ImportJob) (s s' : ApiSt) : Prop :=
    fresh_request s' /\
    jobs (committed (ses (imp s'))) = <[job_pk job := job]> (jobs (committed (ses (imp s)))) /\
    jobs (committed (ses (imp s))) !! job_pk job = None /\
    suppliers (committed (ses (imp s'))) = suppliers (committed (ses (imp s))) /\
    job_tenant_id job = tenant_id /\ files (imp s') = <[file_url job := up_bytes u]> (files (imp s)) /\
    exists a, committed (audits s') = committed (audits s) ++ [a] /\ ia_action a = "import.uploaded" /\ ia_resource_id a = Some (job_pk job).

Lemma set_status_inv job target le now s job' s' : _set_status job target le now s = (Ok job', s') -> job' = moved job target le now.
Proof using Type. unfold _set_status, put_job. intros H. by inv_run H. Qed.

(** The dry run keeps the id, the tenant, the kind and the file of the job. *)
Lemma validation_keeps_identity tid jid t0 t1 s job s' j :
    run_validation cfg uuid ellipsis repr repr_other json_loads validate_email csv_cells xlsx_cells repr_float str_cell tid jid t0 t1 s = (Ok job, s') ->
    job_of tid jid (working (ses s)) = Some j ->
    job_pk job = job_pk j /\ job_tenant_id job = job_tenant_id j /\ entity_type job = entity_type j /\ file_url job = file_url j.
Proof using Type.
    unfold run_validation, get_job. intros H Hj. inv_run H. apply set_status_inv in Hrun as ->. assert (a0 = j) as -> by congruence.
    unfold try_else in H. destruct (_scan_and_persist_errors _ _ _ _ _ _ _ _ _ _ _ _ s1) as [[st|e] s2].
    - by apply set_status_inv in H as ->.
    - unfold validation_failed in H. destruct (match e with _MissingColumnsError _ => _ | _ => _ end) as [[code msg] le].
      unfold _record_job_level_error, put_job in H. inv_run H. inv_run Hrun. by apply set_status_inv in H as ->.
Qed.

Lemma validation_of_other_entity jid t0 t1 s j :
    jobs (working (ses s)) !! jid = Some j -> job_tenant_id j = tenant_id -> job_status j = PENDING -> entity_type j <> SUPPLIER ->
    truthy tenant_id = true ->
    exists m s', run_validation cfg uuid ellipsis repr repr_other json_loads validate_email csv_cells xlsx_cells repr_float str_cell
                   tenant_id jid t0 t1 s = (Raise (Other "ValueError" m), s') /\ committed (ses s') = committed (ses s) /\ files s' = files s.
Proof using Type.
    intros Hj Hten Hst Hent Htid. unfold run_validation. rewrite Htid. cbn [negb raise_if]. rewrite (bind_run _ _ s tt s) by done.
    assert (Hget : get_job repr tenant_id jid s = (Ok j, s)).
    { unfold get_job, db_query, reads, bind, job_of. cbn. by rewrite Hj, Hten, String.eqb_refl. }
    rewrite (bind_run _ _ _ _ _ Hget). rewrite Hst. cbn [negb bool_decide raise_if]. rewrite (bind_run _ _ s tt s) by done.
    rewrite (bind_run _ _ s _ _ (set_status_run j VALIDATING None t0 s ltac:(by rewrite Hst))).
    unfold get_importer. change (entity_type (moved j VALIDATING None t0)) with (entity_type j).
    destruct (entity_type j); [done|..]; by eexists _, _.
Qed.

Lemma store_upload_run r now t0 t1 u entity mp s :
    fresh_request s -> truthy tenant_id = true -> jobs (committed (ses (imp s))) !! uuid (next_id (committed (ses (imp s)))) = None ->
    match request (store_upload cfg uuid ellipsis repr repr_other json_loads validate_email csv_cells xlsx_cells repr_float str_cell scan
                     tenant_id user_id r now t0 t1 u (entity, mp)) s with
    | (Ok job, s') => upload_stored u job s s' /\ entity_type job = SUPPLIER /\ (job_status job = DRY_RUN_READY \/ job_status job = FAILED)
    | (Raise e, s') =>
        s' = s \/
        e = PyException "ValueError" /\ exists job, upload_stored u job s s' /\ entity_type job <> SUPPLIER /\ job_status job = PENDING
    end.
Proof using Type.
    intros Hf Htid Hid. pose proof Hf as [Hw Ha]. rewrite <- Hw in Hid. unfold request, store_upload. unfold bind at 1.
    pose proof (create_import_job_run entity (sor (default "" (up_filename u)) "upload") (up_content_type u) (up_bytes u) mp
                  (up_on_duplicate u) now (imp s) Hid) as Hc. cbn [fst snd].
    destruct (create_import_job _ _ _ _ _ _ _ _ _ _ _ _ _ (imp s)) as [[job|e] i] eqn:Hrun.
    2: { rewrite (service_Raise _ _ _ _ _ Hrun). destruct Hc as [Hcom Hfiles].
         assert (Hroll : snd (api_rollback (E := web_error) {| imp := i; audits := audits s |}) = s).
         { unfold api_rollback, db_rollback, rollback, modify. cbn. rewrite Hcom, Hfiles, !session_eta by done. destruct s as [[]]; done. }
         assert (Hroll2 : snd (api_rollback (E := web_error) (snd (api_rollback (E := web_error) {| imp := i; audits := audits s |}))) = s)
           by (rewrite Hroll; by apply rolled_back).
         destruct e; cbn [upload_refused]; unfold unhandled; cbn in Hroll, Hroll2 |- *; left; done. }
    rewrite (import_service_Ok _ _ _ _ _ Hrun). destruct Hc as (Hcom & Hjobs & Hsup & Herr & Hten & Hst & Hent & Hnew & Hfiles).
    unfold bind, _audit, api_commit at 1, modify. cbn [imp audits ses files working committed].
    set (i2 := snd (db_commit (E := web_error) i)).
    assert (Hj : jobs (working (ses i2)) !! job_pk job = Some job) by (cbn; by rewrite Hjobs, lookup_insert_eq).
    set (s2 := {| imp := i2; audits := _ |}).
    destruct (decide (entity = SUPPLIER)) as [->|Hne].
    - destruct (run_validation_outcome cfg uuid ellipsis repr repr_other json_loads validate_email csv_cells xlsx_cells repr_float str_cell
                  tenant_id (job_pk job) t0 t1 i2 job) as (job' & i3 & Hv & Hj3 & Hs3 & Hc3 & Hf3 & _ & Hst3); try done; [by apply truthy_spec|].
      destruct (validation_keeps_identity tenant_id (job_pk job) t0 t1 i2 job' i3 job Hv ltac:(by unfold job_of; rewrite Hj, Hten, String.eqb_refl)) as (Hpk' & Hten' & Hent' & Hurl').
      rewrite (import_service_Ok _ _ s2 _ _ Hv). split; [|split; [by rewrite Hent'|destruct Hst3 as [[? _]|[? _]]; auto]].
      unfold upload_stored. cbn. rewrite Hj3, Hs3, Hf3. cbn. rewrite Hjobs, Hsup, Hfiles, Hw, Hpk', Hten', Hurl', insert_insert_eq.
      rewrite Hw in Hnew. split_and!; try done. eexists. split; [by rewrite Ha|done].
    - destruct (validation_of_other_entity (job_pk job) t0 t1 i2 job) as (m & i3 & Hv & Hc3 & Hf3); try done; [by rewrite Hent|].
      rewrite (service_Raise _ _ s2 _ _ Hv). right. split; [done|]. exists job. split; [|by rewrite Hent].
      unfold upload_stored. cbn. rewrite Hc3, Hf3. cbn. rewrite Hjobs, Hsup, Hfiles, Hw. rewrite Hw in Hnew.
      split_and!; try done. eexists. split; [by rewrite Ha|done].
Qed.

(** An upload over HTTP. It either returns a job of a supplier file that the dry
    run has left ready or failed, and has stored the job, the file and one audit row,
    but no supplier; or it is refused and leaves nothing; or the kind of the rows is
    one that has no importer: then the request fails with a ValueError although the
    job, its file and the audit row have been committed, and the job stays pending. *)
Theorem upload_over_http r now t0 t1 u s :
    fresh_request s -> truthy tenant_id = true -> jobs (committed (ses (imp s))) !! uuid (next_id (committed (ses (imp s)))) = None ->
    match upload_file r now t0 t1 u s with
    | (Ok job, s') => upload_stored u job s s' /\ entity_type job = SUPPLIER /\ (job_status job = DRY_RUN_READY \/ job_status job = FAILED)
    | (Raise e, s') =>
        s' = s \/
        e = PyException "ValueError" /\ exists job, upload_stored u job s s' /\ entity_type job <> SUPPLIER /\ job_status job = PENDING
    end.
Proof using Type.
    intros Hf Htid Hid. unfold upload_import. destruct (read_form repr_other json_loads u s) as [r1 s1] eqn:Hform.
    pose proof (readonly_run _ _ _ _ (read_form_readonly u) Hform) as ->. destruct r1 as [[entity mp]|e].
    2: { rewrite (request_refused _ s e); [by left|done|]. unfold bind. by rewrite Hform. }
    unfold request, bind at 1. rewrite Hform. apply store_upload_run; done.
Qed.
End Access.

(** ** Templates *)

Lemma csv_escape_cell cell : _csv_escape cell = csv_cell cell.
Proof. reflexivity. Qed.

Definition plain_fields (columns : list ColumnSpec) : bool := forallb (fun c => negb (sany needs_quotes (field c))) columns.

Lemma plain_cell f : sany needs_quotes f = false -> csv_cell f = f.
Proof.
  intros H. assert (Hd : double_quotes f = f).
  { unfold double_quotes. revert H. induction f as [|c f IH]; [done|]. cbn. intros [Hc Hf]%orb_false_iff. rewrite IH by done.
    destruct (Ascii.eqb_spec dquote c) as [<-|]; [done|done]. }
  unfold csv_cell. by rewrite Hd, H.
Qed.

(** The downloaded template reads back as the names of the columns and one row of
    examples, whatever characters the examples have. *)
Theorem template_reads_back columns :
  columns <> [] -> plain_fields columns = true ->
  csv_parse (template_body columns) = Some [map field columns; map (fun c => default "" (example c)) columns].
Proof.
  intros Hne Hp. assert (Hb : template_body columns = _csv_row (map field columns) +:+ _csv_row (map (fun c => default "" (example c)) columns) +:+ "").
  { unfold template_body, _csv_row. rewrite append_nil_r, !append_assoc. do 2 f_equal.
    - rewrite map_map. apply map_ext_in. intros c Hc. symmetry. apply plain_cell.
      unfold plain_fields in Hp. rewrite forallb_forall in Hp. by apply negb_true_iff, Hp.
    - by rewrite map_map. }
  rewrite Hb, parse_row by (by destruct columns). rewrite parse_row by (by destruct columns). done.
Qed.

(** ** A concrete set-up *)

Module DemoImportApi.
Definition start : ApiSt :=
  let db := {| jobs := ∅; row_errors := []; suppliers := []; next_id := 0 |} in
  {| imp := {| ses := Session db db; files := ∅ |}; audits := Session [] [] |}.
Definition req : http_request := {| client_host := Some "10.0.0.1"; x_forwarded_for := Some "1.2.3.4, 10.0.0.1" |}.
Definition form (entity : string) : upload :=
  {| up_filename := Some "a.csv"; up_content_type := None; up_bytes := DemoImport.file; up_entity_type := entity; up_mapping := None;
     up_on_duplicate := "skip" |}.
Definition uploads (u : upload) : M ApiSt web_error ImportJob :=
  upload_import DemoImport.cfg DemoImport.uuid "~" DemoImport.repr (fun _ => "") (fun _ => None) DemoImport.email DemoImport.csv DemoImport.xlsx
    (fun _ => "") (fun _ => "") clean_scan "ten" (Some "user") req 1 2 3 u.
Definition commits (id : string) : M ApiSt web_error ImportJob :=
  commit_import DemoImport.cfg DemoImport.uuid "~" DemoImport.repr (fun _ => "") (fun _ => None) DemoImport.email DemoImport.csv DemoImport.xlsx
    (fun _ => "") (fun _ => "") (fun _ => None) (fun _ db => db) "ten" (Some "user") req 4 true id.

(** From the upload to the suppliers: three rows are good. *)
Example uploaded_then_committed :
  match uploads (form "supplier") start with
  | (Ok job, s) =>
      job_status job = DRY_RUN_READY /\ suppliers (committed (ses (imp s))) = [] /\
      match commits (job_pk job) s with
      | (Ok job', s') => job_status job' = COMPLETED /\ length (suppliers (committed (ses (imp s')))) = 3%nat /\
                         map ia_action (committed (audits s')) = ["import.uploaded"; "import.commit_requested"]
      | _ => False
      end
  | _ => False
  end.
Proof. vm_compute. done. Qed.

(** A kind without an importer is accepted, stored, and fails. *)
Example certificates_stay_pending :
  match uploads (form "coi") start with
  | (Raise e, s) => e = PyException "ValueError" /\ map job_status (map snd (map_to_list (jobs (committed (ses (imp s)))))) = [PENDING]
  | _ => False
  end.
Proof. vm_compute. done. Qed.

(** The template of the suppliers is itself a file the importer accepts. *)
Example template_row_is_valid :
  match csv_parse (template_body _COLUMNS) with
  | Some [header; row] => ok (validate_row DemoImport.email (remap_row _COLUMNS (combine header row) None) 2) = true
  | _ => False
  end.
Proof. vm_compute. done. Qed.
End DemoImportApi.

Lemma upload_over_http_witness :
  match DemoImportApi.uploads (DemoImportApi.form "coi") DemoImportApi.start with
  | (Raise e, s') => exists job, upload_stored "ten" (DemoImportApi.form "coi") job DemoImportApi.start s' /\ job_status job = PENDING
  | (Ok _, _) => False
  end.
Proof.
  pose proof (upload_over_http DemoImport.cfg DemoImport.uuid "~" DemoImport.repr (fun _ => "") (fun _ => None) DemoImport.email DemoImport.csv
    DemoImport.xlsx (fun _ => "") (fun _ => "") clean_scan "ten" (Some "user") DemoImportApi.req 1 2 3 (DemoImportApi.form "coi")
    DemoImportApi.start (conj eq_refl eq_refl) eq_refl eq_refl) as H.
  unfold DemoImportApi.uploads. destruct (upload_import _ _ _ _ _ _ _ _ _ _ _ _ _ _ _ _ _ _ _ _) as [[job|e] s'] eqn:E.
  - vm_compute in E. discriminate E.
  - destruct H as [->|(_ & job & Hs & _ & Hp)]; [vm_compute in E; discriminate E|]. exists job. split; [exact Hs|exact Hp].
Defined.

Lemma foreign_import_is_not_found_witness :
  get_import DemoImport.repr "other" "job" {| imp := DemoImport.with_job DemoImport.pending; audits := Session [] [] |} =
  (Raise (HTTPException 404 "import_job_not_found"), {| imp := DemoImport.with_job DemoImport.pending; audits := Session [] [] |}).
Proof.
  exact (proj1 (foreign_import_is_not_found DemoImport.cfg DemoImport.uuid "~" DemoImport.repr (fun _ => "") (fun _ => None) DemoImport.email
    DemoImport.csv DemoImport.xlsx (fun _ => "") (fun _ => "") (fun _ => None) (fun _ db => db) "other" None "job" DemoImportApi.req 1
    {| imp := DemoImport.with_job DemoImport.pending; audits := Session [] [] |} (conj eq_refl eq_refl) eq_refl)).
Defined.
