(* ===== verification/PdfPatterns.v ===== *)
(** * PDF extraction: patterns and confidence

    services/pdf_extraction/patterns.py and confidence.py: the regular expressions of
    the extractors, the readers of dates and amounts of money, the search for labelled
    values, and the score of a field.  Texts are ASCII. *)

From Stdlib Require Import Ascii.
From S2P Require Import Prelude PyStr Json PyTime Regex RegexGroups.

(** ** Lines *)

(** The characters [str.splitlines] breaks at. *)
Definition is_line_break (c : ascii) : bool :=
  let n := ord c in (10 <=? n) && (n <=? 13) || (28 <=? n) && (n <=? 30).

(** [s.splitlines()]; [line] is the current line, reversed in [rev_string]'s sense:
    its characters so far. *)
Fixpoint splitlines_from (line : string) (s : string) : list string :=
  match s with
  | EmptyString => if truthy line then [line] else []
  | String c r =>
      if is_line_break c then
        line :: match r with
                | String d r' => if Ascii.eqb c "013" && Ascii.eqb d "010" then splitlines_from "" r' else splitlines_from "" r
                | EmptyString => []
                end
      else splitlines_from (line +:+ String c "") r
  end.
Definition splitlines : string -> list string := splitlines_from "".

Definition blank_or_tab (c : ascii) : bool := Ascii.eqb c " " || Ascii.eqb c "009".
Definition newline : string := String "010" "".

(** services/pdf_extraction/patterns.py:49-56, [normalize_whitespace] *)
Definition normalize_whitespace (text : string) : string :=
  let text := sub (RRep blank_or_tab 1 None) " " text in
  let text := sub (RRep (Ascii.eqb "010") 3 None) (newline +:+ newline) text in
  strip text.

(** ** Dates *)

(** A [datetime.date]: year, month and day. *)
Definition date : Type := Z * Z * Z.

(** [date(y, m, d)]; [None] is the [ValueError]. *)
Definition make_date (y m d : Z) : option date :=
  if (1 <=? y) && (y <=? 9999) && bool_decide (civil_from_days (days_from_civil y m d) = (y, m, d))
  then Some (y, m, d) else None.
(** [d.isoformat()] *)
Definition date_isoformat (d : date) : string :=
  let '(y, m, dd) := d in zpad 4 y +:+ "-" +:+ zpad 2 m +:+ "-" +:+ zpad 2 dd.
(** [date.fromisoformat(s)] of a text in the format [isoformat] writes. *)
Definition date_fromisoformat (s : string) : option date :=
  '(y, r) ← read_digits 4 0 s; r ← read_char "-" r; '(m, r) ← read_digits 2 0 r; r ← read_char "-" r;
  '(d, r) ← read_digits 2 0 r;
  if String.eqb r "" then make_date y m d else None.
(** [a <= b] on dates. *)
Definition date_le (a b : date) : bool :=
  let '(y, m, d) := a in let '(y', m', d') := b in
  (y <? y') || (y =? y') && ((m <? m') || (m =? m') && (d <=? d')).

(** [\d{lo,hi}] *)
Definition digits_re (lo hi : nat) : gre := times is_digit lo hi.
Definition date_sep : gre := GClass (one_of "/.-").
(** [(?:Jan|Feb|...)] *)
Definition month_re : gre :=
  alt_of (map lit_ci ["Jan"; "Feb"; "Mar"; "Apr"; "May"; "Jun"; "Jul"; "Aug"; "Sep"; "Sept"; "Oct"; "Nov"; "Dec"]).

(** services/pdf_extraction/patterns.py:72-91, [DATE_RE] *)
Definition DATE_RE : gre :=
  seq_of [GWordB;
    GGroup 1 (alt_of [
      seq_of [digits_re 4 4; ch "-"; digits_re 2 2; ch "-"; digits_re 2 2];
      seq_of [digits_re 1 2; date_sep; digits_re 1 2; date_sep; digits_re 2 4];
      seq_of [month_re; times is_alpha 0 7; maybe (Ascii.eqb "."); many is_space; digits_re 1 2; maybe (Ascii.eqb ",");
              many is_space; digits_re 2 4];
      seq_of [digits_re 1 2; many is_space; month_re; times is_alpha 0 7; maybe (Ascii.eqb "."); many is_space;
              digits_re 2 4]]);
    GWordB].

(** services/pdf_extraction/patterns.py:94-97, [_MONTHS] *)
Definition _MONTHS (key : string) : option Z :=
  snd <$> find_first (fun kv : string * Z => String.eqb kv.1 key)
    [("jan", 1); ("feb", 2); ("mar", 3); ("apr", 4); ("may", 5); ("jun", 6); ("jul", 7); ("aug", 8); ("sep", 9);
     ("sept", 9); ("oct", 10); ("nov", 11); ("dec", 12)].

(** services/pdf_extraction/patterns.py:100-104, [_expand_two_digit_year] *)
Definition _expand_two_digit_year (year : Z) : Z := if year <? 100 then 2000 + year else year.

(** [int(m.group(n))] of a group of digits. *)
Definition int_group (n : nat) (m : Match) : Z := default 0 (py_int (group_text n m)).

(** services/pdf_extraction/patterns.py:117, [parse_date] *)
Definition iso_re : gre :=
  seq_of [GGroup 1 (digits_re 4 4); ch "-"; GGroup 2 (digits_re 1 2); ch "-"; GGroup 3 (digits_re 1 2)].
(** services/pdf_extraction/patterns.py:125, [parse_date] *)
Definition mdy_re : gre :=
  seq_of [GGroup 1 (digits_re 1 2); date_sep; GGroup 2 (digits_re 1 2); date_sep; GGroup 3 (digits_re 2 4)].
(** services/pdf_extraction/patterns.py:135-137, [parse_date] *)
Definition named_re : gre :=
  seq_of [GGroup 1 (times is_alpha 3 9); maybe (Ascii.eqb "."); many is_space; GGroup 2 (digits_re 1 2);
          maybe (Ascii.eqb ","); many is_space; GGroup 3 (digits_re 2 4)].
(** services/pdf_extraction/patterns.py:152-154, [parse_date] *)
Definition day_first_re : gre :=
  seq_of [GGroup 1 (digits_re 1 2); many is_space; GGroup 2 (times is_alpha 3 9); maybe (Ascii.eqb "."); many is_space;
          GGroup 3 (digits_re 2 4)].

(** The month a name stands for: [_MONTHS.get(key[:4]) or _MONTHS.get(key[:3])]. *)
Definition month_of (name : string) : option Z :=
  let key := lower name in or_else (_MONTHS (stake 4 key)) (_MONTHS (stake 3 key)).

(** services/pdf_extraction/patterns.py:107-168, [parse_date]; [None] also answers a date that does
    not exist. *)
Definition parse_date (raw : string) : option date :=
  let s := rstrip_by (one_of ".,;") (strip raw) in
  if negb (truthy s) then None else
  match gfullmatch iso_re s with
  | Some m => make_date (int_group 1 m) (int_group 2 m) (int_group 3 m)
  | None =>
  match gfullmatch mdy_re s with
  | Some m => make_date (_expand_two_digit_year (int_group 3 m)) (int_group 1 m) (int_group 2 m)
  | None =>
  match m ← gfullmatch named_re s; mon ← month_of (group_text 1 m); Some (m, mon) with
  | Some (m, mon) => make_date (_expand_two_digit_year (int_group 3 m)) mon (int_group 2 m)
  | None =>
  match m ← gfullmatch day_first_re s; mon ← month_of (group_text 2 m); Some (m, mon) with
  | Some (m, mon) => make_date (_expand_two_digit_year (int_group 3 m)) mon (int_group 1 m)
  | None => None
  end end end end.

(** ** Money *)

(** services/pdf_extraction/patterns.py:175-186, [MONEY_RE] *)
Definition MONEY_RE : gre :=
  seq_of [
    opt (alt_of [GSeq (lit_ci "USD") spaces; GSeq (ch "$") spaces]);
    GGroup 1 (alt_of [
      seq_of [digits_re 1 3; GPlus (GSeq (ch ",") (digits_re 3 3)); opt (GSeq (ch ".") (digits_re 1 2))];
      seq_of [many is_digit; opt (GSeq (ch ".") (digits_re 1 2))]]);
    spaces;
    opt (GGroup 2 (alt_of (map lit_ci ["M"; "MM"; "K"; "million"; "thousand"])));
    opt (GSeq spaces (lit_ci "USD"))].

(** services/pdf_extraction/patterns.py:189-195, [_MONEY_SUFFIX_MULTIPLIER] *)
Definition _MONEY_SUFFIX_MULTIPLIER (suffix : string) : option Z :=
  snd <$> find_first (fun kv : string * Z => String.eqb kv.1 suffix)
    [("k", 1000); ("thousand", 1000); ("m", 1000000); ("mm", 1000000); ("million", 1000000)].

(** A non-negative [decimal.Decimal]: coefficient and exponent of ten.  Operations
    round to the 28 digits of the default context, ties to even. *)
Definition Decimal : Type := Z * Z.
Definition count_digits (n : Z) : Z := slen (str_of_Z n).
Definition dec_fix (x : Decimal) : Decimal :=
  let '(c, e) := x in
  let k := count_digits c - 28 in
  if k <=? 0 then x
  else let c' := div_half_even c (10 ^ k) in
       if c' =? 10 ^ 28 then (10 ^ 27, e + k + 1) else (c', e + k).
Definition dec_mul (x : Decimal) (n : Z) : Decimal := dec_fix (x.1 * n, x.2).
(** [int(x.quantize(Decimal(1)))]; [None] is [InvalidOperation], raised when the
    result has more than 28 digits. *)
Definition quantize_int (x : Decimal) : option Z :=
  let '(c, e) := x in
  let n := if 0 <=? e then c * 10 ^ e else div_half_even c (10 ^ (- e)) in
  if 28 <? count_digits n then None else Some n.
(** [Decimal(s)] of digits with at most one point. *)
Definition Decimal_of (s : string) : Decimal :=
  let '(whole, _, frac) := partition_char "." s in
  (default 0 (py_int (whole +:+ frac)), - slen frac).

(** An exception outside the program's own classes: its class and its message. *)
Record PyExn : Type := { cls : string; msg : string }.
Definition InvalidOperation : PyExn := {| cls := "InvalidOperation"; msg := "[<class 'decimal.InvalidOperation'>]" |}.

(** services/pdf_extraction/patterns.py:198-220, [parse_money_cents] *)
Definition parse_money_cents (raw : string) : result PyExn (option Z) :=
  match gsearch MONEY_RE raw with
  | None => Ok None
  | Some m =>
      let number := replace_char "," "" (group_text 1 m) in
      let suffix := lower (default "" (group 2 m)) in
      let dec := Decimal_of number in
      let dec := if truthy suffix
                 then match _MONEY_SUFFIX_MULTIPLIER suffix with Some mult => dec_mul dec mult | None => dec end
                 else dec in
      match quantize_int (dec_mul dec 100) with
      | None => Raise InvalidOperation
      | Some cents => Ok (if cents <? 0 then None else Some cents)
      end
  end.

(** ** Identifiers *)

Definition is_upper_alnum (c : ascii) : bool := is_upper c || is_digit c.
Definition policy_char (c : ascii) : bool := is_upper_alnum c || one_of "-/." c.

(** services/pdf_extraction/patterns.py:229-231, [POLICY_NUMBER_RE] *)
Definition POLICY_NUMBER_RE : gre :=
  seq_of [GWordB; GGroup 1 (seq_of [GClass is_upper_alnum; times policy_char 3 31; GClass is_upper_alnum]); GWordB].
(** services/pdf_extraction/patterns.py:235-235, [NPN_RE] *)
Definition NPN_RE : gre := seq_of [GWordB; GGroup 1 (digits_re 5 10); GWordB].
(** services/pdf_extraction/patterns.py:238-238, [FEIN_RE] *)
Definition FEIN_RE : gre := seq_of [GWordB; GGroup 1 (seq_of [digits_re 2 2; ch "-"; digits_re 7 7]); GWordB].

(** services/pdf_extraction/patterns.py:248-254, [US_STATES] *)
Definition US_STATES : list string :=
  ["AL"; "AK"; "AZ"; "AR"; "CA"; "CO"; "CT"; "DE"; "DC"; "FL"; "GA"; "HI"; "ID"; "IL"; "IN"; "IA"; "KS"; "KY"; "LA";
   "ME"; "MD"; "MA"; "MI"; "MN"; "MS"; "MO"; "MT"; "NE"; "NV"; "NH"; "NJ"; "NM"; "NY"; "NC"; "ND"; "OH"; "OK"; "OR";
   "PA"; "RI"; "SC"; "SD"; "TN"; "TX"; "UT"; "VT"; "VA"; "WA"; "WV"; "WI"; "WY"; "PR"].
(** services/pdf_extraction/patterns.py:256-258, [STATE_CODE_RE]: the codes all have two letters, so
    their order in the alternation does not matter. *)
Definition STATE_CODE_RE : gre := seq_of [GWordB; GGroup 1 (alt_of (map lit US_STATES)); GWordB].

(** services/pdf_extraction/patterns.py:261-267, [guess_state_code] *)
Definition guess_state_code (text : string) : option string :=
  find_first (fun code => mem code US_STATES) (map (fun m => upper (group_text 1 m)) (gfinditer STATE_CODE_RE text)).

(** services/pdf_extraction/patterns.py:278-303, [INSURER_LOOKUP] *)
Definition INSURER_LOOKUP : list (string * string) :=
  [("hartford", "The Hartford"); ("travelers", "Travelers"); ("chubb", "Chubb"); ("liberty mutual", "Liberty Mutual");
   ("zurich", "Zurich"); ("aig", "AIG"); ("cna", "CNA"); ("nationwide", "Nationwide");
   ("berkshire", "Berkshire Hathaway"); ("amtrust", "AmTrust"); ("markel", "Markel");
   ("philadelphia", "Philadelphia Insurance"); ("great american", "Great American"); ("state auto", "State Auto");
   ("allianz", "Allianz"); ("axa", "AXA"); ("munich re", "Munich Re"); ("swiss re", "Swiss Re");
   ("lloyd", "Lloyd's of London"); ("lloyds", "Lloyd's of London"); ("starr", "Starr Insurance");
   ("everest", "Everest National"); ("tokio marine", "Tokio Marine"); ("the doctors company", "The Doctors Company")].

(** services/pdf_extraction/patterns.py:306-314, [match_insurer] *)
Definition match_insurer (text : string) : option string :=
  if negb (truthy text) then None
  else snd <$> find_first (fun kv : string * string => contains kv.1 (lower text)) INSURER_LOOKUP.

(** services/pdf_extraction/patterns.py:321-336, [LINES_OF_AUTHORITY], in alphabetical order. *)
Definition LINES_OF_AUTHORITY : list string :=
  ["Accident"; "Bail Bonds"; "Casualty"; "Commercial Lines"; "Crop"; "Health"; "Life"; "Personal Lines"; "Property";
   "Surplus Lines"; "Title"; "Variable Annuity"; "Variable Life"; "Workers Compensation"].
(** services/pdf_extraction/patterns.py:339-348, [match_lines_of_authority]: sorting the lines found is selecting
    them from the sorted table. *)
Definition match_lines_of_authority (text : string) : list string :=
  if negb (truthy text) then [] else List.filter (fun loa => contains (lower loa) (lower text)) LINES_OF_AUTHORITY.

(** ** Labelled values *)

(** services/pdf_extraction/patterns.py:356-357, [_strip_label] *)
Definition _strip_label (value : string) : string := strip (rstrip_by (Ascii.eqb ":") (strip value)).

Definition max_value_chars : nat := 120.

(** The expression of [find_label_value] for one label. *)
Definition label_re (label : string) : gre :=
  seq_of [GBol; spaces; lit_ci label; spaces; GClass (one_of ":-"); spaces; GGroup 1 (GRep false not_nl 1 None); spaces; GEol].

Definition short_value (value : string) : bool := truthy value && (String.length value <=? max_value_chars)%nat.

(** services/pdf_extraction/patterns.py:360-375, [find_label_value] *)
Definition find_label_value (text : string) (labels : list string) : option string :=
  first_some (fun label =>
    find_first short_value (map (fun m => strip (group_text 1 m)) (gfinditer (label_re label) text))) labels.

(** [lines[j].strip()] for the at most [n] lines of a list, up to the first that is
    not blank. *)
Fixpoint first_nonblank (n : nat) (lines : list string) : option string :=
  match n, lines with
  | S n, l :: r => let candidate := strip l in if truthy candidate then Some candidate else first_nonblank n r
  | _, _ => None
  end.

(** services/pdf_extraction/patterns.py:378-396, [find_label_value_below] *)
Definition find_label_value_below (text : string) (labels : list string) : option string :=
  let label_norms := map (fun l => lower (_strip_label l)) labels in
  let fix scan lines :=
    match lines with
    | [] => None
    | line :: below =>
        if mem (lower (_strip_label line)) label_norms
        then match first_nonblank 3 below with
             | Some candidate =>
                 Some (if (max_value_chars <? String.length candidate)%nat
                       then strip (stake max_value_chars candidate) else candidate)
             | None => scan below
             end
        else scan below
    end in
  scan (splitlines text).

(** ** Confidence *)

(** services/pdf_extraction/confidence.py, [ConfidenceInputs] *)
Record ConfidenceInputs : Type := { regex_strength : spec_float; layout_proximity : spec_float; consistency : spec_float }.

(** services/pdf_extraction/confidence.py, [_clamp] *)
Definition _clamp (x : spec_float) : spec_float :=
  if flt x (S754_zero false) then S754_zero false
  else if flt (float_of_Z 1) x then float_of_Z 1
  else x.

(** services/pdf_extraction/confidence.py, [score] *)
Definition score (inputs : ConfidenceInputs) : spec_float :=
  let raw := fadd (fadd (fmul (flit 1 2) (_clamp (regex_strength inputs)))
                        (fmul (flit 3 10) (_clamp (layout_proximity inputs))))
                  (fmul (flit 2 10) (_clamp (consistency inputs))) in
  round3 (_clamp raw).

(** services/pdf_extraction/confidence.py, [label], with [GREEN_THRESHOLD] and
    [YELLOW_THRESHOLD]. *)
Definition label (value : spec_float) : string :=
  if negb (flt value (flit 9 10)) then "green"
  else if negb (flt value (flit 6 10)) then "yellow" else "red".
