(* ===== verification/PdfExtractors.v ===== *)
(** * PDF extraction: the extractors

    services/pdf_extraction/base.py, coi_extractor.py, eo_extractor.py and
    license_extractor.py: each extractor as a run over the output it fills, in the
    order of the code; and what every extractor promises its caller. *)

From Stdlib Require Import Ascii.
From S2P Require Import Prelude PyStr Json PyTime Regex RegexGroups PdfPatterns.

(** ** Base *)

(** services/pdf_extraction/base.py, [Page]; no extractor reads the boxes. *)
Record Page : Type := { p_number : Z; p_text : string; p_lines : list string }.

(** services/pdf_extraction/base.py, [ExtractionOutput] *)
Record ExtractionOutput : Type := {
  o_fields : list (string * json); o_confidences : list (string * spec_float); o_warnings : list string }.
Definition empty_output : ExtractionOutput := {| o_fields := []; o_confidences := []; o_warnings := [] |}.

(** A part of an [extract]: it fills [out] and may raise. *)
Definition EM (A : Type) : Type := M ExtractionOutput PyExn A.

(** [out.fields[k] = v; out.confidences[k] = c] *)
Definition emit (k : string) (v : json) (c : spec_float) : EM unit :=
  modify (fun o => {| o_fields := set_key k v (o_fields o); o_confidences := dset k c (o_confidences o);
                      o_warnings := o_warnings o |}).
(** [out.confidences[k] = c] *)
Definition set_confidence (k : string) (c : spec_float) : EM unit :=
  modify (fun o => {| o_fields := o_fields o; o_confidences := dset k c (o_confidences o); o_warnings := o_warnings o |}).
(** [out.warnings.append(w)] *)
Definition warn (w : string) : EM unit :=
  modify (fun o => {| o_fields := o_fields o; o_confidences := o_confidences o; o_warnings := o_warnings o ++ [w] |}).
Definition has_field (k : string) : EM bool := reads (fun o => has_key k (o_fields o)).
(** [out.fields.get(k)] *)
Definition field (k : string) : EM json := reads (fun o => get_key k (o_fields o)).

(** [if x: ...] on an optional value. *)
Definition when {A} (o : option A) (k : A -> EM unit) : EM unit := match o with Some a => k a | None => ret tt end.
Definition when_true (b : bool) (m : EM unit) : EM unit := if b then m else ret tt.
Fixpoint for_each {A} (l : list A) (k : A -> EM unit) : EM unit :=
  match l with [] => ret tt | x :: r => k x ;;; for_each r k end.
(** An exception of a pure call. *)
Definition pure {A} (r : result PyExn A) : EM A := match r with Ok a => ret a | Raise e => raise e end.

(** [n / 100] as a literal, and [score(ConfidenceInputs(r, prox, c))]. *)
Definition pct (n : Z) : spec_float := flit n 100.
Definition conf (r : Z) (prox : spec_float) (c : Z) : spec_float :=
  score {| regex_strength := pct r; layout_proximity := prox; consistency := pct c |}.

(** services/pdf_extraction/base.py, [BasePdfExtractor] *)
Record BasePdfExtractor : Type := {
  document_type : string; version : string; required_fields : list string;
  extract : list Page -> result PyExn ExtractionOutput }.

(** [extract] from its parts after the test for [not pages]. *)
Definition extract_with (body : string -> EM unit) (pages : list Page) : result PyExn ExtractionOutput :=
  match pages with
  | [] => Ok {| o_fields := []; o_confidences := []; o_warnings := ["no pages"] |}
  | _ =>
      match body (normalize_whitespace (join (newline +:+ newline) (map p_text pages))) empty_output with
      | (Ok _, out) => Ok out
      | (Raise e, _) => Raise e
      end
  end.

(** ** Parts the extractors share *)

(** services/pdf_extraction/eo_extractor.py:36-44, [_pick_label]; license_extractor.py
    has the same function as [_pick]. *)
Definition _pick_label (text : string) (labels : list string) : option (string * spec_float) :=
  match opt_truthy (find_label_value text labels) with
  | Some same_line => Some (same_line, float_of_Z 1)
  | None =>
      match opt_truthy (find_label_value_below text labels) with
      | Some below => Some (below, pct 80)
      | None => None
      end
  end.

(** [raw.split()[0]] *)
Definition IndexError : PyExn := {| cls := "IndexError"; msg := "list index out of range" |}.
Definition first_token (raw : string) : EM string :=
  match split_ws raw with t :: _ => ret t | [] => raise IndexError end.

(** services/pdf_extraction/eo_extractor.py:135-146, [date_in], and license_extractor.py:168-177:
    one date field. *)
Definition date_in (raw : string) : option date :=
  match parse_date raw with
  | Some d => Some d
  | None => m ← gsearch DATE_RE raw; parse_date (group_text 1 m)
  end.
Definition date_field (text field_name : string) (labels : list string) : EM unit :=
  when (_pick_label text labels) (fun '(raw, prox) =>
  when (date_in raw) (fun d => emit field_name (JStr (date_isoformat d)) (conf 90 prox 60))).

(** One amount of money of eo_extractor.py. *)
Definition money_field (text field_name : string) (labels : list string) (strength : Z) : EM unit :=
  when (_pick_label text labels) (fun '(raw, prox) =>
    let* cents := pure (parse_money_cents raw) in
    when cents (fun c => when_true (negb (c =? 0)) (emit field_name (JInt c) (conf strength prox 60)))).

(** The first policy-like token with a digit that is not a number. *)
Definition policy_like (cand : string) : bool := sany is_digit cand && negb (sall is_digit cand).
Definition first_policy_like (text : string) : option string :=
  find_first policy_like (map (group_text 1) (gfinditer POLICY_NUMBER_RE text)).

Definition KeyError (k : string) : PyExn := {| cls := "KeyError"; msg := k |}.
(** [out.confidences[k] = f(out.confidences[k])] *)
Definition rescore (f : spec_float -> spec_float) (k : string) : EM unit :=
  let* c := reads (fun o => dget k (o_confidences o)) in
  let* c := or_raise c (KeyError k) in
  set_confidence k (f c).
(** The same behind [if k in out.confidences]. *)
Definition rescore_if (f : spec_float -> spec_float) (k : string) : EM unit :=
  let* c := reads (fun o => dget k (o_confidences o)) in
  when c (fun c => set_confidence k (f c)).
Definition halved (c : spec_float) : spec_float := round3 (fmul c (flit 5 10)).
Definition lifted (c : spec_float) : spec_float := fmin1 (round3 (fadd c (flit 1 10))).

(** Two date fields, read back: [Some true] when the second is after the first,
    [None] when one of them is missing or not a date. *)
Definition dates_in_order (o : ExtractionOutput) (eff_key exp_key : string) : option bool :=
  match get_key eff_key (o_fields o), get_key exp_key (o_fields o) with
  | JStr eff, JStr exp =>
      if truthy eff && truthy exp
      then d_exp ← date_fromisoformat exp; d_eff ← date_fromisoformat eff; Some (negb (date_le d_exp d_eff))
      else None
  | _, _ => None
  end.

(** ** E&O certificates *)

(** services/pdf_extraction/eo_extractor.py:65-86, [EoExtractor.extract] *)
Definition eo_carrier (text : string) : EM unit :=
  match _pick_label text ["Carrier"; "Insurer"; "Insurance Company"; "Underwriter"] with
  | Some (raw, prox) =>
      let known := is_someb (match_insurer raw) in
      emit "carrier_name" (JStr (default raw (match_insurer raw)))
        (conf (if known then 90 else 70) prox (if known then 70 else 50))
  | None => when (match_insurer text) (fun canon => emit "carrier_name" (JStr canon) (conf 60 (pct 40) 60))
  end.

(** services/pdf_extraction/eo_extractor.py:88-108, [EoExtractor.extract] *)
Definition eo_policy_number (text : string) : EM unit :=
  match _pick_label text ["Policy Number"; "Policy #"; "Policy No"; "Certificate Number"] with
  | Some (raw, prox) =>
      let* token := first_token raw in
      emit "policy_number" (JStr (rstrip_by (one_of ",;") token)) (conf 85 prox 60)
  | None => when (first_policy_like text) (fun cand => emit "policy_number" (JStr cand) (conf 50 (pct 30) 40))
  end.

(** services/pdf_extraction/eo_extractor.py:110-119, [EoExtractor.extract] *)
Definition eo_named_insured (text : string) : EM unit :=
  when (_pick_label text ["Named Insured"; "Insured"; "Policyholder"]) (fun '(raw, prox) =>
    emit "named_insured" (JStr raw) (conf 80 prox 60)).

(** services/pdf_extraction/eo_extractor.py:121-146, [EoExtractor.extract] *)
Definition eo_dates (text : string) : EM unit :=
  for_each [("effective_date", ["Effective Date"; "Effective"; "Inception Date"]);
            ("expiration_date", ["Expiration Date"; "Expiration"; "Expiry Date"; "Expires"]);
            ("retroactive_date", ["Retroactive Date"; "Retro Date"; "Retroactive"])]
    (fun '(field_name, labels) => date_field text field_name labels).

(** services/pdf_extraction/eo_extractor.py:148-184, [EoExtractor.extract] *)
Definition eo_money (text : string) : EM unit :=
  money_field text "coverage_amount_cents"
    ["Limit of Liability"; "Limit"; "Coverage Limit"; "Each Claim Limit"; "Per Claim Limit"] 90 ;;;
  money_field text "aggregate_amount_cents" ["Aggregate Limit"; "Aggregate"] 85 ;;;
  money_field text "deductible_cents" ["Deductible"; "Retention"; "SIR"] 85.

(** services/pdf_extraction/eo_extractor.py:186-198, [EoExtractor.extract] *)
Definition eo_consistency : EM unit :=
  let* ordered := reads (fun o => dates_in_order o "effective_date" "expiration_date") in
  match ordered with
  | Some false =>
      warn "expiration_date is not after effective_date" ;;;
      for_each ["effective_date"; "expiration_date"] (rescore halved)
  | _ => ret tt
  end.

(** services/pdf_extraction/eo_extractor.py:57-63, [EoExtractor.extract] *)
Definition eo_extract : list Page -> result PyExn ExtractionOutput :=
  extract_with (fun text =>
    eo_carrier text ;;; eo_policy_number text ;;; eo_named_insured text ;;; eo_dates text ;;; eo_money text ;;;
    eo_consistency).

(** services/pdf_extraction/eo_extractor.py:47-55, [EoExtractor] *)
Definition EoExtractor : BasePdfExtractor := {|
  document_type := "eo_certificate"; version := "0.1.0";
  required_fields := ["carrier_name"; "policy_number"; "effective_date"; "expiration_date"];
  extract := eo_extract |}.

(** ** Producer licenses *)

(** services/pdf_extraction/license_extractor.py:65-74, [LicenseExtractor.extract] *)
Definition license_name (text : string) : EM unit :=
  when (_pick_label text ["Licensee"; "Producer Name"; "Name"; "Agent Name"; "Licensee Name"]) (fun '(raw, prox) =>
    emit "licensee_name" (JStr raw) (conf 80 prox 60)).

(** [(?i)license[^\n]{0,40}?([A-Z0-9]{4,16})] *)
Definition near_license_re : gre :=
  seq_of [lit_ci "license"; GRep false not_nl 0 (Some 40%nat); GGroup 1 (times is_alnum 4 16)].

(** services/pdf_extraction/license_extractor.py:76-105, [LicenseExtractor.extract] *)
Definition license_number (text : string) : EM unit :=
  match _pick_label text ["License Number"; "License #"; "License No"; "License ID"; "Producer Number"] with
  | Some (raw, prox) =>
      let* token := first_token raw in
      emit "license_number" (JStr (rstrip_by (one_of ",;") token)) (conf 90 prox 70)
  | None => when (gsearch near_license_re text) (fun mm =>
      emit "license_number" (JStr (group_text 1 mm)) (conf 50 (pct 40) 50))
  end.

(** services/pdf_extraction/license_extractor.py:107-125, [LicenseExtractor.extract] *)
Definition license_state (text : string) : EM unit :=
  when (_pick_label text ["State"; "Issuing State"; "Jurisdiction"; "Domicile State"]) (fun '(raw, prox) =>
    when (guess_state_code raw) (fun code => emit "state" (JStr code) (conf 95 prox 70))) ;;;
  let* found := has_field "state" in
  when_true (negb found)
    (when (guess_state_code text) (fun code => emit "state" (JStr code) (conf 70 (pct 40) 50))).

(** services/pdf_extraction/license_extractor.py:127-152, [LicenseExtractor.extract] *)
Definition license_norm (raw : string) : option string :=
  let lowered := lower raw in
  if contains "non" lowered && contains "resident" lowered then Some "non_resident_producer"
  else if contains "resident" lowered then Some "resident_producer"
  else if contains "surplus" lowered then Some "surplus_lines"
  else if contains "adjust" lowered then Some "adjuster"
  else if contains "mga" lowered || contains "managing general" lowered then Some "mga"
  else if contains "wholesale" lowered then Some "wholesaler"
  else None.
Definition license_type (text : string) : EM unit :=
  when (_pick_label text ["License Type"; "Type"; "Resident Status"; "Residency"]) (fun '(raw, prox) =>
    when (license_norm raw) (fun norm => emit "license_type" (JStr norm) (conf 90 prox 70))).

(** services/pdf_extraction/license_extractor.py:154-177, [LicenseExtractor.extract] *)
Definition license_dates (text : string) : EM unit :=
  for_each [("effective_date", ["Effective Date"; "Issue Date"; "Issued"; "Effective"]);
            ("expiration_date", ["Expiration Date"; "Expires"; "Expiry Date"; "Expiration"])]
    (fun '(field_name, labels) => date_field text field_name labels).

(** services/pdf_extraction/license_extractor.py:179-190, [LicenseExtractor.extract] *)
Definition license_npn (text : string) : EM unit :=
  when (_pick_label text ["NPN"; "National Producer Number"; "National Producer #"]) (fun '(raw, prox) =>
    when (gsearch NPN_RE raw) (fun mm => emit "npn" (JStr (group_text 1 mm)) (conf 95 prox 70))).

(** services/pdf_extraction/license_extractor.py:192-198, [LicenseExtractor.extract] *)
Definition license_lines (text : string) : EM unit :=
  let loas := match_lines_of_authority text in
  when_true (match loas with [] => false | _ => true end)
    (emit "lines_authorized" (JList (map JStr loas)) (conf 85 (pct 70) 60)).

(** services/pdf_extraction/license_extractor.py:200-213, [LicenseExtractor.extract] *)
Definition license_consistency : EM unit :=
  let* ordered := reads (fun o => dates_in_order o "effective_date" "expiration_date") in
  match ordered with
  | Some false =>
      warn "expiration_date is not after effective_date" ;;;
      for_each ["effective_date"; "expiration_date"] (rescore_if halved)
  | _ => ret tt
  end.

(** services/pdf_extraction/license_extractor.py:57-63, [LicenseExtractor.extract] *)
Definition license_extract : list Page -> result PyExn ExtractionOutput :=
  extract_with (fun text =>
    license_name text ;;; license_number text ;;; license_state text ;;; license_type text ;;; license_dates text ;;;
    license_npn text ;;; license_lines text ;;; license_consistency).

(** services/pdf_extraction/license_extractor.py:47-55, [LicenseExtractor] *)
Definition LicenseExtractor : BasePdfExtractor := {|
  document_type := "producer_license"; version := "0.1.0";
  required_fields := ["licensee_name"; "license_number"; "state"; "expiration_date"];
  extract := license_extract |}.

(** ** Certificates of insurance (ACORD 25) *)

(** services/pdf_extraction/coi_extractor.py:38-48, [_COVERAGE_TYPES] *)
Definition _COVERAGE_TYPES : list (string * string) :=
  [("commercial_general_liability", "commercial general liability"); ("automobile_liability", "automobile liability");
   ("umbrella_liability", "umbrella liability"); ("excess_liability", "excess liability");
   ("workers_compensation", "workers' compensation"); ("workers_compensation", "workers compensation");
   ("employers_liability", "employers liability"); ("professional_liability", "professional liability");
   ("cyber_liability", "cyber")].

(** [^\s*HEADER\s*$] and [^\s*HEADER\s+] on one line, ignoring case. *)
Definition header_alone (h : string) : gre := seq_of [GBol; spaces; lit_ci h; spaces; GEol].
Definition header_first (h : string) : gre := seq_of [GBol; spaces; lit_ci h; many is_space].
Definition next_header_re : gre := seq_of [GBol; alt_of (map lit_ci ["insured"; "insurer"; "coverage"; "policy"])].

(** The lines of a block: up to a blank line or the next header. *)
Fixpoint collect_block (n : nat) (collected lines : list string) : list string :=
  match n, lines with
  | S n, l :: r =>
      let cand := strip l in
      if negb (truthy cand) then match collected with [] => collect_block n [] r | _ => collected end
      else if is_someb (gprefix next_header_re cand) then collected
      else collect_block n (collected ++ [cand]) r
  | _, _ => collected
  end.

(** services/pdf_extraction/coi_extractor.py:55-74, [_first_block] with the default
    [max_lines]. *)
Fixpoint first_block_from (header_patterns : list gre) (lines : list string) : option string :=
  match lines with
  | [] => None
  | line :: below =>
      if existsb (fun pat => is_someb (gsearch pat line)) header_patterns
      then match collect_block 6 [] below with
           | [] => first_block_from header_patterns below
           | collected => Some (strip (join newline collected))
           end
      else first_block_from header_patterns below
  end.
Definition _first_block (text header : string) : option string :=
  opt_truthy (first_block_from [header_alone header; header_first header] (splitlines text)).

(** services/pdf_extraction/coi_extractor.py:95-126, [CoiExtractor.extract] *)
Definition coi_blocks (text : string) : EM unit :=
  when (_first_block text "PRODUCER") (fun producer => emit "producer" (JStr producer) (conf 70 (pct 80) 50)) ;;;
  when (_first_block text "INSURED") (fun insured =>
    emit "insured" (JStr insured) (conf 70 (pct 80) 50) ;;;
    when (gsearch FEIN_RE insured) (fun fein => emit "insured_fein" (JStr (group_text 1 fein)) (conf 95 (pct 70) 50))).

(** One entry of [insurers]. *)
Record Insurer : Type := { i_name : string; i_raw_name : string; i_naic : option string }.
Definition insurer_json (i : Insurer) : json :=
  JObj [("name", JStr (i_name i)); ("raw_name", JStr (i_raw_name i));
        ("naic", match i_naic i with Some n => JStr n | None => JNull end)].

(** services/pdf_extraction/coi_extractor.py:130-132, [insurer_pat] *)
Definition insurer_pat : gre :=
  seq_of [GBol; spaces; lit_ci "INSURER"; many is_space;
    GGroup 1 (GClass (fun c => in_range 65 68 (upper_char c))); spaces; maybe (one_of ":-"); spaces;
    GGroup 2 (GRep false not_nl 1 None); spaces;
    opt (seq_of [lit_ci "NAIC"; spaces; ch "#"; spaces; GGroup 3 (digits_re 4 6)]); spaces; GEol].

(** services/pdf_extraction/coi_extractor.py:133-142, [CoiExtractor.extract] *)
Definition coi_insurers_of (text : string) : list (string * Insurer) :=
  fold_left (fun insurers m =>
    let raw_name := strip (group_text 2 m) in
    dset (upper (group_text 1 m))
      {| i_name := default raw_name (match_insurer raw_name); i_raw_name := raw_name; i_naic := group 3 m |} insurers)
    (gfinditer insurer_pat text) [].

(** [sorted(insurers.keys())[0]], the primary carrier. *)
Fixpoint primary_insurer (insurers : list (string * Insurer)) : option (string * Insurer) :=
  match insurers with
  | [] => None
  | i :: r => match primary_insurer r with
              | Some j => Some (if String.leb i.1 j.1 then i else j)
              | None => Some i
              end
  end.

(** services/pdf_extraction/coi_extractor.py:143-173, [CoiExtractor.extract] *)
Definition coi_carrier (text : string) : EM unit :=
  let insurers := coi_insurers_of text in
  match primary_insurer insurers with
  | Some (_, primary) =>
      let strong := existsb (fun i : string * Insurer => is_someb (match_insurer (i_raw_name i.2))) insurers in
      let c := conf (if strong then 80 else 60) (pct 90) (if strong then 70 else 50) in
      emit "insurers" (JObj (map (fun i : string * Insurer => (i.1, insurer_json i.2)) insurers)) c ;;;
      emit "carrier_name" (JStr (i_name primary)) c ;;;
      when (opt_truthy (i_naic primary)) (fun naic => emit "carrier_naic" (JStr naic) (conf 95 (pct 90) 70))
  | None => when (match_insurer text) (fun insurer => emit "carrier_name" (JStr insurer) (conf 60 (pct 40) 50))
  end.

(** *** Policies *)

(** A policy is a dict. *)
Definition policy : Type := list (string * json).

(** [(?im)POLICY\s*(?:NUMBER|#)\s*[:\-]?\s*([A-Z0-9][A-Z0-9\-\/\.]{3,31})] *)
Definition labelled_policy_re : gre :=
  seq_of [lit_ci "POLICY"; spaces; alt_of [lit_ci "NUMBER"; ch "#"]; spaces; maybe (one_of ":-"); spaces;
    GGroup 1 (GSeq (GClass is_alnum) (times (fun c => is_alnum c || one_of "-/." c) 3 31))].

(** services/pdf_extraction/coi_extractor.py:275-295, [CoiExtractor._policy_from_window] *)
Definition window_policy_number (window : string) : option string :=
  or_else (opt_truthy (find_label_value window ["POLICY NUMBER"; "POLICY #"; "Policy #"]))
    (or_else (group_text 1 <$> gsearch labelled_policy_re window) (first_policy_like window)).

(** services/pdf_extraction/coi_extractor.py:300-302, [eff_exp_re] *)
Definition eff_exp_re : gre :=
  seq_of [GGroup 1 (alt_of [GSeq (lit_ci "EFF") (opt (lit_ci "ECTIVE"));
                            GSeq (lit_ci "EXP") (opt (alt_of [lit_ci "IRATION"; lit_ci "IRES"]))]);
          spaces; opt (lit_ci "DATE"); spaces; maybe (one_of ":-"); spaces].

(** services/pdf_extraction/coi_extractor.py:297-323, [CoiExtractor._policy_from_window] *)
Definition labelled_dates (window : string) : option date * option date :=
  fold_left (fun '(eff, exp) m =>
    let kind := upper (group_text 1 m) in
    match dm ← gsearch DATE_RE (stake 32 (m_rest m)); parse_date (group_text 1 dm) with
    | None => (eff, exp)
    | Some d =>
        if startswith "EFF" kind && negb (is_someb eff) then (Some d, exp)
        else if startswith "EXP" kind && negb (is_someb exp) then (eff, Some d)
        else (eff, exp)
    end) (gfinditer eff_exp_re window) (None, None).
Definition window_dates (window : string) : option date * option date :=
  let '(eff, exp) := labelled_dates window in
  match eff, exp with
  | Some _, Some _ => (eff, exp)
  | _, _ =>
      let dates := omap (fun m => parse_date (group_text 1 m)) (gfinditer DATE_RE window) in
      (or_else eff (dates !! 0%nat), or_else exp (dates !! 1%nat))
  end.

(** [\$\s*[\d,]+(?:\.\d{1,2})?] *)
Definition dollars_re : gre :=
  seq_of [ch "$"; spaces; many (fun c => is_digit c || Ascii.eqb c ","); opt (GSeq (ch ".") (digits_re 1 2))].

(** [sorted(set(l), reverse=True)] *)
Fixpoint insert_desc (x : Z) (l : list Z) : list Z :=
  match l with
  | [] => [x]
  | y :: r => if x =? y then l else if y <? x then x :: l else y :: insert_desc x r
  end.
Definition sorted_set_desc (l : list Z) : list Z := fold_right insert_desc [] l.

(** services/pdf_extraction/coi_extractor.py:325-342, [CoiExtractor._policy_from_window] *)
Fixpoint amounts_of (ms : list Match) : result PyExn (list Z) :=
  match ms with
  | [] => Ok []
  | m :: r =>
      match parse_money_cents (m_text m) with
      | Raise e => Raise e
      | Ok cents =>
          match amounts_of r with
          | Raise e => Raise e
          | Ok l => Ok (match cents with Some c => if 100000 <=? c then c :: l else l | None => l end)
          end
      end
  end.
Definition limits_of (amounts : list Z) : policy :=
  match sorted_set_desc amounts with
  | a :: e :: _ => [("limit_aggregate", JInt a); ("limit_each_occurrence", JInt e)]
  | [e] => [("limit_each_occurrence", JInt e)]
  | [] => []
  end.

(** [if x: out[k] = f(x)] *)
Definition optional_item {A} (k : string) (f : A -> json) (o : option A) : policy :=
  match o with Some a => [(k, f a)] | None => [] end.

(** services/pdf_extraction/coi_extractor.py:271-349, [CoiExtractor._policy_from_window] *)
Definition _policy_from_window (window coverage_key : string) : result PyExn (option policy) :=
  let pol := window_policy_number window in
  let '(eff, exp) := window_dates window in
  match amounts_of (gfinditer dollars_re window) with
  | Raise e => Raise e
  | Ok amounts =>
      let out := [("coverage_type", JStr coverage_key)]
        ++ optional_item "policy_number" (fun p => JStr (strip p)) pol
        ++ optional_item "effective_date" (fun d => JStr (date_isoformat d)) eff
        ++ optional_item "expiry_date" (fun d => JStr (date_isoformat d)) exp
        ++ limits_of amounts in
      if negb (jtruthy (get_key "policy_number" out))
         && negb (jtruthy (get_key "effective_date" out) && jtruthy (get_key "expiry_date" out))
      then Ok None else Ok (Some out)
  end.

(** [text.find(needle)], and what follows it. *)
Fixpoint from_needle (needle lowered text : string) : option string :=
  if String.prefix needle lowered then Some text
  else match lowered, text with String _ l, String _ t => from_needle needle l t | _, _ => None end.

(** services/pdf_extraction/coi_extractor.py:175-187, [CoiExtractor.extract] *)
Fixpoint coi_policies_of (text : string) (types : list (string * string)) (policies : list policy) : result PyExn (list policy) :=
  match types with
  | [] => Ok policies
  | (coverage_key, needle) :: r =>
      if existsb (fun p => bool_decide (get_key "coverage_type" p = JStr coverage_key)) policies
      then coi_policies_of text r policies
      else match from_needle needle (lower text) text with
           | None => coi_policies_of text r policies
           | Some tail =>
               match _policy_from_window (stake 600 tail) coverage_key with
               | Raise e => Raise e
               | Ok None => coi_policies_of text r policies
               | Ok (Some pol) => coi_policies_of text r (policies ++ [pol])
               end
           end
  end.

(** services/pdf_extraction/coi_extractor.py:189-219, [CoiExtractor.extract]: the first
    policy fills the fields of the form. *)
Definition promote (primary : policy) (c : spec_float) : EM unit :=
  for_each ["policy_number"; "effective_date"; "expiry_date"] (fun key =>
    let* found := has_field key in
    when_true (jtruthy (get_key key primary) && negb found) (emit key (get_key key primary) c)) ;;;
  for_each ["limit_each_occurrence"; "limit_aggregate"] (fun key =>
    let* found := has_field key in
    when_true (jtruthy (get_key key primary) && negb found) (emit (key +:+ "_cents") (get_key key primary) c)) ;;;
  emit "coverage_type" (get_key "coverage_type" primary) (conf 90 (pct 80) 70).
Definition coi_policies (text : string) : EM unit :=
  let* policies := pure (coi_policies_of text _COVERAGE_TYPES []) in
  match policies with
  | [] => ret tt
  | primary :: _ =>
      let numbered := forallb (fun p => jtruthy (get_key "policy_number" p)) policies in
      let c := conf (if numbered then 80 else 60) (pct 70) 60 in
      emit "policies" (JList (map JObj policies)) c ;;;
      promote primary c
  end.

(** services/pdf_extraction/coi_extractor.py:221-246, [CoiExtractor.extract] *)
Definition value_near (text : string) (beside below : list string) : option string :=
  or_else (opt_truthy (find_label_value text beside)) (opt_truthy (find_label_value_below text below)).
Definition coi_holder (text : string) : EM unit :=
  when (value_near text ["CERTIFICATE HOLDER"; "Certificate Holder"] ["CERTIFICATE HOLDER"; "Certificate Holder"])
    (fun holder => emit "certificate_holder" (JStr holder) (conf 70 (pct 80) 50)) ;;;
  when (value_near text ["CERTIFICATE NUMBER"; "Certificate Number"; "CERT #"] ["CERTIFICATE NUMBER"; "Certificate Number"])
    (fun cert_num =>
       let* token := first_token cert_num in
       emit "certificate_number" (JStr token) (conf 80 (pct 80) 60)).

(** services/pdf_extraction/coi_extractor.py:248-261, [CoiExtractor.extract]: the
    boxes ticked. *)
Definition ticked (phrase lowered : string) : bool :=
  is_someb (gsearch (seq_of [lit phrase; GWordB; star not_nl; GWordB; alt_of [lit "yes"; lit "y"; lit "x"]; GWordB]) lowered)
  || is_someb (gsearch (seq_of [GWordB; lit "x"; GWordB; spaces; lit phrase]) lowered).
Definition coi_boxes (text : string) : EM unit :=
  emit "additional_insured" (JBool (ticked "additional insured" (lower text))) (conf 60 (pct 50) 50) ;;;
  emit "waiver_of_subrogation" (JBool (ticked "waiver of subrogation" (lower text))) (conf 60 (pct 50) 50).

(** services/pdf_extraction/coi_extractor.py:351-377, [CoiExtractor._apply_date_consistency] *)
Definition _apply_date_consistency : EM unit :=
  let* eff := field "effective_date" in
  let* exp := field "expiry_date" in
  let* ordered := reads (fun o => dates_in_order o "effective_date" "expiry_date") in
  match ordered with
  | Some false =>
      warn ("expiry_date " +:+ py_str (fun _ => "") exp +:+ " is not after effective_date " +:+ py_str (fun _ => "") eff) ;;;
      for_each ["effective_date"; "expiry_date"] (rescore_if halved)
  | Some true => for_each ["effective_date"; "expiry_date"] (rescore_if lifted)
  | None => ret tt
  end.

(** services/pdf_extraction/coi_extractor.py:87-93, [CoiExtractor.extract] *)
Definition coi_extract : list Page -> result PyExn ExtractionOutput :=
  extract_with (fun text =>
    coi_blocks text ;;; coi_carrier text ;;; coi_policies text ;;; coi_holder text ;;; coi_boxes text ;;;
    _apply_date_consistency).

(** services/pdf_extraction/coi_extractor.py:77-85, [CoiExtractor] *)
Definition CoiExtractor : BasePdfExtractor := {|
  document_type := "coi"; version := "0.1.0";
  required_fields := ["carrier_name"; "policy_number"; "effective_date"; "expiry_date"];
  extract := coi_extract |}.

(** ** The registry *)

(** services/pdf_extraction/__init__.py, [EXTRACTORS] *)
Definition EXTRACTORS : list (string * BasePdfExtractor) :=
  [("coi", CoiExtractor); ("eo_certificate", EoExtractor); ("producer_license", LicenseExtractor)].

(** services/pdf_extraction/__init__.py, [get_extractor]; [None] is the [ValueError] of
    an unknown source type. *)
Definition get_extractor (source_type : string) : option BasePdfExtractor := dget source_type EXTRACTORS.
