(* ===== verification/PdfTheorems.v ===== *)
(** * PDF extraction: what the extractors promise

    Dates are read back in every format; every extracted field has a confidence in
    thousandths between 0 and 1; the only exception is that of an amount with too many
    digits; and dates out of order are never confident. *)

From Stdlib Require Import Ascii.
From S2P Require Import Prelude PyStr Json PyTime Regex RegexGroups PdfPatterns PdfExtractors.

(** ** Dates *)

Lemma make_date_Some y m d x : make_date y m d = Some x ->
  x = (y, m, d) /\ 1 <= y <= 9999 /\ 1 <= m <= 12 /\ 1 <= d <= 31.
Proof.
  unfold make_date. destruct (_ && _) eqn:H; [|done]. intros [= <-]. apply andb_true_iff in H as [H Hb%bool_decide_eq_true].
  pose proof (civil_roundtrip (days_from_civil y m d)) as Hc. rewrite Hb in Hc. split; [done|]. lia.
Qed.

(** A date [date()] accepts. *)
Definition valid_date (x : date) : Prop := let '(y, m, d) := x in make_date y m d = Some x.

Lemma valid_date_bounds y m d : valid_date (y, m, d) -> 1 <= y <= 9999 /\ 1 <= m <= 12 /\ 1 <= d <= 31.
Proof. intros H. by apply make_date_Some in H as [_ ?]. Qed.

Lemma make_date_valid y m d x : make_date y m d = Some x -> valid_date x.
Proof. intros H. pose proof H as [-> _]%make_date_Some. exact H. Qed.

Lemma date_fromisoformat_iso x : valid_date x -> date_fromisoformat (date_isoformat x) = Some x.
Proof.
  destruct x as [[y m] d]. intros Hv. pose proof (valid_date_bounds _ _ _ Hv) as Hb.
  unfold date_fromisoformat, date_isoformat.
  rewrite read_zpad by (cbn; lia). cbn [mbind option_bind String.append read_char Ascii.eqb Bool.eqb].
  rewrite zpad2_shape by lia. cbn [mbind option_bind String.append read_char Ascii.eqb Bool.eqb].
  replace (zpad 2 d) with (zpad 2 d +:+ "") by apply append_nil_r.
  rewrite zpad2_shape by lia. cbn [mbind option_bind]. exact Hv.
Qed.

(** Every date [parse_date] answers exists. *)
Lemma parse_date_valid raw x : parse_date raw = Some x -> valid_date x.
Proof.
  unfold parse_date. destruct (negb _); [done|].
  repeat (case_match; try discriminate); intros Hx; by apply make_date_valid in Hx.
Qed.

Lemma date_in_valid raw x : date_in raw = Some x -> valid_date x.
Proof.
  unfold date_in. destruct (parse_date raw) eqn:Hp; [intros [= <-]; by eapply parse_date_valid|].
  destruct (gsearch DATE_RE raw); cbn; [apply parse_date_valid|done].
Qed.

(** ** Scores *)

(** A score: a number of thousandths between 0 and 1. *)
Definition unit_score (f : spec_float) : Prop := exists n, 0 <= n <= 1000 /\ f = thousandths n.

Definition thousandth_index (f : spec_float) : Z :=
  match f with
  | S754_finite false m e => if 0 <=? e then Zpos m * 2 ^ e * 1000 else div_half_even (Zpos m * 1000) (2 ^ (- e))
  | _ => 0
  end.
Definition unit_scoreb (f : spec_float) : bool :=
  let n := thousandth_index f in (0 <=? n) && (n <=? 1000) && bool_decide (f = thousandths n).

Lemma unit_scoreb_sound f : unit_scoreb f = true -> unit_score f.
Proof.
  unfold unit_scoreb. rewrite !andb_true_iff, bool_decide_eq_true. intros [[? ?] Hf]. exists (thousandth_index f). split; [lia|done].
Qed.

Lemma halved_checked : check_from (fun n => unit_scoreb (halved (thousandths n)) && flt (halved (thousandths n)) (flit 6 10)) 1001 0 = true.
Proof. vm_compute. reflexivity. Qed.
Lemma lifted_checked : check_from (fun n => unit_scoreb (lifted (thousandths n))) 1001 0 = true.
Proof. vm_compute. reflexivity. Qed.

Lemma halved_unit f : unit_score f -> unit_score (halved f).
Proof.
  intros (n & Hn & ->). apply unit_scoreb_sound.
  pose proof (check_from_spec _ _ _ n halved_checked ltac:(lia)) as H. cbv beta in H. by apply andb_true_iff in H as [H _].
Qed.
Lemma halved_low f : unit_score f -> flt (halved f) (flit 6 10) = true.
Proof.
  intros (n & Hn & ->).
  pose proof (check_from_spec _ _ _ n halved_checked ltac:(lia)) as H. cbv beta in H. by apply andb_true_iff in H as [_ H].
Qed.
Lemma lifted_unit f : unit_score f -> unit_score (lifted f).
Proof.
  intros (n & Hn & ->). apply unit_scoreb_sound. exact (check_from_spec _ _ _ n lifted_checked ltac:(lia)).
Qed.

(** ** Labelled values *)

Lemma find_label_value_stripped text labels v : find_label_value text labels = Some v -> exists x, v = strip x.
Proof.
  intros (l & _ & [Hin _]%find_first_Some)%first_some_Some. apply in_map_iff in Hin as (m & <- & _). eauto.
Qed.

Lemma first_nonblank_stripped n lines v : first_nonblank n lines = Some v -> exists x, v = strip x.
Proof.
  revert lines. induction n as [|n IH]; intros [|l r]; cbn; try done. destruct (truthy (strip l)); [|apply IH].
  intros [= <-]. eauto.
Qed.

Lemma find_label_value_below_stripped text labels v : find_label_value_below text labels = Some v -> exists x, v = strip x.
Proof.
  unfold find_label_value_below. induction (splitlines text) as [|line below IH]; [done|].
  destruct (mem _ _); [|exact IH]. destruct (first_nonblank 3 below) as [candidate|] eqn:Hc; [|exact IH].
  intros [= <-]. destruct (_ <? _)%nat; [eauto|]. by eapply first_nonblank_stripped.
Qed.

(** The proximities of [_pick_label]. *)
Definition proximity (p : spec_float) : Prop := p = float_of_Z 1 \/ p = pct 80.

Lemma pick_label_Some text labels v p : _pick_label text labels = Some (v, p) -> sany non_space v = true /\ proximity p.
Proof.
  unfold _pick_label, proximity. generalize (float_of_Z 1), (pct 80). intros one eighty.
  destruct (opt_truthy (find_label_value text labels)) as [w|] eqn:Hw.
  - intros [= -> ->]. apply opt_truthy_Some in Hw as [[x ->]%find_label_value_stripped Ht].
    split; [by apply strip_nonempty|by left].
  - clear Hw. destruct (opt_truthy (find_label_value_below text labels)) as [w|] eqn:Hw; [|done].
    intros [= -> ->]. apply opt_truthy_Some in Hw as [[x ->]%find_label_value_below_stripped Ht].
    split; [by apply strip_nonempty|by right].
Qed.

Lemma value_near_Some text beside below v : value_near text beside below = Some v -> sany non_space v = true.
Proof.
  unfold value_near. intros [H|H]%or_else_Some; apply opt_truthy_Some in H as [H Ht].
  - apply find_label_value_stripped in H as [x ->]. by apply strip_nonempty.
  - apply find_label_value_below_stripped in H as [x ->]. by apply strip_nonempty.
Qed.

(** ** The invariant of an output *)

(** Fields and confidences have the same keys, and every confidence is a score. *)
Definition scored (o : ExtractionOutput) : Prop :=
  map fst (o_fields o) = map fst (o_confidences o) /\ Forall (fun kc => unit_score kc.2) (o_confidences o).

Definition date_keys : list string := ["effective_date"; "expiration_date"; "expiry_date"].
(** A date field holds a date that exists, in ISO format. *)
Definition date_value (v : json) : Prop := exists x, valid_date x /\ v = JStr (date_isoformat x).
Definition dates_known (o : ExtractionOutput) : Prop :=
  forall k v, In k date_keys -> assoc k (o_fields o) = Some v -> date_value v.

Definition good (o : ExtractionOutput) : Prop := scored o /\ dates_known o.

(** A part that keeps the invariant, ends with an answer and an output that satisfy
    [Q], and whose only exception is [InvalidOperation]. *)
Definition keeps {A} (m : EM A) (Q : A -> ExtractionOutput -> Prop) : Prop :=
  forall o, good o -> match m o with (Ok a, o') => good o' /\ Q a o' | (Raise e, _) => e = InvalidOperation end.
Abbreviation anything := (fun _ _ => True) (only parsing).

Lemma output_bind {A B} (m : EM A) (k : A -> EM B) P Q :
  keeps m (fun a _ => P a) -> (forall a, P a -> keeps (k a) Q) -> keeps (bind m k) Q.
Proof.
  intros Hm Hk o Ho. unfold bind. specialize (Hm o Ho). destruct (m o) as [[a|e] o']; [|done].
  destruct Hm as [Ho' Ha]. by apply Hk.
Qed.
Lemma keeps_seq {B} (m : EM unit) (k : EM B) Q : keeps m anything -> keeps k Q -> keeps (m ;;; k) Q.
Proof. intros Hm Hk. by apply (output_bind m _ (fun _ => True)); [exact Hm|intros]. Qed.
Lemma output_ret {A} (a : A) (Q : A -> ExtractionOutput -> Prop) : (forall o, Q a o) -> keeps (ret a) Q.
Proof. intros Ha o Ho. by split. Qed.
Lemma keeps_reads {A} (f : ExtractionOutput -> A) : keeps (reads f) anything.
Proof. intros o Ho. by split. Qed.
Lemma keeps_when {A} (x : option A) k : (forall a, x = Some a -> keeps (k a) anything) -> keeps (when x k) anything.
Proof. destruct x; intros H; [by apply H|by apply output_ret]. Qed.
Lemma keeps_when_true b m : (b = true -> keeps m anything) -> keeps (when_true b m) anything.
Proof. destruct b; intros H; [by apply H|by apply output_ret]. Qed.
Lemma keeps_for_each {A} (l : list A) k : (forall a, In a l -> keeps (k a) anything) -> keeps (for_each l k) anything.
Proof.
  induction l as [|a l IH]; intros H; [by apply output_ret|]. apply keeps_seq; [apply H; by left|].
  apply IH. intros b Hb. apply H. by right.
Qed.
Lemma keeps_warn w : keeps (warn w) anything.
Proof. intros o [Hs Hd]. by split. Qed.

Lemma set_key_keys k v kvs : map fst (set_key k v kvs) = map fst (dset k v kvs).
Proof. induction kvs as [|[k' v'] r IH]; cbn; [done|]. destruct (String.eqb k k'); cbn; [done|by rewrite IH]. Qed.

Lemma keeps_emit k v c : unit_score c -> (In k date_keys -> date_value v) -> keeps (emit k v c) anything.
Proof.
  intros Hc Hv o [[Hk Hs] Hd]. split; [|done]. split; [split|]; cbn [o_fields o_confidences].
  - rewrite set_key_keys, !dset_keys, Hk. done.
  - clear Hk. induction Hs as [|[k' c'] r Hc' Hr IH]; cbn; [by repeat constructor|].
    destruct (String.eqb k k'); by constructor.
  - intros k' w Hin Ha. cbn [o_fields] in Ha. destruct (decide (k = k')) as [->|Hne].
    + rewrite assoc_set_key in Ha. injection Ha as <-. by apply Hv.
    + rewrite assoc_set_key_ne in Ha by done. by eapply Hd.
Qed.

(** Scores may be changed where there is one. *)
Definition keeps_scores (f : spec_float -> spec_float) : Prop := forall c, unit_score c -> unit_score (f c).

Lemma good_set_confidence k c c' o :
  good o -> dget k (o_confidences o) = Some c -> unit_score c' -> good (snd (set_confidence k c' o)).
Proof.
  intros [[Hk Hs] Hd] Hc Hc'. split; [|done]. split; cbn.
  - by rewrite dset_same_keys by eauto.
  - by apply dset_Forall.
Qed.

Lemma keeps_rescore_if f k : keeps_scores f -> keeps (rescore_if f k) anything.
Proof.
  intros Hf o Ho. unfold rescore_if, when, bind, reads. destruct (dget k (o_confidences o)) as [c|] eqn:Hc; [|by split].
  split; [|done]. eapply good_set_confidence; [done|exact Hc|]. apply Hf. destruct Ho as [[_ Hs] _]. by eapply dget_Forall.
Qed.

(** ** The parts of the extractors *)

Lemma conf_unit r prox c :
  proximity prox -> unit_scoreb (conf r (float_of_Z 1) c) && unit_scoreb (conf r (pct 80) c) = true -> unit_score (conf r prox c).
Proof. rewrite andb_true_iff. intros [-> | ->] [? ?]; by apply unit_scoreb_sound. Qed.

Ltac score :=
  match goal with
  | |- unit_score (conf _ ?p _) => is_var p; apply conf_unit; [assumption|vm_compute; reflexivity]
  | |- unit_score _ => apply unit_scoreb_sound; vm_compute; reflexivity
  end.
Ltac part H := apply keeps_seq; [apply H|].
Ltac not_date := let H := fresh in intros H; exfalso; cbn in H; intuition discriminate.
Ltac emits := apply keeps_emit; [score|not_date].

Lemma keeps_first_token raw : sany non_space raw = true -> keeps (first_token raw) anything.
Proof.
  intros H%split_ws_nonempty. unfold first_token. destruct (split_ws raw); [done|]. by apply output_ret.
Qed.

Lemma keeps_picked text labels k :
  (forall raw prox, sany non_space raw = true -> proximity prox -> keeps (k (raw, prox)) anything) ->
  keeps (when (_pick_label text labels) k) anything.
Proof. intros H. apply keeps_when. intros [raw prox] [Hr Hp]%pick_label_Some. by apply H. Qed.

Lemma keeps_date_field text name labels : keeps (date_field text name labels) anything.
Proof.
  apply keeps_picked. intros raw prox _ Hp. apply keeps_when. intros d Hd%date_in_valid.
  apply keeps_emit; [score|]. intros _. by exists d.
Qed.

Lemma parse_money_raises raw e : parse_money_cents raw = Raise e -> e = InvalidOperation.
Proof. unfold parse_money_cents. repeat case_match; congruence. Qed.

Lemma keeps_pure {A} (r : result PyExn A) : (forall e, r = Raise e -> e = InvalidOperation) -> keeps (pure r) anything.
Proof. destruct r; intros H o Ho; cbn; [by split|by apply H]. Qed.

Lemma keeps_money_field text name labels strength :
  ~ In name date_keys -> (forall prox, proximity prox -> unit_score (conf strength prox 60)) ->
  keeps (money_field text name labels strength) anything.
Proof.
  intros Hn Hs. apply keeps_picked. intros raw prox _ Hp.
  apply (output_bind _ _ (fun _ => True)); [apply keeps_pure; intros e; apply parse_money_raises|]. intros cents _.
  apply keeps_when. intros c _. apply keeps_when_true. intros _. apply keeps_emit; [by apply Hs|done].
Qed.

(** *** E&O certificates *)

Lemma keeps_eo_carrier text : keeps (eo_carrier text) anything.
Proof.
  unfold eo_carrier. destruct (_pick_label _ _) as [[raw prox]|] eqn:Hp.
  - apply pick_label_Some in Hp as [_ Hp]. destruct (is_someb (match_insurer raw)); emits.
  - apply keeps_when. intros canon _. emits.
Qed.

Lemma keeps_eo_policy_number text : keeps (eo_policy_number text) anything.
Proof.
  unfold eo_policy_number. destruct (_pick_label _ _) as [[raw prox]|] eqn:Hp.
  - apply pick_label_Some in Hp as [Hr Hp]. apply (output_bind _ _ (fun _ => True)); [by apply keeps_first_token|]. intros token _. emits.
  - apply keeps_when. intros cand _. emits.
Qed.

Lemma keeps_eo_named_insured text : keeps (eo_named_insured text) anything.
Proof. apply keeps_picked. intros raw prox _ Hp. emits. Qed.

Lemma keeps_eo_dates text : keeps (eo_dates text) anything.
Proof. apply keeps_for_each. intros [name labels] _. apply keeps_date_field. Qed.

Lemma keeps_eo_money text : keeps (eo_money text) anything.
Proof.
  unfold eo_money. repeat apply keeps_seq; (apply keeps_money_field; [cbn; intuition discriminate|intros prox Hp; score]).
Qed.

(** Two dates that can be compared are two fields, so they have confidences. *)
Lemma dates_in_order_fields o eff exp b : dates_in_order o eff exp = Some b ->
  In eff (map fst (o_fields o)) /\ In exp (map fst (o_fields o)).
Proof.
  assert (Hin : forall k s, get_key k (o_fields o) = JStr s -> In k (map fst (o_fields o))).
  { intros k s. unfold get_key. induction (o_fields o) as [|[k' v] r IH]; cbn; [done|].
    destruct (String.eqb_spec k k') as [<-|]; [by left|intros H; right; by apply IH]. }
  unfold dates_in_order. intros H. destruct (get_key eff _) eqn:He; try done. destruct (get_key exp _) eqn:Hx; try done. eauto.
Qed.

(** *** Producer licenses *)

Lemma keeps_license_name text : keeps (license_name text) anything.
Proof. apply keeps_picked. intros raw prox _ Hp. emits. Qed.

Lemma keeps_license_number text : keeps (license_number text) anything.
Proof.
  unfold license_number. destruct (_pick_label _ _) as [[raw prox]|] eqn:Hp.
  - apply pick_label_Some in Hp as [Hr Hp]. apply (output_bind _ _ (fun _ => True)); [by apply keeps_first_token|]. intros token _. emits.
  - apply keeps_when. intros mm _. emits.
Qed.

Lemma keeps_license_state text : keeps (license_state text) anything.
Proof.
  apply keeps_seq; [apply keeps_picked; intros raw prox _ Hp; apply keeps_when; intros code _; emits|].
  apply (output_bind _ _ (fun _ => True)); [apply keeps_reads|]. intros found _. apply keeps_when_true. intros _.
  apply keeps_when. intros code _. emits.
Qed.

Lemma keeps_license_type text : keeps (license_type text) anything.
Proof. apply keeps_picked. intros raw prox _ Hp. apply keeps_when. intros norm _. emits. Qed.

Lemma keeps_license_dates text : keeps (license_dates text) anything.
Proof. apply keeps_for_each. intros [name labels] _. apply keeps_date_field. Qed.

Lemma keeps_license_npn text : keeps (license_npn text) anything.
Proof. apply keeps_picked. intros raw prox _ Hp. apply keeps_when. intros mm _. emits. Qed.

Lemma keeps_license_lines text : keeps (license_lines text) anything.
Proof. apply keeps_when_true. intros _. emits. Qed.

(** *** Certificates of insurance *)

Lemma keeps_coi_blocks text : keeps (coi_blocks text) anything.
Proof.
  apply keeps_seq; apply keeps_when; intros x _; [emits|]. apply keeps_seq; [emits|]. apply keeps_when. intros fein _. emits.
Qed.

Lemma keeps_coi_carrier text : keeps (coi_carrier text) anything.
Proof.
  unfold coi_carrier. destruct (primary_insurer _) as [[slot primary]|].
  - destruct (existsb _ _); (apply keeps_seq; [emits|apply keeps_seq; [emits|]]; apply keeps_when; intros naic _; emits).
  - apply keeps_when. intros insurer _. emits.
Qed.

(** The dates of a policy are dates that exist. *)
Definition policy_dates (p : policy) : Prop :=
  forall k v, In k date_keys -> assoc k p = Some v -> date_value v.

Lemma omap_In {A B} (f : A -> option B) l y : In y (omap f l) -> exists x, In x l /\ f x = Some y.
Proof. rewrite <- !list_elem_of_In, list_elem_of_omap. intros (x & ? & ?). exists x. by rewrite <- list_elem_of_In. Qed.

Definition date_option (d : option date) : Prop := forall x, d = Some x -> valid_date x.

Lemma labelled_dates_valid window : date_option (labelled_dates window).1 /\ date_option (labelled_dates window).2.
Proof.
  unfold labelled_dates. match goal with |- context [fold_left ?f] => set (step := f) end.
  assert (H : forall ms p, date_option p.1 /\ date_option p.2 ->
    date_option (fold_left step ms p).1 /\ date_option (fold_left step ms p).2).
  { induction ms as [|m ms IH]; intros p Hp; cbn [fold_left]; [done|]. apply IH. destruct p as [eff exp]. unfold step.
    destruct (dm ← _; _) as [d|] eqn:Hd; [|done]. apply bind_Some in Hd as (dm & _ & Hd%parse_date_valid).
    repeat case_match; cbn in *; destruct Hp; split; try done; intros x [= <-]; done. }
  apply H. by split.
Qed.

Lemma window_dates_valid window : date_option (window_dates window).1 /\ date_option (window_dates window).2.
Proof.
  unfold window_dates. pose proof (labelled_dates_valid window) as [He Hx]. destruct (labelled_dates window) as [eff exp]. cbn in *.
  set (dates := omap _ _). assert (Hd : forall i, date_option (dates !! i)).
  { intros i x Hi. apply list_elem_of_lookup_2, list_elem_of_In, omap_In in Hi as (m & _ & Hm). by eapply parse_date_valid. }
  destruct eff as [e|], exp as [x|]; cbn; try done; split; try done; apply Hd.
Qed.

Lemma limits_no_dates amounts k v : In k date_keys -> assoc k (limits_of amounts) = Some v -> False.
Proof.
  intros Hk. unfold limits_of. destruct (sorted_set_desc amounts) as [|a [|e r]]; cbn; [done| |];
    destruct Hk as [<-|[<-|[<-|[]]]]; done.
Qed.

Lemma assoc_optional {A} k (f : A -> json) o k' r :
  assoc k' (optional_item k f o ++ r) = if String.eqb k' k then or_else (f <$> o) (assoc k' r) else assoc k' r.
Proof. destruct o; cbn; [destruct (String.eqb k' k)|destruct (String.eqb k' k)]; done. Qed.

Lemma policy_from_window_dates window key p : _policy_from_window window key = Ok (Some p) -> policy_dates p.
Proof.
  unfold _policy_from_window. pose proof (window_dates_valid window) as [He Hx]. destruct (window_dates window) as [eff exp].
  destruct (amounts_of _) as [amounts|]; [|done]. cbn [fst snd] in *. destruct (_ && _); [done|]. intros [= <-] k v Hk Ha.
  cbn [app] in Ha. destruct Hk as [<-|[<-|[<-|[]]]]; cbn [assoc] in Ha;
    change (String.eqb _ "coverage_type") with false in Ha; cbv iota in Ha; rewrite !assoc_optional in Ha; cbn in Ha.
  - destruct eff as [e|]; cbn in Ha; [injection Ha as <-; exists e; auto|]. exfalso. eapply limits_no_dates; [|exact Ha]. by left.
  - exfalso. eapply limits_no_dates; [|exact Ha]. by right; left.
  - destruct exp as [x|]; cbn in Ha; [injection Ha as <-; exists x; auto|]. exfalso. eapply limits_no_dates; [|exact Ha]. by right; right; left.
Qed.

Lemma amounts_of_raises ms e : amounts_of ms = Raise e -> e = InvalidOperation.
Proof.
  induction ms as [|m ms IH]; cbn; [done|]. destruct (parse_money_cents (m_text m)) eqn:Hm; [|intros [= <-]; by eapply parse_money_raises].
  destruct (amounts_of ms); [done|]. intros [= <-]. by apply IH.
Qed.

Lemma policy_from_window_raises window key e : _policy_from_window window key = Raise e -> e = InvalidOperation.
Proof.
  unfold _policy_from_window. destruct (window_dates window) as [eff exp]. destruct (amounts_of _) eqn:Ha; [by destruct (_ && _)|].
  intros [= <-]. by eapply amounts_of_raises.
Qed.

Lemma coi_policies_of_dates text types : forall policies ps,
  Forall policy_dates policies -> coi_policies_of text types policies = Ok ps -> Forall policy_dates ps.
Proof.
  induction types as [|[key needle] types IH]; intros policies ps Hp; cbn [coi_policies_of]; [by intros [= <-]|].
  destruct (existsb _ _); [by apply IH|]. destruct (from_needle _ _ _); [|by apply IH].
  destruct (_policy_from_window _ _) as [[pol|]|] eqn:Hw; [|by apply IH|done].
  apply IH. apply Forall_app. split; [done|]. constructor; [by eapply policy_from_window_dates|constructor].
Qed.

Lemma coi_policies_of_raises text types : forall policies e, coi_policies_of text types policies = Raise e -> e = InvalidOperation.
Proof.
  induction types as [|[key needle] types IH]; intros policies e; cbn [coi_policies_of]; [done|].
  destruct (existsb _ _); [by apply IH|]. destruct (from_needle _ _ _); [|by apply IH].
  destruct (_policy_from_window _ _) as [[pol|]|] eqn:Hw; [by apply IH|by apply IH|]. intros [= <-]. by eapply policy_from_window_raises.
Qed.

Lemma get_key_date k p : policy_dates p -> jtruthy (get_key k p) = true -> In k date_keys -> date_value (get_key k p).
Proof.
  intros Hp Ht Hk. unfold get_key in *. destruct (assoc k p) as [v|] eqn:Ha; [by eapply Hp|done].
Qed.

Lemma keeps_promote primary c : policy_dates primary -> unit_score c -> keeps (promote primary c) anything.
Proof.
  intros Hp Hc. apply keeps_seq; [|apply keeps_seq].
  - apply keeps_for_each. intros key Hkey. apply (output_bind _ _ (fun _ => True)); [apply keeps_reads|]. intros found _.
    apply keeps_when_true. intros [Ht _]%andb_true_iff. apply keeps_emit; [done|]. intros Hk. by apply get_key_date.
  - apply keeps_for_each. intros key Hkey. apply (output_bind _ _ (fun _ => True)); [apply keeps_reads|]. intros found _.
    apply keeps_when_true. intros _. apply keeps_emit; [done|]. destruct Hkey as [<-|[<-|[]]]; not_date.
  - emits.
Qed.

Lemma keeps_coi_policies text : keeps (coi_policies text) anything.
Proof.
  intros o Ho. unfold coi_policies. destruct (coi_policies_of text _COVERAGE_TYPES []) as [ps|e] eqn:Hps.
  2: { cbn. by eapply coi_policies_of_raises. }
  apply coi_policies_of_dates in Hps; [|constructor]. unfold pure. revert o Ho. change (keeps (bind (ret ps) (fun policies =>
    match policies with
    | [] => ret tt
    | primary :: _ =>
        let numbered := forallb (fun p => jtruthy (get_key "policy_number" p)) policies in
        let c := conf (if numbered then 80 else 60) (pct 70) 60 in
        emit "policies" (JList (map JObj policies)) c ;;; promote primary c
    end)) anything).
  apply (output_bind _ _ (Forall policy_dates)); [by apply output_ret|]. intros policies Hpol.
  destruct Hpol as [|primary r Hprimary Hr]; [by apply output_ret|].
  destruct (forallb _ _); cbv zeta; (apply keeps_seq; [emits|apply keeps_promote; [done|score]]).
Qed.

Lemma keeps_coi_holder text : keeps (coi_holder text) anything.
Proof.
  apply keeps_seq; apply keeps_when; [intros holder _; emits|]. intros n Hn%value_near_Some.
  apply (output_bind _ _ (fun _ => True)); [by apply keeps_first_token|]. intros token _. emits.
Qed.

Lemma keeps_coi_boxes text : keeps (coi_boxes text) anything.
Proof. apply keeps_seq; emits. Qed.

(** ** The consistency of the dates *)

(** The later date is not after the earlier one, and its confidence says so. *)
Definition doubt (eff exp : string) (o : ExtractionOutput) : Prop :=
  dates_in_order o eff exp = Some false -> exists c, dget exp (o_confidences o) = Some c /\ flt c (flit 6 10) = true.

Lemma in_fields_confidence o k : good o -> In k (map fst (o_fields o)) ->
  exists c, dget k (o_confidences o) = Some c /\ unit_score c.
Proof.
  intros [[Hk Hs] _] Hin. rewrite Hk in Hin. apply dget_keys in Hin as [c Hc]. exists c. split; [done|]. by eapply dget_Forall.
Qed.

Lemma rescore_run f k o c : dget k (o_confidences o) = Some c -> rescore f k o = set_confidence k (f c) o.
Proof. intros Hc. unfold rescore, bind, reads, or_raise. by rewrite Hc. Qed.
Lemma rescore_if_run f k o c : dget k (o_confidences o) = Some c -> rescore_if f k o = set_confidence k (f c) o.
Proof. intros Hc. unfold rescore_if, bind, reads, when. by rewrite Hc. Qed.

(** Two dates out of order: the warning, and both confidences halved, however the code
    rescores. *)
Lemma halving_doubts (rs : (spec_float -> spec_float) -> string -> EM unit) w eff exp o :
  (forall f k o c, dget k (o_confidences o) = Some c -> rs f k o = set_confidence k (f c) o) ->
  good o -> dates_in_order o eff exp = Some false ->
  exists o', (warn w ;;; for_each [eff; exp] (rs halved)) o = (Ok tt, o') /\ good o' /\ doubt eff exp o'.
Proof.
  intros Hrs Ho Hd. pose proof (dates_in_order_fields _ _ _ _ Hd) as [He Hx].
  set (o1 := snd (warn w o)). assert (Ho1 : good o1) by (destruct Ho; by split).
  destruct (in_fields_confidence o1 eff Ho1 He) as (c1 & Hc1 & Hu1).
  set (o2 := snd (set_confidence eff (halved c1) o1)).
  assert (Ho2 : good o2) by (eapply good_set_confidence; [done|exact Hc1|by apply halved_unit]).
  destruct (in_fields_confidence o2 exp Ho2 Hx) as (c2 & Hc2 & Hu2).
  exists (snd (set_confidence exp (halved c2) o2)). split_and!.
  - change ((rs halved eff ;;; rs halved exp ;;; ret tt) o1 = (Ok tt, snd (set_confidence exp (halved c2) o2))).
    unfold bind. rewrite (Hrs _ _ _ _ Hc1). change (set_confidence eff (halved c1) o1) with (@Ok PyExn unit tt, o2).
    cbv iota beta. by rewrite (Hrs _ _ _ _ Hc2).
  - eapply good_set_confidence; [done|exact Hc2|by apply halved_unit].
  - intros _. exists (halved c2). split; [apply dget_dset|by apply halved_low].
Qed.

Lemma keeps_eo_consistency : keeps eo_consistency (fun _ => doubt "effective_date" "expiration_date").
Proof.
  intros o Ho. unfold eo_consistency. unfold bind at 1, reads. destruct (dates_in_order o _ _) as [[|]|] eqn:Hd.
  2: { destruct (halving_doubts rescore "expiration_date is not after effective_date" _ _ o rescore_run Ho Hd) as (o' & -> & ?). done. }
  all: split; [done|]; unfold doubt; by rewrite Hd.
Qed.

Lemma keeps_license_consistency : keeps license_consistency (fun _ => doubt "effective_date" "expiration_date").
Proof.
  intros o Ho. unfold license_consistency. unfold bind at 1, reads. destruct (dates_in_order o _ _) as [[|]|] eqn:Hd.
  2: { destruct (halving_doubts rescore_if "expiration_date is not after effective_date" _ _ o rescore_if_run Ho Hd) as (o' & -> & ?). done. }
  all: split; [done|]; unfold doubt; by rewrite Hd.
Qed.

Lemma lifting_fields o eff exp : good o ->
  exists o', for_each [eff; exp] (rescore_if lifted) o = (Ok tt, o') /\ good o' /\ o_fields o' = o_fields o.
Proof.
  intros Ho. assert (H : forall k o, good o -> exists o', rescore_if lifted k o = (Ok tt, o') /\ good o' /\ o_fields o' = o_fields o).
  { clear o Ho. intros k o Ho. pose proof (keeps_rescore_if lifted k lifted_unit o Ho) as H.
    destruct (dget k (o_confidences o)) as [c|] eqn:Hc.
    - rewrite (rescore_if_run _ _ _ _ Hc) in *. eexists. split; [reflexivity|]. split; [apply H|done].
    - unfold rescore_if, bind, reads, when. rewrite Hc. by eexists. }
  destruct (H eff o Ho) as (o1 & H1 & Ho1 & Hf1). destruct (H exp o1 Ho1) as (o2 & H2 & Ho2 & Hf2).
  exists o2. cbn [for_each]. unfold bind. rewrite H1, H2. split_and!; [done|done|congruence].
Qed.

Lemma keeps_coi_consistency : keeps _apply_date_consistency (fun _ => doubt "effective_date" "expiry_date").
Proof.
  intros o Ho. unfold _apply_date_consistency, field. unfold bind at 1 2 3, reads. destruct (dates_in_order o _ _) as [[|]|] eqn:Hd.
  - destruct (lifting_fields o "effective_date" "expiry_date" Ho) as (o' & -> & Ho' & Hf). split; [done|].
    unfold doubt. assert (Hd' : dates_in_order o' "effective_date" "expiry_date" = Some true)
      by (rewrite <- Hd; unfold dates_in_order; by rewrite Hf). by rewrite Hd'.
  - match goal with |- context [warn ?w] =>
      destruct (halving_doubts rescore_if w _ _ o rescore_if_run Ho Hd) as (o' & -> & ?) end. done.
  - split; [done|]. unfold doubt. by rewrite Hd.
Qed.

(** ** What an extractor promises *)

(** The empty output, and the one of a document without pages. *)
Lemma good_start w : good {| o_fields := []; o_confidences := []; o_warnings := w |}.
Proof. split; [split; [done|constructor]|]. intros k v _. done. Qed.

(** Its output keeps the invariant, and when the date the coverage ends on, a required
    field, is not after the date it starts on, then that field needs a review; its only
    exception is that of an amount with too many digits. *)
Class SoundExtractor (x : BasePdfExtractor) (expiry_key : string) : Prop := {
  expiry_required : In expiry_key (required_fields x) /\ In expiry_key date_keys;
  extract_good pages o : extract x pages = Ok o -> good o /\ doubt "effective_date" expiry_key o;
  extract_raises pages e : extract x pages = Raise e -> e = InvalidOperation }.

Section ExtractWith.
Context (body : string -> EM unit) (key : string).
Hypothesis body_keeps : forall text, keeps (body text) (fun _ => doubt "effective_date" key).

Lemma extract_with_good pages o : extract_with body pages = Ok o -> good o /\ doubt "effective_date" key o.
Proof.
  unfold extract_with. destruct pages as [|p r]; [intros [= <-]; split; [apply good_start|done]|].
  match goal with |- context [body ?text _] => pose proof (body_keeps text empty_output (good_start [])) as H;
    destruct (body text empty_output) as [[[]|] o'] end; [|done]. by intros [= <-].
Qed.

Lemma extract_with_raises pages e : extract_with body pages = Raise e -> e = InvalidOperation.
Proof.
  unfold extract_with. destruct pages as [|p r]; [done|].
  match goal with |- context [body ?text _] => pose proof (body_keeps text empty_output (good_start [])) as H;
    destruct (body text empty_output) as [[[]|] o'] end; [done|]. by intros [= <-].
Qed.
End ExtractWith.

#[export] Instance EoExtractor_sound : SoundExtractor EoExtractor "expiration_date".
Proof.
  assert (H : forall text, keeps (eo_carrier text ;;; eo_policy_number text ;;; eo_named_insured text ;;; eo_dates text ;;;
    eo_money text ;;; eo_consistency) (fun _ => doubt "effective_date" "expiration_date")).
  { intros text. part keeps_eo_carrier. part keeps_eo_policy_number. part keeps_eo_named_insured. part keeps_eo_dates.
    part keeps_eo_money. apply keeps_eo_consistency. }
  split; [cbn; tauto|by apply extract_with_good|by eapply extract_with_raises].
Qed.

#[export] Instance LicenseExtractor_sound : SoundExtractor LicenseExtractor "expiration_date".
Proof.
  assert (H : forall text, keeps (license_name text ;;; license_number text ;;; license_state text ;;; license_type text ;;;
    license_dates text ;;; license_npn text ;;; license_lines text ;;; license_consistency)
    (fun _ => doubt "effective_date" "expiration_date")).
  { intros text. part keeps_license_name. part keeps_license_number. part keeps_license_state. part keeps_license_type.
    part keeps_license_dates. part keeps_license_npn. part keeps_license_lines. apply keeps_license_consistency. }
  split; [cbn; tauto|by apply extract_with_good|by eapply extract_with_raises].
Qed.

#[export] Instance CoiExtractor_sound : SoundExtractor CoiExtractor "expiry_date".
Proof.
  assert (H : forall text, keeps (coi_blocks text ;;; coi_carrier text ;;; coi_policies text ;;; coi_holder text ;;;
    coi_boxes text ;;; _apply_date_consistency) (fun _ => doubt "effective_date" "expiry_date")).
  { intros text. part keeps_coi_blocks. part keeps_coi_carrier. part keeps_coi_policies. part keeps_coi_holder.
    part keeps_coi_boxes. apply keeps_coi_consistency. }
  split; [cbn; tauto|by apply extract_with_good|by eapply extract_with_raises].
Qed.

(** Every extractor of the registry is sound. *)
Lemma get_extractor_sound source_type x : get_extractor source_type = Some x -> exists key, SoundExtractor x key.
Proof.
  unfold get_extractor, EXTRACTORS. cbn [dget]. repeat case_match; intros [= <-]; eauto using CoiExtractor_sound,
    EoExtractor_sound, LicenseExtractor_sound.
Qed.

(** ** Reading dates *)

Lemma int_digits_zpad w : forall n acc after, 0 <= n < 10 ^ Z.of_nat w -> (0 < w)%nat ->
  int_digits acc after (zpad w n) = Some (acc * 10 ^ Z.of_nat w + n).
Proof.
  assert (H : forall w n acc after t, 0 <= n < 10 ^ Z.of_nat w -> (0 < w)%nat ->
    int_digits acc after (pad_digits w n t) = int_digits (acc * 10 ^ Z.of_nat w + n) true t).
  { clear w. induction w as [|w IH]; intros n acc after t Hn Hw; [lia|]. cbn [pad_digits].
    assert (Hd : 0 <= n mod 10 < 10) by (apply Z.mod_pos_bound; lia).
    assert (Hdig : is_digit (chr (48 + n mod 10)) = true) by (apply in_range_spec; rewrite ord_chr by lia; lia).
    assert (Hval : ord (chr (48 + n mod 10)) - 48 = n mod 10) by (rewrite ord_chr; lia).
    replace (Z.of_nat (S w)) with (1 + Z.of_nat w) in * by lia. rewrite Z.pow_add_r in * by lia.
    destruct w as [|w].
    - cbn [pad_digits int_digits]. rewrite Hdig, Hval. f_equal. cbn in *. pose proof (Z.mod_small n 10). lia.
    - assert (Hn' : 0 <= n / 10 < 10 ^ Z.of_nat (S w)) by (split; [apply Z.div_pos; lia|apply Z.div_lt_upper_bound; lia]).
      rewrite IH by first [exact Hn'|lia].
      cbn [int_digits]. rewrite Hdig, Hval. f_equal. pose proof (Z.div_mod n 10). lia. }
  intros n acc after Hn Hw. unfold zpad. by rewrite H.
Qed.

Lemma py_int_zpad w n : 0 <= n < 10 ^ Z.of_nat w -> (0 < w)%nat -> py_int (zpad w n) = Some n.
Proof.
  intros Hn Hw. pose proof (int_digits_zpad w n 0 false Hn Hw) as H. destruct (zpad_digits w n) as [Hall _].
  unfold py_int. rewrite (strip_digits _ Hall). destruct (zpad w n) as [|c r]; [done|].
  cbn in Hall. apply andb_true_iff in Hall as [Hc _]. assert (Hr : 48 <= ord c <= 57) by (by apply in_range_spec).
  destruct (Ascii.eqb_spec c "-"); [subst; change (ord "-") with 45 in Hr; lia|].
  destruct (Ascii.eqb_spec c "+"); [subst; change (ord "+") with 43 in Hr; lia|]. exact H.
Qed.
Lemma zpad_2 n : exists a b, zpad 2 n = String a (String b "") /\ is_digit a = true /\ is_digit b = true.
Proof. unfold zpad. cbn [pad_digits]. eexists _, _. split; [reflexivity|]. pose proof (zpad_digits 2 n) as [H _]. unfold zpad in H.
  cbn [pad_digits sall] in H. rewrite !andb_true_iff in H. tauto. Qed.
Lemma zpad_4 n : exists a b c d, zpad 4 n = String a (String b (String c (String d ""))) /\
  is_digit a = true /\ is_digit b = true /\ is_digit c = true /\ is_digit d = true.
Proof. unfold zpad. cbn [pad_digits]. eexists _, _, _, _. split; [reflexivity|]. pose proof (zpad_digits 4 n) as [H _]. unfold zpad in H.
  cbn [pad_digits sall] in H. rewrite !andb_true_iff in H. tauto. Qed.

Lemma digit_no_sep c : is_digit c = true -> one_of "/.-" c = false.
Proof. intros H. destruct c as [[] [] [] [] [] [] [] []]; vm_compute in *; congruence. Qed.
Lemma digit_no_end c : is_digit c = true -> one_of ".,;" c = false.
Proof. intros H. destruct c as [[] [] [] [] [] [] [] []]; vm_compute in *; congruence. Qed.
Lemma sep_no_digit c : one_of "/.-" c = true -> is_digit c = false.
Proof. intros H. destruct c as [[] [] [] [] [] [] [] []]; vm_compute in *; congruence. Qed.
Lemma digit_no_space c : is_digit c = true -> is_space c = false.
Proof. intros H. destruct c as [[] [] [] [] [] [] [] []]; vm_compute in *; congruence. Qed.


(** Evaluate a match on a text whose characters are known to be digits or not. *)
Ltac run_match :=
  repeat (progress (cbn -[is_digit py_int one_of make_date];
    repeat match goal with
    | H : is_digit ?c = _ |- context [is_digit ?c] => rewrite H
    | H : one_of _ ?c = _ |- context [one_of _ ?c] => rewrite H
    end)).

Lemma stripped_date a s i : is_digit a = true -> is_digit i = true ->
  rstrip_by (one_of ".,;") (strip (String a (s +:+ String i ""))) = String a (s +:+ String i "").
Proof.
  intros Ha Hi. unfold strip, strip_by. cbn [lstrip_by]. rewrite (digit_no_space a Ha).
  assert (Hr : forall f, f i = false -> rstrip_by f (s +:+ String i "") = s +:+ String i "").
  { intros f Hf. induction s as [|c s IH]; cbn; [by rewrite Hf|]. rewrite IH. by destruct s. }
  assert (Hne : s +:+ String i "" <> "") by (by destruct s).
  assert (Hs : forall f, f i = false -> rstrip_by f (String a (s +:+ String i "")) = String a (s +:+ String i "")).
  { intros f Hf. cbn [rstrip_by]. rewrite (Hr f Hf). by destruct (s +:+ String i ""). }
  rewrite Hs by (by apply digit_no_space). apply Hs. by apply digit_no_end.
Qed.

Section ReadDates.
Context (y m d : Z).
Hypothesis Hv : valid_date (y, m, d).

Lemma parse_iso : parse_date (date_isoformat (y, m, d)) = Some (y, m, d).
Proof.
  pose proof (valid_date_bounds _ _ _ Hv) as Hb. unfold date_isoformat.
  pose proof (py_int_zpad 2 m ltac:(cbn; lia) ltac:(lia)) as Im.
  pose proof (py_int_zpad 2 d ltac:(cbn; lia) ltac:(lia)) as Id.
  pose proof (py_int_zpad 4 y ltac:(cbn; lia) ltac:(lia)) as Iy.
  destruct (zpad_2 m) as (a & b & Em & Ha & Hb'). destruct (zpad_2 d) as (c & e & Ed & Hc & He).
  destruct (zpad_4 y) as (f & g & h & i & Ey & Hf & Hg & Hh & Hi). rewrite Em, Ed, Ey in *. clear Em Ed Ey.
  unfold parse_date. cbn [String.append].
  pose proof (stripped_date f (String g (String h (String i (String "-" (String a (String b (String "-" (String c "")))))))) e Hf He)
    as Hs. cbn [String.append] in Hs. rewrite Hs. clear Hs. cbn [truthy negb String.eqb].
  unfold gfullmatch at 1, iso_re, digits_re, times, seq_of. run_match.
  unfold int_group, group_text, group. cbn -[py_int make_date]. rewrite Iy, Im, Id. exact Hv.
Qed.

Context (p q : ascii).
Hypotheses (Hp : one_of "/.-" p = true) (Hq : one_of "/.-" q = true).

Lemma parse_mdy : 100 <= y -> parse_date (zpad 2 m +:+ String p (zpad 2 d +:+ String q (zpad 4 y))) = Some (y, m, d).
Proof.
  intros Hy. pose proof (valid_date_bounds _ _ _ Hv) as Hb.
  pose proof (py_int_zpad 2 m ltac:(cbn; lia) ltac:(lia)) as Im.
  pose proof (py_int_zpad 2 d ltac:(cbn; lia) ltac:(lia)) as Id.
  pose proof (py_int_zpad 4 y ltac:(cbn; lia) ltac:(lia)) as Iy.
  destruct (zpad_2 m) as (a & b & Em & Ha & Hb'). destruct (zpad_2 d) as (c & e & Ed & Hc & He).
  destruct (zpad_4 y) as (f & g & h & i & Ey & Hf & Hg & Hh & Hi). rewrite Em, Ed, Ey in *. clear Em Ed Ey.
  pose proof (sep_no_digit p Hp) as Np. pose proof (sep_no_digit q Hq) as Nq. unfold parse_date. cbn [String.append].
  pose proof (stripped_date a (String b (String p (String c (String e (String q (String f (String g (String h "")))))))) i Ha Hi)
    as Hs. cbn [String.append] in Hs. rewrite Hs. clear Hs. cbn [truthy negb String.eqb]. set (s := String a _).
  assert (Hiso : gfullmatch iso_re s = None) by (unfold gfullmatch, iso_re, digits_re, times, seq_of, s; run_match; done).
  rewrite Hiso. unfold gfullmatch at 1, mdy_re, digits_re, times, seq_of, s, date_sep. run_match.
  unfold int_group, group_text, group. cbn -[py_int make_date]. rewrite Iy, Im, Id.
  unfold _expand_two_digit_year. cbn [default from_option id]. replace (y <? 100) with false by lia. exact Hv.
Qed.

Lemma parse_mdy_short : 2000 <= y <= 2099 ->
  parse_date (zpad 2 m +:+ String p (zpad 2 d +:+ String q (zpad 2 (y - 2000)))) = Some (y, m, d).
Proof.
  intros Hy. pose proof (valid_date_bounds _ _ _ Hv) as Hb.
  pose proof (py_int_zpad 2 m ltac:(cbn; lia) ltac:(lia)) as Im.
  pose proof (py_int_zpad 2 d ltac:(cbn; lia) ltac:(lia)) as Id.
  pose proof (py_int_zpad 2 (y - 2000) ltac:(cbn; lia) ltac:(lia)) as Iy.
  destruct (zpad_2 m) as (a & b & Em & Ha & Hb'). destruct (zpad_2 d) as (c & e & Ed & Hc & He).
  destruct (zpad_2 (y - 2000)) as (h & i & Ey & Hh & Hi). rewrite Em, Ed, Ey in *. clear Em Ed Ey.
  pose proof (sep_no_digit p Hp) as Np. pose proof (sep_no_digit q Hq) as Nq. unfold parse_date. cbn [String.append].
  pose proof (stripped_date a (String b (String p (String c (String e (String q (String h "")))))) i Ha Hi)
    as Hs. cbn [String.append] in Hs. rewrite Hs. clear Hs. cbn [truthy negb String.eqb]. set (s := String a _).
  assert (Hiso : gfullmatch iso_re s = None) by (unfold gfullmatch, iso_re, digits_re, times, seq_of, s; run_match; done).
  rewrite Hiso. unfold gfullmatch at 1, mdy_re, digits_re, times, seq_of, s, date_sep. run_match.
  unfold int_group, group_text, group. cbn -[py_int make_date]. rewrite Iy, Im, Id.
  unfold _expand_two_digit_year. cbn [default from_option id]. replace (y - 2000 <? 100) with true by lia.
  replace (2000 + (y - 2000)) with y by lia. exact Hv.
Qed.
End ReadDates.

(** ** Properties *)

(** [parse_date] reads back every date that exists: as ISO text, as month, day and
    year between any two separators, and with a year of two digits from 2000 to 2099. *)
Theorem dates_are_read_back y m d p q :
  valid_date (y, m, d) -> one_of "/.-" p = true -> one_of "/.-" q = true ->
  parse_date (date_isoformat (y, m, d)) = Some (y, m, d) /\
  (100 <= y -> parse_date (zpad 2 m +:+ String p (zpad 2 d +:+ String q (zpad 4 y))) = Some (y, m, d)) /\
  (2000 <= y <= 2099 -> parse_date (zpad 2 m +:+ String p (zpad 2 d +:+ String q (zpad 2 (y - 2000)))) = Some (y, m, d)).
Proof.
  intros Hv Hp Hq. split; [by apply parse_iso|]. split; intros Hy; [by apply parse_mdy|by apply parse_mdy_short].
Qed.

Lemma dates_are_read_back_witness :
  parse_date "2024-02-29" = Some (2024, 2, 29) /\ parse_date "02/29/2024" = Some (2024, 2, 29) /\
  parse_date "02/29/24" = Some (2024, 2, 29).
Proof.
  destruct (dates_are_read_back 2024 2 29 "/" "/" eq_refl eq_refl eq_refl) as (H1 & H2 & H3).
  split; [exact H1|]. split; [apply H2; lia|apply H3; lia].
Defined.

(** whatever document a registered extractor reads, it answers fields and
    confidences with the same keys, every confidence a number of thousandths from 0 to 1
    and every date an ISO date that exists; or it raises [InvalidOperation]. *)
Theorem extraction_is_scored source_type x pages :
  get_extractor source_type = Some x ->
  match extract x pages with
  | Ok o => map fst (o_fields o) = map fst (o_confidences o) /\
            (forall k c, dget k (o_confidences o) = Some c -> exists n, 0 <= n <= 1000 /\ c = thousandths n) /\
            (forall k v, In k date_keys -> assoc k (o_fields o) = Some v ->
               exists d, date_fromisoformat (date_isoformat d) = Some d /\ v = JStr (date_isoformat d))
  | Raise e => e = InvalidOperation
  end.
Proof.
  intros [key Hx]%get_extractor_sound. destruct (extract x pages) as [o|e] eqn:He; [|by eapply extract_raises].
  destruct (extract_good pages o He) as [[[Hk Hs] Hd] _]. split; [done|]. split.
  - intros k c Hc. by eapply (dget_Forall unit_score).
  - intros k v Hin Ha. destruct (Hd k v Hin Ha) as (d & Hv & ->). exists d. split; [by apply date_fromisoformat_iso|done].
Qed.

(** ** Runs *)

Module DemoExtraction.

Definition lines_of (l : list string) : list Page := [{| p_number := 1; p_text := join newline l; p_lines := l |}].

Definition eo_page (expires : string) : list Page :=
  lines_of ["ERRORS AND OMISSIONS CERTIFICATE"; ""; "Carrier: Chubb Insurance Co"; "Policy Number: EO-778812, renewal";
            "Named Insured: Acme MGA LLC"; "Effective Date: 01/15/2026"; "Expiration Date: " +:+ expires;
            "Limit of Liability: $2,000,000"; "Deductible: $10,000"].

Definition summary (r : result PyExn ExtractionOutput) : option (list (string * json) * list string) :=
  match r with Ok o => Some (o_fields o, o_warnings o) | Raise _ => None end.

Example eo_read : summary (extract EoExtractor (eo_page "January 15, 2027")) =
  Some ([("carrier_name", JStr "Chubb"); ("policy_number", JStr "EO-778812"); ("named_insured", JStr "Acme MGA LLC");
         ("effective_date", JStr "2026-01-15"); ("expiration_date", JStr "2027-01-15");
         ("coverage_amount_cents", JInt 200000000); ("deductible_cents", JInt 1000000)], []).
Proof. vm_compute. reflexivity. Qed.

(** A certificate that ends before it starts: the date is kept and doubted. *)
Example eo_doubted :
  match extract EoExtractor (eo_page "01/14/2026") with
  | Ok o => dates_in_order o "effective_date" "expiration_date" = Some false /\
            dget "expiration_date" (o_confidences o) = Some (thousandths 435)
  | Raise _ => False
  end.
Proof. vm_compute. split; reflexivity. Qed.

(** An ACORD 25 form. *)
Definition coi_page : list Page :=
  lines_of ["CERTIFICATE OF LIABILITY INSURANCE"; "PRODUCER"; "Best Brokers Inc"; "1 Main St"; ""; "INSURED"; "Acme MGA LLC";
            "FEIN 12-3456789"; ""; "INSURER A: Travelers Indemnity NAIC # 25658"; "INSURER B: Chubb";
            "COMMERCIAL GENERAL LIABILITY"; "POLICY NUMBER: GL-100200"; "EFF DATE: 01/01/2026  EXP DATE: 01/01/2027";
            "EACH OCCURRENCE $1,000,000"; "GENERAL AGGREGATE $2,000,000"].
Example coi_read :
  match extract CoiExtractor coi_page with
  | Ok o => map (fun k => get_key k (o_fields o)) ["carrier_name"; "carrier_naic"; "policy_number"; "effective_date"; "expiry_date";
              "limit_each_occurrence_cents"; "limit_aggregate_cents"; "insured_fein"] =
            [JStr "Travelers"; JStr "25658"; JStr "GL-100200"; JStr "2026-01-01"; JStr "2027-01-01"; JInt 100000000; JInt 200000000;
             JStr "12-3456789"]
  | Raise _ => False
  end.
Proof. vm_compute. reflexivity. Qed.

(** A label whose value is empty takes the next line, whatever it says, and with the
    proximity of a value beside its label. *)
Example value_of_the_next_line :
  _pick_label ("Deductible:" +:+ newline +:+ "Policy Number: EO-1") ["Deductible"] = Some ("Policy Number: EO-1", float_of_Z 1).
Proof. vm_compute. reflexivity. Qed.

(** Twelve months are twelve million dollars. *)
Example months_are_millions : parse_money_cents "12 months" = Ok (Some 1200000000).
Proof. vm_compute. reflexivity. Qed.

(** An amount with too many digits raises. *)
Example long_amount_raises : parse_money_cents "$123456789012345678901234567890" = Raise InvalidOperation.
Proof. vm_compute. reflexivity. Qed.

End DemoExtraction.

Lemma extraction_is_scored_witness :
  exists o, extract EoExtractor (DemoExtraction.eo_page "01/14/2026") = Ok o /\
    map fst (o_fields o) = map fst (o_confidences o) /\ In "expiration_date" (map fst (o_fields o)).
Proof.
  pose proof (extraction_is_scored "eo_certificate" EoExtractor (DemoExtraction.eo_page "01/14/2026") eq_refl) as H.
  destruct (extract EoExtractor (DemoExtraction.eo_page "01/14/2026")) as [o|e] eqn:Ho; [|vm_compute in Ho; discriminate Ho].
  exists o. split; [reflexivity|]. split; [apply H|]. vm_compute in Ho. injection Ho as <-. cbn. tauto.
Defined.
