(* ===== verification/Extractions.v ===== *)
(** * PDF extraction: the pages, the service, the worker task and the endpoints

    services/pdf_extraction/text_extractor.py: the checks before a PDF library sees the
    bytes, and the two libraries in order of preference, which are arguments: what they
    answer and what they raise.  services/extraction_service.py,
    workers/tasks/extraction_tasks.py and api/v1/extractions.py over the table
    [extraction_results]: a row is created and enqueued by a request, filled by the worker,
    and accepted or rejected by a user. *)

From Stdlib Require Import Ascii.
From S2P Require Import Prelude PyStr Json Encoding PyTime Regex RegexGroups Accounts ImportApi PdfPatterns PdfExtractors PdfTheorems.

(** ** From bytes to pages *)

(** The exceptions of the extraction: the classes of base.py, asyncio's [TimeoutError],
    the [ValueError] of the registry, and any other. *)
Inductive exn : Type :=
| PdfParseError (m : string)
| PdfEncryptedError (m : string)
| PdfTooLargeError (m : string)
| TimeoutError
| ValueError (m : string)
| Other (e : PyExn).

(** [str(exc)] *)
Definition exn_text (e : exn) : string :=
  match e with
  | PdfParseError m | PdfEncryptedError m | PdfTooLargeError m | ValueError m => m
  | TimeoutError => ""
  | Other e => msg e
  end.

(** A document PyMuPDF has opened: [doc.is_encrypted], [doc.page_count], and the text of
    page [i], with the exception [load_page] or [get_text] raises. *)
Record FitzDoc : Type := { is_encrypted : bool; page_count : nat; page_text : nat -> result PyExn string }.

(** What pdfminer answers: the wrong password, another exception, or a document with
    [is_extractable], the number of pages [create_pages] yields or the exception it
    raises, and the text [extract_text] reads on page [i]. *)
Record PmDoc : Type := {
  is_extractable : bool; create_pages : result PyExn nat; pm_extract_text : nat -> result PyExn string }.
Inductive PmOpen : Type :=
| PDFPasswordIncorrect
| PmError (e : PyExn)
| PmOpened (d : PmDoc).

(** The libraries installed; [None] is an import that raises. *)
Record Libraries : Type := { fitz : option (bytes -> result PyExn FitzDoc); pdfminer : option (bytes -> PmOpen) }.

(** services/pdf_extraction/text_extractor.py:43, [validate_pdf_header] *)
Definition _PDF_MAGIC : gre := seq_of [lit "%PDF-"; GClass (one_of "12"); ch "."; GClass is_digit].

(** services/pdf_extraction/text_extractor.py:46, [validate_pdf_header] *)
Definition _ENCRYPT_HINT : gre := seq_of [lit "/Encrypt"; GWordB].

Section TextExtractor.
(** [repr()] of bytes; [settings.pdf_max_size_mb] and [settings.pdf_max_pages]. *)
Context (repr_bytes : bytes -> string) (pdf_max_size_mb pdf_max_pages : Z).
Context (libs : Libraries).

(** services/pdf_extraction/text_extractor.py, [validate_pdf_header] *)
Definition validate_pdf_header (blob : bytes) : result exn unit :=
  let max_bytes := pdf_max_size_mb * 1024 * 1024 in
  if slen blob =? 0 then Raise (PdfParseError "empty pdf")
  else if max_bytes <? slen blob
  then Raise (PdfTooLargeError ("pdf exceeds size limit (" +:+ str_of_Z (slen blob) +:+ " > " +:+ str_of_Z max_bytes +:+ " bytes)"))
  else if negb (is_someb (gprefix _PDF_MAGIC (stake 8 blob)))
  then Raise (PdfParseError ("not a pdf (magic=" +:+ repr_bytes (stake 8 blob) +:+ ")"))
  else if is_someb (gsearch _ENCRYPT_HINT (stake (Z.to_nat 65536) blob)) then Raise (PdfEncryptedError "pdf is encrypted")
  else Ok tt.

Definition page (i : nat) (text : string) : Page :=
  {| p_number := Z.of_nat i + 1; p_text := text; p_lines := splitlines text |}.

(** The pages from [i] on, [n] of them; [wrap] is what becomes of an exception. *)
Fixpoint read_pages (wrap : nat -> PyExn -> exn) (text : nat -> result PyExn string) (n i : nat) : result exn (list Page) :=
  match n with
  | O => Ok []
  | S n =>
      match text i with
      | Raise e => Raise (wrap i e)
      | Ok t => match read_pages wrap text n (S i) with Ok l => Ok (page i t :: l) | Raise e => Raise e end
      end
  end.

Definition too_many_pages (n : nat) : exn :=
  PdfTooLargeError ("pdf page count " +:+ str_of_Z (Z.of_nat n) +:+ " > limit " +:+ str_of_Z pdf_max_pages).

(** services/pdf_extraction/text_extractor.py, [_extract_with_fitz]: [None] when the
    library is not there. *)
Definition _extract_with_fitz (blob : bytes) : option (result exn (list Page)) :=
  match fitz libs with
  | None => None
  | Some open => Some
      (match open blob with
       | Raise e => Raise (PdfParseError ("PyMuPDF failed: " +:+ msg e))
       | Ok doc =>
           if is_encrypted doc then Raise (PdfEncryptedError "pdf is encrypted")
           else if pdf_max_pages <? Z.of_nat (page_count doc) then Raise (too_many_pages (page_count doc))
           else read_pages (fun _ => Other) (page_text doc) (page_count doc) 0
       end)
  end.

(** services/pdf_extraction/text_extractor.py, [_extract_with_pdfminer] *)
Definition _extract_with_pdfminer (blob : bytes) : result exn (list Page) :=
  match pdfminer libs with
  | None => Raise (PdfParseError "no PDF backend available - install PyMuPDF or pdfminer.six")
  | Some open =>
      match open blob with
      | PDFPasswordIncorrect => Raise (PdfEncryptedError "pdf is encrypted")
      | PmError e => Raise (PdfParseError ("pdfminer parse failed: " +:+ msg e))
      | PmOpened doc =>
          if negb (is_extractable doc) then Raise (PdfParseError "pdf disallows text extraction")
          else match create_pages doc with
               | Raise e => Raise (Other e)
               | Ok n =>
                   if pdf_max_pages <? Z.of_nat n then Raise (too_many_pages n)
                   else read_pages (fun i e => PdfParseError ("pdfminer page " +:+ str_of_Z (Z.of_nat i) +:+ " failed: " +:+ msg e))
                          (pm_extract_text doc) n 0
               end
      end
  end.

(** services/pdf_extraction/text_extractor.py, [extract_pages] *)
Definition extract_pages (blob : bytes) : result exn (list Page) :=
  match validate_pdf_header blob with
  | Raise e => Raise e
  | Ok _ => match _extract_with_fitz blob with Some r => r | None => _extract_with_pdfminer blob end
  end.

(** services/pdf_extraction/text_extractor.py, [extract_text] *)
Definition extract_text (blob : bytes) (separator : string) : result exn string :=
  match extract_pages blob with
  | Raise e => Raise e
  | Ok pages => Ok (join separator (map p_text pages))
  end.

(** ** What the checks keep out *)

Lemma read_pages_Ok wrap text n : forall i l, read_pages wrap text n i = Ok l ->
  length l = n /\ forall k p, l !! k = Some p -> (p_number p = Z.of_nat (i + k) + 1) /\ text (i + k)%nat = Ok (p_text p).
Proof.
  induction n as [|n IH]; intros i l; cbn [read_pages]; [intros [= <-]; split; [done|intros k p Hk; by rewrite lookup_nil in Hk]|].
  destruct (text i) as [t|] eqn:Ht; [|done]. destruct (read_pages wrap text n (S i)) as [l'|] eqn:Hl; [|done].
  intros [= <-]. destruct (IH _ _ Hl) as [Hlen Hp]. split; [cbn; by rewrite Hlen|].
  intros [|k] p; cbn; [intros [= <-]; by rewrite Nat.add_0_r|]. intros Hk. rewrite <- Nat.add_succ_comm. by apply Hp.
Qed.

(** Pages are only read of a blob within the size limit, and there are no more than the
    page limit; they are numbered from 1. *)
Lemma extract_pages_bounds blob pages : extract_pages blob = Ok pages ->
  0 < slen blob <= pdf_max_size_mb * 1024 * 1024 /\
  (forall k p, pages !! k = Some p -> p_number p = Z.of_nat k + 1) /\
  (Z.of_nat (length pages) <= pdf_max_pages).
Proof.
  unfold extract_pages, validate_pdf_header. destruct (slen blob =? 0) eqn:H0; [done|]. destruct (_ <? slen blob) eqn:Hl; [done|].
  destruct (negb _); [done|]. destruct (is_someb _); [done|]. assert (Hpos : 0 <= slen blob) by (unfold slen; lia).
  assert (Hr : forall wrap text n, (pdf_max_pages <? Z.of_nat n) = false -> read_pages wrap text n 0 = Ok pages ->
    0 < slen blob <= pdf_max_size_mb * 1024 * 1024 /\ (forall k p, pages !! k = Some p -> p_number p = Z.of_nat k + 1) /\
    Z.of_nat (length pages) <= pdf_max_pages).
  { intros wrap text n Hn [Hlen Hp]%read_pages_Ok. split; [lia|]. split; [|lia]. intros k p Hk. by apply Hp in Hk as [? _]. }
  unfold _extract_with_fitz, _extract_with_pdfminer.
  destruct (fitz libs) as [open|].
  - destruct (open blob) as [doc|]; [|done]. destruct (is_encrypted doc); [done|].
    destruct (_ <? Z.of_nat (page_count doc)) eqn:Hn; [done|]. by apply Hr.
  - destruct (pdfminer libs) as [open|]; [|done]. destruct (open blob) as [| |doc]; [done..|].
    destruct (negb _); [done|]. destruct (create_pages doc) as [n|]; [|done].
    destruct (_ <? Z.of_nat n) eqn:Hn; [done|]. by apply Hr.
Qed.

(** With libraries that raise nothing but what the code wraps, the only exceptions are
    the three of base.py. *)
Definition declared (e : exn) : Prop :=
  match e with PdfParseError _ | PdfEncryptedError _ | PdfTooLargeError _ => True | _ => False end.
Definition well_behaved : Prop :=
  (forall open blob doc i, fitz libs = Some open -> open blob = Ok doc -> exists t, page_text doc i = Ok t) /\
  (forall open blob doc, pdfminer libs = Some open -> open blob = PmOpened doc -> exists n, create_pages doc = Ok n).

Lemma read_pages_Raise wrap text n : forall i e, read_pages wrap text n i = Raise e -> exists j x, text j = Raise x /\ e = wrap j x.
Proof.
  induction n as [|n IH]; intros i e; cbn [read_pages]; [done|]. destruct (text i) as [t|x] eqn:Ht; [|intros [= <-]; eauto].
  destruct (read_pages wrap text n (S i)) eqn:Hl; [done|]. intros [= <-]. by eapply IH.
Qed.

Lemma extract_pages_raises blob e : well_behaved -> extract_pages blob = Raise e -> declared e.
Proof.
  intros [Hf Hm]. unfold extract_pages, validate_pdf_header.
  destruct (_ =? 0); [by intros [= <-]|]. destruct (_ <? slen blob); [by intros [= <-]|].
  destruct (negb _); [by intros [= <-]|]. destruct (is_someb _); [by intros [= <-]|].
  unfold _extract_with_fitz, _extract_with_pdfminer. destruct (fitz libs) as [open|] eqn:Hl.
  - destruct (open blob) as [doc|] eqn:Ho; [|by intros [= <-]]. destruct (is_encrypted doc); [by intros [= <-]|].
    destruct (_ <? _); [by intros [= <-]|]. intros (j & x & Hx & _)%read_pages_Raise.
    destruct (Hf open blob doc j eq_refl Ho) as [t Ht]. congruence.
  - clear Hf Hl. destruct (pdfminer libs) as [open|] eqn:Hl; [|by intros [= <-]].
    destruct (open blob) as [| |doc] eqn:Ho; [by intros [= <-]..|]. destruct (negb _); [by intros [= <-]|].
    destruct (Hm open blob doc eq_refl Ho) as [n ->]. destruct (_ <? _); [by intros [= <-]|].
    by intros (j & x & _ & ->)%read_pages_Raise.
Qed.
End TextExtractor.

(** ** The service *)

(** ** Rows *)

(** models/extraction_result.py, [ExtractionSourceType]; the values are the column's. *)
Inductive ExtractionSourceType : Type := COI | EO_CERTIFICATE | PRODUCER_LICENSE.
Definition source_value (t : ExtractionSourceType) : string :=
  match t with COI => "coi" | EO_CERTIFICATE => "eo_certificate" | PRODUCER_LICENSE => "producer_license" end.

(** models/extraction_result.py, [ExtractionStatus] *)
Inductive ExtractionStatus : Type := PENDING | SUCCEEDED | PARTIAL | FAILED | ACCEPTED | REJECTED.
#[export] Instance status_eq_dec : EqDecision ExtractionStatus.
Proof. solve_decision. Defined.

(** models/extraction_result.py, [ExtractionResult]; nothing in the code writes
    [raw_text_url]. *)
Record ExtractionResult : Type := {
  er_id : string; er_tenant_id : string; er_type : string; er_document_id : string;
  extracted_fields : option (list (string * json)); field_confidences : option (list (string * spec_float));
  er_warnings : option (list string); extractor_version : string; er_status : ExtractionStatus; er_error : option string;
  reviewed_by_user_id : option string; er_created_at : Z }.

(** A row of [audit_logs] written by the endpoints. *)
Record extraction_audit : Type := {
  xa_tenant_id : string; xa_actor_user_id : option string; xa_action : string; xa_resource_id : string;
  xa_metadata : json; xa_ip_address : option string }.

Record ExtractionDB : Type := { extraction_results : list ExtractionResult; extraction_audits : list extraction_audit }.
Definition with_results (f : list ExtractionResult -> list ExtractionResult) (db : ExtractionDB) : ExtractionDB :=
  {| extraction_results := f (extraction_results db); extraction_audits := extraction_audits db |}.

Definition update_row (i : string) (f : ExtractionResult -> ExtractionResult) (l : list ExtractionResult) : list ExtractionResult :=
  map (fun r => if String.eqb (er_id r) i then f r else r) l.
Definition by_id (i : string) (db : ExtractionDB) : option ExtractionResult :=
  find_first (fun r => String.eqb (er_id r) i) (extraction_results db).

(** [row.status = status; row.error = error] *)
Definition with_failure (error : string) (r : ExtractionResult) : ExtractionResult := {|
  er_id := er_id r; er_tenant_id := er_tenant_id r; er_type := er_type r; er_document_id := er_document_id r;
  extracted_fields := extracted_fields r; field_confidences := field_confidences r; er_warnings := er_warnings r;
  extractor_version := extractor_version r; er_status := FAILED; er_error := Some error;
  reviewed_by_user_id := reviewed_by_user_id r; er_created_at := er_created_at r |}.
Definition with_output (o : ExtractionOutput) (status : ExtractionStatus) (r : ExtractionResult) : ExtractionResult := {|
  er_id := er_id r; er_tenant_id := er_tenant_id r; er_type := er_type r; er_document_id := er_document_id r;
  extracted_fields := Some (o_fields o); field_confidences := Some (o_confidences o);
  er_warnings := match o_warnings o with [] => None | w => Some w end;
  extractor_version := extractor_version r; er_status := status; er_error := er_error r;
  reviewed_by_user_id := reviewed_by_user_id r; er_created_at := er_created_at r |}.
Definition with_review (status : ExtractionStatus) (user_id : option string) (fields : option (list (string * json)))
    (warnings : option (list string)) (r : ExtractionResult) : ExtractionResult := {|
  er_id := er_id r; er_tenant_id := er_tenant_id r; er_type := er_type r; er_document_id := er_document_id r;
  extracted_fields := fields; field_confidences := field_confidences r; er_warnings := warnings;
  extractor_version := extractor_version r; er_status := status; er_error := er_error r;
  reviewed_by_user_id := user_id; er_created_at := er_created_at r |}.

(** The exceptions of the service. *)
Inductive service_exn : Type :=
| ExtractionNotFoundError (extraction_id : string)
| Extraction (e : exn).

Local Abbreviation XM := (M (session ExtractionDB) service_exn).

(** ** The loader *)

(** What a loader raises: [PdfLoaderError] or any other exception. *)
Inductive loader_exn : Type := PdfLoaderError (m : string) | LoaderOther (e : PyExn).
Definition loader_text (e : loader_exn) : string := match e with PdfLoaderError m => m | LoaderOther e => msg e end.
Definition PdfLoader : Type := string -> string -> string -> result loader_exn bytes.

(** services/extraction_service.py, [InMemoryPdfLoader]: the store, [put] and the call. *)
Definition pdf_store : Type := gmap (string * string * string) bytes.
Definition put (tenant_id source_type source_id : string) (blob : bytes) (store : pdf_store) : pdf_store :=
  <[(tenant_id, source_type, source_id) := blob]> store.
Definition InMemoryPdfLoader (store : pdf_store) : PdfLoader := fun tenant_id source_type source_id =>
  match store !! (tenant_id, source_type, source_id) with
  | Some blob => Ok blob
  | None => Raise (PdfLoaderError ("no pdf for tenant=" +:+ tenant_id +:+ " type=" +:+ source_type +:+ " id=" +:+ source_id))
  end.

(** services/extraction_service.py, [_default_loader]; nothing in the program puts a
    document into it or replaces it. *)
Definition _default_loader : PdfLoader := InMemoryPdfLoader ∅.

(** ** The service *)

(** services/extraction_service.py, [create_extraction_record]; the id and the clock are
    those of the insert. *)
Definition create_extraction_record (new_id : string) (now : Z) (tenant_id : string) (document_type : ExtractionSourceType)
    (document_id : string) : XM ExtractionResult :=
  let* extractor := or_raise (get_extractor (source_value document_type))
    (Extraction (ValueError ("unknown extractor for source_type='" +:+ source_value document_type +:+ "'"))) in
  let row := {| er_id := new_id; er_tenant_id := tenant_id; er_type := source_value document_type; er_document_id := document_id;
                extracted_fields := None; field_confidences := None; er_warnings := None;
                extractor_version := version extractor; er_status := PENDING; er_error := None;
                reviewed_by_user_id := None; er_created_at := now |} in
  write (with_results (fun l => l ++ [row])) ;;; ret row.

(** services/extraction_service.py, [_classify_status] *)
Definition _classify_status (extractor : BasePdfExtractor) (fields : list (string * json)) (confidences : list (string * spec_float)) :
    ExtractionStatus :=
  let required := required_fields extractor in
  let have := List.filter (fun k => mem k (map fst fields)) required in
  match have with
  | [] => FAILED
  | _ =>
      if negb (forallb (fun k => mem k have) required) then PARTIAL
      else if existsb (fun k => flt (default (S754_zero false) (dget k confidences)) (flit 6 10)) required then PARTIAL
      else SUCCEEDED
  end.

(** Change the row, commit and return it. *)
Definition save (i : string) (f : ExtractionResult -> ExtractionResult) : XM ExtractionResult :=
  write (with_results (update_row i f)) ;;; commit ;;;
  let* row := query (by_id i) in
  or_raise row (ExtractionNotFoundError i).

Section Run.
(** The settings, the libraries, and whether the thread is too slow. *)
Context (pdf_extraction_enabled : bool) (repr_bytes : bytes -> string) (pdf_max_size_mb pdf_max_pages : Z) (libs : Libraries).
Context (too_slow : bytes -> bool).

(** [await asyncio.wait_for(asyncio.to_thread(extract_pages, blob), timeout)] *)
Definition pages_in_time (blob : bytes) : result exn (list Page) :=
  if too_slow blob then Raise TimeoutError else extract_pages repr_bytes pdf_max_size_mb pdf_max_pages libs blob.

(** services/extraction_service.py:207-230, [run_extraction]: the handlers; [None] is an
    exception they do not name. *)
Definition pages_error (e : exn) : option string :=
  match e with
  | PdfEncryptedError _ => Some "pdf_encrypted"
  | PdfTooLargeError m => Some ("pdf_too_large: " +:+ m)
  | PdfParseError m => Some ("pdf_parse: " +:+ m)
  | TimeoutError => Some "extractor_timeout"
  | ValueError _ | Other _ => None
  end.

(** services/extraction_service.py, [run_extraction] *)
Definition run_extraction (loader : PdfLoader) (extraction_id : string) : XM ExtractionResult :=
  let* found := query (by_id extraction_id) in
  let* row := or_raise found (ExtractionNotFoundError extraction_id) in
  if negb pdf_extraction_enabled then save extraction_id (with_failure "pdf_extraction_disabled")
  else
    match loader (er_tenant_id row) (er_type row) (er_document_id row) with
    | Raise e => save extraction_id (with_failure ("loader: " +:+ loader_text e))
    | Ok blob =>
        match pages_in_time blob with
        | Raise e =>
            match pages_error e with
            | Some error => save extraction_id (with_failure error)
            | None => raise (Extraction e)
            end
        | Ok pages =>
            let* extractor := or_raise (get_extractor (er_type row))
              (Extraction (ValueError ("unknown extractor for source_type='" +:+ er_type row +:+ "'"))) in
            match extract extractor pages with
            | Raise e => save extraction_id (with_failure ("extractor: " +:+ cls e +:+ ": " +:+ msg e))
            | Ok o => save extraction_id (with_output o (_classify_status extractor (o_fields o) (o_confidences o)))
            end
        end
    end.

(** *** The task *)

(** What the task returns. *)
Inductive task_result : Type :=
| NotFound (extraction_id : string)
| Extracted (extraction_id : string) (status : ExtractionStatus) (fields_count warnings_count : Z).

(** workers/tasks/extraction_tasks.py, [_run]: a session of its own. *)
Definition _run (loader : PdfLoader) (extraction_id : string) (db : ExtractionDB) : result service_exn task_result * ExtractionDB :=
  match run_extraction loader extraction_id (Session db db) with
  | (Ok row, s) => (Ok (Extracted extraction_id (er_status row) (Z.of_nat (length (default [] (extracted_fields row))))
                         (Z.of_nat (length (default [] (er_warnings row))))), committed s)
  | (Raise (ExtractionNotFoundError i), s) => (Ok (NotFound extraction_id), committed s)
  | (Raise e, s) => (Raise e, committed s)
  end.
End Run.

(** [self.request.retries] at most [max_retries]; a further failure is the task's. *)
Definition max_retries : nat := 2.

(** workers/tasks/extraction_tasks.py, [extract_document], with its retries: [attempt k]
    is the run of attempt [k] on the tables of that time. *)
Fixpoint extract_document_from (attempt : nat -> ExtractionDB -> result service_exn task_result * ExtractionDB)
    (tries retries : nat) (db : ExtractionDB) : result service_exn task_result * nat * ExtractionDB :=
  match attempt retries db with
  | (Ok r, db') => (Ok r, S retries, db')
  | (Raise e, db') =>
      match tries with
      | O => (Raise e, S retries, db')
      | S tries => extract_document_from attempt tries (S retries) db'
      end
  end.
Definition extract_document (attempt : nat -> ExtractionDB -> result service_exn task_result * ExtractionDB)
    (db : ExtractionDB) : result service_exn task_result * nat * ExtractionDB :=
  extract_document_from attempt max_retries 0 db.

(** *** Reading and reviewing *)

(** services/extraction_service.py, [get_extraction] *)
Definition get_extraction (tenant_id extraction_id : string) : XM (option ExtractionResult) :=
  query (fun db => find_first (fun r => String.eqb (er_id r) extraction_id && String.eqb (er_tenant_id r) tenant_id)
                     (extraction_results db)).

(** services/extraction_service.py, [list_extractions] *)
Definition list_extractions (tenant_id : string) (document_type : option ExtractionSourceType) (limit offset : nat) :
    XM (list ExtractionResult * Z) :=
  query (fun db =>
    let rows := List.filter (fun r => String.eqb (er_tenant_id r) tenant_id &&
      match document_type with Some t => String.eqb (er_type r) (source_value t) | None => true end) (extraction_results db) in
    (take limit (drop offset (sort_by (fun r => - er_created_at r) rows)), Z.of_nat (length rows))).

(** services/extraction_service.py, [accept_extraction] *)
Definition accept_extraction (tenant_id extraction_id : string) (user_id : option string) (fields : list (string * json)) :
    XM ExtractionResult :=
  let* found := get_extraction tenant_id extraction_id in
  let* row := or_raise found (ExtractionNotFoundError extraction_id) in
  let merged := update_keys (default [] (extracted_fields row)) fields in
  save extraction_id (with_review ACCEPTED user_id (Some merged) (er_warnings row)).

(** services/extraction_service.py, [reject_extraction] *)
Definition reject_extraction (tenant_id extraction_id : string) (user_id reason : option string) : XM ExtractionResult :=
  let* found := get_extraction tenant_id extraction_id in
  let* row := or_raise found (ExtractionNotFoundError extraction_id) in
  let warnings := match opt_truthy reason with
                  | Some reason => Some (default [] (er_warnings row) ++ ["rejected: " +:+ reason])
                  | None => er_warnings row
                  end in
  save extraction_id (with_review REJECTED user_id (extracted_fields row) warnings).

(** ** The endpoints *)

(** The tables behind the request's session, and the messages sent to the workers:
    sending one is not undone by a rollback. *)
Record ApiSt : Type := { tables : session ExtractionDB; sent : list string }.
Local Abbreviation WM := (M ApiSt web_error).

(** A call of the service; [h] is what the endpoint makes of its exceptions. *)
Definition service {A} (m : XM A) : WM A := fun s =>
  match m (tables s) with
  | (Ok a, t) => (Ok a, {| tables := t; sent := sent s |})
  | (Raise (ExtractionNotFoundError _), t) => (Raise (HTTPException 404 "extraction_not_found"), {| tables := t; sent := sent s |})
  | (Raise (Extraction e), t) => (Raise (PyException (exn_text e)), {| tables := t; sent := sent s |})
  end.

(** db.py, [get_db] *)
Definition request {A} (m : WM A) : WM A := fun s =>
  match m s with
  | (Ok a, s') => (Ok a, {| tables := snd (commit (E := web_error) (tables s')); sent := sent s' |})
  | (Raise e, s') => (Raise e, {| tables := snd (rollback (E := web_error) (tables s')); sent := sent s' |})
  end.

(** api/v1/extractions.py, [_client_ip] *)
Definition _client_ip (r : http_request) : option string :=
  match opt_truthy (client_host r) with
  | Some h => Some h
  | None =>
      match opt_truthy (x_forwarded_for r) with
      | Some f => opt_truthy (Some (strip (partition_char "," f).1.1))
      | None => None
      end
  end.

(** The member whose token the request carries. *)
Record member : Type := { m_tenant_id : string; m_user_id : option string }.

(** [session.add(AuditLog(...)); await session.commit()] *)
Definition audit (u : member) (r : http_request) (action resource_id : string) (metadata : json) : XM unit :=
  write (fun db => {| extraction_results := extraction_results db;
    extraction_audits := extraction_audits db ++
      [{| xa_tenant_id := m_tenant_id u; xa_actor_user_id := m_user_id u; xa_action := action; xa_resource_id := resource_id;
          xa_metadata := metadata; xa_ip_address := _client_ip r |}] |}) ;;;
  commit.

(** [extract_document.delay(row.id)] behind [try ... except Exception]. *)
Definition delay (broker_up : bool) (i : string) : WM unit :=
  if broker_up then modify (fun s => {| tables := tables s; sent := sent s ++ [i] |}) else ret tt.

(** api/v1/extractions.py, [enqueue_extraction]: the status code is 202; [new_id] and
    [now] are those of the insert. *)
Definition enqueue_extraction (new_id : string) (now : Z) (broker_up : bool) (u : member) (r : http_request)
    (document_type : ExtractionSourceType) (document_id : string) : WM ExtractionResult :=
  request (
    raise_if ((slen document_id <? 1) || (36 <? slen document_id)) (HTTPException 422 "validation_error") ;;;
    let* row := service (create_extraction_record new_id now (m_tenant_id u) document_type document_id) in
    delay broker_up (er_id row) ;;;
    service (audit u r "extraction.enqueued" (er_id row)
      (JObj [("document_type", JStr (er_type row)); ("document_id", JStr (er_document_id row))])) ;;;
    ret row).

(** api/v1/extractions.py, [get_extraction] *)
Definition get_extraction_endpoint (tenant_id extraction_id : string) : WM ExtractionResult :=
  request (
    let* row := service (get_extraction tenant_id extraction_id) in
    or_raise row (HTTPException 404 "extraction_not_found")).

(** api/v1/extractions.py, [list_extractions] *)
Definition list_extractions_endpoint (tenant_id : string) (document_type : option ExtractionSourceType) (limit offset : Z) :
    WM (list ExtractionResult * Z) :=
  request (
    raise_if ((limit <? 1) || (200 <? limit) || (offset <? 0)) (HTTPException 422 "validation_error") ;;;
    service (list_extractions tenant_id document_type (Z.to_nat limit) (Z.to_nat offset))).

(** [sorted(payload.fields.keys())] *)
Fixpoint insert_string (x : string) (l : list string) : list string :=
  match l with [] => [x] | y :: r => if String.leb x y then x :: l else y :: insert_string x r end.
Definition sorted_strings (l : list string) : list string := fold_right insert_string [] l.

(** api/v1/extractions.py, [accept_extraction] *)
Definition accept_extraction_endpoint (u : member) (r : http_request) (extraction_id : string) (fields : list (string * json)) :
    WM ExtractionResult :=
  request (
    let* row := service (accept_extraction (m_tenant_id u) extraction_id (m_user_id u) fields) in
    service (audit u r "extraction.accepted" (er_id row) (JObj [("overrides", JList (map JStr (sorted_strings (map fst fields))))])) ;;;
    ret row).

(** api/v1/extractions.py, [reject_extraction] *)
Definition reject_extraction_endpoint (u : member) (r : http_request) (extraction_id : string) (reason : option string) :
    WM ExtractionResult :=
  request (
    raise_if (match reason with Some t => 512 <? slen t | None => false end) (HTTPException 422 "validation_error") ;;;
    let* row := service (reject_extraction (m_tenant_id u) extraction_id (m_user_id u) reason) in
    service (audit u r "extraction.rejected" (er_id row)
      (JObj [("reason", match reason with Some t => JStr t | None => JNull end)])) ;;;
    ret row).

(** ** Rows by id *)

Lemma by_id_update i f db r : (forall x, er_id (f x) = er_id x) -> by_id i db = Some r ->
  by_id i (with_results (update_row i f) db) = Some (f r).
Proof.
  intros Hf. unfold by_id. cbn [extraction_results with_results]. induction (extraction_results db) as [|x l IH]; cbn; [done|].
  destruct (String.eqb (er_id x) i) eqn:Hx; [intros [= ->]; by rewrite Hf, Hx|rewrite Hx; exact IH].
Qed.

Lemma by_id_In i db r : by_id i db = Some r -> In r (extraction_results db) /\ er_id r = i.
Proof. intros [Hin He%String.eqb_eq]%find_first_Some. done. Qed.

(** Writing one row: the rows of other ids stay. *)
Lemma update_row_unique i f l r :
  NoDup (map er_id l) -> In r l -> er_id r = i -> update_row i f l = update_row i (fun _ => f r) l.
Proof.
  intros Hnd Hin Hi. apply map_ext_in. intros x Hx. destruct (String.eqb_spec (er_id x) i) as [He|]; [|done]. f_equal.
  clear f. induction l as [|y l IH]; [done|]. cbn in Hnd. apply NoDup_cons in Hnd as [Hy Hnd].
  rewrite list_elem_of_In, in_map_iff in Hy. destruct Hin as [->|Hin], Hx as [->|Hx]; [done| | |by apply IH].
  - destruct Hy. exists x. split; [congruence|done].
  - destruct Hy. exists r. split; [congruence|done].
Qed.

Lemma save_run i f s r : (forall x, er_id (f x) = er_id x) -> by_id i (working s) = Some r ->
  save i f s = (Ok (f r), let db := with_results (update_row i f) (working s) in Session db db).
Proof. intros Hf Hr. unfold save, bind, write, commit, modify, query, reads. cbn [working]. by rewrite (by_id_update i f _ r). Qed.

(** ** The outcome of a run *)

(** The date field that ends the coverage. *)
Definition expiry_of (source_type : string) : string :=
  if String.eqb source_type "coi" then "expiry_date" else "expiration_date".

Lemma registry_sound source_type x : get_extractor source_type = Some x -> SoundExtractor x (expiry_of source_type).
Proof.
  unfold get_extractor, EXTRACTORS, expiry_of. cbn [dget].
  destruct (String.eqb source_type "coi") eqn:H1; [intros [= <-]; exact CoiExtractor_sound|].
  destruct (String.eqb source_type "eo_certificate"); [intros [= <-]; exact EoExtractor_sound|].
  destruct (String.eqb source_type "producer_license"); [intros [= <-]; exact LicenseExtractor_sound|done].
Qed.

(** A field read as a date. *)
Definition date_of_field (k : string) (fields : list (string * json)) : option date :=
  match get_key k fields with JStr s => date_fromisoformat s | _ => None end.

Lemma dates_in_order_of o eff exp a b : date_of_field eff (o_fields o) = Some a -> date_of_field exp (o_fields o) = Some b ->
  dates_in_order o eff exp = Some (negb (date_le b a)).
Proof.
  unfold date_of_field, dates_in_order. destruct (get_key eff _) as [| | | |s| |]; try done.
  destruct (get_key exp _) as [| | | |t| |]; try done. intros Ha Hb.
  destruct (truthy s) eqn:Hs; [|apply truthy_false in Hs; subst; done].
  destruct (truthy t) eqn:Ht; [|apply truthy_false in Ht; subst; done]. cbn [andb]. by rewrite Hb, Ha.
Qed.

(** What [_classify_status] promises of a success. *)
Lemma classify_succeeded x fields confidences : _classify_status x fields confidences = SUCCEEDED ->
  forall k, In k (required_fields x) ->
    In k (map fst fields) /\ flt (default (S754_zero false) (dget k confidences)) (flit 6 10) = false.
Proof.
  unfold _classify_status. set (have := List.filter _ _). destruct have as [|h0 hs] eqn:Hh; [done|].
  destruct (forallb _ _) eqn:Hall; [|done]. destruct (existsb _ _) eqn:Hlow; [done|]. intros _ k Hk. split.
  - rewrite forallb_forall in Hall. specialize (Hall k Hk). apply mem_In in Hall. rewrite <- Hh in Hall.
    unfold have in Hall. apply filter_In in Hall as [_ Hm]. by apply mem_In.
  - apply not_true_iff_false. intros Ht. rewrite <- not_true_iff_false, existsb_exists in Hlow. apply Hlow. eauto.
Qed.

Section Outcome.
Context (pdf_extraction_enabled : bool) (repr_bytes : bytes -> string) (pdf_max_size_mb pdf_max_pages : Z) (libs : Libraries).
Context (too_slow : bytes -> bool) (loader : PdfLoader).

Local Abbreviation run := (run_extraction pdf_extraction_enabled repr_bytes pdf_max_size_mb pdf_max_pages libs too_slow loader).

(** What a run saves: a failure, or the output of the extractor of the row's type with
    the status it deserves. *)
Inductive saves (source_type : string) : (ExtractionResult -> ExtractionResult) -> Prop :=
| saves_failure error : saves source_type (with_failure error)
| saves_output x pages o : get_extractor source_type = Some x -> extract x pages = Ok o ->
    saves source_type (with_output o (_classify_status x (o_fields o) (o_confidences o))).

Lemma saves_id source_type f : saves source_type f -> forall x, er_id (f x) = er_id x.
Proof. by destruct 1. Qed.

Lemma pages_error_declared e : declared e -> is_Some (pages_error e).
Proof. destruct e; cbn; done. Qed.

(** A run on a fresh session either saves, or raises what a library raised and leaves
    the tables alone. *)
Lemma run_saves i db r : by_id i db = Some r ->
  (exists f, saves (er_type r) f /\ run i (Session db db) = save i f (Session db db)) \/
  (exists e, run i (Session db db) = (Raise (Extraction e), Session db db) /\
     (pages_error e = None /\ ~ well_behaved libs \/ get_extractor (er_type r) = None)).
Proof.
  intros Hr. unfold run_extraction.
  rewrite (bind_run _ _ _ (Some r) (Session db db)) by (unfold query, reads; cbn [working]; by rewrite Hr).
  rewrite (bind_run _ _ _ r (Session db db)) by done. destruct (negb _); [left; eexists; split; [apply saves_failure|reflexivity]|].
  destruct (loader _ _ _) as [blob|e]; [|left; eexists; split; [apply saves_failure|reflexivity]].
  destruct (pages_in_time _ _ _ _ _ blob) as [pages|e] eqn:Hp.
  - destruct (get_extractor (er_type r)) as [x|] eqn:Hx; [|right; eexists; split; [reflexivity|by right]].
    rewrite (bind_run _ _ _ x (Session db db)) by done. destruct (extract x pages) as [o|e] eqn:He; left; eexists.
    + split; [by eapply saves_output|reflexivity].
    + split; [apply saves_failure|reflexivity].
  - destruct (pages_error e) as [error|] eqn:Hpe; [left; eexists; split; [apply saves_failure|reflexivity]|].
    right. exists e. split; [reflexivity|]. left. split; [done|]. intros Hw. unfold pages_in_time in Hp.
    destruct (too_slow blob); [injection Hp as <-; done|].
    apply extract_pages_raises, pages_error_declared in Hp as [? Hs]; [congruence|done].
Qed.
End Outcome.

(** ** Properties *)

(** C29. a run of the worker over an existing row ends in one of three ways the row
    records.  With libraries that raise only what the code wraps, and a row of a known
    type, it always returns: the row it returns is committed in place of the old one with
    the status failed, partial or succeeded, it still belongs to the same tenant and
    document, and every other row and the audit log are as before.  When it raises,
    nothing is committed. *)
Theorem run_extraction_outcome enabled repr_bytes max_mb max_pages libs too_slow loader i db r :
  NoDup (map er_id (extraction_results db)) -> by_id i db = Some r ->
  match run_extraction enabled repr_bytes max_mb max_pages libs too_slow loader i (Session db db) with
  | (Ok r', s) =>
      committed s = with_results (map (fun x => if String.eqb (er_id x) i then r' else x)) db /\
      In (er_status r') [FAILED; PARTIAL; SUCCEEDED] /\
      (er_id r', er_tenant_id r', er_type r', er_document_id r') = (i, er_tenant_id r, er_type r, er_document_id r) /\
      (er_status r' = FAILED -> is_Some (er_error r') \/ extracted_fields r' <> None)
  | (Raise _, s) => s = Session db db /\ (~ well_behaved libs \/ get_extractor (er_type r) = None)
  end.
Proof.
  intros Hnd Hr. pose proof (by_id_In _ _ _ Hr) as [Hin Hid].
  destruct (run_saves enabled repr_bytes max_mb max_pages libs too_slow loader i db r Hr) as [(f & Hf & ->)|(e & -> & He)].
  2: { split; [done|]. destruct He as [[_ ?]|?]; auto. }
  rewrite (save_run i f (Session db db) r (saves_id _ _ Hf) Hr). cbn [committed working]. split.
  { unfold with_results. f_equal. by apply update_row_unique. }
  destruct Hf as [error|x pages o Hx He]; cbn; rewrite Hid; split_and!; eauto.
  unfold _classify_status. repeat case_match; cbn; auto.
Qed.

(** C30. an extraction is only recorded as succeeded when every required field of its
    document type was found with a confidence of at least 0.6, and the date the coverage
    ends on is after the date it starts on whenever both were found. *)
Theorem succeeded_needs_no_review enabled repr_bytes max_mb max_pages libs too_slow loader i db r r' s :
  by_id i db = Some r ->
  run_extraction enabled repr_bytes max_mb max_pages libs too_slow loader i (Session db db) = (Ok r', s) ->
  er_status r' = SUCCEEDED ->
  exists x fields confidences,
    get_extractor (er_type r) = Some x /\ extracted_fields r' = Some fields /\ field_confidences r' = Some confidences /\
    (forall k, In k (required_fields x) ->
       In k (map fst fields) /\ exists c, dget k confidences = Some c /\ flt c (flit 6 10) = false) /\
    (forall a b, date_of_field "effective_date" fields = Some a -> date_of_field (expiry_of (er_type r)) fields = Some b ->
       date_le b a = false).
Proof.
  intros Hr Hrun Hst.
  destruct (run_saves enabled repr_bytes max_mb max_pages libs too_slow loader i db r Hr) as [(f & Hf & Hs)|(e & Hs & _)];
    rewrite Hs in Hrun; [|done].
  rewrite (save_run i f (Session db db) r (saves_id _ _ Hf) Hr) in Hrun. injection Hrun as <- _.
  destruct Hf as [error|x pages o Hx He]; [done|]. cbn in Hst. pose proof (classify_succeeded _ _ _ Hst) as Hc.
  pose proof (registry_sound _ _ Hx) as Hsound. destruct (extract_good pages o He) as [[[Hk Hs'] Hd] Hdoubt].
  exists x, (o_fields o), (o_confidences o). split_and!; [done|done|done| |].
  - intros k Hkr. destruct (Hc k Hkr) as [Hin Hlow]. split; [done|]. rewrite Hk in Hin. apply dget_keys in Hin as [c Hcd].
    rewrite Hcd in Hlow. eauto.
  - intros a b Ha Hb. pose proof (dates_in_order_of o _ _ a b Ha Hb) as Ho. destruct (date_le b a) eqn:Hle; [|done].
    destruct (Hdoubt Ho) as (c & Hcc & Hlow). destruct (Hc _ (proj1 (expiry_required (SoundExtractor := Hsound)))) as [_ Hhigh].
    rewrite Hcc in Hhigh. cbn in Hhigh. congruence.
Qed.

(** *** Tenants *)

Lemma get_extraction_foreign tenant_id i db :
  (forall x, In x (extraction_results db) -> er_id x = i -> er_tenant_id x <> tenant_id) ->
  get_extraction tenant_id i (Session db db) = (Ok None, Session db db).
Proof.
  intros H. unfold get_extraction, query, reads. cbn [working].
  destruct (find_first _ _) as [x|] eqn:Hx; [|done]. apply find_first_Some in Hx as [Hin [Hi%String.eqb_eq Ht%String.eqb_eq]%andb_true_iff].
  by destruct (H x Hin Hi).
Qed.

(** to a member of another tenant an extraction does not exist: reading, accepting
    and rejecting it answer 404 and change neither the tables nor the queue. *)
Theorem foreign_extraction_is_not_found u h i fields reason db q :
  (forall x, In x (extraction_results db) -> er_id x = i -> er_tenant_id x <> m_tenant_id u) ->
  match reason with Some t => slen t <= 512 | None => True end ->
  let s := {| tables := Session db db; sent := q |} in
  get_extraction_endpoint (m_tenant_id u) i s = (Raise (HTTPException 404 "extraction_not_found"), s) /\
  accept_extraction_endpoint u h i fields s = (Raise (HTTPException 404 "extraction_not_found"), s) /\
  reject_extraction_endpoint u h i reason s = (Raise (HTTPException 404 "extraction_not_found"), s).
Proof.
  intros H Hreason s. pose proof (get_extraction_foreign _ _ _ H) as Hg. unfold s. split_and!.
  - unfold get_extraction_endpoint, request, bind, service. cbn [tables]. rewrite Hg. reflexivity.
  - unfold accept_extraction_endpoint, request, accept_extraction, bind, service. cbn [tables]. rewrite Hg. reflexivity.
  - unfold reject_extraction_endpoint, request, reject_extraction, bind, service.
    replace (match reason with Some t => 512 <? slen t | None => false end) with false by (destruct reason; [lia|done]).
    cbn [raise_if ret tables]. unfold ret. cbn [tables]. rewrite Hg. reflexivity.
Qed.

(** ** Runs *)

Module DemoExtractions.

(** One page of text, opened by PyMuPDF. *)
Definition text_of (l : list string) : string := join newline l.
Definition doc_of (text : string) : FitzDoc := {| is_encrypted := false; page_count := 1; page_text := fun _ => Ok text |}.
Definition libs_of (text : string) : Libraries := {| fitz := Some (fun _ => Ok (doc_of text)); pdfminer := None |}.
Definition certificate (expires : string) : string :=
  text_of ["Carrier: Chubb Insurance Co"; "Policy Number: EO-778812"; "Effective Date: 01/15/2026"; "Expiration Date: " +:+ expires].

Definition blob : bytes := "%PDF-1.7 ...".
Definition loader : PdfLoader := InMemoryPdfLoader (put "t1" "eo_certificate" "d1" blob ∅).
Definition worker (text : string) : string -> ExtractionDB -> result service_exn task_result * ExtractionDB :=
  _run true (fun b => b) 25 50 (libs_of text) (fun _ => false) loader.

Definition anna : member := {| m_tenant_id := "t1"; m_user_id := Some "anna" |}.
Definition eve : member := {| m_tenant_id := "t2"; m_user_id := Some "eve" |}.
Definition http : http_request := {| client_host := Some "10.0.0.1"; x_forwarded_for := None |}.
Definition empty_db : ExtractionDB := {| extraction_results := []; extraction_audits := [] |}.
Definition start : ApiSt := {| tables := Session empty_db empty_db; sent := [] |}.

Definition enqueued : ApiSt := snd (enqueue_extraction "x1" 1 true anna http EO_CERTIFICATE "d1" start).
Definition enqueued_db : ExtractionDB := committed (tables enqueued).
Definition row_of (db : ExtractionDB) : option (ExtractionStatus * option string * option (list (string * json))) :=
  r ← by_id "x1" db; Some (er_status r, er_error r, extracted_fields r).

Example enqueued_row : row_of enqueued_db = Some (PENDING, None, None) /\ sent enqueued = ["x1"].
Proof. vm_compute. split; reflexivity. Qed.

Definition run_db : ExtractionDB := snd (worker (certificate "01/15/2027") "x1" enqueued_db).
Definition read_fields : list (string * json) :=
  [("carrier_name", JStr "Chubb"); ("policy_number", JStr "EO-778812"); ("effective_date", JStr "2026-01-15");
   ("expiration_date", JStr "2027-01-15")].

Example extraction_succeeds :
  fst (worker (certificate "01/15/2027") "x1" enqueued_db) = Ok (Extracted "x1" SUCCEEDED 4 0) /\
  row_of run_db = Some (SUCCEEDED, None, Some read_fields).
Proof. vm_compute. split; reflexivity. Qed.

(** Dates out of order: the row waits for a review. *)
Example doubtful_is_partial :
  fst (worker (certificate "01/15/2025") "x1" enqueued_db) = Ok (Extracted "x1" PARTIAL 4 1).
Proof. vm_compute. reflexivity. Qed.

(** The message is sent before the request commits: a worker that is fast enough finds no
    row, ends without a retry, and the row stays pending. *)
Example worker_too_early :
  worker (certificate "01/15/2027") "x1" (committed (tables start)) = (Ok (NotFound "x1"), empty_db).
Proof. vm_compute. reflexivity. Qed.

(** The loader the program has is empty, so every extraction it runs fails. *)
Example default_loader_fails :
  row_of (snd (_run true (fun b => b) 25 50 (libs_of "") (fun _ => false) _default_loader "x1" enqueued_db)) =
    Some (FAILED, Some "loader: no pdf for tenant=t1 type=eo_certificate id=d1", None).
Proof. vm_compute. reflexivity. Qed.

(** Anna accepts with a correction; the task, acknowledged late, is delivered again and
    takes the row back to what the extractor read. *)
Definition accepted_st : ApiSt :=
  snd (accept_extraction_endpoint anna http "x1" [("policy_number", JStr "EO-778812-B")]
    {| tables := Session run_db run_db; sent := [] |}).
Example redelivery_undoes_a_review :
  row_of (committed (tables accepted_st)) = Some (ACCEPTED, None, Some
    [("carrier_name", JStr "Chubb"); ("policy_number", JStr "EO-778812-B"); ("effective_date", JStr "2026-01-15");
     ("expiration_date", JStr "2027-01-15")]) /\
  row_of (snd (worker (certificate "01/15/2027") "x1" (committed (tables accepted_st)))) = Some (SUCCEEDED, None, Some read_fields).
Proof. vm_compute. split; reflexivity. Qed.

(** An exception of a library that the code does not wrap leaves [run_extraction]; the
    task is tried three times and the row stays pending. *)
Definition broken : Libraries :=
  {| fitz := Some (fun _ => Ok {| is_encrypted := false; page_count := 1;
                                  page_text := fun _ => Raise {| cls := "RuntimeError"; msg := "bad xref" |} |}); pdfminer := None |}.
Example unwrapped_exception_escapes :
  let '(r, n, db) := extract_document (fun _ => _run true (fun b => b) 25 50 broken (fun _ => false) loader "x1") enqueued_db in
  r = Raise (Extraction (Other {| cls := "RuntimeError"; msg := "bad xref" |})) /\ n = 3%nat /\ row_of db = Some (PENDING, None, None).
Proof. vm_compute. auto. Qed.

(** An extraction that fails and then succeeds keeps the error of its first run. *)
Example stale_error :
  row_of (snd (worker (certificate "01/15/2027") "x1"
    (snd (_run true (fun b => b) 25 50 (libs_of "") (fun _ => false) _default_loader "x1" enqueued_db)))) =
    Some (SUCCEEDED, Some "loader: no pdf for tenant=t1 type=eo_certificate id=d1", Some read_fields).
Proof. vm_compute. reflexivity. Qed.

End DemoExtractions.

Lemma run_extraction_outcome_witness :
  let run := run_extraction true (fun b => b) 25 50 (DemoExtractions.libs_of (DemoExtractions.certificate "01/15/2027"))
               (fun _ => false) DemoExtractions.loader "x1" (Session DemoExtractions.enqueued_db DemoExtractions.enqueued_db) in
  exists r', fst run = Ok r' /\
    committed (snd run) = with_results (map (fun x => if String.eqb (er_id x) "x1" then r' else x)) DemoExtractions.enqueued_db.
Proof.
  pose proof (run_extraction_outcome true (fun b => b) 25 50 (DemoExtractions.libs_of (DemoExtractions.certificate "01/15/2027"))
    (fun _ => false) DemoExtractions.loader "x1" DemoExtractions.enqueued_db
    (default {| er_id := ""; er_tenant_id := ""; er_type := ""; er_document_id := ""; extracted_fields := None; field_confidences := None;
                er_warnings := None; extractor_version := ""; er_status := FAILED; er_error := None; reviewed_by_user_id := None;
                er_created_at := 0 |} (by_id "x1" DemoExtractions.enqueued_db))) as H.
  cbv zeta. destruct (run_extraction _ _ _ _ _ _ _ _ _) as [[r'|e] s] eqn:Hrun; [|vm_compute in Hrun; discriminate Hrun].
  exists r'. split; [reflexivity|]. apply H; [apply (bool_decide_unpack _); vm_compute; exact I|vm_compute; reflexivity].
Defined.

Lemma succeeded_needs_no_review_witness :
  exists r' s fields, run_extraction true (fun b => b) 25 50 (DemoExtractions.libs_of (DemoExtractions.certificate "01/15/2027"))
    (fun _ => false) DemoExtractions.loader "x1" (Session DemoExtractions.enqueued_db DemoExtractions.enqueued_db) = (Ok r', s) /\
    extracted_fields r' = Some fields /\ In "policy_number" (map fst fields).
Proof.
  destruct (run_extraction true (fun b => b) 25 50 (DemoExtractions.libs_of (DemoExtractions.certificate "01/15/2027"))
    (fun _ => false) DemoExtractions.loader "x1" (Session DemoExtractions.enqueued_db DemoExtractions.enqueued_db))
    as [[r'|e] s] eqn:Hrun; [|vm_compute in Hrun; discriminate Hrun].
  destruct (by_id "x1" DemoExtractions.enqueued_db) as [r|] eqn:Hr; [|vm_compute in Hr; discriminate Hr].
  destruct (succeeded_needs_no_review _ _ _ _ _ _ _ _ _ _ _ _ Hr Hrun) as (x & fields & confidences & Hx & Hf & _ & Hreq & _).
  { vm_compute in Hrun. injection Hrun as <- _. reflexivity. }
  exists r', s, fields. split; [reflexivity|]. split; [exact Hf|]. apply Hreq. vm_compute in Hr. injection Hr as <-.
  assert (He : EoExtractor = x) by exact (f_equal (default EoExtractor) Hx). rewrite <- He. right. left. reflexivity.
Defined.

Lemma foreign_extraction_is_not_found_witness :
  let s := {| tables := Session DemoExtractions.run_db DemoExtractions.run_db; sent := [] |} in
  accept_extraction_endpoint DemoExtractions.eve DemoExtractions.http "x1" [] s = (Raise (HTTPException 404 "extraction_not_found"), s).
Proof.
  refine (proj1 (proj2 (foreign_extraction_is_not_found DemoExtractions.eve DemoExtractions.http "x1" [] None DemoExtractions.run_db []
    _ I))).
  intros x Hx _. vm_compute in Hx. destruct Hx as [<-|[]]. discriminate.
Defined.
