(* ===== verification/AuditMiddleware.v ===== *)
(** * The audit middleware

    middleware/audit_middleware.py: around every request the rest of the stack answers,
    one row of the tenant's audit chain for a request that may change state.  The rest of
    the stack is an argument; the append is the one of [AuditChain]. *)

From Stdlib Require Import Ascii.
From S2P Require Import Prelude PyStr Json Encoding PyTime Regex RegexGroups Redaction AuditChain.

(** middleware/audit_middleware.py, [_DEFAULT_SKIP_PREFIXES] *)
Definition _DEFAULT_SKIP_PREFIXES : list string :=
  ["/v1/health"; "/health"; "/metrics"; "/webhooks/"; "/v1/auth/login"; "/v1/auth/refresh"; "/v1/auth/register"; "/verify/";
   "/docs"; "/openapi.json"; "/redoc"].

(** middleware/audit_middleware.py, [_COLLECTION_TO_RESOURCE] *)
Definition _COLLECTION_TO_RESOURCE : list (string * string) :=
  [("suppliers", "supplier"); ("submissions", "submission"); ("receipts", "receipt"); ("portals", "portal");
   ("tenants", "tenant"); ("loss-runs", "loss_run"); ("producer-licenses", "producer_license");
   ("eo-certificates", "eo_certificate"); ("acord-forms", "acord_form"); ("risk-schedules", "risk_schedule");
   ("imports", "import_job"); ("extractions", "extraction"); ("inbound", "inbound_email"); ("onboarding", "onboarding");
   ("billing", "billing"); ("exports", "audit_export"); ("audit", "audit"); ("cois", "coi"); ("consents", "consent");
   ("verifier-keys", "verifier_api_key")].

(** middleware/audit_middleware.py, [ACTION_VERBS] *)
Definition ACTION_VERBS : list (string * string) :=
  [("POST", "created"); ("PUT", "updated"); ("PATCH", "updated"); ("DELETE", "deleted")].

(** middleware/audit_middleware.py, [_PATH_RE]; group 1 is [collection], group 2 is
    [id]. *)
Definition _PATH_RE : gre :=
  seq_of [lit "/v1/"; GGroup 1 (many (fun c => is_lower c || is_digit c || one_of "_-" c));
          opt (GSeq (ch "/") (GGroup 2 (many (fun c => negb (Ascii.eqb c "/")))))].

(** middleware/audit_middleware.py:112-123, [extract_resource]: segments that are not
    ids. *)
Definition not_ids : list string :=
  ["new"; "reorder"; "verify"; "download"; "envelope"; "rules"; "exports"; "chain"; "by-resource"; "me"].

(** middleware/audit_middleware.py, [extract_resource] *)
Definition extract_resource (path : string) : string * option string :=
  match gprefix _PATH_RE path with
  | None => ("http_request", None)
  | Some m =>
      let collection := group_text 1 m in
      let resource_type := default (replace_char "-" "_" collection) (dget collection _COLLECTION_TO_RESOURCE) in
      match opt_truthy (group 2 m) with
      | None => (resource_type, None)
      | Some raw_id => if mem raw_id not_ids then (resource_type, None) else (resource_type, Some raw_id)
      end
  end.

(** What the middleware reads of a request, and of [request.state] when the response is
    on its way back. *)
Record request : Type := {
  rq_method : string; rq_path : string; rq_client_host : option string; rq_user_agent : option string;
  rq_operator_tenant : option string }.
Record request_state : Type := { st_tenant_id : option string; st_user_id : option string; st_request_id : option string }.

(** middleware/audit_middleware.py, [AuditMiddleware._should_skip] *)
Definition _should_skip (skip_prefixes : list string) (path method : string) : bool :=
  negb (is_someb (dget (upper method) ACTION_VERBS)) || existsb (fun prefix => startswith prefix path) skip_prefixes.

Section Middleware.
Context (sha256 : bytes -> bytes) (canonical_json_bytes : json -> option bytes) (column_ok : AuditLogEntry -> bool).
(** The prefixes the middleware was made with. *)
Context (skip_prefixes : list string).

(** middleware/audit_middleware.py:158-210, [AuditMiddleware.dispatch]: the event of a
    request, [None] when there is none. *)
Definition event_of (r : request) (st : request_state) (status_code : Z) : option audit_event :=
  let method := upper (rq_method r) in
  if _should_skip skip_prefixes (rq_path r) method then None
  else
    match opt_truthy (st_tenant_id st) with
    | None => None
    | Some tenant_id =>
        let '(resource_type, resource_id) := extract_resource (rq_path r) in
        Some {| ev_tenant_id := tenant_id;
                ev_actor_type := if is_someb (opt_truthy (rq_operator_tenant r)) then OPERATOR else USER;
                ev_action_verb := default "" (dget method ACTION_VERBS);
                ev_resource_type := resource_type; ev_actor_id := opt_truthy (st_user_id st); ev_actor_email := None;
                ev_resource_id := resource_id; ev_resource_label := None; ev_request_id := st_request_id st;
                ev_ip := rq_client_host r; ev_user_agent := rq_user_agent r;
                ev_payload_summary := Some [("method", JStr method); ("path", JStr (rq_path r)); ("status_code", JInt status_code)];
                ev_occurred_at := None |}
    end.

(** middleware/audit_middleware.py, [_append_async]: a session of its own on the
    committed tables, unless none can be opened; [now] and [row_id] are those of the
    append. *)
Definition _append_async (connects : bool) (now : datetime) (row_id : string) (ev : audit_event) (db : AuditDB) : AuditDB :=
  if connects then
    committed (snd ((let* _ := record_audit_event sha256 canonical_json_bytes column_ok now row_id ev in commit (E := audit_error))
                    (Session db db)))
  else db.

(** The rest of the stack: it answers a status code and leaves [request.state] filled,
    or raises, and writes to the tables. *)
Context {E : Type}.
Definition handler : Type := request -> AuditDB -> result E (Z * request_state) * AuditDB.

(** middleware/audit_middleware.py, [AuditMiddleware.dispatch] *)
Definition dispatch (connects : bool) (now : datetime) (row_id : string) (call_next : handler) (r : request) (db : AuditDB) :
    result E Z * AuditDB :=
  match call_next r db with
  | (Raise e, db) => (Raise e, db)
  | (Ok (status_code, st), db) =>
      (Ok status_code,
       match event_of r st status_code with
       | None => db
       | Some ev => _append_async connects now row_id ev db
       end)
  end.

(** ** Lemmas *)

Lemma append_async_outcome connects now row_id ev db : chains_wf sha256 canonical_json_bytes db ->
  let db' := _append_async connects now row_id ev db in
  db' = db \/ exists row, db' = {| tenants := tenants db; audit_trail := audit_trail db ++ [row] |} /\
    links_to sha256 canonical_json_bytes db row /\ tenant_id row = ev_tenant_id ev /\ id row = row_id.
Proof.
  intros Hwf. unfold _append_async. destruct connects; [|by left]. unfold bind.
  pose proof (record_outcome sha256 canonical_json_bytes column_ok now row_id ev (Session db db) Hwf) as Ho.
  destruct (record_audit_event _ _ _ _ _ _ _) as [[[row|]|e] s']; [| |done]; cbn in *.
  - destruct Ho as (Ht & Hi & Hl & ->). right. by exists row.
  - destruct Ho as [-> | ->]; by left.
Qed.

(** What is appended when the append is possible. *)
Lemma append_async_row now row_id ev db row s' :
  record_audit_event sha256 canonical_json_bytes column_ok now row_id ev (Session db db) = (Ok (Some row), s') ->
  chains_wf sha256 canonical_json_bytes db ->
  _append_async true now row_id ev db = {| tenants := tenants db; audit_trail := audit_trail db ++ [row] |}.
Proof.
  intros Hr Hwf. unfold _append_async, bind. rewrite Hr.
  pose proof (record_outcome sha256 canonical_json_bytes column_ok now row_id ev (Session db db) Hwf) as Ho.
  rewrite Hr in Ho. destruct Ho as (_ & _ & _ & ->). done.
Qed.

(** The event names the tenant of the request. *)
Lemma event_of_tenant r st status_code ev : event_of r st status_code = Some ev ->
  st_tenant_id st = Some (ev_tenant_id ev) /\ ev_tenant_id ev <> "" /\
  In (upper (rq_method r)) ["POST"; "PUT"; "PATCH"; "DELETE"].
Proof.
  unfold event_of. destruct (_should_skip _ _ _) eqn:Hs; [done|]. destruct (opt_truthy (st_tenant_id st)) as [t|] eqn:Ht; [|done].
  apply opt_truthy_Some in Ht as [Ht Hne%truthy_spec]. destruct (extract_resource _) as [rt ri]. intros [= <-]. cbn.
  split_and!; [done|done|]. unfold _should_skip in Hs. apply orb_false_iff in Hs as [Hv _]. apply negb_false_iff in Hv.
  assert (Hi : forall m, upper (upper m) = upper m).
  { intros m. unfold upper. rewrite smap_smap. apply smap_ext. intros c. destruct c as [[] [] [] [] [] [] [] []]; reflexivity. }
  rewrite Hi in Hv. destruct (dget (upper (rq_method r)) ACTION_VERBS) as [v|] eqn:Hd; [|done].
  assert (His : is_Some (dget (upper (rq_method r)) ACTION_VERBS)) by eauto. apply dget_keys in His. exact His.
Qed.
End Middleware.

(** ** Properties *)

(** C36. The middleware never changes what the rest of the stack answers or raises.  It adds
    at most one row to the audit trail, after everything the request itself has written;
    it adds none when the request raises, reads, is skipped or has no tenant; the row is
    linked to the tail of the chain of the request's tenant; and every chain that was
    well formed stays so, whatever fails. *)
Theorem middleware_adds_one_linked_row {E} sha256 canonical column_ok skip_prefixes connects now row_id
    (call_next : handler) r db (res : result E (Z * request_state)) db1 :
  call_next r db = (res, db1) -> chains_wf sha256 canonical db1 ->
  exists db2,
    dispatch sha256 canonical column_ok skip_prefixes connects now row_id call_next r db =
      (match res with Ok (status_code, _) => Ok status_code | Raise e => Raise e end, db2) /\
    chains_wf sha256 canonical db2 /\
    (db2 = db1 \/
     exists row status_code st, res = Ok (status_code, st) /\
       db2 = {| tenants := tenants db1; audit_trail := audit_trail db1 ++ [row] |} /\
       links_to sha256 canonical db1 row /\ st_tenant_id st = Some (tenant_id row) /\
       In (upper (rq_method r)) ["POST"; "PUT"; "PATCH"; "DELETE"] /\
       existsb (fun prefix => startswith prefix (rq_path r)) skip_prefixes = false).
Proof.
  intros Hcall Hwf. unfold dispatch. rewrite Hcall. destruct res as [[status_code st]|e]; [|by exists db1; auto].
  destruct (event_of skip_prefixes r st status_code) as [ev|] eqn:Hev; [|by exists db1; auto].
  eexists. split; [reflexivity|].
  destruct (append_async_outcome sha256 canonical column_ok connects now row_id ev db1 Hwf)
    as [-> |(row & -> & Hl & Ht & _)]; [by auto|].
  split; [by apply append_wf|]. right. exists row, status_code, st.
  pose proof (event_of_tenant _ _ _ _ _ Hev) as (Hst & _ & Hm). rewrite Ht. split_and!; try done.
  unfold event_of in Hev. destruct (_should_skip _ _ _) eqn:Hs; [done|]. by apply orb_false_iff in Hs as [_ ?].
Qed.

(** ** Runs *)

Module DemoAuditMiddleware.

Example resources :
  map extract_resource ["/v1/suppliers/s1"; "/v1/suppliers/s1/cois"; "/v1/loss-runs"; "/v1/audit/verify"; "/v1/new-things/7"; "/metrics"] =
    [("supplier", Some "s1"); ("supplier", Some "s1"); ("loss_run", None); ("audit", None); ("new_things", Some "7");
     ("http_request", None)].
Proof. vm_compute. reflexivity. Qed.

Definition post (path : string) : request :=
  {| rq_method := "post"; rq_path := path; rq_client_host := Some "10.0.0.1"; rq_user_agent := None; rq_operator_tenant := None |}.
Definition answers (status_code : Z) (tenant : option string) : handler (E := string) := fun _ db =>
  (Ok (status_code, {| st_tenant_id := tenant; st_user_id := Some "u1"; st_request_id := None |}), db).
Definition db0 : AuditDB := {| tenants := ["t1"]; audit_trail := [] |}.
Definition run (status_code : Z) (tenant : option string) (path : string) : result string Z * AuditDB :=
  dispatch demo_sha256 demo_canonical (fun _ => true) _DEFAULT_SKIP_PREFIXES true (utc 0) "row1" (answers status_code tenant) (post path) db0.
Definition trail (x : result string Z * AuditDB) : list (string * string * string * option string * Z) :=
  map (fun e => (tenant_id e, action_verb e, resource_type e, resource_id e, chain_position e)) (audit_trail (snd x)).

Example audited : trail (run 201 (Some "t1") "/v1/suppliers") = [("t1", "created", "supplier", None, 1)].
Proof. vm_compute. reflexivity. Qed.
Example not_audited :
  map trail [run 201 None "/v1/suppliers"; run 200 (Some "t1") "/v1/auth/login"; run 200 (Some "t1") "/webhooks/stripe"] = [[]; []; []].
Proof. vm_compute. reflexivity. Qed.

(** A refused request is recorded with the verb of one that was carried out. *)
Example refusal_is_recorded_as_created : trail (run 422 (Some "t1") "/v1/suppliers") = [("t1", "created", "supplier", None, 1)].
Proof. vm_compute. reflexivity. Qed.

(** An action on a record is recorded as the creation of the record. *)
Example retry_is_recorded_as_created :
  trail (run 200 (Some "t1") "/v1/submissions/x1/retry") = [("t1", "created", "submission", Some "x1", 1)].
Proof. vm_compute. reflexivity. Qed.

End DemoAuditMiddleware.

Lemma middleware_adds_one_linked_row_witness :
  exists db2, DemoAuditMiddleware.run 201 (Some "t1") "/v1/suppliers" = (Ok 201, db2) /\ chains_wf demo_sha256 demo_canonical db2.
Proof.
  destruct (middleware_adds_one_linked_row demo_sha256 demo_canonical (fun _ => true) _DEFAULT_SKIP_PREFIXES true (utc 0) "row1"
    (DemoAuditMiddleware.answers 201 (Some "t1")) (DemoAuditMiddleware.post "/v1/suppliers") DemoAuditMiddleware.db0
    (Ok (201, {| st_tenant_id := Some "t1"; st_user_id := Some "u1"; st_request_id := None |})) DemoAuditMiddleware.db0)
    as (db2 & Hd & Hwf & _); [reflexivity|intros tid; exact I|].
  exists db2. split; [exact Hd|exact Hwf].
Defined.
