(* ===== verification/Csv.v ===== *)
(** * CSV

    The default dialect of Python's [csv] module: the reader as the state machine of its C
    source, the writer with minimal quoting, and that what is written is read back.  The
    sanctions list is read and the audit export is written with them.  Versions of the
    interpreter differ in whether a writer whose line terminator is a line feed quotes a
    field for a carriage return: that is an argument of the writer. *)

From Stdlib Require Import Ascii.
From S2P Require Import Prelude PyStr.

(** ** csv.reader *)

Inductive csv_state : Type := START_RECORD | START_FIELD | IN_FIELD | IN_QUOTED_FIELD | QUOTE_IN_QUOTED_FIELD | EAT_CRNL.
#[export] Instance csv_state_eq_dec : EqDecision csv_state.
Proof. solve_decision. Defined.

(** The reader within a record: its state, the field being read and the fields read. *)
Record csv_reader : Type := { c_state : csv_state; c_field : string; c_fields : list string }.
Definition csv_start : csv_reader := {| c_state := START_RECORD; c_field := ""; c_fields := [] |}.

Definition quote : ascii := "034".
Definition newline : ascii := "010".
Definition carriage_return : ascii := "013".
Definition is_newline (c : ascii) : bool := Ascii.eqb c newline || Ascii.eqb c carriage_return.
Definition field_size_limit : nat := Z.to_nat 131072.

Definition add_char (st : csv_state) (c : ascii) (r : csv_reader) : result string csv_reader :=
  if (field_size_limit <=? String.length (c_field r))%nat then Raise "field larger than field limit (131072)"
  else Ok {| c_state := st; c_field := c_field r +:+ String c ""; c_fields := c_fields r |}.
Definition save_field (st : csv_state) (r : csv_reader) : csv_reader :=
  {| c_state := st; c_field := ""; c_fields := c_fields r ++ [c_field r] |}.
Definition in_state (st : csv_state) (r : csv_reader) : csv_reader :=
  {| c_state := st; c_field := c_field r; c_fields := c_fields r |}.

(** One character, or [None] for the end of a line the iterator gives. *)
Definition start_field (c : option ascii) (r : csv_reader) : result string csv_reader :=
  match c with
  | None => Ok (save_field START_RECORD r)
  | Some c =>
      if is_newline c then Ok (save_field EAT_CRNL r)
      else if Ascii.eqb c quote then Ok (in_state IN_QUOTED_FIELD r)
      else if Ascii.eqb c "," then Ok (save_field START_FIELD r)
      else add_char IN_FIELD c r
  end.
Definition process_char (c : option ascii) (r : csv_reader) : result string csv_reader :=
  match c_state r, c with
  | START_RECORD, None => Ok r
  | START_RECORD, Some d => if is_newline d then Ok (in_state EAT_CRNL r) else start_field c r
  | START_FIELD, _ => start_field c r
  | IN_FIELD, None => Ok (save_field START_RECORD r)
  | IN_FIELD, Some d =>
      if is_newline d then Ok (save_field EAT_CRNL r)
      else if Ascii.eqb d "," then Ok (save_field START_FIELD r)
      else add_char IN_FIELD d r
  | IN_QUOTED_FIELD, None => Ok r
  | IN_QUOTED_FIELD, Some d => if Ascii.eqb d quote then Ok (in_state QUOTE_IN_QUOTED_FIELD r) else add_char IN_QUOTED_FIELD d r
  | QUOTE_IN_QUOTED_FIELD, None => Ok (save_field START_RECORD r)
  | QUOTE_IN_QUOTED_FIELD, Some d =>
      if Ascii.eqb d quote then add_char IN_QUOTED_FIELD d r
      else if Ascii.eqb d "," then Ok (save_field START_FIELD r)
      else if is_newline d then Ok (save_field EAT_CRNL r)
      else add_char IN_FIELD d r
  | EAT_CRNL, None => Ok (in_state START_RECORD r)
  | EAT_CRNL, Some d => if is_newline d then Ok r else Raise "new-line character seen in unquoted field"
  end.

(** The records of a text: lines end at a line feed; [fresh] is whether nothing of the
    current line has been read. *)
Fixpoint csv_from (fresh : bool) (r : csv_reader) (s : string) : result string (list (list string)) :=
  let end_line r k :=
    match process_char None r with
    | Raise e => Raise e
    | Ok r => if bool_decide (c_state r = START_RECORD)
              then match k csv_start with Raise e => Raise e | Ok l => Ok (c_fields r :: l) end
              else k r
    end in
  match s with
  | EmptyString =>
      let stop r := if truthy (c_field r) || bool_decide (c_state r = IN_QUOTED_FIELD)
                    then Ok [c_fields r ++ [c_field r]] else Ok [] in
      if fresh then stop r else end_line r stop
  | String c s =>
      match process_char (Some c) r with
      | Raise e => Raise e
      | Ok r => if Ascii.eqb c newline then end_line r (fun r => csv_from true r s) else csv_from false r s
      end
  end.
Definition csv_rows (text : string) : result string (list (list string)) := csv_from true csv_start text.

(** ** csv.writer, with a line feed at the end of a row *)

Section Writer.
(** Whether the interpreter's writer quotes a field for a carriage return. *)
Context (quotes_cr : bool).

Definition needs_quotes (c : ascii) : bool :=
  Ascii.eqb c "," || Ascii.eqb c quote || Ascii.eqb c newline || (quotes_cr && Ascii.eqb c carriage_return).
Definition doubled (s : string) : string := replace_char quote (String quote (String quote "")) s.
Definition quote_field (f : string) : string :=
  if sany needs_quotes f then String quote (doubled f +:+ String quote "") else f.
Definition writerow (row : list string) : string :=
  match row with
  | [EmptyString] => String quote (String quote (String newline ""))
  | _ => join "," (map quote_field row) +:+ String newline ""
  end.
End Writer.

(** ** What is written is read back *)

(** The field of a reader at a state. *)
Definition reading (st : csv_state) (f : string) (fs : list string) : csv_reader :=
  {| c_state := st; c_field := f; c_fields := fs |}.
(** The field that has been read ends at the next comma or line feed. *)
Definition at_end (st : csv_state) : Prop := In st [START_FIELD; IN_FIELD; QUOTE_IN_QUOTED_FIELD].

Lemma fresh_irrelevant b b' r c s : csv_from b r (String c s) = csv_from b' r (String c s).
Proof. reflexivity. Qed.

Lemma add_char_ok st c r : (String.length (c_field r) < field_size_limit)%nat ->
  add_char st c r = Ok (reading st (c_field r +:+ String c "") (c_fields r)).
Proof. intros H. unfold add_char. by destruct (Nat.leb_spec field_size_limit (String.length (c_field r))); [lia|]. Qed.

Lemma cons_append (a : string) c s : (a +:+ String c "") +:+ s = a +:+ String c s.
Proof. by rewrite append_assoc. Qed.

Lemma end_comma b st f fs s : st = START_RECORD \/ at_end st -> (st = START_RECORD \/ st = START_FIELD -> f = "") ->
  csv_from b (reading st f fs) (String "," s) = csv_from false (reading START_FIELD "" (fs ++ [f])) s.
Proof.
  intros H Hf. assert (Hcases : st = START_RECORD \/ st = START_FIELD \/ st = IN_FIELD \/ st = QUOTE_IN_QUOTED_FIELD)
    by (unfold at_end in H; cbn in H; naive_solver).
  destruct Hcases as [-> |[-> |[-> | ->]]]; cbn; rewrite ?(Hf ltac:(auto)); reflexivity.
Qed.

Lemma end_row b st f fs s : at_end st -> (st = START_FIELD -> f = "") ->
  csv_from b (reading st f fs) (String newline s) =
    match csv_from true csv_start s with Raise e => Raise e | Ok l => Ok ((fs ++ [f]) :: l) end.
Proof.
  intros H Hf. assert (Hcases : st = START_FIELD \/ st = IN_FIELD \/ st = QUOTE_IN_QUOTED_FIELD)
    by (unfold at_end in H; cbn in H; naive_solver).
  destruct Hcases as [-> |[-> | ->]]; cbn; rewrite ?(Hf ltac:(auto)); reflexivity.
Qed.

(** The characters the reader gives a meaning to. *)
Definition special (c : ascii) : bool := Ascii.eqb c "," || Ascii.eqb c quote || is_newline c.

(** Any other character is read as it is. *)
Lemma plain_char b st f fs c s : special c = false -> st = START_RECORD \/ st = START_FIELD \/ st = IN_FIELD ->
  (String.length f < field_size_limit)%nat ->
  csv_from b (reading st f fs) (String c s) = csv_from false (reading IN_FIELD (f +:+ String c "") fs) s.
Proof.
  intros Hc Hst Hlen. unfold special in Hc. apply orb_false_iff in Hc as [[Hcomma Hq]%orb_false_iff Hn].
  assert (Hnl : Ascii.eqb c newline = false) by (unfold is_newline in Hn; by apply orb_false_iff in Hn as [? _]).
  cbn [csv_from]. unfold process_char, start_field.
  destruct Hst as [-> |[-> | ->]]; cbn [c_state reading]; rewrite ?Hn, ?Hq, ?Hcomma, add_char_ok by done; by rewrite Hnl.
Qed.

Lemma plain_run g s : sany special g = false -> forall b f fs, (String.length f + String.length g <= field_size_limit)%nat ->
  csv_from b (reading IN_FIELD f fs) (g +:+ s) = csv_from (if truthy g then false else b) (reading IN_FIELD (f +:+ g) fs) s.
Proof.
  induction g as [|c g IH]; intros Hg b f fs Hlen; [cbn; by rewrite append_nil_r|].
  cbn [sany] in Hg. apply orb_false_iff in Hg as [Hc Hg]. cbn [String.append String.length] in *.
  rewrite plain_char by (auto; lia). rewrite IH by (rewrite ?length_append; cbn; auto; lia). rewrite cons_append.
  cbn. by destruct (truthy g).
Qed.

(** Within quotes every character is read, a doubled quote as one. *)
Lemma quoted_run g c s : forall b f fs, (String.length f + String.length g <= field_size_limit)%nat ->
  csv_from b (reading IN_QUOTED_FIELD f fs) (doubled g +:+ String c s) =
    csv_from false (reading IN_QUOTED_FIELD (f +:+ g) fs) (String c s).
Proof.
  induction g as [|d g IH]; intros b f fs Hlen; [cbn [doubled replace_char]; rewrite append_nil_r; apply fresh_irrelevant|].
  cbn [String.length] in Hlen. assert (Hl : (String.length (f +:+ String d "") + String.length g <= field_size_limit)%nat)
    by (rewrite length_append; cbn; lia).
  unfold doubled. cbn [replace_char]. destruct (Ascii.eqb_spec quote d) as [<-|Hne].
  - cbn [String.append]. rewrite <- (cons_append f quote g), <- (IH false _ _ Hl). cbn. rewrite add_char_ok by (cbn; lia). reflexivity.
  - cbn [String.append]. rewrite <- (cons_append f d g), <- (IH (Ascii.eqb d newline) _ _ Hl). cbn [csv_from].
    unfold process_char. cbn [c_state reading].
    assert (Hd : Ascii.eqb d quote = false) by (apply Ascii.eqb_neq; congruence). rewrite Hd, add_char_ok by (cbn; lia).
    by destruct (Ascii.eqb d newline).
Qed.

Section RoundTrip.
Context (quotes_cr : bool).
Local Abbreviation quote_field := (quote_field quotes_cr).
Local Abbreviation writerow := (writerow quotes_cr).

(** A cell that can be read back: it is not longer than the reader's limit, and if it has a
    carriage return it is written in quotes, for this or another of its characters. *)
Definition cell_ok (f : string) : Prop :=
  (String.length f <= field_size_limit)%nat /\
  (sany (Ascii.eqb carriage_return) f = true -> sany (needs_quotes quotes_cr) f = true).
Definition row_ok (row : list string) : Prop := Forall cell_ok row.

Lemma unquoted_plain f :
  sany (needs_quotes quotes_cr) f = false -> sany (Ascii.eqb carriage_return) f = false -> sany special f = false.
Proof.
  induction f as [|c f IH]; cbn; [done|]. intros [Hc Hf]%orb_false_iff [Hr Hrf]%orb_false_iff.
  rewrite IH by done. rewrite orb_false_r. unfold needs_quotes in Hc. unfold special, is_newline.
  apply orb_false_iff in Hc as [[[H1 H2]%orb_false_iff H3]%orb_false_iff _]. rewrite H1, H2, H3. cbn.
  by rewrite Ascii.eqb_sym.
Qed.

(** A written field is read. *)
Lemma field_read b st fs f c s : st = START_RECORD \/ st = START_FIELD -> cell_ok f ->
  exists b' st', csv_from b (reading st "" fs) (quote_field f +:+ String c s) = csv_from b' (reading st' f fs) (String c s) /\
    (st' = st /\ f = "" \/ st' = IN_FIELD /\ f <> "" \/ st' = QUOTE_IN_QUOTED_FIELD).
Proof.
  intros Hst [Hlen Hcr]. unfold Csv.quote_field. destruct (sany (needs_quotes quotes_cr) f) eqn:Hq.
  - exists false, QUOTE_IN_QUOTED_FIELD. split; [|auto]. cbn [String.append]. rewrite append_assoc.
    transitivity (csv_from false (reading IN_QUOTED_FIELD "" fs) (doubled f +:+ String quote (String c s)));
      [by destruct Hst as [-> | ->]|]. rewrite quoted_run by done. reflexivity.
  - apply unquoted_plain in Hq; [|by apply not_true_iff_false; intros H; apply Hcr in H].
    destruct f as [|d f]; [exists b, st; auto|]. exists false, IN_FIELD. split; [|by auto].
    cbn [sany String.length String.append] in *. apply orb_false_iff in Hq as [Hd Hq].
    rewrite plain_char by (cbn; auto with lia; naive_solver). rewrite plain_run by (done || cbn; lia). cbn. by destruct (truthy f).
Qed.

Lemma fields_read row : forall b st fs s, st = START_FIELD \/ st = START_RECORD /\ row <> [""] -> row <> [] -> row_ok row ->
  csv_from b (reading st "" fs) (join "," (map quote_field row) +:+ String newline s) =
    match csv_from true csv_start s with Raise e => Raise e | Ok l => Ok ((fs ++ row) :: l) end.
Proof.
  induction row as [|f row IH]; intros b st fs s Hst Hne Hok; [done|]. inversion Hok as [|? ? Hf Hrow]; subst.
  assert (Hst' : st = START_RECORD \/ st = START_FIELD) by naive_solver.
  destruct row as [|g row].
  - cbn [map join]. destruct (field_read b st fs f newline s Hst' Hf) as (b' & st' & -> & Hcase).
    apply end_row; [|naive_solver]. unfold at_end. cbn. naive_solver.
  - cbn [map]. change (join "," (quote_field f :: quote_field g :: map quote_field row))
      with (quote_field f +:+ "," +:+ join "," (quote_field g :: map quote_field row)).
    rewrite append_assoc. cbn [String.append].
    destruct (field_read b st fs f "," (join "," (quote_field g :: map quote_field row) +:+ String newline s) Hst' Hf)
      as (b' & st' & -> & Hcase).
    rewrite end_comma; [|unfold at_end; cbn; naive_solver|naive_solver].
    change (quote_field g :: map quote_field row) with (map quote_field (g :: row)).
    rewrite IH by auto. by rewrite <- app_assoc.
Qed.

Lemma row_read row s : row_ok row ->
  csv_from true csv_start (writerow row +:+ s) =
    match csv_from true csv_start s with Raise e => Raise e | Ok l => Ok (row :: l) end.
Proof.
  intros Hok. destruct (decide (row = [""])) as [-> |Hne]; [reflexivity|]. destruct row as [|f row]; [reflexivity|].
  assert (Hw : writerow (f :: row) = join "," (map quote_field (f :: row)) +:+ String newline "") by (destruct f, row; done).
  rewrite Hw, append_assoc. apply (fields_read (f :: row) true START_RECORD []); auto.
Qed.

(** Python's reader reads what its writer writes. *)
Lemma csv_roundtrip rows : Forall row_ok rows -> csv_rows (foldr (fun row s => writerow row +:+ s) "" rows) = Ok rows.
Proof.
  unfold csv_rows. induction 1 as [|row rows Hrow _ IH]; [reflexivity|]. cbn [foldr]. by rewrite row_read, IH.
Qed.
End RoundTrip.
