(* ===== verification/Sanctions.v ===== *)
(** * Sanctions screening

    services/sanctions_service.py and workers/tasks/sanctions_tasks.py: the OFAC list as
    it is read from CSV, the cache of the process with its copy on disk, the refresh and
    the check of a name.  The
    download and the decoding of bytes above ASCII are arguments. *)

From Stdlib Require Import Ascii.
From S2P Require Import Prelude PyStr Encoding Csv.

(** ** The list *)

(** services/sanctions_service.py, [SanctionsEntry] *)
Record SanctionsEntry : Type := {
  source : string; sdn_id : string; name : string; name_lower : string; sdn_type : string; program : string;
  raw_ein : option string }.

(** services/sanctions_service.py, [SanctionsCache]; [loaded_at] is left out. *)
Record SanctionsCache : Type := {
  entries : list SanctionsEntry; names_lower : list string; eins : list string;
  source_url : option string; source_path : option string }.

(** services/sanctions_service.py, [reset_cache] *)
Definition reset_cache : SanctionsCache :=
  {| entries := []; names_lower := []; eins := []; source_url := None; source_path := None |}.

(** services/sanctions_service.py, [SanctionsCache.is_empty] *)
Definition is_empty (c : SanctionsCache) : bool := match entries c with [] => true | _ => false end.

(** services/sanctions_service.py, [SanctionsCache.replace] *)
Definition replace_cache (l : list SanctionsEntry) (url path : option string) : SanctionsCache :=
  {| entries := l; names_lower := map name_lower l; eins := omap (fun e => opt_truthy (raw_ein e)) l;
     source_url := url; source_path := path |}.

(** services/sanctions_service.py, [_normalize_name] *)
Definition _normalize_name (value : string) : string := join " " (split_ws (lower (strip value))).

(** services/sanctions_service.py, [_digits_only] *)
Definition _digits_only (value : option string) : option string :=
  match value with None => None | Some v => opt_truthy (Some (sfilter is_digit v)) end.

(** services/sanctions_service.py:128-148, [_parse_sdn_csv]: one row. *)
Definition cell (i : nat) (row : list string) : string := strip (default "" (row !! i)).
Definition entry_of (row : list string) : option SanctionsEntry :=
  let name := cell 1 row in
  let remarks := cell 11 row in
  if truthy name then
    Some {| source := "OFAC_SDN"; sdn_id := cell 0 row; name := name; name_lower := _normalize_name name;
            sdn_type := cell 2 row; program := cell 3 row;
            raw_ein := if contains "EIN" (upper remarks) then _digits_only (Some remarks) else None |}
  else None.

Section Service.
(** [raw_bytes.decode(...)] with [errors="replace"]. *)
Context (decode : bytes -> string).

(** services/sanctions_service.py, [_parse_sdn_csv]; [Raise] is an exception of the csv
    module. *)
Definition _parse_sdn_csv (raw_bytes : bytes) : result string (list SanctionsEntry) :=
  match csv_rows (decode raw_bytes) with
  | Raise e => Raise e
  | Ok rows => Ok (omap entry_of rows)
  end.

(** The process's cache and the file; [None] is a file that is not there, cannot be read
    or is empty. *)
Record World : Type := { cache : SanctionsCache; disk : option bytes }.

(** services/sanctions_service.py, [_load_from_disk] *)
Definition _load_from_disk (w : World) : option bytes := opt_truthy (disk w).

(** services/sanctions_service.py, [_write_to_disk]; [writable] is whether the system
    lets it. *)
Definition _write_to_disk (writable : bool) (payload : bytes) (w : World) : World :=
  if writable then {| cache := cache w; disk := Some payload |} else w.

(** services/sanctions_service.py, [refresh_ofac_sdn_list]; [fetch] is
    [_should_fetch_network()], [download] the answer of [_download_sdn_csv]. *)
Definition refresh_ofac_sdn_list (fetch writable : bool) (download : option bytes) (url path : string) (w : World) : Z * World :=
  let '(payload, w) :=
    match (if fetch then download else None) with
    | Some p => (Some p, _write_to_disk writable p w)
    | None => (_load_from_disk w, w)
    end in
  match payload with
  | None => (0, w)
  | Some p =>
      match _parse_sdn_csv p with
      | Raise _ => (0, w)
      | Ok l => (Z.of_nat (length l), {| cache := replace_cache l (Some url) (Some path); disk := disk w |})
      end
  end.

(** services/sanctions_service.py, [is_sanctioned] *)
Definition is_sanctioned (c : SanctionsCache) (legal_name : string) (ein : option string) : bool :=
  if negb (truthy legal_name) && negb (is_someb (opt_truthy ein)) then false
  else if is_empty c then false
  else
    (match opt_truthy ein with
     | Some e => match _digits_only (Some e) with Some d => mem d (eins c) | None => false end
     | None => false
     end)
    || (truthy legal_name &&
        let needle := _normalize_name legal_name in
        truthy needle && existsb (fun name_lower => contains needle name_lower || contains name_lower needle) (names_lower c)).
End Service.

(** workers/tasks/sanctions_tasks.py, [refresh_ofac_task]: the status and the count; the
    refresh does not raise. *)
Definition refresh_ofac_task (refresh : World -> Z * World) (w : World) : (string * Z) * World :=
  let '(count, w) := refresh w in (("ok", count), w).

(** ** Lemmas *)

Lemma contains_refl s : contains s s = true.
Proof. apply contains_spec. exists "", "". by rewrite append_nil_r. Qed.

Lemma entry_of_name row e : entry_of row = Some e ->
  sany non_space (name e) = true /\ name_lower e = _normalize_name (name e).
Proof.
  unfold entry_of. destruct (truthy (cell 1 row)) eqn:Ht; [|done]. intros [= <-]. cbn. split; [|done]. by apply strip_nonempty.
Qed.

Lemma normalize_name_truthy s : sany non_space s = true -> truthy (_normalize_name s) = true.
Proof.
  intros H. unfold _normalize_name. set (t := lower (strip s)).
  assert (Ht : sany non_space t = true) by (unfold t; rewrite lower_non_space; by apply strip_non_space).
  pose proof (split_ws_nonempty t Ht) as Hne. pose proof (split_ws_truthy t "") as Hall. fold (split_ws t) in Hall.
  destruct (split_ws t) as [|x ws] eqn:Hs; [done|]. apply join_truthy. by inversion Hall.
Qed.

Lemma non_space_truthy s : sany non_space s = true -> truthy s = true.
Proof. by destruct s. Qed.

Lemma omap_elem {A B} (f : A -> option B) l y : In y (omap f l) -> exists x, In x l /\ f x = Some y.
Proof. rewrite <- !list_elem_of_In, list_elem_of_omap. intros (x & ? & ?). exists x. by rewrite <- list_elem_of_In. Qed.

(** A party of the list is found by its name, with or without an EIN. *)
Lemma listed_name_found decode payload l url path e ein :
  _parse_sdn_csv decode payload = Ok l -> In e l -> is_sanctioned (replace_cache l url path) (name e) ein = true.
Proof.
  unfold _parse_sdn_csv. destruct (csv_rows _) as [rows|]; [|done]. intros [= <-] He.
  pose proof He as (row & _ & Hrow)%omap_elem. apply entry_of_name in Hrow as [Hns Hlow].
  unfold is_sanctioned. rewrite (non_space_truthy _ Hns). cbn [negb andb].
  assert (Hem : is_empty (replace_cache (omap entry_of rows) url path) = false) by (cbn; by destruct (omap entry_of rows)).
  rewrite Hem. apply orb_true_iff. right. rewrite (normalize_name_truthy _ Hns). cbn [andb replace_cache names_lower].
  apply existsb_exists. exists (name_lower e). split; [by apply in_map|]. rewrite Hlow, contains_refl. done.
Qed.

(** ** Properties *)

(** A refresh never raises and never leaves a cache that is neither the old one nor the
    list it read: either it answers 0 and the cache is as before, or it answers the number
    of parties of the payload it downloaded, or found on disk when nothing was downloaded,
    the cache holds exactly those parties, and each of them is found by its name. *)
Theorem refresh_replaces_or_keeps decode fetch writable download url path w :
  let '(count, w') := refresh_ofac_sdn_list decode fetch writable download url path w in
  count = 0 /\ cache w' = cache w \/
  exists payload l,
    match (if fetch then download else None) with Some p => payload = p | None => disk w = Some payload end /\
    _parse_sdn_csv decode payload = Ok l /\ count = Z.of_nat (length l) /\ entries (cache w') = l /\
    forall e ein, In e l -> is_sanctioned (cache w') (name e) ein = true.
Proof.
  unfold refresh_ofac_sdn_list, _load_from_disk. set (got := if fetch then download else None).
  destruct got as [p|] eqn:Hgot.
  - assert (Hc : cache (_write_to_disk writable p w) = cache w) by (by destruct writable).
    destruct (_parse_sdn_csv decode p) as [l|e] eqn:Hp; [|by left]. right. exists p, l. cbn. split_and!; try done.
    intros e ein He. by eapply listed_name_found.
  - destruct (opt_truthy (disk w)) as [p|] eqn:Hd; [|by left]. apply opt_truthy_Some in Hd as [Hd _].
    destruct (_parse_sdn_csv decode p) as [l|e] eqn:Hp; [|by left]. right. exists p, l. cbn. split_and!; try done.
    intros e ein He. by eapply listed_name_found.
Qed.

(** ** Runs *)

Module DemoSanctions.

Definition q : string := String quote "".
Definition crlf : string := String "013" (String "010" "").
Definition quoted (s : string) : string := q +:+ s +:+ q.

(** Quotes, doubled quotes, a comma and a line break within quotes, an empty line, and a
    last line without an end. *)
Example csv_read :
  csv_rows ("36," +:+ quoted ("ACME, " +:+ q +:+ q +:+ "X" +:+ q +:+ q) +:+ ",-0- " +:+ crlf +:+ crlf +:+ quoted ("a" +:+ String "010" "b") +:+ ",c") =
    Ok [["36"; "ACME, " +:+ q +:+ "X" +:+ q; "-0- "]; []; ["a" +:+ String "010" "b"; "c"]].
Proof. vm_compute. reflexivity. Qed.
Example csv_refuses : csv_rows ("a" +:+ String "013" "b") = Raise "new-line character seen in unquoted field".
Proof. vm_compute. reflexivity. Qed.

Definition row (name remarks : string) : string :=
  "7," +:+ quoted name +:+ ",individual,CUBA,-0- ,-0- ,-0- ,-0- ,-0- ,-0- ,-0- ," +:+ quoted remarks +:+ crlf.
Definition list_csv : string := row "AEROCARIBBEAN  AIRLINES" "-0- " +:+ row "Banco Nacional" "DOB 1960; EIN 12-3456789".
Definition empty_world : World := {| cache := reset_cache; disk := None |}.
Definition refresh (download : option string) (w : World) : Z * World :=
  refresh_ofac_sdn_list (fun b => b) true true download "https://x" "/c.csv" w.
Definition loaded : World := snd (refresh (Some list_csv) empty_world).

Example names_are_found :
  map (fun n => is_sanctioned (cache loaded) n None) ["aerocaribbean airlines"; "Aerocaribbean Airlines Ltd"; "Honest Brokers"] =
    [true; true; false].
Proof. vm_compute. reflexivity. Qed.

(** The digits of all the remarks are taken for the EIN, so an EIN next to a date is
    never found. *)
Example ein_is_not_found : eins (cache loaded) = ["1960123456789"] /\ is_sanctioned (cache loaded) "" (Some "12-3456789") = false.
Proof. vm_compute. split; reflexivity. Qed.

(** Any letter of a listed name is a hit. *)
Example one_letter_is_a_hit : is_sanctioned (cache loaded) "b" None = true.
Proof. vm_compute. reflexivity. Qed.

(** An answer without a list, empty or a page of HTML, replaces the list in memory and on
    disk: nobody is sanctioned any more. *)
Example empty_answer_wipes_the_list :
  let '(count, w) := refresh (Some "<html>Service unavailable</html>") loaded in
  count = 0 /\ is_empty (cache w) = true /\ disk w = Some "<html>Service unavailable</html>" /\
  is_sanctioned (cache w) "aerocaribbean airlines" None = false.
Proof. vm_compute. auto. Qed.

(** A download that does not parse has already replaced the copy on disk; the copy is not
    read. *)
Example unparsable_answer_loses_the_copy :
  let '(count, w) := refresh (Some ("a" +:+ String "013" "b")) {| cache := reset_cache; disk := Some list_csv |} in
  count = 0 /\ is_empty (cache w) = true /\ disk w = Some ("a" +:+ String "013" "b").
Proof. vm_compute. auto. Qed.

End DemoSanctions.
