(* ===== verification/EvidenceExport.v ===== *)
(** * Audit evidence

    services/audit_export_service.py and the audit endpoints of api/cockpit/compliance.py:
    the rows of one tenant in a window of time, read in pages, written as JSON lines or
    CSV, and the listing of the daily digests.  [Bundle] is
    backend/scripts/soc2_evidence_export.py, the program that collects the evidence of a
    tenant from the cockpit and packs it with a manifest.  [json.dumps], SHA-256, the HTTP
    client and the zip writer are arguments. *)

From Stdlib Require Import Ascii.
From S2P Require Import Prelude PyStr Json Encoding PyTime Crypto AuditDigest Accounts Csv.

(** services/audit_export_service.py, [PAGE_SIZE] *)
Definition PAGE_SIZE : nat := 500.

(** services/audit_export_service.py, [_ensure_utc] *)
Definition _ensure_utc (dt : datetime) : datetime :=
  match tzinfo dt with None => Datetime (wall dt) (Some 0) | Some _ => astimezone_utc dt end.

(** services/audit_export_service.py:84-86, [iter_audit_rows]: the rows of the tenant in
    the window. *)
Definition in_window (tenant_id : string) (start end_ : datetime) (r : AuditLog) : bool :=
  bool_decide (al_tenant_id r = Some tenant_id) && (instant (_ensure_utc start) <=? instant (al_occurred_at r)) &&
  (instant (al_occurred_at r) <? instant (_ensure_utc end_)).

(** services/audit_export_service.py:90-99, [iter_audit_rows]: [(last_at, last_id)], and
    the rows after it. *)
Definition cursor : Type := option (Z * string).
Definition after_cursor (c : cursor) (r : AuditLog) : bool :=
  match c with
  | None => true
  | Some (last_at, last_id) =>
      (last_at <? instant (al_occurred_at r)) ||
      ((instant (al_occurred_at r) =? last_at) && negb (String.leb (al_id r) last_id))
  end.

(** services/audit_export_service.py, [count_audit_rows] *)
Definition count_audit_rows (audit_logs : list AuditLog) (tenant_id : string) (start end_ : datetime) : Z :=
  Z.of_nat (length (List.filter (in_window tenant_id start end_) audit_logs)).

(** services/audit_export_service.py, [iter_audit_rows]: the rows it yields when the
    [n]-th query finds the table [reads n], which other sessions write in between; [None]
    is a loop that is not over after [fuel] pages. *)
Fixpoint iter_pages (reads : nat -> list AuditLog) (tenant_id : string) (start end_ : datetime) (page_size fuel n : nat) (c : cursor) :
    option (list AuditLog) :=
  match fuel with
  | O => None
  | S fuel =>
      let rows := take page_size (isort oldest_first
        (List.filter (fun r => in_window tenant_id start end_ r && after_cursor c r) (reads n))) in
      match last rows with
      | None => Some []
      | Some r =>
          if (length rows <? page_size)%nat then Some rows
          else
            match iter_pages reads tenant_id start end_ page_size fuel (S n) (Some (instant (al_occurred_at r), al_id r)) with
            | Some more => Some (rows ++ more)
            | None => None
            end
      end
  end.
Definition iter_audit_rows (reads : nat -> list AuditLog) (tenant_id : string) (start end_ : datetime) (page_size fuel : nat) :
    option (list AuditLog) :=
  iter_pages reads tenant_id start end_ page_size fuel 0 None.

Section Files.
(** [json.dumps(..., separators=(",", ":"), sort_keys=True)] *)
Context (json_dumps : json -> string).
(** Whether the interpreter's [csv.writer] quotes a carriage return; see the file Csv. *)
Context (quotes_cr : bool).

(** services/audit_export_service.py, [to_jsonl_bytes], of the rows it iterates over. *)
Definition to_jsonl_bytes (rows : list AuditLog) : bytes :=
  foldr (fun row buf => json_dumps (AuditDigest.row_to_dict row) +:+ String newline buf) "" rows.

(** services/audit_export_service.py, [_CSV_COLUMNS] *)
Definition _CSV_COLUMNS : list string :=
  ["id"; "tenant_id"; "actor_user_id"; "action"; "resource_type"; "resource_id"; "ip_address"; "occurred_at"; "metadata_json"].

(** services/audit_export_service.py:186-199, [to_csv_bytes]: the cells of a row. *)
Definition cell (data : json) (k : string) : string := match jget k data with Some (JStr s) => s | _ => "" end.
Definition csv_cells (row : AuditLog) : list string :=
  let data := AuditDigest.row_to_dict row in
  map (cell data) ["id"; "tenant_id"; "actor_user_id"; "action"; "resource_type"; "resource_id"; "ip_address"; "occurred_at"] ++
  [match default JNull (jget "metadata_json" data) with JNull => "" | m => json_dumps m end].

(** services/audit_export_service.py, [to_csv_bytes], of the rows it iterates over. *)
Definition to_csv_bytes (rows : list AuditLog) : bytes :=
  foldr (fun row buf => writerow quotes_cr row +:+ buf) "" (_CSV_COLUMNS :: map csv_cells rows).

(** ** The endpoints *)

(** api/cockpit/compliance.py, [_MAX_EXPORT_WINDOW_DAYS] *)
Definition _MAX_EXPORT_WINDOW_DAYS : Z := 366.

(** api/cockpit/compliance.py, [_validate_window] *)
Definition _validate_window (start end_ : datetime) : result web_error (datetime * datetime) :=
  let start := coerce_utc start in
  let end_ := coerce_utc end_ in
  if instant end_ <=? instant start then Raise (HTTPException 422 "invalid_window")
  else if _MAX_EXPORT_WINDOW_DAYS <? (instant end_ - instant start) / us_per_day then Raise (HTTPException 422 "window_too_large")
  else Ok (start, end_).

(** api/cockpit/compliance.py, [_ensure_tenant_exists] *)
Definition _ensure_tenant_exists (db : DigestDB) (tenant_id : string) : result web_error unit :=
  if mem tenant_id (dg_tenants db) then Ok tt else Raise (HTTPException 404 "tenant_not_found").

(** What [Query] checks of a tenant id. *)
Definition valid_tenant_id (tenant_id : string) : bool := truthy tenant_id && (slen tenant_id <=? 36).

(** api/cockpit/compliance.py, [export_audit_logs]: the body; the operator is a founder.
    [reads] are the tables the pages are read from. *)
Inductive export_format : Type := Jsonl | CsvFile.
Definition export_audit_logs (db : DigestDB) (reads : nat -> list AuditLog) (fuel : nat) (tenant_id : string) (start end_ : datetime)
    (format : export_format) : option (result web_error bytes) :=
  if negb (valid_tenant_id tenant_id) then Some (Raise (HTTPException 422 "validation_error"))
  else
    match _validate_window start end_ with
    | Raise e => Some (Raise e)
    | Ok (start, end_) =>
        match _ensure_tenant_exists db tenant_id with
        | Raise e => Some (Raise e)
        | Ok _ =>
            match iter_audit_rows reads tenant_id start end_ PAGE_SIZE fuel with
            | None => None
            | Some rows => Some (Ok (match format with CsvFile => to_csv_bytes rows | Jsonl => to_jsonl_bytes rows end))
            end
        end
    end.

(** api/cockpit/compliance.py, [list_audit_hash_digests]: the total and the page, the
    newest day first; [limit] is from 1 to 500. *)
Definition list_audit_hash_digests (db : DigestDB) (tenant_id : string) (limit offset : nat) :
    result web_error (Z * list AuditHashDigest) :=
  if negb (valid_tenant_id tenant_id) || negb ((1 <=? limit)%nat && (limit <=? 500)%nat) then Raise (HTTPException 422 "validation_error")
  else
    match _ensure_tenant_exists db tenant_id with
    | Raise e => Raise e
    | Ok _ =>
        let rows := List.filter (fun d => String.eqb (dg_tenant_id d) tenant_id) (audit_hash_digests db) in
        Ok (Z.of_nat (length rows), take limit (drop offset (sort_by (fun d => - covers_date d) rows)))
    end.
End Files.

(** ** Lemmas: the order of the rows *)

(** [x] comes strictly before [y]. *)
Definition before : AuditLog -> AuditLog -> Prop := strictly oldest_first.
Definition unique_ids (l : list AuditLog) : Prop := NoDup (map al_id l).
Definition audit_key (r : AuditLog) : Z * string := (instant (al_occurred_at r), al_id r).

Lemma oldest_first_total x y : oldest_first x y = true \/ oldest_first y x = true.
Proof. exact (key_le_total (audit_key x) (audit_key y)). Qed.

Lemma oldest_first_trans x y z : oldest_first x y = true -> oldest_first y z = true -> oldest_first x z = true.
Proof. exact (key_le_trans (audit_key x) (audit_key y) (audit_key z)). Qed.

#[local] Instance before_order : StrictOrder before.
Proof. exact (strictly_order oldest_first oldest_first_total oldest_first_trans). Qed.

Lemma after_cursor_before x y : after_cursor (Some (instant (al_occurred_at x), al_id x)) y = true <-> before x y.
Proof.
  unfold before, strictly, after_cursor, oldest_first.
  destruct (Z.ltb_spec (instant (al_occurred_at x)) (instant (al_occurred_at y))),
    (Z.eqb_spec (instant (al_occurred_at y)) (instant (al_occurred_at x))),
    (Z.ltb_spec (instant (al_occurred_at y)) (instant (al_occurred_at x))); try lia; cbn; try done;
    by destruct (String.leb (al_id y) (al_id x)).
Qed.

Lemma unique_filter f l : unique_ids l -> unique_ids (List.filter f l).
Proof. apply NoDup_map_filter. Qed.

(** Rows with different ids, sorted, are strictly sorted. *)
Lemma sorted_rows l : unique_ids l -> StronglySorted before (isort oldest_first l).
Proof.
  apply (isort_strict _ oldest_first_total oldest_first_trans al_id). intros x y. exact (key_le_antisym (audit_key x) (audit_key y)).
Qed.

(** ** Lemmas: the pages *)

Section Pages.
Context (reads : nat -> list AuditLog) (tenant_id : string) (start end_ : datetime) (page_size : nat).
Hypothesis unique : forall n, unique_ids (reads n).
Local Abbreviation window := (in_window tenant_id start end_).
Local Abbreviation pages := (iter_pages reads tenant_id start end_ page_size).
(** What is left to read at the [n]-th query. *)
Local Abbreviation left_at n c := (isort oldest_first (List.filter (fun r => window r && after_cursor c r) (reads n))).

Lemma left_sorted n c : StronglySorted before (left_at n c).
Proof. by apply sorted_rows, unique_filter. Qed.

Lemma left_In n c r : In r (left_at n c) <-> In r (reads n) /\ window r = true /\ after_cursor c r = true.
Proof. by rewrite isort_In, filter_In, andb_true_iff. Qed.

(** The rows of a page, and what is left after it. *)
Lemma page_split n c r :
  last (take page_size (left_at n c)) = Some r ->
  StronglySorted before (take page_size (left_at n c)) /\ In r (left_at n c) /\
  (forall x, In x (take page_size (left_at n c)) -> x = r \/ before x r) /\
  (forall x, In x (left_at n c) -> In x (take page_size (left_at n c)) \/ before r x).
Proof.
  intros Hr. pose proof (left_sorted n c) as Hs. rewrite <- (take_drop page_size (left_at n c)) in Hs.
  apply sorted_app_inv in Hs as (Ht & _ & Hcross). pose proof (last_In _ _ Hr) as Hin.
  assert (Hall : forall x, In x (take page_size (left_at n c)) -> In x (left_at n c)).
  { intros x Hx. rewrite <- (take_drop page_size (left_at n c)). apply in_app_iff. by left. }
  split_and!; [done|by apply Hall|intros x Hx; by apply (sorted_last before (take page_size (left_at n c)) r x)|].
  intros x Hx. rewrite <- (take_drop page_size (left_at n c)) in Hx. apply in_app_iff in Hx as [Hx|Hx]; [by left|].
  right. by apply Hcross.
Qed.

Lemma after_trans c r x : after_cursor c r = true -> before r x -> after_cursor c x = true.
Proof.
  destruct c as [[at_ i]|]; [|done]. intros Hr Hx. set (p := {| al_id := i; al_tenant_id := None; actor_user_id := None; action := "";
    al_resource_type := ""; al_resource_id := None; metadata_json := None; ip_address := None; al_occurred_at := utc at_ |}).
  assert (Hc : Some (at_, i) = Some (instant (al_occurred_at p), al_id p)) by (unfold instant; cbn; do 2 f_equal; lia).
  rewrite Hc, after_cursor_before in *. by transitivity r.
Qed.

(** Every row is yielded once, in order, and is one some query found. *)
Lemma pages_sound fuel : forall n c out, pages fuel n c = Some out ->
  StronglySorted before out /\
  forall r, In r out -> after_cursor c r = true /\ window r = true /\ exists m, (n <= m)%nat /\ In r (reads m).
Proof.
  induction fuel as [|fuel IH]; intros n c out; cbn [iter_pages]; [done|]. set (rows := take page_size (left_at n c)).
  assert (Hrows : forall r, In r rows -> after_cursor c r = true /\ window r = true /\ exists m, (n <= m)%nat /\ In r (reads m)).
  { intros r Hr. assert (Hl : In r (left_at n c)) by (rewrite <- (take_drop page_size (left_at n c)); apply in_app_iff; by left).
    apply left_In in Hl as (? & ? & ?). split_and!; [done|done|]. by exists n. }
  destruct (last rows) as [r|] eqn:Hr; [|intros [= <-]; split; [constructor|done]].
  destruct (page_split n c r Hr) as (Hs & Hin & Hle & _). fold rows in Hs, Hle.
  destruct (length rows <? page_size)%nat; [intros [= <-]; by split|].
  destruct (pages fuel (S n) _) as [more|] eqn:Hm; [|done]. intros [= <-]. apply IH in Hm as [Hms Hmin]. split.
  - apply app_sorted; [done|done|]. intros x y Hx Hy. destruct (Hmin y Hy) as [Hry _]. apply after_cursor_before in Hry.
    destruct (Hle x Hx) as [-> |]; [done|]. by transitivity r.
  - intros x [Hx|Hx]%in_app_iff; [by apply Hrows|]. destruct (Hmin x Hx) as (Ha & Hw & m & Hnm & Hm).
    apply after_cursor_before in Ha. apply left_In in Hin as (_ & _ & Hcr).
    split_and!; [by apply (after_trans c r)|done|]. exists m. split; [lia|done].
Qed.

(** No row that stays in the table is missed. *)
Lemma pages_complete fuel (grows : forall n r, In r (reads n) -> In r (reads (S n))) (Hps : page_size <> 0%nat) :
  forall n c out, pages fuel n c = Some out ->
  forall r, In r (reads n) -> window r = true -> after_cursor c r = true -> In r out.
Proof.
  induction fuel as [|fuel IH]; intros n c out; cbn [iter_pages]; [done|]. intros Hout x Hx Hw Ha.
  assert (Hl : In x (left_at n c)) by (by apply left_In).
  set (rows := take page_size (left_at n c)) in *. destruct (last rows) as [r|] eqn:Hr.
  - destruct (page_split n c r Hr) as (_ & _ & _ & Hrest). fold rows in Hrest.
    destruct (Nat.ltb_spec (length rows) page_size) as [Hlt|].
    + injection Hout as <-. unfold rows in *. rewrite length_take in Hlt. rewrite take_ge by lia. done.
    + destruct (pages fuel (S n) _) as [more|] eqn:Hm; [|done]. injection Hout as <-. apply in_app_iff.
      destruct (Hrest x Hl) as [?|Hbx]; [by left|]. right. eapply (IH _ _ _ Hm); [by apply grows|done|]. by apply after_cursor_before.
  - apply last_None in Hr. unfold rows in Hr. destruct (left_at n c); [done|]. by destruct page_size.
Qed.

(** When the table does not change, the loop is over after one page more than rows. *)
Lemma pages_total (still : forall n, reads n = reads 0%nat) : forall fuel n c,
  (length (left_at n c) < fuel)%nat -> exists out, pages fuel n c = Some out.
Proof.
  induction fuel as [|fuel IH]; intros n c Hlen; [lia|]. cbn [iter_pages]. set (rows := take page_size (left_at n c)).
  destruct (last rows) as [r|] eqn:Hr; [|by eexists]. destruct (length rows <? page_size)%nat; [by eexists|].
  destruct (page_split n c r Hr) as (_ & Hin & Hle & _). fold rows in Hle.
  set (c' := Some (instant (al_occurred_at r), al_id r)).
  destruct (IH (S n) c') as [more ->]; [|by eexists]. apply Nat.lt_le_trans with (length (left_at n c)); [|lia].
  apply left_In in Hin as (Hr0 & Hrw & Hrc).
  assert (Hincl : incl (r :: left_at (S n) c') (left_at n c)).
  { intros x [<-|Hx]; [by apply left_In|]. apply left_In in Hx as (Hx & Hw & Ha). apply after_cursor_before in Ha.
    apply left_In. rewrite (still n), <- (still (S n)). split_and!; [done|done|]. by apply (after_trans c r). }
  apply NoDup_incl_length in Hincl; [cbn [length] in Hincl; lia|]. apply NoDup_ListNoDup, NoDup_cons.
  split; [|apply (strict_NoDup before), left_sorted]. rewrite list_elem_of_In. intros Hx%left_In. destruct Hx as (_ & _ & Ha).
  apply after_cursor_before in Ha. by apply (irreflexivity before) in Ha.
Qed.
End Pages.

Lemma instant_ensure_utc d : instant (_ensure_utc d) = instant d.
Proof. unfold _ensure_utc, astimezone_utc. destruct d as [w [o|]]; unfold instant; cbn; lia. Qed.
Lemma instant_coerce_utc d : instant (coerce_utc d) = instant d.
Proof. by destruct d as [w [o|]]. Qed.

(** The pages of a table that does not change are its rows in the window, in order. *)
Lemma iter_audit_rows_still table tenant_id start end_ page_size fuel : unique_ids table -> page_size <> 0%nat ->
  (length table < fuel)%nat ->
  iter_audit_rows (fun _ => table) tenant_id start end_ page_size fuel =
    Some (isort oldest_first (List.filter (in_window tenant_id start end_) table)).
Proof.
  intros Hu Hps Hfuel. unfold iter_audit_rows.
  destruct (pages_total (fun _ => table) tenant_id start end_ page_size (fun _ => Hu) (fun _ => eq_refl) fuel 0 None) as [out Hout].
  { rewrite (Permutation_length (isort_perm _ _)). eapply Nat.le_lt_trans; [|exact Hfuel].
    pose proof (List.filter_length_le (fun r => in_window tenant_id start end_ r && after_cursor None r) table). lia. }
  rewrite Hout. f_equal. destruct (pages_sound _ _ _ _ _ (fun _ => Hu) _ _ _ _ Hout) as [Hs Hin].
  apply (strict_unique before); [done|by apply sorted_rows, unique_filter|]. intros r. rewrite isort_In, filter_In. split.
  - intros Hr. destruct (Hin r Hr) as (_ & Hw & m & _ & Hm). done.
  - intros [Hr Hw]. by eapply (pages_complete _ _ _ _ _ (fun _ => Hu) fuel (fun _ _ H => H) Hps _ _ _ Hout).
Qed.

Lemma csv_file json_dumps quotes_cr rows : Forall (row_ok quotes_cr) (map (csv_cells json_dumps) rows) ->
  csv_rows (to_csv_bytes json_dumps quotes_cr rows) = Ok (_CSV_COLUMNS :: map (csv_cells json_dumps) rows).
Proof.
  intros H. unfold to_csv_bytes. apply csv_roundtrip. constructor; [|done].
  assert (Hlimit : (13 <= field_size_limit)%nat) by (unfold field_size_limit; lia).
  apply List.Forall_forall. intros f Hf.
  assert (Hall : forallb (fun f => (String.length f <=? 13)%nat && negb (sany (Ascii.eqb carriage_return) f)) _CSV_COLUMNS = true)
    by reflexivity.
  rewrite forallb_forall in Hall. apply Hall, andb_true_iff in Hf as [Hlen%Nat.leb_le Hcr%negb_true_iff].
  split; [lia|]. by rewrite Hcr.
Qed.

(** Why an export is refused. *)
Definition export_refused (db : DigestDB) (tenant_id : string) (start end_ : datetime) : option web_error :=
  if negb (valid_tenant_id tenant_id) then Some (HTTPException 422 "validation_error")
  else if instant end_ <=? instant start then Some (HTTPException 422 "invalid_window")
  else if days 367 <=? instant end_ - instant start then Some (HTTPException 422 "window_too_large")
  else if mem tenant_id (dg_tenants db) then None else Some (HTTPException 404 "tenant_not_found").

Lemma validate_window_spec start end_ :
  _validate_window start end_ =
    if instant end_ <=? instant start then Raise (HTTPException 422 "invalid_window")
    else if days 367 <=? instant end_ - instant start then Raise (HTTPException 422 "window_too_large")
    else Ok (coerce_utc start, coerce_utc end_).
Proof.
  unfold _validate_window. rewrite !instant_coerce_utc. destruct (_ <=? _); [done|].
  destruct (Z.ltb_spec _MAX_EXPORT_WINDOW_DAYS ((instant end_ - instant start) / us_per_day)) as [H|H],
    (Z.leb_spec (days 367) (instant end_ - instant start)) as [H'|H']; try done; exfalso;
    unfold _MAX_EXPORT_WINDOW_DAYS, days, us_per_day in *.
  - pose proof (Z.mul_div_le (instant end_ - instant start) 86400000000). lia.
  - assert (367 <= (instant end_ - instant start) / 86400000000) by (apply Z.div_le_lower_bound; lia). lia.
Qed.

(** ** Properties *)

(** C33. Reading in pages is reading at once: of a table that does not change meanwhile, and
    whose ids are distinct, an export that is not refused ends, and its file is that of exactly the
    tenant's rows in the window, each once, from the oldest to the newest;
    [count_audit_rows] is their number.  Python's CSV reader reads the CSV file back as the
    header and those rows, provided that no cell is longer than the reader's limit of
    131072 characters (the metadata of a row has no bound of its own) and that a cell with
    a carriage return is written in quotes - which the writer of some versions of the
    interpreter does only when the cell has a comma, a quote or a line feed as well. *)
Theorem evidence_export_is_complete json_dumps quotes_cr db tenant_id start end_ format fuel :
  unique_ids (audit_logs db) -> (length (audit_logs db) < fuel)%nat ->
  let rows := isort oldest_first (List.filter (in_window tenant_id start end_) (audit_logs db)) in
  export_audit_logs json_dumps quotes_cr db (fun _ => audit_logs db) fuel tenant_id start end_ format =
    Some (match export_refused db tenant_id start end_ with
          | Some e => Raise e
          | None => Ok (match format with
                        | CsvFile => to_csv_bytes json_dumps quotes_cr rows
                        | Jsonl => to_jsonl_bytes json_dumps rows
                        end)
          end) /\
  StronglySorted before rows /\ Z.of_nat (length rows) = count_audit_rows (audit_logs db) tenant_id start end_ /\
  (Forall (row_ok quotes_cr) (map (csv_cells json_dumps) rows) ->
   csv_rows (to_csv_bytes json_dumps quotes_cr rows) = Ok (_CSV_COLUMNS :: map (csv_cells json_dumps) rows)).
Proof.
  intros Hu Hfuel rows. split_and!; [|by apply sorted_rows, unique_filter| |apply csv_file].
  - unfold export_audit_logs, export_refused. destruct (valid_tenant_id tenant_id); [cbn [negb]|done]. rewrite validate_window_spec.
    destruct (_ <=? instant start); [done|]. destruct (days 367 <=? _); [done|]. unfold _ensure_tenant_exists.
    destruct (mem tenant_id (dg_tenants db)); [|done]. rewrite iter_audit_rows_still by done. do 3 f_equal.
    assert (Hw : List.filter (in_window tenant_id (coerce_utc start) (coerce_utc end_)) (audit_logs db) =
                 List.filter (in_window tenant_id start end_) (audit_logs db)).
    { apply List.filter_ext. intros r. unfold in_window. by rewrite !instant_ensure_utc, !instant_coerce_utc. }
    rewrite Hw. done.
  - unfold count_audit_rows, rows. by rewrite (Permutation_length (isort_perm _ _)).
Qed.

(** Rows other sessions append while the pages are read do no harm: if the export ends,
    no row is written twice, the rows are in order, every row of the window that was there
    at the first page is in it, and every row in it was found in the table. *)
Theorem growing_table_is_exported reads tenant_id start end_ fuel out :
  (forall n, unique_ids (reads n)) -> (forall n r, In r (reads n) -> In r (reads (S n))) ->
  iter_audit_rows reads tenant_id start end_ PAGE_SIZE fuel = Some out ->
  StronglySorted before out /\
  (forall r, In r (reads 0%nat) -> in_window tenant_id start end_ r = true -> In r out) /\
  (forall r, In r out -> in_window tenant_id start end_ r = true /\ exists n, In r (reads n)).
Proof.
  intros Hu Hg Hout. destruct (pages_sound _ _ _ _ _ Hu _ _ _ _ Hout) as [Hs Hin]. split_and!; [done| |].
  - intros r Hr Hw. by eapply (pages_complete _ _ _ _ _ Hu fuel Hg); [|exact Hout| | |].
  - intros r Hr. destruct (Hin r Hr) as (_ & Hw & m & _ & Hm). eauto.
Qed.

(** ** Runs *)

Module DemoEvidence.

Definition log (i tenant : string) (at_ : Z) (meta : option json) : AuditLog :=
  {| al_id := i; al_tenant_id := Some tenant; actor_user_id := None; action := "login, " +:+ String quote "sso";
     al_resource_type := "user"; al_resource_id := None; metadata_json := meta; ip_address := Some "10.0.0.1"; al_occurred_at := utc at_ |}.
Definition db : DigestDB :=
  {| dg_tenants := ["t1"];
     audit_logs := [log "d" "t1" (days 2) None; log "b" "t1" (days 1) (Some (JObj [])); log "x" "t2" (days 1) None; log "c" "t1" (days 1) None;
                    log "a" "t1" (days 3) None; log "e" "t1" (days 9) None];
     audit_hash_digests := [] |}.
Definition dumps (j : json) : string := "{}".
Definition pages (page_size : nat) : option (list string) :=
  option_map (map al_id) (iter_audit_rows (fun _ => audit_logs db) "t1" (utc (days 1)) (utc (days 9)) page_size 9).

Example paged : map pages [1; 2; 3; 4; 500]%nat = repeat (Some ["b"; "c"; "d"; "a"]) 5.
Proof. vm_compute. reflexivity. Qed.

Definition read_back (r : option (result web_error bytes)) : option (list (list string)) :=
  match r with Some (Ok b) => match csv_rows b with Ok rows => Some rows | Raise _ => None end | _ => None end.
Definition export (start end_ : Z) : option (result web_error bytes) :=
  export_audit_logs dumps false db (fun _ => audit_logs db) 9 "t1" (utc start) (utc end_) CsvFile.

Example read_by_csv :
  read_back (export (days 1) (days 2)) =
    Some [_CSV_COLUMNS;
          ["b"; "t1"; ""; "login, " +:+ String quote "sso"; "user"; ""; "10.0.0.1"; "1970-01-02T00:00:00Z"; "{}"];
          ["c"; "t1"; ""; "login, " +:+ String quote "sso"; "user"; ""; "10.0.0.1"; "1970-01-02T00:00:00Z"; ""]].
Proof. vm_compute. reflexivity. Qed.

(** A row the others write behind the cursor is not exported, one they write ahead is. *)
Example written_meanwhile :
  option_map (map al_id) (iter_audit_rows (fun n => if (n =? 0)%nat then audit_logs db
                                                    else log "a0" "t1" (days 1) None :: log "z" "t1" (days 3) None :: audit_logs db)
    "t1" (utc (days 1)) (utc (days 9)) 2 9) = Some ["b"; "c"; "d"; "a"; "z"].
Proof. vm_compute. reflexivity. Qed.

(** The cap on the window counts whole days: one a microsecond short of 367 days passes. *)
Example longer_than_the_cap :
  _validate_window (utc 0) (utc (days 367 - 1)) = Ok (utc 0, utc (days 367 - 1)) /\
  _validate_window (utc 0) (utc (days 367)) = Raise (HTTPException 422 "window_too_large").
Proof. vm_compute. split; reflexivity. Qed.

Lemma ids_differ : unique_ids (audit_logs db).
Proof. unfold unique_ids. apply (bool_decide_unpack _). vm_compute. exact I. Qed.

(** A carriage return alone in a cell, with a writer that does not quote it: the reader
    refuses the file. *)
Example bare_carriage_return :
  map (fun quotes_cr => csv_rows (to_csv_bytes dumps quotes_cr
         [ {| al_id := "a"; al_tenant_id := Some "t1"; actor_user_id := None; action := "a" +:+ String carriage_return "b";
              al_resource_type := "user"; al_resource_id := None; metadata_json := None; ip_address := None; al_occurred_at := utc 0 |} ]))
    [true; false] =
  [Ok [_CSV_COLUMNS; ["a"; "t1"; ""; "a" +:+ String carriage_return "b"; "user"; ""; ""; "1970-01-01T00:00:00Z"; ""]];
   Raise "new-line character seen in unquoted field"].
Proof. vm_compute. reflexivity. Qed.

End DemoEvidence.

(** Short cells without a carriage return can be read back. *)
Lemma plain_rows quotes_cr rows :
  forallb (forallb (fun f => (String.length f <=? 100)%nat && negb (sany (Ascii.eqb carriage_return) f))) rows = true ->
  Forall (row_ok quotes_cr) rows.
Proof.
  intros H. assert (Hlimit : (100 <= field_size_limit)%nat) by (unfold field_size_limit; lia).
  apply List.Forall_forall. intros row Hrow. rewrite forallb_forall in H. apply H in Hrow.
  apply List.Forall_forall. intros f Hf. rewrite forallb_forall in Hrow.
  apply Hrow, andb_true_iff in Hf as [Hlen%Nat.leb_le Hcr%negb_true_iff]. split; [lia|]. by rewrite Hcr.
Qed.

Lemma evidence_export_is_complete_witness :
  exists body, DemoEvidence.export (days 1) (days 2) = Some (Ok body) /\
    csv_rows body = Ok [_CSV_COLUMNS;
      ["b"; "t1"; ""; "login, " +:+ String quote "sso"; "user"; ""; "10.0.0.1"; "1970-01-02T00:00:00Z"; "{}"];
      ["c"; "t1"; ""; "login, " +:+ String quote "sso"; "user"; ""; "10.0.0.1"; "1970-01-02T00:00:00Z"; ""]] /\
    count_audit_rows (audit_logs DemoEvidence.db) "t1" (utc (days 1)) (utc (days 2)) = 2.
Proof.
  destruct (evidence_export_is_complete DemoEvidence.dumps false DemoEvidence.db "t1" (utc (days 1)) (utc (days 2)) CsvFile 9
    DemoEvidence.ids_differ ltac:(cbn; lia)) as (He & _ & Hc & Hback).
  eexists. split; [exact He|]. split; [|rewrite <- Hc; vm_compute; reflexivity].
  exact (Hback ltac:(apply plain_rows; vm_compute; reflexivity)).
Defined.

Lemma growing_table_is_exported_witness :
  forall r, In r (audit_logs DemoEvidence.db) -> in_window "t1" (utc (days 1)) (utc (days 9)) r = true ->
  In (al_id r) ["b"; "c"; "d"; "a"].
Proof.
  destruct (iter_audit_rows (fun _ => audit_logs DemoEvidence.db) "t1" (utc (days 1)) (utc (days 9)) PAGE_SIZE 9) as [out|] eqn:Hout;
    [|vm_compute in Hout; discriminate].
  destruct (growing_table_is_exported (fun _ => audit_logs DemoEvidence.db) "t1" (utc (days 1)) (utc (days 9)) 9 out
    (fun _ => DemoEvidence.ids_differ) (fun _ _ H => H) Hout) as (_ & H & _).
  intros r Hr Hw. specialize (H r Hr Hw). assert (Hids : map al_id out = ["b"; "c"; "d"; "a"])
    by (vm_compute in Hout; injection Hout as <-; reflexivity).
  rewrite <- Hids. by apply in_map.
Defined.

(** ** The evidence bundle *)

Module Bundle.
(** backend/scripts/soc2_evidence_export.py, [_Artifact] *)
Record _Artifact : Type := { ar_name : string; ar_content : bytes; ar_media_type : string }.

(** An answer of the cockpit: its status, its content type, its bytes, and what
    [resp.json()] makes of them. *)
Record response : Type := { rs_status : Z; rs_content_type : option string; rs_content : bytes; rs_json : option json }.
Inductive bundle_error : Type := HTTPStatusError (status : Z) | JSONDecodeError | AttributeError | TypeError | IntError.
Definition request : Type := string -> list (string * json) -> response.

Record bundle_args : Type := {
  cockpit_url : string; b_tenant_id : string; b_start : string; b_end : string; output : string; digest_page_size : Z; rotation_page_size : Z }.

Section Bundle.
Context (sha256_hex : bytes -> string) (json_dumps : json -> bytes).

(** backend/scripts/soc2_evidence_export.py, [_Artifact.sha256] *)
Definition ar_sha256 (a : _Artifact) : string := sha256_hex (ar_content a).
(** backend/scripts/soc2_evidence_export.py, [_Artifact.bytes_len] *)
Definition bytes_len (a : _Artifact) : Z := slen (ar_content a).

(** [resp.raise_for_status()]: everything but a 2xx answer raises. *)
Definition checked (r : response) : result bundle_error response :=
  if (200 <=? rs_status r) && (rs_status r <? 300) then Ok r else Raise (HTTPStatusError (rs_status r)).

(** [list.extend] with a value of a JSON answer: a string gives its characters, a dict its
    keys; [None] is the [TypeError] of a value that cannot be iterated. *)
Definition iterated (v : json) : option (list json) :=
  match v with
  | JList l => Some l
  | JObj kvs => Some (map (fun kv => JStr (fst kv)) kvs)
  | JStr s => Some (map (fun c => JStr (String.String c "")) (Stdlib.Strings.String.list_ascii_of_string s))
  | _ => None
  end.

(** backend/scripts/soc2_evidence_export.py, [_fetch_audit_export] *)
Definition _fetch_audit_export (client : request) (tenant_id start end_ : string) : result bundle_error _Artifact :=
  match checked (client "/cockpit/compliance/audit-export"
                   [("tenant_id", JStr tenant_id); ("start", JStr start); ("end", JStr end_); ("format", JStr "jsonl")]) with
  | Raise e => Raise e
  | Ok resp => Ok {| ar_name := "audit_logs.jsonl"; ar_content := rs_content resp;
                     ar_media_type := default "application/x-ndjson" (rs_content_type resp) |}
  end.

(** backend/scripts/soc2_evidence_export.py, [_fetch_access_review] *)
Definition _fetch_access_review (client : request) (tenant_id : string) : result bundle_error _Artifact :=
  match checked (client "/cockpit/compliance/access-review" [("tenant_id", JStr tenant_id)]) with
  | Raise e => Raise e
  | Ok resp =>
      match rs_json resp with
      | Some j => Ok {| ar_name := "access_review.json"; ar_content := json_dumps j; ar_media_type := "application/json" |}
      | None => Raise JSONDecodeError
      end
  end.

(** backend/scripts/soc2_evidence_export.py:157-172, [_fetch_paginated]: the loop; [None] is a loop
    that has not ended. *)
Fixpoint fetch_pages (fuel : nat) (client : request) (path : string) (params : list (string * json)) (page_size offset : Z) (items : list json) :
    option (result bundle_error (list json)) :=
  match fuel with
  | O => None
  | S fuel =>
      match checked (client path (update_keys params [("limit", JInt page_size); ("offset", JInt offset)])) with
      | Raise e => Some (Raise e)
      | Ok resp =>
          match rs_json resp with
          | None => Some (Raise JSONDecodeError)
          | Some (JObj payload) =>
              match iterated (default (JList []) (assoc "items" payload)) with
              | Some chunk =>
                  let items := items ++ chunk in
                  match json_int (default (JInt (Z.of_nat (length items))) (assoc "total" payload)) with
                  | None => Some (Raise IntError)
                  | Some total =>
                      if (total <=? Z.of_nat (length items)) || match chunk with [] => true | _ => false end then Some (Ok items)
                      else fetch_pages fuel client path params page_size (offset + Z.of_nat (length chunk)) items
                  end
              | None => Some (Raise TypeError)
              end
          | Some _ => Some (Raise AttributeError)
          end
      end
  end.

(** backend/scripts/soc2_evidence_export.py, [_fetch_paginated] *)
Definition _fetch_paginated (fuel : nat) (client : request) (path : string) (params : list (string * json)) (page_size : Z) (filename : string) :
    option (result bundle_error _Artifact) :=
  match fetch_pages fuel client path params page_size 0 [] with
  | None => None
  | Some (Raise e) => Some (Raise e)
  | Some (Ok items) =>
      Some (Ok {| ar_name := filename;
                  ar_content := json_dumps (JObj [("items", JList items); ("total", JInt (Z.of_nat (length items)))]);
                  ar_media_type := "application/json" |})
  end.

(** backend/scripts/soc2_evidence_export.py:197-203, [_build_manifest]: the entry of an artifact. *)
Definition manifest_entry (a : _Artifact) : json :=
  JObj [("name", JStr (ar_name a)); ("media_type", JStr (ar_media_type a)); ("bytes", JInt (bytes_len a)); ("sha256", JStr (ar_sha256 a))].

(** backend/scripts/soc2_evidence_export.py, [_build_manifest]: before it is dumped. *)
Definition _build_manifest (generated_at : string) (args : bundle_args) (artifacts : list _Artifact) : json :=
  JObj [("schema_version", JInt 1); ("generated_at", JStr generated_at); ("cockpit_url", JStr (rstrip_by (Ascii.eqb "/") (cockpit_url args)));
        ("tenant_id", JStr (b_tenant_id args)); ("window", JObj [("start", JStr (b_start args)); ("end", JStr (b_end args))]);
        ("artifacts", JList (map manifest_entry artifacts))].

(** backend/scripts/soc2_evidence_export.py, [_write_zip]: the entries of the archive in order. *)
Definition _write_zip (manifest : bytes) (artifacts : list _Artifact) : list (string * bytes) :=
  ("manifest.json", manifest) :: map (fun a => (ar_name a, ar_content a)) artifacts.

(** backend/scripts/soc2_evidence_export.py, [main]: the archive that is written. *)
Definition main (fuel : nat) (client : request) (generated_at : string) (args : bundle_args) : option (result bundle_error (list (string * bytes))) :=
  match _fetch_audit_export client (b_tenant_id args) (b_start args) (b_end args) with
  | Raise e => Some (Raise e)
  | Ok audit =>
      match _fetch_access_review client (b_tenant_id args) with
      | Raise e => Some (Raise e)
      | Ok access =>
          match _fetch_paginated fuel client "/cockpit/compliance/audit-hash-digests" [("tenant_id", JStr (b_tenant_id args))]
                  (digest_page_size args) "audit_hash_digests.json" with
          | None => None
          | Some (Raise e) => Some (Raise e)
          | Some (Ok digests) =>
              match _fetch_paginated fuel client "/cockpit/compliance/key-rotations" [] (rotation_page_size args) "key_rotations.json" with
              | None => None
              | Some (Raise e) => Some (Raise e)
              | Some (Ok rotations) =>
                  let artifacts := [audit; access; digests; rotations] in
                  Some (Ok (_write_zip (json_dumps (_build_manifest generated_at args artifacts)) artifacts))
              end
          end
      end
  end.

(** ** Pages *)

(** A listing that serves the rows of a list, at most [cap] at a time, and their number. *)
Definition serves (client : request) (path : string) (params : list (string * json)) (cap page_size : Z) (rows : list json) : Prop :=
  forall offset, 0 <= offset ->
    let r := client path (update_keys params [("limit", JInt page_size); ("offset", JInt offset)]) in
    rs_status r = 200 /\
    rs_json r = Some (JObj [("items", JList (take (Z.to_nat (Z.min cap page_size)) (drop (Z.to_nat offset) rows))); ("total", JInt (Z.of_nat (length rows)))]).

Lemma fetch_pages_run client path params cap page_size rows : 1 <= cap -> 1 <= page_size -> serves client path params cap page_size rows ->
  forall fuel k, (k <= length rows)%nat -> (length rows - k < fuel)%nat ->
  fetch_pages fuel client path params page_size (Z.of_nat k) (take k rows) = Some (Ok rows).
Proof.
  intros Hcap Hsize Hserves. induction fuel as [|fuel IH]; intros k Hk Hf; [lia|]. cbn [fetch_pages].
  destruct (Hserves (Z.of_nat k) ltac:(lia)) as [Hst Hj]. set (r := client path _) in *. unfold checked. rewrite Hst. change ((200 <=? 200) && (200 <? 300)) with true. cbn match. rewrite Hj. cbn [assoc find_first default from_option id]. rewrite Nat2Z.id.
  change (assoc "items" (("items", ?a) :: ?b)) with (Some a).
  set (n := Z.to_nat (Z.min cap page_size)). cbn.
  set (chunk := take n (drop k rows)). assert (Happ : take k rows ++ chunk = take (k + n) rows) by (apply take_take_drop).
  rewrite Happ, length_take.
  destruct (Z.leb_spec (Z.of_nat (length rows)) (Z.of_nat (Nat.min (k + n) (length rows)))) as [Hle|Hgt]; cbn [orb].
  - rewrite take_ge by lia. done.
  - assert (Hlen : length chunk = n) by (unfold chunk; rewrite length_take, length_drop; lia).
    destruct chunk as [|x chunk'] eqn:Hc; [cbn in Hlen; lia|]. rewrite Hlen. replace (Z.of_nat k + Z.of_nat n) with (Z.of_nat (k + n)) by lia.
    apply IH; lia.
Qed.

Lemma fetch_paginated_run client path params cap page_size rows name :
  1 <= cap -> 1 <= page_size -> serves client path params cap page_size rows ->
  _fetch_paginated (S (length rows)) client path params page_size name =
    Some (Ok {| ar_name := name; ar_content := json_dumps (JObj [("items", JList rows); ("total", JInt (Z.of_nat (length rows)))]); ar_media_type := "application/json" |}).
Proof.
  intros Hcap Hsize Hs. unfold _fetch_paginated.
  pose proof (fetch_pages_run client path params cap page_size rows Hcap Hsize Hs (S (length rows)) 0 ltac:(lia) ltac:(lia)) as Hrun.
  rewrite take_0 in Hrun. change (Z.of_nat 0) with 0 in Hrun. by rewrite Hrun.
Qed.

(** More fuel gives the same answer. *)
Lemma fetch_pages_more client path params page_size fuel more offset items r : (fuel <= more)%nat ->
  fetch_pages fuel client path params page_size offset items = Some r -> fetch_pages more client path params page_size offset items = Some r.
Proof.
  revert more offset items. induction fuel as [|fuel IH]; [done|]. intros [|more] offset items Hle H; [lia|]. cbn [fetch_pages] in *.
  repeat case_match; try done; (eapply IH; [lia|done]).
Qed.

Lemma fetch_paginated_more client path params page_size name fuel more r : (fuel <= more)%nat ->
  _fetch_paginated fuel client path params page_size name = Some r -> _fetch_paginated more client path params page_size name = Some r.
Proof.
  intros Hle. unfold _fetch_paginated. destruct (fetch_pages fuel _ _ _ _ _ _) as [x|] eqn:Hx; [|done].
  by rewrite (fetch_pages_more _ _ _ _ _ _ _ _ _ Hle Hx).
Qed.

(** The archive of a complete run: the audit export as it came, every digest and every
    rotation whatever the cap on pages, and a manifest with the length and the hash of each
    entry that follows it. *)
Theorem bundle_is_complete client generated_at args cap digests rotations audit access review fuel :
  1 <= cap -> 1 <= digest_page_size args -> 1 <= rotation_page_size args -> (S (length digests) <= fuel)%nat -> (S (length rotations) <= fuel)%nat ->
  _fetch_audit_export client (b_tenant_id args) (b_start args) (b_end args) = Ok audit ->
  client "/cockpit/compliance/access-review" [("tenant_id", JStr (b_tenant_id args))] = access -> rs_status access = 200 -> rs_json access = Some review ->
  serves client "/cockpit/compliance/audit-hash-digests" [("tenant_id", JStr (b_tenant_id args))] cap (digest_page_size args) digests ->
  serves client "/cockpit/compliance/key-rotations" [] cap (rotation_page_size args) rotations ->
  exists artifacts,
    main fuel client generated_at args = Some (Ok (_write_zip (json_dumps (_build_manifest generated_at args artifacts)) artifacts)) /\
    map ar_content artifacts = [ar_content audit; json_dumps review; json_dumps (JObj [("items", JList digests); ("total", JInt (Z.of_nat (length digests)))]);
                                json_dumps (JObj [("items", JList rotations); ("total", JInt (Z.of_nat (length rotations)))])] /\
    map ar_name artifacts = ["audit_logs.jsonl"; "access_review.json"; "audit_hash_digests.json"; "key_rotations.json"].
Proof.
  intros Hcap Hd Hr Hfd Hfr Haudit Hacc Hst Hj Hsd Hsr. unfold main, _fetch_access_review. rewrite Haudit, Hacc. unfold checked. rewrite Hst.
  change ((200 <=? 200) && (200 <? 300)) with true. cbn match. rewrite Hj.
  rewrite (fetch_paginated_more _ _ _ _ _ _ _ _ Hfd (fetch_paginated_run _ _ _ _ _ _ _ Hcap Hd Hsd)).
  rewrite (fetch_paginated_more _ _ _ _ _ _ _ _ Hfr (fetch_paginated_run _ _ _ _ _ _ _ Hcap Hr Hsr)).
  eexists. split; [done|]. split; [done|].
  assert (Hn : ar_name audit = "audit_logs.jsonl") by (unfold _fetch_audit_export in Haudit; repeat case_match; by simplify_eq). cbn. by rewrite Hn.
Qed.
End Bundle.

(** ** A run *)

Module DemoBundle.
Definition row (n : Z) : json := JObj [("id", JInt n)].
Definition digest_rows : list json := map row [1; 2; 3; 4; 5].
Definition number (k : string) (params : list (string * json)) : Z := match assoc k params with Some (JInt z) => z | _ => 0 end.
Definition page (cap : Z) (rows : list json) (params : list (string * json)) : response :=
  {| rs_status := 200; rs_content_type := Some "application/json"; rs_content := "";
     rs_json := Some (JObj [("items", JList (take (Z.to_nat (Z.min cap (number "limit" params))) (drop (Z.to_nat (number "offset" params)) rows)));
                            ("total", JInt (Z.of_nat (length rows)))]) |}.
Definition cockpit : request := fun path params =>
  if String.eqb path "/cockpit/compliance/audit-hash-digests" then page 2 digest_rows params
  else if String.eqb path "/cockpit/compliance/key-rotations" then page 2 [] params
  else {| rs_status := 200; rs_content_type := None; rs_content := "rows"; rs_json := Some (JObj []) |}.
Definition args : bundle_args :=
  {| cockpit_url := "https://once.example//"; b_tenant_id := "t1"; b_start := "a"; b_end := "b"; output := "o.zip"; digest_page_size := 200; rotation_page_size := 200 |}.
Definition dumps (j : json) : bytes := match j with JObj kvs => str_of_Z (match get_key "total" kvs with JInt z => z | _ => -1 end) | _ => "?" end.
Definition sha (b : bytes) : string := b.

(** Five digests behind a cap of two are all fetched; three requests are needed. *)
Example five_digests :
  fetch_pages 6 cockpit "/cockpit/compliance/audit-hash-digests" [("tenant_id", JStr "t1")] 200 0 [] = Some (Ok digest_rows) /\
  fetch_pages 2 cockpit "/cockpit/compliance/audit-hash-digests" [("tenant_id", JStr "t1")] 200 0 [] = None.
Proof. split; vm_compute; reflexivity. Qed.

(** A digest added in front of the list between two requests: one row comes twice and the
    new one not at all. *)
Definition moving : request := fun _ params =>
  if number "offset" params =? 0 then page 2 (map row [3; 2; 1]) params else page 2 (map row [4; 3; 2; 1]) params.
Example a_row_comes_twice : fetch_pages 9 moving "p" [] 2 0 [] = Some (Ok (map row [3; 2; 2; 1])).
Proof. vm_compute. reflexivity. Qed.

Lemma bundle_is_complete_witness : exists artifacts,
  main sha dumps 6 cockpit "now" args = Some (Ok (_write_zip (dumps (_build_manifest sha "now" args artifacts)) artifacts)) /\ length artifacts = 4%nat.
Proof.
  destruct (bundle_is_complete sha dumps cockpit "now" args 2 digest_rows []
    {| ar_name := "audit_logs.jsonl"; ar_content := "rows"; ar_media_type := "application/x-ndjson" |}
    (cockpit "/cockpit/compliance/access-review" []) (JObj []) 6) as (arts & H & Hc & _);
    try lia; try reflexivity; [cbn; lia..| | |].
  - intros offset Ho. by split.
  - intros offset Ho. by split.
  - exists arts. split; [exact H|]. by rewrite <- (length_map ar_content arts), Hc.
Defined.
End DemoBundle.
End Bundle.
