(* ===== verification/Pagination.v ===== *)
(** * Pagination

    utils/pagination.py and the cursor of schemas/common.py: the two modes of the paginator
    over a statement, and the opaque cursor of a page.  [json.dumps] and [json.loads] are
    arguments, and so is what the database driver makes of a boundary that is no aware
    datetime. *)

From Stdlib Require Import Ascii.
From S2P Require Import Prelude PyStr Json Encoding PyTime.

(** utils/pagination.py, [DEFAULT_LIMIT] *)
Definition DEFAULT_LIMIT : Z := 50.
(** utils/pagination.py, [MAX_LIMIT] *)
Definition MAX_LIMIT : Z := 200.

(** The exceptions: [ValueError] with its text, the [OverflowError] of [int(inf)], and a
    refusal of the database driver. *)
Inductive page_error : Type := ValueError (msg : string) | OverflowError | DatabaseError.

(** ** Limits *)

(** [int(value)] of a query parameter; [None] is a [TypeError] or a [ValueError]. *)
Definition int_any (v : json) : result page_error (option Z) :=
  match v with JFloat (S754_infinity _) => Raise OverflowError | _ => Ok (json_int v) end.
(** [value is None or value == ""] *)
Definition absent (v : json) : bool := match v with JNull => true | JStr s => String.eqb s "" | _ => false end.

(** utils/pagination.py, [normalize_limit] *)
Definition normalize_limit (value : json) (dflt maximum : Z) : result page_error Z :=
  if absent value then Ok dflt
  else
    match int_any value with
    | Raise e => Raise e
    | Ok None => Raise (ValueError "limit must be an integer")
    | Ok (Some n) =>
        if n <? 1 then Raise (ValueError "limit must be >= 1")
        else if maximum <? n then Raise (ValueError ("limit must be <= " +:+ str_of_Z maximum))
        else Ok n
    end.

(** utils/pagination.py, [normalize_offset] *)
Definition normalize_offset (value : json) (dflt : Z) : result page_error Z :=
  if absent value then Ok dflt
  else
    match int_any value with
    | Raise e => Raise e
    | Ok None => Raise (ValueError "offset must be an integer")
    | Ok (Some n) => if n <? 0 then Raise (ValueError "offset must be >= 0") else Ok n
    end.

Lemma limit_positive limit_ lim : normalize_limit limit_ DEFAULT_LIMIT MAX_LIMIT = Ok lim -> 1 <= lim <= MAX_LIMIT.
Proof.
  unfold normalize_limit. destruct (absent limit_); [intros [= <-]; done|]. destruct (int_any limit_) as [[n|]|]; [|done..].
  destruct (Z.ltb_spec n 1); [done|]. destruct (Z.ltb_spec MAX_LIMIT n); [done|]. intros [= <-]. lia.
Qed.

(** ** Cursors *)

(** schemas/common.py, [Cursor] *)
Record Cursor : Type := { created_at : string; cursor_id : string; direction : string }.
(** schemas/common.py:180-184, [Cursor]: the pattern of the direction. *)
Definition valid_direction (s : string) : bool := String.eqb s "next" || String.eqb s "prev".

(** [bytes.translate] with the tables of [base64.urlsafe_b64encode] and of
    [base64.urlsafe_b64decode]. *)
Definition to_urlsafe : string -> string := smap (fun c => if Ascii.eqb c "+" then "-"%char else if Ascii.eqb c "/" then "_"%char else c).
Definition of_urlsafe : string -> string := smap (fun c => if Ascii.eqb c "-" then "+"%char else if Ascii.eqb c "_" then "/"%char else c).
Fixpoint equals_signs (n : nat) : string := match n with O => "" | S n => String "=" (equals_signs n) end.
(** utils/pagination.py:92, [decode_cursor]: ["=" * (-len(value) % 4)]. *)
Definition padding (value : string) : string := equals_signs (Z.to_nat (- slen value mod 4)).
Definition is_ascii (c : ascii) : bool := ord c <? 128.

(** ** Lemmas: base 64 without its padding *)

Definition in_alphabet (c : ascii) : bool := is_someb (b64_val c).
Lemma in_alphabet_char n : 0 <= n < 64 -> in_alphabet (b64_char n) = true.
Proof. intros Hn. unfold in_alphabet. by rewrite b64_val_char. Qed.

Lemma padding_4 a b c d s : padding (String a (String b (String c (String d s)))) = padding s.
Proof. unfold padding, slen. cbn [String.length]. do 2 f_equal. lia. Qed.

Lemma b64encode_shape b : exists core, b64encode b = core +:+ padding core /\ sall in_alphabet core = true.
Proof.
  remember (String.length b) as n eqn:Hn. revert b Hn.
  induction n as [n IH] using lt_wf_ind. intros [|x [|y [|z r]]] Hn; [by exists ""|..];
    pose proof (ord_range x) as Hx; try pose proof (ord_range y) as Hy; try pose proof (ord_range z) as Hz; cbn [b64encode].
  - eexists (String _ (String _ "")). split; [reflexivity|]. cbn. by rewrite !in_alphabet_char by lia.
  - eexists (String _ (String _ (String _ ""))). split; [reflexivity|]. cbn. by rewrite !in_alphabet_char by lia.
  - destruct (IH (String.length r)) with (b := r) as (core & -> & Hcore); [subst n; cbn; lia|done|].
    eexists (String _ (String _ (String _ (String _ core)))). split; [by rewrite padding_4|]. cbn. by rewrite !in_alphabet_char, Hcore by lia.
Qed.

Lemma in_alphabet_not c d : in_alphabet c = true -> in_alphabet d = false -> Ascii.eqb d c = false.
Proof. intros Hc Hd. destruct (Ascii.eqb_spec d c) as [->|]; [congruence|done]. Qed.

Lemma urlsafe_char c : in_alphabet c = true ->
  let d := if Ascii.eqb c "+" then "-"%char else if Ascii.eqb c "/" then "_"%char else c in
  (if Ascii.eqb d "-" then "+"%char else if Ascii.eqb d "_" then "/"%char else d) = c /\ is_ascii d = true /\ Ascii.eqb "=" d = false.
Proof. destruct c as [[] [] [] [] [] [] [] []]; vm_compute; intros H; try discriminate H; repeat split; reflexivity. Qed.

Lemma urlsafe_core core : sall in_alphabet core = true ->
  of_urlsafe (to_urlsafe core) = core /\ sall is_ascii (to_urlsafe core) = true /\
  sall (fun c => negb (Ascii.eqb "=" c)) (to_urlsafe core) = true.
Proof.
  induction core as [|c s IH]; [done|]. cbn [sall]. intros [Hc Hs]%andb_true_iff. destruct (IH Hs) as (H1 & H2 & H3).
  destruct (urlsafe_char c Hc) as (C1 & C2 & C3). unfold of_urlsafe, to_urlsafe in *. cbn [smap sall]. rewrite H1, H2, H3, C1, C2, C3. done.
Qed.

Lemma smap_app f a b : smap f (a +:+ b) = smap f a +:+ smap f b.
Proof. induction a as [|c a IH]; cbn; [done|]. by rewrite IH. Qed.
Lemma slen_smap f s : slen (smap f s) = slen s.
Proof. unfold slen. f_equal. induction s as [|c s IH]; cbn; [done|]. by rewrite IH. Qed.
Lemma smap_signs f n : f "="%char = "="%char -> smap f (equals_signs n) = equals_signs n.
Proof. intros Hf. induction n as [|n IH]; cbn; [done|]. by rewrite Hf, IH. Qed.
Lemma rstrip_signs s n : sall (fun c => negb (Ascii.eqb "=" c)) s = true -> rstrip_by (Ascii.eqb "=") (s +:+ equals_signs n) = s.
Proof.
  intros Hs. induction s as [|c s IH]; cbn [String.append].
  - induction n as [|n IHn]; cbn; [done|]. by rewrite IHn.
  - cbn [sall] in Hs. apply andb_true_iff in Hs as [Hc Hs]. cbn [rstrip_by]. rewrite (IH Hs). apply negb_true_iff in Hc. rewrite Hc. by destruct s.
Qed.

(** The text without its padding, padded again, is read back. *)
Lemma urlsafe_roundtrip raw : raw <> "" ->
  let value := rstrip_by (Ascii.eqb "=") (to_urlsafe (b64encode raw)) in
  truthy value = true /\ sall is_ascii (value +:+ padding value) = true /\ b64decode_lenient (of_urlsafe (value +:+ padding value)) = Some raw.
Proof.
  intros Hraw. destruct (b64encode_shape raw) as (core & Hb & Hcore). destruct (urlsafe_core core Hcore) as (H1 & H2 & H3).
  assert (Hv : rstrip_by (Ascii.eqb "=") (to_urlsafe (b64encode raw)) = to_urlsafe core).
  { rewrite Hb. unfold to_urlsafe at 1. rewrite smap_app. unfold padding. rewrite smap_signs by done. by apply rstrip_signs. }
  rewrite Hv. assert (Hp : padding (to_urlsafe core) = padding core) by (unfold padding, to_urlsafe; by rewrite slen_smap). cbn zeta. rewrite Hp.
  split_and!.
  - destruct core as [|c core]; [|done]. destruct raw as [|x [|y [|z r]]]; done.
  - unfold padding. rewrite sall_append, H2. by induction (Z.to_nat _).
  - unfold of_urlsafe in *. rewrite smap_app, H1. unfold padding. rewrite smap_signs by done. fold (padding core). rewrite <- Hb. apply a2b_b64encode.
Qed.

(** ** Lemmas: dates *)

Definition not_Z (c : ascii) : bool := negb (Ascii.eqb "Z" c).
Lemma zpad_not_Z w n : sall not_Z (zpad w n) = true.
Proof.
  destruct (zpad_digits w n) as [Hd _]. eapply sall_impl; [|exact Hd]. intros c Hc. unfold not_Z. by destruct (Ascii.eqb_spec "Z" c) as [<-|].
Qed.
Lemma isoformat_not_Z us : sall not_Z (isoformat (utc us)) = true.
Proof.
  unfold isoformat, iso_wall, utc. cbn [wall tzinfo]. destruct (civil_from_days _) as [[y m] d].
  destruct (_ mod us_per_second =? 0); by rewrite !sall_append, !zpad_not_Z.
Qed.
Lemma replace_not_Z t s : sall not_Z s = true -> replace_char "Z" t s = s.
Proof.
  induction s as [|c s IH]; cbn [sall replace_char]; [done|]. intros [Hc Hs]%andb_true_iff. rewrite IH by done. unfold not_Z in Hc.
  apply negb_true_iff in Hc. by rewrite Hc.
Qed.

Section Cursors.
Context (json_dumps : json -> bytes) (json_loads : bytes -> option json) (repr_other : json -> string).

(** utils/pagination.py, [encode_cursor] *)
Definition encode_cursor (c : Cursor) : string :=
  rstrip_by (Ascii.eqb "=") (to_urlsafe (b64encode (json_dumps
    (JObj [("created_at", JStr (created_at c)); ("direction", JStr (direction c)); ("id", JStr (cursor_id c))])))).

(** utils/pagination.py, [decode_cursor]; the texts of the exceptions that are wrapped are
    left out. *)
Definition decode_cursor (value : string) : result page_error Cursor :=
  if negb (truthy value) then Raise (ValueError "cursor must be a non-empty string")
  else
    let padded := value +:+ padding value in
    match (if sall is_ascii padded then b64decode_lenient (of_urlsafe padded) else None) with
    | None => Raise (ValueError "invalid cursor")
    | Some raw =>
        match json_loads raw with
        | None => Raise (ValueError "invalid cursor")
        | Some (JObj payload) =>
            match assoc "created_at" payload, assoc "id" payload with
            | Some t, Some i =>
                let d := py_str repr_other (default (JStr "next") (assoc "direction" payload)) in
                if valid_direction d then Ok {| created_at := py_str repr_other t; cursor_id := py_str repr_other i; direction := d |}
                else Raise (ValueError "invalid cursor fields")
            | _, _ => Raise (ValueError "invalid cursor fields")
            end
        | Some _ => Raise (ValueError "cursor payload must be an object")
        end
    end.

(** ** Pages *)

Section Paginate.
(** The rows of a statement with the two columns of the cursor. *)
Context {Row : Type} (row_created_at : Row -> Z) (row_id : Row -> string).
(** [datetime.fromisoformat] of any text, and the instant the driver compares the column
    with when it gets a datetime or, where that text is none, the text; [None] is its
    refusal. *)
Context (fromisoformat_any : string -> option datetime) (bind_boundary : datetime + string -> option Z).

(** A statement: the rows it selects, and its own [ORDER BY]; the constant [true] is none. *)
Record Select : Type := { st_rows : list Row; st_order : Row -> Row -> bool }.
Definition then_by (le1 le2 : Row -> Row -> bool) (x y : Row) : bool := le1 x y && (negb (le1 y x) || le2 x y).

(** schemas/common.py, [Page] *)
Record Page : Type := {
  items : list Row; total : option Z; limit : Z; offset : option Z; next_cursor : option string; prev_cursor : option string }.

(** utils/pagination.py:223, [paginate]: [created_at DESC, id DESC]. *)
Definition row_key (r : Row) : Z * string := (row_created_at r, row_id r).
Definition newest_first (x y : Row) : bool := key_le (row_key y) (row_key x).

(** utils/pagination.py:216-221, [paginate]: the filter of a boundary. *)
Definition below (b : Z * string) (r : Row) : bool :=
  (row_created_at r <? b.1) || ((row_created_at r =? b.1) && negb (String.leb b.2 (row_id r))).
Definition past (b : option (Z * string)) : Row -> bool := match b with Some b => below b | None => fun _ => true end.

(** utils/pagination.py:192-214, [paginate]: the boundary of a cursor,
    for a column of datetimes. *)
Definition boundary (cursor : option string) : result page_error (option (Z * string)) :=
  match opt_truthy cursor with
  | None => Ok None
  | Some text =>
      match decode_cursor text with
      | Raise e => Raise e
      | Ok c =>
          let t := created_at c in
          match bind_boundary (match fromisoformat_any (replace_char "Z" "+00:00" t) with Some d => inl d | None => inr t end) with
          | None => Raise DatabaseError
          | Some at_ => Ok (Some (at_, cursor_id c))
          end
      end
  end.

(** utils/pagination.py:231-240, [paginate]: the cursor of a row. *)
Definition cursor_of (r : Row) (d : string) : string :=
  encode_cursor {| created_at := isoformat (utc (row_created_at r)); cursor_id := row_id r; direction := d |}.

(** utils/pagination.py, [paginate]; [columns] says whether both columns are given. *)
Definition paginate (stmt : Select) (mode : option string) (limit_ offset_ : json) (cursor : option string) (columns : bool) :
    result page_error Page :=
  match normalize_limit limit_ DEFAULT_LIMIT MAX_LIMIT with
  | Raise e => Raise e
  | Ok lim =>
      let mode_normalized := match opt_truthy mode with Some m => strip (lower m) | None => "offset" end in
      if String.eqb mode_normalized "offset" then
        match normalize_offset offset_ 0 with
        | Raise e => Raise e
        | Ok off =>
            let ordered := isort (st_order stmt) (st_rows stmt) in
            Ok {| items := take (Z.to_nat lim) (drop (Z.to_nat off) ordered); total := Some (Z.of_nat (length ordered)); limit := lim;
                  offset := Some off; next_cursor := None; prev_cursor := None |}
        end
      else if negb (String.eqb mode_normalized "cursor") then Raise (ValueError "unknown pagination mode")
      else if negb columns then Raise (ValueError "cursor mode requires id_column and created_at_column")
      else
        match boundary cursor with
        | Raise e => Raise e
        | Ok b =>
            let selected := List.filter (past b) (st_rows stmt) in
            let rows := take (Z.to_nat (lim + 1)) (isort (then_by (st_order stmt) newest_first) selected) in
            let has_next := lim <? Z.of_nat (length rows) in
            let page := take (Z.to_nat lim) rows in
            Ok {| items := page; total := None; limit := lim; offset := None;
                  next_cursor := if has_next then (fun r => cursor_of r "next") <$> last page else None;
                  prev_cursor := match opt_truthy cursor with Some _ => (fun r => cursor_of r "prev") <$> head page | None => None end |}
        end
  end.

(** A client that follows [next_cursor] to the end, when the [n]-th request finds the
    statement [reads n]; [None] is a walk that has not ended. *)
Fixpoint walk (fuel : nat) (reads : nat -> Select) (limit_ : json) (n : nat) (cursor : option string) : option (result page_error (list Row)) :=
  match fuel with
  | O => None
  | S fuel =>
      match paginate (reads n) (Some "cursor") limit_ JNull cursor true with
      | Raise e => Some (Raise e)
      | Ok page =>
          match next_cursor page with
          | None => Some (Ok (items page))
          | Some c =>
              match walk fuel reads limit_ (S n) (Some c) with
              | Some (Ok rest) => Some (Ok (items page ++ rest))
              | other => other
              end
          end
      end
  end.

(** ** Lemmas: the listing *)

Definition newer : Row -> Row -> Prop := strictly newest_first.

Lemma newest_first_total x y : newest_first x y = true \/ newest_first y x = true.
Proof. apply key_le_total. Qed.
Lemma newest_first_trans x y z : newest_first x y = true -> newest_first y z = true -> newest_first x z = true.
Proof. unfold newest_first. intros H1 H2. by apply (key_le_trans _ (row_key y)). Qed.
#[local] Instance newer_order : StrictOrder newer.
Proof. exact (strictly_order newest_first newest_first_total newest_first_trans). Qed.

Lemma below_newer x r : below (row_key x) r = true <-> newer x r.
Proof.
  unfold below, newer, strictly, newest_first, key_le, row_key. cbn. destruct (Z.ltb_spec (row_created_at r) (row_created_at x)),
    (Z.eqb_spec (row_created_at r) (row_created_at x)), (Z.ltb_spec (row_created_at x) (row_created_at r)),
    (Z.eqb_spec (row_created_at x) (row_created_at r)); try lia; cbn; try done; by destruct (String.leb (row_id x) (row_id r)).
Qed.

Lemma isort_ext (le1 le2 : Row -> Row -> bool) l : (forall x y, le1 x y = le2 x y) -> isort le1 l = isort le2 l.
Proof.
  intros Hext. induction l as [|x l IH]; [done|]. rewrite !isort_cons, IH. generalize (isort le2 l). clear -Hext. intros l.
  induction l as [|y l IH]; [done|]. cbn. by rewrite Hext, IH.
Qed.

Lemma sorted_newer l : NoDup (map row_id l) -> StronglySorted newer (isort newest_first l).
Proof.
  apply (isort_strict _ newest_first_total newest_first_trans row_id). intros x y H1 H2. by apply (key_le_antisym (row_key x) (row_key y)).
Qed.

(** The rows of a listing below one of its rows are those that come after it. *)
Lemma rest_of_listing pre x suf : StronglySorted newer (pre ++ x :: suf) ->
  forall r, In r (pre ++ x :: suf) /\ newer x r <-> In r suf.
Proof.
  intros Hs r. apply sorted_app_inv in Hs as (_ & Hs & Hcross). inversion Hs as [|? ? _ Hall]; subst. rewrite List.Forall_forall in Hall.
  rewrite in_app_iff. cbn. split; [|intros Hr; split; [tauto|by apply Hall]].
  intros [[Hr|[->|Hr]] Hx]; [|by apply (irreflexivity newer) in Hx|done].
  assert (Hrx : newer r x) by (apply Hcross; [done|by left]). exfalso. apply (irreflexivity newer r). by transitivity x.
Qed.

(** ** Lemmas: pages *)

Hypothesis loads_dumps : forall t d i, let o := JObj [("created_at", JStr t); ("direction", JStr d); ("id", JStr i)] in json_loads (json_dumps o) = Some o.
Hypothesis loads_empty : json_loads "" = None.
Hypothesis fromisoformat_law : forall us, representable us -> fromisoformat_any (isoformat (utc us)) = Some (utc us).
Hypothesis bind_law : forall us, bind_boundary (inl (utc us)) = Some us.

Lemma decode_encode c : valid_direction (direction c) = true -> truthy (encode_cursor c) = true /\ decode_cursor (encode_cursor c) = Ok c.
Proof.
  intros Hd. unfold decode_cursor, encode_cursor. set (raw := json_dumps _).
  assert (Hraw : json_loads raw = Some (JObj [("created_at", JStr (created_at c)); ("direction", JStr (direction c)); ("id", JStr (cursor_id c))]))
    by apply loads_dumps.
  destruct (urlsafe_roundtrip raw) as (H1 & H2 & H3); [intros ->; by rewrite loads_empty in Hraw|].
  split; [exact H1|]. cbn zeta in *. rewrite H1, H2, H3, Hraw. cbn. rewrite Hd. by destruct c.
Qed.

Lemma boundary_cursor r d : valid_direction d = true -> representable (row_created_at r) -> boundary (Some (cursor_of r d)) = Ok (Some (row_key r)).
Proof.
  intros Hd Hr. unfold boundary, cursor_of. set (c := {| created_at := _ |}). destruct (decode_encode c Hd) as [Ht Hdec].
  unfold opt_truthy. rewrite Ht, Hdec. cbn [created_at c]. by rewrite replace_not_Z, fromisoformat_law, bind_law by (done || apply isoformat_not_Z).
Qed.

Context (limit_ : json) (lim : Z).
Hypothesis limit_ok : normalize_limit limit_ DEFAULT_LIMIT MAX_LIMIT = Ok lim.

(** A statement's own order agrees with the page's: it has none ([st_order] is always true),
    or one, such as [created_at DESC], that newest first refines. *)
Definition agrees (stmt : Select) : Prop := forall x y, newest_first x y = true -> st_order stmt x y = true.

Lemma then_by_agrees stmt x y : agrees stmt -> then_by (st_order stmt) newest_first x y = newest_first x y.
Proof.
  intros H. unfold then_by. destruct (newest_first x y) eqn:Hxy.
  - rewrite (H x y Hxy). by rewrite orb_true_r.
  - destruct (newest_first_total x y) as [Hc|Hyx]; [congruence|]. rewrite (H y x Hyx). cbn. by rewrite andb_false_r.
Qed.

(** A request in the cursor mode, of a statement whose own order agrees. *)
Lemma paginate_cursor stmt c b : agrees stmt -> boundary c = Ok b ->
  let rest := isort newest_first (List.filter (past b) (st_rows stmt)) in
  exists p, paginate stmt (Some "cursor") limit_ JNull c true = Ok p /\ items p = take (Z.to_nat lim) rest /\
    next_cursor p = (if lim <? Z.of_nat (length rest) then (fun r => cursor_of r "next") <$> last (take (Z.to_nat lim) rest) else None) /\
    prev_cursor p = (match opt_truthy c with Some _ => (fun r => cursor_of r "prev") <$> head (take (Z.to_nat lim) rest) | None => None end).
Proof.
  intros Hord Hb rest. pose proof (limit_positive _ _ limit_ok) as Hlim. unfold paginate. rewrite limit_ok. cbn. rewrite Hb.
  rewrite (isort_ext (then_by (st_order stmt) newest_first) newest_first) by (intros x y; by apply then_by_agrees).
  fold rest. eexists. split; [reflexivity|]. cbn. rewrite take_take, Nat.min_l by lia. split; [done|]. split; [|done].
  rewrite length_take. destruct (Z.ltb_spec lim (Z.of_nat (Nat.min (Z.to_nat (lim + 1)) (length rest)))), (Z.ltb_spec lim (Z.of_nat (length rest))); lia || done.
Qed.

(** A statement that is read again and again while rows are added to its table, all of them
    newer than those that were there. *)
Context (reads : nat -> Select).
Local Abbreviation listing := (isort newest_first (st_rows (reads 0%nat))).
Hypothesis ordered : forall n, agrees (reads n).
Hypothesis unique : forall n, NoDup (map row_id (st_rows (reads n))).
Hypothesis grows : forall n r, In r (st_rows (reads n)) <->
  In r (st_rows (reads 0%nat)) \/ (In r (st_rows (reads n)) /\ forall y, In y (st_rows (reads 0%nat)) -> newer r y).
Hypothesis dated : forall r, In r (st_rows (reads 0%nat)) -> representable (row_created_at r).

(** What a request finds below a row of the first listing. *)
Lemma rest_of_read n pre x suf : listing = pre ++ x :: suf ->
  isort newest_first (List.filter (below (row_key x)) (st_rows (reads n))) = suf.
Proof.
  intros Hl. assert (Hs : StronglySorted newer (pre ++ x :: suf)) by (rewrite <- Hl; apply sorted_newer, unique).
  apply (strict_unique newer); [by apply sorted_newer, NoDup_map_filter|apply sorted_app_inv in Hs as (_ & Hs & _); by inversion Hs|].
  intros r. rewrite isort_In, filter_In, below_newer, grows, <- (rest_of_listing pre x suf Hs), <- Hl, isort_In. split; [|tauto].
  intros [[Hr|[_ Hr]] Hx]; [done|]. exfalso. apply (irreflexivity newer r). transitivity x; [|done]. apply Hr.
  rewrite <- (isort_In newest_first), Hl. apply in_app_iff. right. by left.
Qed.

Lemma walk_run fuel : forall n pre x suf, listing = pre ++ x :: suf -> (length suf < fuel)%nat ->
  walk fuel reads limit_ n (Some (cursor_of x "next")) = Some (Ok suf).
Proof.
  induction fuel as [|fuel IH]; intros n pre x suf Hl Hf; [lia|]. pose proof (limit_positive _ _ limit_ok) as Hlim. cbn [walk].
  assert (Hin : forall r, In r (pre ++ x :: suf) -> representable (row_created_at r)).
  { intros r Hr. rewrite <- Hl, isort_In in Hr. by apply dated. }
  destruct (paginate_cursor (reads n) (Some (cursor_of x "next")) (Some (row_key x)) (ordered n)) as (p & -> & Hi & Hn & _).
  { apply boundary_cursor; [done|]. apply Hin, in_app_iff. right. by left. }
  cbn [past] in Hi, Hn. rewrite (rest_of_read n pre x suf Hl) in Hi, Hn. rewrite Hn, Hi.
  destruct (Z.ltb_spec lim (Z.of_nat (length suf))) as [Hlt|Hle]; [|by rewrite take_ge by lia].
  destruct (last (take (Z.to_nat lim) suf)) as [y|] eqn:Hy.
  - cbn [fmap option_fmap option_map]. apply last_Some in Hy as [front Hy].
    rewrite (IH (S n) (pre ++ x :: front) y (drop (Z.to_nat lim) suf)); [by rewrite take_drop|..].
    + rewrite Hl, <- (take_drop (Z.to_nat lim) suf), Hy at 1. by rewrite <- !app_assoc.
    + rewrite length_drop. lia.
  - apply last_None in Hy. apply (f_equal length) in Hy. rewrite length_take in Hy. cbn in Hy. lia.
Qed.

Lemma walk_from_start fuel : (length (st_rows (reads 0%nat)) < fuel)%nat -> walk fuel reads limit_ 0 None = Some (Ok listing).
Proof.
  rewrite <- (Permutation_length (isort_perm newest_first (st_rows (reads 0%nat)))).
  destruct fuel as [|fuel]; intros Hf; [lia|]. pose proof (limit_positive _ _ limit_ok) as Hlim. cbn [walk].
  destruct (paginate_cursor (reads 0%nat) None None (ordered 0) eq_refl) as (p & -> & Hi & Hn & _).
  cbn [past] in Hi, Hn. assert (Hall : forall l : list Row, List.filter (fun _ => true) l = l) by (intros l; induction l as [|r l IHl]; cbn; congruence).
  rewrite Hall in Hi, Hn. rewrite Hn, Hi. destruct (Z.ltb_spec lim (Z.of_nat (length listing))) as [Hlt|Hle]; [|by rewrite take_ge by lia].
  destruct (last (take (Z.to_nat lim) listing)) as [y|] eqn:Hy.
  - cbn [fmap option_fmap option_map]. apply last_Some in Hy as [front Hy].
    rewrite (walk_run fuel 1 front y (drop (Z.to_nat lim) listing)); [by rewrite take_drop|..].
    + rewrite <- (take_drop (Z.to_nat lim) listing), Hy at 1. by rewrite <- app_assoc.
    + rewrite length_drop. lia.
  - apply last_None in Hy. apply (f_equal length) in Hy. rewrite length_take in Hy. cbn in Hy. lia.
Qed.

(** The page of a [prev_cursor]: it is not the page before, but begins with the row that
    follows the head of the page the cursor came with. *)
Lemma previous_page n pre x suf : listing = pre ++ x :: suf ->
  exists p, paginate (reads n) (Some "cursor") limit_ JNull (Some (cursor_of x "prev")) true = Ok p /\ items p = take (Z.to_nat lim) suf.
Proof.
  intros Hl. destruct (paginate_cursor (reads n) (Some (cursor_of x "prev")) (Some (row_key x)) (ordered n)) as (p & Hp & Hi & _).
  - apply boundary_cursor; [done|]. apply dated. rewrite <- (isort_In newest_first), Hl. apply in_app_iff. right. by left.
  - exists p. cbn [past] in Hi. by rewrite Hi, (rest_of_read n pre x suf Hl).
Qed.

(** ** Properties *)

(** A cursor is opaque and lossless: its text is read back as the cursor it was made from,
    whatever its fields hold, although the padding of the base 64 is cut off. *)
Theorem cursor_roundtrip c : valid_direction (direction c) = true -> decode_cursor (encode_cursor c) = Ok c.
Proof. intros Hd. by apply decode_encode. Qed.

(** C39. Following the cursors reads the listing: with any allowed page size, a client that starts
    without a cursor and follows [next_cursor] gets every row of the first listing exactly
    once, newest first, and is done after at most one request more than rows - also when
    rows are added between its requests, which it does not see.  This is for a statement
    without an ORDER BY of its own, or with one that agrees with [created_at DESC, id DESC]
    (with another one rows are lost and repeated, as the example
    [own_order_breaks_the_walk] shows), whose rows have distinct ids and dates between the
    years 1 and 9999, and to which only rows newer than all of the first listing are added
    meanwhile; and it supposes of the libraries that the JSON text of a cursor, and the date
    in it, are read back as they were written. *)
Theorem walk_is_the_listing fuel : (length (st_rows (reads 0%nat)) < fuel)%nat ->
  exists l, walk fuel reads limit_ 0 None = Some (Ok l) /\ Permutation l (st_rows (reads 0%nat)) /\ StronglySorted newer l.
Proof.
  intros Hf. exists listing. split; [by apply walk_from_start|]. split; [apply isort_perm|apply sorted_newer, unique].
Qed.

(** [prev_cursor] does not lead back: the direction of a cursor is not looked at, and the
    page it gives begins with the row after the head of the page it came with. *)
Theorem previous_page_goes_forward n c b p x : boundary c = Ok b -> paginate (reads n) (Some "cursor") limit_ JNull c true = Ok p ->
  head (items p) = Some x -> In x (st_rows (reads 0%nat)) -> opt_truthy c <> None ->
  exists cursor p' pre suf, prev_cursor p = Some cursor /\ isort newest_first (st_rows (reads 0%nat)) = pre ++ x :: suf /\
    paginate (reads n) (Some "cursor") limit_ JNull (Some cursor) true = Ok p' /\ items p' = take (Z.to_nat lim) suf.
Proof.
  intros Hb Hp Hx Hin Hc. destruct (paginate_cursor (reads n) c b (ordered n) Hb) as (p0 & Hp0 & Hi & _ & Hprev).
  rewrite Hp in Hp0. injection Hp0 as <-. rewrite <- Hi, Hx in Hprev. destruct (opt_truthy c); [|done].
  rewrite <- (isort_In newest_first) in Hin. apply in_split in Hin as (pre & suf & Hl).
  destruct (previous_page n pre x suf Hl) as (p' & Hp' & Hi'). by exists (cursor_of x "prev"), p', pre, suf.
Qed.
End Paginate.
End Cursors.

(** A page is never longer than the limit, and the limit never above 200. *)
Theorem page_is_bounded {Row} json_dumps json_loads repr_other (row_created_at : Row -> Z) row_id from bind stmt mode limit_ offset_ cursor columns p :
  paginate json_dumps json_loads repr_other row_created_at row_id from bind stmt mode limit_ offset_ cursor columns = Ok p ->
  Z.of_nat (length (items p)) <= limit p /\ 1 <= limit p <= MAX_LIMIT.
Proof.
  unfold paginate. destruct (normalize_limit _ _ _) as [lim|] eqn:Hl; [|done]. pose proof (limit_positive _ _ Hl) as Hlim. intros H.
  assert (Hlen : limit p = lim /\ exists l, items p = take (Z.to_nat lim) l) by (repeat case_match; simplify_eq; cbn; eauto).
  destruct Hlen as (-> & l & ->). rewrite length_take. lia.
Qed.

(** ** A listing *)

Module DemoPagination.
Definition text (j : json) : string := match j with JStr s => hex s | _ => "" end.
Definition dumps (j : json) : bytes :=
  match j with JObj [(_, a); (_, b); (_, c)] => text a +:+ "," +:+ text b +:+ "," +:+ text c | _ => "" end.
Definition loads (b : bytes) : option json :=
  match map fromhex (split_char "," b) with
  | [Some t; Some d; Some i] => Some (JObj [("created_at", JStr t); ("direction", JStr d); ("id", JStr i)])
  | _ => None
  end.

Definition not_comma (c : ascii) : bool := negb (Ascii.eqb "," c).
Lemma hex_not_comma s : sall not_comma (hex s) = true.
Proof.
  assert (Hd : forall n, 0 <= n < 16 -> not_comma (hex_digit n) = true) by (apply (forall_below 16 (fun n => not_comma (hex_digit n))); vm_compute; reflexivity).
  induction s as [|c s IH]; [done|]. cbn [hex sall]. destruct (ord_nibbles c). by rewrite !Hd, IH.
Qed.

Lemma cursor_loads_dumps t d i : let o := JObj [("created_at", JStr t); ("direction", JStr d); ("id", JStr i)] in loads (dumps o) = Some o.
Proof.
  cbn zeta. unfold loads, dumps, text.
  assert (Hc : forall s, "," +:+ s = String "," s) by done. rewrite !Hc, !split_char_app, !split_char_none by apply hex_not_comma. cbn [map app]. by rewrite !fromhex_hex.
Qed.

Definition row : Type := Z * string.
Definition at_day (d : Z) (i : string) : row := (days d, i).
Definition bind (v : datetime + string) : option Z := match v with inl d => (fun _ => instant d) <$> tzinfo d | inr _ => None end.
Definition stmt (l : list row) : Select (Row := row) := {| st_rows := l; st_order := fun _ _ => true |}.
Definition old_rows : list row := [at_day 1 "a"; at_day 3 "c"; at_day 3 "d"; at_day 2 "b"; at_day 0 "e"].
(** A newer row is there from the second request on. *)
Definition reads (n : nat) : Select (Row := row) := stmt (match n with O => old_rows | S _ => at_day 9 "z" :: old_rows end).
Definition ask := paginate (Row := row) dumps loads (fun _ => "") fst snd fromisoformat bind.
Definition follow (fuel : nat) (size : Z) := walk (Row := row) dumps loads (fun _ => "") fst snd fromisoformat bind fuel reads (JInt size) 0 None.

Example five_rows : follow 6 2 = Some (Ok [at_day 3 "d"; at_day 3 "c"; at_day 2 "b"; at_day 1 "a"; at_day 0 "e"]).
Proof. vm_compute. reflexivity. Qed.

Definition second (size : Z) : result page_error (Page (Row := row)) :=
  match ask (stmt old_rows) (Some "cursor") (JInt size) JNull None true with
  | Ok p => ask (stmt old_rows) (Some "cursor") (JInt size) JNull (next_cursor p) true
  | Raise e => Raise e
  end.

(** From the second page back: the page of [prev_cursor] begins inside the second page. *)
Example back_is_forward :
  match second 2 with
  | Ok p => items p = [at_day 2 "b"; at_day 1 "a"] /\
      match ask (stmt old_rows) (Some "cursor") (JInt 2) JNull (prev_cursor p) true with Ok q => items q = [at_day 1 "a"; at_day 0 "e"] | Raise _ => False end
  | Raise _ => False
  end.
Proof. vm_compute. split; reflexivity. Qed.

(** With an order of its own, here by id, a statement loses rows and gives others twice. *)
Example own_order_breaks_the_walk :
  let own := {| st_rows := old_rows; st_order := fun x y => String.leb x.2 y.2 |} in
  walk (Row := row) dumps loads (fun _ => "") fst snd fromisoformat bind 9 (fun _ => own) (JInt 2) 0 None =
    Some (Ok [at_day 1 "a"; at_day 2 "b"; at_day 1 "a"; at_day 0 "e"]).
Proof. vm_compute. reflexivity. Qed.

Example refused :
  map (fun x => match ask (stmt old_rows) (Some " Cursor ") x.1 JNull x.2 true with Ok p => None | Raise e => Some e end)
    [(JInt 0, None); (JInt 201, None); (JStr "x", None); (JFloat (S754_infinity false), None); (JStr "7", Some "?"); (JNull, Some "e30")] =
  [Some (ValueError "limit must be >= 1"); Some (ValueError "limit must be <= 200"); Some (ValueError "limit must be an integer"); Some OverflowError;
   Some (ValueError "invalid cursor"); Some (ValueError "invalid cursor")].
Proof. vm_compute. reflexivity. Qed.

Lemma grows n r : In r (st_rows (reads n)) <->
  In r old_rows \/ (In r (st_rows (reads n)) /\ forall y, In y old_rows -> newer (Row := row) fst snd r y).
Proof.
  destruct n as [|n]; [cbn; tauto|]. cbn [reads stmt st_rows]. split; [|intros [H|[H _]]; [by right|done]].
  intros [<-|H]; [|by left]. right. split; [by left|]. intros y Hy. cbn in Hy. by repeat destruct Hy as [<-|Hy].
Qed.

Lemma unique n : NoDup (map snd (st_rows (reads n))).
Proof. apply NoDup_ListNoDup. destruct n; repeat constructor; cbn; naive_solver. Qed.

Lemma dated r : In r old_rows -> representable (fst r).
Proof.
  intros Hr. unfold representable. assert (Hy : forallb (fun r => (1 <=? (civil_from_days (day_of (fst r))).1.1) && ((civil_from_days (day_of (fst r))).1.1 <=? 9999)) old_rows = true)
    by (vm_compute; reflexivity).
  rewrite forallb_forall in Hy. specialize (Hy r Hr). destruct (civil_from_days _) as [[y m] d]. cbn in Hy. lia.
Qed.

Lemma bind_law us : bind (inl (utc us)) = Some us.
Proof. unfold bind. cbn. by rewrite instant_utc. Qed.

Lemma cursor_roundtrip_witness : let c := {| created_at := "2026-01-01"; cursor_id := "id,%"; direction := "prev" |} in
  decode_cursor loads (fun _ => "") (encode_cursor dumps c) = Ok c.
Proof. apply (cursor_roundtrip dumps loads (fun _ => "") cursor_loads_dumps eq_refl). reflexivity. Defined.

Lemma walk_is_the_listing_witness : exists l, follow 6 2 = Some (Ok l) /\ Permutation l old_rows.
Proof.
  destruct (walk_is_the_listing dumps loads (fun _ => "") fst snd fromisoformat bind cursor_loads_dumps eq_refl fromisoformat_isoformat bind_law
              (JInt 2) 2 eq_refl reads (fun _ _ _ _ => eq_refl) unique grows dated 6 ltac:(cbn; lia)) as (l & H & Hp & _).
  exact (ex_intro _ l (conj H Hp)).
Defined.

Lemma previous_page_goes_forward_witness : exists c p, prev_cursor (Row := row) p = Some c /\
  match second 2 with Ok q => q = p | Raise _ => False end.
Proof.
  destruct (ask (stmt old_rows) (Some "cursor") (JInt 2) JNull None true) as [p|e] eqn:H; [|vm_compute in H; discriminate].
  destruct (ask (stmt old_rows) (Some "cursor") (JInt 2) JNull (next_cursor p) true) as [q|e] eqn:Hq; [|vm_compute in H; injection H as <-; vm_compute in Hq; discriminate].
  destruct (previous_page_goes_forward dumps loads (fun _ => "") fst snd fromisoformat bind cursor_loads_dumps eq_refl fromisoformat_isoformat bind_law
              (JInt 2) 2 eq_refl reads (fun _ _ _ _ => eq_refl) unique grows dated 0 (next_cursor p) (Some (days 3, "c")) q (at_day 2 "b"))
    as (c & _ & _ & _ & Hc & _).
  - vm_compute in H. injection H as <-. vm_compute. reflexivity.
  - exact Hq.
  - vm_compute in H. injection H as <-. vm_compute in Hq. injection Hq as <-. reflexivity.
  - cbn. tauto.
  - vm_compute in H. injection H as <-. vm_compute. discriminate.
  - exists c, q. split; [exact Hc|]. unfold second. rewrite H, Hq. reflexivity.
Defined.

Lemma page_is_bounded_witness : exists p, second 2 = Ok p /\ Z.of_nat (length (items p)) <= limit p.
Proof.
  destruct (ask (stmt old_rows) None (JInt 2) JNull None true) as [p0|e] eqn:H0; [|vm_compute in H0; discriminate].
  destruct (second 2) as [p|e] eqn:H; [|vm_compute in H; discriminate]. exists p. split; [reflexivity|]. unfold second in H.
  destruct (ask (stmt old_rows) (Some "cursor") (JInt 2) JNull None true) as [q|e]; [|discriminate H].
  exact (proj1 (page_is_bounded _ _ _ _ _ _ _ _ _ _ _ _ _ _ H)).
Defined.
End DemoPagination.
