(* ===== verification/NightlyDigests.v ===== *)
(** * The nightly digest task

    workers/tasks/audit_tasks.py, the part that runs every night: the digest of yesterday
    of every tenant is verified, or computed and stored when there is none, in one session
    that commits at the end. *)

From S2P Require Import Prelude PyStr Json Encoding PyTime Crypto AuditDigest.

(** workers/tasks/audit_tasks.py:40-48, [_run_for_all_tenants]: the summary. *)
Record summary : Type := {
  tenants_total : Z; tenants_new : Z; tenants_verified : Z; tenants_mismatched : Z; tenants_failed : Z;
  mismatches : list (string * string * string) }.
Definition empty_summary (total : Z) : summary :=
  {| tenants_total := total; tenants_new := 0; tenants_verified := 0; tenants_mismatched := 0; tenants_failed := 0; mismatches := [] |}.
#[export] Instance summary_eq_dec : EqDecision summary.
Proof. solve_decision. Defined.

(** What a night does with one tenant. *)
Inductive outcome : Type := New | Verified | Mismatched (entry : string * string * string) | Failed.

(** workers/tasks/audit_tasks.py:59-92, [_run_for_all_tenants]: the counters. *)
Definition count (o : outcome) (s : summary) : summary :=
  match o with
  | New => {| tenants_total := tenants_total s; tenants_new := tenants_new s + 1; tenants_verified := tenants_verified s;
              tenants_mismatched := tenants_mismatched s; tenants_failed := tenants_failed s; mismatches := mismatches s |}
  | Verified => {| tenants_total := tenants_total s; tenants_new := tenants_new s; tenants_verified := tenants_verified s + 1;
                   tenants_mismatched := tenants_mismatched s; tenants_failed := tenants_failed s; mismatches := mismatches s |}
  | Mismatched entry =>
      {| tenants_total := tenants_total s; tenants_new := tenants_new s; tenants_verified := tenants_verified s;
         tenants_mismatched := tenants_mismatched s + 1; tenants_failed := tenants_failed s; mismatches := mismatches s ++ [entry] |}
  | Failed => {| tenants_total := tenants_total s; tenants_new := tenants_new s; tenants_verified := tenants_verified s;
                 tenants_mismatched := tenants_mismatched s; tenants_failed := tenants_failed s + 1; mismatches := mismatches s |}
  end.

Section Nightly.
Context (sha256 : bytes -> bytes) (canonical_json_bytes : json -> option bytes).

(** services/audit_hash_service.py, [verify_daily_digest]: the stored and the recomputed
    digest in the context of the mismatch. *)
Definition mismatch_entry (db : DigestDB) (tid : string) (day_utc : Z) : string * string * string :=
  (tid, match find_digest db tid day_utc with Some d => digest_sha256 d | None => "" end,
   match compute_daily_digest sha256 canonical_json_bytes db tid day_utc with Ok (h, _, _) => h | Raise _ => "" end).

(** workers/tasks/audit_tasks.py:55-98, [_run_for_all_tenants]: one tenant; [raced] are
    the digests other workers commit before its flush. *)
Definition run_tenant (raced : list AuditHashDigest) (day_utc : Z) (tid : string) (s : session DigestDB) : outcome * session DigestDB :=
  match verify_daily_digest sha256 canonical_json_bytes (working s) tid day_utc with
  | Ok _ => (Verified, s)
  | Raise (AuditHashMismatch reason) =>
      if negb (String.eqb reason "missing") then (Mismatched (mismatch_entry (working s) tid day_utc), s)
      else
        match ensure_daily_digest sha256 canonical_json_bytes raced tid day_utc s with
        | (Ok _, s) => (New, s)
        | (Raise _, s) => (Failed, s)
        end
  | Raise _ => (Failed, s)
  end.

(** workers/tasks/audit_tasks.py:54-98, [_run_for_all_tenants]: the loop. *)
Fixpoint run_tenants (raced : string -> list AuditHashDigest) (day_utc : Z) (tids : list string) (acc : summary) (s : session DigestDB) :
    summary * session DigestDB :=
  match tids with
  | [] => (acc, s)
  | tid :: tids => let '(o, s) := run_tenant (raced tid) day_utc tid s in run_tenants raced day_utc tids (count o acc) s
  end.

(** workers/tasks/audit_tasks.py, [_run_for_all_tenants], on the committed tables. *)
Definition _run_for_all_tenants (raced : string -> list AuditHashDigest) (now : datetime) (db : DigestDB) : summary * DigestDB :=
  let '(summary, s) := run_tenants raced (previous_utc_day now) (dg_tenants db) (empty_summary (Z.of_nat (length (dg_tenants db)))) (Session db db) in
  (summary, committed (snd (commit (E := digest_error) s))).

(** workers/tasks/audit_tasks.py, [verify_nightly_audit_hash_task]: the status; [None] is
    a database that cannot be reached or does not commit. *)
Definition verify_nightly_audit_hash_task (s : option summary) : string :=
  match s with
  | None => "failed"
  | Some s => if (tenants_mismatched s =? 0) && (tenants_failed s =? 0) then "ok" else "alert"
  end.

(** ** Lemmas *)

Context (day : Z).

(** The digest a night stores for a tenant that has none. *)
Definition digest_of (db : DigestDB) (tid : string) : option AuditHashDigest :=
  match compute_daily_digest sha256 canonical_json_bytes db tid day with
  | Ok (h, n, p) => Some {| dg_tenant_id := tid; covers_date := days day; digest_sha256 := h; prev_digest_sha256 := p; row_count := n |}
  | Raise _ => None
  end.

(** What a night without races does with one tenant. *)
Definition night (db : DigestDB) (tid : string) : outcome * DigestDB :=
  match find_digest db tid day with
  | Some _ =>
      (match verify_daily_digest sha256 canonical_json_bytes db tid day with
       | Ok _ => Verified
       | Raise (AuditHashMismatch _) => Mismatched (mismatch_entry db tid day)
       | Raise _ => Failed
       end, db)
  | None => match digest_of db tid with Some d => (New, add_digest d db) | None => (Failed, db) end
  end.

Lemma verify_reason db tid reason :
  verify_daily_digest sha256 canonical_json_bytes db tid day = Raise (AuditHashMismatch reason) ->
  reason = match find_digest db tid day with None => "missing" | Some _ => "mismatch" end.
Proof.
  unfold verify_daily_digest, compute_daily_digest, _digest_rows. destruct (find_digest db tid day) as [d|]; [|by intros [= <-]].
  destruct (canonical_json_bytes _); [|done]. destruct (_ || _); [|done]. by intros [= <-].
Qed.

Lemma ensure_alone tid db c : In tid (dg_tenants db) -> find_digest db tid day = None ->
  ensure_daily_digest sha256 canonical_json_bytes [] tid day (Session db c) =
    match compute_daily_digest sha256 canonical_json_bytes db tid day with
    | Ok (h, n, p) =>
        let d := {| dg_tenant_id := tid; covers_date := days day; digest_sha256 := h; prev_digest_sha256 := p; row_count := n |} in
        (Ok d, Session (add_digest d db) c)
    | Raise e => (Raise e, Session db c)
    end.
Proof.
  intros Hin Hf. unfold ensure_daily_digest, query, bind, reads, ret. cbn [working]. rewrite Hf. cbn beta iota delta [working].
  destruct (compute_daily_digest _ _ db tid day) as [[[h n] p]|e]; [|reflexivity]. cbn [existsb fold_left working committed].
  assert (Hx : existsb (String.eqb tid) (dg_tenants db) = true) by (apply existsb_exists; exists tid; by rewrite String.eqb_refl).
  by rewrite Hx.
Qed.

Lemma run_tenant_night tid db c : In tid (dg_tenants db) ->
  run_tenant [] day tid (Session db c) = let '(o, db) := night db tid in (o, Session db c).
Proof.
  intros Hin. unfold run_tenant, night. cbn [working].
  destruct (verify_daily_digest sha256 canonical_json_bytes db tid day) as [d|e] eqn:Hv.
  - apply verify_Ok in Hv as [-> _]. done.
  - destruct (find_digest db tid day) as [d|] eqn:Hf.
    + destruct e as [| |reason]; [done|done|]. apply verify_reason in Hv. rewrite Hf in Hv. by subst reason.
    + unfold verify_daily_digest in Hv. rewrite Hf in Hv. injection Hv as <-. rewrite ensure_alone by done.
      unfold digest_of. by destruct (compute_daily_digest _ _ db tid day) as [[[h n] p]|e].
Qed.

(** What the nights of other tenants, and its own, leave to a tenant. *)
Lemma night_keeps db tid o db' : night db tid = (o, db') ->
  dg_tenants db' = dg_tenants db /\ audit_logs db' = audit_logs db /\
  (forall t, find_digest db' t (day - 1) = find_digest db t (day - 1)) /\
  (forall t, compute_daily_digest sha256 canonical_json_bytes db' t day = compute_daily_digest sha256 canonical_json_bytes db t day) /\
  (forall t, find_digest db' t day = or_else (find_digest db t day) (if String.eqb tid t then digest_of db t else None)).
Proof.
  unfold night. destruct (find_digest db tid day) as [d|] eqn:Hf.
  - intros [= <- <-]. split_and!; try done. intros t. destruct (String.eqb_spec tid t) as [<-|]; [by rewrite Hf|].
    by destruct (find_digest db t day).
  - destruct (digest_of db tid) as [d|] eqn:Hd; intros [= <- <-].
    + unfold digest_of in Hd. destruct (compute_daily_digest _ _ db tid day) as [[[h n] p]|] eqn:Hc; [|done]. injection Hd as <-.
      split_and!; [done|done| | |].
      * intros t. rewrite find_digest_add. cbn. replace (days day =? days (day - 1)) with false by (unfold days, us_per_day; lia).
        rewrite andb_false_r. by destruct (find_digest db t (day - 1)).
      * intros t. by apply compute_add_digest.
      * intros t. rewrite find_digest_add. cbn. rewrite Z.eqb_refl, andb_true_r.
        destruct (String.eqb_spec tid t) as [<-|]; [|done]. unfold digest_of. by rewrite Hc.
    + split_and!; try done. intros t. destruct (String.eqb_spec tid t) as [<-|]; [by rewrite Hf, Hd|].
      by destruct (find_digest db t day).
Qed.
(** The nights of several tenants. *)
Fixpoint nights (tids : list string) (db : DigestDB) : list outcome * DigestDB :=
  match tids with
  | [] => ([], db)
  | tid :: tids => let '(o, db) := night db tid in let '(os, db) := nights tids db in (o :: os, db)
  end.
Definition counted (os : list outcome) (acc : summary) : summary := fold_left (fun s o => count o s) os acc.

Lemma run_tenants_nights tids : forall acc db c, (forall tid, In tid tids -> In tid (dg_tenants db)) ->
  run_tenants (fun _ => []) day tids acc (Session db c) = let '(os, db) := nights tids db in (counted os acc, Session db c).
Proof.
  induction tids as [|tid tids IH]; intros acc db c Hin; cbn [run_tenants nights]; [done|].
  rewrite run_tenant_night by (apply Hin; by left). destruct (night db tid) as [o db'] eqn:Hn.
  destruct (night_keeps _ _ _ _ Hn) as (Ht & _). rewrite IH by (intros t Hit; rewrite Ht; apply Hin; by right).
  by destruct (nights tids db').
Qed.

(** A tenant no further night gives a digest. *)
Definition settled (db : DigestDB) (tid : string) : Prop := find_digest db tid day = None -> digest_of db tid = None.
(** Two states that are the same for a tenant. *)
Definition same_for (tid : string) (db db' : DigestDB) : Prop :=
  compute_daily_digest sha256 canonical_json_bytes db' tid day = compute_daily_digest sha256 canonical_json_bytes db tid day /\
  find_digest db' tid day = find_digest db tid day.

Lemma night_settles db tid o db' : night db tid = (o, db') -> settled db' tid.
Proof.
  intros Hn. pose proof (night_keeps _ _ _ _ Hn) as (_ & _ & _ & Hc & Hf). unfold settled, digest_of. rewrite Hc, Hf, String.eqb_refl.
  destruct (find_digest db tid day); [done|]. unfold digest_of, or_else. by destruct (compute_daily_digest _ _ db tid day) as [[[h n] p]|].
Qed.

Lemma nights_same tids tid : forall db os db', nights tids db = (os, db') -> settled db tid -> same_for tid db db'.
Proof.
  induction tids as [|t tids IH]; intros db os db'; cbn [nights]; [by intros [= <- <-]|].
  destruct (night db t) as [o db1] eqn:Hn. destruct (nights tids db1) as [os' db2] eqn:Hns. intros [= <- <-] Hs.
  pose proof (night_keeps _ _ _ _ Hn) as (_ & _ & _ & Hc & Hf).
  assert (H1 : same_for tid db db1).
  { split; [apply Hc|]. rewrite Hf. destruct (find_digest db tid day) eqn:Hfd; [done|]. rewrite (Hs Hfd). by destruct (String.eqb t tid). }
  assert (Hs1 : settled db1 tid) by (unfold settled, digest_of in *; by rewrite Hc, (proj2 H1)).
  destruct (IH _ _ _ Hns Hs1) as [Hc2 Hf2]. destruct H1 as [Hc1 Hf1]. split; congruence.
Qed.

(** What the second night of a tenant is. *)
Definition again (o : outcome) : outcome := match o with New => Verified | o => o end.

Lemma night_again db tid o db' db1 : night db tid = (o, db') -> same_for tid db' db1 -> night db1 tid = (again o, db1).
Proof.
  unfold night, same_for. intros Hn [Hc Hf]. destruct (find_digest db tid day) as [d|] eqn:Hfd.
  - injection Hn as <- <-. unfold verify_daily_digest, mismatch_entry. rewrite Hf, Hfd, Hc.
    destruct (compute_daily_digest _ _ db tid day) as [[[h n] p]|e]; [by destruct (_ || _)|by destruct e].
  - unfold digest_of in *. destruct (compute_daily_digest _ _ db tid day) as [[[h n] p]|e] eqn:Hcd; injection Hn as <- <-.
    + rewrite compute_add_digest, Hcd in Hc by done. rewrite find_digest_add, Hfd in Hf. cbn in Hf.
      rewrite String.eqb_refl, Z.eqb_refl in Hf. cbn in Hf. unfold verify_daily_digest. rewrite Hf, Hc. cbn. by rewrite !String.eqb_refl.
    + by rewrite Hf, Hfd, Hc, Hcd.
Qed.

Lemma nights_again tids : forall db os db', nights tids db = (os, db') -> nights tids db' = (map again os, db').
Proof.
  cut (forall db os db', nights tids db = (os, db') ->
    forall db1, (forall tid, In tid tids -> settled db' tid -> same_for tid db' db1) -> nights tids db1 = (map again os, db1)).
  { intros H db os db' Hn. by apply (H _ _ _ Hn). }
  induction tids as [|tid tids IH]; intros db os db'; cbn [nights]; [by intros [= <- <-]|].
  destruct (night db tid) as [o db1] eqn:Hn. destruct (nights tids db1) as [os' db2] eqn:Hns. intros [= <- <-] db3 H3.
  pose proof (night_settles _ _ _ _ Hn) as Hset. pose proof (nights_same _ _ _ _ _ Hns Hset) as Hsame.
  assert (Hset2 : settled db2 tid) by (destruct Hsame as [Hc Hf]; unfold settled, digest_of in *; by rewrite Hc, Hf).
  assert (Hall : same_for tid db1 db3).
  { destruct (H3 tid (or_introl eq_refl) Hset2) as [? ?]. destruct Hsame as [? ?]. split; congruence. }
  rewrite (night_again _ _ _ _ _ Hn Hall), (IH _ _ _ Hns db3); [done|]. intros t Ht. apply H3. by right.
Qed.

(** The digests a night adds. *)
Lemma nights_add tids : forall db os db', nights tids db = (os, db') ->
  dg_tenants db' = dg_tenants db /\ audit_logs db' = audit_logs db /\
  exists added, audit_hash_digests db' = audit_hash_digests db ++ added /\
    Z.of_nat (length added) = Z.of_nat (length (List.filter (fun o => match o with New => true | _ => false end) os)) /\
    Forall (fun d => covers_date d = days day /\ In (dg_tenant_id d) tids) added.
Proof.
  induction tids as [|tid tids IH]; intros db os db'; cbn [nights].
  { intros [= <- <-]. split_and!; [done|done|]. exists []. by rewrite app_nil_r. }
  destruct (night db tid) as [o db1] eqn:Hn. destruct (nights tids db1) as [os' db2] eqn:Hns. intros [= <- <-].
  destruct (IH _ _ _ Hns) as (Ht & Hl & added & Ha & Hlen & Hall).
  assert (Hall' : Forall (fun d => covers_date d = days day /\ In (dg_tenant_id d) (tid :: tids)) added).
  { eapply List.Forall_impl; [|exact Hall]. cbn. naive_solver. }
  pose proof (night_keeps _ _ _ _ Hn) as (Ht1 & Hl1 & _). rewrite Ht, Hl. split_and!; [done|done|].
  unfold night in Hn. destruct (find_digest db tid day) eqn:Hf.
  - injection Hn as <- <-. exists added. split_and!; [done| |done]. cbn [List.filter].
    destruct (verify_daily_digest _ _ db tid day) as [|e]; [done|]. by destruct e.
  - unfold digest_of in Hn. destruct (compute_daily_digest _ _ db tid day) as [[[h n] p]|]; injection Hn as <- <-; [|by exists added].
    eexists (_ :: added). rewrite Ha. cbn. rewrite <- app_assoc. split_and!; [done|lia|]. constructor; [|done]. cbn. auto.
Qed.

Lemma counted_new os : forall acc, let news := Z.of_nat (length (List.filter (fun o => match o with New => true | _ => false end) os)) in
  let s := counted os acc in let s' := counted (map again os) acc in
  tenants_new s = tenants_new acc + news /\ tenants_new s' = tenants_new acc /\ tenants_verified s' = tenants_verified s + news /\
  tenants_total s = tenants_total acc /\ tenants_total s' = tenants_total acc /\ tenants_mismatched s' = tenants_mismatched s /\
  tenants_failed s' = tenants_failed s /\ mismatches s' = mismatches s /\
  tenants_new s + tenants_verified s + tenants_mismatched s + tenants_failed s =
    tenants_new acc + tenants_verified acc + tenants_mismatched acc + tenants_failed acc + Z.of_nat (length os).
Proof.
  cut (forall acc acc', tenants_total acc' = tenants_total acc -> tenants_mismatched acc' = tenants_mismatched acc ->
    tenants_failed acc' = tenants_failed acc -> mismatches acc' = mismatches acc ->
    let news := Z.of_nat (length (List.filter (fun o => match o with New => true | _ => false end) os)) in
    let s := counted os acc in let s' := counted (map again os) acc' in
    tenants_new s = tenants_new acc + news /\ tenants_new s' = tenants_new acc' /\
    tenants_verified s' - tenants_verified acc' = tenants_verified s - tenants_verified acc + news /\
    tenants_total s = tenants_total acc /\ tenants_total s' = tenants_total acc /\ tenants_mismatched s' = tenants_mismatched s /\
    tenants_failed s' = tenants_failed s /\ mismatches s' = mismatches s /\
    tenants_new s + tenants_verified s + tenants_mismatched s + tenants_failed s =
      tenants_new acc + tenants_verified acc + tenants_mismatched acc + tenants_failed acc + Z.of_nat (length os)).
  { intros H acc. destruct (H acc acc eq_refl eq_refl eq_refl eq_refl) as (? & ? & ? & ? & ? & ? & ? & ? & ?). cbn in *. split_and!; try done; lia. }
  unfold counted. induction os as [|o os IH]; intros acc acc' H1 H2 H3 H4; cbn -[Z.of_nat]; [split_and!; try done; lia|].
  assert (Hacc : tenants_total (count (again o) acc') = tenants_total (count o acc) /\
    tenants_mismatched (count (again o) acc') = tenants_mismatched (count o acc) /\
    tenants_failed (count (again o) acc') = tenants_failed (count o acc) /\ mismatches (count (again o) acc') = mismatches (count o acc))
    by (destruct o; cbn; rewrite ?H1, ?H2, ?H3, ?H4; done).
  destruct Hacc as (G1 & G2 & G3 & G4). destruct (IH _ _ G1 G2 G3 G4) as (? & ? & ? & ? & ? & ? & ? & ? & ?).
  destruct o; cbn -[Z.of_nat] in *; split_and!; try congruence; lia.
Qed.
End Nightly.

(** ** Properties *)

(** C35. Running the nightly task again on the same day is harmless: when no other worker
    races it, a run adds digests of that day after the stored ones and touches nothing
    else; every tenant is counted once; and a second run changes nothing, verifies every
    digest the first one made, and reports the same mismatches and failures. *)
Theorem nightly_run_is_idempotent sha256 canonical now now' db s db' :
  _run_for_all_tenants sha256 canonical (fun _ => []) now db = (s, db') ->
  previous_utc_day now' = previous_utc_day now ->
  dg_tenants db' = dg_tenants db /\ audit_logs db' = audit_logs db /\
  (exists added, audit_hash_digests db' = audit_hash_digests db ++ added /\ Z.of_nat (length added) = tenants_new s /\
     Forall (fun d => covers_date d = days (previous_utc_day now) /\ In (dg_tenant_id d) (dg_tenants db)) added) /\
  tenants_new s + tenants_verified s + tenants_mismatched s + tenants_failed s = tenants_total s /\
  _run_for_all_tenants sha256 canonical (fun _ => []) now' db' =
    ({| tenants_total := tenants_total s; tenants_new := 0; tenants_verified := tenants_verified s + tenants_new s;
        tenants_mismatched := tenants_mismatched s; tenants_failed := tenants_failed s; mismatches := mismatches s |}, db').
Proof.
  unfold _run_for_all_tenants. intros Hr ->. rewrite run_tenants_nights in Hr by done.
  destruct (nights sha256 canonical _ (dg_tenants db) db) as [os db1] eqn:Hn. injection Hr as <- <-.
  destruct (nights_add _ _ _ _ _ _ _ Hn) as (Ht & Hl & added & Ha & Hlen & Hall).
  pose proof (counted_new os (empty_summary (Z.of_nat (length (dg_tenants db))))) as
    (Hnew & Hnew' & Hver & Htot & Htot' & Hmis & Hfail & Hms & Hsum).
  assert (Hos : length os = length (dg_tenants db)).
  { clear -Hn. revert db1 os Hn. generalize db at 2. induction (dg_tenants db) as [|t l IH]; cbn; [by intros ? ? ? [= <- <-]|].
    intros db0 db1 os. destruct (night _ _ _ db0 t) as [o db2]. destruct (nights _ _ _ l db2) as [os' db3] eqn:Hn. intros [= <- <-].
    cbn. by rewrite (IH _ _ _ Hn). }
  cbn [working committed commit snd]. split_and!; [done|done| |cbn -[Z.of_nat counted Z.add] in *; lia|].
  - exists added. split_and!; [done| |done]. cbn in Hnew. lia.
  - rewrite Ht, run_tenants_nights by (by rewrite Ht). rewrite (nights_again _ _ _ _ _ _ _ Hn). cbn [commit snd committed working].
    f_equal. destruct (counted (map again os) _) as [a b c d e f]. cbn in *. f_equal; try done; lia.
Qed.

(** ** Runs *)

Module DemoNightly.

Definition db : DigestDB :=
  {| dg_tenants := ["t1"; "t2"]; audit_logs := [demo_log "a" (days 3); demo_log "b" (days 3 + 7)]; audit_hash_digests := [] |}.
Definition tonight : datetime := utc (days 4 + 5).
Definition run (raced : string -> list AuditHashDigest) : summary * DigestDB :=
  _run_for_all_tenants demo_sha demo_can raced tonight db.

Example first_night :
  let '(s, db) := run (fun _ => []) in
  (tenants_new s, map dg_tenant_id (audit_hash_digests db), map row_count (audit_hash_digests db)) = (2, ["t1"; "t2"], [2; 0]) /\
  verify_nightly_audit_hash_task (Some s) = "ok".
Proof. vm_compute. split; reflexivity. Qed.

(** When another worker stores the digest of a tenant first, the rollback of the lost race
    also undoes the digests of the tenants before it: the task reports two new digests and
    that all is well, and the digest of the first tenant is not stored. *)
Definition winner : AuditHashDigest :=
  {| dg_tenant_id := "t2"; covers_date := days 3; digest_sha256 := hex "0"; prev_digest_sha256 := ""; row_count := 0 |}.
Example lost_race_loses_digests :
  let '(s, db) := run (fun tid => if String.eqb tid "t2" then [winner] else []) in
  tenants_new s = 2 /\ verify_nightly_audit_hash_task (Some s) = "ok" /\ map dg_tenant_id (audit_hash_digests db) = ["t2"].
Proof. vm_compute. auto. Qed.

End DemoNightly.

Lemma nightly_run_is_idempotent_witness :
  _run_for_all_tenants demo_sha demo_can (fun _ => []) (utc (days 4 + 9)) (snd (DemoNightly.run (fun _ => []))) =
    ({| tenants_total := 2; tenants_new := 0; tenants_verified := 2; tenants_mismatched := 0; tenants_failed := 0; mismatches := [] |},
     snd (DemoNightly.run (fun _ => []))).
Proof.
  destruct (nightly_run_is_idempotent demo_sha demo_can DemoNightly.tonight (utc (days 4 + 9)) DemoNightly.db
    (fst (DemoNightly.run (fun _ => []))) (snd (DemoNightly.run (fun _ => []))) eq_refl eq_refl) as (_ & _ & _ & _ & H).
  rewrite H. reflexivity.
Defined.
