(* ===== verification/Auth.v ===== *)
(** * Registration, login, refresh and logout

    services/auth_service.py and the handlers of api/v1/auth.py: a tenant user's
    session from the first password to the last refresh token.  Every read of
    the clock and every random identifier is an argument.  Lockout is used
    through the class of Lockout.v. *)

From Stdlib Require Import Ascii.
From S2P Require Import Prelude PyStr Json PyTime PasswordPolicy Lockout Accounts.

Local Abbreviation AM := (M (session AccountsDB) web_error).

(** services/auth_service.py, [issue_token_pair]. *)
Record TokenPair : Type := { access_token : string; refresh_token : string }.

(** schemas/auth.py, [RegisterRequest]. *)
Record RegisterRequest : Type := {
  rq_email : string;
  rq_password : string;
  rq_full_name : string;
  rq_tenant_name : string;
}.

(** ** Slugs *)

(** services/auth_service.py, [_SLUG_RE]: the characters it does not match. *)
Definition slug_char (c : ascii) : bool := is_lower c || is_digit c.

(** [_SLUG_RE.sub("-", s)]: each longest run of other characters is one dash. *)
Fixpoint dash_runs (in_run : bool) (s : string) : string :=
  match s with
  | EmptyString => EmptyString
  | String c r =>
      if slug_char c then String c (dash_runs false r)
      else if in_run then dash_runs true r else String "-" (dash_runs true r)
  end.

(** services/auth_service.py, [_slugify] of an ASCII name, on which the Unicode
    normalisation is the identity. *)
Definition _slugify (name : string) : string :=
  stake 48 (sor (strip_by (Ascii.eqb "-") (dash_runs false (lower name))) "tenant").

Definition slug_taken (db : AccountsDB) (s : string) : bool :=
  existsb (fun t => String.eqb (slug t) s) (map snd (map_to_list (tenants db))).

(** services/auth_service.py:50-59, [_unique_tenant_slug]: the loop, with the
    tries left; each retry takes the next random hexadecimal string. *)
Fixpoint slug_loop (db : AccountsDB) (base : string) (tries : nat) (slug : string) (hexes : nat -> string) : string :=
  if negb (slug_taken db slug) then slug
  else match tries with
       | O => stake 32 base +:+ "-" +:+ stake 8 (hexes 1%nat)
       | S n => slug_loop db base n (stake 40 base +:+ "-" +:+ stake 6 (hexes 0%nat)) (fun k => hexes (S k))
       end.

(** services/auth_service.py, [_unique_tenant_slug]: the ninth retry is the last. *)
Definition _unique_tenant_slug (db : AccountsDB) (base : string) (hexes : nat -> string) : string :=
  slug_loop db base 8 base hexes.

Section Auth.
Context `{!TokenLibrary}.
Context (cfg : jwt_settings).
Context (repr_other : json -> string).

(** services/auth_service.py, [issue_token_pair]. *)
Definition issue_token_pair (now1 now2 : Z) (refresh_jti : string) (user : User) (tu : TenantUser) : TokenPair :=
  {| access_token := create_access_token cfg now1 (user_id user) (Some (tu_tenant_id tu))
                       [("role", JStr (role tu)); ("email", JStr (email user))];
     refresh_token := create_refresh_token cfg now2 (user_id user) (Some (tu_tenant_id tu))
                        [("role", JStr (role tu)); ("jti", JStr refresh_jti)] |}.

(** ** Registration *)

(** services/auth_service.py, [register_user_and_tenant].  [raced1] and [raced2]
    say that another transaction has committed a conflicting row before the
    first or the second flush: a unique constraint refuses the flush. *)
Definition register_user_and_tenant (raced1 raced2 : bool) (tid uid salt : string) (hexes : nat -> string)
    (payload : RegisterRequest) : AM (User * Tenant * TenantUser) :=
  let mail := strip (lower (rq_email payload)) in
  let policy := validate_password (rq_password payload) (Some mail) (Some (rq_tenant_name payload))
                  (Some (rq_full_name payload)) in
  raise_if (negb (valid policy)) (HTTPException 422 "password_policy_failed") ;;;
  let* existing := query (user_by_email mail) in
  raise_if (is_someb existing) (HTTPException 409 "email_already_registered") ;;;
  let base_slug := _slugify (rq_tenant_name payload) in
  let* slug := query (fun db => _unique_tenant_slug db base_slug hexes) in
  let tenant := {| tenant_pk := tid; tenant_name := strip (rq_tenant_name payload); slug := slug; plan := "pilot";
                   tenant_is_active := true |} in
  let* hashed := or_raise (hash_password salt (rq_password payload)) (PyException "ValueError") in
  let user := {| user_id := uid; email := mail; hashed_password := hashed;
                 full_name := Some (strip (rq_full_name payload)); is_active := true; last_login_at := None |} in
  let* taken := query (fun db => slug_taken db slug) in
  raise_if (raced1 || taken) (PyException "IntegrityError") ;;;
  write (with_tenants (fun t => <[tid := tenant]> t)) ;;;
  write (with_users (fun t => <[uid := user]> t)) ;;;
  let tenant_user := {| tu_tenant_id := tid; tu_user_id := uid; role := "owner" |} in
  (if raced2 : bool then rollback ;;; raise (HTTPException 409 "registration_conflict")
   else write (with_tenant_users (fun l => l ++ [tenant_user]))) ;;;
  ret (user, tenant, tenant_user).

(** api/v1/auth.py, [register], within the transaction of its request. *)
Definition register (raced1 raced2 : bool) (tid uid salt : string) (hexes : nat -> string) (now1 now2 : Z)
    (jti : string) (payload : RegisterRequest) : AM TokenPair :=
  in_request (
    let* r := register_user_and_tenant raced1 raced2 tid uid salt hexes payload in
    let '(user, tenant, tenant_user) := r in
    ret (issue_token_pair now1 now2 jti user tenant_user)).

(** ** Login *)

Definition set_last_login (now : Z) (u : User) : User :=
  {| user_id := user_id u; email := email u; hashed_password := hashed_password u; full_name := full_name u;
     is_active := is_active u; last_login_at := Some (utc now) |}.

(** services/auth_service.py, [authenticate]; the membership is the first row
    the database returns. *)
Definition authenticate (now : Z) (mail password : string) : AM (User * TenantUser) :=
  let normalized := strip (lower mail) in
  let* user := query (user_by_email normalized) in
  match user with
  | None => raise (HTTPException 401 "invalid_credentials")
  | Some user =>
      raise_if (negb (verify_password password (hashed_password user))) (HTTPException 401 "invalid_credentials") ;;;
      raise_if (negb (is_active user)) (HTTPException 403 "user_inactive") ;;;
      let* tu := query (fun db => find_first (fun m => String.eqb (tu_user_id m) (user_id user)) (tenant_users db)) in
      let* tenant_user := or_raise tu (HTTPException 403 "no_tenant_membership") in
      write (with_users (fun t => <[user_id user := set_last_login now user]> t)) ;;;
      ret (set_last_login now user, tenant_user)
  end.

(** ** Refresh tokens *)

(** [datetime.fromtimestamp(int(exp)) if isinstance(exp, int | float) else now];
    outside the years 1 to 9999 it raises. *)
Definition expiry_of (now : Z) (exp : json) : option datetime :=
  match exp with
  | JInt _ | JBool _ | JFloat _ =>
      match json_int exp with
      | Some z => if (-62135596800 <=? z) && (z <=? 253402300799) then Some (utc (seconds z)) else None
      | None => None
      end
  | _ => Some (utc now)
  end.

(** services/auth_service.py:186-252, [refresh]: the checks, up to the row that
    is about to be added to the denylist under the token's [jti]. *)
Definition refresh_checks (now now1 : Z) (token : string)
    : AM (User * TenantUser * string * RevokedRefreshToken) :=
  let invalid_exc := HTTPException 401 "invalid_refresh_token" in
  let* payload := or_raise (decode_token cfg now token (Some _REFRESH)) invalid_exc in
  let uid := py_str repr_other (get_key "sub" payload) in
  let tenant_id_claim := get_key "tenant_id" payload in
  match get_key "jti" payload with
  | JStr jti =>
      raise_if (negb (truthy jti)) invalid_exc ;;;
      raise_if (negb (jtruthy tenant_id_claim)) invalid_exc ;;;
      let* already_revoked := query (fun db => revoked_refresh_tokens db !! jti) in
      raise_if (is_someb already_revoked) invalid_exc ;;;
      let* row := query (fun db => users db !! uid) in
      let active := match row with Some u => if is_active u then Some u else None | None => None end in
      let* user := or_raise active (HTTPException 401 "user_not_found_or_inactive") in
      let tid := py_str repr_other tenant_id_claim in
      let* tu := query (membership (user_id user) tid) in
      let* tenant_user := or_raise tu (HTTPException 403 "no_tenant_membership") in
      let* expires_at := or_raise (expiry_of now1 (get_key "exp" payload)) (PyException "ValueError") in
      ret (user, tenant_user, jti, {| rv_user_id := user_id user; rv_tenant_id := tid; rv_expires_at := expires_at |})
  | _ => raise invalid_exc
  end.

(** services/auth_service.py:253-268, [refresh]: the flush of the denylist row.
    [raced]: another transaction has committed the same [jti] since the check. *)
Definition denylist (raced : bool) (jti : string) (row : RevokedRefreshToken) : AM unit :=
  let* existing := query (fun db => revoked_refresh_tokens db !! jti) in
  if raced || is_someb existing then rollback ;;; raise (HTTPException 401 "invalid_refresh_token")
  else write (with_revoked (fun t => <[jti := row]> t)).

(** services/auth_service.py, [refresh]. *)
Definition refresh (raced : bool) (now now1 now2 now3 : Z) (new_jti token : string) : AM TokenPair :=
  let* r := refresh_checks now now1 token in
  let '(user, tenant_user, jti, row) := r in
  denylist raced jti row ;;;
  ret (issue_token_pair now2 now3 new_jti user tenant_user).

(** services/auth_service.py, [revoke_refresh_token]. *)
Definition revoke_refresh_token (raced : bool) (now now1 : Z) (token : string) : AM unit :=
  let invalid_exc := HTTPException 401 "invalid_refresh_token" in
  let* payload := or_raise (decode_token cfg now token (Some _REFRESH)) invalid_exc in
  let uid := get_key "sub" payload in
  let tenant_id_claim := get_key "tenant_id" payload in
  match get_key "jti" payload with
  | JStr jti =>
      raise_if (negb (truthy jti) || negb (jtruthy uid) || negb (jtruthy tenant_id_claim)) invalid_exc ;;;
      let* existing := query (fun db => revoked_refresh_tokens db !! jti) in
      if is_someb existing then ret tt
      else
        let* expires_at := or_raise (expiry_of now1 (get_key "exp" payload)) (PyException "ValueError") in
        if raced then rollback
        else write (with_revoked (fun t => <[jti := {| rv_user_id := py_str repr_other uid;
                      rv_tenant_id := py_str repr_other tenant_id_claim; rv_expires_at := expires_at |}]> t))
  | _ => raise invalid_exc
  end.
End Auth.

(** ** The login endpoint: credentials behind the lockout *)

Section Login.
Context `{!TokenLibrary} {S : Type} `{!LockoutStore S}.
Context (cfg : jwt_settings) (lockout_cfg : tracker_config).

(** The database session of the request and the lockout store. *)
Definition LoginState : Type := session AccountsDB * S.

Definition on_db {A} (m : AM A) : M LoginState web_error A :=
  fun s => let '(r, d) := m s.1 in (r, (d, s.2)).
Definition on_lockout {A} (f : S -> A * S) : M LoginState web_error A :=
  fun s => let '(a, l) := f s.2 in (Ok a, (s.1, l)).

(** The clock readings of one login, in order. *)
Record login_clock : Type := {
  t_check : Z; t_auth : Z; t_fail : Z; t_lock : Z; t_access : Z; t_refresh : Z;
}.

(** api/v1/auth.py, [login]. *)
Definition login (t : login_clock) (jti : string) (client_ip : option string) (mail password : string)
    : M LoginState web_error TokenPair :=
  let ip := default "unknown" client_ip in
  let* lockout := on_lockout (check lockout_cfg (t_check t) mail ip) in
  raise_if (locked lockout) (HTTPException 429 "account_locked") ;;;
  let* r := try_except (on_db (authenticate (t_auth t) mail password))
              (fun e => match e with
                        | HTTPException _ "invalid_credentials" =>
                            on_lockout (record_failure lockout_cfg (t_fail t) (t_lock t) mail ip) ;;; raise e
                        | _ => raise e
                        end) in
  let '(user, tenant_user) := r in
  on_lockout (fun s => (tt, record_success mail ip s)) ;;;
  ret (issue_token_pair cfg (t_access t) (t_refresh t) jti user tenant_user).

(** The request: its database session is committed or rolled back, the lockout
    store is not part of it. *)
Definition login_request (t : login_clock) (jti : string) (client_ip : option string) (mail password : string)
    : M LoginState web_error TokenPair :=
  fun s => match login t jti client_ip mail password s with
           | (Ok a, (d, l)) => (Ok a, (snd (commit (E := web_error) d), l))
           | (Raise e, (d, l)) => (Raise e, (snd (rollback (E := web_error) d), l))
           end.
End Login.

(** ** Lemmas *)

Section RefreshLemmas.
Context `{!TokenLibrary}.
Context (cfg : jwt_settings) (repr_other : json -> string).

Lemma denylist_Ok raced jti row s u s' :
  denylist raced jti row s = (Ok u, s') <->
  raced = false /\ revoked_refresh_tokens (working s) !! jti = None /\
  s' = Session (with_revoked (fun t => <[jti := row]> t) (working s)) (committed s).
Proof.
  unfold denylist, query, reads, bind, rollback, raise, write, modify. destruct u, raced; cbn; [naive_solver|].
  destruct (revoked_refresh_tokens (working s) !! jti); cbn; [naive_solver|].
  split; [intros [= <-]; done|intros (_ & _ & ->); done].
Qed.

Lemma denylist_Raise raced jti row s e s' :
  denylist raced jti row s = (Raise e, s') ->
  e = HTTPException 401 "invalid_refresh_token" /\ s' = Session (committed s) (committed s).
Proof.
  unfold denylist, query, reads, bind, rollback, raise, write, modify. destruct raced; cbn; [naive_solver|].
  destruct (revoked_refresh_tokens (working s) !! jti); cbn; naive_solver.
Qed.

(** What the checks of a refresh ask of the token and of the tables. *)
Definition refreshable (now now1 : Z) (token : string) (db : AccountsDB)
    (u : User) (tu : TenantUser) (jti : string) (row : RevokedRefreshToken) : Prop :=
  exists payload e, decode_token cfg now token (Some _REFRESH) = Some payload /\
    get_key "jti" payload = JStr jti /\ jti <> "" /\ jtruthy (get_key "tenant_id" payload) = true /\
    revoked_refresh_tokens db !! jti = None /\
    users db !! py_str repr_other (get_key "sub" payload) = Some u /\ is_active u = true /\
    membership (user_id u) (py_str repr_other (get_key "tenant_id" payload)) db = Some tu /\
    expiry_of now1 (get_key "exp" payload) = Some e /\
    row = {| rv_user_id := user_id u; rv_tenant_id := py_str repr_other (get_key "tenant_id" payload);
             rv_expires_at := e |}.

Lemma refresh_checks_Ok now now1 token s u tu jti row s' :
  refresh_checks cfg repr_other now now1 token s = (Ok (u, tu, jti, row), s') <->
  s' = s /\ refreshable now now1 token (working s) u tu jti row.
Proof.
  unfold refresh_checks, refreshable. split.
  - intros Hok. unfold query in Hok. inv_run Hok. destruct (get_key "jti" a) as [| | | |j| |] eqn:Hj; try done.
    inv_run Hok. destruct (users (working s) !! _) as [usr|] eqn:Hu; [|done].
    destruct (is_active usr) eqn:Hact; [|done]. simplify_eq.
    split; [done|]. eexists _, _. split_and!; try done.
    + by apply truthy_spec, negb_false_iff.
    + by apply negb_false_iff.
    + by destruct (revoked_refresh_tokens (working s) !! j).
  - intros (-> & payload & e & Hd & Hj & Hne & Ht & Hr & Hu & Hact & Hm & He & ->).
    unfold bind, or_raise. rewrite Hd. cbn. rewrite Hj. apply truthy_spec in Hne.
    unfold raise_if, bind, query, reads, ret. rewrite Hne, Ht. cbn. rewrite Hr. cbn. rewrite Hu. cbn. rewrite Hact. cbn.
    rewrite Hm. cbn. rewrite He. done.
Qed.

Lemma refresh_checks_readonly now now1 token : readonly (refresh_checks cfg repr_other now now1 token).
Proof.
  unfold refresh_checks, query. apply readonly_bind; [auto with readonly|]. intros payload.
  destruct (get_key "jti" payload); auto with readonly.
  repeat (apply readonly_bind; [auto with readonly|intros ?]). auto with readonly.
Qed.

Lemma refresh_Ok raced now now1 now2 now3 new_jti token s a s' :
  refresh cfg repr_other raced now now1 now2 now3 new_jti token s = (Ok a, s') <->
  exists u tu jti row, refreshable now now1 token (working s) u tu jti row /\ raced = false /\
    a = issue_token_pair cfg now2 now3 new_jti u tu /\
    s' = Session (with_revoked (fun t => <[jti := row]> t) (working s)) (committed s).
Proof.
  unfold refresh. rewrite bind_Ok. split.
  - intros ([[[u tu] jti] row] & s1 & Hc & Hok). apply refresh_checks_Ok in Hc as [-> Hr].
    apply bind_Ok in Hok as ([] & s2 & Hd & Hok). apply denylist_Ok in Hd as (-> & _ & ->).
    apply ret_Ok in Hok as [-> ->]. by exists u, tu, jti, row.
  - intros (u & tu & jti & row & Hr & -> & -> & ->). exists (u, tu, jti, row), s.
    split; [by apply refresh_checks_Ok|]. apply bind_Ok. eexists tt, _. split; [|done].
    apply denylist_Ok. destruct Hr as (? & ? & _ & _ & _ & _ & Hnone & _). done.
Qed.

(** A token whose [jti] is on the denylist is refused. *)
Lemma revoked_refused raced now now1 now2 now3 new_jti token s payload j :
  decode_token cfg now token (Some _REFRESH) = Some payload -> get_key "jti" payload = JStr j ->
  is_Some (revoked_refresh_tokens (working s) !! j) ->
  refresh cfg repr_other raced now now1 now2 now3 new_jti token s =
    (Raise (HTTPException 401 "invalid_refresh_token"), s).
Proof.
  intros Hd Hj [row Hrow]. unfold refresh, refresh_checks. unfold bind, or_raise. rewrite Hd. cbn. rewrite Hj.
  unfold raise_if. destruct (truthy j); cbn; [|done]. destruct (jtruthy _); cbn; [|done]. rewrite Hrow. done.
Qed.
End RefreshLemmas.

(** ** Many requests at once

    A refresh reads in its own session and then flushes the denylist row; in
    between, other requests run.  The unique index on [jti] is checked against
    what is committed when the row is flushed. *)

Record Sys : Type := {
  accounts : AccountsDB;
  inflight : gmap Z (User * TenantUser * string * RevokedRefreshToken);
  exchanged : list string;
}.

Section System.
Context `{!TokenLibrary}.
Context (cfg : jwt_settings) (repr_other : json -> string).

Definition opened (db : AccountsDB) : session AccountsDB := Session db db.

Inductive sys_step : Sys -> Sys -> Prop :=
| begin_refresh sys rid now now1 token x s1 :
    inflight sys !! rid = None ->
    refresh_checks cfg repr_other now now1 token (opened (accounts sys)) = (Ok x, s1) ->
    sys_step sys {| accounts := accounts sys; inflight := <[rid := x]> (inflight sys); exchanged := exchanged sys |}
| finish_refresh sys rid u tu jti row r d :
    inflight sys !! rid = Some (u, tu, jti, row) ->
    in_request (denylist false jti row) (opened (accounts sys)) = (r, d) ->
    sys_step sys {| accounts := committed d; inflight := delete rid (inflight sys);
                    exchanged := match r with Ok _ => jti :: exchanged sys | Raise _ => exchanged sys end |}
| logout_request sys raced now now1 token r d :
    in_request (revoke_refresh_token cfg repr_other raced now now1 token) (opened (accounts sys)) = (r, d) ->
    sys_step sys {| accounts := committed d; inflight := inflight sys; exchanged := exchanged sys |}
| other_request sys db' :
    revoked_refresh_tokens (accounts sys) ⊆ revoked_refresh_tokens db' ->
    sys_step sys {| accounts := db'; inflight := inflight sys; exchanged := exchanged sys |}.

Lemma revoke_grows raced now now1 token s r s' :
  revoke_refresh_token cfg repr_other raced now now1 token s = (r, s') ->
  revoked_refresh_tokens (committed s) ⊆ revoked_refresh_tokens (working s) ->
  revoked_refresh_tokens (committed s) ⊆ revoked_refresh_tokens (working s') /\ committed s' = committed s.
Proof.
  unfold revoke_refresh_token. intros Hrun Hsub.
  unfold bind, raise, ret, query, reads, raise_if, or_raise, rollback, write, modify in Hrun.
  destruct (decode_token _ _ _ _) as [p|]; cbn in Hrun; [|by injection Hrun as <- <-].
  destruct (get_key "jti" p) as [| | | |j| |]; try (by injection Hrun as <- <-).
  destruct (negb (truthy j) || _ || _); cbn in Hrun; [by injection Hrun as <- <-|].
  destruct (revoked_refresh_tokens (working s) !! j) eqn:Hj; cbn in Hrun; [by injection Hrun as <- <-|].
  destruct (expiry_of _ _); cbn in Hrun; [|by injection Hrun as <- <-].
  destruct raced; simplify_eq/=; split; try done.
  etransitivity; [exact Hsub|]. by apply insert_subseteq.
Qed.

Definition used_once (s t : Sys) : Prop :=
  NoDup (exchanged t) /\ (forall j, In j (exchanged t) -> is_Some (revoked_refresh_tokens (accounts t) !! j)) /\
  revoked_refresh_tokens (accounts s) ⊆ revoked_refresh_tokens (accounts t) /\
  (forall j, is_Some (revoked_refresh_tokens (accounts s) !! j) -> In j (exchanged t) -> In j (exchanged s)).

Lemma used_once_grow s t db' fl :
  used_once s t -> revoked_refresh_tokens (accounts t) ⊆ revoked_refresh_tokens db' ->
  used_once s {| accounts := db'; inflight := fl; exchanged := exchanged t |}.
Proof.
  intros (Hnd & Hin & Hsub & Hold) Hgrow. split_and!; cbn; try done.
  - intros j Hj. destruct (Hin j Hj) as [row Hrow]. exists row. by eapply lookup_weaken.
  - by etransitivity.
Qed.

Lemma sys_step_used_once s t t' : sys_step t t' -> used_once s t -> used_once s t'.
Proof.
  intros Hstep Hinv. destruct Hstep as [sys rid now now1 token x s1 _ _|sys rid u tu jti row r d _ Hd
                                       |sys raced now now1 token r d Hd|sys db' Hgrow].
  - by apply used_once_grow.
  - unfold in_request in Hd. destruct (denylist false jti row (opened (accounts sys))) as [[[]|e] s1] eqn:Hrun.
    + apply denylist_Ok in Hrun as (_ & Hnone & ->). cbn in Hd, Hnone. simplify_eq/=.
      destruct Hinv as (Hnd & Hin & Hsub & Hold). split_and!; cbn.
      * constructor; [|done]. rewrite list_elem_of_In. intros Hj. destruct (Hin jti Hj). congruence.
      * intros j [<-|Hj]; [rewrite lookup_insert_eq; by eexists|]. destruct (decide (j = jti)) as [->|].
        -- rewrite lookup_insert_eq. by eexists.
        -- rewrite lookup_insert_ne by done. by apply Hin.
      * etransitivity; [exact Hsub|]. by apply insert_subseteq.
      * intros j [row' Hj'] [<-|Hj]; [|apply Hold; [by eexists|done]].
        eapply lookup_weaken in Hj'; [|exact Hsub]. congruence.
    + apply denylist_Raise in Hrun as [-> ->]. cbn in Hd. simplify_eq/=. by apply used_once_grow.
  - unfold in_request in Hd. destruct (revoke_refresh_token _ _ _ _ _ _ _) as [[[]|e] s1] eqn:Hrun;
      apply revoke_grows in Hrun as [Hg Hc]; try done; cbn in Hd; simplify_eq/=; apply used_once_grow; try done.
    by rewrite Hc.
  - by apply used_once_grow.
Qed.

End System.

(** ** Rotation *)

Section Rotation.
Context `{!TokenLibrary, !TokenLaws}.
Context (cfg : jwt_settings) (repr_other : json -> string).

Lemma refreshable_wf now now1 token db u tu jti row :
  accounts_wf db -> refreshable cfg repr_other now now1 token db u tu jti row ->
  users db !! user_id u = Some u /\ user_id u <> "" /\ is_active u = true /\
  membership (user_id u) (tu_tenant_id tu) db = Some tu /\ tu_tenant_id tu <> "".
Proof.
  intros Hwf (p & e & _ & _ & _ & _ & _ & Hu & Hact & Hm & _).
  destruct (wf_user_key db Hwf _ _ Hu) as [Hid Hne]. pose proof (membership_spec _ _ _ _ Hm) as (Hin & _ & Htid).
  destruct (wf_member db Hwf tu Hin) as [_ [t Ht]]. destruct (wf_tenant_key db Hwf _ _ Ht) as [_ Hne'].
  rewrite Htid in *. by rewrite Hid in *.
Qed.

(** A new refresh token is good for one more refresh. *)
Lemma new_token_refreshable now0 jti u tu db t t1 :
  live now0 (days (refresh_token_expire_days cfg)) t ->
  timestamp (now0 + days (refresh_token_expire_days cfg)) <= 253402300799 ->
  users db !! user_id u = Some u -> is_active u = true -> user_id u <> "" ->
  membership (user_id u) (tu_tenant_id tu) db = Some tu -> tu_tenant_id tu <> "" ->
  jti <> "" -> revoked_refresh_tokens db !! jti = None ->
  exists row, refreshable cfg repr_other t t1
    (create_refresh_token cfg now0 (user_id u) (Some (tu_tenant_id tu)) [("role", JStr (role tu)); ("jti", JStr jti)])
    db u tu jti row.
Proof.
  intros (Hn & Hd & Hle & Hlt) Hmax Hu Hact Hne Hm Htid Hj Hfresh. eexists. unfold refreshable, create_refresh_token.
  rewrite decode_encoded by done. rewrite bool_decide_eq_true_2 by done.
  eexists _, (utc (seconds (timestamp (now0 + days (refresh_token_expire_days cfg))))).
  split; [reflexivity|]. unfold token_payload, add_extra, get_key. cbn.
  apply truthy_spec in Htid. split_and!; try done.
  unfold timestamp, us_per_second in *. rewrite Z.quot_div_nonneg in * by lia.
  by rewrite (proj2 (Z.leb_le _ _)), (proj2 (Z.leb_le _ _)) by lia.
Qed.

(** Rotation: after a refresh answered with a new pair and was committed, the
    token presented is refused whenever it comes back; the new access token
    authenticates as the same user and tenant as long as it lives, the new
    refresh token does not authenticate at all but can be refreshed in turn as
    long as it lives and the user and the membership stand. *)
Theorem refresh_rotates raced now now1 now2 now3 new_jti token db a s' :
  accounts_wf db ->
  in_request (refresh cfg repr_other raced now now1 now2 now3 new_jti token) (opened db) = (Ok a, s') ->
  (forall raced' t t1 t2 t3 j db', revoked_refresh_tokens (committed s') ⊆ revoked_refresh_tokens db' ->
     in_request (refresh cfg repr_other raced' t t1 t2 t3 j token) (opened db') =
       (Raise (HTTPException 401 "invalid_refresh_token"), opened db')) /\
  exists u tu, users db !! user_id u = Some u /\ membership (user_id u) (tu_tenant_id tu) db = Some tu /\
    (forall t db', live now2 (minutes (access_token_expire_minutes cfg)) t -> users db' !! user_id u = Some u ->
       get_current_user cfg repr_other t (access_token a) (opened db') =
         (Ok {| principal := u; _jwt_tenant_id := tu_tenant_id tu; _jwt_role := JStr (role tu) |}, opened db')) /\
    (forall t db', live now3 (days (refresh_token_expire_days cfg)) t ->
       get_current_user cfg repr_other t (refresh_token a) (opened db') =
         (Raise (HTTPException 401 "invalid_token"), opened db')) /\
    (forall t t1 t2 t3 j db', live now3 (days (refresh_token_expire_days cfg)) t ->
       timestamp (now3 + days (refresh_token_expire_days cfg)) <= 253402300799 ->
       users db' !! user_id u = Some u -> membership (user_id u) (tu_tenant_id tu) db' = Some tu ->
       new_jti <> "" -> revoked_refresh_tokens db' !! new_jti = None ->
       exists b s2, in_request (refresh cfg repr_other false t t1 t2 t3 j (refresh_token a)) (opened db') = (Ok b, s2)).
Proof.
  intros Hwf Hreq. unfold in_request in Hreq.
  destruct (refresh _ _ _ _ _ _ _ _ _ _) as [[a0|e] s1] eqn:Hrun; cbn in Hreq; [|done]. injection Hreq as -> <-.
  apply refresh_Ok in Hrun as (u & tu & jti & row & Hr & -> & -> & ->). cbn.
  destruct (refreshable_wf _ _ _ _ _ _ _ _ Hwf Hr) as (Hu & Hne & Hact & Hm & Htid). split.
  - intros raced' t t1 t2 t3 j db' Hsub. destruct Hr as (p & e & Hd & Hj & _). unfold in_request.
    apply decode_token_Some in Hd as (Hne' & Hd & _).
    destruct (decode_token cfg t token (Some _REFRESH)) as [p'|] eqn:Hd'.
    + pose proof Hd' as Hd2. apply decode_token_Some in Hd2 as (_ & Hd2 & _).
      rewrite (jwt_decode_stable _ _ _ _ _ _ Hd2 Hd) in Hd'.
      assert (Hin : is_Some (revoked_refresh_tokens db' !! jti)).
      { exists row. eapply lookup_weaken; [apply lookup_insert_eq|exact Hsub]. }
      by rewrite (revoked_refused cfg repr_other raced' t t1 t2 t3 j token (opened db') p jti).
    + unfold refresh, refresh_checks, bind, or_raise. by rewrite Hd'.
  - exists u, tu. split_and!; try done.
    + intros t db' Hlive Hu'. by apply access_token_authenticates.
    + intros t db' Hlive. by apply refresh_token_not_access.
    + intros t t1 t2 t3 j db' Hlive Hmax Hu' Hm' Hj Hfresh.
      destruct (new_token_refreshable now3 new_jti u tu db' t t1) as [row' Hr']; try done.
      assert (Hrun : exists b s2, refresh cfg repr_other false t t1 t2 t3 j
                  (refresh_token (issue_token_pair cfg now2 now3 new_jti u tu)) (opened db') = (Ok b, s2)).
      { eexists _, _. apply refresh_Ok. exists u, tu, new_jti, row'. by split_and!. }
      destruct Hrun as (b & s2 & Hrun). unfold in_request, issue_token_pair in *. cbn in *.
      rewrite Hrun. by eexists _, _.
Qed.
End Rotation.

(** ** Registration *)

Section Registration.
Context `{!TokenLibrary}.
Context (cfg : jwt_settings).

(** The password policy as registration applies it. *)
Definition policy_ok (payload : RegisterRequest) : Prop :=
  valid (validate_password (rq_password payload) (Some (strip (lower (rq_email payload))))
           (Some (rq_tenant_name payload)) (Some (rq_full_name payload))) = true.

Definition registered_user (uid hashed : string) (payload : RegisterRequest) : User :=
  {| user_id := uid; email := strip (lower (rq_email payload)); hashed_password := hashed;
     full_name := Some (strip (rq_full_name payload)); is_active := true; last_login_at := None |}.

Definition registered_tenant (tid slug : string) (payload : RegisterRequest) : Tenant :=
  {| tenant_pk := tid; tenant_name := strip (rq_tenant_name payload); slug := slug; plan := "pilot";
     tenant_is_active := true |}.

Definition registered (tid uid slug hashed : string) (payload : RegisterRequest) (db : AccountsDB) : AccountsDB :=
  with_tenant_users (fun l => l ++ [{| tu_tenant_id := tid; tu_user_id := uid; role := "owner" |}])
    (with_users (fun t => <[uid := registered_user uid hashed payload]> t)
      (with_tenants (fun t => <[tid := registered_tenant tid slug payload]> t) db)).

Lemma slug_taken_false db s k t : slug_taken db s = false -> tenants db !! k = Some t -> slug t <> s.
Proof.
  intros Hs Ht Heq. assert (slug_taken db s = true); [|congruence].
  apply existsb_exists. exists t. split; [|by apply String.eqb_eq].
  apply in_map_iff. exists (k, t). split; [done|]. by apply list_elem_of_In, elem_of_map_to_list.
Qed.

Lemma register_run raced1 raced2 tid uid salt hexes payload db u t m s' :
  register_user_and_tenant raced1 raced2 tid uid salt hexes payload (opened db) = (Ok (u, t, m), s') ->
  let s := _unique_tenant_slug db (_slugify (rq_tenant_name payload)) hexes in
  policy_ok payload /\ user_by_email (strip (lower (rq_email payload))) db = None /\ raced1 = false /\
  raced2 = false /\ slug_taken db s = false /\
  exists hashed, hash_password salt (rq_password payload) = Some hashed /\
    u = registered_user uid hashed payload /\ m = {| tu_tenant_id := tid; tu_user_id := uid; role := "owner" |} /\
    s' = Session (registered tid uid s hashed payload db) db.
Proof.
  intros Hok. unfold register_user_and_tenant, query in Hok. inv_run Hok.
  unfold write, modify, bind, rollback, raise, ret in *. destruct raced2; cbn in *; [done|]. simplify_eq/=.
  split_and!.
  - by apply negb_false_iff.
  - by destruct (user_by_email _ db).
  - by destruct raced1.
  - done.
  - by destruct raced1.
  - by eexists.
Qed.

Lemma registered_wf tid uid s hashed payload db :
  accounts_wf db -> users db !! uid = None -> tenants db !! tid = None -> uid <> "" -> tid <> "" ->
  user_by_email (strip (lower (rq_email payload))) db = None -> slug_taken db s = false ->
  accounts_wf (registered tid uid s hashed payload db).
Proof.
  intros Hwf Hu Ht Huid Htid Hmail Hslug. split; cbn.
  - intros k u [[<- <-]|[_ Hk]]%lookup_insert_Some; [done|by apply (wf_user_key db)].
  - intros k t [[<- <-]|[_ Hk]]%lookup_insert_Some; [done|by apply (wf_tenant_key db)].
  - intros k1 k2 u1 u2 [[<- <-]|[_ H1]]%lookup_insert_Some [[<- <-]|[_ H2]]%lookup_insert_Some Heq; cbn in *; try done.
    + by apply (user_by_email_None _ _ _ _ Hmail) in H2.
    + by apply (user_by_email_None _ _ _ _ Hmail) in H1.
    + by apply (wf_email db Hwf k1 k2 u1 u2).
  - intros k1 k2 t1 t2 [[<- <-]|[_ H1]]%lookup_insert_Some [[<- <-]|[_ H2]]%lookup_insert_Some Heq; cbn in *; try done.
    + by apply (slug_taken_false _ _ _ _ Hslug) in H2.
    + by apply (slug_taken_false _ _ _ _ Hslug) in H1.
    + by apply (wf_slug db Hwf k1 k2 t1 t2).
  - intros m [Hm|[<-|[]]]%in_app_iff; cbn; [|rewrite !lookup_insert_eq; by eauto].
    destruct (wf_member db Hwf m Hm) as [Hu' Ht']. by rewrite !lookup_insert_is_Some'; eauto.
  - rewrite map_app. apply NoDup_app. split_and!; [apply (wf_member_unique db Hwf)| |cbn; apply NoDup_singleton].
    cbn. intros x Hx ->%list_elem_of_singleton. apply list_elem_of_In, in_map_iff in Hx as (m & [= ? ?] & Hm).
    destruct (wf_member db Hwf m Hm) as [[? Hu'] _]. congruence.
Qed.
End Registration.

Section RegisterThenLogin.
Context `{!TokenLibrary, !TokenLaws}.
Context (cfg : jwt_settings).

Lemma register_raises raced1 raced2 tid uid salt hexes payload s e s' :
  working s = committed s ->
  register_user_and_tenant raced1 raced2 tid uid salt hexes payload s = (Raise e, s') ->
  committed s' = committed s /\
  ((e = HTTPException 422 "password_policy_failed" /\ ~ policy_ok payload) \/
   (e = HTTPException 409 "email_already_registered" /\
      is_Some (user_by_email (strip (lower (rq_email payload))) (working s))) \/
   (e = HTTPException 409 "registration_conflict" /\ raced2 = true) \/
   e = PyException "IntegrityError").
Proof.
  intros Hw. unfold register_user_and_tenant, policy_ok.
  unfold bind, raise, ret, query, reads, raise_if, or_raise, rollback, write, modify.
  destruct (valid _) eqn:Hv; cbn; [|intros [= <- <-]; split; [done|]; by left].
  destruct (user_by_email _ _) eqn:Hu; cbn; [intros [= <- <-]; split; [done|]; right; left; split; [done|by eexists]|].
  unfold hash_password. destruct (truthy (rq_password payload)) eqn:Hp; cbn.
  - destruct (raced1 || _); cbn; [intros [= <- <-]; split; [done|]; by do 3 right|].
    destruct raced2; cbn; intros [= <- <-]. split; [done|]. right; right; left. done.
  - apply truthy_false in Hp. apply valid_length in Hv. rewrite Hp in Hv. change (slen "") with 0 in Hv. unfold MIN_LENGTH in Hv. lia.
Qed.

Lemma user_by_email_unique db k u :
  accounts_wf db -> users db !! k = Some u -> user_by_email (email u) db = Some u.
Proof.
  intros Hwf Hu. destruct (user_by_email (email u) db) as [u'|] eqn:Hue.
  - apply user_by_email_Some in Hue as (k' & Hu' & He).
    assert (k' = k) as -> by (by apply (wf_email db Hwf k' k u' u)). congruence.
  - by apply (user_by_email_None _ _ _ _ Hue) in Hu.
Qed.

Lemma owner_membership db tid uid s hashed payload :
  accounts_wf db -> users db !! uid = None ->
  find_first (fun m => String.eqb (tu_user_id m) uid) (tenant_users (registered tid uid s hashed payload db)) =
  Some {| tu_tenant_id := tid; tu_user_id := uid; role := "owner" |}.
Proof.
  intros Hwf Hu. cbn. assert (Hno : forall m, In m (tenant_users db) -> tu_user_id m <> uid).
  { intros m Hm Heq. destruct (wf_member db Hwf m Hm) as [[? Hm'] _]. congruence. }
  induction (tenant_users db) as [|m l IH]; cbn; [by rewrite String.eqb_refl|].
  destruct (String.eqb_spec (tu_user_id m) uid) as [E|_]; [by destruct (Hno m); [left|]|].
  apply IH. intros m' Hm'. apply Hno. by right.
Qed.

Lemma register_wf raced1 raced2 tid uid salt hexes now1 now2 jti payload db :
  accounts_wf db -> users db !! uid = None -> tenants db !! tid = None -> uid <> "" -> tid <> "" ->
  accounts_wf (committed (register cfg raced1 raced2 tid uid salt hexes now1 now2 jti payload (opened db)).2).
Proof.
  intros Hwf Hu Ht Huid Htid. unfold register, in_request, bind at 1.
  destruct (register_user_and_tenant _ _ _ _ _ _ _ _) as [[[[u t] m]|e] s1] eqn:Hrun.
  - apply register_run in Hrun as (_ & Hmail & _ & _ & Hslug & hashed & _ & _ & _ & ->).
    revert Hslug. generalize (_unique_tenant_slug db (_slugify (rq_tenant_name payload)) hexes). intros sl Hslug.
    by apply registered_wf.
  - apply register_raises in Hrun as [Hc _]; [|done]. cbn. by rewrite Hc.
Qed.

(** Registration: the tables stay well formed - e-mail addresses and slugs
    unique, memberships to existing rows - and are untouched by a refusal, whose
    reason is a weak password, a registered address or a conflict.  After a
    success there is one more user, under an address no user had, one more
    tenant, and the user owns it; the same address and password then log in to
    that tenant. *)
Theorem register_then_login raced1 raced2 tid uid salt hexes now1 now2 jti payload db r s' :
  accounts_wf db -> users db !! uid = None -> tenants db !! tid = None -> uid <> "" -> tid <> "" ->
  register cfg raced1 raced2 tid uid salt hexes now1 now2 jti payload (opened db) = (r, s') ->
  working s' = committed s' /\ accounts_wf (committed s') /\
  match r with
  | Raise e => committed s' = db /\
      ((e = HTTPException 422 "password_policy_failed" /\ ~ policy_ok payload) \/
       (e = HTTPException 409 "email_already_registered" /\
          is_Some (user_by_email (strip (lower (rq_email payload))) db)) \/
       (e = HTTPException 409 "registration_conflict" /\ raced2 = true) \/ e = PyException "IntegrityError")
  | Ok _ => policy_ok payload /\ user_by_email (strip (lower (rq_email payload))) db = None /\
      exists s hashed, slug_taken db s = false /\ committed s' = registered tid uid s hashed payload db /\
        forall t, exists s2,
          authenticate t (rq_email payload) (rq_password payload) (opened (committed s')) =
            (Ok (set_last_login t (registered_user uid hashed payload),
                 {| tu_tenant_id := tid; tu_user_id := uid; role := "owner" |}), s2)
  end.
Proof.
  intros Hwf Hu Ht Huid Htid Hreg. unfold register, in_request, bind at 1 in Hreg.
  destruct (register_user_and_tenant _ _ _ _ _ _ _ _) as [[[[u t] m]|e] s1] eqn:Hrun; cbn in Hreg; simplify_eq/=.
  - apply register_run in Hrun as (Hpol & Hmail & -> & -> & Hslug & hashed & Hh & -> & -> & ->).
    revert Hslug. generalize (_unique_tenant_slug db (_slugify (rq_tenant_name payload)) hexes). intros sl Hslug. cbn.
    assert (Hwf' : accounts_wf (registered tid uid sl hashed payload db)) by (by apply registered_wf).
    split_and!; try done. exists sl, hashed. split_and!; try done. intros t'.
    assert (Hlook : users (registered tid uid sl hashed payload db) !! uid = Some (registered_user uid hashed payload))
      by apply lookup_insert_eq.
    pose proof (user_by_email_unique _ _ _ Hwf' Hlook) as Hue. cbn [email registered_user] in Hue.
    eexists. unfold authenticate, query, reads, bind. cbn [working committed opened]. rewrite Hue.
    unfold raise_if. cbn [hashed_password registered_user is_active user_id].
    assert (Hv : verify_password (rq_password payload) hashed = true).
    { unfold hash_password in Hh. destruct (truthy (rq_password payload)) eqn:Hp; [|done]. injection Hh as <-.
      unfold verify_password. rewrite Hp, verify_hash.
      destruct (truthy (bcrypt_hash salt (rq_password payload))) eqn:Hb; [done|]. by apply truthy_false, hash_nonempty in Hb. }
    rewrite Hv. unfold ret. cbn [negb]. unfold or_raise. cbn [working opened user_id registered_user].
    rewrite (owner_membership db tid uid) by done. reflexivity.
  - apply register_raises in Hrun as [Hc Hcases]; [|done]. cbn in *. rewrite Hc. by split_and!.
Qed.
End RegisterThenLogin.

(** ** Guessing passwords *)

Section Guessing.
Context `{!TokenLibrary} {S : Type} `{!LockoutStore S, !LockoutStoreLaws S}.
Context (cfg : jwt_settings) (lockout_cfg : tracker_config).

(** A wrong password for [mail]: its clock, the identifier and the password. *)
Definition guess : Type := login_clock * string * string.
Definition g_clock (g : guess) : login_clock := g.1.1.

Definition wrong (db : AccountsDB) (mail : string) (g : guess) : Prop :=
  authenticate (t_auth (g_clock g)) mail g.2 (opened db) = (Raise (HTTPException 401 "invalid_credentials"), opened db).

(** Login requests one after the other, with their answers. *)
Fixpoint guesses (mail : string) (client_ip : option string) (l : list guess) (s : LoginState (S := S))
    : list (result web_error TokenPair) * LoginState (S := S) :=
  match l with
  | [] => ([], s)
  | g :: l =>
      let '(r, s) := login_request cfg lockout_cfg (g_clock g) g.1.2 client_ip mail g.2 s in
      let '(rs, s) := guesses mail client_ip l s in
      (r :: rs, s)
  end.

Definition ip_key (mail : string) (client_ip : option string) : string := _key mail (default "unknown" client_ip).

Lemma recent_all cutoff l : Forall (fun t => cutoff <= t) l -> recent cutoff l = l.
Proof. intros Hall. apply filter_id_In. intros t Ht. rewrite List.Forall_forall in Hall. apply Z.leb_le. auto. Qed.

Lemma locked_login t jti client_ip mail password db l until :
  lock_of (ip_key mail client_ip) l = Some until -> t_check t < until ->
  exists l', login_request cfg lockout_cfg t jti client_ip mail password (opened db, l) =
    (Raise (HTTPException 429 "account_locked"), (opened db, l')).
Proof.
  intros Hl Hlt. unfold login_request, login, on_lockout, bind. unfold check. fold (ip_key mail client_ip). cbn.
  pose proof (law_status (t_check t) (ip_key mail client_ip) (window_sec lockout_cfg) l) as Hst.
  destruct (store_status _ _ _ _) as [[f r] l1]. cbn in *. destruct Hst as (_ & _ & -> & _). rewrite Hl. cbn.
  assert (Hpos : (0 <? Z.max 0 (ceil_seconds (until - t_check t))) = true).
  { apply Z.ltb_lt. unfold ceil_seconds, us_per_second. lia. }
  rewrite Hpos. cbn. by eexists.
Qed.

Lemma wrong_login g client_ip mail db l :
  let key := ip_key mail client_ip in
  wrong db mail g -> lock_of key l = None ->
  Forall (fun t => t_check (g_clock g) - seconds (window_sec lockout_cfg) <= t) (failures_of key l) ->
  Forall (fun t => t_fail (g_clock g) - seconds (window_sec lockout_cfg) <= t) (failures_of key l) ->
  exists l', login_request cfg lockout_cfg (g_clock g) g.1.2 client_ip mail g.2 (opened db, l) =
      (Raise (HTTPException 401 "invalid_credentials"), (opened db, l')) /\
    failures_of key l' = failures_of key l ++ [t_fail (g_clock g)] /\
    lock_of key l' = (if max_fails lockout_cfg <=? Z.of_nat (length (failures_of key l)) + 1
                      then Some (t_lock (g_clock g) + seconds (lock_duration_sec lockout_cfg)) else None).
Proof.
  intros key Hwrong Hl Hc Hf. unfold login_request, login, on_lockout, bind. unfold check. fold (ip_key mail client_ip).
  fold key. cbn. pose proof (law_status (t_check (g_clock g)) key (window_sec lockout_cfg) l) as Hst.
  destruct (store_status _ _ _ _) as [[f r] l1]. cbn in *. destruct Hst as (Hf1 & _ & -> & Hl1 & _).
  rewrite Hl in *. rewrite recent_all in Hf1 by done. cbn.
  unfold try_except, on_db. cbn [fst snd]. rewrite Hwrong. cbn. unfold record_failure. fold (ip_key mail client_ip). fold key.
  pose proof (law_record_failure (t_fail (g_clock g)) key (window_sec lockout_cfg) l1) as Hr.
  destruct (store_record_failure _ _ _ _) as [n l2]. cbn in *. destruct Hr as (Hf2 & -> & Hl2 & _).
  rewrite Hf1, recent_all in Hf2 by done. rewrite Hf2, length_app. cbn.
  replace (Z.of_nat (length (failures_of key l) + 1)) with (Z.of_nat (length (failures_of key l)) + 1) by lia.
  destruct (max_fails lockout_cfg <=? _); cbn; (eexists; split; [done|]).
  - destruct (law_lock (t_lock (g_clock g)) key (lock_duration_sec lockout_cfg) l2) as (-> & -> & _). by rewrite Hf2.
  - by rewrite Hf2, Hl2, Hl1.
Qed.

(** All readings of the clock by the guesses fall into one window. *)
Definition within (start : Z) (g : guess) : Prop :=
  start <= t_check (g_clock g) <= start + seconds (window_sec lockout_cfg) /\
  start <= t_fail (g_clock g) <= start + seconds (window_sec lockout_cfg).

Lemma guesses_app mail client_ip l k s :
  guesses mail client_ip (l ++ k) s =
  let '(rs, s1) := guesses mail client_ip l s in let '(rs', s2) := guesses mail client_ip k s1 in (rs ++ rs', s2).
Proof.
  revert s. induction l as [|g l IH]; intros s; cbn; [by destruct (guesses mail client_ip k s)|].
  destruct (login_request _ _ _ _ _ _ _ s) as [r s']. rewrite IH.
  destruct (guesses mail client_ip l s') as [rs s1]. by destruct (guesses mail client_ip k s1).
Qed.

Lemma guesses_progress db mail client_ip start l s0 :
  let key := ip_key mail client_ip in
  Forall (wrong db mail) l -> Forall (within start) l -> lock_of key s0 = None ->
  Forall (fun t => start <= t) (failures_of key s0) ->
  Z.of_nat (length (failures_of key s0)) + Z.of_nat (length l) < max_fails lockout_cfg ->
  exists s1, guesses mail client_ip l (opened db, s0) =
      (map (fun _ => Raise (HTTPException 401 "invalid_credentials")) l, (opened db, s1)) /\
    lock_of key s1 = None /\ failures_of key s1 = failures_of key s0 ++ map (fun g => t_fail (g_clock g)) l.
Proof.
  intros key Hwrong. revert s0. induction Hwrong as [|g l Hw _ IH]; intros s0 Hin Hl Hall Hlen.
  - exists s0. cbn. by rewrite app_nil_r.
  - apply List.Forall_cons_iff in Hin as [[Hc Hf] Hin]. cbn in Hlen.
    destruct (wrong_login g client_ip mail db s0 Hw Hl) as (s1 & Hrun & Hfs & Hlk);
      [eapply List.Forall_impl; [|exact Hall]; cbn; lia|eapply List.Forall_impl; [|exact Hall]; cbn; lia|].
    fold key in Hfs, Hlk. rewrite (proj2 (Z.leb_gt _ _)) in Hlk by lia.
    destruct (IH s1 Hin Hlk) as (s2 & Hrun2 & Hlk2 & Hfs2).
    + rewrite Hfs. apply Forall_app. split; [done|]. constructor; [lia|done].
    + rewrite Hfs, length_app. cbn. lia.
    + exists s2. cbn. rewrite Hrun, Hrun2. split_and!; try done. rewrite Hfs2, Hfs, <- app_assoc. done.
Qed.

(** C8. Guessing is bounded: against any lockout store that keeps its promises,
    once the maximum number of wrong passwords for an address has come from one
    client address within the window, every answer was "invalid credentials",
    nothing was written, and until the lock ends every further login from there
    is refused before the password is looked at, the right one included. *)
Theorem lockout_stops_guessing db mail client_ip start l last s0 :
  let key := ip_key mail client_ip in
  failures_of key s0 = [] -> lock_of key s0 = None ->
  Forall (wrong db mail) (l ++ [last]) -> Forall (within start) (l ++ [last]) ->
  Z.of_nat (length (l ++ [last])) = max_fails lockout_cfg ->
  let r := guesses mail client_ip (l ++ [last]) (opened db, s0) in
  Forall (fun a => a = Raise (HTTPException 401 "invalid_credentials")) r.1 /\ r.2.1 = opened db /\
  forall t jti password, t_check t < t_lock (g_clock last) + seconds (lock_duration_sec lockout_cfg) ->
    (login_request cfg lockout_cfg t jti client_ip mail password r.2).1 = Raise (HTTPException 429 "account_locked") /\
    (login_request cfg lockout_cfg t jti client_ip mail password r.2).2.1 = opened db.
Proof.
  intros key Hf0 Hl0 Hwrong Hin Hlen. rewrite length_app in Hlen. cbn in Hlen.
  apply Forall_app in Hwrong as [Hwrong Hw]. apply Forall_app in Hin as [Hin Hi].
  apply List.Forall_cons_iff in Hw as [Hw _]. apply List.Forall_cons_iff in Hi as [[Hc Hf] _].
  destruct (guesses_progress db mail client_ip start l s0) as (s1 & Hrun & Hl1 & Hf1); try done.
  { by fold key; rewrite Hf0. } { fold key. rewrite Hf0. cbn. lia. }
  fold key in Hl1, Hf1. rewrite Hf0 in Hf1. cbn in Hf1.
  assert (Hold : Forall (fun t => start <= t) (failures_of key s1)).
  { rewrite Hf1. apply Forall_map. eapply List.Forall_impl; [|exact Hin]. by intros g (_ & ? & _). }
  destruct (wrong_login last client_ip mail db s1 Hw Hl1) as (s2 & Hrun2 & _ & Hl2);
    [eapply List.Forall_impl; [|exact Hold]; cbn; lia|eapply List.Forall_impl; [|exact Hold]; cbn; lia|].
  fold key in Hl2. rewrite Hf1, length_map, (proj2 (Z.leb_le _ _)) in Hl2 by lia.
  rewrite guesses_app, Hrun. cbn. rewrite Hrun2. cbn. split_and!; [|done|].
  - apply Forall_app. split; [|by constructor]. by apply Forall_map, List.Forall_forall.
  - intros t jti password Ht. destruct (locked_login t jti client_ip mail password db s2 _ Hl2 Ht) as [s3 ->]. done.
Qed.
End Guessing.

(** ** A concrete account *)

Module DemoAuth.
#[local] Instance library : TokenLibrary := PlainTokens.library.
#[local] Instance laws : TokenLaws := PlainTokens.laws.

Definition cfg : jwt_settings :=
  {| jwt_secret_key := "s3cret"; access_token_expire_minutes := 15; refresh_token_expire_days := 30 |}.
Definition repr (v : json) : string := "?".
Definition payload : RegisterRequest :=
  {| rq_email := " Ann@Example.com"; rq_password := "kT9#mQ2$wZx8pL"; rq_full_name := "Ann Lee";
     rq_tenant_name := "Blue Harbor Inc." |}.
Definition empty_db : AccountsDB := {| users := ∅; tenants := ∅; tenant_users := []; revoked_refresh_tokens := ∅ |}.
Definition hexes (n : nat) : string := str_of_Z (Z.of_nat n) +:+ "abcdef00".

Lemma empty_wf : accounts_wf empty_db.
Proof. split; cbn; try (intros; simplify_map_eq; done). constructor. Qed.

(** The account after a registration at instant 0. *)
Definition registered_account : result web_error TokenPair * session AccountsDB :=
  register cfg false false "t1" "u1" "salt" hexes 0 0 "jti0" payload (opened empty_db).
Definition db : AccountsDB := committed registered_account.2.
Definition first_refresh_token : string :=
  match registered_account.1 with Ok p => refresh_token p | Raise _ => "" end.

Example registered_slug :
  (option_map slug (tenants db !! "t1"), option_map email (users db !! "u1"), is_someb (value_of registered_account)) =
  (Some "blue-harbor-inc", Some "ann@example.com", true).
Proof. vm_compute. reflexivity. Qed.

Lemma db_wf : accounts_wf db.
Proof.
  apply register_wf; [apply empty_wf|apply lookup_empty|apply lookup_empty|discriminate|discriminate].
Qed.

Lemma registered_account_Ok : match registered_account.1 with Ok _ => True | Raise _ => False end.
Proof. vm_compute. exact I. Qed.

Lemma register_then_login_witness : exists hashed s2,
  authenticate 5 " Ann@Example.com" "kT9#mQ2$wZx8pL" (opened db) =
    (Ok (set_last_login 5 (registered_user "u1" hashed payload),
         {| tu_tenant_id := "t1"; tu_user_id := "u1"; role := "owner" |}), s2).
Proof.
  pose proof registered_account_Ok as Hok. unfold db. destruct registered_account as [r s'] eqn:Hreg.
  destruct (register_then_login cfg false false "t1" "u1" "salt" hexes 0 0 "jti0" payload empty_db r s' empty_wf
              (lookup_empty _) (lookup_empty _) ltac:(discriminate) ltac:(discriminate) Hreg) as (_ & _ & H).
  destruct r as [p|e]; [|destruct Hok]. destruct H as (_ & _ & sl & hashed & _ & _ & Hlogin).
  destruct (Hlogin 5) as [s2 H2]. exists hashed, s2. exact H2.
Defined.

(** The refresh of the account's first token, one second later. *)
Definition refreshed : result web_error TokenPair * session AccountsDB :=
  in_request (refresh cfg repr false 1000000 1000000 1000000 1000000 "jti1" first_refresh_token) (opened db).

Lemma refreshed_Ok : match refreshed.1 with Ok _ => True | Raise _ => False end.
Proof. vm_compute. exact I. Qed.

Lemma refresh_rotates_witness : exists a s', refreshed = (Ok a, s') /\
  in_request (refresh cfg repr false 2000000 2000000 2000000 2000000 "jti2" first_refresh_token) (opened (committed s')) =
    (Raise (HTTPException 401 "invalid_refresh_token"), opened (committed s')).
Proof.
  pose proof refreshed_Ok as Hok. destruct refreshed as [[a|e] s'] eqn:Hr; [|destruct Hok].
  exists a, s'. split; [reflexivity|].
  exact (proj1 (refresh_rotates cfg repr false 1000000 1000000 1000000 1000000 "jti1" first_refresh_token db a s' db_wf Hr)
           false 2000000 2000000 2000000 2000000 "jti2" (committed s') (reflexivity _)).
Defined.

(** Five wrong passwords from one address, a minute apart. *)
Definition at_time (n : Z) : login_clock :=
  {| t_check := n; t_auth := n; t_fail := n; t_lock := n; t_access := n; t_refresh := n |}.
Definition tries : list guess := map (fun k => (at_time (minutes k), "", "guess")) [0; 1; 2; 3].
Definition last_try : guess := (at_time (minutes 4), "", "guess").

Lemma lockout_stops_guessing_witness :
  (login_request cfg default_tracker_config (at_time (minutes 5)) "" (Some "10.0.0.1") "ann@example.com" "kT9#mQ2$wZx8pL"
     (guesses cfg default_tracker_config "ann@example.com" (Some "10.0.0.1") (tries ++ [last_try])
        (opened db, empty_store)).2).1 = Raise (HTTPException 429 "account_locked").
Proof.
  refine (proj1 (proj2 (proj2 (lockout_stops_guessing cfg default_tracker_config db "ann@example.com" (Some "10.0.0.1") 0
            tries last_try empty_store _ _ _ _ _)) _ _ _ _)); try reflexivity.
  - repeat constructor.
  - repeat constructor; cbn; unfold minutes, seconds, us_per_second; lia.
Defined.
End DemoAuth.

(** ** Two refreshes at once *)

Module DemoRefresh.
(** One token, which says the claims below. *)
Definition claims_of_token : claims :=
  [("sub", JStr "u1"); ("tenant_id", JStr "t1"); ("type", JStr "refresh"); ("jti", JStr "j0"); ("exp", JInt 100)].
#[local] Instance library : TokenLibrary :=
  {| jwt_encode := fun _ _ => "new"; jwt_decode := fun _ tok _ => if String.eqb tok "tok" then Some claims_of_token else None;
     bcrypt_verify := String.eqb; bcrypt_hash := fun _ plain => plain |}.
Definition cfg : jwt_settings :=
  {| jwt_secret_key := "s3cret"; access_token_expire_minutes := 15; refresh_token_expire_days := 30 |}.
Definition repr (v : json) : string := "?".
Definition one_user : AccountsDB :=
  {| users := {["u1" := {| user_id := "u1"; email := "a@x.com"; hashed_password := "pw"; full_name := None;
                           is_active := true; last_login_at := None |}]};
     tenants := ∅; tenant_users := [{| tu_tenant_id := "t1"; tu_user_id := "u1"; role := "owner" |}];
     revoked_refresh_tokens := ∅ |}.
Definition idle : Sys := {| accounts := one_user; inflight := ∅; exchanged := [] |}.

Definition ann : User :=
  {| user_id := "u1"; email := "a@x.com"; hashed_password := "pw"; full_name := None; is_active := true;
     last_login_at := None |}.
Definition pending : User * TenantUser * string * RevokedRefreshToken :=
  (ann, {| tu_tenant_id := "t1"; tu_user_id := "u1"; role := "owner" |}, "j0",
   {| rv_user_id := "u1"; rv_tenant_id := "t1"; rv_expires_at := utc 100000000 |}).
Definition both_checked : gmap Z (User * TenantUser * string * RevokedRefreshToken) :=
  <[1 := pending]> (<[0 := pending]> ∅).
Definition after_first : AccountsDB := with_revoked (fun t => <["j0" := pending.2]> t) one_user.

(** Both pass the checks before either flushes: one is exchanged. *)
Lemma two_refreshes : exists t, star (sys_step cfg repr) idle t /\ exchanged t = ["j0"].
Proof.
  exists {| accounts := after_first; inflight := delete 1 (delete 0 both_checked); exchanged := ["j0"] |}.
  split; [|reflexivity].
  apply (star_step _ _ {| accounts := one_user; inflight := <[0 := pending]> ∅; exchanged := [] |}).
  { refine (begin_refresh _ _ idle 0 5 5 "tok" pending (opened one_user) _ _); vm_compute; reflexivity. }
  apply (star_step _ _ {| accounts := one_user; inflight := both_checked; exchanged := [] |}).
  { refine (begin_refresh _ _ {| accounts := one_user; inflight := <[0 := pending]> ∅; exchanged := [] |} 1 6 6 "tok"
              pending (opened one_user) _ _); vm_compute; reflexivity. }
  apply (star_step _ _ {| accounts := after_first; inflight := delete 0 both_checked; exchanged := ["j0"] |}).
  { refine (finish_refresh _ _ {| accounts := one_user; inflight := both_checked; exchanged := [] |} 0
              ann _ "j0" _ (Ok tt) (opened after_first) _ _); vm_compute; reflexivity. }
  apply (star_step _ _ {| accounts := after_first; inflight := delete 1 (delete 0 both_checked); exchanged := ["j0"] |}).
  { refine (finish_refresh _ _ {| accounts := after_first; inflight := delete 0 both_checked; exchanged := ["j0"] |} 1
              ann _ "j0" _ (Raise (HTTPException 401 "invalid_refresh_token")) (opened after_first) _ _);
      vm_compute; reflexivity. }
  apply star_refl.
Qed.

End DemoRefresh.
