(* ===== verification/EmailVerification.v ===== *)
(** * Email verification codes

    models/email_verification.py and services/email_verification_service.py:
    six-digit codes with a time to live, a cap on wrong attempts and a rate
    limit.  The table is one part of the database of whoever uses the service
    (class [HasVerifications]); SHA-256 is a variable. *)

From Stdlib Require Import Ascii.
From S2P Require Import Prelude PyStr Json PyTime Accounts.

(** models/email_verification.py, [EmailVerification]. *)
Record EmailVerification : Type := {
  ev_id : string;
  ev_tenant_id : option string;
  ev_email : string;
  code_hash : string;
  ev_expires_at : datetime;
  attempts : Z;
  consumed_at : option datetime;
  ev_created_at : Z;
  ev_ip_address : option string;
}.

(** config.py: the settings of the codes. *)
Record ev_settings : Type := {
  secret_key : string;
  code_ttl_minutes : Z;
  max_attempts : Z;
  max_codes_per_hour : Z;
}.

(** services/email_verification_service.py, [IssuedCode]. *)
Record IssuedCode : Type := { record_id : string; code : string; issued_expires_at : datetime }.

(** A database with a table of codes, in the order of insertion. *)
Class HasVerifications (DB : Type) : Type := {
  verifications : DB -> list EmailVerification;
  set_verifications : list EmailVerification -> DB -> DB;
  verifications_set l db : verifications (set_verifications l db) = l;
  set_set_verifications l k db : set_verifications l (set_verifications k db) = set_verifications l db;
  set_verifications_same db : set_verifications (verifications db) db = db;
}.

#[export] Instance verifications_only : HasVerifications (list EmailVerification).
Proof. by refine {| verifications := id; set_verifications := fun l _ => l |}. Defined.

(** services/email_verification_service.py, [CODE_LENGTH]. *)
Definition CODE_LENGTH : nat := 6.

(** services/email_verification_service.py, [_generate_numeric_code]; [n] is
    drawn below [10 ** length]. *)
Definition _generate_numeric_code (length : nat) (n : Z) : string := zpad length n.

(** services/email_verification_service.py:195, [verify_code]. *)
Definition one_more_attempt (r : EmailVerification) : EmailVerification :=
  {| ev_id := ev_id r; ev_tenant_id := ev_tenant_id r; ev_email := ev_email r; code_hash := code_hash r;
     ev_expires_at := ev_expires_at r; attempts := attempts r + 1; consumed_at := consumed_at r;
     ev_created_at := ev_created_at r; ev_ip_address := ev_ip_address r |}.

(** services/email_verification_service.py:203, [verify_code]. *)
Definition consume (now : Z) (r : EmailVerification) : EmailVerification :=
  {| ev_id := ev_id r; ev_tenant_id := ev_tenant_id r; ev_email := ev_email r; code_hash := code_hash r;
     ev_expires_at := ev_expires_at r; attempts := attempts r; consumed_at := Some (utc now);
     ev_created_at := ev_created_at r; ev_ip_address := ev_ip_address r |}.

(** An assignment to the columns of the row [i]. *)
Definition update_row (i : string) (f : EmailVerification -> EmailVerification) (l : list EmailVerification)
  : list EmailVerification :=
  map (fun r => if String.eqb (ev_id r) i then f r else r) l.

(** services/email_verification_service.py:140-145, [_latest_unconsumed]: the
    [WHERE] clauses. *)
Definition candidate (email : string) (tenant_id : option string) (r : EmailVerification) : bool :=
  String.eqb (ev_email r) email && negb (is_someb (consumed_at r))
  && match tenant_id with Some t => bool_decide (ev_tenant_id r = Some t) | None => true end.

(** services/email_verification_service.py, [_latest_unconsumed]: of rows
    created at the same instant the database may return any; here the first. *)
Definition _latest_unconsumed (email : string) (tenant_id : option string) (l : list EmailVerification)
  : option EmailVerification :=
  head (sort_by (fun r => - ev_created_at r) (List.filter (candidate email tenant_id) l)).

(** services/email_verification_service.py:86-90, [_count_codes_in_last_hour]:
    the rows that are counted. *)
Definition codes_since (cutoff : Z) (email : string) (l : list EmailVerification) : list EmailVerification :=
  List.filter (fun r => String.eqb (ev_email r) email && (cutoff <=? ev_created_at r)) l.

Section Service.
Context {DB : Type} `{!HasVerifications DB}.
Context (cfg : ev_settings).
Context (sha256_hex : string -> string).
Local Abbreviation EM := (M (session DB) web_error).

(** services/email_verification_service.py, [_pepper]. *)
Definition _pepper : string := sor (secret_key cfg) "once-pepper".

(** services/email_verification_service.py, [hash_code]. *)
Definition hash_code (code : string) : EM string :=
  raise_if (negb (truthy code)) (PyException "ValueError") ;;; ret (sha256_hex (code +:+ _pepper)).

Definition rows_of (s : session DB) : list EmailVerification := verifications (working s).
Definition change_rows (f : list EmailVerification -> list EmailVerification) : EM unit :=
  write (fun db => set_verifications (f (verifications db)) db).

(** services/email_verification_service.py, [_count_codes_in_last_hour]. *)
Definition _count_codes_in_last_hour (now : Z) (email : string) : EM Z :=
  query (fun db => Z.of_nat (length (codes_since (now - hours 1) email (verifications db)))).

(** services/email_verification_service.py, [issue_code]; [n] is the random
    number, [created] the database clock when the row is inserted. *)
Definition issue_code (new_id : string) (n now1 now2 created : Z) (email : string) (tenant_id ip : option string)
    : EM IssuedCode :=
  let normalized := lower (strip email) in
  let* recent := _count_codes_in_last_hour now1 normalized in
  raise_if (max_codes_per_hour cfg <=? recent) (HTTPException 429 "email_verification_rate_limited") ;;;
  let code := _generate_numeric_code CODE_LENGTH n in
  let* h := hash_code code in
  let record := {| ev_id := new_id; ev_tenant_id := tenant_id; ev_email := normalized; code_hash := h;
                   ev_expires_at := utc (now2 + minutes (code_ttl_minutes cfg)); attempts := 0;
                   consumed_at := None; ev_created_at := created; ev_ip_address := ip |} in
  change_rows (fun l => l ++ [record]) ;;;
  ret {| record_id := new_id; code := code; issued_expires_at := ev_expires_at record |}.

Definition invalid_exc : web_error := HTTPException 400 "invalid_or_expired_code".

(** services/email_verification_service.py, [verify_code]; [now1] and [now2]
    are the clock at the expiry check and at the consumption. *)
Definition verify_code (now1 now2 : Z) (email : string) (tenant_id : option string) (submitted_code : string)
    : EM EmailVerification :=
  let normalized := lower (strip email) in
  let* record := query (fun db => _latest_unconsumed normalized tenant_id (verifications db)) in
  let* r := or_raise record invalid_exc in
  raise_if (instant (ev_expires_at r) <=? now1) invalid_exc ;;;
  raise_if (max_attempts cfg <=? attempts r) (HTTPException 429 "verification_attempts_exhausted") ;;;
  change_rows (update_row (ev_id r) one_more_attempt) ;;;
  let* submitted := hash_code (strip submitted_code) in
  raise_if (negb (String.eqb (code_hash r) submitted)) invalid_exc ;;;
  change_rows (update_row (ev_id r) (consume now2)) ;;;
  ret (consume now2 (one_more_attempt r)).
End Service.

(** ** Rows *)

Lemma update_row_filter i f (p : EmailVerification -> bool) l :
  (forall r, p (f r) = p r) -> length (List.filter p (update_row i f l)) = length (List.filter p l).
Proof.
  intros Hp. unfold update_row. induction l as [|r l IH]; cbn; [done|].
  destruct (String.eqb (ev_id r) i); [rewrite Hp|]; destruct (p r); cbn; by rewrite IH.
Qed.

Lemma update_row_ids i f l : (forall r, ev_id (f r) = ev_id r) -> map ev_id (update_row i f l) = map ev_id l.
Proof.
  intros Hf. unfold update_row. rewrite map_map. apply map_ext. intros r.
  by destruct (String.eqb (ev_id r) i); rewrite ?Hf.
Qed.

Lemma update_row_update i f g l :
  (forall r, ev_id (f r) = ev_id r) -> update_row i g (update_row i f l) = update_row i (fun r => g (f r)) l.
Proof.
  intros Hf. unfold update_row. rewrite map_map. apply map_ext. intros r.
  destruct (String.eqb (ev_id r) i) eqn:Hi; rewrite ?Hf, Hi; done.
Qed.

Lemma update_row_In i f l r :
  In r (update_row i f l) -> (In r l /\ ev_id r <> i) \/ exists r0, In r0 l /\ ev_id r0 = i /\ r = f r0.
Proof.
  intros (r0 & Hr & Hin)%in_map_iff. destruct (String.eqb_spec (ev_id r0) i); subst; [right; eauto|by left].
Qed.

Lemma latest_Some email tid l r :
  _latest_unconsumed email tid l = Some r ->
  In r l /\ candidate email tid r = true /\
  forall r', In r' l -> candidate email tid r' = true -> ev_created_at r' <= ev_created_at r.
Proof.
  intros H. apply head_sort_by in H as [Hin Hmax]. apply filter_In in Hin as [Hin Hc].
  split_and!; try done. intros r' Hin' Hc'. specialize (Hmax r'). rewrite filter_In in Hmax.
  specialize (Hmax (conj Hin' Hc')). lia.
Qed.

Lemma latest_unique email tid l r :
  In r l -> candidate email tid r = true ->
  (forall r', In r' l -> candidate email tid r' = true -> r' = r \/ ev_created_at r' < ev_created_at r) ->
  _latest_unconsumed email tid l = Some r.
Proof.
  intros Hin Hc Hmax. destruct (_latest_unconsumed email tid l) as [r0|] eqn:H.
  - pose proof (latest_Some _ _ _ _ H) as (Hin0 & Hc0 & Hmax0). f_equal.
    specialize (Hmax0 r Hin Hc). destruct (Hmax r0 Hin0 Hc0); [done|lia].
  - apply head_sort_by_None in H. assert (Hf : In r []) by (rewrite <- H; by apply filter_In). destruct Hf.
Qed.

(** ** What a verification does, branch by branch *)

Section Runs.
Context {DB : Type} `{!HasVerifications DB}.
Context (cfg : ev_settings) (sha256_hex : string -> string).

Definition with_rows (f : list EmailVerification -> list EmailVerification) (s : session DB) : session DB :=
  Session (set_verifications (f (verifications (working s))) (working s)) (committed s).

(** The hash that a submitted code is compared by. *)
Definition hash_of (submitted : string) : string := sha256_hex (strip submitted +:+ _pepper cfg).

Lemma verify_code_run now1 now2 email tid submitted s :
  verify_code cfg sha256_hex now1 now2 email tid submitted s =
  match _latest_unconsumed (lower (strip email)) tid (rows_of s) with
  | None => (Raise invalid_exc, s)
  | Some r =>
      if instant (ev_expires_at r) <=? now1 then (Raise invalid_exc, s)
      else if max_attempts cfg <=? attempts r
      then (Raise (HTTPException 429 "verification_attempts_exhausted"), s)
      else let s1 := with_rows (update_row (ev_id r) one_more_attempt) s in
           if negb (truthy (strip submitted)) then (Raise (PyException "ValueError"), s1)
           else if negb (String.eqb (code_hash r) (hash_of submitted)) then (Raise invalid_exc, s1)
           else (Ok (consume now2 (one_more_attempt r)), with_rows (update_row (ev_id r) (consume now2)) s1)
  end.
Proof.
  unfold verify_code, hash_code, change_rows, query, write, modify, reads, bind, or_raise, raise_if, ret, raise, rows_of,
    with_rows, hash_of.
  destruct (_latest_unconsumed _ _ _) as [r|]; cbn; [|done].
  destruct (instant (ev_expires_at r) <=? now1); cbn; [done|].
  destruct (max_attempts cfg <=? attempts r); cbn; [done|].
  destruct (truthy (strip submitted)); cbn; [|done].
  by destruct (String.eqb (code_hash r) _).
Qed.

Lemma generated_code n :
  strip (_generate_numeric_code CODE_LENGTH n) = _generate_numeric_code CODE_LENGTH n /\
  truthy (_generate_numeric_code CODE_LENGTH n) = true.
Proof.
  destruct (zpad_digits CODE_LENGTH n) as [Hdig Hlen]. split; [by apply strip_digits|].
  apply truthy_spec. intros E. unfold _generate_numeric_code in E. rewrite E in Hlen. done.
Qed.

(** The right code in time. *)
Lemma verify_accepts now1 now2 email tid n s r :
  _latest_unconsumed (lower (strip email)) tid (rows_of s) = Some r -> now1 < instant (ev_expires_at r) ->
  attempts r < max_attempts cfg -> code_hash r = sha256_hex (_generate_numeric_code CODE_LENGTH n +:+ _pepper cfg) ->
  verify_code cfg sha256_hex now1 now2 email tid (_generate_numeric_code CODE_LENGTH n) s =
  (Ok (consume now2 (one_more_attempt r)),
   with_rows (update_row (ev_id r) (consume now2)) (with_rows (update_row (ev_id r) one_more_attempt) s)).
Proof.
  intros Hl Hexp Hmax Hh. destruct (generated_code n) as [Hstrip Ht]. rewrite verify_code_run, Hl.
  rewrite (proj2 (Z.leb_gt _ _)), (proj2 (Z.leb_gt _ _)) by done. cbv zeta. unfold hash_of. rewrite Hstrip, Ht, Hh. cbn [negb].
  by rewrite String.eqb_refl.
Qed.

Lemma issue_code_run new_id n now1 now2 created email tid ip s :
  issue_code cfg sha256_hex new_id n now1 now2 created email tid ip s =
  let mail := lower (strip email) in
  let c := _generate_numeric_code CODE_LENGTH n in
  let expires := utc (now2 + minutes (code_ttl_minutes cfg)) in
  if max_codes_per_hour cfg <=? Z.of_nat (length (codes_since (now1 - hours 1) mail (rows_of s)))
  then (Raise (HTTPException 429 "email_verification_rate_limited"), s)
  else (Ok {| record_id := new_id; code := c; issued_expires_at := expires |},
        with_rows (fun l => l ++ [{| ev_id := new_id; ev_tenant_id := tid; ev_email := mail;
                                     code_hash := sha256_hex (c +:+ _pepper cfg); ev_expires_at := expires;
                                     attempts := 0; consumed_at := None; ev_created_at := created;
                                     ev_ip_address := ip |}]) s).
Proof.
  unfold issue_code, _count_codes_in_last_hour, hash_code, change_rows, query, write, modify, reads, bind, raise_if, ret,
    raise, rows_of, with_rows. cbn -[_generate_numeric_code].
  destruct (max_codes_per_hour cfg <=? _); [done|]. cbn -[_generate_numeric_code].
  by rewrite (proj2 (generated_code n)).
Qed.
End Runs.

(** ** Issue, then verify *)

Section Theorems.
Context {DB : Type} `{!HasVerifications DB}.
Context (cfg : ev_settings) (sha256_hex : string -> string).

Lemma rows_with_rows f (s : session DB) : rows_of (with_rows f s) = f (rows_of s).
Proof. unfold rows_of, with_rows. cbn. apply verifications_set. Qed.

Lemma verify_code_Ok now1 now2 email tid submitted (s : session DB) r s' :
  verify_code cfg sha256_hex now1 now2 email tid submitted s = (Ok r, s') ->
  exists r0, _latest_unconsumed (lower (strip email)) tid (rows_of s) = Some r0 /\
    now1 < instant (ev_expires_at r0) /\ attempts r0 < max_attempts cfg /\
    code_hash r0 = hash_of cfg sha256_hex submitted /\ r = consume now2 (one_more_attempt r0) /\
    rows_of s' = update_row (ev_id r0) (fun x => consume now2 (one_more_attempt x)) (rows_of s).
Proof.
  rewrite verify_code_run. destruct (_latest_unconsumed _ _ _) as [r0|]; [|done].
  destruct (Z.leb_spec (instant (ev_expires_at r0)) now1); [done|].
  destruct (Z.leb_spec (max_attempts cfg) (attempts r0)); [done|]. cbn.
  destruct (truthy (strip submitted)); cbn; [|done].
  destruct (String.eqb_spec (code_hash r0) (hash_of cfg sha256_hex submitted)); cbn; [|done].
  intros [= <- <-]. exists r0. split_and!; try done. rewrite !rows_with_rows. by apply update_row_update.
Qed.

(** A code works once: the code that was issued verifies before it expires,
    as long as it is the latest of its address; its row is then consumed, and a
    later success - by any code, at any time - is by another row. *)
Theorem issued_code_works_once new_id n now1 now2 created email tid ip (s : session DB) c s1 now3 now4 :
  issue_code cfg sha256_hex new_id n now1 now2 created email tid ip s = (Ok c, s1) ->
  ~ In new_id (map ev_id (rows_of s)) ->
  (forall r, In r (rows_of s) -> candidate (lower (strip email)) tid r = true -> ev_created_at r < created) ->
  now3 < instant (issued_expires_at c) -> 0 < max_attempts cfg ->
  exists r s2, verify_code cfg sha256_hex now3 now4 email tid (code c) s1 = (Ok r, s2) /\
    ev_id r = new_id /\ consumed_at r = Some (utc now4) /\ attempts r = 1 /\
    map ev_id (rows_of s2) = map ev_id (rows_of s) ++ [new_id] /\
    forall s3 now5 now6 email' tid' code' r' s4,
      (forall x, In x (rows_of s3) -> ev_id x = new_id -> is_Some (consumed_at x)) ->
      verify_code cfg sha256_hex now5 now6 email' tid' code' s3 = (Ok r', s4) -> ev_id r' <> new_id.
Proof.
  rewrite issue_code_run. cbv zeta. destruct (max_codes_per_hour cfg <=? _); [done|].
  set (row := {| ev_id := new_id |}). intros [= <- <-] Hfresh Hlatest Hexp Hmax. cbn [issued_expires_at code] in *.
  set (s1 := with_rows _ s). assert (Hs1 : rows_of s1 = rows_of s ++ [row]) by apply rows_with_rows.
  assert (Hl : _latest_unconsumed (lower (strip email)) tid (rows_of s1) = Some row).
  { rewrite Hs1. apply latest_unique.
    - apply in_app_iff. right. by left.
    - unfold candidate. cbn. rewrite String.eqb_refl. cbn. destruct tid; [|done]. by apply bool_decide_eq_true_2.
    - intros r' [Hr'|[<-|[]]]%in_app_iff Hc; [right; by apply Hlatest|by left]. }
  eexists _, _. rewrite (verify_accepts cfg sha256_hex now3 now4 email tid n s1 row) by done.
  split; [reflexivity|]. split_and!; try done.
  - rewrite !rows_with_rows, Hs1, !update_row_ids by done. by rewrite map_app.
  - intros s3 now5 now6 email' tid' code' r' s4 Hcons Hv Heq.
    apply verify_code_Ok in Hv as (r0 & Hlat & _ & _ & _ & -> & _). cbn in Heq.
    apply latest_Some in Hlat as (Hin & Hcand & _). destruct (Hcons r0 Hin Heq) as [d Hd].
    unfold candidate in Hcand. by rewrite Hd, andb_false_r in Hcand.
Qed.

(** ** The caps *)

(** No row has had more attempts than the cap, and none fewer than none. *)
Definition attempts_ok (s : session DB) : Prop :=
  Forall (fun r => 0 <= attempts r <= max_attempts cfg) (rows_of s).

Lemma update_row_Forall (P : EmailVerification -> Prop) i f l :
  (forall r, In r l -> ev_id r = i -> P r -> P (f r)) -> Forall P l -> Forall P (update_row i f l).
Proof.
  intros Hf. rewrite !List.Forall_forall. intros Hl r [[Hin _]|(r0 & Hin & Hi & ->)]%update_row_In; auto.
Qed.

Lemma verify_attempts_ok now1 now2 email tid submitted (s : session DB) :
  NoDup (map ev_id (rows_of s)) -> attempts_ok s ->
  attempts_ok (verify_code cfg sha256_hex now1 now2 email tid submitted s).2.
Proof.
  intros Hnd Hok. rewrite verify_code_run. destruct (_latest_unconsumed _ _ _) as [r|] eqn:Hl; [|done].
  destruct (instant (ev_expires_at r) <=? now1); [done|].
  destruct (Z.leb_spec (max_attempts cfg) (attempts r)); [done|]. cbv zeta.
  apply latest_Some in Hl as (Hin & _ & _).
  assert (H1 : attempts_ok (with_rows (update_row (ev_id r) one_more_attempt) s)).
  { unfold attempts_ok. rewrite rows_with_rows. apply update_row_Forall; [|done].
    intros r' Hin' Hid ?. assert (r' = r) as ->; [|cbn; lia]. clear -Hnd Hin Hin' Hid.
    induction (rows_of s) as [|x l IH]; [done|]. cbn in Hnd. apply NoDup_cons in Hnd as [Hx Hnd].
    rewrite list_elem_of_In, in_map_iff in Hx.
    destruct Hin as [->|Hin], Hin' as [->|Hin']; [done| | |auto]; exfalso; apply Hx; eauto. }
  destruct (truthy (strip submitted)); [|done]. destruct (String.eqb _ _); [|done]. cbn.
  unfold attempts_ok. rewrite rows_with_rows. apply update_row_Forall; [|done]. done.
Qed.
End Theorems.

(** ** The rate limit *)

Section RateLimit.
Context (cfg : ev_settings) (sha256_hex : string -> string).

(** One request after another: codes are issued, the row being stamped by the
    database at most [delay] before the service reads its clock, and codes are
    verified. *)
Inductive code_step (delay : Z) : list EmailVerification -> list EmailVerification -> Prop :=
| step_issue l new_id n now1 now2 created email tid ip :
    now1 - delay <= created ->
    code_step delay l
      (committed (in_request (issue_code cfg sha256_hex new_id n now1 now2 created email tid ip) (Session l l)).2)
| step_verify l now1 now2 email tid submitted :
    code_step delay l
      (committed (in_request (verify_code cfg sha256_hex now1 now2 email tid submitted) (Session l l)).2).

Definition in_window (email : string) (start stop : Z) (r : EmailVerification) : bool :=
  String.eqb (ev_email r) email && (start <=? ev_created_at r) && (ev_created_at r <=? stop).

(** The codes of an address in any hour, less the delay of the stamps. *)
Definition rate_ok (delay : Z) (l : list EmailVerification) : Prop :=
  forall email start,
    Z.of_nat (length (List.filter (in_window email start (start + hours 1 - delay)) l)) <=
    Z.max 0 (max_codes_per_hour cfg).

Lemma filter_le {A} (p q : A -> bool) l :
  (forall x, p x = true -> q x = true) -> (length (List.filter p l) <= length (List.filter q l))%nat.
Proof.
  intros H. induction l as [|x l IH]; cbn; [done|].
  destruct (p x) eqn:Hp; [rewrite (H x Hp); cbn; lia|]. destruct (q x); cbn; lia.
Qed.

Lemma code_step_rate delay l l' : code_step delay l l' -> rate_ok delay l -> rate_ok delay l'.
Proof.
  intros [? new_id n now1 now2 created email tid ip Hd|? now1 now2 email tid submitted] Hok mail start; unfold in_request.
  - rewrite issue_code_run. cbv zeta. destruct (Z.leb_spec (max_codes_per_hour cfg)
      (Z.of_nat (length (codes_since (now1 - hours 1) (lower (strip email)) (rows_of (Session l0 l0)))))) as [_|Hlt]; [apply Hok|].
    cbn -[List.filter app]. rewrite List.filter_app, length_app. cbn -[app]. specialize (Hok mail start).
    destruct (in_window mail start _ _) eqn:Hin; cbn; [|unfold id; lia].
    unfold in_window in Hin. cbn in Hin. apply andb_true_iff in Hin as [[He Hs]%andb_true_iff Hstop].
    apply String.eqb_eq in He as <-.
    assert (Hle : (length (List.filter (in_window (lower (strip email)) start (start + hours 1 - delay)) l0) <=
                   length (codes_since (now1 - hours 1) (lower (strip email)) l0))%nat); [|change (rows_of (Session l0 l0)) with l0 in Hlt; unfold id; lia].
    apply filter_le. intros x. unfold in_window. rewrite !andb_true_iff. intros [[-> ?] _]. split; [done|lia].
  - specialize (Hok mail start). rewrite verify_code_run. cbv zeta.
    destruct (_latest_unconsumed _ _ _) as [r|]; [|done].
    repeat (destruct (_ <=? _); [done|]). destruct (truthy (strip submitted)); [|done].
    destruct (String.eqb _ _); [|done]. cbn -[update_row]. unfold id. by rewrite !update_row_filter.
Qed.

(** Rate limit: starting from no codes, whatever sequence of issues and
    verifications the requests make, in any order of their clocks, no address
    gets more than the configured number of codes within an hour (less the time
    between the database's stamp and the service's clock). *)
Theorem codes_per_hour_bounded delay l email start :
  star (code_step delay) [] l ->
  Z.of_nat (length (List.filter (in_window email start (start + hours 1 - delay)) l)) <= Z.max 0 (max_codes_per_hour cfg).
Proof.
  intros Hstar. apply (star_invariant (code_step delay) (rate_ok delay) (code_step_rate delay) _ _ Hstar).
  intros ? ?. cbn. lia.
Qed.
End RateLimit.

(** ** A concrete run *)

Definition demo_ev_settings : ev_settings :=
  {| secret_key := ""; code_ttl_minutes := 15; max_attempts := 5; max_codes_per_hour := 3 |}.

Definition demo_issued : result web_error IssuedCode * session (list EmailVerification) :=
  issue_code demo_ev_settings id "v1" 42 0 0 0 "A@x.com" (Some "t1") None (Session [] []).

Lemma issued_code_works_once_witness : exists r s2,
  verify_code demo_ev_settings id (minutes 1) (minutes 1) "A@x.com" (Some "t1") "000042" demo_issued.2 = (Ok r, s2) /\
  ev_id r = "v1".
Proof.
  assert (Hi : demo_issued = (Ok {| record_id := "v1"; code := "000042"; issued_expires_at := utc (minutes 15) |}, demo_issued.2))
    by (vm_compute; reflexivity).
  destruct (issued_code_works_once demo_ev_settings id "v1" 42 0 0 0 "A@x.com" (Some "t1") None _ _ _
              (minutes 1) (minutes 1) Hi) as (r & s2 & Hv & Hid & _).
  - cbn. tauto.
  - intros r [].
  - vm_compute. reflexivity.
  - vm_compute. reflexivity.
  - exists r, s2. split; [exact Hv|exact Hid].
Defined.

Lemma codes_per_hour_bounded_witness :
  let s := (in_request (issue_code demo_ev_settings id "v1" 42 0 0 0 "a@x.com" None None) (Session [] [])).2 in
  star (code_step demo_ev_settings id 0) [] (committed s) /\
  Z.of_nat (length (List.filter (in_window "a@x.com" 0 (0 + hours 1 - 0)) (committed s))) <= Z.max 0 3.
Proof.
  intros s. assert (Hstar : star (code_step demo_ev_settings id 0) [] (committed s)).
  { eapply star_step; [apply (step_issue _ _ 0 [] "v1" 42 0 0 0 "a@x.com" None None); lia|apply star_refl]. }
  split; [exact Hstar|]. exact (codes_per_hour_bounded demo_ev_settings id 0 _ "a@x.com" 0 Hstar).
Defined.
