(* ===== verification/Onboarding.v ===== *)
(** * Self-serve onboarding

    models/onboarding.py, services/onboarding_service.py: the wizard's state
    machine, and api/v1/onboarding.py: the endpoints that drive it, from the
    e-mail code to the first submission.  Sending mail, audit rows and the
    encryption of portal credentials are arguments or left out. *)

From Stdlib Require Import Ascii.
From S2P Require Import Prelude PyStr Json PyTime PasswordPolicy Lockout Accounts Auth EmailVerification.

(** models/onboarding.py, [OnboardingStep]. *)
Inductive OnboardingStep : Type :=
| START | EMAIL_PENDING | EMAIL_VERIFIED | PROFILE | PLAN | PORTAL | SUPPLIER | SUBMISSION | DONE.

#[export] Instance OnboardingStep_eq_dec : EqDecision OnboardingStep.
Proof. solve_decision. Defined.

Definition step_value (s : OnboardingStep) : string :=
  match s with
  | START => "start" | EMAIL_PENDING => "email_pending" | EMAIL_VERIFIED => "email_verified" | PROFILE => "profile"
  | PLAN => "plan" | PORTAL => "portal" | SUPPLIER => "supplier" | SUBMISSION => "submission" | DONE => "done"
  end.

(** models/onboarding.py, [OnboardingState]. *)
Record OnboardingState : Type := {
  st_tenant_id : string;
  current_step : OnboardingStep;
  completed_steps : list (string * json);
  skipped_steps : list (string * json);
  step_data_json : list (string * json);
  company_profile_json : option (list (string * json));
  primary_user_id : option string;
  started_at : Z;
  last_activity_at : Z;
  st_completed_at : option Z;
}.

(** ** The state machine: services/onboarding_service.py *)

(** services/onboarding_service.py, [STEP_ORDER]. *)
Definition STEP_ORDER : list OnboardingStep :=
  [START; EMAIL_PENDING; EMAIL_VERIFIED; PROFILE; PLAN; PORTAL; SUPPLIER; SUBMISSION; DONE].

(** services/onboarding_service.py, [SKIPPABLE_STEPS]. *)
Definition SKIPPABLE_STEPS : list OnboardingStep := [PLAN; PORTAL; SUPPLIER; SUBMISSION].

(** services/onboarding_service.py, [_BACKWARD_ALLOWED]. *)
Definition _BACKWARD_ALLOWED : list (OnboardingStep * OnboardingStep) := [(PROFILE, START)].

Fixpoint index_of (s : OnboardingStep) (l : list OnboardingStep) : Z :=
  match l with
  | [] => 0
  | x :: r => if bool_decide (x = s) then 0 else 1 + index_of s r
  end.

(** services/onboarding_service.py, [_step_index]. *)
Definition _step_index (s : OnboardingStep) : Z := index_of s STEP_ORDER.

(** services/onboarding_service.py, [is_forward_transition]. *)
Definition is_forward_transition (current target : OnboardingStep) : bool := _step_index current <? _step_index target.

(** services/onboarding_service.py, [OnboardingStateError]. *)
Definition OnboardingStateError : web_error := HTTPException 409 "invalid_onboarding_transition".

(** services/onboarding_service.py, [_mark_completed]. *)
Definition _mark_completed (now1 now2 : Z) (step : OnboardingStep) (s : OnboardingState) : OnboardingState :=
  {| st_tenant_id := st_tenant_id s; current_step := current_step s;
     completed_steps := set_key (step_value step) (JStr (isoformat (utc now1))) (completed_steps s);
     skipped_steps := skipped_steps s; step_data_json := step_data_json s;
     company_profile_json := company_profile_json s; primary_user_id := primary_user_id s;
     started_at := started_at s; last_activity_at := now2; st_completed_at := st_completed_at s |}.

(** services/onboarding_service.py, [_mark_skipped]. *)
Definition _mark_skipped (now : Z) (step : OnboardingStep) (s : OnboardingState) : OnboardingState :=
  {| st_tenant_id := st_tenant_id s; current_step := current_step s; completed_steps := completed_steps s;
     skipped_steps := set_key (step_value step) (JStr (isoformat (utc now))) (skipped_steps s);
     step_data_json := step_data_json s; company_profile_json := company_profile_json s;
     primary_user_id := primary_user_id s; started_at := started_at s; last_activity_at := last_activity_at s;
     st_completed_at := st_completed_at s |}.

(** Assignments to the other columns of the row. *)
Definition set_step (step : OnboardingStep) (s : OnboardingState) : OnboardingState :=
  {| st_tenant_id := st_tenant_id s; current_step := step; completed_steps := completed_steps s;
     skipped_steps := skipped_steps s; step_data_json := step_data_json s;
     company_profile_json := company_profile_json s; primary_user_id := primary_user_id s;
     started_at := started_at s; last_activity_at := last_activity_at s; st_completed_at := st_completed_at s |}.
Definition set_step_data (d : list (string * json)) (s : OnboardingState) : OnboardingState :=
  {| st_tenant_id := st_tenant_id s; current_step := current_step s; completed_steps := completed_steps s;
     skipped_steps := skipped_steps s; step_data_json := d; company_profile_json := company_profile_json s;
     primary_user_id := primary_user_id s; started_at := started_at s; last_activity_at := last_activity_at s;
     st_completed_at := st_completed_at s |}.
Definition set_profile (d : list (string * json)) (s : OnboardingState) : OnboardingState :=
  {| st_tenant_id := st_tenant_id s; current_step := current_step s; completed_steps := completed_steps s;
     skipped_steps := skipped_steps s; step_data_json := step_data_json s; company_profile_json := Some d;
     primary_user_id := primary_user_id s; started_at := started_at s; last_activity_at := last_activity_at s;
     st_completed_at := st_completed_at s |}.
Definition set_activity (now : Z) (s : OnboardingState) : OnboardingState :=
  {| st_tenant_id := st_tenant_id s; current_step := current_step s; completed_steps := completed_steps s;
     skipped_steps := skipped_steps s; step_data_json := step_data_json s;
     company_profile_json := company_profile_json s; primary_user_id := primary_user_id s;
     started_at := started_at s; last_activity_at := now; st_completed_at := st_completed_at s |}.
Definition set_completed_at (now : Z) (s : OnboardingState) : OnboardingState :=
  {| st_tenant_id := st_tenant_id s; current_step := current_step s; completed_steps := completed_steps s;
     skipped_steps := skipped_steps s; step_data_json := step_data_json s;
     company_profile_json := company_profile_json s; primary_user_id := primary_user_id s;
     started_at := started_at s; last_activity_at := last_activity_at s; st_completed_at := Some now |}.

(** models/portal.py, [Portal]: the columns the wizard reads. *)
Record PortalRef : Type := { pr_id : string; pr_platform : string; pr_display_name : string }.

(** The rows the wizard adds for the first supplier, its consent and its
    submission; the columns that depend on the request. *)
Record FirstSupplier : Type := {
  fs_tenant_id : string; fs_legal_name : string; fs_ein : option string; fs_email : option string; fs_state : string }.
Record AutoConsent : Type := {
  ac_tenant_id : string; ac_supplier_id : string; ac_portal_ids : list string; ac_granted_at : Z;
  ac_granted_by : string; ac_signed_text : string }.
Record FirstSubmission : Type := {
  fsub_tenant_id : string; fsub_supplier_id : string; fsub_portal_id : string; fsub_consent_id : string;
  fsub_status : string }.

(** The tables of the wizard; one onboarding row per tenant. *)
Record OnboardingDB : Type := {
  acc : AccountsDB;
  codes : list EmailVerification;
  states : gmap string OnboardingState;
  ob_portals : gmap string PortalRef;
  first_suppliers : gmap string FirstSupplier;
  auto_consents : gmap string AutoConsent;
  first_submissions : gmap string FirstSubmission;
}.

Definition with_acc (f : AccountsDB -> AccountsDB) (d : OnboardingDB) : OnboardingDB :=
  {| acc := f (acc d); codes := codes d; states := states d; ob_portals := ob_portals d;
     first_suppliers := first_suppliers d; auto_consents := auto_consents d; first_submissions := first_submissions d |}.
Definition with_codes (l : list EmailVerification) (d : OnboardingDB) : OnboardingDB :=
  {| acc := acc d; codes := l; states := states d; ob_portals := ob_portals d;
     first_suppliers := first_suppliers d; auto_consents := auto_consents d; first_submissions := first_submissions d |}.
Definition with_states (f : gmap string OnboardingState -> gmap string OnboardingState) (d : OnboardingDB) : OnboardingDB :=
  {| acc := acc d; codes := codes d; states := f (states d); ob_portals := ob_portals d;
     first_suppliers := first_suppliers d; auto_consents := auto_consents d; first_submissions := first_submissions d |}.
Definition with_first_supplier (i : string) (x : FirstSupplier) (d : OnboardingDB) : OnboardingDB :=
  {| acc := acc d; codes := codes d; states := states d; ob_portals := ob_portals d;
     first_suppliers := <[i := x]> (first_suppliers d); auto_consents := auto_consents d;
     first_submissions := first_submissions d |}.
Definition with_consent (i : string) (x : AutoConsent) (d : OnboardingDB) : OnboardingDB :=
  {| acc := acc d; codes := codes d; states := states d; ob_portals := ob_portals d;
     first_suppliers := first_suppliers d; auto_consents := <[i := x]> (auto_consents d);
     first_submissions := first_submissions d |}.
Definition with_submission (i : string) (x : FirstSubmission) (d : OnboardingDB) : OnboardingDB :=
  {| acc := acc d; codes := codes d; states := states d; ob_portals := ob_portals d;
     first_suppliers := first_suppliers d; auto_consents := auto_consents d;
     first_submissions := <[i := x]> (first_submissions d) |}.

#[export] Instance onboarding_codes : HasVerifications OnboardingDB.
Proof. refine {| verifications := codes; set_verifications := with_codes |}; by intros; try destruct db. Defined.

Local Abbreviation OM := (M (session OnboardingDB) web_error).

(** An assignment to the row of a tenant. *)
Definition update_state (tid : string) (f : OnboardingState -> OnboardingState) : OM unit :=
  write (with_states (alter f tid)).

(** services/onboarding_service.py, [get_state], with [allow_missing]. *)
Definition find_state (tid : string) : OM (option OnboardingState) := query (fun d => states d !! tid).
(** services/onboarding_service.py, [get_state]. *)
Definition get_state (tid : string) : OM OnboardingState :=
  let* state := find_state tid in or_raise state (HTTPException 404 "onboarding_state_not_found").

(** services/onboarding_service.py, [create_state]. *)
Definition create_state (now db_now : Z) (tid : string) (primary_user : option string) (initial_step : OnboardingStep)
    : OM OnboardingState :=
  let* existing := find_state tid in
  match existing with
  | Some s => ret s
  | None =>
      let s := {| st_tenant_id := tid; current_step := initial_step;
                  completed_steps := [(step_value START, JStr (isoformat (utc now)))]; skipped_steps := [];
                  step_data_json := []; company_profile_json := None; primary_user_id := primary_user;
                  started_at := db_now; last_activity_at := db_now; st_completed_at := None |} in
      write (with_states (fun t => <[tid := s]> t)) ;;; ret s
  end.

(** services/onboarding_service.py, [advance_to]. *)
Definition advance_to (now1 now2 : Z) (tid : string) (target : OnboardingStep) (step_data : list (string * json))
    : OM OnboardingState :=
  let* state := get_state tid in
  let current := current_step state in
  raise_if (bool_decide (current = DONE) && negb (bool_decide (target = DONE))) OnboardingStateError ;;;
  let is_backward := _step_index target <? _step_index current in
  raise_if (is_backward && negb (bool_decide ((current, target) ∈ _BACKWARD_ALLOWED))) OnboardingStateError ;;;
  (match step_data with
   | [] => ret tt
   | _ => update_state tid (fun s => set_step_data (update_keys (step_data_json s) step_data) s)
   end) ;;;
  update_state tid (set_step target) ;;;
  update_state tid (_mark_completed now1 now2 target) ;;;
  get_state tid.

(** services/onboarding_service.py, [skip_step]. *)
Definition skip_step (now1 now2 : Z) (tid : string) (step : OnboardingStep) : OM OnboardingState :=
  raise_if (negb (bool_decide (step ∈ SKIPPABLE_STEPS))) (HTTPException 400 "step_not_skippable") ;;;
  let* state := get_state tid in
  raise_if (bool_decide (current_step state = DONE)) OnboardingStateError ;;;
  update_state tid (_mark_skipped now1 step) ;;;
  let next_step := List.nth (Z.to_nat (Z.min (_step_index step + 1) (Z.of_nat (length STEP_ORDER) - 1))) STEP_ORDER DONE in
  (if _step_index (current_step state) <? _step_index next_step then update_state tid (set_step next_step) else ret tt) ;;;
  update_state tid (set_activity now2) ;;;
  get_state tid.

(** services/onboarding_service.py, [mark_completed]. *)
Definition mark_completed (now1 now2 now3 : Z) (tid : string) : OM OnboardingState :=
  let* state := get_state tid in
  if bool_decide (current_step state = DONE) then ret state
  else
    update_state tid (set_step DONE) ;;;
    update_state tid (set_completed_at now1) ;;;
    update_state tid (_mark_completed now2 now3 DONE) ;;;
    get_state tid.

(** ** The endpoints: api/v1/onboarding.py *)

(** config.py: the settings of the wizard. *)
Record onboarding_settings : Type := {
  jwt_cfg : jwt_settings;
  ev_cfg : ev_settings;
  onboarding_skip_email_verify : bool;
  onboarding_session_ttl_minutes : Z;
  is_development : bool;
}.

(** api/v1/onboarding.py, [OnboardingContext]. *)
Record OnboardingContext : Type := { ctx_user : User; ctx_tenant : Tenant; ctx_email_verified : bool }.

(** schemas/onboarding.py, [OnboardingStartRequest]. *)
Record OnboardingStartRequest : Type := {
  os_email : string; os_password : string; os_company_name : string; os_website_url : option string }.
(** schemas/onboarding.py, [OnboardingStartResponse]. *)
Record OnboardingStartResponse : Type := {
  onboarding_session_token : string; os_tenant_id : string; expires_in_seconds : Z;
  dev_verification_code : option string }.
(** schemas/onboarding.py, [VerifyEmailResponse]. *)
Record VerifyEmailResponse : Type := { ve_tokens : TokenPair; ve_tenant_id : string; ve_current_step : OnboardingStep }.

Definition set_user_active (u : User) : User :=
  {| user_id := user_id u; email := email u; hashed_password := hashed_password u; full_name := full_name u;
     is_active := true; last_login_at := last_login_at u |}.
Definition set_tenant_active (t : Tenant) : Tenant :=
  {| tenant_pk := tenant_pk t; tenant_name := tenant_name t; slug := slug t; plan := plan t; tenant_is_active := true |}.
Definition set_tenant_name (n : string) (t : Tenant) : Tenant :=
  {| tenant_pk := tenant_pk t; tenant_name := n; slug := slug t; plan := plan t; tenant_is_active := tenant_is_active t |}.

Definition truthy_opt (o : option string) : bool := match o with Some s => truthy s | None => false end.

(** api/v1/onboarding.py, [_unique_slug], of an ASCII name. *)
Definition _unique_slug (name hex : string) : string :=
  stake 32 (sor (strip_by (Ascii.eqb "-") (dash_runs false (lower name))) "tenant") +:+ "-" +:+ stake 6 hex.

Section Endpoints.
Context `{!TokenLibrary}.
Context (cfg : onboarding_settings).
Context (sha256_hex : string -> string).
Context (repr_other : json -> string).
Context (encrypt : string -> string).

(** api/v1/onboarding.py, [_mint_onboarding_token]. *)
Definition _mint_onboarding_token (now : Z) (tid uid mail : string) (email_verified : bool) : string * Z :=
  let ttl := onboarding_session_ttl_minutes cfg in
  (jwt_encode [("sub", JStr uid); ("tenant_id", JStr tid); ("type", JStr "access"); ("scope", JStr "onboarding");
               ("email", JStr mail); ("email_verified", JBool email_verified); ("iat", JInt (timestamp now));
               ("exp", JInt (timestamp (now + minutes ttl)))] (jwt_secret_key (jwt_cfg cfg)),
   ttl * 60).

(** api/v1/onboarding.py, [_decode_onboarding_token]. *)
Definition _decode_onboarding_token (now : Z) (token : string) : OM claims :=
  let* payload := or_raise (jwt_decode now token (jwt_secret_key (jwt_cfg cfg))) (HTTPException 401 "invalid_onboarding_token") in
  raise_if (negb (bool_decide (get_key "scope" payload = JStr "onboarding"))) (HTTPException 401 "wrong_token_scope") ;;;
  ret payload.

(** [payload[k]] *)
Definition claim (k : string) (payload : claims) : OM json := or_raise (assoc k payload) (PyException "KeyError").

(** api/v1/onboarding.py, [_get_onboarding_context]. *)
Definition _get_onboarding_context (now : Z) (token : string) : OM OnboardingContext :=
  let* payload := _decode_onboarding_token now token in
  let* uid := claim "sub" payload in
  let* tid := claim "tenant_id" payload in
  let* u := query (fun d => users (acc d) !! py_str repr_other uid) in
  let* user := or_raise u (HTTPException 401 "user_not_found") in
  let* t := query (fun d => tenants (acc d) !! py_str repr_other tid) in
  let* tenant := or_raise t (HTTPException 401 "tenant_not_found") in
  ret {| ctx_user := user; ctx_tenant := tenant; ctx_email_verified := jtruthy (get_key "email_verified" payload) |}.

(** api/v1/onboarding.py, [start_onboarding]; [raced] is a conflicting row
    committed by another transaction before the first flush, [mail_fails] an
    exception that even the outbox fallback of [_send_verification_email]
    raises. *)
Definition start_onboarding (raced mail_fails : bool) (tid uid salt hex code_id : string) (n now : Z)
    (ip : option string) (payload : OnboardingStartRequest) : OM OnboardingStartResponse :=
  if truthy_opt (os_website_url payload) then
    ret {| onboarding_session_token := "bot"; os_tenant_id := "00000000-0000-0000-0000-000000000000";
           expires_in_seconds := 0; dev_verification_code := None |}
  else
    let mail := strip (lower (os_email payload)) in
    let policy := validate_password (os_password payload) (Some mail) (Some (os_company_name payload)) None in
    raise_if (negb (valid policy)) (HTTPException 400 "password_policy_violation") ;;;
    let* existing := query (fun d => user_by_email mail (acc d)) in
    raise_if (is_someb existing) (HTTPException 409 "email_already_registered") ;;;
    let* hashed := or_raise (hash_password salt (os_password payload)) (PyException "ValueError") in
    let tenant := {| tenant_pk := tid; tenant_name := strip (os_company_name payload);
                     slug := _unique_slug (os_company_name payload) hex; plan := "trial"; tenant_is_active := false |} in
    let user := {| user_id := uid; email := mail; hashed_password := hashed; full_name := None; is_active := false;
                   last_login_at := None |} in
    let* taken := query (fun d => slug_taken (acc d) (slug tenant)) in
    (if raced || taken then rollback ;;; raise (HTTPException 409 "onboarding_conflict") else ret tt) ;;;
    write (with_acc (fun a => with_users (fun t => <[uid := user]> t) (with_tenants (fun t => <[tid := tenant]> t) a))) ;;;
    write (with_acc (with_tenant_users (fun l => l ++ [{| tu_tenant_id := tid; tu_user_id := uid; role := "owner" |}]))) ;;;
    create_state now now tid (Some uid) EMAIL_PENDING ;;;
    let* issued := issue_code (ev_cfg cfg) sha256_hex code_id n now now now mail (Some tid) ip in
    raise_if mail_fails (PyException "mail") ;;;
    let '(token, ttl) := _mint_onboarding_token now tid uid mail false in
    ret {| onboarding_session_token := token; os_tenant_id := tid; expires_in_seconds := ttl;
           dev_verification_code := if is_development cfg then Some (code issued) else None |}.

(** api/v1/onboarding.py, [_finalize_email_verification]. *)
Definition _finalize_email_verification (now : Z) (jti : string) (ctx : OnboardingContext) (state : option OnboardingState)
    : OM VerifyEmailResponse :=
  let* m := query (fun d => membership (user_id (ctx_user ctx)) (tenant_pk (ctx_tenant ctx)) (acc d)) in
  let* tu := or_raise m (PyException "NoResultFound") in
  let tokens := issue_token_pair (jwt_cfg cfg) now now jti (ctx_user ctx) tu in
  let* state := match state with Some s => ret s | None => get_state (tenant_pk (ctx_tenant ctx)) end in
  ret {| ve_tokens := tokens; ve_tenant_id := tenant_pk (ctx_tenant ctx); ve_current_step := current_step state |}.

(** api/v1/onboarding.py, [verify_email]. *)
Definition verify_email (now : Z) (jti : string) (submitted_code : string) (ctx : OnboardingContext) : OM VerifyEmailResponse :=
  let uid := user_id (ctx_user ctx) in
  let tid := tenant_pk (ctx_tenant ctx) in
  if ctx_email_verified ctx then _finalize_email_verification now jti ctx None
  else
    (if onboarding_skip_email_verify cfg then ret tt
     else verify_code (ev_cfg cfg) sha256_hex now now (email (ctx_user ctx)) (Some tid) submitted_code ;;; ret tt) ;;;
    write (with_acc (with_users (alter set_user_active uid))) ;;;
    write (with_acc (with_tenants (alter set_tenant_active tid))) ;;;
    advance_to now now tid EMAIL_VERIFIED [] ;;;
    let* state := advance_to now now tid PROFILE [] in
    _finalize_email_verification now jti ctx (Some state).

(** The dependency and the endpoint, in one request. *)
Definition verify_email_request (now : Z) (jti token submitted_code : string) : OM VerifyEmailResponse :=
  in_request (let* ctx := _get_onboarding_context now token in verify_email now jti submitted_code ctx).

(** api/v1/onboarding.py, [save_company_profile]; [legal_name] is a field of the
    profile. *)
Definition save_company_profile (now : Z) (tu : TenantUser) (legal_name : string) (profile : list (string * json))
    : OM OnboardingState :=
  get_state (tu_tenant_id tu) ;;;
  update_state (tu_tenant_id tu) (set_profile profile) ;;;
  let* t := query (fun d => tenants (acc d) !! tu_tenant_id tu) in
  or_raise t (PyException "NoResultFound") ;;;
  write (with_acc (with_tenants (alter (set_tenant_name legal_name) (tu_tenant_id tu)))) ;;;
  advance_to now now (tu_tenant_id tu) PLAN [("profile_saved_at", JStr (isoformat (utc now)))].

(** api/v1/onboarding.py, [connect_portal]. *)
Definition connect_portal (now : Z) (tu : TenantUser) (portal_id username password : string) : OM OnboardingState :=
  let* p := query (fun d => ob_portals d !! portal_id) in
  let* portal := or_raise p (HTTPException 404 "portal_not_found") in
  let encrypted := encrypt (username +:+ String "010" EmptyString +:+ password) in
  advance_to now now (tu_tenant_id tu) SUPPLIER
    [("connected_portal", JObj [("portal_id", JStr (pr_id portal)); ("platform", JStr (pr_platform portal));
                                ("encrypted_credentials", JStr encrypted);
                                ("connected_at", JStr (isoformat (utc now)))])].

(** api/v1/onboarding.py, [add_supplier]. *)
Definition add_supplier (now : Z) (new_id : string) (tu : TenantUser) (legal_name : string) (fein primary_email : option string)
    (state : string) : OM OnboardingState :=
  write (with_first_supplier new_id {| fs_tenant_id := tu_tenant_id tu; fs_legal_name := legal_name; fs_ein := fein;
                                       fs_email := primary_email; fs_state := state |}) ;;;
  advance_to now now (tu_tenant_id tu) SUBMISSION [("first_supplier_id", JStr new_id)].

(** api/v1/onboarding.py, [run_first_submission]. *)
Definition run_first_submission (now : Z) (consent_id submission_id : string) (tu : TenantUser) (supplier_id portal_id : string)
    : OM (string * string) :=
  let* s := query (fun d => match first_suppliers d !! supplier_id with
                            | Some x => if String.eqb (fs_tenant_id x) (tu_tenant_id tu) then Some x else None
                            | None => None
                            end) in
  let* supplier := or_raise s (HTTPException 404 "supplier_not_found") in
  let* p := query (fun d => ob_portals d !! portal_id) in
  let* portal := or_raise p (HTTPException 404 "portal_not_found") in
  write (with_consent consent_id
           {| ac_tenant_id := tu_tenant_id tu; ac_supplier_id := supplier_id; ac_portal_ids := [pr_id portal];
              ac_granted_at := now; ac_granted_by := tu_user_id tu;
              ac_signed_text := "Onboarding wizard auto-consent for " +:+ fs_legal_name supplier +:+ " → "
                +:+ pr_display_name portal +:+ " at " +:+ isoformat (utc now) |}) ;;;
  write (with_submission submission_id
           {| fsub_tenant_id := tu_tenant_id tu; fsub_supplier_id := supplier_id; fsub_portal_id := pr_id portal;
              fsub_consent_id := consent_id; fsub_status := "queued" |}) ;;;
  advance_to now now (tu_tenant_id tu) SUBMISSION [("first_submission_id", JStr submission_id)] ;;;
  ret (submission_id, "queued").

(** api/v1/onboarding.py, [complete_onboarding]: the welcome mail cannot fail
    the request. *)
Definition complete_onboarding (now : Z) (tu : TenantUser) : OM (string * OnboardingStep) :=
  let* state := mark_completed now now now (tu_tenant_id tu) in
  let* t := query (fun d => tenants (acc d) !! tu_tenant_id tu) in
  let* tenant := or_raise t (PyException "NoResultFound") in
  let* u := query (fun d => users (acc d) !! tu_user_id tu) in
  or_raise u (PyException "NoResultFound") ;;;
  ret (tenant_pk tenant, current_step state).
End Endpoints.

(** api/v1/onboarding.py, [skip_step]: the schema admits the four steps. *)
Definition skip_step_endpoint (now : Z) (tu : TenantUser) (step : OnboardingStep) : OM OnboardingState :=
  skip_step now now (tu_tenant_id tu) step.

(** ** Progress *)

(** Every tenant's row is still there and at the same step or a later one. *)
Definition no_back (d d' : OnboardingDB) : Prop :=
  forall tid s, states d !! tid = Some s ->
  exists s', states d' !! tid = Some s' /\ _step_index (current_step s) <= _step_index (current_step s').

#[export] Instance no_back_preorder : PreOrder no_back.
Proof.
  split.
  - intros d tid s Hs. exists s. split; [done|lia].
  - intros d1 d2 d3 H12 H23 tid s Hs. destruct (H12 tid s Hs) as (s2 & H2 & ?).
    destruct (H23 tid s2 H2) as (s3 & H3 & ?). exists s3. split; [done|lia].
Qed.

Lemma no_back_same d d' : states d' = states d -> no_back d d'.
Proof. intros H tid s Hs. exists s. rewrite H. split; [done|lia]. Qed.

Lemma no_back_alter d tid f :
  (forall s, states d !! tid = Some s -> _step_index (current_step s) <= _step_index (current_step (f s))) ->
  no_back d (with_states (alter f tid) d).
Proof.
  intros Hf t s Hs. cbn. destruct (decide (t = tid)) as [->|Hne].
  - exists (f s). rewrite lookup_alter_eq, Hs. cbn. split; [done|by apply Hf].
  - exists s. rewrite lookup_alter_ne by done. split; [done|lia].
Qed.

(** When the call returns, no row has gone back. *)
Definition moves_on {A} (m : OM A) : Prop :=
  forall s a s', m s = (Ok a, s') -> no_back (working s) (working s').

Create HintDb moves_on.

Lemma moves_on_bind {A B} (m : OM A) (k : A -> OM B) :
  moves_on m -> (forall a, moves_on (k a)) -> moves_on (bind m k).
Proof.
  intros Hm Hk s b s' (a & s1 & H1 & H2)%bind_Ok. etransitivity; [by eapply Hm|by eapply Hk].
Qed.
Lemma moves_on_readonly {A} (m : OM A) : readonly m -> moves_on m.
Proof. intros Hm s a s' H. apply readonly_run in H as ->; [reflexivity|done]. Qed.
Lemma moves_on_raise {A} e : moves_on (raise (A := A) e).
Proof. done. Qed.
Lemma moves_on_rollback_raise {A} e : moves_on (bind rollback (fun _ => raise (A := A) e)).
Proof. done. Qed.
Lemma moves_on_write f : (forall d, states (f d) = states d) -> moves_on (write f).
Proof. intros Hf s a s' [= _ <-]. cbn. by apply no_back_same. Qed.
Lemma moves_on_query {A} (f : OnboardingDB -> A) : moves_on (query f).
Proof. apply moves_on_readonly. unfold query. auto with readonly. Qed.
Lemma moves_on_ret {A} (a : A) : moves_on (ret a).
Proof. apply moves_on_readonly. auto with readonly. Qed.
Lemma moves_on_raise_if b e : moves_on (raise_if b e).
Proof. apply moves_on_readonly. auto with readonly. Qed.
Lemma moves_on_or_raise {A} (o : option A) e : moves_on (or_raise o e).
Proof. apply moves_on_readonly. auto with readonly. Qed.
#[export] Hint Resolve moves_on_bind moves_on_raise moves_on_query moves_on_ret moves_on_raise_if moves_on_or_raise
  moves_on_rollback_raise : moves_on.
#[export] Hint Extern 1 (moves_on (write _)) => apply moves_on_write; reflexivity : moves_on.

Lemma moves_on_update tid f : (forall s, current_step (f s) = current_step s) -> moves_on (update_state tid f).
Proof. intros Hf s a s' [= _ <-]. cbn. apply no_back_alter. intros x _. by rewrite Hf. Qed.

Lemma moves_on_find tid : moves_on (find_state tid).
Proof. apply moves_on_query. Qed.
Lemma moves_on_get tid : moves_on (get_state tid).
Proof. unfold get_state. auto using moves_on_find with moves_on. Qed.
#[export] Hint Resolve moves_on_update moves_on_find moves_on_get : moves_on.

Lemma step_index_range s : 0 <= _step_index s <= 8.
Proof. destruct s; vm_compute; split; discriminate. Qed.

Lemma step_index_DONE s : _step_index s = 8 -> s = DONE.
Proof. by destruct s. Qed.

Lemma moves_on_create now db_now tid u i : moves_on (create_state now db_now tid u i).
Proof.
  unfold create_state. intros s a s' (o & s1 & H1 & H2)%bind_Ok.
  unfold find_state, query in H1. apply reads_Ok in H1 as [-> ->].
  destruct (states (working s) !! tid) as [x|] eqn:Hx; [by apply ret_Ok in H2 as [-> ->]|].
  apply bind_Ok in H2 as ([] & s2 & [= <-] & H2). apply ret_Ok in H2 as [_ ->]. cbn.
  intros t y Hy. exists y. cbn. rewrite lookup_insert_ne by congruence. split; [done|lia].
Qed.

(** Setting a step at or beyond the current one. *)
Lemma no_back_set_step d tid s step :
  states d !! tid = Some s -> _step_index (current_step s) <= _step_index step ->
  no_back d (with_states (alter (set_step step) tid) d).
Proof. intros Hs Hle. apply no_back_alter. intros x Hx. assert (x = s) as -> by congruence. exact Hle. Qed.

Lemma get_state_Ok tid s x s' : get_state tid s = (Ok x, s') <-> s' = s /\ states (working s) !! tid = Some x.
Proof.
  unfold get_state, find_state, query, reads, or_raise, bind.
  destruct (states (working s) !! tid) as [y|]; cbn; unfold ret, raise; split; [intros [= -> ->]|intros [-> [= ->]]|done|intros [_ [=]]];
    done.
Qed.

Lemma moves_on_advance now1 now2 tid target data : target <> START -> moves_on (advance_to now1 now2 tid target data).
Proof.
  intros Hne. unfold advance_to. intros s a s' Hok.
  apply bind_Ok in Hok as (st & s1 & Hg & Hok). apply get_state_Ok in Hg as [-> Hst].
  apply bind_Ok in Hok as (u1 & s1 & Hr1 & Hok). apply raise_if_Ok in Hr1 as [_ ->].
  apply bind_Ok in Hok as (u2 & s1 & Hr2 & Hok). apply raise_if_Ok in Hr2 as [Hback ->].
  assert (Hle : _step_index (current_step st) <= _step_index target).
  { destruct (Z.ltb_spec (_step_index target) (_step_index (current_step st))); [|done].
    rewrite bool_decide_eq_false_2 in Hback; [done|]. unfold _BACKWARD_ALLOWED.
    intros [= _ ?]%list_elem_of_singleton. done. }
  apply bind_Ok in Hok as (u3 & s1 & Hd & Hok).
  assert (H1 : no_back (working s) (working s1) /\ exists st1, states (working s1) !! tid = Some st1 /\
                 current_step st1 = current_step st).
  { destruct data as [|kv data].
    - apply ret_Ok in Hd as [_ ->]. split; [reflexivity|by exists st].
    - split; [by eapply moves_on_update; [|exact Hd]|]. injection Hd as _ <-. cbn.
      eexists. rewrite lookup_alter_eq, Hst. done. }
  destruct H1 as (H1 & st1 & Hst1 & Hcur).
  apply bind_Ok in Hok as (u4 & s2 & [= _ <-] & Hok). apply bind_Ok in Hok as (u5 & s3 & Hm & Hok).
  apply get_state_Ok in Hok as [-> _]. etransitivity; [exact H1|].
  etransitivity; [by apply (no_back_set_step _ tid st1 target); [|rewrite Hcur]|].
  by eapply moves_on_update in Hm.
Qed.

Lemma moves_on_skip now1 now2 tid step : moves_on (skip_step now1 now2 tid step).
Proof.
  unfold skip_step. apply moves_on_bind; [auto with moves_on|]. intros _ s a s' Hok.
  apply bind_Ok in Hok as (st & s1 & Hg & Hok). apply get_state_Ok in Hg as [-> Hst].
  apply bind_Ok in Hok as (u1 & s1 & Hr1 & Hok). apply raise_if_Ok in Hr1 as [_ ->].
  apply bind_Ok in Hok as (u2 & s1 & [= _ <-] & Hok).
  match type of Hok with context [List.nth ?i ?l ?x] => set (next := List.nth i l x) in Hok end.
  apply bind_Ok in Hok as (u3 & s2 & Hif & Hok).
  assert (Hs1 : no_back (working s) (with_states (alter (_mark_skipped now1 step) tid) (working s)))
    by (by apply no_back_alter).
  etransitivity; [exact Hs1|].
  apply bind_Ok in Hok as (u4 & s3 & Hact & Hok). apply get_state_Ok in Hok as [-> _].
  eapply moves_on_update in Hact; [|done]. etransitivity; [|exact Hact].
  destruct (Z.ltb_spec (_step_index (current_step st)) (_step_index next)) as [Hlt|_].
  - injection Hif as _ <-. cbn. eapply no_back_set_step; [cbn; rewrite lookup_alter_eq, Hst; reflexivity|]. apply Z.lt_le_incl. exact Hlt.
  - by apply ret_Ok in Hif as [_ ->].
Qed.

Lemma moves_on_complete now1 now2 now3 tid : moves_on (mark_completed now1 now2 now3 tid).
Proof.
  unfold mark_completed. intros s a s' Hok.
  apply bind_Ok in Hok as (st & s1 & Hg & Hok). apply get_state_Ok in Hg as [-> Hst].
  destruct (bool_decide _); [by apply ret_Ok in Hok as [_ ->]|].
  apply bind_Ok in Hok as (u1 & s1 & [= _ <-] & Hok). apply bind_Ok in Hok as (u2 & s2 & H2 & Hok).
  apply bind_Ok in Hok as (u3 & s3 & H3 & Hok). apply get_state_Ok in Hok as [-> _].
  eapply moves_on_update in H2, H3; [|done|done]. etransitivity; [|etransitivity; [exact H2|exact H3]].
  apply (no_back_set_step _ tid st DONE Hst), step_index_range.
Qed.
#[export] Hint Resolve moves_on_create moves_on_advance moves_on_skip moves_on_complete : moves_on.

(** ** Requests, one after the other *)

(** The call leaves what other sessions see alone. *)
Definition keeps {A} (m : OM A) : Prop := forall c, preserves (fun s => committed s = c) m.

Lemma keeps_write f : keeps (write f).
Proof. intros c s Hs. exact Hs. Qed.
Lemma keeps_rollback : keeps rollback.
Proof. intros c s Hs. exact Hs. Qed.
Lemma keeps_query {A} (f : OnboardingDB -> A) : keeps (query f).
Proof. intros c s Hs. exact Hs. Qed.
Lemma keeps_bind {A B} (m : OM A) (k : A -> OM B) : keeps m -> (forall a, keeps (k a)) -> keeps (bind m k).
Proof. intros Hm Hk c. apply preserves_bind; [apply Hm|intros a; apply Hk]. Qed.
Lemma keeps_ret {A} (a : A) : keeps (ret a).
Proof. intros c. apply preserves_ret. Qed.
Lemma keeps_raise {A} e : keeps (raise (A := A) e).
Proof. intros c. apply preserves_raise. Qed.
Lemma keeps_raise_if b e : keeps (raise_if b e).
Proof. intros c. apply preserves_raise_if. Qed.
Lemma keeps_or_raise {A} (o : option A) e : keeps (or_raise o e).
Proof. intros c. apply preserves_or_raise. Qed.

Create HintDb keeps.
#[export] Hint Resolve keeps_write keeps_rollback keeps_query keeps_bind keeps_ret keeps_raise keeps_raise_if
  keeps_or_raise : keeps.

(** Take a call apart into its steps, by the hints of a database. *)
Ltac by_steps :=
  repeat first
    [ progress cbv zeta
    | match goal with
      | |- ?P (bind _ _) => first [apply moves_on_rollback_raise | apply moves_on_bind | apply keeps_bind]; [|intros ?]
      | |- ?P (match ?x with _ => _ end) => destruct x
      end
    | solve [auto with moves_on]
    | solve [auto with keeps] ].

Lemma keeps_update tid f : keeps (update_state tid f).
Proof. apply keeps_write. Qed.
Lemma keeps_get tid : keeps (get_state tid).
Proof. unfold get_state, find_state. by_steps. Qed.
#[export] Hint Resolve keeps_update keeps_get : keeps.
Lemma keeps_advance now1 now2 tid target data : keeps (advance_to now1 now2 tid target data).
Proof. unfold advance_to. by_steps. Qed.
Lemma keeps_skip now1 now2 tid step : keeps (skip_step now1 now2 tid step).
Proof. unfold skip_step. by_steps. Qed.
Lemma keeps_complete now1 now2 now3 tid : keeps (mark_completed now1 now2 now3 tid).
Proof. unfold mark_completed. by_steps. Qed.
Lemma keeps_create now db_now tid u i : keeps (create_state now db_now tid u i).
Proof. unfold create_state, find_state. by_steps. Qed.
Lemma keeps_issue cfg sha i n now1 now2 created mail tid ip : keeps (issue_code cfg sha i n now1 now2 created mail tid ip).
Proof. unfold issue_code, _count_codes_in_last_hour, hash_code, change_rows. by_steps. Qed.
Lemma keeps_verify cfg sha now1 now2 mail tid c : keeps (verify_code cfg sha now1 now2 mail tid c).
Proof. unfold verify_code, hash_code, change_rows. by_steps. Qed.
#[export] Hint Resolve keeps_advance keeps_skip keeps_complete keeps_create keeps_issue keeps_verify : keeps.

Lemma moves_on_change_rows f : moves_on (change_rows f).
Proof. by apply moves_on_write. Qed.
#[export] Hint Resolve moves_on_change_rows : moves_on.
Lemma moves_on_issue cfg sha i n now1 now2 created mail tid ip :
  moves_on (issue_code cfg sha i n now1 now2 created mail tid ip).
Proof. unfold issue_code, _count_codes_in_last_hour, hash_code. by_steps. Qed.
Lemma moves_on_verify cfg sha now1 now2 mail tid c : moves_on (verify_code cfg sha now1 now2 mail tid c).
Proof. unfold verify_code, hash_code. by_steps. Qed.
#[export] Hint Resolve moves_on_issue moves_on_verify : moves_on.

Lemma request_no_back {A} (m : OM A) d : moves_on m -> keeps m -> no_back d (committed (in_request m (Session d d)).2).
Proof.
  intros Hm Hk. specialize (Hk d (Session d d) eq_refl). unfold in_request.
  destruct (m (Session d d)) as [[a|e] s'] eqn:Hrun; cbn in *.
  - by apply Hm in Hrun.
  - by rewrite Hk.
Qed.

(** The one back-step of the service, and its refusal of all others. *)
Lemma advance_back now1 now2 tid target data d s :
  states (working d) !! tid = Some s -> _step_index target < _step_index (current_step s) ->
  if bool_decide (current_step s = PROFILE /\ target = START)
  then exists s' d', advance_to now1 now2 tid target data d = (Ok s', d') /\ current_step s' = START /\
         states (working d') !! tid = Some s'
  else advance_to now1 now2 tid target data d = (Raise OnboardingStateError, d).
Proof.
  intros Hs Hlt. case_bool_decide as Hback.
  - destruct Hback as [Hc ->]. unfold advance_to, bind at 1. rewrite (proj2 (get_state_Ok tid d s d)) by done.
    rewrite (proj2 (Z.ltb_lt _ _)) by done. unfold bind at 1, raise_if at 1. rewrite Hc, bool_decide_eq_false_2 by done.
    cbn [andb]. unfold ret at 1. unfold bind at 1, raise_if.
    rewrite bool_decide_eq_true_2 by (by apply list_elem_of_singleton). cbn [negb andb].
    unfold ret at 1. match goal with |- exists _ _, ?run = _ /\ _ /\ _ =>
      assert (Hrun : exists sx x, run = get_state tid sx /\ states (working sx) !! tid = Some x /\ current_step x = START) end.
    { destruct data as [|kv data]; unfold update_state, write, modify, bind, ret; eexists _, _;
        (split; [reflexivity|]); cbn; rewrite !lookup_alter_eq, Hs; (split; reflexivity). }
    destruct Hrun as (sx & x & -> & Hx & Hst). rewrite (proj2 (get_state_Ok tid sx x sx)) by done.
    by exists x, sx.
  - unfold advance_to, bind. rewrite (proj2 (get_state_Ok tid d s d)) by done. unfold raise_if.
    destruct (bool_decide (current_step s = DONE) && _); [done|]. rewrite (proj2 (Z.ltb_lt _ _)) by done.
    rewrite bool_decide_eq_false_2; [done|]. unfold _BACKWARD_ALLOWED. intros H%list_elem_of_singleton. apply Hback.
    by injection H.
Qed.

Section Wizard.
Context `{!TokenLibrary}.
Context (cfg : onboarding_settings) (sha256_hex : string -> string) (repr_other : json -> string).
Context (encrypt : string -> string).

(** A request to any endpoint of the wizard, with any input, at any time. *)
Inductive wizard_step (d : OnboardingDB) : OnboardingDB -> Prop :=
| start_step raced fails tid uid salt hex i n now ip payload :
    wizard_step d (committed (in_request (start_onboarding cfg sha256_hex raced fails tid uid salt hex i n now ip payload)
                                (Session d d)).2)
| verify_step now jti token c :
    wizard_step d (committed (verify_email_request cfg sha256_hex repr_other now jti token c (Session d d)).2)
| profile_step now tu name profile :
    wizard_step d (committed (in_request (save_company_profile now tu name profile) (Session d d)).2)
| portal_step now tu pid username password :
    wizard_step d (committed (in_request (connect_portal encrypt now tu pid username password) (Session d d)).2)
| supplier_step now i tu name fein mail st :
    wizard_step d (committed (in_request (add_supplier now i tu name fein mail st) (Session d d)).2)
| submission_step now i j tu sid pid :
    wizard_step d (committed (in_request (run_first_submission now i j tu sid pid) (Session d d)).2)
| skip_request now tu step :
    wizard_step d (committed (in_request (skip_step_endpoint now tu step) (Session d d)).2)
| complete_step now tu :
    wizard_step d (committed (in_request (complete_onboarding now tu) (Session d d)).2).

Lemma wizard_step_no_back d d' : wizard_step d d' -> no_back d d'.
Proof.
  intros []; try apply request_no_back;
    unfold start_onboarding, verify_email, _get_onboarding_context, _decode_onboarding_token, claim,
      _finalize_email_verification, save_company_profile, connect_portal, add_supplier, run_first_submission,
      skip_step_endpoint, complete_onboarding; by_steps.
Qed.

(** C17. The wizard only goes forward: whatever requests are made to its
    endpoints, in any order and with any input, no tenant's row is lost, none
    goes back to an earlier step, and one that is done stays done.  The service
    beneath has one back-step: [advance_to] goes from PROFILE to START when it
    is told to, as the documents and a test say, and refuses every other target
    before the current step, changing nothing; but no endpoint tells it to, so
    the documented correction of the e-mail address cannot be reached. *)
Theorem wizard_only_goes_forward d d' tid s :
  star wizard_step d d' -> states d !! tid = Some s ->
  (exists s', states d' !! tid = Some s' /\ _step_index (current_step s) <= _step_index (current_step s') /\
    (current_step s = DONE -> current_step s' = DONE)) /\
  (forall now1 now2 target data c,
     _step_index target < _step_index (current_step s) ->
     if bool_decide (current_step s = PROFILE /\ target = START)
     then exists s' d2, advance_to now1 now2 tid target data (Session d c) = (Ok s', d2) /\
            current_step s' = START /\ states (working d2) !! tid = Some s'
     else advance_to now1 now2 tid target data (Session d c) = (Raise OnboardingStateError, Session d c)).
Proof.
  intros Hstar Hs. split; [|intros now1 now2 target data c Hlt; by apply advance_back].
  assert (Hnb : no_back d d').
  { apply (star_invariant wizard_step (no_back d)) with (s := d); [|done|reflexivity].
    intros x y Hxy Hx. etransitivity; [exact Hx|]. by apply wizard_step_no_back. }
  destruct (Hnb tid s Hs) as (s' & Hs' & Hle). exists s'. split_and!; try done.
  intros Hd. rewrite Hd in Hle. change (_step_index DONE) with 8 in Hle. apply step_index_DONE.
  pose proof (step_index_range (current_step s')). lia.
Qed.
End Wizard.

(** ** Findings about single steps *)

(** Going to a step before the current one is refused, also when that step was
    completed before. *)
Lemma earlier_step_refused now1 now2 tid target data d s :
  states (working d) !! tid = Some s -> _step_index target < _step_index (current_step s) ->
  target <> START -> advance_to now1 now2 tid target data d = (Raise OnboardingStateError, d).
Proof.
  intros Hs Hlt Hne. unfold advance_to, bind. rewrite (proj2 (get_state_Ok tid d s d)) by done.
  unfold raise_if. destruct (bool_decide (current_step s = DONE) && _); [done|].
  rewrite (proj2 (Z.ltb_lt _ _)) by done. rewrite bool_decide_eq_false_2; [done|].
  intros [= _ ?]%list_elem_of_singleton. done.
Qed.

(** Skipping the submission step ends the wizard without [completed_at], and
    completing it afterwards does not set it either. *)
Lemma skip_submission_never_completes now1 now2 tid d s :
  states (working d) !! tid = Some s -> current_step s <> DONE ->
  exists s' d', skip_step now1 now2 tid SUBMISSION d = (Ok s', d') /\ states (working d') !! tid = Some s' /\
    current_step s' = DONE /\ st_completed_at s' = st_completed_at s /\
    forall t1 t2 t3, mark_completed t1 t2 t3 tid d' = (Ok s', d').
Proof.
  intros Hs Hne. unfold skip_step, bind, raise_if. cbn [ret]. unfold ret. rewrite bool_decide_eq_true_2 by (vm_compute; set_solver).
  cbn [negb]. rewrite (proj2 (get_state_Ok tid d s d)) by done. rewrite bool_decide_eq_false_2 by done.
  assert (Hlt : (_step_index (current_step s) <? _step_index DONE) = true) by (by destruct (current_step s)).
  change (List.nth _ STEP_ORDER DONE) with DONE. rewrite Hlt.
  set (s' := set_activity now2 (set_step DONE (_mark_skipped now1 SUBMISSION s))).
  set (d' := Session (with_states (alter (set_activity now2) tid) (with_states (alter (set_step DONE) tid)
               (with_states (alter (_mark_skipped now1 SUBMISSION) tid) (working d)))) (committed d)).
  assert (Hd' : states (working d') !! tid = Some s') by (cbn; by rewrite !lookup_alter_eq, Hs).
  exists s', d'. split; [by apply get_state_Ok|]. split_and!; try done.
  intros t1 t2 t3. unfold mark_completed, bind. rewrite (proj2 (get_state_Ok tid d' s' d')) by done. done.
Qed.

(** ** The verification endpoint *)

Section VerifyEndpoint.
Context `{!TokenLibrary}.
Context (cfg : onboarding_settings) (sha256_hex : string -> string) (repr_other : json -> string).

(** What the endpoint needs of the token and of the tables to get to the code. *)
Record pending (now : Z) (token : string) (d : OnboardingDB) (u : User) (t : Tenant) (r : EmailVerification) : Prop := {
  pe_payload : exists payload, jwt_decode now token (jwt_secret_key (jwt_cfg cfg)) = Some payload /\
    get_key "scope" payload = JStr "onboarding" /\ assoc "sub" payload = Some (JStr (user_id u)) /\
    assoc "tenant_id" payload = Some (JStr (tenant_pk t)) /\ jtruthy (get_key "email_verified" payload) = false;
  pe_user : users (acc d) !! user_id u = Some u;
  pe_tenant : tenants (acc d) !! tenant_pk t = Some t;
  pe_check : onboarding_skip_email_verify cfg = false;
  pe_row : _latest_unconsumed (lower (strip (email u))) (Some (tenant_pk t)) (codes d) = Some r;
  pe_time : now < instant (ev_expires_at r);
}.

Lemma pending_run now jti token c d u t r :
  pending now token d u t r ->
  verify_email_request cfg sha256_hex repr_other now jti token c (Session d d) =
  in_request (verify_email cfg sha256_hex now jti c {| ctx_user := u; ctx_tenant := t; ctx_email_verified := false |})
    (Session d d).
Proof.
  intros [(p & Hd & Hs & Hsub & Ht & He) Hu Htn _ _ _]. unfold verify_email_request, in_request, bind at 1.
  unfold _get_onboarding_context, _decode_onboarding_token, claim, bind. rewrite Hd. cbn [or_raise ret]. unfold ret, or_raise.
  rewrite Hs. cbn [bool_decide negb raise_if]. rewrite bool_decide_eq_true_2 by done. cbn [negb raise_if]. unfold ret.
  rewrite Hsub, Ht. unfold query, reads, ret. cbn [py_str working]. rewrite Hu. cbn [working]. rewrite Htn, He. done.
Qed.

(** A client's tries: the clock, the identifier and the code of each. *)
Fixpoint run_tries (token : string) (l : list (Z * string * string)) (d : OnboardingDB) : OnboardingDB :=
  match l with
  | [] => d
  | (now, jti, c) :: l =>
      run_tries token l (committed (verify_email_request cfg sha256_hex repr_other now jti token c (Session d d)).2)
  end.

(** The cap on attempts has no effect on the endpoint: each wrong code raises,
    the request is rolled back and the attempt is not counted, so after any
    number of wrong codes the tables are what they were, every answer was "invalid
    code" and none "attempts exhausted". *)
Theorem wrong_codes_are_not_counted token d u t r tries :
  attempts r < max_attempts (ev_cfg cfg) ->
  Forall (fun x => pending x.1.1 token d u t r /\ strip x.2 <> "" /\ hash_of (ev_cfg cfg) sha256_hex x.2 <> code_hash r) tries ->
  run_tries token tries d = d /\
  Forall (fun x => (verify_email_request cfg sha256_hex repr_other x.1.1 x.1.2 token x.2 (Session d d)).1 =
                   Raise (HTTPException 400 "invalid_or_expired_code")) tries.
Proof.
  intros Hatt Hall.
  assert (Hone : forall now jti c, pending now token d u t r -> strip c <> "" -> hash_of (ev_cfg cfg) sha256_hex c <> code_hash r ->
            verify_email_request cfg sha256_hex repr_other now jti token c (Session d d) = (Raise invalid_exc, Session d d)).
  { intros now jti c Hp Hc Hh. rewrite (pending_run now jti token c d u t r Hp). destruct Hp as [_ _ _ Hskip Hrow Htime].
    unfold in_request, verify_email. cbn [ctx_email_verified ctx_user ctx_tenant]. rewrite Hskip. unfold bind.
    rewrite verify_code_run. change (rows_of (Session d d)) with (codes d). rewrite Hrow.
    rewrite (proj2 (Z.leb_gt _ _)), (proj2 (Z.leb_gt _ _)) by done.
    apply truthy_spec in Hc. rewrite Hc. cbv zeta. cbn [negb].
    destruct (String.eqb_spec (code_hash r) (hash_of (ev_cfg cfg) sha256_hex c)); [congruence|]. done. }
  split.
  - induction Hall as [|[[now jti] c] l (Hp & Hc & Hh) _ IH]; cbn; [done|].
    cbn in *. rewrite (Hone now jti c) by done. exact IH.
  - eapply List.Forall_impl; [|exact Hall]. intros [[now jti] c] (Hp & Hc & Hh). cbn in *. by rewrite (Hone now jti c).
Qed.
End VerifyEndpoint.

(** ** From the start to a session *)

Section StartThenVerify.
Context `{!TokenLibrary, !TokenLaws}.
Context (cfg : onboarding_settings) (sha256_hex : string -> string) (repr_other : json -> string).

Definition pending_user (uid hashed : string) (p : OnboardingStartRequest) : User :=
  {| user_id := uid; email := strip (lower (os_email p)); hashed_password := hashed; full_name := None;
     is_active := false; last_login_at := None |}.
Definition pending_tenant (tid hex : string) (p : OnboardingStartRequest) : Tenant :=
  {| tenant_pk := tid; tenant_name := strip (os_company_name p); slug := _unique_slug (os_company_name p) hex;
     plan := "trial"; tenant_is_active := false |}.
Definition owner (tid uid : string) : TenantUser := {| tu_tenant_id := tid; tu_user_id := uid; role := "owner" |}.
Definition first_state (now : Z) (tid uid : string) : OnboardingState :=
  {| st_tenant_id := tid; current_step := EMAIL_PENDING;
     completed_steps := [(step_value START, JStr (isoformat (utc now)))]; skipped_steps := []; step_data_json := [];
     company_profile_json := None; primary_user_id := Some uid; started_at := now; last_activity_at := now;
     st_completed_at := None |}.
Definition code_row (i tid : string) (n now : Z) (ip : option string) (p : OnboardingStartRequest) : EmailVerification :=
  {| ev_id := i; ev_tenant_id := Some tid; ev_email := lower (strip (strip (lower (os_email p))));
     code_hash := sha256_hex (_generate_numeric_code CODE_LENGTH n +:+ _pepper (ev_cfg cfg));
     ev_expires_at := utc (now + minutes (code_ttl_minutes (ev_cfg cfg))); attempts := 0; consumed_at := None;
     ev_created_at := now; ev_ip_address := ip |}.

(** The tables after a start. *)
Definition started (tid uid hashed hex i : string) (n now : Z) (ip : option string) (p : OnboardingStartRequest)
    (d : OnboardingDB) : OnboardingDB :=
  {| acc := {| users := <[uid := pending_user uid hashed p]> (users (acc d));
               tenants := <[tid := pending_tenant tid hex p]> (tenants (acc d));
               tenant_users := tenant_users (acc d) ++ [owner tid uid];
               revoked_refresh_tokens := revoked_refresh_tokens (acc d) |};
     codes := codes d ++ [code_row i tid n now ip p]; states := <[tid := first_state now tid uid]> (states d);
     ob_portals := ob_portals d; first_suppliers := first_suppliers d; auto_consents := auto_consents d;
     first_submissions := first_submissions d |}.

Lemma start_run raced fails tid uid salt hex i n now ip p d resp s1 :
  truthy_opt (os_website_url p) = false -> states d !! tid = None ->
  start_onboarding cfg sha256_hex raced fails tid uid salt hex i n now ip p (Session d d) = (Ok resp, s1) ->
  exists hashed, s1 = Session (started tid uid hashed hex i n now ip p d) d /\
    onboarding_session_token resp = (_mint_onboarding_token cfg now tid uid (strip (lower (os_email p))) false).1 /\
    os_tenant_id resp = tid /\ user_by_email (strip (lower (os_email p))) (acc d) = None.
Proof.
  intros Hw Hst Hok. unfold start_onboarding in Hok. rewrite Hw in Hok.
  apply bind_Ok in Hok as (u1 & s2 & H1 & Hok). apply raise_if_Ok in H1 as [_ ->].
  apply bind_Ok in Hok as (ex & s2 & H1 & Hok). unfold query in H1. apply reads_Ok in H1 as [-> ->].
  apply bind_Ok in Hok as (u2 & s2 & H1 & Hok). apply raise_if_Ok in H1 as [Hex ->].
  apply bind_Ok in Hok as (hashed & s2 & H1 & Hok). apply or_raise_Ok in H1 as [_ ->].
  apply bind_Ok in Hok as (taken & s2 & H1 & Hok). unfold query in H1. apply reads_Ok in H1 as [-> ->].
  apply bind_Ok in Hok as (u3 & s2 & H1 & Hok). destruct (raced || _); [done|]. apply ret_Ok in H1 as [_ ->].
  apply bind_Ok in Hok as (u4 & s2 & [= _ <-] & Hok). apply bind_Ok in Hok as (u5 & s2 & [= _ <-] & Hok).
  apply bind_Ok in Hok as (st & s2 & H1 & Hok). unfold create_state, find_state, query in H1.
  apply bind_Ok in H1 as (o & s3 & H2 & H1). apply reads_Ok in H2 as [-> ->]. cbn [working states with_acc] in H1.
  rewrite Hst in H1. apply bind_Ok in H1 as (u6 & s3 & [= _ <-] & H1). apply ret_Ok in H1 as [_ ->].
  apply bind_Ok in Hok as (issued & s3 & H1 & Hok). rewrite issue_code_run in H1. cbv zeta in H1.
  destruct (max_codes_per_hour (ev_cfg cfg) <=? _); [done|]. injection H1 as _ <-.
  apply bind_Ok in Hok as (u7 & s3 & H1 & Hok). apply raise_if_Ok in H1 as [_ ->].
  apply ret_Ok in Hok as [-> ->]. exists hashed. split_and!; [done|done|done|].
  by destruct (user_by_email _ _).
Qed.

Lemma advance_forward now1 now2 tid target s x :
  states (working s) !! tid = Some x -> current_step x <> DONE -> _step_index (current_step x) <= _step_index target ->
  advance_to now1 now2 tid target [] s =
  (Ok (_mark_completed now1 now2 target (set_step target x)),
   Session (with_states (alter (_mark_completed now1 now2 target) tid) (with_states (alter (set_step target) tid) (working s)))
     (committed s)).
Proof.
  intros Hx Hne Hle. unfold advance_to, bind. rewrite (proj2 (get_state_Ok tid s x s)) by done.
  rewrite bool_decide_eq_false_2 by done. rewrite (proj2 (Z.ltb_ge _ _)) by done.
  cbn [andb raise_if]. unfold ret. apply get_state_Ok. split; [done|]. cbn. by rewrite !lookup_alter_eq, Hx.
Qed.

Lemma started_membership tid uid hashed hex i n now ip p d :
  accounts_wf (acc d) -> users (acc d) !! uid = None ->
  membership uid tid (acc (started tid uid hashed hex i n now ip p d)) = Some (owner tid uid).
Proof.
  intros Hwf Hu. unfold membership. cbn. assert (Hno : forall m, In m (tenant_users (acc d)) -> tu_user_id m <> uid).
  { intros m Hm E. destruct (wf_member _ Hwf m Hm) as [[? Hm'] _]. congruence. }
  induction (tenant_users (acc d)) as [|m l IH]; cbn; [by rewrite !String.eqb_refl|].
  destruct (String.eqb_spec (tu_user_id m) uid) as [E|_]; cbn; [by destruct (Hno m); [left|]|].
  apply IH. intros m' Hm'. apply Hno. by right.
Qed.

(** The onboarding token and the code lead to the pending rows. *)
Lemma started_pending tid uid hashed hex i n now now2 ip p d :
  onboarding_skip_email_verify cfg = false -> tid <> "" -> uid <> "" ->
  live now (minutes (onboarding_session_ttl_minutes cfg)) now2 -> now2 < now + minutes (code_ttl_minutes (ev_cfg cfg)) ->
  (forall r, In r (codes d) -> candidate (lower (strip (strip (lower (os_email p))))) (Some tid) r = true ->
     ev_created_at r < now) ->
  pending cfg now2 (_mint_onboarding_token cfg now tid uid (strip (lower (os_email p))) false).1
    (started tid uid hashed hex i n now ip p d) (pending_user uid hashed p) (pending_tenant tid hex p)
    (code_row i tid n now ip p).
Proof.
  intros Hskip Htid Huid (Hn & Hd & Hle & Hlt) Hexp Hold. split; try done.
  - eexists. split.
    + unfold _mint_onboarding_token. cbn [fst].
      apply (jwt_decode_encode now2 _ _ (timestamp now) (timestamp (now + minutes (onboarding_session_ttl_minutes cfg))) uid);
        try done. unfold timestamp, us_per_second in *. rewrite Z.quot_div_nonneg by lia. lia.
    + done.
  - cbn. apply lookup_insert_eq.
  - cbn. apply lookup_insert_eq.
  - cbn [codes started email pending_user tenant_pk pending_tenant]. apply latest_unique.
    + apply in_app_iff. right. by left.
    + unfold candidate. cbn. rewrite String.eqb_refl. cbn. by apply bool_decide_eq_true_2.
    + intros r' [Hr'|[<-|[]]]%in_app_iff Hc; [right; by apply Hold|by left].
  - cbn [ev_expires_at code_row]. by rewrite instant_utc.
Qed.

(** The right code makes the user and the tenant active and moves the wizard to
    the profile step. *)
Lemma verify_started tid uid hashed hex i n now now2 jti ip p d :
  onboarding_skip_email_verify cfg = false -> 0 < max_attempts (ev_cfg cfg) ->
  accounts_wf (acc d) -> users (acc d) !! uid = None ->
  let d1 := started tid uid hashed hex i n now ip p d in
  pending cfg now2 (_mint_onboarding_token cfg now tid uid (strip (lower (os_email p))) false).1 d1
    (pending_user uid hashed p) (pending_tenant tid hex p) (code_row i tid n now ip p) ->
  exists d2, verify_email_request cfg sha256_hex repr_other now2 jti
      (_mint_onboarding_token cfg now tid uid (strip (lower (os_email p))) false).1
      (_generate_numeric_code CODE_LENGTH n) (Session d1 d1) =
    (Ok {| ve_tokens := issue_token_pair (jwt_cfg cfg) now2 now2 jti (pending_user uid hashed p) (owner tid uid);
           ve_tenant_id := tid; ve_current_step := PROFILE |}, Session d2 d2) /\
    option_map current_step (states d2 !! tid) = Some PROFILE /\
    tenants (acc d2) = alter set_tenant_active tid (tenants (acc d1)) /\
    users (acc d2) = alter set_user_active uid (users (acc d1)).
Proof.
  intros Hskip Hmax Hwf Hu d1 Hp. pose proof (started_membership tid uid hashed hex i n now ip p d Hwf Hu) as Hm. fold d1 in Hm.
  rewrite (pending_run cfg sha256_hex repr_other now2 jti _ _ _ _ _ _ Hp).
  destruct Hp as [_ _ _ _ Hrow Htime]. unfold in_request, verify_email. cbn [ctx_email_verified ctx_user ctx_tenant].
  rewrite Hskip. unfold bind at 1 2. rewrite (verify_accepts _ _ _ _ _ _ _ _ (code_row i tid n now ip p)) by done.
  unfold ret at 1. cbn [tenant_pk pending_tenant user_id pending_user].
  set (s2 := with_rows _ (with_rows _ _)).
  assert (Hs2 : exists l, s2 = Session (with_codes l d1) d1) by (by eexists).
  destruct Hs2 as [l ->]. clear Hrow Htime.
  unfold bind at 1. cbn [write modify]. unfold bind at 1. cbn [write modify].
  unfold bind at 1. rewrite (advance_forward now2 now2 tid EMAIL_VERIFIED _ (first_state now tid uid));
    [|by cbn; rewrite lookup_insert_eq|done|done].
  unfold bind at 1. erewrite (advance_forward now2 now2 tid PROFILE _);
    [|by cbn; rewrite !lookup_alter_eq, lookup_insert_eq|done|done].
  unfold _finalize_email_verification, bind, query, reads. cbn [working committed ctx_user ctx_tenant].
  match goal with |- context [membership ?a ?b ?x] => change (membership a b x) with (membership uid tid (acc d1)) end.
  rewrite Hm. cbn [or_raise]. unfold ret. cbn [commit modify snd working]. eexists. split; [reflexivity|].
  split_and!; [|done|done]. cbn. by rewrite !lookup_alter_eq, lookup_insert_eq.
Qed.

(** C18. From the start to a session: when the wizard was started and the code it
    mailed is submitted with its token before either expires, the endpoint
    answers with tokens and the profile step, the user and the tenant are active,
    and the access token authenticates the user for the new tenant. *)
Theorem start_then_verify raced fails tid uid salt hex i n now ip p d resp s1 now2 jti :
  onboarding_skip_email_verify cfg = false -> 0 < max_attempts (ev_cfg cfg) ->
  accounts_wf (acc d) -> users (acc d) !! uid = None -> tid <> "" -> uid <> "" -> states d !! tid = None ->
  (forall r, In r (codes d) -> candidate (lower (strip (strip (lower (os_email p))))) (Some tid) r = true ->
     ev_created_at r < now) ->
  truthy_opt (os_website_url p) = false ->
  in_request (start_onboarding cfg sha256_hex raced fails tid uid salt hex i n now ip p) (Session d d) = (Ok resp, s1) ->
  live now (minutes (onboarding_session_ttl_minutes cfg)) now2 -> now2 < now + minutes (code_ttl_minutes (ev_cfg cfg)) ->
  exists r s2, verify_email_request cfg sha256_hex repr_other now2 jti (onboarding_session_token resp)
      (_generate_numeric_code CODE_LENGTH n) (Session (committed s1) (committed s1)) = (Ok r, s2) /\
    ve_tenant_id r = tid /\ ve_current_step r = PROFILE /\
    option_map current_step (states (committed s2) !! tid) = Some PROFILE /\
    option_map tenant_is_active (tenants (acc (committed s2)) !! tid) = Some true /\
    exists u, users (acc (committed s2)) !! uid = Some u /\ is_active u = true /\
      email u = strip (lower (os_email p)) /\
      forall t a, live now2 (minutes (access_token_expire_minutes (jwt_cfg cfg))) t ->
        a = opened (acc (committed s2)) ->
        get_current_user (jwt_cfg cfg) repr_other t (access_token (ve_tokens r)) a =
          (Ok {| principal := u; _jwt_tenant_id := tid; _jwt_role := JStr "owner" |}, a).
Proof.
  intros Hskip Hmax Hwf Hu Htid Huid Hst Hold Hweb Hstart Hlive Hexp. unfold in_request in Hstart.
  destruct (start_onboarding _ _ _ _ _ _ _ _ _ _ _ _ _ _) as [[resp'|e] s0] eqn:Hrun; cbn in Hstart; [|done].
  injection Hstart as -> <-.
  destruct (start_run _ _ _ _ _ _ _ _ _ _ _ _ _ _ Hweb Hst Hrun) as (hashed & -> & -> & _ & _). cbn [committed working].
  pose proof (started_pending tid uid hashed hex i n now now2 ip p d Hskip Htid Huid Hlive Hexp Hold) as Hp.
  destruct (verify_started tid uid hashed hex i n now now2 jti ip p d Hskip Hmax Hwf Hu Hp) as (d2 & Hv & Hs & Ht & Hus).
  change (commit _).2 with (Session (started tid uid hashed hex i n now ip p d) (started tid uid hashed hex i n now ip p d)).
  cbn [committed]. eexists _, _. split; [exact Hv|]. cbn [ve_tenant_id ve_current_step committed].
  assert (Hu2 : users (acc d2) !! uid = Some (set_user_active (pending_user uid hashed p))).
  { rewrite Hus. cbn. by rewrite lookup_alter_eq, lookup_insert_eq. }
  split_and!; try done; [rewrite Ht; cbn; by rewrite lookup_alter_eq, lookup_insert_eq|].
  eexists. split; [exact Hu2|]. split_and!; try done. intros t a Hlive' ->.
  by apply (access_token_authenticates (jwt_cfg cfg) repr_other now2 t (set_user_active (pending_user uid hashed p))).
Qed.
End StartThenVerify.

(** ** A concrete wizard *)

Module DemoOnboarding.
#[local] Instance library : TokenLibrary := PlainTokens.library.
#[local] Instance laws : TokenLaws := PlainTokens.laws.

Definition cfg : onboarding_settings :=
  {| jwt_cfg := {| jwt_secret_key := "s"; access_token_expire_minutes := 15; refresh_token_expire_days := 30 |};
     ev_cfg := demo_ev_settings; onboarding_skip_email_verify := false; onboarding_session_ttl_minutes := 30;
     is_development := false |}.
Definition repr (v : json) : string := "?".
Definition request : OnboardingStartRequest :=
  {| os_email := "ann@example.com"; os_password := "kT9#mQ2$wZx8pL"; os_company_name := "Blue Harbor"; os_website_url := None |}.
Definition empty_db : OnboardingDB :=
  {| acc := DemoAuth.empty_db; codes := []; states := ∅; ob_portals := ∅; first_suppliers := ∅; auto_consents := ∅;
     first_submissions := ∅ |}.

Definition start : result web_error OnboardingStartResponse * session OnboardingDB :=
  in_request (start_onboarding cfg id false false "t1" "u1" "salt" "abcdef" "v1" 42 0 None request)
    (Session empty_db empty_db).
Definition response : OnboardingStartResponse :=
  {| onboarding_session_token := (_mint_onboarding_token cfg 0 "t1" "u1" "ann@example.com" false).1;
     os_tenant_id := "t1"; expires_in_seconds := 1800; dev_verification_code := None |}.

Lemma start_Ok : start.1 = Ok response.
Proof. vm_compute. reflexivity. Qed.

Lemma start_then_verify_witness : exists r s2,
  verify_email_request cfg id repr (minutes 5) "j" (onboarding_session_token response) "000042"
    (Session (committed start.2) (committed start.2)) = (Ok r, s2) /\ ve_current_step r = PROFILE.
Proof.
  pose proof start_Ok as Hok. destruct start as [r0 s1] eqn:Hs. cbn [fst] in Hok. rewrite Hok in Hs. cbn [snd].
  destruct (start_then_verify cfg id repr false false "t1" "u1" "salt" "abcdef" "v1" 42 0 None request empty_db
              response s1 (minutes 5) "j" eq_refl ltac:(vm_compute; reflexivity) DemoAuth.empty_wf (lookup_empty _)
              ltac:(discriminate) ltac:(discriminate) (lookup_empty _) (fun r H => match H with end) eq_refl Hs)
    as (r & s2 & Hv & _ & Hstep & _).
  - unfold live, timestamp, minutes, seconds, us_per_second. cbn. lia.
  - vm_compute. reflexivity.
  - exists r, s2. split; [exact Hv|exact Hstep].
Defined.

(** The tables after the start, and the rows behind it. *)
Definition waiting : OnboardingDB := started cfg id "t1" "u1" "$kT9#mQ2$wZx8pL" "abcdef" "v1" 42 0 None request empty_db.

(** A thousand wrong codes are answered and none is counted. *)
Lemma wrong_codes_are_not_counted_witness :
  let tries := map (fun k => (seconds (Z.of_nat k), "j", "999999")) (seq 0 800) in
  run_tries cfg id repr (onboarding_session_token response) tries waiting = waiting.
Proof.
  intros tries.
  refine (proj1 (wrong_codes_are_not_counted cfg id repr (onboarding_session_token response) waiting
    (pending_user "u1" "$kT9#mQ2$wZx8pL" request) (pending_tenant "t1" "abcdef" request) (code_row cfg id "v1" "t1" 42 0 None request)
    tries ltac:(vm_compute; reflexivity) _)).
  apply List.Forall_forall. intros x (k & <- & Hk)%in_map_iff. apply in_seq in Hk. split; [|split].
  - apply (started_pending cfg id "t1" "u1" "$kT9#mQ2$wZx8pL" "abcdef" "v1" 42 0 (seconds (Z.of_nat k)) None request empty_db);
      try discriminate; try reflexivity.
    + unfold live, timestamp, minutes, seconds, us_per_second. cbn. lia.
    + unfold minutes, seconds, us_per_second. cbn. lia.
    + intros r [].
  - vm_compute. discriminate.
  - vm_compute. discriminate.
Defined.

Lemma wizard_only_goes_forward_witness :
  let d := committed (in_request (skip_step_endpoint 7 (owner "t1" "u1") PLAN) (Session waiting waiting)).2 in
  (exists s', states d !! "t1" = Some s' /\ 1 <= _step_index (current_step s')) /\
  (advance_to 1 1 "t1" START [] (Session waiting waiting)).1 = Raise OnboardingStateError.
Proof.
  intros d. destruct (wizard_only_goes_forward cfg id repr id waiting d "t1" (first_state 0 "t1" "u1"))
    as ((s' & Hs' & Hle & _) & Hback).
  - eapply star_step; [apply (skip_request _ _ _ _ waiting 7 (owner "t1" "u1") PLAN)|apply star_refl].
  - vm_compute. reflexivity.
  - split; [exists s'; split; [exact Hs'|exact Hle]|].
    exact (f_equal fst (Hback 1 1 START [] waiting ltac:(reflexivity))).
Defined.
End DemoOnboarding.
