(* ===== verification/Idempotency.v ===== *)
(** * Idempotency keys

    middleware/idempotency.py: the store of answered requests and the middleware
    that replays them; middleware/tenant_scope.py, and the order in which main.py
    stacks the two.  The application behind is a variable with a state of its
    own.  Times are in microseconds, lifetimes in seconds. *)

From Stdlib Require Import Ascii.
From S2P Require Import Prelude PyStr Json PyTime Regex Accounts.

(** ** Requests and responses *)

(** The header names are in lower case. *)
Record Request : Type := {
  method : string;
  path : string;
  headers : gmap string string;
  req_body : string;
  state_tenant_id : option string;
  state_user_id : option string;
}.

(** [request.state.tenant_id = t; request.state.user_id = u] *)
Definition with_state (t u : option string) (r : Request) : Request :=
  {| method := method r; path := path r; headers := headers r; req_body := req_body r;
     state_tenant_id := t; state_user_id := u |}.

(** A response; [Problem] is [ProblemResponse(build_problem(...))] with its
    status, which is an error, type slug and instance. *)
Inductive Response : Type :=
| Answer (status : Z) (body : string) (hdrs : list (string * string)) (media_type : option string)
| Problem (status : Z) (type_slug instance : string).

Definition status_code (r : Response) : Z := match r with Answer s _ _ _ => s | Problem s _ _ => s end.

(** What the store keeps of a response. *)
Record Entry : Type := {
  en_status : Z;
  en_body : string;
  en_body_hash : string;
  en_headers : list (string * string);
  en_media_type : string;
  en_ts : Z;
}.

(** ** The store *)

(** middleware/idempotency.py, [IdempotencyStore]: [get] and [set] read the
    clock. *)
Class IdempotencyStore (S : Type) : Type := {
  store_get : Z -> string -> S -> option Entry * S;
  store_set : Z -> string -> Entry -> Z -> S -> S;
}.

(** What a store promises: [held t k s] is what it answers for [k] at time [t]. *)
Class IdempotencyStoreLaws (S : Type) `{!IdempotencyStore S} : Type := {
  held : Z -> string -> S -> option Entry;
  law_get now k s :
    (store_get now k s).1 = held now k s /\
    forall t k', now <= t -> held t k' (store_get now k s).2 = held t k' s;
  law_set now k e ttl s t :
    held t k (store_set now k e ttl s) = (if t <? now + seconds (Z.max ttl 1) then Some e else None) /\
    forall k', k' <> k -> held t k' (store_set now k e ttl s) = held t k' s;
}.

(** middleware/idempotency.py, [InMemoryIdempotencyStore.__init__]. *)
Record InMemoryIdempotencyStore : Type := { _data : gmap string (Z * Entry) }.

(** middleware/idempotency.py, [InMemoryIdempotencyStore.get]. *)
Definition mem_get (now : Z) (key : string) (s : InMemoryIdempotencyStore) : option Entry * InMemoryIdempotencyStore :=
  match _data s !! key with
  | None => (None, s)
  | Some (expires_at, payload) =>
      if expires_at <=? now then (None, {| _data := delete key (_data s) |}) else (Some payload, s)
  end.

(** middleware/idempotency.py, [InMemoryIdempotencyStore.set]. *)
Definition mem_set (now : Z) (key : string) (value : Entry) (ttl_seconds : Z) (s : InMemoryIdempotencyStore)
  : InMemoryIdempotencyStore :=
  {| _data := <[key := (now + seconds (Z.max ttl_seconds 1), value)]> (_data s) |}.

(** middleware/idempotency.py, [InMemoryIdempotencyStore.clear]. *)
Definition mem_clear_all (s : InMemoryIdempotencyStore) : InMemoryIdempotencyStore := {| _data := ∅ |}.

#[export] Instance memory_idempotency : IdempotencyStore InMemoryIdempotencyStore :=
  { store_get := mem_get; store_set := mem_set }.

(** The entry of a key that has not expired. *)
Definition mem_held (t : Z) (k : string) (s : InMemoryIdempotencyStore) : option Entry :=
  match _data s !! k with
  | Some (e, v) => if e <=? t then None else Some v
  | None => None
  end.

#[export] Program Instance memory_idempotency_laws : IdempotencyStoreLaws InMemoryIdempotencyStore :=
  {| held := mem_held |}.
Next Obligation.
  intros now k s. cbn. unfold mem_get, mem_held. destruct (_data s !! k) as [[e v]|] eqn:Hk; [|done].
  destruct (Z.leb_spec e now); cbn; [|done]. split; [done|]. intros t k' Ht.
  destruct (decide (k' = k)) as [->|]; [rewrite lookup_delete_eq, Hk|by rewrite lookup_delete_ne].
  by rewrite (proj2 (Z.leb_le _ _)) by lia.
Qed.
Next Obligation.
  intros now k e ttl s t. cbn. unfold mem_held. cbn. rewrite lookup_insert_eq. split.
  - destruct (Z.leb_spec (now + seconds (Z.max ttl 1)) t); [by rewrite (proj2 (Z.ltb_ge _ _))|by rewrite (proj2 (Z.ltb_lt _ _))].
  - intros k' Hk. by rewrite lookup_insert_ne.
Qed.

(** ** The middleware *)

(** middleware/idempotency.py, [DEFAULT_TTL_SECONDS]. *)
Definition DEFAULT_TTL_SECONDS : Z := 24 * 60 * 60.
(** middleware/idempotency.py, [MUTATING_METHODS]. *)
Definition MUTATING_METHODS : list string := ["POST"; "PATCH"; "PUT"; "DELETE"].

(** The classes of [_KEY_RE]. *)
Definition is_hex (c : ascii) : bool := is_digit c || in_range 65 70 c || in_range 97 102 c.
Definition is_crockford (c : ascii) : bool :=
  is_digit c || in_range 65 72 c || in_range 74 75 c || in_range 77 78 c || in_range 80 84 c || in_range 86 90 c
  || in_range 97 104 c || in_range 106 107 c || in_range 109 110 c || in_range 112 116 c || in_range 118 122 c.

(** middleware/idempotency.py, [_KEY_RE]. *)
Definition _KEY_RE : re :=
  let h n := RRep is_hex n (Some n) in
  let dash := RClass (Ascii.eqb "-") in
  RAlt (RRep is_crockford 26 (Some 26%nat))
    (RAlt (h 32%nat)
       (RSeq (h 8%nat) (RSeq dash (RSeq (h 4%nat) (RSeq dash (RSeq (h 4%nat) (RSeq dash (RSeq (h 4%nat)
          (RSeq dash (h 12%nat)))))))))).

(** middleware/idempotency.py, [_is_valid_key]; the value is stripped, so the
    [$] of the expression is the end of the text. *)
Definition _is_valid_key (value : string) : bool := truthy value && fullmatch _KEY_RE value.

(** middleware/idempotency.py, [IdempotencyMiddleware.__init__]. *)
Record idempotency_config : Type := {
  required_path_prefixes : list string;
  excluded_path_prefixes : list string;
  ttl_seconds : Z;
}.

(** middleware/idempotency.py:187-206, [IdempotencyMiddleware.__init__]: the
    defaults. *)
Definition default_idempotency_config : idempotency_config :=
  {| required_path_prefixes := [];
     excluded_path_prefixes := ["/v1/auth/"; "/v1/webhooks/"; "/health"; "/metrics"; "/verify/"];
     ttl_seconds := DEFAULT_TTL_SECONDS |}.

(** middleware/idempotency.py:290-300, [IdempotencyMiddleware.dispatch]: the
    headers that are not replayed. *)
Definition unsafe_headers : list string := ["content-length"; "transfer-encoding"; "connection"; "set-cookie"].

Section Middleware.
Context {S W : Type} `{!IdempotencyStore S}.
Context (cfg : idempotency_config).
Context (sha256_hex : string -> string).
Context (call_next : Request -> M W web_error Response).

(** middleware/idempotency.py, [_hash_body]. *)
Definition _hash_body (body : string) : string := sha256_hex body.

(** middleware/idempotency.py, [IdempotencyMiddleware._is_excluded]. *)
Definition _is_excluded (path : string) : bool := existsb (fun p => startswith p path) (excluded_path_prefixes cfg).
(** middleware/idempotency.py, [IdempotencyMiddleware._is_required]. *)
Definition _is_required (path : string) : bool := existsb (fun p => startswith p path) (required_path_prefixes cfg).

(** middleware/idempotency.py, [IdempotencyMiddleware._tenant_id]. *)
Definition _tenant_id (r : Request) : string := sor (default "" (state_tenant_id r)) "anon".
(** middleware/idempotency.py, [IdempotencyMiddleware._scoped_key]. *)
Definition _scoped_key (tenant_id key : string) : string := tenant_id +:+ ":" +:+ key.

(** The stripped [Idempotency-Key] header. *)
Definition header_value (r : Request) : string := strip (default "" (headers r !! "idempotency-key")).
(** The key the store is asked for. *)
Definition request_key (r : Request) : string := _scoped_key (_tenant_id r) (header_value r).

Definition on_store {A} (f : S -> A * S) : M (W * S) web_error A :=
  fun s => let '(a, x) := f s.2 in (Ok a, (s.1, x)).

Definition on_app {A} (m : M W web_error A) : M (W * S) web_error A :=
  fun s => let '(r, w) := m s.1 in (r, (w, s.2)).

(** middleware/idempotency.py:275-282, [IdempotencyMiddleware.dispatch]. *)
Definition replay (e : Entry) : Response :=
  Answer (en_status e) (en_body e) (dict_set "Idempotency-Replayed" "true" (en_headers e)) (Some (en_media_type e)).

(** middleware/idempotency.py:286-312, [IdempotencyMiddleware.dispatch]: what is
    kept of a response; decoding a UTF-8 body and encoding it again is the
    identity. *)
Definition entry_of (now : Z) (body_hash : string) (status : Z) (body : string) (hdrs : list (string * string))
    (media_type : option string) : Entry :=
  {| en_status := status; en_body := body; en_body_hash := body_hash;
     en_headers := to_dict (List.filter (fun kv => negb (existsb (String.eqb (lower kv.1)) unsafe_headers)) hdrs);
     en_media_type := sor (default "" media_type) "application/json"; en_ts := now |}.

(** middleware/idempotency.py, [IdempotencyMiddleware.dispatch]; [now1] and
    [now2] are the clock when the store is read and written. *)
Definition dispatch (now1 now2 : Z) (request : Request) : M (W * S) web_error Response :=
  if negb (existsb (String.eqb (method request)) MUTATING_METHODS) || _is_excluded (path request)
  then on_app (call_next request)
  else if negb (truthy (header_value request)) then
    if _is_required (path request) then ret (Problem 400 "idempotency-key-required" (path request))
    else on_app (call_next request)
  else if negb (_is_valid_key (header_value request))
  then ret (Problem 400 "invalid-idempotency-key" (path request))
  else
    let body_hash := _hash_body (req_body request) in
    let scoped := request_key request in
    let* cached := on_store (store_get now1 scoped) in
    match cached with
    | Some e =>
        if negb (String.eqb (en_body_hash e) body_hash)
        then ret (Problem 422 "idempotency-key-conflict" (path request))
        else ret (replay e)
    | None =>
        let* response := on_app (call_next request) in
        match response with
        | Answer status body hdrs media_type =>
            if (200 <=? status) && (status <? 300) then
              on_store (fun s => (tt, store_set now2 scoped (entry_of now2 body_hash status body hdrs media_type)
                                        (ttl_seconds cfg) s)) ;;;
              ret (Answer status body (List.filter (fun kv => negb (String.eqb kv.1 "content-length")) (to_dict hdrs))
                     media_type)
            else ret response
        | Problem _ _ _ => ret response
        end
    end.
End Middleware.

(** ** The tenant scope *)

Section TenantScope.
Context `{!TokenLibrary} {St : Type}.
Context (cfg : jwt_settings) (repr_other : json -> string).
Context (call_next : Request -> M St web_error Response).

(** middleware/tenant_scope.py, [_DEFAULT_SKIP_PREFIXES]. *)
Definition _DEFAULT_SKIP_PREFIXES : list string := ["/health"; "/v1/auth/"; "/verify/"].

(** middleware/tenant_scope.py, [TenantScopeMiddleware._should_skip]. *)
Definition _should_skip (path : string) : bool :=
  existsb (fun prefix =>
    if endswith "/" prefix then String.eqb path (rstrip_by (Ascii.eqb "/") prefix) || startswith prefix path
    else String.eqb path prefix || startswith (prefix +:+ "/") path) _DEFAULT_SKIP_PREFIXES.

(** middleware/tenant_scope.py:69-86, [TenantScopeMiddleware.dispatch]: the
    tenant and the user of the bearer token. *)
Definition bearer_scope (now : Z) (request : Request) : option string * option string :=
  match headers request !! "authorization" with
  | None => (None, None)
  | Some auth_header =>
      let '(scheme, _, token) := partition_char " " auth_header in
      if String.eqb (lower scheme) "bearer" && truthy token then
        match decode_token cfg now token (Some _ACCESS) with
        | None => (None, None)
        | Some payload =>
            let tenant_id := get_key "tenant_id" payload in
            (if jtruthy tenant_id then Some (py_str repr_other tenant_id) else None,
             Some (py_str repr_other (get_key "sub" payload)))
        end
      else (None, None)
  end.

(** middleware/tenant_scope.py, [TenantScopeMiddleware.dispatch]. *)
Definition tenant_scope_dispatch (now : Z) (request : Request) : M St web_error Response :=
  let '(t, u) := if _should_skip (path request) then (None, None) else bearer_scope now request in
  call_next (with_state t u request).
End TenantScope.

(** ** Retries *)

Section Retries.
Context {S W : Type} `{!IdempotencyStore S, !IdempotencyStoreLaws S}.
Context (cfg : idempotency_config) (sha256_hex : string -> string).
Context (call_next : Request -> M W web_error Response).
Local Abbreviation dispatch := (dispatch cfg sha256_hex call_next).

(** The middleware acts on the request. *)
Definition guarded (r : Request) : Prop :=
  existsb (String.eqb (method r)) MUTATING_METHODS = true /\ _is_excluded cfg (path r) = false /\
  _is_valid_key (header_value r) = true.

Lemma guarded_dispatch now1 now2 r :
  guarded r ->
  dispatch now1 now2 r =
  bind (on_store (store_get now1 (request_key r))) (fun cached =>
    match cached with
    | Some e => if negb (String.eqb (en_body_hash e) (sha256_hex (req_body r)))
                then ret (Problem 422 "idempotency-key-conflict" (path r)) else ret (replay e)
    | None => bind (on_app (call_next r)) (fun response =>
        match response with
        | Answer status body hdrs media_type =>
            if (200 <=? status) && (status <? 300) then
              on_store (fun s => (tt, store_set now2 (request_key r)
                 (entry_of now2 (sha256_hex (req_body r)) status body hdrs media_type) (ttl_seconds cfg) s)) ;;;
              ret (Answer status body (List.filter (fun kv => negb (String.eqb kv.1 "content-length")) (to_dict hdrs)) media_type)
            else ret response
        | Problem _ _ _ => ret response
        end)
    end).
Proof.
  intros (Hm & Hx & Hk). unfold Idempotency.dispatch. rewrite Hm, Hx, Hk. cbn [negb orb].
  unfold _is_valid_key in Hk. apply andb_true_iff in Hk as [-> _]. done.
Qed.

(** What the store answers is told to a retry, without asking the application. *)
Lemma dispatch_held now1 now2 r w s e :
  guarded r -> held now1 (request_key r) s = Some e ->
  exists s', dispatch now1 now2 r (w, s) =
      (Ok (if String.eqb (en_body_hash e) (sha256_hex (req_body r)) then replay e
           else Problem 422 "idempotency-key-conflict" (path r)), (w, s')) /\
    forall t k, now1 <= t -> held t k s' = held t k s.
Proof.
  intros Hg He. rewrite guarded_dispatch by done. destruct (law_get now1 (request_key r) s) as [Hget Hframe].
  unfold bind, on_store. cbn. destruct (store_get now1 (request_key r) s) as [c s1]. cbn in *. subst c. rewrite He.
  exists s1. split; [|done]. by destruct (String.eqb (en_body_hash e) _).
Qed.

(** The answer of a key that is held does not change. *)
Lemma unguarded_store now1 now2 r w s : ~ guarded r -> (dispatch now1 now2 r (w, s)).2.2 = s.
Proof.
  intros Hg. unfold Idempotency.dispatch, on_app, ret.
  destruct (existsb (String.eqb (method r)) MUTATING_METHODS) eqn:Hm, (_is_excluded cfg (path r)) eqn:Hx; cbn;
    try by destruct (call_next r w).
  destruct (truthy (header_value r)) eqn:Ht; cbn; [|destruct (_is_required cfg (path r)); cbn; [done|by destruct (call_next r w)]].
  destruct (_is_valid_key (header_value r)) eqn:Hk; cbn; [|done]. by destruct Hg.
Qed.

Lemma held_stable now1 now2 r w s k e t :
  held now1 k s = Some e -> now1 <= t -> held t k (dispatch now1 now2 r (w, s)).2.2 = held t k s.
Proof.
  intros Hheld Ht. destruct (decide (guarded r)) as [Hg|Hg]; [|by rewrite unguarded_store].
  destruct (held now1 (request_key r) s) as [e'|] eqn:Hr.
  - destruct (dispatch_held now1 now2 r w s e' Hg Hr) as (s' & -> & Hs). cbn. by apply Hs.
  - assert (Hne : k <> request_key r) by congruence. rewrite guarded_dispatch by done.
    destruct (law_get now1 (request_key r) s) as [Hget Hframe]. unfold bind, on_store, on_app, ret. cbn.
    destruct (store_get now1 (request_key r) s) as [c s1]. cbn in *. subst c. rewrite Hr. cbn.
    destruct (call_next r w) as [[[status body hdrs mt|? ? ?]|err] w']; cbn; [|by apply Hframe|by apply Hframe].
    destruct ((200 <=? status) && (status <? 300)); cbn; [|by apply Hframe].
    rewrite (proj2 (law_set now2 (request_key r) _ (ttl_seconds cfg) s1 t)) by done. by apply Hframe.
Qed.

(** A success is held from then on for the lifetime of the key. *)
Lemma success_held now1 now2 r w s status body hdrs mt w' s' :
  guarded r -> held now1 (request_key r) s = None ->
  dispatch now1 now2 r (w, s) = (Ok (Answer status body hdrs mt), (w', s')) -> 200 <= status < 300 ->
  exists hdrs0, forall t, t < now2 + seconds (Z.max (ttl_seconds cfg) 1) ->
    held t (request_key r) s' = Some (entry_of now2 (sha256_hex (req_body r)) status body hdrs0 mt).
Proof.
  intros Hg Hnone Hrun Hst. rewrite guarded_dispatch in Hrun by done.
  destruct (law_get now1 (request_key r) s) as [Hget _]. unfold bind, on_store, on_app, ret in Hrun. cbn in Hrun.
  destruct (store_get now1 (request_key r) s) as [c s1]. cbn in *. subst c. rewrite Hnone in Hrun. cbn in Hrun.
  destruct (call_next r w) as [[[st0 body0 hdrs0 mt0|? ? ?]|err] w1]; cbn in Hrun; try done.
  destruct ((200 <=? st0) && (st0 <? 300)) eqn:H2; cbn in Hrun; injection Hrun as <- <- <- <- <- <-; [|lia].
  exists hdrs0. intros t Ht. rewrite (proj1 (law_set now2 (request_key r) _ (ttl_seconds cfg) s1 t)).
  by rewrite (proj2 (Z.ltb_lt _ _)).
Qed.

(** Requests one after the other: the two readings of the clock and the request. *)
Fixpoint serve (l : list (Z * Z * Request)) (st : W * S) : W * S :=
  match l with
  | [] => st
  | (now1, now2, r) :: l => serve l (dispatch now1 now2 r st).2
  end.

(** The clock does not go back. *)
Fixpoint from_time (t : Z) (l : list (Z * Z * Request)) : Prop :=
  match l with
  | [] => True
  | (now1, now2, r) :: l => t <= now1 /\ now1 <= now2 /\ from_time now2 l
  end.
Fixpoint end_time (t : Z) (l : list (Z * Z * Request)) : Z :=
  match l with [] => t | (_, now2, _) :: l => end_time now2 l end.

Lemma end_time_le t l : from_time t l -> t <= end_time t l.
Proof. revert t. induction l as [|[[a b] r] l IH]; intros t; cbn; [lia|]. intros (? & ? & Hl). apply IH in Hl. lia. Qed.

Lemma serve_held t0 l w s k e t :
  from_time t0 l -> (forall u, t0 <= u <= t -> held u k s = Some e) -> end_time t0 l <= t ->
  held t k (serve l (w, s)).2 = Some e.
Proof.
  revert t0 w s. induction l as [|[[a b] r] l IH]; intros t0 w s Hl Hheld Hend; cbn in *; [apply Hheld; lia|].
  destruct Hl as (H1 & H2 & Hl). pose proof (end_time_le _ _ Hl).
  destruct (dispatch a b r (w, s)) as [res [w1 s1]] eqn:Hrun. cbn. apply (IH b); [done| |done].
  intros u Hu. change s1 with (res, (w1, s1)).2.2. rewrite <- Hrun.
  rewrite (held_stable a b r w s k e u); [apply Hheld; lia|apply Hheld; lia|lia].
Qed.

(** Retries have no effect: once a mutating request with a key was answered
    with a success, then - whatever requests are served in between - a request
    with the same key in the lifetime of the key does not reach the application:
    it is answered with the status and the body of the first answer when its body
    is the same (has the same hash), and as a conflict otherwise. *)
Theorem retries_have_no_effect now1 now2 r w s status body hdrs mt st others t t' r' :
  guarded r -> held now1 (request_key r) s = None ->
  dispatch now1 now2 r (w, s) = (Ok (Answer status body hdrs mt), st) -> 200 <= status < 300 ->
  from_time now2 others -> end_time now2 others <= t -> t < now2 + seconds (Z.max (ttl_seconds cfg) 1) ->
  guarded r' -> request_key r' = request_key r ->
  let before := serve others st in
  exists answer st', dispatch t t' r' before = (Ok answer, st') /\ st'.1 = before.1 /\
    (if String.eqb (sha256_hex (req_body r)) (sha256_hex (req_body r'))
     then exists hdrs' mt', answer = Answer status body hdrs' mt' /\ In ("Idempotency-Replayed", "true") hdrs'
     else answer = Problem 422 "idempotency-key-conflict" (path r')).
Proof.
  intros Hg Hnone Hrun Hst Hothers Hend Ht Hg' Hkey before. destruct st as [w1 s1].
  destruct (success_held now1 now2 r w s status body hdrs mt w1 s1 Hg Hnone Hrun Hst) as [hdrs0 H0].
  assert (Hh : held t (request_key r) before.2 = Some (entry_of now2 (sha256_hex (req_body r)) status body hdrs0 mt)).
  { apply (serve_held now2); [done| |done]. intros u Hu. apply H0. lia. }
  rewrite <- Hkey in Hh. subst before. destruct (serve others (w1, s1)) as [w2 s2]. cbn in Hh.
  destruct (dispatch_held t t' r' w2 s2 _ Hg' Hh) as (s' & Hrun' & _). eexists _, _. split; [exact Hrun'|]. split; [done|].
  cbn [en_body_hash entry_of]. destruct (String.eqb _ _); [|done].
  eexists _, _. split; [reflexivity|]. apply dict_set_In.
Qed.
End Retries.

(** ** The stack of main.py

    main.py:150-215: [add_middleware] wraps what is there, so the idempotency
    middleware, added after the tenant scope, runs before it: the tenant is not
    known yet when the key is scoped. *)

Section Stack.
Context `{!TokenLibrary} {S W : Type} `{!IdempotencyStore S, !IdempotencyStoreLaws S}.
Context (cfg : idempotency_config) (jwt_cfg : jwt_settings) (repr_other : json -> string) (sha256_hex : string -> string).
Context (app : Request -> M W web_error Response).

Definition stack (now0 now1 now2 : Z) (r : Request) : M (W * S) web_error Response :=
  dispatch cfg sha256_hex (tenant_scope_dispatch jwt_cfg repr_other app now0) now1 now2 r.

(** A request as it arrives: nothing has set its state. *)
Definition arriving (r : Request) : Prop := state_tenant_id r = None.

Lemma arriving_key r : arriving r -> request_key r = "anon:" +:+ header_value r.
Proof. unfold arriving, request_key, _tenant_id. by intros ->. Qed.

(** The answer made for one tenant is replayed to whoever sends the same key and
    body, whatever its [Authorization] header, method and path. *)
Lemma replayed_to_anyone now0 now1 now2 r w s now0' t t' r' status body hdrs mt st :
  arriving r -> arriving r' -> guarded cfg r -> guarded cfg r' ->
  header_value r' = header_value r -> req_body r' = req_body r ->
  held now1 (request_key r) s = None ->
  stack now0 now1 now2 r (w, s) = (Ok (Answer status body hdrs mt), st) -> 200 <= status < 300 ->
  t < now2 + seconds (Z.max (ttl_seconds cfg) 1) ->
  exists hdrs' mt' s', stack now0' t t' r' st = (Ok (Answer status body hdrs' mt'), (st.1, s')).
Proof.
  intros Ha Ha' Hg Hg' Hkey Hbody Hnone Hrun Hst Ht. destruct st as [w1 s1].
  destruct (success_held cfg sha256_hex _ now1 now2 r w s status body hdrs mt w1 s1 Hg Hnone Hrun Hst) as [hdrs0 H0].
  assert (Hk : request_key r' = request_key r) by (rewrite !arriving_key by done; by rewrite Hkey).
  pose proof (H0 t Ht) as Hh. rewrite <- Hk in Hh.
  destruct (dispatch_held cfg sha256_hex (tenant_scope_dispatch jwt_cfg repr_other app now0') t t' r' w1 s1 _ Hg' Hh)
    as (s' & Hrun' & _).
  unfold stack. rewrite Hrun'. cbn [en_body_hash entry_of]. rewrite Hbody, String.eqb_refl. by eexists _, _, _.
Qed.
End Stack.

(** ** A concrete run *)

Module DemoIdempotency.
Definition key : string := "01ARZ3NDEKTSV4RRFFQ69G5FAV".
Definition post (b : string) : Request :=
  {| method := "POST"; path := "/v1/submissions"; headers := {["idempotency-key" := " " +:+ key]}; req_body := b;
     state_tenant_id := None; state_user_id := None |}.
(** An application that counts how often it is called. *)
Definition counting (r : Request) : M Z web_error Response :=
  fun n => (Ok (Answer 201 (str_of_Z n) [("x-id", "7"); ("set-cookie", "c")] (Some "application/json")), n + 1).
Definition run (t : Z) (r : Request) (st : Z * InMemoryIdempotencyStore) : result web_error Response * (Z * InMemoryIdempotencyStore) :=
  dispatch default_idempotency_config id counting t t r st.
Definition start : Z * InMemoryIdempotencyStore := (0, {| _data := ∅ |}).

Example key_forms : map _is_valid_key [key; "550e8400-e29b-41d4-a716-446655440000"; "550e8400e29b41d4a716446655440000"; "abc"; ""] =
  [true; true; true; false; false].
Proof. vm_compute. reflexivity. Qed.

Lemma post_guarded b : guarded default_idempotency_config (post b).
Proof. split_and!; vm_compute; reflexivity. Qed.

Lemma retries_have_no_effect_witness :
  exists answer st', run (seconds 60) (post "{}") (serve default_idempotency_config id counting [(5, 6, post "{x}")] (run 0 (post "{}") start).2) =
    (Ok answer, st') /\ st'.1 = 1.
Proof.
  destruct (retries_have_no_effect default_idempotency_config id counting 0 0 (post "{}") 0 {| _data := ∅ |} 201 "0"
              [("x-id", "7"); ("set-cookie", "c")] (Some "application/json") (run 0 (post "{}") start).2
              [(5, 6, post "{x}")] (seconds 60) (seconds 60) (post "{}") (post_guarded _)) as (answer & st' & Hrun & Hw & _).
  - vm_compute. reflexivity.
  - vm_compute. reflexivity.
  - lia.
  - cbn. lia.
  - vm_compute. discriminate.
  - vm_compute. reflexivity.
  - apply post_guarded.
  - reflexivity.
  - exists answer, st'. split; [exact Hrun|]. rewrite Hw. vm_compute. reflexivity.
Defined.
End DemoIdempotency.
