(* ===== verification/Operators.v ===== *)
(** * Operators: second factor, tables and audit rows

    services/mfa_totp.py: the second factor of an operator; models/operator.py,
    models/operator_session.py, models/operator_recovery_code.py, models/cockpit_audit.py:
    the rows behind the cockpit; services/cockpit_audit.py: what is kept of a request.
    pyotp's check of a code, SHA-256 and the random source are arguments; segno's drawing
    of the QR code is left out. *)

From Stdlib Require Import Ascii.
From S2P Require Import Prelude PyStr Json PyTime Accounts.

(** services/mfa_totp.py:37-39, [_RECOVERY_ALPHABET]. *)
Definition _RECOVERY_ALPHABET : string :=
  sfilter (fun c => negb (contains_char c "0O1I")) "ABCDEFGHIJKLMNOPQRSTUVWXYZ0123456789".

(** services/mfa_totp.py, [RECOVERY_CODE_LENGTH]. *)
Definition RECOVERY_CODE_LENGTH : nat := 10.
(** services/mfa_totp.py, [RECOVERY_CODE_COUNT]. *)
Definition RECOVERY_CODE_COUNT : nat := 10.

(** ** The secret *)

(** The digits of [base64.b32encode]. *)
Definition b32_char (n : Z) : ascii := if n <? 26 then chr (65 + n) else chr (24 + n).

(** Five bytes are eight digits. *)
Definition b32_block (b0 b1 b2 b3 b4 : Z) : string :=
  let n := (((b0 * 256 + b1) * 256 + b2) * 256 + b3) * 256 + b4 in
  foldr (fun k s => String (b32_char (n / 32 ^ k mod 32)) s) EmptyString [7; 6; 5; 4; 3; 2; 1; 0].

(** [base64.b32encode(b).decode("ascii").rstrip("=")]: a last block of fewer
    than five bytes is padded with zeros and its digits that only hold padding,
    written [=], are stripped. *)
Fixpoint b32encode_stripped (b : list Z) : string :=
  match b with
  | b0 :: b1 :: b2 :: b3 :: b4 :: r => b32_block b0 b1 b2 b3 b4 +:+ b32encode_stripped r
  | [b0; b1; b2; b3] => stake 7 (b32_block b0 b1 b2 b3 0)
  | [b0; b1; b2] => stake 5 (b32_block b0 b1 b2 0 0)
  | [b0; b1] => stake 4 (b32_block b0 b1 0 0 0)
  | [b0] => stake 2 (b32_block b0 0 0 0 0)
  | [] => EmptyString
  end.

(** services/mfa_totp.py, [generate_secret]; [token_bytes] are twenty bytes. *)
Definition generate_secret (token_bytes : list Z) : string := b32encode_stripped token_bytes.

(** ** Checking a code *)

Section Verify.
(** [pyotp.TOTP(secret).verify(code, valid_window=...)] at an instant; [None]
    is an exception. *)
Context (totp_verify : Z -> string -> string -> Z -> option bool).

(** services/mfa_totp.py, [verify_code], of an ASCII code. *)
Definition verify_code (now : Z) (secret code : string) : bool :=
  let valid_window := 1 in
  if negb (truthy secret) then false
  else if negb (truthy code) then false
  else
    let normalized := strip code in
    if negb (slen normalized =? 6) || negb (sall is_digit normalized) then false
    else default false (totp_verify now secret normalized valid_window).
End Verify.

(** ** Enrolment links *)

Definition quote_safe (c : ascii) : bool := is_alnum c || contains_char c "_.-~/".

(** A byte as two upper-case hexadecimal digits. *)
Definition upper_hex (n : Z) : ascii := if n <? 10 then chr (48 + n) else chr (55 + n).

(** [urllib.parse.quote(s)] *)
Fixpoint quote (s : string) : string :=
  match s with
  | EmptyString => EmptyString
  | String c r =>
      if quote_safe c then String c (quote r)
      else String "%" (String (upper_hex (ord c / 16)) (String (upper_hex (ord c mod 16)) (quote r)))
  end.

(** services/mfa_totp.py, [provisioning_uri]; [None] is [ValueError]. *)
Definition provisioning_uri (secret account_name issuer : string) : option string :=
  if negb (truthy secret) then None
  else if negb (truthy account_name) then None
  else
    let label := quote issuer +:+ ":" +:+ quote account_name in
    let query := "secret=" +:+ secret +:+ "&issuer=" +:+ quote issuer +:+ "&algorithm=SHA1" +:+ "&digits=6"
                 +:+ "&period=30" in
    Some ("otpauth://totp/" +:+ label +:+ "?" +:+ query).

(** ** Recovery codes *)

Section Codes.
(** The successive values of [secrets.randbelow(len(_RECOVERY_ALPHABET))]. *)
Context (randbelow : nat -> nat).

(** services/mfa_totp.py:139-141, [generate_recovery_codes]: one draw. *)
Definition draw_code (k : nat) : string :=
  foldr (fun i s => String (default "A"%char (String.get (randbelow (RECOVERY_CODE_LENGTH * k + i)%nat) _RECOVERY_ALPHABET)) s)
    EmptyString (seq 0 RECOVERY_CODE_LENGTH).

(** [out.add(x)] *)
Definition set_add (x : string) (out : list string) : list string :=
  if existsb (String.eqb x) out then out else out ++ [x].

(** services/mfa_totp.py:135-142, [generate_recovery_codes]: the loop; [None] says
    that [fuel] draws were not enough. *)
Fixpoint codes_loop (fuel : nat) (n k : nat) (out : list string) : option (list string) :=
  if (n <=? length out)%nat then Some out
  else match fuel with
       | O => None
       | S fuel => codes_loop fuel n (S k) (set_add (draw_code k) out)
       end.

(** services/mfa_totp.py, [generate_recovery_codes], for a positive [n]. *)
Definition generate_recovery_codes (fuel n : nat) : option (list string) :=
  option_map (isort String.leb) (codes_loop fuel n 0 []).
End Codes.

Section Hash.
Context (sha256_hex : string -> string).

(** services/mfa_totp.py:156, [hash_recovery_code]. *)
Definition normalized_code (code : string) : string :=
  replace_char " " "" (replace_char "-" "" (upper (strip code))).

(** services/mfa_totp.py, [hash_recovery_code]; [None] is [ValueError]. *)
Definition hash_recovery_code (code : string) : option string :=
  if truthy code then Some (sha256_hex (normalized_code code)) else None.
End Hash.

(** ** Lemmas *)

Lemma length_b32_block b0 b1 b2 b3 b4 : String.length (b32_block b0 b1 b2 b3 b4) = 8%nat.
Proof. done. Qed.

(** Twenty bytes give a secret of 32 characters, with no padding. *)
Lemma generate_secret_length b : length b = 20%nat -> String.length (generate_secret b) = 32%nat.
Proof.
  intros Hb. unfold generate_secret. do 20 (destruct b as [|? b]; [done|]). destruct b; [|done].
  cbn [b32encode_stripped]. by rewrite !length_append, !length_b32_block.
Qed.

Lemma length_draw_code randbelow k : String.length (draw_code randbelow k) = RECOVERY_CODE_LENGTH.
Proof. done. Qed.

Lemma set_add_In x y out : In y (set_add x out) <-> In y out \/ y = x.
Proof.
  unfold set_add. destruct (existsb _ out) eqn:He.
  - apply existsb_exists in He as (z & Hz & ->%String.eqb_eq). naive_solver.
  - rewrite in_app_iff. cbn. naive_solver.
Qed.

Lemma set_add_NoDup x out : List.NoDup out -> List.NoDup (set_add x out).
Proof.
  unfold set_add. destruct (existsb _ out) eqn:He; [done|]. intros Hn.
  apply (Permutation_NoDup (l := x :: out)); [by rewrite Permutation_app_comm|]. constructor; [|done]. intros Hx.
  assert (existsb (String.eqb x) out = true) by (apply existsb_exists; exists x; by rewrite String.eqb_refl). congruence.
Qed.

Lemma length_set_add x out : (length (set_add x out) <= S (length out))%nat.
Proof. unfold set_add. destruct (existsb _ out); [lia|]. rewrite length_app. cbn. lia. Qed.

(** Whatever the loop returns holds [n] different draws. *)
Lemma codes_loop_spec randbelow n fuel : forall k out l,
  List.NoDup out -> (length out <= n)%nat -> (forall c, In c out -> exists i, c = draw_code randbelow i) ->
  codes_loop randbelow fuel n k out = Some l ->
  List.NoDup l /\ length l = n /\ forall c, In c l -> exists i, c = draw_code randbelow i.
Proof.
  induction fuel as [|fuel IH]; intros k out l Hnd Hle Hin; cbn [codes_loop];
    destruct (Nat.leb_spec n (length out)) as [Hn|Hn].
  - intros [= <-]. split_and!; [done|lia|done].
  - done.
  - intros [= <-]. split_and!; [done|lia|done].
  - intros Hl. eapply IH; [by apply set_add_NoDup| | |exact Hl].
    + pose proof (length_set_add (draw_code randbelow k) out). lia.
    + intros c [Hc| ->]%set_add_In; [by apply Hin|by eexists].
Qed.

(** A run of the generator returns as many different codes as asked, of
    [RECOVERY_CODE_LENGTH] characters each. *)
Lemma generate_recovery_codes_spec randbelow fuel n l :
  generate_recovery_codes randbelow fuel n = Some l ->
  List.NoDup l /\ length l = n /\ forall c, In c l -> exists i, c = draw_code randbelow i.
Proof.
  unfold generate_recovery_codes. destruct (codes_loop _ _ _ _ _) as [l0|] eqn:Hl; intros [= <-].
  destruct (codes_loop_spec randbelow n fuel 0 [] l0) as (Hnd & Hlen & Hin); [constructor|cbn; lia|done|done|].
  split_and!.
  - by eapply Permutation_NoDup; [symmetry; apply isort_perm|].
  - by rewrite (Permutation_length (isort_perm String.leb l0)).
  - intros c Hc. apply Hin. by eapply isort_In.
Qed.

Lemma codes_loop_enough randbelow n fuel : forall k out,
  List.NoDup out -> (forall i j, (k <= i < k + fuel)%nat -> (k <= j < k + fuel)%nat ->
    draw_code randbelow i = draw_code randbelow j -> i = j) ->
  (forall i, (k <= i < k + fuel)%nat -> ~ In (draw_code randbelow i) out) ->
  (n <= length out + fuel)%nat -> is_Some (codes_loop randbelow fuel n k out).
Proof.
  induction fuel as [|fuel IH]; intros k out Hnd Hinj Hnew Hle; cbn [codes_loop];
    destruct (Nat.leb_spec n (length out)) as [Hn|Hn]; [done|lia|done|].
  assert (Hadd : set_add (draw_code randbelow k) out = out ++ [draw_code randbelow k]).
  { unfold set_add. destruct (existsb _ out) eqn:He; [|done].
    apply existsb_exists in He as (z & Hz & Hk%String.eqb_eq). destruct (Hnew k); [lia|by rewrite Hk]. }
  apply IH.
  - by apply set_add_NoDup.
  - intros i j Hi Hj. apply Hinj; lia.
  - intros i Hi. rewrite Hadd, in_app_iff. intros [H|[H|[]]]; [by apply (Hnew i); [lia|]|].
    apply (Hinj k i) in H; lia.
  - rewrite Hadd, length_app. cbn. lia.
Qed.

(** The loop ends: when the first [n] draws differ, [n] draws are enough. *)
Lemma generate_recovery_codes_total randbelow n :
  (forall i j, (i < n)%nat -> (j < n)%nat -> draw_code randbelow i = draw_code randbelow j -> i = j) ->
  is_Some (generate_recovery_codes randbelow n n).
Proof.
  intros Hinj. unfold generate_recovery_codes.
  destruct (codes_loop_enough randbelow n n 0 []) as [l ->]; [apply List.NoDup_nil|intros i j Hi Hj; apply Hinj; lia|intros i _ []|cbn; lia|done].
Qed.

(** The hash ignores case, dashes and blanks. *)
Lemma length_rstrip_by f s : (String.length (rstrip_by f s) <= String.length s)%nat.
Proof.
  induction s as [|c s IH]; cbn; [lia|]. destruct (rstrip_by f s) as [|d r] eqn:Hr; [destruct (f c); cbn; lia|].
  cbn in *. lia.
Qed.
Lemma length_lstrip_le f s : (String.length (lstrip_by f s) <= String.length s)%nat.
Proof. induction s as [|c s IH]; cbn; [lia|]. destruct (f c); cbn; lia. Qed.
Lemma length_smap f s : String.length (smap f s) = String.length s.
Proof. induction s; cbn; congruence. Qed.
Lemma length_remove_char c s : (String.length (replace_char c "" s) <= String.length s)%nat.
Proof. induction s as [|d s IH]; cbn; [lia|]. destruct (Ascii.eqb c d); cbn; lia. Qed.

Lemma length_normalized_code s : (String.length (normalized_code s) <= String.length s)%nat.
Proof.
  unfold normalized_code. etransitivity; [apply length_remove_char|]. etransitivity; [apply length_remove_char|].
  unfold upper. rewrite length_smap. unfold strip, strip_by.
  etransitivity; [apply length_rstrip_by|apply length_lstrip_le].
Qed.

(** Generated codes are written in capitals and digits, so they are their own
    normal form. *)
Definition code_char (c : ascii) : bool := is_upper c || is_digit c.

Lemma sall_get f n s c : sall f s = true -> String.get n s = Some c -> f c = true.
Proof.
  revert n. induction s as [|d s IH]; intros n; cbn; [done|]. intros [Hd Hs]%andb_true_iff.
  destruct n; [by intros [= <-]|by apply IH].
Qed.

Lemma sall_draw_code randbelow k : sall code_char (draw_code randbelow k) = true.
Proof.
  unfold draw_code. induction (seq 0 RECOVERY_CODE_LENGTH) as [|i l IH]; cbn [foldr sall]; [done|]. rewrite IH, andb_true_r.
  destruct (String.get _ _RECOVERY_ALPHABET) as [c|] eqn:Hc; [|done]. by apply (sall_get code_char) in Hc.
Qed.

Lemma replace_char_none c t s : sall (fun d => negb (Ascii.eqb c d)) s = true -> replace_char c t s = s.
Proof.
  induction s as [|d s IH]; cbn; [done|]. intros [Hd Hs]%andb_true_iff. apply negb_true_iff in Hd. rewrite Hd. by rewrite IH.
Qed.

Lemma upper_none s : sall (fun c => negb (is_lower c)) s = true -> upper s = s.
Proof.
  unfold upper. induction s as [|d s IH]; cbn; [done|]. intros [Hd Hs]%andb_true_iff. rewrite IH by done.
  unfold upper_char. apply negb_true_iff in Hd. by rewrite Hd.
Qed.

Lemma normalized_code_id s : sall code_char s = true -> normalized_code s = s.
Proof.
  intros Hs. unfold normalized_code, strip.
  assert (Hall : forall f, (forall c, code_char c = true -> f c = true) -> sall f s = true) by (intros f Hf; by apply (sall_impl code_char)).
  assert (Hchr : forall c, code_char c = true -> 48 <= ord c <= 57 \/ 65 <= ord c <= 90).
  { intros c [Hu|Hd]%orb_true_iff; apply in_range_spec in Hu || apply in_range_spec in Hd; lia. }
  rewrite strip_by_none.
  - rewrite upper_none; [rewrite (replace_char_none "-")|].
    + apply replace_char_none, Hall. intros c Hc%Hchr. destruct (Ascii.eqb_spec " " c) as [<-|]; [change (ord " ") with 32 in Hc; lia|done].
    + apply Hall. intros c Hc%Hchr. destruct (Ascii.eqb_spec "-" c) as [<-|]; [change (ord "-") with 45 in Hc; lia|done].
    + apply Hall. intros c Hc%Hchr. destruct (is_lower c) eqn:Hl; [apply in_range_spec in Hl; lia|done].
  - apply Hall. intros c Hc%Hchr. unfold is_space, in_range. lia.
Qed.

(** A quoted text has no character that ends a label or a query argument. *)
Lemma quote_clean s : sall (fun c => quote_safe c || Ascii.eqb "%" c) (quote s) = true.
Proof.
  induction s as [|c s IH]; [done|]. cbn [quote]. destruct (quote_safe c) eqn:Hc; cbn [sall]; [by rewrite Hc, IH|]. rewrite IH.
  assert (Hup : forall n, 0 <= n < 16 -> quote_safe (upper_hex n) || Ascii.eqb "%" (upper_hex n) = true).
  { intros n Hn. assert (Hall : forallb (fun k => quote_safe (upper_hex (Z.of_nat k)) || Ascii.eqb "%" (upper_hex (Z.of_nat k))) (seq 0 16) = true) by done.
    rewrite forallb_forall in Hall. specialize (Hall (Z.to_nat n)). rewrite Z2Nat.id in Hall by lia. apply Hall, in_seq. lia. }
  pose proof (ord_range c). rewrite !Hup by lia. done.
Qed.

Example provisioning_ex :
  provisioning_uri "JBSWY3DP" "ann lee@once.dev" "Once Cockpit" =
  Some "otpauth://totp/Once%20Cockpit:ann%20lee%40once.dev?secret=JBSWY3DP&issuer=Once%20Cockpit&algorithm=SHA1&digits=6&period=30".
Proof. reflexivity. Qed.

Example secret_ex : generate_secret [72; 101; 108; 108; 111; 33; 222; 173; 190; 239; 0; 255] = "JBSWY3DPEHPK3PXPAD7Q".
Proof. vm_compute. reflexivity. Qed.

Example normalized_ex : map normalized_code [" abcd-ef 23 "; "ABCDEF23"] = ["ABCDEF23"; "ABCDEF23"].
Proof. reflexivity. Qed.

(** ** Tables and audit rows *)

(** models/operator.py, [Operator]. *)
Record Operator : Type := {
  op_id : string;
  op_email : string;
  op_hashed_password : string;
  op_role : string;
  op_status : string;
  mfa_required : bool;
  mfa_secret : option string;
  op_last_login_at : option datetime;
}.

(** models/operator.py, [OperatorTenantGrant]. *)
Record OperatorTenantGrant : Type := { gr_operator_id : string; gr_tenant_id : string; permission : string }.

(** models/operator_session.py, [OperatorSession]: the table's unique column
    [refresh_token_hash] is its key. *)
Record OperatorSession : Type := {
  se_operator_id : string;
  se_expires_at : datetime;
  revoked_at : option datetime;
  se_ip_address : option string;
  se_user_agent : option string;
}.

(** models/operator_recovery_code.py, [OperatorRecoveryCode]: the table's unique
    column [code_hash] is its key. *)
Record OperatorRecoveryCode : Type := { rc_operator_id : string; used_at : option datetime }.

(** models/cockpit_audit.py, [CockpitAudit]. *)
Record CockpitAudit : Type := {
  ca_operator_id : option string;
  ca_tenant_id_acted_as : option string;
  ca_action : string;
  ca_resource_type : string;
  ca_resource_id : option string;
  ca_request_id : option string;
  ca_method : option string;
  ca_path : option string;
  ca_status_code : option Z;
  ca_ip : option string;
  ca_user_agent : option string;
  ca_payload_redacted : option json;
}.

#[export] Instance Operator_eq_dec : EqDecision Operator.
Proof. solve_decision. Defined.
#[export] Instance OperatorTenantGrant_eq_dec : EqDecision OperatorTenantGrant.
Proof. solve_decision. Defined.
#[export] Instance OperatorSession_eq_dec : EqDecision OperatorSession.
Proof. solve_decision. Defined.
#[export] Instance OperatorRecoveryCode_eq_dec : EqDecision OperatorRecoveryCode.
Proof. solve_decision. Defined.

(** models/operator.py, [OperatorRole] and [OperatorStatus]. *)
Definition FOUNDER : string := "founder".
Definition ENGINEERING : string := "engineering".
Definition SUPPORT : string := "support".
Definition ACTIVE : string := "active".
Definition SUSPENDED : string := "suspended".

(** The tables: operators by primary key, sessions by token hash, recovery codes
    by code hash, tenants by primary key. *)
Record CockpitDB : Type := {
  operators : gmap string Operator;
  operator_sessions : gmap string OperatorSession;
  recovery_codes : gmap string OperatorRecoveryCode;
  grants : list OperatorTenantGrant;
  cockpit_tenants : gmap string Tenant;
  cockpit_audit : list CockpitAudit;
}.

Definition with_operators (f : gmap string Operator -> gmap string Operator) (db : CockpitDB) : CockpitDB :=
  {| operators := f (operators db); operator_sessions := operator_sessions db; recovery_codes := recovery_codes db;
     grants := grants db; cockpit_tenants := cockpit_tenants db; cockpit_audit := cockpit_audit db |}.
Definition with_sessions (f : gmap string OperatorSession -> gmap string OperatorSession) (db : CockpitDB) : CockpitDB :=
  {| operators := operators db; operator_sessions := f (operator_sessions db); recovery_codes := recovery_codes db;
     grants := grants db; cockpit_tenants := cockpit_tenants db; cockpit_audit := cockpit_audit db |}.
Definition with_codes (f : gmap string OperatorRecoveryCode -> gmap string OperatorRecoveryCode) (db : CockpitDB)
  : CockpitDB :=
  {| operators := operators db; operator_sessions := operator_sessions db; recovery_codes := f (recovery_codes db);
     grants := grants db; cockpit_tenants := cockpit_tenants db; cockpit_audit := cockpit_audit db |}.
Definition with_audit (f : list CockpitAudit -> list CockpitAudit) (db : CockpitDB) : CockpitDB :=
  {| operators := operators db; operator_sessions := operator_sessions db; recovery_codes := recovery_codes db;
     grants := grants db; cockpit_tenants := cockpit_tenants db; cockpit_audit := f (cockpit_audit db) |}.

Abbreviation OM := (M (session CockpitDB) web_error).

(** [select(Operator).where(Operator.email == e)]: the column is unique. *)
Definition operator_by_email (e : string) (db : CockpitDB) : option Operator :=
  find_row (fun o => String.eqb (op_email o) e) (operators db).

(** [select(OperatorTenantGrant).where(operator_id == oid, tenant_id == tid)] *)
Definition grant_of (oid tid : string) (db : CockpitDB) : option OperatorTenantGrant :=
  find_first (fun g => String.eqb (gr_operator_id g) oid && String.eqb (gr_tenant_id g) tid) (grants db).

(** ** Audit rows *)

(** services/cockpit_audit.py, [REDACTED]. *)
Definition REDACTED : string := "[REDACTED]".

(** services/cockpit_audit.py, [_SENSITIVE_KEYS]. *)
Definition _SENSITIVE_KEYS : list string :=
  ["authorization"; "cookie"; "set-cookie"; "x-csrf-token"; "password"; "totp_code"; "refresh_token"; "access_token";
   "secret"; "api_key"].

Definition sensitive (k : string) : bool := existsb (String.eqb (lower k)) _SENSITIVE_KEYS.

(** services/cockpit_audit.py:59-71, [redact_payload]: [_walk]. *)
Fixpoint _walk (value : json) : json :=
  match value with
  | JObj kvs => JObj (map (fun kv : string * json =>
                        if sensitive kv.1 then (kv.1, JStr REDACTED) else (kv.1, _walk kv.2)) kvs)
  | JList l => JList (map _walk l)
  | _ => value
  end.

(** services/cockpit_audit.py, [redact_payload]. *)
Definition redact_payload (payload : option (list (string * json))) : option json :=
  match payload with None => None | Some kvs => Some (_walk (JObj kvs)) end.

(** What an audit row says of the request. *)
Record request_info : Type := {
  ri_request_id : option string;
  ri_method : string;
  ri_path : string;
  ri_ip : option string;
  ri_user_agent : option string;
}.

(** [(s or "")[:512] or None] *)
Definition cut512 (s : option string) : option string :=
  let t := stake 512 (default "" s) in if truthy t then Some t else None.

(** services/cockpit_audit.py:104-119, [write_audit]: the row. *)
Definition audit_row (operator_id tenant_id_acted_as : option string) (action resource_type : string)
    (resource_id : option string) (r : request_info) (status_code : option Z)
    (payload : option (list (string * json))) : CockpitAudit :=
  {| ca_operator_id := operator_id; ca_tenant_id_acted_as := tenant_id_acted_as; ca_action := action;
     ca_resource_type := resource_type; ca_resource_id := resource_id; ca_request_id := ri_request_id r;
     ca_method := Some (ri_method r); ca_path := cut512 (Some (ri_path r)); ca_status_code := status_code;
     ca_ip := ri_ip r; ca_user_agent := cut512 (ri_user_agent r); ca_payload_redacted := redact_payload payload |}.

(** services/cockpit_audit.py, [write_audit], of a row that names an operator of
    the table, or none, and no tenant, while the database accepts it. *)
Definition write_audit {E} (row : CockpitAudit) : M (session CockpitDB) E unit :=
  write (with_audit (fun l => l ++ [row])).

(** A nullable foreign key: null, or the key of a row. *)
Definition references {A} (table : gmap string A) (k : option string) : bool :=
  match k with None => true | Some k => is_someb (table !! k) end.

(** services/cockpit_audit.py, [write_audit_async] with [write_audit]: a session
    of its own, which it commits.  The row must satisfy the foreign keys of
    models/cockpit_audit.py, [CockpitAudit], and whatever else the database asks of it
    (widths, a connection): [accepts].  A failure is logged and swallowed. *)
Definition write_audit_async (accepts : CockpitAudit -> bool) (row : CockpitAudit) (db : CockpitDB) : CockpitDB :=
  if references (operators db) (ca_operator_id row) && references (cockpit_tenants db) (ca_tenant_id_acted_as row) && accepts row
  then with_audit (fun l => l ++ [row]) db else db.

(** ** Lemmas *)

(** No value of a sensitive key is left, at any depth. *)
Fixpoint audit_clean (node : json) : bool :=
  match node with
  | JObj kvs => forallb (fun kv : string * json =>
                  if sensitive kv.1 then bool_decide (kv.2 = JStr REDACTED) else audit_clean kv.2) kvs
  | JList l => forallb audit_clean l
  | _ => true
  end.

Lemma walk_audit_clean v : audit_clean (_walk v) = true.
Proof.
  induction v as [|b|z|f|s|l IH|kvs IH] using json_ind'; try done; cbn [_walk audit_clean]; apply forallb_forall;
    intros x (y & <- & Hy)%in_map_iff; rewrite List.Forall_forall in IH.
  - by apply IH.
  - destruct (sensitive y.1) eqn:Hs; cbn [fst snd]; rewrite Hs; [by apply bool_decide_eq_true|by apply IH].
Qed.

Lemma walk_clean_id v : audit_clean v = true -> _walk v = v.
Proof.
  induction v as [|b|z|f|s|l IH|kvs IH] using json_ind'; try done; cbn [_walk audit_clean]; rewrite forallb_forall; intros Hc;
    rewrite List.Forall_forall in IH; f_equal; (etransitivity; [|apply List.map_id]); apply map_ext_in; intros x Hx.
  - apply IH; [done|by apply Hc].
  - specialize (Hc x Hx). destruct (sensitive x.1) eqn:Hs.
    + apply bool_decide_eq_true in Hc. destruct x; cbn in *; by rewrite Hc.
    + rewrite IH by done. by destruct x.
Qed.

(** Redacting a payload leaves no sensitive value and changes nothing twice. *)
Lemma redact_payload_spec kvs :
  exists j, redact_payload (Some kvs) = Some j /\ audit_clean j = true /\ _walk j = j.
Proof.
  eexists. split; [done|]. assert (H := walk_audit_clean (JObj kvs)). split; [done|by apply walk_clean_id].
Qed.

Lemma operator_by_email_Some e db o :
  operator_by_email e db = Some o -> exists k, operators db !! k = Some o /\ op_email o = e.
Proof. intros (k & Hk & He)%find_row_Some. exists k. split; [done|by apply String.eqb_eq]. Qed.

Lemma grant_of_Some oid tid db g :
  grant_of oid tid db = Some g -> In g (grants db) /\ gr_operator_id g = oid /\ gr_tenant_id g = tid.
Proof.
  intros [Hin Hb]%find_first_Some. apply andb_true_iff in Hb as [H1 H2].
  split; [done|]. split; by apply String.eqb_eq.
Qed.

(** What the primary keys and unique columns say of the tables. *)
Record cockpit_wf (db : CockpitDB) : Prop := {
  wf_operator_key k o : operators db !! k = Some o -> op_id o = k /\ k <> "";
  wf_operator_email k1 k2 o1 o2 :
    operators db !! k1 = Some o1 -> operators db !! k2 = Some o2 -> op_email o1 = op_email o2 -> k1 = k2;
}.

Lemma operator_by_email_unique db k o :
  cockpit_wf db -> operators db !! k = Some o -> operator_by_email (op_email o) db = Some o.
Proof.
  intros Hwf Ho. apply (find_row_unique _ _ k); [done|apply String.eqb_refl|].
  intros k' o' Ho' He%String.eqb_eq. by eapply (wf_operator_email _ Hwf).
Qed.
