(* ===== verification/OperatorAuth.v ===== *)
(** * Operator sessions

    services/operator_auth.py, api/cockpit/__init__.py and api/cockpit/auth.py:
    login of an operator behind the lockout and the second factor, refresh tokens
    kept server-side, logout.  Tokens are those of the class [TokenLibrary];
    SHA-256 and pyotp are variables; clock readings and random identifiers are
    arguments.  An [OperatorAuthError] is written as the [HTTPException] every
    caller makes of it, with its status and code. *)

From Stdlib Require Import Ascii.
From S2P Require Import Prelude PyStr Json PyTime Lockout Accounts Operators.

(** services/operator_auth.py, [ACCESS_TTL_MINUTES]. *)
Definition ACCESS_TTL_MINUTES : Z := 15.
(** services/operator_auth.py, [REFRESH_TTL_MINUTES]. *)
Definition REFRESH_TTL_MINUTES : Z := 60.
(** services/operator_auth.py, [TOKEN_TYPE_ACCESS]. *)
Definition TOKEN_TYPE_ACCESS : string := "cockpit_access".
(** services/operator_auth.py, [TOKEN_TYPE_REFRESH]. *)
Definition TOKEN_TYPE_REFRESH : string := "cockpit_refresh".

(** config.py: the settings of the cockpit's tokens. *)
Record cockpit_settings : Type := { cockpit_jwt_secret_key : option string; is_production : bool }.

(** services/operator_auth.py, [get_cockpit_jwt_secret]; [None] is
    [RuntimeError]. *)
Definition get_cockpit_jwt_secret (cfg : cockpit_settings) : option string :=
  let raw := strip (default "" (cockpit_jwt_secret_key cfg)) in
  if truthy raw then Some raw
  else if is_production cfg then None
  else Some "cockpit-dev-secret-do-not-use-in-prod-xxxxxxxxxxxxxxxxxxxxxxxxxxxxxxxx".

(** schemas/operator.py, [OperatorTokenPair]. *)
Record OperatorTokenPair : Type := { access_token : string; refresh_token : string; expires_in : Z }.

(** schemas/operator.py, [OperatorLoginRequest]. *)
Record OperatorLoginRequest : Type := { rq_email : string; rq_password : string; totp_code : option string }.

(** [Field(min_length=lo, max_length=hi)] with [str_strip_whitespace]. *)
Definition bounded_str (lo hi : Z) (s : string) : option string :=
  let s := strip s in if (lo <=? slen s) && (slen s <=? hi) then Some s else None.

(** schemas/operator.py:30-35, [OperatorLoginRequest]: what the schema makes of a
    body; [None] is a 422.  [valid_email] is the validator behind [EmailStr]. *)
Definition parse_login (valid_email : string -> option string) (mail password : string) (totp : option string)
  : option OperatorLoginRequest :=
  match valid_email (strip mail), bounded_str 1 256 password with
  | Some e, Some p =>
      match totp with
      | None => Some {| rq_email := e; rq_password := p; totp_code := None |}
      | Some t => match bounded_str 6 8 t with
                  | Some c => Some {| rq_email := e; rq_password := p; totp_code := Some c |}
                  | None => None
                  end
      end
  | _, _ => None
  end.

(** Assignments to the columns of an operator. *)
Definition set_last_login (now : Z) (o : Operator) : Operator :=
  {| op_id := op_id o; op_email := op_email o; op_hashed_password := op_hashed_password o; op_role := op_role o;
     op_status := op_status o; mfa_required := mfa_required o; mfa_secret := mfa_secret o;
     op_last_login_at := Some (utc now) |}.

(** [sess.revoked_at = now] *)
Definition revoke (now : Z) (r : OperatorSession) : OperatorSession :=
  {| se_operator_id := se_operator_id r; se_expires_at := se_expires_at r; revoked_at := Some (utc now);
     se_ip_address := se_ip_address r; se_user_agent := se_user_agent r |}.

(** [recovery.used_at = now] *)
Definition spend (now : Z) (r : OperatorRecoveryCode) : OperatorRecoveryCode :=
  {| rc_operator_id := rc_operator_id r; used_at := Some (utc now) |}.

Section Service.
Context `{!TokenLibrary}.
Context (cfg : cockpit_settings).
Context (sha256_hex : string -> string).
Context (totp_verify : Z -> string -> string -> Z -> option bool).
Context (repr_other : json -> string).

(** services/operator_auth.py, [operator_password_verify]; [bcrypt_verify] is
    false where passlib raises. *)
Definition operator_password_verify (plain hashed : string) : bool :=
  truthy plain && truthy hashed && bcrypt_verify plain hashed.

(** services/operator_auth.py, [_encode]. *)
Definition _encode (payload : claims) : OM string :=
  let* secret := or_raise (get_cockpit_jwt_secret cfg) (PyException "RuntimeError") in
  ret (jwt_encode payload secret).

(** services/operator_auth.py:137-145, [create_access_token]: the payload. *)
Definition access_payload (now : Z) (jti : string) (o : Operator) : claims :=
  [("sub", JStr (op_id o)); ("email", JStr (op_email o)); ("role", JStr (op_role o)); ("type", JStr TOKEN_TYPE_ACCESS);
   ("iat", JInt (timestamp now)); ("exp", JInt (timestamp (now + minutes ACCESS_TTL_MINUTES))); ("jti", JStr jti)].

(** services/operator_auth.py, [create_access_token]. *)
Definition create_access_token (now : Z) (jti : string) (o : Operator) : OM string :=
  _encode (access_payload now jti o).

(** services/operator_auth.py:153-159, [create_refresh_token]: the payload. *)
Definition refresh_payload (now : Z) (jti : string) (o : Operator) : claims :=
  [("sub", JStr (op_id o)); ("type", JStr TOKEN_TYPE_REFRESH); ("iat", JInt (timestamp now));
   ("exp", JInt (timestamp (now + minutes REFRESH_TTL_MINUTES))); ("jti", JStr jti)].

(** services/operator_auth.py, [create_refresh_token]. *)
Definition create_refresh_token (now : Z) (jti : string) (o : Operator) : OM (string * datetime) :=
  let* token := _encode (refresh_payload now jti o) in
  ret (token, utc (now + minutes REFRESH_TTL_MINUTES)).

(** services/operator_auth.py, [_hash_refresh]. *)
Definition _hash_refresh (token : string) : string := sha256_hex token.

(** services/operator_auth.py, [decode_token]. *)
Definition decode_token (now : Z) (token expected_type : string) : OM claims :=
  raise_if (negb (truthy token)) (HTTPException 401 "invalid_token") ;;;
  let* secret := or_raise (get_cockpit_jwt_secret cfg) (PyException "RuntimeError") in
  let* payload := or_raise (jwt_decode now token secret) (HTTPException 401 "invalid_token") in
  raise_if (truthy expected_type && negb (bool_decide (get_key "type" payload = JStr expected_type)))
    (HTTPException 401 "invalid_token_type") ;;;
  raise_if (negb (jtruthy (get_key "sub" payload))) (HTTPException 401 "invalid_token") ;;;
  ret payload.

(** The clock readings and random identifiers of a new pair of tokens. *)
Record pair_draw : Type := { t_access : Z; t_refresh : Z; jti_access : string; jti_refresh : string }.

(** services/operator_auth.py, [issue_token_pair]; the flush refuses a second
    row with the same hash. *)
Definition issue_token_pair (d : pair_draw) (o : Operator) (ip user_agent : option string) : OM (string * string * Z) :=
  let* access := create_access_token (t_access d) (jti_access d) o in
  let* r := create_refresh_token (t_refresh d) (jti_refresh d) o in
  let '(refresh, refresh_exp) := r in
  let* taken := query (fun db => operator_sessions db !! _hash_refresh refresh) in
  raise_if (is_someb taken) (PyException "IntegrityError") ;;;
  write (with_sessions (fun t =>
    <[_hash_refresh refresh := {| se_operator_id := op_id o; se_expires_at := refresh_exp; revoked_at := None;
        se_ip_address := ip; se_user_agent := cut512 user_agent |}]> t)) ;;;
  ret (access, refresh, ACCESS_TTL_MINUTES * 60).

(** services/operator_auth.py:257-273, [authenticate_operator]: the submitted code
    as a one-time recovery code. *)
Definition use_recovery_code (now : Z) (o : Operator) (submitted : string) : OM unit :=
  let* code_hash := or_raise (hash_recovery_code sha256_hex submitted) (PyException "ValueError") in
  let* row := query (fun db => match recovery_codes db !! code_hash with
                               | Some rc => if String.eqb (rc_operator_id rc) (op_id o) then Some rc else None
                               | None => None
                               end) in
  match row with
  | Some rc =>
      raise_if (is_someb (used_at rc)) (HTTPException 403 "invalid_mfa") ;;;
      write (with_codes (fun t => <[code_hash := spend now rc]> t))
  | None => raise (HTTPException 403 "invalid_mfa")
  end.

(** services/operator_auth.py:235-273, [authenticate_operator]: the second
    factor. *)
Definition second_factor (t_totp t_used : Z) (o : Operator) (totp : option string) : OM unit :=
  match totp with
  | None => raise (HTTPException 403 "mfa_required")
  | Some code =>
      raise_if (negb (truthy code)) (HTTPException 403 "mfa_required") ;;;
      let* secret := or_raise (mfa_secret o) (HTTPException 403 "mfa_not_enrolled") in
      raise_if (negb (truthy secret)) (HTTPException 403 "mfa_not_enrolled") ;;;
      let submitted := strip code in
      if verify_code totp_verify t_totp secret submitted then ret tt
      else use_recovery_code t_used o submitted
  end.

(** The clock readings of one login. *)
Record auth_draw : Type := { t_totp : Z; t_used : Z; t_login : Z; pair : pair_draw }.

(** services/operator_auth.py, [authenticate_operator]. *)
Definition authenticate_operator (d : auth_draw) (mail password : string) (ip user_agent : option string)
    (totp : option string) : OM (Operator * string * string * Z) :=
  let normalized := lower (strip mail) in
  let* row := query (operator_by_email normalized) in
  match row with
  | None => raise (HTTPException 401 "invalid_credentials")
  | Some o =>
      raise_if (negb (operator_password_verify password (op_hashed_password o))) (HTTPException 401 "invalid_credentials") ;;;
      raise_if (negb (String.eqb (op_status o) ACTIVE)) (HTTPException 403 "operator_suspended") ;;;
      (if mfa_required o then second_factor (t_totp d) (t_used d) o totp else ret tt) ;;;
      let o' := set_last_login (t_login d) o in
      write (with_operators (fun t => <[op_id o := o']> t)) ;;;
      let* r := issue_token_pair (pair d) o' ip user_agent in
      let '(access, refresh, expires) := r in
      ret (o', access, refresh, expires)
  end.

(** services/operator_auth.py, [refresh_operator_session]; [now] decodes the
    token, [t_expiry] is compared with the row, [t_revoke] is written. *)
Definition refresh_operator_session (now t_expiry t_revoke : Z) (d : pair_draw) (token : string)
    (ip user_agent : option string) : OM (Operator * string * string * Z) :=
  let* payload := decode_token now token TOKEN_TYPE_REFRESH in
  let operator_id := py_str repr_other (get_key "sub" payload) in
  let token_hash := _hash_refresh token in
  let* row := query (fun db => operator_sessions db !! token_hash) in
  match row with
  | None => raise (HTTPException 401 "invalid_refresh")
  | Some sess =>
      raise_if (is_someb (revoked_at sess)) (HTTPException 401 "invalid_refresh") ;;;
      raise_if (instant (coerce_utc (se_expires_at sess)) <=? t_expiry) (HTTPException 401 "refresh_expired") ;;;
      let* op := query (fun db => operators db !! operator_id) in
      match op with
      | None => raise (HTTPException 403 "operator_suspended")
      | Some o =>
          raise_if (negb (String.eqb (op_status o) ACTIVE)) (HTTPException 403 "operator_suspended") ;;;
          write (with_sessions (fun t => <[token_hash := revoke t_revoke sess]> t)) ;;;
          let* r := issue_token_pair d o ip user_agent in
          let '(access, new_refresh, expires) := r in
          ret (o, access, new_refresh, expires)
      end
  end.

(** services/operator_auth.py, [revoke_session]. *)
Definition revoke_session (now : Z) (token : string) : OM unit :=
  let token_hash := _hash_refresh token in
  let* row := query (fun db => operator_sessions db !! token_hash) in
  match row with
  | Some sess =>
      if is_someb (revoked_at sess) then ret tt
      else write (with_sessions (fun t => <[token_hash := revoke now sess]> t))
  | None => ret tt
  end.

(** services/operator_auth.py, [list_operator_grants]. *)
Definition list_operator_grants (o : Operator) : OM (list OperatorTenantGrant) :=
  query (fun db => List.filter (fun g => String.eqb (gr_operator_id g) (op_id o)) (grants db)).

(** ** The operator behind a request *)

(** api/cockpit/__init__.py, [_extract_token]: the [Authorization] header and the
    cookie. *)
Definition _extract_token (authorization cookie : option string) : option string :=
  let from_cookie := match cookie with Some c => if truthy c then Some (strip c) else None | None => None end in
  match authorization with
  | Some auth =>
      if truthy auth
      then let '(scheme, _, tok) := partition_char " " auth in
           if String.eqb (lower scheme) "bearer" && truthy tok then Some (strip tok) else from_cookie
      else from_cookie
  | None => from_cookie
  end.

(** api/cockpit/__init__.py, [get_current_operator]. *)
Definition get_current_operator (now : Z) (token : option string) : OM Operator :=
  let* tok := or_raise token (HTTPException 401 "operator_unauthenticated") in
  raise_if (negb (truthy tok)) (HTTPException 401 "operator_unauthenticated") ;;;
  let* payload := decode_token now tok TOKEN_TYPE_ACCESS in
  let operator_id := py_str repr_other (get_key "sub" payload) in
  let* row := query (fun db => operators db !! operator_id) in
  let* o := or_raise row (HTTPException 401 "operator_unknown") in
  raise_if (negb (String.eqb (op_status o) ACTIVE)) (HTTPException 403 "operator_suspended") ;;;
  ret o.

(** api/cockpit/__init__.py, [require_founder]. *)
Definition require_founder (o : Operator) : OM Operator :=
  raise_if (negb (String.eqb (op_role o) FOUNDER)) (HTTPException 403 "founder_required") ;;; ret o.

(** ** Endpoints *)

(** api/cockpit/auth.py, [refresh]; the request information carries the address
    or ["unknown"]. *)
Definition refresh (now t_expiry t_revoke : Z) (d : pair_draw) (ri : request_info) (token : string)
    : OM OperatorTokenPair :=
  let* r := refresh_operator_session now t_expiry t_revoke d token (ri_ip ri) (ri_user_agent ri) in
  let '(o, access, new_refresh, expires) := r in
  write_audit (audit_row (Some (op_id o)) None "cockpit.refresh" "operator_session" (Some (op_id o)) ri (Some 200) None) ;;;
  ret {| access_token := access; refresh_token := new_refresh; expires_in := expires |}.

(** api/cockpit/auth.py, [logout], for the operator of the request. *)
Definition logout (t_auth t_revoke : Z) (bearer : option string) (ri : request_info) (token : string) : OM unit :=
  let* o := get_current_operator t_auth bearer in
  revoke_session t_revoke token ;;;
  write_audit (audit_row (Some (op_id o)) None "cockpit.logout" "operator_session" (Some (op_id o)) ri (Some 204) None).

(** schemas/operator.py, [OperatorMe]. *)
Record OperatorMe : Type := {
  me_operator : Operator;
  accessible_tenant_ids : list string;
  all_tenants : bool;
}.

(** api/cockpit/auth.py, [me]. *)
Definition me (t_auth : Z) (bearer : option string) : OM OperatorMe :=
  let* o := get_current_operator t_auth bearer in
  let is_founder := String.eqb (op_role o) FOUNDER in
  let* accessible := if is_founder then ret []
                     else let* gs := list_operator_grants o in ret (map gr_tenant_id gs) in
  ret {| me_operator := o; accessible_tenant_ids := accessible; all_tenants := is_founder |}.

(** ** Login behind the lockout *)

Section Login.
Context {S : Type} `{!LockoutStore S}.
Context (lockout_cfg : tracker_config).

(** The database session of the request and the process-wide lockout store. *)
Definition CockpitState : Type := session CockpitDB * S.

Definition on_session {A} (m : OM A) : M CockpitState web_error A :=
  fun s => let '(r, d) := m s.1 in (r, (d, s.2)).
Definition on_tracker {A} (f : S -> A * S) : M CockpitState web_error A :=
  fun s => let '(a, l) := f s.2 in (Ok a, (s.1, l)).

(** api/cockpit/auth.py:127-149, [login]: what a refused login leaves behind. *)
Definition login_denied (t_fail t_lock : Z) (ri : request_info) (payload : OperatorLoginRequest) (e : web_error)
    : M CockpitState web_error (Operator * string * string * Z) :=
  match e with
  | HTTPException status code =>
      (if existsb (String.eqb code) ["invalid_credentials"; "invalid_mfa"]
       then on_tracker (record_failure lockout_cfg t_fail t_lock (rq_email payload) (default "" (ri_ip ri))) ;;; ret tt
       else ret tt) ;;;
      on_session (write_audit (audit_row None None "cockpit.login_failed" "operator" None ri (Some status)
        (Some [("email", JStr (rq_email payload)); ("code", JStr code)]))) ;;;
      raise e
  | PyException _ => raise e
  end.

(** The clock readings of the login endpoint. *)
Record login_draw : Type := { t_check : Z; t_fail : Z; t_lock : Z; auth : auth_draw }.

(** api/cockpit/auth.py, [login]; the request information carries the address or
    ["unknown"]. *)
Definition login (d : login_draw) (ri : request_info) (payload : OperatorLoginRequest)
    : M CockpitState web_error OperatorTokenPair :=
  let ip := default "" (ri_ip ri) in
  let* status_check := on_tracker (check lockout_cfg (t_check d) (rq_email payload) ip) in
  raise_if (locked status_check) (HTTPException 429 "account_locked") ;;;
  let* r := try_except
              (on_session (authenticate_operator (auth d) (rq_email payload) (rq_password payload) (Some ip)
                 (ri_user_agent ri) (totp_code payload)))
              (login_denied (t_fail d) (t_lock d) ri payload) in
  let '(o, access, refresh, expires) := r in
  on_tracker (fun s => (tt, record_success (rq_email payload) ip s)) ;;;
  on_session (write_audit (audit_row (Some (op_id o)) None "cockpit.login" "operator" (Some (op_id o)) ri (Some 200)
    (Some [("email", JStr (rq_email payload)); ("role", JStr (op_role o))]))) ;;;
  ret {| access_token := access; refresh_token := refresh; expires_in := expires |}.

(** The request: its database session is committed or rolled back, the lockout
    store is not part of it. *)
Definition login_request (d : login_draw) (ri : request_info) (payload : OperatorLoginRequest)
    : M CockpitState web_error OperatorTokenPair :=
  fun s => match login d ri payload s with
           | (Ok a, (db, l)) => (Ok a, (snd (commit (E := web_error) db), l))
           | (Raise e, (db, l)) => (Raise e, (snd (rollback (E := web_error) db), l))
           end.
End Login.
End Service.

(** ** Lemmas *)

Section ServiceLemmas.
Context `{!TokenLibrary}.
Context (cfg : cockpit_settings).
Context (sha256_hex : string -> string).
Local Abbreviation issue_token_pair := (issue_token_pair cfg sha256_hex).

(** The session row of a new pair. *)
Definition new_session (d : pair_draw) (o : Operator) (ip ua : option string) : OperatorSession :=
  {| se_operator_id := op_id o; se_expires_at := utc (t_refresh d + minutes REFRESH_TTL_MINUTES); revoked_at := None;
     se_ip_address := ip; se_user_agent := cut512 ua |}.

Definition access_of (d : pair_draw) (o : Operator) (secret : string) : string :=
  jwt_encode (access_payload (t_access d) (jti_access d) o) secret.
Definition refresh_of (d : pair_draw) (o : Operator) (secret : string) : string :=
  jwt_encode (refresh_payload (t_refresh d) (jti_refresh d) o) secret.

Lemma issue_token_pair_Ok d o ip ua s a r e s' :
  issue_token_pair d o ip ua s = (Ok (a, r, e), s') <->
  exists secret, get_cockpit_jwt_secret cfg = Some secret /\ a = access_of d o secret /\ r = refresh_of d o secret /\
    e = 900 /\ operator_sessions (working s) !! sha256_hex r = None /\
    s' = Session (with_sessions (fun t => <[sha256_hex r := new_session d o ip ua]> t) (working s)) (committed s).
Proof.
  unfold OperatorAuth.issue_token_pair, create_access_token, create_refresh_token, _encode, _hash_refresh, access_of, refresh_of.
  unfold bind, or_raise, raise_if, query, reads, write, modify, ret, raise.
  destruct (get_cockpit_jwt_secret cfg) as [secret|]; cbn; [|naive_solver].
  destruct (operator_sessions (working s) !! _) eqn:Hs; cbn; [naive_solver|].
  split; [intros [= <- <- <- <-]; by eexists|]. intros (? & [= <-] & -> & -> & -> & _ & ->). done.
Qed.

Lemma issue_token_pair_Raise d o ip ua s e s' :
  issue_token_pair d o ip ua s = (Raise e, s') -> s' = s /\ exists what, e = PyException what.
Proof.
  unfold OperatorAuth.issue_token_pair, create_access_token, create_refresh_token, _encode.
  unfold bind, or_raise, raise_if, query, reads, write, modify, ret, raise.
  destruct (get_cockpit_jwt_secret cfg) as [secret|]; cbn; [|naive_solver].
  destruct (operator_sessions (working s) !! _); cbn; naive_solver.
Qed.

End ServiceLemmas.

Section DecodeLemmas.
Context `{!TokenLibrary}.
Context (cfg : cockpit_settings).

Lemma decode_token_Ok now token ty s p s' :
  decode_token cfg now token ty s = (Ok p, s') <->
  s' = s /\ token <> "" /\ exists secret, get_cockpit_jwt_secret cfg = Some secret /\
    jwt_decode now token secret = Some p /\ (ty <> "" -> get_key "type" p = JStr ty) /\
    jtruthy (get_key "sub" p) = true.
Proof.
  unfold decode_token, bind, raise_if, or_raise, ret, raise.
  destruct (truthy token) eqn:Ht; cbn; [apply truthy_spec in Ht|apply truthy_false in Ht; naive_solver].
  destruct (get_cockpit_jwt_secret cfg) as [secret|]; cbn; [|naive_solver].
  destruct (jwt_decode now token secret) as [q|] eqn:Hd; cbn; [|naive_solver].
  assert (Hty : truthy ty && negb (bool_decide (get_key "type" q = JStr ty)) = false <->
                (ty <> "" -> get_key "type" q = JStr ty)).
  { rewrite andb_false_iff, negb_false_iff, bool_decide_eq_true, truthy_false. destruct (decide (ty = "")); tauto. }
  destruct (truthy ty && _); cbn.
  - split; [done|]. intros (_ & _ & ? & [= <-] & Hp & Hq & _). simplify_eq. by apply Hty in Hq.
  - destruct (jtruthy (get_key "sub" q)) eqn:Hs; cbn.
    + split; [intros [= <- <-]|intros (-> & _ & ? & [= <-] & Hp & _); by simplify_eq].
      split_and!; try done. eexists. split_and!; try done. by apply Hty.
    + split; [done|]. intros (_ & _ & ? & [= <-] & Hp & _ & ?). congruence.
Qed.

Lemma readonly_decode now token ty : readonly (decode_token cfg now token ty).
Proof. unfold decode_token. auto 8 with readonly. Qed.

Lemma readonly_get_current_operator repr_other now token : readonly (get_current_operator cfg repr_other now token).
Proof. unfold get_current_operator, query. eauto 10 using readonly_decode with readonly. Qed.

Lemma get_current_operator_Ok repr_other now token s o s' :
  get_current_operator cfg repr_other now token s = (Ok o, s') <->
  s' = s /\ exists tok p, token = Some tok /\ decode_token cfg now tok TOKEN_TYPE_ACCESS s = (Ok p, s) /\
    operators (working s) !! py_str repr_other (get_key "sub" p) = Some o /\ op_status o = ACTIVE.
Proof.
  unfold get_current_operator. split.
  - intros Hok. unfold query in Hok. inv_run Hok. pose proof Hrun as Hd. apply decode_token_Ok in Hrun as (-> & _).
    split; [done|]. eexists _, _. split_and!; try done. by apply String.eqb_eq, negb_false_iff.
  - intros (-> & tok & p & -> & Hd & Ho & Hst). pose proof Hd as (_ & Hne & _)%decode_token_Ok.
    apply truthy_spec in Hne. unfold bind at 1. cbn [or_raise ret]. unfold bind at 1, raise_if. rewrite Hne. cbn [negb ret].
    erewrite bind_run by exact Hd. unfold bind, query, reads, or_raise. cbn. rewrite Ho. cbn. by rewrite Hst.
Qed.
End DecodeLemmas.

Section RecoveryLemmas.
Context (sha256_hex : string -> string).

Lemma use_recovery_code_Ok now o submitted s u s' :
  use_recovery_code sha256_hex now o submitted s = (Ok u, s') ->
  exists rc, submitted <> "" /\ recovery_codes (working s) !! sha256_hex (normalized_code submitted) = Some rc /\
    rc_operator_id rc = op_id o /\ used_at rc = None /\
    s' = Session (with_codes (fun t => <[sha256_hex (normalized_code submitted) := spend now rc]> t) (working s)) (committed s).
Proof.
  unfold use_recovery_code, hash_recovery_code. unfold bind, or_raise, query, reads, raise_if, write, modify, ret, raise.
  destruct (truthy submitted) eqn:Ht; cbn; [apply truthy_spec in Ht|done].
  destruct (recovery_codes (working s) !! _) as [rc|] eqn:Hrc; cbn; [|done].
  destruct (String.eqb_spec (rc_operator_id rc) (op_id o)); cbn; [|done].
  destruct (used_at rc) eqn:Hu; cbn; [done|]. intros [= <- <-]. by exists rc.
Qed.

Lemma use_recovery_code_Raise now o submitted s e s' :
  use_recovery_code sha256_hex now o submitted s = (Raise e, s') ->
  s' = s /\ (e = HTTPException 403 "invalid_mfa" \/ e = PyException "ValueError" /\ submitted = "").
Proof.
  unfold use_recovery_code, hash_recovery_code. unfold bind, or_raise, query, reads, raise_if, write, modify, ret, raise.
  destruct (truthy submitted) eqn:Ht; cbn; [|apply truthy_false in Ht; naive_solver].
  destruct (recovery_codes (working s) !! _) as [rc|]; cbn; [|naive_solver].
  destruct (String.eqb (rc_operator_id rc) (op_id o)); cbn; [|naive_solver].
  destruct (used_at rc); cbn; naive_solver.
Qed.

End RecoveryLemmas.

Section LoginLemmas.
Context (sha256_hex : string -> string).
Context (totp_verify : Z -> string -> string -> Z -> option bool).

(** The two ways to pass the second factor, and what they leave. *)
Definition second_factor_ok (t_totp t_used : Z) (o : Operator) (totp : option string) (db db' : CockpitDB) : Prop :=
  exists secret code, mfa_secret o = Some secret /\ secret <> "" /\ totp = Some code /\ code <> "" /\
    ((verify_code totp_verify t_totp secret (strip code) = true /\ db' = db) \/
     exists rc, strip code <> "" /\ recovery_codes db !! sha256_hex (normalized_code (strip code)) = Some rc /\
       rc_operator_id rc = op_id o /\ used_at rc = None /\
       verify_code totp_verify t_totp secret (strip code) = false /\
       db' = with_codes (fun t => <[sha256_hex (normalized_code (strip code)) := spend t_used rc]> t) db).

Lemma second_factor_Ok t_totp t_used o totp s u s' :
  second_factor sha256_hex totp_verify t_totp t_used o totp s = (Ok u, s') ->
  committed s' = committed s /\ second_factor_ok t_totp t_used o totp (working s) (working s').
Proof.
  unfold second_factor. destruct totp as [code|]; [|done]. intros Hok. inv_run Hok.
  assert (Hc : code <> "") by (by apply truthy_spec, negb_false_iff).
  assert (Hs : a0 <> "") by (by apply truthy_spec, negb_false_iff).
  destruct (verify_code totp_verify t_totp a0 (strip code)) eqn:Hv.
  - apply ret_Ok in Hok as [-> ->]. split; [done|]. exists a0, code. split_and!; auto.
  - apply use_recovery_code_Ok in Hok as (rc & Hne & Hrc & Hop & Hus & ->). split; [done|].
    exists a0, code. split_and!; try done. right. by exists rc.
Qed.

Context `{!TokenLibrary}.
Context (cfg : cockpit_settings).

(** What a login that succeeds has checked and what it writes. *)
Lemma authenticate_operator_Ok d mail password ip ua totp s o' a r e s' :
  authenticate_operator cfg sha256_hex totp_verify d mail password ip ua totp s = (Ok (o', a, r, e), s') ->
  exists o db1, operator_by_email (lower (strip mail)) (working s) = Some o /\
    operator_password_verify password (op_hashed_password o) = true /\ op_status o = ACTIVE /\
    (if mfa_required o then second_factor_ok (t_totp d) (t_used d) o totp (working s) db1 else db1 = working s) /\
    o' = set_last_login (t_login d) o /\ committed s' = committed s /\
    issue_token_pair cfg sha256_hex (pair d) o' ip ua
      (Session (with_operators (fun t => <[op_id o := o']> t) db1) (committed s)) = (Ok (a, r, e), s').
Proof.
  unfold authenticate_operator. intros Hok. unfold query in Hok. inv_run Hok.
  destruct (operator_by_email _ (working s)) as [o|] eqn:Ho; [|done]. inv_run Hok.
  destruct a3 as [[acc rfr] ex]. apply ret_Ok in Hok as [[= -> -> -> ->] ->].
  assert (Hmfa : committed s0 = committed s /\
    if mfa_required o then second_factor_ok (t_totp d) (t_used d) o totp (working s) (working s0)
    else working s0 = working s).
  { destruct (mfa_required o); [by eapply second_factor_Ok|]. by apply ret_Ok in Hrun as [_ ->]. }
  destruct Hmfa as [Hc Hmfa]. rewrite Hc in Hrun0.
  exists o, (working s0). split_and!; try done.
  - by apply negb_false_iff.
  - by apply String.eqb_eq, negb_false_iff.
  - by apply issue_token_pair_Ok in Hrun0 as (? & _ & _ & _ & _ & _ & ->).
Qed.
End LoginLemmas.

Section Refresh.
Context `{!TokenLibrary}.
Context (cfg : cockpit_settings).
Context (sha256_hex : string -> string).
Context (repr_other : json -> string).
Local Abbreviation refresh_operator_session := (refresh_operator_session cfg sha256_hex repr_other).

(** What an exchange of a refresh token has checked and what it writes. *)
Lemma refresh_operator_session_Ok now t_expiry t_revoke d token ip ua s o a r e s' :
  refresh_operator_session now t_expiry t_revoke d token ip ua s = (Ok (o, a, r, e), s') ->
  exists p sess, decode_token cfg now token TOKEN_TYPE_REFRESH s = (Ok p, s) /\
    operator_sessions (working s) !! sha256_hex token = Some sess /\ revoked_at sess = None /\
    t_expiry < instant (coerce_utc (se_expires_at sess)) /\
    operators (working s) !! py_str repr_other (get_key "sub" p) = Some o /\ op_status o = ACTIVE /\
    issue_token_pair cfg sha256_hex d o ip ua
      (Session (with_sessions (fun t => <[sha256_hex token := revoke t_revoke sess]> t) (working s)) (committed s))
    = (Ok (a, r, e), s').
Proof.
  unfold OperatorAuth.refresh_operator_session, _hash_refresh. intros Hok. unfold query in Hok. inv_run Hok.
  pose proof Hrun as (-> & _)%decode_token_Ok.
  destruct (operator_sessions (working s) !! _) as [sess|] eqn:Hs; [|done]. inv_run Hok.
  destruct (operators (working s) !! _) as [o1|] eqn:Ho; [|done]. inv_run Hok.
  repeat match goal with x : (_ * _)%type |- _ => destruct x end. apply ret_Ok in Hok as [[= -> -> -> ->] ->].
  exists a0, sess. split_and!; try done.
  - by destruct (revoked_at sess).
  - by apply Z.leb_gt.
  - by apply String.eqb_eq, negb_false_iff.
Qed.

(** A refresh token whose row is revoked is refused, and nothing is written. *)
Lemma revoked_refresh_refused now t_expiry t_revoke d ri token s sess :
  operator_sessions (working s) !! sha256_hex token = Some sess -> is_Some (revoked_at sess) ->
  exists e, refresh cfg sha256_hex repr_other now t_expiry t_revoke d ri token s = (Raise e, s).
Proof.
  intros Hs [t Ht]. unfold refresh, OperatorAuth.refresh_operator_session, _hash_refresh. unfold bind at 1 2.
  pose proof (readonly_decode cfg now token TOKEN_TYPE_REFRESH s) as Hr.
  destruct (decode_token cfg now token TOKEN_TYPE_REFRESH s) as [[p|e] s1]; cbn in Hr; [|by eexists; rewrite Hr].
  rewrite Hr. clear Hr s1.
  unfold bind, query, reads. cbn. rewrite Hs. cbn. rewrite Ht. cbn. by eexists.
Qed.
End Refresh.

(** ** The login endpoint *)

Section LoginOutcome.
Context `{!TokenLibrary}.
Context (cfg : cockpit_settings).
Context (sha256_hex : string -> string).
Context (totp_verify : Z -> string -> string -> Z -> option bool).
Context {S : Type} `{!LockoutStore S}.
Context (lockout_cfg : tracker_config).

Definition counted (e : web_error) : bool :=
  match e with
  | HTTPException _ code => existsb (String.eqb code) ["invalid_credentials"; "invalid_mfa"]
  | PyException _ => false
  end.

Lemma authenticate_keeps_committed db d mail password ip ua totp :
  preserves (committed_is db) (authenticate_operator cfg sha256_hex totp_verify d mail password ip ua totp).
Proof.
  unfold authenticate_operator. apply preserves_bind; [auto with preserve|]. intros [o|]; [|auto with preserve].
  apply preserves_bind; [auto with preserve|]. intros _. apply preserves_bind; [auto with preserve|]. intros _.
  apply preserves_bind; [destruct (mfa_required o); [|auto with preserve]|intros _].
  - unfold second_factor. destruct totp; [|auto with preserve].
    do 3 (apply preserves_bind; [auto with preserve|intros]). destruct (verify_code _ _ _ _); [auto with preserve|].
    unfold use_recovery_code. do 2 (apply preserves_bind; [auto with preserve|intros]).
    case_match; auto with preserve.
  - apply preserves_bind; [auto with preserve|intros _]. apply preserves_bind; [|intros [[a r] e]; auto with preserve].
    intros s Hs. destruct (issue_token_pair _ _ _ _ _ _ s) as [[[[a r] e]|e] s'] eqn:Hi.
    + by apply issue_token_pair_Ok in Hi as (? & _ & _ & _ & _ & _ & ->).
    + by apply issue_token_pair_Raise in Hi as [-> _].
Qed.

Lemma login_denied_run t_fail t_lock ri payload e s :
  let s' := if counted e then (s.1, (record_failure lockout_cfg t_fail t_lock (rq_email payload) (default "" (ri_ip ri)) s.2).2) else s in
  exists d, login_denied lockout_cfg t_fail t_lock ri payload e s = (Raise e, (d, s'.2)) /\ committed d = committed s.1.
Proof.
  destruct e as [status code|w]; cbn [counted login_denied]; [|by exists s.1; destruct s].
  unfold bind, on_tracker, on_session, write_audit, write, modify, raise, ret. destruct (existsb _ _); cbn.
  - destruct (record_failure _ _ _ _ _ _) as [x l]. cbn. by eexists.
  - by eexists.
Qed.

(** A login that gives tokens has authenticated the operator. *)
Lemma login_request_Ok d ri payload st tokens st' :
  login_request cfg sha256_hex totp_verify lockout_cfg d ri payload st = (Ok tokens, st') ->
  exists o a r e s1, authenticate_operator cfg sha256_hex totp_verify (auth d) (rq_email payload) (rq_password payload)
    (Some (default "" (ri_ip ri))) (ri_user_agent ri) (totp_code payload) st.1 = (Ok (o, a, r, e), s1).
Proof.
  unfold login_request, login, on_tracker at 1. destruct st as [s l]. unfold bind at 1. cbn [fst snd].
  destruct (check _ _ _ _ l) as [verdict l1]. unfold bind at 1, raise_if.
  destruct (locked verdict); cbn [raise ret]; [done|]. unfold bind at 1, try_except, on_session at 1. cbn [fst snd].
  destruct (authenticate_operator _ _ _ _ _ _ _ _ _ s) as [[[[[o' a] rt] ex]|e] s1] eqn:Hauth; [by eexists _, _, _, _, _|].
  destruct (login_denied_run (t_fail d) (t_lock d) ri payload e (s1, l1)) as (d' & Hd & _). cbn [fst snd] in *.
  by rewrite Hd.
Qed.

(** The outcome of an operator's login.  Tokens are only given when the
    tracker has not locked the pair of address and e-mail, the password of that
    operator verifies, the operator is active and, where the second factor is
    required, a current one-time password or an unused recovery code of that very
    operator was submitted; the recovery code is then spent, and exactly one
    session row, under the hash of the new refresh token, is added.  A login that
    is refused leaves every table as it was, the audit row of the refusal
    included, and only wrong passwords and wrong second factors are counted by
    the lockout. *)
Theorem operator_login_outcome d ri payload db l r st' :
  login_request cfg sha256_hex totp_verify lockout_cfg d ri payload (Session db db, l) = (r, st') ->
  let ip := default "" (ri_ip ri) in
  let '(verdict, l1) := check lockout_cfg (t_check d) (rq_email payload) ip l in
  match r with
  | Ok tokens =>
      exists o db1 secret, locked verdict = false /\
        operator_by_email (lower (strip (rq_email payload))) db = Some o /\
        operator_password_verify (rq_password payload) (op_hashed_password o) = true /\ op_status o = ACTIVE /\
        (if mfa_required o
         then second_factor_ok sha256_hex totp_verify (t_totp (auth d)) (t_used (auth d)) o (totp_code payload) db db1
         else db1 = db) /\
        get_cockpit_jwt_secret cfg = Some secret /\
        access_token tokens = access_of (pair (auth d)) (set_last_login (t_login (auth d)) o) secret /\
        operator_sessions db !! sha256_hex (refresh_token tokens) = None /\
        operator_sessions (committed st'.1) =
          <[sha256_hex (refresh_token tokens) := new_session (pair (auth d)) o (Some ip) (ri_user_agent ri)]> (operator_sessions db) /\
        recovery_codes (committed st'.1) = recovery_codes db1 /\
        operators (committed st'.1) = <[op_id o := set_last_login (t_login (auth d)) o]> (operators db) /\
        st'.2 = record_success (rq_email payload) ip l1
  | Raise e =>
      st'.1 = Session db db /\
      st'.2 = if counted e then (record_failure lockout_cfg (t_fail d) (t_lock d) (rq_email payload) ip l1).2 else l1
  end.
Proof.
  unfold login_request, login. intros Hrun. cbn zeta. unfold bind at 1, on_tracker at 1 in Hrun. cbn [fst snd] in Hrun.
  destruct (check _ _ _ _ l) as [verdict l1]. unfold bind at 1, raise_if in Hrun.
  destruct (locked verdict) eqn:Hlock; cbn [raise ret] in Hrun; [by injection Hrun as <- <-|].
  unfold bind at 1, try_except, on_session at 1 in Hrun. cbn [fst snd] in Hrun.
  destruct (authenticate_operator _ _ _ _ _ _ _ _ _ _) as [[[[[o' a] rt] ex]|e] s1] eqn:Hauth.
  - apply authenticate_operator_Ok in Hauth as (o & db1 & Ho & Hp & Hst & Hmfa & -> & Hc & Hiss).
    apply issue_token_pair_Ok in Hiss as (secret & Hsec & -> & -> & -> & Hnew & ->).
    unfold bind, on_tracker, on_session, write_audit, write, modify, ret in Hrun. cbn in Hrun. injection Hrun as <- <-. cbn in *.
    assert (Hdb1 : operator_sessions db1 = operator_sessions db /\ operators db1 = operators db).
    { destruct (mfa_required o); [|by subst]. destruct Hmfa as (? & ? & _ & _ & _ & _ & [[_ ->]|(? & _ & _ & _ & _ & _ & ->)]); done. }
    destruct Hdb1 as [Hs1 Ho1]. rewrite Hs1, ?Ho1 in *. exists o, db1, secret. split_and!; done.
  - destruct (login_denied_run (t_fail d) (t_lock d) ri payload e (s1, l1)) as (d' & Hd & Hc). cbn [fst snd] in *. rewrite Hd in Hrun.
    injection Hrun as <- <-. cbn. pose proof (authenticate_keeps_committed db (auth d) (rq_email payload) (rq_password payload)
      (Some (default "" (ri_ip ri))) (ri_user_agent ri) (totp_code payload) (Session db db) eq_refl) as Hk.
    rewrite Hauth in Hk. cbn in Hk. unfold committed_is in Hk. rewrite Hc, Hk. by destruct (counted e).
Qed.
End LoginOutcome.

(** ** A concrete login *)

Module DemoCockpit.
#[export] Instance library : TokenLibrary := PlainTokens.library.

Definition cfg : cockpit_settings := {| cockpit_jwt_secret_key := Some " s3cret "; is_production := true |}.
Definition sha (s : string) : string := "#" +:+ s.
Definition totp (now : Z) (secret code : string) (window : Z) : option bool := Some (String.eqb code "123456").
Definition repr (v : json) : string := "?".
Definition ri : request_info :=
  {| ri_request_id := None; ri_method := "POST"; ri_path := "/cockpit/auth/login"; ri_ip := Some "10.0.0.1";
     ri_user_agent := Some "curl" |}.

Definition ann : Operator :=
  {| op_id := "o1"; op_email := "ann@once.dev"; op_hashed_password := "$pw"; op_role := SUPPORT; op_status := ACTIVE;
     mfa_required := true; mfa_secret := Some "JBSWY3DP"; op_last_login_at := None |}.
Definition acme : Tenant :=
  {| tenant_pk := "t1"; tenant_name := "Acme"; slug := "acme"; plan := "pilot"; tenant_is_active := true |}.
Definition db0 : CockpitDB :=
  {| operators := {["o1" := ann]}; operator_sessions := ∅; recovery_codes := ∅;
     grants := [{| gr_operator_id := "o1"; gr_tenant_id := "t1"; permission := "write" |}];
     cockpit_tenants := {["t1" := acme]}; cockpit_audit := [] |}.

Definition draw (n : Z) (a r : string) : pair_draw :=
  {| t_access := seconds n; t_refresh := seconds n; jti_access := a; jti_refresh := r |}.
Definition at_login (n : Z) (a r : string) : login_draw :=
  {| t_check := seconds n; t_fail := seconds n; t_lock := seconds n;
     auth := {| t_totp := seconds n; t_used := seconds n; t_login := seconds n; pair := draw n a r |} |}.
Definition form (password : string) (code : option string) : OperatorLoginRequest :=
  {| rq_email := "Ann@once.dev"; rq_password := password; totp_code := code |}.

Definition try_login (n : Z) (password : string) (code : option string) : result web_error OperatorTokenPair * (session CockpitDB * InMemoryStore) :=
  login_request cfg sha totp default_tracker_config (at_login n "a0" "r0") ri (form password code) (Session db0 db0, empty_store).

Definition error_of (r : result web_error OperatorTokenPair) : option web_error := match r with Ok _ => None | Raise e => Some e end.

Example login_branches :
  map (fun x => error_of (try_login 5 x.1 x.2).1)
    [("pw", Some "123456"); ("no", Some "123456"); ("pw", None); ("pw", Some "999999"); ("", None)] =
  [None; Some (HTTPException 401 "invalid_credentials"); Some (HTTPException 403 "mfa_required");
   Some (HTTPException 403 "invalid_mfa"); Some (HTTPException 401 "invalid_credentials")].
Proof. vm_compute. reflexivity. Qed.

(** The audit row of a refused login is rolled back with its request. *)
Example refused_login_not_audited :
  cockpit_audit (committed (try_login 5 "no" None).2.1) = [] /\
  length (cockpit_audit (committed (try_login 5 "pw" (Some "123456")).2.1)) = 1%nat.
Proof. vm_compute. done. Qed.

Lemma operator_login_outcome_witness :
  recovery_codes (committed (try_login 5 "pw" (Some "123456")).2.1) = ∅ /\
  (try_login 5 "no" None).2.1 = Session db0 db0.
Proof.
  split.
  - destruct (try_login 5 "pw" (Some "123456")) as [r st'] eqn:Hr.
    pose proof (operator_login_outcome cfg sha totp default_tracker_config (at_login 5 "a0" "r0") ri (form "pw" (Some "123456"))
      db0 empty_store r st' Hr) as H.
    assert (Hok : exists p, r = Ok p) by (exists (match r with Ok p => p | Raise _ => Build_OperatorTokenPair "" "" 0 end);
      apply (f_equal fst) in Hr; vm_compute in Hr; by subst r).
    destruct Hok as [p ->]. destruct H as (o & db1 & secret & _ & _ & _ & _ & Hmfa & _ & _ & _ & _ & Hrc & _).
    cbn [fst snd]. rewrite Hrc. destruct (mfa_required o); [|by subst db1].
    destruct Hmfa as (sec & code & _ & _ & _ & _ & [[_ ->]|(rc & _ & Hrc' & _)]); [reflexivity|].
    cbn in Hrc'. rewrite lookup_empty in Hrc'. discriminate.
  - destruct (try_login 5 "no" None) as [r st'] eqn:Hr.
    pose proof (operator_login_outcome cfg sha totp default_tracker_config (at_login 5 "a0" "r0") ri (form "no" None)
      db0 empty_store r st' Hr) as H.
    assert (Hno : r = Raise (HTTPException 401 "invalid_credentials")) by (apply (f_equal fst) in Hr; vm_compute in Hr; by subst r).
    subst r. exact (proj1 H).
Defined.
End DemoCockpit.
