(* ===== verification/OperatorMfa.v ===== *)
(** * Enrolment of the second factor, and the life of operator sessions

    api/cockpit/mfa.py: enrolment, confirmation, recovery codes.  With the
    endpoints of OperatorAuth.v these are the steps of the cockpit, and what holds
    after any number of them is proved here. *)

From Stdlib Require Import Ascii.
From S2P Require Import Prelude PyStr Json PyTime Lockout Accounts Operators OperatorAuth.

(** [operator.mfa_required = r; operator.mfa_secret = s] *)
Definition set_mfa (r : bool) (secret : option string) (o : Operator) : Operator :=
  {| op_id := op_id o; op_email := op_email o; op_hashed_password := op_hashed_password o; op_role := op_role o;
     op_status := op_status o; mfa_required := r; mfa_secret := secret; op_last_login_at := op_last_login_at o |}.

(** schemas/operator.py, [MfaConfirmRequest]: the code after the schema. *)
Definition MfaConfirmRequest (code : string) : option string := bounded_str 6 8 code.
(** schemas/operator.py, [MfaDisableRequest]: the code after the schema. *)
Definition MfaDisableRequest (code : string) : option string := bounded_str 6 16 code.

(** schemas/operator.py, [MfaEnrollResponse], without the drawing. *)
Record MfaEnrollResponse : Type := { enr_secret : string; enr_provisioning_uri : string }.
(** schemas/operator.py, [MfaStatusResponse]. *)
Record MfaStatusResponse : Type := { st_mfa_required : bool; st_enrolled : bool; st_unused_recovery_count : Z }.

Definition is_truthy (o : option string) : bool := match o with Some s => truthy s | None => false end.

(** [delete(OperatorRecoveryCode).where(operator_id == oid)] *)
Definition delete_codes_of (oid : string) (t : gmap string OperatorRecoveryCode) : gmap string OperatorRecoveryCode :=
  filter (fun kv => rc_operator_id kv.2 <> oid) t.

Section Endpoints.
Context `{!TokenLibrary}.
Context (cfg : cockpit_settings).
Context (sha256_hex : string -> string).
Context (totp_verify : Z -> string -> string -> Z -> option bool).
Context (repr_other : json -> string).

(** api/cockpit/mfa.py, [_verify_totp_or_recovery]. *)
Definition _verify_totp_or_recovery (t_totp t_used : Z) (operator_id secret submitted : string) : OM bool :=
  if verify_code totp_verify t_totp secret submitted then ret true
  else
    let* code_hash := or_raise (hash_recovery_code sha256_hex submitted) (PyException "ValueError") in
    let* row := query (fun db => match recovery_codes db !! code_hash with
                                 | Some rc => if String.eqb (rc_operator_id rc) operator_id then Some rc else None
                                 | None => None
                                 end) in
    match row with
    | Some rc =>
        if is_someb (used_at rc) then ret false
        else write (with_codes (fun t => <[code_hash := spend t_used rc]> t)) ;;; ret true
    | None => ret false
    end.

Definition mfa_audit (o : Operator) (action : string) (ri : request_info) : OM unit :=
  write_audit (audit_row (Some (op_id o)) None action "operator" (Some (op_id o)) ri (Some 200) None).

(** api/cockpit/mfa.py, [enroll]; the twenty bytes are drawn by [secrets]. *)
Definition enroll (t_auth : Z) (bearer : option string) (token_bytes : list Z) (ri : request_info) : OM MfaEnrollResponse :=
  let* o := get_current_operator cfg repr_other t_auth bearer in
  raise_if (is_truthy (mfa_secret o)) (HTTPException 409 "mfa_already_enrolled") ;;;
  let secret := generate_secret token_bytes in
  write (with_operators (fun t => <[op_id o := set_mfa (mfa_required o) (Some secret) o]> t)) ;;;
  let* uri := or_raise (provisioning_uri secret (op_email o) "Once Cockpit") (PyException "ValueError") in
  mfa_audit o "cockpit.mfa.enroll_started" ri ;;;
  ret {| enr_secret := secret; enr_provisioning_uri := uri |}.

(** api/cockpit/mfa.py:154-168, [confirm]: the operator's codes are replaced; the
    flush refuses a code whose hash is in the table.  [fuel] bounds the draws
    ([Operators.generate_recovery_codes_total]: ten different draws are enough). *)
Definition replace_codes (o : Operator) (randbelow : nat -> nat) (fuel : nat) : OM (list string) :=
  write (with_codes (delete_codes_of (op_id o))) ;;;
  let* plain := or_raise (generate_recovery_codes randbelow fuel RECOVERY_CODE_COUNT) (PyException "out of fuel") in
  let hashes := map (fun code => sha256_hex (normalized_code code)) plain in
  let* taken := query (fun db => existsb (fun h => is_someb (recovery_codes db !! h)) hashes) in
  raise_if (taken || negb (bool_decide (NoDup hashes))) (PyException "IntegrityError") ;;;
  write (with_codes (fun t => foldr (fun h t => <[h := {| rc_operator_id := op_id o; used_at := None |}]> t) t hashes)) ;;;
  ret plain.

(** api/cockpit/mfa.py, [confirm]. *)
Definition confirm (t_auth t_totp : Z) (bearer : option string) (randbelow : nat -> nat) (fuel : nat)
    (ri : request_info) (code : string) : OM (list string) :=
  let* o := get_current_operator cfg repr_other t_auth bearer in
  raise_if (negb (is_truthy (mfa_secret o))) (HTTPException 400 "mfa_not_started") ;;;
  raise_if (negb (verify_code totp_verify t_totp (default "" (mfa_secret o)) code)) (HTTPException 400 "invalid_mfa") ;;;
  write (with_operators (fun t => <[op_id o := set_mfa true (mfa_secret o) o]> t)) ;;;
  let* plain := replace_codes o randbelow fuel in
  mfa_audit o "cockpit.mfa.enrolled" ri ;;;
  ret plain.

(** api/cockpit/mfa.py, [disable]. *)
Definition disable (t_auth t_totp t_used : Z) (bearer : option string) (ri : request_info) (code : string) : OM unit :=
  let* o := get_current_operator cfg repr_other t_auth bearer in
  raise_if (negb (is_truthy (mfa_secret o))) (HTTPException 400 "mfa_not_enrolled") ;;;
  let* ok := _verify_totp_or_recovery t_totp t_used (op_id o) (default "" (mfa_secret o)) code in
  raise_if (negb ok) (HTTPException 400 "invalid_mfa") ;;;
  write (with_operators (fun t => <[op_id o := set_mfa false None o]> t)) ;;;
  write (with_codes (delete_codes_of (op_id o))) ;;;
  mfa_audit o "cockpit.mfa.disabled" ri.

(** api/cockpit/mfa.py, [regenerate_recovery_codes]. *)
Definition regenerate_recovery_codes (t_auth t_totp : Z) (bearer : option string) (randbelow : nat -> nat) (fuel : nat)
    (ri : request_info) (code : string) : OM (list string) :=
  let* o := get_current_operator cfg repr_other t_auth bearer in
  raise_if (negb (is_truthy (mfa_secret o))) (HTTPException 400 "mfa_not_enrolled") ;;;
  raise_if (negb (verify_code totp_verify t_totp (default "" (mfa_secret o)) code)) (HTTPException 400 "invalid_mfa") ;;;
  let* plain := replace_codes o randbelow fuel in
  mfa_audit o "cockpit.mfa.recovery_regenerated" ri ;;;
  ret plain.

(** api/cockpit/mfa.py, [mfa_status]. *)
Definition mfa_status (t_auth : Z) (bearer : option string) : OM MfaStatusResponse :=
  let* o := get_current_operator cfg repr_other t_auth bearer in
  let* unused := query (fun db => Z.of_nat (size (filter
      (fun kv : string * OperatorRecoveryCode => rc_operator_id kv.2 = op_id o /\ used_at kv.2 = None) (recovery_codes db)))) in
  ret {| st_mfa_required := mfa_required o; st_enrolled := is_someb (mfa_secret o); st_unused_recovery_count := unused |}.
End Endpoints.

(** ** The steps of the cockpit *)

Section Steps.
Context `{!TokenLibrary}.
Context (cfg : cockpit_settings).
Context (sha256_hex : string -> string).
Context (totp_verify : Z -> string -> string -> Z -> option bool).
Context (repr_other : json -> string).
Context {S : Type} `{!LockoutStore S}.
Context (lockout_cfg : tracker_config).

Definition opened (db : CockpitDB) : session CockpitDB := Session db db.
Definition after {A} (m : OM A) (db : CockpitDB) : CockpitDB := committed (snd (in_request m (opened db))).

(** One request to the cockpit, by whoever and at whatever time, or a change of
    operators, grants, tenants and audit rows by anything else. *)
Inductive cockpit_step : CockpitDB -> CockpitDB -> Prop :=
| step_login db d ri payload (l : S) r st' :
    login_request cfg sha256_hex totp_verify lockout_cfg d ri payload (opened db, l) = (r, st') ->
    cockpit_step db (committed st'.1)
| step_refresh db now t1 t2 d ri token :
    cockpit_step db (after (refresh cfg sha256_hex repr_other now t1 t2 d ri token) db)
| step_logout db t1 t2 bearer ri token :
    cockpit_step db (after (logout cfg sha256_hex repr_other t1 t2 bearer ri token) db)
| step_enroll db t bearer bytes ri :
    cockpit_step db (after (enroll cfg repr_other t bearer bytes ri) db)
| step_confirm db t1 t2 bearer rb fuel ri code :
    cockpit_step db (after (confirm cfg sha256_hex totp_verify repr_other t1 t2 bearer rb fuel ri code) db)
| step_disable db t1 t2 t3 bearer ri code :
    cockpit_step db (after (disable cfg sha256_hex totp_verify repr_other t1 t2 t3 bearer ri code) db)
| step_regenerate db t1 t2 bearer rb fuel ri code :
    cockpit_step db (after (regenerate_recovery_codes cfg sha256_hex totp_verify repr_other t1 t2 bearer rb fuel ri code) db)
| step_other db db' :
    operator_sessions db' = operator_sessions db -> recovery_codes db' = recovery_codes db -> cockpit_step db db'.

(** A property of the two tables the steps write that each write keeps. *)
Class Kept (P : CockpitDB -> Prop) : Prop := {
  kept_other db db' :
    operator_sessions db' = operator_sessions db -> recovery_codes db' = recovery_codes db -> P db -> P db';
  kept_new db h row :
    operator_sessions db !! h = None -> P db -> P (with_sessions (fun t => <[h := row]> t) db);
  kept_revoke db h row now :
    operator_sessions db !! h = Some row -> P db -> P (with_sessions (fun t => <[h := revoke now row]> t) db);
  kept_spend db h row now :
    recovery_codes db !! h = Some row -> P db -> P (with_codes (fun t => <[h := spend now row]> t) db);
  kept_delete db oid : P db -> P (with_codes (delete_codes_of oid) db);
  kept_codes db oid rb k :
    P db -> P (with_codes (fun t => <[sha256_hex (normalized_code (draw_code rb k)) :=
                                        {| rc_operator_id := oid; used_at := None |}]> t) db);
}.

Section KeptSteps.
Context (P : CockpitDB -> Prop) `{!Kept P}.

Lemma kept_write_other f :
  (forall db, operator_sessions (f db) = operator_sessions db /\ recovery_codes (f db) = recovery_codes db) ->
  preserves (both P) (write (E := web_error) f).
Proof. intros Hf. apply preserves_write. intros db. by apply kept_other; apply Hf. Qed.

Lemma kept_issue d o ip ua : preserves (both P) (issue_token_pair cfg sha256_hex d o ip ua).
Proof.
  intros s [Hw Hc]. destruct (issue_token_pair _ _ _ _ _ _ s) as [[[[a r] e]|e] s'] eqn:Hi.
  - apply issue_token_pair_Ok in Hi as (? & _ & _ & -> & _ & Hnew & ->). split; [by apply kept_new|done].
  - apply issue_token_pair_Raise in Hi as [-> _]. by split.
Qed.

Lemma kept_audit row : preserves (both P) (write_audit (E := web_error) row).
Proof. by apply kept_write_other. Qed.

Lemma kept_current now bearer : preserves (both P) (get_current_operator cfg repr_other now bearer).
Proof. apply preserves_readonly, readonly_get_current_operator. Qed.

Hint Resolve kept_audit kept_current kept_issue : preserve.

Lemma kept_use_recovery now o submitted : preserves (both P) (use_recovery_code sha256_hex now o submitted).
Proof.
  intros s [Hw Hc]. destruct (use_recovery_code _ _ _ _ s) as [[[]|e] s'] eqn:Hu.
  - apply use_recovery_code_Ok in Hu as (rc & _ & Hrc & _ & _ & ->). split; [by apply kept_spend|done].
  - apply use_recovery_code_Raise in Hu as [-> _]. by split.
Qed.

Lemma kept_authenticate d mail password ip ua totp :
  preserves (both P) (authenticate_operator cfg sha256_hex totp_verify d mail password ip ua totp).
Proof.
  unfold authenticate_operator. apply preserves_bind; [auto with preserve|]. intros [o|]; [|auto with preserve].
  do 2 (apply preserves_bind; [auto with preserve|intros _]). apply preserves_bind.
  - destruct (mfa_required o); [|auto with preserve]. unfold second_factor. destruct totp; [|auto with preserve].
    do 3 (apply preserves_bind; [auto with preserve|intros]). destruct (verify_code _ _ _ _); [auto with preserve|].
    apply kept_use_recovery.
  - intros _. apply preserves_bind; [by apply kept_write_other|intros _].
    apply preserves_bind; [auto with preserve|]. intros [[a r] e]. auto with preserve.
Qed.

Lemma kept_refresh now t1 t2 d ri token : preserves (both P) (refresh cfg sha256_hex repr_other now t1 t2 d ri token).
Proof.
  unfold refresh. apply preserves_bind; [|intros [[[o a] r] e]; auto with preserve].
  unfold refresh_operator_session. apply preserves_bind; [apply preserves_readonly, readonly_decode|intros p].
  intros s Hs. unfold bind at 1, query, reads. destruct (operator_sessions (working s) !! _) as [sess|] eqn:Hrow; [|done].
  unfold raise_if at 1. destruct (revoked_at sess); [done|]. unfold bind at 1, ret at 1. cbn [is_someb].
  unfold raise_if at 1. destruct (_ <=? _); [done|]. unfold bind at 1, ret at 1. unfold bind at 1.
  destruct (operators (working s) !! _) as [o|]; [|done]. unfold raise_if. destruct (negb _); [done|].
  unfold bind at 1, ret at 1. unfold bind at 1, write, modify.
  match goal with |- both P (snd (?m ?s0)) => cut (preserves (both P) m) end.
  - intros Hm. apply Hm. destruct Hs as [Hw Hc]. split; [by apply kept_revoke|done].
  - apply preserves_bind; [auto with preserve|]. intros [[a r] e]. auto with preserve.
Qed.

Lemma kept_logout t1 t2 bearer ri token : preserves (both P) (logout cfg sha256_hex repr_other t1 t2 bearer ri token).
Proof.
  unfold logout. apply preserves_bind; [auto with preserve|intros o]. apply preserves_bind; [|auto with preserve].
  intros s Hs. unfold revoke_session, bind, query, reads. cbn.
  destruct (operator_sessions (working s) !! _) as [sess|] eqn:Hrow; [|done]. destruct (is_someb _); [done|].
  destruct Hs as [Hw Hc]. split; [by apply kept_revoke|done].
Qed.

Lemma kept_enroll t bearer bytes ri : preserves (both P) (enroll cfg repr_other t bearer bytes ri).
Proof.
  unfold enroll, mfa_audit. do 2 (apply preserves_bind; [auto with preserve|intros]).
  apply preserves_bind; [by apply kept_write_other|auto 8 with preserve].
Qed.

Lemma kept_insert_codes oid l db :
  (forall c, In c l -> exists rb k, c = draw_code rb k) -> P db ->
  P (with_codes (fun t => foldr (fun h t => <[h := {| rc_operator_id := oid; used_at := None |}]> t) t
                            (map (fun code => sha256_hex (normalized_code code)) l)) db).
Proof.
  intros Hl Hdb. induction l as [|c l IH]; cbn [map foldr].
  - eapply kept_other; [| |exact Hdb]; done.
  - destruct (Hl c) as (rb & k & ->); [by left|].
    assert (H1 := kept_codes _ oid rb k (IH (fun c Hc => Hl c (or_intror Hc)))).
    by eapply kept_other; [| |exact H1].
Qed.

Lemma kept_replace o rb fuel : preserves (both P) (replace_codes sha256_hex o rb fuel).
Proof.
  unfold replace_codes. apply preserves_bind; [apply preserves_write; intros db; apply kept_delete|intros _].
  intros s Hs. unfold bind at 1, or_raise.
  destruct (generate_recovery_codes rb fuel _) as [plain|] eqn:Hg; [|done]. cbn [ret].
  apply generate_recovery_codes_spec in Hg as (_ & _ & Hin). unfold bind at 1, query, reads, raise_if.
  destruct (_ || _); [done|]. unfold bind, ret, write, modify. destruct Hs as [Hw Hc]. split; [|done].
  apply (kept_insert_codes (op_id o) plain); [|done]. intros c Hc'. destruct (Hin c Hc') as [i ->]. by eexists _, _.
Qed.
Hint Resolve kept_replace : preserve.

Lemma kept_confirm t1 t2 bearer rb fuel ri code :
  preserves (both P) (confirm cfg sha256_hex totp_verify repr_other t1 t2 bearer rb fuel ri code).
Proof.
  unfold confirm, mfa_audit. do 3 (apply preserves_bind; [auto with preserve|intros]).
  apply preserves_bind; [by apply kept_write_other|intros]. auto with preserve.
Qed.

Lemma kept_regenerate t1 t2 bearer rb fuel ri code :
  preserves (both P) (regenerate_recovery_codes cfg sha256_hex totp_verify repr_other t1 t2 bearer rb fuel ri code).
Proof. unfold regenerate_recovery_codes, mfa_audit. auto 8 with preserve. Qed.

Lemma kept_disable t1 t2 t3 bearer ri code :
  preserves (both P) (disable cfg sha256_hex totp_verify repr_other t1 t2 t3 bearer ri code).
Proof.
  unfold disable, mfa_audit. do 2 (apply preserves_bind; [auto with preserve|intros]). apply preserves_bind.
  - unfold _verify_totp_or_recovery. destruct (verify_code _ _ _ _); [auto with preserve|].
    apply preserves_bind; [auto with preserve|intros h]. intros s Hs. unfold bind at 1, query, reads.
    destruct (recovery_codes (working s) !! h) as [rc|] eqn:Hrc; [|done]. destruct (String.eqb _ _); [|done].
    destruct (is_someb (used_at rc)); [done|]. destruct Hs as [Hw Hc]. split; [by apply kept_spend|done].
  - intros ok. apply preserves_bind; [auto with preserve|intros]. apply preserves_bind; [by apply kept_write_other|intros].
    apply preserves_bind; [apply preserves_write; intros db; apply kept_delete|auto with preserve].
Qed.

Lemma kept_after {A} (m : OM A) db : preserves (both P) m -> P db -> P (after m db).
Proof. intros Hm Hdb. apply (preserves_in_request P m Hm (opened db)). by split. Qed.

Lemma kept_on_session {A} (m : OM A) :
  preserves (both P) m -> preserves (fun st : CockpitState (S := S) => both P st.1) (on_session m).
Proof. intros Hm [s l] Hs. unfold on_session. specialize (Hm s Hs). cbn. by destruct (m s) as [r s']. Qed.

Lemma kept_on_tracker {A} (f : S -> A * S) : preserves (fun st : CockpitState (S := S) => both P st.1) (on_tracker f).
Proof. intros [s l] Hs. unfold on_tracker. cbn. by destruct (f l). Qed.

Lemma kept_login d ri payload :
  preserves (fun st : CockpitState (S := S) => both P st.1) (login cfg sha256_hex totp_verify lockout_cfg d ri payload).
Proof.
  unfold login. apply preserves_bind; [apply kept_on_tracker|intros v]. apply preserves_bind; [auto with preserve|intros _].
  apply preserves_bind; [apply preserves_try_except|].
  - apply kept_on_session, kept_authenticate.
  - unfold login_denied. intros [status code|w]; [|auto with preserve]. apply preserves_bind.
    + destruct (existsb _ _); [|auto with preserve]. apply preserves_bind; [apply kept_on_tracker|auto with preserve].
    + intros _. apply preserves_bind; [apply kept_on_session, kept_audit|auto with preserve].
  - intros [[[o a] r] e]. apply preserves_bind; [apply kept_on_tracker|intros _].
    apply preserves_bind; [apply kept_on_session, kept_audit|auto with preserve].
Qed.

Lemma kept_step db db' : cockpit_step db db' -> P db -> P db'.
Proof.
  intros [d0 d ri payload l r st' Hl| | | | | | |] Hdb;
    [|apply kept_after; auto using kept_refresh, kept_logout, kept_enroll, kept_confirm, kept_disable, kept_regenerate..|by eapply kept_other].
  pose proof (kept_login d ri payload (opened d0, l) (conj Hdb Hdb)) as [Hw Hc]. unfold login_request in Hl.
  destruct (login _ _ _ _ _ _ _ _) as [[a|e] [s1 l1]]; injection Hl as <- <-; done.
Qed.

Lemma kept_star db db' : star cockpit_step db db' -> P db -> P db'.
Proof. intros Hp. by apply (star_invariant cockpit_step P kept_step). Qed.
End KeptSteps.

(** ** Revoked sessions and issued codes *)

(** The session of a token is revoked. *)
Definition revoked_session (h : string) (db : CockpitDB) : Prop :=
  exists row, operator_sessions db !! h = Some row /\ is_Some (revoked_at row).

#[export] Instance revoked_session_kept h : Kept (revoked_session h).
Proof.
  split.
  - intros db db' Hs _. unfold revoked_session. by rewrite Hs.
  - intros db h' row Hnone (r & Hr & Hrv). exists r. split; [|done]. cbn. rewrite lookup_insert_ne; [done|congruence].
  - intros db h' row now Hrow (r & Hr & Hrv). unfold revoked_session. cbn. destruct (decide (h' = h)) as [->|].
    + rewrite lookup_insert_eq. by eexists.
    + rewrite lookup_insert_ne by done. by exists r.
  - intros db h' row now _ Hp. exact Hp.
  - intros db oid Hp. exact Hp.
  - intros db oid rb k Hp. exact Hp.
Qed.

(** Every recovery code comes from the generator. *)
Definition codes_issued (db : CockpitDB) : Prop :=
  forall h row, recovery_codes db !! h = Some row -> exists rb k, h = sha256_hex (normalized_code (draw_code rb k)).

#[export] Instance codes_issued_kept : Kept codes_issued.
Proof.
  split; unfold codes_issued.
  - intros db db' _ -> Hp. exact Hp.
  - intros db h row _ Hp. exact Hp.
  - intros db h row now _ Hp. exact Hp.
  - intros db h row now Hrow Hp h' row'. cbn. intros [[<- _]|[_ Hr]]%lookup_insert_Some; [by eapply Hp|by eapply Hp].
  - intros db oid Hp h row. cbn. intros [Hr _]%map_lookup_filter_Some. by eapply Hp.
  - intros db oid rb k Hp h row. cbn. intros [[<- _]|[_ Hr]]%lookup_insert_Some; [by eexists _, _|by eapply Hp].
Qed.

(** Refresh tokens of operators are exchanged once.  After a refresh that
    succeeded - the token, its row and its operator were valid, and a new pair
    was issued under another row - whatever requests the cockpit serves next
    (logins, refreshes, logouts, changes of the second factor), the old token is
    refused at every later time and the refused request changes nothing. *)
Theorem rotated_refresh_token_refused db now t1 t2 d ri token pair db' :
  in_request (refresh cfg sha256_hex repr_other now t1 t2 d ri token) (opened db) = (Ok pair, opened db') ->
  sha256_hex (refresh_token pair) <> sha256_hex token /\
  is_Some (operator_sessions db' !! sha256_hex (refresh_token pair)) /\
  forall db'' now' t1' t2' d' ri', star cockpit_step db' db'' ->
    exists e, in_request (refresh cfg sha256_hex repr_other now' t1' t2' d' ri' token) (opened db'') = (Raise e, opened db'').
Proof.
  intros Hrun. assert (Hrev : revoked_session (sha256_hex token) db' /\ sha256_hex (refresh_token pair) <> sha256_hex token /\
    is_Some (operator_sessions db' !! sha256_hex (refresh_token pair))).
  { unfold in_request in Hrun. destruct (refresh _ _ _ _ _ _ _ _ _ _) as [[p|e] s1] eqn:Hr; [|done].
    unfold refresh in Hr. inv_run Hr. destruct a as [[[o a] rt] ex]. inv_run Hr.
    apply refresh_operator_session_Ok in Hrun0 as (p0 & sess & _ & Hrow & _ & _ & _ & _ & Hiss).
    apply issue_token_pair_Ok in Hiss as (secret & _ & _ & -> & _ & Hnew & ->). cbn in *.
    injection Hrun as <- <-. cbn. unfold revoked_session. cbn.
    apply lookup_insert_None in Hnew as [Hnone Hne]. split_and!; [|congruence|by rewrite lookup_insert_eq].
    rewrite lookup_insert_ne, lookup_insert_eq by congruence. by eexists. }
  destruct Hrev as (Hrev & Hne & Hnew). split_and!; [done|done|]. intros db'' now' t1' t2' d' ri' Hst.
  apply (kept_star (revoked_session (sha256_hex token))) in Hst as (row & Hrow & Hat); [|done].
  destruct (revoked_refresh_refused cfg sha256_hex repr_other now' t1' t2' d' ri' token (opened db'') row Hrow Hat) as [e He].
  exists e. unfold in_request. by rewrite He.
Qed.

(** Recovery codes cannot be used to log in.  The login form accepts a second
    factor of at most eight characters, and recovery codes have ten: starting
    from an empty table of codes, after any requests, a login of an operator with
    a required second factor that succeeds had a one-time password of the
    authenticator - unless SHA-256 of two different strings is equal. *)
Theorem recovery_codes_never_log_in valid_email db0 db d ri mail password totp payload (l : S) tokens st' o :
  recovery_codes db0 = ∅ -> star cockpit_step db0 db ->
  parse_login valid_email mail password totp = Some payload ->
  login_request cfg sha256_hex totp_verify lockout_cfg d ri payload (opened db, l) = (Ok tokens, st') ->
  operator_by_email (lower (strip (rq_email payload))) db = Some o -> mfa_required o = true ->
  (exists secret code, mfa_secret o = Some secret /\ totp_code payload = Some code /\
     verify_code totp_verify (t_totp (auth d)) secret (strip code) = true) \/
  (exists a b, a <> b /\ sha256_hex a = sha256_hex b).
Proof.
  intros H0 Hst Hparse Hlog Ho Hreq. apply (kept_star codes_issued) in Hst; [|intros h row; by rewrite H0].
  apply login_request_Ok in Hlog as (o' & a & r & e & s1 & Hauth).
  apply authenticate_operator_Ok in Hauth as (o1 & db1 & Ho1 & _ & _ & Hmfa & _). cbn in Ho1. rewrite Ho in Ho1.
  injection Ho1 as <-. rewrite Hreq in Hmfa.
  destruct Hmfa as (secret & code & Hsec & _ & Hcode & _ & [[Hv _]|(rc & _ & Hrc & _)]); [left; by exists secret, code|].
  right. destruct (Hst _ _ Hrc) as (rb & k & Hh). exists (normalized_code (strip code)), (normalized_code (draw_code rb k)).
  split; [|done]. rewrite (normalized_code_id (draw_code rb k)) by apply sall_draw_code. intros Heq.
  pose proof (length_normalized_code (strip code)) as Hlen. rewrite Heq, length_draw_code in Hlen.
  unfold parse_login in Hparse. destruct (valid_email _); [|done]. destruct (bounded_str 1 _ _); [|done].
  destruct totp as [t|]; [|by simplify_eq]. destruct (bounded_str 6 8 t) as [c|] eqn:Hb; [|done]. simplify_eq/=.
  unfold bounded_str in Hb. destruct (_ && _) eqn:Hl; [|done]. apply andb_true_iff in Hl as [_ Hl%Z.leb_le].
  injection Hb as <-. unfold slen, RECOVERY_CODE_LENGTH, strip, strip_by in *.
  pose proof (length_rstrip_by is_space (lstrip_by is_space (strip_by is_space t))) as H1.
  pose proof (length_lstrip_le is_space (strip_by is_space t)) as H2. unfold strip_by in *. lia.
Qed.
End Steps.

(** ** A concrete life *)

Module DemoMfa.
Import DemoCockpit.

(** Ann logs in at second 5, and refreshes at second 9. *)
Definition logged_in : result web_error OperatorTokenPair * (session CockpitDB * InMemoryStore) := try_login 5 "pw" (Some "123456").
Definition db1 : CockpitDB := committed logged_in.2.1.
Definition token1 : string := match logged_in.1 with Ok p => refresh_token p | Raise _ => "" end.
Definition refreshed : result web_error OperatorTokenPair * session CockpitDB :=
  in_request (refresh cfg sha repr (seconds 9) (seconds 9) (seconds 9) (draw 9 "a1" "r1") ri token1) (opened db1).

Lemma rotated_refresh_token_refused_witness :
  exists p db', refreshed = (Ok p, opened db') /\
  exists e, in_request (refresh cfg sha repr (seconds 10) (seconds 10) (seconds 10) (draw 10 "a2" "r2") ri token1) (opened db') =
    (Raise e, opened db').
Proof.
  assert (Hok : exists p, fst refreshed = Ok p) by (exists (match fst refreshed with Ok p => p | Raise _ => Build_OperatorTokenPair "" "" 0 end);
    vm_compute; reflexivity).
  destruct Hok as [p Hp]. exists p, (committed refreshed.2).
  assert (Hr : refreshed = (Ok p, opened (committed refreshed.2))).
  { unfold refreshed, in_request in *. destruct (refresh _ _ _ _ _ _ _ _ _ _) as [[a|e] s]; [|discriminate Hp]. simplify_eq/=. reflexivity. }
  split; [exact Hr|].
  exact (proj2 (proj2 (rotated_refresh_token_refused cfg sha totp repr default_tracker_config db1 (seconds 9) (seconds 9) (seconds 9)
    (draw 9 "a1" "r1") ri token1 p (committed refreshed.2) Hr)) _ _ _ _ _ _ (star_refl _ _)).
Defined.

Definition login_body : OperatorLoginRequest := form "pw" (Some "123456").

Lemma recovery_codes_never_log_in_witness :
  (exists secret code, mfa_secret ann = Some secret /\ totp_code login_body = Some code /\
     verify_code totp (seconds 5) secret (strip code) = true) \/ (exists a b, a <> b /\ sha a = sha b).
Proof.
  assert (Hok : exists p, fst logged_in = Ok p) by (exists (match fst logged_in with Ok p => p | Raise _ => Build_OperatorTokenPair "" "" 0 end);
    vm_compute; reflexivity).
  destruct Hok as [p Hp].
  assert (Hr : logged_in = (Ok p, logged_in.2)) by (rewrite <- Hp; by destruct logged_in).
  exact (recovery_codes_never_log_in cfg sha totp repr default_tracker_config Some db0 db0 (at_login 5 "a0" "r0") ri
    "Ann@once.dev" "pw" (Some " 123456 ") login_body empty_store p logged_in.2 ann eq_refl (star_refl _ _) eq_refl Hr eq_refl eq_refl).
Defined.

(** A half-finished enrolment: the secret is stored before it is confirmed, so a
    second enrolment is refused, and without a valid one-time password nothing
    else gets out of it. *)
Definition bob : Operator := set_mfa false None ann.
Definition bob_db : CockpitDB := with_operators (fun _ => {["o1" := bob]}) db0.
Definition bearer (o : Operator) : option string := Some (access_of (draw 5 "a0" "r0") o "s3cret").
Definition enrolled : result web_error MfaEnrollResponse * session CockpitDB :=
  in_request (enroll cfg repr (seconds 6) (bearer bob) (repeat 7 20) ri) (opened bob_db).
Definition no_totp (now : Z) (secret code : string) (window : Z) : option bool := Some false.

Example half_enrolled_is_stuck :
  (match enrolled.1 with Ok r => enr_secret r | Raise _ => "" end,
   fst (in_request (enroll cfg repr (seconds 7) (bearer bob) (repeat 8 20) ri) (opened (committed enrolled.2))),
   fst (in_request (disable cfg sha no_totp repr (seconds 7) (seconds 7) (seconds 7) (bearer bob) ri "111111") (opened (committed enrolled.2))),
   fst (in_request (confirm cfg sha no_totp repr (seconds 7) (seconds 7) (bearer bob) id 10 ri "111111") (opened (committed enrolled.2)))) =
  ("A4DQOBYHA4DQOBYHA4DQOBYHA4DQOBYH", Raise (HTTPException 409 "mfa_already_enrolled"),
   Raise (HTTPException 400 "invalid_mfa"), Raise (HTTPException 400 "invalid_mfa")).
Proof. vm_compute. reflexivity. Qed.

(** Ten different codes, which disabling accepts once: it deletes them. *)
Definition counter (n : nat) : nat := ((n * n + n / 10) mod 32)%nat.
Definition confirmed : result web_error (list string) * session CockpitDB :=
  in_request (confirm cfg sha totp repr (seconds 7) (seconds 7) (bearer bob) counter 40 ri "123456") (opened (committed enrolled.2)).
Definition first_code : string := match confirmed.1 with Ok (c :: _) => c | _ => "" end.

Example recovery_disables_once :
  let run db := in_request (disable cfg sha no_totp repr (seconds 8) (seconds 8) (seconds 8) (bearer bob) ri first_code) (opened db) in
  (match confirmed.1 with Ok l => length l | Raise _ => 0%nat end, fst (run (committed confirmed.2)),
   size (recovery_codes (committed confirmed.2)), size (recovery_codes (committed (snd (run (committed confirmed.2)))))) =
  (10%nat, Ok tt, 10%nat, 0%nat).
Proof. vm_compute. reflexivity. Qed.
End DemoMfa.
