(* ===== verification/OperatorActAs.v ===== *)
(** * Acting as a tenant

    middleware/operator_act_as.py and api/cockpit/tenants.py: which tenants an
    operator sees and may act as, and the middleware that checks the header
    [X-Operator-Acting-Tenant] of every request.  The application behind the
    middleware is a variable with a state of its own. *)

From Stdlib Require Import Ascii.
From S2P Require Import Prelude PyStr Json PyTime Lockout Accounts Idempotency Operators OperatorAuth OperatorMfa.

(** ** The routes of api/cockpit/tenants.py *)

(** schemas/cockpit.py, [TenantSummary]. *)
Record TenantSummary : Type := { ts_tenant : Tenant; supplier_count : Z; submission_count : Z }.
(** schemas/cockpit.py, [ActAsResponse]. *)
Record ActAsResponse : Type := { aa_tenant_id : string; aa_tenant_name : string; aa_permission : string; aa_expires_in : Z }.

(** api/cockpit/tenants.py, [_accessible_tenant_ids]; [None] means all. *)
Definition _accessible_tenant_ids (o : Operator) (db : CockpitDB) : option (list string) :=
  if String.eqb (op_role o) FOUNDER then None
  else Some (map gr_tenant_id (List.filter (fun g => String.eqb (gr_operator_id g) (op_id o)) (grants db))).

(** api/cockpit/tenants.py, [_grant_permission]. *)
Definition _grant_permission (o : Operator) (tenant_id : string) (accessible : option (list string)) : OM string :=
  if String.eqb (op_role o) FOUNDER then ret "write"
  else match accessible with
       | Some l => if existsb (String.eqb tenant_id) l then ret "write" else raise (HTTPException 403 "act_as_forbidden")
       | None => raise (HTTPException 403 "act_as_forbidden")
       end.

Section Tenants.
(** The column [created_at] of the tenants and the rows of the tables
    [suppliers] and [supplier_submissions] with their tenants. *)
Context (tenant_created_at : string -> Z).
Context {Supplier : Type} (suppliers_of : string -> list Supplier) (submissions_of : string -> Z).

(** api/cockpit/tenants.py, [list_tenants]. *)
Definition list_tenants (o : Operator) : OM (list TenantSummary) :=
  let* accessible := query (_accessible_tenant_ids o) in
  let* rows := query (fun db => map snd (map_to_list (cockpit_tenants db))) in
  let chosen := match accessible with
                | None => rows
                | Some l => List.filter (fun t => existsb (String.eqb (tenant_pk t)) l) rows
                end in
  ret (map (fun t => {| ts_tenant := t; supplier_count := Z.of_nat (length (suppliers_of (tenant_pk t)));
                        submission_count := submissions_of (tenant_pk t) |})
           (sort_by (fun t => - tenant_created_at (tenant_pk t)) chosen)).

(** api/cockpit/tenants.py, [get_tenant]; the counts keep their default, zero. *)
Definition get_tenant (o : Operator) (tenant_id : string) : OM TenantSummary :=
  let* accessible := query (_accessible_tenant_ids o) in
  let* _ := _grant_permission o tenant_id accessible in
  let* row := query (fun db => cockpit_tenants db !! tenant_id) in
  let* tenant := or_raise row (HTTPException 404 "tenant_not_found") in
  ret {| ts_tenant := tenant; supplier_count := 0; submission_count := 0 |}.

(** api/cockpit/tenants.py, [switch_act_as]. *)
Definition switch_act_as (o : Operator) (tenant_id : string) : OM ActAsResponse :=
  let* accessible := query (_accessible_tenant_ids o) in
  let* permission := _grant_permission o tenant_id accessible in
  let* row := query (fun db => cockpit_tenants db !! tenant_id) in
  let* tenant := or_raise row (HTTPException 404 "tenant_not_found") in
  raise_if (negb (tenant_is_active tenant)) (HTTPException 403 "tenant_inactive") ;;;
  ret {| aa_tenant_id := tenant_pk tenant; aa_tenant_name := tenant_name tenant; aa_permission := permission;
         aa_expires_in := ACCESS_TTL_MINUTES * 60 |}.

(** api/cockpit/tenants.py, [list_tenant_suppliers]; [header] is the value of
    [X-Operator-Acting-Tenant]. *)
Definition list_tenant_suppliers (o : Operator) (tenant_id : string) (header : option string) : OM (list Supplier) :=
  let* accessible := query (_accessible_tenant_ids o) in
  let* _ := _grant_permission o tenant_id accessible in
  raise_if (is_truthy header && negb (bool_decide (header = Some tenant_id))) (HTTPException 400 "act_as_mismatch") ;;;
  ret (suppliers_of tenant_id).
End Tenants.

(** ** The middleware *)

(** What the middleware reads and sets of a request, beyond [Idempotency.Request]. *)
Record CockpitRequest : Type := {
  base : Request;
  cookie : option string;
  query_string : string;
  request_id : option string;
  client_ip : option string;
  state_operator_id : option string;
  state_operator_role : json;
  state_acting_as : option string;
}.

(** middleware/operator_act_as.py:171-172, [OperatorActAsMiddleware.dispatch]:
    assignments to the state of the request. *)
Definition with_operator (oid : option string) (role : json) (r : CockpitRequest) : CockpitRequest :=
  {| base := base r; cookie := cookie r; query_string := query_string r; request_id := request_id r;
     client_ip := client_ip r; state_operator_id := oid; state_operator_role := role;
     state_acting_as := state_acting_as r |}.
(** middleware/operator_act_as.py:190-192, [OperatorActAsMiddleware.dispatch]. *)
Definition with_acting (t : string) (r : CockpitRequest) : CockpitRequest :=
  {| base := with_state (Some t) (state_user_id (base r)) (base r); cookie := cookie r; query_string := query_string r;
     request_id := request_id r; client_ip := client_ip r; state_operator_id := state_operator_id r;
     state_operator_role := state_operator_role r; state_acting_as := Some t |}.

(** What the middleware answers: the response of the application, or
    [_problem(status, code, ...)]. *)
Inductive CockpitResponse : Type :=
| Passed (r : Response)
| CockpitProblem (status : Z) (code : string).

Definition response_status (r : CockpitResponse) : Z :=
  match r with Passed r => status_code r | CockpitProblem s _ => s end.

(** middleware/operator_act_as.py, [ACT_AS_HEADER]. *)
Definition ACT_AS_HEADER : string := "x-operator-acting-tenant".

(** middleware/operator_act_as.py, [_COCKPIT_BYPASS_AUTH]. *)
Definition _COCKPIT_BYPASS_AUTH : list string :=
  ["/cockpit/auth/login"; "/cockpit/auth/refresh"; "/cockpit/auth/csrf"; "/cockpit/health"].

(** middleware/operator_act_as.py, [_enabled]. *)
Definition _enabled (env : option string) : bool :=
  match env with
  | None => true
  | Some raw => existsb (String.eqb (lower (strip raw))) ["1"; "true"; "yes"; "on"]
  end.

Section Middleware.
Context `{!TokenLibrary}.
Context (cfg : cockpit_settings).
Context (repr_other : json -> string).
(** What the database asks of an audit row besides its foreign keys. *)
Context (accepts : CockpitAudit -> bool).
Context {W : Type} (call_next : CockpitRequest -> M (CockpitDB * W) web_error Response).

(** The tables as committed, and the state of the application. *)
Local Abbreviation CM := (M (CockpitDB * W) web_error).

(** A session of its own that only reads. *)
Definition in_own_session {A} (m : OM A) : CM A := fun st => (fst (m (Session st.1 st.1)), st).

(** middleware/operator_act_as.py, [OperatorActAsMiddleware._validate_act_as]. *)
Definition _validate_act_as (operator_id : option string) (tenant_id : string) : OM unit :=
  let* oid := or_raise operator_id (HTTPException 401 "operator_unauthenticated") in
  let* op := query (fun db => operators db !! oid) in
  let* o := or_raise op (HTTPException 401 "operator_unknown") in
  raise_if (negb (String.eqb (op_status o) ACTIVE)) (HTTPException 403 "operator_suspended") ;;;
  let* row := query (fun db => cockpit_tenants db !! tenant_id) in
  let* tenant := or_raise row (HTTPException 404 "tenant_not_found") in
  raise_if (negb (tenant_is_active tenant)) (HTTPException 403 "tenant_inactive") ;;;
  if String.eqb (op_role o) "founder" then ret tt
  else
    let* grant := query (grant_of (op_id o) tenant_id) in
    raise_if (negb (is_someb grant)) (HTTPException 403 "act_as_forbidden").

(** middleware/operator_act_as.py, [OperatorActAsMiddleware._audit]; the headers
    are listed in an order of the model's choosing. *)
Definition _audit (r : CockpitRequest) (response : CockpitResponse) (operator_id tenant_acted_as : option string)
    (action : string) : CM unit :=
  let info := {| ri_request_id := request_id r; ri_method := method (base r); ri_path := path (base r);
                 ri_ip := client_ip r; ri_user_agent := headers (base r) !! "user-agent" |} in
  let kept := List.filter (fun kv : string * string => negb (String.eqb (lower kv.1) "cookie")) (map_to_list (headers (base r))) in
  let payload := [("query", if truthy (query_string r) then JStr (query_string r) else JNull);
                  ("headers", JObj (map (fun kv => (kv.1, JStr kv.2)) kept))] in
  let row := audit_row operator_id tenant_acted_as action "http_request" None info (Some (response_status response)) (Some payload) in
  modify (fun st => (write_audit_async accepts row st.1, st.2)).

(** middleware/operator_act_as.py:170, [OperatorActAsMiddleware.dispatch]:
    [str(payload.get("sub") or "") or None]. *)
Definition sub_of (p : claims) : option string :=
  let s := if jtruthy (get_key "sub" p) then py_str repr_other (get_key "sub" p) else "" in
  if truthy s then Some s else None.

Definition is_cockpit_path (p : string) : bool := startswith "/cockpit/" p || String.eqb p "/cockpit".
Definition action_of (p : string) : string := if is_cockpit_path p then "cockpit.request" else "cockpit.act_as".

(** middleware/operator_act_as.py:143-155, [OperatorActAsMiddleware.dispatch]:
    a refusal is audited and answered. *)
Definition refuse (r : CockpitRequest) (operator_id tenant_acted_as : option string) (status : Z) (code : string)
    : CM CockpitResponse :=
  let resp := CockpitProblem status code in
  _audit r resp operator_id tenant_acted_as (action_of (path (base r))) ;;; ret resp.

(** middleware/operator_act_as.py:195-206, [OperatorActAsMiddleware.dispatch]. *)
Definition forward (r : CockpitRequest) (act_as operator_id : option string) : CM CockpitResponse :=
  let* response := call_next r in
  (if is_cockpit_path (path (base r)) || is_truthy act_as
   then _audit r (Passed response) operator_id act_as (action_of (path (base r))) else ret tt) ;;;
  ret (Passed response).

(** middleware/operator_act_as.py, [OperatorActAsMiddleware.dispatch]; an
    [OperatorAuthError] is caught, any other exception is not. *)
Definition dispatch (env : option string) (now : Z) (r : CockpitRequest) : CM CockpitResponse :=
  if negb (_enabled env) then let* response := call_next r in ret (Passed response)
  else
    let p := path (base r) in
    let act_as := headers (base r) !! ACT_AS_HEADER in
    if is_truthy act_as || (is_cockpit_path p && negb (existsb (fun b => startswith b p) _COCKPIT_BYPASS_AUTH)) then
      match _extract_token (headers (base r) !! "authorization") (cookie r) with
      | None => refuse r None act_as 401 "operator_unauthenticated"
      | Some token =>
          if negb (truthy token) then refuse r None act_as 401 "operator_unauthenticated"
          else
            try_else (in_own_session (decode_token cfg now token TOKEN_TYPE_ACCESS))
              (fun e => match e with
                        | HTTPException status code => refuse r None act_as status code
                        | PyException _ => raise e
                        end)
              (fun payload =>
                 let oid := sub_of payload in
                 let r := with_operator oid (get_key "role" payload) r in
                 match act_as with
                 | Some t =>
                     if truthy t then
                       try_else (in_own_session (_validate_act_as oid t))
                         (fun e => match e with
                                   | HTTPException status code => refuse r oid act_as status code
                                   | PyException _ => raise e
                                   end)
                         (fun _ => forward (with_acting t r) act_as oid)
                     else forward r act_as oid
                 | None => forward r act_as oid
                 end)
      end
    else forward r act_as None.
End Middleware.

(** ** Lemmas *)

(** The operator may act as the tenant. *)
Definition authorized (o : Operator) (t : string) (db : CockpitDB) : Prop :=
  op_status o = ACTIVE /\ (exists tn, cockpit_tenants db !! t = Some tn /\ tenant_is_active tn = true) /\
  (op_role o = FOUNDER \/ exists g, In g (grants db) /\ gr_operator_id g = op_id o /\ gr_tenant_id g = t).

Lemma grant_of_is_some oid t db :
  is_someb (grant_of oid t db) = true <-> exists g, In g (grants db) /\ gr_operator_id g = oid /\ gr_tenant_id g = t.
Proof.
  destruct (grant_of oid t db) as [g|] eqn:Hg; cbn.
  - split; [intros _; exists g; by apply grant_of_Some|done].
  - split; [done|]. intros (g & Hin & Ho & Ht). unfold grant_of in Hg. rewrite find_first_None in Hg.
    specialize (Hg g Hin). by rewrite Ho, Ht, !String.eqb_refl in Hg.
Qed.

Lemma accessible_spec o t db :
  match _accessible_tenant_ids o db with
  | None => op_role o = FOUNDER
  | Some l => op_role o <> FOUNDER /\
      (existsb (String.eqb t) l = true <-> exists g, In g (grants db) /\ gr_operator_id g = op_id o /\ gr_tenant_id g = t)
  end.
Proof.
  unfold _accessible_tenant_ids. destruct (String.eqb_spec (op_role o) FOUNDER) as [Hf|Hf]; [done|]. split; [done|].
  rewrite existsb_exists. split.
  - intros (x & (g & <- & [Hin Ho%String.eqb_eq]%filter_In)%in_map_iff & ->%String.eqb_eq). by exists g.
  - intros (g & Hin & Ho & Ht). exists t. split; [|apply String.eqb_refl]. apply in_map_iff. exists g. split; [done|].
    apply filter_In. split; [done|by apply String.eqb_eq].
Qed.

Lemma readonly_validate oid t : readonly (_validate_act_as oid t).
Proof.
  unfold _validate_act_as, query. do 6 (apply readonly_bind; [auto with readonly|intros]).
  destruct (String.eqb _ _); auto with readonly.
Qed.

Lemma validate_act_as_Ok oid t s u s' :
  _validate_act_as oid t s = (Ok u, s') <->
  s' = s /\ exists i o, oid = Some i /\ operators (working s) !! i = Some o /\ authorized o t (working s).
Proof.
  split.
  - intros Hrun. split; [by eapply readonly_run; [apply readonly_validate|]|]. unfold _validate_act_as, query in Hrun.
    inv_run Hrun. exists a, a0. split_and!; try done. split; [by apply String.eqb_eq, negb_false_iff|].
    split; [exists a2; split; [done|by apply negb_false_iff]|].
    destruct (String.eqb_spec (op_role a0) "founder") as [Hf|Hf]; [by left|]. right. inv_run Hrun.
    apply raise_if_Ok in Hrun as [Hg _]. by apply grant_of_is_some, negb_false_iff.
  - intros (-> & i & o & -> & Ho & Hst & (tn & Ht & Hact) & Hg). destruct u. unfold _validate_act_as.
    unfold bind, or_raise, query, reads, raise_if. cbn. rewrite Ho. cbn. rewrite Hst. cbn. rewrite Ht. cbn.
    rewrite Hact. cbn. destruct (String.eqb_spec (op_role o) "founder") as [|Hf]; [done|].
    destruct Hg as [|Hg]; [done|]. apply grant_of_is_some in Hg. by rewrite Hg.
Qed.

(** What the check refuses with. *)
Definition act_as_refusal (e : web_error) : Prop :=
  match e with HTTPException status _ => In status [401; 403; 404] | PyException _ => False end.

#[local] Hint Extern 1 (act_as_refusal _) => cbn; tauto : raises.

Lemma raises_validate oid t : raises_only act_as_refusal (_validate_act_as oid t).
Proof.
  unfold _validate_act_as, query. do 6 (apply raises_bind; [solve [auto with raises]|intros]).
  destruct (String.eqb _ _); auto with raises.
Qed.

Lemma grant_permission_Ok o t db p s s' :
  _grant_permission o t (_accessible_tenant_ids o db) s = (Ok p, s') <->
  s' = s /\ p = "write" /\
  (op_role o = FOUNDER \/ exists g, In g (grants db) /\ gr_operator_id g = op_id o /\ gr_tenant_id g = t).
Proof.
  unfold _grant_permission. pose proof (accessible_spec o t db) as H. unfold _accessible_tenant_ids in *.
  destruct (String.eqb_spec (op_role o) FOUNDER) as [Hf|Hf].
  - unfold ret. split; [intros [= <- <-]; auto|by intros (-> & -> & _)].
  - destruct H as [_ H]. destruct (existsb _ _).
    + unfold ret. split; [intros [= <- <-]; split_and!; try done; right; by apply H|by intros (-> & -> & _)].
    + unfold raise. split; [done|]. intros (_ & _ & [?|Hg]); [done|]. by apply H in Hg.
Qed.

Lemma switch_act_as_Ok o t s a s' :
  switch_act_as o t s = (Ok a, s') <->
  s' = s /\ exists tn, cockpit_tenants (working s) !! t = Some tn /\ tenant_is_active tn = true /\
    (op_role o = FOUNDER \/ exists g, In g (grants (working s)) /\ gr_operator_id g = op_id o /\ gr_tenant_id g = t) /\
    a = {| aa_tenant_id := tenant_pk tn; aa_tenant_name := tenant_name tn; aa_permission := "write"; aa_expires_in := 900 |}.
Proof.
  unfold switch_act_as. split.
  - intros Hrun. unfold query in Hrun. inv_run Hrun. apply grant_permission_Ok in Hrun0 as (-> & -> & Hg).
    split; [done|]. exists a1. split_and!; try done. by apply negb_false_iff.
  - intros (-> & tn & Ht & Hact & Hg & ->).
    assert (Hp : _grant_permission o t (_accessible_tenant_ids o (working s)) s = (Ok "write", s)) by (by apply grant_permission_Ok).
    erewrite bind_run by reflexivity. erewrite bind_run by exact Hp.
    unfold bind, query, reads, or_raise, raise_if. rewrite Ht. cbn. by rewrite Hact.
Qed.

(** What the cockpit grants is what the middleware enforces: for an operator
    of the table who is active, [POST /cockpit/tenants/act-as] grants a tenant
    exactly when a request with that tenant in [X-Operator-Acting-Tenant] passes
    the middleware's check - the tenant exists and is active, and the operator is
    a founder or holds a grant for it. *)
Theorem act_as_agrees db o t :
  operators db !! op_id o = Some o -> op_status o = ACTIVE ->
  (exists a, fst (switch_act_as o t (Session db db)) = Ok a) <->
  fst (_validate_act_as (Some (op_id o)) t (Session db db)) = Ok tt.
Proof.
  intros Ho Hst. split.
  - intros [a Ha]. destruct (switch_act_as _ _ _) as [r s'] eqn:Hs. cbn in Ha. subst r.
    apply switch_act_as_Ok in Hs as (_ & tn & Ht & Hact & Hg & _).
    assert (Hv : _validate_act_as (Some (op_id o)) t (Session db db) = (Ok tt, Session db db)); [|by rewrite Hv].
    apply validate_act_as_Ok. split; [done|]. exists (op_id o), o. split_and!; try done. split; [done|]. split; [by exists tn|done].
  - intros Hv. destruct (_validate_act_as _ _ _) as [r s'] eqn:Hs. cbn in Hv. subst r.
    apply validate_act_as_Ok in Hs as (_ & i & o' & [= <-] & Ho' & _ & (tn & Ht & Hact) & Hg). cbn in Ho'.
    rewrite Ho in Ho'. injection Ho' as <-.
    exists {| aa_tenant_id := tenant_pk tn; aa_tenant_name := tenant_name tn; aa_permission := "write"; aa_expires_in := 900 |}.
    erewrite (proj2 (switch_act_as_Ok o t _ _ _)); [done|]. split; [done|]. by exists tn.
Qed.

(** ** The middleware *)

Section MiddlewareLemmas.
Context `{!TokenLibrary}.
Context (cfg : cockpit_settings).
Context (repr_other : json -> string).
Context (accepts : CockpitAudit -> bool).
Context {W : Type} (call_next : CockpitRequest -> M (CockpitDB * W) web_error Response).
Local Abbreviation dispatch := (dispatch cfg repr_other accepts call_next).

(** The tables after the attempt to record the request: one row is appended,
    with the operator, the tenant, the status and no credential, exactly when the
    operator and the tenant are in the tables and the database accepts the row. *)
Definition recorded (r : CockpitRequest) (oid : option string) (t : string) (status : Z) (db db' : CockpitDB) : Prop :=
  exists row,
    (ca_operator_id row, ca_tenant_id_acted_as row, ca_status_code row) = (oid, Some t, Some status) /\
    (ca_method row, ca_ip row, ca_request_id row) = (Some (method (base r)), client_ip r, request_id r) /\
    (exists p, ca_payload_redacted row = Some p /\ audit_clean p = true) /\
    (((forall i, oid = Some i -> is_Some (operators db !! i)) /\ is_Some (cockpit_tenants db !! t) /\ accepts row = true /\
      cockpit_audit db' = cockpit_audit db ++ [row] /\
      operators db' = operators db /\ cockpit_tenants db' = cockpit_tenants db /\ grants db' = grants db) \/
     (((exists i, oid = Some i /\ operators db !! i = None) \/ cockpit_tenants db !! t = None \/ accepts row = false) /\
      db' = db)).

(** A refusal: a problem as the answer, and the attempt to record it. *)
Definition refused (r : CockpitRequest) (t : string) (db : CockpitDB) (w : W) (res : result web_error CockpitResponse)
    (st : CockpitDB * W) : Prop :=
  exists status code oid, res = Ok (CockpitProblem status code) /\ In status [401; 403; 404] /\
    recorded r oid t status db st.1 /\ st.2 = w.

(** The request reached the application as [r'], for the operator [oid]. *)
Definition served (t : string) (oid : option string) (r' : CockpitRequest) (db : CockpitDB) (w : W)
    (res : result web_error CockpitResponse) (st : CockpitDB * W) : Prop :=
  match call_next r' (db, w) with
  | (Ok resp, st1) => res = Ok (Passed resp) /\ recorded r' oid t (status_code resp) st1.1 st.1 /\ st.2 = st1.2
  | (Raise e, st1) => res = Raise e /\ st = st1
  end.

Lemma references_spec {A} (table : gmap string A) k :
  references table k = true <-> forall i, k = Some i -> is_Some (table !! i).
Proof.
  destruct k as [k|]; cbn; [|done]. split.
  - intros Hk i [= <-]. destruct (table !! k); [by eexists|done].
  - intros Hk. by destruct (Hk k eq_refl) as [x ->].
Qed.

Lemma references_false {A} (table : gmap string A) k :
  references table k = false <-> exists i, k = Some i /\ table !! i = None.
Proof.
  destruct k as [k|]; cbn; [|split; [done|by intros (i & ? & _)]]. split.
  - intros Hk. exists k. by destruct (table !! k).
  - intros (i & [= <-] & Hk). by rewrite Hk.
Qed.

Lemma audit_recorded r resp oid t action (st : CockpitDB * W) :
  recorded r oid t (response_status resp) st.1 (snd (_audit accepts r resp oid (Some t) action st)).1 /\
  (snd (_audit accepts r resp oid (Some t) action st)).2 = st.2.
Proof.
  split; [|done]. unfold _audit, modify. cbn [snd fst]. set (row := audit_row _ _ _ _ _ _ _ _). exists row.
  split; [reflexivity|]. split; [reflexivity|]. split; [eexists; split; [reflexivity|apply walk_audit_clean]|].
  unfold write_audit_async. change (ca_operator_id row) with oid. change (ca_tenant_id_acted_as row) with (Some t).
  destruct (references (operators st.1) oid) eqn:Ho; [|right; split; [left; by apply references_false|done]].
  destruct (references (cockpit_tenants st.1) (Some t)) eqn:Ht.
  2:{ right. split; [right; left|done]. apply references_false in Ht as (i & [= <-] & Ht). exact Ht. }
  cbn [andb]. destruct (accepts row) eqn:Ha; [|right; split; [right; by right|done]]. left.
  split; [by apply references_spec|]. split; [exact (proj1 (references_spec _ _) Ht t eq_refl)|]. by split_and!.
Qed.

Lemma refuse_run r r0 oid t status code db w :
  base r = base r0 -> client_ip r = client_ip r0 -> request_id r = request_id r0 ->
  In status [401; 403; 404] ->
  refused r0 t db w (fst (refuse accepts r oid (Some t) status code (db, w))) (snd (refuse accepts r oid (Some t) status code (db, w))).
Proof.
  intros Hb Hi Hq Hin. exists status, code, oid. unfold refuse. generalize (action_of (path (base r))) as action. intros action.
  pose proof (audit_recorded r (CockpitProblem status code) oid t action (db, w)) as [Ha Hw].
  assert (Hr : forall db', recorded r oid t status db db' -> recorded r0 oid t status db db').
  { unfold recorded. by rewrite Hb, Hi, Hq. }
  split_and!; [done|done|exact (Hr _ Ha)|done].
Qed.

Lemma forward_run r t oid db w :
  truthy t = true ->
  served t oid r db w (fst (forward accepts call_next r (Some t) oid (db, w)))
    (snd (forward accepts call_next r (Some t) oid (db, w))).
Proof.
  intros Ht. unfold served, forward, bind. destruct (call_next r (db, w)) as [[resp|e] st1]; [|done].
  cbn [is_truthy]. rewrite Ht, orb_true_r.
  pose proof (audit_recorded r (Passed resp) oid t (action_of (path (base r))) st1) as [Ha Hw].
  split; [done|]. exact (conj Ha Hw).
Qed.

Lemma raises_decode now token ty :
  raises_only (fun e => act_as_refusal e \/ e = PyException "RuntimeError" /\ get_cockpit_jwt_secret cfg = None)
    (decode_token cfg now token ty).
Proof.
  unfold decode_token. apply raises_bind; [apply raises_raise_if; left; cbn; tauto|intros _].
  apply raises_bind; [|intros secret; apply raises_bind; [apply raises_or_raise; left; cbn; tauto|intros p]].
  - destruct (get_cockpit_jwt_secret cfg) eqn:Hs; [apply raises_ret|apply raises_raise; by right].
  - do 2 (apply raises_bind; [apply raises_raise_if; left; cbn; tauto|intros _]). apply raises_ret.
Qed.

End MiddlewareLemmas.

(** ** The stack of main.py

    The middleware is added last, so it runs first, and [TenantScopeMiddleware]
    runs inside it. *)

Definition with_base (b : Request) (r : CockpitRequest) : CockpitRequest :=
  {| base := b; cookie := cookie r; query_string := query_string r; request_id := request_id r; client_ip := client_ip r;
     state_operator_id := state_operator_id r; state_operator_role := state_operator_role r;
     state_acting_as := state_acting_as r |}.

Section Stack.
Context `{!TokenLibrary}.
Context (cfg : cockpit_settings) (jwt_cfg : jwt_settings) (repr_other : json -> string) (accepts : CockpitAudit -> bool).
Context {W : Type} (app : CockpitRequest -> M (CockpitDB * W) web_error Response).

(** The application behind the tenant scope. *)
Definition scoped (now : Z) (r : CockpitRequest) : M (CockpitDB * W) web_error Response :=
  tenant_scope_dispatch jwt_cfg repr_other (fun b => app (with_base b r)) now (base r).

Definition cockpit_stack (env : option string) (now : Z) (r : CockpitRequest) : M (CockpitDB * W) web_error CockpitResponse :=
  dispatch cfg repr_other accepts (scoped now) env now r.

Definition scope_of (now : Z) (b : Request) : option string * option string :=
  if _should_skip (path b) then (None, None) else bearer_scope jwt_cfg repr_other now b.

(** The tenant that the endpoints find in the state of the request is the one of
    the tenant token; the one the operator acts as has been overwritten. *)
Lemma acting_tenant_is_overwritten now t r st :
  scoped now (with_acting t r) st =
  app (with_base (with_state (scope_of now (base r)).1 (scope_of now (base r)).2 (base r)) (with_acting t r)) st.
Proof.
  unfold scoped, tenant_scope_dispatch, scope_of. cbn [base with_acting].
  change (path (with_state (Some t) (state_user_id (base r)) (base r))) with (path (base r)).
  change (bearer_scope jwt_cfg repr_other now (with_state (Some t) (state_user_id (base r)) (base r)))
    with (bearer_scope jwt_cfg repr_other now (base r)).
  by destruct (if _should_skip (path (base r)) then _ else _) as [T U].
Qed.
End Stack.

(** ** A concrete request *)

Module DemoActAs.
Import DemoCockpit.

Definition bearer_of (o : Operator) : string := "Bearer " +:+ access_of (draw 5 "a0" "r0") o "s3cret".
Definition request (p auth tenant : string) : CockpitRequest :=
  {| base := {| method := "GET"; path := p; headers := {["authorization" := auth; ACT_AS_HEADER := tenant]}; req_body := "";
                state_tenant_id := None; state_user_id := None |};
     cookie := None; query_string := ""; request_id := None; client_ip := Some "10.0.0.1"; state_operator_id := None;
     state_operator_role := JNull; state_acting_as := None |}.
(** An application that counts its calls and says which tenant it sees. *)
Definition echo (r : CockpitRequest) : M (CockpitDB * Z) web_error Response :=
  fun st => (Ok (Answer 200 (default "-" (state_tenant_id (base r)) +:+ "/" +:+ default "-" (state_acting_as r)) [] None), (st.1, st.2 + 1)).
Definition jwt_cfg : jwt_settings :=
  {| jwt_secret_key := "tenant secret"; access_token_expire_minutes := 15; refresh_token_expire_days := 30 |}.

(** A database that asks nothing more of a row. *)
Definition any_row (row : CockpitAudit) : bool := true.

Definition run (r : CockpitRequest) : result web_error CockpitResponse * (CockpitDB * Z) :=
  dispatch cfg repr any_row echo None (seconds 6) r (db0, 0).

Example act_as_runs :
  map (fun r => ((run r).1, (run r).2.2, length (cockpit_audit (run r).2.1)))
    [request "/v1/suppliers" (bearer_of ann) "t1"; request "/v1/suppliers" (bearer_of ann) "t2";
     request "/v1/suppliers" "Bearer x" "t1"; request "/cockpit/auth/me" "" ""; request "/v1/suppliers" "" ""] =
  [(Ok (Passed (Answer 200 "t1/t1" [] None)), 1, 1%nat); (Ok (CockpitProblem 404 "tenant_not_found"), 0, 0%nat);
   (Ok (CockpitProblem 401 "invalid_token"), 0, 1%nat); (Ok (CockpitProblem 401 "operator_unauthenticated"), 0, 0%nat);
   (Ok (Passed (Answer 200 "-/-" [] None)), 1, 0%nat)].
Proof. vm_compute. reflexivity. Qed.

(** Behind the tenant scope the endpoints do not see the tenant. *)
Example act_as_lost :
  (cockpit_stack cfg jwt_cfg repr any_row echo None (seconds 6) (request "/v1/suppliers" (bearer_of ann) "t1") (db0, 0)).1 =
  Ok (Passed (Answer 200 "-/t1" [] None)).
Proof. vm_compute. reflexivity. Qed.


Lemma act_as_agrees_witness : exists a, fst (switch_act_as ann "t1" (Session db0 db0)) = Ok a.
Proof. apply (act_as_agrees db0 ann "t1" eq_refl eq_refl). vm_compute. reflexivity. Defined.
End DemoActAs.
