(* ===== verification/InboundModels.v ===== *)
(** * Inbound e-mail: rows, addresses, spam score and storage

    models/inbound_email.py, models/inbound_attachment.py,
    models/inbound_routing_rule.py, services/spam_check.py,
    services/inbound_attachment_storage.py, and the address parsing of
    services/inbound_email_service.py.  Texts are ASCII.  The database and the
    attachment directory are the state; a file that is written stays when the
    database rolls back. *)

From Stdlib Require Import Ascii.
From S2P Require Import Prelude PyStr Json PyTime Encoding SubmissionModels AvScanner.

(** ** Rows *)

(** models/inbound_email.py, [InboundEmailStatus]. *)
Inductive InboundEmailStatus : Type := RECEIVED | PARSING | ROUTED | E_FAILED | QUARANTINED.

(** models/inbound_routing_rule.py, [InboundRuleAction]. *)
Inductive InboundRuleAction : Type := CREATE_SUBMISSION | QUARANTINE | DISCARD | TAG_ONLY.

#[export] Instance InboundEmailStatus_eq_dec : EqDecision InboundEmailStatus.
Proof. solve_decision. Defined.
#[export] Instance InboundRuleAction_eq_dec : EqDecision InboundRuleAction.
Proof. solve_decision. Defined.

Definition email_status_value (s : InboundEmailStatus) : string :=
  match s with
  | RECEIVED => "received" | PARSING => "parsing" | ROUTED => "routed" | E_FAILED => "failed"
  | QUARANTINED => "quarantined"
  end.

(** models/inbound_email.py, [InboundEmail]; the spam score is in thousandths. *)
Record InboundEmail : Type := {
  em_id : string;
  em_tenant_id : string;
  message_id : string;
  in_reply_to : option string;
  from_address : string;
  from_name : option string;
  to_address : string;
  cc_addresses : option (list string);
  subject : option string;
  received_at : Z;
  raw_body_text : option string;
  raw_body_html : option string;
  em_headers : option (list (string * json));
  spam_score : Z;
  em_status : InboundEmailStatus;
  routing_error : option string;
  attachment_count : Z;
  draft_submission_id : option string;
  draft_supplier_id : option string;
  raw_storage_url : option string;
}.

(** models/inbound_attachment.py, [InboundAttachment]. *)
Record InboundAttachment : Type := {
  at_id : string;
  inbound_email_id : string;
  at_filename : string;
  at_content_type : option string;
  size_bytes : Z;
  at_sha256 : string;
  at_storage_url : string;
}.

(** models/inbound_routing_rule.py, [InboundRoutingRule]. *)
Record InboundRoutingRule : Type := {
  rule_id : string;
  rule_tenant_id : string;
  rule_name : string;
  priority : Z;
  match_from_domain : option string;
  match_subject_regex : option string;
  match_attachment_kind : option string;
  action : InboundRuleAction;
  action_params : option json;
  rule_active : bool;
  rule_created_at : Z;
}.

(** The columns of [tenants] that the pipeline reads. *)
Record InboundTenant : Type := {
  it_id : string;
  it_slug : string;
  it_is_active : bool;
  inbound_secret_token : option string;
}.

(** The columns of [suppliers] that the pipeline reads. *)
Record InboundSupplier : Type := { is_id : string; is_tenant_id : string; primary_email : option string }.

(** The tables, each in the order the database returns its rows; [next_id]
    numbers the primary keys drawn so far. *)
Record InboundDB : Type := {
  emails : list InboundEmail;
  attachments : list InboundAttachment;
  rules : list InboundRoutingRule;
  in_tenants : list InboundTenant;
  in_suppliers : list InboundSupplier;
  in_portals : list Portal;
  drafts : list SupplierSubmission;
  next_id : nat;
}.

Definition with_emails (f : list InboundEmail -> list InboundEmail) (db : InboundDB) : InboundDB :=
  {| emails := f (emails db); attachments := attachments db; rules := rules db; in_tenants := in_tenants db;
     in_suppliers := in_suppliers db; in_portals := in_portals db; drafts := drafts db; next_id := next_id db |}.
Definition with_attachments (f : list InboundAttachment -> list InboundAttachment) (db : InboundDB) : InboundDB :=
  {| emails := emails db; attachments := f (attachments db); rules := rules db; in_tenants := in_tenants db;
     in_suppliers := in_suppliers db; in_portals := in_portals db; drafts := drafts db; next_id := next_id db |}.
Definition with_rules (f : list InboundRoutingRule -> list InboundRoutingRule) (db : InboundDB) : InboundDB :=
  {| emails := emails db; attachments := attachments db; rules := f (rules db); in_tenants := in_tenants db;
     in_suppliers := in_suppliers db; in_portals := in_portals db; drafts := drafts db; next_id := next_id db |}.
Definition with_drafts (f : list SupplierSubmission -> list SupplierSubmission) (db : InboundDB) : InboundDB :=
  {| emails := emails db; attachments := attachments db; rules := rules db; in_tenants := in_tenants db;
     in_suppliers := in_suppliers db; in_portals := in_portals db; drafts := f (drafts db); next_id := next_id db |}.
Definition bump_ids (n : nat) (db : InboundDB) : InboundDB :=
  {| emails := emails db; attachments := attachments db; rules := rules db; in_tenants := in_tenants db;
     in_suppliers := in_suppliers db; in_portals := in_portals db; drafts := drafts db; next_id := next_id db + n |}.

(** services/inbound_email_service.py, [InboundIngestError] and its subclasses,
    with a short reason for the message, and any other exception as its type and
    text. *)
Inductive inbound_error : Type :=
| InboundIngestError (reason : string)
| TenantNotFound (reason : string)
| EmailTooLarge (reason : string)
| OtherException (text : string).

(** The database session and the files of the attachment directory by path. *)
Definition InboundState : Type := session InboundDB * gmap string bytes.
Abbreviation IM := (M InboundState inbound_error).

Definition on_db {A} (m : M (session InboundDB) inbound_error A) : IM A :=
  fun s => let '(r, d) := m s.1 in (r, (d, s.2)).
Definition on_files {A} (f : gmap string bytes -> A * gmap string bytes) : IM A :=
  fun s => let '(a, fs) := f s.2 in (Ok a, (s.1, fs)).

(** services/inbound_email_service.py, [ParsedAttachment]. *)
Record ParsedAttachment : Type := { filename : string; content_type : option string; content : bytes }.

(** services/inbound_email_service.py, [ParsedEmail]. *)
Record ParsedEmail : Type := {
  pe_message_id : string;
  pe_from_address : string;
  pe_to_address : string;
  pe_from_name : option string;
  pe_cc_addresses : option (list string);
  pe_subject : option string;
  pe_text_body : option string;
  pe_html_body : option string;
  pe_in_reply_to : option string;
  pe_headers : option (list (string * json));
  pe_attachments : list ParsedAttachment;
  pe_raw_bytes : option bytes;
}.

(** ** Addresses *)

Definition addr_char (c : ascii) : bool := negb (is_space c || contains_char c "<>,").

(** The longest prefix of [s] whose characters satisfy [f], and the rest. *)
Fixpoint span (f : ascii -> bool) (s : string) : string * string :=
  match s with
  | String c r => if f c then let '(a, b) := span f r in (String c a, b) else (EmptyString, s)
  | EmptyString => (EmptyString, EmptyString)
  end.

(** [_EMAIL_RE] at the start of [s]: the group and the rest.  The first branch is
    [<([^>]+)>]; the second matches a whole run of address characters that has an
    [@] with a character before and one after it. *)
Definition email_at (s : string) : option (string * string) :=
  let first := match s with
               | String "<" r =>
                   let '(g, rest) := span (fun c => negb (Ascii.eqb c ">")) r in
                   match rest with
                   | String ">" rest' => if truthy g then Some (g, rest') else None
                   | _ => None
                   end
               | _ => None
               end in
  match first with
  | Some x => Some x
  | None =>
      let '(g, rest) := span addr_char s in
      if contains_char "@" (sdrop 1 (stake (String.length g - 1) g)) then Some (g, rest) else None
  end.

(** services/inbound_email_service.py:124-128, [_extract_address]: the loop over
    the matches from the left; [fuel] bounds the characters looked at. *)
Fixpoint first_address (fuel : nat) (s : string) : option string :=
  match fuel with
  | O => None
  | S fuel =>
      match email_at s with
      | Some (g, rest) =>
          let addr := lower (strip g) in
          if truthy addr && contains_char "@" addr then Some addr else first_address fuel rest
      | None => match s with String _ r => first_address fuel r | EmptyString => None end
      end
  end.

(** services/inbound_email_service.py, [_extract_address]. *)
Definition _extract_address (raw : string) : string :=
  if negb (truthy raw) then ""
  else let raw := strip raw in default (lower raw) (first_address (S (String.length raw)) raw).

(** services/inbound_email_service.py, [parse_to_address]. *)
Definition parse_to_address (to_field inbound_domain : string) : result inbound_error (string * string * option string) :=
  let address := _extract_address to_field in
  if negb (contains_char "@" address) then Raise (TenantNotFound "unparseable To: address")
  else
    let '(local, _, domain) := partition_char "@" address in
    let domain := strip (lower domain) in
    let inbound_domain := strip (lower inbound_domain) in
    if negb (endswith inbound_domain domain) then Raise (TenantNotFound "To: domain does not match inbound domain")
    else
      let sub := rstrip_by (Ascii.eqb ".")
                   (if truthy inbound_domain then stake (String.length domain - String.length inbound_domain) domain else "") in
      let '(local_head, _, local_tag) := partition_char "+" local in
      let tag := strip local_tag in
      let shared_token := if truthy tag then Some tag else None in
      let slug := if negb (truthy sub) then strip local_head else fst (fst (partition_char "." sub)) in
      if negb (truthy slug) then Raise (TenantNotFound "could not derive tenant slug")
      else Ok (address, slug, shared_token).

(** ** Spam score *)

(** services/spam_check.py, [QUARANTINE_THRESHOLD], in thousandths. *)
Definition QUARANTINE_THRESHOLD : Z := 900.

(** services/spam_check.py, [_SPAM_KEYWORDS]. *)
Definition _SPAM_KEYWORDS : list string :=
  ["viagra"; "bitcoin"; "free money"; "click here now"; "act fast"; "100% guaranteed"; "nigerian prince"; "lottery winner"].

(** services/spam_check.py, [_kw_hits]. *)
Definition _kw_hits (text : string) : Z :=
  Z.of_nat (length (List.filter (fun kw => contains kw (lower text)) _SPAM_KEYWORDS)).

(** [re.match(r"^\d{6,}@", s)] *)
Definition numeric_local (s : string) : bool :=
  let '(digits, rest) := span is_digit s in (6 <=? slen digits) && match rest with String "@" _ => true | _ => false end.

Section Spam.
Context (repr_other : json -> string).

(** services/spam_check.py, [score_spam], in thousandths: for every number of
    hits and every choice of signals the rounded sum of the source, which adds
    floats, is this number of thousandths. *)
Definition score_spam (from_address : string) (subject body_text : option string) (headers : option (list (string * json))) : Z :=
  let hits := _kw_hits (default "" subject) + _kw_hits (default "" body_text) in
  let score := Z.min 600 (hits * 200) in
  let subj := default "" subject in
  let score := if truthy subj && (8 <? slen subj) && String.eqb subj (upper subj) then score + 100 else score in
  let score := if numeric_local from_address then score + 200 else score in
  let flagged := existsb (fun kv : string * json => String.eqb (lower kv.1) "x-spam-flag"
                            && String.eqb (lower (strip (py_str repr_other kv.2))) "yes") (default [] headers) in
  let score := if flagged then Z.max score 950 else score in
  Z.min 1000 score.
End Spam.

(** ** Storage *)

(** services/inbound_attachment_storage.py, [ALLOWED_EXTENSIONS]. *)
Definition ALLOWED_EXTENSIONS : list string :=
  ["pdf"; "csv"; "xlsx"; "xls"; "doc"; "docx"; "eml"; "txt"; "png"; "jpg"; "jpeg"].

(** services/inbound_attachment_storage.py, [sanitize_extension]; each of
    [ALLOWED_EXTENSIONS] matches [_SAFE_EXT_RE]. *)
Definition sanitize_extension (name : string) : string :=
  if negb (truthy name) || negb (contains_char "." name) then "bin"
  else
    let ext := lower (strip (after_last "." name)) in
    if negb (sall (fun c => is_lower c || is_digit c) ext && (1 <=? slen ext) && (slen ext <=? 8)) then "bin"
    else if negb (existsb (String.eqb ext) ALLOWED_EXTENSIONS) then "bin" else ext.

(** services/inbound_attachment_storage.py, [StoredAttachment]. *)
Record StoredAttachment : Type := { storage_url : string; sha256 : string; stored_size : Z }.

Section Storage.
(** The resolved base directory, SHA-256, and the antivirus gate. *)
Context (base_path : string) (sha256_hex : bytes -> string) (enforce : bytes -> result av_error ScanReport).

Definition dir_char (c : ascii) : bool := is_alnum c || contains_char c "_-".

(** services/inbound_attachment_storage.py, [LocalInboundStorage._email_dir]. *)
Definition _email_dir (email_id : string) : string :=
  base_path +:+ "/" +:+ stake 64 (smap (fun c => if dir_char c then c else "_"%char) email_id).

(** [if not target.exists(): write] *)
Definition write_new (path : string) (data : bytes) (fs : gmap string bytes) : gmap string bytes :=
  match fs !! path with Some _ => fs | None => <[path := data]> fs end.

(** services/inbound_attachment_storage.py:174-177, [LocalInboundStorage.put]: the
    path under which the bytes are kept. *)
Definition target_path (email_id name : string) (data : bytes) : string :=
  _email_dir email_id +:+ "/" +:+ sha256_hex data +:+ "." +:+ sanitize_extension name.

(** services/inbound_attachment_storage.py, [LocalInboundStorage.put]. *)
Definition put (email_id name : string) (data : bytes) (fs : gmap string bytes)
    : result av_error StoredAttachment * gmap string bytes :=
  match enforce data with
  | Raise e => (Raise e, fs)
  | Ok _ =>
      let target := target_path email_id name data in
      (Ok {| storage_url := "file://" +:+ target; sha256 := sha256_hex data; stored_size := slen data |},
       write_new target data fs)
  end.

(** services/inbound_attachment_storage.py, [LocalInboundStorage.put_raw_email]. *)
Definition put_raw_email (email_id : string) (data : bytes) (fs : gmap string bytes) : string * gmap string bytes :=
  let target := _email_dir email_id +:+ "/raw.eml" in
  ("file://" +:+ target, write_new target data fs).
End Storage.

(** ** Lemmas *)

Example extract_address_ex :
  map _extract_address ["Ann <Ann@X.com>, b@y.com"; "<none> bob@y.com"; "bob@@y.com,"; "@nobody"; "plain"; ""] =
  ["ann@x.com"; "bob@y.com"; "bob@@y.com"; "@nobody"; "plain"; ""].
Proof. vm_compute. reflexivity. Qed.

Example parse_to_ex :
  map (fun t => parse_to_address t "in.getonce.com")
    ["submissions+Abc@acme.in.getonce.com"; "Acme@in.getonce.com"; "x@evilin.getonce.com"; "x@other.com"] =
  [Ok ("submissions+abc@acme.in.getonce.com", "acme", Some "abc"); Ok ("acme@in.getonce.com", "acme", None);
   Ok ("x@evilin.getonce.com", "evil", None); Raise (TenantNotFound "To: domain does not match inbound domain")].
Proof. vm_compute. reflexivity. Qed.

Example score_ex :
  map (fun x => score_spam (fun _ => "") x.1.1 x.1.2 x.2 None)
    [("a@x.com", Some "Hello", None); ("1234567@x.com", Some "FREE MONEY NOW", Some "bitcoin viagra act fast");
     ("a@x.com", Some "FREE MONEY", None)] = [0; 900; 300].
Proof. vm_compute. reflexivity. Qed.

Lemma sanitize_extension_allowed name : sanitize_extension name <> "bin" -> In (sanitize_extension name) ALLOWED_EXTENSIONS.
Proof.
  unfold sanitize_extension. destruct (_ || _); [done|]. destruct (negb (_ && _)); [done|].
  destruct (existsb _ _) eqn:He; [|done]. intros _. cbn [negb]. apply existsb_exists in He as (e & Hin & ->%String.eqb_eq). done.
Qed.

(** Addresses are lower case. *)
Definition lowered (s : string) : Prop := sall (fun c => negb (is_upper c)) s = true.

Lemma lowered_lower s : lowered (lower s).
Proof.
  unfold lowered, lower. induction s as [|c s IH]; cbn; [done|]. rewrite IH, andb_true_r. unfold lower_char.
  destruct (is_upper c) eqn:Hu; [|by rewrite Hu]. apply in_range_spec in Hu. apply negb_true_iff.
  destruct (is_upper (chr (ord c + 32))) eqn:Hv; [|done]. apply in_range_spec in Hv. rewrite ord_chr in Hv by lia. lia.
Qed.

Lemma sall_partition f sep s a b z :
  partition_char sep s = (a, b, z) -> sall f s = true -> sall f a = true /\ sall f z = true.
Proof.
  revert a b z. induction s as [|c s IH]; intros a b z; cbn; [by intros [= <- <- <-]|].
  destruct (Ascii.eqb sep c); [intros [= <- <- <-] [_ Hs]%andb_true_iff; done|].
  destruct (partition_char sep s) as [[a' b'] z'] eqn:Hp. intros [= <- <- <-] [Hc Hs]%andb_true_iff.
  destruct (IH a' b' z' eq_refl Hs) as [Ha Hz]. cbn. by rewrite Hc, Ha.
Qed.

Lemma span_length f s : (String.length (span f s).1 + String.length (span f s).2)%nat = String.length s.
Proof. induction s as [|c s IH]; cbn; [done|]. destruct (f c); [|done]. destruct (span f s) as [a b]. cbn in *. lia. Qed.

Lemma email_at_shorter s g rest : email_at s = Some (g, rest) -> (String.length rest < String.length s)%nat.
Proof.
  assert (Hrun : forall s g rest, (let '(g, rest) := span addr_char s in
      if contains_char "@" (sdrop 1 (stake (String.length g - 1) g)) then Some (g, rest) else None) = Some (g, rest) ->
      (String.length rest < String.length s)%nat).
  { clear s g rest. intros s g rest. pose proof (span_length addr_char s) as Hlen. destruct (span addr_char s) as [g' r']. cbn in Hlen.
    destruct (contains_char _ _) eqn:Hc; [|done]. intros [= -> ->]. destruct g as [|c g]; [discriminate Hc|cbn in Hlen; lia]. }
  unfold email_at. destruct s as [|c r]; [apply Hrun|]. destruct (ascii_dec c "<") as [->|Hne].
  - pose proof (span_length (fun c => negb (Ascii.eqb c ">")) r) as Hlen. destruct (span _ r) as [g' rest']. cbn in Hlen.
    destruct rest' as [|d rest']; [apply Hrun|]. destruct (ascii_dec d ">") as [->|Hd].
    + destruct (truthy g'); [|apply Hrun]. intros [= -> ->]. cbn in *. lia.
    + destruct d as [[] [] [] [] [] [] [] []]; try apply Hrun. done.
  - destruct c as [[] [] [] [] [] [] [] []]; try apply Hrun. done.
Qed.

(** One unit of fuel more than characters is enough. *)
Lemma first_address_enough fuel : forall more s, (String.length s < fuel)%nat -> (String.length s < more)%nat ->
  first_address fuel s = first_address more s.
Proof.
  induction fuel as [|fuel IH]; intros more s Hf Hm; [lia|]. destruct more as [|more]; [lia|]. cbn [first_address].
  destruct (email_at s) as [[g rest]|] eqn:He.
  - apply email_at_shorter in He. destruct (_ && _); [done|]. apply IH; lia.
  - destruct s as [|c r]; [done|]. cbn in *. apply IH; lia.
Qed.

Lemma first_address_lowered fuel s a : first_address fuel s = Some a -> lowered a.
Proof.
  revert s. induction fuel as [|fuel IH]; intros s; cbn [first_address]; [done|].
  destruct (email_at s) as [[g rest]|]; [|destruct s; [done|apply IH]].
  destruct (_ && _); [|apply IH]. intros [= <-]. apply lowered_lower.
Qed.

Lemma extract_address_lowered s : lowered (_extract_address s).
Proof.
  unfold _extract_address. destruct (negb _); [done|].
  destruct (first_address _ _) as [a|] eqn:Ha; [by eapply first_address_lowered|apply lowered_lower].
Qed.

(** The shared token of an address has no capital letter. *)
Lemma shared_token_lowered to_field dom address slug token :
  parse_to_address to_field dom = Ok (address, slug, Some token) -> lowered token.
Proof.
  unfold parse_to_address. pose proof (extract_address_lowered to_field) as Hl. destruct (negb _); [done|].
  destruct (partition_char "@" _) as [[loc b] d] eqn:Hp. apply (sall_partition (fun c => negb (is_upper c))) in Hp as [Hloc _]; [|done].
  destruct (negb _); [done|]. destruct (partition_char "+" loc) as [[h b'] tag] eqn:Ht.
  apply (sall_partition (fun c => negb (is_upper c))) in Ht as [_ Htag]; [|done].
  destruct (truthy (strip tag)); destruct (negb _); try done. intros [= _ _ <-]. unfold lowered, strip, strip_by.
  by apply sall_rstrip, sall_lstrip.
Qed.
