(* ===== verification/InboundEmail.v ===== *)
(** * Inbound e-mail: ingestion and routing

    services/inbound_email_service.py and services/inbound_routers: one delivery
    of an e-mail from the duplicate check to the routed row, the retry of its
    routing and the manual quarantine.  Primary keys come from [uuid], a variable;
    the search of a rule's own regular expression is a variable too. *)

From Stdlib Require Import Ascii.
From S2P Require Import Prelude PyStr Json PyTime Encoding SubmissionModels AvScanner InboundModels.

(** config.py: the settings of the pipeline. *)
Record inbound_settings : Type := {
  inbound_email_enabled : bool;
  inbound_email_domain : string;
  inbound_max_email_size_mb : Z;
  inbound_max_attachment_size_mb : Z;
}.

(** services/inbound_routers/base.py, [RoutingResult], without the notes, which
    are not kept. *)
Record RoutingResult : Type := {
  rr_status : string;
  rr_draft_submission_id : option string;
  rr_draft_supplier_id : option string;
  rr_error : option string;
}.

(** ** Assignments to the columns of an e-mail *)

Definition set_stored (url : option string) (n : Z) (e : InboundEmail) : InboundEmail :=
  {| em_id := em_id e; em_tenant_id := em_tenant_id e; message_id := message_id e; in_reply_to := in_reply_to e;
     from_address := from_address e; from_name := from_name e; to_address := to_address e; cc_addresses := cc_addresses e;
     subject := subject e; received_at := received_at e; raw_body_text := raw_body_text e; raw_body_html := raw_body_html e;
     em_headers := em_headers e; spam_score := spam_score e; em_status := em_status e; routing_error := routing_error e;
     attachment_count := n; draft_submission_id := draft_submission_id e; draft_supplier_id := draft_supplier_id e;
     raw_storage_url := url |}.
Definition set_status (st : InboundEmailStatus) (err : option string) (e : InboundEmail) : InboundEmail :=
  {| em_id := em_id e; em_tenant_id := em_tenant_id e; message_id := message_id e; in_reply_to := in_reply_to e;
     from_address := from_address e; from_name := from_name e; to_address := to_address e; cc_addresses := cc_addresses e;
     subject := subject e; received_at := received_at e; raw_body_text := raw_body_text e; raw_body_html := raw_body_html e;
     em_headers := em_headers e; spam_score := spam_score e; em_status := st; routing_error := err;
     attachment_count := attachment_count e; draft_submission_id := draft_submission_id e;
     draft_supplier_id := draft_supplier_id e; raw_storage_url := raw_storage_url e |}.
Definition set_drafts (sub sup : option string) (e : InboundEmail) : InboundEmail :=
  {| em_id := em_id e; em_tenant_id := em_tenant_id e; message_id := message_id e; in_reply_to := in_reply_to e;
     from_address := from_address e; from_name := from_name e; to_address := to_address e; cc_addresses := cc_addresses e;
     subject := subject e; received_at := received_at e; raw_body_text := raw_body_text e; raw_body_html := raw_body_html e;
     em_headers := em_headers e; spam_score := spam_score e; em_status := em_status e; routing_error := routing_error e;
     attachment_count := attachment_count e; draft_submission_id := sub; draft_supplier_id := sup;
     raw_storage_url := raw_storage_url e |}.

Definition update_email (i : string) (f : InboundEmail -> InboundEmail) (l : list InboundEmail) : list InboundEmail :=
  map (fun e => if String.eqb (em_id e) i then f e else e) l.

Local Abbreviation DM := (M (session InboundDB) inbound_error).

(** [scalar_one_or_none()] *)
Definition one_or_none {A} (l : list A) : DM (option A) :=
  match l with
  | [] => ret None
  | [x] => ret (Some x)
  | _ => raise (OtherException "MultipleResultsFound: Multiple rows were found when one or none was required")
  end.

(** ** Rules *)

(** [ORDER BY priority ASC, created_at ASC] *)
Definition rule_le (a b : InboundRoutingRule) : bool :=
  (priority a <? priority b) || ((priority a =? priority b) && (rule_created_at a <=? rule_created_at b)).

(** services/inbound_email_service.py, [_load_rules]. *)
Definition _load_rules (tenant_id : string) (db : InboundDB) : list InboundRoutingRule :=
  isort rule_le (List.filter (fun r => String.eqb (rule_tenant_id r) tenant_id && rule_active r) (rules db)).

(** services/inbound_email_service.py, [_FALLBACK_RULE_PRIORITY]. *)
Definition _FALLBACK_RULE_PRIORITY : Z := 999.

(** services/inbound_email_service.py, [_build_fallback_rule]. *)
Definition _build_fallback_rule (tenant_id : string) : InboundRoutingRule :=
  {| rule_id := "__fallback__"; rule_tenant_id := tenant_id; rule_name := "System fallback";
     priority := _FALLBACK_RULE_PRIORITY; match_from_domain := None; match_subject_regex := None;
     match_attachment_kind := None; action := CREATE_SUBMISSION; action_params := None; rule_active := true;
     rule_created_at := 0 |}.

(** services/inbound_email_service.py, [_attachment_kinds]. *)
Definition _attachment_kinds (names : list string) : list string :=
  List.filter (fun ext => negb (String.eqb ext "bin")) (map sanitize_extension names).

(** ** SQL's [LIKE] *)

Definition ilike (p s : string) : bool := like (lower p) (lower s).

(** services/inbound_routers/submission_creator.py, [_extract_domain]. *)
Definition _extract_domain (address : string) : option string :=
  if negb (truthy address) || negb (contains_char "@" address) then None
  else opt_truthy (Some (lower (strip (after_last "@" address)))).

(** services/inbound_routers/submission_creator.py, [_SUPPLIER_TAG_RE]: the group
    of the first match. *)
Fixpoint supplier_tag (s : string) : option string :=
  let here := if String.prefix "[supplier:" (lower s)
              then let '(g, rest) := span (fun c => negb (Ascii.eqb c "]")) (sdrop 10 s) in
                   match rest with String "]" _ => if truthy g then Some g else None | _ => None end
              else None in
  match here with
  | Some g => Some g
  | None => match s with String _ r => supplier_tag r | EmptyString => None end
  end.

Section Routing.
Context (uuid : nat -> string).
(** [re.search(pattern, text, re.IGNORECASE) is not None]; [None] is [re.error]. *)
Context (re_search : string -> string -> option bool).

(** services/inbound_email_service.py, [_rule_matches]. *)
Definition _rule_matches (r : InboundRoutingRule) (from : string) (subj : option string) (kinds : list string) : bool :=
  (match opt_truthy (match_from_domain r) with
   | Some d => String.eqb (if contains_char "@" from then lower (after_last "@" from) else "") (lower d)
   | None => true
   end) &&
  (match opt_truthy (match_subject_regex r) with
   | Some p => match re_search p (default "" subj) with Some found => found | None => false end
   | None => true
   end) &&
  (match opt_truthy (match_attachment_kind r) with
   | Some k => existsb (String.eqb (lower k)) kinds
   | None => true
   end).

(** services/inbound_email_service.py, [select_rule]. *)
Definition select_rule (l : list InboundRoutingRule) (tenant_id from : string) (subj : option string) (kinds : list string)
  : InboundRoutingRule :=
  default (_build_fallback_rule tenant_id) (find_first (fun r => _rule_matches r from subj kinds) l).

(** ** Routers *)

(** services/inbound_routers/submission_creator.py:49-59, [resolve_supplier]: by
    the tag of the subject. *)
Definition resolve_by_tag (tenant_id : string) (subj : option string) : DM (option InboundSupplier) :=
  match opt_truthy subj with
  | None => ret None
  | Some s =>
      match supplier_tag s with
      | None => ret None
      | Some g =>
          let token := strip g in
          let* found := query (fun db => List.filter (fun p => String.eqb (is_tenant_id p) tenant_id
                                 && (String.eqb (is_id p) token || bool_decide (primary_email p = Some token))) (in_suppliers db)) in
          one_or_none found
      end
  end.

(** services/inbound_routers/submission_creator.py, [resolve_supplier]. *)
Definition resolve_supplier (tenant_id from : string) (subj : option string) : DM (option InboundSupplier * string) :=
  let* tagged := resolve_by_tag tenant_id subj in
  match tagged with
  | Some p => ret (Some p, "tag")
  | None =>
      let* exact := if truthy from then
                      let* found := query (fun db => List.filter (fun p => String.eqb (is_tenant_id p) tenant_id
                                             && bool_decide (primary_email p = Some from)) (in_suppliers db)) in
                      one_or_none found
                    else ret None in
      match exact with
      | Some p => ret (Some p, "email_exact")
      | None =>
          match _extract_domain from with
          | None => ret (None, "unresolved")
          | Some domain =>
              let* found := query (fun db => List.filter (fun p => String.eqb (is_tenant_id p) tenant_id
                                     && match primary_email p with Some e => ilike ("%@" +:+ domain) e | None => false end)
                                     (in_suppliers db)) in
              match found with
              | p :: _ => ret (Some p, "email_domain")
              | [] => ret (None, "unresolved")
              end
          end
      end
  end.

Definition opt_str (o : option string) : json := match o with Some s => JStr s | None => JNull end.

(** services/inbound_routers/submission_creator.py:120-134, [SubmissionCreatorRouter.route]:
    the drafted submission. *)
Definition draft_of (id : string) (now : Z) (e : InboundEmail) (atts : list InboundAttachment) (sup : InboundSupplier)
    (portal : Portal) (reason : string) : SupplierSubmission :=
  {| sub_id := id; sub_tenant_id := em_tenant_id e; supplier_id := is_id sup; portal_id := portal_pk portal;
     status := BLOCKED;
     payload_json := [("source", JStr "inbound_email"); ("inbound_email_id", JStr (em_id e));
                      ("from_address", JStr (from_address e)); ("subject", opt_str (subject e));
                      ("attachment_ids", JList (map (fun a => JStr (at_id a)) atts)); ("supplier_resolution", JStr reason)];
     result_json := None; attempt_count := 0; last_error := Some "inbound_email_pending_operator_review";
     claimed_at := None; started_at := None; completed_at := None; consent_record_id := None; created_at := now |}.

(** services/inbound_routers/submission_creator.py, [SubmissionCreatorRouter.route]. *)
Definition submission_creator_route (now : Z) (e : InboundEmail) (atts : list InboundAttachment) : DM RoutingResult :=
  let* (sup, reason) := resolve_supplier (em_tenant_id e) (from_address e) (subject e) in
  match sup with
  | None => ret {| rr_status := "routed"; rr_draft_submission_id := None; rr_draft_supplier_id := None; rr_error := None |}
  | Some sup =>
      let* portals := query in_portals in
      match portals with
      | [] => ret {| rr_status := "routed"; rr_draft_submission_id := None; rr_draft_supplier_id := Some (is_id sup);
                     rr_error := None |}
      | portal :: _ =>
          let* n := query next_id in
          let sub := draft_of (uuid n) now e atts sup portal reason in
          write (fun db => bump_ids 1 (with_drafts (fun l => l ++ [sub]) db)) ;;;
          ret {| rr_status := "routed"; rr_draft_submission_id := Some (sub_id sub); rr_draft_supplier_id := Some (is_id sup);
                 rr_error := None |}
      end
  end.

(** services/inbound_routers/__init__.py, [_NoopRouter]. *)
Definition noop_route : DM RoutingResult :=
  ret {| rr_status := "routed"; rr_draft_submission_id := None; rr_draft_supplier_id := None; rr_error := None |}.
(** services/inbound_routers/__init__.py, [_QuarantineRouter]. *)
Definition quarantine_route : DM RoutingResult :=
  ret {| rr_status := "quarantined"; rr_draft_submission_id := None; rr_draft_supplier_id := None; rr_error := None |}.

(** services/inbound_routers/__init__.py, [get_router]: every action is
    registered. *)
Definition get_router (a : InboundRuleAction) (now : Z) (e : InboundEmail) (atts : list InboundAttachment) : DM RoutingResult :=
  match a with
  | CREATE_SUBMISSION => submission_creator_route now e atts
  | QUARANTINE => quarantine_route
  | DISCARD | TAG_ONLY => noop_route
  end.

(** services/inbound_email_service.py, [_route]. *)
Definition _route (now : Z) (e : InboundEmail) (atts : list InboundAttachment) : DM unit :=
  let* l := query (_load_rules (em_tenant_id e)) in
  let rule := select_rule l (em_tenant_id e) (from_address e) (subject e) (_attachment_kinds (map at_filename atts)) in
  let put f := write (with_emails (update_email (em_id e) f)) in
  try_else (get_router (action rule) now e atts)
    (fun exc => put (set_status E_FAILED (Some (stake 2000 (match exc with OtherException t => t | _ => "" end)))))
    (fun result =>
       let st := if String.eqb (rr_status result) "quarantined" then QUARANTINED
                 else if String.eqb (rr_status result) "failed" then E_FAILED else ROUTED in
       put (fun e => set_drafts (rr_draft_submission_id result) (rr_draft_supplier_id result) (set_status st (rr_error result) e))).

(** services/inbound_email_service.py:501-502, [retry_routing]: the row by its key
    and its tenant. *)
Definition email_of (tenant_id email_id : string) (db : InboundDB) : option InboundEmail :=
  find_first (fun e => String.eqb (em_id e) email_id && String.eqb (em_tenant_id e) tenant_id) (emails db).

Definition attachments_of (email_id : string) (db : InboundDB) : list InboundAttachment :=
  List.filter (fun a => String.eqb (inbound_email_id a) email_id) (attachments db).

(** The row after the assignments, as the caller's object has it. *)
Definition reload (email_id : string) (fallback : InboundEmail) (db : InboundDB) : InboundEmail :=
  default fallback (find_first (fun e => String.eqb (em_id e) email_id) (emails db)).

(** services/inbound_email_service.py, [retry_routing]. *)
Definition retry_routing (now : Z) (tenant_id email_id : string) : DM InboundEmail :=
  raise_if (negb (truthy tenant_id)) (InboundIngestError "tenant_id is required") ;;;
  let* row := query (email_of tenant_id email_id) in
  let* e := or_raise row (InboundIngestError "not found") in
  let* atts := query (attachments_of (em_id e)) in
  let e' := set_status PARSING None e in
  write (with_emails (update_email (em_id e) (fun _ => e'))) ;;;
  _route now e' atts ;;;
  commit ;;;
  query (reload (em_id e) e').

(** services/inbound_email_service.py, [quarantine]. *)
Definition quarantine (tenant_id email_id : string) : DM InboundEmail :=
  raise_if (negb (truthy tenant_id)) (InboundIngestError "tenant_id is required") ;;;
  let* row := query (email_of tenant_id email_id) in
  let* e := or_raise row (InboundIngestError "not found") in
  write (with_emails (update_email (em_id e) (set_status QUARANTINED (Some "manual_quarantine")))) ;;;
  commit ;;;
  query (reload (em_id e) e).
End Routing.

(** ** Ingestion *)

(** [f"{score}"] of a score below one, in thousandths. *)
Definition score_repr (n : Z) : string :=
  if n =? 1000 then "1.0" else "0." +:+ sor (rstrip_by (Ascii.eqb "0") (zpad 3 n)) "0".

Section Ingest.
Context (cfg : inbound_settings).
Context (uuid : nat -> string).
Context (re_search : string -> string -> option bool).
Context (repr_other : json -> string).
Context (base_path : string) (sha256_hex : bytes -> string) (enforce : bytes -> result av_error ScanReport).

(** services/inbound_email_service.py, [_resolve_tenant]; slugs are unique. *)
Definition _resolve_tenant (slug : string) : IM InboundTenant :=
  let* row := on_db (query (fun db => find_first (fun t => String.eqb (it_slug t) slug) (in_tenants db))) in
  let* t := or_raise row (TenantNotFound "no tenant with this slug") in
  raise_if (negb (it_is_active t)) (TenantNotFound "tenant is inactive") ;;;
  ret t.

(** services/inbound_email_service.py, [_existing_email]. *)
Definition _existing_email (mid : string) (db : InboundDB) : option InboundEmail :=
  find_first (fun e => String.eqb (message_id e) mid) (emails db).

(** services/inbound_email_service.py, [_enforce_size_limits]. *)
Definition _enforce_size_limits (p : ParsedEmail) : IM unit :=
  let max_email := inbound_max_email_size_mb cfg * 1024 * 1024 in
  let max_att := inbound_max_attachment_size_mb cfg * 1024 * 1024 in
  raise_if (existsb (fun a => max_att <? slen (content a)) (pe_attachments p)) (EmailTooLarge "attachment") ;;;
  let total := slen (default "" (pe_raw_bytes p)) + sum_list_with_Z (fun a => slen (content a)) (pe_attachments p) in
  raise_if (max_email <? total) (EmailTooLarge "total").

(** What is known of an attachment before its row has a key. *)
Definition stored_row (email_id : string) (a : ParsedAttachment) (s : StoredAttachment) (id : string) : InboundAttachment :=
  {| at_id := id; inbound_email_id := email_id; at_filename := stake 512 (filename a);
     at_content_type := opt_truthy (Some (stake 255 (default "" (content_type a)))); size_bytes := stored_size s;
     at_sha256 := sha256 s; at_storage_url := storage_url s |}.

(** services/inbound_email_service.py, [_store_attachments]; [seen] holds the
    digests so far.  The rows have no key yet. *)
Fixpoint _store_attachments (email_id : string) (seen : list string) (l : list ParsedAttachment) (fs : gmap string bytes)
  : list (string -> InboundAttachment) * gmap string bytes :=
  match l with
  | [] => ([], fs)
  | a :: l =>
      if String.eqb (sanitize_extension (filename a)) "bin" then _store_attachments email_id seen l fs
      else
        match put base_path sha256_hex enforce email_id (filename a) (content a) fs with
        | (Raise _, fs) => _store_attachments email_id seen l fs
        | (Ok s, fs) =>
            if existsb (String.eqb (sha256 s)) seen then _store_attachments email_id seen l fs
            else let '(rows, fs) := _store_attachments email_id (sha256 s :: seen) l fs in
                 (stored_row email_id a s :: rows, fs)
        end
  end.

(** [session.add(row)] for each row, and the flush that numbers them. *)
Fixpoint number (n : nat) (rows : list (string -> InboundAttachment)) : list InboundAttachment :=
  match rows with
  | [] => []
  | r :: rows => r (uuid n) :: number (S n) rows
  end.

(** services/inbound_email_service.py:399-415, [ingest]: the new row. *)
Definition new_email (now : Z) (id tenant_id to_addr : string) (score : Z) (p : ParsedEmail) : InboundEmail :=
  {| em_id := id; em_tenant_id := tenant_id; message_id := pe_message_id p; in_reply_to := pe_in_reply_to p;
     from_address := lower (pe_from_address p); from_name := pe_from_name p; to_address := to_addr;
     cc_addresses := pe_cc_addresses p; subject := pe_subject p; received_at := now; raw_body_text := pe_text_body p;
     raw_body_html := pe_html_body p; em_headers := pe_headers p; spam_score := score; em_status := PARSING;
     routing_error := None; attachment_count := Z.of_nat (length (pe_attachments p)); draft_submission_id := None;
     draft_supplier_id := None; raw_storage_url := None |}.

(** services/inbound_email_service.py:368-390, [ingest]: the tenant of the
    recipient address and its routing token; [compare_digest] of two strings
    raises [TypeError] when one is not ASCII. *)
Definition addressed_tenant (p : ParsedEmail) : IM (InboundTenant * string) :=
  let* parsed := match parse_to_address (pe_to_address p) (inbound_email_domain cfg) with
                 | Ok x => ret x
                 | Raise e => raise e
                 end in
  let '(to_addr, slug, presented_token) := parsed in
  let* tenant := _resolve_tenant slug in
  match opt_truthy (inbound_secret_token tenant) with
  | None => ret (tenant, to_addr)
  | Some expected =>
      match presented_token with
      | None => raise (TenantNotFound "routing token missing or invalid")
      | Some t =>
          raise_if (negb (sall (in_range 0 127) t && sall (in_range 0 127) expected)) (OtherException "TypeError") ;;;
          raise_if (negb (String.eqb t expected)) (TenantNotFound "routing token missing or invalid") ;;;
          ret (tenant, to_addr)
      end
  end.

(** services/inbound_email_service.py:416-425, [ingest]: the flush of the new row.
    [others] are rows that other sessions have committed since the check; the
    unique constraint on [message_id] refuses a second row, and then the winner
    is fetched. *)
Definition insert_email (others : list InboundEmail) (e : InboundEmail) : IM (option InboundEmail) :=
  let arrived := with_emails (fun l => l ++ others) in
  on_db (modify (fun s => Session (arrived (working s)) (arrived (committed s)))) ;;;
  let* taken := on_db (query (_existing_email (message_id e))) in
  match taken with
  | Some _ =>
      on_db rollback ;;;
      let* winner := on_db (query (_existing_email (message_id e))) in
      let* row := or_raise winner (OtherException "IntegrityError") in
      ret (Some row)
  | None => on_db (write (fun db => bump_ids 1 (with_emails (fun l => l ++ [e]) db))) ;;; ret None
  end.

(** services/inbound_email_service.py:427-446, [ingest]: files, attachments,
    quarantine or routing, commit. *)
Definition finish_email (now : Z) (e : InboundEmail) (p : ParsedEmail) : IM (InboundEmail * bool) :=
  let* url := match opt_truthy (pe_raw_bytes p) with
              | Some raw => on_files (fun fs => let '(u, fs) := put_raw_email base_path (em_id e) raw fs in (Some u, fs))
              | None => ret None
              end in
  let* pending := on_files (_store_attachments (em_id e) [] (pe_attachments p)) in
  let* n := on_db (query next_id) in
  let rows := number n pending in
  on_db (write (fun db => bump_ids (length rows) (with_attachments (fun l => l ++ rows) db))) ;;;
  let e := set_stored url (Z.of_nat (length rows)) e in
  on_db (write (with_emails (update_email (em_id e) (fun _ => e)))) ;;;
  (if QUARANTINE_THRESHOLD <=? spam_score e
   then on_db (write (with_emails (update_email (em_id e)
          (set_status QUARANTINED (Some ("auto_quarantined: spam_score=" +:+ score_repr (spam_score e)))))))
   else on_db (_route uuid re_search now e rows)) ;;;
  on_db commit ;;;
  let* row := on_db (query (reload (em_id e) e)) in
  ret (row, false).

(** services/inbound_email_service.py, [ingest]. *)
Definition ingest (others : list InboundEmail) (now : Z) (p : ParsedEmail) : IM (InboundEmail * bool) :=
  raise_if (negb (inbound_email_enabled cfg)) (InboundIngestError "disabled") ;;;
  let* existing := on_db (query (_existing_email (pe_message_id p))) in
  match existing with
  | Some row => ret (row, true)
  | None =>
      _enforce_size_limits p ;;;
      let* (tenant, to_addr) := addressed_tenant p in
      let score := score_spam repr_other (pe_from_address p) (pe_subject p) (pe_text_body p) (pe_headers p) in
      let* n := on_db (query next_id) in
      let e := new_email now (uuid n) (it_id tenant) to_addr score p in
      let* winner := insert_email others e in
      match winner with
      | Some row => ret (row, true)
      | None => finish_email now e p
      end
  end.
End Ingest.

(** ** Lemmas: routing *)

Section RoutingLemmas.
Context (uuid : nat -> string) (re_search : string -> string -> option bool).

(** The rule of an e-mail is the first of the sorted rules that matches, or the
    fallback when none does. *)
Lemma select_rule_spec l tid from subj kinds :
  let r := select_rule re_search l tid from subj kinds in
  (In r l /\ _rule_matches re_search r from subj kinds = true) \/
  (r = _build_fallback_rule tid /\ forall x, In x l -> _rule_matches re_search x from subj kinds = false).
Proof.
  unfold select_rule. destruct (find_first _ l) as [r|] eqn:Hf; cbn.
  - left. by apply find_first_Some in Hf.
  - right. split; [done|]. by apply find_first_None.
Qed.

Lemma load_rules_In r tid db : In r (_load_rules tid db) <-> In r (rules db) /\ rule_tenant_id r = tid /\ rule_active r = true.
Proof. unfold _load_rules. rewrite isort_In, filter_In, andb_true_iff, String.eqb_eq. tauto. Qed.
End RoutingLemmas.

Lemma readonly_one_or_none {A} (l : list A) : readonly (one_or_none l).
Proof. by destruct l as [|x [|y l]]. Qed.

Lemma one_or_none_Ok {A} (l : list A) s x s' : one_or_none l s = (Ok (Some x), s') -> In x l.
Proof. destruct l as [|y [|z l]]; [done| |done]. intros [= <- <-]. by left. Qed.

Lemma readonly_resolve_by_tag tid subj : readonly (resolve_by_tag tid subj).
Proof.
  unfold resolve_by_tag, query. destruct (opt_truthy subj); [|auto with readonly].
  destruct (supplier_tag _); auto using readonly_one_or_none with readonly.
Qed.

Lemma readonly_resolve_supplier tid from subj : readonly (resolve_supplier tid from subj).
Proof.
  unfold resolve_supplier. apply readonly_bind; [apply readonly_resolve_by_tag|]. intros [p|]; [auto with readonly|].
  apply readonly_bind.
  - destruct (truthy from); unfold query; auto using readonly_one_or_none with readonly.
  - intros [p|]; [auto with readonly|]. destruct (_extract_domain from); unfold query; [|auto with readonly].
    apply readonly_bind; [auto with readonly|]. intros [|p l]; auto with readonly.
Qed.

(** The supplier an e-mail is resolved to is one of the tenant's own. *)
Lemma resolve_supplier_own tid from subj s sup reason s' :
  resolve_supplier tid from subj s = (Ok (Some sup, reason), s') ->
  In sup (in_suppliers (working s)) /\ is_tenant_id sup = tid.
Proof.
  intros Hrun.
  assert (Hown : forall P, In sup (List.filter (fun p => String.eqb (is_tenant_id p) tid && P p) (in_suppliers (working s))) ->
    In sup (in_suppliers (working s)) /\ is_tenant_id sup = tid).
  { intros P [Hin [Ht _]%andb_true_iff]%filter_In. split; [done|by apply String.eqb_eq]. }
  unfold resolve_supplier in Hrun. apply bind_Ok in Hrun as (tagged & s1 & Htag & Hrun).
  pose proof (readonly_run _ _ _ _ (readonly_resolve_by_tag tid subj) Htag) as ->.
  destruct tagged as [p|].
  { injection Hrun as -> _ _. unfold resolve_by_tag in Htag. destruct (opt_truthy subj); [|done].
    destruct (supplier_tag _); [|done]. unfold query in Htag. inv_run Htag. apply one_or_none_Ok in Htag. eapply Hown. exact Htag. }
  apply bind_Ok in Hrun as (exact & s2 & Hex & Hrun).
  assert (Hs2 : s2 = s).
  { destruct (truthy from); [|by injection Hex as _ <-].
    eapply readonly_run; [|exact Hex]. unfold query. auto using readonly_one_or_none with readonly. }
  subst s2. destruct exact as [p|].
  { injection Hrun as -> _ _. destruct (truthy from); [|done]. unfold query in Hex. inv_run Hex.
    apply one_or_none_Ok in Hex. eapply Hown. exact Hex. }
  destruct (_extract_domain from) as [domain|]; [|done]. unfold query in Hrun. inv_run Hrun.
  destruct (List.filter _ _) as [|p l] eqn:Hf; [done|]. injection Hrun as <- _ _.
  match type of Hf with ?l = _ => assert (Hi : In p l) by (rewrite Hf; by left) end. eapply Hown. exact Hi.
Qed.

(** A draft that a router adds. *)
Definition with_draft (d : option SupplierSubmission) (db : InboundDB) : InboundDB :=
  match d with Some sub => bump_ids 1 (with_drafts (fun l => l ++ [sub]) db) | None => db end.

(** The draft is blocked, belongs to the tenant of the e-mail, and is for one of
    that tenant's suppliers. *)
Definition own_draft (e : InboundEmail) (db : InboundDB) (sub : SupplierSubmission) : Prop :=
  status sub = BLOCKED /\ sub_tenant_id sub = em_tenant_id e /\
  exists sup, In sup (in_suppliers db) /\ is_tenant_id sup = em_tenant_id e /\ is_id sup = supplier_id sub.

(** What the action of the selected rule makes of an e-mail: a status and
    perhaps a draft. *)
Definition outcome_of (a : InboundRuleAction) (d : option SupplierSubmission) (st : InboundEmailStatus) : Prop :=
  match a with
  | CREATE_SUBMISSION => st = ROUTED \/ st = E_FAILED /\ d = None
  | QUARANTINE => st = QUARANTINED /\ d = None
  | DISCARD | TAG_ONLY => st = ROUTED /\ d = None
  end.

Section RouteRun.
Context (uuid : nat -> string) (re_search : string -> string -> option bool).

Lemma router_run a now e atts s r s' :
  get_router uuid a now e atts s = (r, s') ->
  committed s' = committed s /\ exists d, working s' = with_draft d (working s) /\
    match d with Some sub => own_draft e (working s) sub | None => True end /\
    match r with
    | Ok res => rr_draft_submission_id res = option_map sub_id d /\
        match a with
        | CREATE_SUBMISSION => rr_status res = "routed"
        | QUARANTINE => rr_status res = "quarantined" /\ d = None
        | _ => rr_status res = "routed" /\ d = None
        end
    | Raise _ => d = None /\ a = CREATE_SUBMISSION
    end.
Proof.
  intros Hrun. destruct a; cbn [get_router] in Hrun;
    try (injection Hrun as <- <-; split; [done|]; exists None; by split_and!).
  unfold submission_creator_route in Hrun. unfold bind at 1 in Hrun.
  pose proof (readonly_resolve_supplier (em_tenant_id e) (from_address e) (subject e) s) as Hro.
  destruct (resolve_supplier _ _ _ s) as [[[sup reason]|exc] s1] eqn:Hres; cbn in Hro; rewrite Hro in *; clear Hro s1;
    [|injection Hrun as <- <-; split; [done|]; by exists None].
  destruct sup as [sup|]; [|injection Hrun as <- <-; split; [done|]; exists None; by split_and!].
  apply resolve_supplier_own in Hres as [Hin Ht]. unfold bind at 1, query at 1, reads at 1 in Hrun.
  destruct (in_portals (working s)) as [|portal l];
    [injection Hrun as <- <-; split; [done|]; exists None; by split_and!|].
  unfold bind, query, reads, write, modify, ret in Hrun. injection Hrun as <- <-. split; [done|].
  eexists (Some _). split_and!; [reflexivity| |done|done]. split_and!; [done|done|]. by exists sup.
Qed.

(** The rule that is selected for an e-mail and its stored attachments. *)
Definition rule_for (e : InboundEmail) (atts : list InboundAttachment) (db : InboundDB) : InboundRoutingRule :=
  select_rule re_search (_load_rules (em_tenant_id e) db) (em_tenant_id e) (from_address e) (subject e)
    (_attachment_kinds (map at_filename atts)).

(** What routing leaves: the row of the e-mail with a final status, and at most
    one draft, which the row names. *)
Lemma route_run now e atts s r s' :
  _route uuid re_search now e atts s = (r, s') ->
  r = Ok tt /\ committed s' = committed s /\ exists d f,
    working s' = with_emails (update_email (em_id e) f) (with_draft d (working s)) /\
    match d with Some sub => own_draft e (working s) sub | None => True end /\
    (forall x, em_id (f x) = em_id x /\ message_id (f x) = message_id x /\ em_tenant_id (f x) = em_tenant_id x /\
       In (em_status (f x)) [ROUTED; E_FAILED; QUARANTINED] /\
       ((em_status (f x) = E_FAILED /\ d = None) \/ draft_submission_id (f x) = option_map sub_id d) /\
       outcome_of (action (rule_for e atts (working s))) d (em_status (f x))).
Proof.
  unfold _route. unfold bind at 1, query at 1, reads at 1. unfold try_else. fold (rule_for e atts (working s)).
  set (rule := rule_for e atts (working s)).
  destruct (get_router uuid (action rule) now e atts s) as [[res|exc] s1] eqn:Hg;
    apply router_run in Hg as (Hc & d & Hw & Hown & Hd & Hst); intros [= <- <-]; (split; [done|]); (split; [done|]);
    exists d; eexists; (split; [cbn; by rewrite Hw|]); (split; [done|]); intros x; split_and!; try done; cbn.
  - repeat (destruct (String.eqb _ _); [cbn; tauto|]). cbn. tauto.
  - by right.
  - destruct (action rule); [rewrite Hst; by left|destruct Hst as [-> Hst]; by split..].
  - tauto.
  - by left.
  - rewrite Hst. by right.
Qed.
End RouteRun.

(** ** Lemmas: ingestion *)

Lemma readonly_on_db {A} (m : M (session InboundDB) inbound_error A) : readonly m -> readonly (on_db m).
Proof. intros Hm [s fs]. unfold on_db. specialize (Hm s). cbn in *. destruct (m s) as [r s']. cbn in *. by subst. Qed.
#[local] Hint Resolve readonly_on_db : readonly.

Lemma update_email_update i f g l :
  (forall x, em_id x = i -> em_id (g x) = i) -> update_email i f (update_email i g l) = update_email i (fun x => f (g x)) l.
Proof.
  intros Hg. unfold update_email. rewrite map_map. apply map_ext. intros x.
  destruct (String.eqb_spec (em_id x) i) as [Hx|Hx]; [by rewrite Hg, String.eqb_refl|by apply String.eqb_neq in Hx as ->].
Qed.

Lemma update_email_const i x e l :
  In e l -> em_id e = i -> em_id x = i ->
  find_first (fun e => String.eqb (em_id e) i) (update_email i (fun _ => x) l) = Some x.
Proof.
  intros Hin He Hx. induction l as [|y l IH]; cbn; [done|]. destruct (String.eqb (em_id y) i) eqn:Hy.
  - by rewrite Hx, String.eqb_refl.
  - rewrite Hy. destruct Hin as [->|Hin]; [|by apply IH]. by rewrite He, String.eqb_refl in Hy.
Qed.

(** Rows are told apart by their key. *)
Lemma update_email_map {A} (f : InboundEmail -> A) i x e l :
  (forall y, In y l -> em_id y = i -> y = e) -> f x = f e -> map f (update_email i (fun _ => x) l) = map f l.
Proof.
  intros Hu Hx. unfold update_email. induction l as [|y l IH]; cbn; [done|]. rewrite IH by (intros z Hz; apply Hu; by right).
  destruct (String.eqb_spec (em_id y) i) as [Hy|]; [|done]. rewrite Hx, (Hu y); [done|by left|done].
Qed.

Section IngestLemmas.
Context (uuid : nat -> string) (re_search : string -> string -> option bool).
Context (base_path : string) (sha256_hex : bytes -> string) (enforce : bytes -> result av_error ScanReport).
Local Abbreviation finish_email := (finish_email uuid re_search base_path sha256_hex enforce).

(** What is true of a row that went through the pipeline. *)
Definition settled (e x : InboundEmail) : Prop :=
  em_id x = em_id e /\ message_id x = message_id e /\ em_tenant_id x = em_tenant_id e /\
  In (em_status x) [ROUTED; E_FAILED; QUARANTINED].

Lemma finish_email_run now e p s fs r st' :
  In e (emails (working s)) -> finish_email now e p (s, fs) = (r, st') ->
  exists x rows d W, r = Ok (x, false) /\ st'.1 = Session W W /\ settled e x /\
    emails W = update_email (em_id e) (fun _ => x) (emails (working s)) /\
    attachments W = attachments (working s) ++ rows /\
    rows = number uuid (next_id (working s)) (fst (_store_attachments base_path sha256_hex enforce (em_id e) [] (pe_attachments p)
             (match opt_truthy (pe_raw_bytes p) with
              | Some raw => snd (put_raw_email base_path (em_id e) raw fs) | None => fs end))) /\
    drafts W = drafts (working s) ++ match d with Some sub => [sub] | None => [] end /\
    match d with Some sub => own_draft e (working s) sub | None => True end /\
    (QUARANTINE_THRESHOLD <= spam_score e -> d = None /\ em_status x = QUARANTINED) /\
    (forall sub, d = Some sub -> draft_submission_id x = Some (sub_id sub)) /\ (next_id (working s) <= next_id W)%nat /\
    (spam_score e < QUARANTINE_THRESHOLD -> outcome_of (action (rule_for re_search e rows (working s))) d (em_status x)).
Proof.
  intros Hin Hrun. unfold InboundEmail.finish_email in Hrun.
  set (fs1 := match opt_truthy (pe_raw_bytes p) with
              | Some raw => snd (put_raw_email base_path (em_id e) raw fs) | None => fs end) in *.
  assert (Hurl : exists url, match opt_truthy (pe_raw_bytes p) with
              | Some raw => on_files (fun fs => let '(u, fs) := put_raw_email base_path (em_id e) raw fs in (Some u, fs))
              | None => ret None end (s, fs) = (Ok url, (s, fs1))).
  { unfold fs1. destruct (opt_truthy (pe_raw_bytes p)); [|by eexists]. cbn. by eexists. }
  destruct Hurl as [url Hurl]. unfold bind at 1 in Hrun. rewrite Hurl in Hrun.
  unfold bind at 1, on_files in Hrun. cbn [fst snd] in Hrun.
  destruct (_store_attachments base_path sha256_hex enforce (em_id e) [] (pe_attachments p) fs1) as [pending fs2] eqn:Hst.
  unfold bind at 1, on_db at 1, query at 1, reads at 1 in Hrun. cbn [fst snd] in Hrun.
  set (rows := number uuid (next_id (working s)) pending) in *. unfold bind at 1, on_db at 1, write at 1, modify at 1 in Hrun.
  cbn [fst snd] in Hrun. set (e1 := set_stored url (Z.of_nat (length rows)) e) in *.
  change (em_id e1) with (em_id e) in Hrun. change (spam_score e1) with (spam_score e) in Hrun.
  unfold bind at 1, on_db at 1, write at 1, modify at 1 in Hrun. cbn [fst snd working committed] in Hrun.
  set (w1 := with_emails (update_email (em_id e) (fun _ => e1)) _) in Hrun.
  assert (Hgoal : exists r2 s2, (if QUARANTINE_THRESHOLD <=? spam_score e
      then on_db (write (with_emails (update_email (em_id e)
             (set_status QUARANTINED (Some ("auto_quarantined: spam_score=" +:+ score_repr (spam_score e)))))))
      else on_db (_route uuid re_search now e1 rows)) (Session w1 (committed s), fs2) = (r2, (s2, fs2)) /\ r2 = Ok tt /\
    exists d f, working s2 = with_emails (update_email (em_id e) f) (with_draft d w1) /\
      match d with Some sub => own_draft e (working s) sub | None => True end /\
      settled e1 (f e1) /\ (QUARANTINE_THRESHOLD <= spam_score e -> d = None /\ em_status (f e1) = QUARANTINED) /\
      (forall sub, d = Some sub -> draft_submission_id (f e1) = Some (sub_id sub)) /\
      (spam_score e < QUARANTINE_THRESHOLD -> outcome_of (action (rule_for re_search e rows (working s))) d (em_status (f e1)))).
  { destruct (Z.leb_spec QUARANTINE_THRESHOLD (spam_score e)) as [Hle|Hlt].
    - eexists _, _. split; [reflexivity|]. split; [done|]. exists None. eexists. split; [reflexivity|]. split_and!; try done; [|lia].
      split_and!; try done. cbn. tauto.
    - unfold on_db. cbn [fst snd]. destruct (_route uuid re_search now e1 rows (Session w1 (committed s))) as [r2 s2] eqn:Hr.
      apply route_run in Hr as (-> & _ & d & f & Hw & Hown & Hf). eexists _, _. split; [reflexivity|]. split; [done|].
      exists d, f. split; [done|]. destruct (Hf e1) as (H1 & H2 & H3 & H4 & H5 & H6).
      split_and!; [by destruct d|by split_and!|lia| |done]. intros sub ->. by destruct H5 as [[_ ?]|H5]. }
  destruct Hgoal as (r2 & s2 & Hg & -> & d & f & Hw & Hown & Hset & Hq & Hd & Hrule). unfold bind at 1 in Hrun. rewrite Hg in Hrun.
  unfold bind, on_db, commit, modify, query, reads, ret in Hrun. cbn [fst snd working committed] in Hrun. injection Hrun as <- <-.
  assert (Hem : emails (working s2) = update_email (em_id e) (fun _ => f e1) (emails (working s))).
  { rewrite Hw. destruct d; unfold w1; cbn [with_emails with_draft emails bump_ids with_drafts with_attachments]; by rewrite update_email_update. }
  exists (f e1), rows, d, (working s2). destruct Hset as (Hid & Hmid & Htid & Hstt).
  split_and!; try done.
  - unfold reload. rewrite Hem. rewrite (update_email_const _ _ e); [done|done|done|by rewrite Hid].
  - rewrite Hw. by destruct d.
  - rewrite Hw. destruct d; cbn; [done|by rewrite app_nil_r].
  - rewrite Hw. destruct d; unfold w1; cbn; lia.
Qed.
End IngestLemmas.

Section IngestTheorems.
Context (cfg : inbound_settings).
Context (uuid : nat -> string) (re_search : string -> string -> option bool) (repr_other : json -> string).
Context (base_path : string) (sha256_hex : bytes -> string) (enforce : bytes -> result av_error ScanReport).
Local Abbreviation ingest := (ingest cfg uuid re_search repr_other base_path sha256_hex enforce).

Lemma readonly_limits p : readonly (_enforce_size_limits cfg p).
Proof. unfold _enforce_size_limits. auto with readonly. Qed.

Lemma readonly_resolve_tenant slug : readonly (_resolve_tenant slug).
Proof. unfold _resolve_tenant, query. auto 8 with readonly. Qed.

Lemma readonly_addressed p : readonly (addressed_tenant cfg p).
Proof.
  unfold addressed_tenant. apply readonly_bind; [destruct (parse_to_address _ _); auto with readonly|].
  intros [[to slug] tok]. apply readonly_bind; [apply readonly_resolve_tenant|intros t].
  destruct (opt_truthy _); [|auto with readonly]. destruct tok; auto 8 with readonly.
Qed.

(** The tenant an e-mail is addressed to is active, and its routing token, if it
    has one, is the lower-cased tag of the address. *)
Lemma addressed_tenant_Ok p s t to_addr s' :
  addressed_tenant cfg p s = (Ok (t, to_addr), s') ->
  In t (in_tenants (working s.1)) /\ it_is_active t = true /\
  forall expected, opt_truthy (inbound_secret_token t) = Some expected -> lowered expected.
Proof.
  unfold addressed_tenant. intros Hrun. apply bind_Ok in Hrun as ([[to slug] tok] & s1 & Hp & Hrun).
  assert (Hpa : parse_to_address (pe_to_address p) (inbound_email_domain cfg) = Ok (to, slug, tok) /\ s1 = s).
  { destruct (parse_to_address _ _); [injection Hp as -> ->|discriminate Hp]. done. }
  destruct Hpa as [Hpa ->]. apply bind_Ok in Hrun as (t1 & s2 & Ht & Hrun).
  pose proof (readonly_run _ _ _ _ (readonly_resolve_tenant slug) Ht) as ->.
  unfold _resolve_tenant, on_db, query, reads in Ht. unfold bind at 1 in Ht. cbn [fst] in Ht.
  destruct (find_first _ _) as [t2|] eqn:Hf; [|done]. apply find_first_Some in Hf as [Hin _].
  unfold or_raise, raise_if, bind, ret, raise in Ht. destruct (it_is_active t2) eqn:Hact; [|done].
  assert (t1 = t2) as -> by (cbn in Ht; congruence).
  destruct (opt_truthy (inbound_secret_token t2)) as [expected|] eqn:Hexp.
  - destruct tok as [tk|]; [|done]. inv_run Hrun.
    match goal with H : negb (String.eqb tk expected) = false |- _ => apply negb_false_iff, String.eqb_eq in H as -> end.
    assert (t = t2) as -> by congruence. split_and!; [done|done|]. intros ex Hex. rewrite Hexp in Hex. injection Hex as <-.
    by eapply shared_token_lowered.
  - injection Hrun as <- _ _. split_and!; [done|done|]. intros ex Hex. congruence.
Qed.

(** Other sessions' rows and the drawn key do not clash. *)
Definition inbox_ok (others : list InboundEmail) (db : InboundDB) : Prop :=
  List.NoDup (map message_id (emails db ++ others)) /\ ~ In (uuid (next_id db)) (map em_id (emails db ++ others)).

Lemma existing_email_unique mid db e :
  List.NoDup (map message_id (emails db)) -> In e (emails db) -> message_id e = mid -> _existing_email mid db = Some e.
Proof.
  intros Hnd Hin <-. unfold _existing_email. induction (emails db) as [|x l IH]; [done|]. cbn in *. inversion Hnd as [|? ? Hx Hl]; subst.
  destruct (String.eqb_spec (message_id x) (message_id e)) as [Heq|Hne].
  - destruct Hin as [->|Hin]; [done|]. destruct Hx. rewrite Heq. by apply in_map.
  - destruct Hin as [->|Hin]; [done|by apply IH].
Qed.

Definition email_keys (l : list InboundEmail) : list (string * string) := map (fun e => (em_id e, message_id e)) l.

(** What a delivery does: it returns the row of its message, which is committed;
    only a new message changes anything. *)
Lemma ingest_run others now p db fs row dup st' :
  inbox_ok others db -> ingest others now p (Session db db, fs) = (Ok (row, dup), st') ->
  exists W, st'.1 = Session W W /\ List.NoDup (map message_id (emails W)) /\ In row (emails W) /\
    message_id row = pe_message_id p /\
    (if dup : bool then drafts W = drafts db /\ attachments W = attachments db /\ st'.2 = fs /\ next_id W = next_id db /\
       (emails W = emails db \/ emails W = emails db ++ others)
     else email_keys (emails W) = email_keys (emails db ++ others) ++ [(uuid (next_id db), pe_message_id p)] /\
       (next_id db < next_id W)%nat /\ (forall e, In e (emails db) -> message_id e <> pe_message_id p) /\
       exists e t, spam_score e = score_spam repr_other (pe_from_address p) (pe_subject p) (pe_text_body p) (pe_headers p) /\
         em_tenant_id e = it_id t /\ In t (in_tenants db) /\ it_is_active t = true /\
         (forall expected, opt_truthy (inbound_secret_token t) = Some expected -> lowered expected) /\
         exists d, settled e row /\ (forall sub, d = Some sub -> draft_submission_id row = Some (sub_id sub)) /\
           drafts W = drafts db ++ match d with Some sub => [sub] | None => [] end /\
           match d with Some sub => own_draft e db sub | None => True end /\
           (QUARANTINE_THRESHOLD <= spam_score e -> d = None /\ em_status row = QUARANTINED) /\
           exists rows, attachments W = attachments db ++ rows /\
             (spam_score e < QUARANTINE_THRESHOLD ->
              outcome_of (action (select_rule re_search (_load_rules (it_id t) db) (it_id t) (lower (pe_from_address p))
                (pe_subject p) (_attachment_kinds (map at_filename rows)))) d (em_status row))).
Proof.
  intros [Hnd Hfresh] Hrun. rewrite map_app in Hfresh. unfold InboundEmail.ingest in Hrun.
  apply bind_Ok in Hrun as (u & s1 & Hen & Hrun). apply raise_if_Ok in Hen as [_ ->].
  apply bind_Ok in Hrun as (existing & s1 & Hex & Hrun). injection Hex as <- <-. cbn [working] in Hrun.
  destruct (_existing_email (pe_message_id p) db) as [found|] eqn:Hfound.
  { injection Hrun as <- <- <-. apply find_first_Some in Hfound as [Hin Hm%String.eqb_eq].
    exists db. split_and!; try done; [rewrite map_app in Hnd; by apply List.NoDup_app_remove_r in Hnd|by left]. }
  apply bind_Ok in Hrun as (u1 & s1 & Hlim & Hrun).
  pose proof (readonly_run _ _ _ _ (readonly_limits p) Hlim) as ->.
  apply bind_Ok in Hrun as ([t to_addr] & s1 & Haddr & Hrun).
  pose proof (readonly_run _ _ _ _ (readonly_addressed p) Haddr) as ->.
  apply addressed_tenant_Ok in Haddr as (Hint & Hact & Htok). cbn [fst working] in Hint.
  apply bind_Ok in Hrun as (n & s1 & Hn & Hrun). injection Hn as <- <-. cbn [working] in Hrun.
  match type of Hrun with context [new_email ?x1 ?x2 ?x3 ?x4 ?x5 ?x6] => set (e := new_email x1 x2 x3 x4 x5 x6) in * end.
  apply bind_Ok in Hrun as (winner & s1 & Hins & Hrun). unfold insert_email in Hins.
  set (db1 := with_emails (fun l => l ++ others) db) in *.
  unfold bind at 1, on_db at 1, modify at 1 in Hins. cbn [fst snd working committed] in Hins. fold db1 in Hins.
  unfold bind at 1, on_db at 1, query at 1, reads at 1 in Hins. cbn [fst snd working] in Hins.
  destruct (_existing_email (message_id e) db1) as [found|] eqn:Hwin.
  - unfold bind, on_db, rollback, modify, query, reads, or_raise in Hins. cbn [fst snd working committed] in Hins.
    rewrite Hwin in Hins. cbn in Hins. injection Hins as <- <-. injection Hrun as <- <- <-.
    apply find_first_Some in Hwin as [Hin Hm%String.eqb_eq]. exists db1. split_and!; try done. by right.
  - unfold bind, on_db, write, modify, ret in Hins. cbn in Hins. injection Hins as <- <-.
    set (db2 := bump_ids 1 (with_emails (fun l => l ++ [e]) db1)) in *.
    apply finish_email_run in Hrun as (x & rows & d & W & [= -> ->] & Hst & Hset & Hem & Hatt & _ & Hd & Hown & Hq & Hdid & Hnext & Hrule);
      [|cbn; rewrite in_app_iff; right; by left].
    cbn [working] in *. pose proof Hset as (Hid & Hmid & _ & _).
    assert (Huniq : forall y, In y (emails db2) -> em_id y = em_id e -> y = e).
    { intros y. cbn. rewrite in_app_iff. intros [Hy|[->|[]]] Hye; [|done]. destruct Hfresh. rewrite <- map_app.
      rewrite <- Hye. by apply in_map. }
    exists W. split; [done|]. split; [|split; [|split; [by rewrite Hmid|split; [|split; [|split]]]]].
    + rewrite Hem, (update_email_map message_id _ _ e) by done. cbn. rewrite map_app. cbn.
      apply (Permutation_NoDup (l := message_id e :: map message_id (emails db ++ others))); [apply Permutation_cons_append|].
      constructor; [|done]. intros (y & Hy & Hin)%in_map_iff. unfold _existing_email in Hwin. rewrite find_first_None in Hwin.
      specialize (Hwin y Hin). by rewrite Hy, String.eqb_refl in Hwin.
    + rewrite Hem. assert (Hf : find_first (fun z => String.eqb (em_id z) (em_id e)) (update_email (em_id e) (fun _ => x) (emails db2)) = Some x).
      { apply (update_email_const _ _ e); [cbn; rewrite in_app_iff; right; by left|done|done]. }
      apply find_first_Some in Hf as [Hf _]. exact Hf.
    + unfold email_keys. rewrite Hem, (update_email_map _ _ _ e) by (done || by rewrite Hid, Hmid). cbn. by rewrite map_app.
    + unfold db2, db1 in Hnext. cbn in Hnext. lia.
    + intros y Hy Hym. unfold _existing_email in Hfound. rewrite find_first_None in Hfound.
      specialize (Hfound y Hy). by rewrite Hym, String.eqb_refl in Hfound.
    + exists e, t. split_and!; try done. exists d. split_and!; try done. by exists rows.
Qed.

(** Once the table has the row of a message, a delivery of it is a duplicate. *)
Lemma ingest_again others now p row W fs :
  inbound_email_enabled cfg = true -> List.NoDup (map message_id (emails W)) -> In row (emails W) ->
  pe_message_id p = message_id row ->
  ingest others now p (Session W W, fs) = (Ok (row, true), (Session W W, fs)).
Proof.
  intros Hen Hnd Hin Hp. unfold InboundEmail.ingest. rewrite Hen. cbn [negb raise_if]. unfold bind, ret, on_db, query, reads.
  cbn. by rewrite (existing_email_unique _ _ row).
Qed.

Lemma ingest_enabled others now p s x st' : ingest others now p s = (Ok x, st') -> inbound_email_enabled cfg = true.
Proof. unfold InboundEmail.ingest. by destruct (inbound_email_enabled cfg). Qed.

(** Deliveries of a message are exactly once.  An ingestion that returns
    answers with the committed row of the message; afterwards no two rows share a
    message id, and every later delivery of that message - at any time, with
    whatever other content, attachments and concurrent deliveries - returns that
    same row as a duplicate and changes neither the tables nor the files. *)
Theorem ingest_exactly_once others now p db fs row dup st' :
  inbox_ok others db -> ingest others now p (Session db db, fs) = (Ok (row, dup), st') ->
  message_id row = pe_message_id p /\
  exists W, st'.1 = Session W W /\ In row (emails W) /\ List.NoDup (map message_id (emails W)) /\
    forall others' now' p', pe_message_id p' = message_id row ->
      ingest others' now' p' st' = (Ok (row, true), st').
Proof.
  intros Hok Hrun. destruct (ingest_run others now p db fs row dup st' Hok Hrun) as (W & Hst & Hnd & Hin & Hm & _).
  split; [done|]. exists W. split_and!; try done. intros others' now' p' Hp. destruct st' as [s' fs']. cbn in Hst. subst s'.
  apply ingest_again; try done. by eapply ingest_enabled.
Qed.

(** C20. The outcome of a new message.  The row belongs to an active tenant.  A
    message whose spam score reaches the threshold is quarantined and drafts
    nothing.  Any other is settled by the first active rule of the tenant that
    matches the sender, the subject and the kinds of the attachments stored (or by the
    fallback rule): [create_submission] ends routed, with at most one submission
    drafted, or failed with none; [quarantine] ends quarantined; [tag_only] and
    [discard] both end routed and draft nothing - for [discard] the lifecycle in
    docs/INBOUND_EMAIL.md has status discarded, which the code never sets.  A
    draft is blocked, belongs to the row's tenant and is for one of that
    tenant's own suppliers, and the row names it. *)
Theorem ingest_outcome others now p db fs row st' :
  inbox_ok others db -> ingest others now p (Session db db, fs) = (Ok (row, false), st') ->
  exists t d rows, In t (in_tenants db) /\ it_is_active t = true /\ em_tenant_id row = it_id t /\
    drafts (committed st'.1) = drafts db ++ match d with Some sub => [sub] | None => [] end /\
    attachments (committed st'.1) = attachments db ++ rows /\
    match d with
    | Some sub => status sub = BLOCKED /\ sub_tenant_id sub = it_id t /\ draft_submission_id row = Some (sub_id sub) /\
        exists sup, In sup (in_suppliers db) /\ is_tenant_id sup = it_id t /\ is_id sup = supplier_id sub
    | None => True
    end /\
    if QUARANTINE_THRESHOLD <=? score_spam repr_other (pe_from_address p) (pe_subject p) (pe_text_body p) (pe_headers p)
    then d = None /\ em_status row = QUARANTINED
    else match action (select_rule re_search (_load_rules (it_id t) db) (it_id t) (lower (pe_from_address p)) (pe_subject p)
                         (_attachment_kinds (map at_filename rows))) with
         | CREATE_SUBMISSION => em_status row = ROUTED \/ em_status row = E_FAILED /\ d = None
         | QUARANTINE => em_status row = QUARANTINED /\ d = None
         | DISCARD | TAG_ONLY => em_status row = ROUTED /\ d = None
         end.
Proof.
  intros Hok Hrun. destruct (ingest_run others now p db fs row false st' Hok Hrun)
    as (W & Hst & _ & _ & _ & _ & _ & _ & e & t & Hsc & Het & Hint & Hact & _ & d & (_ & _ & Hrt & Hs) & Hdid & Hd & Hown & Hq & rows & Hatt & Hrule).
  exists t, d, rows. rewrite Hst. cbn. rewrite <- Hsc. split_and!; try done; [by rewrite Hrt| |].
  - destruct d as [sub|]; [|done]. destruct Hown as (H1 & H2 & sup & H3 & H4 & H5). rewrite Het in *.
    split_and!; [done|done|by apply Hdid|by exists sup].
  - destruct (Z.leb_spec QUARANTINE_THRESHOLD (spam_score e)); [by apply Hq|by apply Hrule].
Qed.

(** Mail to a tenant whose routing token has a capital letter is never
    accepted: the address is lower-cased before the token is read from it.  Every
    new message that is ingested belongs to a tenant without a routing token or
    with one that has no capital letter - and the tokens the model draws are
    URL-safe base 64, with capitals. *)
Theorem capital_tokens_never_route others now p db fs row st' :
  inbox_ok others db -> ingest others now p (Session db db, fs) = (Ok (row, false), st') ->
  exists t, In t (in_tenants db) /\ it_id t = em_tenant_id row /\
    forall token, inbound_secret_token t = Some token -> token <> "" -> lowered token.
Proof.
  intros Hok Hrun. destruct (ingest_run others now p db fs row false st' Hok Hrun)
    as (W & _ & _ & _ & _ & _ & _ & _ & e & t & _ & Het & Hint & _ & Htok & d & (_ & _ & Hrt & _) & _).
  exists t. split_and!; [done|by rewrite Hrt|]. intros token Ht Hne. apply Htok. rewrite Ht. cbn.
  by apply truthy_spec in Hne as ->.
Qed.
End IngestTheorems.

(** ** Attachments *)

Section Attachments.
Context (base_path : string) (sha256_hex : bytes -> string) (enforce : bytes -> result av_error ScanReport).
Local Abbreviation store := (_store_attachments base_path sha256_hex enforce).
Local Abbreviation target := (target_path base_path sha256_hex).

(** The bytes passed the gate and the name has an allowed extension. *)
Definition accepted (a : ParsedAttachment) : Prop :=
  (exists report, enforce (content a) = Ok report) /\ In (sanitize_extension (filename a)) ALLOWED_EXTENSIONS.

Lemma write_new_lookup path data fs p d :
  write_new path data fs !! p = Some d -> fs !! p = Some d \/ (p = path /\ d = data).
Proof.
  unfold write_new. destruct (fs !! path) eqn:Hp; [by left|]. intros [[-> ->]|[_ H]]%lookup_insert_Some; auto.
Qed.

Lemma write_new_subseteq path data fs : fs ⊆ write_new path data fs.
Proof. unfold write_new. destruct (fs !! path) eqn:Hp; [done|]. by apply insert_subseteq. Qed.

Lemma write_new_is_Some path data fs : is_Some (write_new path data fs !! path).
Proof. unfold write_new. destruct (fs !! path) eqn:Hp; [by rewrite Hp|]. by rewrite lookup_insert_eq. Qed.

(** What the attachments [l] of an e-mail may leave: the files and the rows come
    from accepted attachments only, and there is one row for each digest. *)
Definition kept_only (eid : string) (l : list ParsedAttachment) (seen : list string) (fs : gmap string bytes)
    (rows : list (string -> InboundAttachment)) (fs' : gmap string bytes) : Prop :=
  fs ⊆ fs' /\
  (forall p d, fs' !! p = Some d ->
     fs !! p = Some d \/ exists a, In a l /\ accepted a /\ d = content a /\ p = target eid (filename a) d) /\
  (forall r, In r rows -> exists a, In a l /\ accepted a /\ is_Some (fs' !! target eid (filename a) (content a)) /\
     forall id, at_sha256 (r id) = sha256_hex (content a) /\ inbound_email_id (r id) = eid /\
       at_storage_url (r id) = "file://" +:+ target eid (filename a) (content a) /\ size_bytes (r id) = slen (content a)) /\
  List.NoDup (map (fun r => at_sha256 (r "")) rows) /\ forall r, In r rows -> ~ In (at_sha256 (r "")) seen.

(** The files that [a] may have added before the others. *)
Definition adds_only (eid : string) (a : ParsedAttachment) (fs fs0 : gmap string bytes) : Prop :=
  fs ⊆ fs0 /\
  forall p d, fs0 !! p = Some d -> fs !! p = Some d \/ (accepted a /\ d = content a /\ p = target eid (filename a) d).

Lemma kept_only_skip eid a l seen fs fs0 rows fs' :
  adds_only eid a fs fs0 -> kept_only eid l seen fs0 rows fs' -> kept_only eid (a :: l) seen fs rows fs'.
Proof.
  intros [Hsub Hnew] (H1 & H2 & H3 & H4 & H5). split_and!; [by etrans| | |done|done].
  - intros p d Hp. destruct (H2 p d Hp) as [Hp0|(x & Hx & Hr)]; [|right; exists x; by split; [right|]].
    destruct (Hnew p d Hp0) as [?|(? & ? & ?)]; [by left|]. right. exists a. split_and!; try done. by left.
  - intros r Hr. destruct (H3 r Hr) as (x & Hx & Hrest). exists x. by split; [right|].
Qed.

Lemma kept_only_row eid a l seen fs fs0 s rows fs' :
  adds_only eid a fs fs0 -> accepted a -> is_Some (fs0 !! target eid (filename a) (content a)) ->
  s = {| storage_url := "file://" +:+ target eid (filename a) (content a); sha256 := sha256_hex (content a);
         stored_size := slen (content a) |} ->
  ~ In (sha256 s) seen -> kept_only eid l (sha256 s :: seen) fs0 rows fs' ->
  kept_only eid (a :: l) seen fs (stored_row eid a s :: rows) fs'.
Proof.
  intros Hadds Hacc [d0 Hd0] -> Hseen (H1 & H2 & H3 & H4 & H5).
  destruct (kept_only_skip eid a l seen fs fs0 rows fs') as (K1 & K2 & K3 & K4 & K5); [done| |].
  { split_and!; try done. intros r Hr Hin. apply (H5 r Hr). by right. }
  split_and!; [done|done| | |].
  - intros r [<-|Hr]; [|by apply K3]. exists a. split_and!; [by left|done| |done].
    exists d0. eapply map_subseteq_spec; [exact H1|done].
  - cbn. constructor; [|done]. intros (r & Hr & Hin)%in_map_iff. apply (H5 r Hin). cbn. by left.
  - intros r [<-|Hr]; [done|by apply K5].
Qed.

Lemma store_attachments_spec eid l : forall seen fs rows fs',
  store eid seen l fs = (rows, fs') -> kept_only eid l seen fs rows fs'.
Proof.
  assert (Hsame : forall a fs, adds_only eid a fs fs) by (split; [done|by left]).
  induction l as [|a l IH]; intros seen fs rows fs'; cbn [_store_attachments].
  { intros [= <- <-]. split_and!; try done; [by left|apply List.NoDup_nil]. }
  destruct (String.eqb_spec (sanitize_extension (filename a)) "bin") as [Hbin|Hbin].
  { intros Hs. by eapply kept_only_skip, IH. }
  unfold put. destruct (enforce (content a)) as [report|exc] eqn:Henf; [|intros Hs; by eapply kept_only_skip, IH].
  assert (Hacc : accepted a) by (split; [by exists report|by apply sanitize_extension_allowed]).
  assert (Hadds : adds_only eid a fs (write_new (target eid (filename a) (content a)) (content a) fs)).
  { split; [apply write_new_subseteq|]. intros p d [?|[-> ->]]%write_new_lookup; [by left|by right]. }
  destruct (existsb _ seen) eqn:Hseen; [intros Hs; by eapply kept_only_skip, IH|].
  destruct (_store_attachments _ _ _ _ _ _ _) as [rows0 fs0] eqn:Hs. intros [= <- <-].
  eapply kept_only_row; [exact Hadds|done|apply write_new_is_Some|done| |by apply IH].
  intros Hin. apply not_true_iff_false in Hseen. apply Hseen, existsb_exists. eexists. split; [exact Hin|apply String.eqb_refl].
Qed.

(** What the attachments of an e-mail leave on disk and in the tables.  No
    file that was there is changed or lost; every new file holds, byte for byte,
    an attachment that passed the antivirus gate and whose name has an allowed
    extension, at the path of its own digest; every row names such a file, with
    its digest and its size; and no two rows of an e-mail have one digest. *)
Theorem attachments_are_gated eid l fs rows fs' n uuid :
  store eid [] l fs = (rows, fs') ->
  fs ⊆ fs' /\
  (forall p d, fs' !! p = Some d -> fs !! p = Some d \/
     exists a, In a l /\ accepted a /\ d = content a /\ p = target eid (filename a) d) /\
  Forall (fun r => inbound_email_id r = eid /\
     exists a, In a l /\ accepted a /\ at_sha256 r = sha256_hex (content a) /\ size_bytes r = slen (content a) /\
       at_storage_url r = "file://" +:+ target eid (filename a) (content a) /\
       is_Some (fs' !! target eid (filename a) (content a))) (number uuid n rows) /\
  List.NoDup (map at_sha256 (number uuid n rows)).
Proof.
  intros (H1 & H2 & H3 & H4 & _)%store_attachments_spec. split_and!; [done|done| |].
  - clear H4. revert n. induction rows as [|r rows IH]; intros n; cbn [number]; constructor.
    + destruct (H3 r) as (a & Ha & Hacc & Hf & Hr); [by left|]. destruct (Hr (uuid n)) as (E1 & E2 & E3 & E4).
      split; [done|]. by exists a.
    + apply IH. intros r' Hr'. apply H3. by right.
  - assert (Hm : map at_sha256 (number uuid n rows) = map (fun r => at_sha256 (r "")) rows); [|by rewrite Hm].
    clear H4. revert n. induction rows as [|r rows IH]; intros n; cbn; [done|]. f_equal.
    + destruct (H3 r) as (a & _ & _ & _ & Hr); [by left|]. by rewrite (proj1 (Hr _)), (proj1 (Hr _)).
    + apply IH. intros r' Hr'. apply H3. by right.
Qed.
End Attachments.

(** ** A small installation *)

Module DemoInbound.
Definition cfg : inbound_settings :=
  {| inbound_email_enabled := true; inbound_email_domain := "in.getonce.com"; inbound_max_email_size_mb := 30;
     inbound_max_attachment_size_mb := 10 |}.
Definition uuid (n : nat) : string := "id" +:+ zpad 3 (Z.of_nat n).
Definition re_search (p s : string) : option bool := Some (contains (lower p) (lower s)).
Definition repr_other (j : json) : string := "".
Definition payload_get (k : string) (s : SupplierSubmission) : option json :=
  snd <$> find_first (fun kv => String.eqb kv.1 k) (payload_json s).
Definition sha (b : bytes) : string := "sha-" +:+ b.
Definition enforce : bytes -> result av_error ScanReport :=
  enforce_clean None None (fun _ => Stream None) (fun _ => "") (fun _ => "") EicarScanner true.

Definition supplier (i t e : string) : InboundSupplier := {| is_id := i; is_tenant_id := t; primary_email := Some e |}.
Definition portal : Portal := {| portal_pk := "portal-1"; platform := CNA; display_name := "CNA"; base_url := None; is_supported := true; risky := false |}.

Definition db : InboundDB :=
  {| emails := []; attachments := []; rules := [];
     in_tenants := [{| it_id := "t1"; it_slug := "acme"; it_is_active := true; inbound_secret_token := Some "tok" |};
                    {| it_id := "t2"; it_slug := "loud"; it_is_active := true; inbound_secret_token := Some "Tok" |}];
     in_suppliers := [supplier "s1" "t1" "ann@x.com"; supplier "s2" "t2" "bob@y.com"];
     in_portals := [portal]; drafts := []; next_id := 0 |}.

Definition mail (from to subj : string) (atts : list (string * bytes)) : ParsedEmail :=
  {| pe_message_id := "m1"; pe_from_address := from; pe_to_address := to; pe_from_name := None; pe_cc_addresses := None;
     pe_subject := Some subj; pe_text_body := Some "hello"; pe_html_body := None; pe_in_reply_to := None; pe_headers := None;
     pe_attachments := map (fun a => {| filename := a.1; content_type := None; content := a.2 |}) atts;
     pe_raw_bytes := Some "raw" |}.

Abbreviation run p := (ingest cfg uuid re_search repr_other "/store" sha enforce [] 100 p (Session db db, ∅)).
Definition first_mail : ParsedEmail :=
  mail "Ann@x.com" "submissions+Tok@acme.in.getonce.com" "Renewal"
    [("coi.pdf", "%PDF-1"); ("again.PDF", "%PDF-1"); ("bad.pdf", EICAR_TEST_STRING); ("run.exe", "MZ")].
(** The first tenant's mail is accepted with a token that has no capital letter. *)
Definition result_of {A} (r : result inbound_error A) (d : A) : A := match r with Ok x => x | Raise _ => d end.
Definition nobody : InboundEmail := new_email 0 "" "" "" 0 first_mail.
Definition row : InboundEmail := (result_of (run first_mail).1 (nobody, true)).1.

Lemma first_mail_run : exists st', run first_mail = (Ok (row, false), st').
Proof. eexists. vm_compute. reflexivity. Qed.

Lemma start_ok : inbox_ok uuid [] db.
Proof. split; [apply List.NoDup_nil|intros []]. Qed.

(** One row and two files remain of four attachments. *)
Example first_mail_outcome :
  map (fun s => (sub_id s, supplier_id s)) (drafts (committed (run first_mail).2.1)) = [("id002", "s1")] /\
  map (fun a => (at_id a, at_filename a)) (attachments (committed (run first_mail).2.1)) = [("id001", "coi.pdf")] /\
  (run first_mail).2.2 !! "/store/id000/sha-%PDF-1.pdf" = Some "%PDF-1" /\ size (run first_mail).2.2 = 2%nat.
Proof. split_and!; vm_compute; reflexivity. Qed.

Lemma ingest_exactly_once_witness : exists W,
  (run first_mail).2.1 = Session W W /\ In row (emails W) /\
  ingest cfg uuid re_search repr_other "/store" sha enforce [] 200 first_mail (run first_mail).2 =
    (Ok (row, true), (run first_mail).2).
Proof.
  destruct first_mail_run as [st' Hrun].
  destruct (ingest_exactly_once cfg uuid re_search repr_other "/store" sha enforce [] 100 first_mail db ∅ row false st'
              start_ok Hrun) as (Hm & W & HW & Hin & _ & Hagain).
  exists W. rewrite Hrun. split; [exact HW|]. split; [exact Hin|]. apply Hagain. symmetry. exact Hm.
Defined.

Lemma attachments_are_gated_witness :
  let '(rows, fs) := _store_attachments "/store" sha enforce "e1" [] (pe_attachments first_mail) ∅ in
  List.NoDup (map at_sha256 (number uuid 7 rows)) /\
  forall p d, fs !! p = Some d -> exists a, In a (pe_attachments first_mail) /\ accepted enforce a /\ d = content a.
Proof.
  destruct (_store_attachments "/store" sha enforce "e1" [] (pe_attachments first_mail) ∅) as [rows fs] eqn:Hs.
  destruct (attachments_are_gated "/store" sha enforce "e1" (pe_attachments first_mail) ∅ rows fs 7 uuid Hs)
    as (_ & Hnew & _ & Hnd).
  split; [exact Hnd|]. intros p d Hp. destruct (Hnew p d Hp) as [Hold|(a & Ha & Hacc & Hd & _)].
  - by rewrite lookup_empty in Hold.
  - exists a. split; [exact Ha|]. split; [exact Hacc|exact Hd].
Defined.

Lemma ingest_outcome_witness : exists sub, drafts (committed (run first_mail).2.1) = [sub] /\ status sub = BLOCKED.
Proof.
  destruct first_mail_run as [st' Hrun].
  destruct (ingest_outcome cfg uuid re_search repr_other "/store" sha enforce [] 100 first_mail db ∅ row st' start_ok Hrun)
    as (t & [sub|] & rows & _ & _ & _ & Hd & _ & Hs & _).
  - exists sub. rewrite Hrun. split; [exact Hd|apply Hs].
  - exfalso. revert Hd. replace st' with (run first_mail).2 by (by rewrite Hrun). vm_compute. discriminate.
Defined.

Lemma capital_tokens_never_route_witness : exists t, it_id t = "t1" /\ forall token,
  inbound_secret_token t = Some token -> token <> "" -> lowered token.
Proof.
  destruct first_mail_run as [st' Hrun].
  destruct (capital_tokens_never_route cfg uuid re_search repr_other "/store" sha enforce [] 100 first_mail db ∅ row st'
              start_ok Hrun) as (t & _ & Hid & Hlow).
  exists t. split; [rewrite Hid; vm_compute; reflexivity|exact Hlow].
Defined.

(** The second tenant's own token is refused: its capital is lost. *)
Example capital_token_refused :
  (run (mail "bob@y.com" "submissions+Tok@loud.in.getonce.com" "Renewal" [])).1 =
  Raise (TenantNotFound "routing token missing or invalid").
Proof. vm_compute. reflexivity. Qed.

(** A retry drafts a second submission for one e-mail. *)
Example retry_drafts_again :
  map (fun s => (sub_id s, payload_get "inbound_email_id" s))
    (drafts (committed (retry_routing uuid re_search 300 "t1" "id000" (run first_mail).2.1).2)) =
  [("id002", Some (JStr "id000")); ("id003", Some (JStr "id000"))].
Proof. vm_compute. reflexivity. Qed.

(** A sender at a domain with a wildcard is taken for a supplier. *)
Example wildcard_domain :
  (submission_creator_route uuid 100
     (new_email 0 "e" "t1" "" 0 (mail "mallory@%" "" "" [])) [] (Session db db)).1 =
  Ok {| rr_status := "routed"; rr_draft_submission_id := Some "id000"; rr_draft_supplier_id := Some "s1"; rr_error := None |}.
Proof. vm_compute. reflexivity. Qed.

(** The raw message is kept with the refused attachment in it. *)
Definition infected_raw : ParsedEmail :=
  {| pe_message_id := "m2"; pe_from_address := "ann@x.com"; pe_to_address := "a+tok@acme.in.getonce.com"; pe_from_name := None;
     pe_cc_addresses := None; pe_subject := None; pe_text_body := None; pe_html_body := None; pe_in_reply_to := None;
     pe_headers := None; pe_attachments := [{| filename := "bad.pdf"; content_type := None; content := EICAR_TEST_STRING |}];
     pe_raw_bytes := Some EICAR_TEST_STRING |}.
Example raw_message_unscanned :
  (run infected_raw).2.2 !! "/store/id000/raw.eml" = Some EICAR_TEST_STRING.
Proof. vm_compute. reflexivity. Qed.
End DemoInbound.
