(* ===== verification/ImapPoll.v ===== *)
(** * Polling a mailbox

    workers/imap_client.py and the poll task of workers/tasks/inbound_tasks.py: the mark of
    the last message seen, kept in a JSON file, the search and the fetches of one poll, the
    reading of a message, and its ingestion in a session of its own.  The mail server, the
    parser of messages of the [email] package, [json.loads] and [json.dumps] are
    arguments. *)

From Stdlib Require Import Ascii.
From S2P Require Import Prelude PyStr Json Encoding AvScanner InboundModels InboundEmail.

(** ** Messages *)

(** What the parser of the [email] package makes of a part: [get_content_type()],
    [get_content_disposition()], [is_multipart()], [get_payload(decode=True)] and
    [get_content()], whose exceptions are [Raise], [get_payload()] of a part that is not
    multipart, and [get_filename()]; a content that is no text is [None]. *)
Record Part : Type := {
  pt_type : string; pt_disposition : option string; pt_multipart : bool; pt_decoded : result string (option bytes);
  pt_content : result string (option string); pt_payload : option string; pt_filename : option string }.
(** A message: its headers in order, itself as a part, and the parts below it, as [walk]
    meets them. *)
Record EmailMessage : Type := { ms_headers : list (string * string); ms_top : Part; ms_below : list Part }.
Definition walk (m : EmailMessage) : list Part := ms_top m :: ms_below m.

(** [msg.get(name)]: the first header of that name, in any case. *)
Definition header (name : string) (m : EmailMessage) : option string :=
  snd <$> find_first (fun kv => String.eqb (lower kv.1) (lower name)) (ms_headers m).

(** [a or b] of headers. *)
Definition or_header (a b : option string) : option string := match opt_truthy a with Some x => Some x | None => b end.

(** workers/imap_client.py, [_extract_to] *)
Definition _extract_to (m : EmailMessage) : string :=
  sor (default "" (or_header (or_header (header "To" m) (header "Delivered-To" m)) (header "X-Original-To" m))) "".

(** workers/imap_client.py, [_collect_attachments] *)
Definition _collect_attachments (m : EmailMessage) : list ParsedAttachment :=
  omap (fun part =>
    match pt_disposition part with
    | Some d =>
        if negb (mem d ["attachment"; "inline"]) || pt_multipart part then None
        else match pt_decoded part with
             | Ok (Some content) =>
                 if truthy content then
                   Some {| filename := sor (default "" (pt_filename part)) "unnamed"; content_type := Some (pt_type part);
                           content := content |}
                 else None
             | _ => None
             end
    | None => None
    end) (walk m).

Section Reading.
(** [email.message_from_bytes], and [bytes.decode("utf-8", "replace")]. *)
Context (message_from_bytes : bytes -> EmailMessage) (utf8_replace : bytes -> string).

(** workers/imap_client.py:206-210, [build_parsed_from_eml]: a text part; what the decoding
    in the handler raises leaves the function. *)
Definition part_text (part : Part) : result inbound_error (option string) :=
  match pt_content part with
  | Ok c => Ok c
  | Raise _ =>
      match pt_decoded part with
      | Ok (Some b) => Ok (Some (utf8_replace b))
      | Ok None => Raise (OtherException "AttributeError")
      | Raise e => Raise (OtherException e)
      end
  end.

(** A body that was looked for: not met, or met with its content. *)
Definition found : Type := option (option string).

(** workers/imap_client.py:200-215, [build_parsed_from_eml]: the loop over the parts; a
    content that is no text counts as not met when it is [None]. *)
Fixpoint bodies (text html : option string) (l : list Part) : result inbound_error (option string * option string) :=
  match l with
  | [] => Ok (text, html)
  | part :: l =>
      if bool_decide (pt_disposition part = Some "attachment") then bodies text html l
      else if String.eqb (pt_type part) "text/plain" && negb (is_someb text) then
        match part_text part with Ok t => bodies t html l | Raise e => Raise e end
      else if String.eqb (pt_type part) "text/html" && negb (is_someb html) then
        match part_text part with Ok h => bodies text h l | Raise e => Raise e end
      else bodies text html l
  end.

(** workers/imap_client.py:216-223, [build_parsed_from_eml]: a message of one part; only
    the text branch has a handler. *)
Definition single_body (p : Part) : result inbound_error (option string * option string) :=
  if String.eqb (pt_type p) "text/html" then
    match pt_content p with Ok h => Ok (None, h) | Raise e => Raise (OtherException e) end
  else Ok (match pt_content p with Ok t => t | Raise _ => pt_payload p end, None).

(** workers/imap_client.py, [build_parsed_from_eml] *)
Definition build_parsed_from_eml (raw : bytes) : result inbound_error ParsedEmail :=
  let msg := message_from_bytes raw in
  match (if pt_multipart (ms_top msg) then bodies None None (walk msg) else single_body (ms_top msg)) with
  | Raise e => Raise e
  | Ok (text_body, html_body) =>
      Ok {| pe_message_id := strip (default "" (or_header (header "Message-ID" msg) (header "Message-Id" msg)));
            pe_from_address := default "" (header "From" msg); pe_to_address := _extract_to msg; pe_from_name := None;
            pe_cc_addresses := match opt_truthy (header "Cc" msg) with
                               | Some cc => Some (List.filter truthy (map strip (split_char "," cc)))
                               | None => None
                               end;
            pe_subject := opt_truthy (Some (default "" (header "Subject" msg))); pe_text_body := text_body; pe_html_body := html_body;
            pe_in_reply_to := header "In-Reply-To" msg;
            pe_headers := Some (fold_left (fun d kv => set_key kv.1 (JStr kv.2) d) (ms_headers msg) []);
            pe_attachments := _collect_attachments msg; pe_raw_bytes := Some raw |}
  end.
End Reading.

(** ** The server *)

Inductive searched : Type := Uids (words : list string) | NoUids | SearchRaises (e : string).
Inductive fetched : Type := Message (raw : bytes) | NoMessage | FetchRaises (e : string).

(** The answers of a mail server during one poll; a connection that fails is a search that
    raises. *)
Record mail_server : Type := { sv_search : string -> searched; sv_fetch : Z -> fetched }.

(** [int(x)] of a word of digits. *)
Definition uid_of (w : string) : option Z := if truthy (strip w) && sall is_digit (strip w) then py_int w else None.

(** workers/imap_client.py, [ImapClient.fetch_unseen_uids] *)
Definition fetch_unseen_uids (sv : mail_server) (last_uid : Z) : result inbound_error (list Z) :=
  let criterion := if 0 <? last_uid then "UID " +:+ str_of_Z (last_uid + 1) +:+ ":*" else "ALL" in
  match sv_search sv criterion with
  | Uids words => Ok (sort_by id (List.filter (fun u => last_uid <? u) (omap uid_of words)))
  | NoUids => Ok []
  | SearchRaises e => Raise (OtherException e)
  end.

(** ** The poll *)

(** The committed tables, the attachment files, and the text of the mark's file. *)
Record World : Type := { w_db : InboundDB; w_files : gmap string bytes; w_mark : option bytes }.

(** workers/imap_client.py:262, [poll_once]: the counts. *)
Record poll_counts : Type := { n_fetched : Z; n_ingested : Z; n_duplicate : Z; n_errors : Z }.
Definition no_counts : poll_counts := {| n_fetched := 0; n_ingested := 0; n_duplicate := 0; n_errors := 0 |}.
Definition count_fetched (c : poll_counts) : poll_counts :=
  {| n_fetched := n_fetched c + 1; n_ingested := n_ingested c; n_duplicate := n_duplicate c; n_errors := n_errors c |}.
Definition count_error (c : poll_counts) : poll_counts :=
  {| n_fetched := n_fetched c; n_ingested := n_ingested c; n_duplicate := n_duplicate c; n_errors := n_errors c + 1 |}.
Definition count_row (dup : bool) (c : poll_counts) : poll_counts :=
  {| n_fetched := n_fetched c; n_ingested := n_ingested c + (if dup then 0 else 1); n_duplicate := n_duplicate c + (if dup then 1 else 0);
     n_errors := n_errors c |}.

Section Poll.
Context (cfg : inbound_settings) (uuid : nat -> string) (re_search : string -> string -> option bool) (repr_other : json -> string)
  (base_path : string) (sha256_hex : bytes -> string) (enforce : bytes -> result av_error ScanReport).
Context (message_from_bytes : bytes -> EmailMessage) (utf8_replace : bytes -> string).
Context (json_loads : bytes -> option json) (json_dumps : json -> bytes).

(** workers/imap_client.py, [_load_state] *)
Definition _load_state (file : option bytes) : json :=
  match file with
  | None => JObj []
  | Some text => default (JObj []) (json_loads text)
  end.

(** workers/imap_client.py, [_save_state] *)
Definition _save_state (state : json) (w : World) : World :=
  {| w_db := w_db w; w_files := w_files w; w_mark := Some (json_dumps state) |}.

(** workers/imap_client.py:277-278, [poll_once]: the dictionary and its mark for a
    folder. *)
Definition read_mark (folder : string) (file : option bytes) : result inbound_error (list (string * json) * Z) :=
  match _load_state file with
  | JObj state =>
      match json_int (default (JInt 0) (assoc folder state)) with
      | Some last => Ok (state, last)
      | None => Raise (OtherException "TypeError")
      end
  | _ => Raise (OtherException "AttributeError")
  end.

(** workers/imap_client.py, [_ingest_one]; the session sees the committed tables, and what
    it has not committed is gone when it closes. *)
Definition _ingest_one (now : Z) (raw : bytes) (c : poll_counts) (w : World) : result inbound_error poll_counts * World :=
  match build_parsed_from_eml message_from_bytes utf8_replace raw with
  | Raise e => (Raise e, w)
  | Ok p =>
      if negb (truthy (pe_message_id p)) then (Ok (count_error c), w)
      else
        let '(r, (s, fs)) := ingest cfg uuid re_search repr_other base_path sha256_hex enforce [] now p (Session (w_db w) (w_db w), w_files w) in
        let w := {| w_db := committed s; w_files := fs; w_mark := w_mark w |} in
        (match r with
         | Ok (_, dup) => Ok (count_row dup c)
         | Raise (OtherException e) => Raise (OtherException e)
         | Raise _ => Ok (count_error c)
         end, w)
  end.

(** workers/imap_client.py:281-289, [poll_once]: the loop over the new messages. *)
Fixpoint poll_uids (folder : string) (now : Z) (sv : mail_server) (uids : list Z) (state : list (string * json)) (c : poll_counts)
    (w : World) : result inbound_error poll_counts * World :=
  match uids with
  | [] => (Ok c, w)
  | uid :: uids =>
      match sv_fetch sv uid with
      | FetchRaises e => (Raise (OtherException e), w)
      | NoMessage => poll_uids folder now sv uids state (count_error (count_fetched c)) w
      | Message raw =>
          match _ingest_one now raw (count_fetched c) w with
          | (Raise e, w) => (Raise e, w)
          | (Ok c, w) =>
              let state := set_key folder (JInt uid) state in
              poll_uids folder now sv uids state c (_save_state (JObj state) w)
          end
      end
  end.

(** workers/imap_client.py, [poll_once] *)
Definition poll_once (folder : string) (now : Z) (sv : mail_server) (w : World) : result inbound_error poll_counts * World :=
  match read_mark folder (w_mark w) with
  | Raise e => (Raise e, w)
  | Ok (state, last_uid) =>
      match fetch_unseen_uids sv last_uid with
      | Raise e => (Raise e, w)
      | Ok uids => poll_uids folder now sv uids state no_counts w
      end
  end.

(** workers/tasks/inbound_tasks.py, [imap_poll_task]: every exception becomes an
    answer; [None] is [{"ok": False}]. *)
Definition imap_poll_task (folder : string) (now : Z) (sv : mail_server) (w : World) : option poll_counts * World :=
  let '(r, w) := poll_once folder now sv w in (match r with Ok c => Some c | Raise _ => None end, w).
End Poll.

(** ** One message *)

Section Ids.
Context (uuid : nat -> string).

Definition ids (db : InboundDB) : list string := map message_id (emails db).

(** Message ids are different, and the keys of the rows have been drawn already. *)
Definition ids_ok (db : InboundDB) : Prop :=
  List.NoDup (ids db) /\ forall i, In i (map em_id (emails db)) -> exists k, (k < next_id db)%nat /\ i = uuid k.

Lemma ids_ok_inbox (Hinj : forall a b, uuid a = uuid b -> a = b) db : ids_ok db -> inbox_ok uuid [] db.
Proof.
  intros [Hnd Hk]. unfold inbox_ok. rewrite app_nil_r. split; [exact Hnd|]. intros Hin.
  destruct (Hk _ Hin) as (k & Hlt & He). apply Hinj in He. lia.
Qed.

Lemma email_keys_fst l : map fst (email_keys l) = map em_id l.
Proof. unfold email_keys. by rewrite map_map. Qed.
Lemma email_keys_snd l : map snd (email_keys l) = map message_id l.
Proof. unfold email_keys. by rewrite map_map. Qed.
End Ids.

Section PollLemmas.
Context (cfg : inbound_settings) (uuid : nat -> string) (re_search : string -> string -> option bool) (repr_other : json -> string)
  (base_path : string) (sha256_hex : bytes -> string) (enforce : bytes -> result av_error ScanReport).
Context (message_from_bytes : bytes -> EmailMessage) (utf8_replace : bytes -> string).
Context (json_loads : bytes -> option json) (json_dumps : json -> bytes).
Context (Hinj : forall a b, uuid a = uuid b -> a = b).
Local Abbreviation ingest := (ingest cfg uuid re_search repr_other base_path sha256_hex enforce []).
Local Abbreviation ingest_one := (_ingest_one cfg uuid re_search repr_other base_path sha256_hex enforce message_from_bytes utf8_replace).
Local Abbreviation read := (build_parsed_from_eml message_from_bytes utf8_replace).

(** A delivery nobody interferes with changes nothing unless it adds the row. *)
Lemma ingest_cases now p db fs r st' :
  ingest now p (Session db db, fs) = (r, st') ->
  match r with
  | Ok (_, false) => _existing_email (pe_message_id p) db = None
  | Ok (row, true) => st' = (Session db db, fs) /\ _existing_email (pe_message_id p) db = Some row
  | Raise _ => st' = (Session db db, fs)
  end.
Proof.
  unfold InboundEmail.ingest. unfold bind at 1. destruct (inbound_email_enabled cfg); cbn [negb raise_if]; [|by intros [= <- <-]].
  unfold ret at 1. unfold bind at 1, on_db at 1, query at 1, reads at 1. cbn [fst snd working].
  destruct (_existing_email (pe_message_id p) db) as [row|] eqn:Hex; [by intros [= <- <-]|].
  unfold bind at 1. destruct (_enforce_size_limits cfg p (Session db db, fs)) as [r1 s1] eqn:H1.
  apply (readonly_run _ _ _ _ (readonly_limits cfg p)) in H1 as Hs1. subst s1. destruct r1 as [u|e]; [|by intros [= <- <-]].
  unfold bind at 1. destruct (addressed_tenant cfg p (Session db db, fs)) as [r2 s2] eqn:H2.
  apply (readonly_run _ _ _ _ (readonly_addressed cfg p)) in H2 as Hs2. subst s2. destruct r2 as [[t to_addr]|e]; [|by intros [= <- <-]].
  unfold bind at 1, on_db at 1, query at 1, reads at 1. cbn [fst snd working].
  match goal with |- context [new_email ?x1 ?x2 ?x3 ?x4 ?x5 ?x6] => set (e := new_email x1 x2 x3 x4 x5 x6) in * end.
  unfold bind at 1, insert_email. unfold bind at 1, on_db at 1, modify at 1. cbn [fst snd working committed].
  unfold bind at 1, on_db at 1, query at 1, reads at 1. cbn [fst snd working].
  assert (Hnone : _existing_email (message_id e) (with_emails (fun l => l ++ []) db) = None).
  { unfold _existing_email in *. cbn. by rewrite app_nil_r. }
  rewrite Hnone. unfold bind at 1, on_db at 1, write at 1, modify at 1. cbn [fst snd working committed ret].
  intros Hrun. apply finish_email_run in Hrun as (x & rows & d & W & -> & _); [done|]. cbn. rewrite in_app_iff. right. by left.
Qed.
(** One message: it is refused and nothing changes, it is a duplicate and nothing changes, or
    its row is added. *)
Lemma ingest_one_run now raw c w r w' :
  ids_ok uuid (w_db w) -> ingest_one now raw c w = (r, w') ->
  w_mark w' = w_mark w /\ ids_ok uuid (w_db w') /\
  ((exists e, r = Raise e) /\ w' = w \/ r = Ok (count_error c) /\ w' = w \/
   exists p, read raw = Ok p /\ truthy (pe_message_id p) = true /\ In (pe_message_id p) (ids (w_db w')) /\ inbound_email_enabled cfg = true /\
     ((In (pe_message_id p) (ids (w_db w)) /\ w' = w /\ r = Ok (count_row true c)) \/
      (~ In (pe_message_id p) (ids (w_db w)) /\ ids (w_db w') = ids (w_db w) ++ [pe_message_id p] /\ r = Ok (count_row false c)))).
Proof.
  intros Hok. unfold _ingest_one. destruct (read raw) as [p|e]; [|intros [= <- <-]; eauto 10].
  destruct (truthy (pe_message_id p)) eqn:Hmid; cbn [negb]; [|intros [= <- <-]; eauto 10].
  destruct (ingest now p (Session (w_db w) (w_db w), w_files w)) as [r0 [s fs]] eqn:Hrun. intros [= Hr <-].
  pose proof (ingest_cases _ _ _ _ _ _ Hrun) as Hcase. destruct r0 as [[row []]|e].
  - destruct Hcase as [[= -> ->] Hex]. apply find_first_Some in Hex as [Hin Hm%String.eqb_eq]. cbn.
    assert (Hi : In (pe_message_id p) (ids (w_db w))) by (unfold ids; rewrite <- Hm; by apply in_map).
    apply ingest_enabled in Hrun. destruct w; cbn in *. split; [done|]. split; [done|]. right. right. exists p. eauto 12.
  - pose proof (ingest_run cfg uuid re_search repr_other base_path sha256_hex enforce [] now p _ _ row false _ (ids_ok_inbox uuid Hinj _ Hok) Hrun)
      as (W & Hst & Hnd & Hin & Hm & Hkeys & Hnext & Hnew & _). cbn in Hst. subst s. cbn. rewrite app_nil_r in Hkeys.
    assert (Hids : ids W = ids (w_db w) ++ [pe_message_id p]).
    { unfold ids. rewrite <- !email_keys_snd, Hkeys, map_app. done. }
    apply ingest_enabled in Hrun. split; [done|]. split.
    + split; [exact Hnd|]. rewrite <- email_keys_fst, Hkeys, map_app, email_keys_fst. intros i [Hi|[<-|[]]]%in_app_iff; [|by eexists].
      destruct Hok as [_ Hk]. destruct (Hk i Hi) as (k & ? & ->). exists k. split; [lia|done].
    + right. right. exists p. split; [done|]. split; [done|]. split; [rewrite Hids; apply in_app_iff; right; by left|]. split; [done|].
      right. split; [|done]. intros (e & He & Hine)%in_map_iff. by apply (Hnew e).
  - injection Hcase as -> ->. cbn. destruct w as [db f m]; cbn in *. split; [done|]. split; [done|].
    destruct e; subst r; (right; left; split; reflexivity) || (left; split; [eexists; reflexivity|reflexivity]).
Qed.
(** ** The mark *)

(** A dictionary of marks: each folder once, with a number. *)
Definition marks_ok (state : list (string * json)) : Prop :=
  List.NoDup (map fst state) /\ List.Forall (fun kv => exists z, kv.2 = JInt z) state.

(** [json.loads] reads back the marks [json.dumps] wrote. *)
Context (Hjson : forall state, marks_ok state -> json_loads (json_dumps (JObj state)) = Some (JObj state)).
Local Abbreviation read_mark := (read_mark json_loads).
Local Abbreviation poll_uids := (poll_uids cfg uuid re_search repr_other base_path sha256_hex enforce message_from_bytes utf8_replace json_dumps).
Local Abbreviation poll_once := (poll_once cfg uuid re_search repr_other base_path sha256_hex enforce message_from_bytes utf8_replace json_loads json_dumps).

Lemma set_key_fst_In k v state x : In x (map fst (set_key k v state)) -> x = k \/ In x (map fst state).
Proof.
  induction state as [|[k' v'] state IH]; cbn; [intros [<-|[]]; by left|]. destruct (String.eqb k k'); cbn; [tauto|].
  intros [->|H]; [tauto|]. destruct (IH H); tauto.
Qed.

Lemma marks_ok_set k z state : marks_ok state -> marks_ok (set_key k (JInt z) state).
Proof.
  intros [Hnd Hf]. induction state as [|[k' v'] state IH]; cbn; [split; repeat constructor; cbn; eauto|].
  inversion Hnd as [|? ? Hk Hnd']; subst. inversion Hf as [|? ? Hv Hf']; subst. destruct (String.eqb_spec k k') as [<-|Hne].
  - split; [by constructor|]. constructor; [by exists z|done].
  - destruct (IH Hnd' Hf') as [IH1 IH2]. split; [|by constructor]. cbn. constructor; [|done].
    intros [->|H]%set_key_fst_In; [by apply Hne|by apply Hk].
Qed.

(** A file that is not there yet, or that polls have written. *)
Definition file_ok (file : option bytes) : Prop :=
  file = None \/ exists state, marks_ok state /\ file = Some (json_dumps (JObj state)).

Lemma assoc_marks state folder v : marks_ok state -> assoc folder state = Some v -> exists z, v = JInt z.
Proof.
  intros [_ Hf]. induction Hf as [|[k x] state Hx Hf IH]; cbn; [done|]. destruct (String.eqb folder k); [|by apply IH].
  intros [= ->]. exact Hx.
Qed.

Lemma read_mark_Ok folder file : file_ok file -> exists state last, read_mark folder file = Ok (state, last) /\ marks_ok state.
Proof.
  intros Hfile. assert (Hs : exists state, _load_state json_loads file = JObj state /\ marks_ok state).
  { destruct Hfile as [->|(state & Hok & ->)]; cbn.
    - exists []. split; [done|]. split; constructor.
    - rewrite Hjson by done. by exists state. }
  destruct Hs as (state & Hl & Hok). unfold ImapPoll.read_mark. rewrite Hl.
  destruct (assoc folder state) as [v|] eqn:Ha; [|by exists state, 0].
  destruct (assoc_marks _ _ _ Hok Ha) as [z ->]. cbn. by exists state, z.
Qed.

Lemma read_mark_saved folder state uid w : marks_ok state ->
  read_mark folder (w_mark (_save_state json_dumps (JObj (set_key folder (JInt uid) state)) w)) = Ok (set_key folder (JInt uid) state, uid).
Proof.
  intros Hok. cbn. unfold ImapPoll.read_mark, _load_state. rewrite Hjson by (by apply marks_ok_set). cbn [default from_option id].
  by rewrite assoc_set_key.
Qed.

(** ** The loop *)

(** What a message has become: its row is in the table. *)
Definition stored (sv : mail_server) (w : World) (uid : Z) : Prop :=
  exists raw p, sv_fetch sv uid = Message raw /\ read raw = Ok p /\ truthy (pe_message_id p) = true /\ In (pe_message_id p) (ids (w_db w)).

Definition handled (c : poll_counts) : Z := n_ingested c + n_duplicate c + n_errors c.

(** Progress of a poll over a list of messages from one world to another. *)
Record progress (folder : string) (sv : mail_server) (uids : list Z) (c : poll_counts) (w : World) (last : Z)
    (r : result inbound_error poll_counts) (w' : World) : Prop := {
  pr_ids : ids_ok uuid (w_db w');
  pr_file : file_ok (w_mark w');
  pr_mark : exists state' last', read_mark folder (w_mark w') = Ok (state', last') /\ last <= last' /\ (last' = last \/ In last' uids) /\
    forall c', r = Ok c' -> forall uid raw, In uid uids -> sv_fetch sv uid = Message raw -> uid <= last';
  pr_rows : exists new, ids (w_db w') = ids (w_db w) ++ new /\ forall c', r = Ok c' -> n_ingested c' = n_ingested c + Z.of_nat (length new);
  pr_counts : forall c', r = Ok c' -> n_fetched c' = n_fetched c + Z.of_nat (length uids) /\
    handled c' = handled c + Z.of_nat (length uids) /\ n_errors c <= n_errors c' /\
    (n_errors c' = n_errors c -> forall uid, In uid uids -> stored sv w' uid) }.

Lemma stored_mono sv w w' uid new : ids (w_db w') = ids (w_db w) ++ new -> stored sv w uid -> stored sv w' uid.
Proof. intros Hi (raw & p & H1 & H2 & H3 & H4). exists raw, p. rewrite Hi. split_and!; try done. apply in_app_iff. by left. Qed.

(** One message, with what it adds to the counts. *)
Lemma ingest_one_counts sv uid now raw c w r w1 :
  ids_ok uuid (w_db w) -> sv_fetch sv uid = Message raw -> ingest_one now raw (count_fetched c) w = (r, w1) ->
  exists new, w_mark w1 = w_mark w /\ ids_ok uuid (w_db w1) /\ ids (w_db w1) = ids (w_db w) ++ new /\
    match r with
    | Ok c1 => n_fetched c1 = n_fetched c + 1 /\ n_ingested c1 = n_ingested c + Z.of_nat (length new) /\ handled c1 = handled c + 1 /\
        n_errors c <= n_errors c1 /\ (n_errors c1 = n_errors c -> stored sv w1 uid)
    | Raise _ => w1 = w
    end.
Proof.
  intros Hids Hf H1. apply ingest_one_run in H1 as (Hm & Hids1 & [[[e ->] ->]|[[-> ->]|(p & Hp & Ht & Hin & _ & Hcase)]]); [| | |done].
  - exists []. by rewrite app_nil_r.
  - exists []. rewrite app_nil_r. unfold handled. cbn. split_and!; lia || done.
  - assert (Hsto : stored sv w1 uid) by (by exists raw, p). destruct Hcase as [(_ & -> & ->)|(_ & Hnew & ->)].
    + exists []. rewrite app_nil_r. unfold handled. cbn. split_and!; lia || done.
    + exists [pe_message_id p]. unfold handled. cbn. split_and!; lia || done.
Qed.

Lemma progress_stopped folder sv uids c w state last e :
  ids_ok uuid (w_db w) -> file_ok (w_mark w) -> read_mark folder (w_mark w) = Ok (state, last) ->
  progress folder sv uids c w last (Raise e) w.
Proof.
  intros Hids Hfile Hmark. split; [done|done| | |done].
  - exists state, last. split_and!; [done|lia|by left|done].
  - exists []. by rewrite app_nil_r.
Qed.

Lemma poll_uids_progress folder now sv uids : forall state c w last r w',
  ids_ok uuid (w_db w) -> file_ok (w_mark w) -> marks_ok state -> read_mark folder (w_mark w) = Ok (state, last) ->
  StronglySorted Z.le (last :: uids) -> poll_uids folder now sv uids state c w = (r, w') -> progress folder sv uids c w last r w'.
Proof.
  induction uids as [|uid uids IH]; intros state c w last r w' Hids Hfile Hst Hmark Hs; cbn [ImapPoll.poll_uids].
  { intros [= <- <-]. split; [done|done| | |].
    - exists state, last. split_and!; [done|lia|by left|]. by intros c' _ uid raw [].
    - exists []. rewrite app_nil_r. split; [done|]. intros c' [= <-]. cbn. lia.
    - intros c' [= <-]. unfold handled. cbn. split_and!; [lia..|]. by intros _ uid []. }
  inversion Hs as [|? ? Hs' Hall]; subst. inversion Hall as [|? ? Hle Hall']; subst. inversion Hs' as [|? ? Hs'' Hall'']; subst.
  destruct (sv_fetch sv uid) as [raw| |e] eqn:Hf.
  - destruct (ingest_one now raw (count_fetched c) w) as [r1 w1] eqn:H1.
    apply ingest_one_counts with (sv := sv) (uid := uid) in H1 as (new1 & Hm1 & Hids1 & Hnew1 & Hc1); [|done|done].
    destruct r1 as [c1|e].
    + destruct Hc1 as (Hfe & Hin & Hha & Her & Hsto). set (state1 := set_key folder (JInt uid) state).
      set (w2 := _save_state json_dumps (JObj state1) w1). intros Hrun.
      apply (IH state1 c1 w2 uid) in Hrun as [P1 P2 (state' & last' & Q1 & Q2 & Q3 & Q4) (new & R1 & R2) P5].
      * assert (Hsto2 : n_errors c1 = n_errors c -> stored sv w' uid).
        { intros He. apply (stored_mono sv w2 w' uid new R1). destruct (Hsto He) as (raw' & p & ?). by exists raw', p. }
        split; [done|done| | |].
        -- exists state', last'. split_and!; [done|lia|right; destruct Q3 as [->|?]; [by left|by right]|].
           intros c' Hc' u raw' [<-|Hu] Hfu; [lia|]. by eapply Q4.
        -- exists (new1 ++ new). change (ids (w_db w2)) with (ids (w_db w1)) in R1. rewrite R1, Hnew1, app_assoc. split; [done|].
           intros c' Hc'. rewrite (R2 c' Hc'), length_app. lia.
        -- intros c' Hc'. destruct (P5 c' Hc') as (S1 & S2 & S3 & S4). rewrite S1, S2. cbn [length]. split_and!; [lia..|].
           intros He u [<-|Hu]; [apply Hsto2; lia|]. apply S4; [lia|done].
      * exact Hids1.
      * right. exists state1. split; [by apply marks_ok_set|done].
      * by apply marks_ok_set.
      * by apply read_mark_saved.
      * exact Hs'.
    + subst w1. intros [= <- <-]. by apply (progress_stopped _ _ _ _ _ state).
  - intros Hrun. apply (IH state (count_error (count_fetched c)) w last) in Hrun
      as [P1 P2 (state' & last' & Q1 & Q2 & Q3 & Q4) (new & R1 & R2) P5]; [|done..|by constructor].
    split; [done|done| | |].
    + exists state', last'. split_and!; [done|done|destruct Q3; [by left|by right; right]|].
      intros c' Hc' u raw [<-|Hu] Hfu; [congruence|]. by eapply Q4.
    + exists new. split; [done|]. intros c' Hc'. by rewrite (R2 c' Hc').
    + intros c' Hc'. destruct (P5 c' Hc') as (S1 & S2 & S3 & S4). unfold handled in *. cbn in S1, S2, S3, S4. cbn [length]. split_and!; [lia..|].
      intros He. lia.
  - intros [= <- <-]. by apply (progress_stopped _ _ _ _ _ state).
Qed.
Lemma new_uids_sorted sv last uids : fetch_unseen_uids sv last = Ok uids ->
  StronglySorted Z.le (last :: uids) /\ forall uid, In uid uids -> last < uid.
Proof.
  unfold fetch_unseen_uids. destruct (sv_search sv _) as [words| |]; [|intros [= <-]; split; [repeat constructor|done]|done].
  intros [= <-]. assert (Hgt : forall uid, In uid (sort_by id (List.filter (fun u => last <? u) (omap uid_of words))) -> last < uid).
  { intros uid Hin. apply sort_by_In, filter_In in Hin as [_ H]. lia. }
  split; [|exact Hgt]. constructor; [apply (sort_by_Sorted id)|]. apply List.Forall_forall. intros uid Hin. specialize (Hgt uid Hin). lia.
Qed.

(** A whole poll. *)
Lemma poll_once_progress folder now sv w r w' :
  ids_ok uuid (w_db w) -> file_ok (w_mark w) -> poll_once folder now sv w = (r, w') ->
  exists state last, read_mark folder (w_mark w) = Ok (state, last) /\
    ((exists e, r = Raise e /\ w' = w) \/
     exists uids, fetch_unseen_uids sv last = Ok uids /\ poll_uids folder now sv uids state no_counts w = (r, w') /\
       progress folder sv uids no_counts w last r w').
Proof.
  intros Hids Hfile. destruct (read_mark_Ok folder _ Hfile) as (state & last & Hmark & Hst). unfold ImapPoll.poll_once. rewrite Hmark.
  intros Hrun. exists state, last. split; [done|]. destruct (fetch_unseen_uids sv last) as [uids|e] eqn:Hu.
  - right. exists uids. split; [done|]. split; [done|]. apply new_uids_sorted in Hu as [Hs _]. by eapply poll_uids_progress.
  - injection Hrun as <- <-. left. by exists e.
Qed.

(** ** Replays *)

(** The file after a poll whose fetches all answered a message. *)
Fixpoint mark_after (folder : string) (state : list (string * json)) (uids : list Z) (file : option bytes) : option bytes :=
  match uids with
  | [] => file
  | uid :: uids =>
      let state := set_key folder (JInt uid) state in mark_after folder state uids (Some (json_dumps (JObj state)))
  end.

Lemma ingest_one_mark now raw c w : w_mark (snd (ingest_one now raw c w)) = w_mark w.
Proof.
  unfold _ingest_one. destruct (read raw) as [p|]; [|done]. destruct (negb _); [done|].
  by destruct (ingest now p _) as [r0 [s fs]].
Qed.

Lemma poll_uids_mark folder now sv uids : forall state c w c' w',
  (forall uid, In uid uids -> exists raw, sv_fetch sv uid = Message raw) ->
  poll_uids folder now sv uids state c w = (Ok c', w') -> w_mark w' = mark_after folder state uids (w_mark w).
Proof.
  induction uids as [|uid uids IH]; intros state c w c' w' Hm; cbn [ImapPoll.poll_uids mark_after]; [by intros [= _ <-]|].
  destruct (Hm uid) as [raw ->]; [by left|]. destruct (ingest_one now raw (count_fetched c) w) as [[c1|e] w1]; [|done].
  intros Hrun. apply IH in Hrun; [exact Hrun|]. intros u Hu. apply Hm. by right.
Qed.

Lemma ingest_one_stored now sv uid raw c w :
  inbound_email_enabled cfg = true -> List.NoDup (ids (w_db w)) -> sv_fetch sv uid = Message raw -> stored sv w uid ->
  ingest_one now raw c w = (Ok (count_row true c), w).
Proof.
  intros Hen Hnd Hf (raw' & p & Hf' & Hp & Ht & Hin). assert (raw' = raw) as -> by congruence. unfold _ingest_one. rewrite Hp, Ht. cbn [negb].
  unfold ids in Hin. apply in_map_iff in Hin as (row & Hrow & Hin). rewrite (ingest_again _ _ _ _ _ _ _ _ _ _ row) by done.
  by destruct w.
Qed.

Lemma poll_uids_stored folder now sv uids : forall state c w,
  inbound_email_enabled cfg = true -> List.NoDup (ids (w_db w)) -> (forall uid, In uid uids -> stored sv w uid) ->
  exists c', poll_uids folder now sv uids state c w =
      (Ok c', {| w_db := w_db w; w_files := w_files w; w_mark := mark_after folder state uids (w_mark w) |}) /\
    n_ingested c' = n_ingested c /\ n_errors c' = n_errors c /\ n_fetched c' = n_fetched c + Z.of_nat (length uids).
Proof.
  induction uids as [|uid uids IH]; intros state c w Hen Hnd Hsto; cbn [ImapPoll.poll_uids mark_after].
  { exists c. destruct w. cbn. split_and!; [done..|lia]. }
  assert (Hu : stored sv w uid) by (apply Hsto; by left). pose proof Hu as (raw & _ & Hf & _). rewrite Hf.
  rewrite (ingest_one_stored now sv uid raw) by done.
  destruct (IH (set_key folder (JInt uid) state) (count_row true (count_fetched c))
              (_save_state json_dumps (JObj (set_key folder (JInt uid) state)) w)) as (c' & Hrun & H1 & H2 & H3); [done|done| |].
  - intros u Hin. destruct (Hsto u) as (raw' & p & ?); [by right|]. by exists raw', p.
  - exists c'. rewrite Hrun. cbn in *. split_and!; [done|lia..].
Qed.
(** ** Properties *)

(** A poll accounts for every message it finds: each is fetched once, in the order of the
    server's numbers, and is counted as ingested, duplicate or an error; the table gains
    one row for each ingested one, with no two rows of the same message; when no error is
    counted, every message found has its row; and the mark has not gone back. *)
Theorem poll_accounts_for_every_message folder now sv w c w' :
  ids_ok uuid (w_db w) -> file_ok (w_mark w) -> poll_once folder now sv w = (Ok c, w') ->
  ids_ok uuid (w_db w') /\ file_ok (w_mark w') /\
  exists state last uids, read_mark folder (w_mark w) = Ok (state, last) /\ fetch_unseen_uids sv last = Ok uids /\
    n_fetched c = Z.of_nat (length uids) /\ n_ingested c + n_duplicate c + n_errors c = n_fetched c /\
    (exists new, ids (w_db w') = ids (w_db w) ++ new /\ n_ingested c = Z.of_nat (length new)) /\
    (n_errors c = 0 -> forall uid, In uid uids -> stored sv w' uid) /\
    (exists state' last', read_mark folder (w_mark w') = Ok (state', last') /\ last <= last').
Proof.
  intros Hids Hfile Hrun. apply poll_once_progress in Hrun as (state & last & Hmark & [(e & [=] & _)|(uids & Hu & _ & P)]); [|done..].
  destruct P as [P1 P2 (state' & last' & Q1 & Q2 & _) (new & R1 & R2) P5]. split; [done|]. split; [done|].
  destruct (P5 c eq_refl) as (S1 & S2 & _ & S4). exists state, last, uids. unfold handled in S2. cbn in S1, S2, S4. split_and!; [done|done|lia|lia| |done|].
  - exists new. split; [done|]. rewrite (R2 c eq_refl). cbn. lia.
  - by exists state', last'.
Qed.

(** C37. A poll may be repeated: after a poll without errors whose mark was lost - the process
    died before the file was written - the same poll over the same messages ingests
    nothing, finds them all to be duplicates, leaves the tables and the attachments as they
    are, and writes the mark again. *)
Theorem repeated_poll_stores_nothing folder now now' sv w c w' :
  inbound_email_enabled cfg = true -> ids_ok uuid (w_db w) -> file_ok (w_mark w) ->
  poll_once folder now sv w = (Ok c, w') -> n_errors c = 0 ->
  exists c', poll_once folder now' sv {| w_db := w_db w'; w_files := w_files w'; w_mark := w_mark w |} = (Ok c', w') /\
    n_fetched c' = n_fetched c /\ n_ingested c' = 0 /\ n_errors c' = 0.
Proof.
  intros Hen Hids Hfile Hrun Herr. apply poll_once_progress in Hrun as (state & last & Hmark & [(e & [=] & _)|(uids & Hu & Hrun & P)]); [|done..].
  destruct P as [[Hnd _] _ _ _ P5]. destruct (P5 c eq_refl) as (S1 & _ & _ & S4). specialize (S4 Herr).
  assert (Hmk : w_mark w' = mark_after folder state uids (w_mark w)).
  { eapply poll_uids_mark; [|exact Hrun]. intros uid Hin. destruct (S4 uid Hin) as (raw & _ & Hf & _). by exists raw. }
  set (w0 := {| w_db := w_db w'; w_files := w_files w'; w_mark := w_mark w |}).
  destruct (poll_uids_stored folder now' sv uids state no_counts w0 Hen Hnd) as (c' & Hrun' & T1 & T2 & T3).
  { intros uid Hin. destruct (S4 uid Hin) as (raw & p & ?). by exists raw, p. }
  exists c'. unfold ImapPoll.poll_once. cbn [w_mark w0]. rewrite Hmark, Hu, Hrun'. cbn [w_db w_files w_mark w0] in *. rewrite <- Hmk.
  cbn in *. split_and!; [by destruct w'|lia..].
Qed.

(** Polls at any times, of a server that may answer anything. *)
Definition polls (folder : string) : World -> World -> Prop :=
  rtc (fun w w' => exists now sv r, poll_once folder now sv w = (r, w')).

(** The mark never goes back. *)
Lemma polls_mark folder w w' last state :
  polls folder w w' -> ids_ok uuid (w_db w) -> file_ok (w_mark w) -> read_mark folder (w_mark w) = Ok (state, last) ->
  exists state' last', read_mark folder (w_mark w') = Ok (state', last') /\ last <= last'.
Proof.
  intros Hp. revert state last. induction Hp as [w|w1 w2 w3 (now & sv & r & Hrun) _ IH]; intros state last Hids Hfile Hmark.
  - exists state, last. split; [done|lia].
  - apply poll_once_progress in Hrun as (state1 & last1 & Hmark1 & Hcase); [|done..].
    rewrite Hmark in Hmark1. injection Hmark1 as <- <-. destruct Hcase as [(e & _ & ->)|(uids & _ & _ & P)]; [by eapply IH|].
    destruct P as [P1 P2 (state2 & last2 & Q1 & Q2 & _) _ _]. destruct (IH state2 last2 P1 P2 Q1) as (state' & last' & H1 & H2).
    exists state', last'. split; [done|lia].
Qed.

(** A message that could not be fetched once is lost when a later one was: the mark passes
    it, and no poll after that, whatever the server answers, asks for it again. *)
Theorem unfetched_message_is_skipped_for_good folder now sv w c w' state last uids uid later raw :
  ids_ok uuid (w_db w) -> file_ok (w_mark w) -> poll_once folder now sv w = (Ok c, w') ->
  read_mark folder (w_mark w) = Ok (state, last) -> fetch_unseen_uids sv last = Ok uids ->
  In uid uids -> sv_fetch sv uid = NoMessage -> In later uids -> uid < later -> sv_fetch sv later = Message raw ->
  0 < n_errors c /\
  forall w'', polls folder w' w'' -> exists state'' last'', read_mark folder (w_mark w'') = Ok (state'', last'') /\
    forall sv'' uids'', fetch_unseen_uids sv'' last'' = Ok uids'' -> ~ In uid uids''.
Proof.
  intros Hids Hfile Hrun Hmark Hu Hin Hf Hin' Hlt Hf'. apply poll_once_progress in Hrun as (state1 & last1 & Hmark1 & Hcase); [|done..].
  rewrite Hmark in Hmark1. injection Hmark1 as <- <-. destruct Hcase as [(e & [=] & _)|(uids1 & Hu1 & _ & P)].
  rewrite Hu in Hu1. injection Hu1 as <-. destruct P as [P1 P2 (state' & last' & Q1 & _ & _ & Q4) _ P5]. split.
  - destruct (P5 c eq_refl) as (_ & _ & S3 & S4). cbn in S3, S4. destruct (decide (n_errors c = 0)) as [He|]; [|lia].
    destruct (S4 He uid Hin) as (raw' & _ & Hraw & _). congruence.
  - intros w'' Hp. destruct (polls_mark folder w' w'' last' state' Hp P1 P2 Q1) as (state'' & last'' & H1 & H2).
    exists state'', last''. split; [done|]. intros sv'' uids'' Hu'' Hin''. apply new_uids_sorted in Hu'' as [_ Hgt].
    specialize (Hgt uid Hin''). specialize (Q4 c eq_refl later raw Hin' Hf'). lia.
Qed.

(** The mailbox as a server shows it whose first new message is [raw]. *)
Definition starts_with (raw : bytes) (last : Z) (sv : mail_server) : Prop :=
  exists uid uids, fetch_unseen_uids sv last = Ok (uid :: uids) /\ sv_fetch sv uid = Message raw.

(** A message whose reading raises stops the mailbox for every tenant: while it is the first
    new one, every poll fails before the mark moves, and no message behind it is ever
    ingested. *)
Theorem unreadable_message_blocks_the_mailbox folder raw e w w' state last :
  read raw = Raise e -> read_mark folder (w_mark w) = Ok (state, last) ->
  rtc (fun w w' => exists now sv, starts_with raw last sv /\
         w' = snd (imap_poll_task cfg uuid re_search repr_other base_path sha256_hex enforce message_from_bytes utf8_replace
                     json_loads json_dumps folder now sv w)) w w' ->
  w' = w.
Proof.
  intros Hread Hmark Hp. induction Hp as [w|w1 w2 w3 (now & sv & (uid & uids & Hu & Hf) & Hw2) _ IH]; [done|].
  unfold imap_poll_task, ImapPoll.poll_once in Hw2. rewrite Hmark, Hu in Hw2. cbn [ImapPoll.poll_uids] in Hw2. rewrite Hf in Hw2.
  unfold _ingest_one in Hw2. rewrite Hread in Hw2. cbn in Hw2. subst w2. by apply IH.
Qed.
End PollLemmas.

(** ** A concrete mailbox *)

Module DemoPoll.
Import DemoInbound.

Definition uuid (n : nat) : string := str_of_Z (Z.of_nat n).
Lemma demo_uuid_inj a b : uuid a = uuid b -> a = b.
Proof.
  unfold uuid. intros H. assert (Hi : py_int (str_of_Z (Z.of_nat a)) = py_int (str_of_Z (Z.of_nat b))) by (by rewrite H).
  rewrite !py_int_str_of_Z in Hi by lia. injection Hi. lia.
Qed.

(** Marks as one number. *)
Definition mark_of (kv : string * json) : string * Z := (kv.1, match kv.2 with JInt z => z | _ => 0 end).
Definition dumps (j : json) : bytes :=
  match j with JObj kvs => str_of_Z (Zpos (encode (map mark_of kvs))) | _ => "" end.
Definition loads (text : bytes) : option json :=
  match py_int text with
  | Some (Zpos p) => JObj <$> (map (fun kv => (kv.1, JInt kv.2)) <$> (decode p : option (list (string * Z))))
  | _ => None
  end.
Lemma loads_dumps state : marks_ok state -> loads (dumps (JObj state)) = Some (JObj state).
Proof.
  intros [_ Hf]. unfold loads, dumps. rewrite py_int_str_of_Z by lia. rewrite decode_encode. cbn. do 2 f_equal.
  induction Hf as [|[k v] state [z Hz] _ IH]; cbn in *; [done|]. by rewrite IH, Hz.
Qed.

(** A message of one text part; the one called [charset] cannot be decoded. *)
Definition read_message (raw : bytes) : EmailMessage :=
  {| ms_headers := [("MESSAGE-ID", raw); ("From", "Ann@x.com"); ("To", "submissions+Tok@acme.in.getonce.com"); ("Subject", "Renewal")];
     ms_top := {| pt_type := if String.eqb raw "charset" then "text/html" else "text/plain"; pt_disposition := None; pt_multipart := false;
                  pt_decoded := Ok None; pt_content := if String.eqb raw "charset" then Raise "LookupError" else Ok (Some "hello");
                  pt_payload := None; pt_filename := None |};
     ms_below := [] |}.

(** A server that shows some messages and fetches what it is told to. *)
Definition server (uids : list Z) (fetch : Z -> fetched) : mail_server := {| sv_search := fun _ => Uids (map str_of_Z uids); sv_fetch := fetch |}.
Definition named (uid : Z) : fetched := Message ("m" +:+ str_of_Z uid).
Definition empty : World := {| w_db := db; w_files := ∅; w_mark := None |}.
Abbreviation poll := (poll_once cfg uuid re_search repr_other "/store" sha enforce read_message (fun b => b) loads dumps "INBOX" 100).
Definition mark_text (z : Z) : option bytes := Some (dumps (JObj [("INBOX", JInt z)])).
Definition counts (f i d e : Z) : poll_counts := {| n_fetched := f; n_ingested := i; n_duplicate := d; n_errors := e |}.
Definition all : mail_server := server [3; 1; 2] named.

Lemma empty_ok : ids_ok uuid (w_db empty).
Proof. split; [constructor|done]. Qed.

(** Three messages, and the same mailbox again. *)
Example two_polls :
  (poll all empty).1 = Ok (counts 3 3 0 0) /\ ids (w_db (poll all empty).2) = ["m1"; "m2"; "m3"] /\ w_mark (poll all empty).2 = mark_text 3 /\
  (poll all (poll all empty).2).1 = Ok no_counts.
Proof. split_and!; vm_compute; reflexivity. Qed.

Lemma poll_accounts_for_every_message_witness :
  exists c w', poll all empty = (Ok c, w') /\ n_ingested c + n_duplicate c + n_errors c = n_fetched c.
Proof.
  destruct (poll all empty) as [[c|e] w'] eqn:H; [|vm_compute in H; discriminate].
  destruct (poll_accounts_for_every_message cfg uuid re_search repr_other "/store" sha enforce read_message (fun b => b) loads dumps demo_uuid_inj loads_dumps
              "INBOX" 100 all empty c w' empty_ok (or_introl eq_refl) H) as (_ & _ & state & last & uids & _ & _ & _ & Hc & _).
  exact (ex_intro _ c (ex_intro _ w' (conj eq_refl Hc))).
Defined.

Lemma repeated_poll_stores_nothing_witness :
  exists w' c', poll_once cfg uuid re_search repr_other "/store" sha enforce read_message (fun b => b) loads dumps "INBOX" 200 all
    {| w_db := w_db w'; w_files := w_files w'; w_mark := None |} = (Ok c', w') /\ n_ingested c' = 0 /\ ids (w_db w') = ["m1"; "m2"; "m3"].
Proof.
  destruct (poll all empty) as [[c|e] w'] eqn:H; [|vm_compute in H; discriminate].
  assert (He : n_errors c = 0) by (vm_compute in H; injection H as <- _; reflexivity).
  assert (Hi : ids (w_db w') = ["m1"; "m2"; "m3"]) by (vm_compute in H; injection H as _ <-; vm_compute; reflexivity).
  destruct (repeated_poll_stores_nothing cfg uuid re_search repr_other "/store" sha enforce read_message (fun b => b) loads dumps demo_uuid_inj loads_dumps
              "INBOX" 100 200 all empty c w' eq_refl empty_ok (or_introl eq_refl) H He) as (c' & H' & _ & H0 & _).
  exact (ex_intro _ w' (ex_intro _ c' (conj H' (conj H0 Hi)))).
Defined.

(** The second message cannot be fetched once. *)
Definition flaky : mail_server := server [1; 2; 3] (fun uid => if uid =? 2 then NoMessage else named uid).
Example second_message_is_lost :
  (poll flaky empty).1 = Ok (counts 3 2 0 1) /\ (poll all (poll flaky empty).2).1 = Ok no_counts /\
  ids (w_db (poll all (poll flaky empty).2).2) = ["m1"; "m3"].
Proof. split_and!; vm_compute; reflexivity. Qed.

Lemma unfetched_message_is_skipped_for_good_witness :
  exists w', (poll flaky empty).2 = w' /\ forall w'', polls cfg uuid re_search repr_other "/store" sha enforce read_message (fun b => b) loads dumps "INBOX" w' w'' ->
    exists state'' last'', read_mark loads "INBOX" (w_mark w'') = Ok (state'', last'') /\
      forall sv'' uids'', fetch_unseen_uids sv'' last'' = Ok uids'' -> ~ In 2 uids''.
Proof.
  destruct (poll flaky empty) as [[c|e] w'] eqn:H; [|vm_compute in H; discriminate].
  destruct (unfetched_message_is_skipped_for_good cfg uuid re_search repr_other "/store" sha enforce read_message (fun b => b) loads dumps demo_uuid_inj loads_dumps
              "INBOX" 100 flaky empty c w' [] 0 [1; 2; 3] 2 3 "m3" empty_ok (or_introl eq_refl) H eq_refl) as (_ & Hw);
    [vm_compute; reflexivity|cbn; tauto|reflexivity|cbn; tauto|lia|vm_compute; reflexivity|].
  exact (ex_intro _ w' (conj eq_refl Hw)).
Defined.

(** A message of one HTML part in an unknown charset, in front of two others. *)
Definition poisoned : mail_server := server [1; 2; 3] (fun uid => if uid =? 1 then Message "charset" else named uid).

Example poisoned_polls : starts_with "charset" 0 poisoned /\ (poll poisoned empty).2 = empty /\ (poll poisoned empty).1 = Raise (OtherException "LookupError").
Proof. split; [exists 1, [2; 3]; split; vm_compute; reflexivity|split; vm_compute; reflexivity]. Qed.

Lemma unreadable_message_blocks_the_mailbox_witness :
  snd (imap_poll_task cfg uuid re_search repr_other "/store" sha enforce read_message (fun b => b) loads dumps "INBOX" 100 poisoned empty) = empty.
Proof.
  apply (unreadable_message_blocks_the_mailbox cfg uuid re_search repr_other "/store" sha enforce read_message (fun b => b) loads dumps
           "INBOX" "charset" (OtherException "LookupError") empty _ [] 0); [reflexivity..|].
  apply rtc_once. exists 100, poisoned. split; [exact (proj1 poisoned_polls)|reflexivity].
Defined.
End DemoPoll.
