(* ===== verification/AuditExports.v ===== *)
(** * Signed exports of the audit trail

    workers/tasks/audit_tasks.py, the part that generates an export, and api/v1/audit.py:
    the tenant's view of its audit trail, and the exports it asks for, downloads and
    verifies.  The rendering of the PDF and [json.dumps] are arguments; the zone of the
    process is UTC. *)

From Stdlib Require Import Ascii.
From S2P Require Import Prelude PyStr Json Encoding PyTime Crypto AuditDigest Redaction Accounts InboundEmail AuditChain.

(** ** The tables *)

(** models/audit_export.py, [AuditExportScope] *)
Inductive AuditExportScope : Type := TENANT | SUPPLIER | SUBMISSION | DATE_RANGE.
(** models/audit_export.py, [AuditExportStatus] *)
Inductive AuditExportStatus : Type := PENDING | GENERATING | READY | FAILED.
#[export] Instance AuditExportScope_eq_dec : EqDecision AuditExportScope.
Proof. solve_decision. Defined.
#[export] Instance AuditExportStatus_eq_dec : EqDecision AuditExportStatus.
Proof. solve_decision. Defined.

(** models/audit_export.py, [AuditExportScope]: the values *)
Definition scope_value (s : AuditExportScope) : string :=
  match s with TENANT => "tenant" | SUPPLIER => "supplier" | SUBMISSION => "submission" | DATE_RANGE => "date_range" end.

(** models/audit_export.py, [AuditExport] *)
Record AuditExport : Type := {
  ax_id : string; ax_tenant_id : string; scope_type : AuditExportScope; scope_params : option (list (string * json));
  requested_by_user_id : option string; requested_at : datetime; ax_status : AuditExportStatus;
  file_path : option string; file_sha256 : option string; signed_envelope_path : option string; envelope_sha256 : option string;
  expires_at : option datetime; ax_row_count : option Z; ax_error : option string; completed_at : option datetime }.

(** The committed tables, the files of the machine, the signing key the process keeps and
    the broker's queue. *)
Record ExportDB : Type := { chain : AuditDB; exports : list AuditExport }.

Definition find_export (i : string) (l : list AuditExport) : option AuditExport := find_first (fun e => String.eqb (ax_id e) i) l.
Definition put_export (e : AuditExport) (db : ExportDB) : ExportDB :=
  {| chain := chain db; exports := map (fun x => if String.eqb (ax_id x) (ax_id e) then e else x) (exports db) |}.

Definition with_status (st : AuditExportStatus) (err : option string) (done_at : option datetime) (e : AuditExport) : AuditExport :=
  {| ax_id := ax_id e; ax_tenant_id := ax_tenant_id e; scope_type := scope_type e; scope_params := scope_params e;
     requested_by_user_id := requested_by_user_id e; requested_at := requested_at e; ax_status := st; file_path := file_path e;
     file_sha256 := file_sha256 e; signed_envelope_path := signed_envelope_path e; envelope_sha256 := envelope_sha256 e;
     expires_at := expires_at e; ax_row_count := ax_row_count e; ax_error := err; completed_at := done_at |}.

(** ** Generating an export *)

(** What the generation raises. *)
Inductive job_error : Type :=
| BadDate | ChainError (e : audit_error) | RenderError | SignError (e : envelope_error) | OSError.

Section Exports.
Context `{E : Ed25519}.
Context (sha256 : bytes -> bytes) (canonical_json_bytes : json -> option bytes).
(** [json.dumps(envelope, sort_keys=True, separators=(",", ":"))], [json.loads] and
    [str()] of other values. *)
Context (json_dumps : json -> string) (json_loads : bytes -> option json) (repr_other : json -> string).
(** [datetime.fromisoformat] *)
Context (fromisoformat : string -> option datetime).
(** [settings.receipt_signing_key_id], [settings.receipt_signing_private_key_pem] and the
    directory of the exports. *)
Context (key_id source base : string).
(** services/audit_pdf_exporter.py, [render_audit_pdf]: tenant, its name, scope, rows,
    time, key and envelope hash; [None] is an exception. *)
Context (render_audit_pdf : string -> option string -> json -> list AuditLogEntry -> datetime -> string -> string -> option bytes).
(** [f"{type(exc).__name__}: {exc}"] *)
Context (error_text : job_error -> string).
(** The names of tenants, and the files that can be written. *)
Context (tenant_name : string -> option string) (can_write : string -> bool).

(** What a generation changes besides the tables. *)
Record Machine : Type := { files : list (string * bytes); keys : key_cache }.
Definition JM (A : Type) : Type := M Machine job_error A.

Definition job {A} (r : result job_error A) : JM A := fun m => (r, m).
Definition with_keys {A} (k : M key_cache envelope_error A) : JM A := fun m =>
  match k (keys m) with
  | (Ok a, c) => (Ok a, {| files := files m; keys := c |})
  | (Raise e, c) => (Raise (SignError e), {| files := files m; keys := c |})
  end.
Definition write_file (path : string) (b : bytes) : JM unit := fun m =>
  if can_write path then (Ok tt, {| files := dset path b (files m); keys := keys m |}) else (Raise OSError, m).

(** workers/tasks/audit_tasks.py, [_parse_iso]; a value that is no text has no
    [replace]. *)
Definition _parse_iso (value : json) : result job_error datetime :=
  match value with
  | JStr s => match fromisoformat (replace_char "Z" "+00:00" s) with Some d => Ok (astimezone_utc d) | None => Raise BadDate end
  | _ => Raise BadDate
  end.

(** workers/tasks/audit_tasks.py:184-199, [_generate_export]: the filter of the scope. *)
Definition param (k : string) (params : list (string * json)) : option json :=
  let v := get_key k params in if jtruthy v then Some v else None.
Definition about (resource_type_ : string) (v : json) (r : AuditLogEntry) : bool :=
  String.eqb (resource_type r) resource_type_ && bool_decide (resource_id r = Some (py_str repr_other v)).
Definition bound (v : option json) : result job_error (option Z) :=
  match v with
  | None => Ok None
  | Some v => match _parse_iso v with Ok d => Ok (Some (instant d)) | Raise e => Raise e end
  end.
Definition scope_filter (scope : AuditExportScope) (params : list (string * json)) : result job_error (AuditLogEntry -> bool) :=
  match scope with
  | SUPPLIER => Ok (match param "supplier_id" params with Some v => about "supplier" v | None => fun _ => true end)
  | SUBMISSION => Ok (match param "submission_id" params with Some v => about "submission" v | None => fun _ => true end)
  | DATE_RANGE =>
      match bound (param "from" params) with
      | Raise e => Raise e
      | Ok from_ =>
          match bound (param "to" params) with
          | Raise e => Raise e
          | Ok to_ => Ok (fun r => match from_ with Some t => t <=? instant (occurred_at r) | None => true end
                                   && match to_ with Some t => instant (occurred_at r) <? t | None => true end)
          end
      end
  | TENANT => Ok (fun _ => true)
  end.

(** workers/tasks/audit_tasks.py:183-202, [_generate_export]: the rows of the export, in
    the order of the chain. *)
Definition scope_params_of (e : AuditExport) : list (string * json) := default [] (scope_params e).
Definition scope_rows (db : AuditDB) (e : AuditExport) : result job_error (list AuditLogEntry) :=
  match scope_filter (scope_type e) (scope_params_of e) with
  | Raise err => Raise err
  | Ok f => Ok (sort_by chain_position (List.filter f (tenant_rows (ax_tenant_id e) db)))
  end.

(** workers/tasks/audit_tasks.py:237-268, [_generate_export]: the envelope before it is
    signed; the hash of the PDF is set later. *)
Definition envelope_row (r : AuditLogEntry) : json :=
  JObj [("id", JStr (id r)); ("chain_position", JInt (chain_position r)); ("this_hash", JStr (this_hash r));
        ("occurred_at", JStr (isoformat_utc_z (instant (occurred_at r)))); ("actor_type", JStr (actor_type_value (actor_type r)));
        ("actor_id", opt_str (actor_id r)); ("action_verb", JStr (action_verb r)); ("resource_type", JStr (resource_type r));
        ("resource_id", opt_str (resource_id r))].
Definition scope_json (e : AuditExport) : json :=
  JObj [("type", JStr (scope_value (scope_type e))); ("params", JObj (scope_params_of e))].
Definition envelope_of (e : AuditExport) (rows : list AuditLogEntry) (generated_at : datetime) : list (string * json) :=
  [("version", JStr "1.0"); ("tenant_id", JStr (ax_tenant_id e)); ("scope", scope_json e);
   ("generated_at", JStr (isoformat_utc_z (instant generated_at))); ("row_count", JInt (Z.of_nat (length rows)));
   ("rows", JList (map envelope_row rows)); ("pdf_sha256", JStr "");
   ("first_chain_hash", opt_str (this_hash <$> head rows)); ("last_chain_hash", opt_str (this_hash <$> last rows))].

Definition zeros : string := join "" (repeat "0" 64).
Definition hexdigest (b : bytes) : string := hex (sha256 b).

(** workers/tasks/audit_tasks.py:294-298, [_generate_export] *)
Definition base_dir (e : AuditExport) : string := base +:+ "/once-audit-exports/" +:+ ax_tenant_id e.
Definition pdf_path (e : AuditExport) : string := base_dir e +:+ "/" +:+ ax_id e +:+ ".pdf".
Definition env_path (e : AuditExport) : string := base_dir e +:+ "/" +:+ ax_id e +:+ ".envelope.json".

(** workers/tasks/audit_tasks.py:304-312, [_generate_export]: the row that is ready. *)
Definition ready_row (generated_at : datetime) (e : AuditExport) (n : nat) (pdf_bytes envelope_bytes : bytes) : AuditExport :=
  {| ax_id := ax_id e; ax_tenant_id := ax_tenant_id e; scope_type := scope_type e; scope_params := scope_params e;
     requested_by_user_id := requested_by_user_id e; requested_at := requested_at e; ax_status := READY;
     file_path := Some (pdf_path e); file_sha256 := Some (hexdigest pdf_bytes); signed_envelope_path := Some (env_path e);
     envelope_sha256 := Some (hexdigest envelope_bytes);
     expires_at := Some (Datetime (wall generated_at + days 7) (tzinfo generated_at));
     ax_row_count := Some (Z.of_nat n); ax_error := None; completed_at := Some generated_at |}.

(** workers/tasks/audit_tasks.py:182-302, [_generate_export]: within the [try]; the number
    of breaks of a chain that is not valid, or the row that is ready. *)
Definition export_body (generated_at : datetime) (db : AuditDB) (e : AuditExport) : JM (nat + AuditExport) :=
  let* rows := job (scope_rows db e) in
  let* c := job (match verify_chain sha256 canonical_json_bytes db (ax_tenant_id e) 1 None with
                 | Ok c => Ok c
                 | Raise err => Raise (ChainError err)
                 end) in
  if negb (valid c) then ret (inl (length (breaks c)))
  else
    let envelope := envelope_of e rows generated_at in
    let* pdf_bytes := job (match render_audit_pdf (ax_tenant_id e) (tenant_name (ax_tenant_id e)) (scope_json e) rows generated_at key_id zeros with
                           | Some b => Ok b
                           | None => Raise RenderError
                           end) in
    let* envelope := with_keys (sign_envelope canonical_json_bytes key_id source (set_key "pdf_sha256" (JStr (hexdigest pdf_bytes)) envelope)) in
    let envelope_bytes := json_dumps (JObj envelope) in
    write_file (pdf_path e) pdf_bytes ;;;
    write_file (env_path e) envelope_bytes ;;;
    ret (inr (ready_row generated_at e (length rows) pdf_bytes envelope_bytes)).

(** workers/tasks/audit_tasks.py:314-329, [_generate_export]: what it returns. *)
Inductive export_summary : Type :=
| Missing | ChainInvalid (breaks : nat) | Ready (row_count : Z) (pdf_sha256 : string) | JobFailed (error : job_error).

(** workers/tasks/audit_tasks.py, [_generate_export]; [generated_at] and [failed_at] are
    the clock when the envelope is made and when the export fails. *)
Definition _generate_export (generated_at failed_at : datetime) (export_id : string) (db : ExportDB) (m : Machine) :
    export_summary * ExportDB * Machine :=
  match find_export export_id (exports db) with
  | None => (Missing, db, m)
  | Some row =>
      let e := with_status GENERATING (ax_error row) (completed_at row) row in
      let db := put_export e db in
      match export_body generated_at (chain db) e m with
      | (Ok (inr e'), m) =>
          (Ready (default 0 (ax_row_count e')) (default "" (file_sha256 e')), put_export e' db, m)
      | (Ok (inl n), m) =>
          let err := "chain_invalid: " +:+ str_of_Z (Z.of_nat n) +:+ " break(s) detected" in
          (ChainInvalid n, put_export (with_status FAILED (Some err) (Some failed_at) e) db, m)
      | (Raise err, m) =>
          (JobFailed err, put_export (with_status FAILED (Some (error_text err)) (Some failed_at) e) db, m)
      end
  end.

(** ** The tenant's audit trail *)

(** api/v1/audit.py, [_parse_dt] *)
Definition _parse_dt (value : option string) : result web_error (option datetime) :=
  match opt_truthy value with
  | None => Ok None
  | Some v =>
      match fromisoformat (replace_char "Z" "+00:00" v) with
      | None => Raise (HTTPException 400 "invalid_datetime")
      | Some dt => Ok (Some (astimezone_utc (coerce_utc dt)))
      end
  end.

(** [ORDER BY occurred_at DESC, id DESC] *)
Definition newest_first (x y : AuditLogEntry) : bool :=
  (instant (occurred_at y) <? instant (occurred_at x))
  || ((instant (occurred_at x) =? instant (occurred_at y)) && String.leb (id y) (id x)).

(** The query parameters of the list. *)
Record audit_query : Type := {
  q_actor_type : option AuditActorType; q_action : option string; q_resource_type : option string; q_from : option string;
  q_to : option string; q_text : option string; q_limit : nat; q_offset : nat }.

Definition at_most (n : Z) (o : option string) : bool := match o with Some s => slen s <=? n | None => true end.
Definition valid_query (q : audit_query) : bool :=
  at_most 64 (q_action q) && at_most 64 (q_resource_type q) && at_most 255 (q_text q) && (1 <=? q_limit q)%nat && (q_limit q <=? 500)%nat.

(** api/v1/audit.py:108-128, [list_audit_rows]: the filters. *)
Definition matches_like (pattern : string) (o : option string) : bool := match o with Some s => ilike pattern s | None => false end.
Definition audit_filter (q : audit_query) (start end_ : option datetime) (r : AuditLogEntry) : bool :=
  match q_actor_type q with Some t => bool_decide (actor_type r = t) | None => true end &&
  match opt_truthy (q_action q) with Some a => String.eqb (action_verb r) a | None => true end &&
  match opt_truthy (q_resource_type q) with Some t => String.eqb (resource_type r) t | None => true end &&
  match start with Some t => instant t <=? instant (occurred_at r) | None => true end &&
  match end_ with Some t => instant (occurred_at r) <? instant t | None => true end &&
  match opt_truthy (q_text q) with
  | Some q =>
      let like_ := "%" +:+ lower q +:+ "%" in
      matches_like like_ (resource_label r) || matches_like like_ (resource_id r) || matches_like like_ (Some (action_verb r))
  | None => true
  end.

(** api/v1/audit.py, [list_audit_rows]: the page and the total. *)
Definition list_audit_rows (tenant_id_ : string) (q : audit_query) (db : AuditDB) : result web_error (list AuditLogEntry * Z) :=
  if negb (valid_query q) then Raise (HTTPException 422 "validation_error")
  else
    match _parse_dt (q_from q) with
    | Raise e => Raise e
    | Ok start =>
        match _parse_dt (q_to q) with
        | Raise e => Raise e
        | Ok end_ =>
            let rows := List.filter (audit_filter q start end_) (tenant_rows tenant_id_ db) in
            Ok (take (q_limit q) (drop (q_offset q) (isort newest_first rows)), Z.of_nat (length rows))
        end
    end.

(** api/v1/audit.py, [chain_verify] *)
Definition chain_verify (tenant_id_ : string) (from_position_ : Z) (to_position_ : option Z) (db : AuditDB) : result web_error AuditChainVerifyResult :=
  if (from_position_ <? 1) || match to_position_ with Some t => t <? 1 | None => false end then Raise (HTTPException 422 "validation_error")
  else
    match verify_chain sha256 canonical_json_bytes db tenant_id_ from_position_ to_position_ with
    | Ok c => Ok c
    | Raise _ => Raise (PyException "Exception")
    end.

(** api/v1/audit.py, [by_resource] *)
Definition by_resource (tenant_id_ resource_type_ resource_id_ : string) (limit : nat) (db : AuditDB) : result web_error (list AuditLogEntry * Z) :=
  if negb ((1 <=? limit)%nat && (limit <=? 1000)%nat) then Raise (HTTPException 422 "validation_error")
  else
    let rows := take limit (sort_by (fun r => instant (occurred_at r))
      (List.filter (fun r => String.eqb (resource_type r) resource_type_ && bool_decide (resource_id r = Some resource_id_)) (tenant_rows tenant_id_ db))) in
    Ok (rows, Z.of_nat (length rows)).

(** api/v1/audit.py, [get_audit_row] *)
Definition get_audit_row (tenant_id_ audit_id : string) (db : AuditDB) : result web_error AuditLogEntry :=
  match find_first (fun r => String.eqb (id r) audit_id) (audit_trail db) with
  | Some row => if String.eqb (tenant_id row) tenant_id_ then Ok row else Raise (HTTPException 404 "not_found")
  | None => Raise (HTTPException 404 "not_found")
  end.

(** ** The exports of a tenant *)

(** api/v1/audit.py, [_get_export_or_404] *)
Definition _get_export_or_404 (tenant_id_ export_id : string) (db : ExportDB) : result web_error AuditExport :=
  match find_export export_id (exports db) with
  | Some row => if String.eqb (ax_tenant_id row) tenant_id_ then Ok row else Raise (HTTPException 404 "not_found")
  | None => Raise (HTTPException 404 "not_found")
  end.

(** api/v1/audit.py, [list_exports] *)
Definition list_exports (tenant_id_ : string) (limit : nat) (db : ExportDB) : result web_error (list AuditExport) :=
  if negb ((1 <=? limit)%nat && (limit <=? 200)%nat) then Raise (HTTPException 422 "validation_error")
  else Ok (take limit (sort_by (fun e => - instant (requested_at e)) (List.filter (fun e => String.eqb (ax_tenant_id e) tenant_id_) (exports db)))).

(** api/v1/audit.py:237-246, [create_export]: an export that is not over. *)
Definition active (e : AuditExport) : bool := bool_decide (ax_status e = PENDING \/ ax_status e = GENERATING).

(** api/v1/audit.py, [create_export], but for the job; [new_id] and [now] are the id and
    the time the table gives the row. *)
Definition create_export (new_id : string) (now : datetime) (tenant_id_ user_id : string) (scope : AuditExportScope)
    (params : list (string * json)) (db : ExportDB) : result web_error AuditExport * ExportDB :=
  if existsb (fun e => String.eqb (ax_tenant_id e) tenant_id_ && active e) (exports db)
  then (Raise (HTTPException 429 "export_in_progress"), db)
  else
    let e := {| ax_id := new_id; ax_tenant_id := tenant_id_; scope_type := scope; scope_params := Some params;
                requested_by_user_id := Some user_id; requested_at := now; ax_status := PENDING; file_path := None; file_sha256 := None;
                signed_envelope_path := None; envelope_sha256 := None; expires_at := None; ax_row_count := None; ax_error := None;
                completed_at := None |} in
    (Ok e, {| chain := chain db; exports := exports db ++ [e] |}).

(** api/v1/audit.py, [get_export] *)
Definition get_export : string -> string -> ExportDB -> result web_error AuditExport := _get_export_or_404.

(** api/v1/audit.py, [download_export_pdf]: the file of the answer. *)
Definition download (row : AuditExport) (path : option string) (m : Machine) : result web_error bytes :=
  match ax_status row, opt_truthy path with
  | READY, Some path =>
      match dget path (files m) with Some b => Ok b | None => Raise (HTTPException 410 "expired") end
  | _, _ => Raise (HTTPException 409 "not_ready")
  end.
Definition download_export_pdf (tenant_id_ export_id : string) (db : ExportDB) (m : Machine) : result web_error bytes :=
  match _get_export_or_404 tenant_id_ export_id db with
  | Raise e => Raise e
  | Ok row => download row (file_path row) m
  end.

(** api/v1/audit.py, [download_export_envelope] *)
Definition download_export_envelope (tenant_id_ export_id : string) (db : ExportDB) (m : Machine) : result web_error bytes :=
  match _get_export_or_404 tenant_id_ export_id db with
  | Raise e => Raise e
  | Ok row =>
      match download row (signed_envelope_path row) m with
      | Raise e => Raise e
      | Ok body => if is_someb (json_loads body) then Ok body else Raise (PyException "JSONDecodeError")
      end
  end.

(** ** Requests, the broker and the worker *)

(** What becomes of the job [create_export] sends before its transaction commits: the
    broker cannot be reached and the exception is swallowed, a worker takes the job before
    the commit, or it waits in the queue. *)
Inductive delivery : Type := Unreachable | BeforeCommit | Queued.

Record World : Type := { w_db : ExportDB; w_machine : Machine; queue : list string }.

Definition work (generated_at failed_at : datetime) (i : string) (w : World) : World :=
  let '(_, db, m) := _generate_export generated_at failed_at i (w_db w) (w_machine w) in
  {| w_db := db; w_machine := m; queue := queue w |}.

(** api/v1/audit.py, [create_export], with its job *)
Definition create (new_id : string) (now : datetime) (tenant_id_ user_id : string) (scope : AuditExportScope)
    (params : list (string * json)) (d : delivery) (w : World) : result web_error AuditExport * World :=
  match create_export new_id now tenant_id_ user_id scope params (w_db w) with
  | (Raise e, _) => (Raise e, w)
  | (Ok e, db) =>
      let w' := match d with BeforeCommit => work now now new_id w | _ => w end in
      (Ok e, {| w_db := {| chain := chain db; exports := exports (w_db w') ++ [e] |}; w_machine := w_machine w';
                queue := match d with Queued => queue w' ++ [new_id] | _ => queue w' end |})
  end.

(** The steps of the system: a request of some tenant for a new id, a job of the queue
    taken by a worker, and whatever else writes to the audit trail. *)
Inductive step : World -> World -> Prop :=
| step_create new_id now t u scope params d w :
    find_export new_id (exports (w_db w)) = None -> ~ In new_id (queue w) ->
    step w (snd (create new_id now t u scope params d w))
| step_work generated_at failed_at l i r w :
    queue w = l ++ i :: r ->
    step w {| w_db := w_db (work generated_at failed_at i w); w_machine := w_machine (work generated_at failed_at i w); queue := l ++ r |}
| step_audit trail w :
    step w {| w_db := {| chain := trail; exports := exports (w_db w) |}; w_machine := w_machine w; queue := queue w |}.

(** ** Lemmas *)

Lemma find_put e db j : find_export (ax_id e) (exports db) <> None ->
  find_export j (exports (put_export e db)) = if String.eqb (ax_id e) j then Some e else find_export j (exports db).
Proof.
  unfold find_export, put_export. cbn [exports]. induction (exports db) as [|x l IH]; cbn [find_first map]; [done|].
  destruct (String.eqb_spec (ax_id x) (ax_id e)) as [He|He].
  - rewrite He. intros _. destruct (String.eqb_spec (ax_id e) j) as [<-|Hj]; [done|].
    clear IH. induction l as [|y l IH]; cbn [find_first map]; [done|].
    destruct (String.eqb_spec (ax_id y) (ax_id e)) as [Hy|Hy].
    + rewrite Hy. destruct (String.eqb_spec (ax_id e) j); [done|exact IH].
    + destruct (String.eqb (ax_id y) j); [done|exact IH].
  - intros H. destruct (String.eqb_spec (ax_id x) j) as [Hj|Hj].
    + destruct (String.eqb_spec (ax_id e) j); [congruence|done].
    + by apply IH.
Qed.

Lemma find_put_status e db j st err t : find_export (ax_id e) (exports db) <> None ->
  find_export j (exports (put_export (with_status st err t e) db)) =
    if String.eqb (ax_id e) j then Some (with_status st err t e) else find_export j (exports db).
Proof. intros H. by apply (find_put (with_status st err t e)). Qed.

Lemma find_export_id i db e : find_export i (exports db) = Some e -> ax_id e = i.
Proof. intros [_ H]%find_first_Some. by apply String.eqb_eq. Qed.

Lemma sign_keeps env env' c c' k : sign_envelope canonical_json_bytes key_id source env c = (Ok env', c') ->
  k <> "signature_b64" -> k <> "signature_key_id" -> get_key k env' = get_key k env.
Proof.
  intros H H1 H2. unfold sign_envelope in H. inv_run H. destruct (get_default_signing_key source c) as [[key|e] c1]; [|done].
  injection Hrun as <- <-. by rewrite !get_key_set_key_ne by done.
Qed.

Lemma paths_differ e : pdf_path e <> env_path e.
Proof. unfold pdf_path, env_path. intros H. do 3 apply append_inj_l in H. done. Qed.

(** What is true of an export whose generation has come to its end. *)
Lemma export_body_ready g db e m e' m' : export_body g db e m = (Ok (inr e'), m') ->
  exists rows pdf env env0,
    scope_rows db e = Ok rows /\
    linked sha256 canonical_json_bytes (genesis_hash sha256 (ax_tenant_id e)) 1 (window_rows db (ax_tenant_id e) 1 None) /\
    env0 = set_key "pdf_sha256" (JStr (hexdigest pdf)) (envelope_of e rows g) /\
    sign_envelope canonical_json_bytes key_id source env0 (keys m) = (Ok env, keys m') /\
    dget (pdf_path e) (files m') = Some pdf /\ dget (env_path e) (files m') = Some (json_dumps (JObj env)) /\
    e' = ready_row g e (length rows) pdf (json_dumps (JObj env)).
Proof.
  unfold export_body, job, write_file, with_keys, bind, ret. destruct (scope_rows db e) as [rows|]; [|done].
  destruct (verify_chain _ _ db (ax_tenant_id e) 1 None) as [c|] eqn:Hc; [|done]. destruct (valid c) eqn:Hv; [cbn [negb]|done].
  destruct (render_audit_pdf _ _ _ _ _ _ _) as [pdf|]; [|done].
  destruct (sign_envelope _ _ _ _ (keys m)) as [[env|?] c'] eqn:Hs; [|done].
  destruct (can_write (pdf_path e)); [|done]. destruct (can_write (env_path e)); [|done]. intros [= <- <-].
  exists rows, pdf, env. eexists. split_and!; [done| |reflexivity|exact Hs| | |done].
  - by apply (verify_valid_linked sha256 canonical_json_bytes db (ax_tenant_id e) 1 None c Hc).
  - cbn [files]. rewrite dget_dset_ne by (apply not_eq_sym, paths_differ). by rewrite dget_dset.
  - cbn [files]. by rewrite dget_dset.
Qed.

(** A generation changes the row of its export only. *)
Lemma generate_other g f i db m res db' m' : _generate_export g f i db m = (res, db', m') ->
  chain db' = chain db /\ forall j, j <> i -> find_export j (exports db') = find_export j (exports db).
Proof.
  unfold _generate_export. destruct (find_export i (exports db)) as [row|] eqn:Hf; [|by intros [= <- <- <-]].
  pose proof (find_export_id _ _ _ Hf) as Hi. set (e := with_status GENERATING (ax_error row) (completed_at row) row).
  assert (Hput : forall x db0, ax_id x = i -> find_export i (exports db0) <> None ->
    chain (put_export x db0) = chain db0 /\ forall j, find_export j (exports (put_export x db0)) = if String.eqb i j then Some x else find_export j (exports db0)).
  { intros x db0 <- Hx. split; [done|]. intros j. by apply find_put. }
  destruct (Hput e db Hi ltac:(congruence)) as [_ He].
  assert (Hsome : find_export i (exports (put_export e db)) <> None) by (by rewrite He, String.eqb_refl).
  assert (Hall : forall x, ax_id x = i -> chain (put_export x (put_export e db)) = chain db /\
    forall j, j <> i -> find_export j (exports (put_export x (put_export e db))) = find_export j (exports db)).
  { intros x Hx. split; [done|]. intros j Hj. destruct (Hput x _ Hx Hsome) as [_ ->]. rewrite He.
    by destruct (String.eqb_spec i j); [congruence|]. }
  destruct (export_body g _ e m) as [[[n|e']|err] m1] eqn:Hb; intros [= <- <- <-]; apply Hall; try done.
  apply export_body_ready in Hb as (rows & pdf & env & env0 & _ & _ & _ & _ & _ & _ & ->). done.
Qed.

Lemma create_outcome new_id now t u scope params d w : find_export new_id (exports (w_db w)) = None ->
  let '(r, w') := create new_id now t u scope params d w in
  match r with
  | Raise e => w' = w /\ e = HTTPException 429 "export_in_progress" /\
      exists x, In x (exports (w_db w)) /\ ax_tenant_id x = t /\ active x = true
  | Ok e => ax_id e = new_id /\ ax_tenant_id e = t /\ ax_status e = PENDING /\ w_machine w' = w_machine w /\
      exports (w_db w') = exports (w_db w) ++ [e] /\
      queue w' = queue w ++ match d with Queued => [new_id] | _ => [] end
  end.
Proof.
  intros Hfresh. unfold create, create_export. destruct (existsb _ (exports (w_db w))) eqn:Hx.
  - split_and!; [done|done|]. apply existsb_exists in Hx as (x & Hin & [Ht%String.eqb_eq Ha]%andb_true_iff). eauto.
  - assert (Hw : work now now new_id w = w) by (unfold work, _generate_export; rewrite Hfresh; by destruct w). cbn.
    rewrite Hw. destruct d; cbn; rewrite ?app_nil_r; split_and!; done.
Qed.

Lemma active_refused e w : In e (exports (w_db w)) -> active e = true ->
  forall new_id now u scope params d, create new_id now (ax_tenant_id e) u scope params d w = (Raise (HTTPException 429 "export_in_progress"), w).
Proof.
  intros Hin Ha new_id now u scope params d. unfold create, create_export.
  assert (Hx : existsb (fun x => String.eqb (ax_tenant_id x) (ax_tenant_id e) && active x) (exports (w_db w)) = true).
  { apply existsb_exists. exists e. by rewrite String.eqb_refl, Ha. }
  by rewrite Hx.
Qed.

(** ** Properties *)

(** C34. A generation always comes to an end, and touches no other export.  When the export
    is ready, the tenant's chain is linked from its genesis to its last row; the tenant
    downloads the PDF that was rendered and the envelope; the envelope lists exactly the
    rows of the scope and the hash of that PDF, and its signature verifies.  In every
    other case the export has failed. *)
Theorem ready_export_verifies `{L : !Ed25519Laws E} g f i db m row res db' m' :
  (forall j, json_loads (json_dumps j) <> None) -> cache_ok (keys m) -> find_export i (exports db) = Some row ->
  _generate_export g f i db m = (res, db', m') ->
  chain db' = chain db /\ (forall j, j <> i -> find_export j (exports db') = find_export j (exports db)) /\
  exists e', find_export i (exports db') = Some e' /\ ax_tenant_id e' = ax_tenant_id row /\
  match res with
  | Missing => False
  | ChainInvalid _ | JobFailed _ => ax_status e' = FAILED
  | Ready n h =>
      ax_status e' = READY /\ ax_row_count e' = Some n /\
      linked sha256 canonical_json_bytes (genesis_hash sha256 (ax_tenant_id row)) 1 (window_rows (chain db) (ax_tenant_id row) 1 None) /\
      exists rows pdf env c,
        scope_rows (chain db) row = Ok rows /\ n = Z.of_nat (length rows) /\ h = hexdigest pdf /\
        download_export_pdf (ax_tenant_id row) i db' m' = Ok pdf /\
        download_export_envelope (ax_tenant_id row) i db' m' = Ok (json_dumps (JObj env)) /\
        get_key "rows" env = JList (map envelope_row rows) /\ get_key "pdf_sha256" env = JStr h /\
        verify_envelope canonical_json_bytes source env None (keys m') = (Ok true, c)
  end.
Proof.
  intros Hloads Hcache Hf Hg. destruct (generate_other _ _ _ _ _ _ _ _ Hg) as [Hchain Hother]. split; [done|]. split; [done|].
  unfold _generate_export in Hg. rewrite Hf in Hg. pose proof (find_export_id _ _ _ Hf) as Hi.
  set (e := with_status GENERATING (ax_error row) (completed_at row) row) in *.
  assert (Hne : find_export i (exports (put_export e db)) <> None).
  { rewrite find_put by (cbn; congruence). cbn. by rewrite Hi, String.eqb_refl. }
  assert (Hput : forall x, ax_id x = i -> find_export i (exports (put_export x (put_export e db))) = Some x).
  { intros x Hx. rewrite find_put by congruence. by rewrite Hx, String.eqb_refl. }
  destruct (export_body g (chain (put_export e db)) e m) as [[[n|e']|err] m1] eqn:Hb; injection Hg as <- <- <-.
  - exists (with_status FAILED (Some ("chain_invalid: " +:+ str_of_Z (Z.of_nat n) +:+ " break(s) detected")) (Some f) e). by rewrite Hput.
  - apply export_body_ready in Hb as (rows & pdf & env & env0 & Hrows & Hl & -> & Hs & Hp & Hv & ->).
    exists (ready_row g e (length rows) pdf (json_dumps (JObj env))). rewrite Hput by done. split_and!; try done.
    destruct (envelope_roundtrip canonical_json_bytes key_id source _ env (keys m) (keys m1) Hcache Hs) as ((c & Hver) & _ & _).
    exists rows, pdf, env, c.
    assert (Hget : _get_export_or_404 (ax_tenant_id row) i (put_export (ready_row g e (length rows) pdf (json_dumps (JObj env))) (put_export e db))
      = Ok (ready_row g e (length rows) pdf (json_dumps (JObj env)))).
    { unfold _get_export_or_404. rewrite Hput by done. cbn. by rewrite String.eqb_refl. }
    assert (Htruthy : forall a b c, truthy (a +:+ String b c) = true) by (intros [|? ?] b c'; done).
    split_and!; try done.
    + unfold download_export_pdf. rewrite Hget. unfold download. cbn [ax_status file_path ready_row].
      rewrite (proj2 (opt_truthy_Some (Some (pdf_path e)) (pdf_path e))) by (split; [done|]; unfold pdf_path, base_dir; rewrite append_assoc; apply Htruthy).
      by rewrite Hp.
    + unfold download_export_envelope. rewrite Hget. unfold download. cbn [ax_status signed_envelope_path ready_row].
      rewrite (proj2 (opt_truthy_Some (Some (env_path e)) (env_path e))) by (split; [done|]; unfold env_path, base_dir; rewrite append_assoc; apply Htruthy).
      rewrite Hv. specialize (Hloads (JObj env)). by destruct (json_loads _).
    + rewrite (sign_keeps _ _ _ _ "rows" Hs) by done. by rewrite get_key_set_key_ne.
    + rewrite (sign_keeps _ _ _ _ "pdf_sha256" Hs) by done. by rewrite get_key_set_key.
  - exists (with_status FAILED (Some (error_text err)) (Some f) e). by rewrite Hput.
Qed.

(** A job that is lost is lost for good: once an export is pending and its job is in no
    queue - the broker could not be reached, or a worker took the job before the request
    had committed - no sequence of requests and jobs moves the export, and every export
    its tenant asks for is refused. *)
Theorem lost_job_blocks_exports w w' i e :
  rtc step w w' -> find_export i (exports (w_db w)) = Some e -> active e = true -> ~ In i (queue w) ->
  find_export i (exports (w_db w')) = Some e /\
  forall new_id now u scope params d,
    create new_id now (ax_tenant_id e) u scope params d w' = (Raise (HTTPException 429 "export_in_progress"), w').
Proof.
  intros Hsteps Hf Ha Hq. cut (find_export i (exports (w_db w')) = Some e /\ ~ In i (queue w')).
  { intros [Hf' _]. split; [done|]. apply active_refused; [|done]. by apply find_first_Some in Hf' as [? _]. }
  induction Hsteps as [w|w1 w2 w3 Hstep _ IH]; [done|]. apply IH; destruct Hstep as [new_id now t u scope params d w Hfresh Hnq|g f l i' r w Hw|trail w].
  - pose proof (create_outcome new_id now t u scope params d w Hfresh) as Ho. destruct (create _ _ _ _ _ _ _ w) as [[x|err] w2]; cbn.
    + destruct Ho as (_ & _ & _ & _ & -> & _). unfold find_export in *. by rewrite find_first_snoc, Hf.
    + by destruct Ho as (-> & _).
  - cbn. unfold work. destruct (_generate_export _ _ _ _ _) as [[res db'] m'] eqn:Hg. cbn.
    destruct (generate_other _ _ _ _ _ _ _ _ Hg) as [_ ->]; [done|]. intros ->. destruct Hq. rewrite Hw. apply in_app_iff. right. by left.
  - done.
  - pose proof (create_outcome new_id now t u scope params d w Hfresh) as Ho. destruct (create _ _ _ _ _ _ _ w) as [[x|err] w2]; cbn.
    + destruct Ho as (_ & _ & _ & _ & _ & ->). intros [?|Hin]%in_app_iff; [done|]. destruct d; [done|done|]. destruct Hin as [<-|[]]. congruence.
    + by destruct Ho as (-> & _).
  - cbn. intros Hin. apply Hq. rewrite Hw. rewrite in_app_iff in *. cbn. tauto.
  - done.
Qed.

End Exports.

(** ** Runs *)

Module DemoExports.

Definition row (i tenant : string) (st : AuditExportStatus) (scope : AuditExportScope) (params : list (string * json)) : AuditExport :=
  {| ax_id := i; ax_tenant_id := tenant; scope_type := scope; scope_params := Some params; requested_by_user_id := Some "u1"; requested_at := utc 0;
     ax_status := st; file_path := None; file_sha256 := None; signed_envelope_path := None; envelope_sha256 := None; expires_at := None;
     ax_row_count := None; ax_error := None; completed_at := None |}.
Definition db (e : AuditExport) : ExportDB := {| chain := working demo_trail; exports := [e] |}.
Definition machine : Machine (E := DemoCrypto.demo) :=
  {| files := []; keys := {| _cached_key := None; _cached_source := None |} |}.
Definition canonical (j : json) : option bytes := Some (default "{}" (demo_canonical j)).
Definition dumps (j : json) : string := "{}".
Definition generate (e : AuditExport) : export_summary * ExportDB * Machine :=
  _generate_export (E := DemoCrypto.demo) demo_sha256 canonical dumps (fun _ => "") fromisoformat "k1" "-----BEGIN seed -----END" "/tmp"
    (fun _ _ _ _ _ _ _ => Some "%PDF") (fun _ => "error") (fun _ => None) (fun _ => true) (utc 7) (utc 8) (ax_id e) (db e) machine.
Definition summary_of (x : export_summary * ExportDB * Machine (E := DemoCrypto.demo)) : export_summary * list AuditExportStatus :=
  (fst (fst x), map ax_status (exports (snd (fst x)))).

Example whole_trail : summary_of (generate (row "x1" "t1" PENDING TENANT [])) = (Ready 2 (hexdigest demo_sha256 "%PDF"), [READY]).
Proof. vm_compute. reflexivity. Qed.
Example bad_date : summary_of (generate (row "x1" "t1" PENDING DATE_RANGE [("from", JStr "yesterday")])) = (JobFailed BadDate, [FAILED]).
Proof. vm_compute. reflexivity. Qed.

(** A supplier's export without the supplier is the export of the whole tenant. *)
Example scope_without_supplier :
  summary_of (generate (row "x1" "t1" PENDING SUPPLIER [])) = (Ready 2 (hexdigest demo_sha256 "%PDF"), [READY]).
Proof. vm_compute. reflexivity. Qed.

(** A job delivered twice generates an export that is ready again. *)
Example redelivered :
  let '(_, db, m) := generate (row "x1" "t1" PENDING TENANT []) in
  fst (fst (_generate_export (E := DemoCrypto.demo) demo_sha256 canonical dumps (fun _ => "") fromisoformat "k1" "-----BEGIN seed -----END"
    "/tmp" (fun _ _ _ _ _ _ _ => None) (fun _ => "error") (fun _ => None) (fun _ => true) (utc 9) (utc 9) "x1" db m)) = JobFailed RenderError.
Proof. vm_compute. reflexivity. Qed.

Definition world0 : World (E := DemoCrypto.demo) :=
  {| w_db := {| chain := working demo_trail; exports := [] |}; w_machine := machine; queue := [] |}.
Definition ask (i : string) (d : delivery) (w : World) : result web_error AuditExport * World :=
  create (E := DemoCrypto.demo) demo_sha256 canonical dumps (fun _ => "") fromisoformat "k1" "-----BEGIN seed -----END" "/tmp"
    (fun _ _ _ _ _ _ _ => Some "%PDF") (fun _ => "error") (fun _ => None) (fun _ => true) i (utc 0) "t1" "u1" TENANT [] d w.

Example taken_before_commit :
  let '(r, w) := ask "x1" BeforeCommit world0 in
  match r with Ok e => ax_status e | Raise _ => FAILED end = PENDING /\ queue w = [] /\
  fst (ask "x2" Queued w) = Raise (HTTPException 429 "export_in_progress").
Proof. vm_compute. auto. Qed.

End DemoExports.

Lemma ready_export_verifies_witness :
  let '(res, db', m') := DemoExports.generate (DemoExports.row "x1" "t1" PENDING TENANT []) in
  res = Ready 2 (hexdigest demo_sha256 "%PDF") /\ download_export_pdf "t1" "x1" db' m' = Ok "%PDF".
Proof.
  destruct (DemoExports.generate (DemoExports.row "x1" "t1" PENDING TENANT [])) as [[res db'] m'] eqn:Hg.
  destruct (ready_export_verifies (E := DemoCrypto.demo) (L := DemoCrypto.demo_laws) demo_sha256 DemoExports.canonical DemoExports.dumps
    (fun _ => Some JNull) (fun _ => "") fromisoformat "k1" "-----BEGIN seed -----END" "/tmp" (fun _ _ _ _ _ _ _ => Some "%PDF")
    (fun _ => "error") (fun _ => None) (fun _ => true) (utc 7) (utc 8) "x1" (DemoExports.db (DemoExports.row "x1" "t1" PENDING TENANT []))
    DemoExports.machine (DemoExports.row "x1" "t1" PENDING TENANT []) res db' m' ltac:(discriminate) ltac:(intros k src [=]) eq_refl Hg)
    as (_ & _ & e' & _ & _ & H).
  assert (Hres : res = Ready 2 (hexdigest demo_sha256 "%PDF")) by (vm_compute in Hg; injection Hg as <- _ _; reflexivity).
  subst res. split; [reflexivity|]. destruct H as (_ & _ & _ & rows & pdf & env & c & _ & _ & _ & Hd & _). change (ax_tenant_id _) with "t1" in Hd. rewrite Hd.
  vm_compute in Hg. injection Hg as <- <-. vm_compute in Hd. congruence.
Defined.

Lemma lost_job_blocks_exports_witness :
  let w := snd (DemoExports.ask "x1" Unreachable DemoExports.world0) in
  DemoExports.ask "x2" Queued w = (Raise (HTTPException 429 "export_in_progress"), w).
Proof.
  intros w.
  refine (proj2 (lost_job_blocks_exports (E := DemoCrypto.demo) demo_sha256 DemoExports.canonical DemoExports.dumps (fun _ => Some JNull) (fun _ => "") fromisoformat "k1"
    "-----BEGIN seed -----END" "/tmp" (fun _ _ _ _ _ _ _ => Some "%PDF") (fun _ => "error") (fun _ => None) (fun _ => true) w w "x1"
    (DemoExports.row "x1" "t1" PENDING TENANT []) (rtc_refl _ _) _ _ _) "x2" (utc 0) "u1" TENANT [] Queued); [|reflexivity|exact (fun H => H)].
  vm_compute. reflexivity.
Defined.
