(* ===== verification/InboundWebhook.v ===== *)
(** * Inbound e-mail: the Postmark webhook

    api/webhooks/postmark.py.  The JSON parser and the validation of the payload
    against its schema are variables.  The header is the latin-1 text the server
    hands over; the secret in it is decoded to code points. *)

From Stdlib Require Import Ascii.
From S2P Require Import Prelude PyStr Json PyTime Encoding Accounts SubmissionModels AvScanner InboundModels InboundEmail.

(** ** Texts of code points *)

(** The code points of a UTF-8 text, [bytes.decode("utf-8")]: no overlong form,
    no surrogate, nothing above U+10FFFF. *)
Definition cont (c : ascii) : option Z := if in_range 128 191 c then Some (ord c - 128) else None.
Fixpoint utf8_decode (b : bytes) : option (list Z) :=
  match b with
  | EmptyString => Some []
  | String a r =>
      if in_range 0 127 a then cons (ord a) <$> utf8_decode r
      else
        match r with
        | String b r =>
            match cont b with
            | None => None
            | Some y =>
                if in_range 194 223 a then cons ((ord a - 192) * 64 + y) <$> utf8_decode r
                else
                  match r with
                  | String c r =>
                      match cont c with
                      | None => None
                      | Some z =>
                          let cp := (ord a - 224) * 4096 + y * 64 + z in
                          if in_range 224 239 a
                          then if (cp <? 2048) || ((55296 <=? cp) && (cp <=? 57343)) then None
                               else cons cp <$> utf8_decode r
                          else
                            match r with
                            | String d r =>
                                match cont d with
                                | None => None
                                | Some w =>
                                    let cp := (ord a - 240) * 262144 + y * 4096 + z * 64 + w in
                                    if in_range 240 244 a && (65536 <=? cp) && (cp <=? 1114111)
                                    then cons cp <$> utf8_decode r else None
                                end
                            | EmptyString => None
                            end
                      end
                  | EmptyString => None
                  end
            end
        | EmptyString => None
        end
  end.

(** [str.isspace] *)
Definition space_cp (n : Z) : bool :=
  ((9 <=? n) && (n <=? 13)) || ((28 <=? n) && (n <=? 32)) || (n =? 133) || (n =? 160) || (n =? 5760)
  || ((8192 <=? n) && (n <=? 8202)) || (n =? 8232) || (n =? 8233) || (n =? 8239) || (n =? 8287) || (n =? 12288).

Fixpoint lstrip_cp (l : list Z) : list Z :=
  match l with [] => [] | c :: r => if space_cp c then lstrip_cp r else l end.
Definition strip_cp (l : list Z) : list Z := rev (lstrip_cp (rev (lstrip_cp l))).

(** [_, _, z = l.partition(":")] *)
Fixpoint after_colon (l : list Z) : list Z :=
  match l with [] => [] | c :: r => if c =? 58 then r else after_colon r end.

(** A latin-1 text as code points. *)
Fixpoint points (s : string) : list Z := match s with EmptyString => [] | String c r => ord c :: points r end.
Definition ascii_cp (l : list Z) : bool := forallb (fun c => c <? 128) l.

(** A blank of a latin-1 text. *)
Definition space1 (c : ascii) : bool := space_cp (ord c).

Record postmark_settings : Type := { postmark_webhook_secret : list Z; postmark_is_development : bool }.

(** api/webhooks/postmark.py, [_verify_secret]; [compare_digest] of two texts
    raises [TypeError] when one is not ASCII, [b64decode] raises [ValueError] on
    such a text. *)
Definition _verify_secret (cfg : postmark_settings) (authorization : option string) : result web_error bool :=
  let expected := strip_cp (postmark_webhook_secret cfg) in
  match expected with
  | [] => Ok (postmark_is_development cfg)
  | _ =>
      match opt_truthy authorization with
      | None => Ok false
      | Some header =>
          let '(scheme, rest) := span (fun c => negb (space1 c)) (strip_by space1 header) in
          let token := lstrip_by space1 rest in
          if negb (truthy token) || negb (String.eqb (lower scheme) "basic") then Ok false
          else if negb (sall (in_range 0 127) token) then Raise (PyException "ValueError")
          else
            match b64decode token with
            | None => Ok false
            | Some raw =>
                match utf8_decode raw with
                | None => Ok false
                | Some decoded =>
                    let presented := strip_cp (after_colon decoded) in
                    if negb (ascii_cp presented && ascii_cp expected) then Raise (PyException "TypeError")
                    else Ok (bool_decide (presented = expected))
                end
            end
      end
  end.

(** ** The payload *)

(** schemas/inbound.py, [PostmarkAttachmentIn]: the fields that are read. *)
Record PostmarkAttachmentIn : Type := { pa_Name : string; pa_Content : string; pa_ContentType : option string }.

(** schemas/inbound.py, [PostmarkInboundIn]: the fields that are read. *)
Record PostmarkInboundIn : Type := {
  MessageID : string;
  From : string;
  FromName : option string;
  To : string;
  Cc : option string;
  Subject : option string;
  TextBody : option string;
  HtmlBody : option string;
  Headers : option (list (list (string * json)));
  Attachments : option (list PostmarkAttachmentIn);
  OriginalRecipient : option string;
}.

(** api/webhooks/postmark.py, [_parse_cc]. *)
Definition _parse_cc (raw : option string) : option (list string) :=
  match opt_truthy raw with
  | None => None
  | Some raw => Some (List.filter truthy (map strip (split_char "," raw)))
  end.

(** api/webhooks/postmark.py, [_decode_attachment]; [b64decode] raises
    [ValueError] on a text that is not ASCII. *)
Definition _decode_attachment (att : PostmarkAttachmentIn) : option ParsedAttachment :=
  let name := sor (strip (pa_Name att)) "unnamed" in
  if negb (truthy (pa_Content att)) || negb (sall (in_range 0 127) (pa_Content att)) then None
  else
    match b64decode_lenient (pa_Content att) with
    | None => None
    | Some data => Some {| filename := name; content_type := pa_ContentType att; content := data |}
    end.

(** schemas/inbound.py, [WebhookAck]. *)
Record WebhookAck : Type := { ack_status : string; ack_email_id : option string; ack_duplicate : bool }.

(** [json.loads(body)] of a body it cannot read: a [JSONDecodeError], or another
    exception. *)
Inductive loads_error : Type := JSONDecodeError | LoadsException (what : string).

Section Webhook.
Context (cfg : inbound_settings) (pm : postmark_settings).
Context (json_loads : bytes -> result loads_error json) (model_validate : json -> option PostmarkInboundIn).
Context (uuid : nat -> string) (re_search : string -> string -> option bool) (repr_other : json -> string).
Context (base_path : string) (sha256_hex : bytes -> string) (enforce : bytes -> result av_error ScanReport).

(** api/webhooks/postmark.py:152-158, [receive_postmark_inbound]. *)
Definition headers_dict (l : list (list (string * json))) : list (string * json) :=
  fold_left (fun d h => let name := get_key "Name" h in
                        if jtruthy name then set_key (py_str repr_other name) (get_key "Value" h) d else d) l [].

(** api/webhooks/postmark.py:145-175, [receive_postmark_inbound]: the message. *)
Definition parsed_of (payload : PostmarkInboundIn) (body : bytes) : ParsedEmail :=
  let headers := headers_dict (default [] (Headers payload)) in
  {| pe_message_id := MessageID payload; pe_from_address := From payload;
     pe_to_address := default (To payload) (opt_truthy (OriginalRecipient payload));
     pe_from_name := FromName payload; pe_cc_addresses := _parse_cc (Cc payload); pe_subject := Subject payload;
     pe_text_body := TextBody payload; pe_html_body := HtmlBody payload; pe_in_reply_to := None;
     pe_headers := match headers with [] => None | _ => Some headers end;
     pe_attachments := omap _decode_attachment (default [] (Attachments payload)); pe_raw_bytes := Some body |}.

(** api/webhooks/postmark.py:111-175, [receive_postmark_inbound]: from the request
    to the message. *)
Definition read_delivery (body : bytes) (authorization : option string) : result web_error ParsedEmail :=
  if inbound_max_email_size_mb cfg * 1024 * 1024 <? slen body then Raise (HTTPException 413 "payload_too_large")
  else
    match _verify_secret pm authorization with
    | Raise e => Raise e
    | Ok false => Raise (HTTPException 401 "invalid_signature")
    | Ok true =>
        match json_loads (sor body "{}") with
        | Raise JSONDecodeError => Raise (HTTPException 400 "invalid_json")
        | Raise (LoadsException what) => Raise (PyException what)
        | Ok j =>
            match model_validate j with
            | None => Raise (HTTPException 400 "invalid_payload")
            | Some payload => Ok (parsed_of payload body)
            end
        end
    end.

(** api/webhooks/postmark.py, [receive_postmark_inbound], in the transaction of its
    request; [others] are the rows that other deliveries commit meanwhile. *)
Definition receive_postmark_inbound (others : list InboundEmail) (now : Z) (body : bytes) (authorization : option string)
    (s : InboundState) : result web_error WebhookAck * InboundState :=
  match read_delivery body authorization with
  | Raise e => (Raise e, s)
  | Ok parsed =>
      let '(r, s') := ingest cfg uuid re_search repr_other base_path sha256_hex enforce others now parsed s in
      let committed' := (Session (working s'.1) (working s'.1), s'.2) in
      let undone := (Session (committed s'.1) (committed s'.1), s'.2) in
      match r with
      | Ok (row, duplicate) =>
          (Ok {| ack_status := email_status_value (em_status row); ack_email_id := Some (em_id row); ack_duplicate := duplicate |},
           committed')
      | Raise (TenantNotFound _) =>
          (Ok {| ack_status := "ignored_tenant_unknown"; ack_email_id := None; ack_duplicate := false |}, committed')
      | Raise (EmailTooLarge _) => (Raise (HTTPException 413 "payload_too_large"), undone)
      | Raise (InboundIngestError _) =>
          (Ok {| ack_status := "error"; ack_email_id := None; ack_duplicate := false |}, committed')
      | Raise (OtherException what) => (Raise (PyException what), undone)
      end
  end.
End Webhook.

(** ** Properties *)

(** The secret the header carries. *)
Definition presents (header : string) (secret : list Z) : Prop :=
  exists scheme rest raw decoded,
    span (fun c => negb (space1 c)) (strip_by space1 header) = (scheme, rest) /\ lower scheme = "basic" /\
    b64decode (lstrip_by space1 rest) = Some raw /\ utf8_decode raw = Some decoded /\
    strip_cp (after_colon decoded) = secret.

Lemma verify_secret_true pm authorization :
  strip_cp (postmark_webhook_secret pm) <> [] -> _verify_secret pm authorization = Ok true ->
  exists header, authorization = Some header /\ presents header (strip_cp (postmark_webhook_secret pm)).
Proof.
  intros Hne. unfold _verify_secret. destruct (strip_cp (postmark_webhook_secret pm)) as [|c l] eqn:Hs; [done|].
  destruct authorization as [header|]; [|done]. cbn [opt_truthy]. destruct (truthy header); [|done].
  destruct (span _ _) as [scheme rest] eqn:Hsp. destruct (negb (truthy _) || _) eqn:Hb; [done|].
  destruct (negb (sall _ _)); [done|]. destruct (b64decode _) as [raw|] eqn:Hraw; [|done].
  destruct (utf8_decode raw) as [decoded|] eqn:Hdec; [|done]. destruct (negb (_ && _)); [done|]. intros [= Heq%bool_decide_eq_true].
  apply orb_false_iff in Hb as [_ Hb%negb_false_iff%String.eqb_eq]. exists header. split; [done|].
  by exists scheme, rest, raw, decoded.
Qed.

Section WebhookTheorems.
Context (cfg : inbound_settings) (pm : postmark_settings).
Context (json_loads : bytes -> result loads_error json) (model_validate : json -> option PostmarkInboundIn).
Context (uuid : nat -> string) (re_search : string -> string -> option bool) (repr_other : json -> string).
Context (base_path : string) (sha256_hex : bytes -> string) (enforce : bytes -> result av_error ScanReport).
Local Abbreviation read := (read_delivery cfg pm json_loads model_validate repr_other).
Local Abbreviation receive :=
  (receive_postmark_inbound cfg pm json_loads model_validate uuid re_search repr_other base_path sha256_hex enforce).

(** A delivery without the configured secret has no effect.  When a secret is
    set, a request whose [Authorization] header does not carry it is answered with
    an error whatever its body, and neither the tables nor the files change. *)
Theorem strangers_have_no_effect others now body authorization s :
  strip_cp (postmark_webhook_secret pm) <> [] ->
  (forall header, authorization = Some header -> ~ presents header (strip_cp (postmark_webhook_secret pm))) ->
  exists e, receive others now body authorization s = (Raise e, s).
Proof.
  intros Hne Hno. assert (Hread : exists e, read body authorization = Raise e).
  { unfold read_delivery. destruct (_ <? _); [by eexists|]. destruct (_verify_secret pm authorization) as [[]|e] eqn:Hv; [|by eexists..].
    destruct (verify_secret_true _ _ Hne Hv) as (header & Hh & Hp). by destruct (Hno header Hh). }
  destruct Hread as [e He]. exists e. unfold receive_postmark_inbound. by rewrite He.
Qed.

(** Postmark may deliver a message any number of times.  Once a delivery of it
    has been acknowledged with an e-mail id, every later delivery of that message
    that is read - whatever else it contains, and whatever is delivered at the
    same time - is acknowledged with the same id and status as a duplicate, and
    changes neither the tables nor the files. *)
Theorem redelivery_is_acknowledged others now body authorization p db fs ack i st' :
  inbox_ok uuid others db -> read body authorization = Ok p ->
  receive others now body authorization (Session db db, fs) = (Ok ack, st') -> ack_email_id ack = Some i ->
  forall others' now' body' authorization' p',
    read body' authorization' = Ok p' -> pe_message_id p' = pe_message_id p ->
    receive others' now' body' authorization' st' =
      (Ok {| ack_status := ack_status ack; ack_email_id := Some i; ack_duplicate := true |}, st').
Proof.
  intros Hok Hread Hrun Hid others' now' body' authorization' p' Hread' Hp.
  unfold receive_postmark_inbound in *. rewrite Hread in Hrun. rewrite Hread'.
  destruct (ingest _ _ _ _ _ _ _ others now p (Session db db, fs)) as [[[row dup]|[]] st1] eqn:Hin;
    [|by injection Hrun as <- <-..| | ]; [|done..].
  destruct (ingest_run cfg uuid re_search repr_other base_path sha256_hex enforce others now p db fs row dup st1 Hok Hin)
    as (W & Hst & Hnd & Hrow & Hm & _).
  injection Hrun as <- <-. cbn in Hid. injection Hid as <-. rewrite Hst. cbn [working committed].
  rewrite ingest_again with (row := row); [done|by eapply ingest_enabled|done|done|by rewrite Hp].
Qed.
End WebhookTheorems.

(** ** A concrete webhook *)

Module DemoWebhook.
Definition pm : postmark_settings := {| postmark_webhook_secret := points "s3cret"; postmark_is_development := false |}.
(** A parser that reads two bodies. *)
Definition json_loads (b : bytes) : result loads_error json :=
  if String.eqb b "not json" then Raise JSONDecodeError else Ok (JObj [("MessageID", JStr b)]).
Definition model_validate (j : json) : option PostmarkInboundIn :=
  match jget "MessageID" j with
  | Some (JStr i) =>
      if negb (truthy i) then None
      else Some {| MessageID := stake 2 i; From := "Ann@x.com"; FromName := None; To := "submissions+tok@acme.in.getonce.com";
                   Cc := Some "a@x.com, ,b@x.com"; Subject := Some "Renewal"; TextBody := Some "hello"; HtmlBody := None;
                   Headers := Some [[("Name", JStr "X-Spam-Flag"); ("Value", JStr "No")]; [("Value", JStr "lost")]];
                   Attachments := Some [{| pa_Name := " coi.pdf "; pa_Content := "JVB ERi0x"; pa_ContentType := None |};
                                        {| pa_Name := "bad.pdf"; pa_Content := "JVBERi0x="; pa_ContentType := None |};
                                        {| pa_Name := "cut.pdf"; pa_Content := "JVBER"; pa_ContentType := None |}];
                   OriginalRecipient := None |}
  | _ => None
  end.
Definition header : string := "Basic " +:+ b64encode "once:s3cret".

Abbreviation read := (read_delivery DemoInbound.cfg pm json_loads model_validate DemoInbound.repr_other).
Abbreviation receive := (receive_postmark_inbound DemoInbound.cfg pm json_loads model_validate DemoInbound.uuid
  DemoInbound.re_search DemoInbound.repr_other "/store" DemoInbound.sha DemoInbound.enforce).
Definition start : InboundState := (Session DemoInbound.db DemoInbound.db, ∅).

Example secrets :
  map (_verify_secret pm) [Some header; Some "basic b25jZTpzM2NyZXQ="; Some ("Basic " +:+ b64encode "once:wrong"); Some "Bearer x"; None;
                           Some ("Basic " +:+ b64encode (String "195"%char (String "169"%char ":s3cret")));
                           Some ("Basic " +:+ b64encode (":" +:+ String "195"%char (String "169"%char "")))] =
  [Ok true; Ok true; Ok false; Ok false; Ok false; Ok true; Raise (PyException "TypeError")].
Proof. vm_compute. reflexivity. Qed.

(** Blanks in the content are skipped, as is padding after a whole group; a cut
    one is dropped. *)
Example delivered :
  match read "m1-first" (Some header) with
  | Ok p => pe_message_id p = "m1" /\ pe_cc_addresses p = Some ["a@x.com"; "b@x.com"] /\
            pe_headers p = Some [("X-Spam-Flag", JStr "No")] /\
            map (fun a => (filename a, content a)) (pe_attachments p) = [("coi.pdf", "%PDF-1"); ("bad.pdf", "%PDF-1")]
  | Raise _ => False
  end.
Proof. vm_compute. split_and!; reflexivity. Qed.

Definition first_ack : WebhookAck := {| ack_status := "routed"; ack_email_id := Some "id000"; ack_duplicate := false |}.

Lemma first_delivery : exists st', receive [] 100 "m1-first" (Some header) start = (Ok first_ack, st').
Proof. eexists. vm_compute. reflexivity. Qed.

Lemma redelivery_is_acknowledged_witness : exists st',
  receive [] 100 "m1-first" (Some header) start = (Ok first_ack, st') /\
  receive [] 900 "m1-again" (Some header) st' =
    (Ok {| ack_status := "routed"; ack_email_id := Some "id000"; ack_duplicate := true |}, st').
Proof.
  destruct first_delivery as [st' Hrun]. exists st'. split; [exact Hrun|].
  destruct (read "m1-first" (Some header)) as [p|] eqn:Hp; [|vm_compute in Hp; discriminate Hp].
  destruct (read "m1-again" (Some header)) as [p'|] eqn:Hp'; [|vm_compute in Hp'; discriminate Hp'].
  apply (redelivery_is_acknowledged DemoInbound.cfg pm json_loads model_validate DemoInbound.uuid DemoInbound.re_search
           DemoInbound.repr_other "/store" DemoInbound.sha DemoInbound.enforce [] 100 "m1-first" (Some header) p DemoInbound.db ∅
           first_ack "id000" st' DemoInbound.start_ok Hp Hrun eq_refl [] 900 "m1-again" (Some header) p' Hp').
  vm_compute in Hp, Hp'. injection Hp as <-. injection Hp' as <-. reflexivity.
Defined.

Lemma strangers_have_no_effect_witness : exists e, receive [] 100 "m1-first" None start = (Raise e, start).
Proof.
  apply (strangers_have_no_effect DemoInbound.cfg pm json_loads model_validate DemoInbound.uuid DemoInbound.re_search
           DemoInbound.repr_other "/store" DemoInbound.sha DemoInbound.enforce [] 100 "m1-first" None start).
  - discriminate.
  - intros h Hh. discriminate Hh.
Defined.

(** Without a configured secret, only a development server takes deliveries. *)
Example no_secret :
  map (fun dev => _verify_secret {| postmark_webhook_secret := points "  "; postmark_is_development := dev |} None) [true; false] =
  [Ok true; Ok false].
Proof. vm_compute. reflexivity. Qed.
End DemoWebhook.
