(* ===== verification/InboundApi.v ===== *)
(** * Inbound e-mail: the tenant's endpoints

    api/v1/inbound.py: listing, detail, retry and quarantine of e-mails, and the
    routing rules, with the dispatch of a request to its endpoint.  Every endpoint
    runs in the transaction of its request. *)

From S2P Require Import Prelude PyStr Json PyTime Encoding Accounts SubmissionModels InboundModels InboundEmail.

Local Abbreviation WM := (M (session InboundDB) web_error).

Definition http_code (status : Z) (code : string) : web_error := HTTPException status code.

(** The exceptions of the service as the endpoint passes them on. *)
Definition with_errors {A} (f : inbound_error -> web_error) (m : M (session InboundDB) inbound_error A) : WM A :=
  fun s => match m s with (Ok a, s') => (Ok a, s') | (Raise e, s') => (Raise (f e), s') end.

Definition ingest_error_400 (e : inbound_error) : web_error :=
  match e with
  | InboundIngestError r | TenantNotFound r | EmailTooLarge r => http_code 400 r
  | OtherException what => PyException what
  end.
Definition uncaught (e : inbound_error) : web_error :=
  match e with
  | InboundIngestError r | TenantNotFound r | EmailTooLarge r => PyException r
  | OtherException what => PyException what
  end.

(** ** E-mails *)

(** [InboundEmailStatus(value)]; [None] is [ValueError]. *)
Definition email_status_of (value : string) : option InboundEmailStatus :=
  find_first (fun st => String.eqb (email_status_value st) value) [RECEIVED; PARSING; ROUTED; E_FAILED; QUARANTINED].

(** api/v1/inbound.py, [list_emails]: the page and the header [x-total-count].
    [limit] is 1 to 200 and [offset] is not negative. *)
Definition list_emails (tenant_id : string) (status_filter : option string) (limit offset : nat)
  : WM (list InboundEmail * Z) :=
  let* wanted := match opt_truthy status_filter with
                 | None => ret None
                 | Some v => let* st := or_raise (email_status_of v) (http_code 400 "invalid_status") in ret (Some st)
                 end in
  let* rows := query (fun db => List.filter (fun e => String.eqb (em_tenant_id e) tenant_id
                        && match wanted with Some st => bool_decide (em_status e = st) | None => true end) (emails db)) in
  ret (take limit (drop offset (sort_by (fun e => - received_at e) rows)), Z.of_nat (length rows)).

(** api/v1/inbound.py:120-127, [get_email]: the row, or 404. *)
Definition own_email (tenant_id email_id : string) : WM InboundEmail :=
  let* row := query (email_of tenant_id email_id) in
  or_raise row (http_code 404 "not_found").

(** api/v1/inbound.py, [get_email]. *)
Definition get_email (tenant_id email_id : string) : WM (InboundEmail * list InboundAttachment) :=
  let* e := own_email tenant_id email_id in
  let* atts := query (attachments_of (em_id e)) in
  ret (e, atts).

(** ** Rules *)

(** schemas/inbound.py, [InboundRuleCreate]. *)
Record InboundRuleCreate : Type := {
  irc_name : string; irc_priority : Z; irc_domain : option string; irc_regex : option string;
  irc_kind : option string; irc_action : InboundRuleAction; irc_params : option json; irc_active : bool }.

(** schemas/inbound.py, [InboundRuleUpdate] as [model_dump(exclude_unset=True)]
    gives it: the outer [None] is a field that was not sent, [Some None] a null. *)
Record InboundRuleUpdate : Type := {
  iru_name : option (option string); iru_priority : option (option Z); iru_domain : option (option string);
  iru_regex : option (option string); iru_kind : option (option string); iru_action : option (option InboundRuleAction);
  iru_params : option (option json); iru_active : option (option bool) }.

Definition is_null {A} (f : option (option A)) : bool := match f with Some None => true | _ => false end.
Definition sent {A} (f : option (option A)) (old : A) : A := match f with Some (Some v) => v | _ => old end.

Definition update_rule_row (i : string) (f : InboundRoutingRule -> InboundRoutingRule) (l : list InboundRoutingRule) :=
  map (fun r => if String.eqb (rule_id r) i then f r else r) l.

Definition rule_of (tenant_id i : string) (db : InboundDB) : option InboundRoutingRule :=
  find_first (fun r => String.eqb (rule_id r) i && String.eqb (rule_tenant_id r) tenant_id) (rules db).

(** [ORDER BY priority ASC, created_at ASC] *)
Definition rule_order (l : list InboundRoutingRule) : list InboundRoutingRule := isort rule_le l.

(** api/v1/inbound.py, [list_rules]. *)
Definition list_rules (tenant_id : string) : WM (list InboundRoutingRule) :=
  query (fun db => rule_order (List.filter (fun r => String.eqb (rule_tenant_id r) tenant_id) (rules db))).

Definition set_priority (p : Z) (r : InboundRoutingRule) : InboundRoutingRule :=
  {| rule_id := rule_id r; rule_tenant_id := rule_tenant_id r; rule_name := rule_name r; priority := p;
     match_from_domain := match_from_domain r; match_subject_regex := match_subject_regex r;
     match_attachment_kind := match_attachment_kind r; action := action r; action_params := action_params r;
     rule_active := rule_active r; rule_created_at := rule_created_at r |}.

(** api/v1/inbound.py:252-256, [update_rule]: the assignments. *)
Definition updated_rule (u : InboundRuleUpdate) (r : InboundRoutingRule) : InboundRoutingRule :=
  {| rule_id := rule_id r; rule_tenant_id := rule_tenant_id r; rule_name := sent (iru_name u) (rule_name r);
     priority := sent (iru_priority u) (priority r); match_from_domain := default (match_from_domain r) (iru_domain u);
     match_subject_regex := default (match_subject_regex r) (iru_regex u);
     match_attachment_kind := default (match_attachment_kind r) (iru_kind u); action := sent (iru_action u) (action r);
     action_params := default (action_params r) (iru_params u); rule_active := sent (iru_active u) (rule_active r);
     rule_created_at := rule_created_at r |}.

(** api/v1/inbound.py:245-251, [update_rule]: the row, or 404. *)
Definition own_rule (tenant_id i : string) : WM InboundRoutingRule :=
  let* row := query (rule_of tenant_id i) in
  or_raise row (http_code 404 "not_found").

(** api/v1/inbound.py, [update_rule]; a null action is no [InboundRuleAction], and
    the columns of the name, the priority and the flag are not nullable. *)
Definition update_rule (tenant_id i : string) (u : InboundRuleUpdate) : WM InboundRoutingRule :=
  let* r := own_rule tenant_id i in
  raise_if (is_null (iru_action u)) (PyException "ValueError") ;;;
  raise_if (is_null (iru_name u) || is_null (iru_priority u) || is_null (iru_active u)) (PyException "IntegrityError") ;;;
  write (with_rules (update_rule_row (rule_id r) (fun _ => updated_rule u r))) ;;;
  commit ;;;
  ret (updated_rule u r).

(** api/v1/inbound.py, [delete_rule]. *)
Definition delete_rule (tenant_id i : string) : WM unit :=
  let* r := own_rule tenant_id i in
  write (with_rules (List.filter (fun r => negb (String.eqb (rule_id r) i && String.eqb (rule_tenant_id r) tenant_id)))) ;;;
  commit.

Fixpoint prioritise (index : Z) (order : list string) (l : list InboundRoutingRule) : list InboundRoutingRule :=
  match order with
  | [] => l
  | i :: order => prioritise (index + 1) order (update_rule_row i (set_priority ((index + 1) * 10)) l)
  end.

(** api/v1/inbound.py, [reorder_rules]. *)
Definition reorder_rules (tenant_id : string) (order : list string) : WM (list InboundRoutingRule) :=
  let* found := query (fun db => List.filter (fun r => String.eqb (rule_tenant_id r) tenant_id
                         && existsb (String.eqb (rule_id r)) order) (rules db)) in
  raise_if (negb (length found =? length order)%nat) (http_code 400 "unknown_rule_id_in_order") ;;;
  write (with_rules (prioritise 0 order)) ;;;
  commit ;;;
  query (fun db => sort_by priority (List.filter (fun r => String.eqb (rule_tenant_id r) tenant_id) (rules db))).

Section Endpoints.
Context (uuid : nat -> string) (re_search : string -> string -> option bool).

(** api/v1/inbound.py, [retry_email]. *)
Definition retry_email (now : Z) (tenant_id email_id : string) : WM InboundEmail :=
  let* _ := own_email tenant_id email_id in
  with_errors ingest_error_400 (retry_routing uuid re_search now tenant_id email_id).

(** api/v1/inbound.py, [quarantine_email]. *)
Definition quarantine_email (tenant_id email_id : string) : WM InboundEmail :=
  let* _ := own_email tenant_id email_id in
  with_errors uncaught (quarantine tenant_id email_id).

(** api/v1/inbound.py, [create_rule]. *)
Definition create_rule (now : Z) (tenant_id : string) (p : InboundRuleCreate) : WM InboundRoutingRule :=
  let* n := query next_id in
  let r := {| rule_id := uuid n; rule_tenant_id := tenant_id; rule_name := irc_name p; priority := irc_priority p;
              match_from_domain := irc_domain p; match_subject_regex := irc_regex p; match_attachment_kind := irc_kind p;
              action := irc_action p; action_params := irc_params p; rule_active := irc_active p; rule_created_at := now |} in
  write (fun db => bump_ids 1 (with_rules (fun l => l ++ [r]) db)) ;;;
  commit ;;;
  ret r.

(** ** Dispatch *)

(** The body of a request, after validation. *)
Inductive inbound_body : Type :=
| NoBody
| CreateBody (p : InboundRuleCreate)
| UpdateBody (u : InboundRuleUpdate)
| OrderBody (order : list string).

Inductive inbound_response : Type :=
| EmailPage (rows : list InboundEmail) (total : Z)
| EmailDetail (e : InboundEmail) (atts : list InboundAttachment)
| RetryResponse (e : InboundEmail)
| RuleList (l : list InboundRoutingRule)
| OneRule (r : InboundRoutingRule)
| NoContent.

(** One segment of a route's path. *)
Inductive segment : Type := Lit (s : string) | Param.

Inductive endpoint : Type :=
| E_list_emails | E_get_email | E_retry_email | E_quarantine_email | E_list_rules | E_create_rule | E_update_rule
| E_delete_rule | E_reorder_rules.

(** api/v1/inbound.py:86-284: the routes in the order of their declarations. *)
Definition routes : list (string * list segment * endpoint) :=
  [("GET", [], E_list_emails); ("GET", [Param], E_get_email); ("POST", [Param; Lit "retry"], E_retry_email);
   ("POST", [Param; Lit "quarantine"], E_quarantine_email); ("GET", [Lit "rules"], E_list_rules);
   ("POST", [Lit "rules"], E_create_rule); ("PATCH", [Lit "rules"; Param], E_update_rule);
   ("DELETE", [Lit "rules"; Param], E_delete_rule); ("POST", [Lit "rules"; Lit "reorder"], E_reorder_rules)].

(** The parameters of a path that matches; a parameter is not empty. *)
Fixpoint match_path (pattern : list segment) (path : list string) : option (list string) :=
  match pattern, path with
  | [], [] => Some []
  | Lit l :: pattern, p :: path => if String.eqb l p then match_path pattern path else None
  | Param :: pattern, p :: path => if truthy p then cons p <$> match_path pattern path else None
  | _, _ => None
  end.

(** The first route whose method and path match. *)
Definition dispatch (http_method : string) (path : list string) : option (endpoint * list string) :=
  let fix go (l : list (string * list segment * endpoint)) :=
    match l with
    | [] => None
    | (m, pattern, e) :: l =>
        match match_path pattern path with
        | Some params => if String.eqb m http_method then Some (e, params) else go l
        | None => go l
        end
    end in
  go routes.

(** A request of a tenant; the parameters of the query string are those of the
    list. *)
Record inbound_request : Type := {
  rq_method : string; rq_path : list string; rq_status : option string; rq_limit : nat; rq_offset : nat; rq_body : inbound_body }.

Definition run_endpoint (now : Z) (tenant_id : string) (rq : inbound_request) (e : endpoint) (params : list string)
  : WM inbound_response :=
  match e, params, rq_body rq with
  | E_list_emails, _, _ =>
      let* (rows, total) := list_emails tenant_id (rq_status rq) (rq_limit rq) (rq_offset rq) in ret (EmailPage rows total)
  | E_get_email, [i], _ => let* (e, atts) := get_email tenant_id i in ret (EmailDetail e atts)
  | E_retry_email, [i], _ => let* e := retry_email now tenant_id i in ret (RetryResponse e)
  | E_quarantine_email, [i], _ => let* e := quarantine_email tenant_id i in ret (RetryResponse e)
  | E_list_rules, _, _ => let* l := list_rules tenant_id in ret (RuleList l)
  | E_create_rule, _, CreateBody p => let* r := create_rule now tenant_id p in ret (OneRule r)
  | E_update_rule, [i], UpdateBody u => let* r := update_rule tenant_id i u in ret (OneRule r)
  | E_delete_rule, [i], _ => delete_rule tenant_id i ;;; ret NoContent
  | E_reorder_rules, _, OrderBody order => let* l := reorder_rules tenant_id order in ret (RuleList l)
  | _, _, _ => raise (http_code 422 "validation_error")
  end.

(** One request in its transaction; a path that no route has is answered 404, and
    one whose routes have other methods 405. *)
Definition inbound_handle (now : Z) (tenant_id : string) (rq : inbound_request) : WM inbound_response :=
  in_request (match dispatch (rq_method rq) (rq_path rq) with
              | None => raise (if existsb (fun r => is_someb (match_path r.1.2 (rq_path rq))) routes
                               then http_code 405 "Method Not Allowed" else http_code 404 "Not Found")
              | Some (e, params) => run_endpoint now tenant_id rq e params
              end).
End Endpoints.

(** ** Lemmas *)

(** The rows of other tenants. *)
Definition foreign (tid : string) (db : InboundDB) :=
  (List.filter (fun e => negb (String.eqb (em_tenant_id e) tid)) (emails db),
   List.filter (fun r => negb (String.eqb (rule_tenant_id r) tid)) (rules db),
   List.filter (fun d => negb (String.eqb (sub_tenant_id d) tid)) (drafts db)).

(** Primary keys. *)
Definition inbound_keys (db : InboundDB) : Prop := List.NoDup (map em_id (emails db)) /\ List.NoDup (map rule_id (rules db)).

Lemma NoDup_map_eq {A B} (f : A -> B) l x y : List.NoDup (map f l) -> In x l -> In y l -> f x = f y -> x = y.
Proof.
  induction l as [|z l IH]; cbn; [done|]. inversion 1 as [|? ? Hz Hl]; subst. intros [->|Hx] [->|Hy] He; try done.
  - destruct Hz. rewrite He. by apply in_map.
  - destruct Hz. rewrite <- He. by apply in_map.
  - by apply IH.
Qed.

Lemma email_of_Some tid i db e : email_of tid i db = Some e -> In e (emails db) /\ em_id e = i /\ em_tenant_id e = tid.
Proof. intros [Hin [->%String.eqb_eq ->%String.eqb_eq]%andb_true_iff]%find_first_Some. done. Qed.

Lemma rule_of_Some tid i db r : rule_of tid i db = Some r -> In r (rules db) /\ rule_id r = i /\ rule_tenant_id r = tid.
Proof. intros [Hin [->%String.eqb_eq ->%String.eqb_eq]%andb_true_iff]%find_first_Some. done. Qed.

Lemma foreign_emails tid e f db :
  inbound_keys db -> In e (emails db) -> em_tenant_id e = tid -> em_tenant_id (f e) = tid ->
  foreign tid (with_emails (update_email (em_id e) f) db) = foreign tid db.
Proof.
  intros [Hk _] Hin He Hf. unfold foreign. cbn. f_equal. f_equal. apply filter_map_id. intros x Hx.
  destruct (String.eqb_spec (em_id x) (em_id e)) as [Hid|]; [|done].
  rewrite (NoDup_map_eq em_id _ x e Hk Hx Hin Hid), Hf, He, String.eqb_refl. done.
Qed.

Lemma foreign_rules tid r f db :
  inbound_keys db -> In r (rules db) -> rule_tenant_id r = tid -> rule_tenant_id (f r) = tid ->
  foreign tid (with_rules (update_rule_row (rule_id r) f) db) = foreign tid db.
Proof.
  intros [_ Hk] Hin Hr Hf. unfold foreign. cbn. f_equal. f_equal. apply filter_map_id. intros x Hx.
  destruct (String.eqb_spec (rule_id x) (rule_id r)) as [Hid|]; [|done].
  rewrite (NoDup_map_eq rule_id _ x r Hk Hx Hin Hid), Hf, Hr, String.eqb_refl. done.
Qed.

Lemma foreign_draft tid d db :
  match d with Some sub => sub_tenant_id sub = tid | None => True end -> foreign tid (with_draft d db) = foreign tid db.
Proof.
  destruct d as [sub|]; [|done]. intros <-. unfold foreign. cbn. rewrite List.filter_app. cbn.
  by rewrite String.eqb_refl, app_nil_r.
Qed.

Lemma inbound_keys_emails i f db :
  (forall x, em_id x = i -> em_id (f x) = em_id x) -> inbound_keys db -> inbound_keys (with_emails (update_email i f) db).
Proof.
  intros Hf [H1 H2]. split; [|done]. cbn. unfold update_email. rewrite map_map.
  rewrite (map_ext _ em_id); [done|]. intros x. destruct (String.eqb_spec (em_id x) i); [by apply Hf|done].
Qed.

Lemma find_first_update_email e f l :
  In e l -> List.NoDup (map em_id l) -> em_id (f e) = em_id e ->
  find_first (fun x => String.eqb (em_id x) (em_id e)) (update_email (em_id e) f l) = Some (f e).
Proof.
  intros Hin Hnd Hf. induction l as [|x l IH]; [done|]. cbn in *. inversion Hnd as [|? ? Hx Hl]; subst.
  destruct (String.eqb_spec (em_id x) (em_id e)) as [He|Hne].
  - destruct Hin as [->|Hin]; [by rewrite Hf, String.eqb_refl|]. destruct Hx. rewrite He. by apply in_map.
  - apply String.eqb_neq in Hne as Hne'. rewrite Hne'. destruct Hin as [->|Hin]; [done|by apply IH].
Qed.

Section ServiceRuns.
Context (uuid : nat -> string) (re_search : string -> string -> option bool).

(** What a retry does to an e-mail of the tenant. *)
Lemma retry_routing_run now tid i db e :
  tid <> "" -> inbound_keys db -> email_of tid i db = Some e ->
  exists row W d, retry_routing uuid re_search now tid i (Session db db) = (Ok row, Session W W) /\
    In row (emails W) /\ em_id row = i /\ em_tenant_id row = tid /\ In (em_status row) [ROUTED; E_FAILED; QUARANTINED] /\
    foreign tid W = foreign tid db /\ attachments W = attachments db /\
    drafts W = drafts db ++ match d with Some sub => [sub] | None => [] end /\
    match d with
    | Some sub => status sub = BLOCKED /\ sub_tenant_id sub = tid /\ draft_submission_id row = Some (sub_id sub)
    | None => True
    end.
Proof.
  intros Hne Hk He. destruct (email_of_Some _ _ _ _ He) as (Hin & Hid & Ht). unfold retry_routing.
  apply truthy_spec in Hne as ->. cbn [negb raise_if]. unfold bind at 1, ret at 1. unfold bind at 1, query at 1, reads at 1.
  cbn [working]. rewrite He. unfold or_raise. unfold bind at 1, ret at 1. unfold bind at 1, query at 1, reads at 1.
  set (e' := set_status PARSING None e). unfold bind at 1, write at 1, modify at 1. cbn [working committed].
  set (db1 := with_emails (update_email (em_id e) (fun _ => e')) db).
  unfold bind at 1. destruct (_route _ _ _ _ _ _) as [r s1] eqn:Hroute.
  apply route_run in Hroute as (-> & Hc & d & f & Hw & Hown & Hf). cbn [working committed] in *.
  set (W := working s1) in *. change (em_id e') with (em_id e) in *.
  assert (Hk1 : inbound_keys db1).
  { apply inbound_keys_emails; [|done]. intros x Hx. by rewrite Hx. }
  assert (Hin1 : In e' (emails db1)).
  { cbn. unfold update_email. apply in_map_iff. exists e. by rewrite String.eqb_refl. }
  assert (Hemails : emails (with_draft d db1) = emails db1) by (by destruct d).
  assert (Hfind : find_first (fun e0 => String.eqb (em_id e0) (em_id e)) (emails W) = Some (f e')).
  { rewrite Hw. cbn [emails with_emails]. rewrite Hemails. unfold db1. cbn [emails with_emails]. rewrite update_email_update by done.
    apply (update_email_const _ _ e); [done|done|]. by rewrite (proj1 (Hf e')). }
  exists (f e'), W, d. pose proof (Hf e') as (F1 & F2 & F3 & F4 & F5). split_and!.
  - unfold commit, bind, query, reads, modify, reload. cbn [working]. fold W. by rewrite Hfind.
  - by apply find_first_Some in Hfind as [? _].
  - by rewrite F1.
  - by rewrite F3.
  - done.
  - rewrite Hw. change (em_id e) with (em_id e').
    rewrite (foreign_emails tid e'); [|by destruct d|by rewrite Hemails|done|by rewrite F3].
    rewrite foreign_draft; [|destruct d as [sub|]; [by rewrite (proj1 (proj2 Hown))|done]].
    by apply (foreign_emails tid e).
  - rewrite Hw. by destruct d.
  - rewrite Hw. destruct d; cbn; [done|by rewrite app_nil_r].
  - destruct d as [sub|]; [|done]. destruct Hown as (O1 & O2 & _). destruct F5 as [[[_ ?]|F5] _]; [done|].
    split_and!; [done|by rewrite O2|done].
Qed.
End ServiceRuns.

(** The rows of others and the attachments are as they were. *)
Definition kept (tid : string) (db db' : InboundDB) : Prop :=
  foreign tid db' = foreign tid db /\ attachments db' = attachments db.

(** An endpoint of the tenant [tid]: its answer satisfies [own], other tenants'
    rows are kept, and nothing is committed when it raises. *)
Definition isolated {A} (tid : string) (own : A -> Prop) (m : WM A) : Prop :=
  forall db, inbound_keys db ->
    match m (Session db db) with
    | (Ok a, s') => own a /\ kept tid db (working s')
    | (Raise _, s') => committed s' = db
    end.

(** What an answer shows belongs to the tenant. *)
Definition owned (tid : string) (resp : inbound_response) : Prop :=
  match resp with
  | EmailPage rows _ => Forall (fun e => em_tenant_id e = tid) rows
  | EmailDetail e atts => em_tenant_id e = tid /\ Forall (fun a => inbound_email_id a = em_id e) atts
  | RetryResponse e => em_tenant_id e = tid
  | RuleList l => Forall (fun r => rule_tenant_id r = tid) l
  | OneRule r => rule_tenant_id r = tid
  | NoContent => True
  end.

Lemma isolated_answer {A B} tid (own : A -> Prop) (own' : B -> Prop) m (k : A -> WM B) :
  isolated tid own m -> (forall a s, own a -> exists b, k a s = (Ok b, s) /\ own' b) -> isolated tid own' (bind m k).
Proof.
  intros Hm Hk db Hkeys. specialize (Hm db Hkeys). unfold bind. destruct (m _) as [[a|e] s']; [|done].
  destruct Hm as [Ha Hkept]. destruct (Hk a s' Ha) as (b & -> & Hb). done.
Qed.

Lemma isolated_readonly {A} tid (own : A -> Prop) (m : WM A) :
  readonly m -> (forall s a s', m s = (Ok a, s') -> own a) -> isolated tid own m.
Proof.
  intros Hro Hown db _. pose proof (Hro (Session db db)) as Hs. destruct (m _) as [[a|e] s'] eqn:Hm; cbn in Hs; subst; [|done].
  split; [by eapply Hown|done].
Qed.

(** A read of one own row, then an operation on it. *)
Lemma isolated_own_email {A} tid i (own : A -> Prop) k :
  (forall e db, inbound_keys db -> email_of tid i db = Some e ->
     match k e (Session db db) with (Ok a, s') => own a /\ kept tid db (working s') | (Raise _, s') => committed s' = db end) ->
  isolated tid own (let* e := own_email tid i in k e).
Proof.
  intros Hk db Hkeys. unfold own_email, bind, query, reads, or_raise. cbn [working].
  destruct (email_of tid i db) as [e|] eqn:He; [|done]. by apply Hk.
Qed.

Lemma isolated_own_rule {A} tid i (own : A -> Prop) k :
  (forall r db, inbound_keys db -> rule_of tid i db = Some r ->
     match k r (Session db db) with (Ok a, s') => own a /\ kept tid db (working s') | (Raise _, s') => committed s' = db end) ->
  isolated tid own (let* r := own_rule tid i in k r).
Proof.
  intros Hk db Hkeys. unfold own_rule, bind, query, reads, or_raise. cbn [working].
  destruct (rule_of tid i db) as [r|] eqn:Hr; [|done]. by apply Hk.
Qed.

Lemma isolated_list_emails tid f limit offset :
  isolated tid (fun x => Forall (fun e => em_tenant_id e = tid) x.1) (list_emails tid f limit offset).
Proof.
  apply isolated_readonly.
  - unfold list_emails, query. apply readonly_bind; [destruct (opt_truthy f); auto with readonly|auto with readonly].
  - intros s x s' Hrun. unfold list_emails in Hrun. apply bind_Ok in Hrun as (wanted & s1 & _ & Hrun).
    unfold query in Hrun. inv_run Hrun. cbn. apply Forall_take, Forall_drop, Forall_forall. intros e He%list_elem_of_In.
    by apply sort_by_In, List.filter_In in He as [_ [He%String.eqb_eq _]%andb_true_iff].
Qed.

Lemma isolated_get_email tid i :
  isolated tid (fun x => em_tenant_id x.1 = tid /\ Forall (fun a => inbound_email_id a = em_id x.1) x.2) (get_email tid i).
Proof.
  apply isolated_own_email. intros e db Hk (Hin & Hid & Ht)%email_of_Some. unfold bind, query, reads, ret. cbn.
  split; [|done]. split; [done|]. apply Forall_forall. intros a Ha%list_elem_of_In.
  by apply List.filter_In in Ha as [_ Ha%String.eqb_eq].
Qed.

Lemma isolated_retry uuid re_search now tid i :
  isolated tid (fun e => em_tenant_id e = tid) (retry_email uuid re_search now tid i).
Proof.
  apply isolated_own_email. intros e db Hk He. unfold with_errors. destruct (decide (tid = "")) as [->|Hne].
  - unfold retry_routing. cbn. done.
  - destruct (retry_routing_run uuid re_search now tid i db e Hne Hk He) as (row & W & d & -> & _ & _ & Ht & _ & Hf & Ha & _).
    cbn. by split.
Qed.

Lemma isolated_quarantine tid i : isolated tid (fun e => em_tenant_id e = tid) (quarantine_email tid i).
Proof.
  apply isolated_own_email. intros e db Hk He. unfold with_errors, quarantine. destruct (decide (tid = "")) as [->|Hne]; [done|].
  apply truthy_spec in Hne as ->. cbn [negb raise_if]. unfold bind, ret, query, reads, write, modify, commit, or_raise. cbn [working committed].
  rewrite He. destruct (email_of_Some _ _ _ _ He) as (Hin & Hid & Ht). cbn [working]. split; [|split; [|done]].
  - unfold reload. cbn. rewrite (find_first_update_email e); [cbn; by rewrite Ht|done|apply Hk|done].
  - by apply foreign_emails.
Qed.

Lemma isolated_create uuid now tid p : isolated tid (fun r => rule_tenant_id r = tid) (create_rule uuid now tid p).
Proof.
  intros db Hk. cbn. split; [done|]. split; [|done]. unfold foreign. cbn. rewrite List.filter_app. cbn.
  by rewrite String.eqb_refl, app_nil_r.
Qed.

Lemma isolated_update tid i u : isolated tid (fun r => rule_tenant_id r = tid) (update_rule tid i u).
Proof.
  apply isolated_own_rule. intros r db Hk (Hin & Hid & Ht)%rule_of_Some.
  destruct (is_null (iru_action u)); [done|]. destruct (_ || _); [done|]. cbn. split; [done|]. split; [|done].
  by apply (foreign_rules tid r (fun _ => updated_rule u r)).
Qed.

Lemma isolated_delete tid i : isolated tid (fun _ => True) (delete_rule tid i).
Proof.
  apply isolated_own_rule. intros r db Hk (Hin & Hid & Ht)%rule_of_Some. cbn. split; [done|]. split; [|done].
  unfold foreign. cbn. f_equal. f_equal. clear. induction (rules db) as [|x l IH]; [done|]. cbn.
  destruct (String.eqb (rule_id x) i); cbn; [|by rewrite IH].
  destruct (String.eqb (rule_tenant_id x) tid) eqn:Hx; cbn; rewrite ?Hx; cbn; by rewrite IH.
Qed.

(** The index of [i] in [order]. *)
Fixpoint position (i : string) (order : list string) : option Z :=
  match order with
  | [] => None
  | j :: order => if String.eqb i j then Some 0 else Z.succ <$> position i order
  end.

Definition reprioritise (k : Z) (order : list string) (r : InboundRoutingRule) : InboundRoutingRule :=
  match position (rule_id r) order with Some j => set_priority ((k + j + 1) * 10) r | None => r end.

Lemma position_None i order : position i order = None <-> ~ In i order.
Proof.
  induction order as [|j order IH]; cbn; [naive_solver|]. destruct (String.eqb_spec i j) as [->|Hne].
  - split; [done|intros H; destruct H; by left].
  - rewrite fmap_None, IH. split; [intros H [Hj|Hin]; [by subst|done]|tauto].
Qed.

Lemma position_Some i order j : position i order = Some j -> In i order.
Proof.
  revert j. induction order as [|x order IH]; intros j; cbn; [done|]. destruct (String.eqb_spec i x) as [->|]; [by left|].
  destruct (position i order) as [k|]; [|done]. intros _. right. by eapply IH.
Qed.

Lemma prioritise_map order : forall k l, List.NoDup order -> prioritise k order l = map (reprioritise k order) l.
Proof.
  induction order as [|i order IH]; intros k l Hnd; cbn [prioritise].
  { unfold reprioritise. cbn. by rewrite map_id. }
  inversion Hnd as [|? ? Hi Hnd']; subst. rewrite IH by done. unfold update_rule_row. rewrite map_map. apply map_ext. intros r.
  unfold reprioritise. cbn [position]. destruct (String.eqb_spec (rule_id r) i) as [Heq|Hne].
  - cbn [set_priority rule_id]. rewrite Heq. apply position_None in Hi as ->. f_equal. lia.
  - destruct (position (rule_id r) order) as [j|]; [|done]. cbn. f_equal. lia.
Qed.

(** The tenant's rules that the order names. *)
Lemma named_rules tid order db :
  inbound_keys db ->
  let found := List.filter (fun r => String.eqb (rule_tenant_id r) tid && existsb (String.eqb (rule_id r)) order) (rules db) in
  List.NoDup (map rule_id found) /\ incl (map rule_id found) order /\
  forall i, In i (map rule_id found) <-> In i order /\ is_Some (rule_of tid i db).
Proof.
  intros [_ Hnd] found. assert (Hfound : forall r, In r found <-> In r (rules db) /\ rule_tenant_id r = tid /\ In (rule_id r) order).
  { intros r. unfold found. rewrite List.filter_In, andb_true_iff, String.eqb_eq, existsb_exists.
    split; [intros (? & ? & j & ? & ->%String.eqb_eq); done|intros (? & ? & ?); split_and!; try done].
    exists (rule_id r). by rewrite String.eqb_refl. }
  split; [|split].
  - clear Hfound. unfold found. clear found. induction (rules db) as [|r l IH]; cbn; [constructor|].
    cbn in Hnd. inversion Hnd as [|? ? Hr Hl]; subst. destruct (_ && _); [|by apply IH]. cbn. constructor; [|by apply IH].
    intros (x & Hx & [Hin _]%List.filter_In)%in_map_iff. apply Hr. rewrite <- Hx. by apply in_map.
  - intros i (r & <- & (_ & _ & ?)%Hfound)%in_map_iff. done.
  - intros i. rewrite in_map_iff. split.
    + intros (r & <- & (Hin & Ht & Ho)%Hfound). split; [done|]. unfold rule_of.
      destruct (find_first _ _) as [x|] eqn:Hx; [by eexists|]. rewrite find_first_None in Hx. specialize (Hx r Hin).
      by rewrite Ht, !String.eqb_refl in Hx.
    + intros [Ho [r (Hin & Hid & Ht)%rule_of_Some]]. exists r. split; [done|]. apply Hfound. by rewrite Hid.
Qed.

Lemma reorder_run tid order db :
  inbound_keys db ->
  match reorder_rules tid order (Session db db) with
  | (Ok l, s') =>
      List.NoDup order /\ (forall i, In i order -> is_Some (rule_of tid i db)) /\
      s' = Session (with_rules (map (reprioritise 0 order)) db) (with_rules (map (reprioritise 0 order)) db) /\
      l = sort_by priority (List.filter (fun r => String.eqb (rule_tenant_id r) tid) (map (reprioritise 0 order) (rules db)))
  | (Raise e, s') =>
      e = http_code 400 "unknown_rule_id_in_order" /\ s' = Session db db /\
      ~ (List.NoDup order /\ forall i, In i order -> is_Some (rule_of tid i db))
  end.
Proof.
  intros Hk. destruct (named_rules tid order db Hk) as (Hnd & Hincl & Hin). unfold reorder_rules, bind, query, reads, write, modify, commit, raise_if.
  cbn [working]. set (found := List.filter _ (rules db)) in *. rewrite <- (length_map rule_id found).
  destruct (Nat.eqb_spec (length (map rule_id found)) (length order)) as [Hlen|Hlen]; cbn.
  - assert (Hno : List.NoDup order) by (eapply NoDup_incl_NoDup; [exact Hnd|lia|done]).
    rewrite (prioritise_map order 0 _ Hno). split_and!; try done.
    + intros i Hi. assert (Hrev : incl order (map rule_id found)) by (apply NoDup_length_incl; [done|lia|done]).
      by apply (Hin i), Hrev.
    + unfold with_rules. cbn. by rewrite (prioritise_map order 0 _ Hno).
  - split_and!; [done|done|]. intros [Hno Hall]. apply Hlen, Nat.le_antisymm; apply NoDup_incl_length; [done|done|done|].
    intros i Hi. apply Hin. auto.
Qed.

Lemma isolated_reorder tid order :
  isolated tid (fun l => Forall (fun r => rule_tenant_id r = tid) l) (reorder_rules tid order).
Proof.
  intros db Hk. pose proof (reorder_run tid order db Hk) as H. destruct (reorder_rules _ _ _) as [[l|e] s'].
  - destruct H as (Hno & Hall & -> & ->). split; [|split; [|done]].
    + apply Forall_forall. intros r Hr%list_elem_of_In. by apply sort_by_In, List.filter_In in Hr as [_ Hr%String.eqb_eq].
    + unfold foreign. cbn. f_equal. f_equal. apply filter_map_id. intros x Hx. unfold reprioritise.
      destruct (position (rule_id x) order) as [j|] eqn:Hp; [|done]. cbn. split; [done|].
      destruct (Hall (rule_id x) (position_Some _ _ _ Hp)) as [r (Hr & Hid & Ht)%rule_of_Some].
      rewrite (NoDup_map_eq rule_id (rules db) x r (proj2 Hk) Hx Hr (eq_sym Hid)), Ht, String.eqb_refl. done.
  - by destruct H as (_ & -> & _).
Qed.

Lemma isolated_list_rules tid : isolated tid (fun l => Forall (fun r => rule_tenant_id r = tid) l) (list_rules tid).
Proof.
  apply isolated_readonly; [unfold list_rules, query; auto with readonly|]. intros s l s' [= <- <-].
  apply Forall_forall. intros r Hr%list_elem_of_In. by apply isort_In, List.filter_In in Hr as [_ Hr%String.eqb_eq].
Qed.

Lemma isolated_endpoint uuid re_search now tid rq e params :
  isolated tid (owned tid) (run_endpoint uuid re_search now tid rq e params).
Proof.
  assert (Hraise : forall err, isolated tid (owned tid) (raise err)) by (intros err db _; done).
  destruct e; cbn [run_endpoint]; try (destruct params as [|i [|j params]]; [apply Hraise| |apply Hraise]);
    try (destruct (rq_body rq); try apply Hraise).
  all: eapply isolated_answer;
    [ match goal with
      | |- isolated _ _ (list_emails _ _ _ _) => apply isolated_list_emails
      | |- isolated _ _ (get_email _ _) => apply isolated_get_email
      | |- isolated _ _ (retry_email _ _ _ _ _) => apply isolated_retry
      | |- isolated _ _ (quarantine_email _ _) => apply isolated_quarantine
      | |- isolated _ _ (list_rules _) => apply isolated_list_rules
      | |- isolated _ _ (create_rule _ _ _ _) => apply isolated_create
      | |- isolated _ _ (update_rule _ _ _) => apply isolated_update
      | |- isolated _ _ (delete_rule _ _) => apply isolated_delete
      | |- isolated _ _ (reorder_rules _ _) => apply isolated_reorder
      end
    | try (intros [? ?]); intros; eexists; by split ].
Qed.

(** ** Properties *)

(** Tenants are isolated in the inbound API.  Whatever request a tenant sends,
    the answer shows only rows of that tenant; the e-mails, rules and drafts of
    every other tenant, and all attachments, are as they were; and a request that
    is refused commits nothing. *)
Theorem inbound_tenant_isolation uuid re_search now tid rq db r s' :
  inbound_keys db -> inbound_handle uuid re_search now tid rq (Session db db) = (r, s') ->
  working s' = committed s' /\ kept tid db (committed s') /\
  match r with Ok resp => owned tid resp | Raise _ => committed s' = db end.
Proof.
  intros Hk. unfold inbound_handle, in_request. destruct (dispatch _ _) as [[e params]|]; [|by intros [= <- <-]].
  pose proof (isolated_endpoint uuid re_search now tid rq e params db Hk) as H.
  destruct (run_endpoint _ _ _ _ _ _ _ _) as [[resp|err] s1]; intros [= <- <-]; cbn.
  - by destruct H.
  - rewrite H. by split_and!.
Qed.

(** Reordering the rules.  It succeeds exactly when the order names no rule
    twice and only rules of the tenant; then the rule at index [k] has priority
    [10 * (k + 1)] - so that the rules are tried in that order - and nothing else
    of any rule changes; otherwise it answers 400 and changes nothing. *)
Theorem reorder_rules_spec tid order db :
  inbound_keys db ->
  let named := List.NoDup order /\ forall i, In i order -> is_Some (rule_of tid i db) in
  match reorder_rules tid order (Session db db) with
  | (Ok l, s') => named /\ committed s' = working s' /\
      rules (committed s') = map (reprioritise 0 order) (rules db) /\ StronglySorted (fun a b => priority a <= priority b) l /\
      Permutation l (List.filter (fun r => String.eqb (rule_tenant_id r) tid) (rules (committed s')))
  | (Raise e, s') => ~ named /\ e = http_code 400 "unknown_rule_id_in_order" /\ s' = Session db db
  end.
Proof.
  intros Hk named. pose proof (reorder_run tid order db Hk) as H. destruct (reorder_rules _ _ _) as [[l|e] s'].
  - destruct H as (Hno & Hall & -> & ->). cbn. split_and!; try done; [apply sort_by_Sorted|apply sort_by_perm].
  - by destruct H as (-> & -> & ?).
Qed.

(** Routing again an e-mail of the tenant always ends: the row has a final status,
    and at most one further blocked submission is drafted, which the row names. *)
Theorem retry_ends uuid re_search now tid i db e :
  tid <> "" -> inbound_keys db -> email_of tid i db = Some e ->
  exists row s' d, retry_email uuid re_search now tid i (Session db db) = (Ok row, s') /\
    em_id row = i /\ In (em_status row) [ROUTED; E_FAILED; QUARANTINED] /\ In row (emails (committed s')) /\
    drafts (committed s') = drafts db ++ match d with Some sub => [sub] | None => [] end /\
    match d with
    | Some sub => status sub = BLOCKED /\ sub_tenant_id sub = tid /\ draft_submission_id row = Some (sub_id sub)
    | None => True
    end.
Proof.
  intros Hne Hk He. destruct (retry_routing_run uuid re_search now tid i db e Hne Hk He)
    as (row & W & d & Hrun & H1 & H2 & _ & H4 & _ & _ & H7 & H8).
  exists row, (Session W W), d. split_and!; try done. unfold retry_email, own_email, bind, query, reads, or_raise. cbn [working].
  rewrite He. unfold with_errors, ret. by rewrite Hrun.
Qed.

(** ** Concrete rules *)

Module DemoInboundApi.
Definition rule (i t : string) (p : Z) : InboundRoutingRule :=
  {| rule_id := i; rule_tenant_id := t; rule_name := i; priority := p; match_from_domain := None; match_subject_regex := None;
     match_attachment_kind := None; action := CREATE_SUBMISSION; action_params := None; rule_active := true; rule_created_at := 0 |}.
Definition db : InboundDB := with_rules (fun _ => [rule "r1" "t1" 10; rule "r2" "t1" 20; rule "x" "t2" 5]) DemoInbound.db.

Lemma keys_ok : inbound_keys db.
Proof. split; [apply List.NoDup_nil|]. repeat constructor; cbn; intuition discriminate. Qed.

Definition reorder_request (order : list string) : inbound_request :=
  {| rq_method := "POST"; rq_path := ["rules"; "reorder"]; rq_status := None; rq_limit := 50; rq_offset := 0;
     rq_body := OrderBody order |}.

Lemma inbound_tenant_isolation_witness : exists l s',
  inbound_handle DemoInbound.uuid DemoInbound.re_search 1 "t1" (reorder_request ["r2"; "r1"]) (Session db db) =
    (Ok (RuleList l), s') /\ map rule_id l = ["r2"; "r1"] /\ kept "t1" db (committed s').
Proof.
  destruct (inbound_handle DemoInbound.uuid DemoInbound.re_search 1 "t1" (reorder_request ["r2"; "r1"]) (Session db db))
    as [r s'] eqn:Hr.
  destruct (inbound_tenant_isolation DemoInbound.uuid DemoInbound.re_search 1 "t1" (reorder_request ["r2"; "r1"]) db r s'
              keys_ok Hr) as (_ & Hkept & _).
  revert Hkept. vm_compute in Hr. injection Hr as <- <-. intros Hkept. do 2 eexists. split; [reflexivity|].
  split; [reflexivity|exact Hkept].
Defined.

Lemma reorder_rules_spec_witness :
  match reorder_rules "t1" ["r2"; "r1"] (Session db db) with
  | (Ok l, s') => map (fun r => (rule_id r, priority r)) (rules (committed s')) = [("r1", 20); ("r2", 10); ("x", 5)] /\
      StronglySorted (fun a b => priority a <= priority b) l
  | (Raise _, _) => False
  end.
Proof.
  pose proof (reorder_rules_spec "t1" ["r2"; "r1"] db keys_ok) as H. cbv beta zeta in H. revert H.
  destruct (reorder_rules "t1" ["r2"; "r1"] (Session db db)) as [[l|e] s'] eqn:Hr; vm_compute in Hr; [|discriminate].
  intros (_ & _ & Hrules & Hs & _). split; [rewrite Hrules; vm_compute; reflexivity|exact Hs].
Defined.

(** An order with a rule of another tenant, or with a rule twice, is refused. *)
Example bad_orders :
  map (fun o => (reorder_rules "t1" o (Session db db)).1) [["r1"; "x"]; ["r1"; "r1"]] =
  [Raise (http_code 400 "unknown_rule_id_in_order"); Raise (http_code 400 "unknown_rule_id_in_order")].
Proof. vm_compute. reflexivity. Qed.

(** [GET /inbound/rules] is never the list of the rules: the detail of an e-mail
    is declared before it and takes the path. *)
Example rules_are_not_listed :
  dispatch "GET" ["rules"] = Some (E_get_email, ["rules"]) /\
  (inbound_handle DemoInbound.uuid DemoInbound.re_search 1 "t1"
     {| rq_method := "GET"; rq_path := ["rules"]; rq_status := None; rq_limit := 50; rq_offset := 0; rq_body := NoBody |}
     (Session db db)).1 = Raise (http_code 404 "not_found").
Proof. split; vm_compute; reflexivity. Qed.

(** A null action is no validation error but an exception. *)
Example null_action :
  (update_rule "t1" "r1" {| iru_name := None; iru_priority := None; iru_domain := None; iru_regex := None; iru_kind := None;
     iru_action := Some None; iru_params := None; iru_active := None |} (Session db db)).1 = Raise (PyException "ValueError").
Proof. vm_compute. reflexivity. Qed.
End DemoInboundApi.
