(* ===== verification/Http.v ===== *)
(** * HTTP: messages, entity tags and the middleware around every request

    utils/etag.py and the middleware that needs no table: conditional_request.py,
    csrf.py, versioning.py, security_headers.py, request_id.py.  A middleware is a
    function from the application behind it to an application; the applications
    are state transformers.  Header values and paths are latin-1 texts. *)

From Stdlib Require Import Ascii.
From S2P Require Import Prelude PyStr Json Encoding Accounts.

(** ** Messages *)

(** The header names of a request are in lower case; a cookie has one value. *)
Record HttpRequest : Type := {
  rq_meth : string;
  rq_url_path : string;
  rq_hdrs : list (string * string);
  rq_cookies : list (string * string);
}.

(** The headers of a response, in order, with repetitions. *)
Record HttpResponse : Type := { rs_status : Z; rs_hdrs : list (string * string); rs_content : bytes }.

(** [headers.get(name)]: the first value, whatever the case of the name. *)
Definition header (name : string) (hdrs : list (string * string)) : option string :=
  snd <$> find_first (fun kv => String.eqb (lower kv.1) (lower name)) hdrs.

Definition has_header (name : string) (hdrs : list (string * string)) : bool := is_someb (header name hdrs).

(** [headers[name] = value]: the first occurrence is replaced, the others go. *)
Fixpoint set_header (name value : string) (hdrs : list (string * string)) : list (string * string) :=
  match hdrs with
  | [] => [(lower name, value)]
  | kv :: r =>
      if String.eqb (lower kv.1) (lower name)
      then (kv.1, value) :: List.filter (fun kv => negb (String.eqb (lower kv.1) (lower name))) r
      else kv :: set_header name value r
  end.

(** [headers.setdefault(name, value)] *)
Definition setdefault (name value : string) (hdrs : list (string * string)) : list (string * string) :=
  if has_header name hdrs then hdrs else hdrs ++ [(lower name, value)].

(** [dict(headers)]: the keys in lower case, each with its first value. *)
Fixpoint header_dict (hdrs : list (string * string)) : list (string * string) :=
  match hdrs with
  | [] => []
  | kv :: r => (lower kv.1, kv.2) :: List.filter (fun x => negb (String.eqb x.1 (lower kv.1))) (header_dict r)
  end.

(** [Response(content, status_code, headers=...)]: the length is added. *)
Definition make_response (status : Z) (hdrs : list (string * string)) (content : bytes) : HttpResponse :=
  {| rs_status := status;
     rs_hdrs := hdrs ++ (if has_header "content-length" hdrs || (status <? 200) || (status =? 204) || (status =? 304) then []
                         else [("content-length", str_of_Z (slen content))]);
     rs_content := content |}.

(** [JSONResponse({"detail": detail}, status_code)], with the text of the body. *)
Definition detail_response (status : Z) (detail : string) : HttpResponse :=
  make_response status [("content-type", "application/json")] detail.

(** An application: it answers a request, and may change its own state. *)
Definition application (W : Type) : Type := HttpRequest -> M W web_error HttpResponse.

(** ** Entity tags *)

Definition quote : string := String "034" EmptyString.

Section Etags.
Context (sha256_hex : bytes -> string).

(** utils/etag.py, [compute_weak_etag]. *)
Definition compute_weak_etag (body : bytes) : string := "W/" +:+ quote +:+ sha256_hex body +:+ quote.

(** utils/etag.py, [compute_strong_etag]; the parts are ASCII. *)
Definition compute_strong_etag (parts : list (option string)) : string :=
  quote +:+ sha256_hex (join (String "031" EmptyString) (map (default "") parts)) +:+ quote.
End Etags.

(** utils/etag.py, [_normalize_token]. *)
Definition _normalize_token (token : string) : string :=
  let token := strip token in if startswith "W/" token then strip (sdrop 2 token) else token.

(** utils/etag.py, [_parse_if_header]. *)
Definition _parse_if_header (value : string) : list string :=
  List.filter truthy (map _normalize_token (split_char "," value)).

(** utils/etag.py, [etag_matches]. *)
Definition etag_matches (presented current : string) : bool :=
  String.eqb presented "*" || String.eqb (_normalize_token presented) (_normalize_token current).

(** utils/etag.py, [if_none_match_hits]. *)
Definition if_none_match_hits (request : HttpRequest) (current_etag : string) : bool :=
  match header "If-None-Match" (rq_hdrs request) with
  | None => false
  | Some raw =>
      truthy raw && (contains_char "*" raw || existsb (fun tok => etag_matches tok current_etag) (_parse_if_header raw))
  end.

(** utils/etag.py, [check_if_match]. *)
Definition check_if_match (request : HttpRequest) (current_etag : option string) : result web_error unit :=
  match header "If-Match" (rq_hdrs request) with
  | None => Ok tt
  | Some raw =>
      if negb (truthy raw) then Ok tt
      else
        match current_etag with
        | None => Raise (HTTPException 412 "precondition_failed")
        | Some current =>
            if contains_char "*" raw then Ok tt
            else if existsb (fun tok => etag_matches tok current) (_parse_if_header raw) then Ok tt
            else Raise (HTTPException 412 "precondition_failed")
        end
  end.

(** The digits at the start of a text. *)
Fixpoint stake_digits (s : string) : string :=
  match s with String c r => if is_digit c then String c (stake_digits r) else EmptyString | EmptyString => EmptyString end.

(** ** Middleware *)

Section Middleware.
Context {W : Type} (sha256_hex : bytes -> string).

(** middleware/conditional_request.py, [ConditionalRequestMiddleware._is_excluded]. *)
Definition conditional_excluded (path : string) : bool := existsb (fun p => startswith p path) ["/metrics"; "/health"].

(** middleware/conditional_request.py:83-90, [ConditionalRequestMiddleware.dispatch]:
    the answer without a body. *)
Definition not_modified (etag : string) (r : HttpResponse) : HttpResponse :=
  make_response 304
    (to_dict (List.filter (fun kv => existsb (String.eqb (lower kv.1)) ["cache-control"; "vary"; "x-api-version"; "x-request-id"])
                (rs_hdrs r)) ++ [("etag", etag)]) "".

(** middleware/conditional_request.py:91-99, [ConditionalRequestMiddleware.dispatch]:
    the answer with its tag. *)
Definition rebuilt (etag : string) (r : HttpResponse) : HttpResponse :=
  make_response (rs_status r)
    (List.filter (fun kv => negb (String.eqb kv.1 "content-length")) (header_dict (rs_hdrs r)) ++ [("etag", etag)])
    (rs_content r).

(** [response.headers.get("ETag")], if it is not empty. *)
Definition existing_etag (r : HttpResponse) : option string :=
  match header "ETag" (rs_hdrs r) with Some t => if truthy t then Some t else None | None => None end.

(** middleware/conditional_request.py, [ConditionalRequestMiddleware.dispatch]. *)
Definition conditional (call_next : application W) : application W := fun request =>
  if negb (existsb (String.eqb (rq_meth request)) ["GET"; "HEAD"]) || conditional_excluded (rq_url_path request)
  then call_next request
  else
    let* response := call_next request in
    if negb ((200 <=? rs_status response) && (rs_status response <? 300)) then ret response
    else
      match existing_etag response with
      | Some etag => ret (if if_none_match_hits request etag then not_modified etag response else response)
      | None =>
          let etag := compute_weak_etag sha256_hex (rs_content response) in
          ret (if if_none_match_hits request etag then not_modified etag response else rebuilt etag response)
      end.

(** middleware/csrf.py, [CSRFMiddleware.__init__], and whether the deployment is
    production. *)
Record csrf_config : Type := { cookie_name : string; csrf_header_name : string; bypass_prefixes : list string; csrf_is_production : bool }.

(** middleware/csrf.py, [DEFAULT_BYPASS_PREFIXES]. *)
Definition DEFAULT_BYPASS_PREFIXES : list string :=
  ["/v1/auth/"; "/v1/webhooks/"; "/v1/public/"; "/webhooks/"; "/health"; "/ready"; "/verify/"].
(** middleware/csrf.py, [SAFE_METHODS]. *)
Definition SAFE_METHODS : list string := ["GET"; "HEAD"; "OPTIONS"; "TRACE"].

Definition default_csrf_config : csrf_config :=
  {| cookie_name := "once_csrf"; csrf_header_name := "x-csrf-token"; bypass_prefixes := DEFAULT_BYPASS_PREFIXES;
     csrf_is_production := true |}.

(** middleware/csrf.py, [_is_bypassed_path]. *)
Definition _is_bypassed_path (path : string) (prefixes : list string) : bool := existsb (fun p => startswith p path) prefixes.

(** middleware/csrf.py, [_has_bearer_auth]. *)
Definition _has_bearer_auth (request : HttpRequest) : bool :=
  match header "authorization" (rq_hdrs request) with
  | None => false
  | Some auth => truthy auth && startswith "bearer " (lower (strip auth))
  end.

(** middleware/csrf.py:88-97, [CSRFMiddleware.dispatch]. *)
Definition csrf_bypassed (cfg : csrf_config) (request : HttpRequest) : bool :=
  _is_bypassed_path (rq_url_path request) (bypass_prefixes cfg) || _has_bearer_auth request
  || existsb (String.eqb (upper (rq_meth request))) SAFE_METHODS.

(** [request.cookies.get(name)] *)
Definition cookie (name : string) (request : HttpRequest) : option string :=
  snd <$> find_first (fun kv => String.eqb kv.1 name) (rq_cookies request).

(** The cookie the middleware sets. *)
Definition csrf_cookie (cfg : csrf_config) (token : string) : string :=
  cookie_name cfg +:+ "=" +:+ token +:+ "; Max-Age=28800; Path=/; SameSite=lax"
  +:+ (if csrf_is_production cfg then "; Secure" else "").

(** middleware/csrf.py, [CSRFMiddleware.dispatch]; [token] is what
    [_generate_token] draws.  [compare_digest] of two texts raises [TypeError] when
    one is not ASCII. *)
Definition csrf (cfg : csrf_config) (token : string) (call_next : application W) : application W := fun request =>
  let existing := cookie (cookie_name cfg) request in
  let safe := existsb (String.eqb (upper (rq_meth request))) SAFE_METHODS in
  let proceed :=
    let* response := call_next request in
    ret (match existing with
         | None => if safe then {| rs_status := rs_status response;
                                   rs_hdrs := rs_hdrs response ++ [("set-cookie", csrf_cookie cfg token)];
                                   rs_content := rs_content response |} else response
         | Some _ => response
         end) in
  if csrf_bypassed cfg request then proceed
  else
    let presented := default "" (header (csrf_header_name cfg) (rq_hdrs request)) in
    let held := default "" existing in
    if negb (truthy held) || negb (truthy presented) then ret (detail_response 403 "CSRF token missing")
    else if negb (sall (in_range 0 127) held && sall (in_range 0 127) presented) then raise (PyException "TypeError")
    else if negb (String.eqb held presented) then ret (detail_response 403 "CSRF token invalid")
    else proceed.

(** The first match of [_ACCEPT_RE] in a chunk: its group, in lower case. *)
Fixpoint accept_match (chunk : string) : option string :=
  let lead := "application/vnd.once.v" in
  let here := if String.prefix lead (lower chunk)
              then let digits := stake_digits (sdrop (String.length lead) chunk) in
                   if truthy digits then Some ("v" +:+ digits) else None
              else None in
  match here with
  | Some v => Some v
  | None => match chunk with String _ r => accept_match r | EmptyString => None end
  end.

(** The version of the first chunk that names one. *)
Fixpoint first_version (supported : list string) (dflt : string) (chunks : list string) : string :=
  match chunks with
  | [] => dflt
  | chunk :: chunks =>
      match accept_match chunk with
      | None => first_version supported dflt chunks
      | Some v => if existsb (String.eqb v) (map lower supported) then v else dflt
      end
  end.

(** middleware/versioning.py, [parse_accept_version]. *)
Definition parse_accept_version (accept_header : option string) (supported : list string) (dflt : string) : string :=
  match accept_header with
  | None => dflt
  | Some h => if truthy h then first_version supported dflt (split_char "," h) else dflt
  end.

(** middleware/versioning.py, [SUPPORTED_API_VERSIONS]. *)
Definition SUPPORTED_API_VERSIONS : list string := ["v1"].
(** middleware/versioning.py, [DEFAULT_API_VERSION]. *)
Definition DEFAULT_API_VERSION : string := "v1".

Definition with_header (name value : string) (r : HttpResponse) : HttpResponse :=
  {| rs_status := rs_status r; rs_hdrs := set_header name value (rs_hdrs r); rs_content := rs_content r |}.

(** middleware/versioning.py, [ApiVersioningMiddleware.dispatch]. *)
Definition versioning (call_next : application W) : application W := fun request =>
  let version := parse_accept_version (header "Accept" (rq_hdrs request)) SUPPORTED_API_VERSIONS DEFAULT_API_VERSION in
  let* response := call_next request in
  ret (with_header "X-API-Version" version response).

(** middleware/security_headers.py, [_LOCAL_HOSTS]. *)
Definition _LOCAL_HOSTS : list string := ["localhost"; "127.0.0.1"; "::1"; "testserver"].

(** middleware/security_headers.py, [_csp_value]. *)
Definition _csp_value (report_uri : option string) : string :=
  "default-src 'self'; base-uri 'self'; frame-ancestors 'none'; form-action 'self'; object-src 'none'; "
  +:+ "img-src 'self' data:; style-src 'self' 'unsafe-inline'; script-src 'self'"
  +:+ match report_uri with Some u => if truthy u then "; report-uri " +:+ u else "" | None => "" end.

(** middleware/security_headers.py, [build_security_headers]. *)
Definition build_security_headers (is_local hsts_enabled is_html : bool) (csp_report_uri : option string)
  : list (string * string) :=
  [("X-Content-Type-Options", "nosniff"); ("X-Frame-Options", "DENY");
   ("Referrer-Policy", "strict-origin-when-cross-origin");
   ("Permissions-Policy", "camera=(), microphone=(), geolocation=(), payment=(), "
      +:+ "usb=(), accelerometer=(), gyroscope=(), magnetometer=()");
   ("Cross-Origin-Opener-Policy", "same-origin"); ("Cross-Origin-Resource-Policy", "same-site")]
  ++ (if hsts_enabled && negb is_local
      then [("Strict-Transport-Security", "max-age=63072000; includeSubDomains; preload")] else [])
  ++ (if is_html then [("Content-Security-Policy", _csp_value csp_report_uri)] else []).

Definition add_defaults (extra : list (string * string)) (r : HttpResponse) : HttpResponse :=
  {| rs_status := rs_status r; rs_hdrs := fold_left (fun h kv => setdefault kv.1 kv.2 h) extra (rs_hdrs r);
     rs_content := rs_content r |}.

(** middleware/security_headers.py, [SecurityHeadersMiddleware.dispatch]. *)
Definition security_headers (hsts_enabled : bool) (csp_report_uri : option string) (call_next : application W)
  : application W := fun request =>
  let* response := call_next request in
  let host := lower (strip (fst (fst (partition_char ":" (default "" (header "host" (rq_hdrs request))))))) in
  let is_local := existsb (String.eqb host) _LOCAL_HOSTS in
  let is_html := startswith "text/html" (lower (default "" (header "content-type" (rs_hdrs response)))) in
  ret (add_defaults (build_security_headers is_local hsts_enabled is_html csp_report_uri) response).

(** middleware/request_id.py, [_is_valid]; a header holds no newline. *)
Definition valid_request_id (value : string) : bool :=
  sall (fun c => is_alnum c || contains_char c "_-") value && (8 <=? slen value) && (slen value <=? 128).

(** middleware/request_id.py, [set_request_id]; [fresh] is the new UUID. *)
Definition set_request_id (fresh : string) (value : option string) : string :=
  match value with Some v => if truthy v && valid_request_id v then v else fresh | None => fresh end.

(** middleware/request_id.py, [RequestIDMiddleware.dispatch]. *)
Definition request_ids (fresh : string) (call_next : application W) : application W := fun request =>
  let rid := set_request_id fresh (header "X-Request-ID" (rq_hdrs request)) in
  let* response := call_next request in
  ret (with_header "X-Request-ID" rid response).

(** These of the middleware in the order of main.py: the one added last is
    outermost. *)
Definition http_stack (cfg : csrf_config) (token fresh : string) (hsts : bool) (csp : option string)
    (app : application W) : application W :=
  versioning (conditional (csrf cfg token (request_ids fresh (security_headers hsts csp app)))).
End Middleware.

(** ** Lemmas *)

Lemma contains_char_none c s : sall (fun d => negb (Ascii.eqb c d)) s = true -> contains_char c s = false.
Proof. intros H. by apply sany_false_sall. Qed.

(** The characters of a hexadecimal digest. *)
Definition hex_text (s : string) : Prop := sall (fun c => is_digit c || in_range 97 102 c) s = true.

Lemma hex_char_facts c : is_digit c || in_range 97 102 c = true ->
  is_space c = false /\ Ascii.eqb "," c = false /\ Ascii.eqb "*" c = false.
Proof.
  intros H. assert (Hr : 48 <= ord c <= 57 \/ 97 <= ord c <= 102).
  { apply orb_true_iff in H as [H|H]; apply in_range_spec in H; lia. }
  split_and!.
  - unfold is_space, in_range. lia.
  - destruct (Ascii.eqb_spec "," c) as [<-|]; [change (ord ",") with 44 in Hr; lia|done].
  - destruct (Ascii.eqb_spec "*" c) as [<-|]; [change (ord "*") with 42 in Hr; lia|done].
Qed.

Lemma sall_hex f s : hex_text s -> (forall c, is_digit c || in_range 97 102 c = true -> f c = true) -> sall f s = true.
Proof. intros Hs Hf. exact (sall_impl _ _ _ Hf Hs). Qed.

Section Tags.
Context (sha256_hex : bytes -> string) (Hhex : forall b, hex_text (sha256_hex b)).
Local Abbreviation tag := (compute_weak_etag sha256_hex).

Lemma strip_quoted h : hex_text h -> strip (quote +:+ h +:+ quote) = quote +:+ h +:+ quote.
Proof.
  intros Hh. apply strip_by_none. rewrite !sall_append. rewrite (sall_hex _ h Hh); [done|].
  intros c Hc. by apply hex_char_facts in Hc as [-> _].
Qed.

Lemma normalize_quoted h : hex_text h -> _normalize_token (quote +:+ h +:+ quote) = quote +:+ h +:+ quote.
Proof.
  intros Hh. unfold _normalize_token. rewrite (strip_quoted _ Hh). by destruct h.
Qed.

Lemma normalize_tag b : _normalize_token (tag b) = quote +:+ sha256_hex b +:+ quote.
Proof.
  unfold _normalize_token, compute_weak_etag.
  assert (Hs : strip ("W/" +:+ quote +:+ sha256_hex b +:+ quote) = "W/" +:+ quote +:+ sha256_hex b +:+ quote).
  { apply strip_by_none. rewrite !sall_append. rewrite (sall_hex _ _ (Hhex b)); [done|].
    intros c Hc. by apply hex_char_facts in Hc as [-> _]. }
  rewrite Hs. replace (startswith "W/" _) with true by (symmetry; apply prefix_spec; by eexists).
  cbn [String.append sdrop]. apply strip_quoted, Hhex.
Qed.

Lemma quoted_inj a b : quote +:+ a +:+ quote = quote +:+ b +:+ quote -> a = b.
Proof.
  intros H. apply append_inj_l in H. assert (Hl : String.length a = String.length b).
  { apply (f_equal String.length) in H. rewrite !length_append in H. lia. }
  by apply (append_inj_length a b quote quote Hl) in H as [].
Qed.

(** A tag served for [b] matches exactly the tags of bodies with its digest. *)
Lemma tag_hits b b' r :
  header "If-None-Match" (rq_hdrs r) = Some (tag b) ->
  if_none_match_hits r (tag b') = String.eqb (sha256_hex b) (sha256_hex b').
Proof.
  intros Hr. unfold if_none_match_hits. rewrite Hr.
  assert (Hstar : contains_char "*" (tag b) = false).
  { apply contains_char_none. unfold compute_weak_etag. rewrite !sall_append, (sall_hex _ _ (Hhex b)); [done|].
    intros c Hc. by apply hex_char_facts in Hc as (_ & _ & ->). }
  assert (Hcomma : split_char "," (tag b) = [tag b]).
  { apply split_char_none. unfold compute_weak_etag. rewrite !sall_append, (sall_hex _ _ (Hhex b)); [done|].
    intros c Hc. by apply hex_char_facts in Hc as (_ & -> & _). }
  rewrite Hstar. unfold _parse_if_header. rewrite Hcomma. cbn [map]. rewrite normalize_tag.
  assert (Ht : forall h, truthy (quote +:+ h) = true) by done. cbn [List.filter]. rewrite Ht. cbn [existsb].
  unfold etag_matches. rewrite normalize_tag, (normalize_quoted _ (Hhex b)). rewrite orb_false_r.
  replace (String.eqb (quote +:+ sha256_hex b +:+ quote) "*") with false by done.
  replace (truthy (tag b)) with true by done. cbn [orb andb].
  destruct (String.eqb_spec (sha256_hex b) (sha256_hex b')) as [->|Hne].
  - by rewrite String.eqb_refl.
  - apply String.eqb_neq. intros H. by apply quoted_inj in H.
Qed.
End Tags.

(** ** Properties *)

(** Revalidation with an entity tag.  A GET that presents the tag served for
    the bytes [b] is passed on to the application once; when its answer is a
    success without a tag of its own, the client gets 304 without a body exactly
    if the digest of the current body is that of [b], and otherwise the same
    status and body with the tag of the current body. *)
Theorem conditional_revalidation {W} sha256_hex (app : application W) b r s resp s' :
  (forall b, hex_text (sha256_hex b)) ->
  rq_meth r = "GET" -> conditional_excluded (rq_url_path r) = false ->
  header "If-None-Match" (rq_hdrs r) = Some (compute_weak_etag sha256_hex b) ->
  app r s = (Ok resp, s') -> 200 <= rs_status resp < 300 -> existing_etag resp = None ->
  exists out, conditional sha256_hex app r s = (Ok out, s') /\
    if String.eqb (sha256_hex b) (sha256_hex (rs_content resp))
    then rs_status out = 304 /\ rs_content out = ""
    else rs_status out = rs_status resp /\ rs_content out = rs_content resp /\
         In ("etag", compute_weak_etag sha256_hex (rs_content resp)) (rs_hdrs out).
Proof.
  intros Hhex Hm Hx Htag Happ Hst Het. unfold conditional. rewrite Hm, Hx.
  replace (negb (existsb (String.eqb "GET") ["GET"; "HEAD"]) || false) with false by done.
  rewrite (bind_run _ _ _ _ _ Happ).
  replace ((200 <=? rs_status resp) && (rs_status resp <? 300)) with true by lia. cbn [negb]. rewrite Het. cbv zeta.
  rewrite (tag_hits sha256_hex Hhex b _ r Htag). eexists. split; [reflexivity|].
  destruct (String.eqb _ _); [done|]. split_and!; [done|done|]. cbn. rewrite !in_app_iff. left. right. by left.
Qed.

(** Cross-site requests do not reach the application.  For a request that
    changes state, on a path that is not exempt and without a bearer token, the
    middleware hands the request on - and answers as the application does - when
    the cookie and the header hold the same token, which is not empty and ASCII;
    in every other case the application is not called, its state is as before,
    and the answer is 403 or an exception. *)
Theorem csrf_double_submit {W} cfg token (app : application W) r s :
  csrf_bypassed cfg r = false ->
  let held := cookie (cookie_name cfg) r in
  let presented := header (csrf_header_name cfg) (rq_hdrs r) in
  ((exists t, held = Some t /\ presented = Some t /\ t <> "" /\ sall (in_range 0 127) t = true) /\
   csrf cfg token app r s = app r s) \/
  (~ (exists t, held = Some t /\ presented = Some t /\ t <> "" /\ sall (in_range 0 127) t = true) /\
   exists res, csrf cfg token app r s = (res, s) /\
     (res = Raise (PyException "TypeError") \/ exists body, res = Ok (detail_response 403 body))).
Proof.
  intros Hb held presented. unfold csrf. rewrite Hb. fold held presented.
  destruct held as [h|]; [|right; split; [by intros (t & ? & _)|eexists; split; [reflexivity|right; by eexists]]].
  destruct presented as [p|]; cbn [default id];
    [|right; split; [by intros (t & _ & ? & _)|rewrite orb_true_r; eexists; split; [reflexivity|right; by eexists]]].
  destruct (truthy h) eqn:Hh; cbn [negb orb].
  2: { right. split; [intros (t & [= <-] & _ & Hne & _); by apply truthy_spec in Hne; rewrite Hne in Hh|].
       eexists. split; [reflexivity|right; by eexists]. }
  destruct (truthy p) eqn:Hp; cbn [negb].
  2: { right. split; [intros (t & [= <-] & [= <-] & Hne & _); by apply truthy_spec in Hne; rewrite Hne in Hp|].
       eexists. split; [reflexivity|right; by eexists]. }
  destruct (sall (in_range 0 127) h && sall (in_range 0 127) p) eqn:Ha; cbn [negb].
  2: { right. split; [intros (t & [= <-] & [= <-] & _ & Hs); by rewrite Hs in Ha|].
       eexists. split; [reflexivity|by left]. }
  destruct (String.eqb_spec h p) as [<-|Hne]; cbn [negb].
  - left. split; [|unfold bind, ret; by destruct (app r s) as [[]]]. apply andb_true_iff in Ha as [Ha _]. apply truthy_spec in Hh.
    by exists h.
  - right. split; [intros (t & [= <-] & [= <-] & _); done|]. eexists. split; [reflexivity|right; by eexists].
Qed.

Lemma header_set_header name value hdrs : header name (set_header name value hdrs) = Some value.
Proof.
  unfold header. induction hdrs as [|kv r IH]; cbn; [by rewrite lower_idemp, String.eqb_refl|].
  destruct (String.eqb (lower kv.1) (lower name)) eqn:He; cbn; [by rewrite He|]. by rewrite He.
Qed.

(** Every chunk names the one supported version or none. *)
Lemma parse_accept_v1 a : parse_accept_version a SUPPORTED_API_VERSIONS DEFAULT_API_VERSION = "v1".
Proof.
  unfold parse_accept_version. destruct a as [h|]; [|done]. destruct (truthy h); [|done].
  induction (split_char "," h) as [|c l IH]; cbn [first_version]; [done|]. destruct (accept_match c) as [v|]; [|done].
  change (map lower SUPPORTED_API_VERSIONS) with ["v1"]. cbn [existsb]. rewrite orb_false_r.
  by destruct (String.eqb_spec v "v1").
Qed.

(** Whatever the client accepts, every answer names version 1. *)
Lemma versioning_v1 {W} (app : application W) r s out s' :
  versioning app r s = (Ok out, s') -> header "X-API-Version" (rs_hdrs out) = Some "v1".
Proof.
  unfold versioning. intros (resp & s1 & _ & Hrun)%bind_Ok. apply ret_Ok in Hrun as [-> _]. rewrite parse_accept_v1.
  exact (header_set_header "X-API-Version" "v1" (rs_hdrs resp)).
Qed.

Lemma header_setdefault n k v hdrs : is_Some (header n hdrs) -> header n (setdefault k v hdrs) = header n hdrs.
Proof.
  intros [x Hx]. unfold setdefault. destruct (has_header k hdrs); [done|]. unfold header in *.
  induction hdrs as [|kv r IH]; cbn in *; [done|]. destruct (String.eqb _ _); [done|by apply IH].
Qed.

Lemma setdefault_has k v hdrs : is_Some (header k (setdefault k v hdrs)).
Proof.
  unfold setdefault, has_header, is_someb. destruct (header k hdrs) as [x|] eqn:Hx; [by rewrite Hx|]. unfold header in *.
  induction hdrs as [|kv r IH]; cbn in *; [by rewrite lower_idemp, String.eqb_refl|].
  destruct (String.eqb _ _); [done|by apply IH].
Qed.

Lemma add_defaults_spec extra : forall hdrs,
  let out := fold_left (fun h kv => setdefault kv.1 kv.2 h) extra hdrs in
  (forall n, is_Some (header n hdrs) -> header n out = header n hdrs) /\
  forall kv, In kv extra -> is_Some (header kv.1 out).
Proof.
  induction extra as [|kv extra IH]; intros hdrs out; subst out; cbn [fold_left]; [done|].
  destruct (IH (setdefault kv.1 kv.2 hdrs)) as [H1 H2]. split.
  - intros n Hn. pose proof (header_setdefault n kv.1 kv.2 hdrs Hn) as He. rewrite <- He. apply H1. by rewrite He.
  - intros kv' [<-|Hin]; [|by apply H2]. rewrite (H1 _ (setdefault_has _ _ _)). apply setdefault_has.
Qed.

(** The hardening headers: an answer that passes this middleware has all of them,
    and none that the application set is changed. *)
Lemma security_headers_spec {W} hsts csp (app : application W) r s out s' :
  security_headers hsts csp app r s = (Ok out, s') ->
  exists resp, app r s = (Ok resp, s') /\ rs_status out = rs_status resp /\ rs_content out = rs_content resp /\
    (forall n, is_Some (header n (rs_hdrs resp)) -> header n (rs_hdrs out) = header n (rs_hdrs resp)) /\
    forall n, In n ["X-Content-Type-Options"; "X-Frame-Options"; "Referrer-Policy"; "Permissions-Policy";
                    "Cross-Origin-Opener-Policy"; "Cross-Origin-Resource-Policy"] -> is_Some (header n (rs_hdrs out)).
Proof.
  unfold security_headers. intros (resp & s1 & Happ & Hrun)%bind_Ok. apply ret_Ok in Hrun as [-> ->]. exists resp.
  match goal with |- context [add_defaults ?x resp] => set (extra := x) end.
  destruct (add_defaults_spec extra (rs_hdrs resp)) as [H1 H2]. split_and!; try done. intros n Hn.
  assert (Hin : exists v, In (n, v) extra).
  { unfold extra, build_security_headers. cbn [In] in Hn.
    decompose [or] Hn; subst; try done; eexists; rewrite in_app_iff; left; cbn [In]; eauto 10. }
  destruct Hin as [v Hv]. exact (H2 _ Hv).
Qed.

(** ** Concrete requests *)

Module DemoHttp.
Lemma hex_hex_text b : hex_text (hex b).
Proof.
  unfold hex_text. assert (Hd : forall n, 0 <= n < 16 -> (fun c => is_digit c || in_range 97 102 c) (hex_digit n) = true).
  { intros n Hn. apply (forall_below 16 (fun n => is_digit (hex_digit n) || in_range 97 102 (hex_digit n))); [vm_compute; done|done]. }
  induction b as [|c b IH]; [done|]. destruct (ord_nibbles c). cbn [hex sall]. by rewrite !Hd, IH.
Qed.

(** An application that counts its calls and sets a cookie. *)
Definition app : application nat := fun r n =>
  (Ok (make_response 200 [("content-type", "text/plain"); ("set-cookie", "theme=dark")] "page"), S n).
Definition request (m p : string) (h c : list (string * string)) : HttpRequest :=
  {| rq_meth := m; rq_url_path := p; rq_hdrs := h; rq_cookies := c |}.
Definition get (tag : string) : HttpRequest := request "GET" "/v1/suppliers" [("if-none-match", tag)] [].

Lemma conditional_revalidation_witness : exists out,
  conditional hex app (get (compute_weak_etag hex "page")) 0%nat = (Ok out, 1%nat) /\ rs_status out = 304 /\ rs_content out = "".
Proof.
  destruct (conditional_revalidation hex app "page" (get (compute_weak_etag hex "page")) 0%nat
              (make_response 200 [("content-type", "text/plain"); ("set-cookie", "theme=dark")] "page") 1%nat hex_hex_text
              eq_refl eq_refl eq_refl eq_refl ltac:(cbn; lia) eq_refl) as (out & Hout & Hres).
  exists out. split; [exact Hout|]. revert Hres. vm_compute. intros Hres. exact Hres.
Defined.

Lemma csrf_double_submit_witness : exists body,
  csrf default_csrf_config "new" app (request "POST" "/v1/suppliers" [("x-csrf-token", "a")] [("once_csrf", "b")]) 0%nat =
  (Ok (detail_response 403 body), 0%nat).
Proof.
  destruct (csrf_double_submit default_csrf_config "new" app
    (request "POST" "/v1/suppliers" [("x-csrf-token", "a")] [("once_csrf", "b")]) 0%nat eq_refl)
    as [[(t & Ht & Hp & _) _]|(_ & res & Hres & [->|(body & ->)])].
  - vm_compute in Ht, Hp. congruence.
  - vm_compute in Hres. discriminate Hres.
  - exists body. exact Hres.
Defined.

(** A client that echoes the cookie it was given is let through. *)
Example echoed_token :
  (csrf default_csrf_config "new" app (request "POST" "/v1/suppliers" [("x-csrf-token", "tok")] [("once_csrf", "tok")]) 0%nat).2 = 1%nat.
Proof. vm_compute. reflexivity. Qed.

(** A star anywhere in [If-Match] matches every tag. *)
Example star_inside_a_tag :
  check_if_match (request "PUT" "/v1/x" [("if-match", quote +:+ "v*1" +:+ quote)] []) (Some (quote +:+ "v2" +:+ quote)) = Ok tt.
Proof. vm_compute. reflexivity. Qed.

(** A refused request carries none of the hardening headers, although they are
    promised on every response, and no request id. *)
Example refusal_without_headers :
  match http_stack hex default_csrf_config "new" "rid" true None app (request "POST" "/v1/suppliers" [] []) 0%nat with
  | (Ok out, _) => rs_status out = 403 /\ header "X-Frame-Options" (rs_hdrs out) = None /\
                   header "X-Request-ID" (rs_hdrs out) = None /\ header "X-API-Version" (rs_hdrs out) = Some "v1"
  | (Raise _, _) => False
  end.
Proof. vm_compute. split_and!; reflexivity. Qed.

(** The tag is computed by rebuilding the answer from a dict: of two cookies only
    the first is left, so the token cookie is lost. *)
Example second_cookie_is_lost :
  match http_stack hex default_csrf_config "new" "rid" true None app (request "GET" "/v1/suppliers" [] []) 0%nat with
  | (Ok out, _) => map snd (List.filter (fun kv => String.eqb kv.1 "set-cookie") (rs_hdrs out)) = ["theme=dark"]
  | (Raise _, _) => False
  end.
Proof. vm_compute. reflexivity. Qed.

Example versions :
  map (fun a => parse_accept_version (Some a) ["v1"; "V2"] "v1")
    ["application/json"; "text/html, Application/VND.once.V2+json"; "application/vnd.once.v3"; "application/vnd.once.v"; ""] =
  ["v1"; "v2"; "v1"; "v1"; "v1"].
Proof. vm_compute. reflexivity. Qed.
End DemoHttp.
