(* ===== verification/BillingApi.v ===== *)
(** * Stripe and the billing endpoints

    services/stripe_client.py and api/v1/billing.py: the client of the process, the
    signature check of its stand-in, and what a tenant sees and does about its
    subscription.  The Stripe library, the random tokens of the stand-in, HMAC-SHA256 and
    [json.loads] are arguments. *)

From Stdlib Require Import Ascii.
From S2P Require Import Prelude PyStr Json Encoding PyTime Billing BillingWebhooks Http.

(** ** The client *)

(** services/stripe_client.py, [_MockStripeClient] and [_LiveStripeClient]; the sessions
    the stand-in remembers are read by nobody. *)
Inductive StripeClient : Type := _MockStripeClient | _LiveStripeClient (api_key : string).
#[export] Instance StripeClient_eq_dec : EqDecision StripeClient.
Proof. solve_decision. Defined.

(** The settings the client and the endpoints read. *)
Record billing_settings : Type := {
  stripe_mock_mode : bool; stripe_secret_key : option string; is_production : bool; stripe_price_setup_id : option string;
  stripe_price_monthly_id : option string; stripe_checkout_success_url : string; stripe_checkout_cancel_url : string;
  stripe_customer_portal_return_url : string; billing_grace_period_days : Z }.

(** services/stripe_client.py, [get_stripe_client]; the state is [_cached_client]. *)
Definition get_stripe_client (cfg : billing_settings) : M (option StripeClient) billing_error StripeClient := fun cached =>
  match cached with
  | Some c => (Ok c, cached)
  | None =>
      if stripe_mock_mode cfg then (Ok _MockStripeClient, Some _MockStripeClient)
      else
        match opt_truthy (stripe_secret_key cfg) with
        | None =>
            if is_production cfg then (Raise (PyError "RuntimeError"), None) else (Ok _MockStripeClient, Some _MockStripeClient)
        | Some key => (Ok (_LiveStripeClient key), Some (_LiveStripeClient key))
        end
  end.

(** services/stripe_client.py, [reset_stripe_client_cache] *)
Definition reset_stripe_client_cache : option StripeClient := None.

Section Stripe.
(** [hmac.new(secret, payload, sha256).digest()], [json.loads] and the live
    [Webhook.construct_event]. *)
Context (hmac_sha256 : bytes -> bytes -> bytes) (json_loads : bytes -> option json)
  (live_construct_event : string -> bytes -> string -> string -> option json).

(** services/stripe_client.py, [build_mock_signature_header]: the signature of a payload
    at a time. *)
Definition signature (secret : string) (ts : Z) (payload : bytes) : string :=
  hex (hmac_sha256 secret (str_of_Z ts +:+ "." +:+ payload)).

(** services/stripe_client.py, [build_mock_signature_header] *)
Definition build_mock_signature_header (payload : bytes) (secret : string) (timestamp : option Z) (now : Z) : string :=
  let ts := default now timestamp in
  "t=" +:+ str_of_Z ts +:+ ",v1=" +:+ signature secret ts payload.

(** services/stripe_client.py:93-100, [_verify_mock_signature]: the values of a key, in
    order. *)
Definition parts (k : string) (sig_header : string) : list string :=
  omap (fun chunk => let '(a, found, z) := partition_char "=" chunk in
                     if found && String.eqb (strip a) k then Some (strip z) else None)
    (split_char "," sig_header).

(** services/stripe_client.py:111, [_verify_mock_signature]: [any(compare_digest...)]; texts have
    to be ASCII. *)
Fixpoint any_digest (expected : string) (sigs : list string) : result billing_error bool :=
  match sigs with
  | [] => Ok false
  | c :: sigs =>
      if negb (sall (in_range 0 127) c) then Raise (PyError "TypeError")
      else if String.eqb expected c then Ok true else any_digest expected sigs
  end.

Definition bad_signature (msg : string) : result billing_error unit := Raise (StripeSignatureError msg).

(** services/stripe_client.py, [_verify_mock_signature] *)
Definition _verify_mock_signature (now : Z) (payload : bytes) (sig_header secret : string) (tolerance_sec : Z) : result billing_error unit :=
  if negb (truthy sig_header) then bad_signature "missing signature header"
  else
    match opt_truthy (head (parts "t" sig_header)), parts "v1" sig_header with
    | None, _ | _, [] => bad_signature "malformed signature header"
    | Some ts_raw, sigs =>
        match py_int ts_raw with
        | None => bad_signature "invalid timestamp"
        | Some ts =>
            if tolerance_sec <? Z.abs (now - ts) then bad_signature "timestamp outside tolerance"
            else
              match any_digest (signature secret ts payload) sigs with
              | Raise e => Raise e
              | Ok true => Ok tt
              | Ok false => bad_signature "signature mismatch"
              end
        end
    end.

(** services/stripe_client.py, [_MockStripeClient.construct_event] *)
Definition mock_construct_event (now : Z) (payload : bytes) (sig_header secret : string) : result billing_error json :=
  match _verify_mock_signature now payload sig_header secret 300 with
  | Raise e => Raise e
  | Ok _ =>
      match json_loads payload with
      | Some (JObj kvs) =>
          if has_key "id" kvs && has_key "type" kvs then Ok (JObj kvs)
          else Raise (StripeSignatureError "payload missing required fields")
      | Some _ => Raise (StripeSignatureError "payload missing required fields")
      | None => Raise (StripeSignatureError "payload is not valid JSON")
      end
  end.

(** services/stripe_client.py, [_LiveStripeClient.construct_event] *)
Definition construct_event (now : Z) (c : StripeClient) (payload : bytes) (sig_header secret : string) : result billing_error json :=
  match c with
  | _MockStripeClient => mock_construct_event now payload sig_header secret
  | _LiveStripeClient key =>
      match live_construct_event key payload sig_header secret with
      | Some e => Ok e
      | None => Raise (StripeSignatureError "live")
      end
  end.
End Stripe.

(** ** The endpoints *)

(** services/stripe_client.py, [StripeClient.create_checkout_session]: the arguments. *)
Record checkout_args : Type := {
  ca_customer_id : option string; ca_client_reference_id : string; ca_prices : list (string * Z); ca_success_url : string;
  ca_cancel_url : string; ca_metadata : list (string * string) }.
(** What the client is asked. *)
Inductive stripe_call : Type := CheckoutCreate (a : checkout_args) | PortalCreate (customer_id return_url : string).

(** The request's session, the client of the process and what it has been asked. *)
Record ApiSt : Type := { b_tx : session BillingDB; b_client : option StripeClient; b_calls : list (StripeClient * stripe_call) }.
Definition AM : Type -> Type := M ApiSt billing_error.

Definition with_db {A} (m : BM A) : AM A := fun s =>
  let '(r, t) := m (b_tx s) in (r, {| b_tx := t; b_client := b_client s; b_calls := b_calls s |}).
Definition with_client {A} (m : M (option StripeClient) billing_error A) : AM A := fun s =>
  let '(r, c) := m (b_client s) in (r, {| b_tx := b_tx s; b_client := c; b_calls := b_calls s |}).

(** db.py, [get_db] *)
Definition api_request {A} (m : AM A) : AM A := fun s =>
  match m s with
  | (Ok a, s) => (Ok a, {| b_tx := snd (commit (E := billing_error) (b_tx s)); b_client := b_client s; b_calls := b_calls s |})
  | (Raise e, s) => (Raise e, {| b_tx := snd (rollback (E := billing_error) (b_tx s)); b_client := b_client s; b_calls := b_calls s |})
  end.

Definition http_error (status_code : Z) (detail : string) : billing_error :=
  PyError ("HTTPException " +:+ str_of_Z status_code +:+ " " +:+ detail).

Section Endpoints.
Context (cfg : billing_settings).
(** [secrets.token_hex] as the n-th draw of a request; the live library as it answers a
    method with its keyword arguments, [None] when it raises; [str()] of other values. *)
Context (token : nat -> nat -> string) (live_create : string -> string -> list (string * json) -> option (list (string * json)))
  (repr_other : json -> string).

(** services/stripe_client.py, [_MockStripeClient.create_checkout_session] *)
Definition mock_checkout (a : checkout_args) : list (string * json) :=
  let session_id := "cs_test_" +:+ token 0%nat 12%nat in
  [("id", JStr session_id); ("url", JStr ("https://checkout.stripe.com/c/pay/" +:+ session_id +:+ "#fid=" +:+ token 1%nat 8%nat))].

(** services/stripe_client.py, [_MockStripeClient.create_billing_portal_session] *)
Definition mock_portal : list (string * json) :=
  [("id", JStr ("bps_test_" +:+ token 0%nat 10%nat)); ("url", JStr ("https://billing.stripe.com/p/session/test_" +:+ token 1%nat 10%nat))].

(** services/stripe_client.py, [_LiveStripeClient.create_checkout_session]: [kwargs]. *)
Definition live_checkout_kwargs (a : checkout_args) : list (string * json) :=
  [("mode", JStr "subscription");
   ("line_items", JList (map (fun '(p, q) => JObj [("price", JStr p); ("quantity", JInt q)]) (ca_prices a)));
   ("client_reference_id", JStr (ca_client_reference_id a)); ("success_url", JStr (ca_success_url a));
   ("cancel_url", JStr (ca_cancel_url a)); ("metadata", JObj (map (fun '(k, v) => (k, JStr v)) (ca_metadata a)));
   ("allow_promotion_codes", JBool true)]
  ++ match opt_truthy (ca_customer_id a) with Some c => [("customer", JStr c)] | None => [] end.

(** services/stripe_client.py, [_LiveStripeClient.create_billing_portal_session] *)
Definition live_portal_kwargs (customer_id return_url : string) : list (string * json) :=
  [("customer", JStr customer_id); ("return_url", JStr return_url)].

(** services/stripe_client.py, [StripeClient]: a call of either client. *)
Definition call (c : StripeClient) (x : stripe_call) : AM (list (string * json)) :=
  modify (fun s => {| b_tx := b_tx s; b_client := b_client s; b_calls := b_calls s ++ [(c, x)] |}) ;;;
  match c, x with
  | _MockStripeClient, CheckoutCreate a => ret (mock_checkout a)
  | _MockStripeClient, PortalCreate _ _ => ret mock_portal
  | _LiveStripeClient key, CheckoutCreate a =>
      or_raise (live_create key "checkout.Session.create" (live_checkout_kwargs a)) (PyError "StripeError")
  | _LiveStripeClient key, PortalCreate c u =>
      or_raise (live_create key "billing_portal.Session.create" (live_portal_kwargs c u)) (PyError "StripeError")
  end.

(** [str(d[k])] *)
Definition item (k : string) (d : list (string * json)) : AM string :=
  match assoc k d with Some v => ret (py_str repr_other v) | None => raise (PyError "KeyError") end.

(** schemas/billing.py, [PriceRead]; the texts are left out. *)
Record PriceRead : Type := { pr_key : string; pr_stripe_price_id : option string; pr_amount_cents : Z; pr_currency : string }.

Definition price_read (k : string) (dflt : Z) (c : option BillingPriceConfig) : PriceRead :=
  {| pr_key := k; pr_stripe_price_id := stripe_price_id <$> c;
     pr_amount_cents := match c with Some c => amount_cents c | None => dflt end;
     pr_currency := match c with Some c => price_currency c | None => "usd" end |}.

(** api/v1/billing.py, [get_pricing] *)
Definition get_pricing : AM (list PriceRead) :=
  let* setup_cfg := with_db (get_price_config "setup") in
  let* monthly_cfg := with_db (get_price_config "monthly") in
  ret [price_read "setup" plan_setup_cents setup_cfg; price_read "monthly" plan_monthly_cents monthly_cfg].

(** api/v1/billing.py, [create_checkout]: the url and the id of the session. *)
Definition create_checkout (plan tenant_id_ user_id : string) : AM (string * string) :=
  raise_if (negb (String.eqb plan "starter")) (http_error 422 "validation_error") ;;;
  raise_if (negb (String.eqb plan "starter")) (http_error 400 "unsupported_plan") ;;;
  let* setup_cfg := with_db (get_price_config "setup") in
  let* monthly_cfg := with_db (get_price_config "monthly") in
  let setup_price_id := match setup_cfg with Some c => Some (stripe_price_id c) | None => stripe_price_setup_id cfg end in
  let monthly_price_id := match monthly_cfg with Some c => Some (stripe_price_id c) | None => stripe_price_monthly_id cfg end in
  match opt_truthy setup_price_id, opt_truthy monthly_price_id with
  | Some setup, Some monthly =>
      let* customer := with_db (get_customer_by_tenant tenant_id_) in
      let* client := with_client (get_stripe_client cfg) in
      let* cs := call client (CheckoutCreate
        {| ca_customer_id := stripe_customer_id <$> customer; ca_client_reference_id := tenant_id_; ca_prices := [(setup, 1); (monthly, 1)];
           ca_success_url := stripe_checkout_success_url cfg; ca_cancel_url := stripe_checkout_cancel_url cfg;
           ca_metadata := [("tenant_id", tenant_id_); ("user_id", user_id)] |}) in
      let* url := item "url" cs in
      let* i := item "id" cs in
      ret (url, i)
  | _, _ => raise (http_error 503 "billing_not_configured")
  end.

(** api/v1/billing.py, [create_portal_session] *)
Definition create_portal_session (tenant_id_ : string) : AM string :=
  let* customer := with_db (get_customer_by_tenant tenant_id_) in
  let* c := or_raise customer (http_error 409 "no_billing_customer") in
  let* client := with_client (get_stripe_client cfg) in
  let* portal := call client (PortalCreate (stripe_customer_id c) (stripe_customer_portal_return_url cfg)) in
  item "url" portal.

(** api/v1/billing.py, [get_subscription] *)
Definition get_subscription (now : datetime) (tenant_id_ : string) : AM BillingSubscription :=
  let* sub := with_db (get_subscription_by_tenant tenant_id_) in
  let* sub := or_raise sub (http_error 404 "no_subscription") in
  with_db (apply_grace_period (billing_grace_period_days cfg) now sub None None).

(** api/v1/billing.py, [list_invoices] *)
Definition list_invoices (tenant_id_ : string) (limit offset : nat) : AM (list BillingInvoice * Z) :=
  raise_if (negb ((1 <=? limit)%nat && (limit <=? 200)%nat)) (http_error 422 "validation_error") ;;;
  with_db (list_invoices_for_tenant tenant_id_ limit offset).
End Endpoints.

(** ** The signature of the stand-in *)

Lemma str_of_Z_digits n : 0 <= n -> sall is_digit (str_of_Z n) = true.
Proof. intros Hn. unfold str_of_Z. replace (n <? 0) with false by lia. by apply digits_of_digits. Qed.

Lemma digit_facts c : is_digit c = true -> Ascii.eqb "," c = false.
Proof. intros H%in_range_spec. destruct (Ascii.eqb_spec "," c) as [<-|]; [change (ord ",") with 44 in H; lia|done]. Qed.

Lemma hex_is_ascii s : hex_text s -> sall (in_range 0 127) s = true.
Proof.
  intros Hs. apply (sall_hex _ _ Hs). intros c H. apply in_range_spec.
  apply orb_true_iff in H as [H|H]; apply in_range_spec in H; lia.
Qed.

Section Signatures.
Context (hmac_sha256 : bytes -> bytes -> bytes).
Local Abbreviation sign := (signature hmac_sha256).

Lemma signature_hex secret ts payload : hex_text (sign secret ts payload).
Proof. apply DemoHttp.hex_hex_text. Qed.

(** What the check reads from a header it wrote itself. *)
Lemma built_parts payload secret ts now : 0 <= ts ->
  let h := build_mock_signature_header hmac_sha256 payload secret (Some ts) now in
  parts "t" h = [str_of_Z ts] /\ parts "v1" h = [sign secret ts payload].
Proof.
  intros Hts h. pose proof (str_of_Z_digits _ Hts) as Hd. pose proof (signature_hex secret ts payload) as Hh.
  assert (Hsplit : split_char "," h = ["t=" +:+ str_of_Z ts; "v1=" +:+ sign secret ts payload]).
  { unfold h, build_mock_signature_header. cbn [default from_option id].
    change (split_char "," (("t=" +:+ str_of_Z ts) +:+ String "," ("v1=" +:+ sign secret ts payload)) = ["t=" +:+ str_of_Z ts; "v1=" +:+ sign secret ts payload]).
    rewrite split_char_at.
    - f_equal. apply split_char_none. rewrite sall_append. apply andb_true_iff. split; [done|].
      apply (sall_hex _ _ Hh). intros c Hc. by apply hex_char_facts in Hc as (_ & -> & _).
    - rewrite sall_append. apply andb_true_iff. split; [done|]. apply (sall_impl is_digit); [|exact Hd].
      intros c Hc. by rewrite (digit_facts _ Hc). }
  assert (Hstrip : strip (sign secret ts payload) = sign secret ts payload).
  { apply strip_by_none. apply (sall_hex _ _ Hh). intros c Hc. by apply hex_char_facts in Hc as [-> _]. }
  unfold parts. rewrite Hsplit. cbn -[str_of_Z signature strip]. rewrite (strip_digits _ Hd), Hstrip. done.
Qed.
End Signatures.

(** ** What is accepted *)

(** A header made for a payload with the secret is accepted for as long as the tolerance
    allows, at either side of its timestamp. *)
Theorem built_signature_accepted (hmac_sha256 : bytes -> bytes -> bytes) payload secret ts now now' tolerance :
  0 <= ts -> Z.abs (now' - ts) <= tolerance ->
  _verify_mock_signature hmac_sha256 now' payload (build_mock_signature_header hmac_sha256 payload secret (Some ts) now)
    secret tolerance = Ok tt.
Proof.
  intros Hts Htol. destruct (built_parts hmac_sha256 payload secret ts now Hts) as [Ht Hv].
  unfold _verify_mock_signature. rewrite Ht, Hv. cbn [head opt_truthy truthy negb].
  pose proof (py_int_str_of_Z ts Hts) as Hi. unfold opt_truthy.
  destruct (truthy (str_of_Z ts)) eqn:Htr; [|destruct (str_of_Z ts); [vm_compute in Hi; discriminate|discriminate]].
  rewrite Hi. replace (tolerance <? Z.abs (now' - ts)) with false by lia. cbn [any_digest].
  by rewrite (hex_is_ascii _ (signature_hex hmac_sha256 secret ts payload)), String.eqb_refl.
Qed.

Lemma any_digest_true expected sigs : any_digest expected sigs = Ok true -> In expected sigs.
Proof.
  induction sigs as [|c sigs IH]; cbn; [discriminate|]. destruct (negb _); [discriminate|].
  destruct (String.eqb_spec expected c) as [->|]; auto.
Qed.

(** A webhook the stand-in lets through carries, under [v1], the HMAC of this payload at
    the first timestamp of its header, which is at most five minutes away. *)
Theorem accepted_payload_is_signed (hmac_sha256 : bytes -> bytes -> bytes) json_loads live now payload sig_header secret event :
  construct_event hmac_sha256 json_loads live now _MockStripeClient payload sig_header secret = Ok event ->
  exists ts_raw ts, head (parts "t" sig_header) = Some ts_raw /\ py_int ts_raw = Some ts /\ Z.abs (now - ts) <= 300 /\
    In (signature hmac_sha256 secret ts payload) (parts "v1" sig_header) /\
    exists kvs, json_loads payload = Some (JObj kvs) /\ event = JObj kvs /\ has_key "id" kvs = true /\ has_key "type" kvs = true.
Proof.
  cbn [construct_event]. unfold mock_construct_event, _verify_mock_signature. intros H.
  destruct (negb (truthy sig_header)); [discriminate H|].
  destruct (head (parts "t" sig_header)) as [ts_raw|]; [|discriminate H]. cbn [opt_truthy] in H.
  destruct (truthy ts_raw); [|discriminate H].
  destruct (parts "v1" sig_header) as [|s1 sigs]; [discriminate H|].
  destruct (py_int ts_raw) as [ts|] eqn:Hts; [|discriminate H].
  destruct (Z.ltb_spec 300 (Z.abs (now - ts))); [discriminate H|].
  destruct (any_digest _ _) as [[]|] eqn:Hany; [|discriminate H..]. apply any_digest_true in Hany.
  destruct (json_loads payload) as [[| | | | | |kvs]|]; try discriminate H.
  destruct (has_key "id" kvs) eqn:Hid; [|discriminate H]. destruct (has_key "type" kvs) eqn:Hty; [|discriminate H].
  injection H as <-. eauto 15.
Qed.

(** [construct_event] as the webhook calls it; whatever it raises, no event comes out. *)
Definition verified hmac_sha256 json_loads live (now_ts : Z) (c : StripeClient) (payload sig_header secret : string) : option json :=
  match construct_event hmac_sha256 json_loads live now_ts c payload sig_header secret with Ok e => Some e | Raise _ => None end.

(** C31. The webhook behind the stand-in answers without an error only when the delivery has a
    signature header with the HMAC, under the configured secret, of the very body that was
    received, not older or newer than five minutes; and no secret, no answer. *)
Theorem answered_webhook_is_signed hmac_sha256 json_loads live r now_ts secret raced now created body sig s a s' :
  webhook r (verified hmac_sha256 json_loads live now_ts _MockStripeClient) secret raced now created body sig s = (Ok a, s') ->
  truthy secret = true /\
  exists header ts_raw ts, sig = Some header /\ head (parts "t" header) = Some ts_raw /\ py_int ts_raw = Some ts /\
    Z.abs (now_ts - ts) <= 300 /\ In (signature hmac_sha256 secret ts body) (parts "v1" header).
Proof.
  unfold webhook, in_request, receive_stripe_webhook, truthy_or. intros H.
  destruct sig as [header|]; [|discriminate H]. destruct (truthy header); [|discriminate H].
  unfold try_except, process_webhook, verify_signature in H. unfold bind at 1 2 in H.
  destruct (truthy secret); cbn [negb raise_if] in H; [|discriminate H]. split; [done|].
  unfold verified in H.
  destruct (construct_event _ _ _ _ _ _ _ _) as [event|] eqn:Hc; [|discriminate H].
  apply accepted_payload_is_signed in Hc as (ts_raw & ts & H1 & H2 & H3 & H4 & _). eauto 10.
Qed.

(** ** The client of the process *)

(** The client a production process may hold. *)
Definition live_only (cfg : billing_settings) (cached : option StripeClient) : Prop :=
  match cached with
  | None => True
  | Some c => exists key, c = _LiveStripeClient key /\ stripe_secret_key cfg = Some key /\ truthy key = true
  end.
Definition fails_closed (cfg : billing_settings) : Prop := stripe_mock_mode cfg = false /\ is_production cfg = true.

Lemma get_stripe_client_live cfg cached : fails_closed cfg -> live_only cfg cached ->
  live_only cfg (snd (get_stripe_client cfg cached)) /\
  forall c, fst (get_stripe_client cfg cached) = Ok c -> snd (get_stripe_client cfg cached) = Some c.
Proof.
  intros [Hm Hp] Hl. unfold get_stripe_client. destruct cached as [c0|]; cbn.
  - split; [exact Hl|]. by intros c [= ->].
  - rewrite Hm, Hp. destruct (stripe_secret_key cfg) as [key|] eqn:Hk; cbn; [|done].
    destruct (truthy key) eqn:Ht; cbn; [|done]. split; [by exists key|]. by intros c [= ->].
Qed.

(** ** The endpoints *)

Section Requests.
Context (cfg : billing_settings) (token : nat -> nat -> string)
  (live_create : string -> string -> list (string * json) -> option (list (string * json))) (repr_other : json -> string).
Local Abbreviation checkout := (create_checkout cfg token live_create repr_other).

(** The prices a checkout is made with. *)
Definition checkout_price (configured : option string) (k : string) (db : BillingDB) : option string :=
  opt_truthy (match price_configs db !! k with
              | Some c => if price_active c then Some (stripe_price_id c) else configured
              | None => configured
              end).

(** The one question a checkout asks, when it asks. *)
Definition asks_for (db : BillingDB) (tid uid : string) (x : StripeClient * stripe_call) : Prop :=
  live_only cfg (Some x.1) /\
  exists a setup monthly, x.2 = CheckoutCreate a /\ ca_client_reference_id a = tid /\
    ca_metadata a = [("tenant_id", tid); ("user_id", uid)] /\ ca_customer_id a = stripe_customer_id <$> customers db !! tid /\
    checkout_price (stripe_price_setup_id cfg) "setup" db = Some setup /\
    checkout_price (stripe_price_monthly_id cfg) "monthly" db = Some monthly /\ ca_prices a = [(setup, 1); (monthly, 1)].

Lemma price_id (db : BillingDB) k configured :
  opt_truthy (match (match price_configs db !! k with Some c => if price_active c then Some c else None | None => None end) with
              | Some c => Some (stripe_price_id c) | None => configured end) = checkout_price configured k db.
Proof. unfold checkout_price. destruct (price_configs db !! k) as [c|]; [|done]. by destruct (price_active c). Qed.

Lemma item_pure k d s : snd (item repr_other k d s) = s.
Proof. unfold item. by destruct (assoc k d). Qed.

Lemma call_run c x s :
  exists r, call token live_create c x s = (r, {| b_tx := b_tx s; b_client := b_client s; b_calls := b_calls s ++ [(c, x)] |}).
Proof.
  unfold call, bind, modify. destruct c, x; cbn; eauto.
  all: unfold or_raise; case_match; cbn; eauto.
Qed.

Lemma checkout_run plan tid uid db cl calls r s' :
  fails_closed cfg -> live_only cfg cl ->
  checkout plan tid uid {| b_tx := Session db db; b_client := cl; b_calls := calls |} = (r, s') ->
  b_tx s' = Session db db /\ live_only cfg (b_client s') /\
  ((exists e, r = Raise e) /\ b_calls s' = calls \/ exists x, b_calls s' = calls ++ [x] /\ asks_for db tid uid x).
Proof.
  intros Hf Hl. unfold create_checkout, with_db, get_price_config, get_customer_by_tenant, query, reads.
  unfold bind. destruct (negb (String.eqb plan "starter")); cbn [raise_if]; [intros [= <- <-]; cbn; eauto 6|].
  cbn [ret b_tx working fst snd b_client b_calls]. rewrite !price_id.
  destruct (checkout_price (stripe_price_setup_id cfg) "setup" db) as [setup|] eqn:Hs; [|intros [= <- <-]; cbn; eauto 6].
  destruct (checkout_price (stripe_price_monthly_id cfg) "monthly" db) as [monthly|] eqn:Hm; [|intros [= <- <-]; cbn; eauto 6].
  unfold with_client. cbn [b_tx b_client b_calls].
  destruct (get_stripe_client_live cfg cl Hf Hl) as [Hl' Hc].
  destruct (get_stripe_client cfg cl) as [[c|e] cl'] eqn:Hg; cbn [fst snd] in *; [|intros [= <- <-]; cbn; eauto 6].
  specialize (Hc c eq_refl) as ->.
  match goal with |- context [call _ _ ?c0 ?x0 ?s0] => destruct (call_run c0 x0 s0) as [rc ->]; set (x := (c0, x0)) end.
  cbn [b_tx b_client b_calls]. assert (Hx : asks_for db tid uid x) by (split; [exact Hl'|]; by eexists _, setup, monthly).
  intros H. assert (Hs' : s' = {| b_tx := Session db db; b_client := Some c; b_calls := calls ++ [x] |}).
  { destruct rc as [cs|e]; [|by injection H as _ <-]. revert H. unfold item.
    destruct (assoc "url" cs); [|by intros [= _ <-]]. cbn. destruct (assoc "id" cs); by intros [= _ <-]. }
  subst s'. cbn. eauto 6.
Qed.

(** A checkout, in a production process, is made for the caller and with the live client
    only: Stripe is asked at most once, and always when the answer is not an error, for the
    caller's tenant and user, the customer that tenant has, and one each of the configured
    setup and monthly prices; the tables stay as they were. *)
Theorem checkout_is_for_the_caller plan tid uid db s r s' :
  fails_closed cfg -> live_only cfg (b_client s) -> b_tx s = Session db db ->
  api_request (checkout plan tid uid) s = (r, s') ->
  b_tx s' = Session db db /\ live_only cfg (b_client s') /\
  ((exists e, r = Raise e) /\ b_calls s' = b_calls s \/ exists x, b_calls s' = b_calls s ++ [x] /\ asks_for db tid uid x).
Proof.
  intros Hf Hl Hdb H. destruct s as [tx cl calls]; cbn in *; subst tx. unfold api_request in H.
  destruct (checkout plan tid uid _) as [r0 s1] eqn:Hrun.
  pose proof (checkout_run _ _ _ _ _ _ _ _ Hf Hl Hrun) as (Htx & Hcl & Hcalls).
  destruct r0; injection H as <- <-; cbn; rewrite Htx; done.
Qed.

Lemma unpaid_run now s db c : status s = PAST_DUE ->
  let s1 := with_status UNPAID (past_due_since s) (canceled_at s) s in
  transition_status now s UNPAID false (Session db c) =
    (Ok s1, Session (gate (tenant_id s) UNPAID (set_subscriptions (<[stripe_subscription_id s := s1]> (subscriptions db)) db)) c).
Proof.
  intros Hpd s1. unfold transition_status. rewrite Hpd.
  replace (str_in UNPAID SubscriptionStatus_ALL) with true by done.
  replace (is_allowed_transition PAST_DUE UNPAID) with true by done.
  unfold bind, raise_if, ret, put_subscription, write, modify. cbn [negb andb working committed].
  by rewrite gating_run.
Qed.

(** What a tenant reads about its subscription is settled: it is its own subscription, as
    it is stored when the request ends, and a past-due one is inside its grace period; one
    whose grace period is over is read, and stored, as unpaid. *)
Theorem subscription_is_settled_when_read now tid s sub s' :
  session_ok (b_tx s) -> api_request (get_subscription cfg now tid) s = (Ok sub, s') ->
  session_ok (b_tx s') /\ tenant_id sub = tid /\
  subscriptions (committed (b_tx s')) !! stripe_subscription_id sub = Some sub /\
  (status sub = PAST_DUE -> exists since, past_due_since sub = Some since /\
    instant now < instant since + days (billing_grace_period_days cfg)).
Proof.
  intros Hok H. destruct s as [[db dc] cl calls]. cbn in Hok. destruct Hok as [Hdb Hdc]. revert H.
  unfold api_request, get_subscription, with_db, get_subscription_by_tenant, query, reads, bind. cbn [b_tx working].
  destruct (head (sort_by _ _)) as [x|] eqn:Hx; cbn; [|intros [=]].
  assert (Hin : In x (sort_by (fun s => - sub_created_at s) (List.filter (fun s => String.eqb (tenant_id s) tid) (map snd (map_to_list (subscriptions db)))))).
  { destruct (sort_by _ _); [discriminate|]. injection Hx as ->. by left. }
  apply sort_by_In, filter_In in Hin as [Hin Ht%String.eqb_eq]. apply in_map_iff in Hin as ([i x'] & Hix & Hin). cbn in Hix. subst x'.
  apply list_elem_of_In, elem_of_map_to_list in Hin. destruct (Hdb _ _ Hin) as [Hi Hx_ok]. subst i.
  unfold apply_grace_period. destruct (String.eqb_spec (status x) PAST_DUE) as [Hpd|Hpd]; cbn [negb].
  2: { intros [= <- <-]. cbn. split; [by split|]. split; [exact Ht|]. split; [exact Hin|]. by intros. }
  destruct Hx_ok as (_ & Hsince & _). destruct (past_due_since x) as [since|] eqn:Hps; [|by destruct (Hsince Hpd)].
  cbn [default from_option id]. destruct (Z.leb_spec (instant since + days (billing_grace_period_days cfg)) (instant now)).
  2: { intros [= <- <-]. cbn. split; [by split|]. split; [exact Ht|]. split; [exact Hin|]. eauto. }
  rewrite (unpaid_run now x db dc Hpd). intros [= <- <-]. cbn -[gate].
  rewrite gate_subscriptions. cbn. rewrite lookup_insert_eq.
  assert (Hnew : subs_ok (gate (tenant_id x) UNPAID (set_subscriptions (<[stripe_subscription_id x :=
    with_status UNPAID (past_due_since x) (canceled_at x) x]> (subscriptions db)) db))).
  { intros j y. rewrite gate_subscriptions. cbn. destruct (decide (j = stripe_subscription_id x)) as [->|].
    - rewrite lookup_insert_eq. intros [= <-]. split; [done|]. destruct (Hdb _ _ Hin) as [_ (_ & _ & _ & ?)]. by repeat split.
    - rewrite lookup_insert_ne by done. apply Hdb. }
  split; [by split|]. split; [exact Ht|]. by split.
Qed.
End Requests.

(** ** Concrete requests *)

Module DemoBillingApi.
Definition hmac (k m : bytes) : bytes := sdrop 8 (k +:+ m).
Definition loads (b : bytes) : option json := Some (demo_event "evt_1" b).
Definition no_live (k b h s : string) : option json := None.
Definition header : string := build_mock_signature_header hmac "invoice.paid" "whsec" (Some 1700000000) 0.

Definition settings (mock prod : bool) (key : option string) : billing_settings :=
  {| stripe_mock_mode := mock; stripe_secret_key := key; is_production := prod; stripe_price_setup_id := Some "price_s";
     stripe_price_monthly_id := Some "price_m"; stripe_checkout_success_url := "https://app/ok"; stripe_checkout_cancel_url := "https://app/no";
     stripe_customer_portal_return_url := "https://app/billing"; billing_grace_period_days := 7 |}.
Definition token (i n : nat) : string := str_of_Z (Z.of_nat (i + n)).
Definition live (key meth : string) (kwargs : list (string * json)) : option (list (string * json)) :=
  Some [("id", JStr "cs_live_1"); ("url", JStr ("https://" +:+ key))].
Definition start : ApiSt := {| b_tx := demo_session; b_client := None; b_calls := [] |}.
Definition buy (cfg : billing_settings) := api_request (create_checkout cfg token live (fun _ => "") "starter" "t1" "u1").

(** Mock and live; no key in production. *)
Example checkouts :
  map (fun cfg => fst (buy cfg start)) [settings true false None; settings false true (Some "sk"); settings false true None] =
  [Ok ("https://checkout.stripe.com/c/pay/cs_test_12#fid=9", "cs_test_12"); Ok ("https://sk", "cs_live_1");
   Raise (PyError "RuntimeError")].
Proof. reflexivity. Qed.

(** Signatures: good, late, of another body, and with a part that is not ASCII. *)
Example signatures :
  let check now body h := _verify_mock_signature hmac now body h "whsec" 300 in
  [check 1700000300 "invoice.paid" header; check 1700000301 "invoice.paid" header; check 1700000000 "invoice.void" header;
   check 1700000000 "invoice.paid" ("v1=" +:+ String "233"%char (" , " +:+ header)); check 1700000000 "invoice.paid" "t=x,v1=y"] =
  [Ok tt; bad_signature "timestamp outside tolerance"; bad_signature "signature mismatch"; Raise (PyError "TypeError");
   bad_signature "invalid timestamp"].
Proof. vm_compute. reflexivity. Qed.

Lemma built_signature_accepted_witness : _verify_mock_signature hmac 1700000300 "invoice.paid" header "whsec" 300 = Ok tt.
Proof. apply (built_signature_accepted hmac "invoice.paid" "whsec" 1700000000 0 1700000300 300); vm_compute; discriminate. Defined.

Lemma accepted_payload_is_signed_witness :
  exists ts_raw ts, head (parts "t" header) = Some ts_raw /\ py_int ts_raw = Some ts /\
    In (signature hmac "whsec" ts "invoice.paid") (parts "v1" header).
Proof.
  destruct (accepted_payload_is_signed hmac loads no_live 1700000300 "invoice.paid" header "whsec" (demo_event "evt_1" "invoice.paid"))
    as (ts_raw & ts & H1 & H2 & _ & H3 & _); [vm_compute; reflexivity|]. exact (ex_intro _ ts_raw (ex_intro _ ts (conj H1 (conj H2 H3)))).
Defined.

Lemma answered_webhook_is_signed_witness : exists h ts_raw ts, Some header = Some h /\ head (parts "t" h) = Some ts_raw /\
  py_int ts_raw = Some ts /\ Z.abs (1700000300 - ts) <= 300 /\ In (signature hmac "whsec" ts "invoice.paid") (parts "v1" h).
Proof.
  destruct (webhook (fun _ => "") (verified hmac loads no_live 1700000300 _MockStripeClient) "whsec" None (utc 5) 5 "invoice.paid"
              (Some header) demo_session) as [[a|e] s'] eqn:H; [|vm_compute in H; discriminate].
  exact (proj2 (answered_webhook_is_signed hmac loads no_live (fun _ => "") 1700000300 "whsec" None (utc 5) 5 "invoice.paid" (Some header)
                  demo_session a s' H)).
Defined.

Lemma checkout_is_for_the_caller_witness :
  exists x, b_calls (snd (buy (settings false true (Some "sk")) start)) = [x] /\ asks_for (settings false true (Some "sk")) demo_billing "t1" "u1" x.
Proof.
  destruct (buy (settings false true (Some "sk")) start) as [r s'] eqn:H.
  destruct (checkout_is_for_the_caller (settings false true (Some "sk")) token live (fun _ => "") "starter" "t1" "u1" demo_billing start r s'
              (conj eq_refl eq_refl) I eq_refl H) as (_ & _ & [[[e He] _]|Hx]); [|exact Hx].
  subst r. vm_compute in H. discriminate.
Defined.

Lemma subscription_is_settled_when_read_witness :
  exists sub s', api_request (get_subscription (settings true false None) (utc (days 7)) "t1") start = (Ok sub, s') /\ status sub = UNPAID /\
    tenant_id sub = "t1" /\ subscriptions (committed (b_tx s')) !! stripe_subscription_id sub = Some sub.
Proof.
  destruct (api_request (get_subscription (settings true false None) (utc (days 7)) "t1") start) as [[sub|e] s'] eqn:H;
    [|vm_compute in H; discriminate].
  destruct (subscription_is_settled_when_read (settings true false None) (utc (days 7)) "t1" start sub s' demo_billing_ok H)
    as (_ & Ht & Hrow & _).
  refine (ex_intro _ sub (ex_intro _ s' (conj eq_refl (conj _ (conj Ht Hrow))))). vm_compute in H. by injection H as <- _.
Defined.
End DemoBillingApi.
