(* ===== verification/Startup.v ===== *)
(** * Configuration and startup

    config.py, utils/secret_strength.py and the lifespan of main.py: what a process refuses
    to start with, the strength of its secrets, and the registration of its signing key.
    The logarithm and the summation of floats are arguments. *)

From Stdlib Require Import Ascii.
From Stdlib Require Import SpecFloat.
From S2P Require Import Prelude PyStr Json PyTime Encoding Crypto AvScanner SubmissionModels Receipts Billing BillingApi.

(** ** Settings *)

Inductive app_environment : Type := development | staging | production.
#[export] Instance app_environment_eq_dec : EqDecision app_environment.
Proof. solve_decision. Defined.

(** config.py, [Settings.av_scanner_backend] *)
Inductive av_backend_name : Type := clamd | stub_allow | stub_deny | eicar | noop.
Definition av_name (b : av_backend_name) : string :=
  match b with clamd => "clamd" | stub_allow => "stub_allow" | stub_deny => "stub_deny" | eicar => "eicar" | noop => "noop" end.

(** config.py, [Settings]: the fields this development reads. *)
Record Settings : Type := {
  app_env : app_environment; secret_key : string; jwt_secret_key : string; cockpit_jwt_secret_key : string; database_url : string;
  s_receipt_key_id : string; s_receipt_key_pem : string; s_in_process : bool; s_tos_risky : bool;
  s_stripe_mock_mode : bool; s_stripe_secret_key : option string; s_stripe_setup : option string; s_stripe_monthly : option string;
  s_success_url : string; s_cancel_url : string; s_portal_url : string; s_grace_days : Z; av_scanner_backend : av_backend_name }.

(** config.py, [Settings.is_production] *)
Definition s_is_production (s : Settings) : bool := bool_decide (app_env s = production).

(** The settings as the components read them. *)
Definition billing_of (s : Settings) : billing_settings :=
  {| stripe_mock_mode := s_stripe_mock_mode s; stripe_secret_key := s_stripe_secret_key s; is_production := s_is_production s;
     stripe_price_setup_id := s_stripe_setup s; stripe_price_monthly_id := s_stripe_monthly s; stripe_checkout_success_url := s_success_url s;
     stripe_checkout_cancel_url := s_cancel_url s; stripe_customer_portal_return_url := s_portal_url s;
     billing_grace_period_days := s_grace_days s |}.
Definition signing_of (s : Settings) : settings :=
  {| receipt_signing_key_id := s_receipt_key_id s; receipt_signing_private_key_pem := s_receipt_key_pem s;
     enable_in_process_processor := s_in_process s; enable_tos_risky_platforms := s_tos_risky s |}.

(** config.py, [_PLACEHOLDER_VALUES] *)
Definition _PLACEHOLDER_VALUES : list string :=
  [""; "changeme"; "change-me"; "changeme!"; "placeholder"; "secret"; "your-secret-here"; "todo"; "tbd"].

(** config.py, [_looks_like_placeholder] *)
Definition _looks_like_placeholder (value : option string) : bool :=
  match value with
  | None => true
  | Some v => let stripped := lower (strip v) in negb (truthy stripped) || mem stripped _PLACEHOLDER_VALUES
  end.

(** What stops a process. *)
Inductive startup_error : Type :=
| PlaceholderValues (problems : list string)
| MockBillingInProduction
| StripeKeyMissing
| NoRealScanner (backend : string)
| CockpitSecretMissing
| WeakSecret (name : string) (reasons : list string).

(** config.py:243-256, [Settings._enforce_secrets_outside_development]: the problems. *)
Definition problems (s : Settings) : list string :=
  (if _looks_like_placeholder (Some (secret_key s)) then ["SECRET_KEY"] else []) ++
  (if _looks_like_placeholder (Some (jwt_secret_key s)) then ["JWT_SECRET_KEY"] else []) ++
  (if _looks_like_placeholder (Some (database_url s)) then ["DATABASE_URL"] else []) ++
  (if _looks_like_placeholder (Some (s_receipt_key_pem s)) then ["RECEIPT_SIGNING_PRIVATE_KEY_PEM"] else []) ++
  (if _looks_like_placeholder (Some (s_receipt_key_id s)) || String.eqb (lower (strip (s_receipt_key_id s))) "default"
   then ["RECEIPT_SIGNING_KEY_ID"] else []).

(** config.py, [Settings._enforce_secrets_outside_development] *)
Definition _enforce_secrets_outside_development (s : Settings) : result startup_error unit :=
  if bool_decide (app_env s = development) then Ok tt
  else
    match problems s with
    | _ :: _ => Raise (PlaceholderValues (problems s))
    | [] =>
        if negb (s_is_production s) then Ok tt
        else if s_stripe_mock_mode s then Raise MockBillingInProduction
        else if negb (is_someb (opt_truthy (s_stripe_secret_key s))) || _looks_like_placeholder (s_stripe_secret_key s)
        then Raise StripeKeyMissing
        else if mem (av_name (av_scanner_backend s)) ["stub_allow"; "stub_deny"; "eicar"; "noop"]
        then Raise (NoRealScanner (av_name (av_scanner_backend s)))
        else Ok tt
    end.

Definition default_origins : list string := ["http://localhost:5173"].
(** What the field accepts of a list. *)
Fixpoint strings (l : list json) : option (list string) :=
  match l with
  | [] => Some []
  | JStr x :: l => match strings l with Some xs => Some (x :: xs) | None => None end
  | _ => None
  end.

(** config.py, [Settings._parse_cors_origins]; [None] is the [ValueError]. *)
Definition _parse_cors_origins (json_loads : string -> option json) (repr_other : json -> string) (value : json) : option (list string) :=
  match value with
  | JNull => Some default_origins
  | JList l => strings l
  | JStr v =>
      let raw := strip v in
      if negb (truthy raw) then Some default_origins
      else if String.prefix "[" raw then
        match json_loads raw with
        | Some (JList parsed) => Some (map (py_str repr_other) parsed)
        | _ => None
        end
      else Some (List.filter truthy (map strip (split_char "," raw)))
  | _ => None
  end.

(** ** Secrets *)

(** utils/secret_strength.py, [MIN_LENGTH] *)
Definition MIN_LENGTH : Z := 32.
(** utils/secret_strength.py, [MIN_ENTROPY_BITS] *)
Definition MIN_ENTROPY_BITS : spec_float := float_of_Z 128.
(** utils/secret_strength.py, [WEAK_PLACEHOLDERS] *)
Definition WEAK_PLACEHOLDERS : list string :=
  [""; "changeme"; "change-me"; "changeme!"; "placeholder"; "secret"; "your-secret-here"; "todo"; "tbd"; "supersecret"; "topsecret";
   "password"; "test"; "dev"; "development"].

(** [Counter(value)]: the characters in the order they are met, with their counts. *)
Fixpoint count_char (c : ascii) (l : list (ascii * Z)) : list (ascii * Z) :=
  match l with
  | [] => [(c, 1)]
  | (d, n) :: l => if Ascii.eqb c d then (d, n + 1) :: l else (d, n) :: count_char c l
  end.
Fixpoint count_chars (value : string) (l : list (ascii * Z)) : list (ascii * Z) :=
  match value with EmptyString => l | String c value => count_chars value (count_char c l) end.
Definition Counter (value : string) : list (ascii * Z) := count_chars value [].

(** utils/secret_strength.py, [SecretStrengthResult]; the name and the rounded entropy are
    left out. *)
Record SecretStrengthResult : Type := { strong : bool; ss_length : Z; reasons : list string }.

Section Strength.
(** [math.log2] and [sum] of floats. *)
Context (log2 : spec_float -> spec_float) (fsum : list spec_float -> spec_float).

(** utils/secret_strength.py, [_shannon_entropy_bits] *)
Definition _shannon_entropy_bits (value : string) : spec_float :=
  if negb (truthy value) then float_of_Z 0
  else
    let total := float_of_Z (slen value) in
    let per_char := SFopp (fsum (map (fun '(_, c) => let f := fdiv (float_of_Z c) total in fmul f (log2 f)) (Counter value))) in
    fmul per_char total.

(** utils/secret_strength.py, [evaluate_secret] *)
Definition evaluate_secret (value : option string) : SecretStrengthResult :=
  let candidate := strip (default "" value) in
  let length := slen candidate in
  let rs :=
    (if length =? 0 then ["empty"] else []) ++
    (if length <? MIN_LENGTH then ["too_short_min_32"] else []) ++
    (if mem (lower candidate) WEAK_PLACEHOLDERS then ["placeholder_value"] else []) ++
    (if flt (_shannon_entropy_bits candidate) MIN_ENTROPY_BITS then ["entropy_below_128_bits"] else []) in
  {| strong := match rs with [] => true | _ => false end; ss_length := length; reasons := rs |}.

(** main.py:51-61, [_lifespan]: the loop over the secrets; outside production a weak one is
    only logged. *)
Fixpoint check_secrets (fatal : bool) (pairs : list (string * string)) : result startup_error unit :=
  match pairs with
  | [] => Ok tt
  | (name, value) :: pairs =>
      let score := evaluate_secret (Some value) in
      if negb (strong score) && fatal then Raise (WeakSecret name (reasons score)) else check_secrets fatal pairs
  end.

(** main.py:37-65, [_lifespan]: the check of the secrets. *)
Definition check_strength (s : Settings) : result startup_error unit :=
  let pairs := [("SECRET_KEY", secret_key s); ("JWT_SECRET_KEY", jwt_secret_key s)] in
  if s_is_production s then
    let cockpit_secret := strip (cockpit_jwt_secret_key s) in
    if negb (truthy cockpit_secret) then Raise CockpitSecretMissing
    else check_secrets true (pairs ++ [("COCKPIT_JWT_SECRET_KEY", cockpit_secret)])
  else check_secrets false pairs.

Section Boot.
Context `{E : Ed25519}.

(** main.py:66-78, [_lifespan]: the signing key, in a session of its own; what goes wrong
    is logged. *)
Definition bootstrap_session (s : Settings) : M St exn unit :=
  try_except (bootstrap_signing_key (signing_of s) ;;; session_commit) (fun _ => session_rollback).

(** main.py, [_lifespan]: up to its [yield], after the settings have been read. *)
Definition _lifespan (s : Settings) (st : St) : result startup_error unit * St :=
  match check_strength s with
  | Raise e => (Raise e, st)
  | Ok _ => (Ok tt, snd (bootstrap_session s st))
  end.

(** The import of [settings], and the startup of the application. *)
Definition boot (s : Settings) (st : St) : result startup_error unit * St :=
  match _enforce_secrets_outside_development s with
  | Raise e => (Raise e, st)
  | Ok _ => _lifespan s st
  end.
End Boot.
End Strength.

(** ** What a process that has started is known to have *)

Lemma check_secrets_fatal log2 fsum pairs :
  check_secrets log2 fsum true pairs = Ok tt -> forall name value, In (name, value) pairs -> strong (evaluate_secret log2 fsum (Some value)) = true.
Proof.
  induction pairs as [|[n v] pairs IH]; cbn [check_secrets]; [done|]. destruct (strong (evaluate_secret log2 fsum (Some v))) eqn:Hs; [|done].
  cbn [negb andb]. intros H name value [[= <- <-]|Hin]; [done|]. by eapply IH.
Qed.

(** A strong secret. *)
Definition strong_secret log2 fsum (v : string) : Prop :=
  32 <= slen (strip v) /\ mem (lower (strip v)) WEAK_PLACEHOLDERS = false /\
  flt (_shannon_entropy_bits log2 fsum (strip v)) MIN_ENTROPY_BITS = false.

Lemma strong_spec log2 fsum v : strong (evaluate_secret log2 fsum (Some v)) = true <-> strong_secret log2 fsum v.
Proof.
  unfold evaluate_secret, strong_secret, MIN_LENGTH. cbn [strong default from_option id].
  destruct (Z.eqb_spec (slen (strip v)) 0); destruct (Z.ltb_spec (slen (strip v)) 32); cbn; try (split; [done|lia]);
    destruct (mem _ _); cbn; try (split; [done|intros (_ & ? & _); done]);
    destruct (flt _ _); cbn; split; try done; by intros (_ & _ & ?).
Qed.

(** Outside development the settings are accepted only when no value is a placeholder, and
    the refusal names each one that is, in this order. *)
Theorem placeholders_are_refused s name :
  app_env s <> development ->
  (problems s <> [] -> _enforce_secrets_outside_development s = Raise (PlaceholderValues (problems s))) /\
  (In name (problems s) <->
     (name = "SECRET_KEY" /\ _looks_like_placeholder (Some (secret_key s)) = true) \/
     (name = "JWT_SECRET_KEY" /\ _looks_like_placeholder (Some (jwt_secret_key s)) = true) \/
     (name = "DATABASE_URL" /\ _looks_like_placeholder (Some (database_url s)) = true) \/
     (name = "RECEIPT_SIGNING_PRIVATE_KEY_PEM" /\ _looks_like_placeholder (Some (s_receipt_key_pem s)) = true) \/
     (name = "RECEIPT_SIGNING_KEY_ID" /\
        _looks_like_placeholder (Some (s_receipt_key_id s)) || String.eqb (lower (strip (s_receipt_key_id s))) "default" = true)).
Proof.
  intros Hdev. split.
  - intros Hp. unfold _enforce_secrets_outside_development. rewrite bool_decide_eq_false_2 by done. by destruct (problems s).
  - assert (Hone : forall (b : bool) n, In name (if b then [n] else []) <-> name = n /\ b = true).
    { intros [] n; cbn; [|split; [done|by intros []]]. split; [by intros [<-|[]]|by intros [-> _]; left]. }
    unfold problems. rewrite !in_app_iff, !Hone. tauto.
Qed.

(** A production process that has started is safe to run: no setting is a placeholder; its
    three secrets are strong; billing is done with the live client of Stripe, under a key
    that is no placeholder, and never with the stand-in; and uploads are scanned by clamd. *)
Theorem production_boot_is_safe `{E : Ed25519} log2 fsum s st st' :
  app_env s = production -> boot log2 fsum s st = (Ok tt, st') ->
  problems s = [] /\
  strong_secret log2 fsum (secret_key s) /\ strong_secret log2 fsum (jwt_secret_key s) /\ strong_secret log2 fsum (strip (cockpit_jwt_secret_key s)) /\
  fails_closed (billing_of s) /\
  (exists key, s_stripe_secret_key s = Some key /\ _looks_like_placeholder (Some key) = false /\
     fst (get_stripe_client (billing_of s) None) = Ok (_LiveStripeClient key)) /\
  _build_from_settings (av_name (av_scanner_backend s)) = ClamdScanner.
Proof.
  intros Hp Hb. unfold boot, _enforce_secrets_outside_development in Hb.
  assert (Hprod : s_is_production s = true) by (unfold s_is_production; by rewrite bool_decide_eq_true_2).
  rewrite bool_decide_eq_false_2 in Hb by congruence. destruct (problems s) eqn:Hproblems; [|discriminate Hb].
  rewrite Hprod in Hb. cbn [negb] in Hb. destruct (s_stripe_mock_mode s) eqn:Hmock; [discriminate Hb|].
  destruct (opt_truthy (s_stripe_secret_key s)) as [key|] eqn:Hkey; cbn [is_someb negb orb] in Hb; [|discriminate Hb].
  destruct (s_stripe_secret_key s) as [k|] eqn:Hsk; [|discriminate Hkey]. cbn [opt_truthy] in Hkey.
  destruct (truthy k) eqn:Htk; [|discriminate Hkey]. injection Hkey as <-.
  destruct (_looks_like_placeholder (Some k)) eqn:Hph; [discriminate Hb|].
  destruct (mem (av_name (av_scanner_backend s)) _) eqn:Hav; [discriminate Hb|].
  unfold _lifespan, check_strength in Hb. rewrite Hprod in Hb.
  destruct (truthy (strip (cockpit_jwt_secret_key s))) eqn:Hck; cbn [negb] in Hb; [|discriminate Hb].
  destruct (check_secrets log2 fsum true _) as [[]|e] eqn:Hcs; [|discriminate Hb]. split; [done|].
  pose proof (check_secrets_fatal _ _ _ Hcs) as Hall.
  split; [apply strong_spec, (Hall "SECRET_KEY"); cbn; tauto|]. split; [apply strong_spec, (Hall "JWT_SECRET_KEY"); cbn; tauto|].
  split; [apply strong_spec, (Hall "COCKPIT_JWT_SECRET_KEY"); cbn; tauto|]. split; [by split|]. split.
  - exists k. split_and!; [done|done|]. unfold get_stripe_client, billing_of. cbn. rewrite Hmock, Hsk. cbn. by rewrite Htk.
  - by destruct (av_scanner_backend s).
Qed.

(** A start registers the configured signing key: when it can be read and its id is new, the
    row of its public half is committed and no other key changes; when its row is there, or
    the key cannot be read, the registry is left as it is - and the process starts all the
    same. *)
Theorem boot_registers_the_key `{E : Ed25519} log2 fsum s st st' db :
  tx st = Session db db -> deactivated st = false -> boot log2 fsum s st = (Ok tt, st') ->
  truthy (strip (s_receipt_key_pem s)) = true ->
  tx st' = Session (committed (tx st')) (committed (tx st')) /\
  signing_keys (committed (tx st')) =
    match signing_keys db !! s_receipt_key_id s, load_signing_key (s_receipt_key_pem s) with
    | None, Ok k => <[s_receipt_key_id s := {| key_pk := s_receipt_key_id s; algorithm := "ed25519";
                                                public_key_pem := derive_public_pem k; key_revoked_at := None |}]> (signing_keys db)
    | _, _ => signing_keys db
    end.
Proof.
  intros Htx Hd Hb Ht. unfold boot, _lifespan in Hb. destruct (_enforce_secrets_outside_development s); [|done].
  destruct (check_strength log2 fsum s); [|done]. injection Hb as <-.
  assert (Htp : truthy (s_receipt_key_pem s) = true) by (by destruct (s_receipt_key_pem s)).
  unfold bootstrap_session, try_except, bootstrap_signing_key, bind at 1, select. cbn [receipt_signing_private_key_pem receipt_signing_key_id signing_of].
  rewrite Htp, Ht. cbn [negb orb]. unfold bind, reads, db_of. rewrite Htx. cbn [working].
  destruct (signing_keys db !! s_receipt_key_id s) as [row|] eqn:Hrow.
  - unfold cache_public_key, modify, session_commit. cbn. rewrite Hd. cbn. by rewrite Htx.
  - destruct (load_signing_key (s_receipt_key_pem s)) as [k|e] eqn:Hk.
    + unfold flush_write. rewrite Hd. unfold cache_public_key, modify, session_commit. cbn. rewrite Hd, Htx. by cbn.
    + unfold ret, session_commit. rewrite Hd. cbn. by rewrite Htx.
Qed.

(** ** Concrete processes *)

Module DemoStartup.
Import DemoCrypto.

(** The logarithm at one thirty-second, and sums from the left. *)
Definition log2 (f : spec_float) : spec_float := float_of_Z (-5).
Definition fsum (l : list spec_float) : spec_float := fold_left fadd l (float_of_Z 0).
Definition secret : string := "abcdefghijklmnopqrstuvwxyz012345".
Definition process (env : app_environment) (jwt cockpit pem : string) (mock : bool) (av : av_backend_name) : Settings :=
  {| app_env := env; secret_key := secret; jwt_secret_key := jwt; cockpit_jwt_secret_key := cockpit; database_url := "postgresql://db";
     s_receipt_key_id := "k9"; s_receipt_key_pem := pem; s_in_process := false; s_tos_risky := false; s_stripe_mock_mode := mock;
     s_stripe_secret_key := Some "sk_live_1"; s_stripe_setup := None; s_stripe_monthly := None; s_success_url := ""; s_cancel_url := "";
     s_portal_url := ""; s_grace_days := 7; av_scanner_backend := av |}.
Definition start : St (E := DemoCrypto.demo) := DemoReceipts.start.
Definition good : Settings := process production secret secret "-----BEGIN seed -----END" false clamd.
Definition result_of (s : Settings) : result startup_error unit := fst (boot log2 fsum s start).

(** One secret serves tenants and operators. *)
Example one_secret_for_both : result_of good = Ok tt /\ jwt_secret_key good = cockpit_jwt_secret_key good.
Proof. split; vm_compute; reflexivity. Qed.

(** A key that cannot be read: the process starts, and the registry has no key. *)
Example boots_without_a_key :
  result_of (process production secret secret "no key" false clamd) = Ok tt /\
  signing_keys (committed (tx (snd (boot log2 fsum (process production secret secret "no key" false clamd) start)))) !! "k9" = None.
Proof. split; vm_compute; reflexivity. Qed.

Example refusals :
  map result_of [process staging "changeme" "" "" true noop; process staging secret "" "pem" true noop; process production secret secret "pem" true clamd;
                 process production secret secret "pem" false eicar; process production secret " " "pem" false clamd;
                 process production "short" secret "pem" false clamd; process development "changeme" "" "" true noop] =
  [Raise (PlaceholderValues ["JWT_SECRET_KEY"; "RECEIPT_SIGNING_PRIVATE_KEY_PEM"]); Ok tt; Raise MockBillingInProduction; Raise (NoRealScanner "eicar");
   Raise CockpitSecretMissing; Raise (WeakSecret "JWT_SECRET_KEY" ["too_short_min_32"; "entropy_below_128_bits"]); Ok tt].
Proof. vm_compute. reflexivity. Qed.

Example origins :
  map (_parse_cors_origins (fun _ => Some (JList [JStr "https://a"; JInt 1])) (fun _ => "")) [JNull; JStr " "; JStr "https://a, ,https://b "; JStr "[...]"; JInt 1] =
  [Some default_origins; Some default_origins; Some ["https://a"; "https://b"]; Some ["https://a"; "1"]; None].
Proof. reflexivity. Qed.

Lemma placeholders_are_refused_witness :
  _enforce_secrets_outside_development (process staging "changeme" "" "" true noop) = Raise (PlaceholderValues ["JWT_SECRET_KEY"; "RECEIPT_SIGNING_PRIVATE_KEY_PEM"]).
Proof. apply (proj1 (placeholders_are_refused (process staging "changeme" "" "" true noop) "" ltac:(discriminate))). discriminate. Defined.

Lemma production_boot_is_safe_witness :
  strong_secret log2 fsum (jwt_secret_key good) /\ fst (get_stripe_client (billing_of good) None) = Ok (_LiveStripeClient "sk_live_1").
Proof.
  destruct (boot log2 fsum good start) as [r st'] eqn:H. assert (Hr : r = Ok tt) by (vm_compute in H; injection H as <- _; reflexivity). subst r.
  destruct (production_boot_is_safe log2 fsum good start st' eq_refl H) as (_ & _ & Hj & _ & _ & (key & Hk & _ & Hc) & _).
  injection Hk as <-. exact (conj Hj Hc).
Defined.

Lemma boot_registers_the_key_witness :
  exists st' k, boot log2 fsum good start = (Ok tt, st') /\ signing_keys (committed (tx st')) !! "k9" = Some k.
Proof.
  destruct (boot log2 fsum good start) as [r st'] eqn:H. assert (Hr : r = Ok tt) by (vm_compute in H; injection H as <- _; reflexivity). subst r.
  pose proof (proj2 (boot_registers_the_key log2 fsum good start st' (working (tx start)) eq_refl eq_refl H eq_refl)) as Hk.
  exists st'. eexists. split; [reflexivity|]. rewrite Hk. vm_compute. reflexivity.
Defined.
End DemoStartup.
