(* ===== verification/Renewals.v ===== *)
(** * Renewals of certificates

    services/coi_monitor_service.py and workers/tasks/renewal_tasks.py: the certificates of
    insurance that expire soon and have no renewal, and the daily sweep that writes an
    alert for each.  Days are counted from 1970-01-01. *)

From Stdlib Require Import Ascii.
From S2P Require Import Prelude PyStr Json PyTime.

(** models/coi.py, [CertificateOfInsurance]: the columns that are read. *)
Record CertificateOfInsurance : Type := {
  coi_id : string; coi_tenant_id : string; coi_supplier_id : string; carrier_name : string; policy_number : string;
  coverage_type : string; effective_date : Z; expiry_date : Z }.

(** The rows of audit_logs the sweep writes. *)
Record alert_row : Type := { al_tenant_id : string; al_action : string; al_resource_type : string; al_resource_id : string;
  al_metadata : list (string * json) }.
Record RenewalDB : Type := { certificates : list CertificateOfInsurance; alerts : list alert_row }.

Inductive renewal_error : Type := ValueError (msg : string) | OverflowError | DatabaseError.

(** services/coi_monitor_service.py, [DEFAULT_DAYS_AHEAD] *)
Definition DEFAULT_DAYS_AHEAD : Z := 30.
(** [date.max] *)
Definition max_day : Z := 2932896.

(** services/coi_monitor_service.py:53-61, [find_expiring]: the subquery [renewal_exists]. *)
Definition renews (newer c : CertificateOfInsurance) : bool :=
  String.eqb (coi_supplier_id newer) (coi_supplier_id c) && String.eqb (coverage_type newer) (coverage_type c)
  && negb (String.eqb (coi_id newer) (coi_id c)) && (expiry_date c <=? effective_date newer).
Definition renewal_exists (l : list CertificateOfInsurance) (c : CertificateOfInsurance) : bool := existsb (fun n => renews n c) l.

(** services/coi_monitor_service.py, [find_expiring]; [today] is the clock. *)
Definition find_expiring (db : RenewalDB) (tenant_id : option string) (days_ahead : Z) (as_of : option Z) (today : Z) :
    result renewal_error (list CertificateOfInsurance) :=
  if days_ahead <? 0 then Raise (ValueError "days_ahead must be non-negative")
  else
    let reference := default today as_of in
    let horizon := reference + days_ahead in
    if max_day <? horizon then Raise OverflowError
    else
      Ok (sort_by expiry_date (List.filter (fun c =>
            (expiry_date c <=? horizon) && negb (renewal_exists (certificates db) c)
            && match tenant_id with Some t => String.eqb (coi_tenant_id c) t | None => true end) (certificates db))).

(** [date.isoformat()] *)
Definition day_text (z : Z) : string :=
  let '(y, m, d) := civil_from_days z in zpad 4 y +:+ "-" +:+ zpad 2 m +:+ "-" +:+ zpad 2 d.

(** workers/tasks/renewal_tasks.py:29-39, [_scan]: the summary of a certificate. *)
Definition summary (today : Z) (c : CertificateOfInsurance) : list (string * json) :=
  [("coi_id", JStr (coi_id c)); ("tenant_id", JStr (coi_tenant_id c)); ("supplier_id", JStr (coi_supplier_id c));
   ("carrier_name", JStr (carrier_name c)); ("policy_number", JStr (policy_number c)); ("coverage_type", JStr (coverage_type c));
   ("expiry_date", JStr (day_text (expiry_date c))); ("days_until_expiry", JInt (expiry_date c - today))].

(** workers/tasks/renewal_tasks.py:44-53, [_scan]: the row of a certificate. *)
Definition alert (today : Z) (c : CertificateOfInsurance) : alert_row :=
  {| al_tenant_id := coi_tenant_id c; al_action := "coi.renewal_alert"; al_resource_type := "certificate_of_insurance";
     al_resource_id := coi_id c; al_metadata := summary today c |}.

Fixpoint add_alerts (today : Z) (l : list CertificateOfInsurance) : M (session RenewalDB) renewal_error (list (list (string * json))) :=
  match l with
  | [] => ret []
  | c :: l =>
      write (fun db => {| certificates := certificates db; alerts := alerts db ++ [alert today c] |}) ;;;
      let* rest := add_alerts today l in ret (summary today c :: rest)
  end.

(** workers/tasks/renewal_tasks.py, [_scan]: the summaries; [clock1] and [clock2] are its two
    readings of the day, [db_fails] whether the database refuses the commit. *)
Definition _scan (clock1 clock2 : Z) (db_fails : bool) (days_ahead : Z) : M (session RenewalDB) renewal_error (list (list (string * json))) :=
  try_except
    (let* found := reads (fun s => find_expiring (working s) None days_ahead None clock1) in
     let* expiring := match found with Ok l => ret l | Raise e => raise e end in
     let* summaries := add_alerts clock2 expiring in
     raise_if db_fails DatabaseError ;;;
     commit ;;;
     ret summaries)
    (fun e => rollback ;;; raise e).

(** workers/tasks/renewal_tasks.py, [scan_expiring_cois_task] *)
Inductive scan_result : Type := ScanOk (days_ahead : Z) (expiring : list (list (string * json))) | ScanFailed (error : renewal_error).
Definition scan_expiring_cois_task (clock1 clock2 : Z) (db_fails : bool) (days_ahead : Z) (s : session RenewalDB) : scan_result * session RenewalDB :=
  match _scan clock1 clock2 db_fails days_ahead s with
  | (Ok l, s) => (ScanOk days_ahead l, s)
  | (Raise e, s) => (ScanFailed e, s)
  end.
(** ** Lemmas *)

Lemma add_alerts_run today l db c :
  add_alerts today l (Session db c) =
    (Ok (map (summary today) l), Session {| certificates := certificates db; alerts := alerts db ++ map (alert today) l |} c).
Proof.
  revert db. induction l as [|x l IH]; intros db; cbn [add_alerts map].
  - rewrite app_nil_r. by destruct db.
  - unfold bind, write, modify. cbn [working committed]. rewrite IH. cbn. do 3 f_equal. by rewrite <- app_assoc.
Qed.

Lemma renewal_exists_spec l c : renewal_exists l c = true <->
  exists n, In n l /\ coi_supplier_id n = coi_supplier_id c /\ coverage_type n = coverage_type c /\ coi_id n <> coi_id c /\
    expiry_date c <= effective_date n.
Proof.
  unfold renewal_exists. rewrite existsb_exists. split.
  - intros (n & Hin & Hr). unfold renews in Hr. rewrite !andb_true_iff, !String.eqb_eq, negb_true_iff, String.eqb_neq, Z.leb_le in Hr.
    exists n. tauto.
  - intros (n & Hin & H1 & H2 & H3 & H4). exists n. split; [done|]. unfold renews.
    rewrite !andb_true_iff, !String.eqb_eq, negb_true_iff, String.eqb_neq, Z.leb_le. tauto.
Qed.

(** ** Properties *)

(** A certificate has lapsed from sight once another of the same supplier and coverage takes
    effect on or after its expiry. *)
Definition renewed (db : RenewalDB) (c : CertificateOfInsurance) : Prop :=
  exists n, In n (certificates db) /\ coi_supplier_id n = coi_supplier_id c /\ coverage_type n = coverage_type c /\ coi_id n <> coi_id c /\
    expiry_date c <= effective_date n.

Lemma sweep_run clock1 clock2 fails d db :
  exists r s', scan_expiring_cois_task clock1 clock2 fails d (Session db db) = (r, s') /\
    match r with
    | ScanOk d' l => d' = d /\ exists cs, l = map (summary clock2) cs /\
        s' = (let db' := {| certificates := certificates db; alerts := alerts db ++ map (alert clock2) cs |} in Session db' db') /\
        StronglySorted (fun a b => expiry_date a <= expiry_date b) cs /\
        Permutation cs (List.filter (fun c => (expiry_date c <=? clock1 + d) && negb (renewal_exists (certificates db) c)) (certificates db)) /\
        forall c, In c cs <-> In c (certificates db) /\ expiry_date c <= clock1 + d /\ ~ renewed db c
    | ScanFailed e => s' = Session db db /\ (fails = true \/ d < 0 \/ max_day < clock1 + d)
    end.
Proof.
  unfold scan_expiring_cois_task, _scan, try_except, find_expiring. unfold bind at 1, reads. cbn [working default from_option id].
  destruct (Z.ltb_spec d 0) as [Hd|Hd]; [eexists _, _; split; [reflexivity|]; cbn; auto|].
  destruct (Z.ltb_spec max_day (clock1 + d)) as [Hm|Hm]; [eexists _, _; split; [reflexivity|]; cbn; auto|].
  set (cs := sort_by expiry_date _). unfold bind at 1, ret at 1. unfold bind at 1. rewrite add_alerts_run.
  destruct fails; [eexists _, _; split; [reflexivity|]; cbn; auto|].
  eexists _, _. split; [reflexivity|]. cbn. split; [done|]. exists cs. split; [done|]. split; [done|]. split; [apply sort_by_Sorted|].
  assert (Hp : Permutation cs (List.filter (fun c => (expiry_date c <=? clock1 + d) && negb (renewal_exists (certificates db) c)) (certificates db))).
  { unfold cs. rewrite sort_by_perm. erewrite filter_ext; [reflexivity|]. intros c. cbn. by rewrite andb_true_r. }
  split; [exact Hp|]. intros c. split.
  - intros Hin. apply (Permutation_in _ Hp), filter_In in Hin as [Hin [H1 H2]%andb_true_iff]. split; [done|]. split; [lia|].
    intros Hr. apply renewal_exists_spec in Hr. by rewrite Hr in H2.
  - intros (Hin & H1 & H2). apply (Permutation_in _ (Permutation_sym Hp)), filter_In. split; [done|].
    destruct (renewal_exists _ c) eqn:Hr; [by apply renewal_exists_spec in Hr|]. cbn. rewrite andb_true_r. lia.
Qed.

(** One sweep.  It writes all of its alerts or none: when it answers ok, exactly one for each
    certificate that expires within the window, or has expired, and is not renewed, in the
    order of expiry, for the certificate's own tenant and with the days that are left; the
    certificates are as they were. *)
Theorem sweep_alerts_what_expires clock1 clock2 fails d db :
  exists r s', scan_expiring_cois_task clock1 clock2 fails d (Session db db) = (r, s') /\
    match r with
    | ScanOk d' l => d' = d /\ exists cs, l = map (summary clock2) cs /\
        s' = (let db' := {| certificates := certificates db; alerts := alerts db ++ map (alert clock2) cs |} in Session db' db') /\
        StronglySorted (fun a b => expiry_date a <= expiry_date b) cs /\
        Permutation cs (List.filter (fun c => (expiry_date c <=? clock1 + d) && negb (renewal_exists (certificates db) c)) (certificates db)) /\
        forall c, In c cs <-> In c (certificates db) /\ expiry_date c <= clock1 + d /\ ~ renewed db c
    | ScanFailed e => s' = Session db db /\ (fails = true \/ d < 0 \/ max_day < clock1 + d)
    end.
Proof. apply sweep_run. Qed.

(** The certificates between two sweeps: some are added, and none is changed or removed. *)
Inductive days_pass : Z -> RenewalDB -> Z -> RenewalDB -> Prop :=
| same_day t db : days_pass t db t db
| next_day t db t' db' added :
    let db1 := {| certificates := certificates db ++ added; alerts := alerts db |} in
    t + DEFAULT_DAYS_AHEAD <= max_day ->
    days_pass (t + 1) (committed (snd (scan_expiring_cois_task t t false DEFAULT_DAYS_AHEAD (Session db1 db1)))) t' db' ->
    days_pass t db t' db'.

(** The sweep of a day. *)
Lemma daily_sweep t db : t + DEFAULT_DAYS_AHEAD <= max_day ->
  let db' := committed (snd (scan_expiring_cois_task t t false DEFAULT_DAYS_AHEAD (Session db db))) in
  certificates db' = certificates db /\ exists cs, alerts db' = alerts db ++ map (alert t) cs /\
    forall c, In c cs <-> In c (certificates db) /\ expiry_date c <= t + DEFAULT_DAYS_AHEAD /\ ~ renewed db c.
Proof.
  intros Ht db'. unfold db'. destruct (sweep_run t t false DEFAULT_DAYS_AHEAD db) as (r & s' & -> & H).
  destruct r as [d' l|e]; [|destruct H as [_ [?|[?|?]]]; [done|unfold DEFAULT_DAYS_AHEAD in *; lia|lia]].
  destruct H as (_ & cs & _ & -> & _ & _ & Hcs). cbn. split; [done|]. by exists cs.
Qed.

Lemma renewed_mono db db' c : (forall n, In n (certificates db) -> In n (certificates db')) -> renewed db c -> renewed db' c.
Proof. intros Hsub (n & Hin & H). exists n. by split; [apply Hsub|]. Qed.

Lemma days_pass_mono t db t' db' : days_pass t db t' db' ->
  t <= t' /\ (forall c, In c (certificates db) -> In c (certificates db')) /\ (forall a, In a (alerts db) -> In a (alerts db')).
Proof.
  induction 1 as [t db|t db t' db' added db1 Ht _ (IH1 & IH2 & IH3)]; [split; [lia|done]|].
  destruct (daily_sweep t db1 Ht) as (Hc & cs & Ha & _). split; [lia|]. split.
  - intros c Hin. apply IH2. rewrite Hc. cbn. apply in_app_iff. by left.
  - intros a Hin. apply IH3. rewrite Ha. apply in_app_iff. by left.
Qed.

(** C38. Nothing expires unseen: with a sweep every day, a certificate that is in the table gets an
    alert on each day from thirty days before its expiry on, before and after it, until it is
    renewed. *)
Theorem alerted_every_day_until_renewed t db t' db' c x :
  days_pass t db t' db' -> In c (certificates db) -> t <= x < t' -> expiry_date c - DEFAULT_DAYS_AHEAD <= x ->
  In (alert x c) (alerts db') \/ renewed db' c.
Proof.
  induction 1 as [t db|t db t' db' added db1 Ht Hrest IH]; intros Hin Hx He; [lia|].
  destruct (daily_sweep t db1 Ht) as (Hc & cs & Ha & Hcs). assert (Hin1 : In c (certificates db1)) by (cbn; apply in_app_iff; by left).
  destruct (decide (x = t)) as [->|Hne].
  - pose proof (days_pass_mono _ _ _ _ Hrest) as (_ & Hmc & Hma). destruct (renewal_exists (certificates db1) c) eqn:Hr.
    + right. apply (renewed_mono db1); [intros n Hn; apply Hmc; by rewrite Hc|]. by apply renewal_exists_spec.
    + left. apply Hma. rewrite Ha. apply in_app_iff. right. apply in_map. apply Hcs. split; [done|]. split; [lia|].
      intros Hr'. apply renewal_exists_spec in Hr'. congruence.
  - apply IH; [by rewrite Hc|lia|done].
Qed.

(** ** A concrete table *)

Module DemoRenewals.
Definition coi (i supplier : string) (eff exp : Z) : CertificateOfInsurance :=
  {| coi_id := i; coi_tenant_id := "t1"; coi_supplier_id := supplier; carrier_name := "Acme"; policy_number := "P" +:+ i; coverage_type := "gl";
     effective_date := eff; expiry_date := exp |}.
Definition day : Z := days_from_civil 2026 3 1.
(** Renewed on the day, renewed a day early, expired, and far away. *)
Definition db : RenewalDB :=
  {| certificates := [coi "a1" "s1" 0 (day + 10); coi "a2" "s1" (day + 10) (day + 400); coi "b1" "s2" 0 (day + 5);
                      coi "b2" "s2" (day + 4) (day + 400); coi "c1" "s3" 0 (day - 3); coi "d1" "s4" 0 (day + 31)]; alerts := [] |}.
Definition sweep (t : Z) (db : RenewalDB) : RenewalDB := committed (snd (scan_expiring_cois_task t t false 30 (Session db db))).

(** A renewal that takes effect before the old certificate expires is not seen as one. *)
Example overlapping_renewal_is_not_seen :
  map al_resource_id (alerts (sweep day db)) = ["c1"; "b1"] /\
  map (fun a => get_key "days_until_expiry" (al_metadata a)) (alerts (sweep day db)) = [JInt (-3); JInt 5] /\
  map (fun a => get_key "expiry_date" (al_metadata a)) (alerts (sweep day db)) = [JStr "2026-02-26"; JStr "2026-03-06"].
Proof. vm_compute. split_and!; reflexivity. Qed.

Lemma alerted_every_day_until_renewed_witness : In (alert day (coi "c1" "s3" 0 (day - 3))) (alerts (sweep day db)).
Proof.
  assert (Hp : days_pass day db (day + 1) (sweep day {| certificates := certificates db ++ []; alerts := alerts db |})).
  { apply (next_day day db (day + 1) _ []); [vm_compute; discriminate|]. apply same_day. }
  destruct (alerted_every_day_until_renewed day db (day + 1) _ (coi "c1" "s3" 0 (day - 3)) day Hp) as [H|H].
  - cbn. tauto.
  - lia.
  - vm_compute. discriminate.
  - exact H.
  - exfalso. apply renewal_exists_spec in H. vm_compute in H. discriminate H.
Defined.
End DemoRenewals.
