(* ===== verification/Mailer.v ===== *)
(** * Outgoing e-mail

    services/email_dispatcher.py: the templates, the outbox of files, the Resend client and
    the choice between them, with the sending of the verification code of
    api/v1/onboarding.py.  The template files, the serialization of a message and the HTTP
    client are arguments. *)

From Stdlib Require Import Ascii.
From S2P Require Import Prelude PyStr Json Encoding.

(** ** Templates *)

(** [string.Template.safe_substitute], as an automaton over the characters: outside a
    placeholder, after a dollar, in a name, in a name in braces. *)
Inductive scan : Type := Text | Dollar | Name (acc : string) | Brace (acc : string).
Definition ident_start (c : ascii) : bool := is_alpha c || Ascii.eqb c "_".
Definition ident_char (c : ascii) : bool := is_alnum c || Ascii.eqb c "_".
Definition one (c : ascii) : string := String c "".

Section Substitute.
Context (mapping : list (string * string)).
Definition value_of (k : string) : option string := snd <$> find_first (fun kv => String.eqb kv.1 k) mapping.
Definition named (k : string) : string := default ("$" +:+ k) (value_of k).
Definition braced (k : string) : string := default ("${" +:+ k +:+ "}") (value_of k).

Definition text_char (c : ascii) : string * scan := if Ascii.eqb c "$" then ("", Dollar) else (one c, Text).
Definition after (out : string) (c : ascii) : string * scan := let '(o, st) := text_char c in (out +:+ o, st).
Definition step (st : scan) (c : ascii) : string * scan :=
  match st with
  | Text => text_char c
  | Dollar =>
      if Ascii.eqb c "$" then ("$", Text) else if ident_start c then ("", Name (one c)) else if Ascii.eqb c "{" then ("", Brace "") else after "$" c
  | Name acc => if ident_char c then ("", Name (acc +:+ one c)) else after (named acc) c
  | Brace acc =>
      if (if truthy acc then ident_char c else ident_start c) then ("", Brace (acc +:+ one c))
      else if Ascii.eqb c "}" && truthy acc then (braced acc, Text) else after ("${" +:+ acc) c
  end.
Definition flush (st : scan) : string := match st with Text => "" | Dollar => "$" | Name acc => named acc | Brace acc => "${" +:+ acc end.
Fixpoint substitute (st : scan) (s : string) : string :=
  match s with
  | EmptyString => flush st
  | String c s => let '(out, st) := step st c in out +:+ substitute st s
  end.
Definition safe_substitute (s : string) : string := substitute Text s.
End Substitute.

(** ** Messages *)

Inductive mail_error : Type := EmailDispatcherError (reason : string) | ValueError | OSError.

(** What a message holds before it is serialized. *)
Record email_message : Type := { m_headers : list (string * string); m_text : string; m_html : string }.

Record mail_settings : Type := { email_from_address : string; resend_api_key : option string; email_dispatcher : string; email_outbox_dir : string }.

(** services/email_dispatcher.py, [EmailDispatcher]: the two implementations. *)
Inductive EmailDispatcher : Type := OutboxEmailDispatcher (directory : string) | ResendEmailDispatcher (api_key : string).

(** The answer of the Resend API: its status, or a transport error. *)
Inductive resend_answer : Type := Answered (status : Z) (text : string) | HTTPError (text : string).
(** What the process has done: the outbox as files by path, and the calls of the API. *)
Record MailWorld : Type := { outbox : gmap string bytes; api_calls : list (string * json) }.
Definition MM : Type -> Type := M MailWorld mail_error.

Section Mail.
Context (cfg : mail_settings).
(** The text of a template file, the bytes of a message, and whether a file can be
    written. *)
Context (template : string -> option string) (serialize : email_message -> bytes) (writable : string -> bool).

(** services/email_dispatcher.py, [_load] *)
Definition _load (name suffix : string) : result mail_error string :=
  match template (name +:+ "." +:+ suffix) with
  | Some t => Ok t
  | None => Raise (EmailDispatcherError "missing email template")
  end.

(** services/email_dispatcher.py, [_render] *)
Definition _render (name : string) (context : list (string * string)) : result mail_error (string * string) :=
  match _load name "html" with
  | Raise e => Raise e
  | Ok html =>
      match _load name "txt" with
      | Raise e => Raise e
      | Ok text => Ok (safe_substitute context html, safe_substitute context text)
      end
  end.

(** services/email_dispatcher.py, [render_verify_email]: subject, html and text. *)
Definition render_verify_email (code : string) (ttl_minutes : Z) (company_name : string) : result mail_error (string * string * string) :=
  match _render "verify" [("code", code); ("ttl_minutes", str_of_Z ttl_minutes); ("company_name", company_name)] with
  | Ok (html, text) => Ok ("Your Once verification code: " +:+ code, html, text)
  | Raise e => Raise e
  end.

(** services/email_dispatcher.py, [render_welcome_email]; the dash of the subject is written
    as two. *)
Definition render_welcome_email (company_name dashboard_url : string) : result mail_error (string * string * string) :=
  match _render "welcome" [("company_name", company_name); ("dashboard_url", dashboard_url)] with
  | Ok (html, text) => Ok ("Welcome to Once -- one submission, many carriers.", html, text)
  | Raise e => Raise e
  end.

(** ** Dispatchers *)

Definition safe_char (c : ascii) : bool := is_alnum c || contains_char c "._-".
(** [re.sub("[^A-Za-z0-9._-]+", "_", value)] *)
Fixpoint squash (in_run : bool) (s : string) : string :=
  match s with
  | EmptyString => EmptyString
  | String c r => if safe_char c then String c (squash false r) else if in_run then squash true r else String "_" (squash true r)
  end.

(** services/email_dispatcher.py, [_safe_filename_part] *)
Definition _safe_filename_part (value : string) : string := sor (strip_by (Ascii.eqb "_") (squash false value)) "x".

(** The header values [EmailMessage] takes. *)
Definition header_ok (v : string) : bool := negb (contains_char "010" v || contains_char "013" v).

(** services/email_dispatcher.py, [OutboxEmailDispatcher.send]; [date], [timestamp] and [tag]
    are its two readings of the clock and eight digits of a fresh UUID. *)
Definition outbox_send (directory date timestamp tag to subject html text : string) (headers : list (string * string)) : MM unit :=
  let extra := List.filter (fun kv => negb (mem (lower kv.1) ["from"; "to"; "subject"; "date"])) headers in
  let hs := [("From", email_from_address cfg); ("To", to); ("Subject", subject); ("Date", date); ("X-Once-Dispatcher", "outbox")] ++ extra in
  raise_if (negb (forallb (fun kv => header_ok kv.2) hs)) ValueError ;;;
  let path := directory +:+ "/" +:+ timestamp +:+ "-" +:+ tag +:+ "-" +:+ _safe_filename_part to +:+ ".eml" in
  raise_if (negb (writable path)) OSError ;;;
  modify (fun w => {| outbox := <[path := serialize {| m_headers := hs; m_text := text; m_html := html |}]> (outbox w); api_calls := api_calls w |}).

(** services/email_dispatcher.py, [ResendEmailDispatcher.send] *)
Definition resend_send (answer : resend_answer) (api_key to subject html text : string) (headers : list (string * string)) : MM unit :=
  let payload := JObj ([("from", JStr (email_from_address cfg)); ("to", JList [JStr to]); ("subject", JStr subject); ("html", JStr html);
                        ("text", JStr text)] ++ match headers with [] => [] | _ => [("headers", JObj (map (fun kv => (kv.1, JStr kv.2)) headers))] end) in
  modify (fun w => {| outbox := outbox w; api_calls := api_calls w ++ [(api_key, payload)] |}) ;;;
  match answer with
  | HTTPError e => raise (EmailDispatcherError ("resend transport error: " +:+ e))
  | Answered status body =>
      raise_if (400 <=? status) (EmailDispatcherError ("resend api returned " +:+ str_of_Z status +:+ ": " +:+ stake 200 body))
  end.

(** services/email_dispatcher.py, [get_email_dispatcher]; the state is
    [_dispatcher_cache]. *)
Definition get_email_dispatcher (cached : option EmailDispatcher) : EmailDispatcher :=
  match cached with
  | Some d => d
  | None =>
      match (if String.eqb (email_dispatcher cfg) "resend" then opt_truthy (resend_api_key cfg) else None) with
      | Some key => ResendEmailDispatcher key
      | None => OutboxEmailDispatcher (email_outbox_dir cfg)
      end
  end.

(** The clock, the fresh digits and the answer of the API of one sending. *)
Record send_env : Type := { e_date : string; e_timestamp : string; e_tag : string; e_answer : resend_answer }.

Definition send (e : send_env) (d : EmailDispatcher) (to subject html text : string) : MM unit :=
  match d with
  | OutboxEmailDispatcher dir => outbox_send dir (e_date e) (e_timestamp e) (e_tag e) to subject html text []
  | ResendEmailDispatcher key => resend_send (e_answer e) key to subject html text []
  end.

(** api/v1/onboarding.py, [_send_verification_email] *)
Definition _send_verification_email (e : send_env) (cached : option EmailDispatcher) (code email : string) (ttl_minutes : Z) (company_name : string) :
    MM unit :=
  let dispatcher := get_email_dispatcher cached in
  match render_verify_email code ttl_minutes company_name with
  | Raise err => raise err
  | Ok (subject, html, text) =>
      try_except (send e dispatcher email subject html text)
        (fun err => match err with
                    | EmailDispatcherError _ => send e (OutboxEmailDispatcher (email_outbox_dir cfg)) email subject html text
                    | _ => raise err
                    end)
  end.
End Mail.

(** ** Substitution *)

Lemma substitute_app_text m a s : sall (fun c => negb (Ascii.eqb c "$")) a = true -> substitute m Text (a +:+ s) = a +:+ substitute m Text s.
Proof.
  induction a as [|c a IH]; cbn [substitute String.append sall]; [done|]. intros [Hc Ha]%andb_true_iff. apply negb_true_iff in Hc.
  cbn [step]. unfold text_char. rewrite Hc. cbn. by rewrite IH.
Qed.

Lemma substitute_text_id m a : sall (fun c => negb (Ascii.eqb c "$")) a = true -> safe_substitute m a = a.
Proof. intros Ha. unfold safe_substitute. rewrite <- (append_nil_r a) at 1. rewrite substitute_app_text by done. cbn. apply append_nil_r. Qed.

(** What may follow a name. *)
Definition ends_name (s : string) : Prop := match s with EmptyString => True | String c _ => ident_char c = false end.

Lemma substitute_name_rest m acc name s : sall ident_char name = true -> ends_name s ->
  substitute m (Name acc) (name +:+ s) = named m (acc +:+ name) +:+ substitute m Text s.
Proof.
  revert acc. induction name as [|c name IH]; intros acc Hn Hs.
  - cbn [String.append]. rewrite append_nil_r. destruct s as [|c s]; cbn [substitute flush]; [by rewrite append_nil_r|].
    cbn [step]. rewrite Hs. unfold after. cbn [substitute step]. destruct (text_char c) as [o st]. by rewrite append_assoc.
  - cbn [sall] in Hn. apply andb_true_iff in Hn as [Hc Hn]. cbn [String.append substitute step]. rewrite Hc. cbn [String.append].
    rewrite IH by done. by rewrite append_assoc.
Qed.

Lemma substitute_placeholder m c name s : ident_start c = true -> sall ident_char name = true -> ends_name s ->
  substitute m Text ("$" +:+ String c name +:+ s) = named m (String c name) +:+ substitute m Text s.
Proof.
  intros Hc Hn Hs. change (substitute m Text ("$" +:+ String c name +:+ s)) with (let '(o, st) := step m Dollar c in o +:+ substitute m st (name +:+ s)).
  assert (Hd : Ascii.eqb c "$" = false) by (destruct (Ascii.eqb_spec c "$") as [->|]; [discriminate Hc|done]).
  unfold step. rewrite Hd, Hc. change ("" +:+ substitute m (Name (one c)) (name +:+ s)) with (substitute m (Name (one c)) (name +:+ s)).
  by rewrite substitute_name_rest.
Qed.

(** ** Properties *)

(** A template whose first placeholder is a name: the value is put in as it is, whatever it
    holds - markup is not escaped, and a dollar in it is not read again. *)
Theorem values_are_put_in_as_they_are m pre c name rest :
  sall (fun c => negb (Ascii.eqb c "$")) pre = true -> ident_start c = true -> sall ident_char name = true -> ends_name rest ->
  safe_substitute m (pre +:+ "$" +:+ String c name +:+ rest) = pre +:+ named m (String c name) +:+ safe_substitute m rest.
Proof. intros Hp Hc Hn Hr. unfold safe_substitute. rewrite substitute_app_text by done. by rewrite substitute_placeholder. Qed.

(** File names of the outbox have no separator, whatever the address is. *)
Lemma sall_squash b s : sall safe_char (squash b s) = true.
Proof.
  revert b. induction s as [|c s IH]; intros b; cbn [squash]; [done|]. destruct (safe_char c) eqn:Hc; [cbn; by rewrite Hc, IH|].
  destruct b; [apply IH|]. cbn. by rewrite IH.
Qed.

Lemma safe_part_spec value : sall safe_char (_safe_filename_part value) = true /\ truthy (_safe_filename_part value) = true.
Proof.
  unfold _safe_filename_part, sor. destruct (truthy _) eqn:Ht; [|by split]. split; [by apply sall_rstrip, sall_lstrip, sall_squash|exact Ht].
Qed.

Definition slashless (c : ascii) : bool := negb (Ascii.eqb c "/").
Lemma safe_char_slashless c : safe_char c = true -> slashless c = true.
Proof. intros Hc. unfold slashless. by destruct (Ascii.eqb_spec c "/") as [->|]. Qed.

(** The verification mail gets out one way.  When it is sent without an error, the subject
    carries the code, and either the Resend API was asked once and accepted, or one file
    more is in the outbox, in that directory itself, for the address in its [To] header;
    a failure of the API is made good by the outbox; and nothing else changes. *)
Theorem verification_mail_gets_out cfg template serialize writable e code email ttl company w w' :
  sall slashless (e_timestamp e) = true -> sall slashless (e_tag e) = true ->
  _send_verification_email cfg template serialize writable e None code email ttl company w = (Ok tt, w') ->
  exists html text, render_verify_email template code ttl company = Ok ("Your Once verification code: " +:+ code, html, text) /\
    (outbox w' = outbox w /\ (exists key payload, resend_api_key cfg = Some key /\ api_calls w' = api_calls w ++ [(key, payload)] /\
       exists status body, e_answer e = Answered status body /\ status < 400) \/
     exists file msg, sall slashless file = true /\ outbox w' = <[email_outbox_dir cfg +:+ "/" +:+ file := serialize msg]> (outbox w) /\
       In ("To", email) (m_headers msg) /\ m_html msg = html /\ m_text msg = text /\
       (api_calls w' = api_calls w \/
        (exists key payload, api_calls w' = api_calls w ++ [(key, payload)]) /\
        (forall status body, e_answer e = Answered status body -> 400 <= status))).
Proof.
  intros Hts Htag. unfold _send_verification_email, get_email_dispatcher.
  destruct (render_verify_email template code ttl company) as [[[subject html] text]|err] eqn:Hren; [|done].
  assert (Hsub : subject = "Your Once verification code: " +:+ code).
  { unfold render_verify_email in Hren. destruct (_render _ _ _) as [[h t]|]; [|done]. by injection Hren as <- _ _. }
  subst subject. intros Hrun. exists html, text. split; [done|].
  assert (Hout : forall w0 w1, outbox_send cfg serialize writable (email_outbox_dir cfg) (e_date e) (e_timestamp e) (e_tag e) email
                   ("Your Once verification code: " +:+ code) html text [] w0 = (Ok tt, w1) ->
                 api_calls w1 = api_calls w0 /\ exists file msg, sall slashless file = true /\
                   outbox w1 = <[email_outbox_dir cfg +:+ "/" +:+ file := serialize msg]> (outbox w0) /\
                   In ("To", email) (m_headers msg) /\ m_html msg = html /\ m_text msg = text).
  { intros w0 w1. unfold outbox_send, bind. destruct (negb (forallb _ _)); [done|]. cbn [raise_if ret].
    destruct (negb (writable _)); [done|]. cbn [raise_if ret]. unfold modify. intros [= <-]. split; [done|].
    exists (e_timestamp e +:+ "-" +:+ e_tag e +:+ "-" +:+ _safe_filename_part email +:+ ".eml"). eexists. split.
    - rewrite !sall_append. rewrite Hts, Htag. cbn. rewrite andb_true_r.
      exact (sall_impl _ _ _ safe_char_slashless (proj1 (safe_part_spec email))).
    - split; [reflexivity|]. cbn. auto 8. }
  destruct (if String.eqb (email_dispatcher cfg) "resend" then opt_truthy (resend_api_key cfg) else None) as [key|] eqn:Hk.
  - assert (Hkey : resend_api_key cfg = Some key).
    { destruct (String.eqb _ _); [|done]. destruct (resend_api_key cfg) as [k|]; [|done]. cbn in Hk. destruct (truthy k); [by injection Hk as ->|done]. }
    unfold try_except, send, resend_send, bind, modify in Hrun. cbn [outbox api_calls] in Hrun.
    destruct (e_answer e) as [status body|t] eqn:Ha.
    + destruct (Z.leb_spec 400 status); cbn [raise_if ret raise] in Hrun.
      * right. apply Hout in Hrun as (Hapi & file & msg & H1 & H2 & H3 & H4 & H5). exists file, msg. split_and!; try done. right.
        split; [by eexists _, _|]. by intros st b [= <- _].
      * left. injection Hrun as <-. cbn. split; [done|]. exists key. eexists. split; [done|]. split; [done|]. by exists status, body.
    + right. apply Hout in Hrun as (Hapi & file & msg & H1 & H2 & H3 & H4 & H5). exists file, msg. split_and!; try done. right.
      split; [by eexists _, _|]. done.
  - right. unfold try_except, send in Hrun.
    destruct (outbox_send _ _ _ _ _ _ _ _ _ _ _ _ w) as [[u|err] w1] eqn:H1.
    + destruct u. injection Hrun as <-. apply Hout in H1 as (Hapi & file & msg & H). exists file, msg. destruct H as (? & ? & ? & ? & ?). split_and!; auto.
    + destruct err; try done. apply Hout in Hrun as (Hapi & file & msg & H2 & H3 & H). 
      assert (Hw : w1 = w).
      { revert H1. unfold outbox_send, bind. destruct (negb (forallb _ _)); [by intros [= <-]|]. cbn [raise_if ret].
        destruct (negb (writable _)); [by intros [= <-]|]. done. }
      subst w1. exists file, msg. destruct H as (? & ? & ?). split_and!; auto.
Qed.

(** ** Concrete mails *)

Module DemoMailer.
Definition template (file : string) : option string :=
  if String.eqb file "verify.html" then Some "<p>Use the code to set up <strong>$company_name</strong>, within $ttl_minutes&nbsp;minutes: $code</p>"
  else if String.eqb file "verify.txt" then Some "$$5 ${code} for ${company_name}. $unknown ${ $1" else None.
Definition cfg (d : string) (key : option string) : mail_settings :=
  {| email_from_address := "noreply@getonce.com"; resend_api_key := key; email_dispatcher := d; email_outbox_dir := ".once/outbox" |}.
Definition serialize (m : email_message) : bytes := m_text m.
Definition env (a : resend_answer) : send_env := {| e_date := "Sun, 01 Mar 2026 12:00:00 +0000"; e_timestamp := "20260301T120000"; e_tag := "0a1b2c3d"; e_answer := a |}.
Definition nothing : MailWorld := {| outbox := ∅; api_calls := [] |}.
Definition mail (d : string) (key : option string) (a : resend_answer) (email : string) :=
  _send_verification_email (cfg d key) template serialize (fun _ => true) (env a) None "123456" email 15 "<b>Acme</b> $code" nothing.

(** The name of the company comes from whoever registers, and the mail is markup. *)
Example company_name_is_markup :
  render_verify_email template "123456" 15 "<a href=https://evil>Acme</a>" =
  Ok ("Your Once verification code: 123456",
      "<p>Use the code to set up <strong><a href=https://evil>Acme</a></strong>, within 15&nbsp;minutes: 123456</p>",
      "$5 123456 for <a href=https://evil>Acme</a>. $unknown ${ $1").
Proof. reflexivity. Qed.

Example sent_by :
  map (fun x => (map fst (map_to_list (outbox (snd x))), length (api_calls (snd x)), fst x))
    [mail "outbox" (Some "re_1") (HTTPError "") "a@x.com/../b"; mail "resend" (Some "re_1") (Answered 200 "") "a@x.com"; mail "resend" (Some "re_1") (Answered 500 "") "a@x.com";
     mail "resend" None (Answered 200 "") "a@x.com"; mail "outbox" None (HTTPError "") (String "010"%char "")] =
  [([".once/outbox/20260301T120000-0a1b2c3d-a_x.com_.._b.eml"], 0%nat, Ok tt); ([], 1%nat, Ok tt);
   ([".once/outbox/20260301T120000-0a1b2c3d-a_x.com.eml"], 1%nat, Ok tt); ([".once/outbox/20260301T120000-0a1b2c3d-a_x.com.eml"], 0%nat, Ok tt);
   ([], 0%nat, Raise ValueError)].
Proof. vm_compute. reflexivity. Qed.

Lemma values_are_put_in_as_they_are_witness :
  safe_substitute [("company_name", "<script>")] "Hello $company_name." = "Hello <script>.".
Proof.
  exact (values_are_put_in_as_they_are [("company_name", "<script>")] "Hello " "c" "ompany_name" "." eq_refl eq_refl eq_refl eq_refl).
Defined.

Lemma verification_mail_gets_out_witness :
  exists w', mail "resend" (Some "re_1") (Answered 500 "") "a@x.com" = (Ok tt, w') /\ exists html text,
    render_verify_email template "123456" 15 "<b>Acme</b> $code" = Ok ("Your Once verification code: 123456", html, text).
Proof.
  destruct (mail "resend" (Some "re_1") (Answered 500 "") "a@x.com") as [[[]|e] w'] eqn:H; [|vm_compute in H; discriminate].
  destruct (verification_mail_gets_out (cfg "resend" (Some "re_1")) template serialize (fun _ => true) (env (Answered 500 "")) "123456" "a@x.com" 15
    "<b>Acme</b> $code" nothing w' eq_refl eq_refl H) as (html & text & Hr & _).
  exact (ex_intro _ w' (conj eq_refl (ex_intro _ html (ex_intro _ text Hr)))).
Defined.
End DemoMailer.
