(* ===== verification/BodySize.v ===== *)
(** * The limit on request bodies

    middleware/body_size.py, directly against the ASGI protocol: an application is
    a tree of the messages it receives and sends, with its effects in between.
    The second part puts the limit in front of the Postmark webhook. *)

From S2P Require Import Prelude PyStr Json PyTime Encoding Accounts SubmissionModels AvScanner InboundModels InboundEmail InboundWebhook Http.

(** ** The protocol *)

(** A message to the application: a chunk of the body, or the end of the
    connection. *)
Inductive in_msg : Type := RequestChunk (body : bytes) (more_body : bool) | Disconnect.
(** A message of the application. *)
Inductive out_msg : Type := ResponseStart (status : Z) (hdrs : list (string * string)) | ResponseBody (body : bytes).

(** An application of the protocol with effects of type [W]. *)
Inductive asgi (W : Type) : Type :=
| A_done
| A_receive (k : in_msg -> asgi W)
| A_send (m : out_msg) (k : asgi W)
| A_do (w : W) (k : asgi W).
Arguments A_done {W}.
Arguments A_receive {W} k.
Arguments A_send {W} m k.
Arguments A_do {W} w k.

(** The first message, if there is one, and the others. *)
Definition next_msg (input : list in_msg) : in_msg * list in_msg :=
  match input with m :: r => (m, r) | [] => (Disconnect, []) end.

(** The messages an application sends on an input, and its effects. *)
Fixpoint run_app {W} (a : asgi W) (input : list in_msg) : list out_msg * list W :=
  match a with
  | A_done => ([], [])
  | A_receive k => let '(m, r) := next_msg input in run_app (k m) r
  | A_send m k => let '(out, eff) := run_app k input in (m :: out, eff)
  | A_do w k => let '(out, eff) := run_app k input in (out, w :: eff)
  end.

(** ** The middleware *)

(** middleware/body_size.py, [DEFAULT_JSON_LIMIT_BYTES]. *)
Definition DEFAULT_JSON_LIMIT_BYTES : Z := 1 * 1024 * 1024.
(** middleware/body_size.py, [DEFAULT_UPLOAD_LIMIT_BYTES]. *)
Definition DEFAULT_UPLOAD_LIMIT_BYTES : Z := 25 * 1024 * 1024.
(** middleware/body_size.py, [_UPLOAD_CONTENT_TYPES]. *)
Definition _UPLOAD_CONTENT_TYPES : list string := ["multipart/form-data"; "application/octet-stream"].

(** middleware/body_size.py, [_env_int]; [raw] is the variable of the
    environment. *)
Definition _env_int (raw : option string) (dflt : Z) : Z :=
  match raw with
  | None => dflt
  | Some r => match py_int r with Some v => if truthy r && (0 <? v) then v else dflt | None => dflt end
  end.

(** middleware/body_size.py, [BodySizeLimitMiddleware.__init__]. *)
Record body_limits : Type := { json_limit : Z; upload_limit : Z }.

(** middleware/body_size.py:126-135, [BodySizeLimitMiddleware.__init__]: the limits
    of the environment. *)
Definition limits_of_env (json_raw upload_raw : option string) : body_limits :=
  {| json_limit := _env_int json_raw DEFAULT_JSON_LIMIT_BYTES; upload_limit := _env_int upload_raw DEFAULT_UPLOAD_LIMIT_BYTES |}.

(** middleware/body_size.py, [_limit_for]. *)
Definition _limit_for (cfg : body_limits) (content_type : string) : Z :=
  if existsb (fun p => startswith p (lower content_type)) _UPLOAD_CONTENT_TYPES then upload_limit cfg else json_limit cfg.

(** middleware/body_size.py, [_too_large_response]: its two messages. *)
Definition _too_large_response (limit : Z) : list out_msg :=
  let body := "{" +:+ quote +:+ "detail" +:+ quote +:+ ":" +:+ quote +:+ "request_body_too_large" +:+ quote +:+ ","
              +:+ quote +:+ "limit_bytes" +:+ quote +:+ ":" +:+ str_of_Z limit +:+ "}" in
  [ResponseStart 413 [("content-length", str_of_Z (slen body)); ("content-type", "application/json")]; ResponseBody body].

(** The scope of a request. *)
Record http_scope : Type := { sc_method : string; sc_hdrs : list (string * string) }.

(** The value the dict of the headers has: the last one. *)
Definition scope_header (name : string) (sc : http_scope) : option string :=
  snd <$> find_first (fun kv => String.eqb kv.1 name) (PyStr.to_dict (map (fun kv => (lower kv.1, kv.2)) (sc_hdrs sc))).

Section BodySize.
Context (cfg : body_limits) {W : Type}.

(** middleware/body_size.py:145-149, [BodySizeLimitMiddleware.__call__]. *)
Definition max_bytes (sc : http_scope) : Z := _limit_for cfg (default "" (scope_header "content-type" sc)).

(** middleware/body_size.py:151-160, [BodySizeLimitMiddleware.__call__]: the
    declared length is above the limit. *)
Definition declared_too_large (sc : http_scope) : bool :=
  match scope_header "content-length" sc with
  | None => false
  | Some cl => truthy cl && (max_bytes sc <? default (-1) (py_int cl))
  end.

(** middleware/body_size.py:162-186, [BodySizeLimitMiddleware.__call__]: the
    application between [limited_receive] and [guarded_send]; [received] are the
    bytes so far. *)
Fixpoint guarded_run (limit received : Z) (a : asgi W) (input : list in_msg) : list out_msg * list W :=
  match a with
  | A_done => ([], [])
  | A_receive k =>
      let '(m, r) := next_msg input in
      guarded_run limit (match m with RequestChunk body _ => received + slen body | Disconnect => received end) (k m) r
  | A_send m k =>
      let '(out, eff) := guarded_run limit received k input in
      let overrun := limit <? received in
      (match m with
       | ResponseStart _ _ => if overrun then _too_large_response limit else [m]
       | ResponseBody _ => if overrun then [] else [m]
       end ++ out, eff)
  | A_do w k => let '(out, eff) := guarded_run limit received k input in (out, w :: eff)
  end.

(** middleware/body_size.py, [BodySizeLimitMiddleware.__call__]. *)
Definition body_size_limit (sc : http_scope) (a : asgi W) (input : list in_msg) : list out_msg * list W :=
  if existsb (String.eqb (upper (sc_method sc))) ["GET"; "HEAD"; "OPTIONS"; "TRACE"; "DELETE"] then run_app a input
  else if declared_too_large sc then (_too_large_response (max_bytes sc), [])
  else guarded_run (max_bytes sc) 0 a input.
End BodySize.

(** ** Properties *)

(** The bytes of an input. *)
Fixpoint input_size (input : list in_msg) : Z :=
  match input with
  | [] => 0
  | RequestChunk body _ :: r => slen body + input_size r
  | Disconnect :: r => input_size r
  end.

Lemma input_size_nonneg input : 0 <= input_size input.
Proof. induction input as [|[body more|] r IH]; cbn; unfold slen; lia. Qed.

Lemma guarded_effects {W} limit (a : asgi W) : forall received input,
  (guarded_run limit received a input).2 = (run_app a input).2.
Proof.
  induction a as [|k IH|m k IH|w k IH]; intros received input; cbn; [done|..].
  - destruct (next_msg input) as [m r]. apply IH.
  - specialize (IH received input). destruct (guarded_run _ _ _ _), (run_app _ _). exact IH.
  - specialize (IH received input). destruct (guarded_run _ _ _ _), (run_app _ _). cbn in *. by subst.
Qed.

Lemma guarded_within {W} limit (a : asgi W) : forall received input,
  received + input_size input <= limit -> guarded_run limit received a input = run_app a input.
Proof.
  induction a as [|k IH|m k IH|w k IH]; intros received input Hle; cbn; [done|..].
  - destruct input as [|m r]; cbn; [by apply IH|]. apply IH. destruct m; cbn in Hle; lia.
  - rewrite IH by done. destruct (run_app k input). pose proof (input_size_nonneg input).
    replace (limit <? received) with false by lia. by destruct m.
  - by rewrite IH.
Qed.

(** What the limit does to an application.  A declared length above the limit
    is answered 413 and the application does not run; otherwise the application
    runs to its end with all its effects, whatever the size - the limit only
    changes the answer - and its answer is passed on unchanged when the body is
    within the limit. *)
Theorem body_limit_spec {W} cfg sc (a : asgi W) input :
  (if negb (existsb (String.eqb (upper (sc_method sc))) ["GET"; "HEAD"; "OPTIONS"; "TRACE"; "DELETE"])
      && declared_too_large cfg sc
   then body_size_limit cfg sc a input = (_too_large_response (max_bytes cfg sc), [])
   else (body_size_limit cfg sc a input).2 = (run_app a input).2) /\
  (declared_too_large cfg sc = false -> input_size input <= max_bytes cfg sc ->
   body_size_limit cfg sc a input = run_app a input).
Proof.
  unfold body_size_limit. destruct (existsb _ _); cbn [negb andb]; [done|]. destruct (declared_too_large cfg sc).
  - by split.
  - split; [apply guarded_effects|]. intros _ Hle. apply guarded_within. lia.
Qed.

(** An application that reads [n] messages and goes on. *)
Fixpoint reading {W} (n : nat) (k : asgi W) : asgi W :=
  match n with O => k | S n => A_receive (fun _ => reading n k) end.

Lemma guarded_reading {W} limit (k : asgi W) : forall input received,
  guarded_run limit received (reading (length input) k) input = guarded_run limit (received + input_size input) k [].
Proof.
  induction input as [|m r IH]; intros received; cbn; [f_equal; lia|]. rewrite IH. f_equal. destruct m; cbn; lia.
Qed.

(** An application that reads a body above the limit before it answers is heard
    by no one: the client gets the 413. *)
Lemma overrun_answers_413 {W} limit input status hdrs body (eff : W) :
  limit < input_size input ->
  guarded_run limit 0 (reading (length input) (A_do eff (A_send (ResponseStart status hdrs) (A_send (ResponseBody body) A_done)))) input
  = (_too_large_response limit, [eff]).
Proof. intros Hlt. rewrite guarded_reading. cbn. by replace (limit <? 0 + input_size input) with true by lia. Qed.

(** ** In front of the Postmark webhook *)

Section Webhook.
Context (lim : body_limits) (cfg : inbound_settings) (pm : postmark_settings).
Context (json_loads : bytes -> result loads_error json) (model_validate : json -> option PostmarkInboundIn).
Context (uuid : nat -> string) (re_search : string -> string -> option bool) (repr_other : json -> string).
Context (base_path : string) (sha256_hex : bytes -> string) (enforce : bytes -> result av_error ScanReport).

(** A delivery as the client sends it: JSON with its length. *)
Definition delivery_scope (body : bytes) : http_scope :=
  {| sc_method := "POST"; sc_hdrs := [("content-type", "application/json"); ("content-length", str_of_Z (slen body))] |}.

(** The webhook behind the limit. *)
Definition delivered (others : list InboundEmail) (now : Z) (body : bytes) (authorization : option string) (s : InboundState)
  : result web_error WebhookAck * InboundState :=
  if declared_too_large lim (delivery_scope body) then (Raise (HTTPException 413 "request_body_too_large"), s)
  else receive_postmark_inbound cfg pm json_loads model_validate uuid re_search repr_other base_path sha256_hex enforce
         others now body authorization s.
End Webhook.

Lemma delivery_declared lim body :
  declared_too_large lim (delivery_scope body) = (json_limit lim <? slen body).
Proof.
  unfold declared_too_large, delivery_scope, max_bytes.
  replace (scope_header "content-length" _) with (Some (str_of_Z (slen body))) by done.
  replace (scope_header "content-type" _) with (Some "application/json") by done.
  assert (Hp : py_int (str_of_Z (slen body)) = Some (slen body)) by (apply py_int_str_of_Z; unfold slen; lia).
  rewrite Hp. assert (Ht : truthy (str_of_Z (slen body)) = true).
  { destruct (str_of_Z (slen body)) eqn:He; [|done]. discriminate Hp. }
  rewrite Ht. cbn [andb default id]. replace (_limit_for lim "application/json") with (json_limit lim) by done. done.
Qed.

(** Mail above the body limit is lost.  The webhook allows messages of
    [inbound_max_email_size_mb] megabytes, but the limit on request bodies stands
    in front of it and has no exception for its path: a delivery longer than the
    JSON limit - one megabyte unless the environment says otherwise - is answered
    413 whatever the settings of the webhook, and changes nothing; a shorter one
    is received as if the limit were not there. *)
Theorem webhook_behind_body_limit lim cfg pm json_loads model_validate uuid re_search repr_other base_path sha256_hex enforce
    others now body authorization s :
  delivered lim cfg pm json_loads model_validate uuid re_search repr_other base_path sha256_hex enforce others now body authorization s =
  if json_limit lim <? slen body then (Raise (HTTPException 413 "request_body_too_large"), s)
  else receive_postmark_inbound cfg pm json_loads model_validate uuid re_search repr_other base_path sha256_hex enforce
         others now body authorization s.
Proof. unfold delivered. by rewrite delivery_declared. Qed.

Module DemoBodySize.
Definition small : body_limits := {| json_limit := 4; upload_limit := 100 |}.
Definition scope (m : string) (h : list (string * string)) : http_scope := {| sc_method := m; sc_hdrs := h |}.
(** An application that reads two chunks, stores something and answers. *)
Definition app : asgi string :=
  reading 2 (A_do "stored" (A_send (ResponseStart 201 []) (A_send (ResponseBody "done") A_done))).
Definition chunks : list in_msg := [RequestChunk "abc" true; RequestChunk "def" false].

(** A body that is too long in chunks is stored, although the client is told that
    it was refused. *)
Example refused_but_stored :
  body_size_limit small (scope "POST" [("content-type", "application/json")]) app chunks = (_too_large_response 4, ["stored"]).
Proof. vm_compute. reflexivity. Qed.

Example declared_and_stopped :
  body_size_limit small (scope "POST" [("Content-Length", "6")]) app chunks = (_too_large_response 4, []) /\
  body_size_limit small (scope "PUT" [("content-length", "six")]) app chunks = (_too_large_response 4, ["stored"]) /\
  body_size_limit small (scope "POST" [("content-type", "Multipart/form-data; boundary=x"); ("content-length", "6")]) app chunks
    = ([ResponseStart 201 []; ResponseBody "done"], ["stored"]) /\
  body_size_limit small (scope "DELETE" [("content-length", "6")]) app chunks
    = ([ResponseStart 201 []; ResponseBody "done"], ["stored"]).
Proof. split_and!; vm_compute; reflexivity. Qed.

Example environment :
  (limits_of_env None (Some "50")) = {| json_limit := 1048576; upload_limit := 50 |} /\
  (limits_of_env (Some "-3") (Some "x")) = {| json_limit := 1048576; upload_limit := 26214400 |}.
Proof. split; vm_compute; reflexivity. Qed.
End DemoBodySize.
