(* ===== verification/SmokeState.v ===== *)
(** * Portal health

    automation/submitters/_smoke_state.py, the alerts of
    workers/tasks/smoke_test_tasks.py, services/portal_health_service.py and
    api/v1/public_portals.py.  The state file is the JSON value it holds; the
    tracker writes it and the public coverage page reads it. *)

From S2P Require Import Prelude PyStr Json PyTime SubmissionModels Pipeline.

(** ** The tracker *)

(** automation/submitters/_smoke_state.py, [PortalStateSnapshot]; the status is
    what the file has, null at first. *)
Record PortalStateSnapshot : Type := {
  last_status : json;
  last_changed_at : option datetime;
  last_alerted_at : option datetime;
  consecutive_failures : Z;
}.

Inductive AlertKind : Type := drift | persistent_failure | recovery | noop.
#[export] Instance AlertKind_eq_dec : EqDecision AlertKind.
Proof. solve_decision. Defined.

(** automation/submitters/_smoke_state.py, [AlertDecision]; the downtime is in
    microseconds. *)
Record AlertDecision : Type := {
  kind : AlertKind;
  new_state : PortalStateSnapshot;
  downtime : option Z;
  ad_failures : Z;
}.

(** automation/submitters/_smoke_state.py, [_iso]. *)
Definition _iso (value : option datetime) : json :=
  match value with Some d => JStr (isoformat (coerce_utc d)) | None => JNull end.

(** automation/submitters/_smoke_state.py, [_parse_iso]. *)
Definition _parse_iso (value : json) : option datetime :=
  match value with
  | JStr s => if truthy s then coerce_utc <$> fromisoformat s else None
  | _ => None
  end.

(** automation/submitters/_smoke_state.py, [PortalStateSnapshot.to_dict]. *)
Definition to_dict (s : PortalStateSnapshot) : json :=
  JObj [("last_status", last_status s); ("last_changed_at", _iso (last_changed_at s));
        ("last_alerted_at", _iso (last_alerted_at s)); ("consecutive_failures", JInt (consecutive_failures s))].

Definition no_observations : PortalStateSnapshot :=
  {| last_status := JNull; last_changed_at := None; last_alerted_at := None; consecutive_failures := 0 |}.

(** automation/submitters/_smoke_state.py, [PortalStateSnapshot.from_dict]; [None]
    is an exception: the value has no [get], or the count is no number. *)
Definition from_dict (raw : option json) : option PortalStateSnapshot :=
  let raw := default JNull raw in
  if negb (jtruthy raw) then Some no_observations
  else
    match raw with
    | JObj d =>
        n ← json_int (jor (get_key "consecutive_failures" d) (JInt 0));
        Some {| last_status := get_key "last_status" d; last_changed_at := _parse_iso (get_key "last_changed_at" d);
                last_alerted_at := _parse_iso (get_key "last_alerted_at" d); consecutive_failures := n |}
    | _ => None
    end.

(** The status of a run. *)
Definition status_text (passed : bool) : string := if passed then "pass" else "fail".
Definition is_text (t : string) (v : json) : bool := match v with JStr s => String.eqb s t | _ => false end.

Definition failed_state (changed alerted : option datetime) (n : Z) : PortalStateSnapshot :=
  {| last_status := JStr "fail"; last_changed_at := changed; last_alerted_at := alerted; consecutive_failures := n |}.
Definition passed_state (changed alerted : option datetime) : PortalStateSnapshot :=
  {| last_status := JStr "pass"; last_changed_at := changed; last_alerted_at := alerted; consecutive_failures := 0 |}.

Definition decision (k : AlertKind) (s : PortalStateSnapshot) (down : option Z) (n : Z) : AlertDecision :=
  {| kind := k; new_state := s; downtime := down; ad_failures := n |}.

Section Tracker.
Context (cooldown_sec : Z).

(** automation/submitters/_smoke_state.py, [SmokeStateTracker.__init__]: the
    cooldown. *)
Definition alert_cooldown : Z := seconds (Z.max 0 cooldown_sec).

(** automation/submitters/_smoke_state.py, [SmokeStateTracker._decide]; a status
    of the file that is neither text is treated like a pass. *)
Definition _decide (prev : PortalStateSnapshot) (passed : bool) (now : datetime) : AlertDecision :=
  let changed := Some (default now (last_changed_at prev)) in
  if bool_decide (last_status prev = JNull) then
    if passed then decision noop (passed_state (Some now) None) None 0
    else decision drift (failed_state (Some now) (Some now) 1) None 1
  else if is_text "pass" (last_status prev) && negb passed then
    decision drift (failed_state (Some now) (Some now) 1) None 1
  else if is_text "fail" (last_status prev) && passed then
    decision recovery (passed_state (Some now) (Some now))
      ((fun t => instant now - instant t) <$> last_changed_at prev) 0
  else if is_text "fail" (last_status prev) then
    let n := consecutive_failures prev + 1 in
    let eligible := match last_alerted_at prev with
                    | None => true
                    | Some t => alert_cooldown <=? instant now - instant t
                    end in
    if eligible then decision persistent_failure (failed_state changed (Some now) n) None n
    else decision noop (failed_state changed (last_alerted_at prev) n) None n
  else decision noop (passed_state changed (last_alerted_at prev)) None 0.

(** automation/submitters/_smoke_state.py, [SmokeStateTracker._load]; the file is
    null when it is missing, empty or no JSON. *)
Definition _load (file : json) : list (string * json) := match file with JObj d => d | _ => [] end.

(** automation/submitters/_smoke_state.py, [SmokeStateTracker.observe]; a state
    that cannot be written, [saved] false, is only logged. *)
Definition observe (saved : bool) (now : datetime) (platform : string) (passed : bool) (file : json)
  : option (AlertDecision * json) :=
  let state := _load file in
  prev ← from_dict (assoc platform state);
  let d := _decide prev passed now in
  Some (d, if saved then JObj (set_key platform (to_dict (new_state d)) state) else file).

(** ** Alerts *)

(** The result of a smoke test, and what is sent about it. *)
Record smoke_result : Type := { sr_platform : string; sr_passed : bool }.
Inductive alert : Type := Alert (k : AlertKind) (platform : string) (n : Z) (down : Z).

Record alert_counts : Type := { n_drift : Z; n_persistent : Z; n_recovery : Z; n_noop : Z; n_dispatch_failures : Z }.

Definition count_kind (k : AlertKind) (c : alert_counts) : alert_counts :=
  match k with
  | drift => {| n_drift := n_drift c + 1; n_persistent := n_persistent c; n_recovery := n_recovery c; n_noop := n_noop c;
                n_dispatch_failures := n_dispatch_failures c |}
  | persistent_failure => {| n_drift := n_drift c; n_persistent := n_persistent c + 1; n_recovery := n_recovery c;
                n_noop := n_noop c; n_dispatch_failures := n_dispatch_failures c |}
  | recovery => {| n_drift := n_drift c; n_persistent := n_persistent c; n_recovery := n_recovery c + 1; n_noop := n_noop c;
                n_dispatch_failures := n_dispatch_failures c |}
  | noop => {| n_drift := n_drift c; n_persistent := n_persistent c; n_recovery := n_recovery c; n_noop := n_noop c + 1;
                n_dispatch_failures := n_dispatch_failures c |}
  end.
Definition count_failure (c : alert_counts) : alert_counts :=
  {| n_drift := n_drift c; n_persistent := n_persistent c; n_recovery := n_recovery c; n_noop := n_noop c;
     n_dispatch_failures := n_dispatch_failures c + 1 |}.

(** What [notifier.notify] does: it answers whether the message was delivered, or
    raises. *)
Inductive notified : Type := Delivered (ok : bool) | NotifyRaised.

(** workers/tasks/smoke_test_tasks.py, [_dispatch_alerts]: the counts, the messages
    handed to the notifier, and the file; [clock] is the time of each
    observation. *)
Fixpoint _dispatch_alerts (notify : alert -> notified) (clock : nat -> datetime) (results : list smoke_result)
    (c : alert_counts) (sent : list alert) (file : json) : option (alert_counts * list alert * json) :=
  match results with
  | [] => Some (c, sent, file)
  | r :: results =>
      '(d, file) ← observe true (clock (length results)) (sr_platform r) (sr_passed r) file;
      let c := count_kind (kind d) c in
      match kind d with
      | noop => _dispatch_alerts notify clock results c sent file
      | k =>
          let a := Alert k (sr_platform r) (ad_failures d) (default 0 (downtime d)) in
          let c := match notify a with NotifyRaised => count_failure c | Delivered _ => c end in
          _dispatch_alerts notify clock results c (sent ++ [a]) file
      end
  end.
End Tracker.

(** ** The coverage page *)

Inductive PortalHealthStatus : Type := healthy | degraded | down | unknown.
#[export] Instance PortalHealthStatus_eq_dec : EqDecision PortalHealthStatus.
Proof. solve_decision. Defined.

(** services/portal_health_service.py, [PortalCoverageRow]. *)
Record PortalCoverageRow : Type := {
  pc_platform : string;
  pc_display_name : string;
  pc_supported : bool;
  pc_status : PortalHealthStatus;
  last_status_change_at : option datetime;
  pc_failures : Z;
}.

(** services/portal_health_service.py, [_derive_health]. *)
Definition _derive_health (last : json) (consecutive : Z) : PortalHealthStatus :=
  if is_text "pass" last then healthy
  else if is_text "fail" last then if 3 <=? consecutive then down else degraded
  else unknown.

(** services/portal_health_service.py, [_DISPLAY_NAMES]. *)
Definition _DISPLAY_NAMES (p : PortalPlatform) : string :=
  match p with
  | APPLIED_EPIC => "Applied Epic" | VERTAFORE_AMS360 => "Vertafore AMS360" | VERTAFORE_SIRCON => "Vertafore Sircon"
  | AMTRUST => "AmTrust Financial" | MARKEL => "Markel Specialty" | NATIONWIDE_ES => "Nationwide E&S" | CNA => "CNA"
  | GUIDEWIRE => "Guidewire" | HAWKSOFT => "HawkSoft" | EZLYNX => "EZLynx" | NOWCERTS => "NowCerts"
  end.

(** services/portal_health_service.py, [_build_row]; [None] is an exception: the
    count is no number. *)
Definition _build_row (p : PortalPlatform) (supported : bool) (raw : option (list (string * json))) : option PortalCoverageRow :=
  let row st changed n := {| pc_platform := platform_value p; pc_display_name := _DISPLAY_NAMES p; pc_supported := supported;
                             pc_status := st; last_status_change_at := changed; pc_failures := n |} in
  if negb supported then Some (row unknown None 0)
  else
    match raw with
    | None => Some (row unknown None 0)
    | Some d =>
        n ← json_int (jor (get_key "consecutive_failures" d) (JInt 0));
        Some (row (_derive_health (get_key "last_status" d) n)
                (match get_key "last_changed_at" d with JStr s => coerce_utc <$> fromisoformat s | _ => None end) n)
    end.

(** services/portal_health_service.py, [_safe_read_state]. *)
Definition _safe_read_state (file : json) (platform : string) : option (list (string * json)) :=
  match assoc platform (_load file) with Some (JObj d) => Some d | _ => None end.

(** The declared platforms, in the order of the enumeration. *)
Definition all_platforms : list PortalPlatform :=
  [APPLIED_EPIC; VERTAFORE_AMS360; VERTAFORE_SIRCON; AMTRUST; MARKEL; NATIONWIDE_ES; CNA; GUIDEWIRE; HAWKSOFT; EZLYNX; NOWCERTS].

(** [a <= b] on texts of ASCII characters *)
Fixpoint text_le (a b : string) : bool :=
  match a, b with
  | EmptyString, _ => true
  | _, EmptyString => false
  | String c a, String d b => (ord c <? ord d) || ((ord c =? ord d) && text_le a b)
  end.

(** services/portal_health_service.py, [load_portal_coverage]. *)
Definition load_portal_coverage (file : json) : option (list PortalCoverageRow) :=
  rows ← mapM (fun p => _build_row p (get_submitter_class p) (_safe_read_state file (platform_value p))) all_platforms;
  Some (isort (fun a b => text_le (lower (pc_display_name a)) (lower (pc_display_name b))) rows).

(** api/v1/public_portals.py, [PublicPortalCoverageResponse]. *)
Record PublicPortalCoverageResponse : Type := {
  portals_rows : list PortalCoverageRow; supported_count : Z; healthy_count : Z; total_count : Z }.

(** api/v1/public_portals.py, [list_public_portals]; [None] is a 500. *)
Definition list_public_portals (file : json) : option PublicPortalCoverageResponse :=
  rows ← load_portal_coverage file;
  Some {| portals_rows := rows;
          supported_count := Z.of_nat (length (List.filter pc_supported rows));
          healthy_count := Z.of_nat (length (List.filter (fun r => bool_decide (pc_status r = healthy)) rows));
          total_count := Z.of_nat (length rows) |}.

(** ** What the tracker promises

    A portal has not been seen, passes, or fails since some runs and was last
    alerted at some time. *)
Inductive portal_phase : Type := Unseen | Passing | Failing (n last_alert : Z).

(** One run of a portal: what is alerted, and the phase after it. *)
Definition phase_step (cooldown : Z) (ph : portal_phase) (now : Z) (passed : bool) : AlertKind * portal_phase :=
  match ph, passed with
  | Unseen, true | Passing, true => (noop, Passing)
  | Unseen, false | Passing, false => (drift, Failing 1 now)
  | Failing _ _, true => (recovery, Passing)
  | Failing n t, false => if cooldown <=? now - t then (persistent_failure, Failing (n + 1) now) else (noop, Failing (n + 1) t)
  end.

(** An observation: the time, the platform, and whether the run passed. *)
Definition observation : Type := Z * string * bool.

Fixpoint phases (cooldown : Z) (st : string -> portal_phase) (obs : list observation) : list AlertKind * (string -> portal_phase) :=
  match obs with
  | [] => ([], st)
  | (now, p, passed) :: obs =>
      let '(k, ph) := phase_step cooldown (st p) now passed in
      let '(ks, st') := phases cooldown (fun q => if String.eqb q p then ph else st q) obs in (k :: ks, st')
  end.

(** The tracker on the file. *)
Fixpoint observe_all (cooldown_sec : Z) (obs : list observation) (file : json) : option (list AlertKind * json) :=
  match obs with
  | [] => Some ([], file)
  | (now, p, passed) :: obs =>
      '(d, file) ← observe cooldown_sec true (utc now) p passed file;
      '(ks, file) ← observe_all cooldown_sec obs file;
      Some (kind d :: ks, file)
  end.

(** Whether the runs of [p] passed, the last one first. *)
Definition history (p : string) (obs : list observation) : list bool :=
  rev (map snd (List.filter (fun o => String.eqb o.1.2 p) obs)).

Fixpoint trailing (h : list bool) : Z := match h with false :: h => 1 + trailing h | _ => 0 end.

(** ** Lemmas *)

Definition time_ok (o : option datetime) : Prop :=
  match o with Some d => exists us, d = utc us /\ representable us | None => True end.

Lemma iso_roundtrip o : time_ok o -> _parse_iso (_iso o) = o.
Proof.
  destruct o as [d|]; [|done]. intros (us & -> & Hus). cbn [_iso _parse_iso]. change (coerce_utc (utc us)) with (utc us).
  rewrite (fromisoformat_isoformat us Hus). destruct (truthy (isoformat (utc us))) eqn:Ht; [done|].
  apply truthy_false in Ht. pose proof (fromisoformat_isoformat us Hus) as H. by rewrite Ht in H.
Qed.

Lemma from_to_dict s : time_ok (last_changed_at s) -> time_ok (last_alerted_at s) -> from_dict (Some (to_dict s)) = Some s.
Proof.
  intros H1 H2.
  change (from_dict (Some (to_dict s))) with
    (n ← json_int (jor (JInt (consecutive_failures s)) (JInt 0));
     Some {| last_status := last_status s; last_changed_at := _parse_iso (_iso (last_changed_at s));
             last_alerted_at := _parse_iso (_iso (last_alerted_at s)); consecutive_failures := n |}).
  rewrite (iso_roundtrip _ H1), (iso_roundtrip _ H2). destruct s as [l c a n]. cbn.
  unfold jor. cbn. by destruct (Z.eqb_spec n 0) as [->|].
Qed.

(** The snapshot is in the phase. *)
Definition in_phase (s : PortalStateSnapshot) (ph : portal_phase) : Prop :=
  time_ok (last_changed_at s) /\
  match ph with
  | Unseen => s = no_observations
  | Passing => last_status s = JStr "pass" /\ consecutive_failures s = 0 /\ time_ok (last_alerted_at s)
  | Failing n t => last_status s = JStr "fail" /\ consecutive_failures s = n /\ last_alerted_at s = Some (utc t) /\ representable t
  end.

Lemma in_phase_times s ph : in_phase s ph -> time_ok (last_alerted_at s).
Proof.
  intros [_ H]. destruct ph as [| |n t]; [by subst|apply H|]. destruct H as (_ & _ & -> & Ht). by exists t.
Qed.

Lemma decide_phase c s ph now passed :
  representable now -> in_phase s ph ->
  let d := _decide c s passed (utc now) in
  kind d = (phase_step (alert_cooldown c) ph now passed).1 /\
  in_phase (new_state d) (phase_step (alert_cooldown c) ph now passed).2.
Proof.
  intros Hnow [Hc Hph]. assert (Hok : time_ok (Some (utc now))) by (by exists now).
  assert (Hchanged : time_ok (Some (default (utc now) (last_changed_at s)))) by (by destruct (last_changed_at s)).
  destruct ph as [| |n t].
  - subst s. by destruct passed.
  - destruct Hph as (Hl & Hn & Ha). unfold _decide. rewrite Hl. cbn. by destruct passed.
  - destruct Hph as (Hl & Hn & Ha & Ht). unfold _decide. rewrite Hl, Ha, Hn. cbn -[Z.leb]. rewrite !instant_utc.
    destruct passed; [done|]. cbn. by destruct (alert_cooldown c <=? now - t).
Qed.

(** Every platform's entry of the file is in its phase. *)
Definition tracks (file : json) (st : string -> portal_phase) : Prop :=
  forall p, exists s, from_dict (assoc p (_load file)) = Some s /\ in_phase s (st p).

Lemma observe_tracks c now p passed file st :
  representable now -> tracks file st ->
  exists d file', observe c true (utc now) p passed file = Some (d, file') /\
    kind d = (phase_step (alert_cooldown c) (st p) now passed).1 /\
    tracks file' (fun q => if String.eqb q p then (phase_step (alert_cooldown c) (st p) now passed).2 else st q).
Proof.
  intros Hnow Htr. destruct (Htr p) as (s & Hs & Hph). unfold observe. rewrite Hs. cbn [mbind option_bind].
  destruct (decide_phase c s (st p) now passed Hnow Hph) as [Hk Hn]. cbv zeta in Hk, Hn.
  do 2 eexists. split; [reflexivity|]. split; [exact Hk|]. intros q. cbn [_load].
  destruct (String.eqb_spec q p) as [->|Hne].
  - rewrite assoc_set_key. eexists. split; [|exact Hn]. apply from_to_dict; [apply Hn|by eapply in_phase_times].
  - rewrite assoc_set_key_ne by (by intros ->). apply Htr.
Qed.

Lemma observe_all_tracks c obs : forall file st,
  Forall (fun o => representable o.1.1) obs -> tracks file st ->
  exists file', observe_all c obs file = Some ((phases (alert_cooldown c) st obs).1, file') /\
    tracks file' (phases (alert_cooldown c) st obs).2.
Proof.
  induction obs as [|[[now p] passed] obs IH]; intros file st Hobs Htr; cbn; [by eexists|].
  inversion Hobs as [|? ? Hnow Hobs']; subst. cbn in Hnow.
  destruct (observe_tracks c now p passed file st Hnow Htr) as (d & file1 & -> & Hk & Htr1). cbn.
  destruct (phase_step (alert_cooldown c) (st p) now passed) as [k ph] eqn:Hst. cbn [fst snd] in *.
  destruct (IH file1 _ Hobs' Htr1) as (file' & -> & Htr'). cbn.
  destruct (phases _ _ obs) as [ks st']. cbn in *. rewrite Hk. by eexists.
Qed.

Lemma tracks_empty : tracks JNull (fun _ => Unseen).
Proof. intros p. exists no_observations. by split. Qed.

Lemma history_snoc p obs o : history p (obs ++ [o]) = (if String.eqb o.1.2 p then [o.2] else []) ++ history p obs.
Proof.
  unfold history. rewrite List.filter_app, map_app, rev_app_distr. cbn [List.filter]. by destruct (String.eqb o.1.2 p).
Qed.

(** The phase a history leads to. *)
Lemma phases_history c obs : forall st p,
  match (phases c st obs).2 p with
  | Unseen => st p = Unseen /\ history p obs = []
  | Passing => match history p obs with [] => st p = Passing | b :: _ => b = true end
  | Failing n _ =>
      (exists h, history p obs = repeat false (Z.to_nat n) ++ true :: h /\ 1 <= n) \/
      (exists m, history p obs = repeat false m /\
         (match st p with Failing n0 _ => n = n0 + Z.of_nat m | _ => n = Z.of_nat m /\ (1 <= m)%nat end))
  end.
Proof.
  induction obs as [|[[now q] passed] obs IH] using rev_ind; intros st p.
  { cbn. destruct (st p) eqn:Hst; [done|done|]. right. exists 0%nat. split; [done|lia]. }
  assert (Hsnoc : forall st, (phases c st (obs ++ [(now, q, passed)])).2 =
    (fun x => if String.eqb x q then (phase_step c ((phases c st obs).2 q) now passed).2 else (phases c st obs).2 x)).
  { clear IH p. induction obs as [|[[now0 q0] passed0] obs IHo]; intros st0; cbn.
    - by destruct (phase_step c (st0 q) now passed).
    - destruct (phase_step c (st0 q0) now0 passed0) as [k ph].
      specialize (IHo (fun x => if String.eqb x q0 then ph else st0 x)).
      destruct (phases c _ (obs ++ _)), (phases c _ obs). exact IHo. }
  rewrite Hsnoc, history_snoc. cbn [fst snd]. specialize (IH st p). rewrite (String.eqb_sym q p). destruct (String.eqb_spec p q) as [->|Hne]; [|exact IH].
  cbn [app]. destruct ((phases c st obs).2 q) as [| |n t] eqn:Hph, passed; cbn [phase_step snd].
  - done.
  - destruct IH as [Hst ->]. right. exists 1%nat. rewrite Hst. by split.
  - done.
  - destruct (history q obs) as [|b h] eqn:Hh.
    + right. exists 1%nat. rewrite IH. by split.
    + subst b. left. exists h. by split.
  - done.
  - assert (Hgoal : forall t', match Failing (n + 1) t' with
       | Failing n _ => (exists h, false :: history q obs = repeat false (Z.to_nat n) ++ true :: h /\ 1 <= n) \/
           (exists m, false :: history q obs = repeat false m /\
              (match st q with Failing n0 _ => n = n0 + Z.of_nat m | _ => n = Z.of_nat m /\ (1 <= m)%nat end))
       | _ => False end).
    { intros _. destruct IH as [(h & Hh & Hn)|(m & Hh & Hm)]; [left|right].
      - exists h. rewrite Hh. replace (Z.to_nat (n + 1)) with (S (Z.to_nat n)) by lia. split; [done|lia].
      - exists (S m). rewrite Hh. split; [done|]. destruct (st q); lia. }
    by destruct (c <=? now - t); apply (Hgoal 0).
Qed.

Lemma trailing_repeat n h : trailing (repeat false n ++ true :: h) = Z.of_nat n.
Proof. induction n as [|n IH]; cbn [repeat app trailing]; [done|]. rewrite IH. lia. Qed.
Lemma trailing_all n : trailing (repeat false n) = Z.of_nat n.
Proof. induction n as [|n IH]; cbn [repeat trailing]; [done|]. rewrite IH. lia. Qed.

(** C21. The tracker implements its contract.  From an empty file, every sequence
    of runs of any platforms is recorded without an exception, and what is
    alerted at each run is what the phases of the platforms demand: a portal that
    starts to fail is reported at once, a failing one again when the cooldown has
    passed since it was last reported, a recovery always, and the platforms do
    not disturb one another - although between any two runs the state is written
    to and read back from JSON. *)
Theorem tracker_refines_phases cooldown_sec obs :
  Forall (fun o => representable o.1.1) obs ->
  exists file, observe_all cooldown_sec obs JNull = Some ((phases (alert_cooldown cooldown_sec) (fun _ => Unseen) obs).1, file).
Proof.
  intros Hobs. destruct (observe_all_tracks cooldown_sec obs JNull _ Hobs tracks_empty) as (file & Hrun & _). by exists file.
Qed.

(** The page reads from an entry what the tracker reads. *)
Lemma row_of_snapshot platform file s :
  from_dict (assoc (platform_value platform) (_load file)) = Some s ->
  exists row, _build_row platform true (_safe_read_state file (platform_value platform)) = Some row /\
    pc_status row = _derive_health (last_status s) (consecutive_failures s) /\ pc_failures row = consecutive_failures s.
Proof.
  unfold _safe_read_state. destruct (assoc (platform_value platform) (_load file)) as [v|]; cbn [default from_option id from_dict].
  2: { intros [= <-]. by eexists. }
  unfold from_dict. cbn [default from_option id].
  destruct (jtruthy v) eqn:Hv; cbn [negb].
  - destruct v as [| | | | |l|d]; try done. unfold _build_row. cbn [negb].
    destruct (json_int _) as [n|]; [|done]. intros [= <-]. by eexists.
  - intros [= <-]. destruct v as [| | | | |l|d]; try by eexists. destruct d; [|done]. by eexists.
Qed.

(** The coverage page shows what was observed.  After any runs, the row of a
    platform with a submitter is unknown if it was never run, healthy if its last
    run passed, degraded after one or two failures in a row and down after three
    or more, and names the number of failures in a row. *)
Theorem coverage_follows_observations cooldown_sec obs platform :
  Forall (fun o => representable o.1.1) obs ->
  exists ks file row, observe_all cooldown_sec obs JNull = Some (ks, file) /\
    _build_row platform true (_safe_read_state file (platform_value platform)) = Some row /\
    pc_status row = match history (platform_value platform) obs with
                    | [] => unknown
                    | true :: _ => healthy
                    | false :: _ => if 3 <=? trailing (history (platform_value platform) obs) then down else degraded
                    end /\
    pc_failures row = trailing (history (platform_value platform) obs).
Proof.
  intros Hobs. destruct (observe_all_tracks cooldown_sec obs JNull _ Hobs tracks_empty) as (file & Hrun & Htr).
  do 2 eexists. set (p := platform_value platform). destruct (Htr p) as (s & Hs & Hc & Hph).
  pose proof (phases_history (alert_cooldown cooldown_sec) obs (fun _ => Unseen) p) as Hhist. cbv beta in Hhist.
  destruct (row_of_snapshot platform file s Hs) as (row & Hrow & Hst & Hn). exists row.
  split; [exact Hrun|]. split; [exact Hrow|]. rewrite Hst, Hn. fold p.
  destruct ((phases _ _ obs).2 p) as [| |n t].
  - destruct Hhist as [_ ->]. by subst s.
  - destruct Hph as (-> & -> & _). destruct (history p obs) as [|b h]; [discriminate Hhist|]. by subst b.
  - destruct Hph as (-> & -> & _). destruct Hhist as [(h & -> & Hn1)|(m & -> & -> & Hm)].
    + rewrite trailing_repeat, Z2Nat.id by lia. by destruct (Z.to_nat n) as [|k] eqn:Hk; [lia|].
    + rewrite trailing_all. by destruct m as [|m]; [lia|].
Qed.


Module DemoSmoke.

(** a day in microseconds, and an evening of runs *)
Definition night : list observation :=
  [(0, "markel", true); (10, "markel", false); (20, "cna", false); (30, "markel", false); (seconds 100, "markel", false);
   (seconds 101, "cna", true)].

Lemma night_representable : Forall (fun o : observation => representable o.1.1) night.
Proof. repeat constructor; vm_compute; try discriminate. Qed.

Lemma tracker_refines_phases_witness :
  exists file, observe_all 60 night JNull = Some ([noop; drift; drift; noop; persistent_failure; recovery], file).
Proof. exact (tracker_refines_phases 60 night night_representable). Defined.

Lemma coverage_follows_observations_witness :
  exists ks file row, observe_all 60 night JNull = Some (ks, file) /\
    _build_row MARKEL true (_safe_read_state file "markel") = Some row /\ pc_status row = down /\ pc_failures row = 3.
Proof. exact (coverage_follows_observations 60 night MARKEL night_representable). Defined.

(** A count in the file that is no number makes the public page raise. *)
Example malformed_count_raises :
  list_public_portals (JObj [("markel", JObj [("consecutive_failures", JStr "many")])]) = None.
Proof. vm_compute. reflexivity. Qed.

(** An unknown status text in the file hides a failed run: it is recorded as a
    pass and nothing is alerted. *)
Example unknown_status_hides_failure :
  let s := {| last_status := JStr "FAIL"; last_changed_at := None; last_alerted_at := None; consecutive_failures := 4 |} in
  let d := _decide 60 s false (utc 5) in kind d = noop /\ last_status (new_state d) = JStr "pass".
Proof. by split. Qed.

(** An alert that was not delivered is not counted as a failure, and the next
    failing run inside the cooldown says nothing. *)
Example undelivered_alert_is_lost :
  exists file, _dispatch_alerts 60 (fun _ => Delivered false) (fun n => utc (10 - Z.of_nat n))
    [{| sr_platform := "cna"; sr_passed := false |}; {| sr_platform := "cna"; sr_passed := false |}]
    {| n_drift := 0; n_persistent := 0; n_recovery := 0; n_noop := 0; n_dispatch_failures := 0 |} [] JNull =
    Some ({| n_drift := 1; n_persistent := 0; n_recovery := 0; n_noop := 1; n_dispatch_failures := 0 |},
          [Alert drift "cna" 1 0], file).
Proof. vm_compute. by eexists. Qed.

End DemoSmoke.
