(* ===== verification/Notifier.v ===== *)
(** * Slack alerts

    services/slack_notifier.py: the messages about portals and their delivery, behind the
    dispatch of SmokeState.v.  Texts are UTF-8.  [httpx.post] and the clock are arguments. *)

From Stdlib Require Import Ascii.
From S2P Require Import Prelude PyStr Json PyTime SmokeState.

(** ** Text *)

(** [s[:n]] of a text of UTF-8, and its length: bytes that continue a character do not
    count. *)
Definition continues (c : ascii) : bool := (128 <=? ord c) && (ord c <? 192).
Fixpoint utake (n : nat) (s : string) : string :=
  match s with
  | EmptyString => EmptyString
  | String c r => if continues c then String c (utake n r) else match n with O => EmptyString | S n => String c (utake n r) end
  end.
Fixpoint ulen (s : string) : nat := match s with EmptyString => 0 | String c r => (if continues c then 0 else 1) + ulen r end.

Lemma ulen_utake n s : (ulen (utake n s) <= n)%nat.
Proof.
  revert n. induction s as [|c s IH]; intros n; cbn [utake]; [cbn; lia|]. destruct (continues c) eqn:Hc.
  - cbn [ulen]. rewrite Hc. specialize (IH n). lia.
  - destruct n as [|n]; [cbn; lia|]. cbn [ulen]. rewrite Hc. specialize (IH n). lia.
Qed.

Lemma utake_id n s : (ulen s <= n)%nat -> utake n s = s.
Proof.
  revert n. induction s as [|c s IH]; intros n Hn; cbn [utake ulen] in *; [done|]. destruct (continues c); [by rewrite IH|].
  destruct n as [|n]; [lia|]. rewrite IH; [done|lia].
Qed.

(** ** Messages *)

(** services/slack_notifier.py, [Severity] *)
Inductive Severity : Type := critical | warning | info.
(** services/slack_notifier.py, [_SEVERITY_COLOR] *)
Definition _SEVERITY_COLOR (s : Severity) : string := match s with critical => "#dc2626" | warning => "#ea580c" | info => "#10b981" end.
(** services/slack_notifier.py, [_SEVERITY_EMOJI] *)
Definition _SEVERITY_EMOJI (s : Severity) : string :=
  match s with critical => ":rotating_light:" | warning => ":warning:" | info => ":white_check_mark:" end.

(** services/slack_notifier.py:77-85, [SlackNotifier.notify]: its keyword arguments. *)
Record message : Type := {
  title : string; severity : Severity; body_lines : list string; fields : list (string * string); mention_here : bool }.

(** services/slack_notifier.py, [build_drift_payload] *)
Definition build_drift_payload (platform : string) (error : option string) (submitter : string) (duration_sec : spec_float) : message :=
  {| title := "Portal DRIFT detected — " +:+ platform; severity := critical;
     body_lines := ["*" +:+ platform +:+ "* smoke-test transitioned PASS → FAIL.";
                    "Operator action required: confirm selector update, push hotfix, and re-arm submitter."];
     fields := [("Submitter", submitter); ("Error", utake 500 (sor (default "" error) "(no error string)"));
                ("Duration", fixed_point 2 duration_sec +:+ "s")];
     mention_here := true |}.

(** services/slack_notifier.py, [build_persistent_failure_payload] *)
Definition build_persistent_failure_payload (platform : string) (error : option string) (submitter : string) (failures : Z)
    (duration_sec : spec_float) : message :=
  {| title := "Portal still failing — " +:+ platform +:+ " (" +:+ str_of_Z failures +:+ "x)"; severity := warning;
     body_lines := ["*" +:+ platform +:+ "* smoke-test still failing after " +:+ str_of_Z failures +:+ " consecutive runs."];
     fields := [("Submitter", submitter); ("Error", utake 500 (sor (default "" error) "(no error string)"));
                ("Duration", fixed_point 2 duration_sec +:+ "s")];
     mention_here := false |}.

(** services/slack_notifier.py, [build_recovery_payload] *)
Definition build_recovery_payload (platform submitter : string) (downtime_sec : spec_float) : message :=
  {| title := "Portal RECOVERED — " +:+ platform; severity := info;
     body_lines := ["*" +:+ platform +:+ "* smoke-test is passing again.";
                    "Approximate downtime: " +:+ fixed_point 1 (fdiv downtime_sec (float_of_Z 60)) +:+ " min."];
     fields := [("Submitter", submitter)]; mention_here := false |}.

Definition newline : string := String "010" "".
Definition mrkdwn (s : string) : json := JObj [("type", JStr "mrkdwn"); ("text", JStr s)].

(** services/slack_notifier.py:148-189, [SlackNotifier._build_payload]: the blocks; [now] is
    the clock. *)
Definition blocks (now : datetime) (m : message) : list json :=
  let header_text := _SEVERITY_EMOJI (severity m) +:+ " " +:+ title m in
  let body := match body_lines m with [] => "_(no detail)_" | l => join newline l end in
  let body := if mention_here m then "<!here>" +:+ newline +:+ body else body in
  [JObj [("type", JStr "header"); ("text", JObj [("type", JStr "plain_text"); ("text", JStr (utake 150 header_text)); ("emoji", JBool true)])];
   JObj [("type", JStr "section"); ("text", mrkdwn (utake 2900 body))]] ++
  match fields m with
  | [] => []
  | fs => [JObj [("type", JStr "section");
                 ("fields", JList (take 10 (map (fun kv => mrkdwn (utake 2000 ("*" +:+ kv.1 +:+ "*" +:+ newline +:+ kv.2))) fs)))]]
  end ++
  [JObj [("type", JStr "context"); ("elements", JList [mrkdwn ("Once portal-drift monitor · " +:+ isoformat now)])]].

(** services/slack_notifier.py, [SlackNotifier] *)
Record SlackNotifier : Type := { webhook_url : string; channel : string }.

(** services/slack_notifier.py, [SlackNotifier._build_payload] *)
Definition _build_payload (n : SlackNotifier) (now : datetime) (m : message) : json :=
  JObj [("channel", JStr (channel n)); ("username", JStr "Once portal-monitor"); ("icon_emoji", JStr ":lock:");
        ("attachments", JList [JObj [("color", JStr (_SEVERITY_COLOR (severity m))); ("blocks", JList (blocks now m))]])].

(** ** Delivery *)

(** What [httpx.post] does: it answers, raises an [httpx.HTTPError], or raises something
    else, such as [httpx.InvalidURL]. *)
Inductive posted : Type := Answered (status_code : Z) | HTTPError | OtherError.

Section Delivery.
Context (post : string -> json -> posted).

(** services/slack_notifier.py, [SlackNotifier.enabled] *)
Definition enabled (n : SlackNotifier) : bool := truthy (webhook_url n).

(** services/slack_notifier.py, [SlackNotifier.notify] *)
Definition notify (n : SlackNotifier) (now : datetime) (m : message) : notified :=
  if negb (enabled n) then Delivered false
  else
    match post (webhook_url n) (_build_payload n now m) with
    | HTTPError => Delivered false
    | OtherError => NotifyRaised
    | Answered status_code => if 400 <=? status_code then Delivered false else Delivered true
    end.

(** What else a smoke test leaves about a portal. *)
Record run_detail : Type := { submitter : string; error : option string; duration_sec : spec_float }.

(** workers/tasks/smoke_test_tasks.py:207-228, [_dispatch_alerts]: the message of an
    alert. *)
Definition message_of (detail : string -> run_detail) (a : alert) : option message :=
  let '(Alert k platform n elapsed) := a in
  let d := detail platform in
  match k with
  | drift => Some (build_drift_payload platform (error d) (submitter d) (duration_sec d))
  | persistent_failure => Some (build_persistent_failure_payload platform (error d) (submitter d) n (duration_sec d))
  | recovery => Some (build_recovery_payload platform (submitter d) (float_of_ratio (elapsed <? 0) (Z.abs elapsed) us_per_second))
  | noop => None
  end.

(** [notifier.notify] as the dispatch of SmokeState.v calls it. *)
Definition notify_alert (n : SlackNotifier) (now : datetime) (detail : string -> run_detail) (a : alert) : notified :=
  match message_of detail a with Some m => notify n now m | None => Delivered false end.
End Delivery.

(** services/slack_notifier.py, [SlackNotifier.__init__]; the settings are [url] and
    [alert_channel]. *)
Definition make_notifier (url alert_channel : string) (given_url given_channel : option string) : SlackNotifier :=
  {| webhook_url := default url given_url; channel := default alert_channel (opt_truthy given_channel) |}.

(** services/slack_notifier.py, [get_default_notifier]: the notifier of the process. *)
Definition get_default_notifier (url alert_channel : string) (cached : option SlackNotifier) : SlackNotifier * option SlackNotifier :=
  let n := default (make_notifier url alert_channel None None) cached in (n, Some n).

(** ** Properties *)

(** The limits that Slack documents for a block. *)
Definition field (k : string) (j : json) : option json := match j with JObj kvs => assoc k kvs | _ => None end.
Definition text_of (j : json) : string := match field "text" j with Some (JStr s) => s | _ => "" end.
Definition fits (block : json) : Prop :=
  match field "type" block, field "text" block, field "fields" block with
  | Some (JStr "header"), Some t, None => (ulen (text_of t) <= 150)%nat
  | Some (JStr "section"), Some t, None => (ulen (text_of t) <= 3000)%nat
  | Some (JStr "section"), None, Some (JList l) => (1 <= length l <= 10)%nat /\ Forall (fun t => (ulen (text_of t) <= 2000)%nat) l
  | Some (JStr "context"), None, None => True
  | _, _, _ => False
  end.

(** A message is never refused for its size: whatever the name of a portal, its error and the
    fields hold, every block keeps to the limits of Slack. *)
Theorem message_fits_slack now m : Forall fits (blocks now m) /\ (length (blocks now m) <= 4)%nat.
Proof.
  assert (Hbody : forall s, (ulen (utake 2900 s) <= 3000)%nat) by (intros s; pose proof (ulen_utake 2900 s); lia).
  assert (Hf : forall fs, fs <> [] -> fits (JObj [("type", JStr "section");
      ("fields", JList (take 10 (map (fun kv => mrkdwn (utake 2000 ("*" +:+ kv.1 +:+ "*" +:+ newline +:+ kv.2))) fs)))])).
  { intros fs Hne. set (l := take 10 _). change ((1 <= length l <= 10)%nat /\ Forall (fun t => (ulen (text_of t) <= 2000)%nat) l). unfold l.
    rewrite length_take, length_map. split; [destruct fs; [done|]; cbn [length]; lia|].
    apply Forall_take, Forall_forall. intros t Ht. apply list_elem_of_fmap in Ht as (kv & -> & _). apply ulen_utake. }
  unfold blocks. destruct (fields m) as [|f fs].
  - split; [|cbn; lia]. cbn [app]. rewrite !Forall_cons, Forall_nil. split_and!; [apply ulen_utake|apply Hbody|done|done].
  - split; [|cbn; lia]. cbn [app]. rewrite !Forall_cons, Forall_nil. split_and!; [apply ulen_utake|apply Hbody|by apply Hf|done|done].
Qed.

(** An outage looks like delivery: as long as the transport fails only as it is documented
    to, or answers an error, or no address is configured, the task counts, sends and stores
    what it would if every message had been delivered, so no alert is repeated for it. *)
Theorem outage_looks_like_delivery post n now detail cooldown clock results c sent file :
  (forall m, post (webhook_url n) (_build_payload n now m) <> OtherError) ->
  _dispatch_alerts cooldown (notify_alert post n now detail) clock results c sent file =
  _dispatch_alerts cooldown (fun _ => Delivered true) clock results c sent file.
Proof.
  intros Hpost. assert (Hn : forall a, exists ok, notify_alert post n now detail a = Delivered ok).
  { intros a. unfold notify_alert, notify. destruct (message_of detail a) as [m|]; [|eauto]. destruct (enabled n); cbn [negb]; [|eauto].
    specialize (Hpost m). destruct (post _ _) as [st| |]; [destruct (400 <=? st); eauto|eauto|done]. }
  revert c sent file. induction results as [|r results IH]; intros c sent file; cbn [_dispatch_alerts]; [done|].
  destruct (observe _ _ _ _ _ _) as [[d f]|]; cbn [mbind option_bind]; [|done].
  destruct (kind d); [..|apply IH]; match goal with |- context [notify_alert _ _ _ _ ?a] => destruct (Hn a) as [ok ->] end; apply IH.
Qed.

(** ** Messages *)

Module DemoNotifier.
Definition slack : SlackNotifier := make_notifier "https://hooks.slack.com/x" "#portal-drift" None (Some "").
Definition detail (p : string) : run_detail := {| submitter := "CnaSubmitter"; error := Some "timeout"; duration_sec := flit 1234567 100000 |}.
Definition now : datetime := utc (days 20000).
Definition results : list smoke_result := [{| sr_platform := "cna"; sr_passed := false |}; {| sr_platform := "markel"; sr_passed := true |}].
Definition none : alert_counts := {| n_drift := 0; n_persistent := 0; n_recovery := 0; n_noop := 0; n_dispatch_failures := 0 |}.

Example drift_message : option_map (fun m => (title m, map snd (fields m), ulen (title m))) (message_of detail (Alert drift "cna" 1 0)) =
  Some ("Portal DRIFT detected — cna", ["CnaSubmitter"; "timeout"; "12.35s"], 27%nat).
Proof. vm_compute. reflexivity. Qed.

Example recovery_message : option_map (fun m => last (body_lines m)) (message_of detail (Alert recovery "cna" 0 (minutes 7))) =
  Some (Some "Approximate downtime: 7.0 min.").
Proof. vm_compute. reflexivity. Qed.

(** A redirect is taken for a delivery, although only a 2xx answer is documented to be one;
    an address that is no URL raises. *)
Definition hello : message := {| title := "t"; severity := info; body_lines := []; fields := []; mention_here := false |}.
Example answers : map (fun p => notify (fun _ _ => p) slack now hello) [Answered 200; Answered 302; Answered 404; HTTPError; OtherError] =
    [Delivered true; Delivered true; Delivered false; Delivered false; NotifyRaised] /\
  notify (fun _ _ => Answered 200) (make_notifier "" "#a" None None) now hello = Delivered false.
Proof. vm_compute. split; reflexivity. Qed.

(** The notifier of the process keeps the address it was first made with. *)
Example cached_notifier : (get_default_notifier "b" "#b" (snd (get_default_notifier "a" "#a" None))).1 = {| webhook_url := "a"; channel := "#a" |}.
Proof. reflexivity. Qed.

Lemma outage_looks_like_delivery_witness :
  exists c sent file, _dispatch_alerts 3600 (notify_alert (fun _ _ => HTTPError) slack now detail) (fun _ => now) results none [] JNull = Some (c, sent, file) /\
    n_dispatch_failures c = 0 /\ sent = [Alert drift "cna" 1 0].
Proof.
  rewrite (outage_looks_like_delivery (fun _ _ => HTTPError) slack now detail 3600 (fun _ => now) results none [] JNull) by discriminate.
  eexists _, _, _. split; [vm_compute; reflexivity|]. split; reflexivity.
Defined.
End DemoNotifier.
