(* ===== verification/Records.v ===== *)
(** * Tenant records: rows, tables and the session

    The rows of suppliers, loss runs, E&O certificates, risk schedules, producer
    licenses, ACORD forms and consents (models/*.py), the constraints their tables
    declare, and what a flush does.  A row holds its columns by name; the services
    assign attributes by name as well.  [updated_at] is the clock of the database
    and is not kept. *)

From S2P Require Import Prelude PyStr Json.

(** ** Values and rows *)

(** The value of an attribute: null, text, a number, a day, a time, or JSON. *)
Inductive value : Type :=
| VNull | VText (s : string) | VInt (n : Z) | VDate (day : Z) | VTime (us : Z) | VJson (j : json).

#[export] Instance value_eq_dec : EqDecision value.
Proof. solve_decision. Defined.

Inductive table : Type := Suppliers | LossRuns | EOCertificates | RiskSchedules | ProducerLicenses | AcordForms | Consents.

#[export] Instance table_eq_dec : EqDecision table.
Proof. solve_decision. Defined.

(** models/base.py, [TenantScopedMixin]; the key, the tenant and the time of
    creation, and the columns of the table. *)
Record Row : Type := {
  row_table : table;
  row_id : string;
  row_tenant_id : string;
  row_created_at : Z;
  cells : gmap string value;
}.

Definition with_cells (c : gmap string value) (r : Row) : Row :=
  {| row_table := row_table r; row_id := row_id r; row_tenant_id := row_tenant_id r; row_created_at := row_created_at r;
     cells := c |}.

(** What the column holds; an absent cell is the null of SQL. *)
Definition cell (k : string) (r : Row) : value := default VNull (cells r !! k).

(** [row.k]: the null of JSON is read as None as well. *)
Definition attr (k : string) (r : Row) : value := match cell k r with VJson JNull => VNull | v => v end.

(** ** Tables *)

Inductive ctype : Type := Varchar (n : Z) | Text | Integer | BigInteger | Date | DateTime | JSON.

Record column : Type := { c_name : string; c_type : ctype; c_nullable : bool; c_default : value }.

Definition col (n : string) (t : ctype) : column := {| c_name := n; c_type := t; c_nullable := false; c_default := VNull |}.
Definition nul (n : string) (t : ctype) : column := {| c_name := n; c_type := t; c_nullable := true; c_default := VNull |}.
Definition dflt (n : string) (t : ctype) (d : string) : column :=
  {| c_name := n; c_type := t; c_nullable := false; c_default := VText d |}.

Definition supplier_fk : column := col "supplier_id" (Varchar 36).

(** models/supplier.py, [Supplier]. *)
Definition Supplier_columns : list column :=
  [col "legal_name" (Varchar 255); nul "dba_name" (Varchar 255); nul "ein" (Varchar 32); nul "naics_code" (Varchar 16);
   nul "primary_email" (Varchar 320); nul "primary_phone" (Varchar 32); nul "address_json" JSON; nul "website" (Varchar 512)].

(** models/loss_run.py, [LossRun]. *)
Definition LossRun_columns : list column :=
  [supplier_fk; col "period_start" Date; col "period_end" Date; col "carrier_name" (Varchar 255);
   col "line_of_business" (Varchar 64); nul "total_premium_cents" BigInteger; nul "total_incurred_cents" BigInteger;
   nul "total_paid_cents" BigInteger; nul "claim_count" Integer; nul "file_id" (Varchar 36); nul "file_sha256" (Varchar 64);
   dflt "status" (Varchar 32) "uploaded"; nul "parsed_at" DateTime; nul "parse_error" Text; nul "metadata_json" JSON].

(** models/eo_certificate.py, [EOCertificate]. *)
Definition EOCertificate_columns : list column :=
  [supplier_fk; col "carrier_name" (Varchar 255); col "policy_number" (Varchar 64); col "coverage_amount_cents" BigInteger;
   nul "aggregate_amount_cents" BigInteger; nul "deductible_cents" BigInteger; col "effective_date" Date;
   col "expiration_date" Date; col "named_insured" (Varchar 255); nul "additional_insureds" JSON;
   dflt "status" (Varchar 32) "active"; nul "file_id" (Varchar 36); nul "file_sha256" (Varchar 64); nul "metadata_json" JSON].

(** models/risk_schedule.py, [RiskSchedule]. *)
Definition RiskSchedule_columns : list column :=
  [supplier_fk; col "line_of_business" (Varchar 64); col "schedule_type" (Varchar 32); col "effective_date" Date;
   nul "expiration_date" Date; nul "total_value_cents" BigInteger;
   {| c_name := "item_count"; c_type := Integer; c_nullable := false; c_default := VInt 0 |};
   col "items" JSON; col "items_hash" (Varchar 64); nul "source_file_id" (Varchar 36); nul "source_file_sha256" (Varchar 64);
   nul "metadata_json" JSON].

(** models/producer_license.py, [ProducerLicense]. *)
Definition ProducerLicense_columns : list column :=
  [supplier_fk; col "state" (Varchar 2); col "license_number" (Varchar 64);
   dflt "license_type" (Varchar 32) "resident_producer"; col "licensee_name" (Varchar 255); nul "npn" (Varchar 16);
   col "effective_date" Date; col "expiration_date" Date; nul "lines_authorized" JSON; dflt "status" (Varchar 32) "active";
   nul "file_id" (Varchar 36); nul "file_sha256" (Varchar 64); nul "metadata_json" JSON].

(** models/acord_form.py, [AcordForm]. *)
Definition AcordForm_columns : list column :=
  [supplier_fk; col "form_type" (Varchar 16); dflt "form_version" (Varchar 16) "current"; col "payload" JSON;
   col "payload_hash" (Varchar 64); nul "effective_date" Date; nul "expiration_date" Date; nul "pdf_file_id" (Varchar 36);
   nul "pdf_sha256" (Varchar 64); dflt "status" (Varchar 32) "draft"; nul "superseded_by_id" (Varchar 36);
   nul "metadata_json" JSON].

(** models/consent.py, [ConsentRecord]. *)
Definition ConsentRecord_columns : list column :=
  [supplier_fk; col "scope" (Varchar 32);
   {| c_name := "portal_ids_json"; c_type := JSON; c_nullable := false; c_default := VJson (JList []) |};
   col "granted_at" DateTime; nul "revoked_at" DateTime; col "granted_by_user_id" (Varchar 36); col "signed_text" Text;
   col "signature_b64" Text].

Definition columns (t : table) : list column :=
  match t with
  | Suppliers => Supplier_columns
  | LossRuns => LossRun_columns
  | EOCertificates => EOCertificate_columns
  | RiskSchedules => RiskSchedule_columns
  | ProducerLicenses => ProducerLicense_columns
  | AcordForms => AcordForm_columns
  | Consents => ConsentRecord_columns
  end.

(** [a < b] and [a >= 0] of SQL as constraints: null passes. *)
Definition sql_before (a b : string) (r : Row) : bool :=
  match cell a r, cell b r with VDate x, VDate y => x <? y | _, _ => true end.
Definition sql_nonneg (a : string) (r : Row) : bool := match cell a r with VInt n => 0 <=? n | _ => true end.

(** The check constraints of the tables. *)
Definition checks (r : Row) : bool :=
  match row_table r with
  | LossRuns => sql_before "period_start" "period_end" r
  | EOCertificates => sql_before "effective_date" "expiration_date" r && sql_nonneg "coverage_amount_cents" r
  | RiskSchedules => sql_before "effective_date" "expiration_date" r && sql_nonneg "item_count" r
  | ProducerLicenses => sql_before "effective_date" "expiration_date" r
  | Suppliers | AcordForms | Consents => true
  end.

(** The unique constraint of producer licenses. *)
Definition license_key (r : Row) : string * value * value * value :=
  (row_tenant_id r, cell "supplier_id" r, cell "state" r, cell "license_number" r).
Definition clash (r x : Row) : bool :=
  bool_decide (row_table x = row_table r) &&
  (String.eqb (row_id x) (row_id r) ||
   (bool_decide (row_table r = ProducerLicenses) && bool_decide (license_key x = license_key r))).

(** The value can be bound to a column of the type. *)
Definition fits (t : ctype) (v : value) : bool :=
  match v, t with
  | VNull, _ => true
  | VText s, Varchar n => slen s <=? n
  | VText _, Text => true
  | VInt n, Integer => (- 2 ^ 31 <=? n) && (n <? 2 ^ 31)
  | VInt n, BigInteger => (- 2 ^ 63 <=? n) && (n <? 2 ^ 63)
  | VDate _, Date | VTime _, DateTime | VJson _, JSON => true
  | _, _ => false
  end.

Definition typed (r : Row) : bool := forallb (fun c => fits (c_type c) (cell (c_name c) r)) (columns (row_table r)).
Definition not_null (r : Row) : bool :=
  forallb (fun c => c_nullable c || bool_decide (cell (c_name c) r <> VNull)) (columns (row_table r)).

(** ** The database *)

(** models/audit.py, [AuditLog]. *)
Record AuditLog : Type := {
  al_tenant_id : string; al_actor_user_id : option string; al_action : string; al_resource_type : string;
  al_resource_id : option string; al_metadata : list (string * json); al_ip_address : option string }.

Record RecordsDB : Type := { rows : list Row; audit_logs : list AuditLog; next_id : nat }.

Definition with_rows (f : list Row -> list Row) (db : RecordsDB) : RecordsDB :=
  {| rows := f (rows db); audit_logs := audit_logs db; next_id := next_id db |}.
Definition add_log (a : AuditLog) (db : RecordsDB) : RecordsDB :=
  {| rows := rows db; audit_logs := audit_logs db ++ [a]; next_id := next_id db |}.
Definition bump (db : RecordsDB) : RecordsDB := {| rows := rows db; audit_logs := audit_logs db; next_id := S (next_id db) |}.

(** A row of the table with this key. *)
Definition is_row (t : table) (i : string) (r : Row) : bool := bool_decide (row_table r = t) && String.eqb (row_id r) i.

(** A foreign key is null or names a row of the table. *)
Definition references (t : table) (v : value) (l : list Row) : bool :=
  match v with VText i => existsb (is_row t i) l | _ => true end.

Definition foreign_keys (r : Row) (l : list Row) : bool :=
  references Suppliers (cell "supplier_id" r) l &&
  (negb (bool_decide (row_table r = AcordForms)) || references AcordForms (cell "superseded_by_id" r) (r :: l)).

Inductive db_error : Type := IntegrityError | DataError.
#[export] Instance db_error_eq_dec : EqDecision db_error.
Proof. solve_decision. Defined.

(** What the database has against the row, beside the rows [l]. *)
Definition violation (r : Row) (l : list Row) : option db_error :=
  if negb (typed r) then Some DataError
  else if negb (not_null r && checks r) || existsb (clash r) l || negb (foreign_keys r l) then Some IntegrityError
  else None.

(** ** Exceptions of the services *)

Inductive record_error : Type :=
| NotFoundError
| SupplierNotInTenantError
| DuplicateLicenseError
| InvalidSupersedeReferenceError
| DbError (e : db_error)
| CanonicalizationError.

#[export] Instance record_error_eq_dec : EqDecision record_error.
Proof. solve_decision. Defined.

Abbreviation RM := (M (session RecordsDB) record_error).

(** [T(tenant_id=..., **data)]: None in a JSON column is stored as the null of
    JSON, a missing attribute takes the default of its column. *)
Definition bind_value (c : column) (v : value) : value :=
  match c_type c, v with JSON, VNull => VJson JNull | _, v => v end.

Definition assign (t : table) (data : gmap string value) (old : gmap string value) : gmap string value :=
  foldr (fun c m => match data !! c_name c with Some v => <[c_name c := bind_value c v]> m | None => m end) old (columns t).

Definition defaults (t : table) : gmap string value :=
  foldr (fun c m => match c_default c with VNull => m | v => <[c_name c := v]> m end) ∅ (columns t).

(** ** Operations of the session *)

Section Session.
Context (uuid : nat -> string) (now : Z).

(** [session.add(row); await session.flush(); await session.refresh(row)] *)
Definition insert_row (t : table) (tenant_id : string) (data : gmap string value) : RM Row :=
  let* n := query next_id in
  let* l := query rows in
  let r := {| row_table := t; row_id := uuid n; row_tenant_id := tenant_id; row_created_at := now;
              cells := assign t data (defaults t) |} in
  match violation r l with
  | Some e => raise (DbError e)
  | None => write (fun db => bump (with_rows (fun l => l ++ [r]) db)) ;;; ret r
  end.
End Session.

(** [for key, value in data.items(): setattr(row, key, value)] and a flush *)
Definition update_row (r : Row) (data : gmap string value) : RM Row :=
  let r' := with_cells (assign (row_table r) data (cells r)) r in
  let* others := query (fun db => List.filter (fun x => negb (is_row (row_table r) (row_id r) x)) (rows db)) in
  match violation r' others with
  | Some e => raise (DbError e)
  | None => write (with_rows (map (fun x => if is_row (row_table r) (row_id r) x then r' else x))) ;;; ret r'
  end.

(** The row itself, and the rows that go with a deleted supplier. *)
Definition gone (r x : Row) : bool :=
  is_row (row_table r) (row_id r) x
  || (bool_decide (row_table r = Suppliers) && bool_decide (cell "supplier_id" x = VText (row_id r))).

(** A reference to a deleted form is set to null. *)
Definition unset_superseded (deleted : list Row) (x : Row) : Row :=
  if bool_decide (row_table x = AcordForms)
     && match cell "superseded_by_id" x with VText i => existsb (is_row AcordForms i) deleted | _ => false end
  then with_cells (<["superseded_by_id" := VNull]> (cells x)) x else x.

(** [await session.delete(row); await session.flush()] *)
Definition delete_row (r : Row) : RM unit :=
  write (with_rows (fun l => map (unset_superseded (List.filter (gone r) l)) (List.filter (fun x => negb (gone r x)) l))).

(** [select(T).where(T.id == i, T.tenant_id == t).scalar_one_or_none()] *)
Definition own_row (t : table) (tenant_id i : string) (db : RecordsDB) : option Row :=
  find_first (fun r => is_row t i r && String.eqb (row_tenant_id r) tenant_id) (rows db).

(** The rows of a tenant in a table. *)
Definition tenant_rows (t : table) (tenant_id : string) (db : RecordsDB) : list Row :=
  List.filter (fun r => bool_decide (row_table r = t) && String.eqb (row_tenant_id r) tenant_id) (rows db).
