(* ===== verification/RecordSchemas.v ===== *)
(** * Tenant records: request schemas

    The bodies of the record endpoints (schemas/*.py): the fields with their
    constraints, read by one interpreter, and the validators across fields.  What
    pydantic accepts as a number, a date, a time, an e-mail address or an URL is an
    argument.  A validated body is the attributes that were sent, as
    [model_dump(exclude_unset=True)] gives them. *)

From Stdlib Require Import Ascii.
From S2P Require Import Prelude PyStr Json Records.

(** The readers of pydantic in its lax mode. *)
Class Pydantic : Type := {
  lax_int : json -> option Z;
  lax_date : json -> option Z;
  lax_datetime : json -> option Z;
  email_str : string -> option string;
  http_url : string -> option string;
}.

Inductive ftype : Type :=
| FStr | FInt | FDate | FDatetime | FEnum (values : list string) | FStrList | FDict | FDictList | FEmail | FUrl.

Inductive constraint : Type :=
| MinLength (n : Z) | MaxLength (n : Z) | Ge (n : Z) | Hex64 | Npn.

Record field : Type := {
  f_name : string; f_type : ftype; f_required : bool; f_nullable : bool; f_constraints : list constraint;
  f_validator : value -> option value }.

Definition field_of (req null : bool) (n : string) (t : ftype) (cs : list constraint) : field :=
  {| f_name := n; f_type := t; f_required := req; f_nullable := null; f_constraints := cs; f_validator := Some |}.
(** [n: T = Field(...)], [n: T = default] and [n: T | None = None] *)
Definition required := field_of true false.
Definition defaulted := field_of false false.
Definition optional := field_of false true.
Definition validated (f : field) (v : value -> option value) : field :=
  {| f_name := f_name f; f_type := f_type f; f_required := f_required f; f_nullable := f_nullable f;
     f_constraints := f_constraints f; f_validator := v |}.

Record schema : Type := { s_fields : list field; s_check : gmap string value -> bool }.

Definition value_len (v : value) : Z :=
  match v with
  | VText s => slen s
  | VJson (JObj d) => Z.of_nat (length d)
  | VJson (JList l) => Z.of_nat (length l)
  | _ => 0
  end.

Definition is_hex_digit (c : ascii) : bool := is_digit c || in_range 97 102 c.

Definition satisfies (v : value) (c : constraint) : bool :=
  match c, v with
  | MinLength n, _ => n <=? value_len v
  | MaxLength n, _ => value_len v <=? n
  | Ge n, VInt z => n <=? z
  | Hex64, VText s => (slen s =? 64) && sall is_hex_digit s
  | Npn, VText s => (1 <=? slen s) && (slen s <=? 16) && sall is_digit s
  | _, _ => false
  end.

Section Validation.
Context `{Pydantic}.

Definition strip_item (j : json) : option json := match j with JStr s => Some (JStr (strip s)) | _ => None end.
Definition is_object (j : json) : bool := match j with JObj _ => true | _ => false end.

(** A value of the type; text is stripped ([str_strip_whitespace]). *)
Definition parse_type (t : ftype) (j : json) : option value :=
  match t, j with
  | FStr, JStr s => Some (VText (strip s))
  | FInt, _ => VInt <$> lax_int j
  | FDate, _ => VDate <$> lax_date j
  | FDatetime, _ => VTime <$> lax_datetime j
  | FEnum vs, JStr s => if existsb (String.eqb s) vs then Some (VText s) else None
  | FStrList, JList l => (fun l => VJson (JList l)) <$> mapM strip_item l
  | FDict, JObj _ => Some (VJson j)
  | FDictList, JList l => if forallb is_object l then Some (VJson j) else None
  | FEmail, JStr s => VText <$> email_str (strip s)
  | FUrl, JStr s => VText <$> http_url (strip s)
  | _, _ => None
  end.

Definition validate_field (f : field) (j : json) : option value :=
  match j with
  | JNull => if f_nullable f then Some VNull else None
  | _ =>
      v ← parse_type (f_type f) j;
      if forallb (satisfies v) (f_constraints f) then f_validator f v else None
  end.

Fixpoint validate_fields (fs : list field) (d : list (string * json)) : option (gmap string value) :=
  match fs with
  | [] => Some ∅
  | f :: fs =>
      m ← validate_fields fs d;
      match assoc (f_name f) d with
      | None => if f_required f then None else Some m
      | Some j => v ← validate_field f j; Some (<[f_name f := v]> m)
      end
  end.

(** [None] is a 422: an unknown field ([extra="forbid"]), a field that is missing
    or not valid, or the check across fields. *)
Definition validate (s : schema) (body : json) : option (gmap string value) :=
  match body with
  | JObj d =>
      if forallb (fun kv => existsb (fun f => String.eqb (f_name f) kv.1) (s_fields s)) d then
        m ← validate_fields (s_fields s) d;
        if s_check s m then Some m else None
      else None
  | _ => None
  end.
End Validation.

(** [self.k] *)
Definition sent (k : string) (m : gmap string value) : value := default VNull (m !! k).

(** [a is not None and b is not None and b <= a] is refused. *)
Definition ordered (a b : string) (m : gmap string value) : bool :=
  match sent a m, sent b m with VDate x, VDate y => x <? y | _, _ => true end.

(** ** The fields the schemas share *)

Definition supplier_id_field : field := required "supplier_id" FStr [MinLength 1; MaxLength 36].
Definition file_fields : list field := [optional "file_id" FStr [MaxLength 36]; optional "file_sha256" FStr [Hex64]].
Definition metadata_field : field := optional "metadata_json" FDict [].
Definition cents (n : string) : field := optional n FInt [Ge 0].
Definition name_constraints (n : Z) : list constraint := [MinLength 1; MaxLength n].

(** ** Loss runs *)

(** models/loss_run.py, [LineOfBusiness]. *)
Definition LineOfBusiness : list string :=
  ["commercial_auto"; "general_liability"; "workers_comp"; "commercial_property"; "umbrella"; "professional_liability";
   "cyber"; "inland_marine"; "crime"; "other"].

(** models/loss_run.py, [LossRunStatus]. *)
Definition LossRunStatus : list string := ["uploaded"; "processing"; "parsed"; "error"].

(** schemas/loss_run.py, [LossRunBase]. *)
Definition LossRunBase : list field :=
  [required "period_start" FDate []; required "period_end" FDate []; required "carrier_name" FStr (name_constraints 255);
   required "line_of_business" (FEnum LineOfBusiness) []; cents "total_premium_cents"; cents "total_incurred_cents";
   cents "total_paid_cents"; cents "claim_count"] ++ file_fields ++ [metadata_field].

(** schemas/loss_run.py, [LossRunCreate]. *)
Definition LossRunCreate : schema :=
  {| s_fields := LossRunBase ++ [supplier_id_field; defaulted "status" (FEnum LossRunStatus) []];
     s_check := ordered "period_start" "period_end" |}.

(** schemas/loss_run.py, [LossRunUpdate]. *)
Definition LossRunUpdate : schema :=
  {| s_fields :=
       [optional "period_start" FDate []; optional "period_end" FDate []; optional "carrier_name" FStr (name_constraints 255);
        optional "line_of_business" (FEnum LineOfBusiness) []; cents "total_premium_cents"; cents "total_incurred_cents";
        cents "total_paid_cents"; cents "claim_count"] ++ file_fields ++
       [optional "status" (FEnum LossRunStatus) []; optional "parsed_at" FDatetime [];
        optional "parse_error" FStr [MaxLength 10000]; metadata_field];
     s_check := ordered "period_start" "period_end" |}.

(** ** E&O certificates *)

(** models/eo_certificate.py, [EOCertificateStatus]. *)
Definition EOCertificateStatus : list string := ["active"; "expired"; "cancelled"; "pending_renewal"].

(** schemas/eo_certificate.py, [EOCertificateBase]. *)
Definition EOCertificateBase : list field :=
  [required "carrier_name" FStr (name_constraints 255); required "policy_number" FStr (name_constraints 64);
   required "coverage_amount_cents" FInt [Ge 0]; cents "aggregate_amount_cents"; cents "deductible_cents";
   required "effective_date" FDate []; required "expiration_date" FDate []; required "named_insured" FStr (name_constraints 255);
   optional "additional_insureds" FStrList []; defaulted "status" (FEnum EOCertificateStatus) []] ++ file_fields ++
  [metadata_field].

(** schemas/eo_certificate.py, [EOCertificateCreate._check]. *)
Definition EOCertificateCreate_check (m : gmap string value) : bool :=
  ordered "effective_date" "expiration_date" m &&
  match sent "aggregate_amount_cents" m, sent "coverage_amount_cents" m with
  | VInt a, VInt c => c <=? a
  | _, _ => true
  end.

(** schemas/eo_certificate.py, [EOCertificateCreate]. *)
Definition EOCertificateCreate : schema :=
  {| s_fields := EOCertificateBase ++ [supplier_id_field]; s_check := EOCertificateCreate_check |}.

(** schemas/eo_certificate.py, [EOCertificateUpdate]. *)
Definition EOCertificateUpdate : schema :=
  {| s_fields :=
       [optional "carrier_name" FStr (name_constraints 255); optional "policy_number" FStr (name_constraints 64);
        cents "coverage_amount_cents"; cents "aggregate_amount_cents"; cents "deductible_cents";
        optional "effective_date" FDate []; optional "expiration_date" FDate [];
        optional "named_insured" FStr (name_constraints 255); optional "additional_insureds" FStrList [];
        optional "status" (FEnum EOCertificateStatus) []] ++ file_fields ++ [metadata_field];
     s_check := ordered "effective_date" "expiration_date" |}.

(** ** Risk schedules *)

Definition source_file_fields : list field :=
  [optional "source_file_id" FStr [MaxLength 36]; optional "source_file_sha256" FStr [Hex64]].

(** schemas/risk_schedule.py, [RiskScheduleBase]. *)
Definition RiskScheduleBase : list field :=
  [required "line_of_business" (FEnum LineOfBusiness) []; required "schedule_type" FStr (name_constraints 32);
   required "effective_date" FDate []; optional "expiration_date" FDate []; cents "total_value_cents";
   required "items" FDictList [MinLength 0]] ++ source_file_fields ++ [metadata_field].

(** schemas/risk_schedule.py, [RiskScheduleCreate]. *)
Definition RiskScheduleCreate : schema :=
  {| s_fields := RiskScheduleBase ++ [supplier_id_field]; s_check := ordered "effective_date" "expiration_date" |}.

(** schemas/risk_schedule.py, [RiskScheduleUpdate]. *)
Definition RiskScheduleUpdate : schema :=
  {| s_fields :=
       [optional "line_of_business" (FEnum LineOfBusiness) []; optional "schedule_type" FStr (name_constraints 32);
        optional "effective_date" FDate []; optional "expiration_date" FDate []; cents "total_value_cents";
        optional "items" FDictList []] ++ source_file_fields ++ [metadata_field];
     s_check := ordered "effective_date" "expiration_date" |}.

(** ** Producer licenses *)

(** models/producer_license.py, [LicenseType]. *)
Definition LicenseType : list string :=
  ["resident_producer"; "non_resident_producer"; "surplus_lines"; "adjuster"; "mga"; "wholesaler"].

(** models/producer_license.py, [LicenseStatus]. *)
Definition LicenseStatus : list string := ["active"; "expired"; "suspended"; "revoked"; "pending_renewal"].

(** schemas/producer_license.py, [_US_STATES]. *)
Definition _US_STATES : list string :=
  ["AL"; "AK"; "AZ"; "AR"; "CA"; "CO"; "CT"; "DE"; "FL"; "GA"; "HI"; "ID"; "IL"; "IN"; "IA"; "KS"; "KY"; "LA"; "ME"; "MD";
   "MA"; "MI"; "MN"; "MS"; "MO"; "MT"; "NE"; "NV"; "NH"; "NJ"; "NM"; "NY"; "NC"; "ND"; "OH"; "OK"; "OR"; "PA"; "RI"; "SC";
   "SD"; "TN"; "TX"; "UT"; "VT"; "VA"; "WA"; "WV"; "WI"; "WY"; "DC"; "PR"; "VI"; "GU"; "AS"; "MP"].

(** schemas/producer_license.py, [_validate_state]. *)
Definition _validate_state (v : value) : option value :=
  match v with
  | VText s => let u := upper (strip s) in if existsb (String.eqb u) _US_STATES then Some (VText u) else None
  | v => Some v
  end.

(** schemas/producer_license.py, [ProducerLicenseBase]. *)
Definition ProducerLicenseBase : list field :=
  [validated (required "state" FStr [MinLength 2; MaxLength 2]) _validate_state;
   required "license_number" FStr (name_constraints 64); defaulted "license_type" (FEnum LicenseType) [];
   required "licensee_name" FStr (name_constraints 255); optional "npn" FStr [Npn]; required "effective_date" FDate [];
   required "expiration_date" FDate []; optional "lines_authorized" FStrList []; defaulted "status" (FEnum LicenseStatus) []]
  ++ file_fields ++ [metadata_field].

(** schemas/producer_license.py, [ProducerLicenseCreate]. *)
Definition ProducerLicenseCreate : schema :=
  {| s_fields := ProducerLicenseBase ++ [supplier_id_field]; s_check := ordered "effective_date" "expiration_date" |}.

(** schemas/producer_license.py, [ProducerLicenseUpdate]. *)
Definition ProducerLicenseUpdate : schema :=
  {| s_fields :=
       [validated (optional "state" FStr [MinLength 2; MaxLength 2]) _validate_state;
        optional "license_number" FStr (name_constraints 64); optional "license_type" (FEnum LicenseType) [];
        optional "licensee_name" FStr (name_constraints 255); optional "npn" FStr [Npn]; optional "effective_date" FDate [];
        optional "expiration_date" FDate []; optional "lines_authorized" FStrList [];
        optional "status" (FEnum LicenseStatus) []] ++ file_fields ++ [metadata_field];
     s_check := ordered "effective_date" "expiration_date" |}.

(** ** ACORD forms *)

(** models/acord_form.py, [AcordFormType]. *)
Definition AcordFormType : list string := ["acord_25"; "acord_125"; "acord_126"; "acord_127"; "acord_130"; "acord_140"].

(** models/acord_form.py, [AcordFormStatus]. *)
Definition AcordFormStatus : list string := ["draft"; "finalized"; "submitted"; "superseded"].

Definition pdf_fields : list field := [optional "pdf_file_id" FStr [MaxLength 36]; optional "pdf_sha256" FStr [Hex64]].
Definition superseded_by_field : field := optional "superseded_by_id" FStr [MaxLength 36].

(** schemas/acord_form.py, [AcordFormBase]. *)
Definition AcordFormBase : list field :=
  [required "form_type" (FEnum AcordFormType) []; defaulted "form_version" FStr (name_constraints 16);
   required "payload" FDict [MinLength 1]; optional "effective_date" FDate []; optional "expiration_date" FDate []]
  ++ pdf_fields ++ [defaulted "status" (FEnum AcordFormStatus) []; metadata_field].

(** schemas/acord_form.py, [AcordFormCreate]. *)
Definition AcordFormCreate : schema :=
  {| s_fields := AcordFormBase ++ [supplier_id_field; superseded_by_field];
     s_check := ordered "effective_date" "expiration_date" |}.

(** schemas/acord_form.py, [AcordFormUpdate]. *)
Definition AcordFormUpdate : schema :=
  {| s_fields :=
       [optional "form_type" (FEnum AcordFormType) []; optional "form_version" FStr (name_constraints 16);
        optional "payload" FDict [MinLength 1]; optional "effective_date" FDate []; optional "expiration_date" FDate []]
       ++ pdf_fields ++ [optional "status" (FEnum AcordFormStatus) []; superseded_by_field; metadata_field];
     s_check := ordered "effective_date" "expiration_date" |}.

(** ** Suppliers *)

Definition supplier_rest : list field :=
  [optional "dba_name" FStr [MaxLength 255]; optional "ein" FStr [MaxLength 32]; optional "naics_code" FStr [MaxLength 16];
   optional "primary_email" FEmail []; optional "primary_phone" FStr [MaxLength 32]; optional "address_json" FDict [];
   optional "website" FUrl []].

(** schemas/supplier.py, [_SupplierBase]; [SupplierCreate] adds nothing. *)
Definition SupplierCreate : schema :=
  {| s_fields := required "legal_name" FStr (name_constraints 255) :: supplier_rest; s_check := fun _ => true |}.

(** schemas/supplier.py, [SupplierUpdate]. *)
Definition SupplierUpdate : schema :=
  {| s_fields := optional "legal_name" FStr (name_constraints 255) :: supplier_rest; s_check := fun _ => true |}.
