(* ===== verification/RecordServices.v ===== *)
(** * Tenant records: services

    services/loss_run_service.py, eo_certificate_service.py,
    risk_schedule_service.py, producer_license_service.py, acord_form_service.py,
    supplier_service.py and consent_service.py.  The services of the five records
    of a supplier share their text up to the table, so what they share is written
    once and instantiated; what they do differently is written out. *)

From Stdlib Require Import Ascii.
From S2P Require Import Prelude PyStr Json Encoding Records RecordSchemas.

(** ** What the services share *)

(** services/loss_run_service.py, [_MAX_LIMIT]. *)
Definition _MAX_LIMIT : Z := 200.

(** services/loss_run_service.py, [_assert_supplier_in_tenant]. *)
Definition _assert_supplier_in_tenant (tenant_id supplier_id : string) : RM unit :=
  let* found := query (own_row Suppliers tenant_id supplier_id) in
  raise_if (negb (is_someb found)) SupplierNotInTenantError.

(** [select(T).where(T.id == id, T.tenant_id == tenant_id)] *)
Definition get_record (t : table) (tenant_id i : string) : RM (option Row) := query (own_row t tenant_id i).

(** The text of an attribute that a schema requires. *)
Definition text_of (v : value) : string := match v with VText s => s | _ => "" end.

Definition of_supplier (supplier_id : option string) (r : Row) : bool :=
  match supplier_id with Some s => bool_decide (cell "supplier_id" r = VText s) | None => true end.

(** [ORDER BY created_at DESC, id DESC] *)
Definition newest_first (a b : Row) : bool :=
  (row_created_at b <? row_created_at a) || ((row_created_at a =? row_created_at b) && String.leb (row_id b) (row_id a)).
(** [ORDER BY expiration_date ASC, id ASC] *)
Definition day_of (v : value) : Z := match v with VDate d => d | VTime t => t | _ => 0 end.
Definition soonest_first (a b : Row) : bool :=
  let d r := day_of (cell "expiration_date" r) in
  (d a <? d b) || ((d a =? d b) && String.leb (row_id a) (row_id b)).
(** [ORDER BY granted_at DESC, id DESC] *)
Definition latest_grant_first (a b : Row) : bool :=
  let d r := day_of (cell "granted_at" r) in
  (d b <? d a) || ((d a =? d b) && String.leb (row_id b) (row_id a)).

Definition order_of (t : table) : Row -> Row -> bool :=
  match t with
  | EOCertificates | ProducerLicenses => soonest_first
  | Consents => latest_grant_first
  | _ => newest_first
  end.

(** [LIMIT limit OFFSET offset] *)
Definition page {A} (limit offset : Z) (l : list A) : list A := take (Z.to_nat limit) (drop (Z.to_nat offset) l).

Definition list_records (t : table) (tenant_id : string) (supplier_id : option string) (limit offset : Z)
  : RM (list Row * Z) :=
  let limit := Z.max 1 (Z.min limit _MAX_LIMIT) in
  let offset := Z.max 0 offset in
  let* l := query (fun db => List.filter (of_supplier supplier_id) (tenant_rows t tenant_id db)) in
  ret (page limit offset (isort (order_of t) l), Z.of_nat (length l)).

(** The row, or [NotFoundError]. *)
Definition own_or_not_found (t : table) (tenant_id i : string) : RM Row :=
  let* row := get_record t tenant_id i in or_raise row NotFoundError.

Definition update_record (t : table) (tenant_id i : string) (data : gmap string value) : RM Row :=
  let* row := own_or_not_found t tenant_id i in update_row row data.

Definition delete_record (t : table) (tenant_id i : string) : RM Row :=
  let* row := own_or_not_found t tenant_id i in delete_row row ;;; ret row.

Section Services.
Context (uuid : nat -> string).
(** [utils/canonical_json.canonical_json_bytes] (package rfc8785), [None] is
    [CanonicalizationError]; and the hexadecimal digest. *)
Context (canonical_json_bytes : json -> option bytes) (sha256_hex : bytes -> string).

(** utils/canonical_json.py, [payload_sha256]. *)
Definition payload_sha256 (j : json) : option string := sha256_hex <$> canonical_json_bytes j.

Definition hash_or_raise (j : json) : RM string := or_raise (payload_sha256 j) CanonicalizationError.

Definition create_record (t : table) (now : Z) (tenant_id : string) (data : gmap string value) : RM Row :=
  _assert_supplier_in_tenant tenant_id (text_of (sent "supplier_id" data)) ;;;
  insert_row uuid now t tenant_id data.

(** ** Loss runs *)

(** services/loss_run_service.py, [create]. *)
Definition loss_run_create := create_record LossRuns.
(** services/loss_run_service.py, [get]. *)
Definition loss_run_get := get_record LossRuns.
(** services/loss_run_service.py, [list_by_supplier]. *)
Definition loss_run_list := list_records LossRuns.
(** services/loss_run_service.py, [update]. *)
Definition loss_run_update := update_record LossRuns.
(** services/loss_run_service.py, [delete]. *)
Definition loss_run_delete := delete_record LossRuns.

(** ** E&O certificates *)

(** services/eo_certificate_service.py, [create]. *)
Definition eo_certificate_create := create_record EOCertificates.
(** services/eo_certificate_service.py, [get]. *)
Definition eo_certificate_get := get_record EOCertificates.
(** services/eo_certificate_service.py, [list_by_supplier]. *)
Definition eo_certificate_list := list_records EOCertificates.
(** services/eo_certificate_service.py, [update]. *)
Definition eo_certificate_update := update_record EOCertificates.
(** services/eo_certificate_service.py, [delete]. *)
Definition eo_certificate_delete := delete_record EOCertificates.

(** ** Risk schedules *)

Definition items_len (v : value) : Z := match v with VJson (JList l) => Z.of_nat (length l) | _ => 0 end.
Definition json_of (v : value) : json := match v with VJson j => j | _ => JNull end.

(** services/risk_schedule_service.py:78-80, [create]: the digest and the number
    of the items. *)
Definition with_items (items : value) (hash : string) (data : gmap string value) : gmap string value :=
  <["item_count" := VInt (items_len items)]> (<["items_hash" := VText hash]> data).

(** services/risk_schedule_service.py, [create]. *)
Definition risk_schedule_create (now : Z) (tenant_id : string) (data : gmap string value) : RM Row :=
  _assert_supplier_in_tenant tenant_id (text_of (sent "supplier_id" data)) ;;;
  let items := default (VJson (JList [])) (data !! "items") in
  let* h := hash_or_raise (json_of items) in
  insert_row uuid now RiskSchedules tenant_id (with_items items h data).

(** services/risk_schedule_service.py, [get]. *)
Definition risk_schedule_get := get_record RiskSchedules.
(** services/risk_schedule_service.py, [list_by_supplier]. *)
Definition risk_schedule_list := list_records RiskSchedules.

(** services/risk_schedule_service.py, [update]. *)
Definition risk_schedule_update (tenant_id i : string) (data : gmap string value) : RM Row :=
  let* row := own_or_not_found RiskSchedules tenant_id i in
  let* data := match data !! "items" with
               | None | Some VNull => ret data
               | Some items => let* h := hash_or_raise (json_of items) in ret (with_items items h data)
               end in
  update_row row data.

(** services/risk_schedule_service.py, [delete]. *)
Definition risk_schedule_delete := delete_record RiskSchedules.

(** ** Producer licenses *)

(** [except IntegrityError: await session.rollback(); raise DuplicateLicenseError] *)
Definition duplicate_license (m : RM Row) : RM Row :=
  try_except m (fun e => match e with
                         | DbError IntegrityError => rollback ;;; raise DuplicateLicenseError
                         | e => raise e
                         end).

(** services/producer_license_service.py, [create]. *)
Definition producer_license_create (now : Z) (tenant_id : string) (data : gmap string value) : RM Row :=
  _assert_supplier_in_tenant tenant_id (text_of (sent "supplier_id" data)) ;;;
  duplicate_license (insert_row uuid now ProducerLicenses tenant_id data).

(** services/producer_license_service.py, [get]. *)
Definition producer_license_get := get_record ProducerLicenses.
(** services/producer_license_service.py, [list_by_supplier]. *)
Definition producer_license_list := list_records ProducerLicenses.

(** services/producer_license_service.py, [update]. *)
Definition producer_license_update (tenant_id i : string) (data : gmap string value) : RM Row :=
  let* row := own_or_not_found ProducerLicenses tenant_id i in duplicate_license (update_row row data).

(** services/producer_license_service.py, [delete]. *)
Definition producer_license_delete := delete_record ProducerLicenses.

(** ** ACORD forms *)

(** services/acord_form_service.py, [_assert_supersede_target_in_tenant]. *)
Definition _assert_supersede_target_in_tenant (tenant_id target_id : string) : RM unit :=
  let* found := query (own_row AcordForms tenant_id target_id) in
  raise_if (negb (is_someb found)) InvalidSupersedeReferenceError.

(** services/acord_form_service.py, [create]. *)
Definition acord_form_create (now : Z) (tenant_id : string) (data : gmap string value) : RM Row :=
  _assert_supplier_in_tenant tenant_id (text_of (sent "supplier_id" data)) ;;;
  let* h := hash_or_raise (json_of (sent "payload" data)) in
  let data := <["payload_hash" := VText h]> data in
  match sent "superseded_by_id" data with
  | VText target => _assert_supersede_target_in_tenant tenant_id target
  | _ => ret tt
  end ;;;
  insert_row uuid now AcordForms tenant_id data.

(** services/acord_form_service.py, [get]. *)
Definition acord_form_get := get_record AcordForms.
(** services/acord_form_service.py, [list_by_supplier]. *)
Definition acord_form_list := list_records AcordForms.

(** services/acord_form_service.py, [_mark_predecessor_superseded]: the query gives
    the object of the session, whose attributes are set to [data] and not yet
    flushed; its status becomes superseded. *)
Definition _mark_predecessor_superseded (tenant_id predecessor_id : string) (data : gmap string value)
  : RM (gmap string value) :=
  let* found := query (own_row AcordForms tenant_id predecessor_id) in
  ret (if is_someb found then <["status" := VText "superseded"]> data else data).

(** services/acord_form_service.py:186-194, [update]: the reference to the form
    that supersedes this one. *)
Definition check_superseded_by (tenant_id : string) (row : Row) (new : value) : RM unit :=
  match new with
  | VText target =>
      if bool_decide (attr "superseded_by_id" row = new) then ret tt
      else raise_if (String.eqb target (row_id row)) InvalidSupersedeReferenceError ;;;
           _assert_supersede_target_in_tenant tenant_id target
  | _ => ret tt
  end.

(** services/acord_form_service.py, [update]. *)
Definition acord_form_update (tenant_id i : string) (data : gmap string value) : RM Row :=
  let* row := own_or_not_found AcordForms tenant_id i in
  let* data := match data !! "payload" with
               | None | Some VNull => ret data
               | Some p => let* h := hash_or_raise (json_of p) in ret (<["payload_hash" := VText h]> data)
               end in
  let new_superseded_by := sent "superseded_by_id" data in
  check_superseded_by tenant_id row new_superseded_by ;;;
  let* data := match new_superseded_by with
               | VNull => ret data
               | _ => _mark_predecessor_superseded tenant_id (row_id row) data
               end in
  update_row row data.

(** services/acord_form_service.py, [delete]. *)
Definition acord_form_delete := delete_record AcordForms.

(** ** Suppliers *)

(** services/supplier_service.py, [_clamp_limit]. *)
Definition _clamp_limit (limit : Z) : Z := if limit <=? 0 then 50 else Z.min limit _MAX_LIMIT.
(** services/supplier_service.py, [_clamp_offset]. *)
Definition _clamp_offset (offset : Z) : Z := Z.max offset 0.

(** services/supplier_service.py, [_apply_search]; a null name does not match. *)
Definition _apply_search (search : option string) (r : Row) : bool :=
  match search with
  | None => true
  | Some s =>
      if negb (truthy s) then true
      else
        let term := "%" +:+ lower (strip s) +:+ "%" in
        if String.eqb term "%%" then true
        else like term (lower (text_of (cell "legal_name" r))) || like term (lower (text_of (cell "dba_name" r)))
             || like term (lower (text_of (cell "primary_email" r)))
             || like ("%" +:+ strip s +:+ "%") (text_of (cell "ein" r))
  end.

(** services/supplier_service.py, [list_suppliers]. *)
Definition list_suppliers (tenant_id : string) (search : option string) (limit offset : Z) : RM (list Row) :=
  let* l := query (fun db => List.filter (_apply_search search) (tenant_rows Suppliers tenant_id db)) in
  ret (page (_clamp_limit limit) (_clamp_offset offset) (isort newest_first l)).

(** services/supplier_service.py, [count_suppliers]. *)
Definition count_suppliers (tenant_id : string) (search : option string) : RM Z :=
  query (fun db => Z.of_nat (length (List.filter (_apply_search search) (tenant_rows Suppliers tenant_id db)))).

(** services/supplier_service.py, [create_supplier]. *)
Definition create_supplier (now : Z) (tenant_id : string) (data : gmap string value) : RM Row :=
  insert_row uuid now Suppliers tenant_id data.

(** services/supplier_service.py, [get_supplier]. *)
Definition get_supplier (tenant_id supplier_id : string) : RM Row := own_or_not_found Suppliers tenant_id supplier_id.

(** services/supplier_service.py, [update_supplier]. *)
Definition update_supplier (tenant_id supplier_id : string) (data : gmap string value) : RM Row :=
  let* supplier := get_supplier tenant_id supplier_id in
  if bool_decide (data = ∅) then ret supplier else update_row supplier data.

(** services/supplier_service.py, [delete_supplier]. *)
Definition delete_supplier (tenant_id supplier_id : string) : RM Row :=
  let* supplier := get_supplier tenant_id supplier_id in delete_row supplier ;;; ret supplier.

(** ** Consents *)

Definition portal_ids (r : Row) : list json := match attr "portal_ids_json" r with VJson (JList l) => l | _ => [] end.
Definition covers_portal (portal : string) (r : Row) : bool :=
  existsb (fun j => bool_decide (j = JStr portal)) (portal_ids r) || existsb (fun j => bool_decide (j = JStr "*")) (portal_ids r).

(** services/consent_service.py, [list_consents]. *)
Definition list_consents (tenant_id : string) (supplier_id portal_id : option string) (active_only : bool)
    (limit offset : Z) : RM (list Row * Z) :=
  let limit := Z.max 1 (Z.min limit _MAX_LIMIT) in
  let offset := Z.max 0 offset in
  let* l := query (fun db => isort latest_grant_first (List.filter (fun r => of_supplier supplier_id r
                       && (negb active_only || bool_decide (cell "revoked_at" r = VNull))) (tenant_rows Consents tenant_id db))) in
  match portal_id with
  | Some p => let filtered := List.filter (covers_portal p) l in
              ret (page limit offset filtered, Z.of_nat (length filtered))
  | None => ret (page limit offset l, Z.of_nat (length l))
  end.

(** services/consent_service.py, [get]. *)
Definition consent_get (tenant_id consent_id : string) : RM Row := own_or_not_found Consents tenant_id consent_id.
End Services.
