(* ===== verification/RecordSteps.v ===== *)
(** * Tenant records: what a request may do to the tables

    The steps a tenant's request takes - a row inserted, assigned or deleted, an
    audit row added - as a relation on the database, and the invariants every step
    keeps: rows of the declared types within their constraints, keys unique,
    references within the tenant, digests in step with what they digest. *)

From S2P Require Import Prelude PyStr Json Encoding Records RecordSchemas RecordServices.

(** ** Invariants *)

(** The cells are those of the columns. *)
Definition closed (r : Row) : Prop := forall k v, cells r !! k = Some v -> In k (map c_name (columns (row_table r))).

Definition row_ok (r : Row) : Prop := typed r = true /\ not_null r = true /\ checks r = true /\ closed r.

(** The row's references are to rows of its tenant. *)
Definition refers (t : table) (k : string) (r : Row) (l : list Row) : Prop :=
  forall i, cell k r = VText i ->
  exists x, In x l /\ row_table x = t /\ row_id x = i /\ row_tenant_id x = row_tenant_id r.
Definition scoped (r : Row) (l : list Row) : Prop :=
  refers Suppliers "supplier_id" r l /\ (row_table r = AcordForms -> refers AcordForms "superseded_by_id" r l).

Record well_formed (db : RecordsDB) : Prop := {
  wf_rows : forall r, In r (rows db) -> row_ok r;
  wf_unique : ForallOrdPairs (fun a b => clash a b = false) (rows db);
  wf_refs : forall r, In r (rows db) -> scoped r (rows db);
}.

Section Digests.
Context (canonical_json_bytes : json -> option bytes) (sha256_hex : bytes -> string).
Abbreviation digest := (payload_sha256 canonical_json_bytes sha256_hex).

(** The stored digests and counts are those of what is stored. *)
Definition hashed (r : Row) : Prop :=
  match row_table r with
  | AcordForms => exists h, cell "payload_hash" r = VText h /\ digest (json_of (cell "payload" r)) = Some h
  | RiskSchedules => exists h, cell "items_hash" r = VText h /\ digest (json_of (cell "items" r)) = Some h /\
                               cell "item_count" r = VInt (items_len (cell "items" r))
  | _ => True
  end.

Definition digests_in_sync (db : RecordsDB) : Prop := Forall hashed (rows db).

(** ** Steps *)

Definition replace_row (r' : Row) (l : list Row) : list Row :=
  map (fun x => if is_row (row_table r') (row_id r') x then r' else x) l.
Definition others (r : Row) (l : list Row) : list Row := List.filter (fun x => negb (is_row (row_table r) (row_id r) x)) l.
Definition without (r : Row) (l : list Row) : list Row :=
  map (unset_superseded (List.filter (gone r) l)) (List.filter (fun x => negb (gone r x)) l).

Inductive record_step (tid : string) (db : RecordsDB) : RecordsDB -> Prop :=
| step_insert r :
    row_tenant_id r = tid -> closed r -> scoped r (rows db) -> violation r (rows db) = None -> hashed r ->
    record_step tid db (bump (with_rows (fun l => l ++ [r]) db))
| step_assign r r' :
    In r (rows db) -> row_tenant_id r = tid -> with_cells (cells r') r = r' -> closed r' -> scoped r' (rows db) ->
    violation r' (others r' (rows db)) = None -> (hashed r -> hashed r') ->
    record_step tid db (with_rows (replace_row r') db)
| step_delete r :
    In r (rows db) -> row_tenant_id r = tid -> record_step tid db (with_rows (without r) db)
| step_log a : al_tenant_id a = tid -> record_step tid db (add_log a db).
End Digests.

(** ** Lemmas on rows *)

Lemma is_row_spec t i r : is_row t i r = true <-> row_table r = t /\ row_id r = i.
Proof. unfold is_row. rewrite andb_true_iff, bool_decide_eq_true, String.eqb_eq. done. Qed.

Lemma clash_same_key r x : row_table x = row_table r -> row_id x = row_id r -> clash r x = true.
Proof. intros Ht Hi. unfold clash. by rewrite Ht, Hi, bool_decide_true, String.eqb_refl. Qed.

Lemma clash_sym r x : clash r x = clash x r.
Proof.
  unfold clash. rewrite (String.eqb_sym (row_id x)).
  destruct (decide (row_table x = row_table r)) as [Ht|Hn].
  - rewrite Ht, !(bool_decide_true (row_table r = row_table r)) by done. f_equal. f_equal. f_equal. by apply bool_decide_ext.
  - rewrite (bool_decide_false (row_table x = row_table r)), (bool_decide_false (row_table r = row_table x)) by congruence. done.
Qed.

Section Unique.
Context (l : list Row).
Hypothesis Hu : ForallOrdPairs (fun a b => clash a b = false) l.

(** Table and key name one row. *)
Lemma same_key_same_row r x : In r l -> In x l -> row_table x = row_table r -> row_id x = row_id r -> x = r.
Proof.
  intros Hr Hx Ht Hi. destruct (ForallOrdPairs_In Hu x r Hx Hr) as [H|[H|H]]; [done| |];
    by rewrite clash_same_key in H.
Qed.
End Unique.

Lemma violation_None r l : violation r l = None ->
  typed r = true /\ not_null r = true /\ checks r = true /\ existsb (clash r) l = false /\ foreign_keys r l = true.
Proof.
  unfold violation. destruct (typed r), (not_null r), (checks r), (existsb (clash r) l), (foreign_keys r l); cbn; try done.
Qed.

Lemma existsb_false {A} (f : A -> bool) l : existsb f l = false <-> forall x, In x l -> f x = false.
Proof.
  rewrite <- not_true_iff_false, existsb_exists. split.
  - intros H x Hx. apply not_true_iff_false. intros Hf. by apply H; exists x.
  - intros H (x & Hx & Hf). by rewrite H in Hf.
Qed.

(** ** Steps keep the tables well formed *)

Lemma replace_row_In r' l x : In x (replace_row r' l) -> x = r' \/ (In x l /\ is_row (row_table r') (row_id r') x = false).
Proof.
  unfold replace_row. intros (y & <- & Hy)%in_map_iff. destruct (is_row _ _ y) eqn:Hi; [by left|by right].
Qed.

(** A row of the list as it is after a replacement by a row of the same key. *)
Lemma replace_row_keeps r' l x :
  In x l -> exists y, In y (replace_row r' l) /\ row_table y = row_table x /\ row_id y = row_id x /\
    (row_tenant_id y = row_tenant_id x \/ (is_row (row_table r') (row_id r') x = true /\ row_tenant_id y = row_tenant_id r')).
Proof.
  intros Hx. exists (if is_row (row_table r') (row_id r') x then r' else x). split; [|].
  - unfold replace_row. apply in_map_iff. by exists x.
  - destruct (is_row _ _ x) eqn:Hi; [|by auto]. pose proof Hi as [-> ->]%is_row_spec. auto.
Qed.

Lemma refers_mono t k r l l' :
  (forall x, In x l -> exists y, In y l' /\ row_table y = row_table x /\ row_id y = row_id x /\ row_tenant_id y = row_tenant_id x) ->
  refers t k r l -> refers t k r l'.
Proof.
  intros Hl H i Hi. destruct (H i Hi) as (x & Hx & <- & <- & Ht). destruct (Hl x Hx) as (y & Hy & Hyt & Hyi & Hyn).
  exists y. by rewrite Hyn.
Qed.

Lemma scoped_mono r l l' :
  (forall x, In x l -> exists y, In y l' /\ row_table y = row_table x /\ row_id y = row_id x /\ row_tenant_id y = row_tenant_id x) ->
  scoped r l -> scoped r l'.
Proof. intros Hl [H1 H2]. split; [|intros Ht; specialize (H2 Ht)]; by eapply refers_mono. Qed.

Lemma FOP_app_one {A} (P : A -> A -> Prop) l x :
  ForallOrdPairs P l -> (forall y, In y l -> P y x) -> ForallOrdPairs P (l ++ [x]).
Proof.
  induction 1 as [|y l Hy Hl IH]; intros Hx; cbn; [by repeat constructor|]. constructor.
  - apply Forall_app. split; [done|]. constructor; [|done]. apply Hx. by left.
  - apply IH. intros z Hz. apply Hx. by right.
Qed.

Lemma FOP_map {A} (P : A -> A -> Prop) (f : A -> A) l :
  (forall x y, In x l -> In y l -> P x y -> P (f x) (f y)) -> ForallOrdPairs P l -> ForallOrdPairs P (map f l).
Proof.
  intros Hf. induction 1 as [|y l Hy Hl IH]; cbn in *; [constructor|]. constructor; [|by apply IH; auto].
  apply List.Forall_forall. intros z (w & <- & Hw)%in_map_iff. rewrite List.Forall_forall in Hy. auto.
Qed.

Lemma FOP_filter {A} (P : A -> A -> Prop) (p : A -> bool) l : ForallOrdPairs P l -> ForallOrdPairs P (List.filter p l).
Proof.
  induction 1 as [|y l Hy Hl IH]; cbn; [constructor|]. destruct (p y); [|done]. constructor; [|done].
  apply List.Forall_forall. intros z [Hz _]%filter_In. rewrite List.Forall_forall in Hy. auto.
Qed.

Lemma insert_well_formed r db :
  closed r -> scoped r (rows db) -> violation r (rows db) = None -> well_formed db ->
  well_formed (bump (with_rows (fun l => l ++ [r]) db)).
Proof.
  intros Hc Hs (Ht & Hn & Hk & Hu & _)%violation_None [W1 W2 W3].
  assert (Hin : forall x, In x (rows db) -> exists y, In y (rows db ++ [r]) /\ row_table y = row_table x /\ row_id y = row_id x
                /\ row_tenant_id y = row_tenant_id x) by (intros x Hx; exists x; rewrite in_app_iff; auto).
  split; cbn.
  - intros x [Hx|[<-|[]]]%in_app_iff; [by apply W1|done].
  - apply FOP_app_one; [done|]. intros y Hy. rewrite clash_sym. by apply (proj1 (existsb_false _ _) Hu).
  - intros x [Hx|[<-|[]]]%in_app_iff; [|by eapply scoped_mono]. eapply scoped_mono; [exact Hin|by apply W3].
Qed.

Lemma assign_well_formed r r' db :
  In r (rows db) -> with_cells (cells r') r = r' -> closed r' -> scoped r' (rows db) ->
  violation r' (others r' (rows db)) = None -> well_formed db -> well_formed (with_rows (replace_row r') db).
Proof.
  intros Hr Hr' Hc Hs (Ht & Hn & Hk & Hu & _)%violation_None [W1 W2 W3].
  assert (Hrt : row_table r' = row_table r) by (by rewrite <- Hr'). assert (Hri : row_id r' = row_id r) by (by rewrite <- Hr').
  assert (Hrn : row_tenant_id r' = row_tenant_id r) by (by rewrite <- Hr').
  assert (Hin : forall x, In x (rows db) -> exists y, In y (replace_row r' (rows db)) /\ row_table y = row_table x
                /\ row_id y = row_id x /\ row_tenant_id y = row_tenant_id x).
  { intros x Hx. destruct (replace_row_keeps r' (rows db) x Hx) as (y & Hy & Hyt & Hyi & Hyn). exists y. split_and!; [done..|].
    destruct Hyn as [->|[[Hxt Hxi]%is_row_spec ->]]; [done|]. rewrite Hrn. f_equal. symmetry.
    apply (same_key_same_row (rows db) W2); congruence. }
  split; cbn.
  - intros x [->|[Hx _]]%replace_row_In; [done|by apply W1].
  - apply FOP_map; [|done]. intros x y Hx Hy Hxy.
    assert (Hother : forall z, In z (rows db) -> is_row (row_table r') (row_id r') z = false -> clash r' z = false).
    { intros z Hz Hi. apply (proj1 (existsb_false _ _) Hu). apply filter_In. by rewrite Hi. }
    destruct (is_row _ _ x) eqn:Hix, (is_row _ _ y) eqn:Hiy; [|by apply Hother|rewrite clash_sym; by apply Hother|done].
    apply is_row_spec in Hix as [Hix1 Hix2], Hiy as [Hiy1 Hiy2]. rewrite clash_same_key in Hxy; congruence.
  - intros x [->|[Hx _]]%replace_row_In; (eapply scoped_mono; [exact Hin|]); [done|by apply W3].
Qed.

Lemma unset_superseded_key d x :
  row_table (unset_superseded d x) = row_table x /\ row_id (unset_superseded d x) = row_id x /\
  row_tenant_id (unset_superseded d x) = row_tenant_id x.
Proof. unfold unset_superseded. by destruct (_ && _). Qed.

(** Only the reference to a deleted form changes, and only in a form. *)
Lemma unset_superseded_cell d x k :
  cell k (unset_superseded d x) = cell k x \/
  (row_table x = AcordForms /\ k = "superseded_by_id" /\ cell k (unset_superseded d x) = VNull).
Proof.
  unfold unset_superseded. destruct (bool_decide _) eqn:Ht; [|by left]. apply bool_decide_eq_true in Ht.
  destruct (match _ with VText i => _ | _ => _ end); [|by left]. cbn. unfold cell, with_cells. cbn.
  destruct (decide (k = "superseded_by_id")) as [->|Hk]; [right|left].
  - by rewrite lookup_insert_eq.
  - by rewrite lookup_insert_ne by done.
Qed.

Lemma unset_row_ok d x : row_ok x -> row_ok (unset_superseded d x).
Proof.
  intros (Ht & Hn & Hc & Hcl). destruct (unset_superseded_key d x) as (Et & Ei & En). unfold row_ok, typed, not_null, checks, closed.
  rewrite Et. unfold typed, not_null, checks in Ht, Hn, Hc. rewrite forallb_forall in Ht, Hn |- *. rewrite forallb_forall.
  split_and!.
  - intros c Hin. destruct (unset_superseded_cell d x (c_name c)) as [->|(_ & _ & ->)]; [by apply Ht|]. by destruct (c_type c).
  - intros c Hin. destruct (unset_superseded_cell d x (c_name c)) as [->|(Hx & Hk & _)]; [by apply Hn|].
    rewrite Hx in Hin. cbn in Hin. repeat (destruct Hin as [<-|Hin]; [by try discriminate Hk|]). done.
  - assert (Hs : row_table x <> AcordForms -> forall k, cell k (unset_superseded d x) = cell k x).
    { intros Hne k. destruct (unset_superseded_cell d x k) as [->|[? _]]; done. }
    destruct (row_table x); try done; unfold sql_before, sql_nonneg in *; by rewrite !Hs.
  - intros k v Hk. unfold unset_superseded in Hk.
    match type of Hk with context [if ?b then _ else _] => destruct b eqn:Hb end; [|exact (Hcl k v Hk)].
    apply andb_true_iff in Hb as [Hb _]. apply bool_decide_eq_true in Hb. cbn in Hk.
    destruct (decide (k = "superseded_by_id")) as [->|Hne]; [rewrite Hb; cbn; tauto|].
    rewrite lookup_insert_ne in Hk by done. exact (Hcl k v Hk).
Qed.

Lemma gone_spec r x : gone r x = true <->
  (row_table x = row_table r /\ row_id x = row_id r) \/ (row_table r = Suppliers /\ cell "supplier_id" x = VText (row_id r)).
Proof. unfold gone. by rewrite orb_true_iff, is_row_spec, andb_true_iff, !bool_decide_eq_true. Qed.

(** A supplier is no record of a supplier. *)
Lemma closed_supplier x : row_table x = Suppliers -> closed x -> cell "supplier_id" x = VNull.
Proof.
  intros Ht Hc. unfold cell. destruct (cells x !! "supplier_id") as [v|] eqn:Hv; [|done]. specialize (Hc _ _ Hv).
  rewrite Ht in Hc. cbn in Hc. by repeat (destruct Hc as [Hc|Hc]; [discriminate|]).
Qed.

(** What a record that stays refers to stays. *)
Lemma without_In r l y : In y (without r l) <-> exists x, y = unset_superseded (List.filter (gone r) l) x /\ In x l /\ gone r x = false.
Proof.
  unfold without. rewrite in_map_iff. split; intros (x & H1 & H2).
  - apply filter_In in H2 as [H2 H3]. exists x. by rewrite <- H1, <- negb_true_iff.
  - exists x. rewrite filter_In. destruct H2 as [H2 H3]. by rewrite H3.
Qed.

Lemma delete_well_formed r db : In r (rows db) -> well_formed db -> well_formed (with_rows (without r) db).
Proof.
  intros Hr [W1 W2 W3]. set (d := List.filter (gone r) (rows db)).
  assert (Hstays : forall x t k, In x (rows db) -> refers t k x (rows db) ->
            (forall i z, cell k x = VText i -> In z (rows db) -> row_table z = t -> row_id z = i -> gone r z = true -> False) ->
            refers t k x (without r (rows db))).
  { intros x t k Hx Href Hno i Hi. destruct (Href i Hi) as (z & Hz & Hzt & Hzi & Hzn).
    exists (unset_superseded d z). destruct (unset_superseded_key d z) as (-> & -> & ->). split; [|done].
    apply without_In. exists z. split_and!; [done..|]. apply not_true_iff_false. intros Hg. by apply (Hno i z). }
  split; cbn.
  - intros y (x & -> & Hx & _)%without_In. by apply unset_row_ok, W1.
  - apply FOP_map; [|by apply FOP_filter]. fold d. intros x y _ _ Hxy. unfold clash in *.
    destruct (unset_superseded_key d x) as (-> & -> & Hxn), (unset_superseded_key d y) as (-> & -> & Hyn).
    destruct (bool_decide (row_table y = row_table x)) eqn:Ht; [|done]. apply bool_decide_eq_true in Ht.
    destruct (row_id y =? row_id x)%string; [done|]. cbn in *. destruct (bool_decide (row_table x = ProducerLicenses)) eqn:Hp; [|done].
    apply bool_decide_eq_true in Hp. rewrite <- Hxy. cbn. apply bool_decide_ext. unfold license_key. rewrite Hxn, Hyn.
    assert (Hs : forall z k, row_table z = ProducerLicenses -> cell k (unset_superseded d z) = cell k z).
    { intros z k Hz. destruct (unset_superseded_cell d z k) as [->|[Hz' _]]; [done|congruence]. }
    by rewrite !Hs by congruence.
  - intros y (x & -> & Hx & Hgx)%without_In. destruct (W3 x Hx) as [R1 R2]. fold d. split.
    + assert (Hsup : forall k, k <> "superseded_by_id" -> cell k (unset_superseded d x) = cell k x).
      { intros k Hk. destruct (unset_superseded_cell d x k) as [->|(_ & ? & _)]; done. }
      intros i Hi. rewrite Hsup in Hi by done. destruct (unset_superseded_key d x) as (_ & _ & ->).
      revert i Hi. apply Hstays; [done..|]. intros i z Hi Hz Hzt Hzi Hg. apply not_true_iff_false in Hgx. apply Hgx, gone_spec.
      apply gone_spec in Hg as [[Ht He]|[Ht He]]; [right; split; congruence|].
      rewrite (closed_supplier z) in He; [done..|]. by apply W1.
    + destruct (unset_superseded_key d x) as (Hxt & _ & Hxn). rewrite Hxt. intros Ht. specialize (R2 Ht).
      intros i Hi. rewrite Hxn. unfold unset_superseded in Hi. rewrite bool_decide_true in Hi by done. cbn [andb] in Hi.
      destruct (cell "superseded_by_id" x) as [|j| | | |] eqn:Hj; try (rewrite Hj in Hi; discriminate).
      destruct (existsb (is_row AcordForms j) d) eqn:Hd.
      { unfold cell in Hi. cbn in Hi. by rewrite lookup_insert_eq in Hi. }
      rewrite Hj in Hi. injection Hi as ->. apply (Hstays x AcordForms "superseded_by_id" Hx R2); [|done].
      intros i' z Hi' Hz Hzt Hzi Hg. rewrite Hj in Hi'. injection Hi' as <-. 
      assert (Hf : is_row AcordForms i z = false) by (by apply (proj1 (existsb_false _ _) Hd), filter_In).
      by rewrite (proj2 (is_row_spec AcordForms i z)) in Hf.
Qed.

Section Preservation.
Context (canonical_json_bytes : json -> option bytes) (sha256_hex : bytes -> string).
Abbreviation record_step := (record_step canonical_json_bytes sha256_hex).
Abbreviation hashed := (hashed canonical_json_bytes sha256_hex).

Lemma step_well_formed tid db db' : record_step tid db db' -> well_formed db -> well_formed db'.
Proof.
  intros [r Hn Hc Hs Hv Hh|r r' Hr Hn He Hc Hs Hv Hh|r Hr Hn|a Ha] Hwf.
  - by apply insert_well_formed.
  - by eapply assign_well_formed.
  - by apply delete_well_formed.
  - by destruct Hwf.
Qed.

(** ** Other tenants' rows *)

Definition foreign_rows (tid : string) (db : RecordsDB) : list Row :=
  List.filter (fun r => negb (String.eqb (row_tenant_id r) tid)) (rows db).
Definition foreign_logs (tid : string) (db : RecordsDB) : list AuditLog :=
  List.filter (fun a => negb (String.eqb (al_tenant_id a) tid)) (audit_logs db).
Definition foreign (tid : string) (db : RecordsDB) := (foreign_rows tid db, foreign_logs tid db).

(** A row of another tenant is neither deleted with one of the tenant nor refers
    to one. *)
Lemma foreign_stays r x db :
  well_formed db -> In r (rows db) -> In x (rows db) -> row_tenant_id x <> row_tenant_id r ->
  gone r x = false /\ unset_superseded (List.filter (gone r) (rows db)) x = x.
Proof.
  intros [W1 W2 W3] Hr Hx Hne.
  assert (Hown : forall z, In z (rows db) -> gone r z = true -> row_tenant_id z = row_tenant_id r).
  { intros z Hz [[Ht Hi]|[Ht Hi]]%gone_spec.
    - by rewrite (same_key_same_row (rows db) W2 r z).
    - destruct (proj1 (W3 z Hz) _ Hi) as (y & Hy & Hyt & Hyi & <-).
      by rewrite (same_key_same_row (rows db) W2 r y) by congruence. }
  split; [apply not_true_iff_false; intros Hg; by apply Hne, Hown|].
  unfold unset_superseded. destruct (bool_decide (row_table x = AcordForms)) eqn:Ht; [|done]. apply bool_decide_eq_true in Ht.
  destruct (cell "superseded_by_id" x) as [|i| | | |] eqn:Hi; try done. cbn [andb].
  destruct (existsb _ _) eqn:He; [|done]. apply existsb_exists in He as (z & [Hz Hg]%filter_In & [Hzt Hzi]%is_row_spec).
  destruct (proj2 (W3 x Hx) Ht i Hi) as (y & Hy & Hyt & Hyi & Hyn). rewrite (same_key_same_row (rows db) W2 z y) in Hyn by congruence.
  destruct Hne. rewrite <- Hyn. by apply Hown.
Qed.

Lemma step_foreign tid db db' : record_step tid db db' -> well_formed db -> foreign tid db' = foreign tid db.
Proof.
  intros [r Hn Hc Hs Hv Hh|r r' Hr Hn He Hc Hs Hv Hh|r Hr Hn|a Ha] Hwf; unfold foreign, foreign_rows, foreign_logs; cbn; f_equal.
  - rewrite List.filter_app. cbn. by rewrite Hn, String.eqb_refl, app_nil_r.
  - apply filter_map_id. intros x Hx. destruct (is_row _ _ x) eqn:Hi; [|done]. apply is_row_spec in Hi as [Ht Hi].
    assert (Hxr : x = r) by (apply (same_key_same_row (rows db) (wf_unique _ Hwf)); [done..| |]; by rewrite <- He in Ht, Hi).
    subst x. rewrite <- He, Hn. cbn. by rewrite Hn, String.eqb_refl.
  - apply filter_map_filter_id. intros x Hx. destruct (unset_superseded_key (List.filter (gone r) (rows db)) x) as (_ & _ & ->).
    split; [done|]. intros Hxt%negb_true_iff%String.eqb_neq. destruct (foreign_stays r x db) as [-> ->]; [done..|congruence|done].
  - rewrite List.filter_app. cbn. by rewrite Ha, String.eqb_refl, app_nil_r.
Qed.

Lemma unset_hashed d x : hashed x -> hashed (unset_superseded d x).
Proof.
  assert (Hc : forall k, k <> "superseded_by_id" -> cell k (unset_superseded d x) = cell k x).
  { intros k Hk. destruct (unset_superseded_cell d x k) as [->|(_ & ? & _)]; done. }
  unfold RecordSteps.hashed. destruct (unset_superseded_key d x) as (-> & _ & _). by destruct (row_table x); rewrite ?Hc.
Qed.

Lemma step_hashed tid db db' :
  record_step tid db db' -> digests_in_sync canonical_json_bytes sha256_hex db ->
  digests_in_sync canonical_json_bytes sha256_hex db'.
Proof.
  unfold digests_in_sync. rewrite !List.Forall_forall.
  intros [r Hn Hc Hs Hv Hh|r r' Hr Hn He Hc Hs Hv Hh|r Hr Hn|a Ha] Hall; cbn; intros x Hx.
  - apply in_app_iff in Hx as [Hx|[<-|[]]]; auto.
  - apply replace_row_In in Hx as [->|[Hx _]]; auto.
  - apply without_In in Hx as (y & -> & Hy & _). by apply unset_hashed, Hall.
  - by apply Hall.
Qed.
End Preservation.

(** ** Assignments by name *)

Lemma columns_NoDup t : List.NoDup (map c_name (columns t)).
Proof. apply NoDup_ListNoDup. destruct t; (apply (bool_decide_unpack _); vm_compute; exact I). Qed.

Lemma assign_spec t data old :
  (forall c, In c (columns t) ->
     assign t data old !! c_name c = match data !! c_name c with Some v => Some (bind_value c v) | None => old !! c_name c end) /\
  (forall k, ~ In k (map c_name (columns t)) -> assign t data old !! k = old !! k).
Proof.
  unfold assign. generalize (columns_NoDup t). generalize (columns t). intros l.
  induction l as [|c l IH]; cbn; [done|]. intros [Hc Hnd]%NoDup_cons_iff. destruct (IH Hnd) as [IH1 IH2]. split.
  - intros c' [->|Hin].
    + destruct (data !! c_name c') as [v|]; [by rewrite lookup_insert_eq|]. by apply IH2.
    + assert (c_name c <> c_name c') by (intros He; apply Hc; rewrite He; by apply in_map).
      destruct (data !! c_name c) as [v|]; [rewrite lookup_insert_ne by done|]; by apply IH1.
  - intros k Hk. destruct (data !! c_name c) as [v|]; [rewrite lookup_insert_ne by tauto|]; apply IH2; tauto.
Qed.

Lemma assign_unsent t data old k : data !! k = None -> assign t data old !! k = old !! k.
Proof.
  intros Hk. destruct (in_dec String.string_dec k (map c_name (columns t))) as [(c & <- & Hc)%in_map_iff|Hn].
  - rewrite (proj1 (assign_spec t data old) c Hc). by rewrite Hk.
  - by apply assign_spec.
Qed.

Lemma assign_closed t data old :
  (forall k v, old !! k = Some v -> In k (map c_name (columns t))) ->
  forall k v, assign t data old !! k = Some v -> In k (map c_name (columns t)).
Proof.
  intros Hold k v Hk. destruct (in_dec String.string_dec k (map c_name (columns t))) as [?|Hn]; [done|].
  rewrite (proj2 (assign_spec t data old) k Hn) in Hk. by eapply Hold.
Qed.

Lemma defaults_closed t k v : defaults t !! k = Some v -> In k (map c_name (columns t)).
Proof.
  unfold defaults. induction (columns t) as [|c l IH]; cbn; [by rewrite lookup_empty|].
  assert (Hcase : forall w, (<[c_name c := w]> (foldr (fun c m => match c_default c with VNull => m | v => <[c_name c := v]> m end) ∅ l)
                   : gmap string value) !! k = Some v -> c_name c = k \/ In k (map c_name l)).
  { intros w. destruct (decide (c_name c = k)) as [->|Hne]; [by left|]. rewrite lookup_insert_ne by done. auto. }
  destruct (c_default c); [intros H; right; by apply IH|apply Hcase..].
Qed.

(** What a column holds after an assignment. *)
Lemma cell_assigned t data old c r :
  In c (columns t) -> cells r = assign t data old ->
  cell (c_name c) r = match data !! c_name c with Some v => bind_value c v | None => default VNull (old !! c_name c) end.
Proof.
  intros Hc Hr. unfold cell. rewrite Hr, (proj1 (assign_spec t data old) c Hc). by destruct (data !! c_name c).
Qed.

(** ** Runs of the operations of the session *)

Section Runs.
Context (uuid : nat -> string).

Lemma insert_row_Ok now t tid data s row s' :
  insert_row uuid now t tid data s = (Ok row, s') <->
  row = {| row_table := t; row_id := uuid (next_id (working s)); row_tenant_id := tid; row_created_at := now;
           cells := assign t data (defaults t) |} /\
  violation row (rows (working s)) = None /\
  s' = Session (bump (with_rows (fun l => l ++ [row]) (working s))) (committed s).
Proof.
  unfold insert_row, query, write, bind, reads, modify, ret, raise. cbn. split.
  - destruct (violation _ _) eqn:Hv; [done|]. by intros [= <- <-].
  - intros (-> & -> & ->). done.
Qed.

Lemma update_row_Ok r data s row s' :
  update_row r data s = (Ok row, s') <->
  row = with_cells (assign (row_table r) data (cells r)) r /\ violation row (others row (rows (working s))) = None /\
  s' = Session (with_rows (replace_row row) (working s)) (committed s).
Proof.
  unfold update_row, query, write, bind, reads, modify, ret, raise. cbn. split.
  - destruct (violation _ _) eqn:Hv; [done|]. by intros [= <- <-].
  - intros (-> & Hv & ->). unfold others in Hv. cbn in Hv. by rewrite Hv.
Qed.
End Runs.

Lemma own_row_Some t tid i db r :
  own_row t tid i db = Some r -> In r (rows db) /\ row_table r = t /\ row_id r = i /\ row_tenant_id r = tid.
Proof. intros [Hin [[Ht Hi]%is_row_spec Hn%String.eqb_eq]%andb_true_iff]%find_first_Some. done. Qed.

(** A reference to a row of the tenant, checked or null. *)
Lemma refers_own t k r tid db i :
  row_tenant_id r = tid -> cell k r = VText i -> is_someb (own_row t tid i db) = true -> refers t k r (rows db).
Proof.
  intros Hn Hk Hs j Hj. rewrite Hk in Hj. injection Hj as <-. destruct (own_row t tid i db) as [x|] eqn:Hx; [|done].
  apply own_row_Some in Hx as (Hx & Ht & Hi & Hxn). exists x. by rewrite Hxn.
Qed.

Lemma refers_no_text t k r l : (forall i, cell k r <> VText i) -> refers t k r l.
Proof. intros H i Hi. by apply H in Hi. Qed.
