(* ===== verification/RecordApi.v ===== *)
(** * Tenant records: endpoints

    api/v1/loss_runs.py, eo_certificates.py, risk_schedules.py,
    producer_licenses.py, acord_forms.py, suppliers.py and consents.py.  The
    endpoints of the five records of a supplier are one text over the interface
    [TenantRecord] - the table, the schemas, the service, the names - with an
    instance per resource. *)

From Stdlib Require Import Ascii.
From S2P Require Import Prelude PyStr Json Encoding Accounts Records RecordSchemas RecordServices.

Abbreviation AM := (M (session RecordsDB) web_error).

(** The caller as the dependencies and the request give it. *)
Record caller : Type := {
  c_tenant_id : string; c_user_id : string; client_host : option string; forwarded_for : option string }.

(** api/v1/loss_runs.py, [_client_ip]. *)
Definition _client_ip (c : caller) : option string :=
  match opt_truthy (client_host c) with
  | Some host => Some host
  | None =>
      match opt_truthy (forwarded_for c) with
      | Some f => opt_truthy (Some (strip (default "" (head (split_char "," f)))))
      | None => None
      end
  end.

(** api/v1/loss_runs.py, [_audit]. *)
Definition _audit (c : caller) (resource action : string) (i : option string) (meta : list (string * json)) : AM unit :=
  write (add_log {| al_tenant_id := c_tenant_id c; al_actor_user_id := Some (c_user_id c);
                    al_action := resource +:+ "." +:+ action; al_resource_type := resource; al_resource_id := i;
                    al_metadata := meta; al_ip_address := _client_ip c |}).

(** What the client gets for an exception of the service; those that no endpoint
    catches are a 500. *)
Definition to_http (not_found : string) (e : record_error) : web_error :=
  match e with
  | NotFoundError => HTTPException 404 not_found
  | SupplierNotInTenantError => HTTPException 404 "supplier_not_found"
  | DuplicateLicenseError => HTTPException 409 "license_already_exists"
  | InvalidSupersedeReferenceError => HTTPException 422 "invalid_supersede_reference"
  | DbError IntegrityError => PyException "IntegrityError"
  | DbError DataError => PyException "DBAPIError"
  | CanonicalizationError => PyException "CanonicalizationError"
  end.

Definition service {A} (not_found : string) (m : RM A) : AM A :=
  fun s => match m s with (Ok a, s') => (Ok a, s') | (Raise e, s') => (Raise (to_http not_found e), s') end.

(** [Schema(body)]: a body that is not valid is answered 422. *)
Definition parse_body `{Pydantic} (sch : schema) (body : json) : AM (gmap string value) :=
  or_raise (validate sch body) (HTTPException 422 "validation_error").

(** [XRead.model_validate(row)]: the attributes that are not optional are there. *)
Definition readable (r : Row) : bool :=
  forallb (fun c => c_nullable c || bool_decide (attr (c_name c) r <> VNull)) (columns (row_table r)).
Definition read_model (r : Row) : AM Row := raise_if (negb (readable r)) (PyException "ValidationError") ;;; ret r.

(** [sorted(payload.model_dump(exclude_unset=True).keys())] *)
Definition fields_meta (data : gmap string value) : list (string * json) :=
  [("fields", JList (map JStr (isort String.leb (map fst (map_to_list data)))))].

(** An attribute as JSON in the metadata of the audit row. *)
Definition to_json (v : value) : json :=
  match v with VText s => JStr s | VInt n => JInt n | VJson j => j | VDate d => JInt d | VTime t => JInt t | VNull => JNull end.
Definition meta (ks : list string) (r : Row) : list (string * json) := map (fun k => (k, to_json (attr k r))) ks.

(** ** The interface of a resource *)

Class TenantRecord : Type := {
  res_table : table;
  res_name : string;
  create_schema : schema;
  update_schema : schema;
  created_meta : list string;
  deleted_meta : list string;
  svc_create : Z -> string -> gmap string value -> RM Row;
  svc_update : string -> string -> gmap string value -> RM Row;
}.

Definition not_found_code `{TenantRecord} : string := res_name +:+ "_not_found".

Section Endpoints.
Context {P : Pydantic} {R : TenantRecord}.

Definition create_endpoint (now : Z) (c : caller) (body : json) : AM Row :=
  let* payload := parse_body create_schema body in
  let* row := service not_found_code (svc_create now (c_tenant_id c) payload) in
  _audit c res_name "created" (Some (row_id row)) (meta created_meta row) ;;;
  read_model row.

(** [supplier_id] has at most 36 characters, [limit] is 1 to 200 and [offset] is
    not negative. *)
Definition list_endpoint (tenant_id : string) (supplier_id : option string) (limit offset : Z) : AM (list Row * Z) :=
  raise_if (negb ((slen (default "" supplier_id) <=? 36) && (1 <=? limit) && (limit <=? 200) && (0 <=? offset)))
    (HTTPException 422 "validation_error") ;;;
  let* (items, total) := service not_found_code (list_records res_table tenant_id supplier_id limit offset) in
  raise_if (negb (forallb readable items)) (PyException "ValidationError") ;;;
  ret (items, total).

Definition get_endpoint (tenant_id i : string) : AM Row :=
  let* row := service not_found_code (get_record res_table tenant_id i) in
  let* row := or_raise row (HTTPException 404 not_found_code) in
  read_model row.

Definition update_endpoint (c : caller) (i : string) (body : json) : AM Row :=
  let* payload := parse_body update_schema body in
  let* row := service not_found_code (svc_update (c_tenant_id c) i payload) in
  _audit c res_name "updated" (Some (row_id row)) (fields_meta payload) ;;;
  read_model row.

Definition delete_endpoint (c : caller) (i : string) : AM unit :=
  let* row := service not_found_code (delete_record res_table (c_tenant_id c) i) in
  _audit c res_name "deleted" (Some (row_id row)) (meta deleted_meta row).
End Endpoints.

(** ** The resources *)

Section Resources.
Context {P : Pydantic} (uuid : nat -> string).
Context (canonical_json_bytes : json -> option bytes) (sha256_hex : bytes -> string).

Definition loss_runs : TenantRecord := {|
  res_table := LossRuns; res_name := "loss_run"; create_schema := LossRunCreate; update_schema := LossRunUpdate;
  created_meta := ["supplier_id"; "carrier_name"]; deleted_meta := ["supplier_id"];
  svc_create := loss_run_create uuid; svc_update := loss_run_update |}.

(** api/v1/loss_runs.py, [create_loss_run]. *)
Definition create_loss_run := create_endpoint (R := loss_runs).
(** api/v1/loss_runs.py, [list_loss_runs]. *)
Definition list_loss_runs := list_endpoint (R := loss_runs).
(** api/v1/loss_runs.py, [get_loss_run]. *)
Definition get_loss_run := get_endpoint (R := loss_runs).
(** api/v1/loss_runs.py, [update_loss_run]. *)
Definition update_loss_run := update_endpoint (R := loss_runs).
(** api/v1/loss_runs.py, [delete_loss_run]. *)
Definition delete_loss_run := delete_endpoint (R := loss_runs).

Definition eo_certificates : TenantRecord := {|
  res_table := EOCertificates; res_name := "eo_certificate"; create_schema := EOCertificateCreate;
  update_schema := EOCertificateUpdate; created_meta := ["policy_number"; "carrier_name"];
  deleted_meta := ["policy_number"]; svc_create := eo_certificate_create uuid; svc_update := eo_certificate_update |}.

(** api/v1/eo_certificates.py, [create_eo_certificate]. *)
Definition create_eo_certificate := create_endpoint (R := eo_certificates).
(** api/v1/eo_certificates.py, [list_eo_certificates]. *)
Definition list_eo_certificates := list_endpoint (R := eo_certificates).
(** api/v1/eo_certificates.py, [get_eo_certificate]. *)
Definition get_eo_certificate := get_endpoint (R := eo_certificates).
(** api/v1/eo_certificates.py, [update_eo_certificate]. *)
Definition update_eo_certificate := update_endpoint (R := eo_certificates).
(** api/v1/eo_certificates.py, [delete_eo_certificate]. *)
Definition delete_eo_certificate := delete_endpoint (R := eo_certificates).

Definition risk_schedules : TenantRecord := {|
  res_table := RiskSchedules; res_name := "risk_schedule"; create_schema := RiskScheduleCreate;
  update_schema := RiskScheduleUpdate; created_meta := ["schedule_type"; "item_count"; "items_hash"];
  deleted_meta := ["schedule_type"]; svc_create := risk_schedule_create uuid canonical_json_bytes sha256_hex;
  svc_update := risk_schedule_update canonical_json_bytes sha256_hex |}.

(** api/v1/risk_schedules.py, [create_risk_schedule]. *)
Definition create_risk_schedule := create_endpoint (R := risk_schedules).
(** api/v1/risk_schedules.py, [list_risk_schedules]. *)
Definition list_risk_schedules := list_endpoint (R := risk_schedules).
(** api/v1/risk_schedules.py, [get_risk_schedule]. *)
Definition get_risk_schedule := get_endpoint (R := risk_schedules).
(** api/v1/risk_schedules.py, [update_risk_schedule]. *)
Definition update_risk_schedule := update_endpoint (R := risk_schedules).
(** api/v1/risk_schedules.py, [delete_risk_schedule]. *)
Definition delete_risk_schedule := delete_endpoint (R := risk_schedules).

Definition producer_licenses : TenantRecord := {|
  res_table := ProducerLicenses; res_name := "producer_license"; create_schema := ProducerLicenseCreate;
  update_schema := ProducerLicenseUpdate; created_meta := ["state"; "license_number"];
  deleted_meta := ["state"; "license_number"]; svc_create := producer_license_create uuid;
  svc_update := producer_license_update |}.

(** api/v1/producer_licenses.py, [create_producer_license]. *)
Definition create_producer_license := create_endpoint (R := producer_licenses).
(** api/v1/producer_licenses.py, [list_producer_licenses]. *)
Definition list_producer_licenses := list_endpoint (R := producer_licenses).
(** api/v1/producer_licenses.py, [get_producer_license]. *)
Definition get_producer_license := get_endpoint (R := producer_licenses).
(** api/v1/producer_licenses.py, [update_producer_license]. *)
Definition update_producer_license := update_endpoint (R := producer_licenses).
(** api/v1/producer_licenses.py, [delete_producer_license]. *)
Definition delete_producer_license := delete_endpoint (R := producer_licenses).

Definition acord_forms : TenantRecord := {|
  res_table := AcordForms; res_name := "acord_form"; create_schema := AcordFormCreate; update_schema := AcordFormUpdate;
  created_meta := ["form_type"; "payload_hash"]; deleted_meta := ["form_type"];
  svc_create := acord_form_create uuid canonical_json_bytes sha256_hex;
  svc_update := acord_form_update canonical_json_bytes sha256_hex |}.

(** api/v1/acord_forms.py, [create_acord_form]. *)
Definition create_acord_form := create_endpoint (R := acord_forms).
(** api/v1/acord_forms.py, [list_acord_forms]. *)
Definition list_acord_forms := list_endpoint (R := acord_forms).
(** api/v1/acord_forms.py, [get_acord_form]. *)
Definition get_acord_form := get_endpoint (R := acord_forms).
(** api/v1/acord_forms.py, [update_acord_form]. *)
Definition update_acord_form := update_endpoint (R := acord_forms).
(** api/v1/acord_forms.py, [delete_acord_form]. *)
Definition delete_acord_form := delete_endpoint (R := acord_forms).

(** ** Suppliers *)

(** api/v1/suppliers.py, [list_suppliers]: the page and [X-Total-Count]. *)
Definition list_suppliers_endpoint (tenant_id : string) (search : option string) (limit offset : Z) : AM (list Row * Z) :=
  raise_if (negb ((slen (default "" search) <=? 128) && (1 <=? limit) && (limit <=? 200) && (0 <=? offset)))
    (HTTPException 422 "validation_error") ;;;
  let* l := service "supplier_not_found" (list_suppliers tenant_id search limit offset) in
  let* total := service "supplier_not_found" (count_suppliers tenant_id search) in
  ret (l, total).

(** api/v1/suppliers.py, [create_supplier]. *)
Definition create_supplier_endpoint (now : Z) (c : caller) (body : json) : AM Row :=
  let* payload := parse_body SupplierCreate body in
  let* row := service "supplier_not_found" (create_supplier uuid now (c_tenant_id c) payload) in
  _audit c "supplier" "created" (Some (row_id row)) (meta ["legal_name"] row) ;;;
  read_model row.

(** api/v1/suppliers.py, [get_supplier]. *)
Definition get_supplier_endpoint (tenant_id i : string) : AM Row :=
  let* row := service "supplier_not_found" (get_supplier tenant_id i) in read_model row.

(** api/v1/suppliers.py, [update_supplier]. *)
Definition update_supplier_endpoint (c : caller) (i : string) (body : json) : AM Row :=
  let* payload := parse_body SupplierUpdate body in
  let* row := service "supplier_not_found" (update_supplier (c_tenant_id c) i payload) in
  _audit c "supplier" "updated" (Some (row_id row)) (fields_meta payload) ;;;
  read_model row.

(** api/v1/suppliers.py, [delete_supplier]. *)
Definition delete_supplier_endpoint (c : caller) (i : string) : AM unit :=
  let* row := service "supplier_not_found" (delete_supplier (c_tenant_id c) i) in
  _audit c "supplier" "deleted" (Some (row_id row)) (meta ["legal_name"] row).

(** ** Consents *)

Definition opt_json (o : option string) : json := match o with Some s => JStr s | None => JNull end.

(** api/v1/consents.py, [list_consents]; [active] wins over [active_only]. *)
Definition list_consents_endpoint (c : caller) (supplier_id portal_id : option string) (active_only : bool)
    (active : option bool) (limit offset : Z) : AM (list Row * Z) :=
  raise_if (negb ((slen (default "" supplier_id) <=? 36) && (slen (default "" portal_id) <=? 36)
                  && (1 <=? limit) && (limit <=? 200) && (0 <=? offset))) (HTTPException 422 "validation_error") ;;;
  let effective := default active_only active in
  let* (items, total) := service "consent_record_not_found"
                           (list_consents (c_tenant_id c) supplier_id portal_id effective limit offset) in
  _audit c "consent" "listed" None
    [("count", JInt (Z.of_nat (length items))); ("total", JInt total); ("supplier_id", opt_json supplier_id);
     ("portal_id", opt_json portal_id); ("active_only", JBool effective); ("limit", JInt limit); ("offset", JInt offset)] ;;;
  raise_if (negb (forallb readable items)) (PyException "ValidationError") ;;;
  ret (items, total).

(** api/v1/consents.py, [get_consent]. *)
Definition get_consent (c : caller) (i : string) : AM Row :=
  let* row := service "consent_record_not_found" (consent_get (c_tenant_id c) i) in
  _audit c "consent" "viewed" (Some (row_id row)) (meta ["supplier_id"; "scope"] row) ;;;
  read_model row.

(** ** Requests *)

Inductive resource : Type := R_loss_runs | R_eo_certificates | R_risk_schedules | R_producer_licenses | R_acord_forms.

Definition record_of (r : resource) : TenantRecord :=
  match r with
  | R_loss_runs => loss_runs
  | R_eo_certificates => eo_certificates
  | R_risk_schedules => risk_schedules
  | R_producer_licenses => producer_licenses
  | R_acord_forms => acord_forms
  end.

Inductive request : Type :=
| CreateRecord (r : resource) (body : json)
| ListRecords (r : resource) (supplier_id : option string) (limit offset : Z)
| GetRecord (r : resource) (i : string)
| UpdateRecord (r : resource) (i : string) (body : json)
| DeleteRecord (r : resource) (i : string)
| CreateSupplier (body : json)
| ListSuppliers (search : option string) (limit offset : Z)
| GetSupplier (i : string)
| UpdateSupplier (i : string) (body : json)
| DeleteSupplier (i : string)
| ListConsents (supplier_id portal_id : option string) (active_only : bool) (active : option bool) (limit offset : Z)
| GetConsent (i : string).

Inductive response : Type := OneRow (r : Row) | RowPage (l : list Row) (total : Z) | NoContent.

Definition one (m : AM Row) : AM response := let* r := m in ret (OneRow r).
Definition many (m : AM (list Row * Z)) : AM response := let* (l, n) := m in ret (RowPage l n).
Definition no_content (m : AM unit) : AM response := m ;;; ret NoContent.

Definition run_request (now : Z) (c : caller) (rq : request) : AM response :=
  match rq with
  | CreateRecord r body => one (create_endpoint (R := record_of r) now c body)
  | ListRecords r s limit offset => many (list_endpoint (R := record_of r) (c_tenant_id c) s limit offset)
  | GetRecord r i => one (get_endpoint (R := record_of r) (c_tenant_id c) i)
  | UpdateRecord r i body => one (update_endpoint (R := record_of r) c i body)
  | DeleteRecord r i => no_content (delete_endpoint (R := record_of r) c i)
  | CreateSupplier body => one (create_supplier_endpoint now c body)
  | ListSuppliers s limit offset => many (list_suppliers_endpoint (c_tenant_id c) s limit offset)
  | GetSupplier i => one (get_supplier_endpoint (c_tenant_id c) i)
  | UpdateSupplier i body => one (update_supplier_endpoint c i body)
  | DeleteSupplier i => no_content (delete_supplier_endpoint c i)
  | ListConsents s p active_only active limit offset => many (list_consents_endpoint c s p active_only active limit offset)
  | GetConsent i => one (get_consent c i)
  end.

(** One request in its transaction. *)
Definition records_handle (now : Z) (c : caller) (rq : request) : AM response := in_request (run_request now c rq).
End Resources.
