(* ===== verification/RecordTheorems.v ===== *)
(** * Tenant records: theorems

    The laws that the services promise to the endpoints, an instance per resource,
    and what follows for every history of requests: the tables stay well formed,
    the digests stay in step, tenants do not see or touch each other's rows, and
    what is created is read back. *)

From Stdlib Require Import Ascii.
From S2P Require Import Prelude PyStr Json Encoding CanonicalJson Accounts Records RecordSchemas RecordServices RecordSteps RecordApi.

(** ** Runs of the helpers of the services *)

Lemma own_or_not_found_Ok t tid i s r s' :
  own_or_not_found t tid i s = (Ok r, s') <-> own_row t tid i (working s) = Some r /\ s' = s.
Proof. unfold own_or_not_found, get_record, query. cbn. apply or_raise_Ok. Qed.

Lemma assert_supplier_Ok tid i s u s' :
  _assert_supplier_in_tenant tid i s = (Ok u, s') <-> is_someb (own_row Suppliers tid i (working s)) = true /\ s' = s.
Proof. unfold _assert_supplier_in_tenant, query, bind, reads. cbn. by rewrite raise_if_Ok, negb_false_iff. Qed.

Lemma assert_target_Ok tid i s u s' :
  _assert_supersede_target_in_tenant tid i s = (Ok u, s') <-> is_someb (own_row AcordForms tid i (working s)) = true /\ s' = s.
Proof. unfold _assert_supersede_target_in_tenant, query, bind, reads. cbn. by rewrite raise_if_Ok, negb_false_iff. Qed.

Lemma duplicate_license_Ok m s r s' : duplicate_license m s = (Ok r, s') <-> m s = (Ok r, s').
Proof.
  unfold duplicate_license, try_except. destruct (m s) as [[a|e] s1]; [done|].
  destruct e as [| | | |[]|]; cbn; unfold bind, raise; cbn; split; intros H; by inversion H.
Qed.

(** No service commits. *)
Section Committed.
Context (uuid : nat -> string) (cjb : json -> option bytes) (sha : bytes -> string) (db : RecordsDB).
Abbreviation keeps := (preserves (committed_is db)).

Lemma row_keeps_insert now t tid data : keeps (insert_row uuid now t tid data).
Proof. unfold insert_row. repeat (apply preserves_bind; [eauto with preserve|intros ?]). destruct (violation _ _); eauto with preserve. Qed.
Lemma row_keeps_update r data : keeps (update_row r data).
Proof. unfold update_row. apply preserves_bind; [eauto with preserve|intros ?]. destruct (violation _ _); eauto with preserve. Qed.
Lemma keeps_own t tid i : keeps (own_or_not_found t tid i).
Proof. unfold own_or_not_found, get_record. eauto with preserve. Qed.
Lemma keeps_supplier tid i : keeps (_assert_supplier_in_tenant tid i).
Proof. unfold _assert_supplier_in_tenant. eauto with preserve. Qed.
Lemma keeps_target tid i : keeps (_assert_supersede_target_in_tenant tid i).
Proof. unfold _assert_supersede_target_in_tenant. eauto with preserve. Qed.
Lemma keeps_duplicate m : keeps m -> keeps (duplicate_license m).
Proof. intros Hm. apply preserves_try_except; [done|]. intros [| | | |[]|]; eauto with preserve. Qed.
Lemma keeps_hash j : keeps (hash_or_raise cjb sha j).
Proof. unfold hash_or_raise. eauto with preserve. Qed.
End Committed.

#[export] Hint Resolve row_keeps_insert row_keeps_update keeps_own keeps_supplier keeps_target keeps_duplicate keeps_hash : preserve.

(** ** The laws of a resource *)

(** A validator does not make a null. *)
Definition proper (f : field) : Prop := forall v w, v <> VJson JNull -> f_validator f v = Some w -> w <> VJson JNull.

(** The attributes that only the service sets. *)
Definition derived : list string := ["supplier_id"; "payload_hash"; "items_hash"; "item_count"].

Section Laws.
Context (cjb : json -> option bytes) (sha : bytes -> string).
Abbreviation hashed := (hashed cjb sha).

Definition inserted (t : table) (tid : string) (row : Row) (db db' : RecordsDB) : Prop :=
  row_table row = t /\ row_tenant_id row = tid /\ closed row /\ scoped row (rows db) /\ violation row (rows db) = None /\
  hashed row /\ db' = bump (with_rows (fun l => l ++ [row]) db).

Definition assigned (r row : Row) (db db' : RecordsDB) : Prop :=
  with_cells (cells row) r = row /\ (closed r -> closed row) /\ (scoped r (rows db) -> scoped row (rows db)) /\
  violation row (others row (rows db)) = None /\ (readable row = true -> hashed r -> hashed row) /\
  db' = with_rows (replace_row row) db.

Class RecordLaws (R : TenantRecord) : Prop := {
  law_create now tid data s row s' :
    svc_create now tid data s = (Ok row, s') -> inserted res_table tid row (working s) (working s');
  law_update tid i data s row s' :
    (forall k, In k derived -> data !! k = None) -> svc_update tid i data s = (Ok row, s') ->
    exists r, own_row res_table tid i (working s) = Some r /\ assigned r row (working s) (working s');
  law_create_keeps now tid data db : preserves (committed_is db) (svc_create now tid data);
  law_update_keeps tid i data db : preserves (committed_is db) (svc_update tid i data);
  law_derived : forall k, In k derived -> ~ In k (map f_name (s_fields update_schema));
  law_cells now tid data s row s' :
    svc_create now tid data s = (Ok row, s') ->
    exists data', cells row = assign res_table data' (defaults res_table) /\
                  forall k, In k (map f_name (s_fields create_schema)) -> data' !! k = data !! k;
  law_columns : forall k, In k (map f_name (s_fields create_schema)) -> In k (map c_name (columns res_table));
  law_proper : Forall proper (s_fields create_schema);
}.
End Laws.

Lemma defaults_null t c : In c (columns t) -> c_default c = VNull -> defaults t !! c_name c = None.
Proof.
  destruct t; cbn; intros Hc; repeat (destruct Hc as [<-|Hc]; [first [intros _; vm_compute; reflexivity|discriminate]|]); done.
Qed.

(** What a new row holds. *)
Lemma cell_inserted t data c k row :
  In c (columns t) -> c_default c = VNull -> c_name c = k -> cells row = assign t data (defaults t) ->
  cell k row = match data !! k with Some v => bind_value c v | None => VNull end.
Proof. intros Hc Hd <- Hr. rewrite (cell_assigned t data _ c row Hc Hr), defaults_null by done. done. Qed.

Lemma records_have_supplier t : t <> Suppliers -> In supplier_fk (columns t).
Proof. destruct t; [done|..]; intros _; by left. Qed.

Section Instances.
Context (uuid : nat -> string) (cjb : json -> option bytes) (sha : bytes -> string).
Abbreviation hashed := (hashed cjb sha).
Abbreviation inserted := (inserted cjb sha).
Abbreviation assigned := (assigned cjb sha).

Definition new_row (n : nat) (now : Z) (t : table) (tid : string) (data : gmap string value) : Row :=
  {| row_table := t; row_id := uuid n; row_tenant_id := tid; row_created_at := now; cells := assign t data (defaults t) |}.

(** An insertion by a service that has checked the references. *)
Lemma insert_inserted now t tid data s row s' :
  t <> Suppliers -> is_someb (own_row Suppliers tid (text_of (sent "supplier_id" data)) (working s)) = true ->
  (t = AcordForms -> forall i, sent "superseded_by_id" data = VText i -> is_someb (own_row AcordForms tid i (working s)) = true) ->
  insert_row uuid now t tid data s = (Ok row, s') ->
  (row = new_row (next_id (working s)) now t tid data -> not_null row = true -> hashed row) ->
  inserted t tid row (working s) (working s').
Proof.
  intros Ht Hsup Hacord (Hrow & Hv & ->)%insert_row_Ok Hh. pose proof (violation_None _ _ Hv) as (_ & Hnn & _).
  unfold inserted. fold (new_row (next_id (working s)) now t tid data) in Hrow. specialize (Hh Hrow Hnn).
  assert (Hcells : cells row = assign t data (defaults t)) by (by rewrite Hrow).
  split_and!; [by rewrite Hrow..| | |done|done|done].
  - rewrite Hrow. intros k v. apply assign_closed, defaults_closed.
  - split.
    + intros i Hi. eapply (refers_own _ "supplier_id"); [by rewrite Hrow|exact Hi| |exact Hi].
      rewrite (cell_inserted t data supplier_fk "supplier_id" row) in Hi; [|by apply records_have_supplier|done..].
      unfold sent in Hsup.
      destruct (data !! "supplier_id") as [v|]; [|done]. cbn in Hi. by rewrite Hi in Hsup.
    + rewrite Hrow. cbn. intros ->. rewrite <- Hrow. intros i Hi.
      eapply (refers_own _ "superseded_by_id"); [by rewrite Hrow|exact Hi| |exact Hi]. apply (Hacord eq_refl).
      rewrite (cell_inserted AcordForms data (nul "superseded_by_id" (Varchar 36)) "superseded_by_id" row) in Hi; [|cbn; tauto|done..].
      unfold sent. cbn in Hi. by destruct (data !! "superseded_by_id").
Qed.

(** What an assigned row holds. *)
Lemma cell_updated t data c k r row :
  In c (columns t) -> c_name c = k -> cells row = assign t data (cells r) ->
  cell k row = match data !! k with Some v => bind_value c v | None => cell k r end.
Proof. intros Hc <- Hr. by rewrite (cell_assigned t data _ c row Hc Hr). Qed.

(** An assignment by a service that has checked the reference. *)
Lemma update_assigned t tid i data r s row s' :
  own_row t tid i (working s) = Some r -> data !! "supplier_id" = None ->
  (t = AcordForms -> forall j, data !! "superseded_by_id" = Some (VText j) ->
     cell "superseded_by_id" r = VText j \/ is_someb (own_row AcordForms tid j (working s)) = true) ->
  update_row r data s = (Ok row, s') ->
  (row_table row = t -> cells row = assign t data (cells r) -> row_table r = t -> typed row = true -> readable row = true ->
   hashed r -> hashed row) ->
  exists r, own_row t tid i (working s) = Some r /\ assigned r row (working s) (working s').
Proof.
  intros Hown Hsup Hacord (Hrow & Hv & ->)%update_row_Ok Hh. pose proof (own_row_Some _ _ _ _ _ Hown) as (Hin & Ht & _ & Hn).
  pose proof (violation_None _ _ Hv) as (Hty & _). rewrite Ht in Hrow.
  assert (Hcells : cells row = assign t data (cells r)) by (by rewrite Hrow).
  exists r. split; [done|]. unfold assigned. split_and!; [by rewrite Hrow| | |done| |done].
  - rewrite Hrow. intros Hcl k v. cbn. rewrite Ht. apply assign_closed. rewrite <- Ht. exact Hcl.
  - intros [S1 S2]. split.
    + assert (Hs : cell "supplier_id" row = cell "supplier_id" r) by (unfold cell; by rewrite Hcells, assign_unsent).
      intros j Hj. rewrite Hs in Hj. destruct (S1 j Hj) as (x & Hx). exists x. rewrite Hrow. exact Hx.
    + rewrite Hrow at 1. cbn. intros Htt. specialize (S2 Htt). rewrite Htt in Ht. subst t. intros j Hj.
      rewrite (cell_updated AcordForms data (nul "superseded_by_id" (Varchar 36)) "superseded_by_id" r row) in Hj; [|cbn; tauto|done..].
      assert (Hr : forall P, (exists x, P x /\ row_table x = AcordForms /\ row_id x = j /\ row_tenant_id x = row_tenant_id r) ->
                exists x, P x /\ row_table x = AcordForms /\ row_id x = j /\ row_tenant_id x = row_tenant_id row)
        by (by rewrite Hrow).
      apply Hr. destruct (data !! "superseded_by_id") as [v|] eqn:Hd; [|by apply S2]. cbn in Hj. subst v.
      destruct (Hacord eq_refl j eq_refl) as [Hc|Hc]; [by apply S2|].
      destruct (own_row AcordForms tid j (working s)) as [x|] eqn:Hx; [|done]. apply own_row_Some in Hx as (Hx & H1 & H2 & H3).
      exists x. by rewrite Hn.
  - intros Hr Hhr. apply Hh; [by rewrite Hrow|done..].
Qed.

(** ** Instances *)

Lemma create_record_inserted now t tid data s row s' :
  t <> Suppliers -> t <> AcordForms -> t <> RiskSchedules -> create_record uuid t now tid data s = (Ok row, s') ->
  inserted t tid row (working s) (working s').
Proof.
  intros H1 H2 H3 H. unfold create_record in H. apply bind_Ok in H as ([] & s1 & [Hs ->]%assert_supplier_Ok & H).
  eapply insert_inserted; [done|exact Hs|done|exact H|]. intros -> _. unfold RecordSteps.hashed. cbn. by destruct t.
Qed.

Lemma update_record_assigned t tid i data s row s' :
  t <> AcordForms -> t <> RiskSchedules -> data !! "supplier_id" = None -> update_record t tid i data s = (Ok row, s') ->
  exists r, own_row t tid i (working s) = Some r /\ assigned r row (working s) (working s').
Proof.
  intros H2 H3 Hd H. unfold update_record in H. apply bind_Ok in H as (r & s1 & [Hr ->]%own_or_not_found_Ok & H).
  eapply update_assigned; [exact Hr|done|done|exact H|]. intros Ht _ _ _ _ _. unfold RecordSteps.hashed. rewrite Ht. by destruct t.
Qed.

Ltac not_a_field := cbn; intros k Hk Hin;
  repeat (destruct Hk as [<-|Hk]; [repeat (destruct Hin as [Hin|Hin]; [discriminate Hin|]); exact Hin|]); exact Hk.

Ltac not_among Hk := cbn in Hk; repeat (destruct Hk as [Hk|Hk]; [discriminate Hk|]); destruct Hk.

(** Every field of the schema is a column. *)
Ltac fields_are_columns := cbn; intros k Hk; repeat (destruct Hk as [<-|Hk]; [tauto|]); destruct Hk.

Lemma proper_id f : f_validator f = Some -> proper f.
Proof. intros Hf v w Hv. rewrite Hf. congruence. Qed.
Lemma proper_state f : f_validator f = _validate_state -> proper f.
Proof.
  intros Hf v w Hv. rewrite Hf. unfold _validate_state. destruct v; try congruence. destruct (existsb _ _); congruence.
Qed.
Ltac proper_fields := cbn; repeat (apply List.Forall_cons; [first [by apply proper_id|by apply proper_state]|]); apply List.Forall_nil.

Lemma create_record_cells now t tid data s row s' :
  create_record uuid t now tid data s = (Ok row, s') -> cells row = assign t data (defaults t).
Proof. intros H. apply bind_Ok in H as (u & s1 & _ & [-> _]%insert_row_Ok). done. Qed.

#[export] Instance loss_runs_laws : RecordLaws cjb sha (loss_runs uuid).
Proof.
  split.
  - intros *. by apply create_record_inserted.
  - intros * Hd H. eapply update_record_assigned; [done|done|apply Hd; by left|exact H].
  - intros *. cbn. unfold loss_run_create, create_record. eauto with preserve.
  - intros *. cbn. unfold loss_run_update, update_record. eauto with preserve.
  - not_a_field.
  - intros * H. exists data. split; [exact (create_record_cells _ _ _ _ _ _ _ H)|done].
  - fields_are_columns.
  - proper_fields.
Qed.

#[export] Instance eo_certificates_laws : RecordLaws cjb sha (eo_certificates uuid).
Proof.
  split.
  - intros *. by apply create_record_inserted.
  - intros * Hd H. eapply update_record_assigned; [done|done|apply Hd; by left|exact H].
  - intros *. cbn. unfold eo_certificate_create, create_record. eauto with preserve.
  - intros *. cbn. unfold eo_certificate_update, update_record. eauto with preserve.
  - not_a_field.
  - intros * H. exists data. split; [exact (create_record_cells _ _ _ _ _ _ _ H)|done].
  - fields_are_columns.
  - proper_fields.
Qed.

#[export] Instance producer_licenses_laws : RecordLaws cjb sha (producer_licenses uuid).
Proof.
  split.
  - intros * H. cbn in H. unfold producer_license_create in H. apply (create_record_inserted now _ _ data); [done..|].
    unfold create_record. unfold bind in *. destruct (_assert_supplier_in_tenant _ _ s) as [[[]|e] s1]; [|done].
    by apply duplicate_license_Ok.
  - intros * Hd H. cbn in H. unfold producer_license_update in H.
    apply (update_record_assigned _ tid i data); [done|done|apply Hd; by left|].
    unfold update_record. unfold bind in *. destruct (own_or_not_found _ _ _ s) as [[r|e] s1]; [|done].
    by apply duplicate_license_Ok.
  - intros *. cbn. unfold producer_license_create. eauto 6 with preserve.
  - intros *. cbn. unfold producer_license_update. eauto 6 with preserve.
  - not_a_field.
  - intros * H. exists data. split; [|done].
    apply bind_Ok in H as (u & s1 & _ & [-> _]%duplicate_license_Ok%insert_row_Ok). done.
  - fields_are_columns.
  - proper_fields.
Qed.

(** The cell of a JSON column as the services digest it. *)
Lemma json_of_bound c v : c_type c = JSON -> json_of (bind_value c v) = json_of v /\ items_len (bind_value c v) = items_len v.
Proof. intros Hc. unfold bind_value. rewrite Hc. by destruct v. Qed.

Lemma not_null_cell c row : not_null row = true -> In c (columns (row_table row)) -> c_nullable c = false -> cell (c_name c) row <> VNull.
Proof.
  unfold not_null. rewrite forallb_forall. intros Hnn Hc Hn. specialize (Hnn c Hc). rewrite Hn in Hnn. by apply bool_decide_eq_true in Hnn.
Qed.

Lemma readable_cell c row : readable row = true -> In c (columns (row_table row)) -> c_nullable c = false ->
  cell (c_name c) row <> VJson JNull.
Proof.
  unfold readable. rewrite forallb_forall. intros Hr Hc Hn. specialize (Hr c Hc). rewrite Hn in Hr. cbn in Hr.
  apply bool_decide_eq_true in Hr. unfold attr in Hr. intros He. by rewrite He in Hr.
Qed.

Lemma hash_or_raise_Ok j s h s' : hash_or_raise cjb sha j s = (Ok h, s') <-> payload_sha256 cjb sha j = Some h /\ s' = s.
Proof. apply or_raise_Ok. Qed.

(** The digest of a risk schedule, from what its cells were assigned. *)
Lemma risk_hashed row items h :
  row_table row = RiskSchedules -> cell "items_hash" row = VText h -> cell "item_count" row = VInt (items_len items) ->
  payload_sha256 cjb sha (json_of items) = Some h ->
  json_of (cell "items" row) = json_of items /\ items_len (cell "items" row) = items_len items -> hashed row.
Proof. intros Ht Hh Hc Hp [Hj Hl]. unfold RecordSteps.hashed. rewrite Ht. exists h. by rewrite Hj, Hl. Qed.

Lemma with_items_other v h data k : k <> "item_count" -> k <> "items_hash" -> with_items v h data !! k = data !! k.
Proof. intros H1 H2. unfold with_items. by rewrite !lookup_insert_ne. Qed.
Lemma with_items_hash v h data : with_items v h data !! "items_hash" = Some (VText h).
Proof. unfold with_items. by rewrite lookup_insert_ne, lookup_insert_eq. Qed.
Lemma with_items_count v h data : with_items v h data !! "item_count" = Some (VInt (items_len v)).
Proof. unfold with_items. by rewrite lookup_insert_eq. Qed.

Abbreviation hash_col := (col "items_hash" (Varchar 64)).
Abbreviation count_col := {| c_name := "item_count"; c_type := Integer; c_nullable := false; c_default := VInt 0 |}.
Abbreviation items_col := (col "items" JSON).

(** The digest is computed when the attribute is sent and is not None. *)
Lemma digest_if_sent_Ok o (data : gmap string value) (g : value -> string -> gmap string value) s d s1 :
  match o with None | Some VNull => ret data | Some v => let* h := hash_or_raise cjb sha (json_of v) in ret (g v h) end s = (Ok d, s1) ->
  s1 = s /\ (d = data /\ (o = None \/ o = Some VNull) \/
             exists v h, o = Some v /\ d = g v h /\ payload_sha256 cjb sha (json_of v) = Some h).
Proof.
  intros H. destruct o as [v|]; [|inversion H; auto]. destruct (decide (v = VNull)) as [->|Hv]; [inversion H; auto|].
  assert (Hb : (let* h := hash_or_raise cjb sha (json_of v) in ret (g v h)) s = (Ok d, s1)) by (by destruct v).
  apply bind_Ok in Hb as (h & s2 & [Hh ->]%hash_or_raise_Ok & [-> ->]%ret_Ok). split; [done|]. right. by exists v, h.
Qed.

Lemma keeps_digest o (data : gmap string value) (g : value -> string -> gmap string value) db :
  preserves (committed_is db)
    (match o with None | Some VNull => ret data | Some v => let* h := hash_or_raise cjb sha (json_of v) in ret (g v h) end).
Proof. destruct o as [[]|]; eauto with preserve. Qed.

Ltac a_column := first [done|cbn; tauto].

Lemma risk_create_inserted now tid data s row s' :
  risk_schedule_create uuid cjb sha now tid data s = (Ok row, s') -> inserted RiskSchedules tid row (working s) (working s').
Proof.
  unfold risk_schedule_create. intros H. apply bind_Ok in H as ([] & s1 & [Hs ->]%assert_supplier_Ok & H).
  apply bind_Ok in H as (h & s1 & [Hh ->]%hash_or_raise_Ok & H).
  eapply insert_inserted; [done| |done|exact H|].
  { unfold sent. rewrite with_items_other by done. exact Hs. }
  set (d := with_items _ _ _). intros Hrow Hnn. assert (Ht : row_table row = RiskSchedules) by (by rewrite Hrow).
  assert (Hc : cells row = assign RiskSchedules d (defaults RiskSchedules)) by (by rewrite Hrow). clear Hrow. rename row into r.
  pose proof (not_null_cell items_col r Hnn) as Hni. rewrite Ht in Hni. cbn [c_name col] in Hni.
  assert (Hi : cell "items" r = match data !! "items" with Some v => bind_value items_col v | None => VNull end).
  { rewrite (cell_inserted RiskSchedules d items_col "items" r) by a_column. unfold d. by rewrite with_items_other. }
  apply (risk_hashed r (default (VJson (JList [])) (data !! "items")) h); [done| | |done|].
  - rewrite (cell_inserted RiskSchedules d hash_col "items_hash" r) by a_column. unfold d. by rewrite with_items_hash.
  - change (cell "item_count" r) with (cell (c_name count_col) r).
    rewrite (cell_assigned RiskSchedules d (defaults RiskSchedules) count_col r) by a_column.
    cbn [c_name]. unfold d. by rewrite with_items_count.
  - rewrite Hi in *. destruct (data !! "items") as [v|]; [by apply json_of_bound|]. destruct Hni; a_column.
Qed.

Lemma risk_update_assigned tid i data s row s' :
  (forall k, In k derived -> data !! k = None) -> risk_schedule_update cjb sha tid i data s = (Ok row, s') ->
  exists r, own_row RiskSchedules tid i (working s) = Some r /\ assigned r row (working s) (working s').
Proof.
  unfold risk_schedule_update. intros Hd H. apply bind_Ok in H as (r & s1 & [Hr ->]%own_or_not_found_Ok & H).
  apply bind_Ok in H as (d & s1 & [-> Hs]%(digest_if_sent_Ok _ _ (fun v h => with_items v h data)) & H).
  eapply update_assigned; [exact Hr| |done|exact H|].
  { destruct Hs as [[-> _]|(v & h & _ & -> & _)]; [|rewrite with_items_other by done]; apply Hd; by left. }
  intros Ht Hc Htr _ Hread Hhr. pose proof (readable_cell items_col row Hread) as Hni. cbn [c_name col] in Hni. rewrite Ht in Hni.
  pose proof (fun c k H1 H2 => cell_updated RiskSchedules d c k r row H1 H2 Hc) as Hcell.
  rewrite (Hcell items_col "items") in Hni by a_column.
  destruct Hs as [[-> Hi]|(v & h & Hi & -> & Hh)].
  - assert (Hi' : data !! "items" = None) by (destruct Hi as [Hi|Hi]; [done|rewrite Hi in Hni; destruct Hni; a_column]).
    unfold RecordSteps.hashed in *. rewrite Ht. rewrite Htr in Hhr. destruct Hhr as (h & H1 & H2 & H3). exists h.
    rewrite (Hcell hash_col "items_hash"), (Hcell count_col "item_count"), (Hcell items_col "items") by a_column.
    by rewrite Hi', !Hd by (cbn; tauto).
  - apply (risk_hashed row v h); [done| | |done|].
    + rewrite (Hcell hash_col "items_hash") by a_column. by rewrite with_items_hash.
    + rewrite (Hcell count_col "item_count") by a_column. by rewrite with_items_count.
    + rewrite (Hcell items_col "items") by a_column. rewrite with_items_other, Hi by done. by apply json_of_bound.
Qed.

#[export] Instance risk_schedules_laws : RecordLaws cjb sha (risk_schedules uuid cjb sha).
Proof.
  split.
  - exact risk_create_inserted.
  - exact risk_update_assigned.
  - intros *. cbn. unfold risk_schedule_create. eauto 8 with preserve.
  - intros *. cbn. unfold risk_schedule_update. eauto using keeps_digest with preserve.
  - not_a_field.
  - intros * H. apply bind_Ok in H as (u & s1 & _ & H). apply bind_Ok in H as (h & s2 & _ & [-> _]%insert_row_Ok).
    eexists. split; [reflexivity|]. intros k Hk. apply with_items_other; intros ->; by not_among Hk.
  - fields_are_columns.
  - proper_fields.
Qed.

(** ** ACORD forms *)

Lemma acord_hashed row p h :
  row_table row = AcordForms -> cell "payload_hash" row = VText h -> payload_sha256 cjb sha (json_of p) = Some h ->
  json_of (cell "payload" row) = json_of p -> hashed row.
Proof. intros Ht Hh Hp Hj. unfold RecordSteps.hashed. rewrite Ht. exists h. by rewrite Hj. Qed.

Abbreviation phash_col := (col "payload_hash" (Varchar 64)).
Abbreviation payload_col := (col "payload" JSON).
Abbreviation superseded_col := (nul "superseded_by_id" (Varchar 36)).

Lemma acord_create_inserted now tid data s row s' :
  acord_form_create uuid cjb sha now tid data s = (Ok row, s') -> inserted AcordForms tid row (working s) (working s').
Proof.
  unfold acord_form_create. intros H. apply bind_Ok in H as ([] & s1 & [Hs ->]%assert_supplier_Ok & H).
  apply bind_Ok in H as (h & s1 & [Hh ->]%hash_or_raise_Ok & H). set (d := <["payload_hash" := VText h]> data) in *.
  assert (Hd : forall k, k <> "payload_hash" -> d !! k = data !! k) by (intros k Hk; unfold d; by rewrite lookup_insert_ne).
  apply bind_Ok in H as ([] & s1 & Ht & H).
  assert (s1 = s /\ forall i, sent "superseded_by_id" d = VText i -> is_someb (own_row AcordForms tid i (working s)) = true) as [-> Hsup].
  { destruct (sent "superseded_by_id" d) as [|t| | | |]; try (by inversion Ht).
    apply assert_target_Ok in Ht as [Ht ->]. split; [done|]. by intros i [= <-]. }
  eapply insert_inserted; [done| |intros _; exact Hsup|exact H|].
  { unfold sent. rewrite Hd by done. exact Hs. }
  intros Hrow Hnn. assert (Ht' : row_table row = AcordForms) by (by rewrite Hrow).
  assert (Hc : cells row = assign AcordForms d (defaults AcordForms)) by (by rewrite Hrow). clear Hrow. rename row into r.
  assert (Hi : cell "payload" r = match data !! "payload" with Some v => bind_value payload_col v | None => VNull end).
  { rewrite (cell_inserted AcordForms d payload_col "payload" r) by a_column. by rewrite Hd. }
  pose proof (not_null_cell payload_col r Hnn) as Hni. rewrite Ht' in Hni. cbn [c_name col] in Hni. rewrite Hi in Hni.
  apply (acord_hashed r (sent "payload" data) h); [done| |done|].
  - rewrite (cell_inserted AcordForms d phash_col "payload_hash" r) by a_column. unfold d. by rewrite lookup_insert_eq.
  - rewrite Hi. unfold sent. destruct (data !! "payload") as [v|]; [by apply json_of_bound|]. destruct Hni; a_column.
Qed.

Lemma keeps_mark tid i data db : preserves (committed_is db) (_mark_predecessor_superseded tid i data).
Proof. unfold _mark_predecessor_superseded. eauto with preserve. Qed.

Lemma keeps_check tid row v db : preserves (committed_is db) (check_superseded_by tid row v).
Proof. unfold check_superseded_by. destruct v; try destruct (bool_decide _); eauto with preserve. Qed.

(** A reference that was sent is the old one or to a form of the tenant. *)
Lemma check_superseded_Ok tid row v s u s1 :
  check_superseded_by tid row v s = (Ok u, s1) ->
  s1 = s /\ forall j, v = VText j -> cell "superseded_by_id" row = VText j \/ is_someb (own_row AcordForms tid j (working s)) = true.
Proof.
  unfold check_superseded_by. destruct v as [|t| | | |]; try (by inversion 1).
  destruct (bool_decide _) eqn:Ha.
  - inversion 1; subst. split; [done|]. intros j [= <-]. left. apply bool_decide_eq_true in Ha. unfold attr in Ha.
    destruct (cell "superseded_by_id" row) as [| | | | |[]]; congruence.
  - intros H. apply bind_Ok in H as ([] & s2 & [_ ->]%raise_if_Ok & [Ht ->]%assert_target_Ok). split; [done|]. intros j [= <-]. by right.
Qed.

Lemma mark_Ok tid i data s d s1 :
  _mark_predecessor_superseded tid i data s = (Ok d, s1) -> s1 = s /\ forall k, k <> "status" -> d !! k = data !! k.
Proof.
  unfold _mark_predecessor_superseded, query, bind, reads, ret. cbn. intros [= <- <-]. split; [done|]. intros k Hk.
  destruct (is_someb _); [|done]. by rewrite lookup_insert_ne.
Qed.

Lemma acord_update_assigned tid i data s row s' :
  (forall k, In k derived -> data !! k = None) -> acord_form_update cjb sha tid i data s = (Ok row, s') ->
  exists r, own_row AcordForms tid i (working s) = Some r /\ assigned r row (working s) (working s').
Proof.
  unfold acord_form_update. intros Hd H. apply bind_Ok in H as (r & s1 & [Hr ->]%own_or_not_found_Ok & H).
  apply bind_Ok in H as (d & s1 & [-> Hs]%(digest_if_sent_Ok _ _ (fun _ h => <["payload_hash" := VText h]> data)) & H).
  apply bind_Ok in H as ([] & s1 & [-> Hchk]%check_superseded_Ok & H). apply bind_Ok in H as (d' & s1 & Hm & H).
  assert (s1 = s /\ forall k, k <> "status" -> d' !! k = d !! k) as [-> Hd'].
  { destruct (sent "superseded_by_id" d); try (by apply mark_Ok in Hm). by inversion Hm. }
  assert (Hdd : forall k, k <> "payload_hash" -> d !! k = data !! k).
  { intros k Hk. destruct Hs as [[-> _]|(v & h & _ & -> & _)]; [done|]. by rewrite lookup_insert_ne. }
  eapply update_assigned; [exact Hr| | |exact H|].
  - rewrite Hd', Hdd by done. apply Hd. by left.
  - intros _ j Hj. apply Hchk. unfold sent. rewrite Hd' in Hj by done. by rewrite Hj.
  - intros Ht Hc Htr _ Hread Hhr. pose proof (readable_cell payload_col row Hread) as Hni. cbn [c_name col] in Hni. rewrite Ht in Hni.
    pose proof (fun c k H1 H2 => cell_updated AcordForms d' c k r row H1 H2 Hc) as Hcell.
    assert (Hp : cell "payload" row = match data !! "payload" with Some v => bind_value payload_col v | None => cell "payload" r end).
    { rewrite (Hcell payload_col "payload") by a_column. by rewrite Hd', Hdd. }
    rewrite Hp in Hni. destruct Hs as [[-> Hi]|(v & h & Hi & -> & Hh)].
    + assert (Hi' : data !! "payload" = None) by (destruct Hi as [Hi|Hi]; [done|rewrite Hi in Hni; destruct Hni; a_column]).
      unfold RecordSteps.hashed in *. rewrite Ht. rewrite Htr in Hhr. destruct Hhr as (h & H1 & H2). exists h.
      rewrite (Hcell phash_col "payload_hash") by a_column. rewrite Hp, Hi', Hd', Hd by (done || (cbn; tauto)). done.
    + apply (acord_hashed row v h); [done| |done|].
      * rewrite (Hcell phash_col "payload_hash") by a_column. by rewrite Hd', lookup_insert_eq.
      * rewrite Hp, Hi. by apply json_of_bound.
Qed.

#[export] Instance acord_forms_laws : RecordLaws cjb sha (acord_forms uuid cjb sha).
Proof.
  split.
  - exact acord_create_inserted.
  - exact acord_update_assigned.
  - intros *. cbn. unfold acord_form_create. do 2 (apply preserves_bind; [eauto with preserve|intros ?]).
    apply preserves_bind; [|eauto with preserve]. destruct (sent _ _); eauto with preserve.
  - intros *. cbn. unfold acord_form_update. apply preserves_bind; [eauto with preserve|intros r].
    apply preserves_bind; [apply keeps_digest|intros d]. apply preserves_bind; [apply keeps_check|intros []].
    apply preserves_bind; [|eauto with preserve]. destruct (sent _ _); eauto using keeps_mark with preserve.
  - not_a_field.
  - intros * H. apply bind_Ok in H as (u & s1 & _ & H). apply bind_Ok in H as (h & s2 & _ & H).
    apply bind_Ok in H as (u' & s3 & _ & [-> _]%insert_row_Ok). eexists. split; [reflexivity|].
    intros k Hk. rewrite lookup_insert_ne; [done|]. intros <-. by not_among Hk.
  - fields_are_columns.
  - proper_fields.
Qed.

#[export] Instance record_of_laws r : RecordLaws cjb sha (record_of uuid cjb sha r).
Proof. destruct r; cbn; apply _. Qed.
End Instances.

(** ** Requests *)

Section Validated.
Context {P : Pydantic}.

Lemma parse_type_proper t j v : parse_type t j = Some v -> v <> VJson JNull.
Proof.
  destruct t, j; cbn; try done; try (by intros [= <-]); intros H;
    match type of H with
    | (_ <$> ?o) = Some _ => destruct o; [|done]; cbn in H; congruence
    | (if ?b then _ else _) = Some _ => destruct b; [congruence|done]
    end.
Qed.

Lemma validate_field_proper f j v : proper f -> validate_field f j = Some v -> v <> VJson JNull.
Proof.
  intros Hf. unfold validate_field. destruct j; try (destruct (f_nullable f); [by intros [= <-]|done]);
    (destruct (parse_type _ _) as [w|] eqn:Hw; [|done]; cbn; destruct (forallb _ _); [|done];
     apply Hf; by eapply parse_type_proper).
Qed.

(** What a validated body holds: fields of the schema. *)
Lemma validate_fields_In fs d : forall m k v, validate_fields fs d = Some m -> m !! k = Some v ->
  In k (map f_name fs) /\ (Forall proper fs -> v <> VJson JNull).
Proof.
  induction fs as [|f fs IH]; cbn; intros m k v.
  { intros [= <-]. by rewrite lookup_empty. }
  destruct (validate_fields fs d) as [m'|]; [|done]. cbn. specialize (IH m' k v eq_refl).
  destruct (assoc (f_name f) d) as [j|].
  - destruct (validate_field f j) as [w|] eqn:Hw; [|done]. cbn. intros [= <-] Hk.
    destruct (decide (f_name f = k)) as [He|He].
    + rewrite He, lookup_insert_eq in Hk. injection Hk as ->. split; [by left|]. inversion 1; subst.
      by eapply validate_field_proper.
    + rewrite lookup_insert_ne in Hk by done. destruct (IH Hk) as [H1 H2]. split; [by right|]. inversion 1; auto.
  - destruct (f_required f); [done|]. intros [= <-] Hk. destruct (IH Hk) as [H1 H2]. split; [by right|]. inversion 1; auto.
Qed.

Lemma validate_In sch body m k v : validate sch body = Some m -> m !! k = Some v ->
  In k (map f_name (s_fields sch)) /\ (Forall proper (s_fields sch) -> v <> VJson JNull).
Proof.
  unfold validate. destruct body; try done. destruct (forallb _ _); [|done].
  destruct (validate_fields _ _) as [m'|] eqn:Hm; [|done]. cbn. destruct (s_check _ _); [|done]. intros [= <-].
  by apply validate_fields_In with (1 := Hm).
Qed.
End Validated.

Lemma service_Ok {A} nf (m : RM A) s a s' : service nf m s = (Ok a, s') <-> m s = (Ok a, s').
Proof. unfold service. by destruct (m s) as [[b|e] s1]; split; intros [= -> ->] || intros [=]. Qed.

Lemma keeps_service {A} nf (m : RM A) db : preserves (committed_is db) m -> preserves (committed_is db) (service nf m).
Proof. intros Hm s Hs. specialize (Hm s Hs). unfold service. by destruct (m s) as [[a|e] s1]. Qed.

Lemma read_model_Ok r s r' s' : read_model r s = (Ok r', s') <-> readable r = true /\ r' = r /\ s' = s.
Proof. unfold read_model, bind, raise_if, raise, ret. destruct (readable r); cbn; split; intros H; naive_solver. Qed.

Lemma keeps_read r db : preserves (committed_is db) (read_model r).
Proof. unfold read_model. eauto with preserve. Qed.
Lemma keeps_audit c rs a i m db : preserves (committed_is db) (_audit c rs a i m).
Proof. unfold _audit. eauto with preserve. Qed.
Lemma keeps_parse {P : Pydantic} sch body db : preserves (committed_is db) (parse_body sch body).
Proof. unfold parse_body. eauto with preserve. Qed.
Lemma keeps_delete r db : preserves (committed_is db) (delete_row r).
Proof. unfold delete_row. eauto with preserve. Qed.
#[export] Hint Resolve keeps_service keeps_read keeps_audit keeps_parse keeps_delete law_create_keeps law_update_keeps : preserve.

Section Requests.
Context {P : Pydantic} (uuid : nat -> string) (cjb : json -> option bytes) (sha : bytes -> string).
Abbreviation step := (record_step cjb sha).
Abbreviation run := (run_request uuid cjb sha).

(** What an answer shows belongs to the tenant. *)
Definition owned (tid : string) (resp : response) : Prop :=
  match resp with
  | OneRow r => row_tenant_id r = tid
  | RowPage l _ => Forall (fun r => row_tenant_id r = tid) l
  | NoContent => True
  end.

(** An endpoint that takes steps of the tenant when it answers, and commits
    nothing by itself. *)
Definition stepping {A} (tid : string) (own : A -> Prop) (m : AM A) : Prop :=
  (forall db, preserves (committed_is db) m) /\
  forall db a s', well_formed db -> m (Session db db) = (Ok a, s') -> star (step tid) db (working s') /\ own a.

Lemma audit_step c rs a i m s u s' tid db :
  c_tenant_id c = tid -> star (step tid) db (working s) -> _audit c rs a i m s = (Ok u, s') ->
  star (step tid) db (working s').
Proof. intros <- Hst [= _ <-]. eapply star_snoc; [exact Hst|]. by apply step_log. Qed.

Section Resource.
Context {R : TenantRecord} {HR : RecordLaws cjb sha R}.

Lemma create_stepping now c body : stepping (c_tenant_id c) (fun r => row_tenant_id r = c_tenant_id c) (create_endpoint now c body).
Proof.
  split; [intros db; unfold create_endpoint; eauto 8 with preserve|].
  intros db a s' Hwf H. unfold create_endpoint in H.
  apply bind_Ok in H as (m & s1 & [_ ->]%or_raise_Ok & H). apply bind_Ok in H as (row & s1 & Hs%service_Ok & H).
  apply bind_Ok in H as (u & s2 & Ha & (_ & -> & ->)%read_model_Ok). cbn [working] in Hs.
  apply (law_create cjb sha) in Hs as (_ & Ht & Hc & Hsc & Hv & Hh & Hw). split; [|done].
  eapply audit_step; [done| |exact Ha]. rewrite Hw. eapply star_step; [by apply step_insert|apply star_refl].
Qed.

Lemma update_stepping c i body : stepping (c_tenant_id c) (fun r => row_tenant_id r = c_tenant_id c) (update_endpoint c i body).
Proof.
  split; [intros db; unfold update_endpoint; eauto 8 with preserve|].
  intros db a s' Hwf H. unfold update_endpoint in H.
  apply bind_Ok in H as (m & s1 & [Hm ->]%or_raise_Ok & H). apply bind_Ok in H as (row & s1 & Hs%service_Ok & H).
  apply bind_Ok in H as (u & s2 & Ha & (Hread & -> & ->)%read_model_Ok).
  assert (Hd : forall k, In k derived -> m !! k = None).
  { intros k Hk. destruct (m !! k) as [v|] eqn:Hv; [|done]. destruct (law_derived cjb sha k Hk). by eapply validate_In. }
  apply (law_update cjb sha) in Hs as (r & Hr & He & Hc & Hsc & Hv & Hh & Hw); [|done]. cbn [working] in *.
  apply own_row_Some in Hr as (Hin & _ & _ & Hn).
  split; [|by rewrite <- He]. eapply audit_step; [done| |exact Ha]. rewrite Hw.
  eapply star_step; [|apply star_refl]. apply (step_assign _ _ _ _ r row); try done; [|auto..].
  - apply Hc. by apply (wf_rows _ Hwf).
  - apply Hsc. by apply (wf_refs _ Hwf).
Qed.

Lemma delete_stepping c i : stepping (c_tenant_id c) (fun _ => True) (delete_endpoint c i).
Proof.
  split; [intros db; unfold delete_endpoint, delete_record; eauto 8 with preserve|].
  intros db a s' Hwf H. unfold delete_endpoint, delete_record in H.
  apply bind_Ok in H as (row & s1 & Hs%service_Ok & Ha). split; [|done].
  apply bind_Ok in Hs as (r & s2 & [Hr ->]%own_or_not_found_Ok & Hd). apply own_row_Some in Hr as (Hin & _ & _ & Hn).
  apply bind_Ok in Hd as ([] & s3 & [= <-] & [-> ->]%ret_Ok).
  eapply audit_step; [done| |exact Ha]. eapply star_step; [by apply step_delete|apply star_refl].
Qed.

Lemma get_stepping tid i : stepping tid (fun r => row_tenant_id r = tid) (get_endpoint tid i).
Proof.
  split; [intros db; unfold get_endpoint, get_record; eauto 8 with preserve|].
  intros db a s' Hwf H. unfold get_endpoint, get_record in H.
  apply bind_Ok in H as (o & s1 & [-> ->]%service_Ok%reads_Ok & H). apply bind_Ok in H as (row & s2 & [Ho ->]%or_raise_Ok & H).
  apply read_model_Ok in H as (_ & -> & ->). apply own_row_Some in Ho as (_ & _ & _ & Hn). split; [apply star_refl|done].
Qed.

Lemma tenant_rows_In t tid db r : In r (tenant_rows t tid db) -> row_tenant_id r = tid.
Proof. by intros [_ [_ H%String.eqb_eq]%andb_true_iff]%filter_In. Qed.

Lemma page_In {A} limit offset (l : list A) x : In x (page limit offset l) -> In x l.
Proof.
  unfold page. rewrite <- (firstn_skipn (Z.to_nat offset) l) at 2. rewrite <- (firstn_skipn (Z.to_nat limit) (skipn _ l)) at 2.
  rewrite !in_app_iff. auto.
Qed.

Lemma list_stepping tid s limit offset :
  stepping tid (fun a => Forall (fun r => row_tenant_id r = tid) a.1) (list_endpoint tid s limit offset).
Proof.
  split.
  { intros db. unfold list_endpoint, list_records. apply preserves_bind; [eauto with preserve|intros []].
    apply preserves_bind; [apply keeps_service; eauto with preserve|intros []; eauto with preserve]. }
  intros db a s' Hwf H. unfold list_endpoint in H. apply bind_Ok in H as ([] & s1 & [_ ->]%raise_if_Ok & H).
  apply bind_Ok in H as ([items total] & s1 & Hs%service_Ok & H). apply bind_Ok in H as ([] & s2 & [_ ->]%raise_if_Ok & [-> ->]%ret_Ok).
  injection Hs as <- _ <-. split; [apply star_refl|]. apply List.Forall_forall. intros r Hr%page_In%isort_In.
  apply filter_In in Hr as [Hr _]. by eapply tenant_rows_In.
Qed.
End Resource.

(** ** Suppliers and consents *)

Lemma supplier_scoped r l : row_table r = Suppliers -> closed r -> scoped r l.
Proof. intros Ht Hc. split; [|by rewrite Ht]. apply refers_no_text. intros i. by rewrite closed_supplier. Qed.

Lemma create_supplier_stepping now c body :
  stepping (c_tenant_id c) (fun r => row_tenant_id r = c_tenant_id c) (create_supplier_endpoint uuid now c body).
Proof.
  split; [intros db; unfold create_supplier_endpoint, create_supplier; eauto 8 with preserve|].
  intros db a s' Hwf H. unfold create_supplier_endpoint, create_supplier in H.
  apply bind_Ok in H as (m & s1 & [_ ->]%or_raise_Ok & H). apply bind_Ok in H as (row & s1 & Hs%service_Ok & H).
  apply bind_Ok in H as (u & s2 & Ha & (_ & -> & ->)%read_model_Ok). apply insert_row_Ok in Hs as (Hrow & Hv & ->).
  assert (Hc : closed row) by (rewrite Hrow; intros k v; apply assign_closed, defaults_closed).
  split; [|by rewrite Hrow]. eapply audit_step; [done| |exact Ha]. eapply star_step; [|apply star_refl].
  apply step_insert; [by rewrite Hrow|done|apply supplier_scoped; [by rewrite Hrow|done]|done|].
  unfold hashed. by rewrite Hrow.
Qed.

Lemma update_supplier_stepping c i body :
  stepping (c_tenant_id c) (fun r => row_tenant_id r = c_tenant_id c) (update_supplier_endpoint c i body).
Proof.
  split.
  { intros db. unfold update_supplier_endpoint, update_supplier, get_supplier. apply preserves_bind; [eauto with preserve|intros m].
    apply preserves_bind; [|eauto with preserve]. apply keeps_service, preserves_bind; [eauto with preserve|intros r].
    destruct (bool_decide _); eauto with preserve. }
  intros db a s' Hwf H. unfold update_supplier_endpoint, update_supplier in H.
  apply bind_Ok in H as (m & s1 & [_ ->]%or_raise_Ok & H). apply bind_Ok in H as (row & s1 & Hs%service_Ok & H).
  apply bind_Ok in H as (u & s2 & Ha & (_ & -> & ->)%read_model_Ok).
  apply bind_Ok in Hs as (r & s3 & [Hr ->]%own_or_not_found_Ok & Hs). apply own_row_Some in Hr as (Hin & Ht & _ & Hn).
  destruct (bool_decide _).
  - apply ret_Ok in Hs as [-> ->]. split; [|done]. eapply audit_step; [done| |exact Ha]; apply star_refl.
  - apply update_row_Ok in Hs as (Hrow & Hv & ->).
    assert (Hc : closed row).
    { rewrite Hrow. intros k v. apply assign_closed. destruct (wf_rows _ Hwf r Hin) as (_ & _ & _ & Hc). exact Hc. }
    assert (Hrt : row_table row = Suppliers) by (by rewrite Hrow).
    split; [|by rewrite Hrow]. eapply audit_step; [done| |exact Ha]. eapply star_step; [|apply star_refl].
    apply (step_assign _ _ _ _ r row); [done|done|by rewrite Hrow|done|by apply supplier_scoped|done|].
    unfold hashed. by rewrite Hrt.
Qed.

Lemma delete_supplier_stepping c i : stepping (c_tenant_id c) (fun _ => True) (delete_supplier_endpoint c i).
Proof.
  split; [intros db; unfold delete_supplier_endpoint, delete_supplier, get_supplier; eauto 8 with preserve|].
  intros db a s' Hwf H. unfold delete_supplier_endpoint, delete_supplier in H.
  apply bind_Ok in H as (row & s1 & Hs%service_Ok & Ha). split; [|done].
  apply bind_Ok in Hs as (r & s2 & [Hr ->]%own_or_not_found_Ok & Hd). apply own_row_Some in Hr as (Hin & _ & _ & Hn).
  apply bind_Ok in Hd as ([] & s3 & [= <-] & [-> ->]%ret_Ok).
  eapply audit_step; [done| |exact Ha]. eapply star_step; [by apply step_delete|apply star_refl].
Qed.

Lemma get_supplier_stepping tid i : stepping tid (fun r => row_tenant_id r = tid) (get_supplier_endpoint tid i).
Proof.
  split; [intros db; unfold get_supplier_endpoint, get_supplier; eauto 8 with preserve|].
  intros db a s' Hwf H. unfold get_supplier_endpoint in H. apply bind_Ok in H as (r & s1 & Hs%service_Ok & H).
  apply read_model_Ok in H as (_ & -> & ->). apply own_or_not_found_Ok in Hs as [(_ & _ & _ & Hn)%own_row_Some ->].
  split; [apply star_refl|done].
Qed.

Lemma list_suppliers_stepping tid s limit offset :
  stepping tid (fun a => Forall (fun r => row_tenant_id r = tid) a.1) (list_suppliers_endpoint tid s limit offset).
Proof.
  split; [intros db; unfold list_suppliers_endpoint, list_suppliers, count_suppliers; eauto 9 with preserve|].
  intros db a s' Hwf H. unfold list_suppliers_endpoint in H. apply bind_Ok in H as ([] & s1 & [_ ->]%raise_if_Ok & H).
  apply bind_Ok in H as (items & s1 & Hs%service_Ok & H). apply bind_Ok in H as (n & s2 & Hn%service_Ok & [-> ->]%ret_Ok).
  injection Hs as <- <-. injection Hn as _ <-. split; [apply star_refl|]. apply List.Forall_forall. intros r Hr%page_In%isort_In.
  apply filter_In in Hr as [Hr _]. by eapply tenant_rows_In.
Qed.

Lemma list_consents_own tid s p act limit offset st items n st' :
  list_consents tid s p act limit offset st = (Ok (items, n), st') -> st' = st /\ Forall (fun r => row_tenant_id r = tid) items.
Proof.
  intros H. unfold list_consents in H. apply bind_Ok in H as (l & s1 & [-> ->]%reads_Ok & H).
  set (l := isort _ _) in H. assert (Hl : forall r, In r l -> row_tenant_id r = tid).
  { intros r Hr%isort_In. apply filter_In in Hr as [Hr _]. by eapply tenant_rows_In. }
  destruct p as [p|]; injection H as <- _ <-; (split; [done|]); apply List.Forall_forall; intros r Hr%page_In; [|by apply Hl].
  apply filter_In in Hr as [Hr _]. by apply Hl.
Qed.

Lemma list_consents_stepping c s p ao act limit offset :
  stepping (c_tenant_id c) (fun a => Forall (fun r => row_tenant_id r = c_tenant_id c) a.1)
    (list_consents_endpoint c s p ao act limit offset).
Proof.
  split.
  { intros db. unfold list_consents_endpoint, list_consents. apply preserves_bind; [eauto with preserve|intros []].
    apply preserves_bind; [|intros []; eauto with preserve]. apply keeps_service, preserves_bind; [eauto with preserve|intros l].
    destruct p; eauto with preserve. }
  intros db a s' Hwf H. unfold list_consents_endpoint in H. apply bind_Ok in H as ([] & s1 & [_ ->]%raise_if_Ok & H).
  apply bind_Ok in H as ([items n] & s1 & [-> Hi]%service_Ok%list_consents_own & H). apply bind_Ok in H as (u & s2 & Ha & H).
  apply bind_Ok in H as ([] & s3 & [_ ->]%raise_if_Ok & [-> ->]%ret_Ok).
  split; [|done]. by eapply audit_step; [done| |exact Ha]; apply star_refl.
Qed.

Lemma get_consent_stepping c i : stepping (c_tenant_id c) (fun r => row_tenant_id r = c_tenant_id c) (get_consent c i).
Proof.
  split; [intros db; unfold get_consent, consent_get; eauto 8 with preserve|].
  intros db a s' Hwf H. unfold get_consent in H. apply bind_Ok in H as (r & s1 & Hs%service_Ok & H).
  apply bind_Ok in H as (u & s2 & Ha & (_ & -> & ->)%read_model_Ok).
  apply own_or_not_found_Ok in Hs as [(_ & _ & _ & Hn)%own_row_Some ->].
  split; [|done]. by eapply audit_step; [done| |exact Ha]; apply star_refl.
Qed.

(** ** The answers of a request *)

Lemma stepping_then {A} tid (own : A -> Prop) (m : AM A) (k : A -> response) :
  (forall a, own a -> owned tid (k a)) -> stepping tid own m -> stepping tid (owned tid) (let* a := m in ret (k a)).
Proof.
  intros Hk [H1 H2]. split; [intros db; eauto with preserve|]. intros db b s' Hwf H.
  apply bind_Ok in H as (a & s1 & Hm & [-> ->]%ret_Ok). destruct (H2 db a s1 Hwf Hm) as [Hst Ho]. auto.
Qed.

Lemma one_stepping tid m : stepping tid (fun r => row_tenant_id r = tid) m -> stepping tid (owned tid) (one m).
Proof. by apply stepping_then. Qed.
Lemma no_content_stepping tid m : stepping tid (fun _ => True) m -> stepping tid (owned tid) (no_content m).
Proof. by apply stepping_then. Qed.
Lemma many_stepping tid m : stepping tid (fun a => Forall (fun r => row_tenant_id r = tid) a.1) m -> stepping tid (owned tid) (many m).
Proof.
  intros [H1 H2]. split; [intros db; unfold many; apply preserves_bind; [auto|intros []; eauto with preserve]|].
  intros db b s' Hwf H. apply bind_Ok in H as ([l n] & s1 & Hm & [-> ->]%ret_Ok). exact (H2 db _ s1 Hwf Hm).
Qed.

Lemma run_stepping now c rq : stepping (c_tenant_id c) (owned (c_tenant_id c)) (run now c rq).
Proof.
  destruct rq; cbn [run_request];
    first [apply one_stepping|apply many_stepping|apply no_content_stepping];
    auto using create_stepping, list_stepping, get_stepping, update_stepping, delete_stepping, create_supplier_stepping,
      list_suppliers_stepping, get_supplier_stepping, update_supplier_stepping, delete_supplier_stepping,
      list_consents_stepping, get_consent_stepping, record_of_laws.
Qed.

(** A history of requests. *)
Fixpoint serve (l : list (Z * caller * request)) (s : session RecordsDB) : session RecordsDB :=
  match l with
  | [] => s
  | (now, c, rq) :: l => serve l (records_handle uuid cjb sha now c rq s).2
  end.

Lemma handle_steps now c rq db :
  well_formed db ->
  match records_handle uuid cjb sha now c rq (Session db db) with
  | (Ok resp, s') => exists db', s' = Session db' db' /\ star (step (c_tenant_id c)) db db' /\ owned (c_tenant_id c) resp
  | (Raise _, s') => s' = Session db db
  end.
Proof.
  intros Hwf. destruct (run_stepping now c rq) as [Hk Hst]. specialize (Hk db (Session db db) eq_refl).
  unfold records_handle, in_request. destruct (run now c rq (Session db db)) as [[resp|e] s'] eqn:Hrun; cbn in *.
  - destruct (Hst db resp s' Hwf Hrun) as [H1 H2]. by exists (working s').
  - unfold committed_is in Hk. by rewrite Hk.
Qed.

Lemma serve_invariant (I : RecordsDB -> Prop) (ok : string -> Prop) :
  (forall tid db db', ok tid -> record_step cjb sha tid db db' -> well_formed db -> I db -> I db') ->
  forall l db, Forall (fun x => ok (c_tenant_id x.1.2)) l -> well_formed db -> I db ->
  exists db', serve l (Session db db) = Session db' db' /\ well_formed db' /\ I db'.
Proof.
  intros HI l. induction l as [|[[now c] rq] l IH]; intros db Hok Hwf Hi; cbn; [by exists db|]. inversion Hok as [|? ? Hc Hl]; subst.
  pose proof (handle_steps now c rq db Hwf) as H. destruct (records_handle _ _ _ _ _ _ _) as [[resp|e] s']; cbn.
  - destruct H as (db1 & -> & Hst & _).
    assert (Hinv : well_formed db1 /\ I db1); [|by apply IH; [|apply Hinv..]].
    apply (star_invariant (step (c_tenant_id c)) (fun d => well_formed d /\ I d)) with (s := db); [|done..].
    intros a b Hab [Ha1 Ha2]. split; [by eapply step_well_formed|by eapply HI].
  - subst s'. by apply IH.
Qed.

Lemma any_tenant (l : list (Z * caller * request)) : Forall (fun _ => True) l.
Proof. by apply Forall_true. Qed.

(** C22. Requests refine the steps of the records.  A request on well-formed tables
    either raises and leaves the database as it was, or answers and commits what a
    sequence of steps of its own tenant leads to; what the answer shows belongs to
    the tenant. *)
Theorem requests_refine_steps now c rq db :
  well_formed db ->
  match records_handle uuid cjb sha now c rq (Session db db) with
  | (Ok resp, s') => exists db', s' = Session db' db' /\ star (step (c_tenant_id c)) db db' /\ owned (c_tenant_id c) resp
  | (Raise _, s') => s' = Session db db
  end.
Proof. apply handle_steps. Qed.

(** The tables stay well typed.  Whatever is sent, after any history of
    requests every row fits the types of its columns, is within the constraints of
    its table, has a key of its own, and refers only to rows of its own tenant. *)
Theorem tables_stay_well_formed l db :
  well_formed db -> exists db', serve l (Session db db) = Session db' db' /\ well_formed db'.
Proof.
  intros Hwf. destruct (serve_invariant (fun _ => True) (fun _ => True)) with (l := l) (db := db) as (db' & H1 & H2 & _);
    [done|apply any_tenant|done|done|]. by exists db'.
Qed.

(** C23. The digests stay in step with the data.  After any history of requests the
    stored payload hash of every ACORD form is the digest of its payload, and the
    items hash and the item count of every risk schedule are those of its items -
    also after updates that send null for them, which are refused. *)
Theorem digests_stay_in_sync l db :
  well_formed db -> digests_in_sync cjb sha db ->
  exists db', serve l (Session db db) = Session db' db' /\ digests_in_sync cjb sha db'.
Proof.
  intros Hwf Hd. destruct (serve_invariant (digests_in_sync cjb sha) (fun _ => True)) with (l := l) (db := db)
    as (db' & H1 & _ & H2); [|apply any_tenant|done|done|by exists db'].
  intros tid a b _ Hab _. by apply (step_hashed cjb sha tid).
Qed.

(** The rows and audit rows of a tenant. *)
Definition of_tenant (tid : string) (db : RecordsDB) :=
  (List.filter (fun r => String.eqb (row_tenant_id r) tid) (rows db),
   List.filter (fun a => String.eqb (al_tenant_id a) tid) (audit_logs db)).

Lemma filter_filter_eq {A} (f : A -> string) t u l :
  t <> u -> List.filter (fun x => String.eqb (f x) u) (List.filter (fun x => negb (String.eqb (f x) t)) l) =
            List.filter (fun x => String.eqb (f x) u) l.
Proof.
  intros Hne. induction l as [|x l IH]; cbn; [done|]. destruct (String.eqb_spec (f x) t) as [Ht|Ht]; cbn.
  - destruct (String.eqb_spec (f x) u); [congruence|done].
  - by rewrite IH.
Qed.

(** C24. Tenants are isolated.  Whatever the other tenants request - suppliers
    deleted with all their records, forms that supersede each other, keys guessed -
    the rows and the audit rows of a tenant stay as they are. *)
Theorem tenants_are_isolated tid l db :
  well_formed db -> Forall (fun x : Z * caller * request => c_tenant_id x.1.2 <> tid) l ->
  exists db', serve l (Session db db) = Session db' db' /\ of_tenant tid db' = of_tenant tid db.
Proof.
  intros Hwf Hl. destruct (serve_invariant (fun d => of_tenant tid d = of_tenant tid db) (fun t => t <> tid)) with (l := l) (db := db)
    as (db' & H1 & _ & H2); [|done..|by exists db'].
  intros t a b Ht Hab Ha <-. pose proof (step_foreign cjb sha t a b Hab Ha) as [= Hr Hg]. unfold foreign_rows, foreign_logs in *.
  unfold of_tenant. rewrite <- (filter_filter_eq row_tenant_id t tid (rows b)), <- (filter_filter_eq al_tenant_id t tid (audit_logs b)) by done.
  by rewrite Hr, Hg, !filter_filter_eq by done.
Qed.

Lemma find_first_last {A} (p : A -> bool) l x :
  (forall y, In y l -> p y = false) -> p x = true -> find_first p (l ++ [x]) = Some x.
Proof.
  intros Hl Hx. induction l as [|y l IH]; cbn; [by rewrite Hx|]. rewrite Hl by (by left). apply IH. intros z Hz. apply Hl. by right.
Qed.

(** A created row is found and holds what was sent. *)
Lemma create_endpoint_row {R : TenantRecord} {HR : RecordLaws cjb sha R} now c body db row s' :
  well_formed db -> create_endpoint now c body (Session db db) = (Ok row, s') ->
  own_row res_table (c_tenant_id c) (row_id row) (working s') = Some row /\ readable row = true /\
  forall m k v, validate create_schema body = Some m -> m !! k = Some v -> attr k row = v.
Proof.
  intros Hwf H. unfold create_endpoint in H. apply bind_Ok in H as (m & s1 & [Hm ->]%or_raise_Ok & H).
  apply bind_Ok in H as (r & s1 & Hs%service_Ok & H). apply bind_Ok in H as (u & s2 & [= _ <-] & (Hread & -> & ->)%read_model_Ok).
  destruct (law_cells cjb sha _ _ _ _ _ _ Hs) as (d & Hc & Hd).
  apply (law_create cjb sha) in Hs as (Ht & Hn & _ & _ & Hv & _ & Hw). cbn [working] in *. split_and!; [|done|].
  - unfold own_row. cbn [rows add_log]. rewrite Hw. cbn [bump with_rows rows].
    assert (Hnone : forall x, In x (rows db) -> is_row res_table (row_id r) x = false).
    { intros x Hx. apply not_true_iff_false. intros [Hxt Hxi]%is_row_spec. apply violation_None in Hv as (_ & _ & _ & Hcl & _).
      pose proof (proj1 (existsb_false _ _) Hcl x Hx) as Hf. rewrite clash_same_key in Hf; congruence. }
    apply find_first_last; [intros y Hy; by rewrite Hnone|].
    by rewrite (proj2 (is_row_spec res_table (row_id r) r) (conj Ht eq_refl)), Hn, String.eqb_refl.
  - intros m' k v Hm' Hk. rewrite Hm in Hm'. injection Hm' as <-. destruct (validate_In _ _ _ _ _ Hm Hk) as [Hin Hp].
    specialize (Hp (law_proper cjb sha)). apply (law_columns cjb sha) in Hin as Hcol. apply in_map_iff in Hcol as (col & <- & Hcol).
    unfold attr. rewrite (cell_assigned res_table d _ col r Hcol Hc), (Hd _ Hin), Hk. unfold bind_value.
    destruct (c_type col); destruct v as [| | | | |[]]; try done.
Qed.

(** What is created is read back.  When a create is answered with a row, the
    record is found under its id by every user of the tenant, as the same row, and
    each attribute of it that was sent reads as it was sent. *)
Theorem created_record_is_read now c r body db row s' :
  well_formed db -> records_handle uuid cjb sha now c (CreateRecord r body) (Session db db) = (Ok (OneRow row), s') ->
  (forall now' c', c_tenant_id c' = c_tenant_id c ->
     records_handle uuid cjb sha now' c' (GetRecord r (row_id row)) s' = (Ok (OneRow row), s')) /\
  (forall m k v, validate (create_schema (TenantRecord := record_of uuid cjb sha r)) body = Some m -> m !! k = Some v ->
     attr k row = v).
Proof.
  intros Hwf H. unfold records_handle, in_request in H. destruct (run now c (CreateRecord r body) (Session db db)) as [[resp|e] s1] eqn:Hrun; [|done].
  injection H as -> <-. cbn [run_request] in Hrun. apply bind_Ok in Hrun as (row' & s2 & Hrun & [[= ->] ->]%ret_Ok).
  apply create_endpoint_row in Hrun as (Hown & Hread & Hsent); [|done]. split; [|done].
  intros now' c' Hc'. unfold records_handle, in_request. cbn [run_request]. unfold one, get_endpoint, get_record, service, query, bind, reads.
  cbn [working commit modify snd]. rewrite Hc', Hown. cbn. unfold read_model. rewrite Hread. done.
Qed.
End Requests.

(** ** Pages *)

(** The items of one page of a list. *)
Definition page_items (t : table) (tid : string) (s : option string) (limit offset : Z) (db : RecordsDB) : list Row :=
  match value_of (list_records t tid s limit offset (Session db db)) with Some (items, _) => items | None => [] end.

Lemma page_items_eq t tid s limit k db :
  1 <= limit <= 200 ->
  page_items t tid s limit (Z.of_nat k * limit) db =
  take (Z.to_nat limit) (drop (k * Z.to_nat limit) (isort (order_of t) (List.filter (of_supplier s) (tenant_rows t tid db)))).
Proof.
  intros Hl. unfold page_items, list_records, value_of, bind, query, reads, ret, page, _MAX_LIMIT. cbn [fst working].
  replace (Z.max 1 (Z.min limit 200)) with limit by lia. by replace (Z.to_nat (Z.max 0 (Z.of_nat k * limit))) with (k * Z.to_nat limit)%nat by lia.
Qed.

(** The pages of a list cover it.  Reading page after page of any size the
    endpoints allow gives each record of the tenant - of the supplier, when one is
    asked for - exactly once, as soon as the pages have room for the total that
    every page names. *)
Theorem pages_cover_the_list t tid s limit n db :
  1 <= limit <= 200 -> Z.of_nat (length (List.filter (of_supplier s) (tenant_rows t tid db))) <= Z.of_nat n * limit ->
  Permutation (concat (map (fun k => page_items t tid s limit (Z.of_nat k * limit) db) (seq 0 n)))
    (List.filter (of_supplier s) (tenant_rows t tid db)) /\
  forall offset, value_of (list_records t tid s limit offset (Session db db)) =
    Some (page_items t tid s limit offset db, Z.of_nat (length (List.filter (of_supplier s) (tenant_rows t tid db)))).
Proof.
  intros Hl Hn. split; [|done]. rewrite (map_ext _ _ (fun k => page_items_eq t tid s limit k db Hl)), concat_pages.
  set (l := List.filter _ _) in *. rewrite take_ge; [apply isort_perm|].
  rewrite (Permutation_length (isort_perm (order_of t) l)). lia.
Qed.

Module DemoRecords.

#[local] Instance readers : Pydantic := {|
  lax_int := fun j => match j with JInt n => Some n | _ => None end;
  lax_date := fun j => match j with JInt d => Some d | _ => None end;
  lax_datetime := fun j => match j with JInt d => Some d | _ => None end;
  email_str := fun s => if contains_char "@" s then Some s else None;
  http_url := Some |}.

Definition uuid (n : nat) : string := "id-" +:+ str_of_Z (Z.of_nat n).
Definition cjb (j : json) : option bytes := match legacy_canonical_json_bytes (fun _ => "0.5") j with Ok b => Some b | Raise _ => None end.
Definition sha (b : bytes) : string := "digest-of-" +:+ str_of_Z (slen b).
Definition user (t : string) : caller := {| c_tenant_id := t; c_user_id := "u"; client_host := Some "10.0.0.1"; forwarded_for := None |}.
Definition empty_db : RecordsDB := {| rows := []; audit_logs := []; next_id := 0 |}.

Abbreviation handle := (records_handle uuid cjb sha 7).
Abbreviation history l := (serve uuid cjb sha (map (fun x => (7, user x.1, x.2)) l) (Session empty_db empty_db)).

(** The answer to the last request. *)
Definition outcome (l : list (string * request)) (t : string) (rq : request) : result web_error response :=
  (handle (user t) rq (history l)).1.

Definition new_supplier (name : string) : request := CreateSupplier (JObj [("legal_name", JStr name)]).
Definition loss_run : request :=
  CreateRecord R_loss_runs (JObj [("period_start", JInt 10); ("period_end", JInt 20); ("carrier_name", JStr " Acme ");
    ("line_of_business", JStr "cyber"); ("supplier_id", JStr "id-0")]).
Definition license : request :=
  CreateRecord R_producer_licenses (JObj [("state", JStr "ny"); ("license_number", JStr "L1"); ("licensee_name", JStr "P");
    ("effective_date", JInt 10); ("expiration_date", JInt 20); ("supplier_id", JStr "id-0")]).
Definition form (more : list (string * json)) : request :=
  CreateRecord R_acord_forms (JObj (("form_type", JStr "acord_25") :: ("payload", JObj [("a", JInt 1)])
    :: ("supplier_id", JStr "id-0") :: more)).
Definition schedule : request :=
  CreateRecord R_risk_schedules (JObj [("line_of_business", JStr "cyber"); ("schedule_type", JStr "vehicles");
    ("effective_date", JInt 10); ("items", JList [JObj []; JObj []]); ("supplier_id", JStr "id-0")]).

Definition office : list (string * request) := [("t1", new_supplier "Alpha"); ("t1", loss_run); ("t1", license); ("t1", form []); ("t1", schedule)].

Definition shown (k : string) (r : result web_error response) : option value :=
  match r with Ok (OneRow row) => Some (attr k row) | _ => None end.

Example stripped : shown "carrier_name" (outcome office "t1" (GetRecord R_loss_runs "id-1")) = Some (VText "Acme").
Proof. vm_compute. reflexivity. Qed.

(** Another tenant neither sees the loss run nor can attach a record to the
    supplier. *)
Example not_for_others :
  outcome office "t2" (GetRecord R_loss_runs "id-1") = Raise (HTTPException 404 "loss_run_not_found") /\
  outcome office "t2" loss_run = Raise (HTTPException 404 "supplier_not_found").
Proof. vm_compute. split; reflexivity. Qed.

(** An update that moves one end of the period is not checked by the schema: the
    database refuses it, which for a license is answered as a duplicate and for a
    loss run not at all. *)
Example period_of_a_partial_update :
  outcome office "t1" (UpdateRecord R_producer_licenses "id-2" (JObj [("expiration_date", JInt 5)])) =
    Raise (HTTPException 409 "license_already_exists") /\
  outcome office "t1" (UpdateRecord R_loss_runs "id-1" (JObj [("period_end", JInt 5)])) = Raise (PyException "IntegrityError").
Proof. vm_compute. split; reflexivity. Qed.

(** Null for a required column, and a number the column cannot hold, are a 500. *)
Example accepted_by_the_schema_only :
  outcome office "t1" (UpdateRecord R_loss_runs "id-1" (JObj [("carrier_name", JNull)])) = Raise (PyException "IntegrityError") /\
  outcome office "t1" (UpdateRecord R_loss_runs "id-1" (JObj [("claim_count", JInt (2 ^ 31))])) = Raise (PyException "DBAPIError").
Proof. vm_compute. split; reflexivity. Qed.

(** A null payload is refused by the response model, and nothing is stored. *)
Example null_payload :
  outcome office "t1" (UpdateRecord R_acord_forms "id-3" (JObj [("payload", JNull)])) = Raise (PyException "ValidationError") /\
  shown "payload" (outcome (office ++ [("t1", UpdateRecord R_acord_forms "id-3" (JObj [("payload", JNull)]))]) "t1"
                     (GetRecord R_acord_forms "id-3")) = Some (VJson (JObj [("a", JInt 1)])).
Proof. vm_compute. split; reflexivity. Qed.

(** A form created as superseded stays a draft; one that is finalised and
    superseded in one update is superseded; two forms can supersede each other; and
    the list shows superseded forms like the others. *)
Example superseding :
  let both := office ++ [("t1", form [("superseded_by_id", JStr "id-3")]);
                         ("t1", UpdateRecord R_acord_forms "id-3" (JObj [("superseded_by_id", JStr "id-5"); ("status", JStr "finalized")]))] in
  shown "status" (outcome both "t1" (GetRecord R_acord_forms "id-5")) = Some (VText "draft") /\
  shown "status" (outcome both "t1" (GetRecord R_acord_forms "id-3")) = Some (VText "superseded") /\
  shown "superseded_by_id" (outcome both "t1" (GetRecord R_acord_forms "id-3")) = Some (VText "id-5") /\
  match outcome both "t1" (ListRecords R_acord_forms None 50 0) with Ok (RowPage l n) => n = 2 | _ => False end.
Proof. vm_compute. split_and!; reflexivity. Qed.

(** An update may bring the aggregate limit below the limit per claim. *)
Example aggregate_below_coverage :
  let certified := office ++ [("t1", CreateRecord R_eo_certificates (JObj [("carrier_name", JStr "C"); ("policy_number", JStr "P");
      ("coverage_amount_cents", JInt 100); ("aggregate_amount_cents", JInt 200); ("effective_date", JInt 1);
      ("expiration_date", JInt 2); ("named_insured", JStr "N"); ("supplier_id", JStr "id-0")]))] in
  shown "aggregate_amount_cents" (outcome certified "t1" (UpdateRecord R_eo_certificates "id-5" (JObj [("aggregate_amount_cents", JInt 1)])))
    = Some (VInt 1).
Proof. vm_compute. reflexivity. Qed.

(** The search term is a pattern: an underscore finds every supplier. *)
Example search_is_a_pattern :
  match outcome office "t1" (ListSuppliers (Some "_") 50 0) with Ok (RowPage l n) => n = 1 | _ => False end.
Proof. vm_compute. reflexivity. Qed.

(** With the supplier go its records. *)
Example cascade :
  match history (office ++ [("t1", DeleteSupplier "id-0")]) with Session w _ => rows w = [] /\ length (audit_logs w) = 6%nat end.
Proof. vm_compute. split; reflexivity. Qed.

(** *** Witnesses *)

Lemma empty_well_formed : well_formed empty_db.
Proof. split; [done|constructor|done]. Qed.

Lemma office_well_formed : well_formed (working (history office)).
Proof.
  destruct (serve_invariant uuid cjb sha (fun _ => True) (fun _ => True)) with
    (l := map (fun x : string * request => (7, user x.1, x.2)) office) (db := empty_db) as (db' & H1 & H2 & _);
    [done|apply any_tenant|apply empty_well_formed|done|]. by rewrite H1.
Qed.

Lemma requests_refine_steps_witness : exists db',
  star (record_step cjb sha "t1") empty_db db' /\ length (rows db') = 1%nat.
Proof.
  pose proof (requests_refine_steps uuid cjb sha 7 (user "t1") (new_supplier "Alpha") empty_db empty_well_formed) as H.
  vm_compute (records_handle _ _ _ _ _ _ _) in H. destruct H as (db' & H1 & H2 & _). exists db'. split; [exact H2|].
  injection H1 as H1 _. rewrite <- H1. reflexivity.
Defined.

Lemma tables_stay_well_formed_witness : exists db', history office = Session db' db' /\ well_formed db'.
Proof. apply tables_stay_well_formed, empty_well_formed. Defined.

Lemma digests_stay_in_sync_witness : exists db', history office = Session db' db' /\ digests_in_sync cjb sha db'.
Proof. apply digests_stay_in_sync; [apply empty_well_formed|constructor]. Defined.

Lemma tenants_are_isolated_witness : exists db',
  serve uuid cjb sha [(8, user "t2", DeleteSupplier "id-0")] (Session (working (history office)) (working (history office))) =
    Session db' db' /\ of_tenant "t1" db' = of_tenant "t1" (working (history office)).
Proof. apply tenants_are_isolated; [apply office_well_formed|]. constructor; [discriminate|constructor]. Defined.

Definition sold : json :=
  JObj [("period_start", JInt 10); ("period_end", JInt 20); ("carrier_name", JStr "Acme"); ("line_of_business", JStr "cyber");
        ("supplier_id", JStr "id-0")].

Lemma created_record_is_read_witness :
  match handle (user "t1") (CreateRecord R_loss_runs sold) (Session (working (history office)) (working (history office))) with
  | (Ok (OneRow row), s') => attr "carrier_name" row = VText "Acme" /\
      handle (user "t1") (GetRecord R_loss_runs (row_id row)) s' = (Ok (OneRow row), s')
  | _ => False
  end.
Proof.
  set (r := handle _ _ _). assert (Hok : match r.1 with Ok (OneRow row) => attr "carrier_name" row = VText "Acme" | _ => False end)
    by (vm_compute; reflexivity).
  destruct r as [[[row| |]|e] s'] eqn:Hr; try exact (False_ind _ Hok). split; [exact Hok|].
  apply (created_record_is_read uuid cjb sha 7 (user "t1") R_loss_runs sold _ row s' office_well_formed Hr). reflexivity.
Defined.

Lemma pages_cover_the_list_witness :
  Permutation (concat (map (fun k => page_items LossRuns "t1" None 1 (Z.of_nat k * 1) (working (history office))) (seq 0 2)))
    (List.filter (of_supplier None) (tenant_rows LossRuns "t1" (working (history office)))).
Proof. apply (pages_cover_the_list LossRuns "t1" None 1 2); [lia|vm_compute; discriminate]. Defined.

End DemoRecords.
