(* ===== verification/KeyRotation.v ===== *)
(** * Key rotation

    services/key_rotation_service.py, workers/tasks/key_rotation_tasks.py and the
    ledger endpoints of api/cockpit/compliance.py: the registry of public signing
    keys, the append-only ledger of rotations, and the tasks that register the next
    signing key and warn of old secrets. *)

From S2P Require Import Prelude PyStr Json PyTime Encoding Crypto Accounts.

(** ** State *)

(** models/signing_key.py, [SigningKey]. *)
Record RegisteredKey : Type := {
  rk_id : string; rk_algorithm : string; rk_public_pem : string; rk_created_at : Z; rk_revoked_at : option Z }.

(** models/compliance.py, [KeyRotationLog]. *)
Record KeyRotationLog : Type := {
  kr_id : string; kr_key_name : string; kr_new_key_id : option string; kr_previous_key_id : option string;
  kr_operator_id : option string; kr_notes : string; kr_metadata : option json; kr_rotated_at : Z }.

(** An audit row of the system, without a tenant. *)
Record SystemAudit : Type := { sa_action : string; sa_resource_type : string; sa_resource_id : string; sa_metadata : json }.

Record RotationDB : Type := {
  signing_keys : list RegisteredKey; ledger : list KeyRotationLog; system_audit : list SystemAudit; next_id : nat }.

Definition add_key (k : RegisteredKey) (db : RotationDB) : RotationDB :=
  {| signing_keys := signing_keys db ++ [k]; ledger := ledger db; system_audit := system_audit db; next_id := next_id db |}.
Definition add_rotation (l : KeyRotationLog) (db : RotationDB) : RotationDB :=
  {| signing_keys := signing_keys db; ledger := ledger db ++ [l]; system_audit := system_audit db; next_id := S (next_id db) |}.
Definition add_audit (a : SystemAudit) (db : RotationDB) : RotationDB :=
  {| signing_keys := signing_keys db; ledger := ledger db; system_audit := system_audit db ++ [a]; next_id := next_id db |}.

Inductive rotation_error : Type :=
| UnknownKeyName (name : string)
| KeyError (e : crypto_error)
| Invalid (what : string).

Abbreviation KM := (M (session RotationDB) rotation_error).

(** ** The ledger *)

(** services/key_rotation_service.py, [ALLOWED_KEY_NAMES]. *)
Definition ALLOWED_KEY_NAMES : list string :=
  ["receipt_signing_key"; "jwt_secret_key"; "cockpit_jwt_secret_key"; "db_password"; "redis_password"; "fly_api_token";
   "sentry_dsn"; "operator_password"].

(** schemas/compliance.py, [KeyRotationCreate]. *)
Record KeyRotationCreate : Type := {
  krc_key_name : string; krc_new_key_id : option string; krc_previous_key_id : option string; krc_notes : string;
  krc_metadata : option json }.

Definition within (lo hi : Z) (s : string) : bool := (lo <=? slen s) && (slen s <=? hi).
Definition opt_within (hi : Z) (o : option string) : bool := match o with Some s => slen s <=? hi | None => true end.

(** The constraints of the fields, on text without white space around it. *)
Definition valid_rotation (p : KeyRotationCreate) : bool :=
  within 1 64 (krc_key_name p) && opt_within 36 (krc_new_key_id p) && opt_within 36 (krc_previous_key_id p)
  && within 1 1024 (krc_notes p).

Section Service.
Context (uuid : nat -> string).

(** services/key_rotation_service.py, [record_rotation]. *)
Definition record_rotation (now : Z) (payload : KeyRotationCreate) (operator_id : option string) : KM KeyRotationLog :=
  raise_if (negb (existsb (String.eqb (krc_key_name payload)) ALLOWED_KEY_NAMES)) (UnknownKeyName (krc_key_name payload)) ;;;
  let* n := query next_id in
  let row := {| kr_id := uuid n; kr_key_name := krc_key_name payload; kr_new_key_id := krc_new_key_id payload;
                kr_previous_key_id := krc_previous_key_id payload; kr_operator_id := operator_id; kr_notes := krc_notes payload;
                kr_metadata := krc_metadata payload; kr_rotated_at := now |} in
  write (add_rotation row) ;;;
  ret row.

(** services/key_rotation_service.py, [list_rotations]; [limit] and [offset] are
    not negative. *)
Definition list_rotations (key_name : option string) (limit offset : nat) : KM (Z * list KeyRotationLog) :=
  let* rows := query (fun db => List.filter (fun r => match opt_truthy key_name with
                                                      | Some k => String.eqb (kr_key_name r) k
                                                      | None => true
                                                      end) (ledger db)) in
  ret (Z.of_nat (length rows), take limit (drop offset (sort_by (fun r => - kr_rotated_at r) rows))).

(** api/cockpit/compliance.py, [record_key_rotation]; the operator is a founder. *)
Definition record_key_rotation (now : Z) (operator_id : string) (payload : KeyRotationCreate)
  : M (session RotationDB) web_error KeyRotationLog :=
  fun s =>
    if negb (valid_rotation payload) then (Raise (HTTPException 422 "validation_error"), s)
    else match record_rotation now payload (Some operator_id) s with
         | (Ok row, s') => (Ok row, snd (commit (E := web_error) s'))
         | (Raise (UnknownKeyName _), s') => (Raise (HTTPException 422 "unknown_key_name"), s')
         | (Raise _, s') => (Raise (PyException "Exception"), s')
         end.
End Service.

(** ** The tasks *)

(** workers/tasks/key_rotation_tasks.py:50, [SIGNING_KEY_MAX_AGE_DAYS]. *)
Definition SIGNING_KEY_MAX_AGE_DAYS : Z := 365.
(** workers/tasks/key_rotation_tasks.py:51, [JWT_SECRET_MAX_AGE_DAYS]. *)
Definition JWT_SECRET_MAX_AGE_DAYS : Z := 90.
(** workers/tasks/key_rotation_tasks.py:52, [DB_PASSWORD_MAX_AGE_DAYS]. *)
Definition DB_PASSWORD_MAX_AGE_DAYS : Z := 180.

(** [(now - t).days] *)
Definition age_in_days (now t : Z) : Z := (now - t) / us_per_day.

(** What the task of the signing key reports. *)
Inductive rotation_summary : Type :=
| NoActiveKey
| AgeBelowThreshold (age : Z) (active : string)
| HandoffRequired (age : Z) (active : string)
| NextAlreadyRegistered (new previous : string)
| NextRegistered (new previous : string) (age : Z)
| Failed (e : rotation_error).

(** [select(SigningKey).where(revoked_at is null).order_by(created_at desc).first()] *)
Definition active_key (db : RotationDB) : option RegisteredKey :=
  head (sort_by (fun k => - rk_created_at k) (List.filter (fun k => negb (is_someb (rk_revoked_at k))) (signing_keys db))).

Definition key_named (i : string) (db : RotationDB) : option RegisteredKey :=
  find_first (fun k => String.eqb (rk_id k) i) (signing_keys db).

(** workers/tasks/key_rotation_tasks.py, [_last_rotation]. *)
Definition _last_rotation (key_name : string) (db : RotationDB) : option KeyRotationLog :=
  head (sort_by (fun r => - kr_rotated_at r) (List.filter (fun r => String.eqb (kr_key_name r) key_name) (ledger db))).

Section Tasks.
Context `{E : Ed25519} (uuid : nat -> string).
(** The settings of the next key. *)
Context (next_signing_key_id next_signing_private_key_pem : string).

(** workers/tasks/key_rotation_tasks.py:138-197, [_run_rotate_signing_key]: the
    next key, its ledger row and its audit row in one transaction. *)
Definition register_next (now age : Z) (active : RegisteredKey) (next_key_id pem : string) : KM rotation_summary :=
  let* key := match load_signing_key pem with Ok k => ret k | Raise e => raise (KeyError e) end in
  raise_if (36 <? slen next_key_id) (Invalid "DBAPIError") ;;;
  write (add_key {| rk_id := next_key_id; rk_algorithm := "ed25519"; rk_public_pem := derive_public_pem key;
                    rk_created_at := now; rk_revoked_at := None |}) ;;;
  let meta := [("automated", JBool true); ("task", JStr "keys.rotate_signing_key"); ("previous_age_days", JInt age)] in
  let payload := {| krc_key_name := "receipt_signing_key"; krc_new_key_id := Some next_key_id;
                    krc_previous_key_id := Some (rk_id active);
                    krc_notes := "Next receipt-signing key pre-registered for operator cutover.";
                    krc_metadata := Some (JObj meta) |} in
  raise_if (negb (valid_rotation payload)) (Invalid "ValidationError") ;;;
  record_rotation uuid now payload None ;;;
  write (add_audit {| sa_action := "key_rotation"; sa_resource_type := "signing_key"; sa_resource_id := next_key_id;
                      sa_metadata := JObj (("previous_key_id", JStr (rk_id active)) :: meta) |}) ;;;
  commit ;;;
  ret (NextRegistered next_key_id (rk_id active) age).

(** workers/tasks/key_rotation_tasks.py, [_run_rotate_signing_key]. *)
Definition _run_rotate_signing_key (now : Z) : KM rotation_summary :=
  let* active := query active_key in
  match active with
  | None => ret NoActiveKey
  | Some active =>
      let age := age_in_days now (rk_created_at active) in
      if age <? SIGNING_KEY_MAX_AGE_DAYS then ret (AgeBelowThreshold age (rk_id active))
      else
        let next_key_id := strip next_signing_key_id in
        let pem := strip next_signing_private_key_pem in
        if negb (truthy next_key_id) || negb (truthy pem) then ret (HandoffRequired age (rk_id active))
        else
          let* existing := query (key_named next_key_id) in
          match existing with
          | Some _ => ret (NextAlreadyRegistered next_key_id (rk_id active))
          | None => register_next now age active next_key_id pem
          end
  end.

(** workers/tasks/key_rotation_tasks.py, [rotate_signing_key_task]: the session of
    the run is its own, and is rolled back when the run raises. *)
Definition rotate_signing_key_task (now : Z) (db : RotationDB) : rotation_summary * RotationDB :=
  match _run_rotate_signing_key now (Session db db) with
  | (Ok r, s) => (r, committed s)
  | (Raise e, s) => (Failed e, committed s)
  end.
End Tasks.

Inductive secret_summary : Type :=
| SecretOk (age : Z)
| SecretAlert (age : option Z) (reason : string).

(** workers/tasks/key_rotation_tasks.py, [_run_warn_secret_age]. *)
Definition _run_warn_secret_age (now : Z) (key_name : string) (threshold_days : Z) (task_name : string)
  : KM secret_summary :=
  let* last := query (_last_rotation key_name) in
  let age := (fun r => age_in_days now (kr_rotated_at r)) <$> last in
  let alert := match age with None => true | Some a => threshold_days <=? a end in
  let reason := match age with None => "no_rotation_history" | Some _ => if alert then "age_above_threshold" else "ok" end in
  if alert then
    write (add_audit {| sa_action := "key_rotation.warn"; sa_resource_type := "secret"; sa_resource_id := key_name;
                        sa_metadata := JObj [("key_name", JStr key_name);
                          ("age_days", match age with Some a => JInt a | None => JNull end);
                          ("threshold_days", JInt threshold_days); ("task", JStr task_name); ("reason", JStr reason)] |}) ;;;
    commit ;;;
    ret (SecretAlert age reason)
  else ret (SecretOk (default 0 age)).

(** workers/tasks/key_rotation_tasks.py, [_run_warn_task]; the run does not raise. *)
Definition _run_warn_task (now : Z) (key_name : string) (threshold_days : Z) (task_name : string) (db : RotationDB)
  : option secret_summary * RotationDB :=
  match _run_warn_secret_age now key_name threshold_days task_name (Session db db) with
  | (Ok r, s) => (Some r, committed s)
  | (Raise _, s) => (None, committed s)
  end.

(** workers/tasks/key_rotation_tasks.py, [warn_jwt_secret_age_task]. *)
Definition warn_jwt_secret_age_task (now : Z) : RotationDB -> option secret_summary * RotationDB :=
  _run_warn_task now "jwt_secret_key" JWT_SECRET_MAX_AGE_DAYS "keys.warn_jwt_secret_age".

(** workers/tasks/key_rotation_tasks.py, [warn_db_password_age_task]. *)
Definition warn_db_password_age_task (now : Z) : RotationDB -> option secret_summary * RotationDB :=
  _run_warn_task now "db_password" DB_PASSWORD_MAX_AGE_DAYS "keys.warn_db_password_age".

(** ** Lemmas *)

Lemma active_key_Some db k : active_key db = Some k ->
  In k (signing_keys db) /\ rk_revoked_at k = None /\
  forall k', In k' (signing_keys db) -> rk_revoked_at k' = None -> rk_created_at k' <= rk_created_at k.
Proof.
  intros [[Hin Hr]%filter_In Hmax]%head_sort_by. split_and!; [done|by destruct (rk_revoked_at k)|].
  intros k' Hk' Hr'. specialize (Hmax k'). rewrite filter_In, Hr' in Hmax. specialize (Hmax (conj Hk' eq_refl)). lia.
Qed.

Lemma age_in_days_below now t : age_in_days now t < SIGNING_KEY_MAX_AGE_DAYS <-> now - t < days SIGNING_KEY_MAX_AGE_DAYS.
Proof. unfold age_in_days, SIGNING_KEY_MAX_AGE_DAYS, days, us_per_day. lia. Qed.

Section TaskLemmas.
Context `{E : Ed25519} (uuid : nat -> string).

(** What a run did to the tables. *)
Inductive rotation_effect (now : Z) (id pem : string) (db : RotationDB) : rotation_summary -> RotationDB -> Prop :=
| rotated active key log audit :
    active_key db = Some active -> days SIGNING_KEY_MAX_AGE_DAYS <= now - rk_created_at active ->
    key_named (strip id) db = None -> load_signing_key (strip pem) = Ok key ->
    kr_key_name log = "receipt_signing_key" -> kr_new_key_id log = Some (strip id) ->
    kr_previous_key_id log = Some (rk_id active) -> kr_rotated_at log = now -> sa_resource_id audit = strip id ->
    rotation_effect now id pem db (NextRegistered (strip id) (rk_id active) (age_in_days now (rk_created_at active)))
      (add_audit audit (add_rotation log (add_key {| rk_id := strip id; rk_algorithm := "ed25519";
         rk_public_pem := derive_public_pem key; rk_created_at := now; rk_revoked_at := None |} db)))
| untouched r :
    (forall n p a, r <> NextRegistered n p a) -> rotation_effect now id pem db r db.

Lemma task_effect now id pem db r db' :
  rotate_signing_key_task uuid id pem now db = (r, db') -> rotation_effect now id pem db r db'.
Proof.
  unfold rotate_signing_key_task, _run_rotate_signing_key. unfold bind at 1, query at 1, reads at 1. cbn [working].
  destruct (active_key db) as [active|] eqn:Ha; [|intros [= <- <-]; by apply untouched].
  destruct (Z.ltb_spec (age_in_days now (rk_created_at active)) SIGNING_KEY_MAX_AGE_DAYS) as [Hage|Hage];
    [intros [= <- <-]; by apply untouched|].
  destruct (negb _ || negb _); [intros [= <- <-]; by apply untouched|]. unfold bind at 1, query at 1, reads at 1. cbn [working].
  destruct (key_named (strip id) db) as [k|] eqn:Hk; [intros [= <- <-]; by apply untouched|]. unfold register_next.
  destruct (load_signing_key (strip pem)) as [key|e] eqn:Hkey; [|intros [= <- <-]; by apply untouched]. unfold bind at 1, ret at 1.
  destruct (36 <? slen (strip id)); [intros [= <- <-]; by apply untouched|]. cbn [raise_if]. unfold bind at 1, ret at 1.
  unfold bind at 1, write at 1, modify at 1. cbn [working committed].
  destruct (valid_rotation _); [|intros [= <- <-]; by apply untouched]. cbn [negb raise_if]. unfold bind at 1, ret at 1.
  cbn -[age_in_days]. intros [= <- <-].
  eapply rotated; try done. unfold SIGNING_KEY_MAX_AGE_DAYS, age_in_days, days, us_per_day in *. lia.
Qed.

(** The runs of the task: the time and the settings of each. *)
Fixpoint task_runs (l : list (Z * string * string)) (db : RotationDB) : list (Z * rotation_summary) * RotationDB :=
  match l with
  | [] => ([], db)
  | (now, id, pem) :: l =>
      let '(r, db) := rotate_signing_key_task uuid id pem now db in
      let '(rs, db) := task_runs l db in ((now, r) :: rs, db)
  end.

Definition registered (r : rotation_summary) : Prop := match r with NextRegistered _ _ _ => True | _ => False end.

(** A key that is registered keeps the task from registering another for a year. *)
Lemma young_key_blocks l : forall t db k,
  In k (signing_keys db) -> rk_revoked_at k = None -> t <= rk_created_at k ->
  Forall (fun x => registered x.2 -> days SIGNING_KEY_MAX_AGE_DAYS <= x.1 - t) (task_runs l db).1.
Proof.
  induction l as [|[[now id] pem] l IH]; intros t db k Hin Hr Ht; cbn; [done|].
  destruct (rotate_signing_key_task uuid id pem now db) as [r db1] eqn:Heff. apply task_effect in Heff.
  assert (Hk : In k (signing_keys db1)) by (destruct Heff; cbn; [apply in_app_iff; by left|done]).
  specialize (IH t db1 k Hk Hr Ht). destruct (task_runs l db1) as [rs db2]. constructor; [|exact IH]. cbn.
  destruct Heff as [active key log audit Ha Hage _ _ _ _ _ _ _|r Hno]; [|by destruct r; cbn; try done; destruct (Hno new previous age)].
  intros _. apply active_key_Some in Ha as (_ & _ & Hmax). specialize (Hmax k Hin Hr). lia.
Qed.

(** Signing keys are registered at most once a year.  However often the task
    runs and whatever the settings name as the next key, two runs that register a
    key are at least 365 days apart. *)
Theorem keys_a_year_apart l db :
  ForallOrdPairs (fun a b => registered a.2 -> registered b.2 -> days SIGNING_KEY_MAX_AGE_DAYS <= b.1 - a.1) (task_runs l db).1.
Proof.
  revert db. induction l as [|[[now id] pem] l IH]; intros db; cbn; [constructor|].
  destruct (rotate_signing_key_task uuid id pem now db) as [r db1] eqn:Heff. apply task_effect in Heff.
  pose proof (young_key_blocks l now db1) as Hblock. specialize (IH db1). destruct (task_runs l db1) as [rs db2]. cbn [fst] in *.
  constructor; [|exact IH]. destruct Heff as [active key log audit|r Hno].
  - eapply List.Forall_impl; [|eapply Hblock; [cbn; apply in_app_iff; right; by left|done|cbn; lia]]. cbn. auto.
  - apply List.Forall_forall. intros x _. destruct r; try done. by destruct (Hno new previous age).
Qed.

(** A rotation is recorded with what it did.  A run either leaves the registry,
    the ledger and the audit rows as they were, or adds to all three in one
    transaction: the next key with the public half of the configured private key,
    the ledger row that names it and the newest key that is not revoked, which is
    at least a year old, and the audit row.  No key is removed or revoked. *)
Theorem rotation_is_recorded now id pem db :
  let '(r, db') := rotate_signing_key_task uuid id pem now db in
  match r with
  | NextRegistered new previous age =>
      exists active key log audit,
        active_key db = Some active /\ rk_id active = previous /\ SIGNING_KEY_MAX_AGE_DAYS <= age /\ new = strip id /\
        key_named new db = None /\ load_signing_key (strip pem) = Ok key /\
        (exists k, signing_keys db' = signing_keys db ++ [k] /\ rk_id k = new /\ rk_public_pem k = derive_public_pem key) /\
        ledger db' = ledger db ++ [log] /\ kr_key_name log = "receipt_signing_key" /\ kr_new_key_id log = Some new /\
        kr_previous_key_id log = Some previous /\ system_audit db' = system_audit db ++ [audit] /\ sa_resource_id audit = new
  | _ => db' = db
  end.
Proof.
  destruct (rotate_signing_key_task uuid id pem now db) as [r db'] eqn:Heff. apply task_effect in Heff.
  destruct Heff as [active key log audit Ha Hage Hk Hkey H1 H2 H3 H4 H5|r Hno]; [|destruct r; try done; by destruct (Hno new previous age)].
  exists active, key, log, audit. split_and!; try done; [|by eexists].
  unfold SIGNING_KEY_MAX_AGE_DAYS, age_in_days, days, us_per_day in *. lia.
Qed.
End TaskLemmas.

(** A secret is reported when it is stale.  The check adds one audit row and
    alerts exactly if the ledger has no rotation of the secret within the threshold;
    otherwise it changes nothing. *)
Theorem secret_alert_iff_stale now key_name threshold task db :
  let '(r, db') := _run_warn_task now key_name threshold task db in
  if existsb (fun l => String.eqb (kr_key_name l) key_name && (now - kr_rotated_at l <? days threshold)) (ledger db)
  then (exists age, r = Some (SecretOk age)) /\ db' = db
  else (exists age reason, r = Some (SecretAlert age reason)) /\
       exists a, db' = add_audit a db /\ sa_action a = "key_rotation.warn" /\ sa_resource_id a = key_name.
Proof.
  unfold _run_warn_task, _run_warn_secret_age. unfold bind at 1, query at 1, reads at 1. cbn [working].
  assert (Hage : forall l, (threshold <=? age_in_days now (kr_rotated_at l)) = negb (now - kr_rotated_at l <? days threshold)).
  { intros l. unfold age_in_days, days, us_per_day. lia. }
  destruct (_last_rotation key_name db) as [l|] eqn:Hl; cbn [fmap option_fmap option_map].
  - apply head_sort_by in Hl as [[Hin Hn]%filter_In Hmax]. rewrite Hage. destruct (Z.ltb_spec (now - kr_rotated_at l) (days threshold)) as [Hlt|Hge].
    + assert (He : existsb (fun l => String.eqb (kr_key_name l) key_name && (now - kr_rotated_at l <? days threshold)) (ledger db) = true).
      { apply existsb_exists. exists l. rewrite Hn. split; [done|]. cbn. lia. }
      rewrite He. cbn. by split; [eexists|].
    + assert (He : existsb (fun l => String.eqb (kr_key_name l) key_name && (now - kr_rotated_at l <? days threshold)) (ledger db) = false).
      { apply not_true_iff_false. intros (x & Hx & [Hxn Hxt]%andb_true_iff)%existsb_exists.
        specialize (Hmax x). rewrite filter_In in Hmax. specialize (Hmax (conj Hx Hxn)). lia. }
      rewrite He. cbn. split; [by do 2 eexists|by eexists].
  - unfold _last_rotation in Hl. apply head_sort_by_None in Hl.
    assert (He : existsb (fun l => String.eqb (kr_key_name l) key_name && (now - kr_rotated_at l <? days threshold)) (ledger db) = false).
    { apply not_true_iff_false. intros (x & Hx & [Hxn _]%andb_true_iff)%existsb_exists.
      assert (In x []) by (rewrite <- Hl; by apply filter_In). done. }
    rewrite He. cbn. split; [by do 2 eexists|by eexists].
Qed.

Module DemoRotation.

Definition old_key (i : string) (t : Z) : RegisteredKey :=
  {| rk_id := i; rk_algorithm := "ed25519"; rk_public_pem := "pem"; rk_created_at := t; rk_revoked_at := None |}.
Definition registry (l : list RegisteredKey) : RotationDB :=
  {| signing_keys := l; ledger := []; system_audit := []; next_id := 0 |}.

(** The age is that of the newest key in the registry, not of the key that signs:
    when the next key was registered and never put to use, the key of two years
    ago goes on signing and the task is content. *)
Example unused_key_hides_the_old_one `{E : Ed25519} uuid :
  (rotate_signing_key_task uuid "k2" "pem" (days 729) (registry [old_key "k1" 0; old_key "k2" (days 365)])).1 =
  AgeBelowThreshold 364 "k2".
Proof. vm_compute. reflexivity. Qed.

(** The boundary of the warning. *)
Example ninety_days :
  let log := {| kr_id := "r"; kr_key_name := "jwt_secret_key"; kr_new_key_id := None; kr_previous_key_id := None;
                kr_operator_id := None; kr_notes := "n"; kr_metadata := None; kr_rotated_at := 0 |} in
  let db := {| signing_keys := []; ledger := [log]; system_audit := []; next_id := 1 |} in
  (warn_jwt_secret_age_task (days 90 - 1) db).1 = Some (SecretOk 89) /\
  (warn_jwt_secret_age_task (days 90) db).1 = Some (SecretAlert (Some 90) "age_above_threshold").
Proof. vm_compute. split; reflexivity. Qed.

End DemoRotation.
