(* ===== verification/TenantDeletion.v ===== *)
(** * Tenant deletion

    services/tenant_deletion_service.py and its endpoint: every row with the
    tenant's id is deleted, table by table in alphabetical order, on a database
    that enforces the foreign keys the models declare. *)

From S2P Require Import Prelude PyStr Json Accounts.

(** ** The database *)

(** A row: its table, its key, and the columns that hold ids or the slug. *)
Record row : Type := { r_table : string; r_id : string; r_cols : list (string * option string) }.

Definition column (k : string) (r : row) : option string :=
  match find_first (fun c => String.eqb c.1 k) (r_cols r) with Some (_, v) => v | None => None end.

Inductive on_delete : Type := CASCADE | SET_NULL | RESTRICT.
#[export] Instance on_delete_eq_dec : EqDecision on_delete.
Proof. solve_decision. Defined.

Record foreign_key : Type := { fk_table : string; fk_column : string; fk_parent : string; fk_action : on_delete }.
Definition fk (t c p : string) (a : on_delete) : foreign_key := {| fk_table := t; fk_column := c; fk_parent := p; fk_action := a |}.

(** models/receipt.py, [SubmissionReceipt]: the foreign keys. *)
Definition receipt_keys : list foreign_key :=
  [fk "submission_receipts" "submission_id" "supplier_submissions" CASCADE; fk "submission_receipts" "supplier_id" "suppliers" CASCADE;
   fk "submission_receipts" "consent_record_id" "consent_records" RESTRICT].

(** models/submission.py, [SupplierSubmission]: the foreign keys. *)
Definition submission_keys : list foreign_key :=
  [fk "supplier_submissions" "supplier_id" "suppliers" CASCADE; fk "supplier_submissions" "portal_id" "portals" RESTRICT;
   fk "supplier_submissions" "consent_record_id" "consent_records" SET_NULL].

(** models/policy.py:57-75, [Policy]. *)
Definition policy_keys : list foreign_key :=
  [fk "policies" "supplier_id" "suppliers" CASCADE; fk "policies" "carrier_id" "carriers" RESTRICT;
   fk "policies" "quote_id" "quotes" SET_NULL].

(** models/quote.py:54-72, [Quote]. *)
Definition quote_keys : list foreign_key :=
  [fk "quotes" "supplier_id" "suppliers" CASCADE; fk "quotes" "carrier_id" "carriers" RESTRICT;
   fk "quotes" "submission_id" "supplier_submissions" SET_NULL; fk "quotes" "created_by_user_id" "users" SET_NULL].

(** The foreign keys of models/*.py that do not refer to a tenant, the four
    classes above apart. *)
Definition other_keys : list foreign_key :=
  [fk "acord_forms" "supplier_id" "suppliers" CASCADE; fk "acord_forms" "superseded_by_id" "acord_forms" SET_NULL;
   fk "audit_exports" "requested_by_user_id" "users" SET_NULL; fk "audit_logs" "actor_user_id" "users" SET_NULL;
   fk "certificates_of_insurance" "supplier_id" "suppliers" CASCADE;
   fk "certificates_of_insurance" "uploaded_by_user_id" "users" SET_NULL;
   fk "consent_records" "supplier_id" "suppliers" CASCADE; fk "consent_records" "granted_by_user_id" "users" RESTRICT;
   fk "eo_certificates" "supplier_id" "suppliers" CASCADE; fk "extraction_results" "reviewed_by_user_id" "users" SET_NULL;
   fk "import_jobs" "created_by_user_id" "users" SET_NULL; fk "import_row_errors" "import_job_id" "import_jobs" CASCADE;
   fk "inbound_attachments" "inbound_email_id" "inbound_emails" CASCADE;
   fk "inbound_emails" "draft_submission_id" "supplier_submissions" SET_NULL;
   fk "inbound_emails" "draft_supplier_id" "suppliers" SET_NULL; fk "loss_run_claims" "loss_run_id" "loss_runs" CASCADE;
   fk "loss_runs" "supplier_id" "suppliers" CASCADE; fk "onboarding_states" "primary_user_id" "users" SET_NULL;
   fk "operator_recovery_codes" "operator_id" "operators" CASCADE; fk "operator_sessions" "operator_id" "operators" CASCADE;
   fk "operator_tenant_grants" "operator_id" "operators" CASCADE; fk "cockpit_audit" "operator_id" "operators" SET_NULL;
   fk "key_rotation_logs" "rotated_by_operator_id" "operators" SET_NULL; fk "producer_licenses" "supplier_id" "suppliers" CASCADE;
   fk "revoked_refresh_tokens" "user_id" "users" CASCADE; fk "risk_schedules" "supplier_id" "suppliers" CASCADE;
   fk "tenant_users" "user_id" "users" CASCADE; fk "verifier_api_key_usage" "api_key_id" "verifier_api_keys" CASCADE;
   fk "verifier_api_keys" "created_by_operator_id" "operators" SET_NULL].

(** The tables of models/*.py with a column [tenant_id], in the order their classes
    are imported. *)
Definition tables_with_tenant : list string :=
  ["acord_forms"; "audit_logs"; "audit_exports"; "audit_trail"; "billing_customers"; "billing_invoices"; "billing_subscriptions";
   "carriers"; "certificates_of_insurance"; "audit_hash_digests"; "consent_records"; "email_verifications"; "eo_certificates";
   "extraction_results"; "import_jobs"; "inbound_emails"; "inbound_routing_rules"; "loss_runs"; "loss_run_claims";
   "onboarding_states"; "operator_tenant_grants"; "policies"; "producer_licenses"; "quotes"; "submission_receipts";
   "revoked_refresh_tokens"; "risk_schedules"; "supplier_submissions"; "suppliers"; "tenant_users"; "verifier_api_keys"].

(** The foreign keys that refer to a tenant: models/base.py:33-38, [TenantScopedMixin],
    with the columns of the classes that declare their own, and
    models/cockpit_audit.py:42-47, [CockpitAudit]. *)
Definition tenant_keys : list foreign_key :=
  map (fun t => fk t "tenant_id" "tenants" CASCADE) tables_with_tenant ++
  [fk "cockpit_audit" "tenant_id_acted_as" "tenants" SET_NULL].

(** The foreign keys of models/*.py. *)
Definition foreign_keys : list foreign_key :=
  receipt_keys ++ submission_keys ++ policy_keys ++ quote_keys ++ other_keys ++ tenant_keys.

(** models/audit.py, [AuditLog]: the row of the deletion. *)
Record deletion_audit : Type := {
  da_resource_id : string; da_slug : string; da_reason : string; da_operator_id : option string;
  da_row_counts : list (string * Z) }.

Record DeletionDB : Type := { table_rows : list row; deletion_audits : list deletion_audit }.

Definition with_table_rows (f : list row -> list row) (db : DeletionDB) : DeletionDB :=
  {| table_rows := f (table_rows db); deletion_audits := deletion_audits db |}.

(** ** [DELETE] with foreign keys *)

Definition is_the_row (t i : string) (r : row) : bool := String.eqb (r_table r) t && String.eqb (r_id r) i.

(** The row refers by the key to one of the rows [l]. *)
Definition refers_by (k : foreign_key) (l : list row) (x : row) : bool :=
  String.eqb (r_table x) (fk_table k) &&
  match column (fk_column k) x with Some i => existsb (is_the_row (fk_parent k) i) l | None => false end.

Definition refers_with (a : on_delete) (l : list row) (x : row) : bool :=
  existsb (fun k => bool_decide (fk_action k = a) && refers_by k l x) foreign_keys.

Definition among (l : list row) (x : row) : bool := existsb (is_the_row (r_table x) (r_id x)) l.

(** The rows that go with [gone], by [ON DELETE CASCADE]. *)
Fixpoint cascade (fuel : nat) (l gone : list row) : list row :=
  match fuel with
  | O => gone
  | S fuel =>
      match List.filter (fun x => negb (among gone x) && refers_with CASCADE gone x) l with
      | [] => gone
      | more => cascade fuel l (gone ++ more)
      end
  end.

(** The column [c] of the row is cleared, by [ON DELETE SET NULL]. *)
Definition clears (gone : list row) (x : row) (c : string) : bool :=
  existsb (fun k => bool_decide (fk_action k = SET_NULL) && String.eqb (fk_column k) c && refers_by k gone x) foreign_keys.

Definition nulled (gone : list row) (x : row) : row :=
  {| r_table := r_table x; r_id := r_id x;
     r_cols := map (fun c => (c.1, if clears gone x c.1 then None else c.2)) (r_cols x) |}.

Inductive deletion_error : Type :=
| TenantNotFound
| TenantSlugMismatch (expected : string)
| IntegrityError.

Abbreviation DM := (M (session DeletionDB) deletion_error).

(** [DELETE FROM table WHERE p]: refused when a row that stays refers to a deleted
    one by [ON DELETE RESTRICT].  No table refuses the statement otherwise: that is
    the PostgreSQL schema as the migrations leave it, without a trigger and without
    a revoked grant. *)
Definition delete_where (p : row -> bool) : DM unit :=
  let* l := query table_rows in
  let gone := cascade (length l) l (List.filter p l) in
  raise_if (existsb (fun x => negb (among gone x) && refers_with RESTRICT gone x) l) IntegrityError ;;;
  write (with_table_rows (fun l => map (nulled gone) (List.filter (fun x => negb (among gone x)) l))).

(** ** The service *)

(** services/tenant_deletion_service.py, [_tenant_scoped_tables]. *)
Definition _tenant_scoped_tables : list string := isort String.leb tables_with_tenant.

Definition of_tenant (name tenant_id : string) (r : row) : bool :=
  String.eqb (r_table r) name && bool_decide (column "tenant_id" r = Some tenant_id).

(** services/tenant_deletion_service.py, [_count_rows]. *)
Definition _count_rows (name tenant_id : string) (db : DeletionDB) : Z :=
  Z.of_nat (length (List.filter (of_tenant name tenant_id) (table_rows db))).

(** services/tenant_deletion_service.py:105-111, [delete_tenant]: the tables with
    rows, one statement each. *)
Fixpoint delete_tables (tenant_id : string) (counts : list (string * Z)) : DM unit :=
  match counts with
  | [] => ret tt
  | (name, n) :: counts =>
      (if n =? 0 then ret tt else delete_where (of_tenant name tenant_id)) ;;;
      delete_tables tenant_id counts
  end.

(** schemas/compliance.py, [TenantDeletionReceipt]. *)
Record TenantDeletionReceipt : Type := { tdr_tenant_id : string; tdr_slug : string; tdr_row_counts : list (string * Z) }.

Definition tenant_row (tenant_id : string) (db : DeletionDB) : option row :=
  find_first (is_the_row "tenants" tenant_id) (table_rows db).

(** services/tenant_deletion_service.py, [delete_tenant]. *)
Definition delete_tenant (tenant_id confirm_slug reason : string) (operator_id : option string) : DM TenantDeletionReceipt :=
  let* tenant := query (tenant_row tenant_id) in
  let* tenant := or_raise tenant TenantNotFound in
  let slug := default "" (column "slug" tenant) in
  raise_if (negb (String.eqb slug confirm_slug)) (TenantSlugMismatch slug) ;;;
  let* row_counts := query (fun db => map (fun n => (n, _count_rows n tenant_id db)) _tenant_scoped_tables) in
  delete_tables tenant_id row_counts ;;;
  delete_where (is_the_row "tenants" tenant_id) ;;;
  write (fun db => {| table_rows := table_rows db;
                      deletion_audits := deletion_audits db ++
                        [{| da_resource_id := tenant_id; da_slug := slug; da_reason := reason; da_operator_id := operator_id;
                            da_row_counts := row_counts |}] |}) ;;;
  ret {| tdr_tenant_id := tenant_id; tdr_slug := slug; tdr_row_counts := row_counts |}.

(** schemas/compliance.py, [TenantDeletionRequest]; the fields are stripped. *)
Definition valid_request (reason confirm_slug : string) : bool :=
  (10 <=? slen reason) && (slen reason <=? 1024) && (1 <=? slen confirm_slug) && (slen confirm_slug <=? 64).

(** api/cockpit/tenants.py, [delete_tenant_endpoint]; the operator is a founder. *)
Definition delete_tenant_endpoint (operator_id tenant_id reason confirm_slug : string)
  : M (session DeletionDB) web_error TenantDeletionReceipt :=
  in_request (fun s =>
    if negb (valid_request (strip reason) (strip confirm_slug)) then (Raise (HTTPException 422 "validation_error"), s)
    else match delete_tenant tenant_id (strip confirm_slug) (strip reason) (Some operator_id) s with
         | (Ok r, s') => (Ok r, snd (commit (E := web_error) s'))
         | (Raise TenantNotFound, s') => (Raise (HTTPException 404 "tenant_not_found"), s')
         | (Raise (TenantSlugMismatch _), s') => (Raise (HTTPException 422 "slug_mismatch"), s')
         | (Raise IntegrityError, s') => (Raise (PyException "IntegrityError"), s')
         end).

(** ** What a [DELETE] takes *)

(** A row of [name] refers by no key that [ON DELETE] clears. *)
Definition never_cleared (name : string) : bool :=
  forallb (fun k => negb (bool_decide (fk_action k = SET_NULL) && String.eqb (fk_table k) name)) foreign_keys.

(** A row of the table [tenants] refers to nothing. *)
Lemma tenants_refer_to_nothing k : In k foreign_keys -> fk_table k <> "tenants".
Proof.
  assert (H : forallb (fun k => negb (String.eqb (fk_table k) "tenants")) foreign_keys = true) by (vm_compute; reflexivity).
  rewrite forallb_forall in H. intros Hk. by apply String.eqb_neq, negb_true_iff, H.
Qed.

(** The keys to a tenant: the columns [tenant_id], and one that is cleared. *)
Lemma keys_to_tenants k :
  In k foreign_keys -> fk_parent k = "tenants" ->
  fk_column k = "tenant_id" /\ In (fk_table k) tables_with_tenant \/ fk_action k = SET_NULL.
Proof.
  intros Hk Hp.
  assert (H : forallb (fun k => negb (String.eqb (fk_parent k) "tenants") ||
                (String.eqb (fk_column k) "tenant_id" && existsb (String.eqb (fk_table k)) tables_with_tenant) ||
                bool_decide (fk_action k = SET_NULL)) foreign_keys = true) by (vm_compute; reflexivity).
  rewrite forallb_forall in H. specialize (H k Hk). rewrite Hp, String.eqb_refl in H. cbn [negb orb] in H.
  apply orb_prop in H as [[Hc%String.eqb_eq (t & Ht & ->%String.eqb_eq)%existsb_exists]%andb_prop|H%bool_decide_eq_true]; auto.
Qed.

#[local] Opaque foreign_keys.

Lemma refers_by_mono k l l' x : (forall y, In y l -> In y l') -> refers_by k l x = true -> refers_by k l' x = true.
Proof.
  unfold refers_by. intros Hl [-> H]%andb_prop. cbn. destruct (column _ x); [|done].
  apply existsb_exists in H as (y & Hy & Hi). apply existsb_exists. eauto.
Qed.

Lemma among_In l x : In x l -> among l x = true.
Proof. intros Hx. apply existsb_exists. exists x. split; [done|]. unfold is_the_row. by rewrite !String.eqb_refl. Qed.

Lemma among_spec l x : among l x = true <-> exists y, In y l /\ r_table y = r_table x /\ r_id y = r_id x.
Proof.
  unfold among, is_the_row. rewrite existsb_exists. split.
  - intros (y & Hy & [?%String.eqb_eq ?%String.eqb_eq]%andb_prop). eauto.
  - intros (y & Hy & Ht & Hi). exists y. split; [done|]. by rewrite Ht, Hi, !String.eqb_refl.
Qed.

(** The cascade keeps what it starts with. *)
Lemma cascade_extends fuel l gone x : In x gone -> In x (cascade fuel l gone).
Proof.
  revert gone. induction fuel as [|fuel IH]; intros gone Hx; cbn; [done|].
  destruct (List.filter _ l) as [|y more]; [done|]. apply IH, in_or_app. by left.
Qed.

(** An invariant of the rows that go: what holds of the chosen rows, and of every row
    that refers by [CASCADE] to rows it holds of, holds of all. *)
Lemma cascade_ind (P : row -> Prop) l fuel gone :
  (forall x gone, In x l -> (forall y, In y gone -> P y) -> refers_with CASCADE gone x = true -> P x) ->
  (forall x, In x gone -> P x) -> forall x, In x (cascade fuel l gone) -> P x.
Proof.
  intros Hstep. revert gone. induction fuel as [|fuel IH]; intros gone Hgone; cbn; [done|].
  destruct (List.filter _ l) as [|y more] eqn:Hf; [done|]. apply IH. intros x [Hx|Hx]%in_app_or; [by apply Hgone|].
  rewrite <- Hf in Hx. apply filter_In in Hx as [Hx [_ Hr]%andb_prop]. by apply (Hstep x gone).
Qed.

Lemma filter_shorter {A} (f g : A -> bool) l y : (forall x, f x = true -> g x = true) -> In y l -> g y = true -> f y = false ->
  (length (List.filter f l) < length (List.filter g l))%nat.
Proof.
  intros Hfg. assert (Hle : forall l, (length (List.filter f l) <= length (List.filter g l))%nat).
  { intros l0. induction l0 as [|x l' IH]; cbn; [lia|]. pose proof (Hfg x) as H. destruct (f x); [rewrite H by done; cbn; lia|destruct (g x); cbn; lia]. }
  induction l as [|x l IH]; [done|]. cbn. intros [->|Hy] Hg Hf; [rewrite Hg, Hf; specialize (Hle l); cbn; lia|]. specialize (IH Hy Hg Hf).
  pose proof (Hfg x) as Hx. destruct (f x); [rewrite (Hx eq_refl); cbn; lia|destruct (g x); cbn; lia].
Qed.

Lemma among_app l gone x : among gone x = true -> among (gone ++ l) x = true.
Proof. unfold among. rewrite existsb_app. by intros ->. Qed.

Lemma cascade_closed_aux fuel l gone : (length (List.filter (fun x => negb (among gone x)) l) <= fuel)%nat ->
  forall x, In x l -> among (cascade fuel l gone) x = false -> refers_with CASCADE (cascade fuel l gone) x = false.
Proof.
  revert gone. induction fuel as [|fuel IH]; intros gone Hf x Hx; cbn [cascade].
  - intros Hno. assert (Hin : In x (List.filter (fun x => negb (among gone x)) l)) by (apply filter_In; by rewrite Hno).
    apply Nat.le_0_r, nil_length_inv in Hf. by rewrite Hf in Hin.
  - destruct (List.filter (fun x => negb (among gone x) && refers_with CASCADE gone x) l) as [|y more] eqn:Hm.
    + intros Hno. destruct (refers_with CASCADE gone x) eqn:Hr; [|done].
      assert (Hin : In x []) by (rewrite <- Hm; apply filter_In; by rewrite Hno, Hr). done.
    + apply IH; [|done]. assert (Hy : In y (y :: more)) by (by left). rewrite <- Hm in Hy. apply filter_In in Hy as [Hy [Hg _]%andb_prop].
      enough (length (List.filter (fun x => negb (among (gone ++ y :: more) x)) l) < length (List.filter (fun x => negb (among gone x)) l))%nat by lia.
      apply (filter_shorter _ _ l y); [|done|done|].
      * intros z Hz. destruct (among gone z) eqn:Ha; [|done]. by rewrite (among_app (y :: more) gone z Ha) in Hz.
      * apply negb_false_iff, among_In, in_app_iff. right. by left.
Qed.

(** As many rounds as rows are enough: what the cascade leaves does not refer by [CASCADE]
    to what it takes. *)
Lemma cascade_closed l gone x : In x l -> among (cascade (length l) l gone) x = false -> refers_with CASCADE (cascade (length l) l gone) x = false.
Proof. intros Hx. apply cascade_closed_aux; [|done]. apply List.filter_length_le. Qed.

Lemma refers_with_inv a l x :
  refers_with a l x = true ->
  exists k y, In k foreign_keys /\ fk_action k = a /\ fk_table k = r_table x /\ column (fk_column k) x = Some (r_id y) /\
              In y l /\ r_table y = fk_parent k.
Proof.
  unfold refers_with, refers_by, is_the_row. intros (k & Hk & [Ha%bool_decide_eq_true [Ht%String.eqb_eq H]%andb_prop]%andb_prop)%existsb_exists.
  destruct (column _ x) as [i|] eqn:Hc; [|done].
  apply existsb_exists in H as (y & Hy & [?%String.eqb_eq <-%String.eqb_eq]%andb_prop). exists k, y. repeat split; auto.
Qed.

Lemma refers_with_intro k l x y :
  In k foreign_keys -> fk_table k = r_table x -> column (fk_column k) x = Some (r_id y) -> In y l -> r_table y = fk_parent k ->
  refers_with (fk_action k) l x = true.
Proof.
  intros Hk Ht Hc Hy Hp. apply existsb_exists. exists k. split; [done|]. rewrite bool_decide_eq_true_2 by done. cbn.
  unfold refers_by. rewrite Ht, String.eqb_refl, Hc. cbn. apply existsb_exists. exists y. split; [done|].
  unfold is_the_row. by rewrite Hp, !String.eqb_refl.
Qed.

Lemma delete_where_run p s :
  let l := table_rows (working s) in
  let gone := cascade (length l) l (List.filter p l) in
  delete_where p s =
    if existsb (fun x => negb (among gone x) && refers_with RESTRICT gone x) l then (Raise IntegrityError, s)
    else (Ok tt, Session (with_table_rows (fun l => map (nulled gone) (List.filter (fun x => negb (among gone x)) l)) (working s))
                         (committed s)).
Proof. cbn zeta. unfold delete_where. run_m. by destruct (existsb _ _). Qed.

Lemma nulled_key gone x : r_table (nulled gone x) = r_table x /\ r_id (nulled gone x) = r_id x.
Proof. done. Qed.

(** A column that a row still has a value in had it before. *)
Lemma nulled_column gone x k v : column k (nulled gone x) = Some v -> column k x = Some v.
Proof.
  unfold column, nulled. cbn [r_cols]. induction (r_cols x) as [|[c w] cs IH]; cbn [map find_first fst snd]; [done|].
  destruct (String.eqb c k); [|exact IH]. by destruct (clears _ _ _).
Qed.

Lemma nulled_id gone x :
  (forall k, In k foreign_keys -> fk_action k = SET_NULL -> fk_table k = r_table x -> column (fk_column k) x = None \/
             forall i, column (fk_column k) x = Some i -> existsb (is_the_row (fk_parent k) i) gone = false) ->
  nulled gone x = x.
Proof.
  intros H. destruct x as [t i cs]. unfold nulled. cbn [r_table r_id r_cols] in *. f_equal.
  rewrite <- (map_id cs) at 2. apply map_ext. intros [c v]. cbn [fst snd].
  destruct (clears _ _ c) eqn:E; [exfalso|done].
  apply existsb_exists in E as (k & Hk & [[Ha%bool_decide_eq_true _]%andb_prop Hr]%andb_prop).
  unfold refers_by in Hr. apply andb_prop in Hr as [Ht%String.eqb_eq Hr]. cbn [r_table] in Ht.
  destruct (H k Hk Ha (eq_sym Ht)) as [Hn|Hn]; [by rewrite Hn in Hr|].
  destruct (column _ _) as [j|] eqn:Hc; [|done]. by rewrite (Hn j) in Hr.
Qed.

Lemma nulled_never_cleared gone x : never_cleared (r_table x) = true -> nulled gone x = x.
Proof.
  intros Hn. apply nulled_id. intros k Hk Ha Ht. unfold never_cleared in Hn. rewrite forallb_forall in Hn. specialize (Hn k Hk).
  by rewrite bool_decide_eq_true_2, Ht, String.eqb_refl in Hn.
Qed.

Lemma clears_spec gone x c :
  clears gone x c = true <->
  exists k, In k foreign_keys /\ fk_action k = SET_NULL /\ fk_column k = c /\ refers_by k gone x = true.
Proof.
  unfold clears. rewrite existsb_exists. split.
  - intros (k & Hk & [[?%bool_decide_eq_true ?%String.eqb_eq]%andb_prop ?]%andb_prop). eauto.
  - intros (k & Hk & Ha & Hc & Hr). exists k. split; [done|]. by rewrite bool_decide_eq_true_2, Hc, String.eqb_refl, Hr.
Qed.

Lemma column_nulled gone x c : column c (nulled gone x) = if clears gone x c then None else column c x.
Proof.
  unfold column, nulled. cbn [r_cols]. generalize (clears gone x). intros f.
  induction (r_cols x) as [|[d w] cs IH]; cbn [map find_first fst snd]; [by destruct (f c)|].
  destruct (String.eqb_spec d c) as [->|_]; [by destruct (f c)|exact IH].
Qed.

Lemma refers_by_inv k l x :
  refers_by k l x = true ->
  fk_table k = r_table x /\ exists y, column (fk_column k) x = Some (r_id y) /\ In y l /\ r_table y = fk_parent k.
Proof.
  unfold refers_by, is_the_row. intros [Ht%String.eqb_eq H]%andb_prop. split; [done|]. destruct (column _ x) as [i|]; [|done].
  apply existsb_exists in H as (y & Hy & [? <-%String.eqb_eq]%andb_prop). exists y. split_and!; try done. by apply String.eqb_eq.
Qed.

Lemma refers_by_intro k l x y :
  fk_table k = r_table x -> column (fk_column k) x = Some (r_id y) -> In y l -> r_table y = fk_parent k -> refers_by k l x = true.
Proof.
  intros Ht Hc Hy Hp. unfold refers_by. rewrite Ht, String.eqb_refl, Hc. cbn. apply existsb_exists. exists y. split; [done|].
  unfold is_the_row. by rewrite Hp, !String.eqb_refl.
Qed.

(** ** Rows a deletion leaves alone *)

Section Frame.
Context (keep : string -> string -> bool).

Definition kept (x : row) : bool := keep (r_table x) (r_id x).

(** Kept rows refer by [ON DELETE CASCADE] only to kept rows. *)
Definition closed (l : list row) : Prop :=
    forall k x i, In k foreign_keys -> In x l -> fk_table k = r_table x -> column (fk_column k) x = Some i ->
    fk_action k = CASCADE -> kept x = true -> keep (fk_parent k) i = true.

(** No row refers to a row that goes by [ON DELETE RESTRICT]. *)
Definition unrestricted (l : list row) : Prop :=
    forall k x i, In k foreign_keys -> In x l -> fk_table k = r_table x -> column (fk_column k) x = Some i -> fk_action k = RESTRICT ->
    keep (fk_parent k) i = true.

Lemma cascade_spares_kept l fuel gone :
    closed l -> (forall x, In x gone -> kept x = false) -> forall x, In x (cascade fuel l gone) -> kept x = false.
Proof using Type.
    intros Hc. apply (cascade_ind (fun x => kept x = false)). intros x g Hx Hg Hr.
    apply refers_with_inv in Hr as (k & y & Hk & Ha & Ht & Hcol & Hy & Hp). apply not_true_iff_false. intros Hkx.
    specialize (Hg y Hy). unfold kept in Hg. by rewrite Hp, (Hc k x (r_id y)) in Hg.
Qed.

Lemma kept_not_among gone x : (forall y, In y gone -> kept y = false) -> kept x = true -> among gone x = false.
Proof using Type.
    intros Hg Hx. apply not_true_iff_false. intros (y & Hy & Ht & Hi)%among_spec. specialize (Hg y Hy). unfold kept in *. congruence.
Qed.

(** The row [y] is the kept row [x], but for columns that referred, by
    [ON DELETE SET NULL], to a row that is not kept: those may have been cleared. *)
Definition forgets (x y : row) : Prop :=
    r_table y = r_table x /\ r_id y = r_id x /\ map fst (r_cols y) = map fst (r_cols x) /\
    forall c, column c y = column c x \/
      column c y = None /\ exists k i, In k foreign_keys /\ fk_action k = SET_NULL /\ fk_table k = r_table x /\ fk_column k = c /\
                                    column c x = Some i /\ keep (fk_parent k) i = false.

Lemma forgets_refl x : forgets x x.
Proof using Type. unfold forgets. auto. Qed.

Lemma forgets_trans x y z : forgets x y -> forgets y z -> forgets x z.
Proof using Type.
    intros (Ht & Hi & Hn & Hc) (Ht' & Hi' & Hn' & Hc'). split_and!; [congruence..|]. intros c.
    destruct (Hc' c) as [->|[-> (k & i & Hk & Ha & Hkt & Hkc & Hcol & Hp)]]; [apply Hc|]. right. split; [done|].
    exists k, i. split_and!; try done; [congruence|]. destruct (Hc c) as [<-|[Hnone _]]; [done|congruence].
Qed.

Lemma forgets_list_refl l : Forall2 forgets l l.
Proof using Type. induction l; constructor; [apply forgets_refl|done]. Qed.

Lemma forgets_list_trans l l' l'' : Forall2 forgets l l' -> Forall2 forgets l' l'' -> Forall2 forgets l l''.
Proof using Type.
    intros H. revert l''. induction H as [|x y l l' Hx _ IH]; intros l'' H'; inversion H'; subst; constructor;
      [by apply (forgets_trans x y)|by apply IH].
Qed.

Lemma nulled_forgets gone x : (forall y, In y gone -> kept y = false) -> forgets x (nulled gone x).
Proof using Type.
    intros Hg. split_and!; [done..| |].
    - unfold nulled. cbn [r_cols]. rewrite map_map. done.
    - intros c. rewrite column_nulled. destruct (clears gone x c) eqn:E; [right|by left]. split; [done|].
      apply clears_spec in E as (k & Hk & Ha & Hc & (Ht & y & Hcol & Hy & Hp)%refers_by_inv). specialize (Hg y Hy). unfold kept in Hg.
      exists k, (r_id y). split_and!; try done; congruence.
Qed.

Lemma kept_rows_forget gone l :
    (forall y, In y gone -> kept y = false) ->
    Forall2 forgets (List.filter kept l)
      (List.filter kept (map (nulled gone) (List.filter (fun x => negb (among gone x)) l))).
Proof using Type.
    intros Hg. induction l as [|x l IH]; cbn [List.filter map]; [constructor|].
    destruct (among gone x) eqn:Ha; cbn [negb map List.filter].
    - destruct (kept x) eqn:Hk; [|exact IH]. by rewrite (kept_not_among gone x Hg Hk) in Ha.
    - change (kept (nulled gone x)) with (kept x). destruct (kept x); [|exact IH].
      constructor; [by apply nulled_forgets|exact IH].
Qed.

(** Where every chosen row may go, nothing that stays is in its way, and the kept rows
    stay, but for cleared references. *)
Lemma delete_where_keeps p s :
    closed (table_rows (working s)) -> unrestricted (table_rows (working s)) ->
    (forall x, In x (table_rows (working s)) -> p x = true -> kept x = false) ->
    exists db, delete_where p s = (Ok tt, Session db (committed s)) /\
      deletion_audits db = deletion_audits (working s) /\ closed (table_rows db) /\ unrestricted (table_rows db) /\
      Forall2 forgets (List.filter kept (table_rows (working s))) (List.filter kept (table_rows db)) /\
      (forall x, In x (table_rows db) -> exists y gone, x = nulled gone y /\ In y (table_rows (working s)) /\ p y = false /\
                 forall z, In z (table_rows (working s)) -> p z = true -> In z gone).
Proof using Type.
    intros Hc Hu Hp. rewrite delete_where_run. cbn zeta. set (l := table_rows (working s)) in *.
    set (gone := cascade (length l) l (List.filter p l)).
    assert (Hg : forall x, In x gone -> kept x = false).
    { apply cascade_spares_kept; [done|]. intros x [Hx Hpx]%filter_In. by apply Hp. }
    destruct (existsb _ l) eqn:E.
    - apply existsb_exists in E as (x & Hx & [_ Hr]%andb_prop). exfalso.
      apply refers_with_inv in Hr as (k & y & Hk & Ha & Ht & Hcol & Hy & Hpar). specialize (Hg y Hy).
      unfold kept in Hg. by rewrite Hpar, (Hu k x (r_id y)) in Hg.
    - assert (Hback : forall x, In x (map (nulled gone) (List.filter (fun x => negb (among gone x)) l)) ->
                      exists y gone, x = nulled gone y /\ In y l /\ p y = false /\ forall z, In z l -> p z = true -> In z gone).
      { intros x (y & <- & [Hy Hn]%filter_In)%in_map_iff.
        assert (Hin : forall z, In z l -> p z = true -> In z gone) by (intros z Hz Hpz; by apply cascade_extends, filter_In).
        exists y, gone. split_and!; try done. destruct (p y) eqn:Hpy; [|done]. by rewrite among_In in Hn by auto. }
      eexists. split; [reflexivity|]. cbn [table_rows deletion_audits with_table_rows]. split_and!; [done| | | |exact Hback].
      + intros k x i Hk Hx Ht Hcol Ha Hkx. apply Hback in Hx as (y & g & -> & Hy & _). apply nulled_column in Hcol. by apply (Hc k y i).
      + intros k x i Hk Hx Ht Hcol Ha. apply Hback in Hx as (y & g & -> & Hy & _). apply nulled_column in Hcol. by apply (Hu k y i).
      + fold l. by apply kept_rows_forget.
Qed.

Context (tenant_id : string).

(** The rows of the tenant, and its own row, go. *)
Definition spares_none (l : list row) : Prop :=
    forall x, In x l -> column "tenant_id" x = Some tenant_id \/ is_the_row "tenants" tenant_id x = true -> kept x = false.

(** What is left of the rows [l] are rows of [l], at most with references cleared. *)
Definition rest_of (l l' : list row) : Prop := forall x, In x l' -> exists y gone, x = nulled gone y /\ In y l.

Lemma delete_tables_keeps : forall counts s,
    closed (table_rows (working s)) -> unrestricted (table_rows (working s)) -> spares_none (table_rows (working s)) ->
    exists db, delete_tables tenant_id counts s = (Ok tt, Session db (committed s)) /\
      deletion_audits db = deletion_audits (working s) /\
      closed (table_rows db) /\ unrestricted (table_rows db) /\ spares_none (table_rows db) /\
      Forall2 forgets (List.filter kept (table_rows (working s))) (List.filter kept (table_rows db)) /\
      (forall x, In x (table_rows db) -> In (r_table x) (map fst (List.filter (fun c => negb (c.2 =? 0)) counts)) ->
                 column "tenant_id" x <> Some tenant_id) /\
      (forall x, In x (table_rows db) -> exists y, r_table y = r_table x /\ In y (table_rows (working s)) /\
                 forall v, column "tenant_id" x = Some v -> column "tenant_id" y = Some v).
Proof using Type.
    induction counts as [|[name n] counts IH]; intros s Hc Hu Hs; cbn [delete_tables map].
    - exists (working s). destruct s. cbn. split_and!; auto; [apply forgets_list_refl|]. intros x Hx. exists x. auto.
    - unfold bind. cbn [List.filter snd]. destruct (n =? 0) eqn:Hn; cbn [negb].
      { exact (IH s Hc Hu Hs). }
      destruct (delete_where_keeps (of_tenant name tenant_id) s Hc Hu) as (db & -> & Ha & Hc' & Hu' & Hf & Hb).
      { intros x Hx [_ Hx'%bool_decide_eq_true]%andb_prop. apply Hs; auto. }
      destruct (IH (Session db (committed s)) Hc' Hu') as (db' & Hrun & Ha' & Hc'' & Hu'' & Hs'' & Hf' & Hgone & Hback).
      { intros x Hx Hor. apply Hb in Hx as (y & g & -> & Hy & _). apply (Hs y Hy).
        destruct Hor as [Hor|Hor]; [left; by apply (nulled_column g)|by right]. }
      exists db'. split_and!; auto; [by rewrite Ha'|exact (forgets_list_trans _ _ _ Hf Hf')| |].
      + intros x Hx. cbn [map fst]. intros [Hin|Hin]; [|by apply Hgone]. intros Hcol.
        destruct (Hback x Hx) as (y & Hty & Hy & Hcy). cbn [working] in Hy. apply Hb in Hy as (z & g & -> & Hz & Hpz & _).
        unfold of_tenant in Hpz. apply Hcy, nulled_column in Hcol. cbn in Hty.
        rewrite Hty, <- Hin, String.eqb_refl, bool_decide_eq_true_2 in Hpz by done. done.
      + intros x Hx. destruct (Hback x Hx) as (y & Hty & Hy & Hcy). cbn [working] in Hy.
        apply Hb in Hy as (z & g & -> & Hz & _). exists z. repeat split; auto. intros v Hv. by apply (nulled_column g), Hcy.
Qed.
End Frame.

(** ** A deletion that succeeds *)

(** No row of the tenant is left, not its own, and no reference to it by any foreign
    key. *)
Definition erased (tenant_id : string) (db : DeletionDB) : Prop :=
  forall x, In x (table_rows db) ->
    (In (r_table x) tables_with_tenant -> column "tenant_id" x <> Some tenant_id) /\ is_the_row "tenants" tenant_id x = false /\
    forall k, In k foreign_keys -> fk_parent k = "tenants" -> fk_table k = r_table x -> column (fk_column k) x <> Some tenant_id.

Definition row_counts_of (tenant_id : string) (db : DeletionDB) : list (string * Z) :=
  map (fun n => (n, _count_rows n tenant_id db)) _tenant_scoped_tables.

Lemma scoped_tables_In name : In name _tenant_scoped_tables <-> In name tables_with_tenant.
Proof. unfold _tenant_scoped_tables. apply isort_In. Qed.

#[local] Arguments delete_where : simpl never.
#[local] Opaque _tenant_scoped_tables tables_with_tenant.

Lemma count_rows_zero name tenant_id db x :
  _count_rows name tenant_id db = 0 -> In x (table_rows db) -> r_table x = name -> column "tenant_id" x <> Some tenant_id.
Proof.
  unfold _count_rows. intros Hz Hx Ht Hc. assert (Hin : In x (List.filter (of_tenant name tenant_id) (table_rows db))).
  { apply filter_In. split; [done|]. unfold of_tenant. by rewrite Ht, String.eqb_refl, bool_decide_eq_true_2. }
  destruct (List.filter _ _); [done|]. cbn in Hz. lia.
Qed.

(** All that is left after the tables' statements has another tenant's id, or none. *)
Lemma tables_erased tenant_id db0 db :
  (forall x, In x (table_rows db) -> In (r_table x) (map fst (List.filter (fun c => negb (c.2 =? 0)) (row_counts_of tenant_id db0))) ->
             column "tenant_id" x <> Some tenant_id) ->
  (forall x, In x (table_rows db) -> exists y, r_table y = r_table x /\ In y (table_rows db0) /\
             forall v, column "tenant_id" x = Some v -> column "tenant_id" y = Some v) ->
  forall x, In x (table_rows db) -> In (r_table x) tables_with_tenant -> column "tenant_id" x <> Some tenant_id.
Proof.
  intros Hgone Hback x Hx Ht Hc. destruct (Z.eqb_spec (_count_rows (r_table x) tenant_id db0) 0) as [Hz|Hz].
  - destruct (Hback x Hx) as (y & Hty & Hy & Hcy). by apply (count_rows_zero _ _ _ y Hz Hy Hty), Hcy.
  - apply (Hgone x Hx); [|done]. apply in_map_iff. exists (r_table x, _count_rows (r_table x) tenant_id db0). split; [done|].
    apply filter_In. cbn. split; [|by apply negb_true_iff, Z.eqb_neq].
    apply in_map_iff. exists (r_table x). split; [done|]. by apply scoped_tables_In.
Qed.

Lemma tenant_row_spec tenant_id db t : tenant_row tenant_id db = Some t -> In t (table_rows db) /\ is_the_row "tenants" tenant_id t = true.
Proof. apply find_first_Some. Qed.

Definition receipt_of (tenant_id slug : string) (db : DeletionDB) : TenantDeletionReceipt :=
  {| tdr_tenant_id := tenant_id; tdr_slug := slug; tdr_row_counts := row_counts_of tenant_id db |}.

Definition audit_of (tenant_id slug reason : string) (operator_id : option string) (db : DeletionDB) : deletion_audit :=
  {| da_resource_id := tenant_id; da_slug := slug; da_reason := reason; da_operator_id := operator_id;
     da_row_counts := row_counts_of tenant_id db |}.

(** The statements on the tables leave the tenant's own row. *)
Lemma delete_tables_leaves_tenant tenant_id t counts : forall s s' u,
  (forall c, In c counts -> c.1 <> "tenants") -> r_table t = "tenants" -> In t (table_rows (working s)) ->
  delete_tables tenant_id counts s = (Ok u, s') -> In t (table_rows (working s')).
Proof.
  induction counts as [|[name n] counts IH]; intros s s' u Hc Ht Hin; cbn [delete_tables]; [by intros [= _ <-]|].
  unfold bind. destruct (n =? 0); [apply IH; auto using in_cons|]. rewrite delete_where_run. cbn zeta.
  destruct (existsb _ _); [done|]. apply IH; [auto using in_cons|done|]. cbn. apply in_map_iff. exists t.
  split; [apply nulled_id; intros k Hk _ Htk; by destruct (tenants_refer_to_nothing k Hk); rewrite Htk|].
  apply filter_In. split; [done|]. apply negb_true_iff, not_true_iff_false. intros (y & Hy & Hty & _)%among_spec. revert Hty.
  rewrite Ht. revert y Hy. apply (cascade_ind (fun y => r_table y <> "tenants")).
  - intros x gone _ _ (k & y & Hk & _ & Hkt & _)%refers_with_inv Hx. apply (tenants_refer_to_nothing k Hk). congruence.
  - intros x [_ [Hn%String.eqb_eq _]%andb_prop]%filter_In Hx. apply (Hc (name, n)); [by left|]. cbn. congruence.
Qed.

(** Deleting the tenant's row clears what still refers to it by [ON DELETE SET NULL]. *)
Lemma reference_cleared gone k y t :
  In k foreign_keys -> fk_action k = SET_NULL -> fk_table k = r_table y -> fk_parent k = r_table t -> In t gone ->
  column (fk_column k) (nulled gone y) <> Some (r_id t).
Proof.
  intros Hk Ha Ht Hp Hin Hc. pose proof (nulled_column _ _ _ _ Hc) as Hy. revert Hc. rewrite column_nulled.
  rewrite (proj2 (clears_spec gone y (fk_column k))); [done|]. exists k. split_and!; try done. by apply (refers_by_intro k gone y t).
Qed.

Lemma tenants_is_not_scoped name : In name _tenant_scoped_tables -> name <> "tenants".
Proof.
  rewrite scoped_tables_In. intros Hn ->.
  assert (H : existsb (String.eqb "tenants") tables_with_tenant = false) by (vm_compute; reflexivity).
  apply not_true_iff_false in H. apply H, existsb_exists. exists "tenants". by rewrite String.eqb_refl.
Qed.

Lemma delete_tenant_erases keep tenant_id slug reason operator_id t s :
  tenant_row tenant_id (working s) = Some t -> column "slug" t = Some slug ->
  closed keep (table_rows (working s)) -> unrestricted keep (table_rows (working s)) ->
  spares_none keep tenant_id (table_rows (working s)) ->
  exists db, delete_tenant tenant_id slug reason operator_id s = (Ok (receipt_of tenant_id slug (working s)), Session db (committed s)) /\
    erased tenant_id db /\
    Forall2 (forgets keep) (List.filter (kept keep) (table_rows (working s))) (List.filter (kept keep) (table_rows db)) /\
    deletion_audits db = deletion_audits (working s) ++ [audit_of tenant_id slug reason operator_id (working s)].
Proof.
  intros Ht Hslug Hc Hu Hs. unfold delete_tenant. run_m. unfold query. run_m. rewrite Ht. cbn. rewrite Hslug. cbn.
  rewrite String.eqb_refl. cbn [negb]. fold (row_counts_of tenant_id (working s)).
  destruct (delete_tables_keeps keep tenant_id (row_counts_of tenant_id (working s)) s Hc Hu Hs)
    as (db1 & Hrun1 & Ha1 & Hc1 & Hu1 & Hs1 & Hf1 & Hg1 & Hb1). rewrite Hrun1.
  apply tenant_row_spec in Ht as [Htin Htrow]. pose proof Htrow as [Htt%String.eqb_eq Hti%String.eqb_eq]%andb_prop.
  assert (Ht1 : In t (table_rows db1)).
  { apply (delete_tables_leaves_tenant _ _ _ _ _ _) with (3 := Htin) (4 := Hrun1); [|done].
    intros c (n & <- & Hn)%in_map_iff. by apply tenants_is_not_scoped. }
  destruct (delete_where_keeps keep (is_the_row "tenants" tenant_id) (Session db1 (committed s)) Hc1 Hu1)
    as (db2 & -> & Ha2 & _ & _ & Hf2 & Hb2).
  { intros x Hx Hi. apply Hs1; auto. }
  unfold write, modify. cbn. eexists. split; [reflexivity|]. cbn. split; [|split; [by apply (forgets_list_trans keep _ _ _ Hf1)|by rewrite Ha2, <- Ha1]].
  intros x Hx. cbn in Hx. destruct (Hb2 x Hx) as (y & g & -> & Hy & Hp & Hall). cbn in Hy.
  assert (Hten : In (r_table (nulled g y)) tables_with_tenant -> column "tenant_id" (nulled g y) <> Some tenant_id).
  { intros Hin Hcol. apply nulled_column in Hcol. by apply (tables_erased tenant_id (working s) db1 Hg1 Hb1 y). }
  split_and!; [exact Hten|exact Hp|]. intros k Hk Hkp Hkt. destruct (keys_to_tenants k Hk Hkp) as [[-> Hin]|Ha].
  - apply Hten. by rewrite <- Hkt.
  - rewrite <- Hti. apply reference_cleared; try done; [by rewrite Htt|]. by apply Hall.
Qed.


(** ** A deletion that fails *)

(** No table is a [CASCADE] parent: the statement on [name] takes its own rows. *)
Definition no_cascade_parent (name : string) : bool :=
  forallb (fun k => negb (bool_decide (fk_action k = CASCADE) && String.eqb (fk_parent k) name)) foreign_keys.

Lemma cascade_none name l fuel gone :
  no_cascade_parent name = true -> (forall x, In x gone -> r_table x = name) -> cascade fuel l gone = gone.
Proof.
  intros Hn Hg. destruct fuel as [|fuel]; cbn [cascade]; [done|]. rewrite filter_none; [done|].
  intros x Hx. apply andb_false_iff. right. apply not_true_iff_false. intros (k & y & Hk & Ha & _ & _ & Hy & Hp)%refers_with_inv.
  unfold no_cascade_parent in Hn. rewrite forallb_forall in Hn. specialize (Hn k Hk).
  rewrite bool_decide_eq_true_2, <- Hp, (Hg y Hy), String.eqb_refl in Hn by done. done.
Qed.

(** A statement on another table, no parent of any, leaves a row that is never cleared. *)
Lemma delete_where_spares name tenant_id s s' u x :
  delete_where (of_tenant name tenant_id) s = (Ok u, s') -> no_cascade_parent name = true ->
  In x (table_rows (working s)) -> r_table x <> name -> never_cleared (r_table x) = true ->
  In x (table_rows (working s')).
Proof.
  rewrite delete_where_run. cbn zeta. intros H Hn Hx Ht Hc. rewrite (cascade_none name) in H; [|done|].
  2: { intros y [_ [?%String.eqb_eq _]%andb_prop]%filter_In. done. }
  destruct (existsb _ _); [done|]. injection H as _ <-. cbn. apply in_map_iff. exists x. split; [by apply nulled_never_cleared|].
  apply filter_In. split; [done|]. apply negb_true_iff, not_true_iff_false. intros (y & Hy & Hty & _)%among_spec.
  apply filter_In in Hy as [_ [?%String.eqb_eq _]%andb_prop]. congruence.
Qed.

(** The statement on a table that holds a row which a row of another table refers to
    by [RESTRICT] is refused. *)
Lemma delete_where_refused name tenant_id k x y s :
  no_cascade_parent name = true -> In k foreign_keys -> fk_action k = RESTRICT -> fk_parent k = name -> fk_table k <> name ->
  In x (table_rows (working s)) -> r_table x = fk_table k -> column (fk_column k) x = Some (r_id y) ->
  In y (table_rows (working s)) -> r_table y = name -> column "tenant_id" y = Some tenant_id ->
  delete_where (of_tenant name tenant_id) s = (Raise IntegrityError, s).
Proof.
  intros Hn Hk Ha Hp Hne Hx Htx Hcol Hy Hty Hten. rewrite delete_where_run. cbn zeta. rewrite (cascade_none name); [|done|].
  2: { intros z [_ [?%String.eqb_eq _]%andb_prop]%filter_In. done. }
  assert (Hin : In y (List.filter (of_tenant name tenant_id) (table_rows (working s)))).
  { apply filter_In. split; [done|]. unfold of_tenant. by rewrite Hty, String.eqb_refl, bool_decide_eq_true_2. }
  assert (H : existsb (fun x0 => negb (among (List.filter (of_tenant name tenant_id) (table_rows (working s))) x0) &&
                refers_with RESTRICT (List.filter (of_tenant name tenant_id) (table_rows (working s))) x0) (table_rows (working s)) = true).
  { apply existsb_exists. exists x. split; [done|]. apply andb_true_iff. split.
    - apply negb_true_iff, not_true_iff_false. intros (z & Hz & Htz & _)%among_spec.
      apply filter_In in Hz as [_ [?%String.eqb_eq _]%andb_prop]. congruence.
    - rewrite <- Ha. apply (refers_with_intro k _ x y); congruence. }
  by rewrite H.
Qed.

(** Where the tables before it take no row of others, a refused statement ends the run. *)
Lemma delete_tables_refused tenant_id name k x y : forall before after s,
  (forall c, In c before -> no_cascade_parent c.1 = true /\ c.1 <> r_table x /\ c.1 <> r_table y) -> (forall c, In c before -> c.1 <> name) ->
  no_cascade_parent name = true -> In k foreign_keys -> fk_action k = RESTRICT -> fk_parent k = name -> fk_table k <> name ->
  never_cleared (r_table x) = true -> never_cleared (r_table y) = true ->
  In x (table_rows (working s)) -> r_table x = fk_table k -> column (fk_column k) x = Some (r_id y) ->
  In y (table_rows (working s)) -> r_table y = name -> column "tenant_id" y = Some tenant_id ->
  forall n, n <> 0 -> exists s', delete_tables tenant_id (before ++ (name, n) :: after) s = (Raise IntegrityError, s').
Proof.
  induction before as [|[c m] before IH]; intros after s Hb Hne Hn Hk Ha Hp Hneq Hcx Hcy Hx Htx Hcol Hy Hty Hten n Hnz;
    cbn [delete_tables app]; unfold bind.
  - rewrite (proj2 (Z.eqb_neq n 0)) by done. eexists. by rewrite (delete_where_refused name tenant_id k x y s) by done.
  - assert (Hrest : forall c0, In c0 before -> no_cascade_parent c0.1 = true /\ c0.1 <> r_table x /\ c0.1 <> r_table y) by (intros; apply Hb; by right).
    assert (Hrest' : forall c0, In c0 before -> c0.1 <> name) by (intros; apply Hne; by right).
    destruct (Hb (c, m)) as (Hnc & Hcx' & Hcy'); [by left|]. cbn [fst] in *. destruct (m =? 0).
    + cbn. by apply IH.
    + destruct (delete_where (of_tenant c tenant_id) s) as [[[]|[]] s1] eqn:E.
      * apply IH; try done; by apply (delete_where_spares c tenant_id s s1 tt).
      * rewrite delete_where_run in E. cbn zeta in E. by destruct (existsb _ _).
      * rewrite delete_where_run in E. cbn zeta in E. by destruct (existsb _ _).
      * by eexists.
Qed.

Lemma delete_tables_committed tenant_id counts db : preserves (committed_is db) (delete_tables tenant_id counts).
Proof.
  induction counts as [|[name n] counts IH]; cbn [delete_tables]; [by auto with preserve|].
  apply preserves_bind; [|by intros]. destruct (n =? 0); [by auto with preserve|]. intros s Hs. rewrite delete_where_run. cbn zeta.
  by destruct (existsb _ _).
Qed.

#[local] Transparent foreign_keys tables_with_tenant _tenant_scoped_tables.

(** The tables whose statements run before the consents'. *)
Definition before_consents : list string :=
  ["acord_forms"; "audit_exports"; "audit_hash_digests"; "audit_logs"; "audit_trail"; "billing_customers"; "billing_invoices";
   "billing_subscriptions"; "carriers"; "certificates_of_insurance"].

Lemma consents_come_eleventh : exists after, _tenant_scoped_tables = before_consents ++ "consent_records" :: after.
Proof. eexists. vm_compute. reflexivity. Qed.

Lemma nothing_cascades_before_consents name :
  In name before_consents -> no_cascade_parent name = true /\ name <> "submission_receipts" /\ name <> "consent_records".
Proof.
  assert (H : forallb (fun n => no_cascade_parent n && negb (String.eqb n "submission_receipts") && negb (String.eqb n "consent_records"))
                before_consents = true) by (vm_compute; reflexivity).
  rewrite forallb_forall in H. intros Hn. specialize (H name Hn).
  apply andb_prop in H as [[-> ?%negb_true_iff%String.eqb_neq]%andb_prop ?%negb_true_iff%String.eqb_neq]. done.
Qed.

Definition receipt_consent_key : foreign_key := fk "submission_receipts" "consent_record_id" "consent_records" RESTRICT.

Lemma receipt_consent_key_In : In receipt_consent_key foreign_keys.
Proof. right. right. by left. Qed.

Lemma never_cleared_consents : never_cleared "consent_records" = true /\ never_cleared "submission_receipts" = true /\
  no_cascade_parent "consent_records" = true.
Proof. vm_compute. done. Qed.

#[local] Opaque foreign_keys tables_with_tenant _tenant_scoped_tables.

(** A refused statement is what the service raises. *)
Lemma delete_tenant_refused tenant_id slug reason operator_id t s e s' :
  tenant_row tenant_id (working s) = Some t -> column "slug" t = Some slug ->
  delete_tables tenant_id (row_counts_of tenant_id (working s)) s = (Raise e, s') ->
  delete_tenant tenant_id slug reason operator_id s = (Raise e, s').
Proof.
  intros Ht Hslug Hrun. unfold delete_tenant. run_m. unfold query. run_m. rewrite Ht. cbn. rewrite Hslug. cbn.
  rewrite String.eqb_refl. cbn [negb]. fold (row_counts_of tenant_id (working s)). by rewrite Hrun.
Qed.

(** C26. The tables are deleted from in alphabetical order, so the consents before the
    receipts that name them, and that key is declared [ON DELETE RESTRICT]: the
    deletion of a tenant one of whose consents a receipt names is refused by the
    database, the request fails with an exception no handler expects, and nothing of
    the tenant is deleted. *)
Theorem tenant_with_receipts_survives operator_id tenant_id reason confirm_slug t consent receipt db :
  valid_request (strip reason) (strip confirm_slug) = true ->
  tenant_row tenant_id db = Some t -> column "slug" t = Some (strip confirm_slug) ->
  In consent (table_rows db) -> r_table consent = "consent_records" -> column "tenant_id" consent = Some tenant_id ->
  In receipt (table_rows db) -> r_table receipt = "submission_receipts" -> column "consent_record_id" receipt = Some (r_id consent) ->
  delete_tenant_endpoint operator_id tenant_id reason confirm_slug (Session db db) = (Raise (PyException "IntegrityError"), Session db db).
Proof.
  intros Hv Ht Hslug Hc Htc Hten Hr Htr Hcol. destruct consents_come_eleventh as [after Hafter].
  set (f := fun n => (n, _count_rows n tenant_id db)).
  assert (Hcounts : row_counts_of tenant_id db = map f before_consents ++ f "consent_records" :: map f after).
  { unfold row_counts_of. by rewrite Hafter, map_app, map_cons. }
  edestruct (delete_tables_refused tenant_id "consent_records" receipt_consent_key receipt consent (map f before_consents) (map f after)
               (Session db db)) with (n := _count_rows "consent_records" tenant_id db) as [s' Hrun].
  all: try done.
  - intros c (n & <- & Hn)%in_map_iff. cbn [fst f]. rewrite Htc, Htr. destruct (nothing_cascades_before_consents n Hn); tauto.
  - intros c (n & <- & Hn)%in_map_iff. by apply nothing_cascades_before_consents.
  - exact receipt_consent_key_In.
  - rewrite Htr. apply never_cleared_consents.
  - rewrite Htc. apply never_cleared_consents.
  - intros Hz. by apply (count_rows_zero _ _ _ consent Hz Hc Htc).
  - fold (f "consent_records") in Hrun. rewrite <- Hcounts in Hrun.
    pose proof (delete_tables_committed tenant_id (row_counts_of tenant_id db) db (Session db db) eq_refl) as Hcom.
    unfold committed_is in Hcom. rewrite Hrun in Hcom. cbn [snd] in Hcom. unfold delete_tenant_endpoint, in_request. rewrite Hv. cbn [negb].
    rewrite (delete_tenant_refused tenant_id (strip confirm_slug) (strip reason) (Some operator_id) t (Session db db) IntegrityError s') by done.
    cbn. by rewrite Hcom.
Qed.

#[local] Transparent foreign_keys tables_with_tenant _tenant_scoped_tables.

Module DemoDeletion.
Definition r (t i : string) (cols : list (string * string)) : row :=
  {| r_table := t; r_id := i; r_cols := map (fun c => (c.1, Some c.2)) cols |}.
Definition acme : row := r "tenants" "T1" [("slug", "acme")].
Definition rows : list row :=
  [acme; r "tenants" "T2" [("slug", "globex")];
   r "suppliers" "S1" [("tenant_id", "T1")]; r "suppliers" "S2" [("tenant_id", "T2")];
   r "consent_records" "C1" [("tenant_id", "T1"); ("supplier_id", "S1"); ("granted_by_user_id", "U1")];
   r "import_jobs" "J1" [("tenant_id", "T1"); ("created_by_user_id", "U1")]; r "import_row_errors" "E1" [("import_job_id", "J1")];
   r "users" "U1" [];
   r "inbound_emails" "M2" [("tenant_id", "T2"); ("draft_supplier_id", "S2")];
   r "cockpit_audit" "K1" [("operator_id", "O1"); ("tenant_id_acted_as", "T1")]].
Definition db : DeletionDB := {| table_rows := rows; deletion_audits := [] |}.
Definition consent : row := r "consent_records" "C1" [("tenant_id", "T1"); ("supplier_id", "S1"); ("granted_by_user_id", "U1")].
Definition receipt : row :=
  r "submission_receipts" "R1" [("tenant_id", "T1"); ("supplier_id", "S1"); ("submission_id", "B1"); ("consent_record_id", "C1")].
Definition db_with_receipt : DeletionDB := {| table_rows := rows ++ [receipt]; deletion_audits := [] |}.

(** What goes: the rows of T1, and the row errors of its import. *)
Definition keep (t i : string) : bool :=
  negb (existsb (fun x => is_the_row t i x) [acme; r "suppliers" "S1" []; r "consent_records" "C1" []; r "import_jobs" "J1" []; r "import_row_errors" "E1" []]).

Example deleted : map r_id (table_rows (working (snd (delete_tenant_endpoint "op" "T1" "contract terminated" " acme " (Session db db)))))
  = ["T2"; "S2"; "U1"; "M2"; "K1"].
Proof. vm_compute. reflexivity. Qed.
Example operator_row_forgets :
  map r_cols (List.filter (fun x => String.eqb (r_table x) "cockpit_audit")
    (table_rows (working (snd (delete_tenant_endpoint "op" "T1" "contract terminated" " acme " (Session db db))))))
  = [[("operator_id", Some "O1"); ("tenant_id_acted_as", None)]].
Proof. vm_compute. reflexivity. Qed.
Example wrong_slug : fst (delete_tenant_endpoint "op" "T1" "contract terminated" "acmee" (Session db db)) = Raise (HTTPException 422 "slug_mismatch").
Proof. vm_compute. reflexivity. Qed.
Example deleted_twice :
  fst (delete_tenant_endpoint "op" "T1" "contract terminated" "acme"
         (snd (delete_tenant_endpoint "op" "T1" "contract terminated" "acme" (Session db db)))) = Raise (HTTPException 404 "tenant_not_found").
Proof. vm_compute. reflexivity. Qed.
End DemoDeletion.

Definition no_refs (l : list row) (p : foreign_key -> row -> string -> bool) : bool :=
  forallb (fun k => forallb (fun x => negb (String.eqb (fk_table k) (r_table x)) ||
                                      match column (fk_column k) x with Some i => p k x i | None => true end) l) foreign_keys.

Lemma no_refs_spec l p : no_refs l p = true ->
  forall k x i, In k foreign_keys -> In x l -> fk_table k = r_table x -> column (fk_column k) x = Some i -> p k x i = true.
Proof.
  unfold no_refs. rewrite forallb_forall. intros H k x i Hk Hx Ht Hc. specialize (H k Hk). rewrite forallb_forall in H.
  specialize (H x Hx). by rewrite Ht, String.eqb_refl, Hc in H.
Qed.


Lemma tenant_with_receipts_survives_witness :
  delete_tenant_endpoint "op" "T1" "contract terminated" "acme" (Session DemoDeletion.db_with_receipt DemoDeletion.db_with_receipt) =
  (Raise (PyException "IntegrityError"), Session DemoDeletion.db_with_receipt DemoDeletion.db_with_receipt).
Proof.
  apply (tenant_with_receipts_survives "op" "T1" "contract terminated" "acme" DemoDeletion.acme DemoDeletion.consent DemoDeletion.receipt).
  1-3, 5-6, 8-9: vm_compute; reflexivity.
  - vm_compute. tauto.
  - vm_compute. tauto.
Defined.
