(* ===== verification/PortalHelpers.v ===== *)
(** * Portal automation: errors and page helpers

    automation/submitters/errors.py, _playwright_helpers.py and
    screenshot_store.py. The browser is third-party code: a class of arbitrary
    answers, each a function of everything that has been asked of it so far. A helper
    is a computation that leaves a trace of the calls it made. *)

From Stdlib Require Import Ascii.
From S2P Require Import Prelude PyStr Json PyTime Encoding Crypto SubmissionModels.

(** ** Errors *)

(** automation/submitters/errors.py, [__all__]. *)
Inductive portal_class : Type :=
| PortalTimeoutError | PortalNetworkError | PortalSelectorDriftError | PortalCaptchaError | PortalAuthError | PortalValidationError.
#[export] Instance portal_class_eq_dec : EqDecision portal_class.
Proof. solve_decision. Defined.

Definition portal_class_name (c : portal_class) : string :=
  match c with
  | PortalTimeoutError => "PortalTimeoutError" | PortalNetworkError => "PortalNetworkError"
  | PortalSelectorDriftError => "PortalSelectorDriftError" | PortalCaptchaError => "PortalCaptchaError"
  | PortalAuthError => "PortalAuthError" | PortalValidationError => "PortalValidationError"
  end.

(** automation/submitters/errors.py:81-124, [PortalTimeoutError]: the codes. *)
Definition code (c : portal_class) : string :=
  match c with
  | PortalTimeoutError => "portal_timeout" | PortalNetworkError => "portal_network"
  | PortalSelectorDriftError => "selector_drift" | PortalCaptchaError => "portal_captcha"
  | PortalAuthError => "portal_auth" | PortalValidationError => "portal_validation"
  end.

(** automation/submitters/errors.py:81-124, [PortalTimeoutError]: the base classes. *)
Definition ancestor (c : portal_class) : exc_class :=
  match c with
  | PortalTimeoutError | PortalNetworkError | PortalSelectorDriftError => PortalTransientError
  | PortalCaptchaError => PortalCaptcha
  | PortalAuthError | PortalValidationError => PortalPermanentError
  end.

Record portal_error : Type := {
  pe_class : portal_class; pe_message : string; pe_user_message : string; pe_details : list (string * json) }.

(** automation/submitters/errors.py:51-66, [_PortalErrorMixin.__init__]. *)
Definition portal_error_of (c : portal_class) (message : string) (user_message : option string) (details : list (string * json)) : portal_error :=
  {| pe_class := c; pe_message := message; pe_user_message := default message (opt_truthy user_message); pe_details := details |}.

(** automation/submitters/errors.py, [_PortalErrorMixin.to_dict]. *)
Definition error_to_dict (e : portal_error) : list (string * json) :=
  [("error", JStr (portal_class_name (pe_class e))); ("message", JStr (pe_message e)); ("context", JObj (pe_details e));
   ("code", JStr (code (pe_class e))); ("user_message", JStr (pe_user_message e)); ("details", JObj (pe_details e))].

(** An exception that is no [OnceError]: its module, its class and its text. *)
Record foreign : Type := { f_module : string; f_name : string; f_message : string }.

Inductive err : Type :=
| Typed (e : portal_error)
| Foreign (f : foreign).

(** The exception as the pipeline sees it. *)
Definition to_exn (e : err) : exn :=
  match e with
  | Typed p => Exn (ancestor (pe_class p)) (pe_message p) (pe_details p)
  | Foreign f => Exn (Other (f_name f)) (f_message f) []
  end.

(** ** The browser *)

Inductive locator : Type :=
| Css (selector : string)
| ByLabel (label : string).

(** The calls made to Playwright and to the screenshot store. *)
Inductive event : Type :=
| StoreInit
| PwStart | ChromiumLaunch (headless : bool) | NewContext | NewPage
| SetNavTimeout (ms : Z) | SetTimeout (ms : Z)
| Goto (url : string) | Count (l : locator) | Handle (l : locator) | Tag (l : locator) | GetAttribute (l : locator) (name : string)
| SetValue (l : locator) (value : string) | SelectOption (l : locator) (value : string)
| Click (l : locator) | WaitNetworkIdle (ms : Z) | ScriptSources | InnerText (l : locator)
| ExpectResponse (fragment : string) (ms : Z)
| TakeScreenshot | Save (path : string)
| CloseContext | CloseBrowser | PwStop.

(** What was called, and whether it returned. *)
Abbreviation trace_t := (list (event * bool)).

(** The browser and the portal behind it: which call raises, and what the others
    answer. *)
Class Browser : Type := {
  fails : trace_t -> event -> option foreign;
  count_answer : trace_t -> locator -> Z;
  handle_answer : trace_t -> locator -> bool;
  tag_answer : trace_t -> locator -> option string;
  attribute_answer : trace_t -> locator -> string -> option string;
  text_answer : trace_t -> locator -> string;
  sources_answer : trace_t -> list string;
  status_answer : trace_t -> string -> Z;
  url_answer : trace_t -> string;
}.

(** One attempt: the calls so far and the misses of the drift tracker. *)
Record attempt : Type := { trace : trace_t; misses : list (string * Z) }.

Abbreviation AM := (M attempt err).

Section Helpers.
Context `{B : Browser} (repr : json -> string).

Definition log (ev : event) (ok : bool) (s : attempt) : attempt := {| trace := trace s ++ [(ev, ok)]; misses := misses s |}.

Definition perform (ev : event) : AM unit :=
  fun s => match fails (trace s) ev with
           | None => (Ok tt, log ev true s)
           | Some f => (Raise (Foreign f), log ev false s)
           end.

Definition count (l : locator) : AM Z := perform (Count l) ;;; reads (fun s => count_answer (trace s) l).
Definition page_url : AM string := reads (fun s => url_answer (trace s)).

Definition portal_raise {A} (c : portal_class) (message : string) (details : list (string * json)) : AM A :=
  raise (Typed (portal_error_of c message None details)).

(** [if o is None: raise c(message)] *)
Definition some_or_raise {A} (o : option A) (c : portal_class) (message : string) (details : list (string * json)) : AM A :=
  match o with Some a => ret a | None => portal_raise c message details end.

(** ** The drift tracker *)

Fixpoint misses_of (selector : string) (m : list (string * Z)) : Z :=
  match m with [] => 0 | (k, n) :: m => if String.eqb k selector then n else misses_of selector m end.

Definition with_misses (f : list (string * Z) -> list (string * Z)) : AM unit :=
  modify (fun s => {| trace := trace s; misses := f (misses s) |}).

Fixpoint set_misses (selector : string) (n : Z) (m : list (string * Z)) : list (string * Z) :=
  match m with
  | [] => [(selector, n)]
  | (k, v) :: m => if String.eqb k selector then (k, n) :: m else (k, v) :: set_misses selector n m
  end.

(** automation/submitters/_playwright_helpers.py, [SelectorDriftTracker.record_hit]. *)
Definition record_hit (selector : string) : AM unit :=
  with_misses (List.filter (fun kv => negb (String.eqb kv.1 selector))).

(** automation/submitters/_playwright_helpers.py, [SelectorDriftTracker.record_miss]. *)
Definition record_miss (selector : string) : AM unit :=
  with_misses (fun m => set_misses selector (misses_of selector m + 1) m).

(** automation/submitters/_playwright_helpers.py, [SelectorDriftTracker.should_trip]. *)
Definition should_trip (threshold : Z) (selector : string) : AM bool :=
  reads (fun s => threshold <=? misses_of selector (misses s)).

(** ** The helpers *)

(** automation/submitters/_playwright_helpers.py, [CAPTCHA_HOST_FRAGMENTS]. *)
Definition CAPTCHA_HOST_FRAGMENTS : list string := ["recaptcha"; "hcaptcha"; "challenges.cloudflare.com"].

(** automation/submitters/_playwright_helpers.py, [CAPTCHA_DOM_SELECTORS]. *)
Definition CAPTCHA_DOM_SELECTORS : list string :=
  ["iframe[src*='recaptcha']"; "iframe[src*='hcaptcha']"; "iframe[src*='challenges.cloudflare.com']"; "div.g-recaptcha";
   "div.h-captcha"; "div.cf-turnstile"; "div[data-sitekey]"].

(** automation/submitters/_playwright_helpers.py, [AUTH_WALL_PATH_FRAGMENTS]. *)
Definition AUTH_WALL_PATH_FRAGMENTS : list string := ["/login"; "/signin"; "/auth"; "session-expired"].

(** automation/submitters/_playwright_helpers.py, [DEFAULT_NETWORK_IDLE_MS]. *)
Definition DEFAULT_NETWORK_IDLE_MS : Z := 1500.

(** automation/submitters/_playwright_helpers.py, [set_react_input]. *)
Definition set_react_input (selector value : string) : AM unit :=
  let l := Css selector in
  let* n := count l in
  (if n =? 0 then portal_raise PortalSelectorDriftError "selector_returned_no_elements" [("selector", JStr selector); ("field", JStr "react_input")]
   else ret tt) ;;;
  perform (Handle l) ;;;
  let* some_handle := reads (fun s => handle_answer (trace s) l) in
  (if some_handle then ret tt else portal_raise PortalSelectorDriftError "selector_returned_no_element_handle" [("selector", JStr selector)]) ;;;
  perform (SetValue l value).

(** automation/submitters/_playwright_helpers.py:151-177, [fill_by_label]: the field
    of the label. *)
Definition field_of_label (label : string) : AM locator :=
  let* n := try_except (count (ByLabel label)) (fun _ => ret 0) in
  if negb (n =? 0) then ret (ByLabel label)
  else
    let label_loc := Css ("label:has-text('" +:+ label +:+ "')") in
    let* m := count label_loc in
    (if m =? 0 then record_miss label ;;; portal_raise PortalSelectorDriftError "label_not_found" [("label", JStr label)] else ret tt) ;;;
    perform (GetAttribute label_loc "for") ;;;
    let* target_id := reads (fun s => attribute_answer (trace s) label_loc "for") in
    match opt_truthy target_id with
    | Some target_id => ret (Css ("#" +:+ target_id))
    | None => record_miss label ;;; portal_raise PortalSelectorDriftError "label_missing_for_attr" [("label", JStr label)]
    end.

(** automation/submitters/_playwright_helpers.py, [fill_by_label]; the submitters pass
    a tracker. *)
Definition fill_by_label (label value : string) : AM unit :=
  let* candidate := field_of_label label in
  record_hit label ;;;
  perform (Tag candidate) ;;;
  let* tag := reads (fun s => tag_answer (trace s) candidate) in
  if String.eqb (upper (default "" tag)) "SELECT" then perform (SelectOption candidate value)
  else
    perform (Handle candidate) ;;;
    let* some_handle := reads (fun s => handle_answer (trace s) candidate) in
    (if some_handle then ret tt else portal_raise PortalSelectorDriftError "element_handle_missing" [("label", JStr label)]) ;;;
    perform (SetValue candidate value).

(** automation/submitters/_playwright_helpers.py, [wait_for_network_idle]. *)
Definition wait_for_network_idle (timeout_ms : Z) : AM unit :=
  try_except (perform (WaitNetworkIdle timeout_ms))
    (fun _ => portal_raise PortalTimeoutError "network_idle_timeout" [("timeout_ms", JInt timeout_ms)]).

(** automation/submitters/_playwright_helpers.py:213-229, [detect_captcha]: the probes
    of the page, where a probe that fails is passed over. *)
Fixpoint probe_selectors (selectors : list string) : AM unit :=
  match selectors with
  | [] => ret tt
  | selector :: selectors =>
      let* n := try_except (count (Css selector)) (fun _ => ret 0) in
      (if 0 <? n then let* url := page_url in portal_raise PortalCaptchaError "captcha_detected" [("selector", JStr selector); ("url", JStr url)]
       else ret tt) ;;;
      probe_selectors selectors
  end.

(** automation/submitters/_playwright_helpers.py:231-244, [detect_captcha]: the
    scripts of the page. *)
Definition probe_scripts : AM unit :=
  let* srcs := try_except (perform ScriptSources ;;; reads (fun s => sources_answer (trace s))) (fun _ => ret []) in
  match find_first (fun src => existsb (fun frag => contains frag src) CAPTCHA_HOST_FRAGMENTS) srcs with
  | Some src => let* url := page_url in portal_raise PortalCaptchaError "captcha_script_loaded" [("script_src", JStr src); ("url", JStr url)]
  | None => ret tt
  end.

(** automation/submitters/_playwright_helpers.py, [detect_captcha]. *)
Definition detect_captcha : AM unit := probe_selectors CAPTCHA_DOM_SELECTORS ;;; probe_scripts.

(** automation/submitters/_playwright_helpers.py, [detect_auth_wall]. *)
Definition detect_auth_wall (expected_path_fragment : string) : AM unit :=
  let* url := page_url in
  match find_first (fun fragment => contains fragment url) AUTH_WALL_PATH_FRAGMENTS with
  | Some fragment => portal_raise PortalAuthError "auth_wall_detected" [("url", JStr url); ("fragment", JStr fragment)]
  | None =>
      if truthy expected_path_fragment && negb (contains expected_path_fragment url)
      then portal_raise PortalAuthError "post_login_url_mismatch" [("url", JStr url); ("expected_fragment", JStr expected_path_fragment)]
      else ret tt
  end.

(** automation/submitters/_playwright_helpers.py, [expect_response_ok]. *)
Definition expect_response_ok (url_fragment : string) (timeout_ms : Z) : AM unit :=
  let* status := try_except (perform (ExpectResponse url_fragment timeout_ms) ;;; reads (fun s => status_answer (trace s) url_fragment))
    (fun _ => portal_raise PortalNetworkError "expected_response_not_received"
                [("url_fragment", JStr url_fragment); ("timeout_ms", JInt timeout_ms)]) in
  if 400 <=? status then portal_raise PortalNetworkError "non_success_status" [("url_fragment", JStr url_fragment); ("status", JInt status)]
  else ret tt.

(** automation/submitters/_playwright_helpers.py, [safe_locator_text], with a tracker. *)
Definition safe_locator_text (threshold : Z) (selector : string) : AM string :=
  let* n := count (Css selector) in
  if n =? 0 then
    let* trip := should_trip threshold selector in
    (if trip then portal_raise PortalSelectorDriftError "selector_drift_trip" [("selector", JStr selector)] else ret tt) ;;;
    record_miss selector ;;;
    portal_raise PortalSelectorDriftError "selector_returned_nothing" [("selector", JStr selector)]
  else
    record_hit selector ;;;
    perform (InnerText (Css selector)) ;;;
    reads (fun s => strip (text_answer (trace s) (Css selector))).

Definition is_missing (value : json) : bool :=
  match value with
  | JNull => true
  | JStr s => negb (truthy (strip s))
  | JList [] => true
  | _ => false
  end.

(** automation/submitters/_playwright_helpers.py, [require_fields]. *)
Definition require_fields (payload : list (string * json)) (required : list string) : AM unit :=
  match List.filter (fun key => is_missing (get_key key payload)) required with
  | [] => ret tt
  | missing => raise (Typed (portal_error_of PortalValidationError "missing_required_fields"
                               (Some ("Missing required fields: " +:+ join ", " missing)) [("missing", JList (map JStr missing))]))
  end.

(** ** The screenshot store *)

Definition slug_char (c : ascii) : bool :=
  is_alnum c || Ascii.eqb c "_" || Ascii.eqb c "." || Ascii.eqb c "-".

(** [re.sub("[^A-Za-z0-9_.-]+", "-", s)] *)
Fixpoint dash_runs (in_run : bool) (s : string) : string :=
  match s with
  | EmptyString => EmptyString
  | String c r => if slug_char c then String c (dash_runs false r)
                  else if in_run then dash_runs true r else String "-" (dash_runs true r)
  end.

(** automation/submitters/screenshot_store.py, [_slug]. *)
Definition _slug (value : string) : string :=
  sor (stake 64 (strip_by (fun c => Ascii.eqb c "-") (dash_runs false value))) "shot".

(** automation/submitters/screenshot_store.py, [LocalScreenshotStore.save]; [ts] is the
    time as digits. *)
Definition save (root ts tenant_id submission_id label : string) : AM string :=
  let path := root +:+ "/" +:+ _slug tenant_id +:+ "/" +:+ _slug submission_id +:+ "/" +:+ ts +:+ "-" +:+ _slug label +:+ ".png" in
  perform (Save path) ;;; ret path.
End Helpers.
