(* ===== verification/Submitters.v ===== *)
(** * Portal automation: the submitters

    automation/base.py and the five submitters of automation/submitters/: one attempt
    to file a submission with a carrier portal, from the required fields to the
    confirmation, with its errors, its screenshots and the browser it starts and
    stops. *)

From Stdlib Require Import Ascii.
From S2P Require Import Prelude PyStr Json PyTime Encoding Crypto SubmissionModels Receipts Pipeline PortalHelpers.

(** ** Amounts *)

(** [a / b] on two positive integers as a float: [m] and [e] of the nearest [m * 2 ^ e]
    with at most 53 bits in [m]. *)
Definition true_divide (a b : Z) : Z * Z :=
  let e0 := Z.log2 a - Z.log2 b - 53 in
  let scaled e := if 0 <=? e then (a, b * 2 ^ e) else (a * 2 ^ (- e), b) in
  let '(n0, d0) := scaled e0 in
  let e := if 2 ^ 53 <=? n0 / d0 then e0 + 1 else e0 in
  let '(n, d) := scaled e in
  (div_half_even n d, e).

(** [f"{x:.2f}"] of the float [m * 2 ^ e], [0 <= m]. *)
Definition two_digits (n : Z) : string := if n <? 10 then "0" +:+ str_of_Z n else str_of_Z n.
Definition format_2f (x : Z * Z) : string :=
  let '(m, e) := x in
  let n := if 0 <=? e then m * 2 ^ e * 100 else div_half_even (m * 100) (2 ^ (- e)) in
  str_of_Z (n / 100) +:+ "." +:+ two_digits (n mod 100).

(** automation/submitters/amtrust.py:108, [AmTrustSubmitter._fill_form]:
    [f"{cents / 100:.2f}"]; [None] is the [OverflowError] of a quotient above every
    float. *)
Definition dollars (cents : Z) : option string :=
  if cents =? 0 then Some "0.00"
  else
    let x := true_divide (Z.abs cents) 100 in
    if (0 <=? x.2) && (2 ^ 1024 <=? x.1 * 2 ^ x.2) then None
    else Some ((if cents <? 0 then "-" else "") +:+ format_2f x).

(** ** The submitters *)

(** The attributes and the methods a submitter class sets; [_fills] is the list its
    [_fill_form] builds. *)
Record Submitter `{B : Browser} : Type := {
  PLATFORM : PortalPlatform;
  URL_ENV_VAR : string;
  USERNAME_ENV_VAR : string;
  PASSWORD_ENV_VAR : string;
  SMOKE_PROBE_NEEDLE : string;
  REQUIRED_FIELDS : list string;
  FIELD_MAP : list (string * string);
  _login : string -> string -> string -> AM unit;
  _navigate_to_new_submission : AM unit;
  _fills : list (string * json) -> AM (list (string * string));
  _attach_files : list (string * json) -> AM unit;
  _submit_and_capture : AM (string * list (string * json));
}.

Section Submitters.
Context `{B : Browser}.
(** [repr] of a value, and [str] of a float, a list or a dict. *)
Context (repr repr_other : json -> string).
Context (uuid_hex : string).

(** automation/submitters/amtrust.py, [AmTrustSubmitter._login]: the same in the five
    modules but for the message. *)
Definition login (user_message url username password : string) : AM unit :=
  perform (Goto url) ;;;
  detect_captcha ;;;
  try_except
    (set_react_input "input[name='username']" username ;;; set_react_input "input[name='password']" password)
    (fun e => match e with
              | Typed p =>
                  if bool_decide (pe_class p = PortalSelectorDriftError)
                  then raise (Typed (portal_error_of PortalAuthError "login_form_unavailable" (Some user_message)
                                       [("cause", JStr (exn_str repr (to_exn e)))]))
                  else raise e
              | Foreign _ => raise e
              end) ;;;
  perform (Click (Css "button[type='submit']")) ;;;
  wait_for_network_idle DEFAULT_NETWORK_IDLE_MS ;;;
  detect_auth_wall "dashboard".

(** automation/submitters/amtrust.py, [AmTrustSubmitter._navigate_to_new_submission]. *)
Definition navigate_to_new_submission : AM unit :=
  let link := Css "a[data-action='new-submission']" in
  let* n := count link in
  (if n =? 0 then portal_raise PortalSelectorDriftError "new_submission_link_missing" [("selector", JStr "a[data-action='new-submission']")]
   else ret tt) ;;;
  perform (Click link) ;;;
  wait_for_network_idle DEFAULT_NETWORK_IDLE_MS ;;;
  detect_captcha.

(** [re.compile("^[A-Z]+-[0-9]{4}-[A-Z0-9]+$").match(s)] on a stripped [s]. *)
Definition is_ref_char (c : ascii) : bool := is_upper c || is_digit c.
Definition confirmation_ref (s : string) : bool :=
  match split_char "-" s with
  | [prefix; year; tail] =>
      truthy prefix && sall is_upper prefix && (slen year =? 4) && sall is_digit year && truthy tail && sall is_ref_char tail
  | _ => false
  end.

Definition submit_button : locator := Css "button[data-action='submit-application']".

(** automation/submitters/amtrust.py, [AmTrustSubmitter._submit_and_capture]. *)
Definition submit_and_capture (malformed_details : string -> list (string * json)) : AM (string * list (string * json)) :=
  perform (Click submit_button) ;;;
  wait_for_network_idle DEFAULT_NETWORK_IDLE_MS ;;;
  detect_captcha ;;;
  let ref_el := Css "[data-testid='confirmation-reference']" in
  let* n := count ref_el in
  (if n =? 0 then portal_raise PortalSelectorDriftError "confirmation_reference_missing"
                    [("selector", JStr "[data-testid='confirmation-reference']")]
   else ret tt) ;;;
  perform (InnerText ref_el) ;;;
  let* reference := reads (fun s => strip (text_answer (trace s) ref_el)) in
  (if confirmation_ref reference then ret tt
   else portal_raise PortalValidationError "confirmation_reference_malformed" (malformed_details reference)) ;;;
  let* url := page_url in
  ret (reference, [("url", JStr url); ("idempotency_token", JStr uuid_hex)]).

Definition with_pattern (reference : string) : list (string * json) :=
  [("reference", JStr reference); ("pattern", JStr "^[A-Z]+-\d{4}-[A-Z0-9]+$")].
Definition reference_only (reference : string) : list (string * json) := [("reference", JStr reference)].

(** What [int] raises on a value it refuses. *)
Definition int_error (v : json) : err :=
  Foreign match v with
  | JStr _ => {| f_module := "builtins"; f_name := "ValueError"; f_message := "invalid literal for int() with base 10: " +:+ repr v |}
  | JFloat SpecFloat.S754_nan => {| f_module := "builtins"; f_name := "ValueError"; f_message := "cannot convert float NaN to integer" |}
  | JFloat _ => {| f_module := "builtins"; f_name := "OverflowError"; f_message := "cannot convert float infinity to integer" |}
  | JObj _ => {| f_module := "builtins"; f_name := "TypeError"; f_message := "int() argument must be a string, a bytes-like object or a real number, not 'dict'" |}
  | _ => {| f_module := "builtins"; f_name := "TypeError"; f_message := "int() argument must be a string, a bytes-like object or a real number, not 'list'" |}
  end.

(** automation/submitters/amtrust.py:107-108, [AmTrustSubmitter._fill_form]: the premium
    in dollars. *)
Definition premium_dollars (payload : list (string * json)) : AM string :=
  match get_key "premium_cents" payload with
  | JNull => ret ""
  | v =>
      match json_int v with
      | None => raise (int_error v)
      | Some cents =>
          match dollars cents with
          | Some s => ret s
          | None => raise (Foreign {| f_module := "builtins"; f_name := "OverflowError"; f_message := "integer division result too large for a float" |})
          end
      end
  end.

(** [str(payload.get(key, ""))] *)
Definition text_of (payload : list (string * json)) (key : string) : string :=
  match assoc key payload with Some v => py_str repr_other v | None => "" end.

(** [if payload.get(key): fills.append((key, str(payload[key])))] *)
Definition optional_fill (payload : list (string * json)) (key : string) : list (string * string) :=
  if jtruthy (get_key key payload) then [(key, text_of payload key)] else [].

Definition type_name (v : json) : string :=
  match v with
  | JNull => "NoneType" | JBool _ => "bool" | JInt _ => "int" | JFloat _ => "float" | JStr _ => "str" | JList _ => "list" | JObj _ => "dict"
  end.

(** [",".join(l)]: the item that is no string, by its place, is what it raises. *)
Fixpoint strings_of (i : Z) (l : list json) : result foreign (list string) :=
  match l with
  | [] => Ok []
  | JStr s :: l => match strings_of (i + 1) l with Ok r => Ok (s :: r) | Raise f => Raise f end
  | v :: _ => Raise {| f_module := "builtins"; f_name := "TypeError";
                       f_message := "sequence item " +:+ str_of_Z i +:+ ": expected str instance, " +:+ type_name v +:+ " found" |}
  end.

(** [",".join(v) if isinstance(v, list | tuple) else str(v)] of [payload.get(key) or []]. *)
Definition states_text (payload : list (string * json)) (key : string) : AM string :=
  match jor (get_key key payload) (JList []) with
  | JList l => match strings_of 0 l with Ok r => ret (join "," r) | Raise f => raise (Foreign f) end
  | v => ret (py_str repr_other v)
  end.

(** automation/submitters/amtrust.py:121-125, [AmTrustSubmitter._fill_form]: the loop. *)
Fixpoint fill_all (field_map : list (string * string)) (fills : list (string * string)) : AM unit :=
  match fills with
  | [] => ret tt
  | (canonical, value) :: fills =>
      (if truthy value then
         match find_first (fun kv => String.eqb kv.1 canonical) field_map with
         | Some (_, label) => fill_by_label label value
         | None => raise (Foreign {| f_module := "builtins"; f_name := "KeyError"; f_message := repr (JStr canonical) |})
         end
       else ret tt) ;;;
      fill_all field_map fills
  end.

(** automation/submitters/amtrust.py, [AmTrustSubmitter._fill_form]: a tracker of its
    own, the list, the loop. *)
Definition _fill_form (sub : Submitter) (payload : list (string * json)) : AM unit :=
  with_misses (fun _ => []) ;;;
  let* fills := _fills sub payload in
  fill_all (FIELD_MAP sub) fills.

Definition no_attachments (payload : list (string * json)) : AM unit := ret tt.

Definition AmTrust_fields : list (string * string) :=
  [("named_insured", "Named Insured"); ("fein", "FEIN"); ("producer_code", "Producer Code"); ("effective_date", "Effective Date");
   ("line_of_business", "Line of Business"); ("premium", "Annual Premium"); ("state", "Risk State")].

(** automation/submitters/amtrust.py:105-119, [AmTrustSubmitter._fill_form]. *)
Definition AmTrust_fills (payload : list (string * json)) : AM (list (string * string)) :=
  let* premium := premium_dollars payload in
  ret ([("named_insured", text_of payload "named_insured"); ("fein", text_of payload "fein");
        ("effective_date", text_of payload "effective_date"); ("line_of_business", text_of payload "line_of_business");
        ("premium", premium)] ++ optional_fill payload "producer_code" ++ optional_fill payload "state").

(** automation/submitters/amtrust.py, [AmTrustSubmitter]. *)
Definition AmTrustSubmitter : Submitter :=
  {| PLATFORM := AMTRUST; URL_ENV_VAR := "PORTAL_AMTRUST_URL"; USERNAME_ENV_VAR := "AMTRUST_USERNAME"; PASSWORD_ENV_VAR := "AMTRUST_PASSWORD";
     SMOKE_PROBE_NEEDLE := "AmTrust";
     REQUIRED_FIELDS := ["named_insured"; "fein"; "effective_date"; "premium_cents"; "line_of_business"];
     FIELD_MAP := AmTrust_fields;
     _login := login "AmTrust login form did not render."; _navigate_to_new_submission := navigate_to_new_submission;
     _fills := AmTrust_fills;
     _attach_files := no_attachments; _submit_and_capture := submit_and_capture with_pattern |}.

Definition Sircon_fields : list (string * string) :=
  [("legal_name", "Producer Legal Name"); ("ein", "Tax ID (EIN)"); ("npn", "NPN"); ("license_states", "Requested License States");
   ("agency_name", "Agency Name")].

(** automation/submitters/sircon.py, [SirconSubmitter._fill_form]. *)
Definition Sircon_fills (payload : list (string * json)) : AM (list (string * string)) :=
  let* states := states_text payload "license_states" in
  ret ([("legal_name", text_of payload "legal_name"); ("ein", text_of payload "ein"); ("npn", text_of payload "npn");
        ("license_states", states)] ++ optional_fill payload "agency_name").

(** automation/submitters/sircon.py, [SirconSubmitter]. *)
Definition SirconSubmitter : Submitter :=
  {| PLATFORM := VERTAFORE_SIRCON; URL_ENV_VAR := "PORTAL_SIRCON_URL"; USERNAME_ENV_VAR := "SIRCON_USERNAME"; PASSWORD_ENV_VAR := "SIRCON_PASSWORD";
     SMOKE_PROBE_NEEDLE := "Sircon"; REQUIRED_FIELDS := ["legal_name"; "ein"; "npn"; "license_states"];
     FIELD_MAP := Sircon_fields;
     _login := login "Sircon login form did not render."; _navigate_to_new_submission := navigate_to_new_submission;
     _fills := Sircon_fills;
     _attach_files := no_attachments; _submit_and_capture := submit_and_capture with_pattern |}.

Definition Markel_fields : list (string * string) :=
  [("named_insured", "Insured Legal Name"); ("fein", "Tax ID (FEIN)"); ("agency_code", "Agency Code"); ("effective_date", "Policy Effective Date");
   ("line_of_business", "Product Line"); ("premium", "Estimated Premium"); ("target_states", "States")].

(** automation/submitters/markel.py, [MarkelSubmitter._fill_form]. *)
Definition Markel_fills (payload : list (string * json)) : AM (list (string * string)) :=
  let* premium := premium_dollars payload in
  let* states := states_text payload "target_states" in
  ret ([("named_insured", text_of payload "named_insured"); ("fein", text_of payload "fein");
        ("effective_date", text_of payload "effective_date"); ("line_of_business", text_of payload "line_of_business");
        ("premium", premium); ("target_states", states)] ++ optional_fill payload "agency_code").

(** automation/submitters/markel.py, [MarkelSubmitter]. *)
Definition MarkelSubmitter : Submitter :=
  {| PLATFORM := MARKEL; URL_ENV_VAR := "PORTAL_MARKEL_URL"; USERNAME_ENV_VAR := "MARKEL_USERNAME"; PASSWORD_ENV_VAR := "MARKEL_PASSWORD";
     SMOKE_PROBE_NEEDLE := "Markel";
     REQUIRED_FIELDS := ["named_insured"; "fein"; "effective_date"; "premium_cents"; "line_of_business"; "target_states"];
     FIELD_MAP := Markel_fields;
     _login := login "Markel login form did not render."; _navigate_to_new_submission := navigate_to_new_submission;
     _fills := Markel_fills;
     _attach_files := no_attachments; _submit_and_capture := submit_and_capture reference_only |}.

Definition AppliedEpic_fields : list (string * string) :=
  [("named_insured", "Account Name"); ("account_number", "Account Number"); ("fein", "FEIN"); ("effective_date", "Effective Date");
   ("line_of_business", "Line of Business"); ("premium", "Premium"); ("producer", "Producer")].

(** automation/submitters/applied_epic.py, [AppliedEpicSubmitter._fill_form]. *)
Definition AppliedEpic_fills (payload : list (string * json)) : AM (list (string * string)) :=
  let* premium := premium_dollars payload in
  ret ([("named_insured", text_of payload "named_insured"); ("account_number", text_of payload "account_number");
        ("fein", text_of payload "fein"); ("effective_date", text_of payload "effective_date");
        ("line_of_business", text_of payload "line_of_business"); ("premium", premium)] ++ optional_fill payload "producer").

(** automation/submitters/applied_epic.py, [AppliedEpicSubmitter]. *)
Definition AppliedEpicSubmitter : Submitter :=
  {| PLATFORM := APPLIED_EPIC; URL_ENV_VAR := "PORTAL_APPLIED_EPIC_URL"; USERNAME_ENV_VAR := "APPLIED_EPIC_USERNAME";
     PASSWORD_ENV_VAR := "APPLIED_EPIC_PASSWORD"; SMOKE_PROBE_NEEDLE := "Applied Epic";
     REQUIRED_FIELDS := ["named_insured"; "account_number"; "fein"; "effective_date"; "premium_cents"; "line_of_business"];
     FIELD_MAP := AppliedEpic_fields;
     _login := login "Applied Epic login form did not render."; _navigate_to_new_submission := navigate_to_new_submission;
     _fills := AppliedEpic_fills;
     _attach_files := no_attachments; _submit_and_capture := submit_and_capture reference_only |}.

Definition AMS360_fields : list (string * string) :=
  [("named_insured", "Insured Name"); ("fein", "Tax ID"); ("ams360_agency_code", "Agency Code"); ("effective_date", "Effective Date");
   ("line_of_business", "Line of Business"); ("premium", "Annualized Premium")].

(** automation/submitters/vertafore_ams360.py, [VertaforeAMS360Submitter._fill_form]. *)
Definition AMS360_fills (payload : list (string * json)) : AM (list (string * string)) :=
  let* premium := premium_dollars payload in
  ret [("named_insured", text_of payload "named_insured"); ("fein", text_of payload "fein");
       ("ams360_agency_code", text_of payload "ams360_agency_code"); ("effective_date", text_of payload "effective_date");
       ("line_of_business", text_of payload "line_of_business"); ("premium", premium)].

(** automation/submitters/vertafore_ams360.py, [VertaforeAMS360Submitter]. *)
Definition VertaforeAMS360Submitter : Submitter :=
  {| PLATFORM := VERTAFORE_AMS360; URL_ENV_VAR := "PORTAL_VERTAFORE_AMS360_URL"; USERNAME_ENV_VAR := "VERTAFORE_AMS360_USERNAME";
     PASSWORD_ENV_VAR := "VERTAFORE_AMS360_PASSWORD"; SMOKE_PROBE_NEEDLE := "AMS360";
     REQUIRED_FIELDS := ["named_insured"; "fein"; "ams360_agency_code"; "effective_date"; "premium_cents"; "line_of_business"];
     FIELD_MAP := AMS360_fields;
     _login := login "Vertafore AMS360 login form did not render."; _navigate_to_new_submission := navigate_to_new_submission;
     _fills := AMS360_fills;
     _attach_files := no_attachments; _submit_and_capture := submit_and_capture reference_only |}.

(** automation/submitters/__init__.py, [get_submitter]: the registry after the modules
    have been imported. *)
Definition get_submitter (platform : PortalPlatform) : option Submitter :=
  match platform with
  | AMTRUST => Some AmTrustSubmitter
  | APPLIED_EPIC => Some AppliedEpicSubmitter
  | MARKEL => Some MarkelSubmitter
  | VERTAFORE_SIRCON => Some SirconSubmitter
  | VERTAFORE_AMS360 => Some VertaforeAMS360Submitter
  | _ => None
  end.
End Submitters.

(** ** One attempt *)

(** automation/base.py, [SubmitterOutcome]. *)
Record SubmitterOutcome : Type := {
  success : bool; portal_reference : option string; outcome_payload : list (string * json); screenshot_url : option string }.

(** [m] with its exception as a value. *)
Definition attempted {S E A} (m : M S E A) : M S E (result E A) :=
  fun s => match m s with (r, s') => (Ok r, s') end.

Section Attempt.
Context `{B : Browser} (sub : Submitter).
(** The environment of the process, the root of the screenshots, the time of each one
    as digits, and [completed_at]. *)
Context (environ : string -> option string) (root : string) (stamp : trace_t -> string) (now_iso : trace_t -> string).
(** What the submission is about; the model of portals has no [submission_url]. *)
Context (tenant_id : string) (portal_url : option string) (payload : list (string * json)).
Context (repr repr_other : json -> string).

(** automation/base.py, [PlaywrightSubmitter._resolve_url]. *)
Definition _resolve_url : AM string :=
  some_or_raise (or_else (opt_truthy (environ (URL_ENV_VAR sub))) (opt_truthy portal_url))
    PortalValidationError "portal_url_not_configured" [("env_var", JStr (URL_ENV_VAR sub))].

(** automation/base.py, [PlaywrightSubmitter._resolve_credentials]. *)
Definition _resolve_credentials : AM (string * string) :=
  let username := default "" (environ (USERNAME_ENV_VAR sub)) in
  let password := default "" (environ (PASSWORD_ENV_VAR sub)) in
  if truthy username && truthy password then ret (username, password)
  else raise (Typed (portal_error_of PortalAuthError "credentials_not_configured"
                       (Some ("Set " +:+ USERNAME_ENV_VAR sub +:+ " and " +:+ PASSWORD_ENV_VAR sub +:+ " in the environment."))
                       [("username_env", JStr (USERNAME_ENV_VAR sub)); ("password_env", JStr (PASSWORD_ENV_VAR sub))])).

Definition headless : bool :=
  let h := lower (default "true" (environ "PLAYWRIGHT_HEADLESS")) in
  negb (existsb (String.eqb h) ["0"; "false"; "no"]).

(** automation/base.py, [PlaywrightSubmitter._launch_browser]. *)
Definition _launch_browser : AM unit :=
  perform PwStart ;;;
  try_except (perform (ChromiumLaunch headless) ;;; perform NewContext ;;; perform NewPage)
    (fun e => perform PwStop ;;; raise e).

(** automation/base.py:117-118, [NAV_TIMEOUT_MS]. *)
Definition NAV_TIMEOUT_MS : Z := 30000.
Definition ACTION_TIMEOUT_MS : Z := 10000.

(** automation/base.py, [PlaywrightSubmitter._configure_timeouts]. *)
Definition _configure_timeouts : AM unit :=
  perform (SetNavTimeout NAV_TIMEOUT_MS) ;;; perform (SetTimeout ACTION_TIMEOUT_MS).

Definition swallow (m : AM unit) : AM unit := try_except m (fun _ => ret tt).

(** automation/base.py, [PlaywrightSubmitter._teardown_browser]. *)
Definition _teardown_browser : AM unit :=
  swallow (perform CloseContext) ;;; swallow (perform CloseBrowser) ;;; swallow (perform PwStop).

(** [self.payload.get("submission_id") or "ad-hoc"] *)
Definition submission_id : string := py_str repr_other (jor (get_key "submission_id" payload) (JStr "ad-hoc")).

(** automation/base.py, [PlaywrightSubmitter._capture_screenshot]. *)
Definition _capture_screenshot (label : string) : AM string :=
  perform TakeScreenshot ;;;
  let* ts := reads (fun s => stamp (trace s)) in
  save root ts tenant_id submission_id label.

(** automation/base.py, [PlaywrightSubmitter._safe_capture_screenshot]. *)
Definition _safe_capture_screenshot (label : string) : AM (option string) :=
  try_except (let* path := _capture_screenshot label in ret (Some path)) (fun _ => ret None).

(** automation/base.py:182-188, [PlaywrightSubmitter._run_sync_pipeline]: up to the
    filled form. *)
Definition fill_portal (url username password : string) : AM unit :=
  _configure_timeouts ;;;
  _login sub url username password ;;;
  _navigate_to_new_submission sub ;;;
  _fill_form repr sub payload ;;;
  _attach_files sub payload.

(** automation/base.py:182-211, [PlaywrightSubmitter._run_sync_pipeline]: the steps
    with the browser. *)
Definition file_submission (url username password : string) : AM SubmitterOutcome :=
  fill_portal url username password ;;;
  let* (reference, metadata) := _submit_and_capture sub in
  let* screenshot_path := _capture_screenshot "confirmation" in
  let* completed_at := reads (fun s => now_iso (trace s)) in
  ret {| success := true; portal_reference := Some reference; screenshot_url := Some screenshot_path;
         outcome_payload := [("submission_reference", JStr reference); ("screenshot_path", JStr screenshot_path);
                             ("completed_at", JStr completed_at); ("portal_metadata", JObj metadata);
                             ("portal", JStr (platform_value (PLATFORM sub)))] |}.

(** automation/base.py:212-249, [PlaywrightSubmitter._run_sync_pipeline]: the handlers;
    [launched] says whether there is a page to take a picture of. *)
Definition handle_failure {A} (launched : bool) (e : err) : AM A :=
  match e with
  | Typed p =>
      (if launched then _safe_capture_screenshot "failure" else ret None) ;;; raise (Typed p)
  | Foreign f =>
      (if launched then _safe_capture_screenshot "unhandled" else ret None) ;;;
      if contains "playwright" (f_module f) && contains "Timeout" (f_name f)
      then portal_raise PortalTimeoutError "playwright_timeout" [("cause", JStr (f_message f))]
      else portal_raise PortalNetworkError "unhandled_playwright_error" [("cause", JStr (f_message f)); ("error_type", JStr (f_name f))]
  end.

(** automation/base.py, [PlaywrightSubmitter._run_sync_pipeline]. *)
Definition _run_sync_pipeline : AM SubmitterOutcome :=
  require_fields payload (REQUIRED_FIELDS sub) ;;;
  let* url := _resolve_url in
  let* (username, password) := _resolve_credentials in
  perform StoreInit ;;;
  let* launched := attempted _launch_browser in
  match launched with
  | Raise e => handle_failure false e
  | Ok _ =>
      let* r := attempted (try_except (file_submission url username password) (handle_failure true)) in
      _teardown_browser ;;;
      match r with Ok o => ret o | Raise e => raise e end
  end.

(** automation/base.py, [PlaywrightSubmitter.submit]: the attempt as the pipeline sees
    it, with the trace of its calls; what was asked of the portal before is [before]. *)
Definition submit (before : trace_t) : result exn (option outcome) * trace_t :=
  let '(r, s) := _run_sync_pipeline {| trace := before; misses := [] |} in
  (match r with
   | Ok o =>
       Ok (Some {| dataclass_fields :=
                     Some [("success", JBool (success o));
                           ("portal_reference", match portal_reference o with Some x => JStr x | None => JNull end);
                           ("result_payload", JObj (outcome_payload o));
                           ("screenshot_url", match screenshot_url o with Some x => JStr x | None => JNull end)];
                   attr_result := None; attr_dict := None |})
   | Raise e => Raise (to_exn e)
   end, trace s).

(** ** The smoke test *)

(** automation/base.py, [PlaywrightSubmitter._smoke_test]: [http_get] is the status and
    the text of an answer of httpx, [None] an exception. *)
Definition _smoke_test (http_get : string -> option (Z * string)) (s : attempt) : bool :=
  match _resolve_url s with
  | (Raise _, _) => false
  | (Ok url, _) =>
      match http_get url with
      | None => false
      | Some (status_code, text) =>
          if negb ((200 <=? status_code) && (status_code <? 400)) then false
          else
            let needle := SMOKE_PROBE_NEEDLE sub in
            negb (truthy needle && negb (contains (lower needle) (lower text)))
      end
  end.
End Attempt.
