(* ===== verification/SubmitterTheorems.v ===== *)
(** * Portal automation: theorems

    What one attempt does to the portal and to the browser: what is typed before the
    submit button is pressed, how often it is pressed, that the browser is stopped,
    and which exceptions leave. *)

From Stdlib Require Import Ascii.
From S2P Require Import Prelude PyStr Json PyTime Encoding Crypto SubmissionModels Receipts Pipeline PortalHelpers Submitters.

(** ** What a computation adds to the trace *)

Definition value_typed (e : event * bool) : list string :=
  match e.1 with SetValue _ v | SelectOption _ v => [v] | _ => [] end.
(** The values entered into the page, in order. *)
Definition typed (t : trace_t) : list string := flat_map value_typed t.

Definition is_submit (e : event * bool) : bool :=
  match e.1 with Click (Css s) => String.eqb s "button[data-action='submit-application']" | _ => false end.
Definition is_start (e : event * bool) : bool := match e with (PwStart, true) => true | _ => false end.
Definition is_stop (e : event * bool) : bool := match e.1 with PwStop => true | _ => false end.

Definition is_prefix {A} (a b : list A) : Prop := exists c, b = a ++ c.

Section Traces.
Context `{B : Browser}.

(** [m] presses no submit button, starts and stops no browser, and types the values
    [vs]: all of them when it returns, and none but the first ones when it raises. *)
Definition types {A} (vs : list string) (m : AM A) : Prop :=
    forall s r s', m s = (r, s') ->
      exists l, trace s' = trace s ++ l /\ forallb (fun e => negb (is_submit e) && negb (is_start e) && negb (is_stop e)) l = true /\
        is_prefix (typed l) vs /\ (match r with Ok _ => typed l = vs | Raise _ => True end).

Definition no_typing (ev : event) : bool :=
    match ev with
    | SetValue _ _ | SelectOption _ _ | PwStart | PwStop => false
    | Click (Css s) => negb (String.eqb s "button[data-action='submit-application']")
    | _ => true
    end.

Lemma types_ret {A} (a : A) : types [] (ret a).
Proof using Type. intros s r s' [= <- <-]. exists []. rewrite app_nil_r. repeat split. by exists []. Qed.
Lemma types_raise {A} vs e : types (A := A) vs (raise e).
Proof using Type. intros s r s' [= <- <-]. exists []. rewrite app_nil_r. repeat split. by exists vs. Qed.
Lemma types_reads {A} (f : attempt -> A) : types [] (reads f).
Proof using Type. intros s r s' [= <- <-]. exists []. rewrite app_nil_r. repeat split. by exists []. Qed.
Lemma types_misses f : types [] (with_misses f).
Proof using Type. intros s r s' [= <- <-]. exists []. rewrite app_nil_r. repeat split. by exists []. Qed.

Lemma types_perform ev : no_typing ev = true -> types [] (perform ev).
Proof using Type.
    intros Hn s r s' H. unfold perform in H. exists [(ev, match fails (trace s) ev with None => true | _ => false end)].
    assert (Hq : forall b, negb (is_submit (ev, b)) && negb (is_start (ev, b)) && negb (is_stop (ev, b)) = true /\ typed [(ev, b)] = []).
    { intros b. destruct ev; try done. destruct l; [|done]. cbn in *. by rewrite Hn. }
    destruct (fails _ _); injection H as <- <-; cbn [forallb log trace]; destruct (Hq true), (Hq false) as [Hf Ht]; (split; [done|]);
      rewrite ?Ht, ?Hf, ?H, ?H0; repeat split; by exists [].
Qed.

Lemma types_enter ev v : value_typed (ev, true) = [v] -> types [v] (perform ev).
Proof using Type.
    intros Hv s r s' H. unfold perform in H. exists [(ev, match fails (trace s) ev with None => true | _ => false end)].
    destruct ev; try done; injection Hv as <-; destruct (fails _ _); injection H as <- <-; repeat split; by exists [].
Qed.

Lemma typed_app a b : typed (a ++ b) = typed a ++ typed b.
Proof using Type. apply flat_map_app. Qed.

Lemma types_bind {A C} vs ws (m : AM A) (k : A -> AM C) :
    types vs m -> (forall a, types ws (k a)) -> types (vs ++ ws) (bind m k).
Proof using Type.
    intros Hm Hk s r s' H. unfold bind in H. destruct (m s) as [[a|e] s1] eqn:Hrun.
    - destruct (Hm s (Ok a) s1 Hrun) as (l & Hl & Hq & _ & Ht). destruct (Hk a s1 r s' H) as (l2 & Hl2 & Hq2 & [c Hp] & Ht2).
      exists (l ++ l2). rewrite Hl2, Hl, <- app_assoc, typed_app, Ht, forallb_app, Hq, Hq2. repeat split.
      + exists c. by rewrite <- app_assoc, <- Hp.
      + destruct r; [by rewrite Ht2|done].
    - injection H as <- <-. destruct (Hm s (Raise e) s1 Hrun) as (l & Hl & Hq & [c Hp] & _). exists l. repeat split; try done.
      exists (c ++ ws). by rewrite Hp, <- app_assoc.
Qed.

(** [types_bind] where one side types nothing. *)
Lemma types_then {A C} ws (m : AM A) (k : A -> AM C) : types [] m -> (forall a, types ws (k a)) -> types ws (bind m k).
Proof using Type. exact (types_bind [] ws m k). Qed.
Lemma types_first {A C} vs (m : AM A) (k : A -> AM C) : types vs m -> (forall a, types [] (k a)) -> types vs (bind m k).
Proof using Type. intros Hm Hk. rewrite <- (app_nil_r vs). by apply types_bind. Qed.

Lemma types_try {A} (m : AM A) (h : err -> AM A) : types [] m -> (forall e, types [] (h e)) -> types [] (try_except m h).
Proof using Type.
    intros Hm Hh s r s' H. unfold try_except in H. destruct (m s) as [[a|e] s1] eqn:Hrun.
    - injection H as <- <-. by apply Hm in Hrun.
    - destruct (Hm s (Raise e) s1 Hrun) as (l & Hl & Hq & [c Hp] & _). destruct (Hh e s1 r s' H) as (l2 & Hl2 & Hq2 & [c2 Hp2] & _).
      symmetry in Hp, Hp2. apply app_nil in Hp as [Hp _]. apply app_nil in Hp2 as [Hp2 _].
      exists (l ++ l2). rewrite Hl2, Hl, <- app_assoc, typed_app, Hp, Hp2, forallb_app, Hq, Hq2. repeat split; [by exists []|by destruct r].
Qed.

(** A handler that only raises. *)
Lemma types_try_raise {A} vs (m : AM A) (h : err -> AM A) (g : err -> err) :
    types vs m -> (forall e s, h e s = (Raise (g e), s)) -> types vs (try_except m h).
Proof using Type.
    intros Hm Hh s r s' H. unfold try_except in H. destruct (m s) as [[a|e] s1] eqn:Hrun.
    - injection H as <- <-. by apply Hm in Hrun.
    - rewrite Hh in H. injection H as <- <-. destruct (Hm s (Raise e) s1 Hrun) as (l & Hl & Hq & Hp & _). by exists l.
Qed.
End Traces.

Create HintDb types.
#[export] Hint Resolve types_ret types_raise types_reads types_misses types_perform types_enter : types.

(** Take a computation that types nothing apart. *)
Ltac types_nothing :=
  repeat match goal with
  | |- types _ _ => solve [auto with types]
  | |- types _ (if ?b then _ else _) => destruct b
  | |- types _ (match ?o with Some _ => _ | None => _ end) => destruct o
  | |- types _ (bind _ _) => apply types_then; [|intros ?]
  | |- types _ (try_except _ _) => apply types_try; [|intros ?]
  | |- types _ _ => progress cbn zeta
  end.

Section Helpers.
Context `{B : Browser} (repr repr_other : json -> string).

Lemma types_count l : types [] (count l).
Proof using Type. unfold count. types_nothing. Qed.
Lemma types_portal_raise {A} vs c m d : types (A := A) vs (portal_raise c m d).
Proof using Type. apply types_raise. Qed.
Hint Resolve types_count types_portal_raise : types.

Lemma types_set_react_input selector value : types [value] (set_react_input selector value).
Proof using Type.
    unfold set_react_input. cbn zeta. apply types_then; [auto with types|intros n]. apply types_then; [types_nothing|intros _].
    apply types_then; [types_nothing|intros _]. apply types_then; [types_nothing|intros b]. apply types_then; [types_nothing|intros _].
    by apply types_enter.
Qed.

Lemma types_field_of_label label : types [] (field_of_label label).
Proof using Type. unfold field_of_label, record_miss. types_nothing. Qed.

Lemma types_fill_by_label label value : types [value] (fill_by_label label value).
Proof using Type.
    unfold fill_by_label, record_hit. apply types_then; [apply types_field_of_label|intros c]. apply types_then; [types_nothing|intros _].
    apply types_then; [types_nothing|intros _]. apply types_then; [types_nothing|intros tag].
    destruct (String.eqb _ _); [by apply types_enter|].
    apply types_then; [types_nothing|intros _]. apply types_then; [types_nothing|intros b]. apply types_then; [types_nothing|intros _].
    by apply types_enter.
Qed.

Lemma types_wait ms : types [] (wait_for_network_idle ms).
Proof using Type. unfold wait_for_network_idle. types_nothing. Qed.

Lemma types_probe_selectors l : types [] (probe_selectors l).
Proof using Type. induction l; cbn [probe_selectors]; [types_nothing|]. unfold page_url. types_nothing. Qed.

Lemma types_captcha : types [] detect_captcha.
Proof using Type. unfold detect_captcha, probe_scripts, page_url. apply types_then; [apply types_probe_selectors|intros _]. types_nothing. Qed.

Lemma types_auth_wall f : types [] (detect_auth_wall f).
Proof using Type. unfold detect_auth_wall, page_url. types_nothing. Qed.
End Helpers.
#[export] Hint Resolve types_count types_portal_raise types_wait types_captcha types_auth_wall types_set_react_input types_fill_by_label : types.

Section Submitters.
Context `{B : Browser} (repr repr_other : json -> string) (uuid_hex : string).

Lemma types_login user_message url u p : types [u; p] (login repr user_message url u p).
Proof using Type.
    unfold login. apply types_then; [types_nothing|intros _]. apply types_then; [types_nothing|intros _].
    apply types_first.
    - eapply (types_try_raise _ _ _ (fun e => match e with
              | Typed p => if bool_decide (pe_class p = PortalSelectorDriftError)
                           then Typed (portal_error_of PortalAuthError "login_form_unavailable" (Some user_message)
                                         [("cause", JStr (exn_str repr (to_exn e)))]) else e
              | Foreign _ => e end)).
      + apply (types_bind [u] [p]); [auto with types|intros _; auto with types].
      + intros [q|f] s; [|done]. by destruct (bool_decide _).
    - intros _. apply types_then; [types_nothing|intros _]. types_nothing.
Qed.

Lemma types_navigate : types [] navigate_to_new_submission.
Proof using Type. unfold navigate_to_new_submission. types_nothing. Qed.

Definition filled (fills : list (string * string)) : list string := map snd (List.filter (fun kv => truthy kv.2) fills).

Lemma types_fill_all field_map fills : types (filled fills) (fill_all repr field_map fills).
Proof using Type.
    induction fills as [|[c v] fills IH]; cbn [fill_all]; [apply types_ret|]. unfold filled in *. cbn [List.filter snd].
    destruct (truthy v); cbn [map snd].
    - apply (types_bind [v]); [|intros _; exact IH]. destruct (find_first _ _) as [[k label]|]; auto with types.
    - apply types_then; [auto with types|intros _; exact IH].
Qed.

(** A computation that only looks at its arguments. *)
Definition is_pure {A} (m : AM A) (r : result err A) : Prop := forall s, m s = (r, s).

Lemma pure_bind {A C} (m : AM A) (k : A -> AM C) r :
    is_pure m r -> (forall a, exists r', is_pure (k a) r') -> exists r', is_pure (bind m k) r'.
Proof using Type.
    intros Hm Hk. destruct r as [a|e].
    - destruct (Hk a) as [r' Hr]. exists r'. intros s. unfold bind. by rewrite Hm.
    - exists (Raise e). intros s. unfold bind. by rewrite Hm.
Qed.

Lemma pure_premium payload : exists r, is_pure (premium_dollars repr payload) r.
Proof using Type.
    unfold premium_dollars. set (v := get_key _ _). assert (H : exists r, is_pure (
      match json_int v with
      | None => raise (int_error repr v)
      | Some cents => match dollars cents with
                      | Some s => ret s
                      | None => raise (Foreign {| f_module := "builtins"; f_name := "OverflowError"; f_message := "integer division result too large for a float" |})
                      end
      end) r).
    { destruct (json_int v) as [c|]; [destruct (dollars c)|]; by eexists; intros ?. }
    destruct v; try exact H. by eexists; intros ?.
Qed.

Lemma pure_states payload key : exists r, is_pure (states_text repr_other payload key) r.
Proof using Type. unfold states_text. destruct (jor _ _); try (by eexists; intros ?). destruct (strings_of 0 l); by eexists; intros ?. Qed.

(** Every registered submitter. *)
Lemma fills_pure platform sub payload :
    get_submitter repr repr_other uuid_hex platform = Some sub -> exists r, is_pure (_fills sub payload) r.
Proof using Type.
    intros H. destruct (pure_premium payload) as [r1 H1], (pure_states payload "license_states") as [r2 H2],
      (pure_states payload "target_states") as [r3 H3].
    assert (Hret : forall fills, exists r, is_pure (ret (S := attempt) (E := err) (A := list (string * string)) fills) r) by (intros; by eexists).
    destruct platform; try done; injection H as <-; unfold AppliedEpicSubmitter, VertaforeAMS360Submitter, SirconSubmitter, AmTrustSubmitter, MarkelSubmitter;
      cbn [_fills].
    1, 2, 4: by apply (pure_bind _ _ r1 H1).
    - by apply (pure_bind _ _ r2 H2).
    - apply (pure_bind _ _ r1 H1). intros premium. by apply (pure_bind _ _ r3 H3).
Qed.

Lemma submitter_shape platform sub :
    get_submitter repr repr_other uuid_hex platform = Some sub ->
    (forall url u p, types [u; p] (_login sub url u p)) /\ types [] (_navigate_to_new_submission sub) /\
    (forall payload, _attach_files sub payload = ret tt) /\
    exists d, _submit_and_capture sub = submit_and_capture uuid_hex d.
Proof using Type.
    intros H. destruct platform; try done; injection H as <-; cbn;
      (split; [intros; apply types_login|split; [apply types_navigate|split; [done|by eexists]]]).
Qed.
End Submitters.

(** ** One attempt *)

Definition quiet (l : trace_t) : bool := forallb (fun e => negb (is_submit e) && negb (is_start e) && negb (is_stop e)) l.
(** The browser is neither started nor stopped. *)
Definition running (l : trace_t) : bool := forallb (fun e => negb (is_start e) && negb (is_stop e)) l.

Lemma quiet_running l : quiet l = true -> running l = true.
Proof.
  unfold quiet, running. rewrite !forallb_forall. intros H e He. specialize (H e He).
  by apply andb_prop in H as [[_ ->]%andb_prop ->].
Qed.
Lemma quiet_no_submit l : quiet l = true -> existsb is_submit l = false.
Proof.
  unfold quiet. rewrite forallb_forall. intros H. apply not_true_iff_false. intros (e & He & Hs)%existsb_exists. specialize (H e He).
  by rewrite Hs in H.
Qed.
Lemma quiet_app a b : quiet (a ++ b) = quiet a && quiet b.
Proof. apply forallb_app. Qed.
Lemma running_app a b : running (a ++ b) = running a && running b.
Proof. apply forallb_app. Qed.

Section Attempt.
Context `{B : Browser} (repr repr_other : json -> string) (uuid_hex : string).
Context (platform : PortalPlatform) (sub : Submitter).
Hypothesis Hsub : get_submitter repr repr_other uuid_hex platform = Some sub.
Context (environ : string -> option string) (root : string) (stamp now_iso : trace_t -> string).
Context (tenant_id : string) (portal_url : option string) (payload : list (string * json)).

(** What the portal saw of a form that was sent: everything typed, in order. *)
Definition complete_form (username password : string) (a : trace_t) : Prop :=
    exists fills, is_pure (_fills sub payload) (Ok fills) /\ typed a = username :: password :: filled fills.

(** One press of the button, on the complete form, and nothing typed after it. *)
Definition sent_once (username password : string) (l : trace_t) : Prop :=
    exists a ok b, l = a ++ (Click submit_button, ok) :: b /\ quiet a = true /\ quiet b = true /\ typed b = [] /\
      complete_form username password a.

Lemma fill_portal_trace url u p s r s' :
    fill_portal sub payload repr url u p s = (r, s') ->
    exists l, trace s' = trace s ++ l /\ quiet l = true /\ match r with Ok _ => complete_form u p l | Raise _ => True end.
Proof using Hsub.
    destruct (submitter_shape repr repr_other uuid_hex platform sub Hsub) as (Hl & Hn & Ha & _).
    destruct (fills_pure repr repr_other uuid_hex platform sub payload Hsub) as [[fills|e] Hf]; unfold fill_portal, _fill_form; intros H.
    - assert (Ht : types (u :: p :: filled fills) (fill_portal sub payload repr url u p)).
      { unfold fill_portal. apply types_then; [unfold _configure_timeouts; types_nothing|intros _].
        apply (types_bind [u; p] (filled fills)); [apply Hl|intros _]. apply types_then; [exact Hn|intros _].
        apply types_first; [|intros _; rewrite Ha; apply types_ret]. unfold _fill_form. apply types_then; [apply types_misses|intros _].
        intros s0 r0 s0' H0. unfold bind in H0. rewrite Hf in H0. by apply types_fill_all in H0. }
      destruct (Ht s r s' H) as (l & Htr & Hq & _ & Hall). exists l. split; [exact Htr|split; [exact Hq|]].
      destruct r; [|done]. by exists fills.
    - assert (Ht : types [u; p] (fill_portal sub payload repr url u p)).
      { unfold fill_portal. apply types_then; [unfold _configure_timeouts; types_nothing|intros _].
        apply types_first; [apply Hl|intros _]. apply types_then; [exact Hn|intros _].
        apply types_first; [|intros _; rewrite Ha; apply types_ret]. unfold _fill_form. apply types_then; [apply types_misses|intros _].
        intros s0 r0 s0' H0. unfold bind in H0. rewrite Hf in H0. injection H0 as <- <-. by apply (types_raise (A := unit) [] e s0 (Raise e) s0). }
      destruct (Ht s r s' H) as (l & Htr & Hq & _). exists l. split; [exact Htr|split; [exact Hq|]]. destruct r; [|done]. exfalso.
      unfold bind in H. destruct (_configure_timeouts s) as [[|] s1]; [|done]. destruct (_login _ _ _ _ s1) as [[|] s2]; [|done].
      destruct (_navigate_to_new_submission sub s2) as [[|] s3]; [|done]. cbn in H. by rewrite Hf in H.
Qed.

Lemma types_capture label : types [] (_capture_screenshot root stamp tenant_id payload repr_other label).
Proof using Type. unfold _capture_screenshot, save. types_nothing. Qed.

Lemma types_safe_capture label : types [] (_safe_capture_screenshot root stamp tenant_id payload repr_other label).
Proof using Type. unfold _safe_capture_screenshot. apply types_try; [apply types_then; [apply types_capture|intros path; types_nothing]|intros e; types_nothing]. Qed.

Lemma types_handle_failure {A} launched e :
    types (A := A) [] (handle_failure root stamp tenant_id payload repr_other launched e).
Proof using Type.
    destruct e as [q|f]; unfold handle_failure; (apply types_then; [destruct launched; [apply types_safe_capture|types_nothing]|intros _]);
      types_nothing.
Qed.

Definition is_typed (e : err) : Prop := exists q, e = Typed q.

Lemma safe_capture_returns label s : exists o s', _safe_capture_screenshot root stamp tenant_id payload repr_other label s = (Ok o, s').
Proof using Type.
    unfold _safe_capture_screenshot, try_except, bind. destruct (_capture_screenshot _ _ _ _ _ _ s) as [[path|e] s1]; by eexists _, _.
Qed.

(** What leaves the handlers is an error of the portal. *)
Lemma handle_failure_raises {A} launched e s r s' :
    handle_failure (A := A) root stamp tenant_id payload repr_other launched e s = (r, s') -> exists q, r = Raise (Typed q).
Proof using Type.
    intros H. destruct e as [q|f]; unfold handle_failure, bind in H; destruct launched.
    2, 4: cbn in H; try (destruct (_ && _)); injection H as <- <-; by eexists.
    - destruct (safe_capture_returns "failure" s) as (o & s1 & Hs). rewrite Hs in H. injection H as <- <-. by eexists.
    - destruct (safe_capture_returns "unhandled" s) as (o & s1 & Hs). rewrite Hs in H. destruct (_ && _); injection H as <- <-; by eexists.
Qed.

(** [m] starts with a press of the button, and presses and types nothing after. *)
Definition presses {A} (m : AM A) : Prop :=
    forall s r s', m s = (r, s') ->
      exists ok b, trace s' = trace s ++ (Click submit_button, ok) :: b /\ quiet b = true /\ typed b = [].

Lemma presses_click : presses (perform (Click submit_button)).
Proof using Type.
    intros s r s' H. unfold perform in H. destruct (fails _ _); injection H as <- <-; [exists false, []|exists true, []]; done.
Qed.

Lemma presses_then {A C} (m : AM A) (k : A -> AM C) : presses m -> (forall a, types [] (k a)) -> presses (bind m k).
Proof using Type.
    intros Hm Hk s r s' H. unfold bind in H. destruct (m s) as [[a|e] s1] eqn:Hrun.
    - destruct (Hm s _ s1 Hrun) as (ok & b & Ht & Hq & Hty). destruct (Hk a s1 r s' H) as (l & Hl & Hql & [c Hc] & _).
      exists ok, (b ++ l). rewrite Hl, Ht, <- app_assoc, quiet_app, Hq, typed_app, Hty. repeat split; [exact Hql|].
      by apply eq_sym, app_nil in Hc as [-> _].
    - injection H as <- <-. exact (Hm s _ s1 Hrun).
Qed.

Lemma presses_submit d : presses (submit_and_capture uuid_hex d).
Proof using Type.
    unfold submit_and_capture. apply presses_then; [apply presses_click|intros _]. cbn zeta. unfold page_url. types_nothing.
Qed.

Lemma file_submission_trace url u p s r s' :
    file_submission sub root stamp now_iso tenant_id payload repr repr_other url u p s = (r, s') ->
    exists l, trace s' = trace s ++ l /\ ((quiet l = true /\ exists e, r = Raise e) \/ sent_once u p l).
Proof using Hsub.
    unfold file_submission. unfold bind at 1. destruct (fill_portal sub payload repr url u p s) as [[[]|e] s1] eqn:Hf; intros H.
    - destruct (fill_portal_trace url u p s _ s1 Hf) as (a & Ha & Hqa & Hform).
      destruct (submitter_shape repr repr_other uuid_hex platform sub Hsub) as (_ & _ & _ & d & Hd). rewrite Hd in H.
      assert (Hp : presses (bind (submit_and_capture uuid_hex d) (fun '(reference, metadata) =>
                     let* screenshot_path := _capture_screenshot root stamp tenant_id payload repr_other "confirmation" in
                     let* completed_at := reads (fun s => now_iso (trace s)) in
                     ret {| success := true; portal_reference := Some reference; screenshot_url := Some screenshot_path;
                            outcome_payload := [("submission_reference", JStr reference); ("screenshot_path", JStr screenshot_path);
                                                ("completed_at", JStr completed_at); ("portal_metadata", JObj metadata);
                                                ("portal", JStr (platform_value (PLATFORM sub)))] |}))).
      { apply presses_then; [apply presses_submit|intros [reference metadata]]. apply types_then; [apply types_capture|intros path].
        types_nothing. }
      destruct (Hp s1 r s' H) as (ok & b & Hb & Hqb & Htb). exists (a ++ (Click submit_button, ok) :: b).
      rewrite Hb, Ha, <- app_assoc. split; [done|]. right. by exists a, ok, b.
    - injection H as <- <-. destruct (fill_portal_trace url u p s _ s1 Hf) as (a & Ha & Hqa & _). exists a. split; [done|]. left. by eauto.
Qed.

Lemma sent_once_running u p l : sent_once u p l -> running l = true.
Proof using Type.
    intros (a & ok & b & -> & Ha & Hb & _). rewrite running_app, (quiet_running a Ha). exact (quiet_running b Hb).
Qed.

Lemma sent_once_app u p l t : sent_once u p l -> quiet t = true -> typed t = [] -> sent_once u p (l ++ t).
Proof using Type.
    intros (a & ok & b & -> & Ha & Hb & Htb & Hf) Ht Hty. exists a, ok, (b ++ t). rewrite <- app_assoc, quiet_app, Hb, typed_app, Htb.
    repeat split; done.
Qed.

(** The attempt within the browser, its handlers included. *)
Lemma guarded_trace url u p s r s' :
    try_except (file_submission sub root stamp now_iso tenant_id payload repr repr_other url u p)
      (handle_failure root stamp tenant_id payload repr_other true) s = (r, s') ->
    exists l, trace s' = trace s ++ l /\ ((quiet l = true /\ exists e, r = Raise e) \/ sent_once u p l).
Proof using Hsub.
    unfold try_except. destruct (file_submission _ _ _ _ _ _ _ _ _ _ _ s) as [[o|e] s1] eqn:Hf; intros H.
    - injection H as <- <-. by apply (file_submission_trace url u p s (Ok o) s1).
    - destruct (file_submission_trace url u p s _ s1 Hf) as (l & Hl & Hcase).
      destruct (types_handle_failure true e s1 r s' H) as (t & Ht & Hqt & [c Hc] & _). apply eq_sym, app_nil in Hc as [Hty _].
      exists (l ++ t). rewrite Ht, Hl, <- app_assoc. split; [done|]. destruct Hcase as [[Hq _]|Hs].
      + left. split; [by rewrite quiet_app, Hq|]. apply handle_failure_raises in H as [q ->]. by eexists.
      + right. by apply sent_once_app.
Qed.

(** ** The theorems *)

Lemma perform_trace ev s r s' : perform ev s = (r, s') -> exists ok, trace s' = trace s ++ [(ev, ok)] /\ (ok = true <-> r = Ok tt).
Proof using Type. unfold perform. destruct (fails _ _); intros [= <- <-]; [exists false|exists true]; by split. Qed.

Lemma swallow_perform ev s : exists ok s', swallow (perform ev) s = (Ok tt, s') /\ trace s' = trace s ++ [(ev, ok)].
Proof using Type.
    unfold swallow, try_except. destruct (perform ev s) as [r s1] eqn:H. pose proof (perform_trace ev s r s1 H) as (ok & Ht & _).
    exists ok, s1. by destruct r as [[]|].
Qed.

Lemma teardown_trace s : exists o1 o2 o3 s',
    _teardown_browser s = (Ok tt, s') /\ trace s' = trace s ++ [(CloseContext, o1); (CloseBrowser, o2); (PwStop, o3)].
Proof using Type.
    destruct (swallow_perform CloseContext s) as (o1 & s1 & E1 & T1). destruct (swallow_perform CloseBrowser s1) as (o2 & s2 & E2 & T2).
    destruct (swallow_perform PwStop s2) as (o3 & s3 & E3 & T3). exists o1, o2, o3, s3. unfold _teardown_browser, bind.
    rewrite E1, E2, E3. split; [done|]. by rewrite T3, T2, T1, <- !app_assoc.
Qed.

(** Starting the browser: it runs, or it has been stopped again, or it never ran. *)
Lemma launch_trace s r s' :
    _launch_browser environ s = (r, s') ->
    match r with
    | Ok _ => exists b, trace s' = trace s ++ (PwStart, true) :: b /\ quiet b = true /\ typed b = []
    | Raise _ => trace s' = trace s ++ [(PwStart, false)] \/
                 exists b ok, trace s' = trace s ++ (PwStart, true) :: b ++ [(PwStop, ok)] /\ quiet b = true
    end.
Proof using Type.
    unfold _launch_browser. unfold bind at 1. destruct (perform PwStart s) as [[[]|e] s1] eqn:H1; apply perform_trace in H1 as (ok & H1 & Hok).
    2: { intros [= <- <-]. left. destruct ok; [exfalso; destruct Hok as [Hok _]; by discriminate (Hok eq_refl)|done]. }
    rewrite (proj2 Hok eq_refl) in H1. clear Hok ok.
    assert (Hm : types [] (perform (ChromiumLaunch (headless environ)) ;;; perform NewContext ;;; perform NewPage)) by types_nothing.
    set (m := bind (perform (ChromiumLaunch _)) _) in *.
    unfold try_except. destruct (m s1) as [[[]|e] s2] eqn:Hrun.
    - destruct (Hm s1 _ s2 Hrun) as (b & Hb & Hq & _ & Hty). intros [= <- <-]. exists b. rewrite Hb, H1, <- app_assoc. done.
    - destruct (Hm s1 _ s2 Hrun) as (b & Hb & Hq & _). unfold bind. destruct (perform PwStop s2) as [r3 s3] eqn:H3.
      apply perform_trace in H3 as (ok & H3 & _). intros H. assert (Hs : s' = s3 /\ exists e', r = Raise e').
      { destruct r3 as [[]|e3]; injection H as <- <-; split; by eauto. }
      destruct Hs as [-> [e' ->]]. right. exists b, ok. by rewrite H3, Hb, H1, <- !app_assoc.
Qed.

Definition run_attempt (before : trace_t) : result err SubmitterOutcome * attempt :=
    _run_sync_pipeline sub environ root stamp now_iso tenant_id portal_url payload repr repr_other {| trace := before; misses := [] |}.

Definition portal_failure {A} (r : result err A) : Prop := exists q, r = Raise (Typed q).

(** How an attempt goes. *)
Inductive attempt_case (before : trace_t) (r : result err SubmitterOutcome) (s : attempt) : Prop :=
| refused_before_browser : trace s = before -> portal_failure r -> attempt_case before r s
| no_store f : fails before StoreInit = Some f -> r = Raise (Foreign f) -> trace s = before ++ [(StoreInit, false)] -> attempt_case before r s
| no_browser : trace s = before ++ [(StoreInit, true); (PwStart, false)] -> portal_failure r -> attempt_case before r s
| half_launched b ok : trace s = before ++ (StoreInit, true) :: (PwStart, true) :: b ++ [(PwStop, ok)] -> quiet b = true ->
    portal_failure r -> attempt_case before r s
| not_sent b l o1 o2 o3 :
    trace s = before ++ (StoreInit, true) :: ((PwStart, true) :: b) ++ l ++ [(CloseContext, o1); (CloseBrowser, o2); (PwStop, o3)] ->
    quiet b = true -> quiet l = true -> portal_failure r -> attempt_case before r s
| sent u p b l o1 o2 o3 :
    trace s = before ++ (StoreInit, true) :: ((PwStart, true) :: b) ++ l ++ [(CloseContext, o1); (CloseBrowser, o2); (PwStop, o3)] ->
    quiet b = true -> typed b = [] -> sent_once u p l -> environ (USERNAME_ENV_VAR sub) = Some u -> environ (PASSWORD_ENV_VAR sub) = Some p ->
    (exists o, r = Ok o) \/ portal_failure r -> attempt_case before r s.

Lemma credentials_run s :
    (exists u p, environ (USERNAME_ENV_VAR sub) = Some u /\ environ (PASSWORD_ENV_VAR sub) = Some p /\
       _resolve_credentials sub environ s = (Ok (u, p), s)) \/
    exists q, _resolve_credentials sub environ s = (Raise (Typed q), s).
Proof using Type.
    unfold _resolve_credentials. destruct (environ (USERNAME_ENV_VAR sub)) as [u|]; cbn [default from_option id]; [|right; by eexists].
    destruct (environ (PASSWORD_ENV_VAR sub)) as [p|]; cbn [default from_option id]; [|right; rewrite andb_false_r; by eexists].
    destruct (truthy u && truthy p); [left; by exists u, p|right; by eexists].
Qed.

Lemma guarded_result url u p s r s' :
    try_except (file_submission sub root stamp now_iso tenant_id payload repr repr_other url u p)
      (handle_failure root stamp tenant_id payload repr_other true) s = (r, s') -> (exists o, r = Ok o) \/ portal_failure r.
Proof using Type.
    unfold try_except. destruct (file_submission _ _ _ _ _ _ _ _ _ _ _ s) as [[o|e] s1]; [intros [= <- <-]; left; by eexists|].
    intros H. right. by apply handle_failure_raises in H.
Qed.

(** The part with the store and the browser. *)
Lemma browser_part_cases url u p before m :
    environ (USERNAME_ENV_VAR sub) = Some u -> environ (PASSWORD_ENV_VAR sub) = Some p ->
    let '(r, s) := (perform StoreInit ;;;
      let* launched := attempted (_launch_browser environ) in
      match launched with
      | Raise e => handle_failure root stamp tenant_id payload repr_other false e
      | Ok _ =>
          let* r := attempted (try_except (file_submission sub root stamp now_iso tenant_id payload repr repr_other url u p)
                                 (handle_failure root stamp tenant_id payload repr_other true)) in
          _teardown_browser ;;; match r with Ok o => ret o | Raise e => raise e end
      end) {| trace := before; misses := m |} in attempt_case before r s.
Proof using Hsub.
    intros Hu Hp. unfold bind at 1. destruct (perform StoreInit _) as [[[]|e] s1] eqn:H1.
    2: { unfold perform in H1. cbn [trace] in H1. destruct (fails before StoreInit) as [f|] eqn:Hf; [|done]. injection H1 as <- <-. by apply (no_store _ _ _ f). }
    apply perform_trace in H1 as (ok & H1 & Hok). rewrite (proj2 Hok eq_refl) in H1. clear ok Hok. cbn [trace] in H1.
    unfold bind at 1, attempted at 1. destruct (_launch_browser environ s1) as [[[]|e] s2] eqn:H2; apply launch_trace in H2.
    - destruct H2 as (b & H2 & Hqb & Htb). unfold bind at 1, attempted.
      destruct (try_except _ _ s2) as [r3 s3] eqn:H3. pose proof (guarded_result url u p s2 r3 s3 H3) as Hr. apply guarded_trace in H3 as (l & H3 & Hcase).
      destruct (teardown_trace s3) as (o1 & o2 & o3 & s4 & H4 & H5). unfold bind. rewrite H4.
      assert (Htr : trace s4 = before ++ (StoreInit, true) :: ((PwStart, true) :: b) ++ l ++ [(CloseContext, o1); (CloseBrowser, o2); (PwStop, o3)]).
      { by rewrite H5, H3, H2, H1, <- !app_assoc. }
      destruct Hcase as [[Hq [e ->]]|Hs].
      + cbn. apply (not_sent _ _ _ b l o1 o2 o3); try done. by destruct Hr as [[o [=]]|Hr].
      + destruct r3 as [o|e]; cbn; apply (sent _ _ _ u p b l o1 o2 o3); done.
    - destruct (handle_failure _ _ _ _ _ false e s2) as [r3 s3] eqn:H3. pose proof (handle_failure_raises _ _ _ _ _ H3) as Hr.
      assert (s3 = s2) as ->. { destruct e as [q|f]; unfold handle_failure, bind in H3; cbn in H3; try (destruct (_ && _)); by injection H3. }
      destruct H2 as [H2|(b & ok & H2 & Hq)].
      + apply no_browser; [by rewrite H2, H1, <- app_assoc|done].
      + apply (half_launched _ _ _ b ok); [by rewrite H2, H1, <- app_assoc|done|done].
Qed.

Lemma run_cases before : let '(r, s) := run_attempt before in attempt_case before r s.
Proof using Hsub.
    unfold run_attempt, _run_sync_pipeline. unfold bind at 1, require_fields. destruct (List.filter _ _); cbn [ret].
    2: { apply refused_before_browser; [done|by eexists]. }
    unfold bind at 1, _resolve_url. destruct (or_else _ _) as [url|]; cbn [some_or_raise ret]; [|apply refused_before_browser; [done|by eexists]].
    unfold bind at 1. destruct (credentials_run {| trace := before; misses := [] |}) as [(u & p & Hu & Hp & ->)|[q ->]].
    - by apply browser_part_cases.
    - apply refused_before_browser; [done|by eexists].
Qed.
End Attempt.

(** One press of the button on the complete form, as a part of all the calls. *)
Definition submitted `{B : Browser} (sub : Submitter) (payload : list (string * json)) (u p : string) (l : trace_t) : Prop :=
  exists a ok b, l = a ++ (Click submit_button, ok) :: b /\ existsb is_submit a = false /\ existsb is_submit b = false /\ typed b = [] /\
    exists fills, is_pure (_fills sub payload) (Ok fills) /\ typed a = u :: p :: filled fills.

(** C27. What reaches the portal. In one attempt of any registered submitter, whatever
    the portal answers and whichever call raises, the button that files the
    submission is pressed at most once. When it is pressed, everything typed into
    the page before is, in this order, the user name, the password and every field
    the submitter has a value for, and nothing is typed after. An attempt that
    succeeds has pressed it. *)
Theorem form_is_sent_once `{B : Browser} repr repr_other uuid_hex platform sub environ root stamp now_iso tenant_id portal_url payload before :
  get_submitter repr repr_other uuid_hex platform = Some sub ->
  let '(r, s) := run_attempt repr repr_other sub environ root stamp now_iso tenant_id portal_url payload before in
  exists l, trace s = before ++ l /\
    ((existsb is_submit l = false /\ exists e, r = Raise e) \/
     exists u p, environ (USERNAME_ENV_VAR sub) = Some u /\ environ (PASSWORD_ENV_VAR sub) = Some p /\ submitted sub payload u p l).
Proof.
  intros Hsub. pose proof (run_cases repr repr_other uuid_hex platform sub Hsub environ root stamp now_iso tenant_id portal_url payload before) as H.
  destruct (run_attempt _ _ _ _ _ _ _ _ _ _ before) as [r s]. destruct H as [Ht [q ->]|f _ -> Ht|Ht [q ->]|b ok Ht Hq [q ->]|b l o1 o2 o3 Ht Hb Hl [q ->]|u p b l o1 o2 o3 Ht Hb Htb Hs Hu Hp _].
  - exists []. rewrite app_nil_r. split; [done|]. left. by eauto.
  - eexists. split; [exact Ht|]. left. by eauto.
  - eexists. split; [exact Ht|]. left. by eauto.
  - eexists. split; [exact Ht|]. left. split; [|by eauto]. cbn. by rewrite existsb_app, (quiet_no_submit b).
  - eexists. split; [exact Ht|]. left. split; [|by eauto]. cbn. by rewrite !existsb_app, (quiet_no_submit b), (quiet_no_submit l).
  - eexists. split; [exact Ht|]. right. exists u, p. split; [done|split; [done|]].
    destruct Hs as (a & ok & t & -> & Ha & Ht' & Hty & fills & Hf & Hfill).
    exists ((StoreInit, true) :: ((PwStart, true) :: b) ++ a), ok, (t ++ [(CloseContext, o1); (CloseBrowser, o2); (PwStop, o3)]).
    split; [cbn; rewrite <- !app_assoc; reflexivity|]. cbn. rewrite !existsb_app, (quiet_no_submit b), (quiet_no_submit a), (quiet_no_submit t), !typed_app, Hty by done.
    split_and!; try done. exists fills. split; [done|]. by rewrite Htb.
Qed.

(** The browser is always stopped. Whatever raises, in the steps, in a
    screenshot or in the closing itself, an attempt that has started a browser ends
    with its stop, and neither starts nor stops another. *)
Theorem browser_is_stopped `{B : Browser} repr repr_other uuid_hex platform sub environ root stamp now_iso tenant_id portal_url payload before :
  get_submitter repr repr_other uuid_hex platform = Some sub ->
  let '(_, s) := run_attempt repr repr_other sub environ root stamp now_iso tenant_id portal_url payload before in
  exists l, trace s = before ++ l /\
    (existsb is_start l = false \/
     exists a b ok, l = a ++ (PwStart, true) :: b ++ [(PwStop, ok)] /\ running a = true /\ running b = true).
Proof.
  intros Hsub. pose proof (run_cases repr repr_other uuid_hex platform sub Hsub environ root stamp now_iso tenant_id portal_url payload before) as H.
  destruct (run_attempt _ _ _ _ _ _ _ _ _ _ before) as [r s]. destruct H as [Ht _|f _ _ Ht|Ht _|b ok Ht Hq _|b l o1 o2 o3 Ht Hb Hl _|u p b l o1 o2 o3 Ht Hb _ Hs _ _ _].
  - exists []. rewrite app_nil_r. split; [done|by left].
  - eexists. split; [exact Ht|by left].
  - eexists. split; [exact Ht|by left].
  - eexists. split; [exact Ht|]. right. exists [(StoreInit, true)], b, ok. split_and!; [done..|]. by apply quiet_running.
  - eexists. split; [exact Ht|]. right. exists [(StoreInit, true)], (b ++ l ++ [(CloseContext, o1); (CloseBrowser, o2)]), o3.
    split; [cbn; by rewrite <- !app_assoc|]. by rewrite !running_app, (quiet_running b), (quiet_running l).
  - eexists. split; [exact Ht|]. right. exists [(StoreInit, true)], (b ++ l ++ [(CloseContext, o1); (CloseBrowser, o2)]), o3.
    split; [cbn; by rewrite <- !app_assoc|]. by rewrite !running_app, (quiet_running b), (sent_once_running sub payload u p l).
Qed.

(** How a failure is recorded. The exception that leaves an attempt is one of the
    six of the portal, and the pipeline gives the submission the status its class is
    documented to have: blocked by a captcha, failed for refused credentials or
    fields, retried for the others while attempts are left. The one other exception is
    that of the screenshot directory, before the browser is started; it fails the
    submission. *)
Theorem attempt_failures_are_classified `{B : Browser} repr repr_other uuid_hex platform sub environ root stamp now_iso tenant_id portal_url payload before n :
  get_submitter repr repr_other uuid_hex platform = Some sub ->
  match fst (run_attempt repr repr_other sub environ root stamp now_iso tenant_id portal_url payload before) with
  | Ok _ => True
  | Raise (Typed q) =>
      fst (_classify_failure repr (to_exn (Typed q)) n) =
        match pe_class q with
        | PortalCaptchaError => BLOCKED
        | PortalAuthError | PortalValidationError => FAILED
        | _ => if n <? MAX_ATTEMPTS then RETRYING else FAILED
        end
  | Raise (Foreign f) => fails before StoreInit = Some f /\ fst (_classify_failure repr (to_exn (Foreign f)) n) = FAILED
  end.
Proof.
  intros Hsub. pose proof (run_cases repr repr_other uuid_hex platform sub Hsub environ root stamp now_iso tenant_id portal_url payload before) as H.
  destruct (run_attempt _ _ _ _ _ _ _ _ _ _ before) as [r s]. cbn [fst].
  assert (Hr : (exists o, r = Ok o) \/ portal_failure r \/ exists f, r = Raise (Foreign f) /\ fails before StoreInit = Some f).
  { destruct H as [_ Hr|f Hf -> _|_ Hr|b ok _ _ Hr|b l o1 o2 o3 _ _ _ Hr|u p b l o1 o2 o3 _ _ _ _ _ _ [Hr|Hr]]; eauto. }
  destruct Hr as [[o ->]|[[q ->]|(f & -> & Hf)]]; [done| |by split].
  unfold _classify_failure, to_exn. cbn. destruct (pe_class q); cbn; try done; by destruct (n <? MAX_ATTEMPTS).
Qed.

(** ** Amounts *)

(** The quotient of a number below 2^52 by 100 has at least seven binary places. *)
Lemma true_divide_100 c : 0 < c < 2 ^ 52 ->
  exists k, 7 <= k /\ true_divide c 100 = (div_half_even (c * 2 ^ k) 100, - k).
Proof.
  intros Hc. unfold true_divide. change (Z.log2 100) with 6.
  assert (Hlog : Z.log2 c <= 51). { apply Z.lt_succ_r. apply Z.log2_lt_pow2; lia. }
  rewrite (proj2 (Z.leb_gt 0 (Z.log2 c - 6 - 53))) by lia.
  destruct (2 ^ 53 <=? _).
  - exists (- (Z.log2 c - 6 - 53 + 1)). split; [lia|]. rewrite (proj2 (Z.leb_gt 0 (Z.log2 c - 6 - 53 + 1))) by lia. f_equal. lia.
  - exists (- (Z.log2 c - 6 - 53)). split; [lia|]. rewrite (proj2 (Z.leb_gt 0 (Z.log2 c - 6 - 53))) by lia. f_equal. lia.
Qed.

(** The quotient by 100, with two digits. *)
Definition exact_dollars (cents : Z) : string := str_of_Z (cents / 100) +:+ "." +:+ two_digits (cents mod 100).

(** The premium is written to the cent. Below 2^52 cents the detour over a binary
    float loses nothing: the dollars and the two digits of the cents are those of the
    exact quotient. *)
Theorem premium_is_exact c : 0 <= c < 2 ^ 52 -> dollars c = Some (exact_dollars c).
Proof.
  intros Hc. unfold dollars, exact_dollars. destruct (Z.eqb_spec c 0) as [->|Hne]; [reflexivity|].
  rewrite Z.abs_eq by lia. destruct (true_divide_100 c ltac:(lia)) as (k & Hk & ->). cbn [fst snd].
  rewrite (proj2 (Z.leb_gt 0 (- k))) by lia. cbn [andb]. rewrite (proj2 (Z.ltb_ge c 0)) by lia. cbn [String.append].
  unfold format_2f. rewrite (proj2 (Z.leb_gt 0 (- k))) by lia. rewrite Z.opp_involutive.
  assert (Hp : 2 ^ 7 <= 2 ^ k) by (apply Z.pow_le_mono_r; lia). change (2 ^ 7) with 128 in Hp.
  pose proof (div_half_even_close (c * 2 ^ k) 100 ltac:(lia)) as Hm. set (m := div_half_even (c * 2 ^ k) 100) in *.
  replace (m * 100) with (c * 2 ^ k + (m * 100 - c * 2 ^ k)) by lia. rewrite div_half_even_near by lia. done.
Qed.

Lemma premium_is_exact_witness : 0 <= 123456789 < 2 ^ 52 /\ dollars 123456789 = Some "1234567.89".
Proof. split; [lia|]. rewrite premium_is_exact by lia. vm_compute. reflexivity. Defined.

(** ** Screenshot paths *)

Lemma sall_dash_runs b s : sall slug_char (dash_runs b s) = true.
Proof.
  revert b. induction s as [|c s IH]; intros b; cbn [dash_runs]; [done|]. destruct (slug_char c) eqn:Hc; [cbn; by rewrite Hc, IH|].
  destruct b; [apply IH|]. cbn. by rewrite IH.
Qed.

(** A directory or a file name of a screenshot has no separator, is not empty and is no
    longer than 64 characters. *)
Lemma slug_spec value : sall slug_char (_slug value) = true /\ 1 <= slen (_slug value) <= 64.
Proof.
  unfold _slug, sor. destruct (truthy _) eqn:Ht; [|by split].
  split; [by apply sall_stake, sall_rstrip, sall_lstrip, sall_dash_runs|].
  split; [|unfold slen; rewrite length_stake; lia].
  apply truthy_spec in Ht. destruct (stake 64 _) eqn:E; [done|]. unfold slen. cbn [String.length]. lia.
Qed.

Module DemoAutomation.
(** A portal that works, but for the calls that [bad] makes raise. *)
#[local] Instance portal (bad : event -> option foreign) : Browser := {|
  fails := fun _ ev => bad ev;
  count_answer := fun _ l => match l with Css s => if existsb (String.eqb s) CAPTCHA_DOM_SELECTORS then 0 else 1 | ByLabel _ => 1 end;
  handle_answer := fun _ _ => true;
  tag_answer := fun _ _ => Some "input";
  attribute_answer := fun _ _ _ => None;
  text_answer := fun _ _ => " AMT-2026-00A7 ";
  sources_answer := fun _ => [];
  status_answer := fun _ _ => 200;
  url_answer := fun _ => "https://portal.example/dashboard" |}.

Definition fine (ev : event) : option foreign := None.
Definition no_picture (ev : event) : option foreign :=
  match ev with TakeScreenshot => Some {| f_module := "playwright._impl._errors"; f_name := "Error"; f_message := "page crashed" |} | _ => None end.
Definition environ (k : string) : option string :=
  if existsb (String.eqb k) ["AMTRUST_USERNAME"; "AMTRUST_PASSWORD"] then Some "demo"
  else if String.eqb k "PORTAL_AMTRUST_URL" then Some "https://portal.example/" else None.
Definition payload : list (string * json) :=
  [("named_insured", JStr "Acme LLC"); ("fein", JStr "12-3456789"); ("effective_date", JStr "2026-07-01"); ("premium_cents", JInt 123450);
   ("line_of_business", JStr "gl"); ("state", JStr "CA")].
Definition repr (v : json) : string := match v with JStr s => "'" +:+ s +:+ "'" | _ => "?" end.

Definition attempt_with (bad : event -> option foreign) (payload : list (string * json)) (before : trace_t) : result exn (option outcome) * trace_t :=
  submit (B := portal bad) (AmTrustSubmitter (B := portal bad) repr repr "f00") environ "shots" (fun _ => "20260701T000000") (fun _ => "2026-07-01T00:00:00+00:00")
    "T1" None payload repr repr before.

Example filed :
  match attempt_with fine payload [] with
  | (Ok (Some o), t) => is_someb (dataclass_fields o) = true /\ typed t = ["demo"; "demo"; "Acme LLC"; "12-3456789"; "2026-07-01"; "gl"; "1234.50"; "CA"]
  | _ => False
  end.
Proof. vm_compute. done. Qed.

(** The confirmation is shown and read, the picture of it fails: the attempt is
    recorded as a network failure and retried, and the portal gets the submission a
    second time. *)
Example filed_twice :
  let '(r1, t1) := attempt_with no_picture payload [] in
  let '(r2, t2) := attempt_with no_picture payload t1 in
  match r1 with Raise e => fst (_classify_failure repr e 1) = RETRYING | Ok _ => False end /\
  length (List.filter is_submit t2) = 2%nat.
Proof. vm_compute. done. Qed.

(** A premium that is no number is a permanent fault of the payload, and is retried
    as a network failure. *)
Example premium_no_number :
  match fst (attempt_with fine (set_key "premium_cents" (JStr "12,50") payload) []) with
  | Raise e => exc e = PortalTransientError /\ message e = "unhandled_playwright_error" /\ fst (_classify_failure repr e 1) = RETRYING
  | Ok _ => False
  end.
Proof. vm_compute. done. Qed.

(** The submission id comes from the payload: two dots leave the tenant's directory. *)
Example picture_outside_tenant :
  match attempt_with fine (("submission_id", JStr "..") :: payload) [] with
  | (_, t) => In (Save "shots/T1/../20260701T000000-confirmation.png", true) t
  end.
Proof. vm_compute. tauto. Qed.
End DemoAutomation.


Module DemoRun.
Definition amtrust (bad : event -> option foreign) : Submitter (B := DemoAutomation.portal bad) :=
  AmTrustSubmitter (B := DemoAutomation.portal bad) DemoAutomation.repr DemoAutomation.repr "f00".
Definition stamp (t : trace_t) : string := "20260701T000000".
Definition run (bad : event -> option foreign) : result err SubmitterOutcome * attempt :=
  run_attempt (B := DemoAutomation.portal bad) DemoAutomation.repr DemoAutomation.repr (amtrust bad) DemoAutomation.environ "shots" stamp stamp "T1" None
    DemoAutomation.payload [].
End DemoRun.

Lemma form_is_sent_once_witness :
  let '(r, s) := DemoRun.run DemoAutomation.fine in
  exists l, trace s = [] ++ l /\
    ((existsb is_submit l = false /\ exists e, r = Raise e) \/
     exists u p, DemoAutomation.environ "AMTRUST_USERNAME" = Some u /\ DemoAutomation.environ "AMTRUST_PASSWORD" = Some p /\
       submitted (B := DemoAutomation.portal DemoAutomation.fine) (DemoRun.amtrust DemoAutomation.fine) DemoAutomation.payload u p l).
Proof.
  exact (form_is_sent_once (B := DemoAutomation.portal DemoAutomation.fine) DemoAutomation.repr DemoAutomation.repr "f00" AMTRUST
           (DemoRun.amtrust DemoAutomation.fine) DemoAutomation.environ "shots" DemoRun.stamp DemoRun.stamp "T1" None DemoAutomation.payload [] eq_refl).
Defined.

Lemma browser_is_stopped_witness :
  let '(_, s) := DemoRun.run DemoAutomation.no_picture in
  exists l, trace s = [] ++ l /\
    (existsb is_start l = false \/ exists a b ok, l = a ++ (PwStart, true) :: b ++ [(PwStop, ok)] /\ running a = true /\ running b = true).
Proof.
  exact (browser_is_stopped (B := DemoAutomation.portal DemoAutomation.no_picture) DemoAutomation.repr DemoAutomation.repr "f00" AMTRUST
           (DemoRun.amtrust DemoAutomation.no_picture) DemoAutomation.environ "shots" DemoRun.stamp DemoRun.stamp "T1" None DemoAutomation.payload [] eq_refl).
Defined.

Lemma attempt_failures_are_classified_witness :
  match fst (DemoRun.run DemoAutomation.no_picture) with
  | Raise (Typed q) => fst (_classify_failure DemoAutomation.repr (to_exn (Typed q)) 1) = RETRYING
  | _ => False
  end.
Proof.
  pose proof (attempt_failures_are_classified (B := DemoAutomation.portal DemoAutomation.no_picture) DemoAutomation.repr DemoAutomation.repr "f00" AMTRUST
           (DemoRun.amtrust DemoAutomation.no_picture) DemoAutomation.environ "shots" DemoRun.stamp DemoRun.stamp "T1" None DemoAutomation.payload [] 1 eq_refl) as H.
  vm_compute in H. vm_compute. exact H.
Defined.
