(* ===== verification/VerifierKeys.v ===== *)
(** * Verifier API keys

    models/verifier_api_key.py, models/verifier_api_key_usage.py,
    services/verifier_key_service.py and api/v1/verifier_keys.py: tenants issue
    and revoke keys for the public verifier; the verifier has each call
    authenticated and charged to a monthly counter through an internal endpoint.
    SHA-256 and the random tail of a key are variables. *)

From Stdlib Require Import Ascii.
From S2P Require Import Prelude PyStr PyTime Accounts.

(** models/verifier_api_key.py, [VerifierApiKey]. *)
Record VerifierApiKey : Type := {
  vk_id : string;
  vk_tenant_id : string;
  vk_name : string;
  key_prefix : string;
  key_hash : string;
  monthly_call_cap : option Z;
  last_used_at : option datetime;
  created_by_operator_id : option string;
  vk_created_at : Z;
  revoked_at : option datetime;
}.

#[export] Instance VerifierApiKey_eq_dec : EqDecision VerifierApiKey.
Proof. solve_decision. Defined.

(** models/verifier_api_key_usage.py, [VerifierApiKeyUsage]: the keys by primary
    key and the counters by the unique pair of key and month; the other columns
    of a counter are never read. *)
Record VerifierDB : Type := {
  api_keys : gmap string VerifierApiKey;
  key_usage : gmap (string * string) Z;
}.

Definition with_keys (f : gmap string VerifierApiKey -> gmap string VerifierApiKey) (db : VerifierDB) : VerifierDB :=
  {| api_keys := f (api_keys db); key_usage := key_usage db |}.
Definition with_usage (f : gmap (string * string) Z -> gmap (string * string) Z) (db : VerifierDB) : VerifierDB :=
  {| api_keys := api_keys db; key_usage := f (key_usage db) |}.

Definition set_revoked (now : Z) (k : VerifierApiKey) : VerifierApiKey :=
  {| vk_id := vk_id k; vk_tenant_id := vk_tenant_id k; vk_name := vk_name k; key_prefix := key_prefix k;
     key_hash := key_hash k; monthly_call_cap := monthly_call_cap k; last_used_at := last_used_at k;
     created_by_operator_id := created_by_operator_id k; vk_created_at := vk_created_at k;
     revoked_at := Some (utc now) |}.
Definition set_last_used (now : Z) (k : VerifierApiKey) : VerifierApiKey :=
  {| vk_id := vk_id k; vk_tenant_id := vk_tenant_id k; vk_name := vk_name k; key_prefix := key_prefix k;
     key_hash := key_hash k; monthly_call_cap := monthly_call_cap k; last_used_at := Some (utc now);
     created_by_operator_id := created_by_operator_id k; vk_created_at := vk_created_at k;
     revoked_at := revoked_at k |}.

(** services/verifier_key_service.py, [KEY_PLAINTEXT_PREFIX]. *)
Definition KEY_PLAINTEXT_PREFIX : string := "vk_live_".
(** services/verifier_key_service.py, [KEY_PREFIX_LENGTH]. *)
Definition KEY_PREFIX_LENGTH : nat := 16.

(** services/verifier_key_service.py, [IssuedKey]. *)
Record IssuedKey : Type := { issued_row : VerifierApiKey; plaintext : string }.

(** services/verifier_key_service.py, [_generate_plaintext]; [tail] is
    [secrets.token_urlsafe(32)]. *)
Definition _generate_plaintext (tail : string) : string := KEY_PLAINTEXT_PREFIX +:+ tail.

(** services/verifier_key_service.py, [_prefix_of]. *)
Definition _prefix_of (plaintext : string) : string := stake KEY_PREFIX_LENGTH plaintext.

(** services/verifier_key_service.py, [_period_month_now]: [strftime("%Y-%m")]
    of a year of four digits. *)
Definition _period_month_now (now : Z) : string :=
  let '(y, m, _) := civil_from_days (day_of now) in zpad 4 y +:+ "-" +:+ zpad 2 m.

(** services/verifier_key_service.py, [ChargeResult]: the field [status]. *)
Inductive charge_status : Type := charge_ok | invalid_key | quota_exceeded.

(** services/verifier_key_service.py, [ChargeResult]. *)
Record ChargeResult : Type := {
  cr_status : charge_status;
  cr_api_key_id : option string;
  cr_tenant_id : option string;
  cr_monthly_call_cap : option Z;
  current_period_count : Z;
  period_month : string;
}.

(** services/verifier_key_service.py, [find_active_by_prefix]: the [WHERE]
    clauses. *)
Definition active_with_prefix (prefix : string) (k : VerifierApiKey) : bool :=
  String.eqb (key_prefix k) prefix && negb (is_someb (revoked_at k)).

(** [session.add(row); await session.flush()]: the primary key and the unique
    prefix. *)
Definition key_conflict (row : VerifierApiKey) (db : VerifierDB) : bool :=
  is_someb (api_keys db !! vk_id row)
  || is_someb (find_row (fun k => String.eqb (key_prefix k) (key_prefix row)) (api_keys db)).

Section Service.
Context (sha256_hex : string -> string).
Local Abbreviation VM := (M (session VerifierDB) web_error).

(** services/verifier_key_service.py, [_hash_plaintext]. *)
Definition _hash_plaintext (plaintext : string) : string := sha256_hex plaintext.

(** services/verifier_key_service.py, [issue_key]. *)
Definition issue_key (new_id tail : string) (created : Z) (tenant_id name : string) (cap : option Z)
    (operator_id : option string) : VM IssuedKey :=
  let name_clean := strip name in
  raise_if (negb (truthy name_clean)) (PyException "OnceError") ;;;
  let plain := _generate_plaintext tail in
  let row := {| vk_id := new_id; vk_tenant_id := tenant_id; vk_name := name_clean; key_prefix := _prefix_of plain;
                key_hash := _hash_plaintext plain; monthly_call_cap := cap; last_used_at := None;
                created_by_operator_id := operator_id; vk_created_at := created; revoked_at := None |} in
  let* conflict := query (key_conflict row) in
  raise_if conflict (PyException "IntegrityError") ;;;
  write (with_keys (insert new_id row)) ;;;
  ret {| issued_row := row; plaintext := plain |}.

(** services/verifier_key_service.py, [list_keys]. *)
Definition list_keys (tenant_id : string) : VM (Z * list VerifierApiKey) :=
  query (fun db =>
    let rows := List.filter (fun k => String.eqb (vk_tenant_id k) tenant_id) (map snd (map_to_list (api_keys db))) in
    (Z.of_nat (length rows), sort_by (fun k => - vk_created_at k) rows)).

(** services/verifier_key_service.py, [get_key]. *)
Definition get_key (tenant_id key_id : string) : VM (option VerifierApiKey) :=
  query (fun db => match api_keys db !! key_id with
                   | Some k => if String.eqb (vk_tenant_id k) tenant_id then Some k else None
                   | None => None
                   end).

(** services/verifier_key_service.py, [revoke_key]. *)
Definition revoke_key (now : Z) (tenant_id key_id : string) : VM (option VerifierApiKey) :=
  let* row := get_key tenant_id key_id in
  match row with
  | None => ret None
  | Some k => match revoked_at k with
              | Some _ => ret (Some k)
              | None => write (with_keys (insert key_id (set_revoked now k))) ;;; ret (Some (set_revoked now k))
              end
  end.

(** services/verifier_key_service.py, [find_active_by_prefix]; the variant
    [_find_active_by_prefix_for_update] also locks the row, so the charges of a
    key run one after the other. *)
Definition find_active_by_prefix (prefix : string) : VM (option VerifierApiKey) :=
  query (fun db => find_row (active_with_prefix prefix) (api_keys db)).

(** services/verifier_key_service.py, [verify_plaintext]: two hexadecimal
    strings are compared. *)
Definition verify_plaintext (row : VerifierApiKey) (plaintext : string) : bool :=
  String.eqb (_hash_plaintext plaintext) (key_hash row).

(** services/verifier_key_service.py, [touch_last_used]. *)
Definition touch_last_used (now : Z) (row : VerifierApiKey) : VM unit :=
  write (with_keys (insert (vk_id row) (set_last_used now row))).

(** services/verifier_key_service.py, [charge_usage]; [now2] is the clock of the
    last use. *)
Definition charge_usage (now now2 : Z) (plaintext : string) : VM ChargeResult :=
  let period := _period_month_now now in
  let* found := find_active_by_prefix (_prefix_of plaintext) in
  let refused := {| cr_status := invalid_key; cr_api_key_id := None; cr_tenant_id := None;
                    cr_monthly_call_cap := None; current_period_count := 0; period_month := period |} in
  match found with
  | None => ret refused
  | Some row =>
      if negb (verify_plaintext row plaintext) then ret refused
      else
        let* usage := query (fun db => key_usage db !! (vk_id row, period)) in
        let new_count := match usage with None => 1 | Some n => n + 1 end in
        write (with_usage (insert (vk_id row, period) new_count)) ;;;
        touch_last_used now2 row ;;;
        let over := match monthly_call_cap row with Some cap => cap <? new_count | None => false end in
        ret {| cr_status := if over then quota_exceeded else charge_ok; cr_api_key_id := Some (vk_id row);
               cr_tenant_id := Some (vk_tenant_id row); cr_monthly_call_cap := monthly_call_cap row;
               current_period_count := new_count; period_month := period |}
  end.
End Service.

(** ** The endpoints *)

(** config.py: the settings of the verifier keys. *)
Record verifier_key_settings : Type := {
  verifier_internal_token : string;
  verifier_free_tier_monthly_cap : Z;
}.

(** schemas/verifier_api_key.py, [VerifierApiKeyCreate]. *)
Record VerifierApiKeyCreate : Type := { vc_name : string; vc_monthly_call_cap : option Z }.

(** schemas/verifier_api_key.py, [VerifierApiKeyChargeResponse]. *)
Record VerifierApiKeyChargeResponse : Type := {
  ch_api_key_id : string;
  ch_tenant_id : string;
  ch_monthly_call_cap : option Z;
  ch_current_period_count : Z;
  ch_period_month : string;
}.

(** What FastAPI answers to a body that its schema refuses. *)
Definition validation_error : web_error := HTTPException 422 "request_validation".

(** [hmac.compare_digest] of two [str]: both have to be ASCII. *)
Definition compare_digest {S} (a b : string) : M S web_error bool :=
  raise_if (negb (sall (in_range 0 127) a && sall (in_range 0 127) b)) (PyException "TypeError") ;;;
  ret (String.eqb a b).

Section Endpoints.
Context (cfg : verifier_key_settings) (sha256_hex : string -> string).
Local Abbreviation VM := (M (session VerifierDB) web_error).

(** api/v1/verifier_keys.py, [_ADMIN_ROLES]. *)
Definition _ADMIN_ROLES : list string := ["admin"; "owner"].

(** api/v1/verifier_keys.py, [_require_admin]. *)
Definition _require_admin (tu : TenantUser) : VM TenantUser :=
  raise_if (negb (existsb (String.eqb (lower (role tu))) _ADMIN_ROLES)) (HTTPException 403 "admin_required") ;;; ret tu.

(** schemas/verifier_api_key.py, [VerifierApiKeyCreate]: the constraints of the
    fields, the name being stripped first. *)
Definition validate_create (p : VerifierApiKeyCreate) : VM VerifierApiKeyCreate :=
  let name := strip (vc_name p) in
  raise_if (negb ((1 <=? slen name) && (slen name <=? 120)
                  && match vc_monthly_call_cap p with Some c => 0 <=? c | None => true end)) validation_error ;;;
  ret {| vc_name := name; vc_monthly_call_cap := vc_monthly_call_cap p |}.

(** api/v1/verifier_keys.py:123-128, [create_verifier_key]. *)
Definition effective_cap (c : option Z) : option Z :=
  match c with
  | None => Some (verifier_free_tier_monthly_cap cfg)
  | Some 0 => None
  | Some n => Some n
  end.

(** api/v1/verifier_keys.py, [create_verifier_key]. *)
Definition create_verifier_key (new_id tail : string) (created : Z) (tu : TenantUser) (payload : VerifierApiKeyCreate)
    : VM IssuedKey :=
  let* tu := _require_admin tu in
  let* p := validate_create payload in
  issue_key sha256_hex new_id tail created (tu_tenant_id tu) (vc_name p) (effective_cap (vc_monthly_call_cap p)) None.

(** api/v1/verifier_keys.py, [list_verifier_keys]. *)
Definition list_verifier_keys (tu : TenantUser) : VM (Z * list VerifierApiKey) :=
  let* tu := _require_admin tu in list_keys (tu_tenant_id tu).

(** api/v1/verifier_keys.py, [revoke_verifier_key]. *)
Definition revoke_verifier_key (now : Z) (tu : TenantUser) (key_id : string) : VM unit :=
  let* tu := _require_admin tu in
  let* row := revoke_key now (tu_tenant_id tu) key_id in
  or_raise row (HTTPException 404 "verifier_api_key_not_found") ;;; ret tt.

(** api/v1/verifier_keys.py, [_require_internal_token]. *)
Definition _require_internal_token (x_internal_token : option string) : VM unit :=
  let expected := verifier_internal_token cfg in
  raise_if (negb (truthy expected)) (HTTPException 503 "internal_token_not_configured") ;;;
  let refuse := raise (HTTPException 401 "invalid_internal_token") in
  match x_internal_token with
  | None => refuse
  | Some t => if negb (truthy t) then refuse
              else let* same := compare_digest t expected in if same then ret tt else refuse
  end.

(** api/v1/verifier_keys.py, [lookup_by_prefix]. *)
Definition lookup_by_prefix (x_internal_token : option string) (prefix : string) : VM VerifierApiKey :=
  _require_internal_token x_internal_token ;;;
  let* row := find_active_by_prefix prefix in
  or_raise row (HTTPException 404 "verifier_api_key_not_found").

(** api/v1/verifier_keys.py, [charge_verifier_key]; the body's field has 1 to
    200 characters. *)
Definition charge_verifier_key (now now2 : Z) (x_internal_token : option string) (plain : string)
    : VM VerifierApiKeyChargeResponse :=
  _require_internal_token x_internal_token ;;;
  raise_if (negb ((1 <=? slen plain) && (slen plain <=? 200))) validation_error ;;;
  let* result := charge_usage sha256_hex now now2 plain in
  match cr_status result with
  | invalid_key => raise (HTTPException 401 "invalid_api_key")
  | quota_exceeded => raise (HTTPException 402 "quota_exceeded")
  | charge_ok =>
      let* key_id := or_raise (cr_api_key_id result) (PyException "AssertionError") in
      let* tid := or_raise (cr_tenant_id result) (PyException "AssertionError") in
      ret {| ch_api_key_id := key_id; ch_tenant_id := tid; ch_monthly_call_cap := cr_monthly_call_cap result;
             ch_current_period_count := current_period_count result; ch_period_month := period_month result |}
  end.
End Endpoints.

(** ** Well-formed tables *)

Record keys_wf (db : VerifierDB) : Prop := {
  kw_id k row : api_keys db !! k = Some row -> vk_id row = k;
  kw_prefix k1 k2 r1 r2 : api_keys db !! k1 = Some r1 -> api_keys db !! k2 = Some r2 ->
    key_prefix r1 = key_prefix r2 -> k1 = k2;
  kw_usage k p : is_Some (key_usage db !! (k, p)) -> is_Some (api_keys db !! k);
}.

Lemma empty_keys_wf : keys_wf {| api_keys := ∅; key_usage := ∅ |}.
Proof. split; cbn; intros *; by rewrite ?lookup_empty. Qed.

(** A change of a row that keeps its identity and prefix. *)
Lemma update_wf db row f :
  keys_wf db -> api_keys db !! vk_id row = Some row -> (forall r, vk_id (f r) = vk_id r) ->
  (forall r, key_prefix (f r) = key_prefix r) -> keys_wf (with_keys (insert (vk_id row) (f row)) db).
Proof.
  intros Hwf Hrow Hid Hpre.
  assert (Hlook : forall k r, insert (vk_id row) (f row) (api_keys db) !! k = Some r ->
            vk_id r = k /\ exists r0, api_keys db !! k = Some r0 /\ key_prefix r0 = key_prefix r).
  { intros k r [(<- & <-)|(Hne & Hr)]%lookup_insert_Some.
    - rewrite Hid. eauto.
    - split; [by apply (kw_id db Hwf)|eauto]. }
  split; unfold with_keys; cbn [api_keys key_usage].
  - intros k r Hr. by apply Hlook.
  - intros k1 k2 r1 r2 (_ & a & Ha & Ea)%Hlook (_ & b & Hb & Eb)%Hlook E. apply (kw_prefix db Hwf k1 k2 a b); congruence.
  - intros k p Hk. apply (kw_usage db Hwf) in Hk. destruct (decide (k = vk_id row)) as [->|]; [rewrite lookup_insert_eq; eauto|].
    by rewrite lookup_insert_ne.
Qed.

Lemma usage_wf db k p n : keys_wf db -> is_Some (api_keys db !! k) -> keys_wf (with_usage (insert (k, p) n) db).
Proof.
  intros Hwf Hk. split; unfold with_usage; cbn [api_keys key_usage]; [apply (kw_id db Hwf)|apply (kw_prefix db Hwf)|].
  intros k' p' Hu. destruct (decide (k' = k)) as [->|Hne]; [done|].
  rewrite lookup_insert_ne in Hu by congruence. by apply (kw_usage db Hwf k' p').
Qed.

Lemma find_active_Some db prefix row :
  keys_wf db -> find_row (active_with_prefix prefix) (api_keys db) = Some row ->
  api_keys db !! vk_id row = Some row /\ key_prefix row = prefix /\ revoked_at row = None.
Proof.
  intros Hwf (k & Hk & [Hp Hr]%andb_true_iff)%find_row_Some. rewrite (kw_id db Hwf k row Hk).
  apply String.eqb_eq in Hp. split_and!; [done|done|]. by destruct (revoked_at row).
Qed.

Lemma find_active_intro db k row :
  keys_wf db -> api_keys db !! k = Some row -> revoked_at row = None ->
  find_row (active_with_prefix (key_prefix row)) (api_keys db) = Some row.
Proof.
  intros Hwf Hk Hr. apply (find_row_unique _ _ k); [done| |].
  - unfold active_with_prefix. by rewrite String.eqb_refl, Hr.
  - intros k' r' Hk' [Hp _]%andb_true_iff. apply String.eqb_eq in Hp. by apply (kw_prefix db Hwf k' k r' row).
Qed.

(** ** What each endpoint does *)

Section Runs.
Context (cfg : verifier_key_settings) (sha256_hex : string -> string).

(** The internal token is looked at before anything else, and nothing is
    written for it. *)
Definition internal_ok (tok : option string) : Prop :=
  truthy (verifier_internal_token cfg) = true /\ tok = Some (verifier_internal_token cfg) /\
  sall (in_range 0 127) (verifier_internal_token cfg) = true.

Lemma require_internal_ok tok s : internal_ok tok -> _require_internal_token cfg tok s = (Ok tt, s).
Proof.
  intros (Ht & -> & Ha). unfold _require_internal_token, compare_digest, raise_if, bind, ret.
  by rewrite Ht, Ha, String.eqb_refl.
Qed.

Lemma require_internal_inv tok s u s' : _require_internal_token cfg tok s = (Ok u, s') -> internal_ok tok /\ s' = s.
Proof.
  unfold _require_internal_token, compare_digest, internal_ok. intros Hrun. inv_run Hrun.
  destruct tok as [t|]; [|done]. destruct (truthy t) eqn:Ht; [|done]. cbn in Hrun. inv_run Hrun. inv_run Hrun0.
  destruct (String.eqb_spec t (verifier_internal_token cfg)) as [->|]; [|done].
  injection Hrun as _ ->. split_and!; try done.
  match goal with Ha : negb (_ && _) = false |- _ => by apply negb_false_iff, andb_true_iff in Ha as [? ?] end.
Qed.

Lemma require_internal_same tok : readonly (_require_internal_token cfg tok).
Proof.
  unfold _require_internal_token, compare_digest. apply readonly_bind; [auto with readonly|]. intros _.
  destruct tok as [t|]; [|done]. destruct (truthy t); [|done]. cbn.
  apply readonly_bind; [auto with readonly|]. by intros [].
Qed.

(** The counter after one more call, the row and the tables it leaves. *)
Definition next_count (db : VerifierDB) (row : VerifierApiKey) (period : string) : Z :=
  default 0 (key_usage db !! (vk_id row, period)) + 1.
Definition over_cap (row : VerifierApiKey) (n : Z) : bool :=
  match monthly_call_cap row with Some cap => cap <? n | None => false end.
Definition charged (now now2 : Z) (row : VerifierApiKey) (db : VerifierDB) : VerifierDB :=
  let period := _period_month_now now in
  with_keys (insert (vk_id row) (set_last_used now2 row))
    (with_usage (insert (vk_id row, period) (next_count db row period)) db).

Definition charge_answer (now : Z) (row : VerifierApiKey) (db : VerifierDB) : VerifierApiKeyChargeResponse :=
  {| ch_api_key_id := vk_id row; ch_tenant_id := vk_tenant_id row; ch_monthly_call_cap := monthly_call_cap row;
     ch_current_period_count := next_count db row (_period_month_now now); ch_period_month := _period_month_now now |}.

(** The key a plaintext is of. *)
Definition authenticated (db : VerifierDB) (plain : string) : option VerifierApiKey :=
  match find_row (active_with_prefix (_prefix_of plain)) (api_keys db) with
  | Some row => if verify_plaintext sha256_hex row plain then Some row else None
  | None => None
  end.

Definition plain_fits (plain : string) : bool := (1 <=? slen plain) && (slen plain <=? 200).

(** The charge request, on every branch: only a call that is let through leaves
    a trace; the increment of one over the cap is rolled back with its request. *)
Lemma charge_request now now2 tok plain db :
  internal_ok tok ->
  in_request (charge_verifier_key cfg sha256_hex now now2 tok plain) (Session db db) =
  if plain_fits plain then
    match authenticated db plain with
    | None => (Raise (HTTPException 401 "invalid_api_key"), Session db db)
    | Some row =>
        if over_cap row (next_count db row (_period_month_now now))
        then (Raise (HTTPException 402 "quota_exceeded"), Session db db)
        else (Ok (charge_answer now row db), Session (charged now now2 row db) (charged now now2 row db))
    end
  else (Raise validation_error, Session db db).
Proof.
  intros Hok. unfold in_request, charge_verifier_key. rewrite (bind_run _ _ _ tt (Session db db)) by by apply require_internal_ok.
  fold (plain_fits plain). unfold raise_if. destruct (plain_fits plain); [|done].
  unfold charge_usage, find_active_by_prefix, authenticated, query, reads, bind, ret, raise, write, modify, touch_last_used,
    charged, charge_answer, next_count, over_cap. generalize (_period_month_now now). intros period. cbn.
  destruct (find_row _ _) as [row|]; [|done]. destruct (verify_plaintext sha256_hex row plain); [|done]. cbn.
  destruct (key_usage db !! (vk_id row, period)) as [n|]; cbn;
    destruct (monthly_call_cap row) as [cap|]; cbn; try destruct (cap <? _); done.
Qed.

Lemma require_internal_error tok s e s' :
  _require_internal_token cfg tok s = (Raise e, s') -> match e with HTTPException c _ => 400 <= c | _ => True end.
Proof.
  unfold _require_internal_token, compare_digest, bind, raise_if, ret, raise.
  destruct (negb (truthy _)); [by intros [= <- _]|]. destruct tok as [t|]; [|by intros [= <- _]].
  destruct (truthy t); cbn; [|by intros [= <- _]]. destruct (negb _); [by intros [= <- _]|].
  destruct (String.eqb _ _); [done|]. by intros [= <- _].
Qed.

Lemma charge_refused now now2 tok plain db :
  ~ internal_ok tok -> exists e,
  in_request (charge_verifier_key cfg sha256_hex now now2 tok plain) (Session db db) = (Raise e, Session db db) /\
  match e with HTTPException c _ => 400 <= c | _ => True end.
Proof.
  intros Hno. unfold in_request, charge_verifier_key. unfold bind at 1.
  destruct (_require_internal_token cfg tok (Session db db)) as [[u|e] s1] eqn:Hrun.
  - apply require_internal_inv in Hrun as [? _]. done.
  - exists e. pose proof (readonly_run _ _ _ _ (require_internal_same tok) Hrun) as ->.
    split; [done|]. by apply require_internal_error in Hrun.
Qed.
End Runs.

(** ** The endpoints over time *)

Inductive vk_call : Type :=
| CreateKey (new_id tail : string) (created : Z) (tu : TenantUser) (payload : VerifierApiKeyCreate)
| ListKeys (tu : TenantUser)
| RevokeKey (now : Z) (tu : TenantUser) (key_id : string)
| LookupPrefix (tok : option string) (prefix : string)
| Charge (now now2 : Z) (tok : option string) (plain : string).

Inductive vk_answer : Type :=
| Created (r : result web_error IssuedKey)
| Listed (r : result web_error (Z * list VerifierApiKey))
| Revoked (r : result web_error unit)
| LookedUp (r : result web_error VerifierApiKey)
| Charged (r : result web_error VerifierApiKeyChargeResponse).

(** A call of [k] in the month [p] that was let through. *)
Definition let_through (k p : string) (a : vk_answer) : bool :=
  match a with
  | Charged (Ok r) => String.eqb (ch_api_key_id r) k && String.eqb (ch_period_month r) p
  | _ => false
  end.
Definition calls_let_through (k p : string) (l : list vk_answer) : Z := Z.of_nat (length (List.filter (let_through k p) l)).

Definition count (db : VerifierDB) (k p : string) : Z := default 0 (key_usage db !! (k, p)).

(** What never changes of a key, and that a revocation is final. *)
Record same_key (r r' : VerifierApiKey) : Prop := {
  sk_id : vk_id r' = vk_id r;
  sk_tenant : vk_tenant_id r' = vk_tenant_id r;
  sk_prefix : key_prefix r' = key_prefix r;
  sk_hash : key_hash r' = key_hash r;
  sk_cap : monthly_call_cap r' = monthly_call_cap r;
  sk_revoked : is_Some (revoked_at r) -> revoked_at r' = revoked_at r;
}.

#[export] Instance same_key_preorder : PreOrder same_key.
Proof.
  split; [by split|]. intros a b c [] []. split; try congruence. intros Ha. specialize (sk_revoked0 Ha).
  rewrite <- sk_revoked0 in Ha. specialize (sk_revoked1 Ha). congruence.
Qed.

(** No key is lost. *)
Definition evolves (db db' : VerifierDB) : Prop :=
  forall k r, api_keys db !! k = Some r -> exists r', api_keys db' !! k = Some r' /\ same_key r r'.

#[export] Instance evolves_preorder : PreOrder evolves.
Proof.
  split.
  - intros db k r Hr. by exists r.
  - intros a b c Hab Hbc k r Hr. destruct (Hab k r Hr) as (r1 & H1 & S1). destruct (Hbc k r1 H1) as (r2 & H2 & S2).
    exists r2. split; [done|]. by transitivity r1.
Qed.

(** Only a revocation by its identifier ends a key. *)
Definition stays_active (k : string) (db db' : VerifierDB) : Prop :=
  forall r, api_keys db !! k = Some r -> revoked_at r = None ->
  exists r', api_keys db' !! k = Some r' /\ revoked_at r' = None.

(** No counter is above the cap of its key. *)
Definition capped (db : VerifierDB) : Prop :=
  forall k p r cap, api_keys db !! k = Some r -> monthly_call_cap r = Some cap -> count db k p <= Z.max 0 cap.

Lemma update_evolves db row f :
  keys_wf db -> api_keys db !! vk_id row = Some row -> same_key row (f row) ->
  evolves db (with_keys (insert (vk_id row) (f row)) db).
Proof.
  intros Hwf Hrow Hf k r Hr. unfold with_keys. cbn [api_keys]. destruct (decide (k = vk_id row)) as [->|Hne].
  - rewrite lookup_insert_eq. exists (f row). split; [done|]. by replace r with row by congruence.
  - rewrite lookup_insert_ne by done. by exists r.
Qed.

Section Calls.
Context (cfg : verifier_key_settings) (sha256_hex : string -> string).

Definition answer {A} (f : result web_error A -> vk_answer) (m : M (session VerifierDB) web_error A) (db : VerifierDB)
    : vk_answer * VerifierDB :=
  let '(r, s) := in_request m (Session db db) in (f r, committed s).

Definition serve (c : vk_call) : VerifierDB -> vk_answer * VerifierDB :=
  match c with
  | CreateKey i tail created tu p => answer Created (create_verifier_key cfg sha256_hex i tail created tu p)
  | ListKeys tu => answer Listed (list_verifier_keys tu)
  | RevokeKey now tu i => answer Revoked (revoke_verifier_key now tu i)
  | LookupPrefix tok prefix => answer LookedUp (lookup_by_prefix cfg tok prefix)
  | Charge now now2 tok plain => answer Charged (charge_verifier_key cfg sha256_hex now now2 tok plain)
  end.

Fixpoint serve_all (l : list vk_call) (db : VerifierDB) : list vk_answer * VerifierDB :=
  match l with
  | [] => ([], db)
  | c :: l => let '(a, db1) := serve c db in let '(answers, db2) := serve_all l db1 in (a :: answers, db2)
  end.

(** What one request does to the tables. *)
Record step_ok (c : vk_call) (db : VerifierDB) (a : vk_answer) (db' : VerifierDB) : Prop := {
  st_wf : keys_wf db';
  st_evolves : evolves db db';
  st_active k : (forall now tu, c <> RevokeKey now tu k) -> stays_active k db db';
  st_count k p : count db' k p = count db k p + (if let_through k p a then 1 else 0);
  st_capped : capped db -> capped db';
}.

Lemma step_same c db a : keys_wf db -> (forall k p, let_through k p a = false) -> step_ok c db a db.
Proof.
  intros Hwf Ha. split; try done.
  - intros k _ r Hr Hn. by exists r.
  - intros k p. rewrite Ha. lia.
Qed.

#[local] Instance internal_ok_dec tok : Decision (internal_ok cfg tok).
Proof. unfold internal_ok. apply _. Defined.

Lemma conflict_false row db :
  key_conflict row db = false ->
  api_keys db !! vk_id row = None /\ forall k r, api_keys db !! k = Some r -> key_prefix r <> key_prefix row.
Proof.
  intros [H1 H2]%orb_false_iff. split; [by destruct (api_keys db !! vk_id row)|]. intros k r Hr.
  destruct (find_row _ _) eqn:Hf; [done|]. by apply String.eqb_neq, (find_row_None _ _ k r Hf Hr).
Qed.

(** A new row is under an unused key and has no calls yet. *)
Lemma insert_step c db row a :
  keys_wf db -> key_conflict row db = false -> (forall k p, let_through k p a = false) ->
  step_ok c db a (with_keys (insert (vk_id row) row) db).
Proof.
  intros Hwf [Hfresh Hpre]%conflict_false Ha.
  assert (Hnone : forall p, key_usage db !! (vk_id row, p) = None).
  { intros p. destruct (key_usage db !! (vk_id row, p)) eqn:Hu; [|done].
    destruct (kw_usage db Hwf (vk_id row) p) as [r Hr]; [eauto|]. congruence. }
  assert (Hkeep : forall k r, api_keys db !! k = Some r -> insert (vk_id row) row (api_keys db) !! k = Some r).
  { intros k r Hr. rewrite lookup_insert_ne; [done|congruence]. }
  split; unfold with_keys; cbn [api_keys key_usage].
  - split; cbn [api_keys key_usage].
    + intros k r [[<- <-]|[_ Hr]]%lookup_insert_Some; [done|by apply (kw_id db Hwf)].
    + intros k1 k2 r1 r2 [[<- <-]|[_ H1]]%lookup_insert_Some [[<- <-]|[_ H2]]%lookup_insert_Some E; [done| | |].
      * symmetry in E. by apply Hpre in H2.
      * by apply Hpre in H1.
      * by apply (kw_prefix db Hwf k1 k2 r1 r2).
    + intros k p Hu. destruct (kw_usage db Hwf k p Hu) as [r Hr]. eauto.
  - intros k r Hr. exists r. split; [by apply Hkeep|done].
  - intros k _ r Hr Hn. exists r. split; [by apply Hkeep|done].
  - intros k p. rewrite Ha. unfold count. cbn. lia.
  - unfold capped. cbn [api_keys]. intros Hcap k p r cap [[<- <-]|[_ Hr]]%lookup_insert_Some Hc; [|by apply (Hcap k p r)].
    unfold count. cbn. rewrite Hnone. cbn. lia.
Qed.

(** The request to issue a key either stores a new row or changes nothing. *)
Lemma create_request new_id tail created tu p db :
  (exists e, in_request (create_verifier_key cfg sha256_hex new_id tail created tu p) (Session db db) = (Raise e, Session db db)) \/
  exists row : VerifierApiKey, let db' := with_keys (insert new_id row) db in
    in_request (create_verifier_key cfg sha256_hex new_id tail created tu p) (Session db db) =
      (Ok {| issued_row := row; plaintext := _generate_plaintext tail |}, Session db' db') /\
    key_conflict row db = false /\ vk_id row = new_id /\ vk_tenant_id row = tu_tenant_id tu /\
    key_prefix row = _prefix_of (_generate_plaintext tail) /\ key_hash row = sha256_hex (_generate_plaintext tail) /\
    monthly_call_cap row = effective_cap cfg (vc_monthly_call_cap p) /\ revoked_at row = None.
Proof.
  unfold in_request, create_verifier_key, _require_admin, validate_create, issue_key, bind, raise_if, ret, raise, query, reads, write,
    modify. cbv zeta.
  destruct (negb (existsb _ _)); [left; by eexists|]. destruct (negb (_ && _)); [left; by eexists|].
  cbn -[key_conflict effective_cap]. destruct (negb (truthy _)); [left; by eexists|].
  match goal with |- context [key_conflict ?row ?d] => destruct (key_conflict row d) eqn:Hc end; [left; by eexists|]. right. eexists. split_and!; [reflexivity|exact Hc|done..].
Qed.

Lemma readonly_request {A} (m : M (session VerifierDB) web_error A) db :
  readonly m -> (in_request m (Session db db)).2 = Session db db.
Proof.
  intros Hm. unfold in_request. specialize (Hm (Session db db)).
  destruct (m (Session db db)) as [[a|e] s]; cbn in *; by subst.
Qed.

Lemma revoke_request now tu i db :
  keys_wf db ->
  (in_request (revoke_verifier_key now tu i) (Session db db)).2 = Session db db \/
  exists row : VerifierApiKey, let db' := with_keys (insert (vk_id row) (set_revoked now row)) db in
    api_keys db !! i = Some row /\ vk_id row = i /\ revoked_at row = None /\
    in_request (revoke_verifier_key now tu i) (Session db db) = (Ok tt, Session db' db').
Proof.
  intros Hwf. unfold in_request, revoke_verifier_key, _require_admin, revoke_key, get_key, bind, raise_if, ret, raise, query, reads,
    write, modify, or_raise.
  destruct (negb (existsb _ _)); [by left|]. cbn. destruct (api_keys db !! i) as [row|] eqn:Hrow; [|by left].
  destruct (String.eqb _ _); [|by left]. destruct (revoked_at row) eqn:Hr; [by left|]. right. exists row.
  pose proof (kw_id db Hwf i row Hrow) as Hi. rewrite Hi. by split_and!.
Qed.

Lemma count_insert db k p n k' p' :
  count (with_usage (insert (k, p) n) db) k' p' = if String.eqb k k' && String.eqb p p' then n else count db k' p'.
Proof.
  unfold count, with_usage. cbn [key_usage]. destruct (String.eqb_spec k k') as [->|]; cbn.
  - destruct (String.eqb_spec p p') as [->|]; [by rewrite lookup_insert_eq|]. rewrite lookup_insert_ne; [done|congruence].
  - rewrite lookup_insert_ne; [done|congruence].
Qed.

Lemma last_used_same now row : same_key row (set_last_used now row).
Proof. by split. Qed.

(** A call that is let through. *)
Lemma charge_step c now now2 row db :
  keys_wf db -> api_keys db !! vk_id row = Some row -> over_cap row (next_count db row (_period_month_now now)) = false ->
  step_ok c db (Charged (Ok (charge_answer now row db))) (charged now now2 row db).
Proof.
  intros Hwf Hrow Hcap. unfold charged. set (p0 := _period_month_now now) in *. set (n := next_count db row p0) in *.
  set (db1 := with_usage (insert (vk_id row, p0) n) db).
  assert (Hwf1 : keys_wf db1) by (apply usage_wf; eauto).
  assert (Hcount : forall k p, count (with_keys (insert (vk_id row) (set_last_used now2 row)) db1) k p =
            count db k p + (if String.eqb (vk_id row) k && String.eqb p0 p then 1 else 0)).
  { intros k p. change (count (with_keys _ db1) k p) with (count db1 k p). unfold db1. rewrite count_insert.
    destruct (String.eqb_spec (vk_id row) k) as [<-|], (String.eqb_spec p0 p) as [<-|]; cbn [andb]; try lia.
    unfold n, next_count, count. lia. }
  split.
  - by apply (update_wf db1 row (set_last_used now2)).
  - transitivity db1; [intros k r Hr; by exists r|]. apply (update_evolves db1); [done..|apply last_used_same].
  - intros k _ r Hr Hn. unfold with_keys. cbn [api_keys]. destruct (decide (k = vk_id row)) as [->|Hne].
    + rewrite lookup_insert_eq. eexists. split; [done|]. cbn. by replace row with r by congruence.
    + rewrite lookup_insert_ne by done. by exists r.
  - intros k p. apply Hcount.
  - intros Hcapped k p r cap Hr Hc. rewrite Hcount. unfold with_keys in Hr. cbn [api_keys] in Hr.
    destruct (String.eqb_spec (vk_id row) k) as [<-|Hne]; cbn [andb].
    + rewrite lookup_insert_eq in Hr. injection Hr as <-. cbn in Hc. specialize (Hcapped _ p row cap Hrow Hc).
      destruct (String.eqb_spec p0 p) as [<-|]; [|lia].
      unfold over_cap in Hcap. rewrite Hc in Hcap. unfold n, next_count in Hcap. unfold count in *. lia.
    + rewrite lookup_insert_ne in Hr by done. specialize (Hcapped k p r cap Hr Hc). lia.
Qed.

(** Every request keeps the tables well formed, loses no key, and counts
    exactly the calls it lets through. *)
Lemma serve_step c db : keys_wf db -> step_ok c db (serve c db).1 (serve c db).2.
Proof.
  intros Hwf.
  assert (Hro : forall A (f : result web_error A -> vk_answer) m, readonly m -> (forall r k p, let_through k p (f r) = false) ->
            step_ok c db (answer f m db).1 (answer f m db).2).
  { intros A f m Hm Hf. unfold answer. pose proof (readonly_request m db Hm) as Hs.
    destruct (in_request m (Session db db)) as [r s]. cbn in *. subst. by apply step_same. }
  destruct c as [i tail created tu p|tu|now tu i|tok prefix|now now2 tok plain]; cbn [serve].
  - unfold answer. destruct (create_request i tail created tu p db) as [[e ->]|(row & -> & Hc & <- & _)]; cbn.
    + by apply step_same.
    + by apply insert_step.
  - apply Hro; [|done]. unfold list_verifier_keys, _require_admin, list_keys, query. auto 10 with readonly.
  - unfold answer. destruct (revoke_request now tu i db Hwf) as [Hs|(row & Hrow & <- & Hn & ->)]; cbn.
    + destruct (in_request _ _) as [r s]. cbn in *. subst. by apply step_same.
    + split; [by apply update_wf|apply update_evolves; try done; split; cbn; try done; by rewrite Hn; intros []| | |].
      * intros k Hk r Hr Hnr. destruct (decide (k = vk_id row)) as [->|Hne]; [by destruct (Hk now tu)|].
        exists r. unfold with_keys. cbn [api_keys]. by rewrite lookup_insert_ne.
      * intros k p. cbn. unfold count. cbn. lia.
      * intros Hcap k p r cap. unfold with_keys. cbn [api_keys].
        intros [[<- <-]|[_ Hr]]%lookup_insert_Some Hc; [by apply (Hcap _ p row)|by apply (Hcap k p r)].
  - apply Hro; [|done]. unfold lookup_by_prefix, find_active_by_prefix, query.
    apply readonly_bind; [apply require_internal_same|]. auto 10 with readonly.
  - unfold answer. destruct (decide (internal_ok cfg tok)) as [Hok|Hno].
    + rewrite charge_request by done. destruct (plain_fits plain); [|by apply step_same].
      unfold authenticated. destruct (find_row _ _) as [row|] eqn:Hf; [|by apply step_same].
      destruct (verify_plaintext sha256_hex row plain); [|by apply step_same].
      destruct (over_cap row _) eqn:Hover; [by apply step_same|]. cbn.
      apply find_active_Some in Hf as (Hrow & _ & _); [|done]. by apply charge_step.
    + destruct (charge_refused cfg sha256_hex now now2 tok plain db Hno) as (e & -> & _). by apply step_same.
Qed.

Lemma serve_all_ok l db :
  keys_wf db ->
  let '(answers, db') := serve_all l db in
  keys_wf db' /\ evolves db db' /\ (capped db -> capped db') /\
  (forall k p, count db' k p = count db k p + calls_let_through k p answers) /\
  (forall k, (forall now tu, ~ In (RevokeKey now tu k) l) -> stays_active k db db').
Proof.
  revert db. induction l as [|c l IH]; intros db Hwf; cbn [serve_all].
  { split_and!; try done; [intros k p; change (calls_let_through k p []) with 0; lia|]. intros k _ r Hr Hn. by exists r. }
  pose proof (serve_step c db Hwf) as Hstep. destruct (serve c db) as [a db1]. cbn in Hstep. destruct Hstep as [Hwf1 Hev Hact Hcnt Hcap].
  specialize (IH db1 Hwf1). destruct (serve_all l db1) as [answers db2]. destruct IH as (Hwf2 & Hev2 & Hcap2 & Hcnt2 & Hact2).
  split_and!; [done|by transitivity db1|auto| |].
  - intros k p. rewrite Hcnt2, Hcnt. unfold calls_let_through. cbn [List.filter]. destruct (let_through k p a); cbn [length]; lia.
  - intros k Hk r Hr Hn. destruct (Hact k) with (r := r) as (r1 & Hr1 & Hn1); [|done|done|].
    + intros now tu ->. by apply (Hk now tu); left.
    + apply (Hact2 k) with (r := r1); [|done|done]. intros now tu Hin. apply (Hk now tu). by right.
Qed.

(** C16. The monthly cap holds: whatever requests are made of the key endpoints,
    in any order and by anyone, a key's counter of a month is exactly the number
    of calls that were let through with it in that month, and never more of
    them are than its cap. *)
Theorem monthly_cap_enforced l k p row :
  let '(answers, db) := serve_all l {| api_keys := ∅; key_usage := ∅ |} in
  api_keys db !! k = Some row ->
  count db k p = calls_let_through k p answers /\
  forall cap, monthly_call_cap row = Some cap -> calls_let_through k p answers <= Z.max 0 cap.
Proof.
  pose proof (serve_all_ok l _ empty_keys_wf) as Hok. destruct (serve_all l _) as [answers db].
  destruct Hok as (_ & _ & Hcap & Hcount & _). intros Hrow.
  assert (Hc : count db k p = calls_let_through k p answers).
  { rewrite Hcount. unfold count. cbn. by rewrite lookup_empty. }
  split; [done|]. intros cap Hk. rewrite <- Hc. apply (Hcap) with (r := row); [|done|done].
  intros k' p' r c Hr. cbn in Hr. by rewrite lookup_empty in Hr.
Qed.

(** A revocation that was answered leaves the key revoked. *)
Lemma revoke_answered db now tu key_id db1 row :
  keys_wf db -> serve (RevokeKey now tu key_id) db = (Revoked (Ok tt), db1) -> api_keys db !! key_id = Some row ->
  keys_wf db1 /\ exists r1, api_keys db1 !! key_id = Some r1 /\ same_key row r1 /\ is_Some (revoked_at r1).
Proof.
  intros Hwf Hrev Hrow. pose proof (serve_step (RevokeKey now tu key_id) db Hwf) as [Hwf1 Hev _ _ _]. rewrite Hrev in Hwf1, Hev.
  split; [exact Hwf1|].
  destruct (Hev key_id row Hrow) as (r1 & Hr1 & Hsame). exists r1. split_and!; try done.
  revert Hrev. cbn [serve]. unfold answer. unfold in_request, revoke_verifier_key, _require_admin, revoke_key, get_key, bind,
    raise_if, ret, raise, query, reads, write, modify, or_raise. destruct (negb (existsb _ _)); [done|]. cbn. rewrite Hrow.
  destruct (String.eqb _ _); [|done]. destruct (revoked_at row) as [d|] eqn:Hd; cbn; intros [= Hdb].
  - subst db1. cbn [snd] in Hr1. rewrite Hr1 in Hrow. injection Hrow as ->. by rewrite Hd.
  - rewrite <- Hdb in Hr1. unfold with_keys in Hr1. cbn [api_keys snd] in Hr1. rewrite lookup_insert_eq in Hr1.
    injection Hr1 as <-. by eexists.
Qed.

(** A revocation is final: once a key's revocation was answered, no charge
    with a plaintext of its prefix succeeds or writes anything, whatever
    requests are made in between - issuing further keys included. *)
Theorem revoked_key_refused db now tu key_id db1 row l now1 now2 tok plain :
  keys_wf db -> serve (RevokeKey now tu key_id) db = (Revoked (Ok tt), db1) ->
  api_keys db !! key_id = Some row -> _prefix_of plain = key_prefix row ->
  let db2 := (serve_all l db1).2 in
  exists e, serve (Charge now1 now2 tok plain) db2 = (Charged (Raise e), db2).
Proof.
  intros Hwf Hrev Hrow Hpre db2.
  destruct (revoke_answered db now tu key_id db1 row Hwf Hrev Hrow) as (Hwf1 & r1 & Hr1 & Hs1 & Hn1).
  pose proof (serve_all_ok l db1 Hwf1) as Hall. subst db2. destruct (serve_all l db1) as [answers db2]. cbn.
  destruct Hall as (Hwf2 & Hev2 & _ & _ & _). destruct (Hev2 key_id r1 Hr1) as (r2 & Hr2 & Hs2).
  unfold answer. destruct (decide (internal_ok cfg tok)) as [Hok|Hno].
  - rewrite charge_request by done. destruct (plain_fits plain); [|by eexists]. unfold authenticated.
    destruct (find_row _ _) as [r|] eqn:Hf; [|by eexists]. exfalso.
    apply find_active_Some in Hf as (Hr & Hp & Hact); [|done].
    assert (Hid : vk_id r = key_id).
    { apply (kw_prefix db2 Hwf2 _ _ r r2 Hr Hr2). rewrite (sk_prefix _ _ Hs2), (sk_prefix _ _ Hs1). congruence. }
    rewrite Hid in Hr. rewrite Hr in Hr2. injection Hr2 as ->.
    rewrite (sk_revoked _ _ Hs2 Hn1) in Hact. rewrite Hact in Hn1. by destruct Hn1.
  - destruct (charge_refused cfg sha256_hex now1 now2 tok plain db2 Hno) as (e & -> & _). by exists e.
Qed.
(** From issue to use: the plaintext that was shown when a key was issued is
    accepted by the charge endpoint, for the tenant of the issuer and with the
    next count of the month, after any requests that do not revoke that key, as
    long as fewer calls than its cap were let through in the month. *)
Theorem issued_key_is_accepted db new_id tail created tu payload issued db1 l answers db2 now now2 tok :
  keys_wf db -> serve (CreateKey new_id tail created tu payload) db = (Created (Ok issued), db1) ->
  (String.length tail <= 192)%nat -> serve_all l db1 = (answers, db2) ->
  (forall t u, ~ In (RevokeKey t u new_id) l) -> internal_ok cfg tok ->
  let calls := calls_let_through new_id (_period_month_now now) answers in
  (forall cap, effective_cap cfg (vc_monthly_call_cap payload) = Some cap -> calls < cap) ->
  exists r db3, serve (Charge now now2 tok (plaintext issued)) db2 = (Charged (Ok r), db3) /\
    ch_api_key_id r = new_id /\ ch_tenant_id r = tu_tenant_id tu /\ ch_current_period_count r = calls + 1.
Proof.
  intros Hwf Hnew Hlen Hall Hnorev Hok calls Hcap. unfold calls in *. clear calls.
  pose proof (serve_step (CreateKey new_id tail created tu payload) db Hwf) as [Hwf1 _ _ _ _]. rewrite Hnew in Hwf1.
  revert Hnew. cbn [serve]. unfold answer at 1.
  destruct (create_request new_id tail created tu payload db) as [[e ->]|(row & -> & Hc & Hid & Htid & Hpre & Hhash & Hcapr & Hact)]; [done|].
  cbn -[with_keys _generate_plaintext]. intros [= <- Hdb1]. cbn [plaintext snd] in *.
  assert (Hr1 : api_keys db1 !! new_id = Some row).
  { rewrite <- Hdb1. unfold with_keys. cbn [api_keys]. by rewrite lookup_insert_eq. }
  assert (Hc1 : forall p, count db1 new_id p = 0).
  { intros p. rewrite <- Hdb1. unfold count, with_keys. cbn [key_usage].
    destruct (key_usage db !! (new_id, p)) as [n|] eqn:Hu; [|done]. apply conflict_false in Hc as [Hc _]. rewrite Hid in Hc.
    destruct (kw_usage db Hwf new_id p) as [? ?]; [eauto|]. congruence. }
  pose proof (serve_all_ok l db1 Hwf1) as Hstep. rewrite Hall in Hstep. destruct Hstep as (Hwf2 & Hev & _ & Hcnt & Hact2).
  destruct (Hact2 new_id Hnorev row Hr1 Hact) as (r2 & Hr2 & Hn2). destruct (Hev new_id row Hr1) as (r2' & Hr2' & Hsame).
  rewrite Hr2 in Hr2'. injection Hr2' as <-.
  assert (Hn : next_count db2 r2 (_period_month_now now) = calls_let_through new_id (_period_month_now now) answers + 1).
  { unfold next_count. rewrite (kw_id db2 Hwf2 new_id r2 Hr2). fold (count db2 new_id (_period_month_now now)).
    rewrite Hcnt, Hc1. lia. }
  unfold answer. rewrite charge_request by done.
  replace (plain_fits _) with true; [|unfold plain_fits, _generate_plaintext, slen; rewrite length_append; cbn; lia].
  unfold authenticated. rewrite <- Hpre, <- (sk_prefix _ _ Hsame), (find_active_intro db2 new_id r2) by done.
  unfold verify_plaintext, _hash_plaintext. rewrite (sk_hash _ _ Hsame), Hhash, String.eqb_refl.
  replace (over_cap r2 _) with false; [|rewrite Hn; unfold over_cap; rewrite (sk_cap _ _ Hsame), Hcapr;
    destruct (effective_cap _ _) as [cap|]; [|done]; specialize (Hcap cap eq_refl); lia].
  eexists _, _. split; [reflexivity|]. cbn -[_period_month_now]. rewrite (kw_id db2 Hwf2 new_id r2 Hr2), (sk_tenant _ _ Hsame). done.
Qed.
End Calls.

(** ** A concrete run *)

Module DemoVerifierKeys.
Definition settings : verifier_key_settings :=
  {| verifier_internal_token := "internal"; verifier_free_tier_monthly_cap := 10000 |}.
Definition owner : TenantUser := {| tu_tenant_id := "t1"; tu_user_id := "u1"; role := "Owner" |}.
Definition empty_db : VerifierDB := {| api_keys := ∅; key_usage := ∅ |}.
Definition issue : vk_call :=
  CreateKey "k1" "tail-of-32-random-bytes" 0 owner {| vc_name := " gateway "; vc_monthly_call_cap := Some 1 |}.
Definition use : vk_call := Charge 0 0 (Some "internal") "vk_live_tail-of-32-random-bytes".
Definition codes (l : list vk_answer) : list Z :=
  map (fun a => match a with
                | Charged (Raise (HTTPException c _)) | Revoked (Raise (HTTPException c _)) => c
                | Created (Ok _) => 201 | Revoked (Ok _) => 204 | Charged (Ok _) => 200 | _ => 500
                end) l.

(** One call is let through, the next is over the cap, and after the revocation
    the key is unknown; the counter stays at one. *)
Example one_call_only :
  codes (serve_all settings id [issue; use; use; RevokeKey 1 owner "k1"; use] empty_db).1 = [201; 200; 402; 204; 401].
Proof. vm_compute. reflexivity. Qed.

Definition after_issue : VerifierDB := (serve settings id issue empty_db).2.
Definition issued_key : IssuedKey :=
  match (serve settings id issue empty_db).1 with
  | Created (Ok i) => i
  | _ => {| issued_row := {| vk_id := ""; vk_tenant_id := ""; vk_name := ""; key_prefix := ""; key_hash := "";
              monthly_call_cap := None; last_used_at := None; created_by_operator_id := None; vk_created_at := 0;
              revoked_at := None |}; plaintext := "" |}
  end.

Lemma monthly_cap_enforced_witness :
  let '(answers, db) := serve_all settings id [issue; use; use] empty_db in
  calls_let_through "k1" "1970-01" answers = 1 /\ calls_let_through "k1" "1970-01" answers <= Z.max 0 1.
Proof.
  pose proof (monthly_cap_enforced settings id [issue; use; use] "k1" "1970-01") as Hall.
  change {| api_keys := ∅; key_usage := ∅ |} with empty_db in Hall.
  destruct (serve_all settings id [issue; use; use] empty_db) as [answers db] eqn:Hrun.
  assert (Hrow : exists row, api_keys db !! "k1" = Some row /\ monthly_call_cap row = Some 1).
  { replace db with (serve_all settings id [issue; use; use] empty_db).2 by (by rewrite Hrun). vm_compute. eauto. }
  destruct Hrow as (row & Hrow & Hcap). destruct (Hall row Hrow) as [_ Hle]. split; [|by apply Hle].
  replace answers with (serve_all settings id [issue; use; use] empty_db).1 by (by rewrite Hrun). vm_compute. reflexivity.
Defined.

Lemma revoked_key_refused_witness :
  let db1 := (serve settings id (RevokeKey 1 owner "k1") after_issue).2 in
  exists e, serve settings id use (serve_all settings id [issue; use] db1).2 =
            (Charged (Raise e), (serve_all settings id [issue; use] db1).2).
Proof.
  intros db1. unfold use at 2. destruct (api_keys after_issue !! "k1") as [row|] eqn:Hrow; [|vm_compute in Hrow; done].
  apply (revoked_key_refused settings id after_issue 1 owner "k1" db1 row).
  - apply (st_wf _ _ _ _ (serve_step settings id issue empty_db empty_keys_wf)).
  - vm_compute. reflexivity.
  - exact Hrow.
  - vm_compute in Hrow. injection Hrow as <-. vm_compute. reflexivity.
Defined.

Lemma issued_key_is_accepted_witness : exists r db3,
  serve settings id (Charge 5 5 (Some "internal") (plaintext issued_key)) (serve_all settings id [ListKeys owner] after_issue).2 =
    (Charged (Ok r), db3) /\ ch_api_key_id r = "k1" /\ ch_tenant_id r = "t1".
Proof.
  destruct (issued_key_is_accepted settings id empty_db "k1" "tail-of-32-random-bytes" 0 owner
    {| vc_name := " gateway "; vc_monthly_call_cap := Some 1 |} issued_key after_issue [ListKeys owner]
    (serve_all settings id [ListKeys owner] after_issue).1 (serve_all settings id [ListKeys owner] after_issue).2
    5 5 (Some "internal")) as (r & db3 & Hrun & Hid & Htid & _).
  - exact empty_keys_wf.
  - vm_compute. reflexivity.
  - cbn. lia.
  - by destruct (serve_all settings id [ListKeys owner] after_issue).
  - intros t u [|[]]. done.
  - vm_compute. auto.
  - intros cap [= <-]. vm_compute. reflexivity.
  - exists r, db3. auto.
Defined.
End DemoVerifierKeys.
