(* ===== verification/VerifierGate.v ===== *)
(** * The gate of the public verifier

    verifier/app/api_key.py: a call of [/verify/*] with an API key is charged at
    the backend's internal endpoint ([VerifierKeys.charge_verifier_key]) and one
    without a key is rate limited by its client address.  The rate limiter is
    the [limits] package: its state and its [hit] are variables.  The network
    between the two services can lose a request or its response. *)

From Stdlib Require Import Ascii.
From S2P Require Import Prelude PyStr Json PyTime Accounts VerifierKeys.

(** verifier/main.py, [VerifierSettings]: the settings the gate reads, the rate
    limits being parsed by [limits.parse_many]. *)
Record gate_settings : Type := { backend_internal_token : string; unauth_rate_limit : list string }.

(** What becomes of a POST: the connection fails before or after the backend
    handled it, or it is answered. *)
Inductive delivery : Type := Delivered | RequestLost | ResponseLost.

(** What the middleware does: it calls the endpoint, with the key and the
    tenant it left in [request.state], or it answers itself. *)
Inductive gate : Type :=
| CallNext (state : option (json * json))
| Respond (status : Z) (body : json).

(** verifier/api_key.py, [_is_verify_path]. *)
Definition _is_verify_path (path : string) : bool := startswith "/verify/" path.

(** verifier/api_key.py, [_client_ip]. *)
Definition _client_ip (forwarded_for host : option string) : string :=
  match forwarded_for with
  | Some f => if truthy f then strip (partition_char "," f).1.1 else default "unknown" host
  | None => default "unknown" host
  end.

(** The body of a successful charge; those of the errors are a variable. *)
Definition charge_json (r : VerifierApiKeyChargeResponse) : json :=
  JObj [("api_key_id", JStr (ch_api_key_id r)); ("tenant_id", JStr (ch_tenant_id r));
        ("monthly_call_cap", match ch_monthly_call_cap r with Some c => JInt c | None => JNull end);
        ("current_period_count", JInt (ch_current_period_count r)); ("period_month", JStr (ch_period_month r))].

Section Gate.
Context (backend_cfg : verifier_key_settings) (sha256_hex : string -> string) (error_body : web_error -> json).
Context (settings : gate_settings).
(** [limits]: the limiter's state and [hit(item, "verify", ip)]. *)
Context {L : Type} (hit : string -> string -> L -> bool * L).

(** Both services: the backend's tables and the limiter's counters. *)
Definition world : Type := VerifierDB * L.

Definition unavailable (detail : string) : Z * json := (503, JObj [("detail", JStr detail)]).

(** The status and body of a charge. *)
Definition charge_response (a : vk_answer) : Z * json :=
  match a with
  | Charged (Ok r) => (200, charge_json r)
  | Charged (Raise (HTTPException code c)) => (code, error_body (HTTPException code c))
  | Charged (Raise e) => (500, error_body e)
  | _ => (500, JNull)
  end.

(** [if not isinstance(body, dict): body = {"detail": body}] *)
Definition as_dict (body : json) : json := match body with JObj _ => body | _ => JObj [("detail", body)] end.

(** verifier/api_key.py, [_charge_backend]. *)
Definition _charge_backend (net : delivery) (now now2 : Z) (plaintext : string) (db : VerifierDB)
    : (Z * json) * VerifierDB :=
  if negb (truthy (backend_internal_token settings))
  then (unavailable "Verifier API key auth not configured", db)
  else
    let '(a, db') := serve backend_cfg sha256_hex (Charge now now2 (Some (backend_internal_token settings)) plaintext) db in
    match net with
    | RequestLost => (unavailable "Verifier auth backend unreachable", db)
    | ResponseLost => (unavailable "Verifier auth backend unreachable", db')
    | Delivered => let '(code, body) := charge_response a in ((code, as_dict body), db')
    end.

(** verifier/api_key.py, [_rate_limit_exceeded]. *)
Definition _rate_limit_exceeded : gate :=
  Respond 429 (JObj [("detail", JStr "Rate limit exceeded. Provide an X-Verify-API-Key to raise your limits.")]).

(** verifier/api_key.py:147-150, [enforce_api_key_or_rate_limit]: the loop over
    the limits. *)
Fixpoint hit_all (items : list string) (ip : string) (l : L) : bool * L :=
  match items with
  | [] => (true, l)
  | item :: r => let '(ok, l1) := hit item ip l in if ok then hit_all r ip l1 else (false, l1)
  end.

(** A request to the verifier. *)
Record visit : Type := {
  v_net : delivery;
  v_now : Z;
  v_now2 : Z;
  v_path : string;
  v_api_key : option string;
  v_forwarded_for : option string;
  v_host : option string;
}.

(** verifier/api_key.py, [enforce_api_key_or_rate_limit]. *)
Definition enforce_api_key_or_rate_limit (v : visit) (w : world) : gate * world :=
  let '(db, l) := w in
  let without_key :=
    let '(ok, l') := hit_all (unauth_rate_limit settings) (_client_ip (v_forwarded_for v) (v_host v)) l in
    (if ok then CallNext None else _rate_limit_exceeded, (db, l')) in
  if negb (_is_verify_path (v_path v)) then (CallNext None, w)
  else match v_api_key v with
       | Some key =>
           if truthy key then
             let '((status, body), db') := _charge_backend (v_net v) (v_now v) (v_now2 v) key db in
             (if status =? 200
              then CallNext (Some (default JNull (jget "api_key_id" body), default JNull (jget "tenant_id" body)))
              else if status =? 401 then Respond 401 (JObj [("detail", JObj [("code", JStr "invalid_api_key")])])
              else if status =? 402 then Respond 402 body
              else Respond 503 (JObj [("detail", JStr "Verifier auth temporarily unavailable")]), (db', l))
           else without_key
       | None => without_key
       end.

(** ** Both services over time *)

(** A request to the backend's key endpoints, or a visit. *)
Inductive event : Type :=
| KeyCall (c : vk_call)
| Visit (v : visit).

Definition step (e : event) (w : world) : option (visit * gate) * world :=
  match e with
  | KeyCall c => (None, ((serve backend_cfg sha256_hex c w.1).2, w.2))
  | Visit v => let '(g, w') := enforce_api_key_or_rate_limit v w in (Some (v, g), w')
  end.

Fixpoint run (l : list event) (w : world) : list (option (visit * gate)) * world :=
  match l with
  | [] => ([], w)
  | e :: l => let '(o, w1) := step e w in let '(os, w2) := run l w1 in (o :: os, w2)
  end.

(** A visit of the month [p] that was let through with the key [k]. *)
Definition passed (k p : string) (o : option (visit * gate)) : bool :=
  match o with
  | Some (v, CallNext (Some (JStr i, _))) => String.eqb i k && String.eqb (_period_month_now (v_now v)) p
  | _ => false
  end.

Definition passes (k p : string) (os : list (option (visit * gate))) : Z :=
  Z.of_nat (length (List.filter (passed k p) os)).
End Gate.

(** ** Lemmas *)

Section Counting.
Context (backend_cfg : verifier_key_settings) (sha256_hex : string -> string) (error_body : web_error -> json).
Context (settings : gate_settings) {L : Type} (hit : string -> string -> L -> bool * L).

(** A charge either fails with an error status or is of the month of the
    backend's clock. *)
Lemma charge_answered now now2 tok plain db :
  match (serve backend_cfg sha256_hex (Charge now now2 tok plain) db).1 with
  | Charged (Ok r) => ch_period_month r = _period_month_now now
  | Charged (Raise (HTTPException code _)) => 400 <= code
  | Charged _ => True
  | _ => False
  end.
Proof.
  cbn [serve]. unfold answer. destruct (decide (internal_ok backend_cfg tok)) as [Hok|Hno].
  - rewrite charge_request by done. destruct (plain_fits plain); [|done].
    destruct (authenticated sha256_hex db plain) as [row|]; [|done]. by destruct (over_cap row _).
  - by destruct (charge_refused backend_cfg sha256_hex now now2 tok plain db Hno) as ([] & -> & He).
Qed.

(** The backend's tables after a charge through the network: a 200 that names
    the key [k] was counted for it. *)
Lemma charge_backend_spec net now now2 plain db :
  keys_wf db ->
  let '((code, body), db') := _charge_backend backend_cfg sha256_hex error_body settings net now now2 plain db in
  keys_wf db' /\ (capped db -> capped db') /\ (forall k p, count db k p <= count db' k p) /\
  forall k, code = 200 -> jget "api_key_id" body = Some (JStr k) ->
    count db k (_period_month_now now) + 1 <= count db' k (_period_month_now now).
Proof.
  intros Hwf. unfold _charge_backend. destruct (negb _); [by split_and!; try done|].
  set (c := Charge now now2 (Some (backend_internal_token settings)) plain).
  pose proof (charge_answered now now2 (Some (backend_internal_token settings)) plain db) as Hans. fold c in Hans.
  pose proof (serve_step backend_cfg sha256_hex c db Hwf) as [Hwf' _ _ Hcount Hcap].
  destruct (serve backend_cfg sha256_hex c db) as [a db']. cbn [fst snd] in *.
  assert (Hmono : forall k p, count db k p <= count db' k p).
  { intros k p. rewrite Hcount. destruct (let_through k p a); lia. }
  destruct net; [|by split_and!|by split_and!].
  destruct (charge_response error_body a) as [code body] eqn:Hresp. split_and!; [done..|].
  intros k -> Hk. rewrite Hcount. destruct a as [| | | |[r|[code' d|what]]]; try done; cbn in Hresp.
  - injection Hresp as <-. cbn in Hk. injection Hk as <-. cbn [let_through]. rewrite Hans, !String.eqb_refl. cbn. lia.
  - injection Hresp as -> _. lia.
Qed.

Lemma step_spec e (w : world) :
  keys_wf w.1 ->
  let '(o, w') := step backend_cfg sha256_hex error_body settings hit e w in
  keys_wf w'.1 /\ (capped w.1 -> capped w'.1) /\
  forall k p, count w.1 k p + (if passed k p o then 1 else 0) <= count w'.1 k p.
Proof.
  intros Hwf. destruct e as [c|v]; cbn [step].
  - pose proof (serve_step backend_cfg sha256_hex c w.1 Hwf) as [? _ _ Hcount ?]. cbn [fst]. split_and!; [done..|].
    intros k p. rewrite Hcount. cbn [passed]. destruct (let_through k p _); lia.
  - destruct w as [db l]. unfold enforce_api_key_or_rate_limit. destruct (hit_all hit _ _ l) as [ok l'].
    assert (Hsame : forall g l1, (forall i t, g <> CallNext (Some (i, t))) ->
      keys_wf (db, l1 : L).1 /\ (capped (db, l).1 -> capped (db, l1).1) /\
      forall k p, count (db, l).1 k p + (if passed k p (Some (v, g)) then 1 else 0) <= count (db, l1).1 k p).
    { intros g l1 Hg. split_and!; [done..|]. intros k p. cbn [fst]. destruct g as [[[i t]|]|]; cbn [passed]; try lia. by destruct (Hg i t). }
    destruct (negb _); [by apply Hsame|]. destruct (v_api_key v) as [key|]; [|by destruct ok; apply Hsame].
    destruct (truthy key); [|by destruct ok; apply Hsame].
    pose proof (charge_backend_spec (v_net v) (v_now v) (v_now2 v) key db Hwf) as Hch.
    destruct (_charge_backend _ _ _ _ _ _ _ _ _) as [[code body] db']. destruct Hch as (Hwf' & Hcap & Hmono & Hkey).
    split_and!; [done..|]. intros k p. cbn [fst]. specialize (Hmono k p).
    destruct (Z.eqb_spec code 200) as [->|]; [|destruct (code =? 401), (code =? 402); cbn [passed]; lia].
    cbn [passed]. destruct (jget "api_key_id" body) as [[| | | |i| |]|] eqn:Hi; cbn [from_option id]; try lia.
    destruct (String.eqb_spec i k) as [->|]; [|cbn; lia]. cbn [andb].
    destruct (String.eqb_spec (_period_month_now (v_now v)) p) as [<-|]; [|lia]. by apply Hkey.
Qed.

Lemma run_spec l (w : world) :
  keys_wf w.1 ->
  let '(os, w') := run backend_cfg sha256_hex error_body settings hit l w in
  keys_wf w'.1 /\ (capped w.1 -> capped w'.1) /\ forall k p, count w.1 k p + passes k p os <= count w'.1 k p.
Proof.
  revert w. induction l as [|e l IH]; intros w Hwf; cbn [run].
  { split_and!; try done. intros k p. change (passes k p []) with 0. lia. }
  pose proof (step_spec e w Hwf) as Hstep. destruct (step _ _ _ _ _ e w) as [o w1]. destruct Hstep as (Hwf1 & Hcap1 & Hc1).
  specialize (IH w1 Hwf1). destruct (run _ _ _ _ _ l w1) as [os w2]. destruct IH as (Hwf2 & Hcap2 & Hc2).
  split_and!; [done|auto|]. intros k p. specialize (Hc1 k p). specialize (Hc2 k p). unfold passes. cbn [List.filter].
  unfold passes in Hc2. destruct (passed k p o); cbn [length]; lia.
Qed.

(** The cap holds across both services: over any sequence of visits to the
    verifier and requests to the backend's key endpoints, with requests and
    responses lost on the way in any pattern, no more visits of a month are let
    through with a key than its cap allows. *)
Theorem passes_within_cap l l0 k p row cap :
  let '(os, w) := run backend_cfg sha256_hex error_body settings hit l ({| api_keys := ∅; key_usage := ∅ |}, l0) in
  api_keys w.1 !! k = Some row -> monthly_call_cap row = Some cap -> passes k p os <= Z.max 0 cap.
Proof.
  pose proof (run_spec l ({| api_keys := ∅; key_usage := ∅ |}, l0) empty_keys_wf) as Hrun.
  destruct (run _ _ _ _ _ l _) as [os w]. destruct Hrun as (_ & Hcap & Hcount). intros Hrow Hc.
  specialize (Hcount k p). cbn [fst] in Hcount.
  assert (Hcapped : capped w.1).
  { apply Hcap. intros k' p' r' c' Hr'. cbn in Hr'. by rewrite lookup_empty in Hr'. }
  specialize (Hcapped k p row cap Hrow Hc). unfold count in Hcount at 1. cbn in Hcount. rewrite lookup_empty in Hcount. cbn in Hcount. lia.
Qed.
End Counting.

(** ** The rate limit trusts a header *)

Section Spoofing.
Context (backend_cfg : verifier_key_settings) (sha256_hex : string -> string) (error_body : web_error -> json).
Context (settings : gate_settings) {L : Type} (hit : string -> string -> L -> bool * L).
(** A limit accepts the first call of an address, and a call counts for its own
    address only. *)
Context (seen : L -> string -> string -> Prop).
Hypothesis hit_first : forall item ip l, ~ seen l item ip -> (hit item ip l).1 = true.
Hypothesis hit_own : forall item ip l item' ip', seen (hit item ip l).2 item' ip' -> seen l item' ip' \/ (item' = item /\ ip' = ip).

Lemma hit_all_first items ip l :
  NoDup items -> (forall item, In item items -> ~ seen l item ip) ->
  (hit_all hit items ip l).1 = true /\
  forall item ip', seen (hit_all hit items ip l).2 item ip' -> seen l item ip' \/ ip' = ip.
Proof.
  revert l. induction items as [|item items IH]; intros l Hnd Hfirst; cbn [hit_all]; [auto|].
  apply NoDup_cons in Hnd as [Hin Hnd]. pose proof (hit_first item ip l (Hfirst item (or_introl eq_refl))) as Hok.
  pose proof (hit_own item ip l) as Hown. destruct (hit item ip l) as [ok l1]. cbn in Hok, Hown. subst ok.
  destruct (IH l1 Hnd) as [Hall Hseen].
  - intros item' Hin' Hs. apply Hown in Hs as [Hs|[-> _]]; [by apply (Hfirst item'); [right|]|by apply Hin, list_elem_of_In].
  - split; [done|]. intros item' ip' Hs. apply Hseen in Hs as [Hs|]; [|auto]. apply Hown in Hs as [|[_ ->]]; auto.
Qed.

(** Visits that each name another address in [X-Forwarded-For] are never
    limited, wherever they come from. *)
Lemma rotating_addresses_never_limited vs db l :
  NoDup (unauth_rate_limit settings) -> (forall item ip, ~ seen l item ip) ->
  Forall (fun v => v_api_key v = None) vs ->
  NoDup (map (fun v => _client_ip (v_forwarded_for v) (v_host v)) vs) ->
  Forall (fun o => exists v, o = Some (v, CallNext None))
    (run backend_cfg sha256_hex error_body settings hit (map Visit vs) (db, l)).1.
Proof.
  intros Hnd Hnone Hkeys Hips.
  assert (Hfresh : forall v item, In v vs -> ~ seen l item (_client_ip (v_forwarded_for v) (v_host v))) by auto.
  clear Hnone. revert l Hfresh. induction vs as [|v vs IH]; intros l Hfresh; cbn [map run]; [constructor|].
  apply List.Forall_cons_iff in Hkeys as [Hkey Hkeys]. cbn in Hips. apply NoDup_cons in Hips as [Hin Hips].
  cbn [step]. unfold enforce_api_key_or_rate_limit. rewrite Hkey.
  destruct (hit_all_first (unauth_rate_limit settings) (_client_ip (v_forwarded_for v) (v_host v)) l Hnd) as [Hok Hseen].
  { intros item _. apply Hfresh. by left. }
  destruct (hit_all hit _ _ l) as [ok l1]. cbn in Hok, Hseen. subst ok.
  assert (Hnext : forall l', (l' = l \/ l' = l1) -> forall v' item, In v' vs -> ~ seen l' item (_client_ip (v_forwarded_for v') (v_host v'))).
  { intros l' [->| ->] v' item Hv' Hs; [by apply (Hfresh v' item); [right|]|].
    apply Hseen in Hs as [Hs|Heq]; [by apply (Hfresh v' item); [right|]|]. apply Hin. rewrite <- Heq.
    apply list_elem_of_In, in_map_iff. eauto. }
  destruct (negb _).
  - specialize (IH Hkeys Hips l (Hnext l (or_introl eq_refl))).
    destruct (run _ _ _ _ _ (map Visit vs) (db, l)) as [os w]. constructor; eauto.
  - specialize (IH Hkeys Hips l1 (Hnext l1 (or_intror eq_refl))).
    destruct (run _ _ _ _ _ (map Visit vs) (db, l1)) as [os w]. constructor; eauto.
Qed.
End Spoofing.

(** ** A concrete run *)

Module DemoGate.
Import DemoVerifierKeys.

(** A limiter that allows three calls of an address. *)
Definition hit3 (item ip : string) (l : gmap string Z) : bool * gmap string Z :=
  let n := default 0 (l !! ip) in if n <? 3 then (true, <[ip := n + 1]> l) else (false, l).
Definition gate_cfg : gate_settings := {| backend_internal_token := "internal"; unauth_rate_limit := ["3/minute"] |}.
Definition with_key (net : delivery) : event :=
  Visit {| v_net := net; v_now := 0; v_now2 := 0; v_path := "/verify/r1"; v_forwarded_for := None; v_host := None;
           v_api_key := Some "vk_live_tail-of-32-random-bytes" |}.
Definition issue2 : vk_call :=
  CreateKey "k1" "tail-of-32-random-bytes" 0 owner {| vc_name := "gateway"; vc_monthly_call_cap := Some 2 |}.
Definition events : list event := [KeyCall issue2; with_key ResponseLost; with_key Delivered; with_key Delivered].
Definition after : list (option (visit * gate)) * world :=
  run settings id (fun _ => JNull) gate_cfg hit3 events ({| api_keys := ∅; key_usage := ∅ |}, ∅).

(** A lost response is charged all the same. *)
Example lost_response_is_charged : passes "k1" "1970-01" after.1 = 1 /\ count after.2.1 "k1" "1970-01" = 2.
Proof. vm_compute. done. Qed.

Lemma passes_within_cap_witness : passes "k1" "1970-01" after.1 = 1 /\ passes "k1" "1970-01" after.1 <= Z.max 0 2.
Proof.
  split; [vm_compute; reflexivity|].
  assert (Hex : exists row, api_keys after.2.1 !! "k1" = Some row /\ monthly_call_cap row = Some 2) by (vm_compute; eauto).
  destruct Hex as (row & Hrow & Hcap).
  pose proof (passes_within_cap settings id (fun _ => JNull) gate_cfg hit3 events ∅ "k1" "1970-01" row 2) as Hall.
  fold after in Hall.
  destruct after as [os w]. exact (Hall Hrow Hcap).
Defined.
End DemoGate.
