(* ===== verification/PublicReceipts.v ===== *)
(** * Receipts and signing keys over HTTP

    api/v1/receipts.py, api/v1/public_keys.py and api/v1/public_keys_list.py: the tenant's
    own receipts, the public envelope of a receipt, the public half of a signing key, and
    the listings of all keys as JSON and as text for publication in DNS, with the JSON
    bodies a client gets.  The verification itself is [Receipts.verify_receipt].  Rows of
    audit_logs and headers are left out. *)

From Stdlib Require Import Ascii.
From S2P Require Import Prelude PyStr Json Encoding PyTime Crypto CanonicalJson SubmissionModels Receipts.

(** schemas/receipt.py, [PublicReceiptVerifyResponse], with its
    [PublicReceiptRead]: the row and the object its payload is served as. *)
Record PublicReceiptVerifyResponse : Type := {
  pr_row : SubmissionReceipt;
  pr_payload : list (string * json);
  pr_verified : bool;
  pr_public_key_b64 : option string;
  pr_reason : option string;
}.

(** api/v1/public_keys.py, [PublicKeyRead]. *)
Record PublicKeyRead : Type := {
  pk_key_id : string;
  pk_algorithm : string;
  pk_public_key_pem : string;
  pk_status : string;
}.

(** schemas/receipt.py, [ReceiptRead]. *)
Record ReceiptRead : Type := { rr_row : SubmissionReceipt; rr_payload : list (string * json); verify_url : string }.

Definition receipt_not_found : exn := http 404 "receipt_not_found".

(** [ORDER BY submitted_at DESC, id DESC] *)
Definition latest_first (x y : SubmissionReceipt) : bool :=
  (instant (submitted_at y) <? instant (submitted_at x))
  || ((instant (submitted_at x) =? instant (submitted_at y)) && String.leb (receipt_pk y) (receipt_pk x)).

Section Endpoints.
Context `{E : Ed25519}.
Context (canonical_json_bytes : json -> option bytes).
Context (float_repr : json -> string).
Context (cfg : settings).
(** [dict(v)] of anything but an object; [None] is the exception. *)
Context (dict_other : json -> option (list (string * json))).
(** [str(exc)], and the text of a datetime in a body. *)
Context (exn_text : exn -> string) (datetime_text : datetime -> string).

(** [dict(v or {})] *)
Definition dict_of (v : json) : M St exn (list (string * json)) :=
  match v with
  | JObj kvs => ret kvs
  | _ => if jtruthy v then or_raise (dict_other v) (Exn (Other "TypeError") "" []) else ret []
  end.

(** api/v1/receipts.py, [_MAX_LIMIT]. *)
Definition _MAX_LIMIT : Z := 200.

(** api/v1/receipts.py, [_verify_url]; [base_url] is the request's, with its
    trailing slashes. *)
Definition _verify_url (base_url receipt_id : string) : string :=
  rstrip_by (Ascii.eqb "/"%char) base_url +:+ "/verify/" +:+ receipt_id.

(** api/v1/receipts.py, [_receipt_to_read]. *)
Definition _receipt_to_read (base_url : string) (r : SubmissionReceipt) : M St exn ReceiptRead :=
  let* payload := dict_of (public_payload_json r) in
  ret {| rr_row := r; rr_payload := payload; verify_url := _verify_url base_url (receipt_pk r) |}.

(** api/v1/receipts.py, [_load_receipt_for_tenant]. *)
Definition _load_receipt_for_tenant (tenant_id receipt_id : string) : M St exn SubmissionReceipt :=
  let* row := select (fun db => match receipts db !! receipt_id with
                                | Some r => if String.eqb (rc_tenant_id r) tenant_id then Some r else None
                                | None => None
                                end) in
  or_raise row receipt_not_found.

Fixpoint map_m {A B} (f : A -> M St exn B) (l : list A) : M St exn (list B) :=
  match l with
  | [] => ret []
  | x :: l => let* y := f x in let* r := map_m f l in ret (y :: r)
  end.

(** api/v1/receipts.py, [list_receipts]: the page and the total count. *)
Definition list_receipts (base_url tenant_id : string) (supplier : option string) (limit offset : Z)
    : M St exn (list ReceiptRead * Z) :=
  let keep r := String.eqb (rc_tenant_id r) tenant_id
                && match supplier with Some i => String.eqb (rc_supplier_id r) i | None => true end in
  let* rows := select (fun db => List.filter keep (map snd (map_to_list (receipts db)))) in
  let page := take (Z.to_nat (Z.min (Z.max limit 1) _MAX_LIMIT))
                (drop (Z.to_nat (Z.max offset 0)) (isort latest_first rows)) in
  let* items := map_m (_receipt_to_read base_url) page in
  ret (items, Z.of_nat (length rows)).

(** api/v1/receipts.py, [get_receipt]. *)
Definition get_receipt (base_url tenant_id receipt_id : string) : M St exn ReceiptRead :=
  let* r := _load_receipt_for_tenant tenant_id receipt_id in _receipt_to_read base_url r.

(** api/v1/receipts.py, [_verify_receipt_public]. *)
Definition _verify_receipt_public (receipt_id : string) : M St exn PublicReceiptVerifyResponse :=
  let* row := select (fun db => receipts db !! receipt_id) in
  let* r := or_raise row receipt_not_found in
  let* outcome := try_except
      (let* v := verify_receipt canonical_json_bytes float_repr cfg (receipt_pk r) in
       let pem := vr_public_key_pem v in
       ret (verified v, if truthy pem then Some pem else None,
            if verified v then None else Some "signature_invalid_or_unknown_key"))
      (fun e => ret (false, None, Some ("verification_error: " +:+ exn_text e))) in
  let '(ok, key, reason) := outcome in
  let* payload := dict_of (public_payload_json r) in
  ret {| pr_row := r; pr_payload := payload; pr_verified := ok; pr_public_key_b64 := key; pr_reason := reason |}.

(** api/v1/public_keys.py, [_serialize]; the creation time is left out. *)
Definition _serialize (row : SigningKey) : PublicKeyRead :=
  {| pk_key_id := key_pk row; pk_algorithm := "Ed25519"; pk_public_key_pem := public_key_pem row;
     pk_status := if is_someb (key_revoked_at row) then "revoked" else "active" |}.

(** api/v1/public_keys.py, [get_public_key]. *)
Definition get_public_key (key_id : string) : M St exn PublicKeyRead :=
  let* row := select (fun db => signing_keys db !! key_id) in
  let* k := or_raise row (http 404 "signing_key_not_found") in
  ret (_serialize k).

(** ** The bodies *)

Definition opt_str (o : option string) : json := match o with Some s => JStr s | None => JNull end.

(** schemas/receipt.py, [PublicReceiptRead] and [PublicReceiptVerifyResponse]
    as JSON. *)
Definition envelope_json (p : PublicReceiptVerifyResponse) : json :=
  let r := pr_row p in
  JObj [("receipt", JObj [("receipt_id", JStr (receipt_pk r)); ("portal_platform", JStr (portal_platform r));
                          ("submitted_at", JStr (datetime_text (submitted_at r)));
                          ("payload_hash", JStr (payload_hash r)); ("tos_version_hash", JStr (tos_version_hash r));
                          ("signing_key_id", JStr (signing_key_id r)); ("signature_b64", JStr (signature_b64 r));
                          ("public_payload_json", JObj (pr_payload p))]);
        ("verified", JBool (pr_verified p)); ("public_key_b64", opt_str (pr_public_key_b64 p));
        ("reason", opt_str (pr_reason p)); ("payload", JObj (pr_payload p));
        ("signature", JStr (signature_b64 r))].

(** api/v1/public_keys.py, [PublicKeyRead] as JSON. *)
Definition public_key_json (k : PublicKeyRead) : json :=
  JObj [("key_id", JStr (pk_key_id k)); ("algorithm", JStr (pk_algorithm k));
        ("public_key_pem", JStr (pk_public_key_pem k)); ("status", JStr (pk_status k))].
End Endpoints.

(** ** Lemmas *)

Section Lemmas.
Context `{E : Ed25519}.

(** What the public envelope says of a stored receipt. *)
Lemma public_envelope canonical float_repr cfg dict_other exn_text rid s r kvs :
  receipts (db_of s) !! rid = Some r -> receipt_pk r = rid -> public_payload_json r = JObj kvs ->
  exists p s', _verify_receipt_public canonical float_repr cfg dict_other exn_text rid s = (Ok p, s') /\
    pr_row p = r /\ pr_payload p = kvs /\ db_of s' = db_of s.
Proof.
  intros Hr Hpk Hobj. unfold _verify_receipt_public, select, bind, reads, or_raise, try_except, ret, raise. rewrite Hr, Hpk.
  unfold verify_receipt at 1, select, bind, reads, or_raise, raise_if, ret. rewrite Hr, Hobj. cbn [is_obj negb].
  destruct (load_never_raises cfg (signing_key_id r) s) as (pem & s' & -> & Hdb).
  destruct (truthy_opt pem) as [p|]; cbn; by eauto 10.
Qed.

Lemma public_key_found key_id s row :
  signing_keys (db_of s) !! key_id = Some row -> get_public_key key_id s = (Ok (_serialize row), s).
Proof. intros Hrow. unfold get_public_key, select, bind, reads, or_raise, ret. by rewrite Hrow. Qed.

(** Another tenant's receipt cannot be told from one that does not exist. *)
Lemma foreign_receipt_not_found dict_other base tid rid s :
  (forall r, receipts (db_of s) !! rid = Some r -> rc_tenant_id r <> tid) ->
  get_receipt dict_other base tid rid s = (Raise receipt_not_found, s).
Proof.
  intros Hf. unfold get_receipt, _load_receipt_for_tenant, select, bind, reads, or_raise, raise.
  destruct (receipts (db_of s) !! rid) as [r|]; [|done]. by rewrite (proj2 (String.eqb_neq _ _) (Hf r eq_refl)).
Qed.
End Lemmas.

(** ** The listing of the signing keys *)

Definition newline : ascii := "010".
Definition nl : string := String newline "".

Section Listing.
Context `{E : Ed25519}.
(** The [created_at] of a key by its id, a column the rows of this model do not hold. *)
Context (key_created_at : string -> datetime).

Definition newest_first (rows : list SigningKey) : list SigningKey := sort_by (fun k => - instant (key_created_at (key_pk k))) rows.
Definition key_rows (db : SubDB) : list SigningKey := map snd (map_to_list (signing_keys db)).
Definition active (k : SigningKey) : bool := negb (is_someb (key_revoked_at k)).

(** api/v1/public_keys_list.py, [_serialize]: a row as the listing serves it, with its
    creation time. *)
Definition list_item (row : SigningKey) : PublicKeyRead * datetime :=
  let created := key_created_at (key_pk row) in
  (_serialize row, coerce_utc created).

(** api/v1/public_keys_list.py, [list_public_keys] *)
Definition list_public_keys (include_revoked : bool) : M St exn (list (PublicKeyRead * datetime) * Z) :=
  let* rows := select (fun db => newest_first (if include_revoked then key_rows db else List.filter active (key_rows db))) in
  let items := map list_item rows in
  ret (items, Z.of_nat (length items)).

(** api/v1/public_keys_list.py, [list_public_keys_text]: the lines of a key. *)
Definition key_block (row : SigningKey) : list string :=
  ["key_id: " +:+ key_pk row; strip (public_key_pem row); ""].

(** api/v1/public_keys_list.py, [list_public_keys_text] *)
Definition list_public_keys_text : M St exn string :=
  let* rows := select (fun db => newest_first (List.filter active (key_rows db))) in
  let parts := flat_map key_block rows in
  ret (join nl parts +:+ match parts with [] => "" | _ => nl end).
End Listing.

(** ** What the listings say *)

(** A registry with its rows under their primary keys. *)
Definition stored_by_id (db : SubDB) : Prop := forall i k, signing_keys db !! i = Some k -> key_pk k = i.

Lemma key_rows_spec db k : stored_by_id db -> In k (key_rows db) <-> signing_keys db !! key_pk k = Some k.
Proof.
  intros Hdb. unfold key_rows. rewrite in_map_iff. split.
  - intros ([i k'] & Hk & Hin). cbn in Hk. subst k'. apply list_elem_of_In, elem_of_map_to_list in Hin.
    by rewrite (Hdb _ _ Hin).
  - intros Hk. exists (key_pk k, k). split; [done|]. by apply list_elem_of_In, elem_of_map_to_list.
Qed.

Lemma key_rows_ids db : stored_by_id db -> map key_pk (key_rows db) = map fst (map_to_list (signing_keys db)).
Proof.
  intros Hdb. unfold key_rows. rewrite map_map. apply map_ext_in. intros [i k] Hin.
  apply list_elem_of_In, elem_of_map_to_list in Hin. exact (Hdb _ _ Hin).
Qed.

Lemma newest_items `{E : Ed25519} created l :
  StronglySorted (fun a b => - instant (created (key_pk a)) <= - instant (created (key_pk b))) l ->
  StronglySorted (fun a b => instant b.2 <= instant a.2) (map (list_item created) l).
Proof.
  induction 1 as [|k l Hs IH Hall]; cbn; constructor; [done|]. apply List.Forall_map.
  eapply List.Forall_impl; [|exact Hall]. cbn. intros k' Hk'. rewrite !instant_coerce. lia.
Qed.

(** The listing of all keys and the endpoint of one key agree: each key is listed once,
    the newest first, exactly as it is served on its own, and a key that can be fetched is
    listed. *)
Theorem listing_agrees_with_lookup `{E : Ed25519} created s :
  stored_by_id (db_of s) ->
  exists items, list_public_keys created true s = (Ok (items, Z.of_nat (length items)), s) /\
    NoDup (map (fun x => pk_key_id x.1) items) /\
    StronglySorted (fun a b => instant b.2 <= instant a.2) items /\
    forall i r, get_public_key i s = (Ok r, s) <-> pk_key_id r = i /\ In (r, coerce_utc (created i)) items.
Proof.
  intros Hdb. set (rows := newest_first created (key_rows (db_of s))).
  assert (Hperm : Permutation rows (key_rows (db_of s))) by apply sort_by_perm.
  exists (map (list_item created) rows). split; [reflexivity|]. split; [|split].
  - rewrite map_map. cbn. rewrite (Permutation_map key_pk Hperm), key_rows_ids by done. apply NoDup_fst_map_to_list.
  - apply newest_items, sort_by_Sorted.
  - intros i r. unfold get_public_key, select, bind, reads. split.
    + destruct (signing_keys (db_of s) !! i) as [k|] eqn:Hk; cbn; [|discriminate]. intros [= <-].
      pose proof (Hdb _ _ Hk) as Hi. split; [exact Hi|]. rewrite in_map_iff. exists k. unfold list_item. rewrite Hi. split; [done|].
      apply (Permutation_in _ (Permutation_sym Hperm)), key_rows_spec; [done|]. by rewrite Hi.
    + intros [Hi Hin]. apply in_map_iff in Hin as (k & Hk & Hin). unfold list_item in Hk. injection Hk as Hr _. subst r.
      apply (Permutation_in _ Hperm), key_rows_spec in Hin; [|done]. cbn in Hi. rewrite Hi in Hin. by rewrite Hin.
Qed.

(** The keys a reader of the text finds, by the lines that start as a key does. *)
Definition announced (text : string) : list string :=
  map (sdrop 8) (List.filter (String.prefix "key_id: ") (split_char newline text)).

(** Ids of one line, and PEM texts none of whose lines could be taken for one. *)
Definition readable (k : SigningKey) : Prop :=
  sall (fun c => negb (Ascii.eqb newline c)) (key_pk k) = true /\
  List.filter (String.prefix "key_id: ") (split_char newline (strip (public_key_pem k))) = [].

Lemma block_lines k : readable k ->
  List.filter (String.prefix "key_id: ") (concat (map (split_char newline) (key_block k))) = ["key_id: " +:+ key_pk k].
Proof.
  intros [Hid Hpem]. assert (Hline : sall (fun c => negb (Ascii.eqb newline c)) ("key_id: " +:+ key_pk k) = true) by exact Hid.
  cbn [key_block map concat]. rewrite !List.filter_app, Hpem, (split_char_none _ _ Hline).
  cbn. by destruct (key_pk k).
Qed.

Lemma blocks_lines rows : List.Forall readable rows ->
  List.filter (String.prefix "key_id: ") (concat (map (split_char newline) (flat_map key_block rows))) =
    map (fun k => "key_id: " +:+ key_pk k) rows.
Proof.
  induction 1 as [|k rows Hk _ IH]; [done|]. cbn [flat_map]. rewrite map_app, concat_app, List.filter_app, IH. by rewrite block_lines.
Qed.

(** Read back line by line, the text announces the active keys and no others, each once and
    the newest first; a revoked key is in the listing of all keys only. *)
Theorem text_announces_active_keys `{E : Ed25519} created s :
  stored_by_id (db_of s) -> (forall k, In k (key_rows (db_of s)) -> readable k) ->
  exists text, list_public_keys_text created s = (Ok text, s) /\ NoDup (announced text) /\
    announced text = map key_pk (newest_first created (List.filter active (key_rows (db_of s)))) /\
    forall i, In i (announced text) <-> exists k, signing_keys (db_of s) !! i = Some k /\ key_revoked_at k = None.
Proof.
  intros Hdb Hread. set (rows := newest_first created (List.filter active (key_rows (db_of s)))).
  assert (Hperm : Permutation rows (List.filter active (key_rows (db_of s)))) by apply sort_by_perm.
  assert (Hrows : List.Forall readable rows).
  { apply List.Forall_forall. intros k Hk. apply (Permutation_in _ Hperm), filter_In in Hk as [Hk _]. by apply Hread. }
  exists (join nl (flat_map key_block rows) +:+ match flat_map key_block rows with [] => "" | _ => nl end). split; [reflexivity|].
  assert (Hann : announced (join nl (flat_map key_block rows) +:+ match flat_map key_block rows with [] => "" | _ => nl end) = map key_pk rows).
  { unfold announced. pose proof (blocks_lines rows Hrows) as Hl. destruct (flat_map key_block rows) as [|w ws].
    - by destruct rows.
    - unfold nl at 2. rewrite split_char_app. unfold nl. rewrite split_join, List.filter_app, Hl. cbn [split_char List.filter String.prefix].
      rewrite app_nil_r, map_map. apply map_ext. intros k. reflexivity. }
  rewrite Hann. split; [|split; [done|]].
  - rewrite (Permutation_map key_pk Hperm). apply NoDup_map_filter. rewrite key_rows_ids by done. apply NoDup_fst_map_to_list.
  - intros i. rewrite in_map_iff. split.
    + intros (k & <- & Hk). apply (Permutation_in _ Hperm), filter_In in Hk as [Hk Ha]. apply key_rows_spec in Hk; [|done].
      exists k. split; [done|]. unfold active in Ha. by destruct (key_revoked_at k).
    + intros (k & Hk & Hr). exists k. pose proof (Hdb _ _ Hk) as Hi. split; [done|].
      apply (Permutation_in _ (Permutation_sym Hperm)), filter_In. split; [|unfold active; by rewrite Hr].
      apply key_rows_spec; [done|]. by rewrite Hi.
Qed.

(** ** A concrete registry *)

Module DemoPublicKeys.
Definition key (i : string) (revoked : option datetime) : SigningKey :=
  {| key_pk := i; algorithm := "ed25519"; public_key_pem := "PUBLIC " +:+ i +:+ nl; key_revoked_at := revoked |}.
Definition state : St (E := DemoCrypto.demo) :=
  in_db (fun t => Session (with_signing_keys (fun _ => {[ "k1" := key "k1" (Some (utc 3)); "k2" := key "k2" None; "k3" := key "k3" None ]}) (working t))
                          (committed t)) DemoReceipts.start.
Definition created (i : string) : datetime := if String.eqb i "k3" then utc 9 else utc 1.

Lemma state_by_id : stored_by_id (db_of state).
Proof.
  intros i k H. change (({[ "k1" := key "k1" (Some (utc 3)); "k2" := key "k2" None; "k3" := key "k3" None ]} : gmap string SigningKey) !! i = Some k) in H.
  rewrite lookup_insert_Some in H. destruct H as [[<- <-]|[_ H]]; [done|].
  rewrite lookup_insert_Some in H. destruct H as [[<- <-]|[_ H]]; [done|]. by apply lookup_singleton_Some in H as [<- <-].
Qed.

Lemma state_readable k : In k (key_rows (db_of state)) -> readable k.
Proof.
  assert (H : key_rows (db_of state) = [key "k3" None; key "k1" (Some (utc 3)); key "k2" None]) by (vm_compute; reflexivity).
  rewrite H. intros [<-|[<-|[<-|[]]]]; unfold readable; split; vm_compute; reflexivity.
Qed.

(** The text as it is published. *)
Example text : fst (list_public_keys_text created state) =
  Ok (join nl ["key_id: k3"; "PUBLIC k3"; ""; "key_id: k2"; "PUBLIC k2"; ""] +:+ nl).
Proof. vm_compute. reflexivity. Qed.

Lemma listing_agrees_with_lookup_witness :
  exists items, fst (list_public_keys created true state) = Ok (items, Z.of_nat (length items)) /\ NoDup (map (fun x => pk_key_id x.1) items).
Proof.
  destruct (listing_agrees_with_lookup created state state_by_id) as (items & H & Hnd & _).
  exists items. split; [by rewrite H|exact Hnd].
Defined.

Lemma text_announces_active_keys_witness :
  exists text, fst (list_public_keys_text created state) = Ok text /\ In "k2" (announced text) /\ ~ In "k1" (announced text).
Proof.
  destruct (text_announces_active_keys created state state_by_id state_readable) as (text & H & _ & _ & Hin).
  exists text. rewrite H. split; [reflexivity|]. rewrite !Hin. split; [exists (key "k2" None); split; vm_compute; reflexivity|]. intros (k & Hk & Hr).
  vm_compute in Hk. injection Hk as <-. discriminate Hr.
Defined.
End DemoPublicKeys.
