(* ===== verification/SubmissionApi.v ===== *)
(** * Submissions over HTTP and their jobs

    api/v1/submissions.py and workers/tasks/submission_tasks.py: every endpoint as one
    request over the submission tables with its audit rows, the Celery task around the
    pipeline, and the queue between them. *)

From Stdlib Require Import Ascii.
From S2P Require Import Prelude PyStr Json PyTime Encoding Crypto CanonicalJson SubmissionModels Receipts Pipeline SubmissionService PublicReceipts.

(** ** The task *)

(** workers/tasks/submission_tasks.py, [_TRANSIENT_EXCEPTIONS]: with the subclasses of
    [ConnectionError]. *)
Definition _TRANSIENT_EXCEPTIONS (c : exc_class) : bool :=
  match c with
  | PortalTransientError | PortalRateLimited => true
  | Other n => mem n ["ConnectionError"; "BrokenPipeError"; "ConnectionAbortedError"; "ConnectionRefusedError"; "ConnectionResetError"; "TimeoutError"]
  | _ => false
  end.

(** workers/tasks/submission_tasks.py:72-118, [process_submission_task]: what it returns. *)
Inductive task_result : Type :=
| Payload (r : SubmissionResult)
| Skipped (msg : string) (ctx : list (string * json))
| TaskFailed (error_type msg : string) (ctx : option (list (string * json))).

(** What it raises: the exception that makes Celery send the job again, and an exception
    Celery records. *)
Inductive task_signal : Type := Retry (countdown : Z) | Propagated (e : exn).

Section Api.
Context `{E : Ed25519}.
Context (sha256 : bytes -> bytes) (canonical_json_bytes : json -> option bytes) (repr : json -> string) (cfg : settings).
(** [dict(v)] of anything but an object; [None] is the exception. *)
Context (dict_other : json -> option (list (string * json))).

(** A new session on the committed tables. *)
Definition open_session (s : St) : St :=
  {| tx := Session (committed (tx s)) (committed (tx s)); deactivated := false; signing := signing s; _PUBLIC_KEY_CACHE := _PUBLIC_KEY_CACHE s |}.

(** What the database does to the session of a run: it works; it raises an exception of a
    class that is not the program's own when the submission is claimed; or it raises one in
    the flush or the commit that ends every run, and has committed the run all the same
    or not.  (What it raises in between is caught by the pipeline like an exception of the
    portal: it is part of the answer of a delivery.) *)
Inductive session_fault : Type :=
| SessionWorks
| ClaimRaises (class msg : string)
| CommitRaises (class msg : string) (landed : bool).
Definition session_error (class msg : string) : exn := Exn (Other class) msg [].

(** The run is rolled back: the keys that the process holds stay. *)
Definition rolled_back (s s1 : St) : St :=
  {| tx := tx s; deactivated := false; signing := signing s1; _PUBLIC_KEY_CACHE := _PUBLIC_KEY_CACHE s1 |}.

(** workers/tasks/submission_tasks.py, [_run]; a session that is closed is rolled back. *)
Definition _run (f : session_fault) (d : delivery) (submission_id : string) : M St exn SubmissionResult := fun s =>
  match f with
  | ClaimRaises class msg => (Raise (session_error class msg), open_session s)
  | _ =>
      let '(r, s1) := deliver sha256 canonical_json_bytes repr cfg d submission_id (open_session s) in
      match f, r with
      | CommitRaises class msg landed, Ok _ =>
          (Raise (session_error class msg), open_session (if landed then s1 else rolled_back s s1))
      | _, _ => (r, open_session s1)
      end
  end.

(** workers/tasks/submission_tasks.py, [process_submission_task]; [retries] counts the
    times Celery has sent the job again. *)
Definition process_submission_task (retries : Z) (f : session_fault) (d : delivery) (submission_id : string) :
    M St task_signal task_result := fun s =>
  match _run f d submission_id s with
  | (Ok r, s) => (Ok (Payload r), s)
  | (Raise e, s) =>
      (match exc e with
       | SubmissionNotClaimable => Ok (Skipped (message e) (context e))
       | c =>
           if _TRANSIENT_EXCEPTIONS c then Raise (if retries <? 3 then Retry 60 else Propagated e)
           else if is_once_error c then Ok (TaskFailed (exc_name c) (message e) (Some (context e)))
           else Ok (TaskFailed (exc_name c) (exn_str repr e) None)
       end, s)
  end.

(** ** Requests *)

(** The caller: the columns of [tenant_users] the endpoints read, and what the request
    says of the client. *)
Record caller : Type := {
  c_tenant_id : string; c_user_id : string; c_role : string; client_host : option string; x_forwarded_for : option string }.

(** models/audit.py, [AuditLog]: the row an endpoint adds. *)
Record audit_row : Type := {
  a_tenant_id : string; a_actor_user_id : string; a_action : string; a_resource_type : string; a_resource_id : string;
  a_ip_address : option string; a_metadata : list (string * json) }.

(** api/v1/submissions.py, [_client_ip] *)
Definition _client_ip (r : caller) : option string :=
  match opt_truthy (client_host r) with
  | Some h => Some h
  | None =>
      match opt_truthy (x_forwarded_for r) with
      | Some f => opt_truthy (Some (strip (partition_char "," f).1.1))
      | None => None
      end
  end.

(** api/v1/submissions.py, [_write_audit] *)
Definition _write_audit (action : string) (c : caller) (resource_id resource_type : string) (metadata : list (string * json)) : audit_row :=
  {| a_tenant_id := c_tenant_id c; a_actor_user_id := c_user_id c; a_action := action; a_resource_type := resource_type;
     a_resource_id := resource_id; a_ip_address := _client_ip c; a_metadata := metadata |}.

(** api/v1/submissions.py, [_WRITER_ROLES] *)
Definition _WRITER_ROLES : list string := ["agent"; "admin"; "owner"].

(** api/v1/submissions.py, [_require_writer] *)
Definition _require_writer (c : caller) : M St exn unit :=
  raise_if (negb (mem (lower (c_role c)) _WRITER_ROLES)) (http 403 "writer_role_required").

(** schemas/submission.py, [SubmissionCreate]: the ids without white space around them. *)
Definition valid_id (s : string) : bool := truthy s && (slen s <=? 36).
Definition read_create (p : SubmissionCreate) : M St exn SubmissionCreate :=
  let p := {| in_supplier_id := strip (in_supplier_id p); in_portal_id := strip (in_portal_id p);
              in_consent_record_id := strip (in_consent_record_id p); in_payload := in_payload p |} in
  raise_if (negb (valid_id (in_supplier_id p) && valid_id (in_portal_id p) && valid_id (in_consent_record_id p))) (http 422 "validation_error") ;;;
  ret p.

(** What an endpoint answers, the ids it hands to the broker and the row it adds to
    audit_logs. *)
Record answer (A : Type) : Type := { body : A; sent : list string; audited : list audit_row }.
Arguments body {A}. Arguments sent {A}. Arguments audited {A}.

(** api/v1/submissions.py, [create_submission] *)
Definition create_endpoint (new_id : string) (now : Z) (d : delivery) (broker_up : bool) (c : caller) (payload : SubmissionCreate) :
    M St exn (answer SupplierSubmission) :=
  _require_writer c ;;;
  let* payload := read_create payload in
  let* (row, ids) := create_submission sha256 canonical_json_bytes repr cfg new_id now d broker_up (c_tenant_id c) payload in
  ret {| body := row; sent := ids;
         audited := [_write_audit "submission.created" c (sub_id row) "submission"
                       [("supplier_id", JStr (supplier_id row)); ("portal_id", JStr (portal_id row));
                        ("consent_record_id", match consent_record_id row with Some i => JStr i | None => JNull end)]] |}.

(** api/v1/submissions.py, [list_submissions]: the page and the total of the header. *)
Definition list_endpoint (c : caller) (f : filters) (limit offset : Z) : M St exn (answer (list SupplierSubmission * Z)) :=
  let short o := match o with Some i => slen i <=? 36 | None => true end in
  raise_if (negb (short (supplier_filter f) && short (portal_filter f) && (1 <=? limit) && (limit <=? 200) && (0 <=? offset)))
    (http 422 "validation_error") ;;;
  let* page := select (fun db => list_submissions db (c_tenant_id c) f limit offset) in
  let* total := select (fun db => count_submissions db (c_tenant_id c) f) in
  ret {| body := (page, total); sent := []; audited := [] |}.

(** api/v1/submissions.py, [get_submission] *)
Definition get_endpoint (c : caller) (submission_id : string) : M St exn (answer SupplierSubmission) :=
  let* row := get_submission (c_tenant_id c) submission_id in
  ret {| body := row; sent := []; audited := [] |}.

(** api/v1/submissions.py, [retry_submission] *)
Definition retry_endpoint (d : delivery) (broker_up : bool) (c : caller) (submission_id : string) : M St exn (answer SupplierSubmission) :=
  _require_writer c ;;;
  let* (row, ids) := retry_submission sha256 canonical_json_bytes repr cfg d broker_up (c_tenant_id c) submission_id in
  ret {| body := row; sent := ids;
         audited := [_write_audit "submission.retried" c (sub_id row) "submission" [("attempt_count", JInt (attempt_count row))]] |}.

(** api/v1/submissions.py, [get_submission_receipt] *)
Definition receipt_endpoint (base_url : string) (c : caller) (submission_id : string) : M St exn (answer ReceiptRead) :=
  let* receipt := get_receipt_for_submission (c_tenant_id c) submission_id in
  let* read := _receipt_to_read dict_other base_url receipt in
  ret {| body := read; sent := []; audited := [_write_audit "receipt.viewed" c (receipt_pk receipt) "receipt" [("submission_id", JStr submission_id)]] |}.

(** ** The system *)

(** The committed tables with the keys the processes hold, the queue of the broker - each
    job with the number of times it was sent again - and audit_logs. *)
Record World : Type := { w_st : St; w_queue : list (string * Z); w_audit : list audit_row }.
Definition jobs_of (ids : list string) : list (string * Z) := map (fun i => (i, 0)) ids.

(** db.py, [get_db]: one request.  Its jobs are with the broker before the commit; [early]
    is a worker that takes them before it, and finds nothing to claim
    ([early_job_is_skipped]). *)
Definition http_request {A} (early : bool) (m : M St exn (answer A)) (w : World) : result exn A * World :=
  match m (open_session (w_st w)) with
  | (Raise e, s) => (Raise e, {| w_st := open_session s; w_queue := w_queue w; w_audit := w_audit w |})
  | (Ok a, s) =>
      match session_commit s with
      | (Ok _, s) =>
          (Ok (body a), {| w_st := s; w_queue := w_queue w ++ (if early then [] else jobs_of (sent a)); w_audit := w_audit w ++ audited a |})
      | (Raise e, s) => (Raise e, {| w_st := open_session s; w_queue := w_queue w ++ (if early then [] else jobs_of (sent a)); w_audit := w_audit w |})
      end
  end.

(** A worker takes a job of the queue; the job is queued again when Celery is asked to. *)
Definition work (f : session_fault) (d : delivery) (job : string * Z) (rest : list (string * Z)) (w : World) :
    result task_signal task_result * World :=
  let '(r, s) := process_submission_task job.2 f d job.1 (w_st w) in
  (r, {| w_st := s; w_queue := match r with Raise (Retry _) => rest ++ [(job.1, job.2 + 1)] | _ => rest end; w_audit := w_audit w |}).

Definition tables (w : World) : SubDB := committed (tx (w_st w)).

(** The steps: requests, with fresh ids for new rows, and workers that take jobs, with
    fresh ids for their receipts and a session that works or not. *)
Inductive step : World -> World -> Prop :=
| step_create new_id now d up c payload early w :
    submissions (tables w) !! new_id = None -> ~ In new_id (map fst (w_queue w)) ->
    step w (snd (http_request early (create_endpoint new_id now d up c payload) w))
| step_retry d up c i early w : step w (snd (http_request early (retry_endpoint d up c i) w))
| step_list c f limit offset early w : step w (snd (http_request early (list_endpoint c f limit offset) w))
| step_get c i early w : step w (snd (http_request early (get_endpoint c i) w))
| step_receipt url c i early w : step w (snd (http_request early (receipt_endpoint url c i) w))
| step_work f d l job r w :
    w_queue w = l ++ job :: r -> receipts (tables w) !! d_receipt_id d = None ->
    step w (snd (work f d job (l ++ r) w)).

(** ** Lemmas *)

(** What holds between steps. *)
Definition world_ok (w : World) : Prop := db_ok (tables w) /\ cache_ok (signing (w_st w)).

(** A run of an endpoint leaves what is committed and the keys alone. *)
Definition untouched (s0 s : St) : Prop := committed (tx s) = committed (tx s0) /\ signing s = signing s0 /\ deactivated s = false.

Lemma request_outcome {A} early (m : M St exn (answer A)) w : preserves (untouched (w_st w)) m ->
  let '(r, w') := http_request early m w in
  signing (w_st w') = signing (w_st w) /\
  match r with
  | Raise _ => tables w' = tables w /\ w_queue w' = w_queue w /\ w_audit w' = w_audit w
  | Ok b => exists a s, m (open_session (w_st w)) = (Ok a, s) /\ b = body a /\ tables w' = db_of s /\
      w_queue w' = w_queue w ++ (if early then [] else jobs_of (sent a)) /\ w_audit w' = w_audit w ++ audited a
  end.
Proof.
  intros Hm. specialize (Hm (open_session (w_st w)) ltac:(by split_and!)). unfold http_request.
  destruct (m (open_session (w_st w))) as [[a|e] s] eqn:Hrun; destruct Hm as (Hc & Hk & Hd); cbn in Hc, Hk, Hd.
  - unfold session_commit. rewrite Hd. cbn. split; [done|]. exists a, s. done.
  - unfold tables. cbn. by rewrite Hc.
Qed.

Lemma untouched_flush s0 f : preserves (untouched s0) (flush_write f).
Proof. intros s (H1 & H2 & H3). unfold flush_write. rewrite H3. by split_and!. Qed.

Lemma untouched_select {A} s0 (f : SubDB -> A) : preserves (untouched s0) (select f).
Proof. intros s Hs; exact Hs. Qed.

Context (celery : enable_in_process_processor cfg = false).

Lemma enqueue_celery d up i : _enqueue sha256 canonical_json_bytes repr cfg d up i = ret (if up then [i] else []).
Proof. unfold _enqueue. by rewrite celery. Qed.

Ltac endpoint := repeat first
  [ apply preserves_bind; [|intros ?] | apply preserves_ret | apply preserves_raise | apply preserves_raise_if | apply preserves_or_raise
  | apply untouched_flush | apply untouched_select | progress case_match ].

Lemma create_untouched s0 new_id now d up c payload : preserves (untouched s0) (create_endpoint new_id now d up c payload).
Proof.
  unfold create_endpoint, _require_writer, read_create, create_submission, _load_supplier, _load_portal, _load_consent,
    _validate_portal_supported, _validate_consent_covers_portal, reload. rewrite enqueue_celery. endpoint.
Qed.

Lemma retry_untouched s0 d up c i : preserves (untouched s0) (retry_endpoint d up c i).
Proof. unfold retry_endpoint, _require_writer, retry_submission, get_submission, reload. rewrite enqueue_celery. endpoint. Qed.

Lemma list_untouched s0 c f limit offset : preserves (untouched s0) (list_endpoint c f limit offset).
Proof. unfold list_endpoint. endpoint. Qed.

Lemma get_untouched s0 c i : preserves (untouched s0) (get_endpoint c i).
Proof. unfold get_endpoint, get_submission. endpoint. Qed.

Lemma receipt_untouched s0 url c i : preserves (untouched s0) (receipt_endpoint url c i).
Proof. unfold receipt_endpoint, get_receipt_for_submission, get_submission, _receipt_to_read, dict_of. endpoint. Qed.

(** What the endpoints that write do to the tables. *)
Lemma create_submission_writes new_id now d up tid payload s row ids s' :
  create_submission sha256 canonical_json_bytes repr cfg new_id now d up tid payload s = (Ok (row, ids), s') ->
  sub_id row = new_id /\ sub_tenant_id row = tid /\ status row = QUEUED /\
  db_of s' = with_submissions (fun t => <[new_id := row]> t) (db_of s) /\ ids = (if up then [new_id] else []).
Proof.
  unfold create_submission, _load_supplier, _load_portal, _load_consent, select, reload. rewrite enqueue_celery. intros H. inv_run H.
  unfold _validate_portal_supported in Hrun. inv_run Hrun. apply raise_if_Ok in Hrun as [_ ->].
  apply covers_raises in Hrun0 as [-> _]. unfold flush_write in Hrun1. destruct (deactivated _); [done|]. injection Hrun1 as <- <-.
  unfold select, reads in H. injection H as -> ->. cbn. rewrite lookup_insert_eq. cbn. done.
Qed.

Lemma create_writes new_id now d up c payload s a s' :
  create_endpoint new_id now d up c payload s = (Ok a, s') ->
  sub_id (body a) = new_id /\ sub_tenant_id (body a) = c_tenant_id c /\ status (body a) = QUEUED /\
  db_of s' = with_submissions (fun t => <[new_id := body a]> t) (db_of s) /\ sent a = (if up then [new_id] else []) /\
  mem (lower (c_role c)) _WRITER_ROLES = true.
Proof.
  unfold create_endpoint, _require_writer, read_create. intros H. inv_run H. inv_run Hrun.
  destruct a2 as [row ids]. apply ret_Ok in H as [-> ->]. apply create_submission_writes in Hrun0 as (? & ? & ? & ? & ?). cbn.
  split_and!; try done. by apply negb_false_iff.
Qed.

Lemma retry_writes d up c i s a s' : retry_endpoint d up c i s = (Ok a, s') ->
  exists row, submissions (db_of s) !! i = Some row /\ status_in (status row) _RETRYABLE_STATUSES = true /\
    db_of s' = update_submission i requeued (db_of s) /\ sent a = (if up then [i] else []).
Proof.
  unfold retry_endpoint, _require_writer, retry_submission, reload. rewrite enqueue_celery. intros H. inv_run H.
  destruct a1 as [row ids]. apply ret_Ok in H as [-> ->]. inv_run Hrun.
  destruct (submissions (db_of s) !! i) as [x|]; [|done]. destruct (String.eqb (sub_tenant_id x) (c_tenant_id c)); [|done].
  injection H as ->. unfold flush_write in Hrun0. destruct (deactivated _); [done|]. injection Hrun0 as <- <-. injection H2 as _ ->.
  exists a. split_and!; try done. by apply negb_false_iff.
Qed.

Lemma readonly_tables {A} early (m : M St exn (answer A)) w : readonly m -> preserves (untouched (w_st w)) m ->
  (forall s a s', m s = (Ok a, s') -> sent a = []) ->
  let w' := snd (http_request early m w) in
  tables w' = tables w /\ signing (w_st w') = signing (w_st w) /\ w_queue w' = w_queue w.
Proof.
  intros Hro Hp Hsent. pose proof (request_outcome early m w Hp) as Ho. destruct (http_request early m w) as [[b|e] w']; cbn.
  - destruct Ho as (Hk & a & s & Hm & _ & Ht & Hq & _). rewrite Ht, Hq, (Hsent _ _ _ Hm). specialize (Hro (open_session (w_st w))).
    rewrite Hm in Hro. cbn in Hro. subst s. split_and!; [done|done|]. destruct early; by rewrite app_nil_r.
  - destruct Ho as (? & ? & ? & _). done.
Qed.

(** The session's exceptions on which Celery is asked to send the job again. *)
Definition connection_lost (class : string) : Prop :=
  In class ["ConnectionError"; "BrokenPipeError"; "ConnectionAbortedError"; "ConnectionRefusedError"; "ConnectionResetError"; "TimeoutError"].

(** What becomes of a job whose session raised. *)
Definition session_failed (class msg : string) (job : string * Z) (rest : list (string * Z))
    (r : result task_signal task_result) (queue : list (string * Z)) : Prop :=
  (connection_lost class /\ job.2 < 3 /\ r = Raise (Retry 60) /\ queue = rest ++ [(job.1, job.2 + 1)]) \/
  (connection_lost class /\ 3 <= job.2 /\ r = Raise (Propagated (session_error class msg)) /\ queue = rest) \/
  (~ connection_lost class /\ r = Ok (TaskFailed class msg None) /\ queue = rest).

(** The job whose submission cannot be claimed. *)
Definition skipped (r : result task_signal task_result) : Prop := exists msg ctx, r = Ok (Skipped msg ctx).

Lemma session_failed_run class msg (job : string * Z) rest (s : St) :
  let r := match _TRANSIENT_EXCEPTIONS (Other class) with
           | true => Raise (if job.2 <? 3 then Retry 60 else Propagated (session_error class msg))
           | false => Ok (TaskFailed class msg None)
           end in
  session_failed class msg job rest r (match r with Raise (Retry _) => rest ++ [(job.1, job.2 + 1)] | _ => rest end).
Proof.
  unfold session_failed, connection_lost. cbn [_TRANSIENT_EXCEPTIONS]. destruct (mem class _) eqn:Hm.
  - apply mem_In in Hm. destruct (Z.ltb_spec job.2 3); [left|right; left]; by split_and!.
  - right. right. split; [|done]. intros Hin%mem_In. congruence.
Qed.

Lemma session_failed_mem class msg i retries rest r queue :
  session_failed class msg (i, retries) rest r queue ->
  if mem class ["ConnectionError"; "BrokenPipeError"; "ConnectionAbortedError"; "ConnectionRefusedError"; "ConnectionResetError"; "TimeoutError"]
  then if retries <? 3
       then r = Raise (Retry 60) /\ queue = rest ++ [(i, retries + 1)]
       else r = Raise (Propagated (Exn (Other class) msg [])) /\ queue = rest
  else r = Ok (TaskFailed class msg None) /\ queue = rest.
Proof.
  intros [(Hc & Hn & -> & ->)|[(Hc & Hn & -> & ->)|(Hc & -> & ->)]]; cbn [fst snd] in *.
  - apply mem_In in Hc. rewrite Hc. by destruct (Z.ltb_spec retries 3); [|lia].
  - apply mem_In in Hc. rewrite Hc. by destruct (Z.ltb_spec retries 3); [lia|].
  - destruct (mem class _) eqn:Hm; [|done]. by apply mem_In in Hm.
Qed.

(** What a job does. *)
Definition job_outcome (f : session_fault) (d : delivery) (job : string * Z) (rest : list (string * Z)) (w w' : World)
    (r : result task_signal task_result) : Prop :=
  match f with
  | ClaimRaises class msg => tables w' = tables w /\ session_failed class msg job rest r (w_queue w')
  | _ =>
      match submissions (tables w) !! job.1 with
      | Some row =>
          if claimable row then
            exists res row' db', processed (d_now d) job.1 (d_receipt_id d) (d_answer d) row row' (tables w) db' res /\
              match f with
              | CommitRaises class msg landed =>
                  tables w' = (if landed then db' else tables w) /\ session_failed class msg job rest r (w_queue w')
              | _ => tables w' = db' /\ r = Ok (Payload res) /\ w_queue w' = rest
              end
          else tables w' = tables w /\ skipped r /\ w_queue w' = rest
      | None => tables w' = tables w /\ skipped r /\ w_queue w' = rest
      end
  end.

Lemma work_outcome f d job rest w : world_ok w -> receipts (tables w) !! d_receipt_id d = None ->
  let '(r, w') := work f d job rest w in
  world_ok w' /\ (forall j, j <> job.1 -> submissions (tables w') !! j = submissions (tables w) !! j) /\
  job_outcome f d job rest w w' r.
Proof.
  intros [Hok Hc] Hrid. destruct job as [i n]. unfold work, process_submission_task, _run, deliver, job_outcome. cbn [fst snd] in *.
  destruct f as [|class msg|class msg landed]; [|split; [by split|]; split; [done|]; split; [done|]; exact (session_failed_run class msg (i, n) rest (w_st w))|].
  all: assert (Hskip : forall row, submissions (tables w) !! i = row -> match row with Some row => claimable row | None => false end = false ->
    exists e, exc e = SubmissionNotClaimable /\
      process_submission sha256 canonical_json_bytes repr cfg (d_now d) (d_sign d) (d_end d) (d_receipt_id d) (d_answer d) i (open_session (w_st w))
        = (Raise e, open_session (w_st w)))
    by (intros row Hrow Hcl; unfold process_submission, _claim_submission, bind at 1 2, select, reads; cbn; unfold tables in Hrow;
        unfold db_of; cbn; rewrite Hrow; destruct row as [row|]; [rewrite Hcl|]; (eexists; split; [|unfold open_session; reflexivity]; reflexivity)).
  all: destruct (submissions (tables w) !! i) as [row|] eqn:Hrow; [destruct (claimable row) eqn:Hcl|].
  2,3,5,6: destruct (Hskip _ eq_refl ltac:(done)) as (e & He & ->); rewrite He; (split; [by split|]); (split; [done|]); (split; [done|]);
    (split; [by eexists _, _|done]).
  all: destruct (process_outcome sha256 canonical_json_bytes repr cfg (d_now d) (d_sign d) (d_end d) (d_receipt_id d) (d_answer d) i
      (open_session (w_st w)) row) as (res & s' & row' & -> & Hp & Hcm & _ & Hc'); try done.
  - assert (Ht : tables {| w_st := open_session s'; w_queue := rest; w_audit := w_audit w |} = db_of s') by done.
    split; [split; [rewrite Ht; apply (p_ok _ _ _ _ _ _ _ _ _ Hp)|exact Hc']|]. split.
    + intros j Hj. rewrite Ht. by apply (p_others _ _ _ _ _ _ _ _ _ Hp).
    + exists res, row', (db_of s'). by split_and!.
  - set (s2 := open_session _). assert (Ht : committed (tx s2) = (if landed then db_of s' else tables w)) by (by destruct landed).
    assert (Hk : signing s2 = signing s') by (by destruct landed). split; [split; [|by rewrite <- Hk in Hc']|].
    { unfold tables. cbn [w_st]. rewrite Ht. destruct landed; [apply (p_ok _ _ _ _ _ _ _ _ _ Hp)|done]. }
    split.
    + intros j Hj. unfold tables at 1. cbn [w_st]. rewrite Ht. destruct landed; [by apply (p_others _ _ _ _ _ _ _ _ _ Hp)|done].
    + exists res, row', (db_of s'). split; [done|]. split; [exact Ht|]. exact (session_failed_run class msg (i, n) rest (w_st w)).
Qed.

(** A job that is taken before its request commits finds a row that is not there yet, or
    one that is still failed. *)
Lemma early_job_is_skipped d job rest w : world_ok w -> receipts (tables w) !! d_receipt_id d = None ->
  match submissions (tables w) !! job.1 with Some row => claimable row = false | None => True end ->
  skipped (fst (work SessionWorks d job rest w)) /\ tables (snd (work SessionWorks d job rest w)) = tables w.
Proof.
  intros Hw Hrid Hrow. pose proof (work_outcome SessionWorks d job rest w Hw Hrid) as Ho. destruct (work _ d job rest w) as [r w'].
  destruct Ho as (_ & _ & Ho). unfold job_outcome in Ho. destruct (submissions (tables w) !! job.1) as [row|]; [rewrite Hrow in Ho|]; naive_solver.
Qed.

(** A submission that a job has to finish. *)
Definition unfinished (row : SupplierSubmission) : bool := status_in (status row) [QUEUED; RUNNING; RETRYING].

Lemma unfinished_not_retryable row : unfinished row = true -> status_in (status row) _RETRYABLE_STATUSES = false.
Proof. unfold unfinished. by destruct (status row). Qed.

Lemma retry_refused early d up c i row w : submissions (tables w) !! i = Some row -> unfinished row = true ->
  exists e, fst (http_request early (retry_endpoint d up c i) w) = Raise e /\ tables (snd (http_request early (retry_endpoint d up c i) w)) = tables w.
Proof.
  intros Hrow Hun. pose proof (request_outcome early _ w (retry_untouched (w_st w) d up c i)) as Ho.
  destruct (http_request early (retry_endpoint d up c i) w) as [[b|e] w']; destruct Ho as [_ Ho].
  - destruct Ho as (a & s & Hrun & _). apply retry_writes in Hrun as (row' & Hrow' & Hst & _).
    assert (row' = row) as -> by (unfold tables in Hrow; unfold db_of in Hrow'; cbn in Hrow'; congruence).
    by rewrite unfinished_not_retryable in Hst.
  - exists e. by destruct Ho as (? & _).
Qed.

(** What a step keeps. *)
Definition kept (i : string) (row : SupplierSubmission) (w : World) : Prop :=
  world_ok w /\ submissions (tables w) !! i = Some row /\ ~ In i (map fst (w_queue w)).

Lemma jobs_of_ids ids : map fst (jobs_of ids) = ids.
Proof. unfold jobs_of. rewrite map_map. apply map_id. Qed.

(** A job that is taken leaves no other id in the queue than were there. *)
Lemma job_queue f d job rest w w' r j :
  job_outcome f d job rest w w' r -> In j (map fst (w_queue w')) -> In j (map fst rest) \/ j = job.1.
Proof.
  assert (Hs : forall class msg, session_failed class msg job rest r (w_queue w') -> In j (map fst (w_queue w')) ->
            In j (map fst rest) \/ j = job.1).
  { intros class msg [(_ & _ & _ & ->)|[(_ & _ & _ & ->)|(_ & _ & ->)]]; [|by left..].
    rewrite map_app, in_app_iff. cbn. naive_solver. }
  unfold job_outcome. destruct f as [|class msg|class msg landed]; [|intros [_ H]; by apply (Hs class msg)|];
    destruct (submissions (tables w) !! job.1) as [row|]; [destruct (claimable row)| |destruct (claimable row)|].
  - intros (res & row' & db' & _ & _ & _ & ->). by left.
  - intros (_ & _ & ->). by left.
  - intros (_ & _ & ->). by left.
  - intros (res & row' & db' & _ & _ & H). by apply (Hs class msg).
  - intros (_ & _ & ->). by left.
  - intros (_ & _ & ->). by left.
Qed.

Lemma db_ok_create db new_id row : db_ok db -> submissions db !! new_id = None -> sub_id row = new_id ->
  db_ok (with_submissions (fun t => <[new_id := row]> t) db).
Proof.
  intros [Hkey Hdone] Hnew Hid. split; cbn.
  - intros j r. destruct (decide (j = new_id)) as [-> |]; [rewrite lookup_insert_eq; by intros [= <-]|].
    rewrite lookup_insert_ne by done. apply Hkey.
  - intros j rc Hrc. destruct (Hdone j rc Hrc) as (r & Hr & Hc). exists r. rewrite lookup_insert_ne by congruence. done.
Qed.

Lemma readonly_step {A} early (m : M St exn (answer A)) i row w : readonly m -> preserves (untouched (w_st w)) m ->
  (forall s a s', m s = (Ok a, s') -> sent a = []) -> kept i row w -> kept i row (snd (http_request early m w)).
Proof.
  intros H1 H2 H3 ([Hok Hc] & Hrow & Hq). destruct (readonly_tables early m w H1 H2 H3) as (Ht & Hk & Hq').
  unfold kept, world_ok. by rewrite Ht, Hk, Hq'.
Qed.

Lemma step_keeps w w' i row : unfinished row = true -> step w w' -> kept i row w -> kept i row w'.
Proof.
  intros Hun Hstep ([Hok Hc] & Hrow & Hq).
  destruct Hstep as [new_id now d up c payload early w Hnew Hnq|d up c j early w|c f limit offset early w|c j early w|url c j early w|f d l job r w Hw Hrid].
  - assert (Hne : i <> new_id) by congruence.
    pose proof (request_outcome early _ w (create_untouched (w_st w) new_id now d up c payload)) as Ho.
    destruct (http_request early (create_endpoint new_id now d up c payload) w) as [[b|e] w']; destruct Ho as [Hk Ho]; cbn.
    + destruct Ho as (a & s & Hrun & _ & Ht & Hq' & _). apply create_writes in Hrun as (Hid & _ & _ & Hdb & Hsent & _).
      unfold kept, world_ok. rewrite Ht, Hk, Hq', Hdb. split_and!; [|done| |].
      * by apply db_ok_create.
      * cbn. rewrite lookup_insert_ne by done. exact Hrow.
      * rewrite Hsent, map_app. intros [?|Hin]%in_app_iff; [done|]. destruct early, up; cbn in Hin; naive_solver.
    + destruct Ho as (Ht & Hq' & _). unfold kept, world_ok. by rewrite Ht, Hk, Hq'.
  - pose proof (request_outcome early _ w (retry_untouched (w_st w) d up c j)) as Ho.
    destruct (http_request early (retry_endpoint d up c j) w) as [[b|e] w']; destruct Ho as [Hk Ho]; cbn.
    + destruct Ho as (a & s & Hrun & _ & Ht & Hq' & _). apply retry_writes in Hrun as (row' & Hrow' & Hst & Hdb & Hsent).
      change (db_of (open_session (w_st w))) with (tables w) in *.
      assert (Hne : i <> j) by (intros <-; rewrite Hrow in Hrow'; injection Hrow' as <-; by rewrite unfinished_not_retryable in Hst).
      unfold kept, world_ok. rewrite Ht, Hk, Hq', Hdb. split_and!; [|done| |].
      * apply (db_ok_update _ j row'); try done. by destruct (status row').
      * cbn. rewrite lookup_alter_ne by done. exact Hrow.
      * rewrite Hsent, map_app. intros [?|Hin]%in_app_iff; [done|]. destruct early, up; cbn in Hin; naive_solver.
    + destruct Ho as (Ht & Hq' & _). unfold kept, world_ok. by rewrite Ht, Hk, Hq'.
  - apply readonly_step; [| |intros s a s' H|by split_and!].
    + unfold list_endpoint, select. auto with readonly.
    + apply list_untouched.
    + unfold list_endpoint, select in H. inv_run H. done.
  - apply readonly_step; [| |intros s a s' H|by split_and!].
    + unfold get_endpoint, get_submission, select. auto with readonly.
    + apply get_untouched.
    + unfold get_endpoint in H. inv_run H. done.
  - apply readonly_step; [| |intros s a s' H|by split_and!].
    + unfold receipt_endpoint, get_receipt_for_submission, get_submission, _receipt_to_read, dict_of, select.
      repeat (apply readonly_bind; [|intros]); auto with readonly. destruct (public_payload_json _); auto with readonly; destruct (jtruthy _); auto with readonly.
    + apply receipt_untouched.
    + unfold receipt_endpoint in H. inv_run H. done.
  - assert (Hne : i <> job.1) by (intros ->; apply Hq; rewrite Hw, map_app; apply in_app_iff; right; by left).
    pose proof (work_outcome f d job (l ++ r) w (conj Hok Hc) Hrid) as Ho. destruct (work f d job (l ++ r) w) as [res w'].
    destruct Ho as (Hw' & Hothers & Ho). cbn. split_and!; [done|by rewrite Hothers|]. intros Hin.
    apply (job_queue f d job (l ++ r) w w' res i Ho) in Hin as [Hin|?]; [|done]. apply Hq. rewrite Hw.
    rewrite map_app, in_app_iff in *. cbn. tauto.
Qed.
End Api.

(** ** Properties *)

(** C32. A job is sent again for its database session only, and three times at most: when
    the session works, a submission that can be claimed is processed and the job answers its
    new status, whatever the portal answered or raised - a transient failure included -, any
    other id is skipped and changes nothing, and either way the job is gone from the
    queue.  When the session raises [ConnectionError] or one of its subclasses, or
    [TimeoutError] - as the submission is claimed, or in the commit at the end - the job is queued
    again with its count one higher, after three times it is given up and the exception is
    Celery's; any other exception of the session ends the job as failed.  The tables are then as they
    were before the job, or, if the database had committed, as the run left them: so a
    submission whose portal has had the form may be claimed once more. *)
Theorem job_is_sent_again_for_its_session `{E : Ed25519} sha256 canonical repr cfg f d i retries rest w :
  world_ok w -> receipts (tables w) !! d_receipt_id d = None ->
  let '(r, w') := work sha256 canonical repr cfg f d (i, retries) rest w in
  world_ok w' /\
  let failed class msg :=
    if mem class ["ConnectionError"; "BrokenPipeError"; "ConnectionAbortedError"; "ConnectionRefusedError"; "ConnectionResetError"; "TimeoutError"]
    then if retries <? 3
         then r = Raise (Retry 60) /\ w_queue w' = rest ++ [(i, retries + 1)]
         else r = Raise (Propagated (Exn (Other class) msg [])) /\ w_queue w' = rest
    else r = Ok (TaskFailed class msg None) /\ w_queue w' = rest in
  match f with
  | ClaimRaises class msg => tables w' = tables w /\ failed class msg
  | _ =>
      match submissions (tables w) !! i with
      | Some row =>
          if claimable row then
            exists res row' db', processed (d_now d) i (d_receipt_id d) (d_answer d) row row' (tables w) db' res /\
              match f with
              | CommitRaises class msg landed => tables w' = (if landed then db' else tables w) /\ failed class msg
              | _ => tables w' = db' /\ r = Ok (Payload res) /\ w_queue w' = rest
              end
          else tables w' = tables w /\ (exists msg ctx, r = Ok (Skipped msg ctx)) /\ w_queue w' = rest
      | None => tables w' = tables w /\ (exists msg ctx, r = Ok (Skipped msg ctx)) /\ w_queue w' = rest
      end
  end.
Proof.
  intros Hw Hrid. pose proof (work_outcome sha256 canonical repr cfg f d (i, retries) rest w Hw Hrid) as Ho.
  destruct (work sha256 canonical repr cfg f d (i, retries) rest w) as [r w']. destruct Ho as (? & _ & Ho). split; [done|].
  unfold job_outcome in Ho. cbn [fst snd] in Ho. destruct f as [|class msg|class msg landed]; [exact Ho|destruct Ho as [Ht Hf]; split; [done|]; by apply session_failed_mem|].
  destruct (submissions (tables w) !! i) as [row|]; [|exact Ho]. destruct (claimable row); [|exact Ho].
  destruct Ho as (res & row' & db' & Hp & Ht & Hf). exists res, row', db'. split; [done|]. split; [done|]. by apply session_failed_mem.
Qed.

(** C28. An unfinished submission without a job is unfinished for good: one that is queued,
    running or retrying, and whose id is in no queue - its job was lost, or taken before
    the request committed, or answered a status of retrying - is moved by no sequence of
    requests and jobs, and every manual retry of it is refused. *)
Theorem unfinished_submissions_stay `{E : Ed25519} sha256 canonical repr cfg dict_other w w' i row :
  enable_in_process_processor cfg = false -> world_ok w -> rtc (step sha256 canonical repr cfg dict_other) w w' ->
  submissions (tables w) !! i = Some row -> unfinished row = true -> ~ In i (map fst (w_queue w)) ->
  submissions (tables w') !! i = Some row /\
  forall early d up c, exists e,
    fst (http_request early (retry_endpoint sha256 canonical repr cfg d up c i) w') = Raise e /\
    tables (snd (http_request early (retry_endpoint sha256 canonical repr cfg d up c i) w')) = tables w'.
Proof.
  intros Hmode Hok Hsteps Hrow Hun Hq. assert (Hk : kept i row w') .
  { induction Hsteps as [w|w1 w2 w3 Hstep _ IH]; [done|].
    destruct (step_keeps sha256 canonical repr cfg dict_other Hmode w1 w2 i row Hun Hstep) as (H1 & H2 & H3); [done|]. by apply IH. }
  destruct Hk as (_ & Hrow' & _). split; [done|]. intros early d up c. by apply (retry_refused sha256 canonical repr cfg Hmode early d up c i row).
Qed.

(** ** Runs *)

Module DemoSubmissionApi.
Import DemoCrypto DemoReceipts.

Definition broker_cfg : settings :=
  {| receipt_signing_key_id := "k1"; receipt_signing_private_key_pem := "-----BEGIN seed -----END";
     enable_in_process_processor := false; enable_tos_risky_platforms := false |}.
Definition agent : caller := {| c_tenant_id := "t1"; c_user_id := "u1"; c_role := "Agent"; client_host := None; x_forwarded_for := Some " 10.0.0.9, 10.0.0.1" |}.
Definition world0 : World (E := DemoCrypto.demo) := {| w_st := start; w_queue := [("x1", 0)]; w_audit := [] |}.
Definition create (c : caller) (i : string) (early : bool) (w : World) : result exn SupplierSubmission * World :=
  http_request early (create_endpoint sha canonical (fun _ => "") broker_cfg i 0 (demo_env 0) true c demo_payload) w.
Definition retry (i : string) (w : World) : result exn SupplierSubmission * World :=
  http_request false (retry_endpoint sha canonical (fun _ => "") broker_cfg (demo_env 0) true agent i) w.
Definition job (i : string) (rest : list (string * Z)) (w : World) : result task_signal task_result * World :=
  work sha canonical (fun _ => "") broker_cfg SessionWorks (demo_env 0) (i, 0) rest w.
Definition faulty (f : session_fault) (n : Z) (w : World) : result task_signal task_result * World :=
  work sha canonical (fun _ => "") broker_cfg f (demo_env 0) ("x1", n) [] w.
Definition statuses (w : World (E := DemoCrypto.demo)) : list (string * SubmissionStatus) :=
  map (fun kv => (kv.1, status kv.2)) (map_to_list (submissions (tables w))).

Example created :
  let '(r, w) := create agent "x2" false {| w_st := start; w_queue := []; w_audit := [] |} in
  match r with Ok row => status row | Raise _ => FAILED end = QUEUED /\ w_queue w = [("x2", 0)] /\
  map a_ip_address (w_audit w) = [Some "10.0.0.9"].
Proof. vm_compute. auto. Qed.

Example members_only_read :
  fst (create {| c_tenant_id := "t1"; c_user_id := "u1"; c_role := "member"; client_host := None; x_forwarded_for := None |} "x2" false world0) =
    Raise (http 403 "writer_role_required").
Proof. vm_compute. reflexivity. Qed.

(** A transient failure of the portal is an answer of the pipeline, not an exception: the
    job ends, the submission is retrying, and nobody retries it, not even by hand. *)
Example transient_failure_is_final :
  let '(r, w) := job "x1" [] world0 in
  match r with Ok (Payload res) => res_status res | _ => FAILED end = RETRYING /\ w_queue w = [] /\ statuses w = [("x1", RETRYING)] /\
  fst (retry "x1" w) = Raise (http 409 "submission_not_retryable").
Proof. vm_compute. auto. Qed.

(** The database cannot be reached: the job is sent again three times and then given up. *)
Example unreachable_database :
  map (fun n => let '(r, w) := faulty (ClaimRaises "ConnectionRefusedError" "refused") n world0 in (match r with Ok _ => 0 | Raise (Retry c) => c | _ => -1 end, w_queue w)) [0; 2; 3] =
  [(60, [("x1", 1)]); (60, [("x1", 3)]); (-1, [])].
Proof. vm_compute. reflexivity. Qed.

(** A worker that is faster than the commit of the request skips the job; the submission
    stays queued, and a retry by hand is refused. *)
Example worker_before_commit :
  let '(_, w) := create agent "x2" true {| w_st := start; w_queue := []; w_audit := [] |} in
  w_queue w = [] /\ fst (retry "x2" w) = Raise (http 409 "submission_not_retryable").
Proof. vm_compute. auto. Qed.

Lemma world0_ok : world_ok world0.
Proof. split; [exact demo_db_ok|exact start_cache_ok]. Qed.

End DemoSubmissionApi.

Lemma job_is_sent_again_for_its_session_witness :
  (exists res w', DemoSubmissionApi.job "x1" [] DemoSubmissionApi.world0 = (Ok (Payload res), w') /\ w_queue w' = []) /\
  (exists w', DemoSubmissionApi.faulty (CommitRaises "TimeoutError" "" false) 2 DemoSubmissionApi.world0 = (Raise (Retry 60), w') /\
     w_queue w' = [("x1", 3)] /\ tables w' = tables DemoSubmissionApi.world0).
Proof.
  split.
  - pose proof (job_is_sent_again_for_its_session DemoReceipts.sha DemoReceipts.canonical (fun _ => "") DemoSubmissionApi.broker_cfg SessionWorks
      (demo_env 0) "x1" 0 [] DemoSubmissionApi.world0 DemoSubmissionApi.world0_ok eq_refl) as H.
    unfold DemoSubmissionApi.job. destruct (work _ _ _ _ _ _ _ _ _) as [r w']. destruct H as (_ & H).
    destruct H as (res & row' & db' & _ & _ & -> & Hq). exists res, w'. split; [reflexivity|exact Hq].
  - pose proof (job_is_sent_again_for_its_session DemoReceipts.sha DemoReceipts.canonical (fun _ => "") DemoSubmissionApi.broker_cfg
      (CommitRaises "TimeoutError" "" false) (demo_env 0) "x1" 2 [] DemoSubmissionApi.world0 DemoSubmissionApi.world0_ok eq_refl) as H.
    unfold DemoSubmissionApi.faulty. destruct (work _ _ _ _ _ _ _ _ _) as [r w']. destruct H as (_ & H).
    destruct H as (res & row' & db' & _ & Ht & -> & Hq). exists w'. split; [reflexivity|]. split; [exact Hq|exact Ht].
Defined.

Lemma unfinished_submissions_stay_witness :
  let w := snd (DemoSubmissionApi.job "x1" [] DemoSubmissionApi.world0) in
  exists e, fst (DemoSubmissionApi.retry "x1" w) = Raise e.
Proof.
  intros w.
  assert (Hok : world_ok w).
  { pose proof (work_outcome DemoReceipts.sha DemoReceipts.canonical (fun _ => "") DemoSubmissionApi.broker_cfg SessionWorks (demo_env 0) ("x1", 0) []
      DemoSubmissionApi.world0 DemoSubmissionApi.world0_ok eq_refl) as H. unfold w, DemoSubmissionApi.job.
    destruct (work _ _ _ _ _ _ _ _ _) as [r w']. exact (proj1 H). }
  destruct (submissions (tables w) !! "x1") as [row|] eqn:Hrow; [|vm_compute in Hrow; discriminate].
  assert (Hun : unfinished row = true) by (vm_compute in Hrow; injection Hrow as <-; reflexivity).
  destruct (proj2 (unfinished_submissions_stay DemoReceipts.sha DemoReceipts.canonical (fun _ => "") DemoSubmissionApi.broker_cfg (fun _ => None)
    w w "x1" row eq_refl Hok (rtc_refl _ _) Hrow Hun (fun H => H)) false (demo_env 0) true DemoSubmissionApi.agent) as (e & He & _).
  exists e. exact He.
Defined.
