(* ===== verification/TenantApi.v ===== *)
(** * The account of a tenant

    api/v1/tenants.py with services/tenant_service.py, api/v1/portals.py with
    services/portal_service.py, api/v1/security.py and api/v1/health.py: a tenant reads and
    changes its own row, pages through the catalog of portals, checks the secrets of the
    process and unlocks accounts; probes of the process. *)

From Stdlib Require Import Ascii.
From Stdlib Require Import SpecFloat.
From S2P Require Import Prelude PyStr Json PyTime SubmissionModels SubmissionApi Lockout Accounts Startup.

(** ** State *)

(** The rows of audit_logs these endpoints write. *)
Record api_audit : Type := { aa_action : string; aa_resource_type : string; aa_caller : caller; aa_resource_id : option string;
  aa_ip_address : option string; aa_metadata : list (string * json) }.
Record TenantDB : Type := { t_tenants : gmap string Tenant; t_portals : list Portal; t_audit : list api_audit }.
Definition with_tenants (f : gmap string Tenant -> gmap string Tenant) (db : TenantDB) : TenantDB :=
  {| t_tenants := f (t_tenants db); t_portals := t_portals db; t_audit := t_audit db |}.
Definition add_audit (a : api_audit) (db : TenantDB) : TenantDB :=
  {| t_tenants := t_tenants db; t_portals := t_portals db; t_audit := t_audit db ++ [a] |}.

Inductive api_error : Type := HTTPException (status : Z) (code : string) | IntegrityError | ValidationError.
Definition TM : Type -> Type := M (session TenantDB) api_error.

(** api/v1/tenants.py and api/v1/portals.py, [_write_audit] *)
Definition audit (action resource_type : string) (c : caller) (resource_id : option string) (metadata : list (string * json)) : TM unit :=
  write (add_audit {| aa_action := action; aa_resource_type := resource_type; aa_caller := c; aa_resource_id := resource_id;
                      aa_ip_address := _client_ip c; aa_metadata := metadata |}).

(** ** Tenants *)

(** schemas/tenant.py, [TenantUpdate]: a field that is absent, null, or a text. *)
Record TenantUpdate : Type := { tu_name : option (option string); tu_plan : option (option string) }.

(** A text of the schema: stripped, of one to so many characters. *)
Definition read_text (max : Z) (v : option json) : option (option (option string)) :=
  match v with
  | None => Some None
  | Some JNull => Some (Some None)
  | Some (JStr s) => let s := strip s in if (1 <=? slen s) && (slen s <=? max) then Some (Some (Some s)) else None
  | _ => None
  end.

(** schemas/tenant.py, [TenantUpdate]: the body; [None] is a 422. *)
Definition read_update (body : list (string * json)) : option TenantUpdate :=
  if negb (forallb (fun kv => mem kv.1 ["name"; "plan"]) body) then None
  else
    match read_text 255 (assoc "name" body), read_text 32 (assoc "plan" body) with
    | Some n, Some p => Some {| tu_name := n; tu_plan := p |}
    | _, _ => None
    end.

(** services/tenant_service.py, [OWNER_ROLES] *)
Definition OWNER_ROLES : list string := ["owner"; "admin"].

(** services/tenant_service.py, [get_tenant] *)
Definition get_tenant (tenant_id : string) : TM Tenant :=
  let* row := query (fun db => t_tenants db !! tenant_id) in
  or_raise row (HTTPException 404 "tenant_not_found").

Definition named (name plan_ : string) (t : Tenant) : Tenant :=
  {| tenant_pk := tenant_pk t; tenant_name := name; slug := slug t; plan := plan_; tenant_is_active := tenant_is_active t |}.

(** services/tenant_service.py, [update_tenant]; both columns are NOT NULL. *)
Definition update_tenant (tenant_id : string) (actor : caller) (payload : TenantUpdate) : TM Tenant :=
  raise_if (negb (String.eqb (c_tenant_id actor) tenant_id)) (HTTPException 403 "cross_tenant_forbidden") ;;;
  raise_if (negb (mem (c_role actor) OWNER_ROLES)) (HTTPException 403 "insufficient_role") ;;;
  let* tenant := get_tenant tenant_id in
  match payload with
  | {| tu_name := None; tu_plan := None |} => ret tenant
  | _ =>
      match default (Some (tenant_name tenant)) (tu_name payload), default (Some (plan tenant)) (tu_plan payload) with
      | Some n, Some p => write (with_tenants (<[tenant_id := named n p tenant]>)) ;;; ret (named n p tenant)
      | _, _ => raise IntegrityError
      end
  end.

(** api/v1/tenants.py, [get_my_tenant] *)
Definition get_my_tenant (c : caller) : TM Tenant := get_tenant (c_tenant_id c).

(** The names of the fields that were sent, sorted. *)
Definition fields (p : TenantUpdate) : list string :=
  (if is_someb (tu_name p) then ["name"] else []) ++ (if is_someb (tu_plan p) then ["plan"] else []).

(** api/v1/tenants.py, [update_my_tenant] *)
Definition update_my_tenant (c : caller) (body : list (string * json)) : TM Tenant :=
  let* payload := or_raise (read_update body) ValidationError in
  let* tenant := update_tenant (c_tenant_id c) c payload in
  audit "tenant.updated" "tenant" c (Some (tenant_pk tenant)) [("fields", JList (map JStr (fields payload)))] ;;;
  ret tenant.

(** ** Portals *)

(** services/portal_service.py, [_clamp_limit] *)
Definition _clamp_limit (limit : Z) : Z := if limit <=? 0 then 50 else Z.min limit 200.

(** services/portal_service.py, [_apply_filters] *)
Definition _apply_filters (is_supported_ : option bool) (l : list Portal) : list Portal :=
  match is_supported_ with Some b => List.filter (fun p => Bool.eqb (is_supported p) b) l | None => l end.

(** [ORDER BY display_name ASC, id ASC] *)
Definition by_name (a b : Portal) : bool :=
  if String.eqb (display_name a) (display_name b) then String.leb (portal_pk a) (portal_pk b) else String.leb (display_name a) (display_name b).

(** services/portal_service.py, [list_portals] *)
Definition list_portals (is_supported_ : option bool) (limit offset : Z) : TM (list Portal) :=
  query (fun db => take (Z.to_nat (_clamp_limit limit)) (drop (Z.to_nat (Z.max offset 0)) (isort by_name (_apply_filters is_supported_ (t_portals db))))).

(** services/portal_service.py, [count_portals] *)
Definition count_portals (is_supported_ : option bool) : TM Z :=
  query (fun db => Z.of_nat (length (_apply_filters is_supported_ (t_portals db)))).

(** services/portal_service.py, [get_portal] *)
Definition get_portal (portal_id : string) : TM Portal :=
  let* row := query (fun db => find_first (fun p => String.eqb (portal_pk p) portal_id) (t_portals db)) in
  or_raise row (HTTPException 404 "portal_not_found").

(** api/v1/portals.py, [list_portals] *)
Definition list_portals_endpoint (c : caller) (is_supported_ : option bool) (limit offset : Z) : TM (list Portal * Z) :=
  raise_if (negb ((1 <=? limit) && (limit <=? 200) && (0 <=? offset))) ValidationError ;;;
  let* portals := list_portals is_supported_ limit offset in
  let* total := count_portals is_supported_ in
  audit "portal.listed" "portal" c None
    [("count", JInt (Z.of_nat (length portals))); ("is_supported", match is_supported_ with Some b => JBool b | None => JNull end);
     ("limit", JInt limit); ("offset", JInt offset)] ;;;
  ret (portals, total).

(** api/v1/portals.py, [get_portal] *)
Definition get_portal_endpoint (c : caller) (portal_id : string) : TM Portal :=
  let* portal := get_portal portal_id in
  audit "portal.viewed" "portal" c (Some (portal_pk portal)) [("platform", JStr (platform_value (platform portal)))] ;;;
  ret portal.

(** ** Security *)

(** api/v1/security.py, [_ADMIN_ROLES] *)
Definition _ADMIN_ROLES : list string := ["admin"; "owner"].

(** api/v1/security.py, [_require_admin] *)
Definition _require_admin {S} (c : caller) : M S api_error unit :=
  raise_if (negb (mem (lower (c_role c)) _ADMIN_ROLES)) (HTTPException 403 "admin_required").

Section Security.
Context (log2 : spec_float -> spec_float) (fsum : list spec_float -> spec_float).

(** middleware/security_headers.py, [_hsts_default_enabled]; [env] is [settings.env]. *)
Definition _hsts_default_enabled (env : string) (app_env_ : app_environment) : bool :=
  let app_env_text := match app_env_ with development => "development" | staging => "staging" | production => "production" end in
  String.eqb (lower (sor (sor env app_env_text) "")) "production".

(** api/v1/security.py, [self_check]: the strengths of the two secrets, whether HSTS is on,
    and the warnings; [hsts_env] is SECURITY_HSTS_ENABLED, [env] is [settings.env]. *)
Definition self_check (s : Settings) (hsts_env : option string) (env : string) (c : caller) : result api_error (bool * bool * bool * list string) :=
  if negb (mem (lower (c_role c)) _ADMIN_ROLES) then Raise (HTTPException 403 "admin_required")
  else
    let secret_score := evaluate_secret log2 fsum (Some (secret_key s)) in
    let jwt_score := evaluate_secret log2 fsum (Some (jwt_secret_key s)) in
    let hsts_enabled := match opt_truthy hsts_env with Some v => mem (lower (strip v)) ["1"; "true"; "yes"; "on"] | None => _hsts_default_enabled env (app_env s) end in
    let warnings :=
      (if strong secret_score then [] else ["SECRET_KEY: " +:+ join ", " (reasons secret_score)]) ++
      (if strong jwt_score then [] else ["JWT_SECRET_KEY: " +:+ join ", " (reasons jwt_score)]) ++
      (if s_is_production s && negb hsts_enabled then ["HSTS disabled in production"] else []) in
    Ok (strong secret_score, strong jwt_score, hsts_enabled, warnings).
End Security.

(** api/v1/security.py, [unlock_account] *)
Definition unlock_account {S} `{!LockoutStore S} (c : caller) (email : string) (ip : option string) : M S api_error unit :=
  _require_admin c ;;;
  modify (unlock email (default "unknown" (opt_truthy ip))).

(** ** Probes *)

(** api/v1/health.py, [CheckResult] *)
Inductive CheckResult : Type := ok | fail | skipped.

(** api/v1/health.py, [_check_redis]; [client] says whether the package is there, [ping]
    whether the server answers in time. *)
Definition _check_redis (redis_url : string) (client ping : bool) : CheckResult :=
  if negb (truthy (strip redis_url)) then skipped else if negb client then skipped else if ping then ok else fail.

(** api/v1/health.py, [_check_db] *)
Definition _check_db (answers : bool) : CheckResult := if answers then ok else fail.

(** api/v1/health.py, [health]: the status code. *)
Definition health (db redis : CheckResult) : Z :=
  match db, redis with
  | ok, ok | ok, skipped => 200
  | _, _ => 503
  end.

(** api/v1/health.py, [ready] *)
Definition ready (db : CheckResult) : Z := match db with ok => 200 | _ => 503 end.

(** ** Properties: tenants *)

(** A change of the tenant is made by an owner or an administrator of it, touches the name
    and the plan of that one row, and is recorded with the fields that were sent; any other
    request changes nothing.  No payment is looked at: whatever plan is sent is the plan
    the tenant has. *)
Theorem tenant_update_outcome c body db r s' :
  in_request (update_my_tenant c body) (Session db db) = (r, s') ->
  match r with
  | Raise _ => s' = Session db db
  | Ok t' => mem (c_role c) OWNER_ROLES = true /\
      exists p t, read_update body = Some p /\ t_tenants db !! c_tenant_id c = Some t /\
        t' = named (default (tenant_name t) (default (Some (tenant_name t)) (tu_name p))) (default (plan t) (default (Some (plan t)) (tu_plan p))) t /\
        (forall q, tu_plan p = Some (Some q) -> plan t' = q) /\
        (forall i, t_tenants (committed s') !! i = if decide (i = c_tenant_id c) then Some t' else t_tenants db !! i) /\
        t_portals (committed s') = t_portals db /\
        exists a, t_audit (committed s') = t_audit db ++ [a] /\ aa_caller a = c /\ aa_resource_id a = Some (tenant_pk t) /\
          aa_metadata a = [("fields", JList (map JStr (fields p)))]
  end.
Proof.
  unfold in_request, update_my_tenant. unfold bind at 1, or_raise at 1.
  destruct (read_update body) as [p|] eqn:Hp; [|intros [= <- <-]; done]. cbn [ret].
  unfold bind at 1. unfold update_tenant. unfold bind at 1. rewrite String.eqb_refl. cbn [negb raise_if ret].
  unfold bind at 1. destruct (mem (c_role c) OWNER_ROLES) eqn:Hr; cbn [negb raise_if ret]; [|intros [= <- <-]; done].
  unfold bind at 1, get_tenant. unfold bind at 1, query at 1, reads at 1. cbn [working].
  destruct (t_tenants db !! c_tenant_id c) as [t|] eqn:Ht; cbn [or_raise ret]; [|intros [= <- <-]; done].
  assert (Hsame : forall i, t_tenants db !! i = if decide (i = c_tenant_id c) then Some t else t_tenants db !! i).
  { intros i. by destruct (decide (i = c_tenant_id c)) as [->|]. }
  assert (Hset : forall x, forall i, <[c_tenant_id c := x]> (t_tenants db) !! i = if decide (i = c_tenant_id c) then Some x else t_tenants db !! i).
  { intros x i. destruct (decide (i = c_tenant_id c)) as [->|]; [by rewrite lookup_insert_eq|by rewrite lookup_insert_ne]. }
  assert (Hnamed : t = named (tenant_name t) (plan t) t) by (by destruct t).
  destruct p as [[[n|]|] [[q|]|]]; cbn; intros [= <- <-]; try done; split; [done| |done| |done| |done|].
  all: eexists _, t; split; [reflexivity|]; split; [reflexivity|]; cbn; split; [done|]; split; [by intros q' [= <-]|]; split; [auto|]; split; [done|];
    eexists; split; [reflexivity|]; done.
Qed.

(** ** Properties: portals *)

Lemma by_name_total x y : by_name x y = true \/ by_name y x = true.
Proof.
  unfold by_name. rewrite (String.eqb_sym (display_name y)). destruct (String.eqb_spec (display_name x) (display_name y)); apply String.leb_total.
Qed.

(** The pages of the catalog, asked for one after the other, are the catalog: every portal
    of the filter once, in the order of the names. *)
Theorem pages_are_the_catalog is_supported_ limit n db :
  1 <= limit <= 200 -> Z.of_nat (length (_apply_filters is_supported_ (t_portals db))) <= Z.of_nat n * limit ->
  concat (map (fun k => match fst (list_portals is_supported_ limit (Z.of_nat k * limit) (Session db db)) with Ok l => l | Raise _ => [] end) (seq 0 n))
    = isort by_name (_apply_filters is_supported_ (t_portals db)) /\
  Permutation (isort by_name (_apply_filters is_supported_ (t_portals db))) (_apply_filters is_supported_ (t_portals db)).
Proof.
  intros Hl Hn. split; [|apply isort_perm]. set (l := isort by_name _).
  assert (Hlen : length l = length (_apply_filters is_supported_ (t_portals db))) by (unfold l; by rewrite isort_perm).
  rewrite <- Hlen in Hn. unfold list_portals, query, reads. cbn [fst working]. fold l.
  assert (Hc : _clamp_limit limit = limit) by (unfold _clamp_limit; destruct (Z.leb_spec limit 0); lia). rewrite Hc.
  assert (Hgen : forall m k, concat (map (fun k => take (Z.to_nat limit) (drop (Z.to_nat (Z.max (Z.of_nat k * limit) 0)) l)) (seq k m)) =
                 take (m * Z.to_nat limit) (drop (k * Z.to_nat limit) l)).
  { induction m as [|m IH]; intros k; [done|]. cbn [seq map concat]. rewrite IH.
    replace (Z.to_nat (Z.max (Z.of_nat k * limit) 0)) with (k * Z.to_nat limit)%nat by lia.
    replace (S m * Z.to_nat limit)%nat with (Z.to_nat limit + m * Z.to_nat limit)%nat by lia.
    rewrite <- take_take_drop, drop_drop, Nat.mul_succ_l. done. }
  rewrite Hgen. cbn [Nat.mul drop]. rewrite take_ge; [done|]. apply Nat2Z.inj_le. rewrite Nat2Z.inj_mul, Z2Nat.id by lia. exact Hn.
Qed.

(** ** Properties: unlocking *)

(** What a login attempt sees of the lock. *)
Definition status_of {S} `{!LockoutStore S} (cfg : tracker_config) (now : Z) (email ip : string) (s : S) : LockoutStatus := fst (check cfg now email ip s).

(** Unlocking with the address of the client clears its lock and its failures; unlocking
    without it changes nothing that a client with an address sees - and either may be done
    by an administrator of any tenant, to any account. *)
Theorem unlock_needs_the_address {S} `{!LockoutStore S, !LockoutStoreLaws S} cfg c email s now :
  mem (lower (c_role c)) _ADMIN_ROLES = true ->
  (forall ip, truthy ip = true -> exists s', unlock_account c email (Some ip) s = (Ok tt, s') /\
     locked (status_of cfg now email ip s') = false /\ failed_count (status_of cfg now email ip s') = 0) /\
  (exists s', unlock_account c email None s = (Ok tt, s') /\
     forall email' ip', _key email' ip' <> _key email "unknown" -> status_of cfg now email' ip' s' = status_of cfg now email' ip' s).
Proof.
  intros Hr. assert (Hun : forall ip, unlock_account c email ip s = (Ok tt, unlock email (default "unknown" (opt_truthy ip)) s)).
  { intros ip. unfold unlock_account, _require_admin, bind. by rewrite Hr. }
  assert (Hst : forall e i t, let '(f, l) := (failures_of (_key e i) t, lock_of (_key e i) t) in
    status_of cfg now e i t = {| locked := 0 <? match l with Some x => Z.max 0 (ceil_seconds (x - now)) | None => 0 end;
                                 failed_count := Z.of_nat (length (recent (now - seconds (window_sec cfg)) f));
                                 retry_after_seconds := match l with Some x => Z.max 0 (ceil_seconds (x - now)) | None => 0 end |}).
  { intros e i t. unfold status_of, check. pose proof (law_status now (_key e i) (window_sec cfg) t) as (H1 & H2 & H3 & _).
    destruct (store_status now (_key e i) (window_sec cfg) t) as [[n a] t']. cbn in *. by rewrite <- H1, <- H2, <- H3. }
  split.
  - intros ip Hip. exists (unlock email ip s). rewrite Hun. cbn [opt_truthy]. rewrite Hip. cbn [default from_option id]. split; [done|].
    pose proof (law_clear (_key email ip) s) as (H1 & H2 & _). pose proof (Hst email ip (unlock email ip s)) as H. cbn in H. unfold unlock in *.
    rewrite H, H1, H2. done.
  - exists (unlock email "unknown" s). rewrite Hun. split; [done|]. intros e i Hne.
    pose proof (law_clear (_key email "unknown") s) as (_ & _ & Ho). destruct (Ho (_key e i) Hne) as [H1 H2].
    pose proof (Hst e i (unlock email "unknown" s)) as Ha. pose proof (Hst e i s) as Hb. cbn in Ha, Hb. unfold unlock in *. by rewrite Ha, Hb, H1, H2.
Qed.

(** ** Concrete requests *)

Module DemoTenantApi.
Definition tenant (i : string) : Tenant := {| tenant_pk := i; tenant_name := "Acme"; slug := i; plan := "free"; tenant_is_active := true |}.
Definition portal (i name : string) (s : bool) : Portal :=
  {| portal_pk := i; platform := CNA; display_name := name; base_url := None; is_supported := s; risky := false |}.
Definition db : TenantDB :=
  {| t_tenants := {[ "t1" := tenant "t1"; "t2" := tenant "t2" ]};
     t_portals := [portal "p1" "Zed" true; portal "p2" "Amt" true; portal "p3" "Cna" false; portal "p4" "Amt" true]; t_audit := [] |}.
Definition who (role : string) : caller := {| c_tenant_id := "t1"; c_user_id := "u1"; c_role := role; client_host := Some "10.0.0.1"; x_forwarded_for := None |}.
Definition patch (role : string) (body : list (string * json)) : result api_error Tenant * session TenantDB :=
  in_request (update_my_tenant (who role) body) (Session db db).

(** An administrator, too, may change the tenant; the plan is what was asked for; a null is
    refused by the database; members and unknown fields are refused. *)
Example patches :
  (tenant_name <$> (t_tenants (committed (patch "admin" [("name", JStr " New ")]).2) !! "t1")) = Some "New" /\
  (plan <$> (t_tenants (committed (patch "owner" [("plan", JStr "enterprise")]).2) !! "t1")) = Some "enterprise" /\
  map (fun x => (patch x.1 x.2).1) [("owner", [("name", JNull)]); ("agent", [("name", JStr "x")]); ("owner", [("slug", JStr "x")])] =
    [Raise IntegrityError; Raise (HTTPException 403 "insufficient_role"); Raise ValidationError].
Proof. vm_compute. split_and!; reflexivity. Qed.

Example catalog :
  fst (list_portals_endpoint (who "agent") (Some true) 2 0 (Session db db)) = Ok ([portal "p2" "Amt" true; portal "p4" "Amt" true], 3) /\
  fst (get_portal_endpoint (who "agent") "p9" (Session db db)) = Raise (HTTPException 404 "portal_not_found").
Proof. vm_compute. split; reflexivity. Qed.

(** A production process whose ENV is not set has HSTS off. *)
Example hsts_follows_the_other_variable :
  self_check DemoStartup.log2 DemoStartup.fsum DemoStartup.good None "development" (who "Owner") =
    Ok (true, true, false, ["HSTS disabled in production"]) /\
  app_env DemoStartup.good = production.
Proof. split; vm_compute; reflexivity. Qed.

Example probes : map (fun x => health x.1 x.2) [(ok, ok); (ok, skipped); (ok, fail); (fail, ok)] = [200; 200; 503; 503] /\
  _check_redis " " true false = skipped /\ ready (_check_db false) = 503.
Proof. done. Qed.

Lemma tenant_update_outcome_witness :
  exists t', fst (patch "owner" [("plan", JStr "enterprise")]) = Ok t' /\ plan t' = "enterprise" /\
    t_tenants (committed (snd (patch "owner" [("plan", JStr "enterprise")]))) !! "t2" = Some (tenant "t2").
Proof.
  destruct (patch "owner" [("plan", JStr "enterprise")]) as [r s'] eqn:H. pose proof (tenant_update_outcome _ _ _ _ _ H) as Ho.
  destruct r as [t'|e]; [|vm_compute in H; discriminate]. destruct Ho as (_ & p & t & Hp & _ & _ & Hq & Hi & _).
  exists t'. split; [reflexivity|]. split; [apply Hq; vm_compute in Hp; injection Hp as <-; reflexivity|].
  cbn [snd]. rewrite (Hi "t2"). vm_compute. reflexivity.
Defined.

Lemma pages_are_the_catalog_witness :
  concat (map (fun k => match fst (list_portals None 3 (Z.of_nat k * 3) (Session db db)) with Ok l => l | Raise _ => [] end) (seq 0 2))
    = isort by_name (t_portals db).
Proof. apply (pages_are_the_catalog None 3 2 db); cbn; lia. Defined.

(** A client that is locked out, and an administrator of another tenant. *)
Definition locked_out : InMemoryStore := snd (record_failure {| max_fails := 1; window_sec := 900; lock_duration_sec := 900 |} 0 0 "ann@x.com" "10.0.0.9" empty_store).

Lemma unlock_needs_the_address_witness :
  locked (status_of default_tracker_config 1 "ann@x.com" "10.0.0.9" locked_out) = true /\
  (exists s', unlock_account (who "owner") "ann@x.com" None locked_out = (Ok tt, s') /\
     locked (status_of default_tracker_config 1 "ann@x.com" "10.0.0.9" s') = true) /\
  (exists s', unlock_account (who "owner") "ann@x.com" (Some "10.0.0.9") locked_out = (Ok tt, s') /\
     locked (status_of default_tracker_config 1 "ann@x.com" "10.0.0.9" s') = false).
Proof.
  destruct (unlock_needs_the_address default_tracker_config (who "owner") "ann@x.com" locked_out 1 eq_refl) as [Hip (s1 & H1 & Hs1)].
  destruct (Hip "10.0.0.9" eq_refl) as (s2 & H2 & Hs2 & _). split; [vm_compute; reflexivity|]. split.
  - exists s1. split; [exact H1|]. rewrite (Hs1 "ann@x.com" "10.0.0.9"); [vm_compute; reflexivity|vm_compute; discriminate].
  - exists s2. split; [exact H2|exact Hs2].
Defined.
End DemoTenantApi.
