(* ===== verification/ReceiptVerifier.v ===== *)
(** * The public verifier

    verifier/app/main.py: the stand-alone service that fetches a receipt from
    the backend, resolves the public key it was signed with - a configured one,
    a cached one or the backend's - and checks the signature; verifier/app/
    canonical.py: its copy of the dual-encoder check.  The network is a function
    from URLs to answers, and the clock readings are arguments. *)

From Stdlib Require Import Ascii.
From S2P Require Import Prelude PyStr Json Encoding Crypto CanonicalJson Accounts.

(** verifier/main.py, [VerifierSettings]: the settings the service reads. *)
Record VerifierSettings : Type := {
  backend_base_url : string;
  backend_receipt_path : string;
  backend_key_path : string;
  vs_signing_key_id : string;
  vs_public_key_pem : string;
  public_key_cache_ttl_sec : Z;
}.

(** verifier/main.py, [CachedPublicKey]; instants of [time.monotonic()] are in
    microseconds. *)
Record CachedPublicKey : Type := { cp_pem : string; cp_expires_at : Z }.

(** verifier/main.py, [_PUBLIC_KEY_CACHE]: the dict in insertion order. *)
Definition key_dict : Type := list (string * CachedPublicKey).

Definition cached_pop (i : string) (c : key_dict) : key_dict := List.filter (fun kv => negb (String.eqb kv.1 i)) c.
Definition cached_at (i : string) (c : key_dict) : option CachedPublicKey :=
  option_map snd (find_first (fun kv => String.eqb kv.1 i) c).
Fixpoint cached_set (i : string) (v : CachedPublicKey) (c : key_dict) : key_dict :=
  match c with
  | [] => [(i, v)]
  | (j, w) :: r => if String.eqb j i then (j, v) :: r else (j, w) :: cached_set i v r
  end.

(** verifier/main.py, [_PUBLIC_KEY_CACHE_MAX]. *)
Definition _PUBLIC_KEY_CACHE_MAX : Z := 64.

(** [min(cache, key=lambda i: cache[i].expires_at)]: the first of the smallest. *)
Fixpoint oldest (c : key_dict) : option (string * CachedPublicKey) :=
  match c with
  | [] => None
  | kv :: r => match oldest r with
               | Some kw => if cp_expires_at kw.2 <? cp_expires_at kv.2 then Some kw else Some kv
               | None => Some kv
               end
  end.

(** What [httpx] makes of a GET: an [httpx.HTTPError] of the transport; another
    exception, such as the [httpx.InvalidURL] it raises for a URL that is too
    long or has a control character in it; or a status and the body when it is
    JSON. *)
Inductive http_result : Type :=
| HttpxError
| HttpxRaises (what : string)
| HttpResponse (status_code : Z) (body : option json).

(** verifier/main.py, [VerificationResult]: the field [status]. *)
Inductive verdict : Type := Verified | Invalid | NotFound | Error.

(** verifier/main.py, [VerificationResult]. *)
Record VerificationResult : Type := {
  vr_status : verdict;
  vr_verified : bool;
  vr_http_status : Z;
  vr_payload : option (list (string * json));
  vr_envelope : list (string * json);
  vr_error_detail : option string;
  vr_pem : string;
  vr_key_id : string;
}.

Definition failed (st : verdict) (code : Z) (payload : option (list (string * json))) (envelope : list (string * json))
    (detail pem key_id : string) : VerificationResult :=
  {| vr_status := st; vr_verified := false; vr_http_status := code; vr_payload := payload; vr_envelope := envelope;
     vr_error_detail := Some detail; vr_pem := pem; vr_key_id := key_id |}.

(** [isinstance(v, str) and v.strip()], the test of a candidate key id. *)
Definition key_id_candidate (v : json) : option string :=
  match v with JStr s => if truthy (strip s) then Some (strip s) else None | _ => None end.

(** [v if isinstance(v, dict)] and [v if isinstance(v, str)]. *)
Definition as_obj (v : json) : option (list (string * json)) := match v with JObj kvs => Some kvs | _ => None end.
Definition as_str (v : json) : option string := match v with JStr s => Some s | _ => None end.

Section Verifier.
Context `{E : Ed25519}.
Context (canonical_json_bytes : json -> option bytes) (float_repr : json -> string).
(** [public_key.verify] raises something else than [InvalidSignature]. *)
Context (verify_raises : public_key -> bytes -> bytes -> bool).
(** The detail for a PEM that cannot be loaded or is of another kind of key. *)
Context (pem_error : string -> string).
Context (settings : VerifierSettings).
Context (network : string -> http_result).

Local Abbreviation VM := (M key_dict web_error).

(** verifier/canonical.py, [verify_canonical_match]; the flag is whether the
    check has raised so far. *)
Definition verify_canonical_match_in (obj : json) (verifier : bytes -> bool -> bool * bool) (raised : bool)
    : bool * bool :=
  let new_bytes := canonical_json_bytes obj in
  let '(hit, raised) := match new_bytes with Some b => verifier b raised | None => (false, raised) end in
  if hit then (true, raised)
  else match legacy_canonical_json_bytes (fun f => float_repr (JFloat f)) obj with
       | Raise _ => (false, raised)
       | Ok old_bytes =>
           if match new_bytes with Some b => String.eqb old_bytes b | None => false end then (false, raised)
           else verifier old_bytes raised
       end.

(** verifier/main.py, [_load_public_key]. *)
Definition load_verifier_key (pem : string) : VM public_key :=
  raise_if (negb (truthy (strip pem))) (HTTPException 503 "Verifier not configured: PUBLIC_KEY_PEM is empty") ;;;
  or_raise (load_pem_public_key pem) (HTTPException 503 (pem_error pem)).

(** verifier/main.py, [_extract_signing_key_id]. *)
Definition _extract_signing_key_id (envelope payload : list (string * json)) : string :=
  let nested := match get_key "receipt" envelope with JObj r => [get_key "signing_key_id" r] | _ => [] end in
  let candidates := [get_key "signing_key_id" envelope; get_key "key_id" envelope; get_key "signing_key_id" payload]
                    ++ nested in
  default (vs_signing_key_id settings) (head (omap key_id_candidate candidates)).

(** verifier/main.py, [_static_public_key_for]. *)
Definition _static_public_key_for (key_id : string) : option string :=
  let pem := strip (vs_public_key_pem settings) in
  if truthy pem && String.eqb key_id (vs_signing_key_id settings) then Some pem else None.

(** verifier/main.py, [_cache_get]. *)
Definition _cache_get (now : Z) (key_id : string) : VM (option string) :=
  let* cached := reads (cached_at key_id) in
  match cached with
  | None => ret None
  | Some c => if cp_expires_at c <=? now then modify (cached_pop key_id) ;;; ret None
              else ret (Some (cp_pem c))
  end.

(** verifier/main.py, [_cache_put]. *)
Definition _cache_put (now : Z) (key_id pem : string) : VM unit :=
  let* cache := reads (fun c => c) in
  (if _PUBLIC_KEY_CACHE_MAX <=? Z.of_nat (length cache)
   then match oldest cache with Some kv => modify (cached_pop kv.1) | None => raise (PyException "ValueError") end
   else ret tt) ;;;
  modify (cached_set key_id {| cp_pem := pem; cp_expires_at := now + 1000000 * Z.max 60 (public_key_cache_ttl_sec settings) |}).

Definition rstrip_slash : string -> string := rstrip_by (Ascii.eqb "/"%char).

(** verifier/main.py, [_public_key_url]. *)
Definition _public_key_url (key_id : string) : string :=
  rstrip_slash (backend_base_url settings) +:+ rstrip_slash (backend_key_path settings) +:+ "/" +:+ key_id.

(** verifier/main.py, [_resolve_public_key_pem]; [now1] and [now2] are the clock
    at the look-up and at the store. *)
Definition _resolve_public_key_pem (now1 now2 : Z) (key_id : string) : VM string :=
  match _static_public_key_for key_id with
  | Some pem => ret pem
  | None =>
      let* cached := _cache_get now1 key_id in
      match cached with
      | Some pem => ret pem
      | None =>
          match network (_public_key_url key_id) with
          | HttpxError => raise (HTTPException 503 "Public key registry is temporarily unavailable")
          | HttpxRaises what => raise (PyException what)
          | HttpResponse code body =>
              raise_if (code =? 404) (HTTPException 422 ("Unknown signing key id: " +:+ key_id)) ;;;
              raise_if (400 <=? code) (HTTPException 502 ("Backend returned " +:+ str_of_Z code +:+ " fetching public key")) ;;;
              let* body := or_raise body (HTTPException 502 "Backend returned non-JSON public key response") in
              let* body := or_raise (as_obj body) (HTTPException 502 "Malformed public key response") in
              let* pem := or_raise (as_str (get_key "public_key_pem" body)) (HTTPException 502 "Public key response missing PEM") in
              raise_if (negb (truthy (strip pem))) (HTTPException 502 "Public key response missing PEM") ;;;
              raise_if (match get_key "algorithm" body with JStr a => negb (String.eqb (lower a) "ed25519") | _ => false end)
                (HTTPException 502 "Public key is not Ed25519") ;;;
              load_verifier_key pem ;;;
              _cache_put now2 key_id pem ;;;
              ret pem
          end
      end
  end.

(** verifier/main.py, [_decode_signature]. *)
Definition _decode_signature (sig : string) : result web_error bytes :=
  match b64decode sig with
  | Some b => Ok b
  | None => match fromhex sig with
            | Some b => Ok b
            | None => Raise (HTTPException 422 "Signature is neither valid base64 nor hex")
            end
  end.

(** verifier/main.py, [_fetch_receipt]. *)
Definition _fetch_receipt (receipt_id : string) : VM json :=
  match network (rstrip_slash (backend_base_url settings) +:+ rstrip_slash (backend_receipt_path settings)
                 +:+ "/" +:+ receipt_id) with
  | HttpxError => raise (HTTPException 404 ("Receipt " +:+ receipt_id +:+ " not found (backend unreachable)"))
  | HttpxRaises what => raise (PyException what)
  | HttpResponse code body =>
      raise_if (code =? 404) (HTTPException 404 "Receipt not found") ;;;
      raise_if (400 <=? code) (HTTPException 502 ("Backend returned " +:+ str_of_Z code +:+ " fetching receipt")) ;;;
      or_raise body (HTTPException 502 "Backend returned non-JSON receipt")
  end.

(** verifier/main.py:329-344, [perform_verification]: the payload and the
    signature, at the top of the envelope or inside its receipt. *)
Definition payload_and_signature (envelope : list (string * json)) : option (list (string * json)) * option string :=
  let payload := as_obj (get_key "payload" envelope) in
  let signature := as_str (jor (get_key "signature" envelope) (get_key "sig" envelope)) in
  match get_key "receipt" envelope with
  | JObj r => (or_else payload (as_obj (get_key "public_payload_json" r)),
               or_else signature (as_str (get_key "signature_b64" r)))
  | _ => (payload, signature)
  end.

(** verifier/main.py:386-395, [perform_verification]: the inner
    [_verify_bytes]. *)
Definition _verify_bytes (key : public_key) (signature signed_bytes : bytes) (raised : bool) : bool * bool :=
  if verify_raises key signed_bytes signature then (false, true)
  else (raw_verify key signed_bytes signature, raised).

(** verifier/main.py, [perform_verification]. *)
Definition perform_verification (now1 now2 : Z) (receipt_id : string) : VM VerificationResult :=
  try_else (_fetch_receipt receipt_id)
    (fun e => match e with
              | HTTPException code detail =>
                  ret (failed (if code =? 404 then NotFound else Error) code None [] detail "" "")
              | _ => raise e
              end)
    (fun body =>
      let* envelope := or_raise (as_obj body) (PyException "AttributeError") in
      match payload_and_signature envelope with
      | (Some payload, Some signature_str) =>
          let key_id := _extract_signing_key_id envelope payload in
          try_else
            (let* pem := _resolve_public_key_pem now1 now2 key_id in
             let* key := load_verifier_key pem in ret (pem, key))
            (fun e => match e with
                      | HTTPException code detail => ret (failed Error code (Some payload) envelope detail "" key_id)
                      | _ => raise e
                      end)
            (fun pk =>
              let '(pem, key) := pk in
              match _decode_signature signature_str with
              | Raise (HTTPException code detail) => ret (failed Error code (Some payload) envelope detail pem key_id)
              | Raise e => raise e
              | Ok signature =>
                  let '(verified, raised) := verify_canonical_match_in (JObj payload) (_verify_bytes key signature) false in
                  if raised
                  then ret (failed Error 503 (Some payload) envelope
                              "Verifier internal error during signature verification" pem key_id)
                  else ret {| vr_status := if verified then Verified else Invalid; vr_verified := verified;
                              vr_http_status := 200; vr_payload := Some payload; vr_envelope := envelope;
                              vr_error_detail := None; vr_pem := pem; vr_key_id := key_id |}
              end)
      | _ => ret (failed Error 422 None envelope "Receipt envelope missing 'payload' or 'signature'" "" "")
      end).

(** verifier/main.py, [verify]: the negotiated format is an argument, [None]
    standing for the HTML page, whose rendering is left out. *)
Definition verify_body (jose : bool) (result : VerificationResult) : json :=
  if jose then JObj (match vr_envelope result with
                     | [] => [("error", JStr (sor (default "" (vr_error_detail result)) "unavailable"))]
                     | e => e
                     end)
  else match vr_status result with
       | NotFound => JObj [("detail", JStr (sor (default "" (vr_error_detail result)) "not_found"))]
       | Error => JObj [("detail", JStr (sor (default "" (vr_error_detail result)) "error"))]
       | _ => JObj [("verified", JBool (vr_verified result)); ("payload", JObj (default [] (vr_payload result)));
                    ("public_key_pem", JStr (vr_pem result)); ("signing_key_id", JStr (vr_key_id result))]
       end.

(** verifier/views.py, [verify_json]: the body of the forced-JSON route. *)
Definition verify_json_body (receipt_id : string) (result : VerificationResult) : list (string * json) :=
  [("receipt_id", JStr receipt_id);
   ("status", JStr (match vr_status result with
                    | Verified => "verified" | Invalid => "invalid" | NotFound => "not_found" | Error => "error" end));
   ("verified", JBool (vr_verified result))]
  ++ match vr_payload result with Some p => [("payload", JObj p)] | None => [] end
  ++ match vr_envelope result with
     | [] => []
     | e => [("signing_key_id", jor (get_key "signing_key_id" e) (JStr (vs_signing_key_id settings)))]
     end
  ++ match vr_error_detail result with
     | Some d => if truthy d then [("error", JStr d)] else []
     | None => []
     end.
End Verifier.

(** ** The key cache *)

(** The dict has no key twice and is not longer than its maximum. *)
Definition cache_wf (c : key_dict) : Prop := NoDup (map fst c) /\ Z.of_nat (length c) <= _PUBLIC_KEY_CACHE_MAX.

(** Every cached key is one that [Q] allows for its identifier. *)
Definition all_cached (Q : string -> string -> Prop) (c : key_dict) : Prop :=
  forall i v, In (i, v) c -> Q i (cp_pem v).

Lemma cached_pop_In i c kv : In kv (cached_pop i c) -> In kv c /\ kv.1 <> i.
Proof. intros [Hin Hne]%filter_In. split; [done|]. by apply String.eqb_neq, negb_true_iff. Qed.

Lemma cached_pop_NoDup i c : NoDup (map fst c) -> NoDup (map fst (cached_pop i c)).
Proof.
  induction c as [|kv c IH]; cbn; [done|]. intros [Hin Hnd]%NoDup_cons.
  destruct (negb _); cbn; [|auto]. apply NoDup_cons. split; [|auto]. intros Hin'. apply Hin.
  apply list_elem_of_In, in_map_iff in Hin' as (kw & <- & Hkw). apply list_elem_of_In, in_map_iff.
  apply cached_pop_In in Hkw as [? _]. eauto.
Qed.

Lemma cached_pop_length i c : (length (cached_pop i c) <= length c)%nat.
Proof. unfold cached_pop. induction c as [|kv c IH]; cbn; [lia|]. destruct (negb _); cbn; lia. Qed.

Lemma cached_pop_shorter i v c : In (i, v) c -> (length (cached_pop i c) < length c)%nat.
Proof.
  unfold cached_pop. induction c as [|kv c IH]; cbn; [done|]. intros [->|Hin].
  - cbn. rewrite String.eqb_refl. cbn. pose proof (cached_pop_length i c). unfold cached_pop in *. lia.
  - specialize (IH Hin). destruct (negb _); cbn; lia.
Qed.

Lemma cached_set_In i v c kv : In kv (cached_set i v c) -> kv = (i, v) \/ In kv c.
Proof.
  induction c as [|[j w] c IH]; cbn; [naive_solver|].
  destruct (String.eqb_spec j i) as [->|]; cbn; naive_solver.
Qed.

Lemma cached_set_keys i v c :
  map fst (cached_set i v c) = if existsb (fun kv => String.eqb kv.1 i) c then map fst c else map fst c ++ [i].
Proof.
  induction c as [|[j w] c IH]; cbn; [done|]. destruct (String.eqb_spec j i) as [->|]; cbn; [done|].
  rewrite IH. by destruct (existsb _ c).
Qed.

Lemma cached_set_NoDup i v c : NoDup (map fst c) -> NoDup (map fst (cached_set i v c)).
Proof.
  intros Hnd. rewrite cached_set_keys. destruct (existsb _ c) eqn:Hex; [done|].
  apply NoDup_app. split_and!; [done| |apply NoDup_singleton].
  intros j Hj ->%list_elem_of_singleton. apply list_elem_of_In, in_map_iff in Hj as (kv & <- & Hkv).
  apply not_true_iff_false in Hex. apply Hex. apply existsb_exists. exists kv. by rewrite String.eqb_refl.
Qed.

Lemma cached_set_length i v c : (length (cached_set i v c) <= S (length c))%nat.
Proof.
  rewrite <- (length_map fst (cached_set i v c)), cached_set_keys.
  destruct (existsb _ c); rewrite ?length_app, length_map; cbn; lia.
Qed.

Lemma oldest_In c kv : oldest c = Some kv -> In kv c.
Proof.
  revert kv. induction c as [|kw c IH]; cbn; [done|]. intros kv.
  destruct (oldest c) as [kx|]; [|intros [= <-]; by left]. destruct (_ <? _); intros [= <-]; auto.
Qed.

Lemma oldest_None c : oldest c = None -> c = [].
Proof. destruct c as [|kv c]; cbn; [done|]. destruct (oldest c); [by destruct (_ <? _)|done]. Qed.

Lemma cached_at_In i c v : cached_at i c = Some v -> In (i, v) c.
Proof.
  unfold cached_at. destruct (find_first _ c) as [[j w]|] eqn:Hf; [|done]. intros [= ->].
  apply find_first_Some in Hf as [Hin Hj]. cbn in Hj. apply String.eqb_eq in Hj as ->. done.
Qed.

(** ** What the service does *)

Section CacheLemmas.
Context (settings : VerifierSettings) (Q : string -> string -> Prop).

Definition good_cache (c : key_dict) : Prop := cache_wf c /\ all_cached Q c.

Lemma cache_get_spec now i c r c' :
  good_cache c -> _cache_get now i c = (r, c') ->
  good_cache c' /\ exists o, r = Ok o /\ forall pem, o = Some pem -> Q i pem.
Proof.
  intros [[Hnd Hlen] Hq]. unfold _cache_get, reads, bind, modify, ret.
  destruct (cached_at i c) as [v|] eqn:Hc; [|intros [= <- <-]; split; [done|]; exists None; naive_solver].
  destruct (cp_expires_at v <=? now); intros [= <- <-].
  - split; [|exists None; naive_solver]. split; [split|].
    + by apply cached_pop_NoDup.
    + pose proof (cached_pop_length i c). lia.
    + intros j w [Hin _]%cached_pop_In. by apply Hq.
  - split; [done|]. exists (Some (cp_pem v)). split; [done|]. intros pem [= <-]. by apply Hq, cached_at_In.
Qed.

Lemma cache_put_spec now i pem c :
  good_cache c -> Q i pem -> exists c', _cache_put settings now i pem c = (Ok tt, c') /\ good_cache c'.
Proof.
  intros [[Hnd Hlen] Hq] Hpem. unfold _cache_put, reads, bind, modify, ret.
  set (v := {| cp_pem := pem |}).
  assert (Hset : forall d, NoDup (map fst d) -> Z.of_nat (length d) < _PUBLIC_KEY_CACHE_MAX -> all_cached Q d ->
            good_cache (cached_set i v d)).
  { intros d Hd Hl Hqd. split; [split|].
    - by apply cached_set_NoDup.
    - pose proof (cached_set_length i v d). lia.
    - intros j w [[= -> ->]|Hin]%cached_set_In; [done|by apply Hqd]. }
  destruct (Z.leb_spec _PUBLIC_KEY_CACHE_MAX (Z.of_nat (length c))) as [Hfull|Hroom].
  - destruct (oldest c) as [[j w]|] eqn:Ho; [|apply oldest_None in Ho; subst; unfold _PUBLIC_KEY_CACHE_MAX in *; cbn in *; lia].
    eexists. split; [reflexivity|]. apply oldest_In in Ho. apply Hset.
    + by apply cached_pop_NoDup.
    + pose proof (cached_pop_shorter j w c Ho). cbn [fst]. lia.
    + intros k x [Hin _]%cached_pop_In. by apply Hq.
  - eexists. split; [reflexivity|]. by apply Hset.
Qed.

End CacheLemmas.

Section KeyLemmas.
Context `{E : Ed25519} (pem_error : string -> string).

Lemma load_verifier_key_Ok pem c key c' :
  load_verifier_key pem_error pem c = (Ok key, c') <-> truthy (strip pem) = true /\ load_pem_public_key pem = Some key /\ c' = c.
Proof.
  unfold load_verifier_key, bind, raise_if, or_raise, ret, raise. destruct (truthy (strip pem)); cbn; [|naive_solver].
  destruct (load_pem_public_key pem); naive_solver.
Qed.

Lemma load_verifier_key_Raise pem c e c' :
  load_verifier_key pem_error pem c = (Raise e, c') -> c' = c /\ exists code d, e = HTTPException code d.
Proof.
  unfold load_verifier_key, bind, raise_if, or_raise, ret, raise. destruct (negb _); [intros [= <- <-]; eauto|].
  destruct (load_pem_public_key pem); [done|]. intros [= <- <-]; eauto.
Qed.

End KeyLemmas.

Section ResolveLemmas.
Context `{E : Ed25519} (pem_error : string -> string).
Context (settings : VerifierSettings) (network : string -> http_result) (Q : string -> string -> Prop).

(** What the backend's key endpoint answers satisfies [Q]. *)
Definition registry_answers : Prop :=
  forall i code kvs pem, network (_public_key_url settings i) = HttpResponse code (Some (JObj kvs)) -> code < 400 ->
    get_key "public_key_pem" kvs = JStr pem -> Q i pem.

(** Resolving a key fails with an [HTTPException] or as the request for the key
    raised, and the key is the configured one or one that [Q] allows. *)
Lemma resolve_spec now1 now2 i c r c' :
  registry_answers -> good_cache Q c -> _resolve_public_key_pem pem_error settings network now1 now2 i c = (r, c') ->
  good_cache Q c' /\ match r with
                   | Ok pem => _static_public_key_for settings i = Some pem \/ Q i pem
                   | Raise e => (exists code d, e = HTTPException code d) \/
                       (exists what, e = PyException what /\ network (_public_key_url settings i) = HttpxRaises what)
                   end.
Proof.
  intros Hreg Hc. unfold _resolve_public_key_pem.
  destruct (_static_public_key_for settings i) as [pem|] eqn:Hst; [intros [= <- <-]; auto|].
  unfold bind at 1. destruct (_cache_get now1 i c) as [r1 c1] eqn:Hget.
  apply (cache_get_spec Q) in Hget as (Hc1 & o & -> & Ho); [|done].
  destruct o as [pem|]; [intros [= <- <-]; auto|].
  destruct (network (_public_key_url settings i)) as [|what|code body] eqn:Hnet; [intros [= <- <-]; eauto..|].
  unfold bind at 1, raise_if, ret, raise. destruct (code =? 404); [intros [= <- <-]; eauto|].
  unfold bind at 1. destruct (Z.leb_spec 400 code) as [|Hcode]; [intros [= <- <-]; eauto|].
  unfold bind at 1, or_raise, ret, raise. destruct body as [body|]; [|intros [= <- <-]; eauto].
  unfold bind at 1. destruct body as [| | | | | |kvs]; try (intros [= <- <-]; eauto; fail). cbn [as_obj].
  unfold bind at 1. destruct (get_key "public_key_pem" kvs) as [| | | |pem| |] eqn:Hpem; try (intros [= <- <-]; eauto; fail).
  cbn [as_str]. unfold bind at 1. destruct (negb (truthy (strip pem))) eqn:Hblank; [intros [= <- <-]; eauto|].
  unfold bind at 1. destruct (match get_key "algorithm" kvs with JStr a => negb (lower a =? "ed25519")%string | _ => false end);
    [intros [= <- <-]; eauto|].
  unfold bind at 1, load_verifier_key, bind at 1, raise_if, or_raise, ret, raise. rewrite Hblank.
  destruct (load_pem_public_key pem) as [key|]; [|intros [= <- <-]; eauto].
  assert (Hq : Q i pem) by by apply (Hreg i code kvs pem).
  destruct (cache_put_spec settings Q now2 i pem c1 Hc1 Hq) as (c2 & Hput & Hc2). unfold bind at 1. rewrite Hput.
  intros [= <- <-]. auto.
Qed.

Definition receipt_url (receipt_id : string) : string :=
  rstrip_slash (backend_base_url settings) +:+ rstrip_slash (backend_receipt_path settings) +:+ "/" +:+ receipt_id.

Lemma fetch_spec rid c r c' :
  _fetch_receipt settings network rid c = (r, c') ->
  c' = c /\ match r with
            | Ok body => exists code, network (receipt_url rid) = HttpResponse code (Some body)
            | Raise e => (exists code d, e = HTTPException code d) \/
                         (exists what, e = PyException what /\ network (receipt_url rid) = HttpxRaises what)
            end.
Proof.
  unfold _fetch_receipt. fold (receipt_url rid). destruct (network (receipt_url rid)) as [|what|code body]; [intros [= <- <-]; eauto..|].
  unfold bind, raise_if, or_raise, ret, raise. destruct (code =? 404); [intros [= <- <-]; eauto|].
  destruct (400 <=? code); [intros [= <- <-]; eauto|]. destruct body; intros [= <- <-]; eauto.
Qed.

End ResolveLemmas.

Section MatchLemmas.
Context `{E : Ed25519} (canonical_json_bytes : json -> option bytes) (float_repr : json -> string).
Context (verify_raises : public_key -> bytes -> bytes -> bool).

(** The two copies of the dual-encoder check agree: when the primitive does not
    raise, the verifier's is the backend's. *)
Lemma verify_canonical_match_same obj f raised :
  verify_canonical_match_in canonical_json_bytes float_repr obj (fun b r => (f b, r)) raised =
  (verify_canonical_match (fun x => float_repr (JFloat x)) canonical_json_bytes obj f, raised).
Proof.
  unfold verify_canonical_match_in, verify_canonical_match. destruct (canonical_json_bytes obj) as [b|]; cbn.
  - destruct (f b); [done|]. destruct (legacy_canonical_json_bytes _ obj) as [o|]; [|done]. by destruct (o =? b)%string.
  - by destruct (legacy_canonical_json_bytes _ obj).
Qed.

(** Whatever the primitive does, an accepted payload was accepted in one of its
    two encodings. *)
Lemma match_sound obj key sig raised ok raised' :
  verify_canonical_match_in canonical_json_bytes float_repr obj (_verify_bytes verify_raises key sig) raised = (ok, raised') ->
  ok = true ->
  exists b, raw_verify key b sig = true /\
    (canonical_json_bytes obj = Some b \/ legacy_canonical_json_bytes (fun x => float_repr (JFloat x)) obj = Ok b).
Proof.
  unfold verify_canonical_match_in, _verify_bytes. intros Hrun ->.
  assert (Hone : forall b r r', (if verify_raises key b sig then (false, true) else (raw_verify key b sig, r)) = (true, r') ->
            raw_verify key b sig = true) by (intros b r r'; destruct (verify_raises key b sig); congruence).
  destruct (canonical_json_bytes obj) as [b|].
  - destruct (if verify_raises key b sig then _ else _) as [hit r1] eqn:Hb. destruct hit; [eauto|].
    destruct (legacy_canonical_json_bytes _ obj) as [o|]; [|done]. destruct (o =? b)%string; [done|]. eauto.
  - destruct (legacy_canonical_json_bytes _ obj) as [o|]; [|done]. eauto.
Qed.

End MatchLemmas.

Section Perform.
Context `{E : Ed25519}.
Context (canonical_json_bytes : json -> option bytes) (float_repr : json -> string).
Context (verify_raises : public_key -> bytes -> bytes -> bool) (pem_error : string -> string).
Context (settings : VerifierSettings) (network : string -> http_result).
Context (Q : string -> string -> Prop).

(** What stands behind an accepted receipt: the payload and the signature are
    those of the envelope that was fetched, the key was configured or allowed by
    [Q], and it accepts the signature over one of the payload's encodings. *)
Definition signed_as_shown (rid : string) (v : VerificationResult) : Prop :=
  exists code sig_text sig key b payload,
    network (receipt_url settings rid) = HttpResponse code (Some (JObj (vr_envelope v))) /\
    payload_and_signature (vr_envelope v) = (Some payload, Some sig_text) /\ vr_payload v = Some payload /\
    vr_key_id v = _extract_signing_key_id settings (vr_envelope v) payload /\
    (_static_public_key_for settings (vr_key_id v) = Some (vr_pem v) \/ Q (vr_key_id v) (vr_pem v)) /\
    _decode_signature sig_text = Ok sig /\ load_pem_public_key (vr_pem v) = Some key /\ raw_verify key b sig = true /\
    (canonical_json_bytes (JObj payload) = Some b \/
     legacy_canonical_json_bytes (fun x => float_repr (JFloat x)) (JObj payload) = Ok b).

(** The only exceptions that leave [perform_verification]: the receipt is JSON
    but not an object, or one of the two requests raised something that is not
    an [httpx.HTTPError]. *)
Definition escaped (rid : string) (e : web_error) : Prop :=
  (e = PyException "AttributeError" /\
   exists code body, network (receipt_url settings rid) = HttpResponse code (Some body) /\ as_obj body = None) \/
  (exists what, e = PyException what /\ network (receipt_url settings rid) = HttpxRaises what) \/
  (exists what code envelope payload sig, e = PyException what /\
     network (receipt_url settings rid) = HttpResponse code (Some (JObj envelope)) /\
     payload_and_signature envelope = (Some payload, Some sig) /\
     network (_public_key_url settings (_extract_signing_key_id settings envelope payload)) = HttpxRaises what).

Lemma perform_spec now1 now2 rid c r c' :
  registry_answers settings network Q -> good_cache Q c ->
  perform_verification canonical_json_bytes float_repr verify_raises pem_error settings network now1 now2 rid c = (r, c') ->
  good_cache Q c' /\
  match r with
  | Ok v => (vr_verified v = true <-> vr_status v = Verified) /\
            (vr_verified v = true -> vr_http_status v = 200 /\ signed_as_shown rid v)
  | Raise e => escaped rid e
  end.
Proof.
  intros Hreg Hc. unfold perform_verification, try_else at 1.
  destruct (_fetch_receipt settings network rid c) as [r1 c1] eqn:Hf. apply fetch_spec in Hf as [-> Hf].
  destruct r1 as [body|e].
  2: { destruct Hf as [(code & d & ->)|(what & -> & Hw)]; intros [= <- <-]; cbn; [by destruct (code =? 404)|].
       split; [done|]. right. left. eauto. }
  destruct Hf as [code Hnet]. unfold bind at 1, or_raise.
  destruct (as_obj body) as [envelope|] eqn:Hobj; [|intros [= <- <-]; split; [done|]; left; split; [done|]; exists code, body; done].
  destruct body as [| | | | | |kvs]; try done. injection Hobj as ->. cbn [ret]. unfold ret at 1.
  destruct (payload_and_signature envelope) as [[payload|] [sig_text|]] eqn:Hps;
    try (intros [= <- <-]; cbn; split; [done|]; split; [split; done|done]).
  unfold try_else, bind at 1. set (key_id := _extract_signing_key_id settings envelope payload).
  destruct (_resolve_public_key_pem pem_error settings network now1 now2 key_id c) as [r2 c2] eqn:Hres.
  apply (resolve_spec pem_error settings network Q) in Hres as [Hc2 Hres]; [|done..].
  destruct r2 as [pem|e].
  2: { destruct Hres as [(code2 & d & ->)|(what & -> & Hw)]; intros [= <- <-]; cbn; (split; [done|]); [split; [split; done|done]|].
       right. right. exists what, code, envelope, payload, sig_text. by split_and!. }
  unfold bind at 1. destruct (load_verifier_key pem_error pem c2) as [[key|e] c3] eqn:Hload.
  2: { apply load_verifier_key_Raise in Hload as (-> & code2 & d & ->). intros [= <- <-]. cbn. split; [done|]. split; [split; done|done]. }
  apply load_verifier_key_Ok in Hload as (_ & Hkey & ->). cbn [ret]. unfold ret at 1.
  destruct (_decode_signature sig_text) as [sig|e] eqn:Hdec.
  2: { assert (exists code2 d, e = HTTPException code2 d) as (code2 & d & ->).
       { revert Hdec. unfold _decode_signature. destruct (b64decode sig_text), (fromhex sig_text); intros [= <-]; eauto. }
       intros [= <- <-]. cbn. split; [done|]. split; [split; done|done]. }
  destruct (verify_canonical_match_in _ _ _ _ _) as [ok raised] eqn:Hm. destruct raised; intros [= <- <-]; cbn.
  - split; [done|]. split; [split; done|done].
  - split; [done|]. split; [by destruct ok|]. intros ->. split; [done|].
    destruct (match_sound canonical_json_bytes float_repr verify_raises (JObj payload) key sig _ _ _ Hm eq_refl) as (b & Hraw & Henc).
    exists code, sig_text, sig, key, b, payload. by split_and!.
Qed.
End Perform.

(** ** Properties *)

Section Theorems.
Context `{E : Ed25519}.
Context (canonical_json_bytes : json -> option bytes) (float_repr : json -> string).
Context (verify_raises : public_key -> bytes -> bytes -> bool) (pem_error : string -> string).
Context (settings : VerifierSettings).

Local Abbreviation verification := (perform_verification canonical_json_bytes float_repr verify_raises pem_error settings).

(** C14. What the verifier calls verified was signed: the payload it shows is the
    one of the envelope it fetched, the key it names is the configured one or
    was given out by the backend's registry (any property [Q] that all those
    answers and the cache have, the key used has), and that key accepts the
    envelope's signature over the RFC 8785 or the legacy bytes of that payload. *)
Theorem verified_means_signed network Q now1 now2 rid c v c' :
  registry_answers settings network Q -> good_cache Q c ->
  verification network now1 now2 rid c = (Ok v, c') -> vr_verified v = true ->
  vr_http_status v = 200 /\ vr_status v = Verified /\
  signed_as_shown canonical_json_bytes float_repr settings network Q rid v.
Proof.
  intros Hreg Hc Hrun Hv. apply (perform_spec _ _ _ _ _ _ Q) in Hrun as (_ & Hiff & Hs); [|done..].
  destruct (Hs Hv). split_and!; [done|by apply Hiff|done].
Qed.

(** One visit: the network as it is then, the clocks and the receipt. *)
Record visit : Type := { vi_network : string -> http_result; vi_now1 : Z; vi_now2 : Z; vi_receipt : string }.

Fixpoint visits (l : list visit) (c : key_dict) : list (result web_error VerificationResult) * key_dict :=
  match l with
  | [] => ([], c)
  | x :: l => let '(r, c1) := verification (vi_network x) (vi_now1 x) (vi_now2 x) (vi_receipt x) c in
              let '(rs, c2) := visits l c1 in (r :: rs, c2)
  end.

(** C15. The verifier keeps answering: over any sequence of visits, whatever the
    network does, its key cache never holds more than its maximum and no
    identifier twice, and every visit gets a result.  The exceptions to this are
    exactly these: a receipt body that is JSON but not an object
    ([AttributeError]), and a request - for the receipt, or for the key the
    fetched envelope names - that raises something else than an
    [httpx.HTTPError], [httpx.InvalidURL] say, which no handler catches and the
    visit raises again. *)
Theorem verifier_always_answers l :
  let '(rs, c) := visits l [] in
  NoDup (map fst c) /\ Z.of_nat (length c) <= _PUBLIC_KEY_CACHE_MAX /\
  Forall2 (fun x r => match r with
                      | Ok v => vr_verified v = true <-> vr_status v = Verified
                      | Raise e => escaped settings (vi_network x) (vi_receipt x) e
                      end) l rs.
Proof.
  assert (Hgen : forall c, cache_wf c -> let '(rs, c2) := visits l c in cache_wf c2 /\
    Forall2 (fun x r => match r with
                        | Ok v => vr_verified v = true <-> vr_status v = Verified
                        | Raise e => escaped settings (vi_network x) (vi_receipt x) e
                        end) l rs).
  { induction l as [|x l IH]; intros c Hc; cbn [visits]; [by split|].
    destruct (verification (vi_network x) (vi_now1 x) (vi_now2 x) (vi_receipt x) c) as [r c1] eqn:Hrun.
    apply (perform_spec _ _ _ _ _ _ (fun _ _ => True)) in Hrun as [[Hc1 _] Hr]; [|done|by split].
    specialize (IH c1 Hc1). destruct (visits l c1) as [rs c2]. destruct IH as [Hc2 Hall]. split; [done|].
    constructor; [|done]. destruct r as [v|e]; [apply Hr|done]. }
  specialize (Hgen [] ltac:(split; [constructor|done])). destruct (visits l []) as [rs c]. destruct Hgen as [[Hnd Hlen] Hall]. auto.
Qed.

(** A receipt id with a control character in it makes [httpx] refuse the URL:
    the visit raises, and so does one whose envelope names such a key. *)
Theorem invalid_url_escapes what rid now1 now2 c network :
  network (receipt_url settings rid) = HttpxRaises what ->
  verification network now1 now2 rid c = (Raise (PyException what), c).
Proof. intros Hn. unfold perform_verification, try_else at 1, _fetch_receipt. fold (receipt_url settings rid). by rewrite Hn. Qed.
End Theorems.

(** ** Signatures in hexadecimal *)

Definition in_b64_alphabet (c : ascii) : bool := is_someb (b64_val c).

Lemma a2b_alphabet n s :
  String.length s = (4 * n)%nat -> sall in_b64_alphabet s = true ->
  exists d, a2b_base64 true false 0 0 0 s = Some d /\ String.length d = (3 * n)%nat.
Proof.
  revert s. induction n as [|n IH]; intros s Hlen Hall.
  - destruct s; [|done]. by exists "".
  - destruct s as [|a [|b [|c [|d r]]]]; cbn in Hlen; try lia. cbn in Hall. unfold in_b64_alphabet, is_someb in Hall.
    destruct (b64_val a) as [va|] eqn:Ha, (b64_val b) as [vb|] eqn:Hb, (b64_val c) as [vc|] eqn:Hc, (b64_val d) as [vd|] eqn:Hd; try done.
    destruct (IH r) as (t & Ht & Hl); [lia|exact Hall|]. rewrite (a2b_group true a b c d va vb vc vd) by done. rewrite Ht.
    eexists. split; [reflexivity|]. cbn. lia.
Qed.

Lemma b64decode_alphabet n s :
  String.length s = (4 * n)%nat -> sall in_b64_alphabet s = true ->
  exists d, b64decode s = Some d /\ String.length d = (3 * n)%nat.
Proof.
  intros Hlen Hall. unfold b64decode. destruct (startswith "=" s) eqn:Hs; [|by apply a2b_alphabet].
  apply prefix_spec in Hs as [r ->]. discriminate Hall.
Qed.

Lemma hex_alphabet b : sall in_b64_alphabet (hex b) = true.
Proof.
  assert (Hd : forall n, 0 <= n < 16 -> in_b64_alphabet (hex_digit n) = true).
  { intros n Hn. apply (forall_below 16 (fun n => in_b64_alphabet (hex_digit n))); [vm_compute; done|done]. }
  induction b as [|c b IH]; [done|]. destruct (ord_nibbles c). cbn [hex sall]. by rewrite !Hd, IH.
Qed.

(** The hexadecimal text of an Ed25519 signature is never read as hexadecimal:
    its 128 digits are valid base 64 too, which is tried first and gives 96
    other bytes. *)
Lemma hex_signature_misread b :
  String.length b = 64%nat -> exists d, _decode_signature (hex b) = Ok d /\ String.length d = 96%nat.
Proof.
  intros Hb. destruct (b64decode_alphabet 32 (hex b)) as (d & Hd & Hl); [by rewrite length_hex, Hb|apply hex_alphabet|].
  exists d. unfold _decode_signature. by rewrite Hd.
Qed.

(** ** A run of the service *)

Definition demo_settings : VerifierSettings :=
  {| backend_base_url := "https://api.example/"; backend_receipt_path := "/v1/receipts/"; backend_key_path := "/v1/keys";
     vs_signing_key_id := "once-dev"; vs_public_key_pem := ""; public_key_cache_ttl_sec := 300 |}.

(** A backend with one receipt, whose key id has a control character in it. *)
Definition demo_network (url : string) : http_result :=
  if String.eqb url "https://api.example/v1/receipts/r1"
  then HttpResponse 200 (Some (JObj [("payload", JObj []); ("signature", JStr "AAAA");
                                     ("signing_key_id", JStr (String "k" (String (chr 1) "k")))]))
  else if String.eqb url "https://api.example/v1/receipts/r2" then HttpResponse 200 (Some (JList []))
  else if String.eqb url "https://api.example/v1/receipts/r3" then HttpResponse 404 None
  else if negb (sall (in_range 32 126) url) then HttpxRaises "InvalidURL"
  else HttpxError.

Definition demo_visits : list visit :=
  map (fun rid => {| vi_network := demo_network; vi_now1 := 0; vi_now2 := 0; vi_receipt := rid |})
    ["r1"; "r2"; "r3"; "r4"; String (chr 1) ""].

Lemma verifier_always_answers_witness :
  let '(rs, c) := visits (E := DemoCrypto.demo) (fun _ => None) (fun _ => "") (fun _ _ _ => false) id demo_settings demo_visits [] in
  map (fun r => match r with Ok v => inl (vr_status v) | Raise e => inr e end) rs =
    [inr (PyException "InvalidURL"); inr (PyException "AttributeError"); inl NotFound; inl NotFound; inr (PyException "InvalidURL")] /\
  Forall2 (fun x r => match r with
                      | Ok v => vr_verified v = true <-> vr_status v = Verified
                      | Raise e => escaped demo_settings (vi_network x) (vi_receipt x) e
                      end) demo_visits rs.
Proof.
  pose proof (verifier_always_answers (E := DemoCrypto.demo) (fun _ => None) (fun _ => "") (fun _ _ _ => false) id
                demo_settings demo_visits) as H.
  destruct (visits _ _ _ _ _ _ _) as [rs c] eqn:Hv. destruct H as (_ & _ & H). split; [|exact H].
  vm_compute in Hv. injection Hv as <- <-. reflexivity.
Defined.
