(* ===== verification/VerifierBackend.v ===== *)
(** * Backend and verifier together

    The public verifier (verifier/app/main.py) with the backend's own endpoints
    (api/v1/receipts.py, api/v1/public_keys.py) as its network: a receipt that
    the backend signed is what the verifier, a separate program, calls verified. *)

From Stdlib Require Import Ascii.
From S2P Require Import Prelude PyStr Json PyTime Encoding Crypto CanonicalJson SubmissionModels Receipts PublicReceipts Accounts ReceiptVerifier.

Lemma startswith_append b x y : startswith (b +:+ x) (b +:+ y) = startswith x y.
Proof. unfold startswith. induction b as [|c b IH]; [done|]. cbn. by destruct (ascii_dec c c). Qed.

Lemma startswith_self p x : startswith p (p +:+ x) = true.
Proof. apply prefix_spec. eauto. Qed.

Lemma sdrop_append p x : sdrop (String.length p) (p +:+ x) = x.
Proof. induction p as [|c p IH]; [by destruct x|]. exact IH. Qed.

Section ResolveFound.
Context `{E : Ed25519} (pem_error : string -> string) (vs : VerifierSettings).

(** A key that the registry has and that loads is resolved, to itself or to
    what was configured or cached for its identifier. *)
Lemma resolve_found network Q now1 now2 i c kvs pem key :
  registry_answers vs network Q -> good_cache Q c ->
  network (_public_key_url vs i) = HttpResponse 200 (Some (JObj kvs)) -> get_key "public_key_pem" kvs = JStr pem ->
  get_key "algorithm" kvs = JStr "Ed25519" -> truthy (strip pem) = true -> load_pem_public_key pem = Some key ->
  exists pem' c', _resolve_public_key_pem pem_error vs network now1 now2 i c = (Ok pem', c') /\
    (_static_public_key_for vs i = Some pem' \/ Q i pem').
Proof.
  intros Hreg Hc Hnet Hpem Halg Hblank Hload.
  destruct (_resolve_public_key_pem pem_error vs network now1 now2 i c) as [r c'] eqn:Hres.
  destruct (resolve_spec pem_error vs network Q now1 now2 i c r c' Hreg Hc Hres) as [_ Hr].
  destruct r as [pem'|e]; [eauto|]. exfalso. revert Hres. unfold _resolve_public_key_pem.
  destruct (_static_public_key_for vs i); [done|]. unfold bind at 1. destruct (_cache_get now1 i c) as [r1 c1] eqn:Hget.
  apply (cache_get_spec Q) in Hget as (Hc1 & o & -> & _); [|done]. destruct o; [done|].
  rewrite Hnet. unfold load_verifier_key, bind, raise_if, or_raise, ret, raise. cbn [Z.eqb Z.leb Pos.eqb Pos.compare as_obj].
  change (200 =? 404) with false. change (400 <=? 200) with false. cbn [as_obj]. rewrite Hpem. cbn [as_str]. rewrite Hblank. cbn [negb].
  rewrite Halg. change (lower "Ed25519" =? "ed25519")%string with true. cbn [negb]. rewrite Hload.
  assert (Hq : Q i pem) by by apply (Hreg i 200 kvs pem).
  destruct (cache_put_spec vs Q now2 i pem c1 Hc1 Hq) as (c2 & -> & _). done.
Qed.

(** A verification in which every step succeeds. *)
Lemma perform_accepts canonical float_repr network now1 now2 rid c envelope payload sig_text pem c' key sig b :
  network (receipt_url vs rid) = HttpResponse 200 (Some (JObj envelope)) ->
  payload_and_signature envelope = (Some payload, Some sig_text) ->
  _resolve_public_key_pem pem_error vs network now1 now2 (_extract_signing_key_id vs envelope payload) c = (Ok pem, c') ->
  truthy (strip pem) = true -> load_pem_public_key pem = Some key -> _decode_signature sig_text = Ok sig ->
  canonical (JObj payload) = Some b -> raw_verify key b sig = true ->
  perform_verification canonical float_repr (fun _ _ _ => false) pem_error vs network now1 now2 rid c =
  (Ok {| vr_status := Verified; vr_verified := true; vr_http_status := 200; vr_payload := Some payload;
         vr_envelope := envelope; vr_error_detail := None; vr_pem := pem;
         vr_key_id := _extract_signing_key_id vs envelope payload |}, c').
Proof.
  intros Hnet Hps Hres Hblank Hload Hdec Hcan Hraw.
  unfold perform_verification, try_else at 1, _fetch_receipt. fold (receipt_url vs rid). rewrite Hnet.
  unfold bind at 1, raise_if, or_raise, ret. cbn [Z.eqb Pos.eqb]. change (400 <=? 200) with false. cbv iota. unfold bind at 1.
  unfold bind at 1. cbn [as_obj]. rewrite Hps. unfold try_else, bind at 1. rewrite Hres. unfold bind at 1.
  unfold load_verifier_key, bind, raise_if, or_raise, ret. rewrite Hblank. cbn [negb]. rewrite Hload, Hdec.
  unfold _verify_bytes. rewrite (verify_canonical_match_same canonical float_repr (JObj payload) (fun m => raw_verify key m sig)).
  replace (verify_canonical_match _ _ _ _) with true; [done|].
  symmetry. apply verify_canonical_match_spec. left. eauto.
Qed.
End ResolveFound.

Section Together.
Context `{E : Ed25519} `{L : !Ed25519Laws E}.
Context (sha256 : bytes -> bytes) (canonical_json_bytes : json -> option bytes) (float_repr : json -> string).
Context (cfg : settings) (dict_other : json -> option (list (string * json))).
Context (exn_text : exn -> string) (datetime_text : datetime -> string).
Context (pem_error : string -> string) (vs : VerifierSettings).

(** The status of an [HTTPException]; any other exception is a 500. *)
Definition status_of (e : exn) : Z :=
  match exc e, get_key "status_code" (context e) with
  | Other "HTTPException", JInt code => code
  | _, _ => 500
  end.

(** An endpoint's answer as the client sees it. *)
Definition served {A} (body : A -> json) (m : M St exn A) (s : St) : http_result :=
  match (m s).1 with
  | Ok a => HttpResponse 200 (Some (body a))
  | Raise e => HttpResponse (status_of e) (Some (JObj [("detail", JStr (message e))]))
  end.

Definition receipt_prefix : string := rstrip_slash (backend_base_url vs) +:+ rstrip_slash (backend_receipt_path vs) +:+ "/".
Definition key_prefix_url : string := rstrip_slash (backend_base_url vs) +:+ rstrip_slash (backend_key_path vs) +:+ "/".

(** The backend as the verifier's network: api/v1/router.py mounts the receipts
    under [/v1/public/receipts] and the keys under [/v1/keys]. *)
Definition backend (s : St) (url : string) : http_result :=
  if startswith receipt_prefix url
  then served (envelope_json datetime_text)
         (_verify_receipt_public canonical_json_bytes float_repr cfg dict_other exn_text
            (sdrop (String.length receipt_prefix) url)) s
  else if startswith key_prefix_url url
  then served public_key_json (get_public_key (sdrop (String.length key_prefix_url) url)) s
  else HttpResponse 404 None.

Lemma backend_receipt s rid :
  backend s (receipt_url vs rid) =
  served (envelope_json datetime_text) (_verify_receipt_public canonical_json_bytes float_repr cfg dict_other exn_text rid) s.
Proof.
  unfold backend. replace (receipt_url vs rid) with (receipt_prefix +:+ rid).
  - by rewrite startswith_self, sdrop_append.
  - unfold receipt_url, receipt_prefix. by rewrite !append_assoc.
Qed.

(** The paths the verifier is configured with by default. *)
Definition default_paths : Prop := backend_receipt_path vs = "/v1/public/receipts/" /\ backend_key_path vs = "/v1/keys/".

Lemma backend_key s i : default_paths -> backend s (_public_key_url vs i) = served public_key_json (get_public_key i) s.
Proof.
  intros [Hr Hk]. unfold backend. replace (_public_key_url vs i) with (key_prefix_url +:+ i).
  - replace (startswith receipt_prefix (key_prefix_url +:+ i)) with false; [by rewrite startswith_self, sdrop_append|].
    unfold receipt_prefix, key_prefix_url. rewrite append_assoc, startswith_append, Hr, Hk. reflexivity.
  - unfold _public_key_url, key_prefix_url. by rewrite !append_assoc.
Qed.

(** The payload that is signed names no signing key. *)
Lemma signed_payload now rid sub consent tos s r s' :
  sign_receipt sha256 canonical_json_bytes cfg now rid sub consent tos s = (Ok r, s') ->
  exists kvs, public_payload_json r = JObj kvs /\ get_key "signing_key_id" kvs = JNull.
Proof.
  intros Hrun. unfold sign_receipt in Hrun. inv_run Hrun. cbn. unfold _build_payload. eexists. split; reflexivity.
Qed.


(** Every key the verifier could use for the configured identifier - its static
    one, a cached one - is the public half of the configured private key. *)
Definition own_key (k : private_key) (i pem : string) : Prop :=
  i = receipt_signing_key_id cfg -> pem = derive_public_pem k.

Lemma backend_registry_answers later k :
  default_paths -> registry_ok cfg later -> load_signing_key (receipt_signing_private_key_pem cfg) = Ok k ->
  registry_answers vs (backend later) (own_key k).
Proof.
  intros Hpaths Hreg Hk i code kvs pem. rewrite backend_key by done. unfold served, get_public_key, select, bind, reads, or_raise.
  destruct (signing_keys (db_of later) !! i) as [row|] eqn:Hrow; cbn; [|intros [= <- <-]; done].
  intros [= <- <-] _ Hpem ->. cbn in Hpem. injection Hpem as <-. by apply (proj2 (Hreg k Hk)).
Qed.

(** The envelope of a stored receipt leads the verifier to the payload, the
    signature and the key id of its row. *)
Lemma envelope_read later rid r kvs :
  receipts (db_of later) !! rid = Some r -> receipt_pk r = rid -> public_payload_json r = JObj kvs ->
  get_key "signing_key_id" kvs = JNull -> truthy (signature_b64 r) = true ->
  strip (signing_key_id r) = signing_key_id r -> truthy (signing_key_id r) = true ->
  exists envelope, backend later (receipt_url vs rid) = HttpResponse 200 (Some (JObj envelope)) /\
    payload_and_signature envelope = (Some kvs, Some (signature_b64 r)) /\
    _extract_signing_key_id vs envelope kvs = signing_key_id r.
Proof.
  intros Hr Hpk Hobj Hnokey Hsig Hstrip Hid.
  destruct (public_envelope canonical_json_bytes float_repr cfg dict_other exn_text rid later r kvs Hr Hpk Hobj) as (p & l' & Hrun & Hrow & Hpay & _).
  eexists. rewrite backend_receipt. unfold served. rewrite Hrun. cbn [fst]. split; [reflexivity|].
  unfold envelope_json. rewrite Hrow, Hpay. split.
  - unfold payload_and_signature. cbn. unfold jor. cbn. by rewrite Hsig.
  - unfold _extract_signing_key_id. cbn. rewrite Hnokey. cbn. by rewrite Hstrip, Hid.
Qed.

(** C13. End to end: a receipt that the backend signed is verified by the public
    verifier.  Whenever the backend still has the receipt and the key it was
    signed with, the verifier - asking only the backend's public endpoints, at
    any time and with whatever its cache holds for honest keys - answers
    "verified", with the payload that was signed and the id of the key. *)
Theorem backend_receipt_verifies now rid sub consent tos s r s' later k row c now1 now2 :
  cache_ok (signing s) ->
  sign_receipt sha256 canonical_json_bytes cfg now rid sub consent tos s = (Ok r, s') ->
  load_signing_key (receipt_signing_private_key_pem cfg) = Ok k ->
  receipts (db_of later) !! rid = receipts (db_of s') !! rid -> registry_ok cfg later ->
  signing_keys (db_of later) !! receipt_signing_key_id cfg = Some row ->
  default_paths -> strip (receipt_signing_key_id cfg) = receipt_signing_key_id cfg ->
  truthy (receipt_signing_key_id cfg) = true ->
  (forall pem, _static_public_key_for vs (receipt_signing_key_id cfg) = Some pem -> pem = derive_public_pem k) ->
  good_cache (own_key k) c ->
  exists v c', perform_verification canonical_json_bytes float_repr (fun _ _ _ => false) pem_error vs (backend later)
                 now1 now2 rid c = (Ok v, c') /\
    vr_status v = Verified /\ vr_http_status v = 200 /\ vr_key_id v = receipt_signing_key_id cfg /\
    option_map JObj (vr_payload v) = Some (public_payload_json r).
Proof.
  intros Hcache Hsign Hk Hlater Hreg Hrow Hpaths Hstrip Hid Hstatic Hc.
  destruct (signed_payload _ _ _ _ _ _ _ _ Hsign) as (kvs & Hkvs & Hnokey).
  destruct (sign_receipt_Ok _ _ _ _ _ _ _ _ _ _ _ Hcache Hsign)
    as (k' & can & Hk' & Hcan & Hsig & Hrid & _ & Hpk & _ & _ & _ & _ & _ & _ & _ & _ & Htx & _ & _).
  rewrite Hk in Hk'. injection Hk' as <-.
  unfold db_of in Hlater at 2. rewrite Htx in Hlater. cbn in Hlater. rewrite lookup_insert_eq in Hlater.
  destruct (envelope_read later rid r kvs Hlater Hpk Hkvs Hnokey) as (envelope & Hnet & Hps & Hkey);
    [by rewrite Hsig; apply b64encode_truthy, sign_truthy|by rewrite Hrid..|].
  rewrite Hrid in Hkey.
  assert (Hpem : public_key_pem row = derive_public_pem k) by by apply (proj2 (Hreg k Hk)).
  destruct (resolve_found pem_error vs (backend later) (own_key k) now1 now2 (receipt_signing_key_id cfg) c
              [("key_id", JStr (key_pk row)); ("algorithm", JStr "Ed25519"); ("public_key_pem", JStr (public_key_pem row));
               ("status", JStr (if is_someb (key_revoked_at row) then "revoked" else "active"))]
              (derive_public_pem k) (public_of k)) as (pem & c' & Hres & Hq).
  { by apply backend_registry_answers. } { done. }
  { rewrite backend_key by done. unfold served. by rewrite (public_key_found _ _ _ Hrow). }
  { by rewrite <- Hpem. } { done. } { apply public_pem_not_blank. } { apply load_public_pem. }
  assert (pem = derive_public_pem k) as -> by (destruct Hq as [Hq|Hq]; [by apply Hstatic|by apply Hq]).
  eexists _, _. split.
  - apply (perform_accepts pem_error vs canonical_json_bytes float_repr _ now1 now2 rid c envelope kvs (signature_b64 r)
             (derive_public_pem k) c' (public_of k) (sign k can) can Hnet Hps).
    + by rewrite Hkey.
    + apply public_pem_not_blank.
    + apply load_public_pem.
    + unfold _decode_signature. by rewrite Hsig, b64decode_b64encode.
    + by rewrite <- Hkvs.
    + apply verify_sign.
  - cbn. by rewrite Hkvs.
Qed.
End Together.

(** ** A concrete run *)

Module DemoVerifier.
Import DemoCrypto.

Definition vs : VerifierSettings :=
  {| backend_base_url := "http://localhost:8000/"; backend_receipt_path := "/v1/public/receipts/";
     backend_key_path := "/v1/keys/"; vs_signing_key_id := "default"; vs_public_key_pem := "";
     public_key_cache_ttl_sec := 3600 |}.
Definition later : St := snd (bootstrap_signing_key DemoReceipts.cfg DemoReceipts.signed).
Definition network : string -> http_result :=
  backend DemoReceipts.canonical (fun _ => "0.5") DemoReceipts.cfg (fun _ => None) message isoformat vs later.
Definition verification : result web_error VerificationResult * key_dict :=
  perform_verification DemoReceipts.canonical (fun _ => "0.5") (fun _ _ _ => false) id vs network 0 1 "r1" [].

(** The verifier fetches the receipt and the key, and keeps the key. *)
Example verified_and_cached :
  option_map vr_status (value_of verification) = Some Verified /\ map fst verification.2 = ["k1"].
Proof. vm_compute. done. Qed.

(** The forced-JSON route names the configured key, not the one that verified
    the receipt: the backend's envelope has its key id inside [receipt]. *)
Example verify_json_names_another_key :
  option_map (fun v => (vr_key_id v, get_key "signing_key_id" (verify_json_body vs "r1" v))) (value_of verification)
  = Some ("k1", JStr "default").
Proof. vm_compute. done. Qed.

Lemma key_loads : load_signing_key (receipt_signing_private_key_pem DemoReceipts.cfg) = Ok "-----BEGIN seed -----END".
Proof. vm_compute. reflexivity. Qed.

Lemma later_registry_ok : registry_ok DemoReceipts.cfg later.
Proof.
  intros k Hk. rewrite key_loads in Hk. injection Hk as <-. split.
  - intros p. vm_compute. by intros [= <-].
  - intros row. vm_compute. by intros [= <-].
Qed.

Lemma backend_receipt_verifies_witness : exists v c',
  perform_verification DemoReceipts.canonical (fun _ => "0.5") (fun _ _ _ => false) id vs network 0 1 "r1" [] = (Ok v, c') /\
  vr_status v = Verified.
Proof.
  destruct (sign_receipt DemoReceipts.sha DemoReceipts.canonical DemoReceipts.cfg (utc 5) "r1" DemoReceipts.sub
              DemoReceipts.consent "sha256:tos" DemoReceipts.start) as [[r|e] s'] eqn:Hs; [|vm_compute in Hs; discriminate].
  destruct (signing_keys (db_of later) !! "k1") as [row|] eqn:Hrow; [|vm_compute in Hrow; discriminate].
  destruct (backend_receipt_verifies DemoReceipts.sha DemoReceipts.canonical (fun _ => "0.5") DemoReceipts.cfg (fun _ => None)
              message isoformat id vs (utc 5) "r1" DemoReceipts.sub DemoReceipts.consent "sha256:tos" DemoReceipts.start r s'
              later "-----BEGIN seed -----END" row [] 0 1 DemoReceipts.start_cache_ok Hs key_loads) as (v & c' & Hv & Hst & _).
  - replace s' with DemoReceipts.signed; [vm_compute; reflexivity|unfold DemoReceipts.signed; by rewrite Hs].
  - exact later_registry_ok.
  - exact Hrow.
  - split; reflexivity.
  - reflexivity.
  - reflexivity.
  - intros pem. vm_compute. discriminate.
  - split; [split; [constructor|vm_compute; discriminate]|intros i x []].
  - exists v, c'. exact (conj Hv Hst).
Defined.

Lemma verified_means_signed_witness : exists v,
  verification.1 = Ok v /\ vr_status v = Verified /\
  signed_as_shown DemoReceipts.canonical (fun _ => "0.5") vs network (fun i _ => i <> "") "r1" v.
Proof.
  destruct verification as [[v|e] c'] eqn:Hv; [|vm_compute in Hv; discriminate].
  assert (Hver : vr_verified v = true).
  { change v with (default v (value_of (Ok (E := web_error) v, c'))). rewrite <- Hv. vm_compute. reflexivity. }
  exists v. split; [reflexivity|].
  destruct (verified_means_signed DemoReceipts.canonical (fun _ => "0.5") (fun _ _ _ => false) id vs network
              (fun i _ => i <> "") 0 1 "r1" [] v c') as (_ & Hst & Hsigned).
  - intros i code kvs pem Hnet Hcode _ ->. vm_compute in Hnet. injection Hnet as <- _. lia.
  - split; [split; [constructor|vm_compute; discriminate]|intros i x []].
  - exact Hv.
  - exact Hver.
  - exact (conj Hst Hsigned).
Defined.
End DemoVerifier.
