(* ===== verification/VerifierViews.v ===== *)
(** * The verifier's views

    verifier/app/content_negotiation.py, verifier/app/views.py and verifier/app/og_card.py:
    the format a client gets, the verdict that the pages show, the badge and the card of a
    receipt.  SHA-256 and the page template are arguments; of a page the values that are
    put into the template are modelled. *)

From Stdlib Require Import Ascii.
From S2P Require Import Prelude PyStr Json Encoding Crypto CanonicalJson Receipts ReceiptVerifier VerifierBackend.

(** ** [float(s)] *)

(** Digits with single underscores between them: the number so far, how many, the rest. *)
Fixpoint read_ds (acc cnt : Z) (s : string) : Z * Z * string :=
  match s with
  | String c r =>
      if is_digit c then read_ds (10 * acc + (ord c - 48)) (cnt + 1) r
      else if Ascii.eqb c "_" && (0 <? cnt) then
        match r with
        | String d r' => if is_digit d then read_ds (10 * acc + (ord d - 48)) (cnt + 1) r' else (acc, cnt, s)
        | EmptyString => (acc, cnt, s)
        end
      else (acc, cnt, s)
  | EmptyString => (acc, cnt, s)
  end.

Definition read_sign (s : string) : bool * string :=
  match s with
  | String c r => if Ascii.eqb c "-" then (true, r) else if Ascii.eqb c "+" then (false, r) else (false, s)
  | EmptyString => (false, s)
  end.

(** [float(s)]; [None] is [ValueError]. *)
Definition py_float (s : string) : option spec_float :=
  let '(neg, body) := read_sign (lower (strip s)) in
  if mem body ["inf"; "infinity"] then Some (S754_infinity neg)
  else if String.eqb body "nan" then Some S754_nan
  else
    let '(a, n, r) := read_ds 0 0 body in
    let '(a, n2, r) := match r with String "." r' => read_ds a 0 r' | _ => (a, 0, r) end in
    if n + n2 =? 0 then None
    else
      let value e := let x := e - n2 in if 0 <=? x then float_of_ratio neg (a * 10 ^ x) 1 else float_of_ratio neg a (10 ^ (- x)) in
      match r with
      | EmptyString => Some (value 0)
      | String "e" r' =>
          let '(eneg, r'') := read_sign r' in
          let '(e, n3, rest) := read_ds 0 0 r'' in
          if (n3 =? 0) || truthy rest then None else Some (value (if eneg then - e else e))
      | _ => None
      end.

Example py_floats : map py_float ["0.8"; " .5 "; "1e-1"; "-0"; "1_0.5"; ""; "."; "1e"; "q"; "NaN"; "5."] =
  [Some (flit 8 10); Some (flit 1 2); Some (flit 1 10); Some (S754_zero true); Some (flit 21 2); None; None; None; None; Some S754_nan; Some (flit 5 1)].
Proof. vm_compute. reflexivity. Qed.

(** ** The Accept header *)

(** verifier/content_negotiation.py, [Format] *)
Inductive Format : Type := html | json_ | jose.
#[export] Instance format_eq_dec : EqDecision Format.
Proof. solve_decision. Defined.

(** verifier/content_negotiation.py, [_MEDIA_TYPE_TO_FORMAT] *)
Definition _MEDIA_TYPE_TO_FORMAT : list (string * Format) :=
  [("text/html", html); ("application/xhtml+xml", html); ("application/json", json_); ("application/jose+json", jose); ("application/jose", jose)].

Record accepted : Type := { media_type : string; q_of : spec_float; position : Z }.

(** verifier/content_negotiation.py:45-52, [_parse_accept]: the q-value of the parameters,
    which is that of the first one that names it. *)
Fixpoint q_value (params : list string) : spec_float :=
  match params with
  | [] => float_of_Z 1
  | p :: params => if startswith "q=" (lower p) then default (float_of_Z 1) (py_float (sdrop 2 p)) else q_value params
  end.

(** verifier/content_negotiation.py:39-55, [_parse_accept]: one element of the header. *)
Definition parse_part (idx : Z) (raw : string) : option accepted :=
  match List.filter truthy (map strip (split_char ";" (strip raw))) with
  | [] => None
  | first :: params =>
      let q := q_value params in
      let q := if flt q (float_of_Z 0) || flt (float_of_Z 1) q then float_of_Z 1 else q in
      Some {| media_type := lower first; q_of := q; position := idx |}
  end.

(** verifier/content_negotiation.py, [_parse_accept] *)
Fixpoint parse_parts (idx : Z) (l : list string) : list accepted :=
  match l with
  | [] => []
  | raw :: l => match parse_part idx raw with Some a => a :: parse_parts (idx + 1) l | None => parse_parts (idx + 1) l end
  end.
Definition _parse_accept (header : string) : list accepted := parse_parts 0 (split_char "," header).

(** verifier/content_negotiation.py:80, [negotiate]: the comparison of the keys
    [(-q, index)]; a sort asks whether an item is less than one before it.  Where a q-value
    is not a number the order is that of an insertion sort. *)
Definition key_lt (x y : accepted) : bool :=
  if SFeqb (q_of x) (q_of y) then position x <? position y else flt (q_of y) (q_of x).
Definition not_after (x y : accepted) : bool := negb (key_lt y x).

(** verifier/content_negotiation.py:85-95, [negotiate]: the format of a media type. *)
Definition format_of (dflt : Format) (media : string) : option Format :=
  match find_first (fun kv => String.eqb media kv.1) _MEDIA_TYPE_TO_FORMAT with
  | Some (_, fmt) => Some fmt
  | None =>
      if String.eqb media "text/*" then Some html
      else if String.eqb media "application/*" then Some json_
      else if String.eqb media "*/*" then Some dflt
      else None
  end.

(** verifier/content_negotiation.py:82-97, [negotiate]: the loop. *)
Fixpoint first_offered (dflt : Format) (l : list accepted) : Format :=
  match l with
  | [] => dflt
  | a :: l =>
      if SFleb (q_of a) (float_of_Z 0) then first_offered dflt l
      else match format_of dflt (media_type a) with Some f => f | None => first_offered dflt l end
  end.

(** verifier/content_negotiation.py, [negotiate] *)
Definition negotiate (accept : option string) (dflt : Format) : Format :=
  let header := strip (default "" accept) in
  if negb (truthy header) then dflt else first_offered dflt (isort not_after (_parse_accept header)).

(** ** Lemmas: the order of floats *)

(** A float as three integers whose lexicographic order is that of the floats. *)
Definition k1 (f : spec_float) : Z :=
  match f with
  | S754_infinity true => -2 | S754_finite true _ _ => -1 | S754_zero _ => 0 | S754_finite false _ _ => 1 | S754_infinity false => 2 | S754_nan => 3
  end.
Definition k2 (f : spec_float) : Z := match f with S754_finite s _ e => if s then - e else e | _ => 0 end.
Definition k3 (f : spec_float) : Z := match f with S754_finite s m _ => if s then Z.neg m else Z.pos m | _ => 0 end.

Lemma float_order f g : f <> S754_nan -> g <> S754_nan ->
  (SFeqb f g = true <-> k1 f = k1 g /\ k2 f = k2 g /\ k3 f = k3 g) /\
  (flt f g = true <-> k1 f < k1 g \/ k1 f = k1 g /\ (k2 f < k2 g \/ k2 f = k2 g /\ k3 f < k3 g)).
Proof.
  intros Hf Hg. unfold flt, SFeqb, SFltb.
  destruct f as [sf|sf| |sf mf ef], g as [sg|sg| |sg mg eg]; try done; destruct sf, sg; cbn; try (split; split; (lia || done)).
  all: change (Pos.compare_cont Eq mf mg) with (Pos.compare mf mg);
    destruct (Z.compare_spec ef eg), (Pos.compare_spec mf mg); cbn; split; split; (lia || done).
Qed.

Definition numeric (x : accepted) : Prop := q_of x <> S754_nan.

(** The comparison of the sort, on numbers. *)
Definition not_after' (x y : accepted) : bool :=
  let a := q_of x in let b := q_of y in
  (k1 b <? k1 a) || ((k1 b =? k1 a) && ((k2 b <? k2 a) || ((k2 b =? k2 a) && ((k3 b <? k3 a) || ((k3 b =? k3 a) && (position x <=? position y)))))).

Lemma not_after_eq x y : numeric x -> numeric y -> not_after x y = not_after' x y.
Proof.
  intros Hx Hy. unfold not_after, key_lt. destruct (float_order (q_of y) (q_of x) Hy Hx) as [He _]. destruct (float_order (q_of x) (q_of y) Hx Hy) as [_ Hl].
  unfold not_after'. destruct (SFeqb (q_of y) (q_of x)).
  - destruct He as [He _]. specialize (He eq_refl). lia.
  - assert (Hne : ~ (k1 (q_of y) = k1 (q_of x) /\ k2 (q_of y) = k2 (q_of x) /\ k3 (q_of y) = k3 (q_of x))) by (intros H; by apply He in H).
    destruct (flt (q_of x) (q_of y)).
    + destruct Hl as [Hl _]. specialize (Hl eq_refl). lia.
    + assert (Hnl : ~ (k1 (q_of x) < k1 (q_of y) \/ k1 (q_of x) = k1 (q_of y) /\ (k2 (q_of x) < k2 (q_of y) \/ k2 (q_of x) = k2 (q_of y) /\ k3 (q_of x) < k3 (q_of y))))
        by (intros H; by apply Hl in H). lia.
Qed.

Lemma isort_ext_in {A} (le le' : A -> A -> bool) l : (forall x y, In x l -> In y l -> le x y = le' x y) -> isort le l = isort le' l.
Proof.
  induction l as [|x l IH]; intros Hext; [done|]. rewrite !isort_cons, IH by (intros y z Hy Hz; apply Hext; by right).
  assert (Hin : forall y, In y (isort le' l) -> le x y = le' x y) by (intros y Hy%isort_In; apply Hext; [by left|by right]).
  clear -Hin. induction (isort le' l) as [|y r IHr]; [done|]. cbn. rewrite (Hin y) by (by left). rewrite IHr; [done|]. intros z Hz. apply Hin. by right.
Qed.

Definition offered (dflt : Format) (a : accepted) : Prop := SFleb (q_of a) (float_of_Z 0) = false /\ format_of dflt (media_type a) <> None.
Definition preferred (a b : accepted) : Prop := flt (q_of b) (q_of a) = true \/ SFeqb (q_of a) (q_of b) = true /\ position a <= position b.

Lemma not_after_preferred a b : numeric a -> numeric b -> not_after' a b = true -> preferred a b.
Proof.
  intros Ha Hb H. unfold preferred. destruct (float_order (q_of b) (q_of a) Hb Ha) as [_ ->]. destruct (float_order (q_of a) (q_of b) Ha Hb) as [-> _].
  unfold not_after' in H. lia.
Qed.

Lemma first_offered_spec dflt l : Forall numeric l -> StronglySorted (fun a b => not_after' a b = true) l ->
  (exists a, In a l /\ offered dflt a /\ format_of dflt (media_type a) = Some (first_offered dflt l) /\
     forall b, In b l -> offered dflt b -> b = a \/ preferred a b) \/
  (first_offered dflt l = dflt /\ forall b, In b l -> ~ offered dflt b).
Proof.
  intros Hn Hs. induction Hs as [|a l Hs IH Hall]; cbn [first_offered]; [by right|]. apply Forall_cons in Hn as [Ha Hn].
  assert (Hskip : ~ offered dflt a -> (exists a', In a' l /\ offered dflt a' /\ format_of dflt (media_type a') = Some (first_offered dflt l) /\
     forall b, In b l -> offered dflt b -> b = a' \/ preferred a' b) \/ (first_offered dflt l = dflt /\ forall b, In b l -> ~ offered dflt b) ->
     (exists a', In a' (a :: l) /\ offered dflt a' /\ format_of dflt (media_type a') = Some (first_offered dflt l) /\
     forall b, In b (a :: l) -> offered dflt b -> b = a' \/ preferred a' b) \/ (first_offered dflt l = dflt /\ forall b, In b (a :: l) -> ~ offered dflt b)).
  { intros Hno [(a' & H1 & H2 & H3 & H4)|[H1 H2]]; [left; exists a'; split_and!; [by right|done|done|]|right; split; [done|]];
      (intros b [<-|Hb] Ho; [by destruct Hno|]); [by apply H4|by apply (H2 b)]. }
  destruct (SFleb (q_of a) (float_of_Z 0)) eqn:Hq; [apply Hskip; [by intros [? _]; congruence|by apply IH]|].
  destruct (format_of dflt (media_type a)) as [f|] eqn:Hf; [|apply Hskip; [by intros [_ ?]|by apply IH]].
  left. exists a. split; [by left|]. split; [split; [done|by rewrite Hf]|]. split; [done|]. intros b [<-|Hb] Ho; [by left|]. right.
  rewrite List.Forall_forall in Hall. apply not_after_preferred; [done| |by apply Hall]. rewrite Forall_forall in Hn. by apply Hn, list_elem_of_In.
Qed.

(** ** The verdict *)

Section Views.
Context (repr_other : json -> string) (sha256_hex : bytes -> string).

(** [payload.get(a) or payload.get(b) or dflt] *)
Definition either (payload : list (string * json)) (a b : string) (dflt : json) : json := jor (get_key a payload) (jor (get_key b payload) dflt).

(** verifier/views.py, [_verdict_for]: the headline and the subtitle of a result. *)
Definition headline (result : VerificationResult) : string :=
  match vr_status result with
  | NotFound => "Receipt not found"
  | Error => "Verification error"
  | _ => if vr_verified result then "Verified" else "Invalid signature"
  end.
Definition subtitle (result : VerificationResult) : string :=
  match vr_status result with
  | NotFound => "We couldn't locate this receipt. It may have been deleted, expired, or the link may be malformed."
  | Error => sor (default "" (vr_error_detail result)) "An unexpected error occurred while verifying this receipt."
  | _ =>
      if vr_verified result then
        let payload := default [] (vr_payload result) in
        "This receipt was cryptographically signed by Once on " +:+
        py_str repr_other (either payload "submitted_at" "issued_at" (JStr "an earlier date")) +:+ " for supplier " +:+
        py_str repr_other (either payload "supplier_id" "supplier" (JStr "an unknown supplier")) +:+ "."
      else "The signature does not match this payload. The receipt may have been tampered with, or the signing key is unknown to this verifier."
  end.
Definition _verdict_for (result : VerificationResult) : verdict :=
  match vr_status result with NotFound => NotFound | Error => Error | _ => if vr_verified result then Verified else Invalid end.
Definition verdict_key (v : verdict) : string :=
  match v with Verified => "verified" | Invalid => "invalid" | NotFound => "not_found" | Error => "error" end.

(** ** Markup *)

(** [html.escape(s)] *)
Definition escape_char (c : ascii) : string :=
  if Ascii.eqb c "&" then "&amp;" else if Ascii.eqb c "<" then "&lt;" else if Ascii.eqb c ">" then "&gt;"
  else if Ascii.eqb c "034" then "&quot;" else if Ascii.eqb c "'" then "&#x27;" else String c "".
Fixpoint html_escape (s : string) : string := match s with String c r => escape_char c +:+ html_escape r | EmptyString => "" end.

(** A text written with a grave accent where the source has a double quote. *)
Definition quoted : string -> string := smap (fun c => if Ascii.eqb c "`" then "034"%char else c).

(** verifier/views.py, [_badge_svg] *)
Definition badge_label (v : verdict) : string * string :=
  match v with
  | Verified => ("verified", "#2ea44f") | Invalid => ("invalid", "#cf222e") | NotFound => ("not found", "#bf8700") | Error => ("error", "#6e7781")
  end.
Definition _badge_svg (v : verdict) : string :=
  let '(right_label, right_color) := badge_label v in
  quoted "<svg xmlns=`http://www.w3.org/2000/svg` width=`120` height=`31` role=`img` aria-label=`once: " +:+ right_label +:+ quoted "`>
  <title>once: " +:+ right_label +:+ quoted "</title>
  <linearGradient id=`s` x2=`0` y2=`100%`>
    <stop offset=`0` stop-color=`#bbb` stop-opacity=`.1`/>
    <stop offset=`1` stop-opacity=`.1`/>
  </linearGradient>
  <clipPath id=`r`><rect width=`120` height=`31` rx=`4` fill=`#fff`/></clipPath>
  <g clip-path=`url(#r)`>
    <rect width=`42` height=`31` fill=`#24292f`/>
    <rect x=`42` width=`78` height=`31` fill=`" +:+ right_color +:+ quoted "`/>
    <rect width=`120` height=`31` fill=`url(#s)`/>
  </g>
  <g fill=`#fff` text-anchor=`middle` font-family=`Verdana,Geneva,DejaVu Sans,sans-serif` font-size=`11`>
    <text x=`21` y=`20`>once</text>
    <text x=`81` y=`20`>" +:+ right_label +:+ "</text>
  </g>
</svg>".

(** An SVG answer: its text and its entity tag. *)
Record svg_response : Type := { svg : string; svg_etag : string }.
Definition etag_of (text : string) : string := String "034" (stake 16 (sha256_hex text) +:+ String "034" "").

(** verifier/views.py, [verify_badge], of a result. *)
Definition verify_badge (receipt_id : string) (result : VerificationResult) : svg_response :=
  let v := _verdict_for result in {| svg := _badge_svg v; svg_etag := etag_of (receipt_id +:+ ":" +:+ verdict_key v) |}.
End Views.

(** ** The card *)

(** verifier/og_card.py, [_PALETTE] *)
Record palette : Type := { accent : string; accent_dark : string; icon : string; label : string; og_subtitle : string }.
Definition _PALETTE (v : verdict) : palette :=
  match v with
  | Verified => {| accent := "#10b981"; accent_dark := "#047857"; icon := "✓"; label := "Verified"; og_subtitle := "Signed by Once · Ed25519 · RFC 8785" |}
  | Invalid => {| accent := "#ef4444"; accent_dark := "#b91c1c"; icon := "✗"; label := "Invalid signature"; og_subtitle := "Signature does not match payload" |}
  | NotFound => {| accent := "#f59e0b"; accent_dark := "#b45309"; icon := "?"; label := "Receipt not found"; og_subtitle := "No record of this receipt id" |}
  | Error => {| accent := "#64748b"; accent_dark := "#334155"; icon := "!"; label := "Verification error"; og_subtitle := "Could not complete verification" |}
  end.

(** verifier/og_card.py, [_short_receipt] *)
Definition _short_receipt (receipt_id : string) : string :=
  let rid := strip receipt_id in
  if slen rid <=? 16 then rid else stake 8 rid +:+ "…" +:+ sdrop (String.length rid - 8) rid.

(** verifier/og_card.py, [_line] *)
Definition _line (text : string) (max_chars : nat) : string :=
  if (String.length text <=? max_chars)%nat then text else rstrip_by is_space (stake (max_chars - 1) text) +:+ "…".

Section Card.
Context (repr_other : json -> string) (sha256_hex : bytes -> string).

(** verifier/og_card.py:121-140, [render_og_svg]: the rows of the card. *)
Definition shown (name : string) (v : json) : list (string * string) := if jtruthy v then [(name, _line (py_str repr_other v) 38)] else [].
Definition card_rows (receipt_id : string) (payload : list (string * json)) : list (string * string) :=
  shown "Supplier" (either payload "supplier_id" "supplier" (JStr "")) ++
  shown "Portal" (jor (get_key "portal" payload) (JStr "")) ++
  shown "Issued" (either payload "submitted_at" "issued_at" (JStr "")) ++
  [("Receipt", _short_receipt receipt_id)].

(** verifier/og_card.py:145-157, [render_og_svg]: the [i]-th row. *)
Definition row_parts (y : Z) (r : string * string) : list string :=
  [quoted "<text x=`80` y=`" +:+ str_of_Z y +:+ quoted "` font-size=`22` fill=`#94a3b8` font-family=`ui-sans-serif,system-ui,sans-serif`>" +:+
     upper (html_escape r.1) +:+ "</text>";
   quoted "<text x=`240` y=`" +:+ str_of_Z y +:+
     quoted "` font-size=`26` fill=`#e2e8f0` font-family=`ui-monospace,SFMono-Regular,Menlo,monospace` font-weight=`500`>" +:+
     html_escape r.2 +:+ "</text>"].
Fixpoint row_svg_parts (y : Z) (rows : list (string * string)) : list string :=
  match rows with [] => [] | r :: rows => row_parts y r ++ row_svg_parts (y + 54) rows end.

(** verifier/og_card.py, [render_og_svg], with the default tagline and site. *)
Definition render_og_svg (v : verdict) (receipt_id : string) (payload : option (list (string * json))) (service_name : string) : string :=
  let p := _PALETTE v in
  let e_service := html_escape service_name in
  let e_tagline := html_escape "Receipt verification" in
  let e_site := html_escape "getonce.com" in
  let rows_svg := join (String "010" "  ") (row_svg_parts 380 (card_rows receipt_id (default [] payload))) in
  quoted "<svg xmlns=`http://www.w3.org/2000/svg` viewBox=`0 0 1200 630` width=`1200` height=`630` role=`img` aria-label=`" +:+ e_service +:+ " · " +:+ html_escape (label p) +:+ quoted "`>
  <defs>
    <linearGradient id=`bg` x1=`0` y1=`0` x2=`1` y2=`1`>
      <stop offset=`0` stop-color=`#0f172a`/>
      <stop offset=`1` stop-color=`#020617`/>
    </linearGradient>
    <linearGradient id=`accent` x1=`0` y1=`0` x2=`0` y2=`1`>
      <stop offset=`0` stop-color=`" +:+ accent p +:+ quoted "`/>
      <stop offset=`1` stop-color=`" +:+ accent_dark p +:+ quoted "`/>
    </linearGradient>
  </defs>
  <rect width=`1200` height=`630` fill=`url(#bg)`/>
  <rect x=`0` y=`0` width=`12` height=`630` fill=`url(#accent)`/>

  <g font-family=`ui-sans-serif,system-ui,-apple-system,Segoe UI,Roboto,sans-serif`>
    <text x=`80` y=`100` font-size=`28` fill=`#94a3b8` letter-spacing=`3`>" +:+ upper e_service +:+ quoted "</text>
    <text x=`80` y=`138` font-size=`22` fill=`#64748b`>" +:+ e_tagline +:+ quoted "</text>

    <circle cx=`1040` cy=`120` r=`60` fill=`" +:+ accent p +:+ quoted "` opacity=`0.15`/>
    <circle cx=`1040` cy=`120` r=`44` fill=`" +:+ accent p +:+ quoted "`/>
    <text x=`1040` y=`142` font-size=`56` font-weight=`700` fill=`#ffffff` text-anchor=`middle`>" +:+ html_escape (icon p) +:+ quoted "</text>

    <text x=`80` y=`280` font-size=`72` font-weight=`700` fill=`#f8fafc`>" +:+ html_escape (label p) +:+ quoted "</text>
    <text x=`80` y=`324` font-size=`26` fill=`#94a3b8`>" +:+ html_escape (og_subtitle p) +:+ "</text>

    " +:+ rows_svg +:+ quoted "

    <line x1=`80` y1=`540` x2=`1120` y2=`540` stroke=`#1e293b` stroke-width=`1`/>
    <text x=`80` y=`585` font-size=`22` fill=`#64748b`>Verify at</text>
    <text x=`170` y=`585` font-size=`22` fill=`#e2e8f0` font-weight=`600`>" +:+ e_site +:+ "</text>
  </g>
</svg>".

(** verifier/views.py, [verify_og_card], of a result. *)
Definition verify_og_card (service_name receipt_id : string) (result : VerificationResult) : svg_response :=
  let v := _verdict_for result in
  {| svg := render_og_svg v receipt_id (vr_payload result) service_name; svg_etag := etag_of sha256_hex ("og:" +:+ receipt_id +:+ ":" +:+ verdict_key v) |}.
End Card.

(** ** Lemmas: markup *)

(** What can open or end a tag, a text or an attribute. *)
Definition markup (c : ascii) : bool := Ascii.eqb c "<" || Ascii.eqb c ">" || Ascii.eqb c "034".
Definition plain (s : string) : Prop := sall (fun c => negb (markup c)) s = true.

(** The markup characters of a text, in order. *)
Definition skeleton : string -> string := sfilter markup.

Lemma skeleton_app a b : skeleton (a +:+ b) = skeleton a +:+ skeleton b.
Proof. unfold skeleton. induction a as [|c a IH]; cbn; [done|]. destruct (markup c); cbn; by rewrite IH. Qed.

Lemma skeleton_plain s : plain s -> skeleton s = "".
Proof.
  unfold plain, skeleton. induction s as [|c s IH]; cbn; [done|]. intros [Hc Hs]%andb_true_iff.
  apply negb_true_iff in Hc. rewrite Hc. by apply IH.
Qed.

Lemma plain_escape s : plain (html_escape s).
Proof.
  unfold plain. induction s as [|c s IH]; cbn [html_escape]; [done|]. rewrite sall_append, IH, andb_true_r.
  destruct c as [[] [] [] [] [] [] [] []]; vm_compute; reflexivity.
Qed.

Lemma plain_upper s : plain s -> plain (upper s).
Proof.
  unfold plain, upper. induction s as [|c s IH]; cbn [smap sall]; [done|]. intros [Hc Hs]%andb_true_iff. rewrite IH, andb_true_r by done.
  revert Hc. destruct c as [[] [] [] [] [] [] [] []]; vm_compute; done.
Qed.

Lemma plain_digits y : 0 <= y -> plain (str_of_Z y).
Proof.
  intros Hy. unfold str_of_Z, plain. destruct (Z.ltb_spec y 0); [lia|]. eapply sall_impl; [|exact (digits_of_digits _ y "" Hy eq_refl)].
  intros c Hc. by destruct c as [[] [] [] [] [] [] [] []].
Qed.

Lemma skeleton_join sep ws : plain sep -> skeleton (join sep ws) = join "" (map skeleton ws).
Proof.
  intros Hs. induction ws as [|w ws IH]; [done|]. cbn [join map]. destruct ws as [|v ws]; [done|].
  rewrite !skeleton_app, IH, (skeleton_plain sep) by done. done.
Qed.

(** Rows have one skeleton whatever they show, wherever they are. *)
Lemma row_skeleton y r y' r' : 0 <= y -> 0 <= y' -> map skeleton (row_parts y r) = map skeleton (row_parts y' r').
Proof.
  intros Hy Hy'. unfold row_parts. cbn [map]. rewrite !skeleton_app.
  rewrite !(skeleton_plain (str_of_Z _)), !(skeleton_plain (html_escape _)), !(skeleton_plain (upper _))
    by (by apply plain_digits || apply plain_upper, plain_escape || apply plain_escape). done.
Qed.

Lemma rows_skeleton rows rows' : length rows = length rows' -> forall y y', 0 <= y -> 0 <= y' ->
  map skeleton (row_svg_parts y rows) = map skeleton (row_svg_parts y' rows').
Proof.
  revert rows'. induction rows as [|r rows IH]; intros [|r' rows'] Hlen y y' Hy Hy'; try done. cbn [row_svg_parts].
  rewrite !map_app, (row_skeleton y r y' r') by done. f_equal. apply IH; [by injection Hlen|lia|lia].
Qed.

Lemma palette_plain v : plain (accent (_PALETTE v)) /\ plain (accent_dark (_PALETTE v)).
Proof. by destruct v. Qed.

(** ** Properties *)

(** What [negotiate] answers, when the q-values are numbers: the format of an
    element of the header that it knows - the wildcard of a type counts as known - and that
    has not [q=0], every other such element having a smaller q-value, or the same and
    coming later; when there is none, the default.  An element with [q=0] is passed over,
    and does not keep a wildcard from answering its type. *)
Theorem negotiate_takes_the_best accept dflt : Forall numeric (_parse_accept (strip (default "" accept))) ->
  (exists a, In a (_parse_accept (strip (default "" accept))) /\ offered dflt a /\ format_of dflt (media_type a) = Some (negotiate accept dflt) /\
     forall b, In b (_parse_accept (strip (default "" accept))) -> offered dflt b -> b = a \/ preferred a b) \/
  (negotiate accept dflt = dflt /\ forall b, In b (_parse_accept (strip (default "" accept))) -> ~ offered dflt b).
Proof.
  set (l := _parse_accept _). intros Hn. unfold negotiate. destruct (truthy (strip (default "" accept))) eqn:Ht; cbn [negb].
  - fold l. assert (Hsame : isort not_after l = isort not_after' l).
    { apply isort_ext_in. rewrite Forall_forall in Hn. intros x y Hx Hy. apply not_after_eq; by apply Hn, list_elem_of_In. }
    rewrite Hsame. destruct (first_offered_spec dflt (isort not_after' l)) as [(a & H1 & H2 & H3 & H4)|[H1 H2]].
    + by rewrite (isort_perm not_after' l).
    + apply isort_Sorted; intros x y; unfold not_after'; [|intros z]; lia.
    + left. exists a. rewrite isort_In in H1. split_and!; [done|done|done|]. intros b Hb. apply H4. by rewrite isort_In.
    + right. split; [done|]. intros b Hb. apply H2. by rewrite isort_In.
  - right. split; [done|]. unfold l. apply negb_false_iff, String.eqb_eq in Ht. rewrite Ht. by intros b [].
Qed.

(** A badge does not lie: its label is verified exactly when the verification succeeded, and
    then a key that is configured or was given out by the registry accepted the signature of
    the payload; and two badges of one receipt with one label are the same bytes under the
    same entity tag. *)
Theorem badge_says_verified_when_signed `{E : Ed25519} canonical_json_bytes float_repr verify_raises pem_error sha256_hex settings network Q now1 now2 rid c v c' :
  registry_answers settings network Q -> good_cache Q c ->
  perform_verification canonical_json_bytes float_repr verify_raises pem_error settings network now1 now2 rid c = (Ok v, c') ->
  (fst (badge_label (_verdict_for v)) = "verified" <-> vr_verified v = true) /\
  (fst (badge_label (_verdict_for v)) = "verified" -> signed_as_shown canonical_json_bytes float_repr settings network Q rid v) /\
  forall w, fst (badge_label (_verdict_for w)) = fst (badge_label (_verdict_for v)) -> verify_badge sha256_hex rid w = verify_badge sha256_hex rid v.
Proof.
  intros Hreg Hc Hrun. apply (perform_spec _ _ _ _ _ _ Q) in Hrun as (_ & Hiff & Hs); [|done..].
  assert (Hlabel : fst (badge_label (_verdict_for v)) = "verified" <-> vr_verified v = true).
  { unfold _verdict_for. destruct (vr_verified v); [rewrite (proj1 Hiff eq_refl); done|]. destruct (vr_status v); cbn; split; done. }
  split; [done|]. split; [intros H%Hlabel; by apply Hs|]. intros w Hw. unfold verify_badge.
  assert (He : _verdict_for w = _verdict_for v) by (destruct (_verdict_for w), (_verdict_for v); done). by rewrite He.
Qed.

(** C40. A receipt cannot put markup into its card: whatever the verdict, the
    payload, the identifier and the name of the service hold, the card's [<], [>] and double quotes
    are those of the template, in their order - two cards with the same number
    of rows have the same ones, so that no value opens or closes a tag, a text
    or an attribute - and a card has between one and four rows. *)
Theorem card_markup_is_fixed repr_other v receipt_id payload service_name repr_other' v' receipt_id' payload' service_name' :
  let rows := card_rows repr_other receipt_id (default [] payload) in
  let rows' := card_rows repr_other' receipt_id' (default [] payload') in
  length rows = length rows' ->
  skeleton (render_og_svg repr_other v receipt_id payload service_name) =
  skeleton (render_og_svg repr_other' v' receipt_id' payload' service_name') /\ (1 <= length rows <= 4)%nat.
Proof.
  cbn zeta. intros Hlen. split.
  - unfold render_og_svg. set (rows := card_rows repr_other _ _) in *. set (rows' := card_rows repr_other' _ _) in *. cbn zeta.
    destruct (palette_plain v) as [Ha Hd], (palette_plain v') as [Ha' Hd']. rewrite !skeleton_app, !skeleton_join by done.
    rewrite (rows_skeleton rows rows' Hlen 380 380) by lia.
    rewrite !(skeleton_plain (accent _)), !(skeleton_plain (accent_dark _)), !(skeleton_plain (html_escape _)), !(skeleton_plain (upper _))
      by (done || apply plain_upper, plain_escape || apply plain_escape). done.
  - unfold card_rows, shown. rewrite !length_app. repeat (destruct (jtruthy _)); cbn; lia.
Qed.

(** ** Requests *)

Module DemoViews.
Import DemoCrypto.
(** Browsers get the page, tools the JSON. *)
Example clients : map (fun h => negotiate h json_)
    [Some "text/html,application/xhtml+xml,application/xml;q=0.9,*/*;q=0.8"; Some "*/*"; None; Some "application/jose+json"; Some "application/json;q=0.5, text/html;q=0.4";
     Some "text/html;q=0"; Some "application/xml"; Some " , ;q=1"] =
  [html; json_; json_; jose; json_; json_; json_; json_].
Proof. vm_compute. reflexivity. Qed.

(** The wildcard of a type is not the default, and a type that is refused is answered when a
    wildcard covers it. *)
Example wildcards :
  negotiate (Some "application/*") html = json_ /\ negotiate (Some "text/*") json_ = html /\ negotiate (Some "text/html;q=0, text/*") json_ = html.
Proof. vm_compute. split_and!; reflexivity. Qed.

Definition verification := VerifierBackend.DemoVerifier.verification.
Definition sha (b : bytes) : string := hex b.

Example badge : (fun v => (fst (badge_label (_verdict_for v)), svg_etag (verify_badge sha "r1" v))) <$> value_of verification =
  Some ("verified", String "034" ("72313a7665726966" +:+ String "034" "")).
Proof. vm_compute. reflexivity. Qed.

(** The payload of a refused receipt decides what its card shows, and the entity tag does not
    depend on it. *)
Definition refused (supplier : string) : VerificationResult :=
  {| vr_status := Invalid; vr_verified := false; vr_http_status := 200; vr_payload := Some [("supplier_id", JStr supplier)]; vr_envelope := [];
     vr_error_detail := None; vr_pem := ""; vr_key_id := "" |}.
Example two_cards_one_tag :
  svg_etag (verify_og_card (fun _ => "") sha "Once" "r1" (refused "a")) = svg_etag (verify_og_card (fun _ => "") sha "Once" "r1" (refused "b")) /\
  svg (verify_og_card (fun _ => "") sha "Once" "r1" (refused "a")) <> svg (verify_og_card (fun _ => "") sha "Once" "r1" (refused "b")).
Proof. split; [reflexivity|]. vm_compute. discriminate. Qed.

(** The name of the service is escaped and then put in capitals, and with it the entity. *)
Example capital_entity : upper (html_escape "A & B") = "A &AMP; B".
Proof. reflexivity. Qed.

Lemma negotiate_takes_the_best_witness :
  exists a, In a (_parse_accept "text/html;q=0.4, application/json") /\ format_of html (media_type a) = Some json_ /\ media_type a = "application/json".
Proof.
  destruct (negotiate_takes_the_best (Some "text/html;q=0.4, application/json") html) as [(a & H1 & H2 & H3 & H4)|[H _]].
  - vm_compute. repeat constructor; discriminate.
  - change (strip (default "" (Some "text/html;q=0.4, application/json"))) with "text/html;q=0.4, application/json" in *. exists a. split; [exact H1|].
    assert (Hn : negotiate (Some "text/html;q=0.4, application/json") html = json_) by (vm_compute; reflexivity). rewrite Hn in H3. split; [exact H3|].
    vm_compute in H1. destruct H1 as [<-|[<-|[]]]; [vm_compute in H3; discriminate|reflexivity].
  - vm_compute in H. discriminate.
Defined.

(** A payload that tries, and one that does not. *)
Lemma card_markup_is_fixed_witness :
  let attack := Some [("supplier", JStr (quoted "`/></text><script>alert(1)</script>")); ("portal", JStr "<b>")] in
  let calm := Some [("supplier_id", JStr "s1"); ("submitted_at", JStr "2026-01-01")] in
  skeleton (render_og_svg (fun _ => "") Invalid (quoted "<`>") attack "Once") =
  skeleton (render_og_svg (fun _ => "") Verified "r1" calm "Once & Co").
Proof.
  intros attack calm.
  exact (proj1 (card_markup_is_fixed (fun _ => "") Invalid (quoted "<`>") attack "Once" (fun _ => "") Verified "r1" calm "Once & Co" eq_refl)).
Defined.

Lemma badge_says_verified_when_signed_witness : exists v, value_of verification = Some v /\ fst (badge_label (_verdict_for v)) = "verified" /\ vr_verified v = true.
Proof.
  destruct VerifierBackend.DemoVerifier.verification as [r c'] eqn:H. unfold VerifierBackend.DemoVerifier.verification in H.
  destruct r as [v|e]; [|vm_compute in H; discriminate].
  destruct (badge_says_verified_when_signed _ _ _ _ sha _ _ (fun _ _ => True) _ _ _ [] v c' (fun _ _ _ _ _ _ _ => I)
              ltac:(split; [split; [constructor|vm_compute; discriminate]|intros i x []]) H) as (Hl & _ & _).
  assert (Hv : fst (badge_label (_verdict_for v)) = "verified") by (vm_compute in H; injection H as <- _; reflexivity).
  exists v. split; [|split; [exact Hv|by apply Hl]]. unfold verification. unfold VerifierBackend.DemoVerifier.verification. rewrite H. reflexivity.
Defined.
End DemoViews.
